(* ===== verification/_CoqProject ===== *)
-Q . S2P
Prelude.v
GoBase.v
GoStrings.v
GoFloat.v
FloatBounds.v
Model.v
Store.v
Users.v
Devices.v
Shares.v
Enrollments.v
Assets.v
Tasks.v
Persist.v
Config.v
LoginLimiter.v
Hub.v
Auth.v
Grants.v
Base64.v
Server.v
Routing.v
Control.v
Scrcpy.v
MediaOptions.v
AdbShell.v
Deployer.v
WebRTC.v
Media.v
DeviceFiles.v
Json.v
JsonText.v
Terminal.v
DeviceIO.v
AgentTasks.v
Telemetry.v
Identity.v
Capture.v
CaptureStream.v
CaptureLife.v
Agent.v
Http.v
RestAccounts.v
RestDevices.v
RestDeploy.v
RestShares.v
RestTasks.v
Artifacts.v
Api.v
ApiAccess.v
ApiAccounts.v
ApiSession.v
ApiFiles.v
ApiPackage.v
ApiShares.v
AgentServer.v
DeviceInfo.v
TaskDelivery.v
