(* ===== verification/Prelude.v ===== *)
(** * ScrcpyCat: a verification library

    ScrcpyCat lets browsers see and control Android devices.  A browser talks over
    WebSocket and HTTP to the control plane (src/backend), which knows the users, the
    devices and the shares and forwards messages to the agent of a device
    (src/agent).  The agent captures the screen with scrcpy, serves WebRTC viewers,
    terminals and file sessions, runs tasks and reports telemetry; it runs on the device
    or on a host that reaches it through ADB (src/internal/adb).  The deployer
    (src/adb-deployer) installs agents on the devices that a host sees.

    This library is a shallow embedding of the Go code: each function is a Gallina
    function of the same name where that is possible, on records with the fields of the
    structs.  Every definition is executable.

    ** How the code is rendered

    - An operation that runs under one mutex is one function of the state; where the code
      releases the mutex in between, the atomic sections are separate functions and the
      theorems range over their interleavings (Terminal, WebRTC, Routing).
    - Instants, durations and integers are [Z] with the wrap-around of their width written
      out (GoBase); float64 is [SpecFloat]'s binary64 (GoFloat); strings and bytes are
      byte sequences.
    - [(value, error)] is [result]; [io] (DeviceIO) and the handler monad [M] (Http) thread
      state and errors.  Each system call of an agent consumes a fault, so its theorems
      hold for failures at any point.
    - Time, random bytes, the answers of the network, of devices and of processes are
      arguments.  What a component does to the outside is a list of effects, in order.
    - Go's [for range] over a map has no fixed order: where the result could depend on it
      the order is a parameter (MediaOptions, Media), elsewhere the model uses one order.
    - Libraries outside the repository are type classes with their documented laws:
      [Crypto] and [CryptoLaws] (random tokens, SHA-256, bcrypt, HMAC; Model), [JWT] (Auth),
      [GrantJSON] (Grants), [Codec] (Server), [PNG] (Telemetry), and plain parameters for
      [url.Parse], [time.ParseDuration], [netip.ParsePrefix], conversions of out-of-range
      floats, and the tools of Android ([toolbox], DeviceIO).  Each property that uses one
      has a witness that instantiates it.

    ** The files, in layers

    Go itself: Prelude (errors, results, lists, hints), GoBase, GoStrings, GoFloat,
    FloatBounds, Base64, Json and JsonText (decoding of bodies, JSON text).

    The control plane's data (backend/internal/controlplane): Model (model.go), Store and
    the operations of store.go and its companions in Users, Devices, Shares,
    Enrollments, Assets and Tasks; Persist (postgres_store.go), Config (config.go),
    LoginLimiter (login_limiter.go).

    Its connections: Hub (realtime.go, audio_stream.go), Auth (auth.go, browser_ticket.go,
    browser_access.go), Grants (operations.go), Server (server.go, telemetry.go,
    preview.go, redis_bus.go) and Routing, the theorems on who receives what.

    Its HTTP interface: Http (requests, responses, guards), RestAccounts, RestDevices,
    RestDeploy, RestShares, RestTasks and Artifacts (the handlers), Api (routing table and
    CORS), and the theorems over whole requests: ApiAccess, ApiAccounts, ApiSession,
    ApiFiles, ApiPackage, ApiShares.

    The agent (agent/internal/agent): Control (control.go), Scrcpy (scrcpy_protocol.go,
    opus.go, h264.go), MediaOptions (media_options.go, bandwidth.go), WebRTC (webrtc.go,
    bandwidth.go), Media (media.go, scrcpy.go), Capture (device_capture.go), CaptureStream
    (the sockets of scrcpy.go), CaptureLife (the goroutines of scrcpy.go, h264.go),
    DeviceFiles (files.go), Terminal (terminal.go), DeviceIO (device.go, device_files.go),
    DeviceInfo (device_info.go, the description in agent.go), AgentTasks (operations.go),
    Telemetry (telemetry.go), Identity (agent.go, process.go), Agent (agent.go), and the
    theorems that cross the connection of the two sides: AgentServer, and TaskDelivery,
    which follows a task from the browser to the device and its status back.

    A capture is in four files: Media decides when a bridge starts and stops a process,
    Capture is the launch of that process, CaptureStream what the process and the agent
    exchange, and CaptureLife how the end of a process meets the operations of Media.

    ADB and deployment: AdbShell (internal/adb), Deployer (adb-deployer).

    ** What the theorems show

    - Authority: what a browser's message can reach and who sees a broadcast (Routing),
      what a request can change for each kind of caller and which endpoints need a
      session (ApiAccess), what a browser can have a device do (AgentServer), that input
      of a viewer ends with its session (WebRTC), that a share admits what it says
      (ApiShares), that a logout is final (ApiSession).
    - Invariants of reachable states: account indexes and the last administrator
      (ApiAccounts), hub bookkeeping (Hub), login windows against a reference count of
      past failures (LoginLimiter), one worker per device (Deployer), one agent per PID
      file (Identity), the life of terminals (Terminal), captures on exactly while they
      are needed (Media), failures of a capture reported once and only for the process of
      the bridge, in any interleaving with its restarts (CaptureLife).
    - Streams: a capture is launched with the arguments a viewer asked for, one word each,
      and leaves no file behind (Capture); its sockets are attached in the order the
      scrcpy server accepts them and closed in the reverse one, its packets are published
      as they were sent, and control events reach it in the order they were accepted
      (CaptureStream).
    - Once and only once: task claims (Tasks), enrollment tokens (Enrollments), the
      enrollment of an agent across both sides (AgentServer).
    - Integrity: a task only installs and stores what its checksum names (AgentTasks), an
      upload is committed whole or not at all on both kinds of device (DeviceIO), the
      bytes uploaded are the bytes delivered (ApiFiles, DeviceFiles, TaskDelivery), an
      identity survives failed writes (Identity), what a restart keeps (Persist).
    - Formats: control messages, scrcpy packets, the listing of displays and cameras
      (DeviceInfo), grants, quoting for the device's shell, config.env, base64, JSON text;
      the shell protocol reader terminates with the
      session's bytes (AdbShell).
    - Bounds: shares, metrics, command output, thumbnails and the pace of telemetry.
    - Defects that modelling showed, proved as theorems about the code as it is; the
      findings of the manifest name them.

    ** Fuel

    A recursion that is not structural takes fuel that is computed from its input, and a
    lemma shows that it is enough: the readers of packets and frames take one step per
    byte, JSON values the length of the text and Go's nesting limit, IPv6 fields eight
    steps; dialling a socket of a capture ends after at most 101 attempts, a tenth of a
    second apart within ten seconds.

    ** Not modelled

    - HTTP upgrades, the read and write pumps of sockets, TLS, DNS, process start and flag
      parsing; gadb, pion and the other modules the code calls.
    - The pseudo terminals of device_terminal.go and the connection watcher of device.go:
      system calls, pipes and timers.  What a terminal answers is an argument of Terminal.
    - The processes themselves: when a capture ends, what it writes and whether stopping it
      works are arguments of Media, CaptureStream and CaptureLife.  The int of Go is taken
      to have 64 bits.
    - JSON between the control plane and an agent: a message one side writes is the object
      the other side handles.
    - PostgreSQL and Redis: whether a write succeeds is an argument, and a message on the
      bus is handled as it was published.
    - Directories of an agent's host other than as parents of files, and file owners.
    - The web front end (src/frontend), another language. *)

From Stdlib Require Export ZArith Lia Ascii String.
From stdpp Require Export base gmap strings list sorting numbers fin_maps.

Export ListNotations.
Open Scope Z_scope.
Open Scope list_scope.

(** ** Results of fallible Go functions *)

(** The sentinel errors of store.go and deployment_credentials_store.go, and
    [ErrMsg] for the errors that carry only a text. *)
Inductive error :=
| ErrNotFound
| ErrAlreadyExists
| ErrInvalidAuth
| ErrForbidden
| ErrInvalidToken
| errInvalidDeploymentRequest
| ErrMsg (text : string).

#[export] Instance error_eq_dec : EqDecision error.
Proof. solve_decision. Defined.

(** [(value, nil)] is [Ok value]; [(zero, err)] is [Err err]. *)
Inductive result (A : Type) :=
| Ok (a : A)
| Err (e : error).
Arguments Ok {A} _.
Arguments Err {A} _.

Definition is_ok {A} (r : result A) : bool :=
  match r with Ok _ => true | Err _ => false end.

Definition from_ok {A} (d : A) (r : result A) : A :=
  match r with Ok a => a | Err _ => d end.

(** [if err != nil { return err }] after a call is the bind of this monad, written
    [x ← call; rest]. *)
#[export] Instance result_ret : MRet result := λ A, Ok.
#[export] Instance result_bind : MBind result := λ A B f r,
  match r with Ok a => f a | Err e => Err e end.

Lemma bind_Ok {A B} (f : A → result B) r b :
  r ≫= f = Ok b ↔ ∃ a, r = Ok a ∧ f a = Ok b.
Proof.
  destruct r as [a|e]; cbn; [|split; [done|by intros (? & ? & _)]].
  split; [by exists a|by intros (? & [= <-] & ?)].
Qed.

(** A guard: [if bad { return err }]. *)
Definition refuse (bad : bool) (e : error) : result () := if bad then Err e else Ok ().

Lemma refuse_Ok bad e u : refuse bad e = Ok u ↔ bad = false.
Proof. destruct u, bad; cbn; by split. Qed.

(** ** Tactics *)

(** Case analysis on the scrutinee of the first match of the goal or of a
    hypothesis, keeping the equation. *)
Ltac case_match_eq :=
  match goal with
  | H : context [match ?x with _ => _ end] |- _ =>
      lazymatch x with context [match _ with _ => _ end] => fail | _ => idtac end;
      let E := fresh "E" in destruct x eqn:E
  | |- context [match ?x with _ => _ end] =>
      lazymatch x with context [match _ with _ => _ end] => fail | _ => idtac end;
      let E := fresh "E" in destruct x eqn:E
  end.

(** Split every branch of a guarded definition and drop the impossible ones. *)
Ltac split_branches := repeat (case_match_eq; simplify_eq/=; try done).

(** Turn boolean guards into propositions. *)
Ltac bool_to_prop :=
  repeat match goal with
  | H : (_ && _)%bool = true |- _ => apply andb_true_iff in H; destruct H
  | H : (_ && _)%bool = false |- _ => apply andb_false_iff in H
  | H : (_ || _)%bool = true |- _ => apply orb_true_iff in H
  | H : (_ || _)%bool = false |- _ => apply orb_false_iff in H; destruct H
  | H : negb _ = true |- _ => apply negb_true_iff in H
  | H : negb _ = false |- _ => apply negb_false_iff in H
  | H : bool_decide _ = true |- _ => apply bool_decide_eq_true in H
  | H : bool_decide _ = false |- _ => apply bool_decide_eq_false in H
  | H : (_ <? _) = true |- _ => apply Z.ltb_lt in H
  | H : (_ <? _) = false |- _ => apply Z.ltb_ge in H
  | H : (_ <=? _) = true |- _ => apply Z.leb_le in H
  | H : (_ <=? _) = false |- _ => apply Z.leb_gt in H
  | H : (_ =? _) = true |- _ => apply Z.eqb_eq in H
  | H : (_ =? _) = false |- _ => apply Z.eqb_neq in H
  | H : (_ <? _)%nat = true |- _ => apply Nat.ltb_lt in H
  | H : (_ <? _)%nat = false |- _ => apply Nat.ltb_ge in H
  | H : (_ <=? _)%nat = true |- _ => apply Nat.leb_le in H
  | H : (_ <=? _)%nat = false |- _ => apply Nat.leb_gt in H
  end.

(** ** Iterating over a Go map

    A [range] over a map visits every entry once, in an order the language does
    not fix.  The values are listed in the order of stdpp's [map_to_list]; a
    theorem about such a listing is stated up to permutation or after the sort
    the code applies. *)
Definition map_values {V} (m : gmap string V) : list V := (map_to_list m).*2.

Lemma elem_of_map_values {V} (m : gmap string V) v :
  v ∈ map_values m ↔ ∃ k, m !! k = Some v.
Proof.
  unfold map_values. rewrite list_elem_of_fmap. split.
  - intros ([k v'] & -> & Hin). exists k. by apply elem_of_map_to_list.
  - intros [k Hk]. exists (k, v). split; [done|]. by apply elem_of_map_to_list.
Qed.

(** ** sort.Slice

    [sort.Slice] sorts by a strict order given as a boolean; it is not stable,
    so only the multiset and the sortedness are promised.  The model sorts with
    the non-strict order [y] is not less than [x]. *)
Fixpoint insert_by {A} (less : A → A → bool) (x : A) (l : list A) : list A :=
  match l with
  | [] => [x]
  | y :: l' => if less y x then y :: insert_by less x l' else x :: l
  end.

Definition sort_by {A} (less : A → A → bool) (l : list A) : list A :=
  foldr (insert_by less) [] l.

Lemma insert_by_perm {A} (less : A → A → bool) x l :
  insert_by less x l ≡ₚ x :: l.
Proof.
  induction l as [|y l IH]; simpl; [done|].
  destruct (less y x); [|done]. rewrite IH. by constructor.
Qed.

Lemma sort_by_perm {A} (less : A → A → bool) l : sort_by less l ≡ₚ l.
Proof.
  induction l as [|x l IH]; simpl; [done|]. by rewrite insert_by_perm, IH.
Qed.

Lemma elem_of_sort_by {A} (less : A → A → bool) l x :
  x ∈ sort_by less l ↔ x ∈ l.
Proof. by rewrite sort_by_perm. Qed.

Lemma Sorted_weaken {A} (R S : A → A → Prop) l :
  (∀ a b, R a b → S a b) → Sorted R l → Sorted S l.
Proof.
  intros HRS. induction 1 as [|a l _ IH Hhd]; constructor; [done|].
  destruct Hhd; constructor; auto.
Qed.

(** [sort_by] really sorts, for a total strict order. *)
Section sorted.
Context {A : Type} (less : A → A → bool).
Context (less_asym : ∀ x y, less x y = true → less y x = false).

Lemma insert_by_sorted x l :
  Sorted (λ a b, less b a = false) l →
  Sorted (λ a b, less b a = false) (insert_by less x l).
Proof.
  induction l as [|y l IH]; intros Hs; simpl; [by repeat constructor|].
  destruct (less y x) eqn:E.
  - inversion_clear Hs as [|? ? Hs' Hhd]. constructor; [by apply IH|].
    destruct l as [|z l]; simpl; [constructor; by apply less_asym|].
    inversion_clear Hhd. destruct (less z x); constructor; [done|by apply less_asym].
  - constructor; [done|]. by constructor.
Qed.

Lemma sort_by_sorted l : Sorted (λ a b, less b a = false) (sort_by less l).
Proof. induction l; simpl; [constructor|by apply insert_by_sorted]. Qed.
End sorted.

(** Boolean filters respect permutations. *)
#[export] Instance list_filter_perm {A} (f : A → bool) :
  Proper (Permutation ==> Permutation) (List.filter f).
Proof.
  intros l1 l2 Hp. induction Hp as [|x l1 l2 Hp IH|x y l|l1 l2 l3 _ IH1 _ IH2]; simpl.
  - done.
  - destruct (f x); [by constructor|done].
  - destruct (f x), (f y); try done. by constructor.
  - by rewrite IH1.
Qed.

(** Deleting the entries of a map for which a test holds: the Go idiom
    [for k, v := range m { if p(k, v) { delete(m, k) } }]. *)
Definition delete_if {V} (p : string → V → bool) (m : gmap string V) : gmap string V :=
  filter (λ kv, p kv.1 kv.2 = false) m.

Lemma lookup_delete_if {V} (p : string → V → bool) (m : gmap string V) k :
  delete_if p m !! k =
    match m !! k with Some v => if p k v then None else Some v | None => None end.
Proof.
  apply option_eq. intros w. unfold delete_if. rewrite map_lookup_filter_Some. simpl.
  destruct (m !! k) as [v|]; [destruct (p k v) eqn:E|]; split;
    intros; destruct_and?; simplify_eq; auto; congruence.
Qed.

Lemma lookup_delete_if_Some {V} (p : string → V → bool) (m : gmap string V) k v :
  delete_if p m !! k = Some v ↔ m !! k = Some v ∧ p k v = false.
Proof.
  rewrite lookup_delete_if. split; [|by intros [-> ->]].
  destruct (m !! k) as [w|]; [|done]. destruct (p k w) eqn:E; [done|]. by intros [= ->].
Qed.

(** Cleaning twice with the same test is cleaning once. *)
Lemma delete_if_idemp {V} (p : string → V → bool) (m : gmap string V) :
  delete_if p (delete_if p m) = delete_if p m.
Proof.
  apply map_eq. intros k. rewrite !lookup_delete_if.
  destruct (m !! k) as [v|]; [|done]. destruct (p k v) eqn:E; [done|]. by rewrite E.
Qed.

Lemma list_filter_idemp {A} (f : A → bool) (l : list A) :
  List.filter f (List.filter f l) = List.filter f l.
Proof.
  induction l as [|x l IH]; simpl; [done|]. destruct (f x) eqn:E; simpl; [|done].
  rewrite E. by f_equal.
Qed.

Lemma existsb_perm {A} (f : A → bool) l l' : l ≡ₚ l' → existsb f l = existsb f l'.
Proof.
  intros Hp. apply eq_true_iff_eq. rewrite !existsb_exists. setoid_rewrite <-list_elem_of_In.
  by setoid_rewrite Hp.
Qed.

Lemma find_unique {A} (p : A → bool) l x :
  x ∈ l → p x = true → (∀ y, y ∈ l → p y = true → y = x) → List.find p l = Some x.
Proof.
  intros Hx Hp Hu. destruct (List.find p l) as [y|] eqn:E.
  - apply find_some in E as [Hy Hpy]. f_equal. apply Hu; [by apply list_elem_of_In|done].
  - apply list_elem_of_In in Hx. pose proof (find_none _ _ E _ Hx). congruence.
Qed.

Lemma find_absent {A} (p : A → bool) l :
  (∀ y, y ∈ l → p y = false) → List.find p l = None.
Proof.
  intros Hn. destruct (List.find p l) as [y|] eqn:E; [|done].
  apply find_some in E as [Hy Hp]. rewrite Hn in Hp; [done|by apply list_elem_of_In].
Qed.

(** ** Hint databases of the development

    [go] holds the lookup and membership lemmas every component uses. *)
Create HintDb go.
Create Rewrite HintDb go.
#[export] Hint Rewrite @lookup_delete_if @elem_of_map_values @elem_of_sort_by : go.
#[export] Hint Resolve sort_by_perm insert_by_perm : go.
