(* ===== verification/GoBase.v ===== *)
(** * Go base types and library functions

    The machine integers, [time.Time] and [time.Duration], byte slices, and the
    functions of [strings], [unicode/utf8], [encoding/binary] and
    [encoding/base64] that the program uses, with their wrap-around, bounds and
    round-trip lemmas. *)

From S2P Require Import Prelude.
From Stdlib Require Import SpecFloat.

(** ** Machine integers *)

Definition wrap_u (bits : Z) (z : Z) : Z := z mod 2 ^ bits.
Definition wrap_s (bits : Z) (z : Z) : Z :=
  (z + 2 ^ (bits - 1)) mod 2 ^ bits - 2 ^ (bits - 1).

Definition int64 (z : Z) : Z := wrap_s 64 z.
Definition uint64 (z : Z) : Z := wrap_u 64 z.
Definition uint32 (z : Z) : Z := wrap_u 32 z.

Definition max_int64 : Z := 2 ^ 63 - 1.

Lemma int64_small z : - 2 ^ 63 ≤ z < 2 ^ 63 → int64 z = z.
Proof. intros H. unfold int64, wrap_s. change (64 - 1) with 63. rewrite Z.mod_small; lia. Qed.

Lemma int64_range z : - 2 ^ 63 ≤ int64 z < 2 ^ 63.
Proof.
  unfold int64, wrap_s. change (64 - 1) with 63.
  pose proof (Z.mod_pos_bound (z + 2 ^ 63) (2 ^ 64) eq_refl). lia.
Qed.

Lemma wrap_u_range bits z : 0 ≤ bits → 0 ≤ wrap_u bits z < 2 ^ bits.
Proof. intros. unfold wrap_u. apply Z.mod_pos_bound. by apply Z.pow_pos_nonneg. Qed.

Lemma wrap_u_small bits z : 0 ≤ z < 2 ^ bits → wrap_u bits z = z.
Proof. apply Z.mod_small. Qed.

Lemma uint64_succ_ne v : uint64 (v + 1) ≠ uint64 v.
Proof.
  unfold uint64, wrap_u. intros H.
  apply (f_equal (λ z, (z - v mod 2 ^ 64) mod 2 ^ 64)) in H.
  rewrite Zminus_mod_idemp_l, Zminus_mod_idemp_r, Z.sub_diag in H.
  replace (v + 1 - v) with 1 in H by lia. done.
Qed.

(** ** time.Time and time.Duration

    A [time.Time] is the number of nanoseconds since the zero time of the
    package (January 1 of the year 1, UTC); a [time.Duration] is an [int64]
    number of nanoseconds. *)
Abbreviation Time := Z (only parsing).
Abbreviation Duration := Z (only parsing).

Definition time_zero : Time := 0.
Definition IsZero (t : Time) : bool := t =? 0.
Definition After (t u : Time) : bool := u <? t.
Definition Before (t u : Time) : bool := t <? u.
Definition Add (t : Time) (d : Duration) : Time := t + d.
(** [t.Sub(u)] saturates at the ends of [int64]. *)
Definition Sub (t u : Time) : Duration := Z.max (- 2 ^ 63) (Z.min max_int64 (t - u)).

Definition Second : Duration := 1000000000.
Definition Minute : Duration := 60 * Second.
Definition Hour : Duration := 60 * Minute.

(** [time.Duration(n) * time.Second]: a multiplication of two [int64]. *)
Definition seconds (n : Z) : Duration := int64 (n * Second).

Lemma seconds_exact n : 0 ≤ n ≤ max_int64 / Second → seconds n = n * Second.
Proof.
  intros H. unfold seconds. apply int64_small. unfold Second in *.
  assert (max_int64 / 1000000000 = 9223372036) as E by reflexivity. lia.
Qed.

(** [*time.Time]: a nil pointer is [None]. *)
Definition expired (now : Time) (e : option Time) : bool :=
  match e with Some t => After now t | None => false end.

Lemma expired_false now e : expired now e = false ↔ ∀ t, e = Some t → now ≤ t.
Proof.
  unfold expired, After. destruct e as [t|]; [|done].
  rewrite Z.ltb_ge. split; [intros ? t' [= <-]; done|auto].
Qed.

Lemma expired_true now e : expired now e = true ↔ ∃ t, e = Some t ∧ t < now.
Proof.
  unfold expired, After. destruct e as [t|]; [|split; [done|by intros (? & ? & ?)]].
  rewrite Z.ltb_lt. split; [by exists t|by intros (? & [= <-] & ?)].
Qed.

(** ** Byte slices *)

Abbreviation byte := ascii (only parsing).
Abbreviation bytes := (list ascii) (only parsing).

Definition byte_val (b : byte) : Z := Z.of_N (N_of_ascii b).
Definition byte_of (z : Z) : byte := ascii_of_N (Z.to_N (z mod 256)).
Definition str_bytes (s : string) : bytes := list_ascii_of_string s.
Definition bytes_str (l : bytes) : string := string_of_list_ascii l.

Lemma byte_val_range b : 0 ≤ byte_val b < 256.
Proof. unfold byte_val. pose proof (N_ascii_bounded b). lia. Qed.

Lemma byte_of_val b : byte_of (byte_val b) = b.
Proof.
  unfold byte_of. rewrite Z.mod_small by apply byte_val_range.
  unfold byte_val. rewrite N2Z.id. apply ascii_N_embedding.
Qed.

Lemma byte_val_of z : byte_val (byte_of z) = z mod 256.
Proof.
  unfold byte_of, byte_val. pose proof (Z.mod_pos_bound z 256 eq_refl).
  rewrite N_ascii_embedding by lia. lia.
Qed.

Lemma str_bytes_str l : str_bytes (bytes_str l) = l.
Proof. apply list_ascii_of_string_of_list_ascii. Qed.
Lemma bytes_str_bytes s : bytes_str (str_bytes s) = s.
Proof. apply string_of_list_ascii_of_string. Qed.

(** The byte length [len(s)]. *)
Definition len (s : string) : Z := Z.of_nat (String.length s).
Definition blen (l : bytes) : Z := Z.of_nat (length l).

Lemma length_str_bytes s : length (str_bytes s) = String.length s.
Proof. unfold str_bytes. induction s; simpl; [done|by f_equal]. Qed.

(** ** encoding/binary *)

(** Big-endian [n]-byte encoding of [z]; [PutUint16/32/64] for [n] = 2, 4, 8. *)
Fixpoint be_put (n : nat) (z : Z) : bytes :=
  match n with
  | O => []
  | S n' => byte_of (z / 2 ^ (8 * Z.of_nat n')) :: be_put n' z
  end.

Fixpoint be_get_acc (acc : Z) (l : bytes) : Z :=
  match l with
  | [] => acc
  | b :: l' => be_get_acc (acc * 256 + byte_val b) l'
  end.
Definition be_get (l : bytes) : Z := be_get_acc 0 l.

(** Little-endian, for the ADB shell protocol. *)
Definition le_put (n : nat) (z : Z) : bytes := rev (be_put n z).
Definition le_get (l : bytes) : Z := be_get (rev l).

Lemma length_be_put n z : length (be_put n z) = n.
Proof. induction n; simpl; [done|by f_equal]. Qed.
Lemma length_le_put n z : length (le_put n z) = n.
Proof. unfold le_put. by rewrite length_rev, length_be_put. Qed.

Lemma pow256_succ n : 2 ^ (8 * Z.of_nat (S n)) = 256 * 2 ^ (8 * Z.of_nat n).
Proof.
  replace (8 * Z.of_nat (S n)) with (8 + 8 * Z.of_nat n) by lia.
  rewrite Z.pow_add_r by lia. done.
Qed.

Lemma be_get_acc_put n : ∀ acc z,
  be_get_acc acc (be_put n z) = acc * 2 ^ (8 * Z.of_nat n) + z mod 2 ^ (8 * Z.of_nat n).
Proof.
  induction n as [|n IH]; intros acc z.
  { simpl. rewrite Z.mod_1_r. lia. }
  cbn [be_put be_get_acc]. rewrite IH, byte_val_of, pow256_succ.
  set (p := 2 ^ (8 * Z.of_nat n)).
  assert (0 < p) by (apply Z.pow_pos_nonneg; lia).
  rewrite (Z.mul_comm 256 p), (Z.rem_mul_r z p 256) by lia. lia.
Qed.

Lemma be_get_put n z : be_get (be_put n z) = z mod 2 ^ (8 * Z.of_nat n).
Proof. unfold be_get. rewrite be_get_acc_put. lia. Qed.

Lemma be_get_put_small n z : 0 ≤ z < 2 ^ (8 * Z.of_nat n) → be_get (be_put n z) = z.
Proof. intros. rewrite be_get_put. by apply Z.mod_small. Qed.

Lemma le_get_put n z : le_get (le_put n z) = z mod 2 ^ (8 * Z.of_nat n).
Proof. unfold le_get, le_put. rewrite rev_involutive. apply be_get_put. Qed.

Lemma be_get_acc_range l : ∀ acc, 0 ≤ acc →
  acc * 2 ^ (8 * blen l) ≤ be_get_acc acc l < (acc + 1) * 2 ^ (8 * blen l).
Proof.
  induction l as [|b l IH]; intros acc Hacc.
  { unfold blen. cbn [length be_get_acc]. rewrite Z.pow_0_r. lia. }
  pose proof (byte_val_range b). specialize (IH (acc * 256 + byte_val b) ltac:(lia)).
  cbn [be_get_acc]. unfold blen in *. cbn [length]. rewrite pow256_succ.
  assert (0 < 2 ^ (8 * Z.of_nat (length l))) by (apply Z.pow_pos_nonneg; lia). nia.
Qed.

Lemma be_get_range l : 0 ≤ be_get l < 2 ^ (8 * blen l).
Proof.
  pose proof (be_get_acc_range l 0 ltac:(lia)) as H.
  rewrite Z.mul_0_l, Z.add_0_l, Z.mul_1_l in H. done.
Qed.

Lemma byte_of_add acc b : byte_of (acc * 256 + byte_val b) = b.
Proof.
  rewrite <-(byte_of_val b) at 2. unfold byte_of. do 2 f_equal.
  rewrite Z.add_comm, Z.mod_add by done. done.
Qed.

Lemma be_put_get_acc l : ∀ acc, 0 ≤ acc → be_put (length l) (be_get_acc acc l) = l.
Proof.
  induction l as [|b l IH]; intros acc Hacc; [done|]. cbn [length be_put be_get_acc].
  pose proof (byte_val_range b). rewrite IH by lia. f_equal.
  pose proof (be_get_acc_range l (acc * 256 + byte_val b) ltac:(lia)) as Hr. unfold blen in Hr.
  rewrite <-(byte_of_add acc b) at 2. f_equal. symmetry.
  apply Z.div_unique with (be_get_acc (acc * 256 + byte_val b) l - (acc * 256 + byte_val b) * 2 ^ (8 * Z.of_nat (length l))); lia.
Qed.

Lemma be_put_get n l : length l = n → be_put n (be_get l) = l.
Proof. intros <-. by apply be_put_get_acc. Qed.

Lemma be_get_acc_eq l : ∀ acc, be_get_acc acc l = acc * 2 ^ (8 * blen l) + be_get l.
Proof.
  unfold be_get, blen. induction l as [|b l IH]; intros acc.
  - cbn. lia.
  - cbn [be_get_acc length]. rewrite IH, (IH (0 * 256 + byte_val b)), pow256_succ. lia.
Qed.

Lemma be_get_app l1 l2 : be_get (l1 ++ l2) = be_get l1 * 2 ^ (8 * blen l2) + be_get l2.
Proof.
  rewrite <-be_get_acc_eq. unfold be_get. generalize 0. induction l1 as [|b l1 IH]; intros z; [done|].
  apply IH.
Qed.
