(* ===== verification/GoStrings.v ===== *)
(** * The string functions of the Go standard library the program uses

    Strings are byte sequences.  White space is Unicode's White_Space property
    on UTF-8 text, as [strings.TrimSpace] and [strings.Fields] test it: every
    encoding of a space starts with a byte that is never a continuation byte, so
    scanning bytes and scanning runes agree, on invalid UTF-8 too. *)

From S2P Require Import Prelude GoBase.

(** ** Characters *)

Definition ch (s : string) : byte :=
  match s with String a _ => a | EmptyString => "000"%char end.

Definition in_range (b : byte) (lo hi : Z) : bool := (lo <=? byte_val b) && (byte_val b <=? hi).
Definition is_byte (b : byte) (z : Z) : bool := byte_val b =? z.

(** One-, two- and three-byte encodings of white space. *)
Definition space1 (a : byte) : bool := in_range a 9 13 || is_byte a 32.
Definition space2 (a b : byte) : bool := is_byte a 0xC2 && (is_byte b 0x85 || is_byte b 0xA0).
Definition space3 (a b c : byte) : bool :=
  (is_byte a 0xE1 && is_byte b 0x9A && is_byte c 0x80) ||
  (is_byte a 0xE2 && is_byte b 0x80 &&
     (in_range c 0x80 0x8A || is_byte c 0xA8 || is_byte c 0xA9 || is_byte c 0xAF)) ||
  (is_byte a 0xE2 && is_byte b 0x81 && is_byte c 0x9F) ||
  (is_byte a 0xE3 && is_byte b 0x80 && is_byte c 0x80).

(** ** TrimSpace and Fields *)

Fixpoint trim_left (l : bytes) : bytes :=
  match l with
  | [] => []
  | a :: l1 =>
      if space1 a then trim_left l1 else
      match l1 with
      | b :: l2 =>
          if space2 a b then trim_left l2 else
          match l2 with
          | c :: l3 => if space3 a b c then trim_left l3 else l
          | [] => l
          end
      | [] => l
      end
  end.

(** The same on the reversed text, for the trailing spaces. *)
Fixpoint trim_left_rev (l : bytes) : bytes :=
  match l with
  | [] => []
  | a :: l1 =>
      if space1 a then trim_left_rev l1 else
      match l1 with
      | b :: l2 =>
          if space2 b a then trim_left_rev l2 else
          match l2 with
          | c :: l3 => if space3 c b a then trim_left_rev l3 else l
          | [] => l
          end
      | [] => l
      end
  end.

Definition TrimSpace (s : string) : string :=
  bytes_str (rev (trim_left_rev (rev (trim_left (str_bytes s))))).

(** [cur] is the reversed word being read. *)
Definition flush (cur : bytes) (rest : list string) : list string :=
  match cur with [] => rest | _ => bytes_str (rev cur) :: rest end.

Fixpoint fields_from (cur l : bytes) : list string :=
  match l with
  | [] => flush cur []
  | a :: l1 =>
      if space1 a then flush cur (fields_from [] l1) else
      match l1 with
      | b :: l2 =>
          if space2 a b then flush cur (fields_from [] l2) else
          match l2 with
          | c :: l3 =>
              if space3 a b c then flush cur (fields_from [] l3)
              else fields_from (a :: cur) l1
          | [] => fields_from (a :: cur) l1
          end
      | [] => fields_from (a :: cur) l1
      end
  end.
Definition Fields (s : string) : list string := fields_from [] (str_bytes s).

(** ** Splitting, prefixes and suffixes *)

Fixpoint split_bytes (sep : byte) (cur l : bytes) : list string :=
  match l with
  | [] => [bytes_str (rev cur)]
  | a :: l' =>
      if decide (a = sep) then bytes_str (rev cur) :: split_bytes sep [] l'
      else split_bytes sep (a :: cur) l'
  end.
(** [strings.Split] with a one-byte separator. *)
Definition Split (s sep : string) : list string := split_bytes (ch sep) [] (str_bytes s).

Fixpoint HasPrefix (s prefix : string) : bool :=
  match prefix, s with
  | EmptyString, _ => true
  | String a p', String b s' => if decide (a = b) then HasPrefix s' p' else false
  | String _ _, EmptyString => false
  end.

Fixpoint drop_string (n : nat) (s : string) : string :=
  match n, s with
  | O, _ => s
  | S n', String _ s' => drop_string n' s'
  | S _, EmptyString => EmptyString
  end.
Fixpoint take_string (n : nat) (s : string) : string :=
  match n, s with
  | O, _ => EmptyString
  | S n', String a s' => String a (take_string n' s')
  | S _, EmptyString => EmptyString
  end.

Definition TrimPrefix (s prefix : string) : string :=
  if HasPrefix s prefix then drop_string (String.length prefix) s else s.

Definition reverse_string (s : string) : string := bytes_str (rev (str_bytes s)).
Definition HasSuffix (s suffix : string) : bool := HasPrefix (reverse_string s) (reverse_string suffix).
Definition TrimSuffix (s suffix : string) : string :=
  if HasSuffix s suffix then take_string (String.length s - String.length suffix) s else s.

(** [strings.TrimRight] with a one-byte cut set, on bytes. *)
Fixpoint drop_while_byte (c : byte) (l : bytes) : bytes :=
  match l with
  | [] => []
  | a :: l' => if decide (a = c) then drop_while_byte c l' else l
  end.
Definition trim_right_bytes (c : byte) (l : bytes) : bytes := rev (drop_while_byte c (rev l)).
Definition TrimRight (s cutset : string) : string :=
  bytes_str (trim_right_bytes (ch cutset) (str_bytes s)).

(** [strings.ToLower] on ASCII text. *)
Definition lower_byte (a : byte) : byte :=
  if in_range a 65 90 then byte_of (byte_val a + 32) else a.
Definition ToLowerASCII (s : string) : string := bytes_str (map lower_byte (str_bytes s)).

(** [strings.EqualFold] against an ASCII word without the letters k and s, the
    only two that fold onto non-ASCII letters. *)
Definition EqualFoldASCII (s t : string) : bool :=
  bool_decide (ToLowerASCII s = ToLowerASCII t).

(** [strings.ReplaceAll] of a one-byte pattern. *)
Definition ReplaceAll (s old new : string) : string :=
  bytes_str (flat_map (λ a, if decide (a = ch old) then str_bytes new else [a]) (str_bytes s)).

Definition ContainsByte (s : string) (b : byte) : bool := bool_decide (b ∈ str_bytes s).
(** [strings.ContainsAny]. *)
Definition ContainsAny (s chars : string) : bool :=
  existsb (λ a, bool_decide (a ∈ str_bytes chars)) (str_bytes s).

(** ** unicode/utf8 *)

(** Width of the first rune and whether it is validly encoded; an invalid byte
    is one rune of width one. *)
Definition cont (b : byte) : bool := in_range b 0x80 0xBF.
Definition first_rune (l : bytes) : nat * bool :=
  match l with
  | [] => (0%nat, true)
  | a :: l1 =>
      if byte_val a <? 0x80 then (1%nat, true) else
      match l1 with
      | [] => (1%nat, false)
      | b :: l2 =>
          if in_range a 0xC2 0xDF then
            if cont b then (2%nat, true) else (1%nat, false)
          else
          match l2 with
          | [] => (1%nat, false)
          | c :: l3 =>
              let second3 :=
                if is_byte a 0xE0 then in_range b 0xA0 0xBF
                else if is_byte a 0xED then in_range b 0x80 0x9F
                else in_range a 0xE1 0xEF && cont b in
              if second3 && cont c then (3%nat, true) else
              match l3 with
              | [] => (1%nat, false)
              | d :: _ =>
                  let second4 :=
                    if is_byte a 0xF0 then in_range b 0x90 0xBF
                    else if is_byte a 0xF4 then in_range b 0x80 0x8F
                    else in_range a 0xF1 0xF3 && cont b in
                  if second4 && cont c && cont d then (4%nat, true) else (1%nat, false)
              end
          end
      end
  end.

(** The runes of a text: (width, valid); the fuel is the number of bytes. *)
Fixpoint runes (fuel : nat) (l : bytes) : list (nat * bool) :=
  match fuel, l with
  | S fuel', _ :: _ =>
      let r := first_rune l in r :: runes fuel' (drop (fst r) l)
  | _, _ => []
  end.

Definition Valid (l : bytes) : bool := forallb snd (runes (length l) l).
Definition RuneCount (s : string) : Z := Z.of_nat (length (runes (String.length s) (str_bytes s))).

(** ** strconv *)

Fixpoint parse_digits (acc : Z) (l : bytes) : option Z :=
  match l with
  | [] => Some acc
  | b :: l => if in_range b 48 57 then parse_digits (acc * 10 + (byte_val b - 48)) l else None
  end.

(** [ParseInt(s, 10, 64)] and [Atoi]: an optional sign, decimal digits, in range. *)
Definition ParseInt (s : string) : option Z :=
  let '(neg, ds) := match str_bytes s with
                    | "-"%char :: l => (true, l)
                    | "+"%char :: l => (false, l)
                    | l => (false, l) end in
  match ds with
  | [] => None
  | _ => match parse_digits 0 ds with
         | None => None
         | Some n => let n := if neg then - n else n in
                     if (- 2 ^ 63 <=? n) && (n <=? max_int64) then Some n else None
         end
  end.

(** ** encoding/base64, RawURLEncoding and StdEncoding/RawStdEncoding alphabets *)

Definition b64url_digit (v : Z) : byte :=
  if v <? 26 then byte_of (65 + v)
  else if v <? 52 then byte_of (97 + (v - 26))
  else if v <? 62 then byte_of (48 + (v - 52))
  else if v =? 62 then ch "-" else ch "_".

Fixpoint b64url_encode (l : bytes) : bytes :=
  match l with
  | a :: b :: c :: l' =>
      let v := be_get [a; b; c] in
      b64url_digit (v / 2 ^ 18) :: b64url_digit (v / 2 ^ 12 mod 64)
        :: b64url_digit (v / 2 ^ 6 mod 64) :: b64url_digit (v mod 64) :: b64url_encode l'
  | [a; b] =>
      let v := be_get [a; b] * 4 in
      [b64url_digit (v / 2 ^ 12); b64url_digit (v / 2 ^ 6 mod 64); b64url_digit (v mod 64)]
  | [a] => let v := byte_val a * 16 in [b64url_digit (v / 2 ^ 6); b64url_digit (v mod 64)]
  | [] => []
  end.

(** [net.SplitHostPort]. *)
Fixpoint index_byte (c : byte) (l : bytes) : option nat :=
  match l with
  | [] => None
  | a :: l => if decide (a = c) then Some O else S <$> index_byte c l
  end.
Definition last_index_byte (c : byte) (l : bytes) : option nat :=
  match index_byte c (rev l) with Some n => Some (length l - 1 - n)%nat | None => None end.
Definition has_byte (c : byte) (l : bytes) : bool := bool_decide (c ∈ l).

Definition SplitHostPort (hostport : string) : option (string * string) :=
  let l := str_bytes hostport in
  match last_index_byte (ch ":") l with
  | None => None
  | Some i =>
      let port := bytes_str (drop (S i) l) in
      match l with
      | "["%char :: rest =>
          match index_byte (ch "]") l with
          | None => None
          | Some e =>
              if (S e =? i)%nat && negb (has_byte (ch "[") rest) && negb (has_byte (ch "]") (drop (S e) l))
              then Some (bytes_str (take (e - 1) rest), port) else None
          end
      | _ =>
          if has_byte (ch ":") (take i l) || has_byte (ch "[") l || has_byte (ch "]") l
          then None else Some (bytes_str (take i l), port)
      end
  end.

(** ** Lemmas *)

Lemma in_range_iff b lo hi : in_range b lo hi = true ↔ lo ≤ byte_val b ≤ hi.
Proof. unfold in_range. rewrite andb_true_iff, !Z.leb_le. done. Qed.

Lemma b64url_encode_length_24 l : length l = 24%nat → length (b64url_encode l) = 32%nat.
Proof. intros H. do 25 (destruct l as [|? l]; try done). Qed.

(** The base64url alphabet has no dot: a token is one segment of a dotted string. *)
Lemma b64url_digit_no_dot v : 0 ≤ v < 64 → b64url_digit v ≠ ch ".".
Proof.
  intros Hv Hd. apply (f_equal byte_val) in Hd. revert Hd. unfold b64url_digit.
  change (byte_val (ch ".")) with 46.
  repeat case_match; bool_to_prop; rewrite ?byte_val_of, ?Z.mod_small by lia; try lia;
    vm_compute; done.
Qed.

(** Every digit index of the encoder is below 64. *)
Definition b64_digit (b : byte) : Prop := ∃ v, 0 ≤ v < 64 ∧ b = b64url_digit v.
Ltac digit_bound :=
  eexists; split; [|reflexivity];
  first [ apply Z.mod_pos_bound; done
        | split; [apply Z.div_pos; lia | apply Z.div_lt_upper_bound; lia] ].

Lemma b64url_encode_digits l : Forall b64_digit (b64url_encode l).
Proof.
  assert (∀ n l, (length l ≤ n)%nat → Forall b64_digit (b64url_encode l)) as Hall; [|by apply (Hall (length l))].
  clear l. induction n as [|n IH]; intros l Hl;
    [destruct l; [constructor|simpl in Hl; lia]|].
  destruct l as [|a [|b [|c l]]]; cbn [b64url_encode]; [constructor| | |].
  - pose proof (byte_val_range a).
    repeat (apply Forall_cons; split; [digit_bound|]). constructor.
  - pose proof (be_get_range [a; b]) as Hr. change (2 ^ (8 * blen [a; b])) with 65536 in Hr.
    repeat (apply Forall_cons; split; [digit_bound|]). constructor.
  - pose proof (be_get_range [a; b; c]) as Hr.
    change (2 ^ (8 * blen [a; b; c])) with 16777216 in Hr.
    repeat (apply Forall_cons; split; [digit_bound|]). apply IH. simpl in Hl. lia.
Qed.

Lemma b64url_encode_no_dot l : ch "." ∉ b64url_encode l.
Proof.
  intros Hin. pose proof (b64url_encode_digits l) as Hd. rewrite Forall_forall in Hd.
  destruct (Hd _ Hin) as (v & Hv & E). by apply (b64url_digit_no_dot v Hv).
Qed.

(** ASCII text is valid UTF-8, the alphabet of base64url is ASCII. *)
Lemma Valid_ascii l : Forall (λ b, byte_val b < 128) l → Valid l = true.
Proof.
  unfold Valid. induction l as [|a l IH]; intros Hl; [done|]. apply Forall_cons in Hl as [Ha Hl].
  cbn [length runes]. assert (first_rune (a :: l) = (1%nat, true)) as ->.
  { unfold first_rune. by rewrite (proj2 (Z.ltb_lt _ _) Ha). }
  cbn [fst drop forallb snd]. rewrite skipn_O. by apply IH.
Qed.

Lemma b64_digit_ascii b : b64_digit b → byte_val b < 128.
Proof.
  intros (v & Hv & ->). unfold b64url_digit.
  repeat case_match; bool_to_prop; rewrite ?byte_val_of, ?Z.mod_small by lia; try lia; vm_compute; done.
Qed.

Lemma b64url_encode_valid l : Valid (b64url_encode l) = true.
Proof. apply Valid_ascii. eapply Forall_impl; [apply b64url_encode_digits|]. apply b64_digit_ascii. Qed.

Lemma split_bytes_no_sep sep cur l :
  sep ∉ l → split_bytes sep cur l = [bytes_str (rev cur ++ l)].
Proof.
  revert cur. induction l as [|a l IH]; intros cur Hn; simpl; [by rewrite app_nil_r|].
  apply not_elem_of_cons in Hn as [Hne Hn]. rewrite decide_False by done.
  rewrite IH by done. simpl. by rewrite <-app_assoc.
Qed.

Lemma split_bytes_app sep cur l1 l2 :
  sep ∉ l1 →
  split_bytes sep cur (l1 ++ sep :: l2) = bytes_str (rev cur ++ l1) :: split_bytes sep [] l2.
Proof.
  revert cur. induction l1 as [|a l IH]; intros cur Hn; simpl.
  { rewrite decide_True by done. by rewrite app_nil_r. }
  apply not_elem_of_cons in Hn as [Hne Hn]. rewrite decide_False by done.
  rewrite IH by done. simpl. by rewrite <-app_assoc.
Qed.

Lemma str_bytes_app s t : str_bytes (s +:+ t) = str_bytes s ++ str_bytes t.
Proof. unfold str_bytes. induction s; simpl; [done|by f_equal]. Qed.

(** Splitting [a.b.c] gives the three segments back. *)
Lemma Split_dots a b c :
  ch "." ∉ str_bytes a → ch "." ∉ str_bytes b → ch "." ∉ str_bytes c →
  Split (a +:+ "." +:+ b +:+ "." +:+ c) "." = [a; b; c].
Proof.
  intros Ha Hb Hc. unfold Split. rewrite !str_bytes_app.
  change (str_bytes ".") with [ch "."]. cbn [app].
  rewrite split_bytes_app by done. rewrite split_bytes_app by done.
  rewrite split_bytes_no_sep by done. cbn [rev app]. by rewrite !bytes_str_bytes.
Qed.

Lemma string_ltb_asym a b : String.ltb a b = true → String.ltb b a = false.
Proof.
  unfold String.ltb. rewrite (String.compare_antisym a b).
  by destruct (String.compare b a).
Qed.

Lemma drop_take_string n s : take_string n s +:+ drop_string n s = s.
Proof.
  revert s. induction n as [|n IH]; intros [|a s]; try done.
  cbn [take_string drop_string]. change (String a (take_string n s +:+ drop_string n s) = String a s).
  f_equal. apply IH.
Qed.

Lemma str_bytes_take n s : str_bytes (take_string n s) = take n (str_bytes s).
Proof.
  revert s. unfold str_bytes. induction n; intros [|a s]; simpl; [done..|by rewrite IHn].
Qed.

(** The right trim removes exactly a run of the cut byte. *)
Lemma drop_while_byte_spec c l :
  ∃ n, l = repeat c n ++ drop_while_byte c l ∧ head (drop_while_byte c l) ≠ Some c.
Proof.
  induction l as [|a l (n & Hl & Hh)]; [by exists 0%nat|]. simpl. case_decide; subst.
  - exists (S n). simpl. by rewrite <-Hl.
  - exists 0%nat. simpl. split; congruence.
Qed.

Lemma drop_while_byte_repeat c n l :
  head l ≠ Some c → drop_while_byte c (repeat c n ++ l) = l.
Proof.
  intros Hh. induction n as [|n IH]; simpl.
  - destruct l as [|a l]; simpl; [done|]. case_decide; [subst; done|done].
  - by rewrite decide_True.
Qed.

Lemma trim_right_bytes_pad c l n :
  last l ≠ Some c → trim_right_bytes c (l ++ repeat c n) = l.
Proof.
  intros Hl. unfold trim_right_bytes. rewrite rev_app_distr, rev_repeat.
  rewrite drop_while_byte_repeat; [apply rev_involutive|].
  rewrite rev_alt. change (rev_append l []) with (reverse l). by rewrite head_reverse.
Qed.

(** Text of visible ASCII characters is a single field. *)
Definition graphic (a : byte) : bool := in_range a 33 126.

Lemma graphic_no_space a : graphic a = true →
  space1 a = false ∧ (∀ b, space2 a b = false) ∧ (∀ b c, space3 a b c = false).
Proof.
  unfold graphic, space1, space2, space3. rewrite in_range_iff. intros Ha.
  assert (∀ n, (n < 33 ∨ 126 < n) → is_byte a n = false) as Hb.
  { intros n Hn. unfold is_byte. apply Z.eqb_neq. lia. }
  split_and!; intros; rewrite ?Hb by lia; [|done..].
  rewrite orb_false_r. apply not_true_iff_false. rewrite in_range_iff. lia.
Qed.

Lemma fields_from_graphic l : ∀ cur, Forall (λ a, graphic a = true) l → cur ++ l ≠ [] →
  fields_from cur l = [bytes_str (rev cur ++ l)].
Proof.
  induction l as [|a l IH]; intros cur Hl Hne.
  - rewrite app_nil_r in Hne. cbn. rewrite app_nil_r. by destruct cur.
  - apply Forall_cons in Hl as [Ha Hl]. destruct (graphic_no_space a Ha) as (H1 & H2 & H3).
    assert (fields_from (a :: cur) l = [bytes_str (rev cur ++ a :: l)]) as Hstep.
    { rewrite IH by done. cbn [rev]. by rewrite <-app_assoc. }
    cbn [fields_from]. rewrite H1. destruct l as [|b l2]; [done|]. rewrite H2.
    destruct l2 as [|c l3]; [done|]. by rewrite H3.
Qed.

Lemma Fields_graphic s : s ≠ "" → Forall (λ a, graphic a = true) (str_bytes s) → Fields s = [s].
Proof.
  intros Hne Hg. unfold Fields. rewrite fields_from_graphic; [by cbn; rewrite bytes_str_bytes|done|].
  cbn. by destruct s.
Qed.

Lemma HasPrefix_refl_app s t : HasPrefix (s +:+ t) s = true.
Proof.
  induction s as [|a s IH]; [by destruct t|]. change (String a s +:+ t) with (String a (s +:+ t)). cbn. by rewrite decide_True.
Qed.

Lemma append_assoc s t u : (s +:+ t) +:+ u = s +:+ (t +:+ u).
Proof. induction s as [|a s IH]; [done|]. exact (f_equal (String a) IH). Qed.
