(* ===== verification/GoFloat.v ===== *)
(** * float64

    IEEE 754 binary64 numbers as [SpecFloat] values, with the operations of
    package math the program applies to decoded JSON numbers. *)

From stdpp Require Import pretty.
From S2P Require Import Prelude GoBase GoStrings.
From Stdlib Require Export SpecFloat.

Definition float64 := spec_float.

(** The float64 nearest to an integer (ties to even). *)
Definition float_of_Z (z : Z) : float64 := binary_normalize 53 1024 z 0 false.

Definition fmul (x y : float64) : float64 := SFmul 53 1024 x y.
Definition fdiv (x y : float64) : float64 := SFdiv 53 1024 x y.
Definition fadd (x y : float64) : float64 := SFadd 53 1024 x y.
Definition fsub (x y : float64) : float64 := SFsub 53 1024 x y.
Definition feq (x y : float64) : bool := SFeqb x y.
Definition flt (x y : float64) : bool := SFltb x y.

Definition IsNaN (f : float64) : bool := match f with S754_nan => true | _ => false end.
Definition IsInf (f : float64) : bool := match f with S754_infinity _ => true | _ => false end.

(** The magnitude of a finite number, rounded towards zero, and its parity bit
    below: [(q, r, d)] with value q + r/d. *)
Definition int_part (f : float64) : Z :=
  match f with
  | S754_finite s m e =>
      let q := if 0 <=? e then Zpos m * 2 ^ e else Zpos m / 2 ^ (- e) in
      if s then - q else q
  | _ => 0
  end.

Definition Trunc (f : float64) : float64 :=
  match f with
  | S754_finite s m e =>
      if 0 <=? e then f
      else if int_part f =? 0 then S754_zero s
      else binary_normalize 53 1024 (int_part f) 0 s
  | _ => f
  end.

(** [int64(math.Round(f))] for a finite [f]: half away from zero. *)
Definition round_Z (f : float64) : Z :=
  match f with
  | S754_finite s m e =>
      let q := if 0 <=? e then Zpos m * 2 ^ e else (Zpos m + 2 ^ (- e - 1)) / 2 ^ (- e) in
      if s then - q else q
  | _ => 0
  end.

(** [math.Min] and [math.Max]; NaN is contagious. *)
Definition fmin (x y : float64) : float64 :=
  if IsNaN x || IsNaN y then S754_nan else if flt y x then y else x.
Definition fmax (x y : float64) : float64 :=
  if IsNaN x || IsNaN y then S754_nan else if flt x y then y else x.

(** The float64 nearest to a quotient of positive integers: the division of the
    standard rounds the exact quotient of mantissas of any size. *)
Definition float_of_ratio (negative : bool) (n d : Z) : float64 :=
  match n, d with
  | Zpos n, Zpos d =>
      let '(m, e, l) := SFdiv_core_binary 53 1024 (Zpos n) 0 (Zpos d) 0 in binary_round_aux 53 1024 negative m e l
  | _, _ => S754_zero negative
  end.

(** An integral, finite number denotes its integer part. *)
Definition is_integral (f : float64) : bool := feq f (Trunc f).

(** ** strconv

    [FormatUint(n, 10)], and [FormatFloat(f, 'f', -1, 64)] for the magnitudes the
    program formats: the fewest digits that lie in the rounding interval of the
    number, and the nearest of those. *)
Definition FormatUint (n : Z) : string := pretty (Z.to_N n).

(** [v], and the ends of its rounding interval, as multiples of 10^-20 / scale. *)
Record rounding := { rnd_scale : Z; rnd_value : Z; rnd_low : Z; rnd_high : Z; rnd_closed : bool }.
Definition rounding_interval (m : positive) (e : Z) : rounding :=
  let scale := 4 * 2 ^ Z.max 0 (- e) in
  let ulp := 2 ^ Z.max 0 e * 4 * 10 ^ 20 in
  let v := Zpos m * ulp in
  {| rnd_scale := scale; rnd_value := v;
     rnd_low := v - (if (Zpos m =? 2 ^ 52) then ulp / 4 else ulp / 2); rnd_high := v + ulp / 2;
     rnd_closed := Z.even (Zpos m) |}.

Definition in_interval (r : rounding) (x : Z) : bool :=
  if rnd_closed r then (rnd_low r <=? x) && (x <=? rnd_high r)
  else (rnd_low r <? x) && (x <? rnd_high r).

(** The multiple of [unit] in the interval that is nearest to the value. *)
Definition nearest_multiple (r : rounding) (unit : Z) : option Z :=
  let q := rnd_value r / unit in
  let down := in_interval r (q * unit) in
  let up := in_interval r ((q + 1) * unit) in
  if down && up then
    Some (if (q + 1) * unit - rnd_value r <? rnd_value r - q * unit then q + 1 else q)
  else if down then Some q else if up then Some (q + 1) else None.

(** The longest power of ten first: 10^j for [j] = [20 - k], [k] counted up. *)
Fixpoint shortest (fuel : nat) (r : rounding) (j : Z) : Z * Z :=
  match fuel with
  | O => (0, 0)
  | S fuel =>
      match nearest_multiple r (10 ^ (j + 20) * rnd_scale r) with
      | Some n => (n, j)
      | None => shortest fuel r (j - 1)
      end
  end.

Definition pad_zeros (n : nat) (s : string) : string :=
  string_of_list_ascii (repeat "0"%char (n - String.length s)) +:+ s.

Definition decimal (n j : Z) : string :=
  if 0 <=? j then FormatUint (n * 10 ^ j)
  else FormatUint (n / 10 ^ (- j)) +:+ "." +:+ pad_zeros (Z.to_nat (- j)) (FormatUint (n mod 10 ^ (- j))).

Definition FormatFloat (f : float64) : string :=
  match f with
  | S754_nan => "NaN"
  | S754_infinity s => if s then "-Inf" else "+Inf"
  | S754_zero s => if s then "-0" else "0"
  | S754_finite s m e =>
      let '(n, j) := shortest 40 (rounding_interval m e) 3 in
      (if s then "-" else "") +:+ decimal n j
  end.

Example FormatFloat_examples :
  FormatFloat (fdiv (float_of_Z 1) (float_of_Z 10)) = "0.1" ∧
  FormatFloat (fdiv (float_of_Z 5) (float_of_Z 2)) = "2.5" ∧
  FormatFloat (float_of_Z 100) = "100" ∧ FormatFloat (float_of_Z 7) = "7" ∧
  FormatFloat (fdiv (float_of_Z 100) (float_of_Z 3)) = "33.333333333333336" ∧
  FormatFloat (fmul (fdiv (float_of_Z 1) (float_of_Z 10)) (float_of_Z 3)) = "0.30000000000000004".
Proof. by vm_compute. Qed.

(** [strconv.ParseFloat(s, 64)] of decimal texts; [special] are the other forms it takes:
    infinities, NaN and hexadecimal numbers.  A number out of range is an error. *)
Definition exponent_of (l : bytes) : option Z :=
  match l with
  | [] => Some 0
  | a :: l =>
      if is_byte a 101 || is_byte a 69 then
        match l with
        | b :: l' => if is_byte b 43 then (if bool_decide (l' = []) then None else parse_digits 0 l')
                     else if is_byte b 45 then (if bool_decide (l' = []) then None else Z.opp <$> parse_digits 0 l')
                     else parse_digits 0 l
        | [] => None
        end
      else None
  end.
Fixpoint span_digits (l : bytes) : bytes * bytes :=
  match l with
  | a :: l' => if in_range a 48 57 then let '(d, r) := span_digits l' in (a :: d, r) else ([], l)
  | [] => ([], [])
  end.
Definition decimal_value (negative : bool) (digits : bytes) (exponent : Z) : float64 :=
  let n := default 0 (parse_digits 0 digits) in
  if 0 <=? exponent then float_of_ratio negative (n * 10 ^ exponent) 1 else float_of_ratio negative n (10 ^ (- exponent)).
Definition ParseFloat (special : string → option float64) (s : string) : option float64 :=
  let '(negative, l) := match str_bytes s with
                        | "-"%char :: l => (true, l)
                        | "+"%char :: l => (false, l)
                        | l => (false, l)
                        end in
  let '(whole, rest) := span_digits l in
  let '(fraction, rest) := match rest with
                           | "."%char :: rest => span_digits rest
                           | _ => ([], rest)
                           end in
  if bool_decide (whole ++ fraction = []) then special s
  else match exponent_of rest with
       | Some e =>
           let f := decimal_value negative (whole ++ fraction) (e - blen fraction) in
           if IsInf f then None else Some f
       | None => special s
       end.

(** The text of a number: its digits, which [parse_digits] reads back. *)
Definition digit (a : byte) : Prop := in_range a 48 57 = true.

Lemma pretty_N_char_spec x : (x < 10)%N → digit (pretty_N_char x) ∧ byte_val (pretty_N_char x) - 48 = Z.of_N x.
Proof.
  intros Hx. assert (x ∈ [0; 1; 2; 3; 4; 5; 6; 7; 8; 9]%N) as Hin.
  { rewrite !elem_of_cons, elem_of_nil. lia. }
  repeat (apply elem_of_cons in Hin as [->|Hin]; [by split; vm_compute|]). set_solver.
Qed.

Lemma pretty_N_go_digits x : ∀ s, Forall digit (str_bytes s) → Forall digit (str_bytes (pretty_N_go x s)).
Proof.
  induction (N.lt_wf_0 x) as [x _ IH]. intros s Hs.
  destruct (decide (0 < x)%N) as [Hx|Hx]; [|by replace x with 0%N by lia].
  rewrite pretty_N_go_step by done. apply IH; [by apply N.div_lt|]. constructor; [|done].
  apply pretty_N_char_spec, N.mod_lt. lia.
Qed.

Lemma pretty_N_go_parse x : ∀ s, parse_digits 0 (str_bytes (pretty_N_go x s)) = parse_digits (Z.of_N x) (str_bytes s).
Proof.
  induction (N.lt_wf_0 x) as [x _ IH]. intros s.
  destruct (decide (0 < x)%N) as [Hx|Hx]; [|by replace x with 0%N by lia].
  rewrite pretty_N_go_step, IH by (done || by apply N.div_lt).
  destruct (pretty_N_char_spec (x mod 10)) as [Hd Hv]; [apply N.mod_lt; lia|].
  cbn [str_bytes list_ascii_of_string parse_digits]. unfold digit in Hd. rewrite Hd, Hv. f_equal.
  rewrite N2Z.inj_div, N2Z.inj_mod. pose proof (Z.div_mod (Z.of_N x) 10). lia.
Qed.

Lemma FormatUint_digits n : Forall digit (str_bytes (FormatUint n)).
Proof. unfold FormatUint, pretty, pretty_N. case_decide; [by repeat constructor|]. by apply pretty_N_go_digits. Qed.

Lemma FormatUint_parse n : 0 ≤ n → parse_digits 0 (str_bytes (FormatUint n)) = Some n.
Proof.
  intros Hn. unfold FormatUint, pretty, pretty_N. case_decide as H0.
  - change (parse_digits 0 _) with (Some 0). f_equal. lia.
  - rewrite pretty_N_go_parse. cbn [str_bytes list_ascii_of_string parse_digits]. f_equal. lia.
Qed.

Lemma FormatUint_ne n : FormatUint n ≠ "".
Proof.
  intros E. pose proof (FormatUint_parse (Z.max 0 n)) as H.
  assert (FormatUint (Z.max 0 n) = FormatUint n) as E' by (unfold FormatUint; f_equal; lia).
  destruct (decide (Z.max 0 n = 0)) as [H0|H0].
  - revert E. unfold FormatUint, pretty, pretty_N. rewrite decide_True by lia. done.
  - rewrite E', E in H. injection H; lia.
Qed.

Lemma digit_graphic a : digit a → graphic a = true.
Proof. unfold digit, graphic. rewrite !in_range_iff. lia. Qed.

Lemma ParseInt_digit a s : digit a →
  ParseInt (String a s) = match parse_digits 0 (a :: str_bytes s) with
                          | Some n => if (- 2 ^ 63 <=? n) && (n <=? max_int64) then Some n else None
                          | None => None
                          end.
Proof.
  unfold digit. destruct a as [[] [] [] [] [] [] [] []]; intros Ha; first [by vm_compute in Ha|reflexivity].
Qed.

(** [ParseInt] reads back what [FormatUint] wrote. *)
Lemma ParseInt_FormatUint n : 0 ≤ n ≤ max_int64 → ParseInt (FormatUint n) = Some n.
Proof.
  intros Hn. pose proof (FormatUint_digits n) as Hd. pose proof (FormatUint_parse n) as Hp. pose proof (FormatUint_ne n) as Hne.
  destruct (FormatUint n) as [|a s]; [done|]. apply Forall_cons in Hd as [Ha _].
  change (str_bytes (String a s)) with (a :: str_bytes s) in Hp.
  rewrite ParseInt_digit, Hp by (done || lia). rewrite (proj2 (andb_true_iff _ _)); [done|]. rewrite !Z.leb_le. lia.
Qed.
