(* ===== verification/FloatBounds.v ===== *)
(** * Bounds on float64 results

    Rounding never crosses a number that is representable at the exponent of the result:
    a result whose exact value is at most [b * 2 ^ g] is at most [b * 2 ^ g]. *)

From S2P Require Import Prelude GoBase GoFloat.

(** A non-negative number of at most [b * 2 ^ g]. *)
Definition at_most (x : float64) (b g : Z) : Prop :=
  match x with
  | S754_zero _ => True
  | S754_finite false m e => e ≤ g ∧ Zpos m ≤ b * 2 ^ (g - e)
  | _ => False
  end.

(** ** Shifting to the right *)

Definition sticky (r : shr_record) : bool := shr_r r || shr_s r.

Lemma shr_1_spec r : 0 ≤ shr_m r →
  shr_m (shr_1 r) = shr_m r / 2 ∧ sticky (shr_1 r) = Z.odd (shr_m r) || sticky r.
Proof.
  destruct r as [m r s]. intros H. cbn [shr_m] in H. destruct m as [|[p|p|]|p]; try (cbn in H; lia); cbn [shr_1 shr_m shr_r shr_s]; unfold sticky; cbn [shr_r shr_s].
  - split; [done|]. cbn. by destruct r, s.
  - split; [|done]. change (Z.pos p~1) with (2 * Z.pos p + 1). rewrite Z.add_comm, Z.mul_comm, Z.div_add by done. done.
  - split; [|cbn; by destruct r, s]. change (Z.pos p~0) with (2 * Z.pos p). by rewrite Z.mul_comm, Z.div_mul.
  - split; [done|]. done.
Qed.

Lemma shift_spec n : ∀ r, 0 ≤ shr_m r →
  shr_m (Nat.iter n shr_1 r) = shr_m r / 2 ^ Z.of_nat n ∧ 0 ≤ shr_m (Nat.iter n shr_1 r) ∧
  (sticky (Nat.iter n shr_1 r) = false ↔ sticky r = false ∧ shr_m r = shr_m (Nat.iter n shr_1 r) * 2 ^ Z.of_nat n).
Proof.
  induction n as [|n IH]; intros r Hr.
  - change (Nat.iter 0 shr_1 r) with r. change (2 ^ Z.of_nat 0) with 1. rewrite Z.div_1_r, Z.mul_1_r. split_and!; [done|done|].
    split; [done|by intros [? _]].
  - change (Nat.iter (S n) shr_1 r) with (shr_1 (Nat.iter n shr_1 r)).
    destruct (IH r Hr) as (Hm & Hp & Hs). destruct (shr_1_spec (Nat.iter n shr_1 r) Hp) as [Hm1 Hs1].
    rewrite Hm1, Hs1, Nat2Z.inj_succ, Z.pow_succ_r by lia.
    assert (0 < 2 ^ Z.of_nat n) as H2 by (apply Z.pow_pos_nonneg; lia).
    pose proof (Z.div_mod (shr_m (Nat.iter n shr_1 r)) 2 ltac:(done)) as Hd. rewrite Zmod_odd in Hd. split_and!.
    + rewrite Hm, Z.div_div by lia. by rewrite Z.mul_comm.
    + apply Z.div_pos; lia.
    + rewrite orb_false_iff, Hs. split.
      * intros (Hodd & Hst & Heq). rewrite Hodd in Hd. split; [done|]. rewrite Heq at 1. lia.
      * intros [Hst Heq]. set (q := shr_m (Nat.iter n shr_1 r)) in *.
        assert (q = 2 * (q / 2)) as Hq.
        { rewrite Hm at 1. rewrite Heq. replace (q / 2 * (2 * 2 ^ Z.of_nat n)) with (2 * (q / 2) * 2 ^ Z.of_nat n) by lia.
          by rewrite Z.div_mul by lia. }
        destruct (Z.odd q); [lia|]. split_and!; [done|done|]. transitivity (2 * (q / 2) * 2 ^ Z.of_nat n); [lia|by rewrite <- Hq].
Qed.

Lemma iter_pos_iter {A} (f : A → A) p : ∀ x, iter_pos f p x = Nat.iter (Pos.to_nat p) f x.
Proof.
  assert (∀ n m x, Nat.iter n f (Nat.iter m f x) = Nat.iter (n + m) f x) as Hadd.
  { induction n as [|n IH]; intros m x; [done|]. exact (f_equal f (IH m x)). }
  induction p as [p IH|p IH|]; intros x; cbn [iter_pos].
  - rewrite !IH, Pos2Nat.inj_xI. change (f x) with (Nat.iter 1 f x). rewrite !Hadd. f_equal. lia.
  - rewrite !IH, Pos2Nat.inj_xO, Hadd. f_equal. lia.
  - done.
Qed.

Lemma shr_spec r e k : 0 ≤ shr_m r →
  let K := Z.max 0 k in
  (shr r e k).2 = e + K ∧ shr_m (shr r e k).1 = shr_m r / 2 ^ K ∧
  (sticky (shr r e k).1 = false ↔ sticky r = false ∧ shr_m r = shr_m (shr r e k).1 * 2 ^ K).
Proof.
  intros Hr K. destruct k as [|k|k]; unfold K; cbn [shr Z.max]; cbn [Z.compare];
    rewrite ?Z.add_0_r, ?Z.pow_0_r, ?Z.div_1_r, ?Z.mul_1_r; cbn [fst snd].
  - split_and!; [done|done|]. split; [done|by intros [? _]].
  - rewrite iter_pos_iter. destruct (shift_spec (Pos.to_nat k) r Hr) as (Hm & _ & Hs). rewrite positive_nat_Z in Hm, Hs.
    split_and!; [done|done|done].
  - split_and!; [done|done|]. split; [done|by intros [? _]].
Qed.

(** ** Digits *)

Lemma digits_spec p : 2 ^ (Zpos (digits2_pos p) - 1) ≤ Zpos p < 2 ^ Zpos (digits2_pos p).
Proof.
  induction p as [p IH|p IH|]; cbn [digits2_pos]; [| |done].
  - rewrite Pos2Z.inj_succ. change (Z.pos p~1) with (2 * Z.pos p + 1).
    replace (Z.succ (Z.pos (digits2_pos p)) - 1) with (Z.succ (Z.pos (digits2_pos p) - 1)) by lia.
    rewrite !Z.pow_succ_r by lia. lia.
  - rewrite Pos2Z.inj_succ. change (Z.pos p~0) with (2 * Z.pos p).
    replace (Z.succ (Z.pos (digits2_pos p)) - 1) with (Z.succ (Z.pos (digits2_pos p) - 1)) by lia.
    rewrite !Z.pow_succ_r by lia. lia.
Qed.

Lemma digits_le m t : 0 < m → 0 ≤ t → m < 2 ^ t → Zdigits2 m ≤ t.
Proof.
  intros Hm Ht Hlt. destruct m as [|p|p]; try lia. cbn [Zdigits2]. pose proof (digits_spec p) as [H _].
  assert (2 ^ (Z.pos (digits2_pos p) - 1) < 2 ^ t) as H1 by lia. apply Z.pow_lt_mono_r_iff in H1; lia.
Qed.

Lemma digits_ge m : 0 < m → 2 ^ (Zdigits2 m - 1) ≤ m < 2 ^ Zdigits2 m.
Proof. intros Hm. destruct m as [|p|p]; try lia. apply digits_spec. Qed.

Lemma digits_of m t : 0 < t → 2 ^ (t - 1) ≤ m < 2 ^ t → Zdigits2 m = t.
Proof.
  intros Ht Hm. assert (0 < 2 ^ (t - 1)) by (apply Z.pow_pos_nonneg; lia). pose proof (digits_ge m ltac:(lia)) as [H1 H2].
  assert (Zdigits2 m ≤ t) by (apply digits_le; lia). destruct (Z.eq_dec (Zdigits2 m) t) as [|Hne]; [done|].
  assert (2 ^ Zdigits2 m ≤ 2 ^ (t - 1)) by (apply Z.pow_le_mono_r; lia). lia.
Qed.

(** ** Rounding *)

Lemma loc_sticky r : loc_of_shr_record r = loc_Exact ↔ sticky r = false.
Proof. destruct r as [m [] []]; cbn; unfold sticky; cbn; split; done. Qed.

Lemma record_of_loc m l : shr_m (shr_record_of_loc m l) = m ∧ (sticky (shr_record_of_loc m l) = false ↔ l = loc_Exact).
Proof. destruct l as [|[]]; cbn; unfold sticky; cbn; done. Qed.

Lemma round_up m l : m ≤ round_nearest_even m l ≤ m + 1 ∧ (l = loc_Exact → round_nearest_even m l = m).
Proof. destruct l as [|[]]; cbn; repeat case_match; split; try done; lia. Qed.

(** Rounding up at the last digit stays below a bound that is a multiple of it. *)
Lemma round_digit mx lx K r B : 0 ≤ mx → 0 ≤ K → shr_m r = mx / 2 ^ K →
  (sticky r = false ↔ lx = loc_Exact ∧ mx = shr_m r * 2 ^ K) →
  mx ≤ B * 2 ^ K → (lx = loc_Exact ∨ mx < B * 2 ^ K) →
  round_nearest_even (shr_m r) (loc_of_shr_record r) ≤ B.
Proof.
  intros Hmx HK Hm Hs Hle Hloc. assert (0 < 2 ^ K) as H2K by (apply Z.pow_pos_nonneg; lia).
  destruct (round_up (shr_m r) (loc_of_shr_record r)) as [Hup Hexact].
  pose proof (Z.div_mod mx (2 ^ K) ltac:(lia)) as Hdiv. pose proof (Z.mod_pos_bound mx (2 ^ K) H2K) as Hmod. rewrite <- Hm in Hdiv.
  destruct (sticky r) eqn:Est.
  - enough (shr_m r < B) by lia. apply (Z.mul_lt_mono_pos_r (2 ^ K)); [done|].
    destruct Hloc as [Hl|Hlt]; [|lia]. destruct (Z.eq_dec (mx mod 2 ^ K) 0) as [Hz|]; [|lia].
    assert (true = false) as H; [|done]. apply Hs. split; [done|lia].
  - destruct Hs as [Hs _]. destruct (Hs eq_refl) as [_ Heq]. rewrite (Hexact (proj2 (loc_sticky r) Est)).
    apply (Z.mul_le_mono_pos_r _ _ (2 ^ K)); lia.
Qed.

Lemma fexp_shift t e : fexp 53 1024 (t + e) - e = Z.max (t - 53) (-1074 - e).
Proof. unfold fexp, emin. lia. Qed.

Lemma round_le mx ex lx b g : 0 < mx → ex ≤ g → -1074 ≤ g → g ≤ 900 → mx < 2 ^ (g + 53 - ex) → 0 ≤ b < 2 ^ 53 →
  mx ≤ b * 2 ^ (g - ex) → (lx = loc_Exact ∨ mx < b * 2 ^ (g - ex)) →
  at_most (binary_round_aux 53 1024 false mx ex lx) b g.
Proof.
  intros Hmx Hex Hg Hg2 Hsize Hb Hle Hloc. unfold binary_round_aux, shr_fexp. rewrite fexp_shift.
  destruct (record_of_loc mx lx) as [Hrm Hrs]. set (k := Z.max (Zdigits2 mx - 53) (-1074 - ex)).
  destruct (shr_spec (shr_record_of_loc mx lx) ex k ltac:(rewrite Hrm; lia)) as (He1 & Hm1 & Hs1).
  destruct (shr (shr_record_of_loc mx lx) ex k) as [r1 e1]. cbn [fst snd] in *. rewrite Hrm, Hrs in *. set (K := Z.max 0 k) in *.
  assert (Zdigits2 mx ≤ g + 53 - ex) as Hd by (apply digits_le; lia).
  assert (0 ≤ K ≤ g - ex) as HK by lia. assert (0 < 2 ^ K) as H2K by (apply Z.pow_pos_nonneg; lia).
  assert (mx < 2 ^ (53 + K)) as HK53.
  { pose proof (digits_ge mx Hmx) as [_ H2]. eapply Z.lt_le_trans; [exact H2|]. apply Z.pow_le_mono_r; lia. }
  assert (g - ex = g - e1 + K) as Hge by lia. rewrite Hge, Z.pow_add_r, Z.mul_assoc in Hle, Hloc by lia.
  pose proof (round_digit mx lx K r1 (b * 2 ^ (g - e1)) ltac:(lia) ltac:(lia) Hm1 Hs1 Hle Hloc) as Hup.
  assert (round_nearest_even (shr_m r1) (loc_of_shr_record r1) ≤ 2 ^ 53) as Hup53.
  { apply (round_digit mx lx K r1 (2 ^ 53)); try done; try lia; rewrite <- Z.pow_add_r by lia; [lia|by right]. }
  assert (0 ≤ round_nearest_even (shr_m r1) (loc_of_shr_record r1)) as Hpos.
  { destruct (round_up (shr_m r1) (loc_of_shr_record r1)) as [? _]. assert (0 ≤ mx / 2 ^ K) by (apply Z.div_pos; lia). lia. }
  set (m' := round_nearest_even _ _) in *. clearbody m'. rewrite fexp_shift.
  destruct (record_of_loc m' loc_Exact) as [Hrm2 _].
  destruct (shr_spec (shr_record_of_loc m' loc_Exact) e1 (Z.max (Zdigits2 m' - 53) (-1074 - e1)) ltac:(rewrite Hrm2; lia)) as (He2 & Hm2 & _).
  destruct (shr (shr_record_of_loc m' loc_Exact) e1 _) as [r2 e2]. cbn [fst snd] in *. rewrite Hrm2 in Hm2.
  assert (Zdigits2 m' ≤ 54) as Hd'.
  { destruct (Z.eq_dec m' 0) as [->|]; [done|]. apply digits_le; [lia|done|]. change (2 ^ 54) with (2 * 2 ^ 53). lia. }
  set (K2 := Z.max 0 (Z.max (Zdigits2 m' - 53) (-1074 - e1))) in *.
  assert (0 ≤ K2 ≤ 1) as HK2 by lia. assert (0 < 2 ^ K2) as H2K2 by (apply Z.pow_pos_nonneg; lia).
  assert (shr_m r2 * 2 ^ K2 ≤ m') as Hle2 by (rewrite Hm2, Z.mul_comm; apply Z.mul_div_le; lia).
  assert (0 ≤ shr_m r2) as Hpos2 by (rewrite Hm2; apply Z.div_pos; lia).
  destruct (shr_m r2) as [|p|p] eqn:Ep; [done| |lia].
  assert (e2 ≤ g) as Heg.
  { destruct (Z.eq_dec K2 0) as [|Hne]; [lia|]. assert (53 < Zdigits2 m') as H54 by lia.
    assert (2 ^ 53 ≤ m') as Hbig.
    { destruct (Z.le_gt_cases (2 ^ 53) m') as [|Hlt]; [done|]. assert (Zdigits2 m' ≤ 53); [|lia].
      destruct (Z.eq_dec m' 0) as [->|]; [done|]. apply digits_le; lia. }
    destruct (Z.eq_dec (g - e1) 0) as [Hz|]; [|lia]. rewrite Hz, Z.pow_0_r in Hup. lia. }
  destruct (Z.leb_spec e2 (1024 - 53)); [|lia]. split; [done|].
  apply (Z.mul_le_mono_pos_r _ _ (2 ^ K2)); [done|]. rewrite <- Z.mul_assoc, <- Z.pow_add_r by lia.
  replace (g - e2 + K2) with (g - e1) by lia. lia.
Qed.

(** ** Normal results *)

(** A number of 53 digits. *)
Definition normal (x : float64) (m : positive) (e : Z) : Prop :=
  x = S754_finite false m e ∧ 2 ^ 52 ≤ Zpos m < 2 ^ 53.

Lemma round_normal mx ex lx : 2 ^ 52 ≤ mx → -1074 ≤ ex → Zdigits2 mx + ex ≤ 900 →
  ∃ m e, normal (binary_round_aux 53 1024 false mx ex lx) m e ∧ ex ≤ e ≤ ex + Zdigits2 mx - 52.
Proof.
  intros Hmx Hex Hd. assert (0 < mx) as H0 by lia. pose proof (digits_ge mx H0) as [Hd1 Hd2].
  assert (53 ≤ Zdigits2 mx) as H53.
  { destruct (Z.le_gt_cases 53 (Zdigits2 mx)); [done|]. assert (2 ^ Zdigits2 mx ≤ 2 ^ 52) by (apply Z.pow_le_mono_r; lia). lia. }
  unfold binary_round_aux, shr_fexp. rewrite fexp_shift. destruct (record_of_loc mx lx) as [Hrm Hrs].
  replace (Z.max (Zdigits2 mx - 53) (-1074 - ex)) with (Zdigits2 mx - 53) by lia.
  destruct (shr_spec (shr_record_of_loc mx lx) ex (Zdigits2 mx - 53) ltac:(rewrite Hrm; lia)) as (He1 & Hm1 & _).
  destruct (shr (shr_record_of_loc mx lx) ex (Zdigits2 mx - 53)) as [r1 e1]. cbn [fst snd] in *. rewrite Hrm in *.
  replace (Z.max 0 (Zdigits2 mx - 53)) with (Zdigits2 mx - 53) in * by lia.
  assert (2 ^ 52 ≤ shr_m r1 < 2 ^ 53) as Hm.
  { rewrite Hm1. assert (0 < 2 ^ (Zdigits2 mx - 53)) by (apply Z.pow_pos_nonneg; lia). split.
    - apply Z.div_le_lower_bound; [done|]. rewrite <- Z.pow_add_r by lia. by replace (Zdigits2 mx - 53 + 52) with (Zdigits2 mx - 1) by lia.
    - apply Z.div_lt_upper_bound; [done|]. rewrite <- Z.pow_add_r by lia. by replace (Zdigits2 mx - 53 + 53) with (Zdigits2 mx) by lia. }
  destruct (round_up (shr_m r1) (loc_of_shr_record r1)) as [Hup _]. set (m' := round_nearest_even _ _) in *. clearbody m'.
  rewrite fexp_shift. destruct (record_of_loc m' loc_Exact) as [Hrm2 _].
  destruct (Z.eq_dec m' (2 ^ 53)) as [->|Hne].
  - assert (Zdigits2 (2 ^ 53) = 54) as -> by done. replace (Z.max (54 - 53) (-1074 - e1)) with 1 by lia.
    change (shr (shr_record_of_loc (2 ^ 53) loc_Exact) e1 1) with (Build_shr_record (2 ^ 52) false false, e1 + 1). cbn [shr_m].
    destruct (Z.leb_spec (e1 + 1) (1024 - 53)); [|lia]. exists (Z.to_pos (2 ^ 52)), (e1 + 1). split; [split; [done|by vm_compute]|lia].
  - assert (Zdigits2 m' = 53) as -> by (apply digits_of; [done|]; change (53 - 1) with 52; lia).
    replace (Z.max (53 - 53) (-1074 - e1)) with 0 by lia. cbn [shr fst snd shr_record_of_loc shr_m].
    destruct m' as [|p|p] eqn:Ep; [lia| |lia]. destruct (Z.leb_spec e1 (1024 - 53)); [|lia].
    exists p, e1. split; [split; [done|lia]|lia].
Qed.

Lemma iter_xO n : ∀ m, Zpos (Pos.iter xO m n) = Zpos m * 2 ^ Zpos n.
Proof.
  induction n as [|n IH] using Pos.peano_ind; intros m; [change (2 ^ 1) with 2; cbn [Pos.iter]; lia|].
  rewrite Pos.iter_succ, Pos2Z.inj_succ, Z.pow_succ_r by lia. rewrite Pos2Z.inj_xO, IH. lia.
Qed.

Lemma shl_align_spec m e e' : ∃ p, shl_align m e e' = (p, Z.min e e') ∧ Zpos p = Zpos m * 2 ^ (e - Z.min e e').
Proof.
  unfold shl_align. destruct (e' - e) as [|d|d] eqn:E.
  - exists m. replace (Z.min e e') with e by lia. rewrite Z.sub_diag, Z.pow_0_r. split; [done|lia].
  - exists m. replace (Z.min e e') with e by lia. rewrite Z.sub_diag, Z.pow_0_r. split; [done|lia].
  - exists (Pos.iter xO m d). rewrite iter_xO. replace (Z.min e e') with e' by lia. replace (e - e') with (Zpos d) by lia. done.
Qed.

Lemma float_of_Z_normal z : 0 < z < 2 ^ 64 →
  ∃ m e, normal (float_of_Z z) m e ∧ -52 ≤ e ≤ 12 ∧ (z < 2 ^ 53 → e ≤ 0 ∧ Zpos m = z * 2 ^ (- e)).
Proof.
  intros Hz. unfold float_of_Z, binary_normalize, binary_round. destruct z as [|p|p]; try lia.
  pose proof (digits_spec p) as [Hd1 Hd2]. assert (Zdigits2 (Zpos p) ≤ 64) as Hd64 by (apply digits_le; lia). cbn [Zdigits2] in Hd64.
  destruct (shl_align_spec p 0 (fexp 53 1024 (Zpos (digits2_pos p) + 0))) as (mz & -> & Hmz).
  set (ez := Z.min 0 (fexp 53 1024 (Zpos (digits2_pos p) + 0))) in *.
  assert (ez = Z.min 0 (Zpos (digits2_pos p) - 53)) as Hez by (unfold ez, fexp, emin; lia). clearbody ez. rewrite Z.sub_0_l in Hmz.
  assert (0 < 2 ^ (- ez)) as Hpe by (apply Z.pow_pos_nonneg; lia).
  assert (2 ^ (Zpos (digits2_pos p) - 1 - ez) ≤ Zpos mz < 2 ^ (Zpos (digits2_pos p) - ez)) as [Hl Hu].
  { rewrite Hmz. replace (Zpos (digits2_pos p) - 1 - ez) with (Zpos (digits2_pos p) - 1 + - ez) by lia.
    replace (Zpos (digits2_pos p) - ez) with (Zpos (digits2_pos p) + - ez) by lia. rewrite !Z.pow_add_r by lia. nia. }
  assert (Zdigits2 (Zpos mz) = Zpos (digits2_pos p) - ez) as Hdm.
  { apply digits_of; [lia|]. by replace (Zpos (digits2_pos p) - ez - 1) with (Zpos (digits2_pos p) - 1 - ez) by lia. }
  assert (2 ^ 52 ≤ Zpos mz) as H52 by (etrans; [|exact Hl]; apply Z.pow_le_mono_r; lia).
  destruct (Z.lt_ge_cases (Zpos p) (2 ^ 53)) as [Hsmall|Hbig].
  - assert (Zdigits2 (Zpos p) ≤ 53) as Hd53 by (apply digits_le; lia). cbn [Zdigits2] in Hd53.
    exists mz, ez. split; [|split; [lia|]; intros _; split; [lia|done]].
    assert (Zpos mz < 2 ^ 53) as Hlt by (replace 53 with (Zpos (digits2_pos p) - ez) by lia; done). split; [|done].
    unfold binary_round_aux, shr_fexp. rewrite Hdm, fexp_shift.
    replace (Z.max (Zpos (digits2_pos p) - ez - 53) (-1074 - ez)) with 0 by lia. cbn [shr shr_record_of_loc shr_m loc_of_shr_record round_nearest_even].
    rewrite Hdm, fexp_shift. replace (Z.max (Zpos (digits2_pos p) - ez - 53) (-1074 - ez)) with 0 by lia. cbn [shr shr_m].
    destruct (Z.leb_spec ez (1024 - 53)); [done|lia].
  - destruct (round_normal (Zpos mz) ez loc_Exact H52 ltac:(lia) ltac:(lia)) as (m & e & Hn & He). exists m, e. split; [done|].
    assert (53 < Zpos (digits2_pos p)) as Hd.
    { destruct (Z.le_gt_cases (Zpos (digits2_pos p)) 53); [|done]. assert (2 ^ Zpos (digits2_pos p) ≤ 2 ^ 53) by (apply Z.pow_le_mono_r; lia). lia. }
    rewrite Hdm in He. split; [lia|]. intros. lia.
Qed.

(** ** Operations *)

Lemma new_location_exact n k : new_location n k = loc_Exact ↔ k = 0.
Proof.
  unfold new_location, new_location_even, new_location_odd. destruct (Z.even n), (Z.eqb_spec k 0) as [->|Hne]; by split.
Qed.

(** The quotient of two numbers of 53 digits: the integer quotient at 53 more digits. *)
Lemma fdiv_normal x mx ex y my ey : normal x mx ex → normal y my ey → -300 ≤ ex - ey ≤ 300 →
  ∃ q r, Zpos mx * 2 ^ 53 = q * Zpos my + r ∧ 0 ≤ r < Zpos my ∧ 2 ^ 52 ≤ q < 2 ^ 54 ∧
    fdiv x y = binary_round_aux 53 1024 false q (ex - ey - 53) (new_location (Zpos my) r).
Proof.
  intros [-> Hx] [-> Hy] He. unfold fdiv, SFdiv, SFdiv_core_binary.
  rewrite (digits_of (Zpos mx) 53), (digits_of (Zpos my) 53) by (change (53 - 1) with 52; lia).
  assert (Z.min (fexp 53 1024 (53 + ex - (53 + ey))) (ex - ey) = ex - ey - 53) as -> by (unfold fexp, emin; lia).
  replace (ex - ey - (ex - ey - 53)) with 53 by lia. rewrite Z.shiftl_mul_pow2 by lia.
  pose proof (Z_div_mod (Zpos mx * 2 ^ 53) (Zpos my) ltac:(lia)) as Hdiv.
  destruct (Z.div_eucl (Zpos mx * 2 ^ 53) (Zpos my)) as [q r]. destruct Hdiv as [Hq Hr].
  exists q, r. split_and!; [lia|lia|lia|nia|nia|done].
Qed.

Lemma fdiv_is_normal x mx ex y my ey : normal x mx ex → normal y my ey → -300 ≤ ex - ey ≤ 300 →
  ∃ m e, normal (fdiv x y) m e ∧ ex - ey - 53 ≤ e ≤ ex - ey - 51.
Proof.
  intros Hx Hy He. destruct (fdiv_normal x mx ex y my ey Hx Hy He) as (q & r & _ & _ & Hq & ->).
  assert (Zdigits2 q ≤ 54) as Hd by (apply digits_le; lia).
  destruct (round_normal q (ex - ey - 53) (new_location (Zpos my) r)) as (m & e & Hn & Hme); [lia|lia|lia|].
  exists m, e. split; [done|lia].
Qed.

Lemma fdiv_le x mx ex y my ey b g : normal x mx ex → normal y my ey → -300 ≤ ex - ey ≤ 300 →
  ex - ey - 52 ≤ g ≤ 900 → 0 ≤ b < 2 ^ 53 → Zpos mx * 2 ^ 53 ≤ b * Zpos my * 2 ^ (g - (ex - ey - 53)) →
  at_most (fdiv x y) b g.
Proof.
  intros Hx Hy He Hg Hb Hle. destruct (fdiv_normal x mx ex y my ey Hx Hy He) as (q & r & Heq & Hr & Hq & ->).
  assert (q * Zpos my + r ≤ b * 2 ^ (g - (ex - ey - 53)) * Zpos my) as Hqb.
  { rewrite <- Heq. lia. }
  apply round_le; [lia|lia|lia|lia| |lia| |].
  - eapply Z.lt_le_trans; [apply Hq|]. apply Z.pow_le_mono_r; lia.
  - nia.
  - destruct (Z.eq_dec r 0) as [->|Hne]; [left; by apply new_location_exact|right]. nia.
Qed.

Lemma fmul_le x m1 e1 y b c g : normal x m1 e1 → at_most y b g → 0 ≤ b → e1 ≤ 0 → -1074 ≤ g ≤ 900 → 0 ≤ c * b < 2 ^ 53 →
  Zpos m1 = c * 2 ^ (- e1) → at_most (fmul x y) (c * b) g.
Proof.
  intros [-> Hx] Hy Hb He1 Hg Hcb Hm1. destruct y as [s| | |s m2 e2]; cbn in Hy; try done.
  destruct s; [done|]. destruct Hy as [He2 Hm2]. cbn [fmul SFmul xorb].
  assert (0 < 2 ^ (- e1)) as H1 by (apply Z.pow_pos_nonneg; lia). assert (0 < 2 ^ (g - e2)) as H2 by (apply Z.pow_pos_nonneg; lia).
  assert (Zpos (m1 * m2) ≤ c * b * 2 ^ (g - (e1 + e2))) as Hle.
  { rewrite Pos2Z.inj_mul, Hm1. replace (g - (e1 + e2)) with (- e1 + (g - e2)) by lia. rewrite Z.pow_add_r by lia. nia. }
  apply round_le; [done|lia|lia|lia| |lia|done|by left].
  eapply Z.le_lt_trans; [exact Hle|]. replace (g + 53 - (e1 + e2)) with (53 + (g - (e1 + e2))) by lia. rewrite Z.pow_add_r by lia.
  apply Z.mul_lt_mono_pos_r; [apply Z.pow_pos_nonneg|]; lia.
Qed.

(** A number of 53 digits that is not above one, and its complement. *)
Lemma not_above_one x m e : normal x m e → flt (float_of_Z 1) x = false → e ≤ 0 ∧ Zpos m ≤ 2 ^ (- e).
Proof.
  intros [-> Hm] Hlt. assert (float_of_Z 1 = S754_finite false (Z.to_pos (2 ^ 52)) (-52)) as E by (vm_compute; reflexivity).
  rewrite E in Hlt. unfold flt, SFltb in Hlt. cbn [SFcompare] in Hlt.
  destruct (Z.compare_spec (-52) e) as [Heq|Hc|Hc]; [|done|].
  - subst e. split; [done|]. change (2 ^ (- (-52))) with (Zpos (Z.to_pos (2 ^ 52))).
    change (Pos.compare_cont Eq (Z.to_pos (2 ^ 52)) m) with (Pos.compare (Z.to_pos (2 ^ 52)) m) in Hlt.
    destruct (Pos.compare_spec (Z.to_pos (2 ^ 52)) m) as [<-| |]; [done|done|]. lia.
  - split; [lia|]. etrans; [apply Z.lt_le_incl, Hm|]. apply Z.pow_le_mono_r; lia.
Qed.

Lemma complement x m e : x = S754_finite false m e → -1074 ≤ e ≤ 0 → Zpos m ≤ 2 ^ (- e) → at_most (fsub (float_of_Z 1) x) 1 0.
Proof.
  intros -> He Hm. assert (float_of_Z 1 = S754_finite false (Z.to_pos (2 ^ 52)) (-52)) as -> by (vm_compute; reflexivity).
  unfold fsub. cbn [SFsub]. destruct (shl_align_spec (Z.to_pos (2 ^ 52)) (-52) (Z.min (-52) e)) as (p1 & -> & H1).
  destruct (shl_align_spec m e (Z.min (-52) e)) as (p2 & -> & H2). cbn [fst cond_Zopp].
  set (z := Z.min (-52) e) in *. replace (Z.min (-52) z) with z in * by lia. replace (Z.min e z) with z in * by lia.
  assert (Zpos p1 = 2 ^ (- z)) as Hp1.
  { rewrite H1. change (Z.pos (Z.to_pos (2 ^ 52))) with (2 ^ 52). rewrite <- Z.pow_add_r by lia. f_equal. lia. }
  assert (0 ≤ Zpos p1 - Zpos p2 ≤ 2 ^ (- z)) as Hd.
  { rewrite Hp1, H2. split; [|lia]. assert (0 < 2 ^ (e - z)) by (apply Z.pow_pos_nonneg; lia).
    replace (- z) with (- e + (e - z)) by lia. rewrite Z.pow_add_r by lia. nia. }
  unfold binary_normalize. destruct (Zpos p1 - Zpos p2) as [|p|p] eqn:Ep; [done| |lia]. unfold binary_round.
  destruct (shl_align_spec p z (fexp 53 1024 (Zpos (digits2_pos p) + z))) as (mz & -> & Hmz).
  set (ez := Z.min z _) in *. assert (ez ≤ z) as Hez by lia. clearbody ez.
  assert (Zpos mz ≤ 1 * 2 ^ (0 - ez)) as Hle.
  { rewrite Hmz, Z.mul_1_l. replace (0 - ez) with (- z + (z - ez)) by lia. rewrite Z.pow_add_r by lia.
    apply Z.mul_le_mono_nonneg_r; [apply Z.pow_nonneg|]; lia. }
  apply round_le; [done|lia|lia|lia| |done|done|by left].
  eapply Z.le_lt_trans; [exact Hle|]. rewrite Z.mul_1_l. apply Z.pow_lt_mono_r; lia.
Qed.

Lemma at_most_int_part x b g : at_most x b g → g < 0 → 0 ≤ b → 0 ≤ int_part x ∧ int_part x * 2 ^ (- g) ≤ b.
Proof.
  intros Hx Hg Hb. destruct x as [s| | |[] m e]; cbn in Hx; try done. destruct Hx as [He Hm]. unfold int_part.
  destruct (Z.leb_spec 0 e); [lia|]. assert (0 < 2 ^ (- e)) as H1 by (apply Z.pow_pos_nonneg; lia).
  assert (0 < 2 ^ (g - e)) as H2 by (apply Z.pow_pos_nonneg; lia). split; [apply Z.div_pos; lia|].
  pose proof (Z.mul_div_le (Zpos m) (2 ^ (- e)) H1) as Hd. replace (- e) with (- g + (g - e)) in Hd at 1 by lia.
  rewrite Z.pow_add_r in Hd by lia. nia.
Qed.

(** A valid number has at most 53 digits. *)
Lemma valid_digits s m e : valid_binary 53 1024 (S754_finite s m e) = true → Zpos m < 2 ^ 53 ∧ -1074 ≤ e.
Proof.
  cbn [valid_binary bounded]. unfold bounded, canonical_mantissa. intros [Hc%Z.eqb_eq _]%andb_true_iff. unfold fexp, emin in Hc.
  pose proof (digits_spec m) as [_ Hm]. split; [|lia]. eapply Z.lt_le_trans; [exact Hm|]. apply Z.pow_le_mono_r; lia.
Qed.

(** A valid number that compares below a number of 53 digits is below it. *)
Lemma not_above x s m e y my ey : x = S754_finite s m e → valid_binary 53 1024 x = true → normal y my ey → -1074 ≤ ey ≤ 0 →
  flt y x = false → int_part x ≤ int_part y.
Proof.
  intros -> Hv [-> Hy] Hey Hlt. destruct (valid_digits _ _ _ Hv) as [Hm He].
  assert (∀ n k, k ≤ 0 → 0 ≤ int_part (S754_finite false n k)) as Hpos.
  { intros n k Hk. cbn [int_part]. destruct (Z.leb_spec 0 k); [assert (k = 0) as -> by lia; lia|]. apply Z.div_pos; [lia|]. apply Z.pow_pos_nonneg; lia. }
  pose proof (Hpos my ey ltac:(lia)) as Hy0. destruct s.
  - assert (int_part (S754_finite true m e) ≤ 0); [|lia]. cbn [int_part].
    destruct (Z.leb_spec 0 e); [|assert (0 ≤ Zpos m / 2 ^ (- e)) by (apply Z.div_pos; [lia|apply Z.pow_pos_nonneg; lia]); lia].
    assert (0 < 2 ^ e) by (apply Z.pow_pos_nonneg; lia). nia.
  - unfold flt, SFltb in Hlt. cbn [SFcompare] in Hlt. destruct (Z.compare_spec ey e) as [Heq|Hc|Hc]; [|done|].
    + subst e. change (Pos.compare_cont Eq my m) with (Pos.compare my m) in Hlt.
      assert (Zpos m ≤ Zpos my) as Hle by (destruct (Pos.compare_spec my m); [subst; lia|done|lia]).
      cbn [int_part]. destruct (Z.leb_spec 0 ey); [assert (ey = 0) as -> by lia; lia|]. apply Z.div_le_mono; [apply Z.pow_pos_nonneg; lia|done].
    + assert (0 < 2 ^ (- ey)) as H1 by (apply Z.pow_pos_nonneg; lia). cbn [int_part]. destruct (Z.leb_spec 0 e); [lia|].
      assert (Zpos m / 2 ^ (- e) ≤ Zpos my / 2 ^ (- ey)) as Hd.
      { transitivity (Zpos m / 2 ^ (1 + - ey)).
        - apply Z.div_le_compat_l; [lia|]. split; [apply Z.pow_pos_nonneg; lia|apply Z.pow_le_mono_r; lia].
        - rewrite Z.pow_add_r by lia. change (2 ^ 1) with 2. rewrite <- Z.div_div by lia. apply Z.div_le_mono; [done|].
          change (2 ^ 53) with (2 * 2 ^ 52) in Hm. assert (Zpos m / 2 < 2 ^ 52) by (apply Z.div_lt_upper_bound; lia). lia. }
      destruct (Z.leb_spec 0 ey); [|done]. assert (ey = 0) as -> by lia. change (2 ^ (- 0)) with 1 in Hd. rewrite Z.div_1_r in Hd. lia.
Qed.
