(* ===== verification/Model.v ===== *)
(** * The data model of the control plane (backend/internal/controlplane/model.go)

    JSON values, the records of model.go with their field setters, the
    capability test [Can], and the external cryptographic primitives with the
    token and digest functions built on them. *)

From S2P Require Import Prelude GoBase GoStrings GoFloat.

(** ** Values of type [any] in decoded JSON messages

    [encoding/json] decodes numbers to [float64]; integers of type [int] occur
    only in maps the program builds itself. *)
Inductive value :=
| VNull
| VBool (b : bool)
| VNum (f : float64)
| VInt (n : Z)
| VStr (s : string)
| VList (l : list value)
| VMap (m : gmap string value).

Abbreviation vmap := (gmap string value) (only parsing).

Definition eq_true (v : option value) : bool :=
  match v with Some (VBool true) => true | _ => false end.
Definition eq_false (v : option value) : bool :=
  match v with Some (VBool false) => true | _ => false end.

(** [value, _ := message[key].(string)]. *)
Definition stringField (message : vmap) (key : string) : string :=
  match message !! key with Some (VStr s) => s | _ => "" end.

Definition mapField (message : vmap) (key : string) : option vmap :=
  match message !! key with Some (VMap m) => Some m | _ => None end.

Definition withClient (message : vmap) (clientID : string) : vmap :=
  <["client_id" := VStr clientID]> message.

(** A copy of a map with value semantics is the map itself. *)
Definition cloneMap (source : vmap) : vmap := source.

(** ** Roles, users and capabilities *)

(** [Role] is a string type: requests may carry any string. *)
Definition Role := string.
Definition RoleAdmin : Role := "admin".
Definition RoleUser : Role := "user".

Record OperationPermissions := MkPermissions {
  Shell : bool;
  FileLibrary : bool;
  BatchTasks : bool
}.

Definition no_permissions : OperationPermissions := MkPermissions false false false.

(** Model.User; [PasswordHash] and [TokenVersion] carry the tag json:-. *)
Record User := MkUser {
  uID : string;
  uUsername : string;
  uPasswordHash : string;
  uTokenVersion : Z;
  uRole : Role;
  uAssignedDevices : list string;
  uNote : string;
  uExpiresAt : option Time;
  uForbidBitrate : bool;
  uForbidFPS : bool;
  uForbidResolution : bool;
  uForbidAudio : bool;
  uSettings : vmap;
  uPermissions : OperationPermissions;
  uCreatedAt : Time
}.
Definition set_uID (g : string → string) (r : User) : User :=
    MkUser (g (uID r)) (uUsername r) (uPasswordHash r) (uTokenVersion r) (uRole r)
    (uAssignedDevices r) (uNote r) (uExpiresAt r) (uForbidBitrate r) (uForbidFPS r)
    (uForbidResolution r) (uForbidAudio r) (uSettings r) (uPermissions r) (uCreatedAt r).
Definition set_uUsername (g : string → string) (r : User) : User :=
    MkUser (uID r) (g (uUsername r)) (uPasswordHash r) (uTokenVersion r) (uRole r)
    (uAssignedDevices r) (uNote r) (uExpiresAt r) (uForbidBitrate r) (uForbidFPS r)
    (uForbidResolution r) (uForbidAudio r) (uSettings r) (uPermissions r) (uCreatedAt r).
Definition set_uPasswordHash (g : string → string) (r : User) : User :=
    MkUser (uID r) (uUsername r) (g (uPasswordHash r)) (uTokenVersion r) (uRole r)
    (uAssignedDevices r) (uNote r) (uExpiresAt r) (uForbidBitrate r) (uForbidFPS r)
    (uForbidResolution r) (uForbidAudio r) (uSettings r) (uPermissions r) (uCreatedAt r).
Definition set_uTokenVersion (g : Z → Z) (r : User) : User :=
    MkUser (uID r) (uUsername r) (uPasswordHash r) (g (uTokenVersion r)) (uRole r)
    (uAssignedDevices r) (uNote r) (uExpiresAt r) (uForbidBitrate r) (uForbidFPS r)
    (uForbidResolution r) (uForbidAudio r) (uSettings r) (uPermissions r) (uCreatedAt r).
Definition set_uRole (g : Role → Role) (r : User) : User :=
    MkUser (uID r) (uUsername r) (uPasswordHash r) (uTokenVersion r) (g (uRole r))
    (uAssignedDevices r) (uNote r) (uExpiresAt r) (uForbidBitrate r) (uForbidFPS r)
    (uForbidResolution r) (uForbidAudio r) (uSettings r) (uPermissions r) (uCreatedAt r).
Definition set_uAssignedDevices (g : (list string) → (list string)) (r : User) : User :=
    MkUser (uID r) (uUsername r) (uPasswordHash r) (uTokenVersion r) (uRole r) (g
    (uAssignedDevices r)) (uNote r) (uExpiresAt r) (uForbidBitrate r) (uForbidFPS r)
    (uForbidResolution r) (uForbidAudio r) (uSettings r) (uPermissions r) (uCreatedAt r).
Definition set_uNote (g : string → string) (r : User) : User :=
    MkUser (uID r) (uUsername r) (uPasswordHash r) (uTokenVersion r) (uRole r) (uAssignedDevices
    r) (g (uNote r)) (uExpiresAt r) (uForbidBitrate r) (uForbidFPS r) (uForbidResolution r)
    (uForbidAudio r) (uSettings r) (uPermissions r) (uCreatedAt r).
Definition set_uExpiresAt (g : (option Time) → (option Time)) (r : User) : User :=
    MkUser (uID r) (uUsername r) (uPasswordHash r) (uTokenVersion r) (uRole r) (uAssignedDevices
    r) (uNote r) (g (uExpiresAt r)) (uForbidBitrate r) (uForbidFPS r) (uForbidResolution r)
    (uForbidAudio r) (uSettings r) (uPermissions r) (uCreatedAt r).
Definition set_uForbidBitrate (g : bool → bool) (r : User) : User :=
    MkUser (uID r) (uUsername r) (uPasswordHash r) (uTokenVersion r) (uRole r) (uAssignedDevices
    r) (uNote r) (uExpiresAt r) (g (uForbidBitrate r)) (uForbidFPS r) (uForbidResolution r)
    (uForbidAudio r) (uSettings r) (uPermissions r) (uCreatedAt r).
Definition set_uForbidFPS (g : bool → bool) (r : User) : User :=
    MkUser (uID r) (uUsername r) (uPasswordHash r) (uTokenVersion r) (uRole r) (uAssignedDevices
    r) (uNote r) (uExpiresAt r) (uForbidBitrate r) (g (uForbidFPS r)) (uForbidResolution r)
    (uForbidAudio r) (uSettings r) (uPermissions r) (uCreatedAt r).
Definition set_uForbidResolution (g : bool → bool) (r : User) : User :=
    MkUser (uID r) (uUsername r) (uPasswordHash r) (uTokenVersion r) (uRole r) (uAssignedDevices
    r) (uNote r) (uExpiresAt r) (uForbidBitrate r) (uForbidFPS r) (g (uForbidResolution r))
    (uForbidAudio r) (uSettings r) (uPermissions r) (uCreatedAt r).
Definition set_uForbidAudio (g : bool → bool) (r : User) : User :=
    MkUser (uID r) (uUsername r) (uPasswordHash r) (uTokenVersion r) (uRole r) (uAssignedDevices
    r) (uNote r) (uExpiresAt r) (uForbidBitrate r) (uForbidFPS r) (uForbidResolution r) (g
    (uForbidAudio r)) (uSettings r) (uPermissions r) (uCreatedAt r).
Definition set_uSettings (g : vmap → vmap) (r : User) : User :=
    MkUser (uID r) (uUsername r) (uPasswordHash r) (uTokenVersion r) (uRole r) (uAssignedDevices
    r) (uNote r) (uExpiresAt r) (uForbidBitrate r) (uForbidFPS r) (uForbidResolution r)
    (uForbidAudio r) (g (uSettings r)) (uPermissions r) (uCreatedAt r).
Definition set_uPermissions (g : OperationPermissions → OperationPermissions) (r : User) : User :=
    MkUser (uID r) (uUsername r) (uPasswordHash r) (uTokenVersion r) (uRole r) (uAssignedDevices
    r) (uNote r) (uExpiresAt r) (uForbidBitrate r) (uForbidFPS r) (uForbidResolution r)
    (uForbidAudio r) (uSettings r) (g (uPermissions r)) (uCreatedAt r).
Definition set_uCreatedAt (g : Time → Time) (r : User) : User :=
    MkUser (uID r) (uUsername r) (uPasswordHash r) (uTokenVersion r) (uRole r) (uAssignedDevices
    r) (uNote r) (uExpiresAt r) (uForbidBitrate r) (uForbidFPS r) (uForbidResolution r)
    (uForbidAudio r) (uSettings r) (uPermissions r) (g (uCreatedAt r)).

(** The zero value [User{}]. *)
Definition User_zero : User :=
  MkUser "" "" "" 0 "" [] "" None false false false false ∅ no_permissions time_zero.

Definition is_admin (u : User) : bool := bool_decide (uRole u = RoleAdmin).

Definition Can (u : User) (operation : string) : bool :=
  if is_admin u then true
  else if decide (operation = "shell") then Shell (uPermissions u)
  else if decide (operation = "file_library") then FileLibrary (uPermissions u)
  else if decide (operation = "batch_tasks") then BatchTasks (uPermissions u)
  else false.

(** ** Devices, tags, shares *)

Record Display := MkDisplay {
  dispID : Z;
  dispXRes : Z;
  dispYRes : Z
}.

Record Camera := MkCamera {
  camID : string;
  camFacing : string;
  camXRes : Z;
  camYRes : Z;
  camZoomMin : float64;
  camZoomMax : float64
}.

Record DeviceInfo := MkDeviceInfo {
  iModel : string;
  iABI : string;
  iSDK : string;
  iAndroidVersion : string;
  iDisplays : list Display;
  iCameras : list Camera;
  iCapabilities : gmap string bool;
  iAgentVersion : string;
  iConnectionMode : string
}.

Definition DeviceInfo_zero : DeviceInfo := MkDeviceInfo "" "" "" "" [] [] ∅ "" "".

Record Device := MkDevice {
  dID : string;
  dInfo : DeviceInfo;
  dOnline : bool;
  dFirstSeen : Time;
  dLastSeen : Time;
  dClientCount : Z;
  dClients : list vmap;
  dSnapshotURL : string;
  dMetrics : vmap
}.
Definition set_dID (g : string → string) (r : Device) : Device :=
    MkDevice (g (dID r)) (dInfo r) (dOnline r) (dFirstSeen r) (dLastSeen r) (dClientCount r)
    (dClients r) (dSnapshotURL r) (dMetrics r).
Definition set_dInfo (g : DeviceInfo → DeviceInfo) (r : Device) : Device :=
    MkDevice (dID r) (g (dInfo r)) (dOnline r) (dFirstSeen r) (dLastSeen r) (dClientCount r)
    (dClients r) (dSnapshotURL r) (dMetrics r).
Definition set_dOnline (g : bool → bool) (r : Device) : Device :=
    MkDevice (dID r) (dInfo r) (g (dOnline r)) (dFirstSeen r) (dLastSeen r) (dClientCount r)
    (dClients r) (dSnapshotURL r) (dMetrics r).
Definition set_dFirstSeen (g : Time → Time) (r : Device) : Device :=
    MkDevice (dID r) (dInfo r) (dOnline r) (g (dFirstSeen r)) (dLastSeen r) (dClientCount r)
    (dClients r) (dSnapshotURL r) (dMetrics r).
Definition set_dLastSeen (g : Time → Time) (r : Device) : Device :=
    MkDevice (dID r) (dInfo r) (dOnline r) (dFirstSeen r) (g (dLastSeen r)) (dClientCount r)
    (dClients r) (dSnapshotURL r) (dMetrics r).
Definition set_dClientCount (g : Z → Z) (r : Device) : Device :=
    MkDevice (dID r) (dInfo r) (dOnline r) (dFirstSeen r) (dLastSeen r) (g (dClientCount r))
    (dClients r) (dSnapshotURL r) (dMetrics r).
Definition set_dClients (g : (list vmap) → (list vmap)) (r : Device) : Device :=
    MkDevice (dID r) (dInfo r) (dOnline r) (dFirstSeen r) (dLastSeen r) (dClientCount r) (g
    (dClients r)) (dSnapshotURL r) (dMetrics r).
Definition set_dSnapshotURL (g : string → string) (r : Device) : Device :=
    MkDevice (dID r) (dInfo r) (dOnline r) (dFirstSeen r) (dLastSeen r) (dClientCount r)
    (dClients r) (g (dSnapshotURL r)) (dMetrics r).
Definition set_dMetrics (g : vmap → vmap) (r : Device) : Device :=
    MkDevice (dID r) (dInfo r) (dOnline r) (dFirstSeen r) (dLastSeen r) (dClientCount r)
    (dClients r) (dSnapshotURL r) (g (dMetrics r)).

Record Tag := MkTag {
  tagID : string;
  tagName : string;
  tagColor : string;
  tagIcon : string
}.
Definition set_tagID (g : string → string) (r : Tag) : Tag :=
  MkTag (g (tagID r)) (tagName r) (tagColor r) (tagIcon r).
Definition set_tagName (g : string → string) (r : Tag) : Tag :=
  MkTag (tagID r) (g (tagName r)) (tagColor r) (tagIcon r).
Definition set_tagColor (g : string → string) (r : Tag) : Tag :=
  MkTag (tagID r) (tagName r) (g (tagColor r)) (tagIcon r).
Definition set_tagIcon (g : string → string) (r : Tag) : Tag :=
  MkTag (tagID r) (tagName r) (tagColor r) (g (tagIcon r)).

(** Model.Share; [PasswordHash] carries the tag json:-. *)
Record Share := MkShare {
  shToken : string;
  shCardCode : string;
  shDeviceID : string;
  shViewOnly : bool;
  shPasswordHash : string;
  shDescription : string;
  shExpiresAt : option Time;
  shCreatedBy : string;
  shCreatedAt : Time;
  shForbidBitrate : bool;
  shForbidFPS : bool;
  shForbidResolution : bool;
  shForbidAudio : bool;
  shGuestSettings : vmap
}.
Definition set_shToken (g : string → string) (r : Share) : Share :=
    MkShare (g (shToken r)) (shCardCode r) (shDeviceID r) (shViewOnly r) (shPasswordHash r)
    (shDescription r) (shExpiresAt r) (shCreatedBy r) (shCreatedAt r) (shForbidBitrate r)
    (shForbidFPS r) (shForbidResolution r) (shForbidAudio r) (shGuestSettings r).
Definition set_shCardCode (g : string → string) (r : Share) : Share :=
    MkShare (shToken r) (g (shCardCode r)) (shDeviceID r) (shViewOnly r) (shPasswordHash r)
    (shDescription r) (shExpiresAt r) (shCreatedBy r) (shCreatedAt r) (shForbidBitrate r)
    (shForbidFPS r) (shForbidResolution r) (shForbidAudio r) (shGuestSettings r).
Definition set_shDeviceID (g : string → string) (r : Share) : Share :=
    MkShare (shToken r) (shCardCode r) (g (shDeviceID r)) (shViewOnly r) (shPasswordHash r)
    (shDescription r) (shExpiresAt r) (shCreatedBy r) (shCreatedAt r) (shForbidBitrate r)
    (shForbidFPS r) (shForbidResolution r) (shForbidAudio r) (shGuestSettings r).
Definition set_shViewOnly (g : bool → bool) (r : Share) : Share :=
    MkShare (shToken r) (shCardCode r) (shDeviceID r) (g (shViewOnly r)) (shPasswordHash r)
    (shDescription r) (shExpiresAt r) (shCreatedBy r) (shCreatedAt r) (shForbidBitrate r)
    (shForbidFPS r) (shForbidResolution r) (shForbidAudio r) (shGuestSettings r).
Definition set_shPasswordHash (g : string → string) (r : Share) : Share :=
    MkShare (shToken r) (shCardCode r) (shDeviceID r) (shViewOnly r) (g (shPasswordHash r))
    (shDescription r) (shExpiresAt r) (shCreatedBy r) (shCreatedAt r) (shForbidBitrate r)
    (shForbidFPS r) (shForbidResolution r) (shForbidAudio r) (shGuestSettings r).
Definition set_shDescription (g : string → string) (r : Share) : Share :=
    MkShare (shToken r) (shCardCode r) (shDeviceID r) (shViewOnly r) (shPasswordHash r) (g
    (shDescription r)) (shExpiresAt r) (shCreatedBy r) (shCreatedAt r) (shForbidBitrate r)
    (shForbidFPS r) (shForbidResolution r) (shForbidAudio r) (shGuestSettings r).
Definition set_shExpiresAt (g : (option Time) → (option Time)) (r : Share) : Share :=
    MkShare (shToken r) (shCardCode r) (shDeviceID r) (shViewOnly r) (shPasswordHash r)
    (shDescription r) (g (shExpiresAt r)) (shCreatedBy r) (shCreatedAt r) (shForbidBitrate r)
    (shForbidFPS r) (shForbidResolution r) (shForbidAudio r) (shGuestSettings r).
Definition set_shCreatedBy (g : string → string) (r : Share) : Share :=
    MkShare (shToken r) (shCardCode r) (shDeviceID r) (shViewOnly r) (shPasswordHash r)
    (shDescription r) (shExpiresAt r) (g (shCreatedBy r)) (shCreatedAt r) (shForbidBitrate r)
    (shForbidFPS r) (shForbidResolution r) (shForbidAudio r) (shGuestSettings r).
Definition set_shCreatedAt (g : Time → Time) (r : Share) : Share :=
    MkShare (shToken r) (shCardCode r) (shDeviceID r) (shViewOnly r) (shPasswordHash r)
    (shDescription r) (shExpiresAt r) (shCreatedBy r) (g (shCreatedAt r)) (shForbidBitrate r)
    (shForbidFPS r) (shForbidResolution r) (shForbidAudio r) (shGuestSettings r).
Definition set_shForbidBitrate (g : bool → bool) (r : Share) : Share :=
    MkShare (shToken r) (shCardCode r) (shDeviceID r) (shViewOnly r) (shPasswordHash r)
    (shDescription r) (shExpiresAt r) (shCreatedBy r) (shCreatedAt r) (g (shForbidBitrate r))
    (shForbidFPS r) (shForbidResolution r) (shForbidAudio r) (shGuestSettings r).
Definition set_shForbidFPS (g : bool → bool) (r : Share) : Share :=
    MkShare (shToken r) (shCardCode r) (shDeviceID r) (shViewOnly r) (shPasswordHash r)
    (shDescription r) (shExpiresAt r) (shCreatedBy r) (shCreatedAt r) (shForbidBitrate r) (g
    (shForbidFPS r)) (shForbidResolution r) (shForbidAudio r) (shGuestSettings r).
Definition set_shForbidResolution (g : bool → bool) (r : Share) : Share :=
    MkShare (shToken r) (shCardCode r) (shDeviceID r) (shViewOnly r) (shPasswordHash r)
    (shDescription r) (shExpiresAt r) (shCreatedBy r) (shCreatedAt r) (shForbidBitrate r)
    (shForbidFPS r) (g (shForbidResolution r)) (shForbidAudio r) (shGuestSettings r).
Definition set_shForbidAudio (g : bool → bool) (r : Share) : Share :=
    MkShare (shToken r) (shCardCode r) (shDeviceID r) (shViewOnly r) (shPasswordHash r)
    (shDescription r) (shExpiresAt r) (shCreatedBy r) (shCreatedAt r) (shForbidBitrate r)
    (shForbidFPS r) (shForbidResolution r) (g (shForbidAudio r)) (shGuestSettings r).
Definition set_shGuestSettings (g : vmap → vmap) (r : Share) : Share :=
    MkShare (shToken r) (shCardCode r) (shDeviceID r) (shViewOnly r) (shPasswordHash r)
    (shDescription r) (shExpiresAt r) (shCreatedBy r) (shCreatedAt r) (shForbidBitrate r)
    (shForbidFPS r) (shForbidResolution r) (shForbidAudio r) (g (shGuestSettings r)).

(** ** Enrollment and credentials *)

Record Enrollment := MkEnrollment {
  enToken : string;
  enExpiresAt : Time;
  enDeviceID : string;
  enDeploymentCredentialID : string
}.
Definition set_enToken (g : string → string) (r : Enrollment) : Enrollment :=
  MkEnrollment (g (enToken r)) (enExpiresAt r) (enDeviceID r) (enDeploymentCredentialID r).
Definition set_enExpiresAt (g : Time → Time) (r : Enrollment) : Enrollment :=
  MkEnrollment (enToken r) (g (enExpiresAt r)) (enDeviceID r) (enDeploymentCredentialID r).
Definition set_enDeviceID (g : string → string) (r : Enrollment) : Enrollment :=
  MkEnrollment (enToken r) (enExpiresAt r) (g (enDeviceID r)) (enDeploymentCredentialID r).
Definition set_enDeploymentCredentialID (g : string → string) (r : Enrollment) : Enrollment :=
  MkEnrollment (enToken r) (enExpiresAt r) (enDeviceID r) (g (enDeploymentCredentialID r)).

Record DeploymentCredential := MkDeploymentCredential {
  dcID : string;
  dcName : string;
  dcScope : string;
  dcCreatedBy : string;
  dcCreatedAt : Time;
  dcExpiresAt : option Time;
  dcRevokedAt : option Time;
  dcLastUsedAt : option Time
}.
Definition set_dcID (g : string → string) (r : DeploymentCredential) : DeploymentCredential :=
    MkDeploymentCredential (g (dcID r)) (dcName r) (dcScope r) (dcCreatedBy r) (dcCreatedAt r)
    (dcExpiresAt r) (dcRevokedAt r) (dcLastUsedAt r).
Definition set_dcName (g : string → string) (r : DeploymentCredential) : DeploymentCredential :=
    MkDeploymentCredential (dcID r) (g (dcName r)) (dcScope r) (dcCreatedBy r) (dcCreatedAt r)
    (dcExpiresAt r) (dcRevokedAt r) (dcLastUsedAt r).
Definition set_dcScope (g : string → string) (r : DeploymentCredential) : DeploymentCredential :=
    MkDeploymentCredential (dcID r) (dcName r) (g (dcScope r)) (dcCreatedBy r) (dcCreatedAt r)
    (dcExpiresAt r) (dcRevokedAt r) (dcLastUsedAt r).
Definition set_dcCreatedBy (g : string → string) (r : DeploymentCredential) : DeploymentCredential :=
    MkDeploymentCredential (dcID r) (dcName r) (dcScope r) (g (dcCreatedBy r)) (dcCreatedAt r)
    (dcExpiresAt r) (dcRevokedAt r) (dcLastUsedAt r).
Definition set_dcCreatedAt (g : Time → Time) (r : DeploymentCredential) : DeploymentCredential :=
    MkDeploymentCredential (dcID r) (dcName r) (dcScope r) (dcCreatedBy r) (g (dcCreatedAt r))
    (dcExpiresAt r) (dcRevokedAt r) (dcLastUsedAt r).
Definition set_dcExpiresAt (g : (option Time) → (option Time)) (r : DeploymentCredential) : DeploymentCredential :=
    MkDeploymentCredential (dcID r) (dcName r) (dcScope r) (dcCreatedBy r) (dcCreatedAt r) (g
    (dcExpiresAt r)) (dcRevokedAt r) (dcLastUsedAt r).
Definition set_dcRevokedAt (g : (option Time) → (option Time)) (r : DeploymentCredential) : DeploymentCredential :=
    MkDeploymentCredential (dcID r) (dcName r) (dcScope r) (dcCreatedBy r) (dcCreatedAt r)
    (dcExpiresAt r) (g (dcRevokedAt r)) (dcLastUsedAt r).
Definition set_dcLastUsedAt (g : (option Time) → (option Time)) (r : DeploymentCredential) : DeploymentCredential :=
    MkDeploymentCredential (dcID r) (dcName r) (dcScope r) (dcCreatedBy r) (dcCreatedAt r)
    (dcExpiresAt r) (dcRevokedAt r) (g (dcLastUsedAt r)).

Record AgentCredential := MkAgentCredential {
  acToken : string;
  acDeviceID : string
}.
Definition set_acToken (g : string → string) (r : AgentCredential) : AgentCredential :=
  MkAgentCredential (g (acToken r)) (acDeviceID r).
Definition set_acDeviceID (g : string → string) (r : AgentCredential) : AgentCredential :=
  MkAgentCredential (acToken r) (g (acDeviceID r)).

(** ** Shortcuts, assets, tasks, audit events *)

Record Shortcut := MkShortcut {
  scName : string;
  scCmd : string
}.

(** Model.Asset; [Path] carries the tag json:-. *)
Record Asset := MkAsset {
  asID : string;
  asName : string;
  asPath : string;
  asSHA256 : string;
  asSize : Z;
  asCreatedBy : string;
  asCreatedAt : Time
}.
Definition set_asID (g : string → string) (r : Asset) : Asset :=
    MkAsset (g (asID r)) (asName r) (asPath r) (asSHA256 r) (asSize r) (asCreatedBy r)
    (asCreatedAt r).
Definition set_asName (g : string → string) (r : Asset) : Asset :=
    MkAsset (asID r) (g (asName r)) (asPath r) (asSHA256 r) (asSize r) (asCreatedBy r)
    (asCreatedAt r).
Definition set_asPath (g : string → string) (r : Asset) : Asset :=
    MkAsset (asID r) (asName r) (g (asPath r)) (asSHA256 r) (asSize r) (asCreatedBy r)
    (asCreatedAt r).
Definition set_asSHA256 (g : string → string) (r : Asset) : Asset :=
    MkAsset (asID r) (asName r) (asPath r) (g (asSHA256 r)) (asSize r) (asCreatedBy r)
    (asCreatedAt r).
Definition set_asSize (g : Z → Z) (r : Asset) : Asset :=
    MkAsset (asID r) (asName r) (asPath r) (asSHA256 r) (g (asSize r)) (asCreatedBy r)
    (asCreatedAt r).
Definition set_asCreatedBy (g : string → string) (r : Asset) : Asset :=
    MkAsset (asID r) (asName r) (asPath r) (asSHA256 r) (asSize r) (g (asCreatedBy r))
    (asCreatedAt r).
Definition set_asCreatedAt (g : Time → Time) (r : Asset) : Asset :=
    MkAsset (asID r) (asName r) (asPath r) (asSHA256 r) (asSize r) (asCreatedBy r) (g
    (asCreatedAt r)).

Inductive TaskStatus :=
| TaskQueued | TaskLeased | TaskRunning | TaskSuccess | TaskFailed | TaskUnknown | TaskExpired.

#[export] Instance TaskStatus_eq_dec : EqDecision TaskStatus.
Proof. solve_decision. Defined.

Record TaskDevice := MkTaskDevice {
  tdDeviceID : string;
  tdStatus : TaskStatus;
  tdResult : string;
  tdUpdatedAt : Time
}.
Definition set_tdDeviceID (g : string → string) (r : TaskDevice) : TaskDevice :=
  MkTaskDevice (g (tdDeviceID r)) (tdStatus r) (tdResult r) (tdUpdatedAt r).
Definition set_tdStatus (g : TaskStatus → TaskStatus) (r : TaskDevice) : TaskDevice :=
  MkTaskDevice (tdDeviceID r) (g (tdStatus r)) (tdResult r) (tdUpdatedAt r).
Definition set_tdResult (g : string → string) (r : TaskDevice) : TaskDevice :=
  MkTaskDevice (tdDeviceID r) (tdStatus r) (g (tdResult r)) (tdUpdatedAt r).
Definition set_tdUpdatedAt (g : Time → Time) (r : TaskDevice) : TaskDevice :=
  MkTaskDevice (tdDeviceID r) (tdStatus r) (tdResult r) (g (tdUpdatedAt r)).

(** Model.Task; [Payload] carries the tag json:-. *)
Record Task := MkTask {
  tID : string;
  tType : string;
  tPayload : string;
  tAssetID : string;
  tDestPath : string;
  tCreatedBy : string;
  tCreatedAt : Time;
  tExpiresAt : Time;
  tDevices : gmap string TaskDevice
}.
Definition set_tID (g : string → string) (r : Task) : Task :=
    MkTask (g (tID r)) (tType r) (tPayload r) (tAssetID r) (tDestPath r) (tCreatedBy r)
    (tCreatedAt r) (tExpiresAt r) (tDevices r).
Definition set_tType (g : string → string) (r : Task) : Task :=
    MkTask (tID r) (g (tType r)) (tPayload r) (tAssetID r) (tDestPath r) (tCreatedBy r)
    (tCreatedAt r) (tExpiresAt r) (tDevices r).
Definition set_tPayload (g : string → string) (r : Task) : Task :=
    MkTask (tID r) (tType r) (g (tPayload r)) (tAssetID r) (tDestPath r) (tCreatedBy r)
    (tCreatedAt r) (tExpiresAt r) (tDevices r).
Definition set_tAssetID (g : string → string) (r : Task) : Task :=
    MkTask (tID r) (tType r) (tPayload r) (g (tAssetID r)) (tDestPath r) (tCreatedBy r)
    (tCreatedAt r) (tExpiresAt r) (tDevices r).
Definition set_tDestPath (g : string → string) (r : Task) : Task :=
    MkTask (tID r) (tType r) (tPayload r) (tAssetID r) (g (tDestPath r)) (tCreatedBy r)
    (tCreatedAt r) (tExpiresAt r) (tDevices r).
Definition set_tCreatedBy (g : string → string) (r : Task) : Task :=
    MkTask (tID r) (tType r) (tPayload r) (tAssetID r) (tDestPath r) (g (tCreatedBy r))
    (tCreatedAt r) (tExpiresAt r) (tDevices r).
Definition set_tCreatedAt (g : Time → Time) (r : Task) : Task :=
    MkTask (tID r) (tType r) (tPayload r) (tAssetID r) (tDestPath r) (tCreatedBy r) (g
    (tCreatedAt r)) (tExpiresAt r) (tDevices r).
Definition set_tExpiresAt (g : Time → Time) (r : Task) : Task :=
    MkTask (tID r) (tType r) (tPayload r) (tAssetID r) (tDestPath r) (tCreatedBy r) (tCreatedAt
    r) (g (tExpiresAt r)) (tDevices r).
Definition set_tDevices (g : (gmap string TaskDevice) → (gmap string TaskDevice)) (r : Task) : Task :=
    MkTask (tID r) (tType r) (tPayload r) (tAssetID r) (tDestPath r) (tCreatedBy r) (tCreatedAt
    r) (tExpiresAt r) (g (tDevices r)).

Record AuditEvent := MkAuditEvent {
  auID : string;
  auActor : string;
  auAction : string;
  auTarget : string;
  auMetadata : vmap;
  auCreatedAt : Time
}.
Definition set_auID (g : string → string) (r : AuditEvent) : AuditEvent :=
  MkAuditEvent (g (auID r)) (auActor r) (auAction r) (auTarget r) (auMetadata r) (auCreatedAt r).
Definition set_auActor (g : string → string) (r : AuditEvent) : AuditEvent :=
  MkAuditEvent (auID r) (g (auActor r)) (auAction r) (auTarget r) (auMetadata r) (auCreatedAt r).
Definition set_auAction (g : string → string) (r : AuditEvent) : AuditEvent :=
  MkAuditEvent (auID r) (auActor r) (g (auAction r)) (auTarget r) (auMetadata r) (auCreatedAt r).
Definition set_auTarget (g : string → string) (r : AuditEvent) : AuditEvent :=
  MkAuditEvent (auID r) (auActor r) (auAction r) (g (auTarget r)) (auMetadata r) (auCreatedAt r).
Definition set_auMetadata (g : vmap → vmap) (r : AuditEvent) : AuditEvent :=
  MkAuditEvent (auID r) (auActor r) (auAction r) (auTarget r) (g (auMetadata r)) (auCreatedAt r).
Definition set_auCreatedAt (g : Time → Time) (r : AuditEvent) : AuditEvent :=
  MkAuditEvent (auID r) (auActor r) (auAction r) (auTarget r) (auMetadata r) (g (auCreatedAt r)).

#[export] Instance OperationPermissions_eq_dec : EqDecision OperationPermissions.
Proof. solve_decision. Defined.
#[export] Instance Shortcut_eq_dec : EqDecision Shortcut.
Proof. solve_decision. Defined.
#[export] Instance Asset_eq_dec : EqDecision Asset.
Proof. solve_decision. Defined.
#[export] Instance TaskDevice_eq_dec : EqDecision TaskDevice.
Proof. solve_decision. Defined.
#[export] Instance Task_eq_dec : EqDecision Task.
Proof. solve_decision. Defined.

(** ** Cryptographic primitives

    SHA-256, HMAC-SHA-256 and bcrypt are parameters.  [bcrypt_generate] takes
    the random salt and fails on passwords it refuses. *)
Class Crypto := {
  sha256 : bytes → bytes;
  hmac_sha256 : bytes → bytes → bytes;
  bcrypt_generate : bytes → string → option string;
  bcrypt_compare : string → string → bool
}.

(** What the program relies on: a generated hash is not empty and verifies the
    password it was generated from. *)
Class CryptoLaws (C : Crypto) := {
  bcrypt_generate_compare salt p h : bcrypt_generate salt p = Some h → bcrypt_compare h p = true;
  bcrypt_generate_nonempty salt p h : bcrypt_generate salt p = Some h → h ≠ ""
}.

(** The 24 random bytes are an argument of the functions that draw them. *)
Definition randomToken (buf : bytes) : string := bytes_str (b64url_encode buf).
Definition randomID (buf : bytes) : string := take_string 16 (randomToken buf).

Definition tokenDigest `{Crypto} (token : string) : string :=
  bytes_str (b64url_encode (sha256 (str_bytes token))).

(** A concrete instance for evaluating the definitions: a digest that keeps the
    text and a password hash that keeps the password. *)
Module ToyCrypto.
#[export] Instance toy : Crypto := {|
  sha256 l := l;
  hmac_sha256 k l := k ++ l;
  bcrypt_generate _ p := Some ("$" +:+ p);
  bcrypt_compare h p := bool_decide (h = "$" +:+ p)
|}.

#[export] Instance toy_laws : CryptoLaws toy.
Proof.
  split; simpl; intros salt p h [= <-]; [by apply bool_decide_eq_true|done].
Qed.
End ToyCrypto.

(** ** Lemmas *)

Lemma randomToken_length buf : length buf = 24%nat → String.length (randomToken buf) = 32%nat.
Proof.
  intros H. unfold randomToken. rewrite <-length_str_bytes, str_bytes_str.
  by apply b64url_encode_length_24.
Qed.

Lemma take_string_length n s : (n ≤ String.length s)%nat → String.length (take_string n s) = n.
Proof. revert s. induction n; intros [|a s] H; simpl in *; try lia. f_equal. apply IHn. lia. Qed.

Lemma randomID_length buf : length buf = 24%nat → String.length (randomID buf) = 16%nat.
Proof. intros H. apply take_string_length. rewrite randomToken_length by done. lia. Qed.

Lemma randomID_nonempty buf : length buf = 24%nat → randomID buf ≠ "".
Proof. intros H E. apply randomID_length in H. by rewrite E in H. Qed.

Lemma randomToken_nonempty buf : length buf = 24%nat → randomToken buf ≠ "".
Proof. intros H E. apply randomToken_length in H. by rewrite E in H. Qed.

Lemma randomToken_no_dot buf : ch "." ∉ str_bytes (randomToken buf).
Proof. unfold randomToken. rewrite str_bytes_str. apply b64url_encode_no_dot. Qed.

Lemma randomID_no_dot buf : ch "." ∉ str_bytes (randomID buf).
Proof.
  unfold randomID. rewrite str_bytes_take. intros Hin.
  apply (randomToken_no_dot buf). by eapply elem_of_take in Hin as (i & Hi & _); eapply list_elem_of_lookup_2.
Qed.

Lemma Can_admin u operation : is_admin u = true → Can u operation = true.
Proof. unfold Can. by intros ->. Qed.

#[export] Hint Resolve randomID_length randomToken_length randomID_nonempty
  randomToken_nonempty randomToken_no_dot randomID_no_dot : go.
