(* ===== verification/Store.v ===== *)
(** * The state of the in-memory store (backend/internal/controlplane/store.go)

    [MemoryStore] with its field setters, and the access check and audit helper
    that every group of operations uses.  The operations themselves are in
    Users.v, Devices.v, Shares.v, Enrollments.v, Assets.v and Tasks.v.

    An operation runs under the store's mutex, so it is one atomic function of
    the state.  It takes the instant at which it runs ([now]) and the random
    bytes it draws as arguments, and returns its result with the new state. *)

From S2P Require Import Prelude GoBase GoStrings Model.

(** The durable record of a deployment credential: metadata and token hash. *)
Record storedDeploymentCredential := MkStored {
  sdCredential : DeploymentCredential;
  sdTokenHash : string
}.

Record MemoryStore := MkMemoryStore {
  ms_users : gmap string User;
  ms_usersByName : gmap string string;
  ms_devices : gmap string Device;
  ms_tags : gmap string Tag;
  ms_deviceTags : gmap string (gset string);
  ms_shares : gmap string Share;
  ms_deploymentCredentials : gmap string storedDeploymentCredential;
  ms_enrollments : gmap string Enrollment;
  ms_agentCredentials : gmap string AgentCredential;
  ms_defaultSettings : vmap;
  ms_deviceSettings : gmap string vmap;
  ms_shortcuts : gmap string (list Shortcut);
  ms_assets : gmap string Asset;
  ms_assetsByName : gmap string string;
  ms_tasks : gmap string Task;
  ms_audits : list AuditEvent;
  ms_healthErr : option error;
  ms_revokedUserTokens : gmap string Time
}.
Definition set_ms_users (g : (gmap string User) → (gmap string User)) (r : MemoryStore) : MemoryStore :=
    MkMemoryStore (g (ms_users r)) (ms_usersByName r) (ms_devices r) (ms_tags r) (ms_deviceTags
    r) (ms_shares r) (ms_deploymentCredentials r) (ms_enrollments r) (ms_agentCredentials r)
    (ms_defaultSettings r) (ms_deviceSettings r) (ms_shortcuts r) (ms_assets r) (ms_assetsByName
    r) (ms_tasks r) (ms_audits r) (ms_healthErr r) (ms_revokedUserTokens r).
Definition set_ms_usersByName (g : (gmap string string) → (gmap string string)) (r : MemoryStore) : MemoryStore :=
    MkMemoryStore (ms_users r) (g (ms_usersByName r)) (ms_devices r) (ms_tags r) (ms_deviceTags
    r) (ms_shares r) (ms_deploymentCredentials r) (ms_enrollments r) (ms_agentCredentials r)
    (ms_defaultSettings r) (ms_deviceSettings r) (ms_shortcuts r) (ms_assets r) (ms_assetsByName
    r) (ms_tasks r) (ms_audits r) (ms_healthErr r) (ms_revokedUserTokens r).
Definition set_ms_devices (g : (gmap string Device) → (gmap string Device)) (r : MemoryStore) : MemoryStore :=
    MkMemoryStore (ms_users r) (ms_usersByName r) (g (ms_devices r)) (ms_tags r) (ms_deviceTags
    r) (ms_shares r) (ms_deploymentCredentials r) (ms_enrollments r) (ms_agentCredentials r)
    (ms_defaultSettings r) (ms_deviceSettings r) (ms_shortcuts r) (ms_assets r) (ms_assetsByName
    r) (ms_tasks r) (ms_audits r) (ms_healthErr r) (ms_revokedUserTokens r).
Definition set_ms_tags (g : (gmap string Tag) → (gmap string Tag)) (r : MemoryStore) : MemoryStore :=
    MkMemoryStore (ms_users r) (ms_usersByName r) (ms_devices r) (g (ms_tags r)) (ms_deviceTags
    r) (ms_shares r) (ms_deploymentCredentials r) (ms_enrollments r) (ms_agentCredentials r)
    (ms_defaultSettings r) (ms_deviceSettings r) (ms_shortcuts r) (ms_assets r) (ms_assetsByName
    r) (ms_tasks r) (ms_audits r) (ms_healthErr r) (ms_revokedUserTokens r).
Definition set_ms_deviceTags (g : (gmap string (gset string)) → (gmap string (gset string))) (r : MemoryStore) : MemoryStore :=
    MkMemoryStore (ms_users r) (ms_usersByName r) (ms_devices r) (ms_tags r) (g (ms_deviceTags
    r)) (ms_shares r) (ms_deploymentCredentials r) (ms_enrollments r) (ms_agentCredentials r)
    (ms_defaultSettings r) (ms_deviceSettings r) (ms_shortcuts r) (ms_assets r) (ms_assetsByName
    r) (ms_tasks r) (ms_audits r) (ms_healthErr r) (ms_revokedUserTokens r).
Definition set_ms_shares (g : (gmap string Share) → (gmap string Share)) (r : MemoryStore) : MemoryStore :=
    MkMemoryStore (ms_users r) (ms_usersByName r) (ms_devices r) (ms_tags r) (ms_deviceTags r)
    (g (ms_shares r)) (ms_deploymentCredentials r) (ms_enrollments r) (ms_agentCredentials r)
    (ms_defaultSettings r) (ms_deviceSettings r) (ms_shortcuts r) (ms_assets r) (ms_assetsByName
    r) (ms_tasks r) (ms_audits r) (ms_healthErr r) (ms_revokedUserTokens r).
Definition set_ms_deploymentCredentials (g : (gmap string storedDeploymentCredential) → (gmap string storedDeploymentCredential)) (r : MemoryStore) : MemoryStore :=
    MkMemoryStore (ms_users r) (ms_usersByName r) (ms_devices r) (ms_tags r) (ms_deviceTags r)
    (ms_shares r) (g (ms_deploymentCredentials r)) (ms_enrollments r) (ms_agentCredentials r)
    (ms_defaultSettings r) (ms_deviceSettings r) (ms_shortcuts r) (ms_assets r) (ms_assetsByName
    r) (ms_tasks r) (ms_audits r) (ms_healthErr r) (ms_revokedUserTokens r).
Definition set_ms_enrollments (g : (gmap string Enrollment) → (gmap string Enrollment)) (r : MemoryStore) : MemoryStore :=
    MkMemoryStore (ms_users r) (ms_usersByName r) (ms_devices r) (ms_tags r) (ms_deviceTags r)
    (ms_shares r) (ms_deploymentCredentials r) (g (ms_enrollments r)) (ms_agentCredentials r)
    (ms_defaultSettings r) (ms_deviceSettings r) (ms_shortcuts r) (ms_assets r) (ms_assetsByName
    r) (ms_tasks r) (ms_audits r) (ms_healthErr r) (ms_revokedUserTokens r).
Definition set_ms_agentCredentials (g : (gmap string AgentCredential) → (gmap string AgentCredential)) (r : MemoryStore) : MemoryStore :=
    MkMemoryStore (ms_users r) (ms_usersByName r) (ms_devices r) (ms_tags r) (ms_deviceTags r)
    (ms_shares r) (ms_deploymentCredentials r) (ms_enrollments r) (g (ms_agentCredentials r))
    (ms_defaultSettings r) (ms_deviceSettings r) (ms_shortcuts r) (ms_assets r) (ms_assetsByName
    r) (ms_tasks r) (ms_audits r) (ms_healthErr r) (ms_revokedUserTokens r).
Definition set_ms_defaultSettings (g : vmap → vmap) (r : MemoryStore) : MemoryStore :=
    MkMemoryStore (ms_users r) (ms_usersByName r) (ms_devices r) (ms_tags r) (ms_deviceTags r)
    (ms_shares r) (ms_deploymentCredentials r) (ms_enrollments r) (ms_agentCredentials r) (g
    (ms_defaultSettings r)) (ms_deviceSettings r) (ms_shortcuts r) (ms_assets r)
    (ms_assetsByName r) (ms_tasks r) (ms_audits r) (ms_healthErr r) (ms_revokedUserTokens r).
Definition set_ms_deviceSettings (g : (gmap string vmap) → (gmap string vmap)) (r : MemoryStore) : MemoryStore :=
    MkMemoryStore (ms_users r) (ms_usersByName r) (ms_devices r) (ms_tags r) (ms_deviceTags r)
    (ms_shares r) (ms_deploymentCredentials r) (ms_enrollments r) (ms_agentCredentials r)
    (ms_defaultSettings r) (g (ms_deviceSettings r)) (ms_shortcuts r) (ms_assets r)
    (ms_assetsByName r) (ms_tasks r) (ms_audits r) (ms_healthErr r) (ms_revokedUserTokens r).
Definition set_ms_shortcuts (g : (gmap string (list Shortcut)) → (gmap string (list Shortcut))) (r : MemoryStore) : MemoryStore :=
    MkMemoryStore (ms_users r) (ms_usersByName r) (ms_devices r) (ms_tags r) (ms_deviceTags r)
    (ms_shares r) (ms_deploymentCredentials r) (ms_enrollments r) (ms_agentCredentials r)
    (ms_defaultSettings r) (ms_deviceSettings r) (g (ms_shortcuts r)) (ms_assets r)
    (ms_assetsByName r) (ms_tasks r) (ms_audits r) (ms_healthErr r) (ms_revokedUserTokens r).
Definition set_ms_assets (g : (gmap string Asset) → (gmap string Asset)) (r : MemoryStore) : MemoryStore :=
    MkMemoryStore (ms_users r) (ms_usersByName r) (ms_devices r) (ms_tags r) (ms_deviceTags r)
    (ms_shares r) (ms_deploymentCredentials r) (ms_enrollments r) (ms_agentCredentials r)
    (ms_defaultSettings r) (ms_deviceSettings r) (ms_shortcuts r) (g (ms_assets r))
    (ms_assetsByName r) (ms_tasks r) (ms_audits r) (ms_healthErr r) (ms_revokedUserTokens r).
Definition set_ms_assetsByName (g : (gmap string string) → (gmap string string)) (r : MemoryStore) : MemoryStore :=
    MkMemoryStore (ms_users r) (ms_usersByName r) (ms_devices r) (ms_tags r) (ms_deviceTags r)
    (ms_shares r) (ms_deploymentCredentials r) (ms_enrollments r) (ms_agentCredentials r)
    (ms_defaultSettings r) (ms_deviceSettings r) (ms_shortcuts r) (ms_assets r) (g
    (ms_assetsByName r)) (ms_tasks r) (ms_audits r) (ms_healthErr r) (ms_revokedUserTokens r).
Definition set_ms_tasks (g : (gmap string Task) → (gmap string Task)) (r : MemoryStore) : MemoryStore :=
    MkMemoryStore (ms_users r) (ms_usersByName r) (ms_devices r) (ms_tags r) (ms_deviceTags r)
    (ms_shares r) (ms_deploymentCredentials r) (ms_enrollments r) (ms_agentCredentials r)
    (ms_defaultSettings r) (ms_deviceSettings r) (ms_shortcuts r) (ms_assets r) (ms_assetsByName
    r) (g (ms_tasks r)) (ms_audits r) (ms_healthErr r) (ms_revokedUserTokens r).
Definition set_ms_audits (g : (list AuditEvent) → (list AuditEvent)) (r : MemoryStore) : MemoryStore :=
    MkMemoryStore (ms_users r) (ms_usersByName r) (ms_devices r) (ms_tags r) (ms_deviceTags r)
    (ms_shares r) (ms_deploymentCredentials r) (ms_enrollments r) (ms_agentCredentials r)
    (ms_defaultSettings r) (ms_deviceSettings r) (ms_shortcuts r) (ms_assets r) (ms_assetsByName
    r) (ms_tasks r) (g (ms_audits r)) (ms_healthErr r) (ms_revokedUserTokens r).
Definition set_ms_healthErr (g : (option error) → (option error)) (r : MemoryStore) : MemoryStore :=
    MkMemoryStore (ms_users r) (ms_usersByName r) (ms_devices r) (ms_tags r) (ms_deviceTags r)
    (ms_shares r) (ms_deploymentCredentials r) (ms_enrollments r) (ms_agentCredentials r)
    (ms_defaultSettings r) (ms_deviceSettings r) (ms_shortcuts r) (ms_assets r) (ms_assetsByName
    r) (ms_tasks r) (ms_audits r) (g (ms_healthErr r)) (ms_revokedUserTokens r).
Definition set_ms_revokedUserTokens (g : (gmap string Time) → (gmap string Time)) (r : MemoryStore) : MemoryStore :=
    MkMemoryStore (ms_users r) (ms_usersByName r) (ms_devices r) (ms_tags r) (ms_deviceTags r)
    (ms_shares r) (ms_deploymentCredentials r) (ms_enrollments r) (ms_agentCredentials r)
    (ms_defaultSettings r) (ms_deviceSettings r) (ms_shortcuts r) (ms_assets r) (ms_assetsByName
    r) (ms_tasks r) (ms_audits r) (ms_healthErr r) (g (ms_revokedUserTokens r)).

(** Two stores with the same fields are equal. *)
Lemma MemoryStore_ext s s' :
  ms_users s = ms_users s' → ms_usersByName s = ms_usersByName s' → ms_devices s = ms_devices s' →
  ms_tags s = ms_tags s' → ms_deviceTags s = ms_deviceTags s' → ms_shares s = ms_shares s' →
  ms_deploymentCredentials s = ms_deploymentCredentials s' →
  ms_enrollments s = ms_enrollments s' → ms_agentCredentials s = ms_agentCredentials s' →
  ms_defaultSettings s = ms_defaultSettings s' → ms_deviceSettings s = ms_deviceSettings s' →
  ms_shortcuts s = ms_shortcuts s' → ms_assets s = ms_assets s' →
  ms_assetsByName s = ms_assetsByName s' → ms_tasks s = ms_tasks s' →
  ms_audits s = ms_audits s' → ms_healthErr s = ms_healthErr s' →
  ms_revokedUserTokens s = ms_revokedUserTokens s' → s = s'.
Proof. destruct s, s'; simpl; intros; by subst. Qed.

(** The maps [NewMemoryStore] starts from. *)
Definition initial_settings : vmap :=
  {[ "connectionStayAwake" := VBool true; "previewStayAwake" := VBool false;
     "showStats" := VBool false; "maxBitrate" := VInt 4; "minBitrate" := VInt 1;
     "fps" := VInt 30; "size" := VInt 1080; "bitrate" := VInt 4 ]}.

Definition empty_store : MemoryStore :=
  MkMemoryStore ∅ ∅ ∅ ∅ ∅ ∅ ∅ ∅ ∅ initial_settings ∅ ∅ ∅ ∅ ∅ [] None ∅.

Definition Healthy (s : MemoryStore) : option error := ms_healthErr s.

(** ** Device access *)

Definition canAccessLocked (user : User) (deviceID : string) : bool :=
  if is_admin user then true
  else existsb (λ id, bool_decide (id = "*") || bool_decide (id = deviceID))
               (uAssignedDevices user).

(** [CanAccessDevice] reads no field of the store: it has the same body. *)
Definition CanAccessDevice (user : User) (deviceID : string) : bool :=
  canAccessLocked user deviceID.

Lemma CanAccessDevice_spec user deviceID :
  CanAccessDevice user deviceID = true ↔
  is_admin user = true ∨ "*" ∈ uAssignedDevices user ∨ deviceID ∈ uAssignedDevices user.
Proof.
  unfold CanAccessDevice, canAccessLocked. destruct (is_admin user); [naive_solver|].
  rewrite existsb_exists. split.
  - intros (id & Hin & Hid). apply list_elem_of_In in Hin. right.
    bool_to_prop. destruct Hid; bool_to_prop; subst; auto.
  - intros [? | [Hin | Hin]]; [done| |]; eexists; (split; [by apply list_elem_of_In|]);
      apply orb_true_iff; [left|right]; by apply bool_decide_eq_true.
Qed.

(** ** Sanitising what leaves the store *)

Definition sanitizeUser (user : User) : User := set_uPasswordHash (λ _, "") user.

(** ** Audit log *)

Definition auditLocked (buf : bytes) (now : Time) (event : AuditEvent) (s : MemoryStore)
    : MemoryStore :=
  let event := if decide (auID event = "") then set_auID (λ _, randomID buf) event else event in
  let event :=
    if IsZero (auCreatedAt event) then set_auCreatedAt (λ _, now) event else event in
  set_ms_audits (λ l, l ++ [event]) s.

Definition Audit := auditLocked.
