(* ===== verification/Users.v ===== *)
(** * Accounts (store.go: users; user_sessions.go)

    Creation, authentication, renaming, deletion and password reset of user
    accounts, the revocation list of access tokens, and the invariant that ties
    the two indexes [users] and [usersByName] together. *)

From S2P Require Import Prelude GoBase GoStrings Model Store.

Section users.
Context `{Crypto}.

(** ** Operations *)

Definition CreateUser (buf salt : bytes) (now : Time) (username password : string)
    (role : Role) (assigned : list string) (s : MemoryStore) : result User * MemoryStore :=
  let username := TrimSpace username in
  if decide (username = "" ∨ password = "") then (Err ErrInvalidAuth, s)
  else match ms_usersByName s !! username with
  | Some _ => (Err ErrAlreadyExists, s)
  | None =>
      match bcrypt_generate salt password with
      | None => (Err (ErrMsg "bcrypt"), s)
      | Some hash =>
          let user := MkUser (randomID buf) username hash 0 role assigned "" None
                        false false false false ∅ no_permissions now in
          (Ok (sanitizeUser user),
           set_ms_usersByName (insert (uUsername user) (uID user))
             (set_ms_users (insert (uID user) user) s))
      end
  end.

Definition NewMemoryStore (buf salt : bytes) (now : Time) (adminUsername adminPassword : string)
    : result MemoryStore :=
  match CreateUser buf salt now adminUsername adminPassword RoleAdmin [] empty_store with
  | (Ok _, s) => Ok s
  | (Err e, _) => Err e
  end.

(** A missing name gives the empty id, which no user has. *)
Definition Authenticate (now : Time) (username password : string) (s : MemoryStore) : result User :=
  let id := default "" (ms_usersByName s !! username) in
  match ms_users s !! id with
  | None => Err ErrInvalidAuth
  | Some user =>
      if expired now (uExpiresAt user) then Err ErrInvalidAuth
      else if bcrypt_compare (uPasswordHash user) password then Ok (sanitizeUser user)
      else Err ErrInvalidAuth
  end.

Definition UserByID (id : string) (s : MemoryStore) : result User :=
  match ms_users s !! id with
  | Some user => Ok (sanitizeUser user)
  | None => Err ErrNotFound
  end.

Definition less_username (u v : User) : bool := bool_decide (String.ltb (uUsername u) (uUsername v) = true).

Definition Users (s : MemoryStore) : list User :=
  sort_by less_username (sanitizeUser <$> map_values (ms_users s)).

Definition count_admins (m : gmap string User) : nat :=
  length (List.filter is_admin (map_values m)).

Definition DeleteUser (username : string) (s : MemoryStore) : result () * MemoryStore :=
  match ms_usersByName s !! username with
  | None => (Err ErrNotFound, s)
  | Some id =>
      let user := default User_zero (ms_users s !! id) in
      if is_admin user && (count_admins (ms_users s) <=? 1)%nat then (Err ErrForbidden, s)
      else (Ok (), set_ms_usersByName (delete username) (set_ms_users (delete id) s))
  end.

(** The callback receives a copy of the user; it returns the updated user or an
    error, in which case nothing is stored. *)
Definition UpdateUser (username : string) (update : User → result User) (s : MemoryStore)
    : result User * MemoryStore :=
  match ms_usersByName s !! username with
  | None => (Err ErrNotFound, s)
  | Some id =>
      match update (default User_zero (ms_users s !! id)) with
      | Err e => (Err e, s)
      | Ok user => (Ok (sanitizeUser user), set_ms_users (insert id user) s)
      end
  end.

Definition RenameUser (oldUsername newUsername : string) (s : MemoryStore)
    : result User * MemoryStore :=
  let newUsername := TrimSpace newUsername in
  if decide (newUsername = "") then (Err ErrInvalidAuth, s)
  else match ms_usersByName s !! oldUsername with
  | None => (Err ErrNotFound, s)
  | Some id =>
      let taken := match ms_usersByName s !! newUsername with
                   | Some existing => bool_decide (existing ≠ id)
                   | None => false end in
      if taken then (Err ErrAlreadyExists, s)
      else
        let user := set_uUsername (λ _, newUsername) (default User_zero (ms_users s !! id)) in
        (Ok (sanitizeUser user),
         set_ms_usersByName (λ m, <[newUsername := id]> (delete oldUsername m))
           (set_ms_users (insert id user) s))
  end.

(** [user.TokenVersion++] wraps at 64 bits. *)
Definition reset_update (hash : string) (user : User) : result User :=
  Ok (set_uTokenVersion (λ v, uint64 (v + 1)) (set_uPasswordHash (λ _, hash) user)).

Definition ResetPassword (salt : bytes) (username password : string) (s : MemoryStore)
    : result () * MemoryStore :=
  if decide (password = "") then (Err ErrInvalidAuth, s)
  else match bcrypt_generate salt password with
  | None => (Err (ErrMsg "bcrypt"), s)
  | Some hash =>
      match UpdateUser username (reset_update hash) s with
      | (Ok _, s') => (Ok (), s')
      | (Err e, s') => (Err e, s')
      end
  end.

(** user_sessions.go *)
Definition RevokeUserToken (digest : string) (expires : Time) (s : MemoryStore) : MemoryStore :=
  set_ms_revokedUserTokens (insert digest expires) s.

Definition UserTokenRevoked (now : Time) (digest : string) (s : MemoryStore) : bool :=
  match ms_revokedUserTokens s !! digest with
  | Some expires => Before now expires
  | None => false
  end.

(** ** The account invariant *)

(** The two indexes are inverse to each other and no user has the empty id. *)
Record users_wf (s : MemoryStore) : Prop := {
  wf_byname name id : ms_usersByName s !! name = Some id →
    ∃ u, ms_users s !! id = Some u ∧ uUsername u = name;
  wf_users id u : ms_users s !! id = Some u →
    uID u = id ∧ ms_usersByName s !! uUsername u = Some id;
  wf_id id u : ms_users s !! id = Some u → id ≠ ""
}.

Definition has_admin (s : MemoryStore) : Prop :=
  ∃ id u, ms_users s !! id = Some u ∧ is_admin u = true.

(** An update that keeps identity, name and role, as every callback of the
    program does. *)
Definition benign (update : User → result User) : Prop :=
  ∀ u u', update u = Ok u' → uID u' = uID u ∧ uUsername u' = uUsername u ∧ uRole u' = uRole u.

(** One account operation.  The id drawn by [CreateUser] is not in use: it is
    sixteen base64 characters of fresh random bytes. *)
Inductive user_step (s : MemoryStore) : MemoryStore → Prop :=
| step_create buf salt now name password role assigned :
    length buf = 24%nat → ms_users s !! randomID buf = None →
    user_step s (snd (CreateUser buf salt now name password role assigned s))
| step_delete name : user_step s (snd (DeleteUser name s))
| step_update name update : benign update → user_step s (snd (UpdateUser name update s))
| step_rename old new : user_step s (snd (RenameUser old new s))
| step_reset salt name password : user_step s (snd (ResetPassword salt name password s))
| step_revoke digest expires : user_step s (RevokeUserToken digest expires s).

(** ** Lemmas *)

Lemma reset_update_benign hash : benign (reset_update hash).
Proof. by intros u u' [= <-]. Qed.

(** The invariant depends on the two indexes only. *)
Lemma users_wf_frame s s' :
  ms_users s' = ms_users s → ms_usersByName s' = ms_usersByName s → users_wf s → users_wf s'.
Proof. intros Hu Hn [H1 H2 H3]. split; rewrite ?Hu, ?Hn; done. Qed.

Lemma wf_inj s n1 n2 id :
  users_wf s → ms_usersByName s !! n1 = Some id → ms_usersByName s !! n2 = Some id → n1 = n2.
Proof.
  intros Hwf H1 H2. destruct (wf_byname s Hwf _ _ H1) as (u & Hu & <-).
  destruct (wf_byname s Hwf _ _ H2) as (u' & Hu' & <-). congruence.
Qed.

(** Keys of the user map after one of the two kinds of change. *)
Lemma users_wf_insert s id u u0 :
  users_wf s → ms_users s !! id = Some u0 → uID u = uID u0 → uUsername u = uUsername u0 →
  users_wf (set_ms_users (insert id u) s).
Proof.
  intros Hwf Hu0 Hid Hname. destruct (wf_users s Hwf _ _ Hu0) as [Hid0 Hby0].
  split; simpl.
  - intros name id' Hn. destruct (decide (id' = id)) as [->|Hne].
    + exists u. rewrite lookup_insert_eq. split; [done|].
      rewrite Hname. by apply (wf_inj s _ _ id).
    + rewrite lookup_insert_ne by done. by apply (wf_byname s Hwf).
  - intros id' u'. destruct (decide (id' = id)) as [->|Hne].
    + rewrite lookup_insert_eq. intros [= ->]. rewrite Hid, Hname. done.
    + rewrite lookup_insert_ne by done. apply (wf_users s Hwf).
  - intros id' u'. destruct (decide (id' = id)) as [->|Hne].
    + intros _. by apply (wf_id s Hwf id u0).
    + rewrite lookup_insert_ne by done. apply (wf_id s Hwf).
Qed.

Lemma UpdateUser_Ok name update s u s' :
  UpdateUser name update s = (Ok u, s') →
  ∃ id u1, ms_usersByName s !! name = Some id ∧
    update (default User_zero (ms_users s !! id)) = Ok u1 ∧
    u = sanitizeUser u1 ∧ s' = set_ms_users (insert id u1) s.
Proof. unfold UpdateUser. intros Hr. split_branches. naive_solver. Qed.

Lemma UpdateUser_Err name update s e s' : UpdateUser name update s = (Err e, s') → s' = s.
Proof. unfold UpdateUser. intros Hr. split_branches. Qed.

Lemma UpdateUser_wf name update s :
  benign update → users_wf s → users_wf (snd (UpdateUser name update s)).
Proof.
  intros Hb Hwf. destruct (UpdateUser name update s) as [[u|e] s'] eqn:E; simpl.
  - apply UpdateUser_Ok in E as (id & u1 & Hn & Hu & -> & ->).
    destruct (wf_byname s Hwf _ _ Hn) as (u0 & Hu0 & _). rewrite Hu0 in Hu.
    destruct (Hb _ _ Hu) as (? & ? & _). by eapply users_wf_insert.
  - by apply UpdateUser_Err in E as ->.
Qed.

Lemma UpdateUser_has_admin name update s :
  benign update → users_wf s → has_admin s → has_admin (snd (UpdateUser name update s)).
Proof.
  intros Hb Hwf (ida & ua & Hua & Hadm).
  destruct (UpdateUser name update s) as [[u|e] s'] eqn:E; simpl.
  - apply UpdateUser_Ok in E as (id & u1 & Hn & Hu & -> & ->).
    destruct (wf_byname s Hwf _ _ Hn) as (u0 & Hu0 & _). rewrite Hu0 in Hu.
    destruct (Hb _ _ Hu) as (_ & _ & Hr). destruct (decide (id = ida)) as [->|Hne].
    + exists ida, u1. simpl. rewrite lookup_insert_eq. split; [done|].
      unfold is_admin in *. rewrite Hr. by simplify_eq.
    + exists ida, ua. simpl. by rewrite lookup_insert_ne.
  - apply UpdateUser_Err in E as ->. by exists ida, ua.
Qed.

Lemma ResetPassword_snd salt name password s :
  snd (ResetPassword salt name password s) = s ∨
  ∃ hash, bcrypt_generate salt password = Some hash ∧
    snd (ResetPassword salt name password s) = snd (UpdateUser name (reset_update hash) s).
Proof.
  unfold ResetPassword. case_decide; [by left|].
  destruct (bcrypt_generate salt password) as [hash|]; [|by left].
  right. exists hash. split; [done|]. by destruct (UpdateUser _ _ _) as [[]].
Qed.

Definition new_user (buf : bytes) (now : Time) (name : string) (role : Role)
    (assigned : list string) (hash : string) : User :=
  MkUser (randomID buf) (TrimSpace name) hash 0 role assigned "" None
    false false false false ∅ no_permissions now.

Lemma CreateUser_Ok buf salt now name password role assigned s u s' :
  CreateUser buf salt now name password role assigned s = (Ok u, s') →
  ∃ hash, TrimSpace name ≠ "" ∧ password ≠ "" ∧ ms_usersByName s !! TrimSpace name = None ∧
    bcrypt_generate salt password = Some hash ∧
    u = sanitizeUser (new_user buf now name role assigned hash) ∧
    s' = set_ms_usersByName (insert (TrimSpace name) (randomID buf))
           (set_ms_users (insert (randomID buf) (new_user buf now name role assigned hash)) s).
Proof.
  unfold CreateUser. case_decide as Hne; [done|].
  destruct (ms_usersByName s !! TrimSpace name); [done|].
  destruct (bcrypt_generate salt password) as [hash|]; [|done].
  intros [= <- <-]. exists hash. naive_solver.
Qed.

Lemma CreateUser_Err buf salt now name password role assigned s e s' :
  CreateUser buf salt now name password role assigned s = (Err e, s') → s' = s.
Proof. unfold CreateUser. intros Hr. repeat case_match; by simplify_eq. Qed.

Lemma empty_store_wf : users_wf empty_store.
Proof. by split. Qed.
Hint Resolve empty_store_wf : core.

Lemma CreateUser_wf buf salt now name password role assigned s :
  length buf = 24%nat → ms_users s !! randomID buf = None → users_wf s →
  users_wf (snd (CreateUser buf salt now name password role assigned s)).
Proof.
  intros Hbuf Hfresh Hwf.
  destruct (CreateUser buf salt now name password role assigned s) as [[uc|e] s'] eqn:E;
    [|by apply CreateUser_Err in E as ->].
  apply CreateUser_Ok in E as (hash & _ & _ & Hn & _ & _ & ->). split; simpl.
  - intros n id. destruct (decide (n = TrimSpace name)) as [->|Hne].
    + rewrite lookup_insert_eq. intros [= <-]. eexists. by rewrite lookup_insert_eq.
    + rewrite lookup_insert_ne by done. intros Hid.
      destruct (wf_byname s Hwf _ _ Hid) as (u & Hu & Hname).
      exists u. rewrite lookup_insert_ne; [done|]. congruence.
  - intros id u. destruct (decide (id = randomID buf)) as [->|Hne].
    + rewrite lookup_insert_eq. intros [= <-]. simpl. by rewrite lookup_insert_eq.
    + rewrite lookup_insert_ne by done. intros Hu.
      destruct (wf_users s Hwf _ _ Hu) as [? Hby]. split; [done|].
      rewrite lookup_insert_ne; [done|]. congruence.
  - intros id u. destruct (decide (id = randomID buf)) as [->|Hne].
    + intros _. by apply randomID_nonempty.
    + rewrite lookup_insert_ne by done. apply (wf_id s Hwf).
Qed.

Lemma DeleteUser_wf name s : users_wf s → users_wf (snd (DeleteUser name s)).
Proof.
  intros Hwf. unfold DeleteUser. destruct (ms_usersByName s !! name) as [id|] eqn:Hn; [|done].
  case_match; [done|]. split; simpl.
  - intros n id' [Hne Hid]%lookup_delete_Some.
    destruct (wf_byname s Hwf _ _ Hid) as (u & Hu & <-). exists u. split; [|done].
    apply lookup_delete_Some. split; [|done]. intros ->. apply Hne. by apply (wf_inj s _ _ id').
  - intros id' u [Hne Hu]%lookup_delete_Some. destruct (wf_users s Hwf _ _ Hu) as [? Hby].
    split; [done|]. apply lookup_delete_Some. split; [|done]. congruence.
  - intros id' u [_ Hu]%lookup_delete_Some. by apply (wf_id s Hwf _ _ Hu).
Qed.

(** A second administrator survives the deletion of the first. *)
Lemma count_admins_other m id u :
  m !! id = Some u → is_admin u = true → (1 < count_admins m)%nat →
  ∃ id' u', id' ≠ id ∧ m !! id' = Some u' ∧ is_admin u' = true.
Proof.
  intros Hu Hadm Hcount. unfold count_admins, map_values in Hcount.
  rewrite <-(insert_delete_id m id u Hu) in Hcount.
  pose proof (map_to_list_insert (delete id m) id u (lookup_delete_eq m id)) as Hperm.
  rewrite (Permutation_length (list_filter_perm _ _ _ (fmap_Permutation snd _ _ Hperm))) in Hcount.
  cbn [fmap list_fmap List.filter snd] in Hcount. rewrite Hadm in Hcount. cbn [length] in Hcount.
  destruct (List.filter is_admin _) as [|u' l] eqn:E; [simpl in Hcount; lia|].
  assert (In u' (u' :: l)) as Hin by (by left). rewrite <-E in Hin.
  apply filter_In in Hin as [Hin ?]. apply list_elem_of_In in Hin.
  apply elem_of_map_values in Hin as (id' & Hid').
  apply lookup_delete_Some in Hid' as [??]. exists id', u'. auto.
Qed.

Lemma DeleteUser_has_admin name s : users_wf s → has_admin s → has_admin (snd (DeleteUser name s)).
Proof.
  intros Hwf Ha. unfold DeleteUser. destruct (ms_usersByName s !! name) as [id|] eqn:Hn; [|done].
  destruct (wf_byname s Hwf _ _ Hn) as (u & Hu & _). rewrite Hu. simpl.
  destruct (is_admin u) eqn:Hadm; simpl.
  - destruct (Nat.leb_spec (count_admins (ms_users s)) 1); [done|]. simpl.
    destruct (count_admins_other _ _ _ Hu Hadm ltac:(done)) as (id' & u' & ? & ? & ?).
    exists id', u'. simpl. by rewrite lookup_delete_ne.
  - destruct Ha as (ida & ua & Hua & Hadm'). exists ida, ua. simpl.
    rewrite lookup_delete_ne; [done|]. congruence.
Qed.

Lemma RenameUser_Ok old new s u s' :
  RenameUser old new s = (Ok u, s') →
  ∃ id, TrimSpace new ≠ "" ∧ ms_usersByName s !! old = Some id ∧
    (∀ id', ms_usersByName s !! TrimSpace new = Some id' → id' = id) ∧
    u = sanitizeUser (set_uUsername (λ _, TrimSpace new) (default User_zero (ms_users s !! id))) ∧
    s' = set_ms_usersByName (λ m, <[TrimSpace new := id]> (delete old m))
      (set_ms_users (insert id (set_uUsername (λ _, TrimSpace new)
         (default User_zero (ms_users s !! id)))) s).
Proof.
  unfold RenameUser. case_decide; [done|].
  destruct (ms_usersByName s !! old) as [id|]; [|done].
  destruct (ms_usersByName s !! TrimSpace new) as [ex|] eqn:En; [case_bool_decide; [done|]|];
    intros [= <- <-]; exists id; (split; [done|]); (split; [done|]); (split; [|done]).
  - by intros id' [= <-].
  - done.
Qed.

Lemma RenameUser_wf old new s : users_wf s → users_wf (snd (RenameUser old new s)).
Proof.
  intros Hwf. destruct (RenameUser old new s) as [[u|e] s'] eqn:E; simpl; cycle 1.
  { unfold RenameUser in E. repeat case_match; by simplify_eq. }
  apply RenameUser_Ok in E as (id & Hnew & Hold & Hfree & _ & ->).
  destruct (wf_byname s Hwf _ _ Hold) as (u0 & Hu0 & Hname0). rewrite Hu0. simpl.
  destruct (wf_users s Hwf _ _ Hu0) as [Hid0 _]. split; simpl.
  - intros n id'. destruct (decide (n = TrimSpace new)) as [->|Hne].
    + rewrite lookup_insert_eq. intros [= <-]. eexists. by rewrite lookup_insert_eq.
    + rewrite lookup_insert_ne by done. intros [Hno Hid']%lookup_delete_Some.
      destruct (wf_byname s Hwf _ _ Hid') as (u' & Hu' & <-). exists u'.
      rewrite lookup_insert_ne; [done|]. intros ->. apply Hno. by apply (wf_inj s _ _ id').
  - intros id' u'. destruct (decide (id' = id)) as [->|Hne].
    + rewrite lookup_insert_eq. intros [= <-]. simpl. by rewrite lookup_insert_eq.
    + rewrite lookup_insert_ne by done. intros Hu'. destruct (wf_users s Hwf _ _ Hu') as [? Hby].
      split; [done|]. rewrite lookup_insert_ne; [apply lookup_delete_Some; split; [|done]|].
      * intros Heq. rewrite <-Heq in Hby. congruence.
      * intros Heq. rewrite <-Heq in Hby. by apply Hfree in Hby.
  - intros id' u'. destruct (decide (id' = id)) as [->|Hne].
    + intros _. by apply (wf_id s Hwf id u0).
    + rewrite lookup_insert_ne by done. apply (wf_id s Hwf).
Qed.

Lemma RenameUser_has_admin old new s :
  users_wf s → has_admin s → has_admin (snd (RenameUser old new s)).
Proof.
  intros Hwf (ida & ua & Hua & Hadm). destruct (RenameUser old new s) as [[u|e] s'] eqn:E; simpl.
  - apply RenameUser_Ok in E as (id & _ & Hold & _ & _ & ->).
    destruct (decide (id = ida)) as [->|Hne].
    + exists ida, (set_uUsername (λ _, TrimSpace new) ua). simpl.
      rewrite Hua. simpl. by rewrite lookup_insert_eq.
    + exists ida, ua. simpl. by rewrite lookup_insert_ne.
  - unfold RenameUser in E. repeat case_match; simplify_eq; by exists ida, ua.
Qed.

Lemma user_step_inv s s' : user_step s s' → users_wf s ∧ has_admin s → users_wf s' ∧ has_admin s'.
Proof.
  intros Hstep [Hwf Ha]. destruct Hstep.
  - split; [by apply CreateUser_wf|]. destruct Ha as (ida & ua & Hua & Hadm).
    destruct (CreateUser _ _ _ _ _ _ _ s) as [[u|e] s'] eqn:E; simpl;
      [|by apply CreateUser_Err in E as ->; exists ida, ua].
    apply CreateUser_Ok in E as (hash & _ & _ & _ & _ & _ & ->).
    exists ida, ua. simpl. rewrite lookup_insert_ne; [done|]. congruence.
  - auto using DeleteUser_wf, DeleteUser_has_admin.
  - auto using UpdateUser_wf, UpdateUser_has_admin.
  - auto using RenameUser_wf, RenameUser_has_admin.
  - destruct (ResetPassword_snd salt name password s) as [->|(hash & _ & ->)]; [done|].
    auto using UpdateUser_wf, UpdateUser_has_admin, reset_update_benign.
  - split; [by apply (users_wf_frame s)|done].
Qed.

Lemma NewMemoryStore_inv buf salt now name password s :
  length buf = 24%nat → NewMemoryStore buf salt now name password = Ok s →
  users_wf s ∧ has_admin s.
Proof.
  intros Hbuf. unfold NewMemoryStore.
  destruct (CreateUser buf salt now name password RoleAdmin [] empty_store) as [[u|e] s'] eqn:E;
    intros [= <-].
  split.
  - change s' with (snd (Ok u, s')). rewrite <-E. by apply CreateUser_wf.
  - apply CreateUser_Ok in E as (hash & _ & _ & _ & _ & _ & ->).
    exists (randomID buf), (new_user buf now name RoleAdmin [] hash). simpl.
    by rewrite lookup_insert_eq.
Qed.

(** ** Properties *)

(** Every store state reachable from [NewMemoryStore] through account
    operations keeps the two indexes consistent (each name maps to the user that
    carries it, each user is found under its own id and name) and always has at
    least one administrator: no sequence of creations, deletions, renames,
    updates and password resets can remove the last one. *)
Theorem accounts_reachable_inv buf salt now name password s0 s :
  length buf = 24%nat → NewMemoryStore buf salt now name password = Ok s0 →
  rtc user_step s0 s → users_wf s ∧ has_admin s.
Proof.
  intros Hbuf Hnew Hsteps. pose proof (NewMemoryStore_inv _ _ _ _ _ _ Hbuf Hnew) as Hinv.
  clear Hnew. induction Hsteps as [|? ? ? Hstep _ IH]; [done|].
  apply IH. by eapply user_step_inv.
Qed.

(** [Authenticate] succeeds exactly for the user registered under the name,
    not expired, whose stored hash verifies the password; the returned copy
    carries no password hash.  Every failure, whatever its reason, is the same
    error [ErrInvalidAuth]. *)
Theorem Authenticate_correct now name password s u :
  users_wf s →
  (Authenticate now name password s = Ok u ↔
   ∃ id u0, ms_usersByName s !! name = Some id ∧ ms_users s !! id = Some u0 ∧
     (∀ t, uExpiresAt u0 = Some t → now ≤ t) ∧
     bcrypt_compare (uPasswordHash u0) password = true ∧ u = sanitizeUser u0) ∧
  (∀ e, Authenticate now name password s = Err e → e = ErrInvalidAuth).
Proof.
  intros Hwf. unfold Authenticate. split; [|intros e He; by split_branches].
  destruct (ms_usersByName s !! name) as [id|] eqn:Hn; simpl; cycle 1.
  { destruct (ms_users s !! "") as [u0|] eqn:Hu0; [by apply (wf_id s Hwf) in Hu0|].
    split; [done|]. by intros (? & ? & ? & _). }
  destruct (wf_byname s Hwf _ _ Hn) as (u0 & Hu0 & _). rewrite Hu0. split.
  - destruct (expired now (uExpiresAt u0)) eqn:Ee; [done|].
    destruct (bcrypt_compare _ _) eqn:Eb; [|done]. intros [= <-].
    rewrite expired_false in Ee. by exists id, u0.
  - intros (id' & u' & ? & ? & Hexp & Hb & ->). simplify_eq.
    rewrite <-expired_false in Hexp. by rewrite Hexp, Hb.
Qed.

(** An account that [CreateUser] reports as created can log in with the same
    password under the trimmed name, until someone changes it; the reported user
    and the user the login returns are the same, and an existing name or an empty
    name or password changes nothing. *)
Theorem CreateUser_then_login `{!CryptoLaws _}
    buf salt now name password role assigned s u s' now' :
  CreateUser buf salt now name password role assigned s = (Ok u, s') →
  Authenticate now' (TrimSpace name) password s' = Ok u ∧
  uRole u = role ∧ uAssignedDevices u = assigned ∧ uPasswordHash u = "" ∧
  TrimSpace name ≠ "" ∧ password ≠ "" ∧ ms_usersByName s !! TrimSpace name = None.
Proof.
  intros (hash & ? & ? & ? & Hh & -> & ->)%CreateUser_Ok.
  unfold Authenticate. simpl. repeat (rewrite lookup_insert_eq; simpl). by rewrite (bcrypt_generate_compare _ _ _ Hh).
Qed.

(** Renaming moves the account without changing anything else about it: the
    same id, hash, token version and permissions answer under the new (trimmed)
    name, the old name is free unless it is the new one, and no other account is
    touched; a name held by another account is refused. *)
Theorem RenameUser_correct old new s u s' :
  users_wf s → RenameUser old new s = (Ok u, s') →
  ∃ id u0, ms_usersByName s !! old = Some id ∧ ms_users s !! id = Some u0 ∧
    ms_users s' !! id = Some (set_uUsername (λ _, TrimSpace new) u0) ∧
    ms_usersByName s' !! TrimSpace new = Some id ∧
    (old ≠ TrimSpace new → ms_usersByName s' !! old = None) ∧
    (∀ id' u', id' ≠ id → ms_users s !! id' = Some u' →
       ms_users s' !! id' = Some u' ∧ ms_usersByName s' !! uUsername u' = Some id').
Proof.
  intros Hwf Hr. apply RenameUser_Ok in Hr as (id & _ & Hold & Hfree & _ & ->).
  destruct (wf_byname s Hwf _ _ Hold) as (u0 & Hu0 & Hname). rewrite Hu0. simpl.
  exists id, u0. rewrite !lookup_insert_eq. repeat split; try done.
  - intros Hne. rewrite lookup_insert_ne by done. apply lookup_delete_eq.
  - by rewrite lookup_insert_ne.
  - destruct (wf_users s Hwf _ _ H1) as [_ Hby].
    rewrite lookup_insert_ne; [apply lookup_delete_Some; split; [|done]|]; intros Heq;
      rewrite <-Heq in Hby; [congruence|]. by apply Hfree in Hby.
Qed.
End users.

(** ** Witnesses *)

Module UsersWitness.
Import ToyCrypto.

Definition buf (c : byte) : bytes := repeat c 24.
Definition s0 : MemoryStore :=
  match NewMemoryStore (buf "a") [] 5 " root " "pw" with Ok s => s | Err _ => empty_store end.
Definition s1 : MemoryStore :=
  snd (CreateUser (buf "b") [] 6 "bob" "x" RoleUser ["d1"] s0).

Lemma s0_eq : NewMemoryStore (buf "a") [] 5 " root " "pw" = Ok s0.
Proof. by vm_compute. Defined.

Lemma s1_step : user_step s0 s1.
Proof. apply step_create; by vm_compute. Defined.

Lemma s1_wf : users_wf s1.
Proof.
  eapply user_step_inv; [apply s1_step|].
  eapply NewMemoryStore_inv; [|apply s0_eq]; done.
Defined.

Lemma accounts_reachable_inv_witness : users_wf s1 ∧ has_admin s1.
Proof.
  apply (accounts_reachable_inv (buf "a") [] 5 " root " "pw" s0 s1);
    [done|apply s0_eq|apply rtc_once, s1_step].
Defined.

Lemma Authenticate_correct_witness :
  Authenticate 9 "bob" "x" s1 = Ok (sanitizeUser (default User_zero (ms_users s1 !! randomID (buf "b"))))
  ∧ (∀ e, Authenticate 9 "bob" "y" s1 = Err e → e = ErrInvalidAuth).
Proof.
  split; [apply (Authenticate_correct 9 "bob" "x" s1 _ s1_wf)
         |apply (Authenticate_correct 9 "bob" "y" s1 User_zero s1_wf)].
  eexists (randomID (buf "b")), _. repeat split; by vm_compute.
Defined.

Lemma CreateUser_then_login_witness :
  Authenticate 7 "eve" "s3" (snd (CreateUser (buf "c") [] 6 " eve " "s3" RoleUser [] s1)) =
  fst (CreateUser (buf "c") [] 6 " eve " "s3" RoleUser [] s1).
Proof.
  apply (CreateUser_then_login (buf "c") [] 6 " eve " "s3" RoleUser [] s1 _ _ 7).
  by vm_compute.
Defined.

Definition renamed := RenameUser "bob" "rob" s1.
Lemma RenameUser_correct_witness : ms_usersByName (snd renamed) !! "bob" = None.
Proof.
  destruct (RenameUser_correct "bob" "rob" s1 (from_ok User_zero (fst renamed)) (snd renamed)
    s1_wf) as (id & u0 & _ & _ & _ & _ & Hfree & _); [by vm_compute|].
  apply Hfree. by vm_compute.
Defined.
End UsersWitness.
