(* ===== verification/Devices.v ===== *)
(** * Devices, tags and settings (store.go, device_settings.go)

    The registry of devices, the tags assigned to them, the global and
    per-device settings, and the settings an agent receives. *)

From S2P Require Import Prelude GoBase GoStrings GoFloat Model Store.

(** ** Devices *)

Definition UpsertAgentDevice (now : Time) (id : string) (info : DeviceInfo) (s : MemoryStore)
    : Device * MemoryStore :=
  let device := match ms_devices s !! id with
                | Some device => device
                | None => MkDevice id DeviceInfo_zero false now time_zero 0 [] "" ∅
                end in
  let device := set_dLastSeen (λ _, now) (set_dOnline (λ _, true) (set_dInfo (λ _, info) device)) in
  (device, set_ms_devices (insert id device) s).

Definition MarkOffline (now : Time) (id : string) (s : MemoryStore) : MemoryStore :=
  match ms_devices s !! id with
  | Some device =>
      let device := set_dLastSeen (λ _, now)
                      (set_dClientCount (λ _, 0) (set_dOnline (λ _, false) device)) in
      set_ms_devices (insert id device) s
  | None => s
  end.

Definition TouchDevice (now : Time) (id : string) (s : MemoryStore) : MemoryStore :=
  match ms_devices s !! id with
  | Some device =>
      set_ms_devices (insert id (set_dOnline (λ _, true) (set_dLastSeen (λ _, now) device))) s
  | None => s
  end.

Definition less_device (d1 d2 : Device) : bool := String.ltb (dID d1) (dID d2).

Definition DevicesFor (user : User) (s : MemoryStore) : list Device :=
  sort_by less_device
    (List.filter (λ device, canAccessLocked user (dID device)) (map_values (ms_devices s))).

Definition DeviceByID (id : string) (s : MemoryStore) : result Device :=
  match ms_devices s !! id with
  | Some device => Ok device
  | None => Err ErrNotFound
  end.

Definition DeleteOfflineDevice (id : string) (s : MemoryStore) : result () * MemoryStore :=
  match ms_devices s !! id with
  | None => (Err ErrNotFound, s)
  | Some device =>
      if dOnline device then (Err ErrForbidden, s)
      else (Ok (), set_ms_deviceSettings (delete id)
                     (set_ms_deviceTags (delete id) (set_ms_devices (delete id) s)))
  end.

(** ** Tags *)

Definition less_string (a b : string) : bool := String.ltb a b.
Definition less_tag (a b : Tag) : bool := String.ltb (tagName a) (tagName b).

(** A device whose tag set is empty has no entry in the second result. *)
Definition Tags (s : MemoryStore) : list Tag * gmap string (list string) :=
  (sort_by less_tag (map_values (ms_tags s)),
   omap (λ set : gset string,
           match elements set with
           | [] => None
           | l => Some (sort_by less_string l)
           end) (ms_deviceTags s)).

(** [fresh i] is the randomness of the [i]-th tag of the request. *)
Fixpoint collect_tags (fresh : nat → bytes) (i : nat) (tags : list Tag) (acc : gmap string Tag)
    : gmap string Tag :=
  match tags with
  | [] => acc
  | tag :: rest =>
      let tag := if decide (tagID tag = "") then set_tagID (λ _, randomID (fresh i)) tag else tag in
      collect_tags fresh (S i) rest (<[tagID tag := tag]> acc)
  end.

Definition ReplaceTags (fresh : nat → bytes) (tags : list Tag)
    (assignments : gmap string (list string)) (s : MemoryStore) : MemoryStore :=
  let known := collect_tags fresh 0 tags ∅ in
  let keep (ids : list string) : gset string :=
    list_to_set (List.filter (λ id, bool_decide (is_Some (known !! id))) ids) in
  set_ms_deviceTags (λ _, keep <$> assignments) (set_ms_tags (λ _, known) s).

(** ** Settings *)

Definition DefaultSettings (s : MemoryStore) : vmap := cloneMap (ms_defaultSettings s).
Definition SetDefaultSettings (settings : vmap) (s : MemoryStore) : MemoryStore :=
  set_ms_defaultSettings (λ _, cloneMap settings) s.

Definition DeviceSettings (id : string) (s : MemoryStore) : vmap :=
  cloneMap (default ∅ (ms_deviceSettings s !! id)).

Definition SetDeviceSettings (id : string) (settings : vmap) (s : MemoryStore)
    : result () * MemoryStore :=
  match ms_devices s !! id with
  | None => (Err ErrNotFound, s)
  | Some _ =>
      if decide (settings = ∅) then (Ok (), set_ms_deviceSettings (delete id) s)
      else (Ok (), set_ms_deviceSettings (insert id (cloneMap settings)) s)
  end.

Definition snapshot_error : error :=
  ErrMsg "snapshotInterval must be an integer between -1 and 3600".

(** [None] is the nil error. *)
Definition validateDeviceSettings (settings : vmap) : option error :=
  match settings !! "snapshotInterval" with
  | None => None
  | Some (VNum interval) =>
      if IsNaN interval || negb (feq interval (Trunc interval)) ||
         flt interval (float_of_Z (-1)) || flt (float_of_Z 3600) interval
      then Some snapshot_error else None
  | Some _ => Some snapshot_error
  end.

(** Server.agentSettings: device settings over global settings, with a default
    snapshot interval of ten seconds. *)
Definition agentSettings (id : string) (s : MemoryStore) : vmap :=
  let settings := DefaultSettings s in
  let settings :=
    match settings !! "snapshotInterval" with
    | Some _ => settings
    | None => <["snapshotInterval" := VNum (float_of_Z 10)]> settings
    end in
  DeviceSettings id s ∪ settings.

(** ** The registry invariant *)

Record devices_wf (s : MemoryStore) : Prop := {
  dwf_key id d : ms_devices s !! id = Some d → dID d = id;
  dwf_settings id m : ms_deviceSettings s !! id = Some m →
    is_Some (ms_devices s !! id) ∧ m ≠ ∅;
  dwf_tags dev set t : ms_deviceTags s !! dev = Some set → t ∈ set →
    is_Some (ms_tags s !! t)
}.

Inductive device_step (s : MemoryStore) : MemoryStore → Prop :=
| step_upsert now id info : device_step s (snd (UpsertAgentDevice now id info s))
| step_offline now id : device_step s (MarkOffline now id s)
| step_touch now id : device_step s (TouchDevice now id s)
| step_delete_device id : device_step s (snd (DeleteOfflineDevice id s))
| step_replace_tags fresh tags assignments : device_step s (ReplaceTags fresh tags assignments s)
| step_default_settings settings : device_step s (SetDefaultSettings settings s)
| step_device_settings id settings : device_step s (snd (SetDeviceSettings id settings s)).

(** ** Lemmas *)

Lemma devices_wf_insert s id d :
  devices_wf s → dID d = id → devices_wf (set_ms_devices (insert id d) s).
Proof.
  intros [Hk Hs Ht] Hd. split; simpl.
  - intros id' d'. destruct (decide (id' = id)) as [->|Hne].
    + rewrite lookup_insert_eq. by intros [= <-].
    + rewrite lookup_insert_ne by done. apply Hk.
  - intros id' m Hm. destruct (Hs _ _ Hm) as [[d' Hd'] Hne]. split; [|done].
    destruct (decide (id' = id)) as [->|?]; [rewrite lookup_insert_eq; eauto|].
    rewrite lookup_insert_ne; eauto.
  - done.
Qed.

Lemma device_step_wf s s' : device_step s s' → devices_wf s → devices_wf s'.
Proof.
  intros Hstep Hwf. destruct Hstep; simpl.
  - apply devices_wf_insert; [done|]. destruct (ms_devices s !! id) as [d|] eqn:E; simpl; [|done].
    by apply (dwf_key s Hwf).
  - unfold MarkOffline. destruct (ms_devices s !! id) as [d|] eqn:E; [|done].
    apply devices_wf_insert; [done|]. simpl. by apply (dwf_key s Hwf).
  - unfold TouchDevice. destruct (ms_devices s !! id) as [d|] eqn:E; [|done].
    apply devices_wf_insert; [done|]. simpl. by apply (dwf_key s Hwf).
  - unfold DeleteOfflineDevice. destruct (ms_devices s !! id) as [d|] eqn:E; [|done].
    destruct (dOnline d); [done|]. destruct Hwf as [Hk Hs Ht]. split; simpl.
    + intros id' d' [_ ?]%lookup_delete_Some. by apply Hk.
    + intros id' m [Hne Hm]%lookup_delete_Some. rewrite lookup_delete_ne by done. by apply Hs.
    + intros dev set t [_ ?]%lookup_delete_Some. by apply (Ht dev).
  - destruct Hwf as [Hk Hs Ht]. split; simpl; [done..|].
    intros dev set t. rewrite lookup_fmap. destruct (assignments !! dev); simpl; [|done].
    intros [= <-]. rewrite elem_of_list_to_set, list_elem_of_In, filter_In.
    intros [_ Hin]. by apply bool_decide_eq_true in Hin.
  - by destruct Hwf.
  - unfold SetDeviceSettings. destruct (ms_devices s !! id) as [d|] eqn:E; [|done].
    destruct Hwf as [Hk Hs Ht]. case_decide; split; simpl; try done.
    + intros id' m [_ ?]%lookup_delete_Some. by apply Hs.
    + intros id' m. destruct (decide (id' = id)) as [->|Hne].
      * rewrite lookup_insert_eq. intros [= <-]. rewrite E. eauto.
      * rewrite lookup_insert_ne by done. apply Hs.
Qed.

(** ** Properties *)

(** In every state reachable through registrations, heartbeats,
    disconnections, deletions, tag replacements and settings updates, each device
    record is stored under its own id, settings exist only for registered devices
    and are never empty, and every tag assigned to a device exists. *)
Theorem registry_reachable_inv s : rtc device_step empty_store s → devices_wf s.
Proof.
  intros Hsteps. assert (devices_wf empty_store) as Hwf by (split; done).
  induction Hsteps as [|s1 s2 s3 Hstep _ IH]; [done|]. apply IH. by eapply device_step_wf.
Qed.

(** [DevicesFor] lists, sorted by id, exactly the registered devices the user
    may access: all of them for an administrator or the wildcard assignment, the
    assigned ones otherwise. *)
Theorem DevicesFor_correct user s d :
  devices_wf s →
  (d ∈ DevicesFor user s ↔
    ms_devices s !! dID d = Some d ∧
    (is_admin user = true ∨ "*" ∈ uAssignedDevices user ∨ dID d ∈ uAssignedDevices user)) ∧
  Sorted (λ d1 d2, String.ltb (dID d2) (dID d1) = false) (DevicesFor user s).
Proof.
  intros Hwf. split.
  - unfold DevicesFor. rewrite elem_of_sort_by, list_elem_of_In, filter_In, <-list_elem_of_In.
    rewrite elem_of_map_values. change canAccessLocked with CanAccessDevice.
    rewrite CanAccessDevice_spec. split; intros [Hk Ha]; (split; [|done]).
    + destruct Hk as [k Hk]. by rewrite (dwf_key s Hwf _ _ Hk).
    + by exists (dID d).
  - apply sort_by_sorted. intros x y. apply string_ltb_asym.
Qed.

(** A device is deleted only while it is offline, and then nothing of it is
    left: neither its record nor its tags nor its settings; an online device is
    refused and an unknown one reported missing, with no change. *)
Theorem DeleteOfflineDevice_correct id s r s' :
  DeleteOfflineDevice id s = (r, s') →
  (ms_devices s !! id = None → r = Err ErrNotFound ∧ s' = s) ∧
  (∀ d, ms_devices s !! id = Some d → dOnline d = true → r = Err ErrForbidden ∧ s' = s) ∧
  (∀ d, ms_devices s !! id = Some d → dOnline d = false →
     r = Ok () ∧ ms_devices s' !! id = None ∧ ms_deviceTags s' !! id = None ∧
     DeviceSettings id s' = ∅ ∧
     ∀ id', id' ≠ id → ms_devices s' !! id' = ms_devices s !! id' ∧
       ms_deviceTags s' !! id' = ms_deviceTags s !! id' ∧
       DeviceSettings id' s' = DeviceSettings id' s).
Proof.
  unfold DeleteOfflineDevice. intros Hr. repeat split_and!; [intros E|intros d E Hon..];
    rewrite E in Hr; rewrite ?Hon in Hr; injection Hr as <- <-; try done.
  unfold DeviceSettings. simpl. rewrite !lookup_delete_eq. split_and!; [done..|].
  intros id' Hne. by rewrite !lookup_delete_ne.
Qed.

(** The settings an agent receives: a key takes the device's own value if it
    has one, else the global value, and the snapshot interval is ten seconds when
    neither sets it. *)
Theorem agentSettings_correct id s key :
  agentSettings id s !! key =
  match DeviceSettings id s !! key with
  | Some v => Some v
  | None =>
      match DefaultSettings s !! key with
      | Some v => Some v
      | None => if decide (key = "snapshotInterval") then Some (VNum (float_of_Z 10)) else None
      end
  end.
Proof.
  unfold agentSettings. rewrite lookup_union.
  destruct (DeviceSettings id s !! key) as [v|]; simpl.
  { by destruct (_ !! key). }
  rewrite (left_id_L None _). destruct (DefaultSettings s !! "snapshotInterval") eqn:Esn.
  - destruct (DefaultSettings s !! key) eqn:Ek; [done|]. case_decide; congruence.
  - case_decide as Hk; [subst; rewrite lookup_insert_eq, Esn; done|].
    rewrite lookup_insert_ne by done. by destruct (DefaultSettings s !! key).
Qed.

(** ** Witnesses *)

Module DevicesWitness.
Definition d1 : MemoryStore := snd (UpsertAgentDevice 7 "phone" DeviceInfo_zero empty_store).
Definition d2 : MemoryStore := MarkOffline 9 "phone" d1.
Definition d3 : MemoryStore := snd (SetDeviceSettings "phone" {["fps" := VInt 5]} d2).

Lemma registry_reachable_inv_witness : devices_wf d3.
Proof.
  apply registry_reachable_inv. apply (rtc_l _ _ d1); [apply step_upsert|].
  apply (rtc_l _ _ d2); [apply step_offline|]. apply rtc_once. apply step_device_settings.
Defined.

Definition guest : User := set_uAssignedDevices (λ _, ["phone"]) User_zero.
Lemma DevicesFor_correct_witness :
  default (MkDevice "" DeviceInfo_zero false 0 0 0 [] "" ∅) (ms_devices d3 !! "phone")
    ∈ DevicesFor guest d3.
Proof.
  apply (DevicesFor_correct guest d3 _ registry_reachable_inv_witness).
  split; [by vm_compute|]. right. right. vm_compute. by left.
Defined.

Lemma DeleteOfflineDevice_correct_witness :
  ms_devices (snd (DeleteOfflineDevice "phone" d3)) !! "phone" = None.
Proof.
  destruct (DeleteOfflineDevice_correct "phone" d3 _ _ eq_refl) as (_ & _ & Hx).
  apply (Hx (set_dOnline (λ _, false) (set_dLastSeen (λ _, 9)
    (fst (UpsertAgentDevice 7 "phone" DeviceInfo_zero empty_store)))));
    vm_compute; reflexivity.
Defined.
End DevicesWitness.
