(* ===== verification/Shares.v ===== *)
(** * Share links (store.go: shares)

    Creation, lookup, update, revocation, authorisation and expiry of the links
    that give a guest access to one device. *)

From S2P Require Import Prelude GoBase GoStrings Model Store.

Section shares.
Context `{Crypto}.

(** ** Operations *)

(** [buf] and [buf'] are the random bytes of the token and of the card code; the
    card code is the first ten characters of a token. *)
Definition CreateShare (buf buf' salt : bytes) (now : Time)
    (deviceID createdBy password description : string) (viewOnly : bool)
    (expiresAt : option Time) (s : MemoryStore) : result Share * MemoryStore :=
  let share := MkShare (randomToken buf) (take_string 10 (randomToken buf')) deviceID viewOnly ""
                 description expiresAt createdBy now false false false false ∅ in
  let store share := (Ok share, set_ms_shares (insert (shToken share) share) s) in
  if decide (password = "") then store share
  else match bcrypt_generate salt password with
  | None => (Err (ErrMsg "bcrypt"), s)
  | Some hash => store (set_shPasswordHash (λ _, hash) share)
  end.

Definition newer_share (a b : Share) : bool := After (shCreatedAt a) (shCreatedAt b).

(** The expired shares are deleted while the live ones are collected. *)
Definition SharesFor (now : Time) (deviceID : string) (s : MemoryStore)
    : list Share * MemoryStore :=
  let live := delete_if (λ _ share, expired now (shExpiresAt share)) (ms_shares s) in
  let wanted share := bool_decide (deviceID = "") || bool_decide (shDeviceID share = deviceID) in
  (sort_by newer_share (List.filter wanted (map_values live)), set_ms_shares (λ _, live) s).

Definition ShareByToken (token : string) (s : MemoryStore) : result Share :=
  match ms_shares s !! token with
  | Some share => Ok share
  | None => Err ErrNotFound
  end.

Definition UpdateShare (token : string) (update : Share → result Share) (s : MemoryStore)
    : result Share * MemoryStore :=
  match ms_shares s !! token with
  | None => (Err ErrNotFound, s)
  | Some share =>
      match update share with
      | Err e => (Err e, s)
      | Ok share => (Ok share, set_ms_shares (insert token share) s)
      end
  end.

Definition ShareByCard (now : Time) (card : string) (s : MemoryStore)
    : result Share * MemoryStore :=
  let '(shares, s') := SharesFor now "" s in
  match List.find (λ share, bool_decide (shCardCode share = card)) shares with
  | Some share => (Ok share, s')
  | None => (Err ErrNotFound, s')
  end.

Definition RevokeShare (token : string) (s : MemoryStore) : result () * MemoryStore :=
  match ms_shares s !! token with
  | None => (Err ErrNotFound, s)
  | Some _ => (Ok (), set_ms_shares (delete token) s)
  end.

(** [len(share.PasswordHash) > 0] *)
Definition has_password (share : Share) : bool := bool_decide (shPasswordHash share ≠ "").

Definition AuthorizeShare (now : Time) (token password : string) (s : MemoryStore)
    : result Share * MemoryStore :=
  match ms_shares s !! token with
  | None => (Err ErrNotFound, s)
  | Some share =>
      if expired now (shExpiresAt share)
      then (Err ErrNotFound, set_ms_shares (delete token) s)
      else if has_password share && negb (bcrypt_compare (shPasswordHash share) password)
      then (Err ErrInvalidAuth, s)
      else (Ok share, s)
  end.

(** ** Invariant *)

Definition shares_wf (s : MemoryStore) : Prop :=
  ∀ token share, ms_shares s !! token = Some share → shToken share = token.

Definition keeps_token (update : Share → result Share) : Prop :=
  ∀ a b, update a = Ok b → shToken b = shToken a.

Inductive share_step (s : MemoryStore) : MemoryStore → Prop :=
| step_share_create buf buf' salt now d by_ pw descr vo e :
    share_step s (snd (CreateShare buf buf' salt now d by_ pw descr vo e s))
| step_share_list now d : share_step s (snd (SharesFor now d s))
| step_share_update token update :
    keeps_token update → share_step s (snd (UpdateShare token update s))
| step_share_revoke token : share_step s (snd (RevokeShare token s))
| step_share_authorize now token pw : share_step s (snd (AuthorizeShare now token pw s)).

(** ** Lemmas *)

Lemma shares_wf_insert s token share :
  shares_wf s → shToken share = token → shares_wf (set_ms_shares (insert token share) s).
Proof.
  intros Hwf Ht k v. simpl. destruct (decide (k = token)) as [->|Hne].
  - rewrite lookup_insert_eq. by intros [= <-].
  - rewrite lookup_insert_ne by done. apply Hwf.
Qed.

Lemma shares_wf_delete s token : shares_wf s → shares_wf (set_ms_shares (delete token) s).
Proof. intros Hwf k v. simpl. intros [_ ?]%lookup_delete_Some. by apply Hwf. Qed.

Lemma share_step_wf s s' : share_step s s' → shares_wf s → shares_wf s'.
Proof.
  intros Hstep Hwf. destruct Hstep as [| | token update Hkeep | |].
  - unfold CreateShare. case_decide; simpl; [by apply shares_wf_insert|].
    case_match; [by apply shares_wf_insert|done].
  - intros k v. simpl. rewrite lookup_delete_if_Some. intros [? _]. by apply Hwf.
  - unfold UpdateShare. destruct (ms_shares s !! token) as [a|] eqn:Ea; [|done].
    destruct (update a) as [b|] eqn:Eb; [|done]. apply shares_wf_insert; [done|].
    rewrite (Hkeep _ _ Eb). by apply Hwf.
  - unfold RevokeShare. case_match; [by apply shares_wf_delete|done].
  - unfold AuthorizeShare. repeat case_match; try done. by apply shares_wf_delete.
Qed.

Lemma shares_reachable_wf s : rtc share_step empty_store s → shares_wf s.
Proof.
  assert (shares_wf empty_store) as Hwf by done.
  induction 1 as [|s1 s2 s3 Hstep _ IH]; [done|]. apply IH. by eapply share_step_wf.
Qed.

(** The password guard of [AuthorizeShare]. *)
Lemma password_check share password :
  has_password share && negb (bcrypt_compare (shPasswordHash share) password) = false ↔
  shPasswordHash share = "" ∨ bcrypt_compare (shPasswordHash share) password = true.
Proof.
  unfold has_password. case_bool_decide as Hp; simpl.
  - rewrite negb_false_iff. naive_solver.
  - tauto.
Qed.

(** ** Properties *)

(** [AuthorizeShare] lets a guest in exactly when the link exists, has not
    expired and either has no password or the given one verifies; a wrong password
    is reported as such with no change, an expired link is removed and reported as
    missing, and no other link is ever touched. *)
Theorem AuthorizeShare_correct now token password s r s' :
  AuthorizeShare now token password s = (r, s') →
  (∀ share, r = Ok share ↔
     ms_shares s !! token = Some share ∧ (∀ t, shExpiresAt share = Some t → now ≤ t) ∧
     (shPasswordHash share = "" ∨ bcrypt_compare (shPasswordHash share) password = true)) ∧
  (r = Err ErrInvalidAuth → s' = s) ∧
  (∀ e, r = Err e → e = ErrNotFound ∨ e = ErrInvalidAuth) ∧
  (r = Err ErrNotFound → ms_shares s' !! token = None) ∧
  (∀ token', token' ≠ token → ms_shares s' !! token' = ms_shares s !! token').
Proof.
  unfold AuthorizeShare, has_password. destruct (ms_shares s !! token) as [sh|] eqn:Esh.
  2: { intros [= <- <-]. split_and!; try done; naive_solver. }
  destruct (expired now (shExpiresAt sh)) eqn:Eexp.
  { intros [= <- <-]. apply expired_true in Eexp as (t & Et & Hlt). simpl. split_and!; try done.
    - intros share; split; [done|]. intros (? & Hall & _). simplify_eq.
      specialize (Hall _ Et). lia.
    - naive_solver.
    - intros _. apply lookup_delete_eq.
    - intros. by rewrite lookup_delete_ne. }
  pose proof (proj1 (expired_false _ _) Eexp) as Hlive.
  pose proof (password_check sh password) as Hpw. unfold has_password in Hpw.
  destruct (bool_decide _ && negb _); intros [= <- <-]; split_and!; try done.
  - intros share. split; [done|]. intros (Hs & _ & Hok). simplify_eq. by apply Hpw in Hok.
  - by intros e [= <-]; right.
  - intros share. split; [|by intros ([= <-] & _)]. intros [= <-]. by rewrite <-Hpw.
Qed.

(** [SharesFor] returns, newest first, exactly the unexpired links of the
    device (of every device for the empty id) and leaves in the store exactly the
    unexpired links, so an expired link can never be used again. *)
Theorem SharesFor_correct now deviceID s l s' :
  SharesFor now deviceID s = (l, s') →
  (∀ share, share ∈ l ↔ ∃ token, ms_shares s !! token = Some share ∧
     (∀ t, shExpiresAt share = Some t → now ≤ t) ∧
     (deviceID = "" ∨ shDeviceID share = deviceID)) ∧
  Sorted (λ a b, shCreatedAt b ≤ shCreatedAt a) l ∧
  (∀ token share, ms_shares s' !! token = Some share ↔
     ms_shares s !! token = Some share ∧ (∀ t, shExpiresAt share = Some t → now ≤ t)).
Proof.
  intros [= <- <-]. split_and!.
  - intros share. rewrite elem_of_sort_by, list_elem_of_In, filter_In, <-list_elem_of_In.
    rewrite elem_of_map_values, orb_true_iff, !bool_decide_eq_true.
    split.
    + intros [(token & Hs) Hd]. apply lookup_delete_if_Some in Hs as [Hs He].
      rewrite expired_false in He. eauto.
    + intros (token & Hs & He & Hd). split; [|done]. exists token.
      apply lookup_delete_if_Some. by rewrite expired_false.
  - assert (Sorted (λ a b, newer_share b a = false)
      (sort_by newer_share (List.filter (λ share, bool_decide (deviceID = "") ||
         bool_decide (shDeviceID share = deviceID))
         (map_values (delete_if (λ _ share, expired now (shExpiresAt share)) (ms_shares s))))))
      as Hs.
    { apply sort_by_sorted. intros a b. unfold newer_share, After.
      rewrite Z.ltb_lt, Z.ltb_ge. lia. }
    eapply Sorted_weaken; [|exact Hs]. intros a b. unfold newer_share, After.
    by rewrite Z.ltb_ge.
  - intros token share. simpl. by rewrite lookup_delete_if_Some, expired_false.
Qed.

(** A link just created opens with its password (with any password when none
    was set) at every later instant up to its expiry, and never after it. *)
Theorem CreateShare_then_authorize `{!CryptoLaws _}
    buf buf' salt now d by_ password descr vo e s share s' now' given :
  CreateShare buf buf' salt now d by_ password descr vo e s = (Ok share, s') →
  shDeviceID share = d ∧ shViewOnly share = vo ∧
  ((∀ t, e = Some t → now' ≤ t) → (password = "" ∨ given = password) →
     fst (AuthorizeShare now' (shToken share) given s') = Ok share) ∧
  (∀ t, e = Some t → t < now' →
     fst (AuthorizeShare now' (shToken share) given s') = Err ErrNotFound).
Proof.
  intros Hc. assert (∃ h, share = MkShare (randomToken buf) (take_string 10 (randomToken buf')) d
      vo h descr e by_ now false false false false ∅ ∧
      s' = set_ms_shares (insert (randomToken buf) share) s ∧
      (password = "" ∧ h = "" ∨ password ≠ "" ∧ bcrypt_generate salt password = Some h)) as (h & Hsh & -> & Hh).
  { unfold CreateShare in Hc. case_decide; [|destruct (bcrypt_generate _ _) as [h|] eqn:Eh; [|done]];
      injection Hc as <- <-; eexists; (split; [reflexivity|]); naive_solver. }
  subst share. simpl. split_and!; try done; unfold AuthorizeShare; simpl;
    rewrite lookup_insert_eq; simpl.
  - intros Hlive Hgiven. rewrite <-expired_false in Hlive. rewrite Hlive. unfold has_password. simpl.
    destruct Hh as [[-> ->]|[Hne Hh]]; [done|]. destruct Hgiven as [?| ->]; [done|].
    by rewrite (bcrypt_generate_compare _ _ _ Hh), andb_false_r.
  - intros t -> Hlt. simpl. unfold After. by rewrite (proj2 (Z.ltb_lt _ _) Hlt).
Qed.
End shares.

(** ** Witnesses *)

Module SharesWitness.
Import ToyCrypto.

Definition made :=
  CreateShare (repeat "a"%char 24) (repeat "b"%char 24) [] 10 "phone" "root" "pw" "demo" true
    (Some 100) empty_store.
Definition share0 : Share := from_ok (MkShare "" "" "" false "" "" None "" 0 false false false
  false ∅) (fst made).
Definition s1 : MemoryStore := snd made.

Lemma made_eq : made = (Ok share0, s1).
Proof. by vm_compute. Defined.

Lemma CreateShare_then_authorize_witness :
  fst (AuthorizeShare 100 (shToken share0) "pw" s1) = Ok share0 ∧
  fst (AuthorizeShare 101 (shToken share0) "pw" s1) = Err ErrNotFound.
Proof.
  pose proof (λ n, CreateShare_then_authorize _ _ _ _ _ _ _ _ _ _ _ share0 s1 n "pw" made_eq) as Hx.
  split; [apply (Hx 100); [intros t [= <-]; done|by right]|by eapply (Hx 101)].
Defined.

Lemma AuthorizeShare_correct_witness :
  ms_shares (snd (AuthorizeShare 101 (shToken share0) "pw" s1)) !! shToken share0 = None.
Proof.
  destruct (AuthorizeShare_correct 101 (shToken share0) "pw" s1 (Err ErrNotFound)
    (snd (AuthorizeShare 101 (shToken share0) "pw" s1))) as (_ & _ & _ & Hx & _);
    [by vm_compute|]. by apply Hx.
Defined.

Lemma SharesFor_correct_witness :
  share0 ∈ fst (SharesFor 50 "phone" s1).
Proof.
  apply (SharesFor_correct 50 "phone" s1 _ (snd (SharesFor 50 "phone" s1)) eq_refl).
  exists (shToken share0). split_and!; [by vm_compute|by intros t [= <-]|by right].
Defined.
End SharesWitness.
