(* ===== verification/Enrollments.v ===== *)
(** * Enrollment and deployment credentials
      (store.go, deployment_credentials_store.go)

    One-time enrollment tokens, the agent credentials they are exchanged for, and
    the deployment credentials that may issue enrollments.  Only digests of
    tokens are stored. *)

From S2P Require Import Prelude GoBase GoStrings Model Store.

Section enrollments.
Context `{Crypto}.

(** ** Deployment credentials *)

Definition deploymentCredentialScope : string := "agent:enroll".
Definition maxDeploymentEnrollmentTTL : Duration := 15 * Minute.

Definition active (c : storedDeploymentCredential) (now : Time) : bool :=
  let d := sdCredential c in
  bool_decide (dcScope d = deploymentCredentialScope) &&
  (match dcRevokedAt d with None => true | Some _ => false end) &&
  (match dcExpiresAt d with None => true | Some t => Before now t end).

Definition copyTime (value : option Time) : option Time := value.
Definition copyDeploymentCredential (value : DeploymentCredential) : DeploymentCredential :=
  set_dcLastUsedAt copyTime (set_dcRevokedAt copyTime (set_dcExpiresAt copyTime value)).

Definition newer_credential (a b : DeploymentCredential) : bool :=
  After (dcCreatedAt a) (dcCreatedAt b).

Definition DeploymentCredentials (s : MemoryStore) : list DeploymentCredential :=
  sort_by newer_credential
    ((copyDeploymentCredential ∘ sdCredential) <$> map_values (ms_deploymentCredentials s)).

(** Instants in audit metadata are integers (nanoseconds). *)
Definition time_value (t : option Time) : value :=
  match t with Some t => VInt t | None => VNull end.

Definition credential_token (id secret : string) : string :=
  "scd" +:+ "." +:+ id +:+ "." +:+ secret.

(** [buf], [buf'], [abuf]: randomness of the id, of the secret and of the audit id. *)
Definition CreateDeploymentCredential (buf buf' abuf : bytes) (now : Time) (name actor : string)
    (ttl : Duration) (s : MemoryStore) : result (DeploymentCredential * string) * MemoryStore :=
  let name := TrimSpace name in
  if bool_decide (name = "") || (80 <? RuneCount name) || (ttl <? 0)
  then (Err errInvalidDeploymentRequest, s)
  else
    let expiresAt := if 0 <? ttl then Some (Add now ttl) else None in
    let credential := MkDeploymentCredential (randomID buf) name deploymentCredentialScope
                        actor now expiresAt None None in
    let token := credential_token (dcID credential) (randomToken buf') in
    let s := set_ms_deploymentCredentials
               (insert (dcID credential) (MkStored credential (tokenDigest token))) s in
    let s := auditLocked abuf now
               (MkAuditEvent "" actor "deployment.credential.create" (dcID credential)
                  {[ "name" := VStr name; "scope" := VStr (dcScope credential);
                     "expires_at" := time_value (copyTime (dcExpiresAt credential)) ]} 0) s in
    (Ok (copyDeploymentCredential credential, token), s).

Definition RevokeDeploymentCredential (abuf : bytes) (now : Time) (id actor : string)
    (s : MemoryStore) : result DeploymentCredential * MemoryStore :=
  match ms_deploymentCredentials s !! id with
  | None => (Err ErrNotFound, s)
  | Some saved =>
      match dcRevokedAt (sdCredential saved) with
      | Some _ => (Ok (copyDeploymentCredential (sdCredential saved)), s)
      | None =>
          let credential := set_dcRevokedAt (λ _, Some now) (sdCredential saved) in
          let s := set_ms_deploymentCredentials
                     (insert id (MkStored credential (sdTokenHash saved))) s in
          let s := auditLocked abuf now
                     (MkAuditEvent "" actor "deployment.credential.revoke" id ∅ 0) s in
          (Ok (copyDeploymentCredential credential), s)
      end
  end.

(** The characters NUL, CR and LF. *)
Definition control_chars : string := String "000" (String "013" (String "010" "")).

(** The token's three segments, when it is one. *)
Definition credential_id (token : string) : option string :=
  match Split token "." with
  | [p0; p1; _] => if decide (p0 = "scd") then Some p1 else None
  | _ => None
  end.

Definition IssueDeploymentEnrollment (buf abuf : bytes) (now : Time) (token deviceID : string)
    (ttl : Duration) (s : MemoryStore) : result Enrollment * MemoryStore :=
  if bool_decide (TrimSpace deviceID = "") || (128 <? len deviceID) ||
     ContainsAny deviceID control_chars || (ttl <=? 0) || (maxDeploymentEnrollmentTTL <? ttl)
  then (Err errInvalidDeploymentRequest, s)
  else match credential_id token with
  | None => (Err ErrInvalidAuth, s)
  | Some id =>
      match ms_deploymentCredentials s !! id with
      | None => (Err ErrInvalidAuth, s)
      | Some saved =>
          if negb (active saved now) || bool_decide (sdTokenHash saved ≠ tokenDigest token)
          then (Err ErrInvalidAuth, s)
          else
            let credential := sdCredential saved in
            let expiresAt := Add now ttl in
            let expiresAt := match dcExpiresAt credential with
                             | Some t => if Before t expiresAt then t else expiresAt
                             | None => expiresAt
                             end in
            let enrollment := MkEnrollment (randomToken buf) expiresAt deviceID (dcID credential) in
            let s := set_ms_enrollments
                       (insert (tokenDigest (enToken enrollment))
                          (set_enToken (λ _, "") enrollment)) s in
            let s := set_ms_deploymentCredentials
                       (insert (dcID credential)
                          (MkStored (set_dcLastUsedAt (λ _, Some now) credential)
                             (sdTokenHash saved))) s in
            let s := auditLocked abuf now
                       (MkAuditEvent "" ("deployment:" +:+ dcID credential)
                          "deployment.enrollment.create" deviceID
                          {[ "credential_id" := VStr (dcID credential);
                             "expires_at" := VInt expiresAt ]} 0) s in
            (Ok enrollment, s)
      end
  end.

(** ** Enrollments and agent credentials *)

Definition CreateEnrollment (buf : bytes) (now : Time) (deviceID : string) (ttl : Duration)
    (s : MemoryStore) : Enrollment * MemoryStore :=
  let enrollment := MkEnrollment (randomToken buf) (Add now ttl) deviceID "" in
  (enrollment,
   set_ms_enrollments (insert (tokenDigest (enToken enrollment)) (set_enToken (λ _, "") enrollment)) s).

(** The issuer check: an enrollment issued by a deployment credential needs it active. *)
Definition issuer_ok (enrollment : Enrollment) (now : Time) (s : MemoryStore) : bool :=
  if decide (enDeploymentCredentialID enrollment = "") then true
  else match ms_deploymentCredentials s !! enDeploymentCredentialID enrollment with
       | Some issuer => active issuer now
       | None => false
       end.

Definition ExchangeEnrollment (buf : bytes) (now : Time) (token deviceID : string)
    (s : MemoryStore) : result AgentCredential * MemoryStore :=
  match ms_enrollments s !! tokenDigest token with
  | None => (Err ErrInvalidToken, s)
  | Some enrollment =>
      if negb (Before now (enExpiresAt enrollment)) ||
         (bool_decide (enDeviceID enrollment ≠ "") && bool_decide (enDeviceID enrollment ≠ deviceID))
      then (Err ErrInvalidToken, s)
      else if negb (issuer_ok enrollment now s) then (Err ErrInvalidToken, s)
      else
        let credential := MkAgentCredential (randomToken buf) deviceID in
        (Ok credential,
         set_ms_agentCredentials
           (insert (tokenDigest (acToken credential)) (set_acToken (λ _, "") credential))
           (set_ms_enrollments (delete (tokenDigest token)) s))
  end.

Definition ValidateAgentToken (token deviceID : string) (s : MemoryStore) : bool :=
  match ms_agentCredentials s !! tokenDigest token with
  | Some credential => bool_decide (acDeviceID credential = deviceID)
  | None => false
  end.

(** ** Transitions *)

(** One operation on enrollments, at a clock that does not go back.  [used] are
    the digests of tokens already handed out: a new enrollment token is fresh. *)
Inductive enroll_step (used : string → Prop) (s : MemoryStore) : MemoryStore → Prop :=
| step_enroll buf now d ttl : ¬ used (tokenDigest (randomToken buf)) →
    enroll_step used s (snd (CreateEnrollment buf now d ttl s))
| step_exchange buf now token d :
    enroll_step used s (snd (ExchangeEnrollment buf now token d s))
| step_issue buf abuf now token d ttl : ¬ used (tokenDigest (randomToken buf)) →
    enroll_step used s (snd (IssueDeploymentEnrollment buf abuf now token d ttl s))
| step_revoke_credential abuf now id actor :
    enroll_step used s (snd (RevokeDeploymentCredential abuf now id actor s)).

(** ** Lemmas *)

Lemma ExchangeEnrollment_Ok buf now token d s c s' :
  ExchangeEnrollment buf now token d s = (Ok c, s') →
  ∃ e, ms_enrollments s !! tokenDigest token = Some e ∧ now < enExpiresAt e ∧
    (enDeviceID e = "" ∨ enDeviceID e = d) ∧ issuer_ok e now s = true ∧
    c = MkAgentCredential (randomToken buf) d ∧
    s' = set_ms_agentCredentials (insert (tokenDigest (randomToken buf)) (MkAgentCredential "" d))
           (set_ms_enrollments (delete (tokenDigest token)) s).
Proof.
  unfold ExchangeEnrollment. destruct (ms_enrollments s !! tokenDigest token) as [e|]; [|done].
  destruct (negb (Before now (enExpiresAt e)) || _) eqn:Eg; [done|].
  destruct (issuer_ok e now s) eqn:Ei; [|done]. intros [= <- <-].
  exists e. unfold Before in Eg. bool_to_prop. split_and!; try done.
  destruct (decide (enDeviceID e = "")) as [->|Hne]; [by left|right].
  destruct H1 as [Hx|Hx]; by apply bool_decide_eq_false, dec_stable in Hx.
Qed.

Lemma ExchangeEnrollment_Err buf now token d s e s' :
  ExchangeEnrollment buf now token d s = (Err e, s') → e = ErrInvalidToken ∧ s' = s.
Proof. unfold ExchangeEnrollment. intros Hr. repeat case_match; by simplify_eq. Qed.

Lemma IssueDeploymentEnrollment_Ok buf abuf now token d ttl s e s' :
  IssueDeploymentEnrollment buf abuf now token d ttl s = (Ok e, s') →
  ∃ id saved, credential_id token = Some id ∧ ms_deploymentCredentials s !! id = Some saved ∧
    active saved now = true ∧ sdTokenHash saved = tokenDigest token ∧
    TrimSpace d ≠ "" ∧ len d ≤ 128 ∧ ContainsAny d control_chars = false ∧
    0 < ttl ≤ maxDeploymentEnrollmentTTL ∧
    enToken e = randomToken buf ∧ enDeviceID e = d ∧
    enDeploymentCredentialID e = dcID (sdCredential saved) ∧
    enExpiresAt e = match dcExpiresAt (sdCredential saved) with
                    | Some t => Z.min t (now + ttl) | None => now + ttl end ∧
    ms_enrollments s' = <[tokenDigest (randomToken buf) := set_enToken (λ _, "") e]> (ms_enrollments s).
Proof.
  unfold IssueDeploymentEnrollment. destruct (bool_decide _ || _ || _ || _ || _) eqn:Eg; [done|].
  destruct (credential_id token) as [id|] eqn:Eid; [|done].
  destruct (ms_deploymentCredentials s !! id) as [saved|] eqn:Es; [|done].
  destruct (active saved now) eqn:Ea; [|done]. simpl.
  destruct (bool_decide (sdTokenHash saved ≠ tokenDigest token)) eqn:Hh; [done|].
  intros Hr. injection Hr as <- <-. apply bool_decide_eq_false, dec_stable in Hh. bool_to_prop. exists id, saved. simpl. split_and!; try done.
  - unfold Before, Add. destruct (dcExpiresAt (sdCredential saved)) as [t|]; [|done].
    destruct (Z.ltb_spec t (now + ttl)); lia.
Qed.

Lemma auditLocked_frame abuf now ev s :
  ms_enrollments (auditLocked abuf now ev s) = ms_enrollments s ∧
  ms_deploymentCredentials (auditLocked abuf now ev s) = ms_deploymentCredentials s ∧
  ms_agentCredentials (auditLocked abuf now ev s) = ms_agentCredentials s.
Proof. done. Qed.

Lemma RevokeDeploymentCredential_frame abuf now id actor s :
  ms_enrollments (snd (RevokeDeploymentCredential abuf now id actor s)) = ms_enrollments s.
Proof. unfold RevokeDeploymentCredential. by repeat case_match. Qed.

(** A used digest that is not pending never becomes pending again. *)
Lemma enroll_step_gone used s s' dg :
  used dg → enroll_step used s s' → ms_enrollments s !! dg = None → ms_enrollments s' !! dg = None.
Proof.
  intros Hu Hstep Hg. destruct Hstep as [buf now d ttl Hn|buf now token d|buf abuf now token d ttl Hn|].
  - simpl. rewrite lookup_insert_ne; [done|]. by intros <-.
  - destruct (ExchangeEnrollment buf now token d s) as [[c|e] s'] eqn:E; simpl.
    + apply ExchangeEnrollment_Ok in E as (e & _ & _ & _ & _ & _ & ->). simpl.
      apply lookup_delete_None. by right.
    + by apply ExchangeEnrollment_Err in E as [_ ->].
  - destruct (IssueDeploymentEnrollment buf abuf now token d ttl s) as [[e|e] s'] eqn:E; simpl.
    + apply IssueDeploymentEnrollment_Ok in E as
        (? & ? & _ & _ & _ & _ & _ & _ & _ & _ & _ & _ & _ & _ & ->).
      rewrite lookup_insert_ne; [done|]. by intros <-.
    + unfold IssueDeploymentEnrollment in E. repeat case_match; by simplify_eq.
  - by rewrite RevokeDeploymentCredential_frame.
Qed.

(** The dotted credential token names its credential. *)
Lemma credential_id_token buf secret :
  credential_id (credential_token (randomID buf) (randomToken secret)) = Some (randomID buf).
Proof.
  unfold credential_id, credential_token. rewrite Split_dots; auto with go.
  intros Hin. assert (bool_decide (ch "." ∈ str_bytes "scd") = true) as Hb
    by (by apply bool_decide_eq_true_2). by vm_compute in Hb.
Qed.

Definition revoked (s : MemoryStore) (id : string) : Prop :=
  ∃ c, ms_deploymentCredentials s !! id = Some c ∧ dcRevokedAt (sdCredential c) ≠ None.

Lemma active_revoked c now : dcRevokedAt (sdCredential c) ≠ None → active c now = false.
Proof.
  unfold active. destruct (dcRevokedAt _); [|done]. intros _.
  by rewrite andb_false_r.
Qed.

(** ** Properties *)

(** C6: An enrollment token works at most once.  Once it has been exchanged, no
    later exchange of it succeeds, for any device, at any time, after any further
    issues, exchanges and revocations (new tokens being fresh). *)
Theorem enrollment_single_use (used : string → Prop)
    buf now token d s c s1 s2 buf' now' d' :
  ExchangeEnrollment buf now token d s = (Ok c, s1) →
  used (tokenDigest token) → rtc (enroll_step used) s1 s2 →
  ExchangeEnrollment buf' now' token d' s2 = (Err ErrInvalidToken, s2).
Proof.
  intros (e & _ & _ & _ & _ & _ & ->)%ExchangeEnrollment_Ok Hused Hsteps.
  assert (ms_enrollments s2 !! tokenDigest token = None) as Hg.
  { remember (set_ms_agentCredentials _ _) as s1 eqn:Es1.
    assert (ms_enrollments s1 !! tokenDigest token = None) as Hg1
      by (subst; simpl; apply lookup_delete_eq).
    clear Es1. induction Hsteps as [|? ? ? Hstep _ IH]; [done|].
    apply IH. by eapply enroll_step_gone. }
  unfold ExchangeEnrollment. by rewrite Hg.
Qed.

(** What an exchange requires and what it gives: it succeeds only for a pending
    enrollment that has not expired, for its device if it names one, with an active
    issuer if it has one; the token it returns then authenticates that device and
    no other, and the failures are all [ErrInvalidToken] and change nothing. *)
Theorem ExchangeEnrollment_correct buf now token d s :
  (∀ c s', ExchangeEnrollment buf now token d s = (Ok c, s') →
     (∃ e, ms_enrollments s !! tokenDigest token = Some e ∧ now < enExpiresAt e ∧
        (enDeviceID e = "" ∨ enDeviceID e = d) ∧ issuer_ok e now s = true) ∧
     ms_enrollments s' !! tokenDigest token = None ∧ acDeviceID c = d ∧
     (∀ d', ValidateAgentToken (acToken c) d' s' = bool_decide (d' = d))) ∧
  (∀ e s', ExchangeEnrollment buf now token d s = (Err e, s') → e = ErrInvalidToken ∧ s' = s).
Proof.
  split; [|intros e s'; apply ExchangeEnrollment_Err].
  intros c s' (e & He & Hlt & Hd & Hi & -> & ->)%ExchangeEnrollment_Ok. simpl. split_and!.
  - eauto.
  - apply lookup_delete_eq.
  - done.
  - intros d'. unfold ValidateAgentToken. simpl. rewrite lookup_insert_eq. simpl.
    apply bool_decide_ext. naive_solver.
Qed.

(** Revoking a deployment credential cuts off everything it issued: the
    credential issues no further enrollment and the enrollments it issued before
    can no longer be exchanged, whatever the instant and the device. *)
Theorem revocation_cuts_off abuf now id actor s c s' :
  RevokeDeploymentCredential abuf now id actor s = (Ok c, s') →
  (∀ buf abuf' now' token d ttl e s'',
     credential_id token = Some id →
     IssueDeploymentEnrollment buf abuf' now' token d ttl s' ≠ (Ok e, s'')) ∧
  (∀ buf now' token d e, ms_enrollments s' !! tokenDigest token = Some e →
     enDeploymentCredentialID e = id → id ≠ "" →
     ExchangeEnrollment buf now' token d s' = (Err ErrInvalidToken, s')).
Proof.
  intros Hr. assert (revoked s' id) as (c' & Hc' & Hrev).
  { unfold RevokeDeploymentCredential in Hr.
    destruct (ms_deploymentCredentials s !! id) as [saved|] eqn:Es; [|done].
    destruct (dcRevokedAt (sdCredential saved)) as [t|] eqn:Et; injection Hr as _ <-.
    - exists saved. by rewrite Et.
    - eexists. simpl. rewrite lookup_insert_eq. done. }
  split.
  - intros buf abuf' now' token d ttl e s'' Hid Hi.
    apply IssueDeploymentEnrollment_Ok in Hi as (id' & saved & Hid' & Hs & Ha & _).
    simplify_eq. by rewrite active_revoked in Ha.
  - intros buf now' token d e He Hid Hne.
    destruct (ExchangeEnrollment buf now' token d s') as [[k|k] s''] eqn:E.
    + apply ExchangeEnrollment_Ok in E as (e' & He' & _ & _ & Hi & _). simplify_eq.
      unfold issuer_ok in Hi. by rewrite decide_False, Hc', active_revoked in Hi.
    + by apply ExchangeEnrollment_Err in E as [-> ->].
Qed.

(** An enrollment issued by a deployment credential lives at most fifteen
    minutes and never longer than the credential, is bound to a non-blank device id
    of at most 128 bytes without control characters, and was requested with the
    secret of an active credential. *)
Theorem IssueDeploymentEnrollment_bounds buf abuf now token d ttl s e s' :
  IssueDeploymentEnrollment buf abuf now token d ttl s = (Ok e, s') →
  enExpiresAt e ≤ now + 15 * Minute ∧
  enDeviceID e = d ∧ TrimSpace d ≠ "" ∧ len d ≤ 128 ∧ ContainsAny d control_chars = false ∧
  ∃ id saved, credential_id token = Some id ∧ ms_deploymentCredentials s !! id = Some saved ∧
    active saved now = true ∧ sdTokenHash saved = tokenDigest token ∧
    (∀ t, dcExpiresAt (sdCredential saved) = Some t → now < t ∧ enExpiresAt e ≤ t).
Proof.
  intros (id & saved & Hid & Hs & Ha & Hh & Hd1 & Hd2 & Hd3 & Httl & _ & Hd & _ & Hexp & _)%
    IssueDeploymentEnrollment_Ok. unfold maxDeploymentEnrollmentTTL in Httl.
  split_and!; try done; [rewrite Hexp; destruct (dcExpiresAt _); lia|].
  exists id, saved. split_and!; try done. intros t Ht. rewrite Hexp, Ht.
  unfold active in Ha. rewrite Ht in Ha. bool_to_prop. unfold Before in *. bool_to_prop. lia.
Qed.

(** A deployment credential, once created, issues enrollments with the token it
    was created with at every instant before its expiry, and such an enrollment can
    be exchanged for an agent credential of its device until it expires. *)
Theorem deployment_roundtrip buf buf' abuf now name actor ttl s cred token s1
    ebuf eabuf now1 d ettl cbuf now2 :
  CreateDeploymentCredential buf buf' abuf now name actor ttl s = (Ok (cred, token), s1) →
  randomID buf ≠ "" →
  TrimSpace d ≠ "" → len d ≤ 128 → ContainsAny d control_chars = false →
  0 < ettl ≤ 15 * Minute → (∀ t, dcExpiresAt cred = Some t → now1 < t ∧ now2 < t) →
  now2 < now1 + ettl →
  ∃ e s2, IssueDeploymentEnrollment ebuf eabuf now1 token d ettl s1 = (Ok e, s2) ∧
    ∃ c s3, ExchangeEnrollment cbuf now2 (enToken e) d s2 = (Ok c, s3) ∧ acDeviceID c = d.
Proof.
  intros Hc Hid0 Hd1 Hd2 Hd3 Httl Hlive Hlt. unfold CreateDeploymentCredential in Hc.
  case_match; [done|]. injection Hc as <- <- <-. simpl in Hlive. unfold copyTime in Hlive.
  unfold IssueDeploymentEnrollment. rewrite (bool_decide_eq_false_2 (TrimSpace d = "")) by done.
  rewrite (proj2 (Z.ltb_ge 128 (len d))), Hd3, (proj2 (Z.leb_gt ettl 0)) by lia.
  rewrite (proj2 (Z.ltb_ge maxDeploymentEnrollmentTTL ettl)) by (unfold maxDeploymentEnrollmentTTL; lia).
  cbn [orb]. rewrite credential_id_token. cbn [ms_deploymentCredentials auditLocked set_ms_audits
    set_ms_deploymentCredentials dcID]. rewrite lookup_insert_eq.
  set (oe := if 0 <? ttl then _ else _) in *.
  assert (∀ n, (∀ t, oe = Some t → n < t) → match oe with None => true | Some t => Before n t end = true) as Hact.
  { intros n Hn. destruct oe as [t|]; [|done]. apply Z.ltb_lt. by apply Hn. }
  unfold active at 1. cbn [sdCredential dcScope dcRevokedAt dcExpiresAt sdTokenHash].
  rewrite Hact by (intros t Ht; by apply Hlive). rewrite bool_decide_eq_true_2 by done.
  cbn [andb negb orb]. rewrite bool_decide_eq_false_2 by tauto.
  eexists _, _. split; [reflexivity|]. unfold ExchangeEnrollment.
  cbn [ms_enrollments auditLocked set_ms_audits set_ms_deploymentCredentials set_ms_enrollments
    enToken set_enToken]. rewrite lookup_insert_eq. cbn [enExpiresAt enDeviceID set_enToken].
  rewrite (bool_decide_eq_false_2 (d ≠ d)) by tauto. rewrite andb_false_r, orb_false_r.
  assert (Before now2 (match oe with Some t => if Before t (Add now1 ettl) then t else Add now1 ettl
    | None => Add now1 ettl end) = true) as ->.
  { unfold Before, Add. apply Z.ltb_lt. destruct oe as [t|]; [|done].
    destruct (Z.ltb_spec t (now1 + ettl)); [by apply Hlive|done]. }
  unfold issuer_ok. cbn [enDeploymentCredentialID set_enToken dcID negb].
  rewrite decide_False by done. cbn [ms_deploymentCredentials auditLocked set_ms_audits
    set_ms_deploymentCredentials set_ms_enrollments]. rewrite lookup_insert_eq.
  unfold active. cbn [sdCredential dcScope dcRevokedAt dcExpiresAt set_dcLastUsedAt].
  rewrite Hact by (intros t Ht; by apply Hlive). rewrite bool_decide_eq_true_2 by done. simpl.
  eauto.
Qed.
End enrollments.

(** ** Witnesses *)

Module EnrollmentsWitness.
Import ToyCrypto.

Definition en := CreateEnrollment (repeat "a"%char 24) 0 "phone" 100 empty_store.
Definition tok : string := enToken (fst en).
Definition ex := ExchangeEnrollment (repeat "b"%char 24) 5 tok "phone" (snd en).
Definition cred0 : AgentCredential := from_ok (MkAgentCredential "" "") (fst ex).

Lemma ex_eq : ex = (Ok cred0, snd ex).
Proof. by vm_compute. Defined.

Lemma enrollment_single_use_witness :
  ExchangeEnrollment (repeat "c"%char 24) 6 tok "phone" (snd ex) = (Err ErrInvalidToken, snd ex).
Proof.
  apply (enrollment_single_use (eq (tokenDigest tok)) (repeat "b"%char 24) 5 tok "phone"
    (snd en) cred0 (snd ex));
    [apply ex_eq|done|apply rtc_refl].
Defined.

Lemma ExchangeEnrollment_correct_witness :
  ValidateAgentToken (acToken cred0) "phone" (snd ex) = true ∧
  ValidateAgentToken (acToken cred0) "other" (snd ex) = false.
Proof.
  destruct (proj1 (ExchangeEnrollment_correct (repeat "b"%char 24) 5 tok "phone" (snd en))
    cred0 (snd ex) ex_eq) as (_ & _ & _ & Hx).
  by rewrite !Hx.
Defined.

Definition dc := CreateDeploymentCredential (repeat "d"%char 24) (repeat "e"%char 24) [] 10
  " lab " "root" (100 * Minute) empty_store.
Definition dcred : DeploymentCredential :=
  fst (from_ok (MkDeploymentCredential "" "" "" "" 0 None None None, "") (fst dc)).
Definition dtok : string :=
  snd (from_ok (MkDeploymentCredential "" "" "" "" 0 None None None, "") (fst dc)).

Lemma dc_eq : dc = (Ok (dcred, dtok), snd dc).
Proof. by vm_compute. Defined.

Definition iss := IssueDeploymentEnrollment (repeat "f"%char 24) [] 20 dtok "phone" Minute (snd dc).
Definition en1 : Enrollment := from_ok (MkEnrollment "" 0 "" "") (fst iss).

Lemma IssueDeploymentEnrollment_bounds_witness : enExpiresAt en1 ≤ 20 + 15 * Minute.
Proof.
  apply (IssueDeploymentEnrollment_bounds (repeat "f"%char 24) [] 20 dtok "phone" Minute
    (snd dc) en1 (snd iss)). by vm_compute.
Defined.

Lemma deployment_roundtrip_witness :
  ∃ e s2, IssueDeploymentEnrollment (repeat "f"%char 24) [] 20 dtok "phone" Minute (snd dc) = (Ok e, s2) ∧
    ∃ c s3, ExchangeEnrollment (repeat "g"%char 24) 30 (enToken e) "phone" s2 = (Ok c, s3) ∧
      acDeviceID c = "phone".
Proof.
  eapply (deployment_roundtrip _ _ _ _ _ _ _ _ dcred dtok (snd dc));
    [apply dc_eq|by vm_compute|by vm_compute|by vm_compute|by vm_compute|by vm_compute| |by vm_compute].
  intros t Ht. vm_compute in Ht. injection Ht as <-. by vm_compute.
Defined.

Definition rv := RevokeDeploymentCredential [] 25 (dcID dcred) "root" (snd iss).
Lemma revocation_cuts_off_witness :
  ExchangeEnrollment (repeat "g"%char 24) 30 (enToken en1) "phone" (snd rv) =
    (Err ErrInvalidToken, snd rv).
Proof.
  destruct (revocation_cuts_off [] 25 (dcID dcred) "root" (snd iss)
    (from_ok dcred (fst rv)) (snd rv)) as [_ Hx]; [by vm_compute|].
  apply (Hx _ _ _ _ (set_enToken (λ _, "") en1)); by vm_compute.
Defined.
End EnrollmentsWitness.
