(* ===== verification/Assets.v ===== *)
(** * Shortcuts and assets (store.go)

    The shell shortcuts of each user and the file library with its name index. *)

From S2P Require Import Prelude GoBase GoStrings Model Store.

(** ** Shortcuts *)

Definition Shortcuts (userID : string) (s : MemoryStore) : list Shortcut :=
  default [] (ms_shortcuts s !! userID).

Definition clean_shortcut (shortcut : Shortcut) : Shortcut :=
  MkShortcut (TrimSpace (scName shortcut)) (TrimSpace (scCmd shortcut)).
Definition kept_shortcut (shortcut : Shortcut) : bool :=
  negb (bool_decide (scName shortcut = "")) && negb (bool_decide (scCmd shortcut = "")).

Definition ReplaceShortcuts (userID : string) (shortcuts : list Shortcut) (s : MemoryStore)
    : MemoryStore :=
  set_ms_shortcuts (insert userID (List.filter kept_shortcut (map clean_shortcut shortcuts))) s.

(** ** Assets *)

Definition CreateAsset (buf : bytes) (now : Time) (asset : Asset) (s : MemoryStore)
    : result Asset * MemoryStore :=
  let asset := if decide (asID asset = "") then set_asID (λ _, randomID buf) asset else asset in
  if decide (asName asset = "") then (Err ErrNotFound, s)
  else match ms_assetsByName s !! asName asset with
  | Some _ => (Err ErrAlreadyExists, s)
  | None =>
      let asset := if IsZero (asCreatedAt asset) then set_asCreatedAt (λ _, now) asset else asset in
      (Ok asset,
       set_ms_assetsByName (insert (asName asset) (asID asset))
         (set_ms_assets (insert (asID asset) asset) s))
  end.

Definition newer_asset (a b : Asset) : bool := After (asCreatedAt a) (asCreatedAt b).
Definition Assets (s : MemoryStore) : list Asset := sort_by newer_asset (map_values (ms_assets s)).

Definition AssetByID (id : string) (s : MemoryStore) : result Asset :=
  match ms_assets s !! id with Some asset => Ok asset | None => Err ErrNotFound end.

Definition AssetByName (name : string) (s : MemoryStore) : result Asset :=
  let id := default "" (ms_assetsByName s !! name) in
  match ms_assets s !! id with Some asset => Ok asset | None => Err ErrNotFound end.

(** ** The library invariant *)

Record assets_wf (s : MemoryStore) : Prop := {
  awf_key id a : ms_assets s !! id = Some a → asID a = id ∧ id ≠ "" ∧ asName a ≠ "" ∧
    ms_assetsByName s !! asName a = Some id;
  awf_name name id : ms_assetsByName s !! name = Some id →
    ∃ a, ms_assets s !! id = Some a ∧ asName a = name
}.

(** The handler gives every upload a fresh random id. *)
Inductive asset_step (s : MemoryStore) : MemoryStore → Prop :=
| step_asset buf now a : asID a ≠ "" → ms_assets s !! asID a = None →
    asset_step s (snd (CreateAsset buf now a s)).

(** ** Lemmas *)

Lemma CreateAsset_Ok buf now a s a' s' :
  asID a ≠ "" → CreateAsset buf now a s = (Ok a', s') →
  asID a' = asID a ∧ asName a' = asName a ∧ asPath a' = asPath a ∧ asSHA256 a' = asSHA256 a ∧
  asSize a' = asSize a ∧ asName a ≠ "" ∧ ms_assetsByName s !! asName a = None ∧
  s' = set_ms_assetsByName (insert (asName a) (asID a)) (set_ms_assets (insert (asID a) a') s).
Proof.
  intros Hid. unfold CreateAsset. destruct (decide (asID a = "")); [done|].
  destruct (decide (asName a = "")); [done|].
  destruct (ms_assetsByName s !! asName a) eqn:En; [done|].
  destruct (IsZero (asCreatedAt a)); intros [= <- <-]; split_and!; try done.
Qed.

Lemma CreateAsset_Err buf now a s e s' : CreateAsset buf now a s = (Err e, s') → s' = s.
Proof. unfold CreateAsset. intros Hr. repeat case_match; by simplify_eq. Qed.

Lemma asset_step_wf s s' : asset_step s s' → assets_wf s → assets_wf s'.
Proof.
  intros [buf now a Hid Hfresh] Hwf. clear s'.
  destruct (CreateAsset buf now a s) as [[a'|e] s'] eqn:E; simpl;
    [|by apply CreateAsset_Err in E as ->].
  apply CreateAsset_Ok in E as (Hid' & Hn' & _ & _ & _ & Hne & Hfree & ->); [|done].
  split; simpl.
  - intros id x. destruct (decide (id = asID a)) as [->|Hneq].
    + rewrite lookup_insert_eq. intros [= <-]. rewrite Hn', Hid'. by rewrite lookup_insert_eq.
    + rewrite lookup_insert_ne by done. intros Hx. destruct (awf_key s Hwf _ _ Hx) as (?&?&?&Hb).
      rewrite lookup_insert_ne; [done|]. congruence.
  - intros name id. destruct (decide (name = asName a)) as [->|Hneq].
    + rewrite lookup_insert_eq. intros [= <-]. exists a'. by rewrite lookup_insert_eq.
    + rewrite lookup_insert_ne by done. intros Hx. destruct (awf_name s Hwf _ _ Hx) as (x&?&?).
      exists x. rewrite lookup_insert_ne; [done|]. congruence.
Qed.

(** ** Properties *)

(** In every library reachable by uploads, names are unique and the name index
    is exact: looking an asset up by its name gives the asset of that name, and an
    unknown name (the empty one included) gives [ErrNotFound]. *)
Theorem AssetByName_correct s name a :
  rtc asset_step empty_store s →
  (AssetByName name s = Ok a ↔ ∃ id, ms_assets s !! id = Some a ∧ asName a = name) ∧
  (∀ e, AssetByName name s = Err e → e = ErrNotFound).
Proof.
  intros Hsteps. assert (assets_wf s) as Hwf.
  { assert (assets_wf empty_store) as H0 by (split; done).
    induction Hsteps as [|? ? ? Hs _ IH]; [done|]. apply IH. by eapply asset_step_wf. }
  unfold AssetByName. split; [|intros e He; by split_branches].
  destruct (ms_assetsByName s !! name) as [id|] eqn:En; simpl.
  - destruct (awf_name s Hwf _ _ En) as (x & Hx & Hxn). rewrite Hx. split.
    + intros [= <-]. eauto.
    + intros (id' & Ha & Han). destruct (awf_key s Hwf _ _ Ha) as (_&_&_&Hb). congruence.
  - destruct (ms_assets s !! "") as [x|] eqn:Ex; [by destruct (awf_key s Hwf _ _ Ex) as (_&?&_)|].
    split; [done|]. intros (id & Ha & Han). destruct (awf_key s Hwf _ _ Ha) as (_&_&_&Hb). congruence.
Qed.

(** The shortcuts a user reads back are the ones written, in order, trimmed,
    without those whose name or command is blank; other users keep theirs. *)
Theorem ReplaceShortcuts_correct userID shortcuts s :
  (∀ sc, sc ∈ Shortcuts userID (ReplaceShortcuts userID shortcuts s) ↔
     scName sc ≠ "" ∧ scCmd sc ≠ "" ∧
     ∃ raw, raw ∈ shortcuts ∧ scName sc = TrimSpace (scName raw) ∧ scCmd sc = TrimSpace (scCmd raw)) ∧
  sublist (Shortcuts userID (ReplaceShortcuts userID shortcuts s)) (map clean_shortcut shortcuts) ∧
  (∀ userID', userID' ≠ userID →
     Shortcuts userID' (ReplaceShortcuts userID shortcuts s) = Shortcuts userID' s).
Proof.
  unfold Shortcuts. simpl. rewrite lookup_insert_eq. simpl. split_and!.
  - intros sc. rewrite list_elem_of_In, filter_In, <-list_elem_of_In.
    rewrite list_elem_of_fmap. unfold kept_shortcut.
    rewrite andb_true_iff, !negb_true_iff, !bool_decide_eq_false. split.
    + intros [(raw & -> & Hin) [? ?]]. split_and!; try done. by exists raw.
    + intros (? & ? & raw & Hin & Hn & Hc). split; [|done]. exists raw. split; [|done].
      unfold clean_shortcut. rewrite <-Hn, <-Hc. by destruct sc.
  - induction (map clean_shortcut shortcuts) as [|x l IH]; simpl; [constructor|].
    destruct (kept_shortcut x); by constructor.
  - intros userID' Hne. by rewrite lookup_insert_ne.
Qed.

(** ** Witnesses *)

Module AssetsWitness.
Definition a0 : Asset := MkAsset "id0" "app.apk" "/x/id0.blob" "00" 3 "root" 5.
Definition s1 : MemoryStore := snd (CreateAsset [] 9 a0 empty_store).

Lemma AssetByName_correct_witness : AssetByName "app.apk" s1 = Ok a0.
Proof.
  apply (AssetByName_correct s1 "app.apk" a0); [|exists "id0"; by vm_compute].
  apply rtc_once. by apply step_asset.
Defined.
End AssetsWitness.
