(* ===== verification/Tasks.v ===== *)
(** * Tasks (store.go: tasks and Clean)

    Batch tasks and their per-device status: creation, listing, claiming by an
    agent, status reports, loss of the agent, and the periodic cleaning. *)

From S2P Require Import Prelude GoBase GoStrings Model Store.

(** ** Operations *)

Definition queue_device (createdAt : Time) (id : string) (device : TaskDevice) : TaskDevice :=
  set_tdUpdatedAt (λ _, createdAt)
    (set_tdStatus (λ _, TaskQueued) (set_tdDeviceID (λ _, id) device)).

Definition CreateTask (buf : bytes) (now : Time) (task : Task) (s : MemoryStore)
    : result Task * MemoryStore :=
  let task := if decide (tID task = "") then set_tID (λ _, randomID buf) task else task in
  if decide (tType task = "" ∨ tDevices task = ∅) then (Err ErrNotFound, s)
  else
    let task := if IsZero (tCreatedAt task) then set_tCreatedAt (λ _, now) task else task in
    let task := set_tDevices (map_imap (λ id d, Some (queue_device (tCreatedAt task) id d))) task in
    (Ok task, set_ms_tasks (insert (tID task) task) s).

Definition TaskByID (id : string) (s : MemoryStore) : result Task :=
  match ms_tasks s !! id with Some task => Ok task | None => Err ErrNotFound end.

Definition canAccessAllTaskDevicesLocked (user : User) (task : Task) : bool :=
  if is_admin user then true
  else if negb (Can user "batch_tasks") then false
  else forallb (λ id, existsb (λ assigned, bool_decide (assigned = "*") || bool_decide (assigned = id))
                        (uAssignedDevices user))
         (map_to_list (tDevices task)).*1.

Definition newer_task (a b : Task) : bool := After (tCreatedAt a) (tCreatedAt b).

Definition TasksFor (user : User) (s : MemoryStore) : list Task :=
  sort_by newer_task
    (List.filter (λ task, bool_decide (tCreatedBy task = uUsername user) ||
                          canAccessAllTaskDevicesLocked user task)
       (map_values (ms_tasks s))).

Definition status_in (l : list TaskStatus) (d : TaskDevice) : bool :=
  existsb (λ st, bool_decide (tdStatus d = st)) l.

Definition is_pending (now : Time) (deviceID : string) (task : Task) : bool :=
  if After now (tExpiresAt task) then false
  else match tDevices task !! deviceID with
       | Some device => status_in [TaskQueued] device
       | None => false
       end.

Definition PendingTasks (now : Time) (deviceID : string) (s : MemoryStore) : list string :=
  sort_by String.ltb
    (List.filter (λ kv, is_pending now deviceID kv.2) (map_to_list (ms_tasks s))).*1.

Definition put_device (deviceID : string) (device : TaskDevice) (task : Task) : Task :=
  set_tDevices (insert deviceID device) task.

Definition ClaimTask (now : Time) (taskID deviceID : string) (s : MemoryStore)
    : result Task * MemoryStore :=
  match ms_tasks s !! taskID with
  | None => (Err ErrNotFound, s)
  | Some task =>
      if negb (IsZero (tExpiresAt task)) && After now (tExpiresAt task)
      then (Err ErrInvalidToken, s)
      else match tDevices task !! deviceID with
      | None => (Err ErrForbidden, s)
      | Some device =>
          if negb (status_in [TaskQueued] device) then (Err ErrForbidden, s)
          else
            let device := set_tdUpdatedAt (λ _, now) (set_tdStatus (λ _, TaskLeased) device) in
            let task := put_device deviceID device task in
            (Ok task, set_ms_tasks (insert taskID task) s)
      end
  end.

Definition SetTaskStatus (now : Time) (taskID deviceID : string) (status : TaskStatus)
    (res : string) (s : MemoryStore) : result Task * MemoryStore :=
  match ms_tasks s !! taskID with
  | None => (Err ErrNotFound, s)
  | Some task =>
      match tDevices task !! deviceID with
      | None => (Err ErrNotFound, s)
      | Some device =>
          let device := set_tdUpdatedAt (λ _, now)
                          (set_tdResult (λ _, res) (set_tdStatus (λ _, status) device)) in
          let task := put_device deviceID device task in
          (Ok task, set_ms_tasks (insert taskID task) s)
      end
  end.

Definition lost_task (now : Time) (deviceID : string) (task : Task) : Task :=
  match tDevices task !! deviceID with
  | Some device =>
      if status_in [TaskLeased; TaskRunning] device then
        put_device deviceID
          (set_tdUpdatedAt (λ _, now) (set_tdResult (λ _, "agent disconnected after claim")
             (set_tdStatus (λ _, TaskUnknown) device))) task
      else task
  | None => task
  end.

Definition MarkLeasedUnknown (now : Time) (deviceID : string) (s : MemoryStore) : MemoryStore :=
  set_ms_tasks (fmap (lost_task now deviceID)) s.

Definition expire_device (now : Time) (device : TaskDevice) : TaskDevice :=
  if status_in [TaskQueued] device
  then set_tdUpdatedAt (λ _, now) (set_tdStatus (λ _, TaskExpired) device) else device.

Definition expire_task (now : Time) (task : Task) : Task :=
  if negb (IsZero (tExpiresAt task)) && After now (tExpiresAt task)
  then set_tDevices (fmap (expire_device now)) task else task.

(** The clock is read once for the whole pass. *)
Definition Clean (now before : Time) (s : MemoryStore) : MemoryStore :=
  let s := set_ms_revokedUserTokens (delete_if (λ _ expires, negb (Before now expires))) s in
  let s := set_ms_enrollments (delete_if (λ _ e, negb (Before now (enExpiresAt e)))) s in
  let s := set_ms_tasks (fmap (expire_task now)) s in
  set_ms_audits (List.filter (λ event, After (auCreatedAt event) before)) s.

(** ** Life cycle *)

Definition device_status (s : MemoryStore) (taskID deviceID : string) : option TaskStatus :=
  match ms_tasks s !! taskID with
  | Some task => tdStatus <$> tDevices task !! deviceID
  | None => None
  end.

(** What an agent may report: the server turns its messages into these statuses. *)
Definition reported (status : TaskStatus) : Prop :=
  status = TaskRunning ∨ status = TaskSuccess ∨ status = TaskFailed.

Inductive task_step (s : MemoryStore) : MemoryStore → Prop :=
| step_task buf now task : tID task = "" → length buf = 24%nat → ms_tasks s !! randomID buf = None →
    task_step s (snd (CreateTask buf now task s))
| step_claim now taskID deviceID : task_step s (snd (ClaimTask now taskID deviceID s))
| step_report now taskID deviceID status res : reported status →
    task_step s (snd (SetTaskStatus now taskID deviceID status res s))
| step_lost now deviceID : task_step s (MarkLeasedUnknown now deviceID s)
| step_clean now before : task_step s (Clean now before s).

(** The statuses a device can move between in one step. *)
Definition may_move (a b : TaskStatus) : Prop :=
  a = b ∨ reported b ∨
  (a = TaskQueued ∧ (b = TaskLeased ∨ b = TaskExpired)) ∨
  ((a = TaskLeased ∨ a = TaskRunning) ∧ b = TaskUnknown).

(** ** Lemmas *)

Lemma status_in_iff l d : status_in l d = true ↔ tdStatus d ∈ l.
Proof.
  unfold status_in. rewrite existsb_exists. split.
  - intros (st & Hin & Hb). apply bool_decide_eq_true in Hb. subst. by apply list_elem_of_In.
  - intros Hin. exists (tdStatus d). split; [by apply list_elem_of_In|by apply bool_decide_eq_true].
Qed.

Lemma queued_iff d : status_in [TaskQueued] d = true ↔ tdStatus d = TaskQueued.
Proof. rewrite status_in_iff. by rewrite list_elem_of_singleton. Qed.

Lemma ClaimTask_Ok now t d s task s' :
  ClaimTask now t d s = (Ok task, s') →
  ∃ task0 dev, ms_tasks s !! t = Some task0 ∧ tDevices task0 !! d = Some dev ∧
    tdStatus dev = TaskQueued ∧ (tExpiresAt task0 = 0 ∨ now ≤ tExpiresAt task0) ∧
    task = put_device d (set_tdUpdatedAt (λ _, now) (set_tdStatus (λ _, TaskLeased) dev)) task0 ∧
    s' = set_ms_tasks (insert t task) s.
Proof.
  unfold ClaimTask. destruct (ms_tasks s !! t) as [task0|] eqn:Et; [|done].
  destruct (negb _ && _) eqn:Ee; [done|].
  destruct (tDevices task0 !! d) as [dev|] eqn:Ed; [|done].
  destruct (status_in [TaskQueued] dev) eqn:Eq; [|done]. simpl. intros [= <- <-].
  exists task0, dev. split_and!; try done; [by apply queued_iff|].
  unfold IsZero, After in Ee. bool_to_prop. destruct Ee; bool_to_prop; auto.
Qed.

Lemma ClaimTask_Err now t d s e s' : ClaimTask now t d s = (Err e, s') → s' = s.
Proof. unfold ClaimTask. intros Hr. repeat case_match; by simplify_eq. Qed.

Lemma SetTaskStatus_Ok now t d st res s task s' :
  SetTaskStatus now t d st res s = (Ok task, s') →
  ∃ task0 dev, ms_tasks s !! t = Some task0 ∧ tDevices task0 !! d = Some dev ∧
    task = put_device d (set_tdUpdatedAt (λ _, now) (set_tdResult (λ _, res)
             (set_tdStatus (λ _, st) dev))) task0 ∧
    s' = set_ms_tasks (insert t task) s.
Proof.
  unfold SetTaskStatus. destruct (ms_tasks s !! t) as [task0|]; [|done].
  destruct (tDevices task0 !! d) as [dev|] eqn:Ed; [|done]. intros [= <- <-].
  by exists task0, dev.
Qed.

Lemma SetTaskStatus_Err now t d st res s e s' :
  SetTaskStatus now t d st res s = (Err e, s') → s' = s.
Proof. unfold SetTaskStatus. intros Hr. repeat case_match; by simplify_eq. Qed.

(** Writing one device of one task changes the status of that pair only. *)
Lemma device_status_put s t task0 d dev x y dev0 :
  ms_tasks s !! t = Some task0 → tDevices task0 !! d = Some dev0 →
  device_status (set_ms_tasks (insert t (put_device d dev task0)) s) x y =
    if decide (x = t ∧ y = d) then Some (tdStatus dev) else device_status s x y.
Proof.
  intros Ht Hd. unfold device_status. simpl. destruct (decide (x = t)) as [->|Hx].
  - rewrite lookup_insert_eq. simpl. rewrite Ht. destruct (decide (y = d)) as [->|Hy].
    + rewrite lookup_insert_eq, decide_True by done. done.
    + rewrite lookup_insert_ne by done. by rewrite decide_False by naive_solver.
  - rewrite lookup_insert_ne by done. by rewrite decide_False by naive_solver.
Qed.

(** A per-task rewrite moves the status of each device through [f]. *)
Lemma device_status_fmap s f x y st :
  device_status s x y = Some st →
  ∃ task dev, ms_tasks s !! x = Some task ∧ tDevices task !! y = Some dev ∧ tdStatus dev = st ∧
    device_status (set_ms_tasks (fmap f) s) x y = tdStatus <$> tDevices (f task) !! y.
Proof.
  unfold device_status. simpl. rewrite lookup_fmap.
  destruct (ms_tasks s !! x) as [task|]; simpl; [|done].
  destruct (tDevices task !! y) as [dev|] eqn:E; simpl; [|done]. intros [= <-]. eauto 10.
Qed.

Lemma lost_task_status now d task y dev :
  tDevices task !! y = Some dev →
  ∃ dev', tDevices (lost_task now d task) !! y = Some dev' ∧
    tdStatus dev' = if decide (y = d ∧ (tdStatus dev = TaskLeased ∨ tdStatus dev = TaskRunning))
                    then TaskUnknown else tdStatus dev.
Proof.
  intros Hy. unfold lost_task. destruct (tDevices task !! d) as [x|] eqn:Ed; cycle 1.
  { exists dev. split; [done|]. rewrite decide_False; [done|]. intros [-> _]. congruence. }
  destruct (status_in _ x) eqn:Es.
  - apply status_in_iff in Es. unfold put_device. simpl.
    destruct (decide (y = d)) as [->|Hne].
    + rewrite lookup_insert_eq. simplify_eq. eexists. split; [done|]. simpl.
      rewrite decide_True; [done|]. split; [done|]. set_solver.
    + rewrite lookup_insert_ne by done. exists dev. split; [done|].
      rewrite decide_False; [done|]. naive_solver.
  - exists dev. split; [done|]. rewrite decide_False; [done|]. intros [-> Hst].
    assert (x = dev) as -> by congruence.
    assert (status_in [TaskLeased; TaskRunning] dev = true); [|congruence].
    apply status_in_iff. set_solver.
Qed.

Lemma expire_task_status now task y dev :
  tDevices task !! y = Some dev →
  ∃ dev', tDevices (expire_task now task) !! y = Some dev' ∧
    (tdStatus dev' = tdStatus dev ∨ tdStatus dev = TaskQueued ∧ tdStatus dev' = TaskExpired).
Proof.
  intros Hy. unfold expire_task. destruct (negb _ && _); [|eauto].
  simpl. rewrite lookup_fmap, Hy. simpl. eexists. split; [done|]. unfold expire_device.
  destruct (status_in [TaskQueued] dev) eqn:E; [|by left]. apply queued_iff in E. by right.
Qed.

Lemma expire_tasks_idemp now (m : gmap string Task) :
  expire_task now <$> (expire_task now <$> m) = expire_task now <$> m.
Proof.
  rewrite <-map_fmap_compose. apply map_fmap_ext. intros k task _. unfold compose.
  unfold expire_task at 2 3. destruct (negb _ && _) eqn:E; unfold expire_task; [simpl|]; rewrite E; [|done].
  unfold set_tDevices. cbn [tDevices tID tType tPayload tAssetID tDestPath tCreatedBy tCreatedAt
    tExpiresAt]. f_equal. rewrite <-map_fmap_compose. apply map_fmap_ext. intros j dev _.
  unfold compose, expire_device. destruct (status_in [TaskQueued] dev) eqn:Eq; [done|]. by rewrite Eq.
Qed.

(** Every step moves every known (task, device) pair along [may_move]. *)
Lemma task_step_moves s s' t d st :
  task_step s s' → device_status s t d = Some st →
  ∃ st', device_status s' t d = Some st' ∧ may_move st st'.
Proof.
  intros Hstep Hst. destruct Hstep as [buf now task Hid Hbuf Hfresh|now t' d'|now t' d' st' res Hrep|now d'|now before].
  - exists st. split; [|by left]. unfold CreateTask. rewrite Hid. simpl.
    case_decide; [done|]. simpl. rewrite <-Hst. unfold device_status. simpl.
    destruct (IsZero _); simpl; (rewrite lookup_insert_ne; [done|]);
      intros <-; unfold device_status in Hst; by rewrite Hfresh in Hst.
  - destruct (ClaimTask now t' d' s) as [[task|e] s'] eqn:E; simpl;
      [|apply ClaimTask_Err in E as ->; exists st; split; [done|by left]].
    apply ClaimTask_Ok in E as (t0 & dev & Ht & Hd & Hq & _ & -> & ->).
    erewrite device_status_put by done. case_decide as Hp; [|exists st; split; [done|by left]].
    destruct Hp as [-> ->]. eexists. split; [done|]. simpl. unfold device_status in Hst.
    rewrite Ht, Hd in Hst. simpl in Hst. right. right. left. naive_solver.
  - destruct (SetTaskStatus now t' d' st' res s) as [[task|e] s'] eqn:E; simpl;
      [|apply SetTaskStatus_Err in E as ->; exists st; split; [done|by left]].
    apply SetTaskStatus_Ok in E as (t0 & dev & Ht & Hd & -> & ->).
    erewrite device_status_put by done. case_decide as Hp; [|exists st; split; [done|by left]].
    eexists. split; [done|]. right. by left.
  - destruct (device_status_fmap s (lost_task now d') t d st Hst) as (task & dev & Ht & Hd & Hs & Heq).
    unfold MarkLeasedUnknown. rewrite Heq.
    destruct (lost_task_status now d' task d dev Hd) as (dev' & -> & Hs'). simpl.
    eexists. split; [done|]. rewrite Hs', <-Hs. case_decide; [|by left]. right. right. right. tauto.
  - destruct (device_status_fmap s (expire_task now) t d st Hst) as (task & dev & Ht & Hd & Hs & Heq).
    destruct (expire_task_status now task d dev Hd) as (dev' & Hdev' & Hs').
    exists (tdStatus dev'). split; [|destruct Hs' as [-> |[? ->]]; subst; [by left|right; right; left; auto]].
    unfold device_status in *. simpl in *. rewrite Heq, Hdev'. done.
Qed.

Lemma status_left_queue s s' t d st :
  rtc task_step s s' → device_status s t d = Some st → st ≠ TaskQueued →
  ∃ st', device_status s' t d = Some st' ∧ st' ≠ TaskQueued.
Proof.
  intros Hsteps. revert st. induction Hsteps as [|s1 s2 s3 Hstep _ IH]; intros st Hst Hne; [eauto|].
  destruct (task_step_moves _ _ _ _ _ Hstep Hst) as (st' & Hst' & Hmove).
  apply (IH st'); [done|]. intros ->.
  destruct Hmove as [->|[[?|[?|?]]|[[_ [?|?]]|[_ ?]]]]; done.
Qed.

(** ** Properties *)

(** C5: A device executes a task at most once: after a successful claim, no later
    claim of the same task by the same device succeeds, whatever other claims,
    reports, disconnections, cleanings and task creations happen in between. *)
Theorem claim_at_most_once now t d s task s1 s2 now' :
  ClaimTask now t d s = (Ok task, s1) → rtc task_step s1 s2 →
  ∃ e, ClaimTask now' t d s2 = (Err e, s2).
Proof.
  intros (t0 & dev & Ht & Hd & _ & _ & -> & ->)%ClaimTask_Ok Hsteps.
  destruct (status_left_queue _ _ t d TaskLeased Hsteps) as (st & Hst & Hne); [|done|].
  { erewrite device_status_put by done. by rewrite decide_True. }
  destruct (ClaimTask now' t d s2) as [[task|e] s'] eqn:E.
  - apply ClaimTask_Ok in E as (t2 & dev2 & Ht2 & Hd2 & Hq & _). unfold device_status in Hst.
    rewrite Ht2, Hd2 in Hst. simpl in Hst. congruence.
  - apply ClaimTask_Err in E as ->. eauto.
Qed.

(** A claim succeeds exactly for a known task that has not expired and whose
    entry for the device is queued; it leases that entry and changes no other entry
    and no other task, and a refused claim changes nothing. *)
Theorem ClaimTask_correct now t d s :
  ((∃ task s', ClaimTask now t d s = (Ok task, s')) ↔
   ∃ task0 dev, ms_tasks s !! t = Some task0 ∧ tDevices task0 !! d = Some dev ∧
     tdStatus dev = TaskQueued ∧ (tExpiresAt task0 = 0 ∨ now ≤ tExpiresAt task0)) ∧
  (∀ task s', ClaimTask now t d s = (Ok task, s') →
     ms_tasks s' !! t = Some task ∧ device_status s' t d = Some TaskLeased ∧
     ∀ x y, (x ≠ t ∨ y ≠ d) → device_status s' x y = device_status s x y) ∧
  (∀ e s', ClaimTask now t d s = (Err e, s') → s' = s).
Proof.
  split_and!; [| |intros e s'; apply ClaimTask_Err].
  - split.
    + intros (task & s' & (t0 & dev & ? & ? & ? & ? & _)%ClaimTask_Ok). eauto 10.
    + intros (t0 & dev & Ht & Hd & Hq & Hexp). apply queued_iff in Hq. unfold ClaimTask.
      rewrite Ht. assert (negb (IsZero (tExpiresAt t0)) && After now (tExpiresAt t0) = false) as ->.
      { unfold IsZero, After. apply andb_false_iff. rewrite negb_false_iff, Z.eqb_eq, Z.ltb_ge. lia. }
      rewrite Hd, Hq. simpl. eauto.
  - intros task s' (t0 & dev & Ht & Hd & Hq & _ & -> & ->)%ClaimTask_Ok. split_and!.
    + simpl. by rewrite lookup_insert_eq.
    + erewrite device_status_put by done. by rewrite decide_True.
    + intros x y Hxy. erewrite device_status_put by done. by rewrite decide_False by tauto.
Qed.

(** [PendingTasks] lists, sorted, exactly the tasks that have not expired and
    are queued for the device, and each of them can be claimed at that instant. *)
Theorem PendingTasks_correct now d s t :
  (t ∈ PendingTasks now d s ↔
   ∃ task dev, ms_tasks s !! t = Some task ∧ now ≤ tExpiresAt task ∧
     tDevices task !! d = Some dev ∧ tdStatus dev = TaskQueued) ∧
  (t ∈ PendingTasks now d s → ∃ task s', ClaimTask now t d s = (Ok task, s')) ∧
  Sorted (λ a b, String.ltb b a = false) (PendingTasks now d s).
Proof.
  assert (t ∈ PendingTasks now d s ↔
    ∃ task dev, ms_tasks s !! t = Some task ∧ now ≤ tExpiresAt task ∧
      tDevices task !! d = Some dev ∧ tdStatus dev = TaskQueued) as Hiff.
  { unfold PendingTasks. rewrite elem_of_sort_by, list_elem_of_fmap. split.
    - intros ([k task] & -> & Hin). apply list_elem_of_In, filter_In in Hin as [Hin Hp].
      apply list_elem_of_In, elem_of_map_to_list in Hin. simpl in *. unfold is_pending, After in Hp.
      destruct (Z.ltb_spec (tExpiresAt task) now); [done|].
      destruct (tDevices task !! d) as [dev|] eqn:Ed; [|done]. apply queued_iff in Hp. eauto 10.
    - intros (task & dev & Ht & Hexp & Hd & Hq). exists (t, task). split; [done|].
      apply list_elem_of_In, filter_In. rewrite <-list_elem_of_In, elem_of_map_to_list.
      split; [done|]. simpl. unfold is_pending, After.
      rewrite (proj2 (Z.ltb_ge _ _)) by done. rewrite Hd. by apply queued_iff. }
  split_and!; [done| |].
  - rewrite Hiff. intros (task & dev & Ht & Hexp & Hd & Hq).
    unfold ClaimTask. rewrite Ht, Hd, (proj2 (queued_iff dev) Hq). unfold After.
    rewrite (proj2 (Z.ltb_ge _ _)) by done. rewrite andb_false_r. simpl. eauto.
  - apply sort_by_sorted, string_ltb_asym.
Qed.

(** The life cycle of a device's entry: along any sequence of operations an
    entry never disappears, never returns to queued once it left it, and each change
    is an allowed one (queued to leased or expired, leased or running to unknown,
    anything to a status an agent reports). *)
Theorem task_lifecycle s s' t d st :
  rtc task_step s s' → device_status s t d = Some st →
  ∃ st', device_status s' t d = Some st' ∧ rtc may_move st st' ∧
    (st ≠ TaskQueued → st' ≠ TaskQueued).
Proof.
  intros Hsteps. revert st. induction Hsteps as [|s1 s2 s3 Hstep Hsteps IH]; intros st Hst; [eauto using rtc_refl|].
  destruct (task_step_moves _ _ _ _ _ Hstep Hst) as (st1 & Hst1 & Hmove).
  destruct (IH st1 Hst1) as (st' & Hst' & Hrtc & Hq). exists st'. split_and!; [done|by eapply rtc_l|].
  intros Hne. apply Hq. intros ->. destruct Hmove as [->|[[?|[?|?]]|[[_ [?|?]]|[_ ?]]]]; done.
Qed.

(** When an agent's connection is lost, no entry of its device stays leased or
    running: each becomes unknown, queued and finished entries and all other devices
    keep their status. *)
Lemma MarkLeasedUnknown_status now d s t y st :
  device_status s t y = Some st →
  device_status (MarkLeasedUnknown now d s) t y =
    Some (if decide (y = d ∧ (st = TaskLeased ∨ st = TaskRunning)) then TaskUnknown else st).
Proof.
  intros Hst. destruct (device_status_fmap s (lost_task now d) t y st Hst) as (task & dev & _ & Hd & Hs & Heq).
  unfold MarkLeasedUnknown. rewrite Heq.
  destruct (lost_task_status now d task y dev Hd) as (dev' & -> & Hs'). simpl. by rewrite Hs', Hs.
Qed.

(** A cleaning pass removes exactly the revocations and enrollments that have
    run out and the audit events not after the retention limit, expires exactly the
    queued entries of expired tasks, and a second pass at the same instant changes
    nothing more. *)
Theorem Clean_correct now before s :
  (∀ k t, ms_revokedUserTokens (Clean now before s) !! k = Some t ↔
     ms_revokedUserTokens s !! k = Some t ∧ now < t) ∧
  (∀ k e, ms_enrollments (Clean now before s) !! k = Some e ↔
     ms_enrollments s !! k = Some e ∧ now < enExpiresAt e) ∧
  (∀ ev, ev ∈ ms_audits (Clean now before s) ↔ ev ∈ ms_audits s ∧ before < auCreatedAt ev) ∧
  (∀ k task, ms_tasks s !! k = Some task →
     ms_tasks (Clean now before s) !! k = Some (expire_task now task)) ∧
  Clean now before (Clean now before s) = Clean now before s.
Proof.
  assert (∀ t u, negb (Before t u) = false ↔ t < u) as Hb.
  { intros t u. unfold Before. by rewrite negb_false_iff, Z.ltb_lt. }
  split_and!.
  - intros k t. simpl. by rewrite lookup_delete_if_Some, Hb.
  - intros k e. simpl. by rewrite lookup_delete_if_Some, Hb.
  - intros ev. simpl. rewrite !list_elem_of_In, filter_In. unfold After. by rewrite Z.ltb_lt.
  - intros k task Hk. simpl. by rewrite lookup_fmap, Hk.
  - apply MemoryStore_ext; try reflexivity; simpl.
    + apply delete_if_idemp.
    + apply expire_tasks_idemp.
    + apply list_filter_idemp.
    + apply delete_if_idemp.
Qed.

(** ** Witnesses *)

Module TasksWitness.
Definition t0 : Task := MkTask "" "shell" "ls" "" "" "root" 10 100 {[ "phone" := MkTaskDevice "phone" TaskFailed "" 0 ]}.
Definition s0 : MemoryStore := snd (CreateTask (repeat "a"%char 24) 10 t0 empty_store).
Definition tid : string := randomID (repeat "a"%char 24).
Definition cl := ClaimTask 20 tid "phone" s0.
Definition s1 : MemoryStore := snd cl.

Lemma claim_at_most_once_witness : ∃ e, ClaimTask 30 tid "phone" (MarkLeasedUnknown 25 "phone" s1) =
  (Err e, MarkLeasedUnknown 25 "phone" s1).
Proof.
  apply (claim_at_most_once 20 tid "phone" s0 (from_ok t0 (fst cl)) s1).
  - by vm_compute.
  - apply rtc_once. apply step_lost.
Defined.

Lemma ClaimTask_correct_witness : device_status s1 tid "phone" = Some TaskLeased.
Proof.
  destruct (ClaimTask_correct 20 tid "phone" s0) as (_ & Hx & _).
  apply (Hx (from_ok t0 (fst cl)) s1). by vm_compute.
Defined.

Lemma PendingTasks_correct_witness : ∃ task s', ClaimTask 20 tid "phone" s0 = (Ok task, s').
Proof. apply PendingTasks_correct. vm_compute. by left. Defined.

Lemma task_lifecycle_witness :
  ∃ st', device_status (Clean 200 0 s0) tid "phone" = Some st' ∧ rtc may_move TaskQueued st' ∧
    (TaskQueued ≠ TaskQueued → st' ≠ TaskQueued).
Proof.
  apply (task_lifecycle s0); [apply rtc_once, step_clean|by vm_compute].
Defined.
End TasksWitness.
