(* ===== verification/Persist.v ===== *)
(** * The persistent store (postgres_store.go)

    [PostgresStore] runs every operation on an in-memory store and rewrites one
    JSON document after each change.  The document is modelled by the values it
    can represent: the fields tagged [json:"-"] are absent from it and decode to
    zero values, and integers in untyped maps come back as float64.  Whether a
    write to the database succeeds is an argument ([ok]). *)

From S2P Require Import Prelude GoBase GoStrings GoFloat Model Store.
From S2P Require Users Devices Shares Enrollments Assets Tasks.

(** ** The JSON document *)

Fixpoint json_value (v : value) : value :=
  match v with
  | VInt n => VNum (float_of_Z n)
  | VList l => VList (json_value <$> l)
  | VMap m => VMap (json_value <$> m)
  | _ => v
  end.
Definition json_map (m : vmap) : vmap := json_value <$> m.

(** The embedded [User] loses its hash and token version (json:"-"), which the
    outer struct stores under keys of its own. *)
Record persistedUser := MkPersistedUser {
  puUser : User;
  puPasswordHash : string;
  puTokenVersion : Z
}.

Record persistedState := MkPersistedState {
  psUsers : gmap string persistedUser;
  psUsersByName : gmap string string;
  psDevices : gmap string Device;
  psTags : gmap string Tag;
  psDeviceTags : gmap string (gset string);
  psShares : gmap string Share;
  psDeploymentCredentials : gmap string storedDeploymentCredential;
  psEnrollments : gmap string Enrollment;
  psAgentCredentials : gmap string AgentCredential;
  psDefaultSettings : vmap;
  psDeviceSettings : gmap string vmap;
  psShortcuts : gmap string (list Shortcut);
  psAssets : gmap string Asset;
  psAssetsByName : gmap string string;
  psTasks : gmap string Task;
  psAudits : list AuditEvent;
  psRevokedUserTokens : gmap string Time
}.

Definition persist_user (user : User) : persistedUser :=
  MkPersistedUser
    (set_uSettings json_map (set_uTokenVersion (λ _, 0) (set_uPasswordHash (λ _, "") user)))
    (uPasswordHash user) (uTokenVersion user).
Definition persist_device (d : Device) : Device :=
  set_dMetrics json_map (set_dClients (fmap json_map) d).
Definition persist_share (sh : Share) : Share :=
  set_shGuestSettings json_map (set_shPasswordHash (λ _, "") sh).
Definition persist_asset (a : Asset) : Asset := set_asPath (λ _, "") a.
Definition persist_task (t : Task) : Task := set_tPayload (λ _, "") t.
Definition persist_audit (e : AuditEvent) : AuditEvent := set_auMetadata json_map e.

(** What [json.Marshal] writes and [json.Unmarshal] reads back. *)
Definition snapshotJSON (s : MemoryStore) : persistedState :=
  MkPersistedState (persist_user <$> ms_users s) (ms_usersByName s)
    (persist_device <$> ms_devices s) (ms_tags s) (ms_deviceTags s)
    (persist_share <$> ms_shares s) (ms_deploymentCredentials s) (ms_enrollments s)
    (ms_agentCredentials s) (json_map (ms_defaultSettings s)) (json_map <$> ms_deviceSettings s)
    (ms_shortcuts s) (persist_asset <$> ms_assets s) (ms_assetsByName s)
    (persist_task <$> ms_tasks s) (persist_audit <$> ms_audits s) (ms_revokedUserTokens s).

(** ** The store *)

Record PostgresStore := MkPostgresStore {
  pg_inner : MemoryStore;
  pg_row : option persistedState;
  pg_healthErr : option error
}.

Definition with_inner (i : MemoryStore) (p : PostgresStore) : PostgresStore :=
  MkPostgresStore i (pg_row p) (pg_healthErr p).

Definition exec_error : error := ErrMsg "postgres".

Definition persist (ok : bool) (p : PostgresStore) : option error * PostgresStore :=
  if ok then (None, MkPostgresStore (pg_inner p) (Some (snapshotJSON (pg_inner p))) None)
  else (Some exec_error, MkPostgresStore (pg_inner p) (pg_row p) (Some exec_error)).

Definition mutate (ok : bool) (p : PostgresStore) : PostgresStore := snd (persist ok p).
Definition Healthy (p : PostgresStore) : option error := pg_healthErr p.

Section load.
Context `{Crypto}.

(** A stored user without a hash is locked out, except the bootstrap
    administrator, whose hash is made again from the configured password. *)
Definition restore_user (salt : bytes) (adminUsername adminPassword : string)
    (saved : persistedUser) : result (User * bool) :=
  let user := set_uTokenVersion (λ _, puTokenVersion saved)
                (set_uPasswordHash (λ _, puPasswordHash saved) (puUser saved)) in
  if bool_decide (uPasswordHash user = "") && bool_decide (uUsername user = adminUsername) then
    match bcrypt_generate salt adminPassword with
    | None => Err (ErrMsg "bcrypt")
    | Some hash => Ok (set_uPasswordHash (λ _, hash) user, true)
    end
  else Ok (user, false).

Definition restore_all (salt : bytes) (adminUsername adminPassword : string)
    (users : gmap string persistedUser) : option (gmap string (User * bool)) :=
  let restored := restore_user salt adminUsername adminPassword <$> users in
  if decide (map_Forall (λ _ r, is_ok r = true) restored)
  then Some (omap (λ r, match r with Ok u => Some u | Err _ => None end) restored)
  else None.

Definition load (ok : bool) (salt : bytes) (adminUsername adminPassword : string)
    (p : PostgresStore) : option error * PostgresStore :=
  match pg_row p with
  | None => persist ok p
  | Some state =>
      match restore_all salt adminUsername adminPassword (psUsers state) with
      | None => (Some (ErrMsg "repair bootstrap administrator"), p)
      | Some users =>
          let repaired := bool_decide (¬ map_Forall (λ _ u, snd u = false) users) in
          let inner := MkMemoryStore (fst <$> users) (psUsersByName state) (psDevices state)
            (psTags state) (psDeviceTags state) (psShares state) (psDeploymentCredentials state)
            (psEnrollments state) (psAgentCredentials state) (psDefaultSettings state)
            (psDeviceSettings state) (psShortcuts state) (psAssets state) (psAssetsByName state)
            (psTasks state) (psAudits state) (ms_healthErr (pg_inner p))
            (psRevokedUserTokens state) in
          let p := with_inner inner p in
          if repaired then persist ok p else (None, p)
      end
  end.

(** Start on an existing database row. *)
Definition NewPostgresStore (ok : bool) (row : option persistedState) (buf salt : bytes) (now : Time)
    (adminUsername adminPassword : string) : result PostgresStore :=
  match Users.NewMemoryStore buf salt now adminUsername adminPassword with
  | Err e => Err e
  | Ok inner =>
      match load ok salt adminUsername adminPassword (MkPostgresStore inner row None) with
      | (None, p) => Ok p
      | (Some e, _) => Err e
      end
  end.
End load.

(** ** Operations

    [mutating]: run on the inner store, then write the document if it succeeded;
    the outcome of the write is kept in [healthErr] only.  [always]: the same for
    operations that cannot fail.  [checked]: the operation also reports a failed
    write.  [durable]: it is refused while the store is unhealthy, too. *)
Definition mutating {A} (ok : bool) (f : MemoryStore → result A * MemoryStore)
    (p : PostgresStore) : result A * PostgresStore :=
  match f (pg_inner p) with
  | (Ok v, i) => (Ok v, mutate ok (with_inner i p))
  | (Err e, i) => (Err e, with_inner i p)
  end.

Definition always (ok : bool) (f : MemoryStore → MemoryStore) (p : PostgresStore)
    : PostgresStore := mutate ok (with_inner (f (pg_inner p)) p).

Definition checked {A} (ok : bool) (f : MemoryStore → result A * MemoryStore)
    (p : PostgresStore) : result A * PostgresStore :=
  match f (pg_inner p) with
  | (Ok v, i) =>
      match persist ok (with_inner i p) with
      | (None, p) => (Ok v, p)
      | (Some e, p) => (Err e, p)
      end
  | (Err e, i) => (Err e, with_inner i p)
  end.

Definition durable {A} (ok : bool) (f : MemoryStore → result A * MemoryStore)
    (p : PostgresStore) : result A * PostgresStore :=
  match Healthy p with
  | Some e => (Err e, p)
  | None => checked ok f p
  end.

Section ops.
Context `{Crypto} (ok : bool).

Definition CreateUser buf salt now a b c d := mutating ok (Users.CreateUser buf salt now a b c d).
Definition Authenticate now a b (p : PostgresStore) := Users.Authenticate now a b (pg_inner p).
Definition UserByID a (p : PostgresStore) := Users.UserByID a (pg_inner p).
Definition UpsertAgentDevice now a b (p : PostgresStore) : Device * PostgresStore :=
  let '(v, i) := Devices.UpsertAgentDevice now a b (pg_inner p) in (v, mutate ok (with_inner i p)).
Definition MarkOffline now a := always ok (Devices.MarkOffline now a).
Definition TouchDevice now a := always ok (Devices.TouchDevice now a).
Definition DeleteOfflineDevice a := mutating ok (Devices.DeleteOfflineDevice a).
Definition DeleteUser a := mutating ok (Users.DeleteUser a).
Definition UpdateUser a b := mutating ok (Users.UpdateUser a b).
Definition RenameUser a b := mutating ok (Users.RenameUser a b).
Definition ResetPassword salt a b := mutating ok (Users.ResetPassword salt a b).
Definition CreateShare buf buf' salt now a b c d e f :=
  mutating ok (Shares.CreateShare buf buf' salt now a b c d e f).
Definition UpdateShare a b := mutating ok (Shares.UpdateShare a b).
Definition RevokeShare a := mutating ok (Shares.RevokeShare a).
Definition AuthorizeShare now a b (p : PostgresStore) : result Share * PostgresStore :=
  let '(v, i) := Shares.AuthorizeShare now a b (pg_inner p) in (v, with_inner i p).
Definition ReplaceTags fresh a b := always ok (Devices.ReplaceTags fresh a b).
Definition SetDefaultSettings a := always ok (Devices.SetDefaultSettings a).
Definition CreateEnrollment buf now a b (p : PostgresStore) : Enrollment * PostgresStore :=
  let '(v, i) := Enrollments.CreateEnrollment buf now a b (pg_inner p) in
  (v, mutate ok (with_inner i p)).
Definition ExchangeEnrollment buf now a b := durable ok (Enrollments.ExchangeEnrollment buf now a b).
Definition ValidateAgentToken a b (p : PostgresStore) :=
  Enrollments.ValidateAgentToken a b (pg_inner p).
Definition ReplaceShortcuts a b := always ok (Assets.ReplaceShortcuts a b).
Definition CreateAsset buf now a := mutating ok (Assets.CreateAsset buf now a).
Definition CreateTask buf now a := mutating ok (Tasks.CreateTask buf now a).
Definition PendingTasks now a (p : PostgresStore) := Tasks.PendingTasks now a (pg_inner p).
Definition ClaimTask now a b := mutating ok (Tasks.ClaimTask now a b).
Definition SetTaskStatus now a b c d := mutating ok (Tasks.SetTaskStatus now a b c d).
Definition MarkLeasedUnknown now a := always ok (Tasks.MarkLeasedUnknown now a).
Definition Audit buf now a := always ok (Store.Audit buf now a).
Definition Clean now a := always ok (Tasks.Clean now a).

(** device_settings.go and user_sessions.go: these two report a failed write. *)
Definition SetDeviceSettings id settings := checked ok (Devices.SetDeviceSettings id settings).
Definition RevokeUserToken digest expires :=
  checked ok (λ s, (Ok (), Users.RevokeUserToken digest expires s)).

(** deployment_credentials_store.go *)
Definition CreateDeploymentCredential buf buf' abuf now name actor ttl :=
  durable ok (Enrollments.CreateDeploymentCredential buf buf' abuf now name actor ttl).
Definition RevokeDeploymentCredential abuf now id actor :=
  checked ok (Enrollments.RevokeDeploymentCredential abuf now id actor).
Definition IssueDeploymentEnrollment buf abuf now token deviceID ttl :=
  durable ok (Enrollments.IssueDeploymentEnrollment buf abuf now token deviceID ttl).
End ops.

(** ** Restarting *)

Section restart.
Context `{Crypto}.

(** Every account has a password hash, as [CreateUser] and [ResetPassword]
    leave it. *)
Definition hashed (s : MemoryStore) : Prop :=
  map_Forall (λ _ u, uPasswordHash u ≠ "") (ms_users s).

Definition reloaded_user (user : User) : User := set_uSettings json_map user.

Lemma restore_persist_user salt name password user :
  uPasswordHash user ≠ "" →
  restore_user salt name password (persist_user user) = Ok (reloaded_user user, false).
Proof.
  intros Hne. unfold restore_user, persist_user. simpl.
  by rewrite bool_decide_eq_false_2.
Qed.

Lemma restore_all_persist salt name password (users : gmap string User) :
  map_Forall (λ _ u, uPasswordHash u ≠ "") users →
  restore_all salt name password (persist_user <$> users) =
    Some ((λ u, (reloaded_user u, false)) <$> users).
Proof.
  intros Hh. unfold restore_all.
  assert (restore_user salt name password <$> (persist_user <$> users) =
    (λ u, Ok (reloaded_user u, false)) <$> users) as ->.
  { rewrite <-map_fmap_compose. apply map_fmap_ext. intros id u Hu. simpl.
    apply restore_persist_user. by eapply Hh. }
  rewrite decide_True.
  - f_equal. apply map_eq. intros id. rewrite lookup_omap, !lookup_fmap.
    by destruct (users !! id).
  - intros id r. rewrite lookup_fmap. destruct (users !! id); [|done]. by intros [= <-].
Qed.

(** The store a restart on the row written from [s] starts with. *)
Lemma load_snapshot ok salt name password s i p' :
  hashed s →
  load ok salt name password (MkPostgresStore i (Some (snapshotJSON s)) None) = (None, p') →
  ms_users (pg_inner p') = reloaded_user <$> ms_users s ∧
  ms_usersByName (pg_inner p') = ms_usersByName s ∧
  ms_shares (pg_inner p') = persist_share <$> ms_shares s ∧
  ms_agentCredentials (pg_inner p') = ms_agentCredentials s ∧
  ms_enrollments (pg_inner p') = ms_enrollments s ∧
  ms_deploymentCredentials (pg_inner p') = ms_deploymentCredentials s ∧
  ms_assets (pg_inner p') = persist_asset <$> ms_assets s ∧
  ms_assetsByName (pg_inner p') = ms_assetsByName s ∧
  ms_tasks (pg_inner p') = persist_task <$> ms_tasks s ∧
  ms_revokedUserTokens (pg_inner p') = ms_revokedUserTokens s ∧
  Healthy p' = None.
Proof.
  intros Hh Hl. unfold load in Hl. cbn [pg_row snapshotJSON psUsers] in Hl.
  rewrite restore_all_persist in Hl by done.
  assert (map_Forall (λ _ u, snd u = false)
    ((λ u : User, (reloaded_user u, false)) <$> ms_users s)) as Hrep.
  { intros id u. rewrite lookup_fmap. destruct (ms_users s !! id); [|done]. by intros [= <-]. }
  rewrite bool_decide_eq_false_2 in Hl by (intros Hn; by apply Hn).
  injection Hl as <-. unfold with_inner, Healthy. cbn. split_and!; try done.
  by rewrite <-map_fmap_compose.
Qed.

Lemma NewPostgresStore_snapshot ok s buf salt now name password p' :
  hashed s →
  NewPostgresStore ok (Some (snapshotJSON s)) buf salt now name password = Ok p' →
  ∃ i, load ok salt name password (MkPostgresStore i (Some (snapshotJSON s)) None) = (None, p').
Proof.
  intros _. unfold NewPostgresStore. intros Hn. destruct (Users.NewMemoryStore _ _ _ _ _) as [i|]; [|done].
  exists i. by destruct (load _ _ _ _ _) as [[e|] p]; simplify_eq.
Qed.

(** ** Properties *)

(** C12: A restart keeps every authentication decision: on the store loaded from
    the last document, the same users log in with the same passwords, the same
    agent tokens are valid, the same browser tokens are revoked, and the same
    enrollments can be exchanged. *)
Theorem restart_keeps_access ok s buf salt now0 name password p' :
  hashed s →
  NewPostgresStore ok (Some (snapshotJSON s)) buf salt now0 name password = Ok p' →
  (∀ now u pw, Authenticate now u pw p' =
     match Users.Authenticate now u pw s with
     | Ok user => Ok (reloaded_user user) | Err e => Err e end) ∧
  (∀ token d, ValidateAgentToken token d p' = Enrollments.ValidateAgentToken token d s) ∧
  (∀ now digest, Users.UserTokenRevoked now digest (pg_inner p') = Users.UserTokenRevoked now digest s) ∧
  (∀ buf now token d, fst (Enrollments.ExchangeEnrollment buf now token d (pg_inner p')) =
     fst (Enrollments.ExchangeEnrollment buf now token d s)).
Proof.
  intros Hh (i & Hl)%NewPostgresStore_snapshot; [|done].
  destruct (load_snapshot _ _ _ _ _ _ _ Hh Hl) as
    (Hu & Hn & _ & Hac & Hen & Hdc & _ & _ & _ & Hrev & _). split_and!.
  - intros now u pw. unfold Authenticate, Users.Authenticate. rewrite Hn, Hu, lookup_fmap.
    destruct (ms_users s !! _) as [user|]; simpl; [|done].
    destruct (expired now (uExpiresAt user)); [done|]. by destruct (bcrypt_compare _ pw).
  - intros token d. unfold ValidateAgentToken, Enrollments.ValidateAgentToken. by rewrite Hac.
  - intros now digest. unfold Users.UserTokenRevoked. by rewrite Hrev.
  - intros cbuf now token d. unfold Enrollments.ExchangeEnrollment. rewrite Hen.
    destruct (ms_enrollments s !! _) as [e|]; [|done]. unfold Enrollments.issuer_ok. rewrite Hdc.
    by repeat case_match.
Qed.

(** C31: What the document does not hold is lost: after a restart every live share
    link opens with any password, every asset has an empty path, and every task an
    empty payload, whatever they were before. *)
Theorem restart_forgets ok s buf salt now0 name password p' :
  hashed s →
  NewPostgresStore ok (Some (snapshotJSON s)) buf salt now0 name password = Ok p' →
  (∀ token share now pw, ms_shares s !! token = Some share → expired now (shExpiresAt share) = false →
     fst (AuthorizeShare now token pw p') = Ok (persist_share share)) ∧
  (∀ id a, ms_assets (pg_inner p') !! id = Some a → asPath a = "") ∧
  (∀ now t d task p'', ClaimTask ok now t d p' = (Ok task, p'') → tPayload task = "").
Proof.
  intros Hh (i & Hl)%NewPostgresStore_snapshot; [|done].
  destruct (load_snapshot _ _ _ _ _ _ _ Hh Hl) as
    (_ & _ & Hsh & _ & _ & _ & Has & _ & Ht & _). split_and!.
  - intros token share now pw Hs Hexp. unfold AuthorizeShare, Shares.AuthorizeShare.
    rewrite Hsh, lookup_fmap, Hs. simpl. unfold Shares.has_password. simpl. by rewrite Hexp.
  - intros id a. rewrite Has, lookup_fmap. destruct (ms_assets s !! id); [|done]. by intros [= <-].
  - intros now t d task p''. unfold ClaimTask, mutating.
    destruct (Tasks.ClaimTask now t d (pg_inner p')) as [[task'|] i'] eqn:Ec; [|done].
    intros [= <- _]. apply Tasks.ClaimTask_Ok in Ec as (t0 & dev & Ht0 & _ & _ & _ & -> & _).
    rewrite Ht, lookup_fmap in Ht0. destruct (ms_tasks s !! t); [|done]. by injection Ht0 as <-.
Qed.

(** A durable exchange: when [ExchangeEnrollment] answers an agent with a
    credential, the database holds a document in which that credential is valid and
    the enrollment is gone; when the store is unhealthy or the write fails, the
    caller gets an error. *)
Theorem exchange_durable ok buf now token d p :
  (∀ c p', ExchangeEnrollment ok buf now token d p = (Ok c, p') →
     ok = true ∧ Healthy p = None ∧
     pg_row p' = Some (snapshotJSON (pg_inner p')) ∧
     Enrollments.ExchangeEnrollment buf now token d (pg_inner p) = (Ok c, pg_inner p') ∧
     ∀ ok2 buf2 salt2 now2 name password p2, hashed (pg_inner p') →
       NewPostgresStore ok2 (pg_row p') buf2 salt2 now2 name password = Ok p2 →
       ValidateAgentToken (acToken c) d p2 = true ∧
       ms_enrollments (pg_inner p2) !! tokenDigest token = None) ∧
  (Healthy p ≠ None ∨ ok = false →
     is_ok (fst (ExchangeEnrollment ok buf now token d p)) = false).
Proof.
  unfold ExchangeEnrollment, durable, checked. split.
  - intros c p' He. destruct (Healthy p); [done|].
    destruct (Enrollments.ExchangeEnrollment buf now token d (pg_inner p)) as [[c'|] i'] eqn:Ee; [|done].
    unfold persist in He. destruct ok; [|done]. injection He as <- <-. cbn.
    split_and!; try done. intros ok2 buf2 salt2 now2 name password p2 Hh Hn.
    apply NewPostgresStore_snapshot in Hn as (i & Hl); [|done].
    destruct (load_snapshot _ _ _ _ _ _ _ Hh Hl) as (_ & _ & _ & Hac & Hen & _).
    apply Enrollments.ExchangeEnrollment_Ok in Ee as (e & _ & _ & _ & _ & -> & ->).
    unfold ValidateAgentToken, Enrollments.ValidateAgentToken. rewrite Hac, Hen. simpl.
    rewrite lookup_insert_eq, lookup_delete_eq. simpl. by rewrite bool_decide_eq_true_2.
  - intros [Hu| ->]; [by destruct (Healthy p)|]. destruct (Healthy p); [done|].
    by destruct (Enrollments.ExchangeEnrollment _ _ _ _ _) as [[]].
Qed.
End restart.

(** ** Witnesses *)

Module PersistWitness.
Import ToyCrypto.

Definition s0 : MemoryStore := from_ok empty_store
  (Users.NewMemoryStore (repeat "u"%char 24) [] 0 "root" "secret").
Definition sh := Shares.CreateShare (repeat "s"%char 24) (repeat "c"%char 24) [] 5 "phone" "root"
  "pw" "" false None s0.
Definition s1 : MemoryStore := snd sh.
Definition tok : string := randomToken (repeat "s"%char 24).
Definition p1 : PostgresStore := from_ok (MkPostgresStore s1 None None)
  (NewPostgresStore true (Some (snapshotJSON s1)) (repeat "v"%char 24) [] 9 "root" "secret").

Lemma hashed_s1 : hashed s1.
Proof.
  change (ms_users s1) with (ms_users s0). apply map_Forall_singleton. by vm_compute.
Defined.

Lemma restart_keeps_access_witness : is_ok (Authenticate 10 "root" "secret" p1) = true.
Proof.
  destruct (restart_keeps_access true s1 (repeat "v"%char 24) [] 9 "root" "secret" p1 hashed_s1)
    as [Ha _]; [reflexivity|].
  rewrite Ha. by vm_compute.
Defined.

(** The link was created with the password "pw" and now opens without one. *)
Lemma restart_forgets_witness :
  is_ok (fst (Shares.AuthorizeShare 10 tok "" s1)) = false ∧
  is_ok (fst (AuthorizeShare 10 tok "" p1)) = true.
Proof.
  split; [by vm_compute|].
  destruct (restart_forgets true s1 (repeat "v"%char 24) [] 9 "root" "secret" p1 hashed_s1)
    as [Ha _]; [reflexivity|].
  rewrite (Ha tok (from_ok (MkShare "" "" "" false "" "" None "" 0 false false false false ∅) (fst sh)));
    by vm_compute.
Defined.

Definition en := CreateEnrollment true (repeat "a"%char 24) 0 "phone" 100
  (MkPostgresStore s0 None None).
Definition ex := ExchangeEnrollment true (repeat "b"%char 24) 5 (enToken (fst en)) "phone" (snd en).
Definition cred : AgentCredential := from_ok (MkAgentCredential "" "") (fst ex).

Lemma exchange_durable_witness :
  pg_row (snd ex) = Some (snapshotJSON (pg_inner (snd ex))).
Proof.
  apply (exchange_durable true (repeat "b"%char 24) 5 (enToken (fst en)) "phone" (snd en))
    with (c := cred). by vm_compute.
Defined.
End PersistWitness.
