(* ===== verification/Config.v ===== *)
(** * Configuration (config.go)

    [Config], the environment variables it is read from, and the defaults that
    replace unusable limits.  The environment is a function [env] from names to
    values, the empty text standing for an unset variable; [time.ParseDuration] and
    [netip.ParsePrefix] are parameters. *)

From S2P Require Import Prelude GoBase GoStrings.

Record Config := MkConfig {
  cfListenAddress : string;
  cfJWTSecret : bytes;
  cfBootstrapAdminUser : string;
  cfBootstrapAdminPass : string;
  cfAllowRegistration : bool;
  cfPublicURL : string;
  cfTurnURLs : list string;
  cfTurnUsername : string;
  cfTurnCredential : string;
  cfCORSOrigins : list string;
  cfPostgresDSN : string;
  cfRedisURL : string;
  cfAssetDir : string;
  cfAgentDir : string;
  cfScrcpyJar : string;
  cfTaskTTL : Duration;
  cfAuditRetention : Duration;
  cfMaxAssetBytes : Z;
  cfAgentHelloTimeout : Duration;
  cfAgentHelloMaxBytes : Z;
  cfMaxPendingAgentHandshakes : Z;
  cfLoginAttemptWindow : Duration;
  cfLoginMaxAttemptsPerAccount : Z;
  cfLoginMaxAttemptsPerIP : Z;
  cfTrustedProxyCIDRs : list string
}.

Definition defaultAgentHelloTimeout : Duration := 10 * Second.
Definition defaultAgentHelloMaxBytes : Z := Z.shiftl 64 10.
Definition defaultMaxPendingAgentHandshakes : Z := 64.
Definition defaultLoginAttemptWindow : Duration := 15 * Minute.
Definition defaultLoginMaxAttemptsPerAccount : Z := 10.
Definition defaultLoginMaxAttemptsPerIP : Z := 60.

(** ** strconv *)

Definition ParseBool (s : string) : option bool :=
  if decide (s ∈ ["1"; "t"; "T"; "TRUE"; "true"; "True"]) then Some true
  else if decide (s ∈ ["0"; "f"; "F"; "FALSE"; "false"; "False"]) then Some false
  else None.

Definition splitCSV (value : string) : list string :=
  List.filter (λ item, bool_decide (item ≠ "")) (TrimSpace <$> Split value ",").

Definition valueOr (env : string → string) (key fallback : string) : string :=
  let value := TrimSpace (env key) in if decide (value ≠ "") then value else fallback.

Section load.
Context (ParseDuration : string → option Duration) (ParsePrefix : string → option string).

Fixpoint parse_all (items : list string) : result (list string) :=
  match items with
  | [] => Ok []
  | item :: items =>
      match ParsePrefix item with
      | None => Err (ErrMsg "netip.ParsePrefix")
      | Some prefix => match parse_all items with Ok l => Ok (prefix :: l) | Err e => Err e end
      end
  end.
(** [ParsePrefix] gives the masked prefix. *)
Definition parseCIDRs (value : string) : result (list string) := parse_all (splitCSV value).

Definition positive_value (parsed : option Z) (name : string) : result Z :=
  match parsed with
  | Some n => if n <=? 0 then Err (ErrMsg ("parse " +:+ name)) else Ok n
  | None => Err (ErrMsg ("parse " +:+ name))
  end.

Definition positive_duration (env : string → string) (name fallback : string) : result Z :=
  positive_value (ParseDuration (valueOr env name fallback)) name.
Definition positive_int (env : string → string) (name fallback : string) : result Z :=
  positive_value (ParseInt (valueOr env name fallback)) name.

(** [random] holds the 48 bytes of a generated secret, [None] when the system has
    no randomness. *)
Definition LoadConfigFromEnv (env : string → string) (random : option bytes) : result Config :=
  secret ← (let secret := TrimSpace (env "SCRCPYCAT_JWT_SECRET") in
            if decide (secret = "") then
              match random with
              | Some buf => Ok (b64url_encode buf)
              | None => Err (ErrMsg "generate development JWT secret")
              end
            else Ok (str_bytes secret));
  allowRegistration ← match ParseBool (valueOr env "SCRCPYCAT_ALLOW_REGISTRATION" "false") with
                      | Some b => Ok b
                      | None => Err (ErrMsg "parse SCRCPYCAT_ALLOW_REGISTRATION")
                      end;
  taskTTL ← positive_duration env "SCRCPYCAT_TASK_TTL" "24h";
  auditRetention ← positive_duration env "SCRCPYCAT_AUDIT_RETENTION" "2160h";
  maxAssetBytes ← positive_int env "SCRCPYCAT_MAX_ASSET_BYTES" "2147483648";
  agentHelloTimeout ← positive_duration env "SCRCPYCAT_AGENT_HELLO_TIMEOUT" "10s";
  agentHelloMaxBytes ← positive_int env "SCRCPYCAT_AGENT_HELLO_MAX_BYTES" "65536";
  maxPending ← positive_int env "SCRCPYCAT_MAX_PENDING_AGENT_HANDSHAKES" "64";
  window ← positive_duration env "SCRCPYCAT_LOGIN_ATTEMPT_WINDOW" "15m0s";
  perAccount ← positive_int env "SCRCPYCAT_LOGIN_MAX_ATTEMPTS_PER_ACCOUNT" "10";
  perIP ← positive_int env "SCRCPYCAT_LOGIN_MAX_ATTEMPTS_PER_IP" "60";
  cidrs ← parseCIDRs (env "SCRCPYCAT_TRUSTED_PROXY_CIDRS");
  Ok (MkConfig (valueOr env "SCRCPYCAT_LISTEN_ADDRESS" ":8443") secret
        (valueOr env "SCRCPYCAT_ADMIN_USERNAME" "admin")
        (valueOr env "SCRCPYCAT_ADMIN_PASSWORD" "change-me-before-production")
        allowRegistration
        (TrimRight (valueOr env "SCRCPYCAT_PUBLIC_URL" "https://localhost:8443") "/")
        (splitCSV (env "SCRCPYCAT_TURN_URLS")) (env "SCRCPYCAT_TURN_USERNAME")
        (env "SCRCPYCAT_TURN_CREDENTIAL") (splitCSV (env "SCRCPYCAT_CORS_ORIGINS"))
        (TrimSpace (env "SCRCPYCAT_POSTGRES_DSN")) (TrimSpace (env "SCRCPYCAT_REDIS_URL"))
        (valueOr env "SCRCPYCAT_ASSET_DIR" "/var/lib/scrcpycat/assets")
        (valueOr env "SCRCPYCAT_AGENT_DIR" "bin/agent")
        (valueOr env "SCRCPYCAT_SCRCPY_JAR" "bin/scrcpy-server/scrcpy-server")
        taskTTL auditRetention maxAssetBytes agentHelloTimeout agentHelloMaxBytes maxPending
        window perAccount perIP cidrs).
End load.

Definition or_default (value default_ : Z) : Z := if value <=? 0 then default_ else value.

Definition withSecurityDefaults (c : Config) : Config :=
  MkConfig (cfListenAddress c) (cfJWTSecret c) (cfBootstrapAdminUser c) (cfBootstrapAdminPass c)
    (cfAllowRegistration c) (cfPublicURL c) (cfTurnURLs c) (cfTurnUsername c) (cfTurnCredential c)
    (cfCORSOrigins c) (cfPostgresDSN c) (cfRedisURL c) (cfAssetDir c) (cfAgentDir c) (cfScrcpyJar c)
    (cfTaskTTL c) (cfAuditRetention c) (cfMaxAssetBytes c)
    (or_default (cfAgentHelloTimeout c) defaultAgentHelloTimeout)
    (or_default (cfAgentHelloMaxBytes c) defaultAgentHelloMaxBytes)
    (or_default (cfMaxPendingAgentHandshakes c) defaultMaxPendingAgentHandshakes)
    (or_default (cfLoginAttemptWindow c) defaultLoginAttemptWindow)
    (or_default (cfLoginMaxAttemptsPerAccount c) defaultLoginMaxAttemptsPerAccount)
    (or_default (cfLoginMaxAttemptsPerIP c) defaultLoginMaxAttemptsPerIP)
    (cfTrustedProxyCIDRs c).

(** The limits the server relies on. *)
Definition limits (c : Config) : list Z :=
  [cfAgentHelloTimeout c; cfAgentHelloMaxBytes c; cfMaxPendingAgentHandshakes c;
   cfLoginAttemptWindow c; cfLoginMaxAttemptsPerAccount c; cfLoginMaxAttemptsPerIP c].

Lemma or_default_pos v d : 0 < d → 0 < or_default v d.
Proof. unfold or_default. intros. destruct (Z.leb_spec v 0); lia. Qed.

Lemma positive_value_Ok p name n : positive_value p name = Ok n → 0 < n.
Proof. unfold positive_value. intros H. split_branches. bool_to_prop. lia. Qed.

(** Whatever configuration the server is given, the one it runs with has positive
    limits, keeps every positive one as it was given, and applying the defaults twice
    is applying them once; a configuration read from the environment has positive
    limits, retention, task life and asset size to begin with. *)
Theorem configuration_limits c ParseDuration ParsePrefix env random :
  Forall (λ n, 0 < n) (limits (withSecurityDefaults c)) ∧
  (Forall (λ n, 0 < n) (limits c) → withSecurityDefaults c = c) ∧
  withSecurityDefaults (withSecurityDefaults c) = withSecurityDefaults c ∧
  (∀ c', LoadConfigFromEnv ParseDuration ParsePrefix env random = Ok c' →
     Forall (λ n, 0 < n) ([cfTaskTTL c'; cfAuditRetention c'; cfMaxAssetBytes c'] ++ limits c')).
Proof.
  assert (∀ c, Forall (λ n, 0 < n) (limits (withSecurityDefaults c))) as Hpos.
  { intros c'. unfold limits. cbn [withSecurityDefaults cfAgentHelloTimeout cfAgentHelloMaxBytes
      cfMaxPendingAgentHandshakes cfLoginAttemptWindow cfLoginMaxAttemptsPerAccount cfLoginMaxAttemptsPerIP].
    repeat (constructor; [by apply or_default_pos|]). constructor. }
  assert (∀ c, Forall (λ n, 0 < n) (limits c) → withSecurityDefaults c = c) as Hid.
  { intros c' Hl. unfold limits in Hl. rewrite !Forall_cons in Hl.
    destruct c'; unfold withSecurityDefaults, or_default; cbn in *.
    by rewrite !(proj2 (Z.leb_gt _ _)) by tauto. }
  split_and!; [apply Hpos|apply Hid|apply Hid, Hpos|].
  intros c' Hc. unfold LoadConfigFromEnv, positive_duration, positive_int in Hc.
  repeat (apply bind_Ok in Hc as (? & ?%positive_value_Ok & Hc) ||
          apply bind_Ok in Hc as (? & _ & Hc)).
  injection Hc as <-. cbn. repeat (constructor; [done|]). constructor.
Qed.

Module ConfigWitness.
Definition env (name : string) : string := if decide (name = "SCRCPYCAT_CORS_ORIGINS") then " a , b" else "".
Definition loaded : result Config :=
  LoadConfigFromEnv (λ _, Some Hour) (λ s, Some s) env (Some (repeat "x"%char 48)).

Lemma configuration_limits_witness : is_ok loaded = true ∧
  Forall (λ n, 0 < n) (limits (withSecurityDefaults (from_ok (MkConfig "" [] "" "" false "" [] "" ""
    [] "" "" "" "" "" 0 0 0 0 0 0 0 0 0 []) loaded))).
Proof.
  split; [by vm_compute|].
  apply (configuration_limits _ (λ _, Some Hour) (λ s, Some s) env (Some (repeat "x"%char 48))).
Defined.
End ConfigWitness.
