(* ===== verification/LoginLimiter.v ===== *)
(** * The login limiter (login_limiter.go)

    Failed logins are counted per account and per client address in windows that
    start at the first failure.  A window that is over is deleted lazily.  The
    functions take the instant at which they run ([l.now()]). *)

From S2P Require Import Prelude GoBase GoStrings.

Record loginAttempt := MkAttempt { laCount : Z; laResetAt : Time }.

(** The zero value a missing key reads as. *)
Definition loginAttempt_zero : loginAttempt := MkAttempt 0 time_zero.

Record loginLimiter := MkLimiter {
  llWindow : Duration;
  llAccountLimit : Z;
  llIPLimit : Z;
  llAccounts : gmap string loginAttempt;
  llIPs : gmap string loginAttempt
}.

Definition newLoginLimiter (window : Duration) (accountLimit ipLimit : Z) : loginLimiter :=
  MkLimiter window accountLimit ipLimit ∅ ∅.

Definition get (m : gmap string loginAttempt) (key : string) : loginAttempt :=
  default loginAttempt_zero (m !! key).

Definition over (now : Time) (a : loginAttempt) : bool := negb (Before now (laResetAt a)).

Definition cleanExpired (now : Time) (l : loginLimiter) : loginLimiter :=
  MkLimiter (llWindow l) (llAccountLimit l) (llIPLimit l)
    (delete_if (λ _ a, over now a) (llAccounts l)) (delete_if (λ _ a, over now a) (llIPs l)).

(** [attempt.count++] is an [int]. *)
Definition nextLoginAttempt (attempt : loginAttempt) (now : Time) (window : Duration)
    : loginAttempt :=
  if negb (Before now (laResetAt attempt)) then MkAttempt 1 (Add now window)
  else MkAttempt (int64 (laCount attempt + 1)) (laResetAt attempt).

Definition allow (now : Time) (account ip : string) (l : loginLimiter)
    : (Duration * bool) * loginLimiter :=
  let l := cleanExpired now l in
  let retryAfter := 0 in
  let attempt := get (llAccounts l) account in
  let retryAfter :=
    if (llAccountLimit l <=? laCount attempt) && Before now (laResetAt attempt)
    then Sub (laResetAt attempt) now else retryAfter in
  let attempt := get (llIPs l) ip in
  let retryAfter :=
    if (llIPLimit l <=? laCount attempt) && Before now (laResetAt attempt) &&
       (retryAfter <? Sub (laResetAt attempt) now)
    then Sub (laResetAt attempt) now else retryAfter in
  ((retryAfter, 0 <? retryAfter), l).

Definition recordFailure (now : Time) (account ip : string) (l : loginLimiter) : loginLimiter :=
  let l := cleanExpired now l in
  MkLimiter (llWindow l) (llAccountLimit l) (llIPLimit l)
    (<[account := nextLoginAttempt (get (llAccounts l) account) now (llWindow l)]> (llAccounts l))
    (<[ip := nextLoginAttempt (get (llIPs l) ip) now (llWindow l)]> (llIPs l)).

Definition clearAccount (account : string) (l : loginLimiter) : loginLimiter :=
  MkLimiter (llWindow l) (llAccountLimit l) (llIPLimit l) (delete account (llAccounts l)) (llIPs l).

(** The limiter's part of the login handler (server.go: login): refused, or the
    password is tried, with outcome [ok]. *)
Definition guarded_login (now : Time) (account ip : string) (ok : bool) (l : loginLimiter)
    : bool * loginLimiter :=
  match allow now account ip l with
  | ((_, true), l) => (false, l)
  | ((_, false), l) =>
      (true, if ok then clearAccount account l else recordFailure now account ip l)
  end.

(** ** Client addresses

    [net/netip] and [net.SplitHostPort] are parameters: parsing an address, its
    canonical text, membership in a prefix, and the host part of an address. *)
Section client_ip.
Context {Addr Prefix : Type}.
Context (parse_addr : string → option Addr) (addr_string : Addr → string)
  (contains : Prefix → Addr → bool) (split_host : string → option string).

Definition trustedProxy (address : Addr) (trusted : list Prefix) : bool :=
  existsb (λ p, contains p address) trusted.

Definition requestClientIP (remoteAddr forwardedFor : string) (trusted : list Prefix) : string :=
  let host := default remoteAddr (split_host remoteAddr) in
  match parse_addr host with
  | None => host
  | Some direct =>
      let forwarded := TrimSpace (hd "" (Split forwardedFor ",")) in
      if trustedProxy direct trusted && bool_decide (forwarded ≠ "") then
        match parse_addr forwarded with
        | Some client => addr_string client
        | None => addr_string direct
        end
      else addr_string direct
  end.
End client_ip.

(** ** Traces of limiter calls *)

Inductive event :=
| EvAllow (account ip : string)
| EvFail (account ip : string)
| EvClear (account : string).

Definition apply_event (l : loginLimiter) (te : Time * event) : loginLimiter :=
  match te with
  | (t, EvAllow a ip) => snd (allow t a ip l)
  | (t, EvFail a ip) => recordFailure t a ip l
  | (_, EvClear a) => clearAccount a l
  end.

Definition run (trace : list (Time * event)) (l : loginLimiter) : loginLimiter :=
  foldl apply_event l trace.

(** Specification: the window of one account, or of one address, followed alone
    and without any cleaning. *)
Definition account_window (w : Duration) (key : string) (trace : list (Time * event))
    : loginAttempt :=
  foldl (λ a te, match te with
    | (t, EvFail acc _) => if decide (acc = key) then nextLoginAttempt a t w else a
    | (_, EvClear acc) => if decide (acc = key) then loginAttempt_zero else a
    | _ => a end) loginAttempt_zero trace.

Definition ip_window (w : Duration) (key : string) (trace : list (Time * event)) : loginAttempt :=
  foldl (λ a te, match te with
    | (t, EvFail _ ip) => if decide (ip = key) then nextLoginAttempt a t w else a
    | _ => a end) loginAttempt_zero trace.

(** How long a window with this count holds a caller back. *)
Definition held (now : Time) (limit : Z) (a : loginAttempt) : Duration :=
  if (limit <=? laCount a) && Before now (laResetAt a) then Sub (laResetAt a) now else 0.

Fixpoint ordered (t0 : Time) (trace : list (Time * event)) : Prop :=
  match trace with [] => True | (t, _) :: tr => t0 ≤ t ∧ ordered t tr end.

Definition last_time (t0 : Time) (trace : list (Time * event)) : Time :=
  foldl (λ _ te, fst te) t0 trace.

(** ** Lemmas *)

(** Two attempts that no instant from [t] on can tell apart. *)
Definition same_from (t : Time) (a b : loginAttempt) : Prop :=
  a = b ∨ (laResetAt a ≤ t ∧ laResetAt b ≤ t).

Lemma same_from_mono t t' a b : t ≤ t' → same_from t a b → same_from t' a b.
Proof. intros Ht [->|[??]]; [by left|right; lia]. Qed.

Lemma same_from_next t w a b : same_from t a b → nextLoginAttempt a t w = nextLoginAttempt b t w.
Proof.
  unfold nextLoginAttempt, Before. intros [->|[Ha Hb]]; [done|].
  by rewrite !(proj2 (Z.ltb_ge t _)).
Qed.

Lemma same_from_held t now limit a b :
  same_from t a b → t ≤ now → held now limit a = held now limit b.
Proof.
  unfold held, Before. intros [->|[Ha Hb]] Hn; [done|].
  by rewrite !(proj2 (Z.ltb_ge now _)), !andb_false_r by lia.
Qed.

Lemma get_insert m k k' a :
  get (<[k := a]> m) k' = if decide (k = k') then a else get m k'.
Proof.
  unfold get. destruct (decide (k = k')) as [->|]; [by rewrite lookup_insert_eq|].
  by rewrite lookup_insert_ne.
Qed.

Lemma get_delete m k k' :
  get (delete k m) k' = if decide (k = k') then loginAttempt_zero else get m k'.
Proof.
  unfold get. destruct (decide (k = k')) as [->|]; [by rewrite lookup_delete_eq|].
  by rewrite lookup_delete_ne.
Qed.

(** Cleaning is invisible from its instant on. *)
Lemma get_clean now m k : 0 ≤ now → same_from now (get (delete_if (λ _ a, over now a) m) k) (get m k).
Proof.
  intros Hn. unfold get. rewrite lookup_delete_if. destruct (m !! k) as [a|]; [|by left].
  unfold over, Before. destruct (Z.ltb_spec now (laResetAt a)); simpl; [by left|].
  right. cbn. unfold time_zero. lia.
Qed.

Lemma same_from_trans t a b c : same_from t a b → same_from t b c → same_from t a c.
Proof. intros [->|[??]] [->|[??]]; unfold same_from; auto. Qed.

Definition tracks (t : Time) (l : loginLimiter) (accs ips : string → loginAttempt) : Prop :=
  (∀ k, same_from t (get (llAccounts l) k) (accs k)) ∧
  (∀ k, same_from t (get (llIPs l) k) (ips k)).

Lemma tracks_clean t l accs ips : 0 ≤ t → tracks t l accs ips → tracks t (cleanExpired t l) accs ips.
Proof.
  intros Ht [Ha Hi]. split; intros k; (eapply same_from_trans; [by apply get_clean|]); auto.
Qed.

Lemma tracks_step t0 t e l accs ips :
  0 ≤ t0 → t0 ≤ t → tracks t0 l accs ips →
  tracks t (apply_event l (t, e))
    (λ k, match e with
       | EvFail acc _ => if decide (acc = k) then nextLoginAttempt (accs k) t (llWindow l) else accs k
       | EvClear acc => if decide (acc = k) then loginAttempt_zero else accs k
       | EvAllow _ _ => accs k end)
    (λ k, match e with
       | EvFail _ ip => if decide (ip = k) then nextLoginAttempt (ips k) t (llWindow l) else ips k
       | _ => ips k end).
Proof.
  intros H0 Ht [Ha Hi]. assert (tracks t l accs ips) as Htr.
  { split; intros k; eapply same_from_mono; eauto. }
  assert (0 ≤ t) as Ht0 by lia.
  pose proof (tracks_clean t l accs ips Ht0 Htr) as [Hca Hci].
  destruct e as [a ip|a ip|a]; cbn [apply_event].
  - split; [apply Hca|apply Hci].
  - unfold recordFailure. split; intros k; cbn [llAccounts llIPs]; rewrite get_insert;
      case_decide; subst; [left; by apply same_from_next|apply Hca|left; by apply same_from_next|apply Hci].
  - destruct Htr as [Hta Hti]. split; intros k; cbn [llAccounts llIPs clearAccount]; [|apply Hti].
    rewrite get_delete. case_decide; [by left|apply Hta].
Qed.

Lemma apply_event_config l te :
  llWindow (apply_event l te) = llWindow l ∧ llAccountLimit (apply_event l te) = llAccountLimit l ∧
  llIPLimit (apply_event l te) = llIPLimit l.
Proof. by destruct te as [t [a ip|a ip|a]]. Qed.

Lemma run_config trace : ∀ l,
  llWindow (run trace l) = llWindow l ∧ llAccountLimit (run trace l) = llAccountLimit l ∧
  llIPLimit (run trace l) = llIPLimit l.
Proof.
  induction trace as [|te trace IH]; intros l; [done|]. unfold run in *. cbn [foldl].
  destruct (IH (apply_event l te)) as (-> & -> & ->). apply apply_event_config.
Qed.

Lemma run_tracks trace : ∀ t0 l accs ips,
  0 ≤ t0 → ordered t0 trace → tracks t0 l accs ips →
  tracks (last_time t0 trace) (run trace l)
    (λ k, foldl (λ a te, match te with
      | (t, EvFail acc _) => if decide (acc = k) then nextLoginAttempt a t (llWindow l) else a
      | (_, EvClear acc) => if decide (acc = k) then loginAttempt_zero else a
      | _ => a end) (accs k) trace)
    (λ k, foldl (λ a te, match te with
      | (t, EvFail _ ip) => if decide (ip = k) then nextLoginAttempt a t (llWindow l) else a
      | _ => a end) (ips k) trace).
Proof.
  induction trace as [|[t e] trace IH]; intros t0 l accs ips H0 Hord Htr; [done|].
  destruct Hord as [Ht Hord]. pose proof (tracks_step t0 t e l accs ips H0 Ht Htr) as Hstep.
  specialize (IH t (apply_event l (t, e)) _ _ ltac:(lia) Hord Hstep).
  destruct (apply_event_config l (t, e)) as (Hw & _ & _). rewrite Hw in IH.
  destruct e; exact IH.
Qed.

Lemma last_time_ordered trace : ∀ t0, ordered t0 trace → t0 ≤ last_time t0 trace.
Proof.
  induction trace as [|[t e] trace IH]; intros t0; [done|]. intros [? Hord].
  cbn. specialize (IH t Hord). unfold last_time in *. lia.
Qed.

Lemma held_nonneg now limit a : 0 ≤ held now limit a.
Proof. unfold held, Before, Sub, max_int64. case_match; bool_to_prop; lia. Qed.

Lemma allow_cleaned now account ip l :
  allow now account ip l =
    ((Z.max (held now (llAccountLimit l) (get (llAccounts (cleanExpired now l)) account))
            (held now (llIPLimit l) (get (llIPs (cleanExpired now l)) ip)),
      0 <? Z.max (held now (llAccountLimit l) (get (llAccounts (cleanExpired now l)) account))
            (held now (llIPLimit l) (get (llIPs (cleanExpired now l)) ip))), cleanExpired now l).
Proof.
  unfold allow. set (l' := cleanExpired now l).
  change (llAccountLimit l) with (llAccountLimit l'). change (llIPLimit l) with (llIPLimit l').
  set (a := get (llAccounts l') account). set (b := get (llIPs l') ip).
  fold (held now (llAccountLimit l') a). pose proof (held_nonneg now (llAccountLimit l') a) as Hx.
  assert (∀ x, 0 ≤ x → (if (llIPLimit l' <=? laCount b) && Before now (laResetAt b) &&
     (x <? Sub (laResetAt b) now) then Sub (laResetAt b) now else x) =
     Z.max x (held now (llIPLimit l') b)) as E.
  { intros x ?. unfold held. destruct ((llIPLimit l' <=? laCount b) && Before now (laResetAt b));
      cbn [andb]; [|lia]. destruct (Z.ltb_spec x (Sub (laResetAt b) now)); lia. }
  cbv zeta. by rewrite (E _ Hx).
Qed.

Lemma allow_held now account ip l :
  0 ≤ now →
  fst (allow now account ip l) =
    (Z.max (held now (llAccountLimit l) (get (llAccounts l) account))
           (held now (llIPLimit l) (get (llIPs l) ip)),
     0 <? Z.max (held now (llAccountLimit l) (get (llAccounts l) account))
           (held now (llIPLimit l) (get (llIPs l) ip))).
Proof.
  intros Hn. rewrite allow_cleaned. simpl.
  rewrite (same_from_held now now _ (get (delete_if _ (llAccounts l)) account) _
    (get_clean now (llAccounts l) account Hn)) by done.
  by rewrite (same_from_held now now _ (get (delete_if _ (llIPs l)) ip) _
    (get_clean now (llIPs l) ip Hn)).
Qed.

(** The limiters the login handler can produce, at any instants. *)
Inductive guarded (l0 : loginLimiter) : loginLimiter → Prop :=
| guarded_init : guarded l0 l0
| guarded_step now account ip ok l :
    guarded l0 l → guarded l0 (snd (guarded_login now account ip ok l)).

(** Every window counts at least one failure and at most [limit]. *)
Definition within (limit : Z) (m : gmap string loginAttempt) : Prop :=
  map_Forall (λ _ a, 1 ≤ laCount a ≤ limit) m.

Lemma within_clean limit p m : within limit m → within limit (delete_if p m).
Proof. intros Hw k a [Hk _]%lookup_delete_if_Some. by apply (Hw k). Qed.

(** Counting a failure that was not held back keeps the window within the limit. *)
Lemma within_record limit m k now w :
  1 ≤ limit < 2 ^ 63 → within limit m → held now limit (get m k) = 0 →
  within limit (<[k := nextLoginAttempt (get m k) now w]> m).
Proof.
  intros Hl Hw Hh. apply map_Forall_insert_2; [|done].
  unfold nextLoginAttempt, held, Before, Sub, max_int64 in *.
  destruct (Z.ltb_spec now (laResetAt (get m k))) as [Hlt|]; cbn [negb laCount]; [|lia].
  assert (0 ≤ laCount (get m k)).
  { unfold get. destruct (m !! k) as [a|] eqn:E; [|done]. specialize (Hw k a E). simpl in *. lia. }
  destruct (Z.leb_spec limit (laCount (get m k))); cbn [andb] in Hh; [lia|].
  rewrite int64_small; lia.
Qed.

(** No window counts more failures than its limit, when every login goes through the
    limiter. *)
Lemma guarded_windows window accountLimit ipLimit l :
  1 ≤ accountLimit < 2 ^ 63 → 1 ≤ ipLimit < 2 ^ 63 →
  guarded (newLoginLimiter window accountLimit ipLimit) l →
  map_Forall (λ _ a, 1 ≤ laCount a ≤ accountLimit) (llAccounts l) ∧
  map_Forall (λ _ a, 1 ≤ laCount a ≤ ipLimit) (llIPs l).
Proof.
  intros Ha Hi Hg. cut ((llAccountLimit l = accountLimit ∧ llIPLimit l = ipLimit) ∧
    within accountLimit (llAccounts l) ∧ within ipLimit (llIPs l)); [by intros [_ ?]|].
  induction Hg as [|now account ip ok l _ [[Hla Hli] [Hwa Hwi]]].
  { split_and!; try done; apply map_Forall_empty. }
  unfold guarded_login. rewrite allow_cleaned. set (l' := cleanExpired now l) in *.
  set (x := held now _ _). set (y := held now _ _).
  pose proof (held_nonneg now (llAccountLimit l) (get (llAccounts l') account)) as Hx.
  pose proof (held_nonneg now (llIPLimit l) (get (llIPs l') ip)) as Hy. fold x in Hx. fold y in Hy.
  destruct (Z.ltb_spec 0 (Z.max x y)) as [|Hz]; cbn [snd].
  { split_and!; try done; by apply within_clean. }
  destruct ok; cbn [snd].
  { split_and!; try done; cbn [clearAccount llAccounts llIPs]; [|by apply within_clean].
    apply map_Forall_delete. by apply within_clean. }
  unfold recordFailure. assert (held now accountLimit (get (llAccounts l') account) = 0) as Hx0
    by (rewrite <-Hla; fold x; lia).
  assert (held now ipLimit (get (llIPs l') ip) = 0) as Hy0 by (rewrite <-Hli; fold y; lia).
  assert (cleanExpired now l' = l') as ->.
  { unfold l', cleanExpired. simpl. by rewrite !delete_if_idemp. }
  split_and!; try done; cbn [llAccounts llIPs]; apply within_record; try done; by apply within_clean.
Qed.

(** ** Properties *)

(** C16: The limiter implements the per-key windows: after any sequence of calls at
    non-decreasing instants, [allow] holds a caller back for the longer of the two
    times its account's window and its address's window ask for, each computed from
    that key's own failures alone; the other keys and the lazy deletion of finished
    windows have no influence. *)
Theorem limiter_refines_windows window accountLimit ipLimit trace now account ip :
  ordered 0 trace → last_time 0 trace ≤ now →
  fst (allow now account ip (run trace (newLoginLimiter window accountLimit ipLimit))) =
    (let wait := Z.max (held now accountLimit (account_window window account trace))
                       (held now ipLimit (ip_window window ip trace)) in
     (wait, 0 <? wait)).
Proof.
  intros Hord Hnow. set (l := newLoginLimiter window accountLimit ipLimit).
  destruct (run_tracks trace 0 l (λ _, loginAttempt_zero) (λ _, loginAttempt_zero)) as [Ha Hi];
    [done|done|by split; intros k; left|].
  pose proof (last_time_ordered trace 0 Hord).
  rewrite allow_held by lia. destruct (run_config trace l) as (_ & -> & ->).
  change (llAccountLimit l) with accountLimit. change (llIPLimit l) with ipLimit.
  rewrite (same_from_held _ now accountLimit _ _ (Ha account) Hnow).
  by rewrite (same_from_held _ now ipLimit _ _ (Hi ip) Hnow).
Qed.

(** [X-Forwarded-For] counts only behind a trusted proxy: for any other peer the
    address is the one of the connection, whatever the header says. *)
Theorem requestClientIP_untrusted {Addr Prefix} (parse : string → option Addr) (text : Addr → string)
    (contains : Prefix → Addr → bool) (split_host : string → option string) remote fwd fwd' trusted :
  (∀ a p, parse (default remote (split_host remote)) = Some a → p ∈ trusted → contains p a = false) →
  requestClientIP parse text contains split_host remote fwd trusted =
    requestClientIP parse text contains split_host remote fwd' trusted ∧
  requestClientIP parse text contains split_host remote fwd trusted =
    match parse (default remote (split_host remote)) with
    | Some a => text a | None => default remote (split_host remote) end.
Proof.
  intros Ht. unfold requestClientIP. destruct (parse _) as [a|]; [|done].
  assert (trustedProxy contains a trusted = false) as ->; [|done].
  unfold trustedProxy. apply not_true_iff_false. rewrite existsb_exists.
  intros (p & Hp%list_elem_of_In & Hc). specialize (Ht a p eq_refl Hp). congruence.
Qed.

(** ** Witnesses *)

Module LoginLimiterWitness.
Definition trace : list (Time * event) :=
  [(10, EvFail "ann" "1.1.1.1"); (20, EvFail "bob" "1.1.1.1"); (30, EvFail "ann" "2.2.2.2")].

Lemma limiter_refines_windows_witness :
  fst (allow 40 "ann" "3.3.3.3" (run trace (newLoginLimiter 100 2 60))) = (70, true).
Proof.
  rewrite (limiter_refines_windows 100 2 60 trace 40 "ann" "3.3.3.3");
    [by vm_compute|by vm_compute|by vm_compute].
Defined.


(** Addresses are their texts; the one trusted prefix holds the addresses of
    length nine. *)
Definition ip (remote fwd : string) : string :=
  requestClientIP (λ s, Some s) (λ s : string, s) (λ (_ : ()) a, String.length a =? 9)%nat
    (λ s, Some s) remote fwd [()].

Lemma requestClientIP_untrusted_witness :
  ip "127.0.0.1" "9.9.9.9" = "9.9.9.9" ∧ ip "8.8.8.8" "9.9.9.9" = "8.8.8.8".
Proof.
  split; [by vm_compute|].
  apply (requestClientIP_untrusted (λ s, Some s) (λ s : string, s)
    (λ (_ : ()) a, String.length a =? 9)%nat (λ s, Some s) "8.8.8.8" "9.9.9.9" "" [()]).
  intros a p [= <-] _. by vm_compute.
Defined.
End LoginLimiterWitness.
