(* ===== verification/Hub.v ===== *)
(** * The realtime hub (realtime.go, audio_stream.go, parts of server.go)

    The hub connects browser and agent WebSocket connections.  Connections and
    browser peers are pointers shared between several maps and goroutines, so they
    live in a heap: a connection is a number, a browser peer a number with its
    record in [hPeers].  What is written to a connection is appended to [hOut];
    a write to a connection in [hDown] (closed, or its peer gone) fails. *)

From S2P Require Import Prelude GoBase GoStrings GoFloat Model Store.

(** ** Messages

    A message is a JSON object, or one of the objects the server builds around its
    own records. *)
Inductive message :=
| MMsg (m : vmap)
| MDeviceList (devices : list Device)
| MTaskStatus (task : Task)
| MTags (tags : list Tag) (deviceTags : gmap string (list string))
| MConfig (ice_servers : list vmap) (device_info : option DeviceInfo).

Inductive frame :=
| FText (m : message)
| FBinary (b : bytes).

Abbreviation sock := nat (only parsing).
Abbreviation ptr := nat (only parsing).

(** A browser connection; [bpAudioFrames] is its channel of audio packets, if any. *)
Record browserPeer := MkPeer {
  bpID : string;
  bpUser : User;
  bpSocket : sock;
  bpDeviceID : string;
  bpViewOnly : bool;
  bpAccessToken : string;
  bpAudioFrames : option (list bytes)
}.
Definition set_bpID (g : string → string) (r : browserPeer) : browserPeer :=
    MkPeer (g (bpID r)) (bpUser r) (bpSocket r) (bpDeviceID r) (bpViewOnly r) (bpAccessToken r)
    (bpAudioFrames r).
Definition set_bpUser (g : User → User) (r : browserPeer) : browserPeer :=
    MkPeer (bpID r) (g (bpUser r)) (bpSocket r) (bpDeviceID r) (bpViewOnly r) (bpAccessToken r)
    (bpAudioFrames r).
Definition set_bpSocket (g : sock → sock) (r : browserPeer) : browserPeer :=
    MkPeer (bpID r) (bpUser r) (g (bpSocket r)) (bpDeviceID r) (bpViewOnly r) (bpAccessToken r)
    (bpAudioFrames r).
Definition set_bpDeviceID (g : string → string) (r : browserPeer) : browserPeer :=
    MkPeer (bpID r) (bpUser r) (bpSocket r) (g (bpDeviceID r)) (bpViewOnly r) (bpAccessToken r)
    (bpAudioFrames r).
Definition set_bpViewOnly (g : bool → bool) (r : browserPeer) : browserPeer :=
    MkPeer (bpID r) (bpUser r) (bpSocket r) (bpDeviceID r) (g (bpViewOnly r)) (bpAccessToken r)
    (bpAudioFrames r).
Definition set_bpAccessToken (g : string → string) (r : browserPeer) : browserPeer :=
    MkPeer (bpID r) (bpUser r) (bpSocket r) (bpDeviceID r) (bpViewOnly r) (g (bpAccessToken r))
    (bpAudioFrames r).
Definition set_bpAudioFrames (g : (option (list bytes)) → (option (list bytes))) (r : browserPeer) : browserPeer :=
    MkPeer (bpID r) (bpUser r) (bpSocket r) (bpDeviceID r) (bpViewOnly r) (bpAccessToken r) (g
    (bpAudioFrames r)).

Record previewRequest := MkPreviewRequest { prOrder : Z; prMessage : vmap }.

Record realtimeHub := MkHub {
  hAgents : gmap string sock;
  hBrowsers : gmap string ptr;
  hPeers : gmap ptr browserPeer;
  hPreviewSubscribers : gmap string (gmap string ptr);
  hPreviewRequests : gmap string (gmap string previewRequest);
  hPreviewOrder : Z;
  hAudioSubscribers : gmap string (gmap string ptr);
  hDown : gset sock;
  hOut : list (sock * frame)
}.
Definition set_hAgents (g : (gmap string sock) → (gmap string sock)) (r : realtimeHub) : realtimeHub :=
    MkHub (g (hAgents r)) (hBrowsers r) (hPeers r) (hPreviewSubscribers r) (hPreviewRequests r)
    (hPreviewOrder r) (hAudioSubscribers r) (hDown r) (hOut r).
Definition set_hBrowsers (g : (gmap string ptr) → (gmap string ptr)) (r : realtimeHub) : realtimeHub :=
    MkHub (hAgents r) (g (hBrowsers r)) (hPeers r) (hPreviewSubscribers r) (hPreviewRequests r)
    (hPreviewOrder r) (hAudioSubscribers r) (hDown r) (hOut r).
Definition set_hPeers (g : (gmap ptr browserPeer) → (gmap ptr browserPeer)) (r : realtimeHub) : realtimeHub :=
    MkHub (hAgents r) (hBrowsers r) (g (hPeers r)) (hPreviewSubscribers r) (hPreviewRequests r)
    (hPreviewOrder r) (hAudioSubscribers r) (hDown r) (hOut r).
Definition set_hPreviewSubscribers (g : (gmap string (gmap string ptr)) → (gmap string (gmap string ptr))) (r : realtimeHub) : realtimeHub :=
    MkHub (hAgents r) (hBrowsers r) (hPeers r) (g (hPreviewSubscribers r)) (hPreviewRequests r)
    (hPreviewOrder r) (hAudioSubscribers r) (hDown r) (hOut r).
Definition set_hPreviewRequests (g : (gmap string (gmap string previewRequest)) → (gmap string (gmap string previewRequest))) (r : realtimeHub) : realtimeHub :=
    MkHub (hAgents r) (hBrowsers r) (hPeers r) (hPreviewSubscribers r) (g (hPreviewRequests r))
    (hPreviewOrder r) (hAudioSubscribers r) (hDown r) (hOut r).
Definition set_hPreviewOrder (g : Z → Z) (r : realtimeHub) : realtimeHub :=
    MkHub (hAgents r) (hBrowsers r) (hPeers r) (hPreviewSubscribers r) (hPreviewRequests r) (g
    (hPreviewOrder r)) (hAudioSubscribers r) (hDown r) (hOut r).
Definition set_hAudioSubscribers (g : (gmap string (gmap string ptr)) → (gmap string (gmap string ptr))) (r : realtimeHub) : realtimeHub :=
    MkHub (hAgents r) (hBrowsers r) (hPeers r) (hPreviewSubscribers r) (hPreviewRequests r)
    (hPreviewOrder r) (g (hAudioSubscribers r)) (hDown r) (hOut r).
Definition set_hDown (g : (gset sock) → (gset sock)) (r : realtimeHub) : realtimeHub :=
    MkHub (hAgents r) (hBrowsers r) (hPeers r) (hPreviewSubscribers r) (hPreviewRequests r)
    (hPreviewOrder r) (hAudioSubscribers r) (g (hDown r)) (hOut r).
Definition set_hOut (g : (list (sock * frame)) → (list (sock * frame))) (r : realtimeHub) : realtimeHub :=
    MkHub (hAgents r) (hBrowsers r) (hPeers r) (hPreviewSubscribers r) (hPreviewRequests r)
    (hPreviewOrder r) (hAudioSubscribers r) (hDown r) (g (hOut r)).

Definition newRealtimeHub : realtimeHub := MkHub ∅ ∅ ∅ ∅ ∅ 0 ∅ ∅ [].

(** ** Connections *)

Definition write (c : sock) (f : frame) (h : realtimeHub) : bool * realtimeHub :=
  if decide (c ∈ hDown h) then (false, h) else (true, set_hOut (λ l, l ++ [(c, f)]) h).
Definition writeJSON (c : sock) (m : message) := write c (FText m).
Definition writeBinary (c : sock) (b : bytes) := write c (FBinary b).
Definition close (c : sock) (h : realtimeHub) : realtimeHub := set_hDown (λ d, {[ c ]} ∪ d) h.

(** [peer.socket] *)
Definition write_peer (p : ptr) (f : frame) (h : realtimeHub) : bool * realtimeHub :=
  match hPeers h !! p with
  | Some peer => write (bpSocket peer) f h
  | None => (false, h)
  end.

(** [for _, peer := range peers { _ = write }] *)
Definition write_all (f : browserPeer → option frame) (ps : list ptr) (h : realtimeHub)
    : realtimeHub :=
  foldl (λ h p, match hPeers h !! p ≫= f with
                | Some fr => snd (write_peer p fr h)
                | None => h end) h ps.

Definition peers_where (test : browserPeer → bool) (h : realtimeHub) : list ptr :=
  List.filter (λ p, match hPeers h !! p with Some peer => test peer | None => false end)
    (map_values (hBrowsers h)).

Definition close_peers (test : browserPeer → bool) (h : realtimeHub) : realtimeHub :=
  foldl (λ h p, match hPeers h !! p with Some peer => close (bpSocket peer) h | None => h end)
    h (peers_where test h).

(** ** Browsers and agents *)

Definition addBrowser (p : ptr) (peer : browserPeer) (h : realtimeHub) : realtimeHub :=
  set_hBrowsers (insert (bpID peer) p) (set_hPeers (insert p peer) h).

(** The entries of a nested map from which a browser's entry was removed, without
    the maps that became empty. *)
Definition drop_browser {V} (id : string) (m : gmap string (gmap string V)) : gmap string (gmap string V) :=
  omap (λ subs, let subs := delete id subs in if decide (subs = ∅) then None else Some subs) m.

Definition removeBrowser (id : string) (h : realtimeHub) : list string * realtimeHub :=
  let stopped := (filter (λ kv : string * gmap string ptr, is_Some (kv.2 !! id)) (map_to_list (hPreviewSubscribers h))).*1 in
  let leave (deviceID : string) (subs : gmap string ptr) :=
    match subs !! id with
    | None => Some subs
    | Some _ => let subs := delete id subs in if decide (subs = ∅) then None else Some subs
    end in
  let requests (deviceID : string) (reqs : gmap string previewRequest) :=
    match hPreviewSubscribers h !! deviceID with
    | Some subs =>
        match subs !! id with
        | None => Some reqs
        | Some _ => if decide (delete id subs = ∅) then None else Some (delete id reqs)
        end
    | None => Some reqs
    end in
  (stopped, set_hPreviewRequests (map_imap requests)
              (set_hPreviewSubscribers (map_imap leave)
                (set_hBrowsers (delete id) h))).

Definition bindBrowser (id deviceID : string) (h : realtimeHub) : realtimeHub :=
  match hBrowsers h !! id with
  | Some p => set_hPeers (alter (set_bpDeviceID (λ _, deviceID)) p) h
  | None => h
  end.

Definition setAgent (deviceID : string) (peer : sock) (h : realtimeHub) : option sock * realtimeHub :=
  (hAgents h !! deviceID, set_hAgents (insert deviceID peer) h).

Definition removeAgent (deviceID : string) (peer : sock) (h : realtimeHub) : bool * realtimeHub :=
  if decide (hAgents h !! deviceID = Some peer)
  then (true, set_hAgents (delete deviceID) h) else (false, h).

Definition sendAgent (deviceID : string) (m : message) (h : realtimeHub) : bool * realtimeHub :=
  match hAgents h !! deviceID with
  | Some peer => writeJSON peer m h
  | None => (false, h)
  end.

Definition sendBrowser (id : string) (m : message) (h : realtimeHub) : bool * realtimeHub :=
  match hBrowsers h !! id with
  | Some p => write_peer p (FText m) h
  | None => (false, h)
  end.

(** ** Previews *)

Definition subscribers_of {V} (m : gmap string (gmap string V)) (deviceID : string) : gmap string V :=
  default ∅ (m !! deviceID).

Definition subscribePreview (browserID deviceID : string) (h : realtimeHub) : realtimeHub :=
  match hBrowsers h !! browserID with
  | None => h
  | Some p =>
      set_hPreviewSubscribers
        (λ m, <[deviceID := <[browserID := p]> (subscribers_of m deviceID)]> m) h
  end.

Definition unsubscribePreview (browserID deviceID : string) (h : realtimeHub) : bool * realtimeHub :=
  match hPreviewSubscribers h !! deviceID with
  | None => (false, h)
  | Some subs =>
      let subs := delete browserID subs in
      if decide (subs = ∅)
      then (true, set_hPreviewRequests (delete deviceID) (set_hPreviewSubscribers (delete deviceID) h))
      else (false, set_hPreviewRequests (alter (delete browserID) deviceID)
                     (set_hPreviewSubscribers (insert deviceID subs) h))
  end.

(** [h.previewOrder++] is a [uint64]. *)
Definition setPreviewRequest (browserID deviceID : string) (m : vmap) (h : realtimeHub) : realtimeHub :=
  let order := uint64 (hPreviewOrder h + 1) in
  set_hPreviewRequests
    (λ reqs, <[deviceID := <[browserID := MkPreviewRequest order (withClient m browserID)]>
                             (subscribers_of reqs deviceID)]> reqs)
    (set_hPreviewOrder (λ _, order) h).

Definition foreground (r : previewRequest) : bool := eq_false (prMessage r !! "preview").

(** One turn of the selection loop; [None] is the zero value, whose message is nil. *)
Definition better (selected : option previewRequest) (request : previewRequest)
    : option previewRequest :=
  match selected with
  | None => Some request
  | Some s =>
      if (foreground request && negb (foreground s)) ||
         (bool_decide (foreground request = foreground s) && (prOrder s <? prOrder request))
      then Some request else selected
  end.

Definition select_requests (requests : list previewRequest) : option previewRequest * bool :=
  foldl (λ '(selected, awake) request,
    (better selected request, awake || eq_true (prMessage request !! "stay_awake")))
    (None, false) requests.

Definition selected_message (deviceID : string) (r : option previewRequest * bool) : option vmap :=
  match r with
  | (None, _) => None
  | (Some s, awake) =>
      Some (<["device_id" := VStr deviceID]> (<["stay_awake" := VBool awake]> (cloneMap (prMessage s))))
  end.

Definition selectedPreviewRequest (deviceID : string) (h : realtimeHub) : option vmap :=
  selected_message deviceID
    (select_requests (map_values (subscribers_of (hPreviewRequests h) deviceID))).

Definition publishPreview (deviceID : string) (fr : bytes) (h : realtimeHub) : realtimeHub :=
  write_all (λ _, Some (FBinary fr))
    (map_values (subscribers_of (hPreviewSubscribers h) deviceID)) h.

(** ** Broadcasts *)

Definition broadcast (filt : browserPeer → message → option message) (m : message) (h : realtimeHub)
    : realtimeHub :=
  write_all (λ peer, FText <$> filt peer m) (map_values (hBrowsers h)) h.

Definition disconnectBrowsers (username deviceID : string) : realtimeHub → realtimeHub :=
  close_peers (λ peer, bool_decide (uUsername (bpUser peer) = username) &&
    (bool_decide (deviceID = "") || bool_decide (bpDeviceID peer = deviceID))).

Definition disconnectToken (digest : string) : realtimeHub → realtimeHub :=
  close_peers (λ peer, bool_decide (bpAccessToken peer = digest)).

Definition publishClipboard (deviceID : string) (m : message) (h : realtimeHub) : realtimeHub :=
  write_all (λ _, Some (FText m))
    (peers_where (λ peer, bool_decide (bpDeviceID peer = deviceID) && negb (bpViewOnly peer)) h) h.

Record userPresence := MkPresence {
  upUser : User;
  upOnline : bool;
  upActiveDevices : list string
}.

Definition browser_peers (h : realtimeHub) : list browserPeer :=
  omap (λ p, hPeers h !! p) (map_values (hBrowsers h)).

Definition presence (h : realtimeHub) (user : User) : userPresence :=
  let mine := List.filter (λ peer, bool_decide (uID (bpUser peer) = uID user)) (browser_peers h) in
  let active := List.filter (λ peer, bool_decide (bpDeviceID peer ≠ "") && negb (bpViewOnly peer)) mine in
  MkPresence user (bool_decide (mine ≠ []))
    (sort_by String.ltb (elements (list_to_set (bpDeviceID <$> active) : gset string))).

Definition usersWithPresence (users : list User) (h : realtimeHub) : list userPresence :=
  presence h <$> users.

(** telemetry.go: [int64(time.Until(t).Seconds())] truncates towards zero. *)
Definition client_entry (now : Time) (peer : browserPeer) : vmap :=
  let remaining := match uExpiresAt (bpUser peer) with
                   | None => -1
                   | Some t => Z.max 0 (Z.quot (Sub t now) Second)
                   end in
  let name := uUsername (bpUser peer) in
  let name := if decide (name = "share") then "分享访客" else name in
  {[ "name" := VStr name; "remaining_seconds" := VInt remaining;
     "view_only" := VBool (bpViewOnly peer) ]}.

Definition deviceClients (now : Time) (deviceID : string) (h : realtimeHub) : list vmap :=
  client_entry now <$>
    List.filter (λ peer, bool_decide (bpDeviceID peer = deviceID)) (browser_peers h).

(** ** Audio *)

Definition audio_capacity : nat := 5.

Definition subscribeAudio (browserID deviceID : string) (h : realtimeHub) : realtimeHub :=
  match hBrowsers h !! browserID with
  | None => h
  | Some p =>
      set_hAudioSubscribers
        (λ m, <[deviceID := <[browserID := p]> (subscribers_of m deviceID)]> m) h
  end.

Definition unsubscribeAudio (browserID deviceID : string) (h : realtimeHub) : bool * realtimeHub :=
  let subs := subscribers_of (hAudioSubscribers h) deviceID in
  match subs !! browserID with
  | None => (false, h)
  | Some _ =>
      let subs := delete browserID subs in
      if decide (subs = ∅) then (true, set_hAudioSubscribers (delete deviceID) h)
      else (false, set_hAudioSubscribers (insert deviceID subs) h)
  end.

Definition removeAudioBrowser (browserID : string) (h : realtimeHub) : list string * realtimeHub :=
  ((filter (λ kv : string * gmap string ptr, delete browserID kv.2 = ∅) (map_to_list (hAudioSubscribers h))).*1,
   set_hAudioSubscribers (drop_browser browserID) h).

(** A non-blocking send to a channel of capacity five; when it is full the oldest
    packet is taken out first.  The hub is the only sender. *)
Definition enqueue (fr : bytes) (q : list bytes) : list bytes :=
  if (length q <? audio_capacity)%nat then q ++ [fr] else tail q ++ [fr].

Definition publishAudio (deviceID : string) (fr : bytes) (h : realtimeHub) : realtimeHub :=
  set_hPeers (λ peers,
    foldl (λ peers p, alter (set_bpAudioFrames (fmap (enqueue fr))) p peers) peers
      (map_values (subscribers_of (hAudioSubscribers h) deviceID))) h.

(** One turn of the peer's writer goroutine: take the oldest packet and write it;
    a failed write closes the connection. *)
Definition writeAudio (p : ptr) (h : realtimeHub) : realtimeHub :=
  match hPeers h !! p with
  | Some peer =>
      match bpAudioFrames peer with
      | Some (fr :: q) =>
          let h := set_hPeers (alter (set_bpAudioFrames (λ _, Some q)) p) h in
          let '(ok, h) := writeBinary (bpSocket peer) fr h in
          if ok then h else close (bpSocket peer) h
      | _ => h
      end
  | None => h
  end.

(** ** Binary frames from agents *)

Definition cut (a b : nat) (l : bytes) : bytes := take (b - a) (drop a l).
Definition frame_device (fr : bytes) : string := bytes_str (trim_right_bytes "000"%char (cut 4 36 fr)).
Definition byte_at (i : nat) (fr : bytes) : Z := byte_val (nth i fr "000"%char).

Definition validAudioFrame (deviceID : string) (fr : bytes) : bool :=
  (49 <? blen fr) && (blen fr <=? 49 + 65536) &&
  bool_decide (take 4 fr = str_bytes "OPUS") &&
  bool_decide (frame_device fr = deviceID) &&
  ((byte_at 36 fr =? 1) || (byte_at 36 fr =? 2)) &&
  (be_get (cut 45 49 fr) =? blen fr - 49).

Definition validPreviewFrame (deviceID : string) (fr : bytes) : bool :=
  if (blen fr <? 49) || negb (bool_decide (take 4 fr = str_bytes "PREV")) then false
  else bool_decide (frame_device fr = deviceID).

(** ** The hub invariant *)

(** Every entry of the nested map [m] satisfies [P], and no entry is empty. *)
Definition nested {V} (P : string → string → V → Prop) (m : gmap string (gmap string V)) : Prop :=
  map_Forall (λ d subs, subs ≠ ∅ ∧ map_Forall (P d) subs) m.

Definition connected (h : realtimeHub) (d b : string) (p : ptr) : Prop := hBrowsers h !! b = Some p.

(** Browsers are indexed by their own id, subscribers are connected browsers, and
    the preview requests of a device are those of its subscribers. *)
Record hub_wf (h : realtimeHub) : Prop := {
  hwf_browsers id p : hBrowsers h !! id = Some p →
    ∃ peer, hPeers h !! p = Some peer ∧ bpID peer = id;
  hwf_preview : nested (connected h) (hPreviewSubscribers h);
  hwf_audio : nested (connected h) (hAudioSubscribers h);
  hwf_requests : nested (λ _ _ _, True) (hPreviewRequests h);
  hwf_paired d b : is_Some (subscribers_of (hPreviewRequests h) d !! b) ↔
                   is_Some (subscribers_of (hPreviewSubscribers h) d !! b)
}.

(** start_preview (server.go: handleBrowserMessage), without the reply. *)
Definition startPreview (browserID deviceID : string) (m : vmap) (h : realtimeHub) : realtimeHub :=
  setPreviewRequest browserID deviceID m (subscribePreview browserID deviceID h).

(** A browser leaves (server.go: connectClient, deferred part). *)
Definition leave (id : string) (h : realtimeHub) : realtimeHub :=
  snd (removeBrowser id (snd (removeAudioBrowser id h))).

Inductive hub_step (h : realtimeHub) : realtimeHub → Prop :=
| step_add p peer : hPeers h !! p = None → hBrowsers h !! bpID peer = None →
    hub_step h (addBrowser p peer h)
| step_leave id : hub_step h (leave id h)
| step_bind id d : hub_step h (bindBrowser id d h)
| step_set_agent d c : hub_step h (snd (setAgent d c h))
| step_remove_agent d c : hub_step h (snd (removeAgent d c h))
| step_start_preview id d m : is_Some (hBrowsers h !! id) → hub_step h (startPreview id d m h)
| step_stop_preview id d : hub_step h (snd (unsubscribePreview id d h))
| step_start_audio id d : hub_step h (subscribeAudio id d h)
| step_stop_audio id d : hub_step h (snd (unsubscribeAudio id d h))
| step_audio d fr : hub_step h (publishAudio d fr h)
| step_write_audio p : hub_step h (writeAudio p h)
| step_write c f : hub_step h (snd (write c f h))
| step_close c : hub_step h (close c h).

(** ** Nested maps *)

Section nested.
Context {V : Type}.
Implicit Types (P Q : string → string → V → Prop) (m : gmap string (gmap string V)).

Lemma nested_empty P : nested P ∅.
Proof. apply map_Forall_empty. Qed.

Lemma nested_impl P Q m : nested P m → (∀ d b v, P d b v → Q d b v) → nested Q m.
Proof.
  intros Hm HPQ d subs Hd. destruct (Hm d subs Hd) as [Hne Hs]. split; [done|].
  intros b v Hb. by apply HPQ, Hs.
Qed.

Lemma nested_lookup P m d b v : nested P m → subscribers_of m d !! b = Some v → P d b v.
Proof.
  unfold subscribers_of. intros Hm. destruct (m !! d) as [subs|] eqn:E; simpl; [|done].
  by apply (Hm d subs E).
Qed.

Lemma subscribers_insert m d d' subs :
  subscribers_of (<[d := subs]> m) d' = if decide (d = d') then subs else subscribers_of m d'.
Proof.
  unfold subscribers_of. destruct (decide (d = d')) as [->|]; [by rewrite lookup_insert_eq|].
  by rewrite lookup_insert_ne.
Qed.

Lemma nested_insert P m d b v :
  nested P m → P d b v → nested P (<[d := <[b := v]> (subscribers_of m d)]> m).
Proof.
  intros Hm Hv. apply map_Forall_insert_2; [|done]. split; [apply insert_non_empty|].
  apply map_Forall_insert_2; [done|]. unfold subscribers_of.
  destruct (m !! d) as [subs|] eqn:E; [by apply (Hm d subs E)|apply map_Forall_empty].
Qed.

Lemma nested_delete P m d : nested P m → nested P (delete d m).
Proof. apply map_Forall_delete. Qed.

Lemma nested_remove P m d b subs :
  nested P m → m !! d = Some subs → delete b subs ≠ ∅ → nested P (<[d := delete b subs]> m).
Proof.
  intros Hm Hd Hne. apply map_Forall_insert_2; [|done]. split; [done|].
  apply map_Forall_delete, (Hm d subs Hd).
Qed.

Lemma lookup_drop_browser id m d :
  subscribers_of (drop_browser id m) d = delete id (subscribers_of m d).
Proof.
  unfold subscribers_of, drop_browser. rewrite lookup_omap.
  destruct (m !! d) as [subs|]; simpl; [|by rewrite delete_empty].
  by destruct (decide (delete id subs = ∅)) as [->|].
Qed.

Lemma nested_drop P Q id m :
  nested P m → (∀ d b v, b ≠ id → P d b v → Q d b v) → nested Q (drop_browser id m).
Proof.
  intros Hm HPQ d subs. unfold drop_browser. rewrite lookup_omap.
  destruct (m !! d) as [s|] eqn:E; simpl; [|done]. case_decide; [done|]. intros [= <-].
  split; [done|]. intros b v [Hne Hb]%lookup_delete_Some. apply HPQ; [done|].
  by apply (Hm d s E).
Qed.
End nested.

(** In a well-formed hub, leaving removes the browser from every map. *)
Lemma removeBrowser_maps id h :
  hub_wf h →
  let h' := snd (removeBrowser id h) in
  hPreviewSubscribers h' = drop_browser id (hPreviewSubscribers h) ∧
  hPreviewRequests h' = drop_browser id (hPreviewRequests h) ∧
  hBrowsers h' = delete id (hBrowsers h) ∧ hPeers h' = hPeers h ∧
  hAudioSubscribers h' = hAudioSubscribers h.
Proof.
  intros Hwf. split_and!; try done; apply map_eq; intros d; cbn; rewrite map_lookup_imap;
    unfold drop_browser; rewrite lookup_omap.
  - destruct (hPreviewSubscribers h !! d) as [subs|] eqn:E; simpl; [|done].
    destruct (hwf_preview h Hwf d subs E) as [Hne _].
    destruct (subs !! id) as [p|] eqn:Eb; [by repeat case_decide|].
    by rewrite delete_id, decide_False.
  - destruct (hPreviewRequests h !! d) as [reqs|] eqn:E; simpl; [|done].
    destruct (hwf_requests h Hwf d reqs E) as [Hne _].
    pose proof (hwf_paired h Hwf d) as Hp. unfold subscribers_of in Hp. rewrite E in Hp. simpl in Hp.
    destruct (hPreviewSubscribers h !! d) as [subs|] eqn:Es; simpl in Hp.
    + destruct (subs !! id) as [p|] eqn:Eb.
      * assert (delete id subs = ∅ ↔ delete id reqs = ∅) as Hiff.
        { rewrite !map_empty. split; intros Hz b; specialize (Hz b); specialize (Hp b);
            apply lookup_delete_None; apply lookup_delete_None in Hz as [?|Hn]; auto; right;
            apply eq_None_not_Some; apply eq_None_not_Some in Hn; tauto. }
        by repeat case_decide; tauto.
      * rewrite delete_id; [by rewrite decide_False|]. apply eq_None_not_Some. rewrite Hp, Eb.
        by intros [? ?].
    + rewrite delete_id; [by rewrite decide_False|]. apply eq_None_not_Some. rewrite Hp.
      by intros [? ?%lookup_empty_Some].
Qed.

Lemma hub_wf_leave id h :
  hub_wf h → hub_wf (leave id h) ∧
  hBrowsers (leave id h) = delete id (hBrowsers h) ∧ hPeers (leave id h) = hPeers h ∧
  hPreviewSubscribers (leave id h) = drop_browser id (hPreviewSubscribers h) ∧
  hPreviewRequests (leave id h) = drop_browser id (hPreviewRequests h) ∧
  hAudioSubscribers (leave id h) = drop_browser id (hAudioSubscribers h).
Proof.
  intros Hwf. unfold leave. set (h1 := snd (removeAudioBrowser id h)).
  assert (hBrowsers h1 = hBrowsers h ∧ hPeers h1 = hPeers h ∧
    hPreviewSubscribers h1 = hPreviewSubscribers h ∧ hPreviewRequests h1 = hPreviewRequests h ∧
    hAudioSubscribers h1 = drop_browser id (hAudioSubscribers h)) as (Hb & Hp & Hs & Hr & Ha) by done.
  assert (hub_wf h1) as Hwf1.
  { destruct Hwf as [H1 H2 H3 H4 H5]. split; rewrite ?Hb, ?Hp, ?Hs, ?Hr, ?Ha; try done.
    eapply nested_drop; [exact H3|]. intros d b p _. unfold connected. by rewrite Hb. }
  destruct (removeBrowser_maps id h1 Hwf1) as (Es & Er & Eb & Ep & Ea).
  rewrite Es, Er, Eb, Ep, Ea, Hs, Hr, Hb, Hp, Ha. split; [|done].
  destruct Hwf as [H1 H2 H3 H4 H5]. split; rewrite ?Es, ?Er, ?Eb, ?Ep, ?Ea, ?Hs, ?Hr, ?Hb, ?Hp, ?Ha.
  - intros id' p [_ Hid]%lookup_delete_Some. by apply H1.
  - eapply nested_drop; [exact H2|]. intros d b p Hne. unfold connected. rewrite Eb, Hb.
    by rewrite lookup_delete_ne.
  - eapply nested_drop; [exact H3|]. intros d b p Hne. unfold connected. rewrite Eb, Hb.
    by rewrite lookup_delete_ne.
  - by eapply nested_drop.
  - intros d b. rewrite !lookup_drop_browser. destruct (decide (id = b)) as [->|].
    + rewrite !lookup_delete_eq. split; by intros [? ?].
    + rewrite !lookup_delete_ne by done. apply H5.
Qed.

(** Operations that change no map of the hub but the peers' contents. *)
Lemma hub_wf_frame h h' :
  hBrowsers h' = hBrowsers h → hPreviewSubscribers h' = hPreviewSubscribers h →
  hPreviewRequests h' = hPreviewRequests h → hAudioSubscribers h' = hAudioSubscribers h →
  (∀ p peer, hPeers h !! p = Some peer → ∃ peer', hPeers h' !! p = Some peer' ∧ bpID peer' = bpID peer) →
  hub_wf h → hub_wf h'.
Proof.
  intros Hb Hs Hr Ha Hp [H1 H2 H3 H4 H5]. split; unfold connected; rewrite ?Hb, ?Hs, ?Hr, ?Ha; try done.
  intros id p Hid. destruct (H1 id p Hid) as (peer & Hpe & <-). destruct (Hp p peer Hpe) as (peer' & ? & ?).
  eauto.
Qed.

Lemma alter_id (f : browserPeer → browserPeer) q (m : gmap ptr browserPeer) p peer :
  (∀ x, bpID (f x) = bpID x) → m !! p = Some peer →
  ∃ peer', alter f q m !! p = Some peer' ∧ bpID peer' = bpID peer.
Proof.
  intros Hf Hm. destruct (decide (q = p)) as [->|].
  - rewrite lookup_alter_eq, Hm. eexists. split; [done|apply Hf].
  - rewrite lookup_alter_ne by done. eauto.
Qed.

Lemma foldl_alter_id (f : browserPeer → browserPeer) qs : ∀ (m : gmap ptr browserPeer) p peer,
  (∀ x, bpID (f x) = bpID x) → m !! p = Some peer →
  ∃ peer', foldl (λ m q, alter f q m) m qs !! p = Some peer' ∧ bpID peer' = bpID peer.
Proof.
  induction qs as [|q qs IH]; intros m p peer Hf Hm; [by eexists|]. simpl.
  destruct (alter_id f q m p peer Hf Hm) as (x & Hx & <-). by apply IH.
Qed.

Lemma write_frame c f h :
  hBrowsers (snd (write c f h)) = hBrowsers h ∧ hPeers (snd (write c f h)) = hPeers h ∧
  hPreviewSubscribers (snd (write c f h)) = hPreviewSubscribers h ∧
  hPreviewRequests (snd (write c f h)) = hPreviewRequests h ∧
  hAudioSubscribers (snd (write c f h)) = hAudioSubscribers h ∧
  hAgents (snd (write c f h)) = hAgents h ∧ hDown (snd (write c f h)) = hDown h.
Proof. unfold write. by case_decide. Qed.

Lemma hub_wf_start_preview id d m h :
  is_Some (hBrowsers h !! id) → hub_wf h → hub_wf (startPreview id d m h).
Proof.
  intros [p Hp] Hwf. unfold startPreview, subscribePreview. rewrite Hp.
  destruct Hwf as [H1 H2 H3 H4 H5]. split; try done.
  - cbn. by apply nested_insert.
  - cbn. by apply nested_insert.
  - intros d' b. cbn. rewrite !subscribers_insert. case_decide as Hd; [subst d'|apply H5].
    rewrite !lookup_insert_is_Some'. rewrite (H5 d b). tauto.
Qed.

Lemma hub_wf_stop_preview id d h : hub_wf h → hub_wf (snd (unsubscribePreview id d h)).
Proof.
  intros Hwf. unfold unsubscribePreview.
  destruct (hPreviewSubscribers h !! d) as [subs|] eqn:E; [|done]. case_decide as He; cbn [snd].
  - destruct Hwf as [H1 H2 H3 H4 H5]. split; cbn; try done; [by apply nested_delete..|].
    intros d' b. unfold subscribers_of. destruct (decide (d = d')) as [->|].
    + rewrite !lookup_delete_eq. cbn. rewrite !lookup_empty. split; by intros [? ?].
    + rewrite !lookup_delete_ne by done. apply H5.
  - destruct Hwf as [H1 H2 H3 H4 H5]. pose proof (H5 d) as Hd. unfold subscribers_of in Hd.
    rewrite E in Hd. simpl in Hd.
    assert (∃ reqs, hPreviewRequests h !! d = Some reqs ∧ delete id reqs ≠ ∅) as (reqs & Er & Hne).
    { apply map_choose in He as (b & p & Hb). apply lookup_delete_Some in Hb as [Hnb Hb].
      specialize (Hd b). destruct (hPreviewRequests h !! d) as [reqs|]; simpl in Hd.
      - exists reqs. split; [done|]. intros Hz.
        destruct (proj2 Hd ltac:(eauto)) as [r Hr].
        by rewrite <-(lookup_delete_ne reqs id b), Hz in Hr.
      - destruct (proj2 Hd ltac:(eauto)) as [r Hr]. done. }
    split; cbn; try done.
    + by apply nested_remove.
    + assert (alter (delete id) d (hPreviewRequests h) = <[d := delete id reqs]> (hPreviewRequests h)) as ->.
      { apply map_eq. intros d'. destruct (decide (d = d')) as [->|].
        - by rewrite lookup_alter_eq, lookup_insert_eq, Er.
        - by rewrite lookup_alter_ne, lookup_insert_ne. }
      by apply nested_remove.
    + intros d' b. rewrite subscribers_insert. unfold subscribers_of at 1.
      destruct (decide (d = d')) as [->|].
      * rewrite lookup_alter_eq, Er. cbn. rewrite Er in Hd. simpl in Hd. destruct (decide (id = b)) as [->|].
        -- rewrite !lookup_delete_eq. split; by intros [? ?].
        -- rewrite !lookup_delete_ne by done. apply Hd.
      * rewrite lookup_alter_ne by done. apply H5.
Qed.

Lemma hub_wf_stop_audio id d h : hub_wf h → hub_wf (snd (unsubscribeAudio id d h)).
Proof.
  intros Hwf. unfold unsubscribeAudio, subscribers_of.
  destruct (hAudioSubscribers h !! d) as [subs|] eqn:E; simpl; [|by rewrite lookup_empty].
  destruct (subs !! id); [|done]. destruct Hwf as [H1 H2 H3 H4 H5].
  case_decide; cbn [snd]; split; cbn; try done; [by apply nested_delete|by apply nested_remove].
Qed.

Lemma hub_step_wf h h' : hub_step h h' → hub_wf h → hub_wf h'.
Proof.
  intros Hstep Hwf. destruct Hstep as [p peer Hp Hb|id|id d|d c|d c|id d m|id d|id d|id d|d fr|p|c f|c].
  - destruct Hwf as [H1 H2 H3 H4 H5].
    assert (∀ b q, hBrowsers h !! b = Some q → <[bpID peer := p]> (hBrowsers h) !! b = Some q) as Hmono.
    { intros b q Hq. rewrite lookup_insert_ne; [done|]. intros <-. congruence. }
    split; cbn; try done; [|eapply nested_impl; [done|]; intros; by apply Hmono..].
    intros id q. destruct (decide (bpID peer = id)) as [<-|].
    + rewrite lookup_insert_eq. intros [= <-]. exists peer. by rewrite lookup_insert_eq.
    + rewrite lookup_insert_ne by done. intros Hid. destruct (H1 id q Hid) as (x & Hx & <-).
      exists x. rewrite lookup_insert_ne; [done|]. congruence.
  - by apply hub_wf_leave.
  - unfold bindBrowser. destruct (hBrowsers h !! id); [|done]. eapply (hub_wf_frame h); try done.
    intros q peer Hq. by apply alter_id.
  - eapply (hub_wf_frame h); try done. eauto.
  - unfold removeAgent. case_decide; [|done]. eapply (hub_wf_frame h); try done. eauto.
  - by apply hub_wf_start_preview.
  - by apply hub_wf_stop_preview.
  - unfold subscribeAudio. destruct (hBrowsers h !! id) eqn:E; [|done].
    destruct Hwf as [H1 H2 H3 H4 H5]. split; try done. cbn. by apply nested_insert.
  - by apply hub_wf_stop_audio.
  - eapply (hub_wf_frame h); try done. intros q peer Hq. by apply foldl_alter_id.
  - unfold writeAudio. destruct (hPeers h !! p) as [peer|]; [|done].
    destruct (bpAudioFrames peer) as [[|fr q]|]; [done| |done].
    set (h1 := set_hPeers _ h). unfold writeBinary, write.
    case_decide; cbn; (eapply (hub_wf_frame h); try done); intros q' x Hx; by apply alter_id.
  - destruct (write_frame c f h) as (? & Hp & ? & ? & ? & _). eapply (hub_wf_frame h); try done.
    intros q x. rewrite Hp. eauto.
  - eapply (hub_wf_frame h); try done. eauto.
Qed.

Lemma newRealtimeHub_wf : hub_wf newRealtimeHub.
Proof.
  split; [intros id p; cbn; by rewrite lookup_empty|apply nested_empty..|].
  intros d b. cbn. unfold subscribers_of. rewrite !lookup_empty. cbn. rewrite !lookup_empty.
  split; by intros [? ?].
Qed.

Lemma hub_reachable_wf h : rtc hub_step newRealtimeHub h → hub_wf h.
Proof.
  intros Hr. remember newRealtimeHub as h0 eqn:E. assert (hub_wf h0) as Hwf by (subst; apply newRealtimeHub_wf).
  clear E. induction Hr as [|? ? ? Hstep _ IH]; [done|]. by apply IH, (hub_step_wf _ _ Hstep).
Qed.

(** ** Selecting a preview request *)

(** The order in which requests are preferred: foreground first, then the latest. *)
Definition outranks (a b : previewRequest) : Prop :=
  (foreground a = true ∧ foreground b = false) ∨
  (foreground a = foreground b ∧ prOrder b < prOrder a).

Lemma better_spec s r : better (Some s) r = Some r ∧ outranks r s ∨
  better (Some s) r = Some s ∧ ¬ outranks r s.
Proof.
  unfold better, outranks. destruct (foreground r), (foreground s); cbn [negb andb orb];
    rewrite ?bool_decide_eq_true_2, ?bool_decide_eq_false_2 by done; cbn [andb orb];
    try (destruct (Z.ltb_spec (prOrder s) (prOrder r))); naive_solver lia.
Qed.

Lemma outranks_trans a b c : outranks a b → outranks b c → outranks a c.
Proof. unfold outranks. intros [[Ha Hb]|[Ha Hb]] [[Hc Hd]|[Hc Hd]]; rewrite ?Ha, ?Hc, ?Hd in *; naive_solver lia. Qed.

Lemma outranks_total a b : prOrder a ≠ prOrder b → ¬ outranks a b → outranks b a.
Proof.
  unfold outranks. intros Hne Hn. destruct (foreground a), (foreground b); try tauto;
    right; (split; [done|]); destruct (decide (prOrder b < prOrder a)); [tauto|lia|tauto|lia].
Qed.

Lemma select_requests_fold l : ∀ sel awake,
  foldl (λ '(selected, awake) request,
    (better selected request, awake || eq_true (prMessage request !! "stay_awake")))
    (sel, awake) l =
  (foldl better sel l, awake || existsb (λ r, eq_true (prMessage r !! "stay_awake")) l).
Proof.
  induction l as [|r l IH]; intros sel awake; simpl; [by rewrite orb_false_r|].
  by rewrite IH, orb_assoc.
Qed.

(** The selection from a list is one of its best elements. *)
Lemma foldl_better l : ∀ s, NoDup (prOrder <$> s :: l) →
  ∃ r, foldl better (Some s) l = Some r ∧ r ∈ s :: l ∧
    ∀ x, x ∈ s :: l → x = r ∨ outranks r x.
Proof.
  induction l as [|y l IH]; intros s Hnd; cbn [foldl].
  { exists s. split_and!; [done|by left|]. intros x Hx%list_elem_of_singleton. by left. }
  assert (prOrder s ≠ prOrder y) as Hsy.
  { cbn in Hnd. apply NoDup_cons in Hnd as [Hs _]. intros E. apply Hs. rewrite E. by left. }
  assert (NoDup (prOrder <$> s :: l) ∧ NoDup (prOrder <$> y :: l)) as [Hs Hy].
  { cbn in *. rewrite !NoDup_cons in *. set_solver. }
  destruct (better_spec s y) as [[-> Ho]|[-> Ho]].
  - destruct (IH y Hy) as (r & Hr & Hin & Hmax). exists r. split_and!; [done|set_solver|].
    intros x Hx. apply elem_of_cons in Hx as [->|Hx]; [|by apply Hmax].
    right. destruct (Hmax y) as [<-|Hry]; [by left|done|by eapply outranks_trans].
  - destruct (IH s Hs) as (r & Hr & Hin & Hmax). exists r. split_and!; [done|set_solver|].
    intros x Hx. apply elem_of_cons in Hx as [->|Hx]; [apply Hmax; by left|].
    apply elem_of_cons in Hx as [->|Hx]; [|apply Hmax; by right].
    apply outranks_total in Ho; [|done].
    right. destruct (Hmax s) as [<-|Hrs]; [by left|done|by eapply outranks_trans].
Qed.

Lemma outranks_irrefl a b : outranks a b → outranks b a → False.
Proof. unfold outranks. intros [[??]|[??]] [[??]|[??]]; try congruence; lia. Qed.

Lemma select_best l : NoDup (prOrder <$> l) →
  (l = [] ∧ foldl better None l = None) ∨
  ∃ r, foldl better None l = Some r ∧ r ∈ l ∧ ∀ x, x ∈ l → x = r ∨ outranks r x.
Proof. destruct l as [|s l]; [by left|]. right. by apply foldl_better. Qed.

(** ** The audio queue *)

Definition last_n {A} (n : nat) (l : list A) : list A := drop (length l - n) l.

Lemma enqueue_last q fr : (length q ≤ audio_capacity)%nat →
  enqueue fr q = last_n audio_capacity (q ++ [fr]).
Proof.
  unfold enqueue, last_n, audio_capacity. intros Hq. rewrite length_app. cbn [length].
  destruct (Nat.ltb_spec (length q) 5).
  - by replace (length q + 1 - 5)%nat with 0%nat by lia.
  - replace (length q + 1 - 5)%nat with 1%nat by lia. destruct q; [simpl in *; lia|done].
Qed.

Lemma last_n_app {A} n (l k : list A) : last_n n (last_n n l ++ k) = last_n n (l ++ k).
Proof.
  unfold last_n. rewrite !length_app, length_drop.
  destruct (decide (length l ≤ n)%nat).
  - by replace (length l - n)%nat with 0%nat by lia; rewrite Nat.sub_0_r.
  - rewrite <-(drop_app_le l k (length l - n)) by lia. rewrite drop_drop. f_equal. lia.
Qed.

Lemma length_last_n {A} n (l : list A) : (length (last_n n l) ≤ n)%nat.
Proof. unfold last_n. rewrite length_drop. lia. Qed.

Lemma foldl_alter (f : browserPeer → browserPeer) ps : ∀ (m : gmap ptr browserPeer) p,
  NoDup ps →
  foldl (λ m q, alter f q m) m ps !! p = if decide (p ∈ ps) then f <$> m !! p else m !! p.
Proof.
  induction ps as [|q ps IH]; intros m p Hnd; [done|]. apply NoDup_cons in Hnd as [Hq Hnd].
  simpl. rewrite IH by done. destruct (decide (p = q)) as [->|Hne].
  - rewrite (decide_False (P := q ∈ ps)) by done. rewrite lookup_alter_eq.
    by rewrite decide_True by (by left).
  - rewrite lookup_alter_ne by done.
    destruct (decide (p ∈ ps)); destruct (decide (p ∈ q :: ps)); set_solver.
Qed.

(** Distinct subscribers are distinct peers. *)
Lemma subscribers_nodup h d :
  hub_wf h → NoDup (map_values (subscribers_of (hAudioSubscribers h) d)).
Proof.
  intros Hwf. unfold map_values. apply NoDup_fmap_2_strong; [|apply NoDup_map_to_list].
  intros [b1 p1] [b2 p2] H1%elem_of_map_to_list H2%elem_of_map_to_list. simpl. intros ->.
  apply (nested_lookup _ _ _ _ _ (hwf_audio h Hwf)), (hwf_browsers h Hwf) in H1 as (x1 & ? & ?).
  apply (nested_lookup _ _ _ _ _ (hwf_audio h Hwf)), (hwf_browsers h Hwf) in H2 as (x2 & ? & ?).
  by simplify_eq.
Qed.

(** ** What is closed *)

Lemma foldl_close ps : ∀ h c, c ∈ hDown (foldl (λ h p,
    match hPeers h !! p with Some peer => close (bpSocket peer) h | None => h end) h ps) ↔
  c ∈ hDown h ∨ ∃ p peer, p ∈ ps ∧ hPeers h !! p = Some peer ∧ bpSocket peer = c.
Proof.
  induction ps as [|q ps IH]; intros h c; cbn [foldl]; [set_solver|]. rewrite IH.
  destruct (hPeers h !! q) as [peer|] eqn:E; cbn; set_solver.
Qed.

Lemma elem_of_close_peers test h c :
  c ∈ hDown (close_peers test h) ↔
  c ∈ hDown h ∨ ∃ b p peer, hBrowsers h !! b = Some p ∧ hPeers h !! p = Some peer ∧
    bpSocket peer = c ∧ test peer = true.
Proof.
  unfold close_peers. rewrite foldl_close. apply or_iff_compat_l. unfold peers_where. split.
  - intros (p & peer & Hin & Hp & Hc). apply list_elem_of_In, filter_In in Hin as [Hin Ht].
    apply list_elem_of_In, elem_of_map_values in Hin as (b & Hb). rewrite Hp in Ht. eauto 10.
  - intros (b & p & peer & Hb & Hp & Hc & Ht). exists p, peer. split_and!; [|done|done].
    apply list_elem_of_In, filter_In. rewrite Hp, <-list_elem_of_In, elem_of_map_values. eauto.
Qed.

(** ** What is written *)

(** The connection a write to a peer reaches. *)
Definition delivery (f : browserPeer → option frame) (h : realtimeHub) (p : ptr) : option (sock * frame) :=
  peer ← hPeers h !! p; fr ← f peer;
  if decide (bpSocket peer ∈ hDown h) then None else Some (bpSocket peer, fr).

Lemma write_all_out f ps : ∀ h,
  write_all f ps h = set_hOut (λ l, l ++ omap (delivery f h) ps) h.
Proof.
  induction ps as [|p ps IH]; intros h;
    [change (omap (delivery f h) []) with (@nil (sock * frame)); unfold set_hOut; rewrite app_nil_r; by destruct h|].
  unfold write_all in *. cbn [foldl]. rewrite IH. clear IH. cbn [omap list_omap].
  unfold delivery at 2. destruct (hPeers h !! p) as [peer|] eqn:Ep; cbn [mbind option_bind]; [|done].
  destruct (f peer) as [fr|]; cbn [mbind option_bind]; [|done].
  unfold write_peer. rewrite Ep. unfold write. case_decide; cbn [snd]; [done|].
  set (h1 := set_hOut (λ l, l ++ [(bpSocket peer, fr)]) h).
  change (delivery f h1) with (delivery f h). unfold h1, set_hOut. destruct h.
  cbn [hOut hAgents hBrowsers hPeers hPreviewSubscribers hPreviewRequests hPreviewOrder
    hAudioSubscribers hDown]. by rewrite <-app_assoc.
Qed.

(** ** Properties *)


(** The preview an agent is asked for does not depend on the order in which the
    map of requests is visited: it is the one that outranks all others (a request
    with preview off before the rest, then the latest), it stays awake when any of
    the viewers asked for that, and there is one whenever there is a request. *)
Theorem preview_selection_correct deviceID requests requests' :
  NoDup (prOrder <$> requests) → requests ≡ₚ requests' →
  selected_message deviceID (select_requests requests) =
    selected_message deviceID (select_requests requests') ∧
  (requests = [] ∧ selected_message deviceID (select_requests requests) = None ∨
   ∃ r awake, r ∈ requests ∧ (∀ x, x ∈ requests → x = r ∨ outranks r x) ∧
     (awake = true ↔ ∃ x, x ∈ requests ∧ prMessage x !! "stay_awake" = Some (VBool true)) ∧
     selected_message deviceID (select_requests requests) =
       Some (<["device_id" := VStr deviceID]> (<["stay_awake" := VBool awake]> (prMessage r)))).
Proof.
  intros Hnd Hp. assert (NoDup (prOrder <$> requests')) as Hnd' by (by rewrite <-Hp).
  unfold select_requests. rewrite !select_requests_fold. cbn [orb].
  rewrite (existsb_perm _ _ _ Hp).
  destruct (select_best requests Hnd) as [[-> ->]|(r & -> & Hin & Hmax)];
    destruct (select_best requests' Hnd') as [[-> ->]|(r' & -> & Hin' & Hmax')].
  - split; [done|]. by left.
  - rewrite <-Hp in Hin'. by apply not_elem_of_nil in Hin'.
  - rewrite Hp in Hin. by apply not_elem_of_nil in Hin.
  - assert (r = r') as <-.
    { rewrite Hp in Hin. destruct (Hmax' r Hin) as [|Ho]; [done|]. rewrite <-Hp in Hin'.
      destruct (Hmax r' Hin') as [|Ho']; [done|]. by destruct (outranks_irrefl _ _ Ho Ho'). }
    split; [done|]. right. exists r, (existsb (λ r, eq_true (prMessage r !! "stay_awake")) requests').
    split_and!; [done|done| |done].
    rewrite existsb_exists. setoid_rewrite <-list_elem_of_In. setoid_rewrite Hp.
    apply exist_proper. intros x. unfold eq_true.
    destruct (prMessage x !! "stay_awake") as [[|[]| | | | |]|]; split; intros [? ?]; split; congruence.
Qed.

(** Audio never blocks and never grows: whatever the queues held, after a packet
    is published the queue of each subscriber is the last five packets of its queue
    with the new one at the end; the oldest is dropped, the newest never, and other
    browsers and the rest of the hub are untouched. *)
Theorem publishAudio_correct h deviceID fr p peer q :
  hub_wf h → hPeers h !! p = Some peer → bpAudioFrames peer = Some q → (length q ≤ 5)%nat →
  hPeers (publishAudio deviceID fr h) !! p =
    Some (if decide (p ∈ map_values (subscribers_of (hAudioSubscribers h) deviceID))
          then set_bpAudioFrames (λ _, Some (last_n 5 (q ++ [fr]))) peer else peer) ∧
  hOut (publishAudio deviceID fr h) = hOut h ∧
  (length (last_n 5 (q ++ [fr])) ≤ 5)%nat ∧ last (last_n 5 (q ++ [fr])) = Some fr.
Proof.
  intros Hwf Hp Hq Hlen. split_and!; [|done|apply length_last_n|].
  - cbn. rewrite foldl_alter by (by apply subscribers_nodup). rewrite Hp.
    case_decide; [|done]. cbn. f_equal. unfold set_bpAudioFrames. rewrite Hq. cbn.
    by rewrite enqueue_last.
  - unfold last_n. rewrite length_app. cbn [length]. rewrite drop_app_le by lia. by rewrite last_snoc.
Qed.

(** Reconnecting agents: the connection that registered last is the one messages
    go to, and when an older connection of the same device ends afterwards it does
    not unregister it; whatever else happened in between, only the end of the
    current connection takes the device off the hub. *)
Lemma agent_takeover h deviceID old new_ m :
  old ≠ new_ →
  let '(previous, h1) := setAgent deviceID new_ (snd (setAgent deviceID old h)) in
  previous = Some old ∧ removeAgent deviceID old h1 = (false, h1) ∧
  fst (removeAgent deviceID new_ h1) = true ∧
  hAgents (snd (removeAgent deviceID new_ h1)) !! deviceID = None ∧
  (new_ ∉ hDown h → hOut (snd (sendAgent deviceID m h1)) = hOut h ++ [(new_, FText m)]).
Proof.
  intros Hne. cbn. rewrite lookup_insert_eq. unfold removeAgent. cbn. rewrite !lookup_insert_eq.
  split_and!; try done.
  - by rewrite decide_False by congruence.
  - by rewrite decide_True.
  - rewrite decide_True by done. cbn. by rewrite lookup_delete_eq.
  - intros Hd. unfold sendAgent, writeJSON, write. cbn. rewrite lookup_insert_eq. cbn.
    by rewrite decide_False.
Qed.

(** Cutting off a user or a token closes the connections of exactly the matching
    browsers and of nobody else. *)
Theorem disconnect_correct h username deviceID digest c :
  (c ∈ hDown (disconnectBrowsers username deviceID h) ↔
   c ∈ hDown h ∨ ∃ b p peer, hBrowsers h !! b = Some p ∧ hPeers h !! p = Some peer ∧
     bpSocket peer = c ∧ uUsername (bpUser peer) = username ∧
     (deviceID = "" ∨ bpDeviceID peer = deviceID)) ∧
  (c ∈ hDown (disconnectToken digest h) ↔
   c ∈ hDown h ∨ ∃ b p peer, hBrowsers h !! b = Some p ∧ hPeers h !! p = Some peer ∧
     bpSocket peer = c ∧ bpAccessToken peer = digest).
Proof.
  split; unfold disconnectBrowsers, disconnectToken; rewrite elem_of_close_peers;
    apply or_iff_compat_l; do 3 (apply exist_proper; intros ?);
    rewrite ?andb_true_iff, ?orb_true_iff, !bool_decide_eq_true; tauto.
Qed.

(** ** Witnesses *)

Module HubWitness.
Definition guest (id : string) (c : sock) : browserPeer :=
  MkPeer id User_zero c "" false "" (Some []).
Definition h1 : realtimeHub := addBrowser 1%nat (guest "b1" 11%nat) newRealtimeHub.
Definition h2 : realtimeHub := startPreview "b1" "phone" {["stay_awake" := VBool true]} h1.
Definition h3 : realtimeHub := subscribeAudio "b1" "phone" h2.

Lemma h3_reachable : rtc hub_step newRealtimeHub h3.
Proof.
  eapply rtc_l; [apply (step_add newRealtimeHub 1%nat (guest "b1" 11%nat)); by vm_compute|].
  eapply rtc_l; [apply (step_start_preview h1 "b1" "phone" {["stay_awake" := VBool true]}); by eexists|].
  apply rtc_once, (step_start_audio h2 "b1" "phone").
Defined.


Definition r1 : previewRequest := MkPreviewRequest 1 {["client_id" := VStr "b1"]}.
Definition r2 : previewRequest := MkPreviewRequest 2 {["stay_awake" := VBool true]}.

Lemma preview_selection_correct_witness :
  selected_message "phone" (select_requests [r1; r2]) =
  selected_message "phone" (select_requests [r2; r1]).
Proof.
  apply (preview_selection_correct "phone" [r1; r2] [r2; r1]); [|apply perm_swap].
  apply (bool_decide_eq_true_1 (NoDup [1; 2])). by vm_compute.
Defined.

Lemma publishAudio_correct_witness :
  hPeers (publishAudio "phone" ["x"%char] h3) !! 1%nat =
    Some (MkPeer "b1" User_zero 11%nat "" false "" (Some [["x"%char]])).
Proof.
  destruct (publishAudio_correct h3 "phone" ["x"%char] 1%nat (guest "b1" 11%nat) [])
    as [Hx _]; [apply hub_reachable_wf, h3_reachable|done|done|simpl; lia|].
  rewrite Hx. by vm_compute.
Defined.
End HubWitness.
