(* ===== verification/Auth.v ===== *)
(** * Sessions (auth.go, browser_ticket.go, browser_access.go)

    Access tokens, browser tickets, the access a browser connection is given and
    its revalidation, and the stream options an administrator has locked.  The JWT
    library is a parameter. *)

From S2P Require Import Prelude GoBase GoStrings GoFloat Model Store Hub.
From S2P Require Users Devices Shares.

(** ** JSON web tokens

    The payload with the fields of both kinds of tokens; a field a token does not
    carry decodes to its zero value. *)
Record payload := MkPayload {
  plRole : Role;
  plTokenVersion : Z;
  plTokenUse : string;
  plKind : string;
  plAccessToken : string;
  plID : string;
  plSubject : string;
  plAudience : list string;
  plIssuedAt : Time;
  plExpiresAt : Time
}.

(** [jwt_sign secret payload] and [jwt_parse secret now raw] of an HMAC token;
    [NewNumericDate] is the precision at which the library keeps instants. *)
Class JWT := {
  NewNumericDate : Time → Time;
  jwt_sign : bytes → payload → option string;
  jwt_parse : bytes → Time → string → option payload
}.

(** What the library promises: parsing with the key a token was signed with gives
    the signed payload before its expiry and fails from then on; keys matter. *)
Class JWTLaws (J : JWT) := {
  jwt_roundtrip secret p raw now : jwt_sign secret p = Some raw →
    jwt_parse secret now raw = if now <? plExpiresAt p then Some p else None;
  jwt_token_text secret p raw : jwt_sign secret p = Some raw → raw ≠ "" ∧ Fields raw = [raw];
  NewNumericDate_le t : NewNumericDate t ≤ t
}.

Section auth.
Context `{Crypto} {J : JWT}.

(** ** auth.go *)

Definition userTokenTTL : Duration := 7 * 24 * Hour.
Definition userTokenUse : string := "user_access".

Definition issueUserToken (buf : bytes) (now : Time) (secret : bytes) (user : User) : option string :=
  jwt_sign secret
    (MkPayload (uRole user) (uTokenVersion user) userTokenUse "" "" (randomID buf) (uID user) []
       (NewNumericDate now) (NewNumericDate (Add now userTokenTTL))).

Definition parseUserToken (now : Time) (secret : bytes) (raw : string) : result payload :=
  match jwt_parse secret now raw with
  | None => Err ErrInvalidAuth
  | Some p =>
      if bool_decide (plSubject p = "") || bool_decide (plTokenUse p ≠ userTokenUse)
      then Err ErrInvalidAuth else Ok p
  end.

Definition userForToken (now : Time) (userID : string) (tokenVersion : Z) (s : MemoryStore)
    : result User :=
  match Users.UserByID userID s with
  | Err _ => Err ErrInvalidAuth
  | Ok user =>
      if bool_decide (uTokenVersion user ≠ tokenVersion) || expired now (uExpiresAt user)
      then Err ErrInvalidAuth else Ok user
  end.

Definition bearerToken (header : string) : string :=
  match Fields header with
  | [scheme; token] => if EqualFoldASCII scheme "bearer" then token else ""
  | _ => ""
  end.

Definition userFromRequest (now : Time) (secret : bytes) (authorization : string) (s : MemoryStore)
    : result User :=
  let token := bearerToken authorization in
  if bool_decide (token = "") || Users.UserTokenRevoked now (tokenDigest token) s
  then Err ErrInvalidAuth
  else match parseUserToken now secret token with
  | Err e => Err e
  | Ok parsed => userForToken now (plSubject parsed) (plTokenVersion parsed) s
  end.

(** ** browser_ticket.go *)

Definition browserTicketAudience : string := "connect_client".
Definition browserTicketTTL : Duration := Minute.
Definition browserAccessUser : string := "user".
Definition browserAccessShare : string := "share".

Definition issueBrowserTicket (now : Time) (secret : bytes) (kind subject : string)
    (tokenVersion : Z) (accessTokens : list string) : option (string * Time) :=
  let expiresAt := Add now browserTicketTTL in
  let accessToken := hd "" accessTokens in
  match jwt_sign secret
          (MkPayload "" tokenVersion "" kind accessToken "" subject [browserTicketAudience]
             (NewNumericDate now) (NewNumericDate expiresAt)) with
  | Some ticket => Some (ticket, expiresAt)
  | None => None
  end.

Definition containsAudience (audiences : list string) (expected : string) : bool :=
  existsb (λ a, bool_decide (a = expected)) audiences.

Definition parseBrowserTicket (now : Time) (secret : bytes) (raw : string) : result payload :=
  match jwt_parse secret now raw with
  | None => Err ErrInvalidAuth
  | Some p =>
      if bool_decide (plSubject p = "") ||
         (bool_decide (plKind p ≠ browserAccessUser) && bool_decide (plKind p ≠ browserAccessShare)) ||
         negb (containsAudience (plAudience p) browserTicketAudience)
      then Err ErrInvalidAuth else Ok p
  end.

(** ** browser_access.go *)

Record browserAccess := MkAccess {
  baKind : string;
  baSubject : string;
  baTokenVersion : Z;
  baAccessToken : string
}.

Definition shareTicketSubject (secret : bytes) (token : string) : string :=
  bytes_str (b64url_encode (hmac_sha256 secret
    (str_bytes "scrcpycat-share-websocket-ticket:" ++ str_bytes token))).

Definition userForShare (share : Share) : User :=
  MkUser ("share:" +:+ shToken share) "share" "" 0 RoleUser [shDeviceID share] "" (shExpiresAt share)
    (shForbidBitrate share) (shForbidFPS share) (shForbidResolution share) (shForbidAudio share)
    (shGuestSettings share) no_permissions time_zero.

Definition shareForTicket (now : Time) (secret : bytes) (subject : string) (s : MemoryStore)
    : result Share * MemoryStore :=
  let '(shares, s') := Shares.SharesFor now "" s in
  match List.find (λ share, bool_decide (subject = shareTicketSubject secret (shToken share))) shares with
  | Some share => (Ok share, s')
  | None => (Err ErrInvalidAuth, s')
  end.

Definition validateBrowserAccess (now : Time) (secret : bytes) (access : browserAccess)
    (s : MemoryStore) : result (User * bool) * MemoryStore :=
  if decide (baKind access = browserAccessUser) then
    if Users.UserTokenRevoked now (baAccessToken access) s then (Err ErrInvalidAuth, s)
    else match userForToken now (baSubject access) (baTokenVersion access) s with
         | Ok user => (Ok (user, false), s)
         | Err e => (Err e, s)
         end
  else if decide (baKind access = browserAccessShare) then
    match shareForTicket now secret (baSubject access) s with
    | (Ok share, s') => (Ok (userForShare share, shViewOnly share), s')
    | (Err e, s') => (Err e, s')
    end
  else (Err ErrInvalidAuth, s).

Definition browserAccessFromTicket (now : Time) (secret : bytes) (ticket : string) (s : MemoryStore)
    : result (User * bool * browserAccess) * MemoryStore :=
  match parseBrowserTicket now secret ticket with
  | Err e => (Err e, s)
  | Ok p =>
      let access := MkAccess (plKind p) (plSubject p) (plTokenVersion p) (plAccessToken p) in
      match validateBrowserAccess now secret access s with
      | (Ok (user, viewOnly), s') => (Ok (user, viewOnly, access), s')
      | (Err e, s') => (Err e, s')
      end
  end.

(** [ticket] is the query parameter and [authorization] the header of the request. *)
Definition browserAccessFromRequest (now : Time) (secret : bytes) (ticket authorization : string)
    (s : MemoryStore) : result (User * bool * browserAccess) * MemoryStore :=
  if decide (ticket ≠ "") then browserAccessFromTicket now secret ticket s
  else match userFromRequest now secret authorization s with
  | Err e => (Err e, s)
  | Ok user =>
      (Ok (user, false, MkAccess browserAccessUser (uID user) (uTokenVersion user)
                          (tokenDigest (bearerToken authorization))), s)
  end.

(** One tick of the watcher goroutine: [true] when it closes the connection.
    [same] is [reflect.DeepEqual] on users. *)
Definition watch_tick (same : User → User → bool) (now : Time) (secret : bytes)
    (access : browserAccess) (user : User) (viewOnly : bool) (s : MemoryStore) : bool * MemoryStore :=
  match validateBrowserAccess now secret access s with
  | (Err _, s') => (true, s')
  | (Ok (user', viewOnly'), s') => (negb (eqb viewOnly' viewOnly) || negb (same user' user), s')
  end.

(** ** Locked stream options *)

Definition constrainedStreamOptions (user : User) (deviceID : string) (raw : vmap) (s : MemoryStore)
    : vmap :=
  let result := cloneMap raw in
  let result := if is_admin user then result
                else delete "snapshotInterval" (delete "snapshot_interval" result) in
  let settings := uSettings user ∪ Devices.agentSettings deviceID s in
  let setting key fallback := default fallback (settings !! key) in
  let result :=
    if uForbidResolution user
    then <["max_size" := setting "size" (VNum (float_of_Z 0))]> result else result in
  let result :=
    if uForbidFPS user
    then let fps := setting "fps" (VNum (float_of_Z 0)) in
         <["fps" := fps]> (<["max_fps" := fps]> result)
    else result in
  let result :=
    if uForbidBitrate user then
      let bitrate := match setting "bitrate" (VNum (float_of_Z 4)) with
                     | VNum f => f | _ => float_of_Z 4 end in
      let bitrate := if flt bitrate (float_of_Z 10000) then fmul bitrate (float_of_Z 1000000)
                     else bitrate in
      <["bwe" := VBool false]>
        (<["max_bitrate" := VNum bitrate]> (<["min_bitrate" := VNum bitrate]>
          (<["bitrate" := VNum bitrate]> result)))
    else result in
  if uForbidAudio user then <["audio" := setting "audio" (VBool false)]> result else result.

(** The keys a user's locks decide. *)
Definition locked_keys (user : User) : list string :=
  (if uForbidResolution user then ["max_size"] else []) ++
  (if uForbidFPS user then ["max_fps"; "fps"] else []) ++
  (if uForbidBitrate user then ["bitrate"; "min_bitrate"; "max_bitrate"; "bwe"] else []) ++
  (if uForbidAudio user then ["audio"] else []).

Definition hidden_keys (user : User) : list string :=
  if is_admin user then [] else ["snapshot_interval"; "snapshotInterval"].

(** ** Lemmas *)

Lemma Fields_bearer token : Fields token = [token] → Fields ("Bearer " +:+ token) = ["Bearer"; token].
Proof.
  intros Ht. unfold Fields. change (str_bytes ("Bearer " +:+ token)) with
    (["B"; "e"; "a"; "r"; "e"; "r"; " "]%char ++ str_bytes token).
  assert (∀ l, fields_from [] (["B"; "e"; "a"; "r"; "e"; "r"; " "]%char ++ l) =
    "Bearer" :: fields_from [] l) as -> by (by intros [|c l]).
  unfold Fields in Ht. by rewrite Ht.
Qed.

Lemma bearerToken_bearer token : Fields token = [token] → bearerToken ("Bearer " +:+ token) = token.
Proof. intros Ht. unfold bearerToken. by rewrite Fields_bearer. Qed.

Lemma parseUserToken_issued `{!JWTLaws J} buf now secret user raw now' :
  issueUserToken buf now secret user = Some raw → uID user ≠ "" →
  parseUserToken now' secret raw =
    if now' <? NewNumericDate (now + userTokenTTL)
    then Ok (MkPayload (uRole user) (uTokenVersion user) userTokenUse "" "" (randomID buf) (uID user) []
               (NewNumericDate now) (NewNumericDate (now + userTokenTTL)))
    else Err ErrInvalidAuth.
Proof.
  intros Hi Hid. unfold parseUserToken. rewrite (jwt_roundtrip _ _ _ _ Hi). cbn [plExpiresAt]. unfold Add.
  destruct (now' <? _); [|done]. cbn [plSubject plTokenUse]. by rewrite (bool_decide_eq_false_2 (uID user = "")), bool_decide_eq_false_2 by tauto.
Qed.

Lemma userForToken_Ok now id v s user :
  userForToken now id v s = Ok user ↔
  ∃ u, ms_users s !! id = Some u ∧ uTokenVersion u = v ∧ expired now (uExpiresAt u) = false ∧
    user = sanitizeUser u.
Proof.
  unfold userForToken, Users.UserByID.
  destruct (ms_users s !! id) as [u|]; [|split; [done|by intros (? & ? & _)]].
  change (uTokenVersion (sanitizeUser u)) with (uTokenVersion u).
  change (uExpiresAt (sanitizeUser u)) with (uExpiresAt u).
  destruct (bool_decide (uTokenVersion u ≠ v)) eqn:Ev; cbn [orb].
  - split; [done|]. bool_to_prop. intros (? & [= <-] & ? & _). done.
  - bool_to_prop. apply dec_stable in Ev. destruct (expired now (uExpiresAt u)) eqn:Ex.
    + split; [done|]. intros (? & [= <-] & _ & ? & _). congruence.
    + split; [intros [= <-]; eauto 10|]. by intros (? & [= <-] & _ & _ & ->).
Qed.

Lemma session_iff `{!JWTLaws J} buf now secret user raw now' s who :
  issueUserToken buf now secret user = Some raw → uID user ≠ "" →
  userFromRequest now' secret ("Bearer " +:+ raw) s = Ok who ↔
    now' < NewNumericDate (now + userTokenTTL) ∧
    Users.UserTokenRevoked now' (tokenDigest raw) s = false ∧
    ∃ u, ms_users s !! uID user = Some u ∧ uTokenVersion u = uTokenVersion user ∧
      expired now' (uExpiresAt u) = false ∧ who = sanitizeUser u.
Proof.
  intros Hi Hid. destruct (jwt_token_text _ _ _ Hi) as [Hne Hf].
  unfold userFromRequest. rewrite bearerToken_bearer by done.
  rewrite (bool_decide_eq_false_2 (raw = "")) by done. cbn [orb].
  rewrite (parseUserToken_issued _ _ _ _ _ _ Hi Hid).
  destruct (Users.UserTokenRevoked now' (tokenDigest raw) s); [split; [done|by intros (_ & ? & _)]|].
  destruct (Z.ltb_spec now' (NewNumericDate (now + userTokenTTL))).
  - cbn [plSubject plTokenVersion]. rewrite userForToken_Ok. split; [eauto|by intros (_ & _ & ?)].
  - split; [done|]. intros [? _]. lia.
Qed.

Lemma lookup_hidden user (raw : vmap) key :
  (if is_admin user then raw else delete "snapshotInterval" (delete "snapshot_interval" raw)) !! key =
  if decide (key ∈ (if is_admin user then [] else ["snapshot_interval"; "snapshotInterval"]))
  then None else raw !! key.
Proof.
  destruct (is_admin user); [done|]. case_decide as Hk.
  - rewrite !lookup_delete_None. set_solver.
  - by rewrite !lookup_delete_ne by set_solver.
Qed.

(** The live share a ticket subject names. *)
Lemma shareForTicket_result now secret sh s :
  Shares.shares_wf s →
  (∀ t sh', ms_shares s !! t = Some sh' →
     shareTicketSubject secret t = shareTicketSubject secret (shToken sh) → t = shToken sh) →
  fst (shareForTicket now secret (shareTicketSubject secret (shToken sh)) s) =
    match ms_shares s !! shToken sh with
    | Some cur => if expired now (shExpiresAt cur) then Err ErrInvalidAuth else Ok cur
    | None => Err ErrInvalidAuth
    end.
Proof.
  intros Hwf Hdist. unfold shareForTicket, Shares.SharesFor. cbn [orb].
  set (l := sort_by _ _). set (p := λ _ : Share, _).
  assert (∀ x, x ∈ l ↔ ms_shares s !! shToken x = Some x ∧ expired now (shExpiresAt x) = false) as Hl.
  { intros x. unfold l. rewrite elem_of_sort_by, list_elem_of_In, filter_In, <-list_elem_of_In,
      elem_of_map_values. setoid_rewrite lookup_delete_if_Some. split.
    - intros [(t & Ht & He) _]. by rewrite (Hwf t x Ht).
    - intros [Ht He]. split; [by eexists|]. by rewrite bool_decide_eq_true_2. }
  assert (∀ x, x ∈ l → p x = true → shToken x = shToken sh) as Hp.
  { intros x [Hx _]%Hl Hpx. unfold p in Hpx. bool_to_prop. by apply (Hdist _ x). }
  assert ((∃ cur, ms_shares s !! shToken sh = Some cur ∧ expired now (shExpiresAt cur) = false ∧
             List.find p l = Some cur) ∨
          List.find p l = None ∧ ∀ cur, ms_shares s !! shToken sh = Some cur →
             expired now (shExpiresAt cur) = true) as [(cur & -> & -> & ->)|[-> Hn]]; [|done|].
  - destruct (ms_shares s !! shToken sh) as [cur|] eqn:E.
    + pose proof (Hwf _ _ E) as Hc. destruct (expired now (shExpiresAt cur)) eqn:Ex.
      * right. split; [|naive_solver]. apply find_absent. intros y Hy.
        destruct (p y) eqn:Hpy; [|done]. pose proof (Hp y Hy Hpy) as Hyt.
        apply Hl in Hy as [Hy1 Hy2]. rewrite Hyt in Hy1. congruence.
      * left. exists cur. split_and!; [done|done|]. apply find_unique.
        -- apply Hl. by rewrite Hc.
        -- unfold p. rewrite Hc. by apply bool_decide_eq_true.
        -- intros y Hy Hpy. pose proof (Hp y Hy Hpy) as Hyt. apply Hl in Hy as [Hy _].
           rewrite Hyt in Hy. congruence.
    + right. split; [|done]. apply find_absent. intros y Hy. destruct (p y) eqn:Hpy; [|done].
      pose proof (Hp y Hy Hpy) as Hyt. apply Hl in Hy as [Hy _]. rewrite Hyt in Hy. congruence.
  - destruct (ms_shares s !! shToken sh) as [cur|]; [|done]. by rewrite Hn.
Qed.

Ltac lookup_keys H :=
  repeat (apply elem_of_cons in H as [->|H];
    [repeat first [rewrite lookup_insert_eq | rewrite lookup_insert_ne by done]; by split|]);
  by apply not_elem_of_nil in H.

Ltac skip_keys H := rewrite ?lookup_insert_ne by set_solver.

Lemma constrained_unlocked user deviceID raw s key :
  key ∉ locked_keys user →
  constrainedStreamOptions user deviceID raw s !! key =
    if decide (key ∈ hidden_keys user) then None else raw !! key.
Proof.
  unfold constrainedStreamOptions, locked_keys, hidden_keys, cloneMap.
  set (st := uSettings user ∪ _). clearbody st.
  intros Hnin. destruct (uForbidResolution user), (uForbidFPS user), (uForbidBitrate user),
    (uForbidAudio user); cbn [app] in Hnin; skip_keys Hnin; apply lookup_hidden.
Qed.

(** ** Properties *)

(** A session lives exactly as long as it should.  The token issued at a login is
    accepted by [userFromRequest] precisely while it has not expired, was not revoked
    by a logout, and its account still exists with the token version the token was
    issued for and has not expired; so a logout ends it (for the rest of the token's
    life), and so do a password reset and the deletion of the account. *)
Theorem session_lifetime `{!JWTLaws J} buf now secret user raw now' s :
  issueUserToken buf now secret user = Some raw → uID user ≠ "" →
  let accepted s who := userFromRequest now' secret ("Bearer " +:+ raw) s = Ok who in
  (∀ who, accepted s who ↔
     now' < NewNumericDate (now + userTokenTTL) ∧
     Users.UserTokenRevoked now' (tokenDigest raw) s = false ∧
     ∃ u, ms_users s !! uID user = Some u ∧ uTokenVersion u = uTokenVersion user ∧
       expired now' (uExpiresAt u) = false ∧ who = sanitizeUser u) ∧
  (∀ who, ¬ accepted (Users.RevokeUserToken (tokenDigest raw) (NewNumericDate (now + userTokenTTL)) s) who) ∧
  (∀ salt name password s' who u, ms_usersByName s !! name = Some (uID user) →
     ms_users s !! uID user = Some u → uTokenVersion u = uTokenVersion user →
     0 ≤ uTokenVersion u < 2 ^ 64 →
     Users.ResetPassword salt name password s = (Ok (), s') → ¬ accepted s' who) ∧
  (∀ name s' who, ms_usersByName s !! name = Some (uID user) →
     Users.DeleteUser name s = (Ok (), s') → ¬ accepted s' who).
Proof.
  intros Hi Hid accepted. unfold accepted.
  split_and!; intros *; rewrite ?(session_iff _ _ _ _ _ _ _ _ Hi Hid); [done| | |].
  - intros (Hlt & Hrev & _). unfold Users.UserTokenRevoked, Before in Hrev. simpl in Hrev.
    rewrite lookup_insert_eq in Hrev. bool_to_prop. lia.
  - intros Hn Hu Hv Hr Hres. unfold Users.ResetPassword in Hres. case_decide; [done|].
    destruct (bcrypt_generate salt password) as [hash|]; [|done].
    destruct (Users.UpdateUser name _ s) as [[u1|] s1] eqn:E; [|done]. injection Hres as <-.
    apply Users.UpdateUser_Ok in E as (id & u2 & Hn2 & Hu2 & _ & ->). simplify_eq.
    rewrite Hu in Hu2. injection Hu2 as <-. intros (_ & _ & u' & Hu' & Hv' & _). simpl in Hu'.
    rewrite lookup_insert_eq in Hu'. injection Hu' as <-. simpl in Hv'.
    apply (uint64_succ_ne (uTokenVersion u)). rewrite Hv', <-Hv. symmetry. by apply wrap_u_small.
  - intros Hn Hdel. unfold Users.DeleteUser in Hdel. rewrite Hn in Hdel. case_match; [done|].
    injection Hdel as <-. intros (_ & _ & u' & Hu' & _). simpl in Hu'. by rewrite lookup_delete_eq in Hu'.
Qed.

(** The two kinds of tokens are never confused, though one key signs both: an
    access token is no browser ticket and a browser ticket is no access token,
    whoever they were issued for and whenever they are presented. *)
Theorem token_kinds_separate `{!JWTLaws J} buf now secret user raw kind subject version access ticket e now' :
  issueUserToken buf now secret user = Some raw →
  issueBrowserTicket now secret kind subject version access = Some (ticket, e) →
  parseBrowserTicket now' secret raw = Err ErrInvalidAuth ∧
  parseUserToken now' secret ticket = Err ErrInvalidAuth ∧ e = now + Minute.
Proof.
  intros Hi Ht. unfold issueBrowserTicket in Ht. destruct (jwt_sign secret _) as [t|] eqn:Es; [|done].
  injection Ht as <- <-. split_and!; [| |done].
  - unfold parseBrowserTicket. rewrite (jwt_roundtrip _ _ _ _ Hi). destruct (now' <? _); [|done].
    cbn. by rewrite orb_true_r.
  - unfold parseUserToken. rewrite (jwt_roundtrip _ _ _ _ Es). destruct (now' <? _); [|done].
    cbn. by rewrite orb_true_r.
Qed.

(** A share ticket opens the share it was issued for and nothing more: while the
    ticket and the share live, the connection acts as a guest that can access the
    shared device only, has no permission, and is view-only as the share says; once
    the share is revoked or expired the ticket is refused. (Distinct live shares have
    distinct ticket subjects.) *)
Theorem share_ticket_scope `{!JWTLaws J} now secret sh ticket e now' s :
  issueBrowserTicket now secret browserAccessShare (shareTicketSubject secret (shToken sh)) 0 [] =
    Some (ticket, e) →
  shareTicketSubject secret (shToken sh) ≠ "" → now' < NewNumericDate e →
  Shares.shares_wf s →
  (∀ t sh', ms_shares s !! t = Some sh' →
     shareTicketSubject secret t = shareTicketSubject secret (shToken sh) → t = shToken sh) →
  fst (browserAccessFromRequest now' secret ticket "" s) =
    match ms_shares s !! shToken sh with
    | Some cur => if expired now' (shExpiresAt cur) then Err ErrInvalidAuth
        else Ok (userForShare cur, shViewOnly cur,
                 MkAccess browserAccessShare (shareTicketSubject secret (shToken sh)) 0 "")
    | None => Err ErrInvalidAuth
    end ∧
  (∀ cur d, shDeviceID cur ≠ "*" → CanAccessDevice (userForShare cur) d = bool_decide (d = shDeviceID cur)) ∧
  (∀ cur op, Can (userForShare cur) op = false).
Proof.
  intros Ht Hsub Hlt Hwf Hdist. unfold issueBrowserTicket in Ht.
  destruct (jwt_sign secret _) as [t|] eqn:Es; [|done]. injection Ht as <- <-.
  destruct (jwt_token_text _ _ _ Es) as [Hne _]. split_and!.
  - unfold browserAccessFromRequest. rewrite decide_True by done.
    unfold browserAccessFromTicket, parseBrowserTicket. rewrite (jwt_roundtrip _ _ _ _ Es).
    cbn [plExpiresAt]. rewrite (proj2 (Z.ltb_lt _ _)) by done.
    cbn [plSubject plKind plAudience plTokenVersion plAccessToken hd].
    rewrite (bool_decide_eq_false_2 (shareTicketSubject _ _ = "")) by done.
    rewrite (bool_decide_eq_false_2 (browserAccessShare ≠ browserAccessShare)) by tauto.
    change (containsAudience [browserTicketAudience] browserTicketAudience) with true.
    rewrite andb_false_r. cbn [orb negb]. unfold validateBrowserAccess. cbn [baKind baSubject].
    rewrite decide_False, decide_True by done.
    pose proof (shareForTicket_result now' secret sh s Hwf Hdist) as Hr.
    destruct (shareForTicket _ _ _ s) as [[cur|e] s']; cbn in Hr |- *;
      destruct (ms_shares s !! shToken sh) as [c|]; try destruct (expired now' (shExpiresAt c)); congruence.
  - intros cur d Hs. unfold CanAccessDevice, canAccessLocked. cbn.
    rewrite (bool_decide_eq_false_2 (_ = "*")) by done. cbn. rewrite orb_false_r.
    apply bool_decide_ext. split; congruence.
  - intros cur op. unfold Can. cbn. by repeat case_decide.
Qed.

(** Locked settings cannot be overridden: for the keys a user's account or share
    locks, the options sent to the device do not depend on what the browser asked
    for; snapshot intervals are dropped for everybody but administrators; every other
    option passes unchanged. *)
Theorem constrainedStreamOptions_locked user deviceID raw raw' s key :
  (key ∈ locked_keys user →
     constrainedStreamOptions user deviceID raw s !! key =
       constrainedStreamOptions user deviceID raw' s !! key ∧
     is_Some (constrainedStreamOptions user deviceID raw s !! key)) ∧
  (key ∉ locked_keys user →
     constrainedStreamOptions user deviceID raw s !! key =
       if decide (key ∈ hidden_keys user) then None else raw !! key).
Proof.
  split; [|apply constrained_unlocked].
  unfold constrainedStreamOptions, locked_keys, cloneMap.
  set (st := uSettings user ∪ _). clearbody st.
  intros Hin. destruct (uForbidResolution user), (uForbidFPS user), (uForbidBitrate user),
    (uForbidAudio user); cbn [app] in Hin; lookup_keys Hin.
Qed.
End auth.

(** ** Witnesses *)

(** A concrete token format: the payload and the key, encoded in binary digits. *)
Module ToyJWT.
Definition to_list (p : payload) : list positive :=
  [encode (plRole p); encode (plTokenVersion p); encode (plTokenUse p); encode (plKind p);
   encode (plAccessToken p); encode (plID p); encode (plSubject p); encode (plAudience p);
   encode (plIssuedAt p); encode (plExpiresAt p)].
Definition of_list (l : list positive) : option payload :=
  match l with
  | [a; b; c; d; e; f; g; h; i; j] =>
      a ← decode a; b ← decode b; c ← decode c; d ← decode d; e ← decode e; f ← decode f;
      g ← decode g; h ← decode h; i ← decode i; j ← decode j; Some (MkPayload a b c d e f g h i j)
  | _ => None
  end.

#[export] Instance payload_eq_dec : EqDecision payload.
Proof. solve_decision. Defined.
#[export] Instance payload_countable : Countable payload.
Proof. apply (inj_countable to_list of_list). intros []. cbn. by rewrite !decode_encode. Defined.

Fixpoint digits (p : positive) : string :=
  match p with
  | xH => "."
  | xO p => String "0" (digits p)
  | xI p => String "1" (digits p)
  end.
Fixpoint undigits (s : string) : positive :=
  match s with
  | String "0" s => xO (undigits s)
  | String "1" s => xI (undigits s)
  | _ => xH
  end.

Lemma undigits_digits p : undigits (digits p) = p.
Proof. induction p; simpl; congruence. Qed.

Lemma digits_graphic p : Forall (λ a, graphic a = true) (str_bytes (digits p)).
Proof. induction p; repeat (constructor; [by vm_compute|]); [done..|constructor]. Qed.

#[export] Instance toy_jwt : JWT := {|
  NewNumericDate t := t / Second * Second;
  jwt_sign secret p := Some (digits (encode (bytes_str secret, p)));
  jwt_parse secret now raw :=
    match decode (undigits raw) with
    | Some (key, p) =>
        if bool_decide (key = bytes_str secret) && (now <? plExpiresAt p) then Some p else None
    | None => None
    end
|}.

#[export] Instance toy_jwt_laws : JWTLaws toy_jwt.
Proof.
  split.
  - intros secret p raw now [= <-]. cbn. rewrite undigits_digits, decode_encode.
    by rewrite bool_decide_eq_true_2.
  - intros secret p raw [= <-]. assert (∀ q, digits q ≠ "") as Hne by (by intros []).
    split; [apply Hne|]. apply Fields_graphic; [apply Hne|apply digits_graphic].
  - intros t. cbn. pose proof (Z.mul_div_le t Second eq_refl). lia.
Qed.
End ToyJWT.

Module AuthWitness.
Import ToyCrypto ToyJWT.

Definition s0 : MemoryStore := from_ok empty_store
  (Users.NewMemoryStore (repeat "u"%char 24) [] 0 "root" "secret").
Definition root : User := from_ok User_zero (Users.Authenticate 5 "root" "secret" s0).
Definition key : bytes := str_bytes "key".
Definition raw : string := default "" (issueUserToken (repeat "t"%char 24) Second key root).

Lemma session_lifetime_witness :
  userFromRequest (2 * Second) key ("Bearer " +:+ raw) s0 = Ok root.
Proof.
  apply (session_lifetime (repeat "t"%char 24) Second key root raw (2 * Second) s0); [done|by vm_compute|].
  split_and!; [by vm_compute|by vm_compute|].
  exists (default User_zero (ms_users s0 !! uID root)). by split_and!; vm_compute.
Defined.

Definition ticket : string :=
  fst (default ("", 0) (issueBrowserTicket Second key browserAccessUser (uID root) 0 [])).

Lemma token_kinds_separate_witness :
  parseBrowserTicket (2 * Second) key raw = Err ErrInvalidAuth ∧
  parseUserToken (2 * Second) key ticket = Err ErrInvalidAuth.
Proof.
  destruct (token_kinds_separate (repeat "t"%char 24) Second key root raw browserAccessUser
    (uID root) 0 [] ticket (Second + Minute) (2 * Second)) as (H1 & H2 & _); [done|done|].
  exact (conj H1 H2).
Defined.

Definition shr := Shares.CreateShare (repeat "s"%char 24) (repeat "c"%char 24) [] 5 "phone" "root"
  "" "" true None s0.
Definition sh : Share := from_ok (MkShare "" "" "" false "" "" None "" 0 false false false false ∅) (fst shr).
Definition sticket : string :=
  fst (default ("", 0) (issueBrowserTicket Second key browserAccessShare
    (shareTicketSubject key (shToken sh)) 0 [])).

Lemma share_ticket_scope_witness :
  fst (browserAccessFromRequest (2 * Second) key sticket "" (snd shr)) =
    Ok (userForShare sh, true, MkAccess browserAccessShare (shareTicketSubject key (shToken sh)) 0 "").
Proof.
  assert (ms_shares (snd shr) = {[ shToken sh := sh ]}) as Hs by reflexivity.
  destruct (share_ticket_scope Second key sh sticket (Second + Minute) (2 * Second) (snd shr))
    as [Hx _]; [done|by vm_compute|by vm_compute| | |].
  - intros t x. rewrite Hs. by intros [<- <-]%lookup_singleton_Some.
  - intros t x. rewrite Hs. by intros [<- <-]%lookup_singleton_Some.
  - rewrite Hx, Hs, lookup_singleton_eq. by vm_compute.
Defined.

Definition guest : User := set_uForbidAudio (λ _, true) (userForShare sh).

Lemma constrainedStreamOptions_locked_witness :
  constrainedStreamOptions guest "phone" {["audio" := VBool true]} s0 !! "audio" =
  constrainedStreamOptions guest "phone" ∅ s0 !! "audio".
Proof.
  apply (constrainedStreamOptions_locked guest "phone"). vm_compute. by left.
Defined.
End AuthWitness.
