(* ===== verification/Grants.v ===== *)
(** * Download grants (operations.go: issueDownloadGrant, parseDownloadGrant)

    A grant is a signed, base64url-encoded JSON text that lets an agent download the
    asset of a task.  The JSON encoding of the grant record is a parameter. *)

From S2P Require Import Prelude GoBase GoStrings Model Auth.

(** Division and remainder by constants are arithmetic for [lia]. *)
#[local] Ltac Zify.zify_post_hook ::= Z.div_mod_to_equations.

(** ** base64.RawURLEncoding.DecodeString

    Carriage returns and line feeds are skipped; four digits give three bytes, a
    final group of two or three gives one or two, its unused bits are ignored. *)
Definition b64url_value (b : byte) : option Z :=
  if in_range b 65 90 then Some (byte_val b - 65)
  else if in_range b 97 122 then Some (byte_val b - 97 + 26)
  else if in_range b 48 57 then Some (byte_val b - 48 + 52)
  else if is_byte b 45 then Some 62
  else if is_byte b 95 then Some 63
  else None.

Fixpoint b64url_values (l : bytes) : option (list Z) :=
  match l with
  | [] => Some []
  | b :: l =>
      if is_byte b 13 || is_byte b 10 then b64url_values l
      else match b64url_value b, b64url_values l with
           | Some v, Some vs => Some (v :: vs)
           | _, _ => None
           end
  end.

Fixpoint b64_groups (vs : list Z) : option bytes :=
  match vs with
  | a :: b :: c :: d :: vs =>
      match b64_groups vs with
      | Some l => Some (be_put 3 (a * 2 ^ 18 + b * 2 ^ 12 + c * 2 ^ 6 + d) ++ l)
      | None => None
      end
  | [a; b; c] => Some (be_put 2 ((a * 2 ^ 12 + b * 2 ^ 6 + c) / 4))
  | [a; b] => Some (be_put 1 ((a * 2 ^ 6 + b) / 16))
  | [_] => None
  | [] => Some []
  end.

Definition b64url_decode (s : string) : option bytes :=
  match b64url_values (str_bytes s) with Some vs => b64_groups vs | None => None end.

(** ** Grants *)

Record downloadGrant := MkGrant {
  dgAssetID : string;
  dgTaskID : string;
  dgDeviceID : string;
  dgExpires : Z
}.

Class GrantJSON := {
  marshal_grant : downloadGrant → bytes;
  unmarshal_grant : bytes → option downloadGrant
}.
Class GrantJSONLaws (G : GrantJSON) := {
  grant_roundtrip g : unmarshal_grant (marshal_grant g) = Some g
}.

(** [t.Unix()]: seconds since 1970, rounded down. *)
Definition Unix (t : Time) : Z := t / Second - 62135596800.

Section grants.
Context `{Crypto} {G : GrantJSON}.

Definition issueDownloadGrant (now : Time) (secret : bytes) (assetID taskID deviceID : string) : string :=
  let payload := marshal_grant
    (MkGrant assetID taskID deviceID (Unix (Add now (15 * Minute)))) in
  let encoded := b64url_encode payload in
  bytes_str encoded +:+ "." +:+ bytes_str (b64url_encode (hmac_sha256 secret encoded)).

Definition parseDownloadGrant (now : Time) (secret : bytes) (raw : string) : result downloadGrant :=
  match Split raw "." with
  | [encoded; sig] =>
      match b64url_decode sig with
      | None => Err ErrInvalidToken
      | Some signature =>
          if bool_decide (signature ≠ hmac_sha256 secret (str_bytes encoded)) then Err ErrInvalidToken
          else match b64url_decode encoded with
          | None => Err ErrInvalidToken
          | Some payload =>
              match unmarshal_grant payload with
              | None => Err ErrInvalidToken
              | Some grant =>
                  if bool_decide (dgAssetID grant = "") || (dgExpires grant <? Unix now)
                  then Err ErrInvalidToken else Ok grant
              end
          end
      end
  | _ => Err ErrInvalidToken
  end.

(** ** Lemmas *)

Lemma digit_case v (P : Z → Prop) : 0 ≤ v < 64 → (∀ n, (n < 64)%nat → P (Z.of_nat n)) → P v.
Proof. intros Hv HP. replace v with (Z.of_nat (Z.to_nat v)) by lia. apply HP. lia. Qed.

Lemma b64url_value_digit v : 0 ≤ v < 64 →
  b64url_value (b64url_digit v) = Some v ∧
  is_byte (b64url_digit v) 13 || is_byte (b64url_digit v) 10 = false.
Proof.
  intros Hv. pattern v. apply digit_case; [done|]. clear v Hv. intros n Hn.
  do 64 (destruct n as [|n]; [by vm_compute|]). lia.
Qed.

Lemma b64url_values_cons v l : 0 ≤ v < 64 →
  b64url_values (b64url_digit v :: l) =
    match b64url_values l with Some vs => Some (v :: vs) | None => None end.
Proof.
  intros Hv. destruct (b64url_value_digit v Hv) as [H1 H2]. cbn [b64url_values].
  by rewrite H2, H1.
Qed.

Lemma be_get3 a b c : be_get [a; b; c] = byte_val a * 65536 + byte_val b * 256 + byte_val c.
Proof. unfold be_get. cbn [be_get_acc]. lia. Qed.
Lemma be_get2 a b : be_get [a; b] = byte_val a * 256 + byte_val b.
Proof. unfold be_get. cbn [be_get_acc]. lia. Qed.

Lemma b64_split3 v : 0 ≤ v < 2 ^ 24 →
  v / 2 ^ 18 * 2 ^ 18 + v / 2 ^ 12 mod 64 * 2 ^ 12 + v / 2 ^ 6 mod 64 * 2 ^ 6 + v mod 64 = v.
Proof.
  intros Hv. change (2 ^ 18) with 262144. change (2 ^ 12) with 4096. change (2 ^ 6) with 64.
  replace (v / 4096) with (v / 64 / 64) by (by rewrite Z.div_div).
  replace (v / 262144) with (v / 64 / 64 / 64) by (by rewrite !Z.div_div).
  pose proof (Z.div_mod v 64). pose proof (Z.div_mod (v / 64) 64).
  pose proof (Z.div_mod (v / 64 / 64) 64). lia.
Qed.

Lemma list_ind3 {A} (P : list A → Prop) :
  P [] → (∀ a, P [a]) → (∀ a b, P [a; b]) → (∀ a b c l, P l → P (a :: b :: c :: l)) → ∀ l, P l.
Proof.
  intros H0 H1 H2 H3. cut (∀ n l, (length l ≤ n)%nat → P l); [intros Hc l; by apply (Hc (length l))|].
  induction n as [|n IH]; intros [|a [|b [|c l]]] Hl; cbn in Hl; try lia; auto.
  apply H3, IH. lia.
Qed.

Lemma b64url_roundtrip_values l :
  ∃ vs, b64url_values (b64url_encode l) = Some vs ∧ b64_groups vs = Some l.
Proof.
  induction l as [|a|a b|a b c l (vs & Hvs & Hg)] using list_ind3.
  - by exists [].
  - pose proof (byte_val_range a). cbn [b64url_encode]. remember (byte_val a * 16) as v eqn:Ev.
    assert (0 ≤ v < 4096) by lia.
    exists [v / 2 ^ 6; v mod 64]. change (2 ^ 6) with 64.
    rewrite !b64url_values_cons by lia. split; [done|]. cbn [b64_groups].
    replace ((v / 64 * 2 ^ 6 + v mod 64) / 16) with (be_get [a]); [exact (f_equal Some (be_put_get 1 [a] eq_refl))|].
    unfold be_get. cbn [be_get_acc]. change (2 ^ 6) with 64. lia.
  - pose proof (byte_val_range a). pose proof (byte_val_range b). cbn [b64url_encode].
    remember (be_get [a; b] * 4) as v eqn:Ev. rewrite be_get2 in Ev. assert (0 ≤ v < 262144) by lia.
    exists [v / 2 ^ 12; v / 2 ^ 6 mod 64; v mod 64]. change (2 ^ 6) with 64. change (2 ^ 12) with 4096.
    rewrite !b64url_values_cons by lia. split; [done|]. cbn [b64_groups].
    replace ((v / 4096 * 2 ^ 12 + v / 64 mod 64 * 2 ^ 6 + v mod 64) / 4) with (be_get [a; b]);
      [exact (f_equal Some (be_put_get 2 [a; b] eq_refl))|].
    change (2 ^ 6) with 64. change (2 ^ 12) with 4096. rewrite be_get2.
    replace (v / 4096) with (v / 64 / 64) by (by rewrite Z.div_div).
    pose proof (Z.div_mod v 64). pose proof (Z.div_mod (v / 64) 64). lia.
  - pose proof (byte_val_range a). pose proof (byte_val_range b). pose proof (byte_val_range c).
    cbn [b64url_encode]. remember (be_get [a; b; c]) as v eqn:Ev.
    assert (0 ≤ v < 2 ^ 24) as Hv by (rewrite Ev, be_get3; lia).
    pose proof (b64_split3 v Hv) as Hsplit.
    exists (v / 2 ^ 18 :: v / 2 ^ 12 mod 64 :: v / 2 ^ 6 mod 64 :: v mod 64 :: vs).
    rewrite !b64url_values_cons, Hvs by (change (2 ^ 18) with 262144; lia).
    split; [done|].
    cbn [b64_groups]. rewrite Hg, Hsplit, Ev. exact (f_equal (λ x, Some (x ++ l)) (be_put_get 3 [a; b; c] eq_refl)).
Qed.

Lemma b64url_roundtrip l : b64url_decode (bytes_str (b64url_encode l)) = Some l.
Proof.
  unfold b64url_decode. rewrite str_bytes_str.
  by destruct (b64url_roundtrip_values l) as (vs & -> & ->).
Qed.

Lemma Split_dot1 a b : ch "." ∉ str_bytes a → ch "." ∉ str_bytes b →
  Split (a +:+ "." +:+ b) "." = [a; b].
Proof.
  intros Ha Hb. unfold Split. change (ch ".") with "."%char in *.
  rewrite str_bytes_app. change (str_bytes ("." +:+ b)) with ("."%char :: str_bytes b).
  rewrite split_bytes_app by done. rewrite split_bytes_no_sep by done. cbn.
  by rewrite !bytes_str_bytes.
Qed.

Lemma parse_issued `{!GrantJSONLaws G} now secret assetID taskID deviceID now' :
  assetID ≠ "" →
  parseDownloadGrant now' secret (issueDownloadGrant now secret assetID taskID deviceID) =
    if Unix now' <=? Unix (now + 15 * Minute)
    then Ok (MkGrant assetID taskID deviceID (Unix (now + 15 * Minute))) else Err ErrInvalidToken.
Proof.
  intros Hid. unfold parseDownloadGrant, issueDownloadGrant.
  rewrite Split_dot1 by (rewrite str_bytes_str; apply b64url_encode_no_dot).
  rewrite !b64url_roundtrip, str_bytes_str, bool_decide_eq_false_2 by tauto.
  rewrite grant_roundtrip. cbn [dgAssetID dgExpires]. rewrite bool_decide_eq_false_2 by done.
  cbn [orb]. unfold Add. destruct (Z.ltb_spec (Unix (now + 15 * Minute)) (Unix now')).
  - by rewrite (proj2 (Z.leb_gt _ _)).
  - by rewrite (proj2 (Z.leb_le _ _)).
Qed.

(** ** Properties *)

(** C25: Grants round-trip and are signed: a grant the server issued is accepted, with
    its asset, task and device, for the fifteen minutes it is valid and refused
    after; and whatever is accepted carries the server's own signature over exactly
    the bytes the grant was read from and has not expired. *)
Theorem download_grants `{!GrantJSONLaws G} now secret assetID taskID deviceID now' raw :
  assetID ≠ "" →
  parseDownloadGrant now' secret (issueDownloadGrant now secret assetID taskID deviceID) =
    (if Unix now' <=? Unix (now + 15 * Minute)
     then Ok (MkGrant assetID taskID deviceID (Unix (now + 15 * Minute))) else Err ErrInvalidToken) ∧
  (∀ g, parseDownloadGrant now' secret raw = Ok g →
     ∃ encoded sig payload, Split raw "." = [encoded; sig] ∧
       b64url_decode sig = Some (hmac_sha256 secret (str_bytes encoded)) ∧
       b64url_decode encoded = Some payload ∧ unmarshal_grant payload = Some g ∧
       dgAssetID g ≠ "" ∧ Unix now' ≤ dgExpires g) ∧
  (∀ e, parseDownloadGrant now' secret raw = Err e → e = ErrInvalidToken).
Proof.
  intros Hid. split_and!.
  - by apply parse_issued.
  - intros g. unfold parseDownloadGrant.
    destruct (Split raw ".") as [|encoded [|sig [|]]]; try done.
    destruct (b64url_decode sig) as [signature|] eqn:Es; [|done].
    destruct (bool_decide _) eqn:Eh; [done|]. bool_to_prop. apply dec_stable in Eh as ->.
    destruct (b64url_decode encoded) as [payload|] eqn:Ee; [|done].
    destruct (unmarshal_grant payload) as [grant|] eqn:Eu; [|done].
    destruct (_ || _) eqn:Eg; [done|]. intros [= <-]. bool_to_prop. eauto 10.
  - intros e. unfold parseDownloadGrant. intros Hr. split_branches.
Qed.
End grants.

(** ** Witness *)

Module GrantsWitness.
Import ToyCrypto.

Import ToyJWT.

Definition of_tuple (t : string * string * string * Z) : downloadGrant :=
  let '(a, b, c, d) := t in MkGrant a b c d.

#[export] Instance toy_json : GrantJSON := {|
  marshal_grant g := str_bytes (digits (encode (dgAssetID g, dgTaskID g, dgDeviceID g, dgExpires g)));
  unmarshal_grant l := of_tuple <$> decode (undigits (bytes_str l))
|}.

#[export] Instance toy_json_laws : GrantJSONLaws toy_json.
Proof. split. intros []. cbn. by rewrite bytes_str_bytes, undigits_digits, decode_encode. Qed.

Definition grant : string := issueDownloadGrant Second (str_bytes "key") "asset" "task" "phone".

Lemma download_grants_witness :
  is_ok (parseDownloadGrant (2 * Second) (str_bytes "key") grant) = true ∧
  is_ok (parseDownloadGrant Hour (str_bytes "key") grant) = false.
Proof.
  destruct (download_grants Second (str_bytes "key") "asset" "task" "phone" (2 * Second) "")
    as [H1 _]; [done|].
  destruct (download_grants Second (str_bytes "key") "asset" "task" "phone" Hour "")
    as [H2 _]; [done|].
  unfold grant. split; [rewrite H1|rewrite H2]; vm_compute; reflexivity.
Defined.
End GrantsWitness.
