(* ===== verification/Base64.v ===== *)
(** * encoding/base64, StdEncoding and RawStdEncoding

    The standard alphabet differs from that of URLs in two digits; [StdEncoding] pads
    the text to a multiple of four characters and requires the padding when it decodes,
    [RawStdEncoding] does neither.  Line ends are skipped and the unused bits of a last
    group are ignored, as in [Grants.b64url_decode]. *)

From S2P Require Import Prelude GoBase GoStrings Grants.

Definition std_of_url (b : byte) : byte :=
  if is_byte b 45 then ch "+" else if is_byte b 95 then ch "/" else b.

Definition b64raw_encode (l : bytes) : bytes := map std_of_url (b64url_encode l).

(** The padding that makes the length a multiple of four. *)
Definition std_padding (l : bytes) : bytes :=
  match (length l mod 3)%nat with 1%nat => [ch "="; ch "="] | 2%nat => [ch "="] | _ => [] end.
Definition b64std_encode (l : bytes) : bytes := b64raw_encode l ++ std_padding l.

Definition std_value (b : byte) : option Z :=
  if is_byte b 43 then Some 62
  else if is_byte b 47 then Some 63
  else if is_byte b 45 || is_byte b 95 then None
  else b64url_value b.

Definition line_end (b : byte) : bool := is_byte b 13 || is_byte b 10.
Definition strip_lines (l : bytes) : bytes := List.filter (λ b, negb (line_end b)) l.

Fixpoint std_values (l : bytes) : option (list Z) :=
  match l with
  | [] => Some []
  | b :: l => match std_value b, std_values l with Some v, Some vs => Some (v :: vs) | _, _ => None end
  end.

Definition std_groups (l : bytes) : option bytes :=
  match std_values l with Some vs => b64_groups vs | None => None end.

Definition b64raw_decode (s : string) : option bytes := std_groups (strip_lines (str_bytes s)).

(** At most two padding characters, at the end of the text only. *)
Definition strip_padding (l : bytes) : bytes :=
  match rev l with
  | "="%char :: "="%char :: r => rev r
  | "="%char :: r => rev r
  | _ => l
  end.

Definition b64std_decode (s : string) : option bytes :=
  let l := strip_lines (str_bytes s) in
  if (length l mod 4 =? 0)%nat then std_groups (strip_padding l) else None.

(** ** Lemmas *)

Definition is_digit (b : byte) : Prop := ∃ v, std_value b = Some v.

Lemma std_value_url v : 0 ≤ v < 64 → std_value (std_of_url (b64url_digit v)) = Some v.
Proof.
  intros Hv. pattern v. apply digit_case; [done|]. clear v Hv. intros n Hn.
  do 64 (destruct n as [|n]; [by vm_compute|]). lia.
Qed.

Lemma digit_no_line b : is_digit b → line_end b = false.
Proof.
  intros [v Hv]. revert Hv. unfold std_value, b64url_value, line_end, in_range, is_byte.
  repeat case_match; intros ?; simplify_eq; bool_to_prop; rewrite ?orb_false_iff, ?Z.eqb_neq; lia.
Qed.

Lemma digit_no_pad b : is_digit b → b ≠ ch "=".
Proof. intros [v Hv] ->. vm_compute in Hv. done. Qed.

(** What the encoder writes are digits whose values the decoder reads back. *)
Lemma std_values_url l vs : Forall (λ v, 0 ≤ v < 64) vs → l = map b64url_digit vs →
  std_values (map std_of_url l) = Some vs ∧ Forall is_digit (map std_of_url l).
Proof.
  intros Hvs ->. induction Hvs as [|v vs Hv _ [IH1 IH2]]; [done|]. cbn [map std_values].
  rewrite std_value_url, IH1 by done. split; [done|]. constructor; [|done].
  exists v. by apply std_value_url.
Qed.

Lemma b64url_encode_values l : ∃ vs, Forall (λ v, 0 ≤ v < 64) vs ∧ b64url_encode l = map b64url_digit vs ∧
  b64url_values (b64url_encode l) = Some vs ∧ (length (b64url_encode l) + length (std_padding l) = 4 * ((length l + 2) / 3))%nat.
Proof.
  assert (∀ vs, Forall (λ v, 0 ≤ v < 64) vs → b64url_values (map b64url_digit vs) = Some vs) as Hval.
  { induction 1 as [|v vs Hv _ IH]; [done|]. cbn [map]. by rewrite b64url_values_cons, IH. }
  enough (∃ vs, Forall (λ v, 0 ≤ v < 64) vs ∧ b64url_encode l = map b64url_digit vs ∧
    (length (b64url_encode l) + length (std_padding l) = 4 * ((length l + 2) / 3))%nat) as (vs & H1 & H2 & H3).
  { exists vs. split_and!; try done. rewrite H2. auto. }
  induction l as [|a|a b|a b c l (vs & Hvs & He & Hlen)] using list_ind3.
  - by exists [].
  - pose proof (byte_val_range a). cbn [b64url_encode].
    exists [byte_val a * 16 / 2 ^ 6; byte_val a * 16 mod 64]. split_and!; [|done|done].
    repeat constructor; try (apply Z.mod_pos_bound; done);
      first [apply Z.div_pos; lia | apply Z.div_lt_upper_bound; lia].
  - pose proof (be_get_range [a; b]) as Hr. change (2 ^ (8 * blen [a; b])) with 65536 in Hr. cbn [b64url_encode].
    set (v := be_get [a; b] * 4). exists [v / 2 ^ 12; v / 2 ^ 6 mod 64; v mod 64]. split_and!; [|done|done].
    unfold v. repeat constructor; try (apply Z.mod_pos_bound; done);
      first [apply Z.div_pos; lia | apply Z.div_lt_upper_bound; lia].
  - pose proof (be_get_range [a; b; c]) as Hr. change (2 ^ (8 * blen [a; b; c])) with 16777216 in Hr. cbn [b64url_encode].
    set (v := be_get [a; b; c]) in *. exists (v / 2 ^ 18 :: v / 2 ^ 12 mod 64 :: v / 2 ^ 6 mod 64 :: v mod 64 :: vs).
    split_and!.
    + repeat (apply Forall_cons; split); try (apply Z.mod_pos_bound; done); [|done].
      split; [apply Z.div_pos; lia | apply Z.div_lt_upper_bound; lia].
    + by rewrite He.
    + unfold std_padding in *. cbn [length].
      replace (S (S (S (length l))) mod 3)%nat with (length l mod 3)%nat
        by (replace (S (S (S (length l)))) with (length l + 1 * 3)%nat by lia; by rewrite Nat.Div0.mod_add).
      replace (S (S (S (length l))) + 2)%nat with ((length l + 2) + 1 * 3)%nat by lia.
      rewrite Nat.div_add by lia. lia.
Qed.

Lemma std_encoded l : std_groups (b64raw_encode l) = Some l ∧ Forall is_digit (b64raw_encode l) ∧
  (length (b64std_encode l) = 4 * ((length l + 2) / 3))%nat.
Proof.
  destruct (b64url_encode_values l) as (vs & Hvs & He & Hval & Hlen).
  destruct (b64url_roundtrip_values l) as (vs' & Hval' & Hg). rewrite Hval in Hval'. injection Hval' as <-.
  destruct (std_values_url _ vs Hvs He) as [Hs Hd]. unfold std_groups, b64std_encode, b64raw_encode. rewrite Hs.
  split_and!; [done|done|]. by rewrite length_app, length_map.
Qed.

Lemma strip_lines_digits l l' : Forall is_digit l → (∀ b, b ∈ l' → b = ch "=") → strip_lines (l ++ l') = l ++ l'.
Proof.
  intros Hl Hl'. unfold strip_lines. induction Hl as [|b l Hb _ IH]; cbn [app List.filter].
  - induction l' as [|b l' IH]; [done|]. cbn. rewrite (Hl' b) by set_solver. change (line_end (ch "=")) with false.
    cbn. f_equal. apply IH. intros b' Hin. apply Hl'. set_solver.
  - rewrite (digit_no_line b) by done. cbn [negb]. by f_equal.
Qed.

Lemma strip_padding_no_pad l : Forall is_digit l → strip_padding l = l.
Proof.
  intros Hl. unfold strip_padding. destruct (rev l) as [|b r] eqn:E; [done|].
  assert (b ≠ ch "=") as Hb.
  { apply digit_no_pad. rewrite Forall_forall in Hl. apply Hl. apply list_elem_of_In, in_rev. rewrite E. by left. }
  destruct b as [[] [] [] [] [] [] [] []]; try done; by destruct Hb.
Qed.

Lemma strip_padding_digits l : Forall is_digit (b64raw_encode l) → strip_padding (b64std_encode l) = b64raw_encode l.
Proof.
  intros Hd. unfold b64std_encode, std_padding. set (e := b64raw_encode l) in *.
  destruct (length l mod 3)%nat as [|[|[|]]]; rewrite ?app_nil_r.
  - by apply strip_padding_no_pad.
  - unfold strip_padding. rewrite rev_app_distr. cbn. apply rev_involutive.
  - destruct e as [|b e'] eqn:Ee using rev_ind; [done|].
    unfold strip_padding. rewrite rev_app_distr. cbn. rewrite rev_app_distr. cbn.
    assert (b ≠ ch "=") as Hb.
    { apply Forall_app in Hd as [_ Hd]. apply digit_no_pad. by apply Forall_cons in Hd as [? _]. }
    destruct b as [[] [] [] [] [] [] [] []]; cbn; rewrite ?rev_involutive; try done; by destruct Hb.
  - by apply strip_padding_no_pad.
Qed.

Lemma b64raw_roundtrip l : b64raw_decode (bytes_str (b64raw_encode l)) = Some l.
Proof.
  unfold b64raw_decode. rewrite str_bytes_str. destruct (std_encoded l) as (Hg & Hd & _).
  pose proof (strip_lines_digits (b64raw_encode l) [] Hd) as Hs. rewrite app_nil_r in Hs. rewrite Hs; [done|set_solver].
Qed.

Lemma b64std_roundtrip l : b64std_decode (bytes_str (b64std_encode l)) = Some l.
Proof.
  unfold b64std_decode. rewrite str_bytes_str. destruct (std_encoded l) as (Hg & Hd & Hlen).
  assert (strip_lines (b64std_encode l) = b64std_encode l) as ->.
  { apply strip_lines_digits; [done|]. intros b. unfold std_padding. repeat case_match; set_solver. }
  rewrite Hlen, (Nat.mul_comm 4), Nat.Div0.mod_mul. cbn [Nat.eqb]. by rewrite strip_padding_digits.
Qed.

(** Text without padding whose length is not a multiple of four is refused by the
    standard decoding. *)
Lemma b64std_unpadded l : (length l mod 3 ≠ 0)%nat → b64std_decode (bytes_str (b64raw_encode l)) = None.
Proof.
  intros Hm. unfold b64std_decode. rewrite str_bytes_str. destruct (std_encoded l) as (_ & Hd & Hlen).
  pose proof (strip_lines_digits (b64raw_encode l) [] Hd) as Hs. rewrite app_nil_r in Hs. rewrite Hs; [|set_solver].
  unfold b64std_encode in Hlen. rewrite length_app in Hlen. destruct (length (b64raw_encode l) mod 4 =? 0)%nat eqn:E; [|done].
  apply Nat.eqb_eq, Nat.Div0.mod_divides in E as [k Hk]. unfold std_padding in Hlen.
  pose proof (Nat.mod_upper_bound (length l) 3 ltac:(lia)).
  destruct (length l mod 3)%nat as [|[|[|]]]; cbn [length] in Hlen; lia.
Qed.
