(* ===== verification/Server.v ===== *)
(** * The realtime server (server.go, telemetry.go, preview.go, audio_stream.go)

    The server's state, what it broadcasts and to whom, the messages it routes
    between browsers and agents, and the life of an agent connection.

    A handler is one function of the server state; it runs at the instant [now] and
    takes the random bytes it draws.  A message is the JSON object the connection
    received.  Generic JSON decoding into records, base64 and PNG decoding are
    parameters; whether a file could be written is an argument. *)

From S2P Require Import Prelude GoBase GoStrings GoFloat Model Store Config LoginLimiter Hub Auth Grants Base64.
From S2P Require Users Devices Shares Enrollments Assets Tasks.

(** ** State *)

Record redisEnvelope := MkEnvelope {
  reSource : string;
  reTargetDevice : string;
  reBroadcast : bool;
  reMessage : message
}.

(** A Redis bus: the id of this instance and what it published. *)
Record redisBus := MkBus { rbID : string; rbPublished : list redisEnvelope }.

Record Server := MkServer {
  svConfig : Config;
  svStore : MemoryStore;
  svHub : realtimeHub;
  svRedis : option redisBus;
  svMetrics : gmap string vmap;
  svPending : Z;
  svLimiter : loginLimiter;
  svSnapshots : gmap string bytes
}.

Definition with_store (g : MemoryStore → MemoryStore) (s : Server) : Server :=
  MkServer (svConfig s) (g (svStore s)) (svHub s) (svRedis s) (svMetrics s) (svPending s)
    (svLimiter s) (svSnapshots s).
Definition with_hub (g : realtimeHub → realtimeHub) (s : Server) : Server :=
  MkServer (svConfig s) (svStore s) (g (svHub s)) (svRedis s) (svMetrics s) (svPending s)
    (svLimiter s) (svSnapshots s).
Definition with_redis (g : option redisBus → option redisBus) (s : Server) : Server :=
  MkServer (svConfig s) (svStore s) (svHub s) (g (svRedis s)) (svMetrics s) (svPending s)
    (svLimiter s) (svSnapshots s).
Definition with_metrics (g : gmap string vmap → gmap string vmap) (s : Server) : Server :=
  MkServer (svConfig s) (svStore s) (svHub s) (svRedis s) (g (svMetrics s)) (svPending s)
    (svLimiter s) (svSnapshots s).
Definition with_pending (g : Z → Z) (s : Server) : Server :=
  MkServer (svConfig s) (svStore s) (svHub s) (svRedis s) (svMetrics s) (g (svPending s))
    (svLimiter s) (svSnapshots s).
Definition with_limiter (g : loginLimiter → loginLimiter) (s : Server) : Server :=
  MkServer (svConfig s) (svStore s) (svHub s) (svRedis s) (svMetrics s) (svPending s)
    (g (svLimiter s)) (svSnapshots s).
Definition with_snapshots (g : gmap string bytes → gmap string bytes) (s : Server) : Server :=
  MkServer (svConfig s) (svStore s) (svHub s) (svRedis s) (svMetrics s) (svPending s)
    (svLimiter s) (g (svSnapshots s)).

Definition newServer (config : Config) (store : MemoryStore) (redis : option redisBus) : Server :=
  let config := withSecurityDefaults config in
  MkServer config store newRealtimeHub redis ∅ 0
    (newLoginLimiter (cfLoginAttemptWindow config) (cfLoginMaxAttemptsPerAccount config)
       (cfLoginMaxAttemptsPerIP config)) ∅.

(** One tick of the maintenance goroutine. *)
Definition maintenance_tick (now : Time) (s : Server) : Server :=
  let retention := cfAuditRetention (svConfig s) in
  let retention := if retention <=? 0 then 90 * 24 * Hour else retention in
  with_store (Tasks.Clean now (Add now (- retention))) s.

(** ** Parameters *)

(** [json.Unmarshal] into the records of model.go and [png.DecodeConfig]. *)
Class Codec := {
  decode_devices : option value → option (list Device);
  decode_task : option value → option Task;
  decode_device_tags : option value → option (gmap string (list string));
  decode_device_info : vmap → option DeviceInfo;
  png_dimensions : bytes → option (Z * Z)
}.

(** ** net/url *)

Definition hex_digit (n : Z) : byte := if n <? 10 then byte_of (48 + n) else byte_of (65 + (n - 10)).
Definition unreserved (b : byte) : bool :=
  in_range b 97 122 || in_range b 65 90 || in_range b 48 57 ||
  bool_decide (b ∈ str_bytes "-_.~").
Definition percent (b : byte) : bytes :=
  [ch "%"; hex_digit (byte_val b / 16); hex_digit (byte_val b mod 16)].
Definition PathEscape (s : string) : string :=
  bytes_str (flat_map (λ b, if unreserved b || bool_decide (b ∈ str_bytes "$&+=:@") then [b]
                            else percent b) (str_bytes s)).
Definition QueryEscape (s : string) : string :=
  bytes_str (flat_map (λ b, if unreserved b then [b] else if is_byte b 32 then [ch "+"]
                            else percent b) (str_bytes s)).

Section server.
Context `{Crypto} {J : JWT} {G : GrantJSON} {C : Codec}.

(** ** Telemetry *)

(** [fmt.Sprintf("%x.png", sha256.Sum256(...))], the name in the snapshot directory. *)
Definition lower_hex (n : Z) : byte := if n <? 10 then byte_of (48 + n) else byte_of (97 + (n - 10)).
Definition hex (l : bytes) : string :=
  bytes_str (flat_map (λ b, [lower_hex (byte_val b / 16); lower_hex (byte_val b mod 16)]) l).
Definition snapshotPath (deviceID : string) : string := hex (sha256 (str_bytes deviceID)) +:+ ".png".

Definition normalizeNetworkMetrics (raw : vmap) : vmap :=
  let metrics := cloneMap raw in
  let unit := stringField metrics "network_speed_unit" in
  if decide (unit = "" ∨ unit = "B/s") then
    let scale (key : string) (m : vmap) :=
      match m !! key with
      | Some (VNum v) => <[key := VNum (fdiv v (float_of_Z 1024))]> m
      | _ => m
      end in
    <["network_speed_unit" := VStr "KiB/s"]> (scale "upload_speed" (scale "download_speed" metrics))
  else metrics.

Definition snapshotURL (deviceID : string) : string :=
  "/api/devices/" +:+ PathEscape deviceID +:+ "/snapshot".

Definition enrich (now : Time) (s : Server) (device : Device) : Device :=
  let device := match svSnapshots s !! snapshotPath (dID device) with
                | Some _ => set_dSnapshotURL (λ _, snapshotURL (dID device)) device
                | None => device
                end in
  if dOnline device then
    let clients := deviceClients now (dID device) (svHub s) in
    let device := set_dClientCount (λ _, Z.of_nat (length clients)) (set_dClients (λ _, clients) device) in
    match svMetrics s !! dID device with
    | Some metrics => set_dMetrics (λ _, metrics) device
    | None => device
    end
  else device.

Definition devicesFor (now : Time) (user : User) (s : Server) : list Device :=
  enrich now s <$> Devices.DevicesFor user (svStore s).

Definition canSeeTask (user : User) (task : Task) : bool :=
  if is_admin user || bool_decide (tCreatedBy task = uUsername user) then true
  else if negb (Can user "batch_tasks") then false
  else forallb (CanAccessDevice user) (map_to_list (tDevices task)).*1.

(** What one browser receives of a broadcast. *)
Definition filterBroadcast (peer : browserPeer) (raw : message) : option message :=
  let user := bpUser peer in
  let device_list devices :=
    if bool_decide (bpDeviceID peer ≠ "") then None
    else Some (MDeviceList (List.filter (λ d, CanAccessDevice user (dID d)) devices)) in
  let allowed_tags (tags : gmap string (list string)) : gmap string (list string) :=
    delete_if (λ id _, negb (CanAccessDevice user id)) tags in
  match raw with
  | MDeviceList devices => device_list devices
  | MTaskStatus task => if canSeeTask user task then Some raw else None
  | MTags tags deviceTags => Some (MTags tags (allowed_tags deviceTags))
  | MConfig _ _ => Some raw
  | MMsg m =>
      let id := stringField m "device_id" in
      if bool_decide (id ≠ "") && negb (CanAccessDevice user id) then None
      else
        let type := stringField m "message_type" in
        if decide (type = "device_list_update") then
          if bool_decide (bpDeviceID peer ≠ "") then None
          else match decode_devices (m !! "devices") with
               | None => None
               | Some devices => device_list devices
               end
        else if decide (type = "task_status_updated") then
          match decode_task (m !! "task") with
          | Some task => if canSeeTask user task then Some raw else None
          | None => None
          end
        else if decide (type = "tags_update") then
          match decode_device_tags (m !! "deviceTags") with
          | Some tags =>
              Some (MMsg ({[ "message_type" := VStr "tags_update";
                             "tags" := default VNull (m !! "tags");
                             "deviceTags" := VMap ((λ l, VList (VStr <$> l)) <$> allowed_tags tags) ]}))
          | None => Some raw
          end
        else Some raw
  end.

(** ** Sending *)

Definition broadcastMessage (m : message) : Server → Server := with_hub (broadcast filterBroadcast m).

Definition send_agent (deviceID : string) (m : vmap) (s : Server) : bool * Server :=
  let '(ok, h) := sendAgent deviceID (MMsg m) (svHub s) in (ok, with_hub (λ _, h) s).
Definition send_agent_ (deviceID : string) (m : vmap) (s : Server) : Server := snd (send_agent deviceID m s).

(** [_ = peer.socket.writeJSON(m)] *)
Definition reply (p : ptr) (m : message) : Server → Server :=
  with_hub (λ h, snd (write_peer p (FText m) h)).

Definition audit (buf : bytes) (now : Time) (user : User) (action target : string) (metadata : vmap)
    : Server → Server :=
  with_store (Store.Audit buf now (MkAuditEvent "" (uUsername user) action target metadata time_zero)).

(** redis_bus.go *)
Definition publish (e : redisEnvelope) : Server → Server :=
  with_redis (fmap (λ b, MkBus (rbID b) (rbPublished b ++
    [MkEnvelope (rbID b) (reTargetDevice e) (reBroadcast e) (reMessage e)]))).
Definition PublishAgent (deviceID : string) (m : message) := publish (MkEnvelope "" deviceID false m).
Definition PublishBroadcast (m : message) := publish (MkEnvelope "" "" true m).

(** One envelope taken from the channel. *)
Definition consume (e : redisEnvelope) (s : Server) : Server :=
  match svRedis s with
  | None => s
  | Some b =>
      if decide (reSource e = rbID b) then s
      else
        let s := if reBroadcast e then broadcastMessage (reMessage e) s else s in
        if decide (reTargetDevice e ≠ "")
        then with_hub (λ h, snd (sendAgent (reTargetDevice e) (reMessage e) h)) s else s
  end.

Definition broadcastTask (task : Task) (s : Server) : Server :=
  PublishBroadcast (MTaskStatus task) (broadcastMessage (MTaskStatus task) s).

Definition broadcastDeviceList (now : Time) (s : Server) : Server :=
  broadcastMessage (MDeviceList (devicesFor now (set_uRole (λ _, RoleAdmin) User_zero) s)) s.

Definition notifyTask (deviceID taskID : string) (s : Server) : Server :=
  let m := {[ "message_type" := VStr "task_available"; "task_id" := VStr taskID;
              "device_id" := VStr deviceID ]} in
  PublishAgent deviceID (MMsg m) (send_agent_ deviceID m s).

Definition iceServers (s : Server) : list vmap :=
  let c := svConfig s in
  match cfTurnURLs c with
  | [] => [{[ "urls" := VStr "stun:stun.l.google.com:19302" ]}]
  | urls =>
      let server : vmap := {[ "urls" := VList (VStr <$> urls) ]} in
      if bool_decide (cfTurnUsername c ≠ "") && bool_decide (cfTurnCredential c ≠ "")
      then [<["credential" := VStr (cfTurnCredential c)]> (<["username" := VStr (cfTurnUsername c)]> server)]
      else [server]
  end.

(** [saveSnapshot]; [saved] tells whether the file operations succeeded. *)
Definition saveSnapshot (saved : bool) (deviceID encoded : string) (s : Server) : option error * Server :=
  if Z.shiftl 1 20 <? len encoded then (Some (ErrMsg "snapshot too large"), s)
  else match b64std_decode encoded with
  | None => (Some (ErrMsg "base64"), s)
  | Some data =>
      match png_dimensions data with
      | Some (w, h) =>
          if (w <=? 0) || (h <=? 0) || (720 <? w) || (720 <? h)
          then (Some (ErrMsg "invalid thumbnail"), s)
          else if negb saved then (Some (ErrMsg "write snapshot"), s)
          else (None, broadcastMessage
                  (MMsg {[ "message_type" := VStr "snapshot_updated"; "device_id" := VStr deviceID;
                           "url" := VStr (snapshotURL deviceID) ]})
                  (with_snapshots (insert (snapshotPath deviceID) data) s))
      | None => (Some (ErrMsg "invalid thumbnail"), s)
      end
  end.

(** ** Browser messages *)

Definition syncPreview (deviceID : string) (s : Server) : Server :=
  match selectedPreviewRequest deviceID (svHub s) with
  | Some m => send_agent_ deviceID m s
  | None =>
      send_agent_ deviceID {[ "message_type" := VStr "stop_preview"; "device_id" := VStr deviceID ]} s
  end.

Definition error_message (type text : string) : message :=
  MMsg {[ "message_type" := VStr type; "error" := VStr text ]}.

(** [decodeRealtimeValue(raw, &targets)] for a list of strings.  A null element leaves
    what the backing array held: the initial [deviceID] at index 0, else the empty
    string. *)
Fixpoint decode_strings (l : list value) : option (list string) :=
  match l with
  | [] => Some []
  | VStr x :: l => match decode_strings l with Some r => Some (x :: r) | None => None end
  | VNull :: l => match decode_strings l with Some r => Some ("" :: r) | None => None end
  | _ => None
  end.
Definition decode_targets (deviceID : string) (v : value) : option (list string) :=
  match v with
  | VNull => Some []
  | VList (VNull :: l) => cons deviceID <$> decode_strings l
  | VList l => decode_strings l
  | _ => None
  end.

Definition inject_one (peer : browserPeer) (m : vmap) (id : string) (s : Server) : Server :=
  send_agent_ id (delete "target_device_ids" (<["device_id" := VStr id]> (withClient m (bpID peer)))) s.

Fixpoint inject_all (peer : browserPeer) (m : vmap) (seen : gset string) (targets : list string)
    (s : Server) : Server :=
  match targets with
  | [] => s
  | id :: targets =>
      if bool_decide (id = "") || negb (CanAccessDevice (bpUser peer) id) || bool_decide (id ∈ seen)
      then inject_all peer m seen targets s
      else inject_all peer m ({[ id ]} ∪ seen) targets (inject_one peer m id s)
  end.

Definition injectData (p : ptr) (peer : browserPeer) (deviceID : string) (m : vmap) (s : Server) : Server :=
  if bpViewOnly peer then reply p (error_message "error" "device control denied") s
  else match m !! "target_device_ids" with
  | None => inject_all peer m ∅ [deviceID] s
  | Some raw =>
      match decode_targets deviceID raw with
      | Some ((_ :: _) as targets) =>
          if (1000 <? Z.of_nat (length targets))
          then reply p (error_message "error" "invalid injection targets") s
          else inject_all peer m ∅ targets s
      | _ => reply p (error_message "error" "invalid injection targets") s
      end
  end.

Definition startBrowserAudio (p : ptr) (peer : browserPeer) (deviceID : string) (m : vmap) (s : Server)
    : Server :=
  let fail reason := reply p (error_message "audio_error" reason) in
  if bool_decide (deviceID = "") || negb (CanAccessDevice (bpUser peer) deviceID)
  then fail "无权访问设备音频" s
  else
    let m := <["audio" := VBool true]> m in
    let options := constrainedStreamOptions (bpUser peer) deviceID m (svStore s) in
    if negb (eq_true (options !! "audio")) then fail "管理员已关闭音频并锁定设置" s
    else
      let s := with_hub (subscribeAudio (bpID peer) deviceID) s in
      match send_agent deviceID (withClient options (bpID peer)) s with
      | (true, s) => s
      | (false, s) =>
          fail "设备离线，无法开启音频"
            (with_hub (λ h, snd (unsubscribeAudio (bpID peer) deviceID h)) s)
      end.

(** The message forwarded to the agent, with the flags of the session. *)
Definition forwarded_message (peer : browserPeer) (deviceID : string) (m : vmap) (st : MemoryStore) : vmap :=
  let fwd := <["permissions" := VMap {[ "control" := VBool (negb (bpViewOnly peer));
                                        "shell" := VBool (Can (bpUser peer) "shell") ]}]>
               (withClient m (bpID peer)) in
  match mapField fwd "payload" with
  | Some payload =>
      if decide (stringField payload "type" = "request-offer") then
        let raw := default ∅ (mapField payload "scrcpy_options") in
        <["payload" := VMap (<["scrcpy_options" :=
            VMap (constrainedStreamOptions (bpUser peer) deviceID raw st)]> payload)]> fwd
      else fwd
  | None => fwd
  end.

Definition group_targets (m : vmap) : list string :=
  match m !! "target_device_ids" with
  | Some (VList l) => (λ v, match v with VStr x => x | _ => "" end) <$> l
  | _ => []
  end.

Definition handle_connect (now : Time) (p : ptr) (peer : browserPeer) (m : vmap) (s : Server) : Server :=
  let deviceID := stringField m "device_id" in
  if bool_decide (deviceID = "") || negb (CanAccessDevice (bpUser peer) deviceID)
  then reply p (error_message "error" "device access denied") s
  else
    let s := with_hub (bindBrowser (bpID peer) deviceID) s in
    let info := dInfo <$> List.find (λ d, bool_decide (dID d = deviceID))
                            (Devices.DevicesFor (bpUser peer) (svStore s)) in
    let s := reply p (MConfig (iceServers s) info) s in
    let s := send_agent_ deviceID {[ "message_type" := VStr "client_connected";
      "client_id" := VStr (bpID peer); "user_id" := VStr (uID (bpUser peer)) ]} s in
    broadcastDeviceList now s.

Definition handle_file (buf : bytes) (now : Time) (p : ptr) (peer : browserPeer)
    (messageType deviceID : string) (m : vmap) (s : Server) : Server :=
  if bool_decide (deviceID = "") || bool_decide (bpDeviceID peer ≠ deviceID) ||
     negb (CanAccessDevice (bpUser peer) deviceID) || negb (Can (bpUser peer) "file_library")
  then reply p (error_message "file_error" "file access denied") s
  else if bool_decide (messageType = "file_chunk") && (Z.shiftl 88 10 <? len (stringField m "data"))
  then s
  else
    let s := if decide (messageType = "file_command") then
               let payload := default ∅ (mapField m "payload") in
               with_store (Store.Audit buf now (MkAuditEvent "" (uID (bpUser peer))
                 ("device_file." +:+ stringField payload "type") deviceID
                 {[ "path" := VStr (stringField payload "path") ]} time_zero)) s
             else s in
    match send_agent deviceID (withClient m (bpID peer)) s with
    | (true, s) => s
    | (false, s) => reply p (error_message "file_error" "device is offline") s
    end.

Definition handleBrowserMessage (buf : bytes) (now : Time) (p : ptr) (m : vmap) (s : Server) : Server :=
  match hPeers (svHub s) !! p with
  | None => s
  | Some peer =>
      let user := bpUser peer in
      let messageType := stringField m "message_type" in
      let deviceID := stringField m "device_id" in
      let deviceID := if decide (deviceID = "") then bpDeviceID peer else deviceID in
      let denied := bool_decide (deviceID = "") || negb (CanAccessDevice user deviceID) in
      let to_agent := send_agent_ deviceID (withClient m (bpID peer)) in
      if decide (messageType = "connect") then handle_connect now p peer m s
      else if decide (messageType = "start_audio") then startBrowserAudio p peer deviceID m s
      else if decide (messageType = "stop_audio") then
        if denied then s
        else match unsubscribeAudio (bpID peer) deviceID (svHub s) with
             | (true, h) => to_agent (with_hub (λ _, h) s)
             | (false, h) => with_hub (λ _, h) s
             end
      else if decide (messageType = "start_preview") then
        if denied then s
        else
          let s := with_hub (subscribePreview (bpID peer) deviceID) s in
          let m := constrainedStreamOptions user deviceID m (svStore s) in
          syncPreview deviceID (with_hub (setPreviewRequest (bpID peer) deviceID m) s)
      else if decide (messageType = "stop_preview") then
        if denied then s
        else syncPreview deviceID (with_hub (λ h, snd (unsubscribePreview (bpID peer) deviceID h)) s)
      else if decide (messageType = "inject_data") then injectData p peer deviceID m s
      else if decide (messageType = "forward") then
        if denied then s
        else send_agent_ deviceID (forwarded_message peer deviceID m (svStore s)) s
      else if decide (messageType = "quit_agent") then
        if bool_decide (deviceID = "") || negb (is_admin user) || negb (CanAccessDevice user deviceID)
        then reply p (error_message "error" "admin permission required") s
        else to_agent (audit buf now user "agent.stop" deviceID ∅ s)
      else if decide (messageType = "screenshot_request") then
        if denied then s else to_agent s
      else if decide (messageType ∈ ["file_open"; "file_command"; "file_chunk"]) then
        handle_file buf now p peer messageType deviceID m s
      else if decide (messageType ∈ ["command"; "pty_open"; "pty_input"; "pty_resize"; "pty_close"]) then
        if denied || negb (Can user "shell") then s else to_agent s
      else if decide (messageType = "group_control_event") then
        if bpViewOnly peer then s
        else foldl (λ s id, if bool_decide (id ≠ "") && CanAccessDevice user id
                            then send_agent_ id (withClient m (bpID peer)) s else s)
               s (group_targets m)
      else s
  end.

(** ** Browser connections (connectClient) *)

Definition connectClient (id : string) (p : ptr) (c : sock) (user : User) (viewOnly : bool)
    (access : browserAccess) : Server → Server :=
  with_hub (addBrowser p (MkPeer id user c "" viewOnly (baAccessToken access) (Some []))).

(** The deferred part, when the connection ends. *)
Definition disconnectClient (now : Time) (p : ptr) (s : Server) : Server :=
  match hPeers (svHub s) !! p with
  | None => s
  | Some peer =>
      let s := send_agent_ (bpDeviceID peer)
        {[ "message_type" := VStr "client_disconnected"; "client_id" := VStr (bpID peer) ]} s in
      let '(audio, h) := removeAudioBrowser (bpID peer) (svHub s) in
      let s := foldl (λ s d, send_agent_ d
        {[ "message_type" := VStr "stop_audio"; "device_id" := VStr d ]} s) (with_hub (λ _, h) s) audio in
      let '(previews, h) := removeBrowser (bpID peer) (svHub s) in
      let s := foldl (λ s d, syncPreview d s) (with_hub (λ _, h) s) previews in
      broadcastDeviceList now (with_hub (close (bpSocket peer)) s)
  end.

(** ** Agent messages *)

Definition relayed : list string :=
  ["device_msg"; "command_result"; "screenshot_response"; "file_message"; "pty_data"; "pty_opened";
   "pty_closed"; "pty_error"; "audio_error"; "capability_error"].

Definition dispatch_message (now : Time) (deviceID : string) (task : Task) (asset : option Asset)
    (s : Server) : vmap :=
  let dispatch : vmap :=
    {[ "message_type" := VStr "task_dispatch"; "task_id" := VStr (tID task); "type" := VStr (tType task);
       "payload" := VStr (tPayload task); "dest_path" := VStr (tDestPath task) ]} in
  match asset with
  | None => dispatch
  | Some asset =>
      <["download_url" := VStr (TrimRight (cfPublicURL (svConfig s)) "/" +:+ "/downloads/" +:+
          PathEscape (asName asset) +:+ "?grant=" +:+
          QueryEscape (issueDownloadGrant now (cfJWTSecret (svConfig s)) (asID asset) (tID task) deviceID))]>
        (<["asset_sha256" := VStr (asSHA256 asset)]> dispatch)
  end.

Definition handle_claim (now : Time) (deviceID : string) (m : vmap) (s : Server) : Server :=
  match Tasks.ClaimTask now (stringField m "task_id") deviceID (svStore s) with
  | (Err _, st) => with_store (λ _, st) s
  | (Ok task, st) =>
      let s := with_store (λ _, st) s in
      let dispatch asset :=
        broadcastTask task (send_agent_ deviceID (dispatch_message now deviceID task asset s) s) in
      if decide (tAssetID task ≠ "") then
        match Assets.AssetByID (tAssetID task) st with
        | Err _ => with_store (λ st, snd (Tasks.SetTaskStatus now (tID task) deviceID TaskFailed
                                            "asset unavailable" st)) s
        | Ok asset => dispatch (Some asset)
        end
      else dispatch None
  end.

Definition report_status (now : Time) (deviceID : string) (m : vmap) (status : TaskStatus) (res : string)
    (s : Server) : Server :=
  match Tasks.SetTaskStatus now (stringField m "task_id") deviceID status res (svStore s) with
  | (Ok task, st) => broadcastTask task (with_store (λ _, st) s)
  | (Err _, st) => with_store (λ _, st) s
  end.

Definition handleAgentMessage (saved : bool) (now : Time) (deviceID : string) (m : vmap) (s : Server)
    : Server :=
  let type := stringField m "message_type" in
  if decide (type = "heartbeat") then with_store (Devices.TouchDevice now deviceID) s
  else if decide (type = "clipboard") then with_hub (publishClipboard deviceID (MMsg m)) s
  else if decide (type = "device_info") then
    match mapField m "device_info" ≫= decode_device_info with
    | Some info =>
        broadcastDeviceList now (with_store (λ st, snd (Devices.UpsertAgentDevice now deviceID info st)) s)
    | None => s
    end
  else if decide (type ∈ relayed) then
    let clientID := stringField m "client_id" in
    if decide (clientID ≠ "")
    then with_hub (λ h, snd (sendBrowser clientID (MMsg (delete "client_id" m)) h)) s else s
  else if decide (type = "device_metrics") then
    match mapField m "metrics" with
    | Some metrics =>
        let metrics := normalizeNetworkMetrics metrics in
        broadcastMessage (MMsg {[ "type" := VStr "device_metrics"; "device_id" := VStr deviceID;
                                  "metrics" := VMap metrics ]})
          (with_metrics (insert deviceID metrics) s)
    | None => s
    end
  else if decide (type = "snapshot_update") then snd (saveSnapshot saved deviceID (stringField m "data") s)
  else if decide (type = "task_claim") then handle_claim now deviceID m s
  else if decide (type = "task_started") then report_status now deviceID m TaskRunning "" s
  else if decide (type = "task_result") then
    report_status now deviceID m
      (if decide (stringField m "status" = "success") then TaskSuccess else TaskFailed)
      (stringField m "result") s
  else s.

(** A binary message of an agent. *)
Definition handleAgentBinary (deviceID : string) (raw : bytes) (s : Server) : Server :=
  if validPreviewFrame deviceID raw then with_hub (publishPreview deviceID raw) s
  else if validAudioFrame deviceID raw then with_hub (publishAudio deviceID raw) s
  else s.

(** ** Agent connections (registerAgent) *)

(** Reserving one of the slots for connections that have not said hello. *)
Definition reserve_handshake (s : Server) : bool * Server :=
  if svPending s <? cfMaxPendingAgentHandshakes (svConfig s) then (true, with_pending (λ n, n + 1) s)
  else (false, s).
Definition release_handshake : Server → Server := with_pending (λ n, n - 1).

Record agentHello := MkHello {
  ahMessageType : string;
  ahDeviceID : string;
  ahEnrollmentToken : string;
  ahAgentToken : string;
  ahDeviceInfo : DeviceInfo
}.

(** Authenticating a hello: the agent token the connection may keep using. *)
Definition authenticate_hello (buf : bytes) (now : Time) (hello : agentHello) (s : Server)
    : result string * Server :=
  if bool_decide (ahMessageType hello ≠ "agent_hello") ||
     bool_decide (TrimSpace (ahDeviceID hello) = "") then (Err ErrInvalidToken, s)
  else if Enrollments.ValidateAgentToken (ahAgentToken hello) (ahDeviceID hello) (svStore s)
  then (Ok (ahAgentToken hello), s)
  else match Enrollments.ExchangeEnrollment buf now (ahEnrollmentToken hello) (ahDeviceID hello) (svStore s) with
  | (Ok credential, st) => (Ok (acToken credential), with_store (λ _, st) s)
  | (Err e, st) => (Err e, with_store (λ _, st) s)
  end.

(** The rest of the handshake, up to the read loop. *)
Definition register_agent (now : Time) (hello : agentHello) (agentToken : string) (c : sock) (s : Server)
    : Server :=
  let deviceID := ahDeviceID hello in
  let s := with_store (λ st, snd (Devices.UpsertAgentDevice now deviceID (ahDeviceInfo hello) st)) s in
  let '(previous, h) := setAgent deviceID c (svHub s) in
  let s := with_hub (λ _, h) s in
  let s := match previous with
           | Some old => if decide (old = c) then s else with_hub (close old) s
           | None => s
           end in
  let write m := with_hub (λ h, snd (writeJSON c (MMsg m) h)) in
  let s := write {[ "message_type" := VStr "agent_config"; "agent_token" := VStr agentToken;
                    "ice_servers" := VList (VMap <$> iceServers s);
                    "default_settings" := VMap (Devices.agentSettings deviceID (svStore s)) ]} s in
  let s := foldl (λ s taskID, write {[ "message_type" := VStr "task_available";
                                       "task_id" := VStr taskID; "device_id" := VStr deviceID ]} s)
             s (Tasks.PendingTasks now deviceID (svStore s)) in
  broadcastDeviceList now s.

(** [registerAgent] from the hello message on; [false] when the connection is refused. *)
Definition agent_hello (buf : bytes) (now : Time) (hello : agentHello) (c : sock) (s : Server)
    : bool * Server :=
  match authenticate_hello buf now hello s with
  | (Err _, s) =>
      let s := if bool_decide (ahMessageType hello = "agent_hello") &&
                  bool_decide (TrimSpace (ahDeviceID hello) ≠ "")
               then with_hub (λ h, snd (writeJSON c (error_message "error" "agent enrollment rejected") h)) s
               else s in
      (false, release_handshake (with_hub (close c) s))
  | (Ok token, s) => (true, register_agent now hello token c (release_handshake s))
  end.

(** The deferred part, when an accepted connection ends, in its three steps. *)
Definition agent_end_remove (deviceID : string) (c : sock) (s : Server) : bool * Server :=
  let '(removed, h) := removeAgent deviceID c (svHub s) in (removed, with_hub (λ _, h) s).
Definition agent_end_store (now : Time) (deviceID : string) (s : Server) : Server :=
  broadcastDeviceList now
    (with_store (λ st, Tasks.MarkLeasedUnknown now deviceID (Devices.MarkOffline now deviceID st)) s).
Definition agent_end (now : Time) (deviceID : string) (c : sock) (s : Server) : Server :=
  match agent_end_remove deviceID c s with
  | (true, s) => with_hub (close c) (agent_end_store now deviceID s)
  | (false, s) => with_hub (close c) s
  end.
End server.
