(* ===== verification/Routing.v ===== *)
(** * What the server sends, and to whom

    Theorems about the message routing of Server.v: which agents a browser can
    reach, which part of a broadcast a browser sees, and how connections of agents
    replace each other. *)

From S2P Require Import Prelude GoBase GoStrings GoFloat Model Store Config LoginLimiter Hub Auth Grants Server.
From S2P Require Users Devices Shares Enrollments Assets Tasks.

Section routing.
Context `{Crypto} {J : JWT} {G : GrantJSON} {C : Codec}.

(** ** Outputs

    [grows P h h']: between [h] and [h'] only writes satisfying [P] were made, no
    agent connected or disconnected, no browser was given another socket, and stored
    preview requests are still preview requests. *)
Definition typed_requests (h : realtimeHub) : Prop :=
  ∀ d b r, subscribers_of (hPreviewRequests h) d !! b = Some r →
    stringField (prMessage r) "message_type" = "start_preview".

Definition grows (P : sock * frame → Prop) (h h' : realtimeHub) : Prop :=
  hAgents h' = hAgents h ∧ (typed_requests h → typed_requests h') ∧
  (∀ p, bpSocket <$> hPeers h' !! p = bpSocket <$> hPeers h !! p) ∧
  ∃ new, hOut h' = hOut h ++ new ∧ Forall P new.

Definition browser_sock (h : realtimeHub) (c : sock) : Prop :=
  ∃ p peer, hPeers h !! p = Some peer ∧ bpSocket peer = c.

#[local] Instance grows_refl P : Reflexive (grows P).
Proof. intros h. split_and!; try done. exists []. by rewrite app_nil_r. Qed.

#[local] Instance grows_trans P : Transitive (grows P).
Proof.
  intros h1 h2 h3 (Ha & Hb & Hp & new & Ho & Hn) (Ha' & Hb' & Hp' & new' & Ho' & Hn').
  split_and!; [congruence|by auto|intros p; by rewrite Hp', Hp|].
  exists (new ++ new'). rewrite Ho', Ho, app_assoc. split; [done|]. by apply Forall_app.
Qed.

Lemma grows_typed P h h' : grows P h h' → typed_requests h → typed_requests h'.
Proof. by intros (_ & ? & _). Qed.

Lemma grows_agents P h h' : grows P h h' → hAgents h' = hAgents h.
Proof. by intros (? & _). Qed.

Lemma grows_sock P h h' c : grows P h h' → browser_sock h' c → browser_sock h c.
Proof.
  intros (_ & _ & Hp & _) (p & peer & Hpeer & Hc). specialize (Hp p). rewrite Hpeer in Hp. cbn in Hp.
  destruct (hPeers h !! p) as [x|] eqn:E; [|done]. cbn in Hp. exists p, x. split; congruence.
Qed.

Lemma grows_silent P h h' :
  hAgents h' = hAgents h → (typed_requests h → typed_requests h') →
  (∀ p, bpSocket <$> hPeers h' !! p = bpSocket <$> hPeers h !! p) → hOut h' = hOut h → grows P h h'.
Proof. intros. split_and!; try done. exists []. by rewrite app_nil_r. Qed.

Lemma grows_write P c f h : P (c, f) → grows P h (snd (write c f h)).
Proof.
  intros HP. unfold write. case_decide; [done|]. split_and!; try done. exists [(c, f)].
  split; [done|]. by repeat constructor.
Qed.

Lemma grows_write_all P f ps h :
  (∀ c x, browser_sock h c → P (c, x)) → grows P h (write_all f ps h).
Proof.
  intros HP. rewrite write_all_out. split_and!; try done. eexists. split; [done|].
  apply Forall_forall. intros [c x] Hin. apply list_elem_of_omap in Hin as (p & _ & Hd).
  unfold delivery in Hd. destruct (hPeers h !! p) as [peer|] eqn:E; [|done]. cbn in Hd.
  destruct (f peer); [|done]. cbn in Hd. case_decide; [done|]. injection Hd as <- <-.
  apply HP. by exists p, peer.
Qed.

Lemma grows_write_peer P p f h :
  (∀ c x, browser_sock h c → P (c, x)) → grows P h (snd (write_peer p f h)).
Proof.
  intros HP. unfold write_peer. destruct (hPeers h !! p) as [peer|] eqn:E; [|done].
  apply grows_write, HP. by exists p, peer.
Qed.

Lemma grows_foldl {A} P (g : Server → A → Server) l : ∀ s,
  (∀ s' x, x ∈ l → grows P (svHub s) (svHub s') → grows P (svHub s') (svHub (g s' x))) →
  grows P (svHub s) (svHub (foldl g s l)).
Proof.
  induction l as [|x l IH]; intros s Hg; [done|]. cbn [foldl].
  assert (grows P (svHub s) (svHub (g s x))) as H1 by (by apply Hg; [left|]).
  etrans; [done|]. apply IH. intros s' y Hy Hs'. apply Hg; [by right|]. by etrans.
Qed.

(** ** What a browser may send to a device *)

Definition shell_messages : list string := ["command"; "pty_open"; "pty_input"; "pty_resize"; "pty_close"].
Definition file_messages : list string := ["file_open"; "file_command"; "file_chunk"].

(** The messages of the server itself. *)
Definition server_messages : list string :=
  ["error"; "agent_config"; "agent_settings"; "task_available"; "task_dispatch"; "client_disconnected"].

(** The rights a message needs, beyond access to the device. *)
Definition allowed (peer : browserPeer) (d : string) (m : vmap) : Prop :=
  CanAccessDevice (bpUser peer) d = true ∧
  let type := stringField m "message_type" in
  (type ∈ shell_messages → Can (bpUser peer) "shell" = true) ∧
  (type ∈ file_messages → Can (bpUser peer) "file_library" = true ∧ bpDeviceID peer = d) ∧
  (type = "quit_agent" → is_admin (bpUser peer) = true) ∧
  (type ∈ ["inject_data"; "group_control_event"] → bpViewOnly peer = false) ∧
  (type ∈ server_messages → False) ∧
  (type ∈ shell_messages ++ file_messages ++ ["forward"] → stringField m "client_id" = bpID peer) ∧
  (type = "forward" → m !! "permissions" =
     Some (VMap {[ "control" := VBool (negb (bpViewOnly peer));
                   "shell" := VBool (Can (bpUser peer) "shell") ]})).

(** A write made on behalf of a browser: an answer or a broadcast to a browser, or a
    message the browser is allowed to send to the agent of some device. *)
Definition proper (h : realtimeHub) (peer : browserPeer) (x : sock * frame) : Prop :=
  browser_sock h (fst x) ∨
  ∃ d m, hAgents h !! d = Some (fst x) ∧ snd x = FText (MMsg m) ∧ allowed peer d m.

Section peer.
Context (h0 : realtimeHub) (peer : browserPeer).

Abbreviation P := (proper h0 peer).
Abbreviation Gr := (grows (proper h0 peer)).

Lemma proper_browser h : Gr h0 h → ∀ c x, browser_sock h c → P (c, x).
Proof. intros Hg c x Hc. left. by eapply grows_sock. Qed.

Lemma send_agent_grows s d m :
  Gr h0 (svHub s) → allowed peer d m → Gr h0 (svHub (snd (send_agent d m s))).
Proof.
  intros Hg Ha. etrans; [done|]. unfold send_agent, sendAgent. rewrite (grows_agents _ _ _ Hg).
  destruct (hAgents h0 !! d) as [c|] eqn:E; [|done].
  pose proof (grows_write P c (FText (MMsg m)) (svHub s)) as Hw. unfold writeJSON.
  destruct (write c (FText (MMsg m)) (svHub s)) as [ok h] eqn:Ew. cbn [snd] in Hw. apply Hw.
  right. by exists d, m.
Qed.

Lemma reply_grows s p m : Gr h0 (svHub s) → Gr h0 (svHub (reply p m s)).
Proof. intros Hg. etrans; [done|]. apply grows_write_peer. by apply proper_browser. Qed.

Lemma broadcast_grows s m : Gr h0 (svHub s) → Gr h0 (svHub (broadcastMessage m s)).
Proof. intros Hg. etrans; [done|]. apply grows_write_all. by apply proper_browser. Qed.

Lemma silent_grows s g :
  Gr h0 (svHub s) → hAgents (g (svHub s)) = hAgents (svHub s) →
  (typed_requests (svHub s) → typed_requests (g (svHub s))) →
  (∀ p, bpSocket <$> hPeers (g (svHub s)) !! p = bpSocket <$> hPeers (svHub s) !! p) →
  hOut (g (svHub s)) = hOut (svHub s) → Gr h0 (svHub (with_hub g s)).
Proof. intros Hg ????. etrans; [done|]. by apply grows_silent. Qed.

Lemma bind_grows s id d : Gr h0 (svHub s) → Gr h0 (svHub (with_hub (bindBrowser id d) s)).
Proof.
  intros Hg. apply silent_grows; unfold bindBrowser; destruct (hBrowsers (svHub s) !! id) as [q|];
    try done. intros p. cbn. destruct (decide (q = p)) as [->|].
  - rewrite lookup_alter_eq. by destruct (hPeers (svHub s) !! p).
  - by rewrite lookup_alter_ne.
Qed.

Lemma subscribe_grows s id d : Gr h0 (svHub s) → Gr h0 (svHub (with_hub (subscribePreview id d) s)).
Proof. intros Hg. apply silent_grows; unfold subscribePreview; by destruct (hBrowsers (svHub s) !! id). Qed.

Lemma audio_grows s id d : Gr h0 (svHub s) → Gr h0 (svHub (with_hub (subscribeAudio id d) s)).
Proof. intros Hg. apply silent_grows; unfold subscribeAudio; by destruct (hBrowsers (svHub s) !! id). Qed.

Lemma no_audio_grows s id d :
  Gr h0 (svHub s) → Gr h0 (svHub (with_hub (λ h, snd (unsubscribeAudio id d h)) s)).
Proof.
  intros Hg. apply silent_grows; unfold unsubscribeAudio;
    destruct (subscribers_of (hAudioSubscribers (svHub s)) d !! id); try case_decide; done.
Qed.

Lemma typed_delete id d h : typed_requests h → typed_requests (snd (unsubscribePreview id d h)).
Proof.
  intros Ht. unfold unsubscribePreview. destruct (hPreviewSubscribers h !! d) as [subs|]; [|done].
  case_decide; intros d' b r; cbn; unfold subscribers_of; destruct (decide (d = d')) as [->|].
  - by rewrite lookup_delete_eq.
  - rewrite lookup_delete_ne by done. apply Ht.
  - rewrite lookup_alter_eq. specialize (Ht d' b r). unfold subscribers_of in Ht.
    destruct (hPreviewRequests h !! d') as [reqs|]; cbn in *; [|done].
    intros [_ Hr]%lookup_delete_Some. auto.
  - rewrite lookup_alter_ne by done. apply Ht.
Qed.

Lemma no_preview_grows s id d :
  Gr h0 (svHub s) → Gr h0 (svHub (with_hub (λ h, snd (unsubscribePreview id d h)) s)).
Proof.
  intros Hg. apply silent_grows; try (unfold unsubscribePreview;
    destruct (hPreviewSubscribers (svHub s) !! d); try case_decide; done); try done.
  apply typed_delete.
Qed.

Lemma request_grows s id d m :
  Gr h0 (svHub s) → stringField m "message_type" = "start_preview" →
  Gr h0 (svHub (with_hub (setPreviewRequest id d m) s)).
Proof.
  intros Hg Hm. apply silent_grows; try done. intros Ht d' b r. cbn.
  rewrite subscribers_insert. case_decide; [|apply Ht]. subst.
  destruct (decide (id = b)) as [->|].
  - rewrite lookup_insert_eq. intros [= <-]. cbn. unfold withClient, stringField in *.
    by rewrite lookup_insert_ne.
  - rewrite lookup_insert_ne by done. apply Ht.
Qed.

(** Messages that need no right beyond access to the device. *)
Definition plain (type : string) : bool :=
  bool_decide (type ∉ shell_messages ++ file_messages ++
    ["quit_agent"; "inject_data"; "group_control_event"; "forward"] ++ server_messages).

Lemma allowed_plain d m :
  CanAccessDevice (bpUser peer) d = true → plain (stringField m "message_type") = true →
  allowed peer d m.
Proof.
  unfold plain, allowed. intros Ha Hp. bool_to_prop. rewrite !elem_of_app in Hp.
  split_and!; [done|..]; intros Ht; exfalso; apply Hp; rewrite ?Ht; try tauto; unfold server_messages in *; set_solver.
Qed.

Lemma type_insert key v m :
  key ≠ "message_type" → stringField (<[key := v]> m) "message_type" = stringField m "message_type".
Proof. intros Hk. unfold stringField. by rewrite lookup_insert_ne. Qed.

Lemma client_client id m : stringField (withClient m id) "client_id" = id.
Proof. unfold stringField, withClient. by rewrite lookup_insert_eq. Qed.

Lemma type_client id m : stringField (withClient m id) "message_type" = stringField m "message_type".
Proof. by apply type_insert. Qed.

Lemma type_constrained user d m st :
  stringField (constrainedStreamOptions user d m st) "message_type" = stringField m "message_type".
Proof.
  unfold stringField. rewrite constrained_unlocked, decide_False; [done|..].
  - unfold hidden_keys. case_match; set_solver.
  - unfold locked_keys. repeat case_match; set_solver.
Qed.

Lemma foldl_better_in l : ∀ sel r, foldl better sel l = Some r → sel = Some r ∨ r ∈ l.
Proof.
  induction l as [|x l IH]; intros sel r; cbn [foldl]; [by left|]. intros [Hb|]%IH; [|set_solver].
  destruct sel as [y|]; cbn in Hb; [|set_solver]. case_match; [|by left].
  injection Hb as <-. right. by left.
Qed.

Lemma syncPreview_grows s d :
  Gr h0 (svHub s) → typed_requests h0 → CanAccessDevice (bpUser peer) d = true →
  Gr h0 (svHub (syncPreview d s)).
Proof.
  intros Hg Ht Ha. unfold syncPreview, selectedPreviewRequest, select_requests.
  rewrite select_requests_fold. pose proof (grows_typed _ _ _ Hg Ht) as Ht'.
  destruct (foldl better None _) as [r|] eqn:E; cbn [selected_message].
  - apply send_agent_grows; [done|]. apply allowed_plain; [done|]. unfold cloneMap.
    rewrite !type_insert by done. apply foldl_better_in in E as [|Hin]; [done|].
    apply elem_of_map_values in Hin as (b & Hb). rewrite (Ht' _ _ _ Hb). by vm_compute.
  - apply send_agent_grows; [done|]. apply allowed_plain; [done|]. by vm_compute.
Qed.


Lemma device_list_grows s now : Gr h0 (svHub s) → Gr h0 (svHub (broadcastDeviceList now s)).
Proof. apply broadcast_grows. Qed.

Lemma audit_grows s buf now u a t md : Gr h0 (svHub s) → Gr h0 (svHub (audit buf now u a t md s)).
Proof. done. Qed.

Lemma connect_grows s now p m : Gr h0 (svHub s) → Gr h0 (svHub (handle_connect now p peer m s)).
Proof.
  intros Hg. unfold handle_connect. destruct (_ || _) eqn:E; [by apply reply_grows|]. bool_to_prop.
  apply device_list_grows, send_agent_grows; [by apply reply_grows, bind_grows|].
  apply allowed_plain; [done|by vm_compute].
Qed.

Lemma start_audio_grows s p d m :
  Gr h0 (svHub s) → stringField m "message_type" = "start_audio" →
  Gr h0 (svHub (startBrowserAudio p peer d m s)).
Proof.
  intros Hg Hm. unfold startBrowserAudio. destruct (_ || _) eqn:E; [by apply reply_grows|].
  destruct (negb (eq_true _)); [by apply reply_grows|]. bool_to_prop.
  set (options := constrainedStreamOptions _ _ _ _).
  assert (allowed peer d (withClient options (bpID peer))) as Ha.
  { apply allowed_plain; [done|]. unfold options.
    rewrite type_client, type_constrained, type_insert, Hm by done. by vm_compute. }
  pose proof (send_agent_grows (with_hub (subscribeAudio (bpID peer) d) s) d _
    (audio_grows s (bpID peer) d Hg) Ha) as Hs.
  destruct (send_agent d (withClient options (bpID peer)) _) as [[] s']; [done|].
  by apply reply_grows, no_audio_grows.
Qed.

(** Close a goal that follows from a false membership or equality of literals. *)
Ltac wrong_type :=
  match goal with
  | |- (?x ∈ ?l) → _ =>
      let Hin := fresh in
      intros Hin; exfalso; revert Hin; apply (bool_decide_unpack (x ∉ l)); by vm_compute
  | |- (?x = ?y) → _ => done
  end.

(** Case analysis on the literal a message type is. *)
Ltac each_type Ht :=
  repeat match type of Ht with
  | _ ∈ _ :: _ => apply elem_of_cons in Ht as [Ht|Ht]
  | _ ∈ [] => by apply not_elem_of_nil in Ht
  end.

Lemma allowed_control d m :
  CanAccessDevice (bpUser peer) d = true → bpViewOnly peer = false →
  stringField m "message_type" ∈ ["inject_data"; "group_control_event"] → allowed peer d m.
Proof.
  intros Ha Hv Ht. unfold allowed. cbv zeta. each_type Ht; rewrite Ht; split_and!; try done; wrong_type.
Qed.

Lemma allowed_file d m :
  CanAccessDevice (bpUser peer) d = true → Can (bpUser peer) "file_library" = true →
  bpDeviceID peer = d → stringField m "message_type" ∈ file_messages → stringField m "client_id" = bpID peer →
  allowed peer d m.
Proof.
  intros Ha Hv Hd Ht Hc. unfold allowed, file_messages in *. cbv zeta. each_type Ht; rewrite Ht; split_and!; try done; wrong_type.
Qed.

Lemma allowed_shell d m :
  CanAccessDevice (bpUser peer) d = true → Can (bpUser peer) "shell" = true →
  stringField m "message_type" ∈ shell_messages → stringField m "client_id" = bpID peer → allowed peer d m.
Proof.
  intros Ha Hv Ht Hc. unfold allowed, shell_messages in *. cbv zeta. each_type Ht; rewrite Ht; split_and!; try done; wrong_type.
Qed.

Lemma allowed_quit d m :
  CanAccessDevice (bpUser peer) d = true → is_admin (bpUser peer) = true →
  stringField m "message_type" = "quit_agent" → allowed peer d m.
Proof. intros Ha Hv Ht. unfold allowed. cbv zeta. rewrite Ht; split_and!; try done; wrong_type. Qed.

Lemma allowed_forward d m st :
  CanAccessDevice (bpUser peer) d = true → stringField m "message_type" = "forward" →
  allowed peer d (forwarded_message peer d m st).
Proof.
  intros Ha Ht.
  assert (stringField (forwarded_message peer d m st) "message_type" = "forward" ∧
    forwarded_message peer d m st !! "permissions" =
      Some (VMap {[ "control" := VBool (negb (bpViewOnly peer));
                    "shell" := VBool (Can (bpUser peer) "shell") ]}) ∧
    stringField (forwarded_message peer d m st) "client_id" = bpID peer) as (Hf & Hp & Hc).
  { unfold forwarded_message. set (fwd := <["permissions" := _]> _).
    assert (stringField fwd "message_type" = "forward") as Hfwd
      by (unfold fwd; by rewrite type_insert, type_client).
    assert (fwd !! "permissions" = Some (VMap {[ "control" := VBool (negb (bpViewOnly peer));
      "shell" := VBool (Can (bpUser peer) "shell") ]})) as Hperm by apply lookup_insert_eq.
    assert (stringField fwd "client_id" = bpID peer) as Hclient.
    { unfold fwd, stringField. rewrite lookup_insert_ne by done. apply client_client. }
    destruct (mapField fwd "payload") as [payload|]; [|done]. case_decide; [|done].
    unfold stringField in *. by rewrite !lookup_insert_ne. }
  unfold allowed. cbv zeta. rewrite Hf. split_and!; try done; wrong_type.
Qed.

Lemma inject_grows m l : stringField m "message_type" = "inject_data" → bpViewOnly peer = false →
  ∀ seen s, Gr h0 (svHub s) → Gr h0 (svHub (inject_all peer m seen l s)).
Proof.
  intros Hm Hv. induction l as [|d l IH]; intros seen s Hg; [done|]. cbn [inject_all].
  destruct (_ || _) eqn:E; [by apply IH|]. bool_to_prop. apply IH, send_agent_grows; [done|].
  apply allowed_control; [done|done|]. unfold stringField.
  rewrite lookup_delete_ne, lookup_insert_ne by done. fold (stringField (withClient m (bpID peer)) "message_type").
  rewrite type_client, Hm. by left.
Qed.

Lemma injectData_grows s p d m :
  Gr h0 (svHub s) → stringField m "message_type" = "inject_data" →
  Gr h0 (svHub (injectData p peer d m s)).
Proof.
  intros Hg Hm. unfold injectData. destruct (bpViewOnly peer) eqn:Hv; [by apply reply_grows|].
  destruct (m !! "target_device_ids") as [raw|]; [|by apply inject_grows].
  destruct (decode_targets _ raw) as [[|x l]|]; [by apply reply_grows| |by apply reply_grows].
  case_match; [by apply reply_grows|by apply inject_grows].
Qed.

Lemma file_grows s buf now p type d m :
  Gr h0 (svHub s) → stringField m "message_type" = type → type ∈ file_messages →
  Gr h0 (svHub (handle_file buf now p peer type d m s)).
Proof.
  intros Hg Hm Hty. unfold handle_file. destruct (_ || _) eqn:E; [by apply reply_grows|].
  destruct (_ && _); [done|]. apply orb_false_iff in E as [E E3]. apply orb_false_iff in E as [E E2].
  apply orb_false_iff in E as [_ E1]. bool_to_prop. apply dec_stable in E1.
  set (s1 := if decide (type = "file_command") then _ else s).
  assert (Gr h0 (svHub s1)) as Hg1 by (unfold s1; by case_decide).
  assert (allowed peer d (withClient m (bpID peer))) as Ha
    by (apply allowed_file; [done..|by rewrite type_client, Hm|apply client_client]).
  pose proof (send_agent_grows s1 d _ Hg1 Ha) as Hs.
  destruct (send_agent d _ s1) as [[] s']; [done|]. by apply reply_grows.
Qed.

Lemma group_grows s m :
  Gr h0 (svHub s) → stringField m "message_type" = "group_control_event" → bpViewOnly peer = false →
  Gr h0 (svHub (foldl (λ s id, if bool_decide (id ≠ "") && CanAccessDevice (bpUser peer) id
     then send_agent_ id (withClient m (bpID peer)) s else s) s (group_targets m))).
Proof.
  intros Hg Hm Hv. generalize (group_targets m) as l. intros l. revert s Hg.
  induction l as [|d l IH]; intros s Hg; [done|]. cbn [foldl]. apply IH.
  destruct (_ && _) eqn:E; [|done]. bool_to_prop. apply send_agent_grows; [done|].
  apply allowed_control; [done|done|]. rewrite type_client, Hm. right. by left.
Qed.

Lemma stop_audio_grows s d m :
  Gr h0 (svHub s) → CanAccessDevice (bpUser peer) d = true →
  plain (stringField m "message_type") = true →
  Gr h0 (svHub match unsubscribeAudio (bpID peer) d (svHub s) with
    | (true, h) => send_agent_ d (withClient m (bpID peer)) (with_hub (λ _, h) s)
    | (false, h) => with_hub (λ _, h) s end).
Proof.
  intros Hg Ha Hm. pose proof (no_audio_grows s (bpID peer) d Hg) as Hs.
  destruct (unsubscribeAudio (bpID peer) d (svHub s)) as [[] h] eqn:E; cbn in Hs; rewrite E in Hs; [|done].
  apply send_agent_grows; [done|]. apply allowed_plain; [done|]. by rewrite type_client.
Qed.
End peer.

(** ** Properties *)

(** The writes of a message from a browser. *)
Lemma browser_message_grows buf now p peer m s : typed_requests (svHub s) → hPeers (svHub s) !! p = Some peer →
  grows (proper (svHub s) peer) (svHub s) (svHub (handleBrowserMessage buf now p m s)).
Proof.
  intros Ht Hp. unfold handleBrowserMessage. rewrite Hp. set (h0 := svHub s).
  assert (grows (proper h0 peer) h0 (svHub s)) as Hg by done.
  set (d := if decide (stringField m "device_id" = "") then _ else _).
  repeat (case_decide as Hty; [|clear Hty]).
  - by apply connect_grows.
  - by apply start_audio_grows.
  - destruct (_ || _) eqn:E; [done|]. bool_to_prop. apply stop_audio_grows; try done.
    rewrite Hty. by vm_compute.
  - destruct (_ || _) eqn:E; [done|]. bool_to_prop. apply syncPreview_grows; [|done|done].
    apply request_grows; [by apply subscribe_grows|]. by rewrite type_constrained.
  - destruct (_ || _) eqn:E; [done|]. bool_to_prop. apply syncPreview_grows; [|done|done].
    by apply no_preview_grows.
  - by apply injectData_grows.
  - destruct (_ || _) eqn:E; [done|]. bool_to_prop. apply send_agent_grows; [done|].
    by apply allowed_forward.
  - destruct (_ || _) eqn:E; [by apply reply_grows|]. bool_to_prop. apply send_agent_grows; [done|].
    apply allowed_quit; [done|done|]. by rewrite type_client.
  - destruct (_ || _) eqn:E; [done|]. bool_to_prop. apply send_agent_grows; [done|].
    apply allowed_plain; [done|]. rewrite type_client, Hty. by vm_compute.
  - by apply file_grows.
  - destruct (_ || _ || _) eqn:E; [done|]. bool_to_prop. apply send_agent_grows; [done|].
    apply allowed_shell; [done|done|by rewrite type_client|apply client_client].
  - destruct (bpViewOnly peer) eqn:Hv; [done|]. by apply group_grows.
  - done.
Qed.

(** C1: A browser reaches only what it may reach.  Whatever message a browser sends,
    all that is written is answers and broadcasts to browsers, and messages to agents
    of devices its user can access; shell messages only with the shell permission,
    file messages only with the file permission and for the connected device, stop
    requests only for administrators, injected and group input never from a view-only
    connection, never a message of the server's own kinds, terminals, files and viewers
    only under its own client id, and forwarded messages carry the control and shell
    flags of the session, whatever the browser put there. *)
Theorem browser_messages_authorised buf now p peer m s :
  typed_requests (svHub s) → hPeers (svHub s) !! p = Some peer →
  let s' := handleBrowserMessage buf now p m s in
  typed_requests (svHub s') ∧ hAgents (svHub s') = hAgents (svHub s) ∧
  ∃ new, hOut (svHub s') = hOut (svHub s) ++ new ∧
    ∀ c f, (c, f) ∈ new →
      browser_sock (svHub s) c ∨
      ∃ d m', hAgents (svHub s) !! d = Some c ∧ f = FText (MMsg m') ∧ allowed peer d m'.
Proof.
  intros Ht Hp s'.
  destruct (browser_message_grows buf now p peer m s Ht Hp) as (Ha & Htr & _ & new & Ho & Hn).
  split_and!; [by apply Htr|done|]. exists new. split; [done|].
  intros c f Hin. rewrite Forall_forall in Hn. destruct (Hn _ Hin) as [?|(d & m' & ? & ? & ?)]; [by left|].
  right. by exists d, m'.
Qed.

(** Frame [f] on socket [c] is what the filter leaves of [m] for a connected browser. *)
Definition shown (h : realtimeHub) (m : message) (c : sock) (f : frame) : Prop :=
  ∃ b p peer m', hBrowsers h !! b = Some p ∧ hPeers h !! p = Some peer ∧
    bpSocket peer = c ∧ (c ∉ hDown h) ∧ filterBroadcast peer m = Some m' ∧ f = FText m'.

(** C3: A broadcast reaches exactly the connected browsers whose filter lets it
    through, and the filter shows a browser only what its user may see: of a device
    list the accessible devices, and only while it is not bound to a device; a task
    only if the user created it, or has the batch permission and access to all of its
    devices, or is an administrator; the tags of accessible devices; and no event of
    an inaccessible device. *)
Theorem broadcast_visibility m h peer :
  (∃ new, hOut (broadcast filterBroadcast m h) = hOut h ++ new ∧
     ∀ c f, (c, f) ∈ new ↔ shown h m c f) ∧
  (∀ devices, filterBroadcast peer (MDeviceList devices) =
     (if decide (bpDeviceID peer = "")
      then Some (MDeviceList (List.filter (λ d, CanAccessDevice (bpUser peer) (dID d)) devices))
      else None)) ∧
  (∀ task, filterBroadcast peer (MTaskStatus task) = Some (MTaskStatus task) ↔
     is_admin (bpUser peer) = true ∨ tCreatedBy task = uUsername (bpUser peer) ∨
     Can (bpUser peer) "batch_tasks" = true ∧
       ∀ d, is_Some (tDevices task !! d) → CanAccessDevice (bpUser peer) d = true) ∧
  (∀ tags assigned m', filterBroadcast peer (MTags tags assigned) = Some m' →
     ∃ assigned', m' = MTags tags assigned' ∧ ∀ d, assigned' !! d =
       (if CanAccessDevice (bpUser peer) d then assigned !! d else None)) ∧
  (∀ msg d, msg !! "device_id" = Some (VStr d) → d ≠ "" →
     CanAccessDevice (bpUser peer) d = false → filterBroadcast peer (MMsg msg) = None).
Proof.
  split_and!.
  - unfold broadcast. rewrite write_all_out. eexists. split; [done|]. intros c f. unfold shown.
    rewrite list_elem_of_omap. setoid_rewrite elem_of_map_values. split.
    + intros (p & (b & Hb) & Hd). unfold delivery in Hd.
      destruct (hPeers h !! p) as [pr|] eqn:E; [|done]. cbn in Hd.
      destruct (filterBroadcast pr m) as [m'|] eqn:Ef; [|done]. cbn in Hd. case_decide; [done|].
      injection Hd as <- <-. eauto 12.
    + intros (b & p & pr & m' & Hb & Hp & <- & Hd & Hf & ->). exists p. split; [eauto|].
      unfold delivery. rewrite Hp. cbn. rewrite Hf. cbn. by rewrite decide_False.
  - intros devices. cbn. destruct (decide (bpDeviceID peer = "")) as [E|E].
    + by rewrite bool_decide_eq_false_2 by tauto.
    + by rewrite bool_decide_eq_true_2.
  - intros task. cbn. unfold canSeeTask.
    destruct (is_admin (bpUser peer)); cbn [orb]; [by split; [left|]|].
    destruct (bool_decide (tCreatedBy task = _)) eqn:E; bool_to_prop; [by split; [right; left|]|].
    destruct (Can (bpUser peer) "batch_tasks"); cbn [negb]; [|split; [done|naive_solver]].
    destruct (forallb _ _) eqn:Ef.
    + split; [|done]. intros _. right. right. split; [done|]. intros d [x Hx].
      rewrite forallb_forall in Ef. apply Ef, list_elem_of_In, list_elem_of_fmap.
      exists (d, x). split; [done|]. by apply elem_of_map_to_list.
    + split; [done|]. intros [?|[?|[_ Hall]]]; [done|done|]. exfalso. apply not_true_iff_false in Ef.
      apply Ef, forallb_forall. intros d Hin. apply list_elem_of_In, list_elem_of_fmap in Hin as ([d' x] & -> & Hx).
      apply Hall. exists x. by apply elem_of_map_to_list.
  - intros tags assigned m' [= <-]. eexists. split; [done|]. intros d. rewrite lookup_delete_if.
    destruct (assigned !! d); by destruct (CanAccessDevice (bpUser peer) d).
  - intros msg d Hd Hne Ha. assert (stringField msg "device_id" = d) as Hf by (unfold stringField; by rewrite Hd).
    unfold filterBroadcast. rewrite Hf, Ha. by rewrite bool_decide_eq_true_2.
Qed.

(** ** Agent connections *)

Lemma write_all_frame f ps h :
  hAgents (write_all f ps h) = hAgents h ∧ hDown (write_all f ps h) = hDown h.
Proof. by rewrite write_all_out. Qed.

(** The effect of a registration on the store and on the set of agents. *)
Lemma register_agent_effect now hello tok c s :
  let s' := register_agent now hello tok c s in
  svStore s' = snd (Devices.UpsertAgentDevice now (ahDeviceID hello) (ahDeviceInfo hello) (svStore s)) ∧
  hAgents (svHub s') = <[ahDeviceID hello := c]> (hAgents (svHub s)) ∧
  (∀ old, hAgents (svHub s) !! ahDeviceID hello = Some old → old ≠ c → old ∈ hDown (svHub s')).
Proof.
  unfold register_agent. set (st := snd (Devices.UpsertAgentDevice _ _ _ (svStore s))).
  cbn [with_store svHub setAgent].
  set (s1 := with_hub _ (with_store _ s)).
  set (s2 := match hAgents (svHub s) !! ahDeviceID hello with Some _ => _ | None => s1 end).
  assert (svStore s2 = st ∧ hAgents (svHub s2) = <[ahDeviceID hello := c]> (hAgents (svHub s)) ∧
    (∀ old, hAgents (svHub s) !! ahDeviceID hello = Some old → old ≠ c → old ∈ hDown (svHub s2)))
    as (Hst & Ha & Hd).
  { unfold s2. destruct (hAgents (svHub s) !! ahDeviceID hello) as [o|]; [|by split_and!].
    case_decide; (split_and!; [done|done|]); intros old [= ->] Hne; [congruence|].
    cbn. set_solver. }
  clearbody s2. clear s1.
  assert (∀ m h, hAgents (snd (writeJSON c m h)) = hAgents h ∧ hDown (snd (writeJSON c m h)) = hDown h) as Hw.
  { intros m h. unfold writeJSON. by destruct (write_frame c (FText m) h) as (_ & _ & _ & _ & _ & ? & ?). }
  assert (∀ (g : string → vmap) l s, let s' := foldl (λ s t, with_hub (λ h, snd (writeJSON c (MMsg (g t)) h)) s) s l in
    svStore s' = svStore s ∧ hAgents (svHub s') = hAgents (svHub s) ∧ hDown (svHub s') = hDown (svHub s)) as Hfold.
  { intros g. induction l as [|t l IH]; intros s0; [done|]. cbn [foldl].
    destruct (IH (with_hub (λ h, snd (writeJSON c (MMsg (g t)) h)) s0)) as (-> & -> & ->).
    cbn. by destruct (Hw (MMsg (g t)) (svHub s0)) as (-> & ->). }
  set (s3 := with_hub (λ h, snd (writeJSON c _ h)) s2).
  assert (svStore s3 = st ∧ hAgents (svHub s3) = hAgents (svHub s2) ∧ hDown (svHub s3) = hDown (svHub s2)) as (H1 & H2 & H3).
  { unfold s3. cbn. split; [done|]. apply Hw. }
  unfold broadcastDeviceList, broadcastMessage. cbn [with_hub svStore svHub].
  unfold broadcast. rewrite (proj1 (write_all_frame _ _ _)), (proj2 (write_all_frame _ _ _)).
  match goal with |- context [foldl (λ s t, _) s3 ?l] =>
    destruct (Hfold (λ taskID, {[ "message_type" := VStr "task_available"; "task_id" := VStr taskID;
      "device_id" := VStr (ahDeviceID hello) ]}) l s3) as (-> & -> & ->) end.
  rewrite H1, H2, H3. by split_and!.
Qed.

Lemma agent_end_stale now d c s :
  hAgents (svHub s) !! d ≠ Some c →
  svStore (agent_end now d c s) = svStore s ∧ hAgents (svHub (agent_end now d c s)) = hAgents (svHub s).
Proof. intros Hc. unfold agent_end, agent_end_remove, removeAgent. by rewrite decide_False. Qed.

Lemma agent_end_store_effect now d s :
  svStore (agent_end_store now d s) =
    Tasks.MarkLeasedUnknown now d (Devices.MarkOffline now d (svStore s)) ∧
  hAgents (svHub (agent_end_store now d s)) = hAgents (svHub s).
Proof.
  unfold agent_end_store, broadcastDeviceList, broadcastMessage. cbn [with_hub svStore svHub].
  unfold broadcast. by rewrite (proj1 (write_all_frame _ _ _)).
Qed.

Lemma agent_end_current now d c s :
  hAgents (svHub s) !! d = Some c →
  svStore (agent_end now d c s) =
    Tasks.MarkLeasedUnknown now d (Devices.MarkOffline now d (svStore s)) ∧
  hAgents (svHub (agent_end now d c s)) = delete d (hAgents (svHub s)).
Proof.
  intros Hc. unfold agent_end, agent_end_remove, removeAgent. rewrite decide_True by done.
  cbn [with_hub svStore svHub close hAgents set_hDown].
  by destruct (agent_end_store_effect now d (with_hub (λ _, set_hAgents (delete d) (svHub s)) s)) as [-> ->].
Qed.

Lemma registered_device now id info st :
  ∃ dev, ms_devices (snd (Devices.UpsertAgentDevice now id info st)) !! id = Some dev ∧
    dOnline dev = true ∧ dInfo dev = info.
Proof. cbn. rewrite lookup_insert_eq. by eexists. Qed.

Lemma offline_device now id st dev :
  ms_devices st !! id = Some dev →
  ∃ dev', ms_devices (Devices.MarkOffline now id st) !! id = Some dev' ∧ dOnline dev' = false.
Proof. intros Hd. unfold Devices.MarkOffline. rewrite Hd. cbn. rewrite lookup_insert_eq. by eexists. Qed.

Lemma MarkOffline_tasks now id st : ms_tasks (Devices.MarkOffline now id st) = ms_tasks st.
Proof. unfold Devices.MarkOffline. by destruct (ms_devices st !! id). Qed.

(** An agent that reconnects before its old connection is noticed to be dead stays
    registered: the old connection is closed, its end changes neither the store nor
    the registered agents, and the device stays online; when the current connection
    ends, the device goes offline, no agent is registered for it, and no task stays
    leased or running on it. *)
Theorem agent_reconnect t1 t2 t3 t4 hello hello' tok tok' c c' d s s1 s2 s3 s4 :
  ahDeviceID hello = d → ahDeviceID hello' = d → c ≠ c' →
  s1 = register_agent t1 hello tok c s → s2 = register_agent t2 hello' tok' c' s1 →
  s3 = agent_end t3 d c s2 → s4 = agent_end t4 d c' s3 →
  c ∈ hDown (svHub s2) ∧ svStore s3 = svStore s2 ∧ hAgents (svHub s3) !! d = Some c' ∧
  (∃ dev, ms_devices (svStore s3) !! d = Some dev ∧ dOnline dev = true ∧ dInfo dev = ahDeviceInfo hello') ∧
  hAgents (svHub s4) !! d = None ∧
  (∃ dev, ms_devices (svStore s4) !! d = Some dev ∧ dOnline dev = false) ∧
  (∀ t st, Tasks.device_status (svStore s3) t d = Some st →
     Tasks.device_status (svStore s4) t d =
       Some (if decide (st = TaskLeased ∨ st = TaskRunning) then TaskUnknown else st)) ∧
  (∀ d', d' ≠ d → hAgents (svHub s4) !! d' = hAgents (svHub s) !! d').
Proof.
  intros Hd Hd' Hne Hs1 Hs2 Hs3 Hs4.
  pose proof (register_agent_effect t1 hello tok c s) as E1. rewrite <-Hs1, Hd in E1.
  pose proof (register_agent_effect t2 hello' tok' c' s1) as E2. rewrite <-Hs2, Hd' in E2.
  pose proof (agent_end_stale t3 d c s2) as E3. rewrite <-Hs3 in E3.
  pose proof (agent_end_current t4 d c' s3) as E4. rewrite <-Hs4 in E4.
  clear Hs1 Hs2 Hs3 Hs4.
  destruct E1 as (_ & Ha1 & _). destruct E2 as (Hst2 & Ha2 & Hdown).
  assert (hAgents (svHub s2) !! d = Some c') as Hc2 by (rewrite Ha2; apply lookup_insert_eq).
  destruct E3 as [Hst3 Ha3]; [congruence|]. destruct E4 as [Hst4 Ha4]; [by rewrite Ha3|].
  destruct (registered_device t2 d (ahDeviceInfo hello') (svStore s1)) as (dev & Hdev & Hon & Hinfo).
  rewrite <-Hst2, <-Hst3 in Hdev.
  split_and!; try done.
  - apply Hdown; [rewrite Ha1; apply lookup_insert_eq|done].
  - by rewrite Ha3.
  - by exists dev.
  - by rewrite Ha4, lookup_delete_eq.
  - rewrite Hst4. by apply (offline_device t4 d (svStore s3) dev).
  - intros t st Hs. rewrite Hst4.
    rewrite (Tasks.MarkLeasedUnknown_status t4 d (Devices.MarkOffline t4 d (svStore s3)) t d st).
    + f_equal. by repeat case_decide; tauto.
    + unfold Tasks.device_status in *. by rewrite MarkOffline_tasks.
  - intros d' ?. rewrite Ha4, lookup_delete_ne, Ha3, Ha2, lookup_insert_ne, Ha1, lookup_insert_ne by done.
    done.
Qed.

(** C32: The three steps of the end of a connection are not atomic: when the agent
    reconnects between the first and the second, the device is recorded as offline
    although its new connection is registered (until the next heartbeat). *)
Theorem agent_end_race t1 t2 hello tok c c' s :
  hAgents (svHub s) !! ahDeviceID hello = Some c → c ≠ c' →
  let d := ahDeviceID hello in
  let ended := agent_end_remove d c s in
  let s3 := agent_end_store t2 d (register_agent t1 hello tok c' (snd ended)) in
  fst ended = true ∧ hAgents (svHub s3) !! d = Some c' ∧
  ∃ dev, ms_devices (svStore s3) !! d = Some dev ∧ dOnline dev = false.
Proof.
  intros Hc Hne d. unfold agent_end_remove, removeAgent. fold d in Hc. rewrite decide_True by done.
  cbn [fst snd]. set (s1 := with_hub _ s).
  destruct (register_agent_effect t1 hello tok c' s1) as (Hst & Ha & _). fold d in Ha, Hst.
  destruct (agent_end_store_effect t2 d (register_agent t1 hello tok c' s1)) as [Hst3 Ha3].
  destruct (registered_device t1 d (ahDeviceInfo hello) (svStore s1)) as (dev & Hdev & _).
  split_and!; [done|by rewrite Ha3, Ha, lookup_insert_eq|]. rewrite Hst3, Hst.
  by apply (offline_device t2 d _ dev).
Qed.
End routing.

(** ** Witnesses *)

Module RoutingWitness.
Import ToyCrypto ToyJWT GrantsWitness.

#[local] Instance toy_codec : Codec := {|
  decode_devices _ := None; decode_task _ := None; decode_device_tags _ := None;
  decode_device_info _ := Some DeviceInfo_zero;
  png_dimensions _ := None
|}.

Definition config : Config :=
  MkConfig "" [] "" "" false "" [] "" "" [] "" "" "" "" "" 0 0 0 0 0 0 0 0 0 [].
Definition s0 : Server := newServer config empty_store None.
Definition hello : agentHello := MkHello "agent_hello" "phone" "" "tok" DeviceInfo_zero.
Definition guest : User := set_uAssignedDevices (λ _, ["phone"]) User_zero.
Definition s1 : Server :=
  connectClient "b1" 1%nat 11%nat guest true (MkAccess "share" "" 0 "")
    (register_agent 5 hello "tok" 7%nat s0).
Definition peer1 : browserPeer := MkPeer "b1" guest 11%nat "" true "" (Some []).

(** A guest's shell command goes nowhere. *)
Definition cmd : vmap := {[ "message_type" := VStr "command"; "device_id" := VStr "phone" ]}.

Lemma no_requests : typed_requests (svHub s1).
Proof.
  intros d b r. assert (hPreviewRequests (svHub s1) = ∅) as -> by (vm_compute; reflexivity).
  unfold subscribers_of. rewrite lookup_empty. cbn. by rewrite lookup_empty.
Defined.

Lemma browser_messages_authorised_witness :
  typed_requests (svHub (handleBrowserMessage [] 9 1%nat cmd s1)).
Proof.
  refine (proj1 (browser_messages_authorised [] 9 1%nat peer1 cmd s1 no_requests _)).
  vm_compute. reflexivity.
Defined.

Lemma broadcast_visibility_witness :
  filterBroadcast peer1 (MMsg {[ "device_id" := VStr "tablet" ]}) = None.
Proof.
  apply (broadcast_visibility (MMsg ∅) (svHub s1) peer1) with (d := "tablet");
    [done|done|by vm_compute].
Defined.

Lemma agent_reconnect_witness :
  hAgents (svHub (agent_end 8 "phone" 7%nat
    (register_agent 6 hello "tok" 9%nat (register_agent 5 hello "tok" 7%nat s0)))) !! "phone" = Some 9%nat.
Proof.
  refine (proj1 (proj2 (proj2 (agent_reconnect 5 6 8 9 hello hello "tok" "tok" 7%nat 9%nat "phone" s0
    _ _ _ _ eq_refl eq_refl _ eq_refl eq_refl eq_refl eq_refl)))).
  discriminate.
Defined.

Lemma agent_end_race_witness :
  fst (agent_end_remove (ahDeviceID hello) 7%nat (register_agent 5 hello "tok" 7%nat s0)) = true.
Proof.
  refine (proj1 (agent_end_race 6 8 hello "tok" 7%nat 9%nat (register_agent 5 hello "tok" 7%nat s0) _ _));
    [vm_compute; reflexivity|discriminate].
Defined.
End RoutingWitness.
