(* ===== verification/Control.v ===== *)
(** * scrcpy control messages (agent/internal/agent/control.go)

    The encoding of browser input events into the binary messages the scrcpy server
    reads from its control socket, with the range checks on every field.  The result
    of converting a float64 of at least 2^64 to [uint64] is not fixed by the language
    and is a parameter ([overflow]). *)

From S2P Require Import Prelude GoBase GoStrings GoFloat Model.

Section control.
Context (overflow : Z).

(** ** Fields of an event *)

Definition invalid (key : string) : error := ErrMsg ("invalid control " +:+ key).

(** [uint64(f)] of an integral, non-negative float64. *)
Definition float_to_uint64 (f : float64) : Z :=
  let n := int_part f in if n <? 2 ^ 64 then n else uint64 overflow.

Definition uint64FieldDefault (event : vmap) (key : string) (fallback : Z) : result Z :=
  match event !! key with
  | None => Ok fallback
  | Some (VNum f) =>
      if flt f (float_of_Z 0) || negb (is_integral f) || flt (float_of_Z (2 ^ 64 - 1)) f
      then Err (invalid key) else Ok (float_to_uint64 f)
  | Some (VInt n) => if n <? 0 then Err (invalid key) else Ok n
  | Some _ => Err (invalid key)
  end.

Definition bounded_field (max : Z) (event : vmap) (key : string) (fallback : Z) : result Z :=
  match uint64FieldDefault event key fallback with
  | Ok n => if max <? n then Err (invalid key) else Ok n
  | Err _ => Err (invalid key)
  end.

Definition MaxUint64 : Z := 2 ^ 64 - 1.
Definition uint8Field (event : vmap) (key : string) := bounded_field (2 ^ 8 - 1) event key MaxUint64.
Definition uint16Field (event : vmap) (key : string) := bounded_field (2 ^ 16 - 1) event key MaxUint64.
Definition uint32Field (event : vmap) (key : string) := bounded_field (2 ^ 32 - 1) event key MaxUint64.
Definition uint32FieldDefault (event : vmap) (key : string) (fallback : Z) :=
  bounded_field (2 ^ 32 - 1) event key fallback.

Definition floatFieldDefault (event : vmap) (key : string) (fallback : float64) : float64 :=
  match event !! key with
  | Some (VNum f) => if negb (IsNaN f) && negb (IsInf f) then f else fallback
  | _ => fallback
  end.

Definition boolField (event : vmap) (key : string) : bool := eq_true (event !! key).

(** Cut to at most [max] bytes, then drop bytes until the rest is valid UTF-8. *)
Fixpoint drop_invalid (fuel : nat) (contents : bytes) : bytes :=
  match fuel with
  | O => contents
  | S fuel =>
      match contents with
      | [] => []
      | _ => if Valid contents then contents else drop_invalid fuel (removelast contents)
      end
  end.
Definition truncateUTF8 (value : string) (max : nat) : bytes :=
  let contents := take max (str_bytes value) in drop_invalid (length contents) contents.

Definition pointerIDField (event : vmap) : result Z :=
  match event !! "id" with
  | Some (VNum id) =>
      if feq id (float_of_Z (-1)) then Ok MaxUint64
      else if feq id (float_of_Z (-2)) then Ok (MaxUint64 - 1)
      else uint64FieldDefault event "id" 0
  | Some (VInt id) =>
      if id =? -1 then Ok MaxUint64
      else if id =? -2 then Ok (MaxUint64 - 1)
      else uint64FieldDefault event "id" 0
  | _ => uint64FieldDefault event "id" 0
  end.

Definition clamp (value min max : float64) : float64 := fmax min (fmin max value).

Definition positionFromEvent (event : vmap) : result (Z * Z * Z * Z) :=
  match uint32Field event "x" with
  | Err e => Err e
  | Ok x =>
      match uint32Field event "y" with
      | Err e => Err e
      | Ok y =>
          match uint16Field event "w" with
          | Err _ => Err (ErrMsg "invalid control width")
          | Ok w =>
              if w =? 0 then Err (ErrMsg "invalid control width")
              else match uint16Field event "h" with
              | Err _ => Err (ErrMsg "invalid control height")
              | Ok h =>
                  if h =? 0 then Err (ErrMsg "invalid control height") else Ok (x, y, w, h)
              end
          end
      end
  end.

Definition writePosition (x y w h : Z) : bytes := be_put 4 x ++ be_put 4 y ++ be_put 2 w ++ be_put 2 h.

(** ** Messages *)

Definition zeros (n : nat) : bytes := repeat (byte_of 0) n.

Definition encodeKeycode (event : vmap) : result bytes :=
  match uint8Field event "action" with
  | Err e => Err e
  | Ok action =>
      match uint32Field event "keycode" with
      | Err e => Err e
      | Ok keycode =>
          match uint32FieldDefault event "repeat" 0 with
          | Err e => Err e
          | Ok rep =>
              match uint32FieldDefault event "meta" 0 with
              | Err e => Err e
              | Ok meta =>
                  Ok (byte_of 0 :: byte_of action :: be_put 4 keycode ++ be_put 4 rep ++ be_put 4 meta)
              end
          end
      end
  end.

Definition encodeTouch (event : vmap) : result bytes :=
  match uint8Field event "action" with
  | Err e => Err e
  | Ok action =>
      match pointerIDField event with
      | Err e => Err e
      | Ok pointerID =>
          match positionFromEvent event with
          | Err e => Err e
          | Ok (x, y, w, h) =>
              let pressure := floatFieldDefault event "pressure" (float_of_Z 1) in
              let up := (action =? 1) || (action =? 3) in
              let pressure := if up then float_of_Z 0 else pressure in
              let p := round_Z (fmul (clamp pressure (float_of_Z 0) (float_of_Z 1)) (float_of_Z 65535)) in
              let buttons :=
                if pointerID =? MaxUint64
                then be_put 4 1 ++ (if up then zeros 4 else be_put 4 1)
                else zeros 8 in
              Ok (byte_of 2 :: byte_of action :: be_put 8 pointerID ++ writePosition x y w h ++
                  be_put 2 p ++ buttons)
          end
      end
  end.

(** [uint16(int16(math.Round(...)))] keeps the low sixteen bits. *)
Definition scroll_amount (v : float64) : bytes :=
  be_put 2 (round_Z (fmul (clamp (fdiv v (float_of_Z 16)) (float_of_Z (-1)) (float_of_Z 1))
                       (float_of_Z 32767)) mod 2 ^ 16).

Definition encodeScroll (event : vmap) : result bytes :=
  match positionFromEvent event with
  | Err e => Err e
  | Ok (x, y, w, h) =>
      let horizontal := floatFieldDefault event "scroll_h" (floatFieldDefault event "scrollH" (float_of_Z 0)) in
      let vertical := floatFieldDefault event "scroll_v" (floatFieldDefault event "scrollV" (float_of_Z 0)) in
      Ok (byte_of 3 :: writePosition x y w h ++ scroll_amount horizontal ++ scroll_amount vertical ++ zeros 4)
  end.

Definition clipboard_limit : nat := N.to_nat (2 ^ 18 - 14).

Definition encodeClipboard (event : vmap) : result bytes :=
  let contents := truncateUTF8 (stringField event "text") clipboard_limit in
  match uint64FieldDefault event "sequence" 0 with
  | Err e => Err e
  | Ok sequence =>
      Ok (byte_of 9 :: be_put 8 sequence ++ [byte_of (if boolField event "paste" then 1 else 0)] ++
          be_put 4 (blen contents) ++ contents)
  end.

Definition encodeText (event : vmap) : result bytes :=
  let text := stringField event "text" in
  if decide (text = "") then Err (ErrMsg "control text is empty")
  else let contents := truncateUTF8 text 300 in
       Ok (byte_of 1 :: be_put 4 (blen contents) ++ contents).

Definition flag (b : bool) : byte := byte_of (if b then 1 else 0).

Definition encodeControlEvent (event : vmap) : result bytes :=
  let type := stringField event "type" in
  if decide (type = "touch") then encodeTouch event
  else if decide (type = "inject_keycode") then encodeKeycode event
  else if decide (type = "inject_text") then
    encodeClipboard {[ "text" := VStr (stringField event "text"); "paste" := VBool true ]}
  else if decide (type = "set_clipboard") then encodeClipboard event
  else if decide (type = "get_clipboard") then Ok [byte_of 8; byte_of 0]
  else if decide (type = "reset_video") then Ok [byte_of 17]
  else if decide (type = "request_keyframe") then Ok [byte_of 24]
  else if decide (type = "set_video_bitrate") then
    match uint32Field event "bitrate" with
    | Ok bitrate =>
        if (bitrate <? 100000) || (100000000 <? bitrate) then Err (ErrMsg "invalid video bitrate")
        else Ok (byte_of 23 :: be_put 4 bitrate)
    | Err _ => Err (ErrMsg "invalid video bitrate")
    end
  else if decide (type = "rotate_device") then Ok [byte_of 11]
  else if decide (type = "set_display_power") then Ok [byte_of 10; flag (boolField event "on")]
  else if decide (type = "camera_zoom_in") then Ok [byte_of 19]
  else if decide (type = "camera_zoom_out") then Ok [byte_of 20]
  else if decide (type = "camera_torch") then Ok [byte_of 18; flag (boolField event "on")]
  else if decide (type = "scroll" ∨ type = "inject_scroll") then encodeScroll event
  else Err (ErrMsg "unsupported scrcpy control event").

Definition browserControlAllowed (event : vmap) : bool :=
  bool_decide (stringField event "type" ∈
    ["touch"; "inject_keycode"; "inject_text"; "set_clipboard"; "get_clipboard"; "reset_video";
     "rotate_device"; "set_display_power"; "camera_zoom_in"; "camera_zoom_out"; "camera_torch";
     "scroll"; "inject_scroll"]).

(** ** Specification: the reader of the control socket

    The length of the message at the head of the stream, from its type. *)
Definition message_length (l : bytes) : option nat :=
  match l with
  | [] => None
  | t :: l =>
      let t := byte_val t in
      if t =? 0 then Some 14%nat
      else if t =? 2 then Some 32%nat
      else if t =? 3 then Some 21%nat
      else if t =? 9 then Some (14 + Z.to_nat (be_get (take 4 (drop 9 l))))%nat
      else if (t =? 8) || (t =? 10) || (t =? 18) then Some 2%nat
      else if t =? 23 then Some 5%nat
      else if (t =? 11) || (t =? 17) || (t =? 19) || (t =? 20) || (t =? 24) then Some 1%nat
      else None
  end.

Definition read_message (l : bytes) : option (bytes * bytes) :=
  match message_length l with
  | Some n => if (n <=? length l)%nat then Some (take n l, drop n l) else None
  | None => None
  end.

(** ** Lemmas *)

Lemma removelast_length {A} (l : list A) : length (removelast l) = pred (length l).
Proof. induction l as [|a [|b l] IH]; [done|done|]. cbn in *. by rewrite IH. Qed.

Lemma removelast_take {A} (l : list A) : removelast l = take (pred (length l)) l.
Proof. induction l as [|a [|b l] IH]; [done|done|]. cbn in *. by rewrite IH. Qed.

Lemma drop_invalid_spec fuel : ∀ l, (length l ≤ fuel)%nat →
  ∃ n, (n ≤ length l)%nat ∧ drop_invalid fuel l = take n l ∧ Valid (take n l) = true ∧
    ∀ k, (n < k ≤ length l)%nat → Valid (take k l) = false.
Proof.
  induction fuel as [|fuel IH]; intros l Hl.
  - destruct l; [|simpl in Hl; lia]. exists 0%nat. split_and!; [done|done|done|simpl; lia].
  - cbn [drop_invalid]. destruct l as [|a l]; [exists 0%nat; split_and!; [done|done|done|simpl; lia]|].
    destruct (Valid (a :: l)) eqn:Ev.
    + exists (length (a :: l)). rewrite firstn_all. split_and!; [done|done|done|lia].
    + destruct (IH (removelast (a :: l))) as (n & Hn & -> & Hv & Hmax).
      { rewrite removelast_length. simpl in *. lia. }
      rewrite removelast_length in *. rewrite removelast_take in *. cbn [length pred] in *.
      exists n. rewrite take_take in *. rewrite Nat.min_l in * by lia. split_and!; [lia|done|done|].
      intros k Hk. destruct (decide (k = S (length l))) as [->|].
      * change (S (length l)) with (length (a :: l)). by rewrite firstn_all.
      * specialize (Hmax k ltac:(lia)). by rewrite take_take, Nat.min_l in Hmax by lia.
Qed.

Lemma truncateUTF8_length value max :
  (length (truncateUTF8 value max) ≤ max)%nat.
Proof.
  unfold truncateUTF8. destruct (drop_invalid_spec _ (take max (str_bytes value)) (le_n _))
    as (n & Hn & -> & _). rewrite !length_take in *. lia.
Qed.

Lemma bounded_field_range max event key fallback n :
  0 ≤ fallback → bounded_field max event key fallback = Ok n → n ≤ max.
Proof.
  intros _. unfold bounded_field. destruct (uint64FieldDefault _ _ _) as [v|]; [|done].
  destruct (Z.ltb_spec max v); [done|]. by intros [= <-].
Qed.

Lemma length_writePosition x y w h : length (writePosition x y w h) = 12%nat.
Proof. unfold writePosition. by rewrite !length_app, !length_be_put. Qed.

Lemma read_message_exact l rest n :
  message_length (l ++ rest) = Some n → length l = n → read_message (l ++ rest) = Some (l, rest).
Proof.
  intros Hm <-. unfold read_message. rewrite Hm. rewrite (proj2 (Nat.leb_le _ _)) by (rewrite length_app; lia).
  by rewrite take_app_length, drop_app_length.
Qed.

Lemma encodeClipboard_length event data :
  encodeClipboard event = Ok data →
  ∃ seq paste contents, data = byte_of 9 :: be_put 8 seq ++ [paste] ++ be_put 4 (blen contents) ++ contents ∧
    contents = truncateUTF8 (stringField event "text") clipboard_limit ∧ blen contents < 2 ^ 18.
Proof.
  unfold encodeClipboard. destruct (uint64FieldDefault _ _ _) as [seq|]; [|done]. intros [= <-].
  do 3 eexists. split_and!; [done|done|]. unfold blen.
  pose proof (truncateUTF8_length (stringField event "text") clipboard_limit) as Hl.
  assert (Z.of_nat clipboard_limit = 2 ^ 18 - 14) as Hc by (unfold clipboard_limit; by rewrite N_nat_Z).
  lia.
Qed.

(** The length of a message with a fixed layout is known from its type. *)
Ltac fixed_length :=
  match goal with
  | |- message_length (?d ++ ?r) = _ => by vm_compute
  end.

Lemma encode_length event data rest :
  encodeControlEvent event = Ok data → message_length (data ++ rest) = Some (length data).
Proof.
  assert (∀ ev d, encodeClipboard ev = Ok d → message_length (d ++ rest) = Some (length d)) as Hclip.
  { intros ev d (seq & paste & contents & -> & _ & Hl)%encodeClipboard_length.
    cbn [app message_length]. change (byte_val (byte_of 9)) with 9. cbn [Z.eqb].
    replace (drop 9 _) with (be_put 4 (blen contents) ++ contents ++ rest).
    - rewrite take_app_length' by (by rewrite length_be_put).
      rewrite be_get_put_small by (unfold blen in *; lia).
      f_equal. unfold blen. rewrite Nat2Z.id. cbn [length app]. rewrite length_app, length_be_put.
      cbn [length]. rewrite length_app, length_be_put. lia.
    - replace ((be_put 8 seq ++ _) ++ rest) with ((be_put 8 seq ++ [paste]) ++ be_put 4 (blen contents) ++ contents ++ rest)
        by (by rewrite <-!app_assoc; cbn [app]; rewrite <-app_assoc).
      by rewrite drop_app_length' by (by rewrite length_app, length_be_put). }
  unfold encodeControlEvent.
  repeat (case_decide as Hty; [|clear Hty]); try apply Hclip; try (intros [= <-]; by vm_compute).
  - unfold encodeTouch. destruct (uint8Field _ _) as [a|]; [|done].
    destruct (pointerIDField _) as [id|]; [|done]. destruct (positionFromEvent _) as [[[[x y] w] h]|]; [|done].
    destruct (id =? MaxUint64), ((a =? 1) || (a =? 3)); by intros [= <-].
  - unfold encodeKeycode. destruct (uint8Field _ _) as [a|]; [|done].
    destruct (uint32Field _ _) as [k|]; [|done].
    destruct (uint32FieldDefault _ "repeat" _) as [r|]; [|done].
    destruct (uint32FieldDefault _ "meta" _) as [m|]; [|done]. by intros [= <-].
  - destruct (uint32Field _ _) as [b|]; [|done]. case_match; [done|]. by intros [= <-].
  - unfold encodeScroll. destruct (positionFromEvent _) as [[[[x y] w] h]|]; [|done]. by intros [= <-].
Qed.

(** Only the two events reserved to the agent have the types 23 and 24. *)
Lemma encode_first_byte event data :
  encodeControlEvent event = Ok data → stringField event "type" ≠ "set_video_bitrate" →
  stringField event "type" ≠ "request_keyframe" →
  ∃ t l, data = t :: l ∧ byte_val t ≠ 23 ∧ byte_val t ≠ 24.
Proof.
  intros He H1 H2. revert He. unfold encodeControlEvent.
  repeat (case_decide as Hty; [|clear Hty]); try done;
    try (intros [= <-]; do 2 eexists; split; [reflexivity|by vm_compute]);
    unfold encodeTouch, encodeKeycode, encodeClipboard, encodeScroll; intros He;
    repeat (case_match; try done); injection He as <-;
    (do 2 eexists; split; [reflexivity|by vm_compute]).
Qed.

(** Reading [n] messages from the stream. *)
Fixpoint read_messages (n : nat) (l : bytes) : option (list bytes * bytes) :=
  match n with
  | O => Some ([], l)
  | S n => match read_message l with
           | Some (m, l) => match read_messages n l with
                            | Some (ms, l) => Some (m :: ms, l) | None => None end
           | None => None
           end
  end.

(** The messages written for any events are read back one by one, exactly as written, by
    a reader that knows only the length each message type has. *)
Lemma messages_framed events messages rest : Forall2 (λ e m, encodeControlEvent e = Ok m) events messages →
  read_messages (length messages) (concat messages ++ rest) = Some (messages, rest).
Proof.
  intros Hall. induction Hall as [|e m es ms He _ IH]; [done|]. cbn [concat length read_messages].
  rewrite <-app_assoc, (read_message_exact _ _ (length m)), IH; [done|by apply (encode_length e)|done].
Qed.

(** Events a browser may send never become a bitrate change or a key-frame request. *)
Lemma browser_message_type e m : browserControlAllowed e = true → encodeControlEvent e = Ok m →
  ∃ t l, m = t :: l ∧ byte_val t ≠ 23 ∧ byte_val t ≠ 24.
Proof.
  intros Ha He. unfold browserControlAllowed in Ha. bool_to_prop.
  assert (stringField e "type" ≠ "set_video_bitrate" ∧ stringField e "type" ≠ "request_keyframe") as [H1 H2].
  { split; intros E; rewrite E in Ha; revert Ha; apply (bool_decide_unpack (_ ∉ _)); by vm_compute. }
  by apply (encode_first_byte e m).
Qed.

(** ** Properties *)

(** Truncation keeps text well-formed: the bytes sent are the longest prefix of
    the text that is valid UTF-8 among those of at most [max] bytes; in particular
    valid text that fits is sent unchanged. *)
Theorem truncateUTF8_correct value max :
  let r := truncateUTF8 value max in
  ∃ n, r = take n (str_bytes value) ∧ (n ≤ max)%nat ∧ Valid r = true ∧
    (∀ k, (n < k ≤ max)%nat → (k ≤ length (str_bytes value))%nat →
       Valid (take k (str_bytes value)) = false) ∧
    (Valid (str_bytes value) = true → (length (str_bytes value) ≤ max)%nat → r = str_bytes value).
Proof.
  intros r. unfold r, truncateUTF8. set (l := str_bytes value).
  destruct (drop_invalid_spec _ (take max l) (le_n _)) as (n & Hn & -> & Hv & Hmax).
  rewrite length_take in Hn, Hmax. exists n. rewrite take_take, Nat.min_l in * by lia.
  split_and!; [done|lia|done| |].
  - intros k Hk Hkl. specialize (Hmax k ltac:(lia)). by rewrite take_take, Nat.min_l in Hmax by lia.
  - intros Hval Hlen. destruct (decide (n = length l)) as [->|Hne]; [apply firstn_all|].
    specialize (Hmax (length l) ltac:(lia)). rewrite take_take, Nat.min_l, firstn_all in Hmax by lia.
    congruence.
Qed.
End control.

(** ** Witnesses *)

Module ControlWitness.
(** The euro sign is three bytes; two of them are dropped. *)
Lemma truncateUTF8_correct_witness :
  Valid (truncateUTF8 "ab€" 4) = true ∧ truncateUTF8 "ab€" 4 = str_bytes "ab".
Proof.
  destruct (truncateUTF8_correct "ab€" 4) as (n & _ & _ & Hv & _). split; [exact Hv|by vm_compute].
Defined.
End ControlWitness.
