(* ===== verification/Scrcpy.v ===== *)
(** * scrcpy packets, and the frames an agent uploads
    (agent/internal/agent/scrcpy_protocol.go, opus.go, h264.go)

    Reading the scrcpy media stream, and wrapping its packets in the envelope the
    control plane relays.  A stream is the list of the bytes still to be read before
    end of file. *)

From S2P Require Import Prelude GoBase GoStrings Hub.

Definition scrcpyDeviceNameSize : nat := 64.
Definition scrcpyPacketHeaderSize : nat := 12.
Definition scrcpySessionFlag : Z := Z.shiftl 1 63.
Definition scrcpyConfigFlag : Z := Z.shiftl 1 62.
Definition scrcpyKeyFrameFlag : Z := Z.shiftl 1 61.
Definition scrcpyPTSBitmask : Z := scrcpyKeyFrameFlag - 1.
Definition maxScrcpyPacketSize : Z := Z.shiftl 32 20.

Record mediaPacket := {
  pktPTS : Z;
  pktKeyFrame : bool;
  pktConfig : bool;
  pktSession : bool;
  pktWidth : Z;
  pktHeight : Z;
  pktClientResized : bool;
  pktData : bytes;
}.

(** [io.ReadFull] into a buffer of [n] bytes: the buffer, and what is left unread. *)
Definition ReadFull (n : nat) (stream : bytes) : result bytes * bytes :=
  if (n <=? length stream)%nat then (Ok (take n stream), drop n stream)
  else (Err (ErrMsg (match stream with [] => "EOF" | _ => "unexpected EOF" end)), []).

Definition readScrcpyDummy (stream : bytes) : result () * bytes :=
  match ReadFull 1 stream with
  | (Ok _, rest) => (Ok (), rest)
  | (Err _, rest) => (Err (ErrMsg "read scrcpy dummy byte"), rest)
  end.

Definition readScrcpyCodec (stream : bytes) (dummyByte : bool) : result string * bytes :=
  match (if dummyByte then readScrcpyDummy stream else (Ok (), stream)) with
  | (Err e, rest) => (Err e, rest)
  | (Ok _, rest) =>
      match ReadFull 4 rest with
      | (Ok raw, rest) => (Ok (bytes_str raw), rest)
      | (Err _, rest) => (Err (ErrMsg "read scrcpy codec"), rest)
      end
  end.

(** The bytes before the first zero byte. *)
Fixpoint until_zero (raw : bytes) : bytes :=
  match raw with
  | [] => []
  | value :: raw => if is_byte value 0 then [] else value :: until_zero raw
  end.

Definition readScrcpyDeviceName (stream : bytes) : result string * bytes :=
  match ReadFull scrcpyDeviceNameSize stream with
  | (Ok raw, rest) => (Ok (bytes_str (until_zero raw)), rest)
  | (Err _, rest) => (Err (ErrMsg "read scrcpy device metadata"), rest)
  end.

Definition has_flag (v flag : Z) : bool := negb (Z.land v flag =? 0).

Definition readScrcpyPacket (stream : bytes) : result mediaPacket * bytes :=
  match ReadFull scrcpyPacketHeaderSize stream with
  | (Err e, rest) => (Err e, rest)
  | (Ok header, rest) =>
      let ptsFlags := be_get (take 8 header) in
      if has_flag ptsFlags scrcpySessionFlag then
        let sessionFlags := be_get (take 4 header) in
        (Ok {| pktPTS := 0; pktKeyFrame := false; pktConfig := false; pktSession := true;
               pktWidth := be_get (cut 4 8 header); pktHeight := be_get (cut 8 12 header);
               pktClientResized := has_flag sessionFlags 1; pktData := [] |}, rest)
      else
        let size := be_get (drop 8 header) in
        if (size =? 0) || (maxScrcpyPacketSize <? size)
        then (Err (ErrMsg "invalid scrcpy packet size"), rest)
        else match ReadFull (Z.to_nat size) rest with
             | (Err _, rest) => (Err (ErrMsg "read scrcpy packet payload"), rest)
             | (Ok data, rest) =>
                 (Ok {| pktPTS := Z.land ptsFlags scrcpyPTSBitmask;
                        pktKeyFrame := has_flag ptsFlags scrcpyKeyFrameFlag;
                        pktConfig := has_flag ptsFlags scrcpyConfigFlag;
                        pktSession := false; pktWidth := 0; pktHeight := 0;
                        pktClientResized := false; pktData := data |}, rest)
             end
  end.

(** ** Uploaded frames *)

(** [copy] into the front of a zeroed field of [n] bytes. *)
Definition padded (n : nat) (l : bytes) : bytes := take n l ++ repeat "000"%char (n - length l).

Definition previewFrame (deviceID : string) (packet : mediaPacket) : result bytes :=
  if (len deviceID =? 0) || (32 <? len deviceID)
  then Err (ErrMsg "preview device ID must be 1 to 32 bytes")
  else if blen (pktData packet) =? 0 then Err (ErrMsg "preview packet is empty")
  else Ok (str_bytes "PREV" ++ padded 32 (str_bytes deviceID) ++
           [byte_of (if pktKeyFrame packet then 1 else 0)] ++
           be_put 8 (pktPTS packet) ++ be_put 4 (uint32 (blen (pktData packet))) ++ pktData packet).

Definition audioFrame (deviceID : string) (packet : mediaPacket) : result bytes :=
  match previewFrame deviceID packet with
  | Err e => Err e
  | Ok frame => Ok (<[36%nat := byte_of 2]> (str_bytes "OPUS" ++ drop 4 frame))
  end.

(** ** Opus *)

(** The two switches on the table-of-contents byte, in [uint32] arithmetic. *)
Definition toc_samples (toc : Z) : Z :=
  if has_flag toc 0x80 then uint32 (Z.shiftl 120 (Z.land (Z.shiftr toc 3) 3))
  else if Z.land toc 0x60 =? 0x60 then uint32 (Z.shiftl 480 (Z.land (Z.shiftr toc 3) 1))
  else if Z.land (Z.shiftr toc 3) 3 =? 3 then 2880
  else uint32 (Z.shiftl 480 (Z.land (Z.shiftr toc 3) 3)).

(** [None] is the early [return 0]. *)
Definition toc_frames (toc : Z) (tail : bytes) : option Z :=
  match Z.land toc 3 with
  | 1 | 2 => Some 2
  | 3 => match tail with [] => None | count :: _ => Some (Z.land (byte_val count) 0x3f) end
  | _ => Some 1
  end.

Definition opusPacketSamples (packet : bytes) : Z :=
  match packet with
  | [] => 0
  | b :: tail =>
      match toc_frames (byte_val b) tail with
      | None => 0
      | Some frames =>
          let samples := uint32 (toc_samples (byte_val b) * frames) in
          if 5760 <? samples then 0 else samples
      end
  end.

(** ** H.264 *)

Definition hex_digit (v : Z) : byte := if v <? 10 then byte_of (48 + v) else byte_of (87 + v).
Definition hex2 (b : byte) : bytes := [hex_digit (byte_val b / 16); hex_digit (byte_val b mod 16)].

(** The profile, constraints and level bytes after the first SPS start code. *)
Fixpoint h264ProfileLevel (data : bytes) : string :=
  match data with
  | a :: ((b :: c :: d :: e :: f :: g :: _) as rest) =>
      if is_byte a 0 && is_byte b 0 && is_byte c 1 && (Z.land (byte_val d) 31 =? 7)
      then bytes_str (hex2 e ++ hex2 f ++ hex2 g)
      else h264ProfileLevel rest
  | _ => ""
  end.

(** ** Reference definitions *)

(** What the scrcpy server writes for a packet. *)
Definition encode_packet (p : mediaPacket) : bytes :=
  if pktSession p then
    be_put 4 (2 ^ 31 + Z.b2z (pktClientResized p)) ++ be_put 4 (pktWidth p) ++ be_put 4 (pktHeight p)
  else
    be_put 8 (pktPTS p + 2 ^ 61 * Z.b2z (pktKeyFrame p) + 2 ^ 62 * Z.b2z (pktConfig p)) ++
    be_put 4 (blen (pktData p)) ++ pktData p.

Definition packet_wf (p : mediaPacket) : Prop :=
  if pktSession p then
    pktPTS p = 0 ∧ pktKeyFrame p = false ∧ pktConfig p = false ∧ pktData p = [] ∧
    0 ≤ pktWidth p < 2 ^ 32 ∧ 0 ≤ pktHeight p < 2 ^ 32
  else
    0 ≤ pktPTS p < 2 ^ 61 ∧ 1 ≤ blen (pktData p) ≤ 32 * 1024 * 1024 ∧
    pktWidth p = 0 ∧ pktHeight p = 0 ∧ pktClientResized p = false.

(** RFC 6716, section 3.1, table 2: the samples of a frame at 48 kHz for each of
    the 32 configurations, and the number of frames from the code and the second
    byte. *)
Definition opus_frame_samples (config : nat) : Z :=
  nth config ([480; 960; 1920; 2880] ++ [480; 960; 1920; 2880] ++ [480; 960; 1920; 2880] ++
              [480; 960] ++ [480; 960] ++
              [120; 240; 480; 960] ++ [120; 240; 480; 960] ++ [120; 240; 480; 960] ++ [120; 240; 480; 960]) 0.

Definition opus_frames (packet : bytes) : option Z :=
  match packet with
  | [] => None
  | toc :: tail =>
      if byte_val toc mod 4 =? 0 then Some 1
      else if byte_val toc mod 4 <? 3 then Some 2
      else match tail with [] => None | m :: _ => Some (byte_val m mod 64) end
  end.

(** ** Lemmas *)

#[local] Ltac Zify.zify_post_hook ::= Z.div_mod_to_equations.

Lemma has_flag_testbit v k : 0 ≤ k → has_flag v (Z.shiftl 1 k) = Z.testbit v k.
Proof.
  intros Hk. unfold has_flag. rewrite Z.shiftl_1_l. destruct (Z.testbit v k) eqn:E.
  - apply negb_true_iff, Z.eqb_neq. intros H.
    apply (f_equal (λ z, Z.testbit z k)) in H.
    rewrite Z.land_spec, E, Z.pow2_bits_true, Z.bits_0 in H by done. done.
  - apply negb_false_iff, Z.eqb_eq. apply Z.bits_inj'. intros n Hn.
    rewrite Z.land_spec, Z.bits_0. destruct (decide (k = n)) as [->|Hne].
    + by rewrite E.
    + by rewrite Z.pow2_bits_false, andb_false_r.
Qed.

Lemma testbit_div v k : 0 ≤ k → Z.b2z (Z.testbit v k) = v / 2 ^ k mod 2.
Proof. intros Hk. symmetry. by rewrite <-Z.testbit_spec'. Qed.

Lemma testbit_eq v k b : 0 ≤ k → v / 2 ^ k mod 2 = Z.b2z b → Z.testbit v k = b.
Proof. intros Hk H. apply Z.b2z_inj. by rewrite testbit_div. Qed.

(** A word below 2^63 is its time stamp and its two flags. *)
Lemma pts_flags_split v : 0 ≤ v < 2 ^ 63 →
  v = Z.land v scrcpyPTSBitmask + 2 ^ 61 * Z.b2z (has_flag v scrcpyKeyFrameFlag)
      + 2 ^ 62 * Z.b2z (has_flag v scrcpyConfigFlag) ∧ 0 ≤ Z.land v scrcpyPTSBitmask < 2 ^ 61.
Proof.
  intros Hv. change scrcpyPTSBitmask with (Z.ones 61). unfold scrcpyKeyFrameFlag, scrcpyConfigFlag.
  rewrite Z.land_ones, !has_flag_testbit, !testbit_div by done. lia.
Qed.

Lemma pts_flags_join pts k c (v := pts + 2 ^ 61 * Z.b2z k + 2 ^ 62 * Z.b2z c) : 0 ≤ pts < 2 ^ 61 →
  0 ≤ v < 2 ^ 63 ∧ has_flag v scrcpySessionFlag = false ∧ Z.land v scrcpyPTSBitmask = pts ∧
  has_flag v scrcpyKeyFrameFlag = k ∧ has_flag v scrcpyConfigFlag = c.
Proof.
  intros Hp. assert (0 ≤ v < 2 ^ 63) as Hv by (subst v; destruct k, c; simpl Z.b2z; lia).
  change scrcpyPTSBitmask with (Z.ones 61). unfold scrcpySessionFlag, scrcpyKeyFrameFlag, scrcpyConfigFlag.
  rewrite Z.land_ones, !has_flag_testbit by done.
  split_and!; [lia|lia|apply testbit_eq; [done|simpl Z.b2z; lia]| | |];
    [|apply testbit_eq; [done|]..]; subst v; destruct k, c; simpl Z.b2z; lia.
Qed.

Lemma session_flag_split v : 0 ≤ v < 2 ^ 64 → has_flag v scrcpySessionFlag = (2 ^ 63 <=? v).
Proof.
  intros Hv. unfold scrcpySessionFlag. rewrite has_flag_testbit by done. apply testbit_eq; [done|].
  destruct (Z.leb_spec (2 ^ 63) v); simpl Z.b2z; lia.
Qed.

Lemma ReadFull_app l rest : ReadFull (length l) (l ++ rest) = (Ok l, rest).
Proof.
  unfold ReadFull. rewrite (proj2 (Nat.leb_le _ _)) by (rewrite length_app; lia).
  by rewrite take_app_length, drop_app_length.
Qed.

Lemma ReadFull_app' n l rest : n = length l → ReadFull n (l ++ rest) = (Ok l, rest).
Proof. intros ->. apply ReadFull_app. Qed.

Lemma ReadFull_Ok n stream l rest :
  ReadFull n stream = (Ok l, rest) → stream = l ++ rest ∧ length l = n.
Proof.
  unfold ReadFull. destruct (Nat.leb_spec n (length stream)); [|done].
  intros [= <- <-]. by rewrite take_drop, length_take_le.
Qed.

Lemma cut_header a b c : length a = 4%nat → length b = 4%nat → length c = 4%nat →
  take 4 (a ++ b ++ c) = a ∧ cut 4 8 (a ++ b ++ c) = b ∧ cut 8 12 (a ++ b ++ c) = c.
Proof.
  intros Ha Hb Hc. unfold cut. cbn [Nat.sub]. rewrite take_app_length' by done.
  rewrite drop_app_length' by done. rewrite take_app_length' by done. split_and!; [done|done|].
  rewrite app_assoc, drop_app_length' by (by rewrite length_app, Ha, Hb). by rewrite take_ge by lia.
Qed.

Lemma be_get_put4 z : 0 ≤ z < 2 ^ 32 → be_get (be_put 4 z) = z.
Proof. apply (be_get_put_small 4). Qed.

Lemma read_session_packet r w h rest : 0 ≤ w < 2 ^ 32 → 0 ≤ h < 2 ^ 32 →
  readScrcpyPacket (be_put 4 (2 ^ 31 + Z.b2z r) ++ be_put 4 w ++ be_put 4 h ++ rest) =
  (Ok {| pktPTS := 0; pktKeyFrame := false; pktConfig := false; pktSession := true; pktWidth := w;
         pktHeight := h; pktClientResized := r; pktData := [] |}, rest).
Proof.
  intros Hw Hh. set (a := 2 ^ 31 + Z.b2z r). assert (0 ≤ a < 2 ^ 32) as Ha by (subst a; destruct r; done).
  unfold readScrcpyPacket. rewrite !app_assoc, <-(app_assoc (be_put 4 a)).
  change scrcpyPacketHeaderSize with (length (be_put 4 a ++ be_put 4 w ++ be_put 4 h)).
  rewrite ReadFull_app. destruct (cut_header (be_put 4 a) (be_put 4 w) (be_put 4 h)) as (-> & -> & ->); [done..|].
  rewrite app_assoc, take_app_length' by done. rewrite be_get_app, !be_get_put4 by done.
  change (blen (be_put 4 w)) with 4. rewrite session_flag_split by lia.
  rewrite (proj2 (Z.leb_le _ _)) by (subst a; destruct r; simpl Z.b2z; lia). do 3 f_equal.
  change 1 with (Z.shiftl 1 0). rewrite has_flag_testbit by done. apply testbit_eq; [done|]. subst a; by destruct r.
Qed.

Lemma read_media_packet v data rest : 0 ≤ v < 2 ^ 63 → 1 ≤ blen data ≤ maxScrcpyPacketSize →
  readScrcpyPacket (be_put 8 v ++ be_put 4 (blen data) ++ data ++ rest) =
  (Ok {| pktPTS := Z.land v scrcpyPTSBitmask; pktKeyFrame := has_flag v scrcpyKeyFrameFlag;
         pktConfig := has_flag v scrcpyConfigFlag; pktSession := false; pktWidth := 0; pktHeight := 0;
         pktClientResized := false; pktData := data |}, rest).
Proof.
  intros Hv Hd. change maxScrcpyPacketSize with (32 * 1024 * 1024) in *.
  unfold readScrcpyPacket. rewrite app_assoc.
  change scrcpyPacketHeaderSize with (length (be_put 8 v ++ be_put 4 (blen data))).
  rewrite ReadFull_app, take_app_length', drop_app_length' by done.
  rewrite be_get_put_small, be_get_put4 by lia. rewrite session_flag_split by lia.
  rewrite (proj2 (Z.leb_gt _ _)), (proj2 (Z.eqb_neq _ _)) by lia. cbn [orb].
  change maxScrcpyPacketSize with (32 * 1024 * 1024). rewrite (proj2 (Z.ltb_ge _ _)) by lia.
  unfold blen. by rewrite Nat2Z.id, ReadFull_app.
Qed.

(** What a successful read has taken from the stream. *)
Lemma readScrcpyPacket_Ok stream p rest : readScrcpyPacket stream = (Ok p, rest) →
  packet_wf p ∧ (pktSession p = false → stream = encode_packet p ++ rest).
Proof.
  unfold readScrcpyPacket. destruct (ReadFull scrcpyPacketHeaderSize stream) as [[header|e] rest1] eqn:Er; [|done].
  apply ReadFull_Ok in Er as [-> Hl]. change scrcpyPacketHeaderSize with 12%nat in Hl.
  assert (∀ l n, length l = n → 0 ≤ be_get l < 2 ^ (8 * Z.of_nat n)) as Hr by (intros l n <-; apply be_get_range).
  assert (length (take 8 header) = 8%nat) as Hl8 by (rewrite length_take; lia).
  assert (length (drop 8 header) = 4%nat) as Hl4 by (rewrite length_drop; lia).
  pose proof (Hr _ _ Hl8) as Hv. pose proof (Hr _ _ Hl4) as Hs. simpl in Hv, Hs.
  rewrite session_flag_split by lia. destruct (Z.leb_spec (2 ^ 63) (be_get (take 8 header))) as [Hge|Hlt].
  - intros [= <- <-]. split; [|done]. unfold packet_wf. cbn. split_and!; try done;
      apply (Hr _ 4%nat); unfold cut; rewrite length_take, length_drop; lia.
  - destruct ((be_get (drop 8 header) =? 0) || _) eqn:Esz; [done|]. bool_to_prop.
    destruct (ReadFull _ rest1) as [[data|e] rest2] eqn:Er; [|done]. intros [= <- <-].
    apply ReadFull_Ok in Er as [-> Hd]. change maxScrcpyPacketSize with (32 * 1024 * 1024) in *.
    assert (be_get (drop 8 header) = blen data) as Es by (unfold blen; lia).
    destruct (pts_flags_split (be_get (take 8 header)) ltac:(lia)) as [Hsplit Hpts].
    split; [unfold packet_wf; cbn; split_and!; lia|]. intros _. unfold encode_packet.
    cbn [pktSession pktPTS pktKeyFrame pktConfig pktData].
    rewrite <-Hsplit, <-Es, !be_put_get by done. by rewrite <-!app_assoc, (app_assoc (take 8 header)), take_drop.
Qed.

Lemma encode_read p rest : packet_wf p → readScrcpyPacket (encode_packet p ++ rest) = (Ok p, rest).
Proof.
  unfold packet_wf, encode_packet. destruct p as [pts k c [] w h r data];
    cbn [pktSession pktPTS pktKeyFrame pktConfig pktData pktWidth pktHeight pktClientResized].
  - intros (-> & -> & -> & -> & Hw & Hh). rewrite <-!app_assoc. by apply read_session_packet.
  - intros (Hp & Hd & -> & -> & ->). rewrite <-!app_assoc.
    destruct (pts_flags_join pts k c Hp) as (Hv & _ & H1 & H2 & H3).
    rewrite read_media_packet by done. by rewrite H1, H2, H3.
Qed.

(** Reading packets until the end of the stream. *)
Fixpoint read_packets (n : nat) (stream : bytes) : option (list mediaPacket * bytes) :=
  match n with
  | O => Some ([], stream)
  | S n => match readScrcpyPacket stream with
           | (Ok p, rest) => match read_packets n rest with
                             | Some (ps, rest) => Some (p :: ps, rest) | None => None end
           | (Err _, _) => None
           end
  end.

Lemma length_padded l : (length l ≤ 32)%nat → length (padded 32 l) = 32%nat.
Proof. intros H. unfold padded. rewrite length_app, length_take, repeat_length. lia. Qed.

(** The layout of an envelope, as the hub takes it apart. *)
Lemma envelope_fields magic pid flag pts n data (tail := [flag] ++ be_put 8 pts ++ be_put 4 n ++ data)
    (fr := magic ++ pid ++ tail) :
  length magic = 4%nat → length pid = 32%nat → 0 ≤ n < 2 ^ 32 →
  take 4 fr = magic ∧ cut 4 36 fr = pid ∧ byte_at 36 fr = byte_val flag ∧
  be_get (cut 45 49 fr) = n ∧ blen fr = 49 + blen data ∧ drop 4 fr = pid ++ tail.
Proof.
  intros Hm Hp Hn. assert (drop 4 fr = pid ++ tail) as Hdrop by (by apply drop_app_length').
  split_and!; [by apply take_app_length'| | | | |done].
  - unfold cut. rewrite Hdrop. by apply take_app_length'.
  - unfold byte_at. replace fr with ((magic ++ pid) ++ tail) by (by rewrite <-app_assoc).
    assert (length (magic ++ pid) = 36%nat) as Hl by (by rewrite length_app, Hm, Hp).
    rewrite app_nth2; rewrite Hl; [done|lia].
  - unfold cut. replace fr with ((magic ++ pid ++ [flag] ++ be_put 8 pts) ++ be_put 4 n ++ data)
      by (unfold fr, tail; by rewrite <-!app_assoc).
    rewrite drop_app_length' by (rewrite !length_app, Hm, Hp, length_be_put; done).
    rewrite take_app_length' by (by rewrite length_be_put). by apply be_get_put4.
  - unfold fr, tail, blen. rewrite !length_app, Hm, Hp, !length_be_put. cbn [length]. lia.
Qed.

Lemma frame_device_padded id fr : (String.length id ≤ 32)%nat → last (str_bytes id) ≠ Some "000"%char →
  cut 4 36 fr = padded 32 (str_bytes id) → frame_device fr = id.
Proof.
  intros Hl Hlast E. unfold frame_device. rewrite E. unfold padded.
  rewrite take_ge by (by rewrite length_str_bytes). rewrite trim_right_bytes_pad by done.
  apply bytes_str_bytes.
Qed.

Lemma toc_samples_table b :
  toc_samples (byte_val b) = opus_frame_samples (Z.to_nat (byte_val b / 8)) ∧
  120 ≤ toc_samples (byte_val b) ≤ 2880.
Proof. destruct b as [[] [] [] [] [] [] [] []]; by vm_compute. Qed.

Lemma toc_frames_spec b tail :
  toc_frames (byte_val b) tail = opus_frames (b :: tail) ∧
  (∀ n, toc_frames (byte_val b) tail = Some n → 0 ≤ n < 64).
Proof.
  unfold toc_frames, opus_frames. split.
  - destruct tail as [|m tail]; [destruct b as [[] [] [] [] [] [] [] []]; reflexivity|].
    change 0x3f with (Z.ones 6). rewrite (Z.land_ones _ 6) by done.
    destruct b as [[] [] [] [] [] [] [] []]; reflexivity.
  - destruct tail as [|m tail]; [destruct b as [[] [] [] [] [] [] [] []]; by intros n [= <-]|].
    change 0x3f with (Z.ones 6). rewrite (Z.land_ones _ 6) by done.
    pose proof (Z.mod_pos_bound (byte_val m) (2 ^ 6) eq_refl). intros n.
    repeat case_match; intros [= <-]; lia.
Qed.

(** ** Properties *)

(** The packet reader is the exact inverse of the scrcpy writer: a written packet
    is read back whatever follows it, a stream of packets is read back in order, and
    a media packet that is read accounts for every byte taken from the stream, with
    a payload of 1 byte to 32 MiB. *)
Theorem scrcpy_packet_roundtrip packets rest :
  Forall packet_wf packets →
  read_packets (length packets) (concat (map encode_packet packets) ++ rest) = Some (packets, rest) ∧
  (∀ stream p rest', readScrcpyPacket stream = (Ok p, rest') →
     packet_wf p ∧ (pktSession p = false → stream = encode_packet p ++ rest')).
Proof.
  intros Hall. split; [|intros stream p rest'; apply readScrcpyPacket_Ok].
  induction Hall as [|p ps Hp _ IH]; [done|]. cbn [length read_packets map concat].
  by rewrite <-app_assoc, encode_read, IH.
Qed.

(** What the agent uploads, the control plane accepts: for a device id of 1 to
    32 bytes without a trailing zero byte and a non-empty packet, the video envelope
    passes the hub's check for that device, and so does the audio envelope of a
    packet of at most 64 KiB; the payload is carried unchanged. *)
Theorem agent_frames_accepted id p :
  1 ≤ len id ≤ 32 → last (str_bytes id) ≠ Some "000"%char → 1 ≤ blen (pktData p) < 2 ^ 32 →
  ∃ video audio,
    previewFrame id p = Ok video ∧ audioFrame id p = Ok audio ∧
    validPreviewFrame id video = true ∧ drop 49 video = pktData p ∧
    (blen (pktData p) ≤ 65536 → validAudioFrame id audio = true) ∧ drop 49 audio = pktData p ∧
    (∀ other, validPreviewFrame other video = true → other = id).
Proof.
  intros Hid Hlast Hd. unfold len in Hid.
  assert (length (padded 32 (str_bytes id)) = 32%nat) as Hp
    by (apply length_padded; rewrite length_str_bytes; lia).
  assert (∀ magic flag, length magic = 4%nat →
    let fr := magic ++ padded 32 (str_bytes id) ++ [flag] ++ be_put 8 (pktPTS p) ++
              be_put 4 (uint32 (blen (pktData p))) ++ pktData p in
    frame_device fr = id ∧ take 4 fr = magic ∧ byte_at 36 fr = byte_val flag ∧ blen fr = 49 + blen (pktData p) ∧
    be_get (cut 45 49 fr) = blen (pktData p) ∧ drop 49 fr = pktData p) as Hfr.
  { intros magic flag Hm. unfold uint32. rewrite wrap_u_small by lia. cbv zeta.
    set (fr := magic ++ _).
    destruct (envelope_fields magic _ flag (pktPTS p) (blen (pktData p)) (pktData p) Hm Hp ltac:(lia))
      as (H1 & H2 & H3 & H4 & H5 & _).
    split_and!; [apply frame_device_padded; [lia|done|done]|done|done|done|done|].
    unfold fr. rewrite !app_assoc. apply drop_app_length'.
    by rewrite !length_app, Hm, Hp, !length_be_put. }
  assert (previewFrame id p = Ok (str_bytes "PREV" ++ padded 32 (str_bytes id) ++
    [byte_of (if pktKeyFrame p then 1 else 0)] ++ be_put 8 (pktPTS p) ++
    be_put 4 (uint32 (blen (pktData p))) ++ pktData p)) as Hv.
  { unfold previewFrame, len. rewrite (proj2 (Z.eqb_neq _ _)), (proj2 (Z.ltb_ge _ _)) by lia.
    cbn [orb]. by rewrite (proj2 (Z.eqb_neq _ _)) by lia. }
  assert (audioFrame id p = Ok (str_bytes "OPUS" ++ padded 32 (str_bytes id) ++ [byte_of 2] ++
    be_put 8 (pktPTS p) ++ be_put 4 (uint32 (blen (pktData p))) ++ pktData p)) as Ha.
  { unfold audioFrame. rewrite Hv, drop_app_length' by done. f_equal.
    rewrite (app_assoc (str_bytes "OPUS")). rewrite insert_app_r_alt by (by rewrite length_app, Hp).
    rewrite length_app, Hp. by rewrite (app_assoc (str_bytes "OPUS")). }
  destruct (Hfr (str_bytes "PREV") (byte_of (if pktKeyFrame p then 1 else 0)) eq_refl) as (V1 & V2 & _ & V4 & _ & V6).
  destruct (Hfr (str_bytes "OPUS") (byte_of 2) eq_refl) as (A1 & A2 & A3 & A4 & A5 & A6).
  do 2 eexists. split_and!; [exact Hv|exact Ha| |exact V6| |exact A6|].
  - unfold validPreviewFrame. rewrite V4, V2, V1, (proj2 (Z.ltb_ge _ _)) by lia. by rewrite !bool_decide_true.
  - intros Hlim. unfold validAudioFrame. rewrite A1, A2, A3, A4, A5, (proj2 (Z.ltb_lt _ _)), (proj2 (Z.leb_le _ _)) by lia.
    rewrite !bool_decide_true by done. cbn [andb orb]. apply Z.eqb_eq. lia.
  - intros other. unfold validPreviewFrame. destruct (_ || _); [done|].
    intros E%bool_decide_eq_true. by rewrite <-E, V1.
Qed.

(** The duration computed for an Opus packet is the one of RFC 6716: frame size
    by configuration times number of frames, and 0 for an empty or truncated packet
    or more than 120 ms; no [uint32] operation overflows. *)
Theorem opusPacketSamples_correct packet :
  opusPacketSamples packet =
    match packet, opus_frames packet with
    | b :: _, Some frames =>
        let total := opus_frame_samples (Z.to_nat (byte_val b / 8)) * frames in
        if 5760 <? total then 0 else total
    | _, _ => 0
    end ∧ 0 ≤ opusPacketSamples packet ≤ 5760.
Proof.
  destruct packet as [|b tail]; [split; [done|cbn; lia]|].
  destruct (toc_samples_table b) as [Ht Hr]. destruct (toc_frames_spec b tail) as [Hf Hn].
  unfold opusPacketSamples. rewrite Hf in *. destruct (opus_frames (b :: tail)) as [n|]; [|split; [done|lia]].
  specialize (Hn n eq_refl). unfold uint32. rewrite wrap_u_small by nia. rewrite Ht in *.
  split; [done|]. destruct (Z.ltb_spec 5760 (opus_frame_samples (Z.to_nat (byte_val b / 8)) * n)); nia.
Qed.

(** ** Witnesses *)

Module ScrcpyWitness.
Definition video : mediaPacket :=
  {| pktPTS := 1000; pktKeyFrame := true; pktConfig := false; pktSession := false; pktWidth := 0;
     pktHeight := 0; pktClientResized := false; pktData := str_bytes "slice" |}.
Definition session : mediaPacket :=
  {| pktPTS := 0; pktKeyFrame := false; pktConfig := false; pktSession := true; pktWidth := 1080;
     pktHeight := 1920; pktClientResized := true; pktData := [] |}.

Lemma scrcpy_packet_roundtrip_witness :
  read_packets 2 (concat (map encode_packet [session; video]) ++ str_bytes "tail")
  = Some ([session; video], str_bytes "tail").
Proof.
  apply (scrcpy_packet_roundtrip [session; video] (str_bytes "tail")).
  repeat constructor; vm_compute; try done; intuition discriminate.
Defined.

Lemma agent_frames_accepted_witness :
  ∃ v a, previewFrame "phone" video = Ok v ∧ audioFrame "phone" video = Ok a ∧ validPreviewFrame "phone" v = true.
Proof.
  destruct (agent_frames_accepted "phone" video) as (v & a & Hv & Ha & Hok & _);
    [by vm_compute; split|by vm_compute|by vm_compute; split|].
  exists v, a. exact (conj Hv (conj Ha Hok)).
Defined.
End ScrcpyWitness.
