(* ===== verification/MediaOptions.v ===== *)
(** * Capture options (agent/internal/agent/media_options.go, bandwidth.go)

    The options a viewer asks for are parsed into a [streamOptions] and become
    arguments of the scrcpy server.  The code ranges over two small map literals; the
    order of such a loop is not fixed, and is a parameter of the definitions. *)

From S2P Require Import Prelude GoBase GoStrings GoFloat Model Control.

Record bitrateOptions := {
  brEnabled : bool;
  brInitial : Z;
  brMinimum : Z;
  brMaximum : Z;
}.

Record streamOptions := {
  soReconfigure : bool;
  soPreview : bool;
  soPowerOff : bool;
  soDebug : bool;
  soBitrate : bitrateOptions;
  soAudio : bool;
  soSource : string;
  soValues : gmap string string;
}.

(** A loop whose body may return an error. *)
Fixpoint each {A S} (f : A → S → result S) (l : list A) (s : S) : result S :=
  match l with
  | [] => Ok s
  | a :: l => s ← f a s; each f l s
  end.

Section media.
Context (overflow : Z).

(** ** Bitrates *)

Definition bitrate_keys : list string := ["bitrate"; "min_bitrate"; "max_bitrate"].

Definition parse_bitrate (raw : vmap) (key : string) (options : bitrateOptions) : result bitrateOptions :=
  if bool_decide (raw !! key = None) then Ok options
  else match uint32Field overflow raw key with
  | Err _ => Err (ErrMsg ("invalid " +:+ key))
  | Ok value =>
      if (value <? 100000) || (100000000 <? value) then Err (ErrMsg ("invalid " +:+ key))
      else Ok (if bool_decide (key = "bitrate")
               then {| brEnabled := brEnabled options; brInitial := value;
                       brMinimum := brMinimum options; brMaximum := brMaximum options |}
               else if bool_decide (key = "min_bitrate")
               then {| brEnabled := brEnabled options; brInitial := brInitial options;
                       brMinimum := value; brMaximum := brMaximum options |}
               else {| brEnabled := brEnabled options; brInitial := brInitial options;
                       brMinimum := brMinimum options; brMaximum := value |})
  end.

Definition parseBitrateOptions (order : list string) (raw : vmap) : result bitrateOptions :=
  let options := {| brEnabled := eq_true (raw !! "bwe"); brInitial := 4000000;
                    brMinimum := 100000; brMaximum := 20000000 |} in
  options ← each (parse_bitrate raw) order options;
  if brEnabled options then
    if brMaximum options <? brMinimum options then Err (ErrMsg "minimum bitrate exceeds maximum")
    else Ok {| brEnabled := true;
               brInitial := Z.max (brMinimum options) (Z.min (brInitial options) (brMaximum options));
               brMinimum := brMinimum options; brMaximum := brMaximum options |}
  else Ok options.

(** ** Stream options *)

Abbreviation values := (gmap string string) (only parsing).

Definition FormatBool (b : bool) : string := if b then "true" else "false".

(** [value, ok := raw[key].(bool)]. *)
Definition bool_value (raw : vmap) (key : string) : option bool :=
  match raw !! key with Some (VBool b) => Some b | _ => None end.

Definition numeric : list (string * Z) := [("max_fps", 240); ("max_size", 8192); ("camera_fps", 240)].

Definition parse_numeric (raw : vmap) (entry : string * Z) (vs : values) : result values :=
  let '(key, maximum) := entry in
  if bool_decide (raw !! key = None) then Ok vs
  else match uint32Field overflow raw key with
       | Ok value => if maximum <? value then Err (ErrMsg ("invalid " +:+ key))
                     else Ok (<[key := FormatUint value]> vs)
       | Err _ => Err (ErrMsg ("invalid " +:+ key))
       end.

Definition parse_fps (raw : vmap) (vs : values) : result values :=
  if bool_decide (raw !! "max_fps" = None) && negb (bool_decide (raw !! "fps" = None)) then
    match uint32Field overflow raw "fps" with
    | Ok value => if 240 <? value then Err (ErrMsg "invalid fps")
                  else Ok (<["max_fps" := FormatUint value]> vs)
    | Err _ => Err (ErrMsg "invalid fps")
    end
  else Ok vs.

Definition bool_keys : list string := ["audio_dup"; "camera_high_speed"].
Definition parse_bool (raw : vmap) (key : string) (vs : values) : values :=
  match bool_value raw key with Some value => <[key := FormatBool value]> vs | None => vs end.

Definition text_keys : list string :=
  ["audio_source"; "camera_facing"; "camera_id"; "camera_size"; "camera_ar"; "video_codec_options"].
Definition line_breaks : string := String "000" (String "013" (String "010" "")).
Definition parse_text (raw : vmap) (key : string) (vs : values) : result values :=
  let value := stringField raw key in
  if bool_decide (value = "") then Ok vs
  else if (1024 <? len value) || ContainsAny value line_breaks then Err (ErrMsg ("invalid " +:+ key))
  else Ok (<[key := value]> vs).

Definition is_digit (b : byte) : bool := in_range b 48 57.
Fixpoint span_digits (l : bytes) : nat * bytes :=
  match l with
  | b :: l' => if is_digit b then let '(n, rest) := span_digits l' in (S n, rest) else (0%nat, l)
  | [] => (0%nat, [])
  end.
(** The expression [^[0-9]{1,5}x[0-9]{1,5}$]. *)
Definition size_match (value : string) : bool :=
  match span_digits (str_bytes value) with
  | (n, x :: rest) =>
      let '(k, tail) := span_digits rest in
      (1 <=? n)%nat && (n <=? 5)%nat && bool_decide (x = ch "x") &&
      (1 <=? k)%nat && (k <=? 5)%nat && bool_decide (tail = [])
  | _ => false
  end.

(** A missing key of a Go map reads as the empty string. *)
Definition get (vs : values) (key : string) : string := default "" (vs !! key).

Definition check_camera_size (vs : values) : result () :=
  refuse (negb (bool_decide (get vs "camera_size" = "")) && negb (size_match (get vs "camera_size")))
         (ErrMsg "invalid camera_size").

(** The literal [0.1]. *)
Definition one_tenth : float64 := fdiv (float_of_Z 1) (float_of_Z 10).
Definition parse_zoom (raw : vmap) (vs : values) : result values :=
  match raw !! "camera_zoom" with
  | Some (VNum value) =>
      if flt value one_tenth || flt (float_of_Z 100) value then Err (ErrMsg "invalid camera_zoom")
      else Ok (<["camera_zoom" := FormatFloat value]> vs)
  | _ => Ok vs
  end.

Definition parse_orientation (raw : vmap) (vs : values) : result values :=
  let orientation := stringField raw "camera_orientation" in
  if bool_decide (orientation = "") || bool_decide (orientation = "auto") then Ok vs
  else if bool_decide (orientation ∈ ["0"; "90"; "180"; "270"])
  then Ok (<["capture_orientation" := orientation]> vs)
  else Err (ErrMsg "invalid camera_orientation").

Definition default_audio_source (vs : values) : values :=
  let vs := if bool_decide (get vs "audio_dup" = "true") && bool_decide (get vs "audio_source" = "")
            then <["audio_source" := "playback"]> vs else vs in
  if bool_decide (get vs "audio_source" = "playback") then vs else delete "audio_dup" vs.

Definition parse_source (raw : vmap) : result string :=
  let source := stringField raw "video_source" in
  if bool_decide (source = "") then Ok "display"
  else if bool_decide (source = "display") || bool_decide (source = "camera") then Ok source
  else Err (ErrMsg "unsupported video source").

Definition parseStreamOptions (bitrates : list string) (numbers : list (string * Z))
    (raw : vmap) (preview : bool) : result streamOptions :=
  let preview := default preview (bool_value raw "preview") in
  let awake := default (negb preview) (bool_value raw "stay_awake") in
  let vs := <["power_on" := FormatBool (negb preview || awake)]>
              (<["keep_active" := FormatBool awake]> ∅) in
  bitrate ← parseBitrateOptions bitrates raw;
  source ← parse_source raw;
  vs ← each (parse_numeric raw) numbers vs;
  vs ← parse_fps raw vs;
  let vs := <["video_bit_rate" := FormatUint (brInitial bitrate)]> vs in
  let vs := foldl (λ vs key, parse_bool raw key vs) vs bool_keys in
  vs ← each (parse_text raw) text_keys vs;
  _ ← check_camera_size vs;
  vs ← parse_zoom raw vs;
  vs ← parse_orientation raw vs;
  Ok {| soReconfigure := true; soPreview := preview; soPowerOff := eq_true (raw !! "power_off");
        soDebug := eq_true (raw !! "debug"); soBitrate := bitrate;
        soAudio := eq_true (raw !! "audio"); soSource := source;
        soValues := default_audio_source vs |}.

(** The keys are sorted, so the order in which the map lists them does not matter. *)
Definition arguments (options : streamOptions) : list string :=
  let source := if bool_decide (soSource options = "") then "display" else soSource options in
  let vs := soValues options ∪ {[ "video_codec_options" := "i-frame-interval=1" ]} in
  let keys := sort_by String.ltb (map_to_list vs).*1 in
  ["video=true"; "audio=" +:+ FormatBool (soAudio options); "video_source=" +:+ source] ++
  map (λ key, key +:+ "=" +:+ get vs key) keys.
End media.

(** ** Lemmas *)

(** Text without a NUL byte or a line break. *)
Definition plain (s : string) : Prop := ContainsAny s line_breaks = false.

Lemma plain_app s t : plain s → plain t → plain (s +:+ t).
Proof. unfold plain, ContainsAny. intros Hs Ht. by rewrite str_bytes_app, existsb_app, Hs, Ht. Qed.

Lemma plain_cons a s : bool_decide (a ∈ str_bytes line_breaks) = false → plain s → plain (String a s).
Proof. unfold plain, ContainsAny. intros Ha Hs. cbn [str_bytes list_ascii_of_string existsb]. by rewrite Ha. Qed.

Lemma plain_digits s : Forall digit (str_bytes s) → plain s.
Proof.
  induction s as [|a s IH]; intros Hs; [by vm_compute|]. apply Forall_cons in Hs as [Ha Hs].
  apply plain_cons; [|by apply IH]. revert Ha. clear. destruct a as [[] [] [] [] [] [] [] []]; by vm_compute.
Qed.

Lemma plain_FormatUint n : plain (FormatUint n).
Proof. apply plain_digits, FormatUint_digits. Qed.

Lemma plain_pad_zeros n s : plain s → plain (pad_zeros n s).
Proof.
  intros Hs. unfold pad_zeros. apply plain_app; [|done].
  induction (n - String.length s)%nat as [|k IH]; [by vm_compute|]. by apply plain_cons.
Qed.

Lemma plain_FormatFloat f : plain (FormatFloat f).
Proof.
  destruct f as [[]|[]| |s m e]; [by vm_compute..|].
  unfold FormatFloat. destruct (shortest 40 (rounding_interval m e) 3) as [n j].
  apply plain_app; [by destruct s|]. unfold decimal. destruct (0 <=? j); [apply plain_FormatUint|].
  apply plain_app; [apply plain_FormatUint|]. apply plain_app; [by vm_compute|].
  apply plain_pad_zeros, plain_FormatUint.
Qed.

Lemma plain_FormatBool b : plain (FormatBool b).
Proof. by destruct b. Qed.

Lemma each_inv {A S} (P : S → Prop) (f : A → S → result S) l : ∀ s s',
  (∀ a s s', a ∈ l → P s → f a s = Ok s' → P s') → P s → each f l s = Ok s' → P s'.
Proof.
  induction l as [|a l IH]; intros s s' Hf Hs; cbn [each]; [by intros [= <-]|].
  intros (s1 & E1 & E2)%bind_Ok. eapply IH; [|by eapply (Hf a); [left|..]|exact E2].
  intros b t t' Hb. apply Hf. by right.
Qed.

(** *** Bitrates *)

Section bitrates.
Context (overflow : Z).

(** What a request says of a bitrate: [None] when it is invalid, [Some None] when
    the key is absent. *)
Definition requested (raw : vmap) (key : string) : option (option Z) :=
  if bool_decide (raw !! key = None) then Some None
  else match uint32Field overflow raw key with
       | Ok value => if (100000 <=? value) && (value <=? 100000000) then Some (Some value) else None
       | Err _ => None
       end.

Definition choose_bitrate (key : string) (v : option Z) (o : bitrateOptions) : bitrateOptions :=
  if bool_decide (key = "bitrate")
  then {| brEnabled := brEnabled o; brInitial := default (brInitial o) v; brMinimum := brMinimum o; brMaximum := brMaximum o |}
  else if bool_decide (key = "min_bitrate")
  then {| brEnabled := brEnabled o; brInitial := brInitial o; brMinimum := default (brMinimum o) v; brMaximum := brMaximum o |}
  else {| brEnabled := brEnabled o; brInitial := brInitial o; brMinimum := brMinimum o; brMaximum := default (brMaximum o) v |}.

Lemma parse_bitrate_requested raw key o :
  parse_bitrate overflow raw key o =
  match requested raw key with
  | None => Err (ErrMsg ("invalid " +:+ key))
  | Some v => Ok (choose_bitrate key v o)
  end.
Proof.
  unfold parse_bitrate, requested, choose_bitrate. destruct o as [en i mn mx]; cbn.
  destruct (bool_decide (raw !! key = None)); [by repeat case_match|].
  destruct (uint32Field overflow raw key) as [value|e]; [|done].
  rewrite !Z.ltb_antisym, <-negb_andb. by destruct (_ && _).
Qed.

Lemma requested_bounds raw key v : requested raw key = Some (Some v) → 100000 ≤ v ≤ 100000000.
Proof.
  unfold requested. repeat case_match; intros [= <-]. bool_to_prop. lia.
Qed.

Lemma perm_3 {A} (l : list A) a b c : l ≡ₚ [a; b; c] →
  l ∈ [[a; b; c]; [a; c; b]; [b; a; c]; [b; c; a]; [c; a; b]; [c; b; a]].
Proof.
  intros H. apply Permutation_sym in H.
  assert (l ∈ permutations [a; b; c]) as Hp by by apply permutations_Permutation.
  revert Hp. cbn. rewrite !elem_of_cons. intuition.
Qed.

Lemma each_cons {A S} (f : A → S → result S) a l s :
  each f (a :: l) s = (s' ← f a s; each f l s').
Proof. done. Qed.

(** The three bitrates are read independently of the order of the loop. *)
Lemma parse_bitrates raw order o o' : order ≡ₚ bitrate_keys →
  each (parse_bitrate overflow raw) order o = Ok o' ↔
  ∃ i mn mx, requested raw "bitrate" = Some i ∧ requested raw "min_bitrate" = Some mn ∧
    requested raw "max_bitrate" = Some mx ∧
    o' = {| brEnabled := brEnabled o; brInitial := default (brInitial o) i;
            brMinimum := default (brMinimum o) mn; brMaximum := default (brMaximum o) mx |}.
Proof.
  intros Hp%perm_3. repeat (apply elem_of_cons in Hp as [->|Hp]); [..|by apply elem_of_nil in Hp].
  all: destruct (requested raw "bitrate") as [i|] eqn:Ei, (requested raw "min_bitrate") as [mn|] eqn:Emn,
         (requested raw "max_bitrate") as [mx|] eqn:Emx.
  all: repeat (rewrite each_cons, parse_bitrate_requested, ?Ei, ?Emn, ?Emx; cbn [mbind result_bind]).
  all: split; [try done|intros (i' & mn' & mx' & Hi & Hmn & Hmx & ->); try done;
                        injection Hi as <-; injection Hmn as <-; injection Hmx as <-; by destruct i, mn, mx].
  all: intros [= <-]; by exists i, mn, mx.
Qed.
End bitrates.

(** *** Stream options *)

Section stream.
Context (overflow : Z).

(** A loop whose steps commute when they succeed does not depend on its order. *)
Lemma each_permutation {A S} (f : A → S → result S) l l' : l ≡ₚ l' →
  (∀ a b s s', a ∈ l → b ∈ l → (f a s ≫= f b) = Ok s' ↔ (f b s ≫= f a) = Ok s') →
  ∀ s s', each f l s = Ok s' ↔ each f l' s = Ok s'.
Proof.
  induction 1 as [|a l l' Hp IH|a b l|l1 l2 l3 H1 IH1 H2 IH2]; intros Hc s s'.
  - done.
  - rewrite !each_cons, !bind_Ok. setoid_rewrite IH; [done|].
    intros x y t t' Hx Hy. apply Hc; by right.
  - rewrite !each_cons, !bind_Ok. setoid_rewrite each_cons. setoid_rewrite bind_Ok.
    assert (∀ t, (∃ u, f b s = Ok u ∧ f a u = Ok t) ↔ (∃ u, f a s = Ok u ∧ f b u = Ok t)) as Hab.
    { intros t. specialize (Hc b a s t ltac:(by left) ltac:(by right; left)). by rewrite !bind_Ok in Hc. }
    split.
    + intros (u & Hu & t & Ht & E). destruct (proj1 (Hab t)) as (u' & ? & ?); [by exists u|].
      exists u'. split; [done|]. by exists t.
    + intros (u & Hu & t & Ht & E). destruct (proj2 (Hab t)) as (u' & ? & ?); [by exists u|].
      exists u'. split; [done|]. by exists t.
  - rewrite IH1 by done. apply IH2. intros x y t t' Hx Hy. apply Hc; by rewrite H1.
Qed.

Lemma parse_numeric_commute raw a b vs vs' : a ∈ numeric → b ∈ numeric →
  (parse_numeric overflow raw a vs ≫= parse_numeric overflow raw b) = Ok vs' ↔
  (parse_numeric overflow raw b vs ≫= parse_numeric overflow raw a) = Ok vs'.
Proof.
  intros Ha Hb. destruct (decide (a = b)) as [->|Hne]; [done|].
  assert (a.1 ≠ b.1) as Hk.
  { intros E. apply Hne. revert Ha Hb E. unfold numeric. rewrite !elem_of_cons, !elem_of_nil.
    intros [->|[->|[->|[]]]] [->|[->|[->|[]]]]; by intros [=]. }
  destruct a as [k m], b as [k' m']; cbn in Hk. unfold parse_numeric.
  destruct (bool_decide (raw !! k = None)), (bool_decide (raw !! k' = None)); cbn; try done.
  - by destruct (uint32Field overflow raw k') as [v|]; [destruct (m' <? v)|].
  - by destruct (uint32Field overflow raw k) as [v|]; [destruct (m <? v)|].
  - destruct (uint32Field overflow raw k) as [v|], (uint32Field overflow raw k') as [v'|];
      try destruct (m <? v); try destruct (m' <? v'); cbn; try done.
    by rewrite (insert_insert_ne vs k k') by done.
Qed.

(** The keys of the arguments a viewer can set. *)
Definition capture_keys : list string :=
  ["keep_active"; "power_on"; "max_fps"; "max_size"; "camera_fps"; "video_bit_rate"; "camera_zoom";
   "capture_orientation"] ++ bool_keys ++ text_keys.

(** The invariant of the map of values while it is filled. *)
Definition values_ok (rate : option string) (vs : gmap string string) : Prop :=
  map_Forall (λ k v, k ∈ capture_keys ∧ plain v) vs ∧ vs !! "video_bit_rate" = rate.

Lemma values_ok_insert rate vs k v : k ∈ capture_keys → plain v → k ≠ "video_bit_rate" →
  values_ok rate vs → values_ok rate (<[k := v]> vs).
Proof.
  intros Hk Hv Hne [Hall Hr]. split; [by apply map_Forall_insert_2|by rewrite lookup_insert_ne].
Qed.

(** Closes the membership of a literal key. *)
Ltac literal_key := try done; apply (bool_decide_unpack _); by vm_compute.

Lemma parse_numeric_ok raw entry rate vs vs' : entry ∈ numeric → values_ok rate vs →
  parse_numeric overflow raw entry vs = Ok vs' → values_ok rate vs'.
Proof.
  intros He Hvs. destruct entry as [k m]. unfold parse_numeric.
  destruct (bool_decide _); [by intros [= <-]|]. destruct (uint32Field _ _ _) as [v|]; [|done].
  destruct (m <? v); [done|]. intros [= <-].
  assert (k ∈ ["max_fps"; "max_size"; "camera_fps"]) as Hk
    by (apply (list_elem_of_fmap_2 fst numeric (k, m) He)).
  apply values_ok_insert; [|apply plain_FormatUint| |done];
    repeat (apply elem_of_cons in Hk as [->|Hk]; [literal_key|]); by apply elem_of_nil in Hk.
Qed.

Lemma parse_fps_ok raw rate vs vs' : values_ok rate vs → parse_fps overflow raw vs = Ok vs' → values_ok rate vs'.
Proof.
  intros Hvs. unfold parse_fps. destruct (_ && _); [|by intros [= <-]].
  destruct (uint32Field _ _ _) as [v|]; [|done]. destruct (240 <? v); [done|]. intros [= <-].
  apply values_ok_insert; [literal_key|apply plain_FormatUint|done|done].
Qed.

Lemma parse_bool_ok raw key rate vs : key ∈ bool_keys → values_ok rate vs → values_ok rate (parse_bool raw key vs).
Proof.
  intros Hk Hvs. unfold parse_bool. destruct (bool_value raw key) as [v|]; [|done].
  apply values_ok_insert; [|apply plain_FormatBool| |done];
    repeat (apply elem_of_cons in Hk as [->|Hk]; [literal_key|]); by apply elem_of_nil in Hk.
Qed.

Lemma parse_text_ok raw key rate vs vs' : key ∈ text_keys → values_ok rate vs →
  parse_text raw key vs = Ok vs' → values_ok rate vs'.
Proof.
  intros Hk Hvs. unfold parse_text. destruct (bool_decide _); [by intros [= <-]|].
  destruct (_ || _) eqn:E; [done|]. apply orb_false_iff in E as [_ Hp]. intros [= <-].
  apply values_ok_insert; [|done| |done];
    repeat (apply elem_of_cons in Hk as [->|Hk]; [literal_key|]); by apply elem_of_nil in Hk.
Qed.

Lemma parse_zoom_ok raw rate vs vs' : values_ok rate vs → parse_zoom raw vs = Ok vs' → values_ok rate vs'.
Proof.
  intros Hvs. unfold parse_zoom. destruct (raw !! "camera_zoom") as [[]|]; try by intros [= <-].
  destruct (_ || _); [done|]. intros [= <-].
  apply values_ok_insert; [literal_key|apply plain_FormatFloat|done|done].
Qed.

Lemma parse_orientation_ok raw rate vs vs' :
  values_ok rate vs → parse_orientation raw vs = Ok vs' → values_ok rate vs'.
Proof.
  intros Hvs. unfold parse_orientation. set (o := stringField raw "camera_orientation").
  destruct (_ || _); [by intros [= <-]|]. destruct (bool_decide _) eqn:E; [|done]. intros [= <-].
  apply bool_decide_eq_true in E. apply values_ok_insert; [literal_key| |done|done].
  repeat (apply elem_of_cons in E as [->|E]; [by vm_compute|]). by apply elem_of_nil in E.
Qed.

Lemma default_audio_source_ok rate vs : values_ok rate vs →
  values_ok rate (default_audio_source vs) ∧
  (is_Some (default_audio_source vs !! "audio_dup") → default_audio_source vs !! "audio_source" = Some "playback").
Proof.
  intros Hvs. unfold default_audio_source.
  set (vs1 := if _ : bool then <["audio_source" := "playback"]> vs else vs).
  assert (values_ok rate vs1) as H1.
  { subst vs1. destruct (_ && _); [|done]. apply values_ok_insert; [literal_key|by vm_compute|done|done]. }
  clearbody vs1. case_bool_decide as Hs.
  - split; [done|]. intros _. unfold get in Hs. destruct (vs1 !! "audio_source"); [by simpl in Hs; subst|done].
  - split; [|by rewrite lookup_delete_eq; intros []]. destruct H1 as [Hall Hr].
    split; [by apply map_Forall_delete|by rewrite lookup_delete_ne].
Qed.

(** The values once [video_bit_rate] is written. *)
Lemma values_ok_rate vs r x : values_ok r vs → plain x → values_ok (Some x) (<["video_bit_rate" := x]> vs).
Proof.
  intros [Hall _] Hx. split; [apply map_Forall_insert_2; [split; [literal_key|done]|done]|apply lookup_insert_eq].
Qed.

Lemma foldl_inv {A S} (P : S → Prop) (f : S → A → S) l : ∀ s,
  (∀ a s, a ∈ l → P s → P (f s a)) → P s → P (foldl f s l).
Proof.
  induction l as [|a l IH]; intros s Hf Hs; [done|]. apply IH; [|apply Hf; [by left|done]].
  intros b t Hb. apply Hf. by right.
Qed.
End stream.

Lemma capture_keys_plain k : k ∈ capture_keys → plain k.
Proof.
  assert (Forall plain capture_keys) as H by (repeat constructor; by vm_compute).
  rewrite Forall_forall in H. apply H.
Qed.

Lemma parseBitrateOptions_Ok overflow order raw o : order ≡ₚ bitrate_keys →
  parseBitrateOptions overflow order raw = Ok o →
  100000 ≤ brMinimum o ≤ 100000000 ∧ 100000 ≤ brMaximum o ≤ 100000000 ∧ 100000 ≤ brInitial o ≤ 100000000 ∧
  (brEnabled o = true → brMinimum o ≤ brInitial o ≤ brMaximum o) ∧ brEnabled o = eq_true (raw !! "bwe").
Proof.
  intros Hp. unfold parseBitrateOptions.
  intros (o1 & (i & mn & mx & Hi & Hmn & Hmx & ->)%(parse_bitrates overflow raw order _ _ Hp) & E)%bind_Ok.
  assert (∀ key v d, requested overflow raw key = Some v → 100000 ≤ d ≤ 100000000 →
            100000 ≤ default d v ≤ 100000000) as Hb.
  { intros key [v|] d Hv Hd; [by apply (requested_bounds overflow raw key)|done]. }
  apply (Hb _ _ 4000000) in Hi; [|lia]. apply (Hb _ _ 100000) in Hmn; [|lia]. apply (Hb _ _ 20000000) in Hmx; [|lia].
  cbn [brEnabled brInitial brMinimum brMaximum] in E.
  destruct (eq_true _); [|by injection E as <-; cbn; split_and!; try lia].
  destruct (Z.ltb_spec (default 20000000 mx) (default 100000 mn)); [done|].
  injection E as <-. cbn. split_and!; try lia; done.
Qed.

Lemma parse_order_independent overflow b b' n n' raw preview o :
  b ≡ₚ bitrate_keys → b' ≡ₚ bitrate_keys → n ≡ₚ numeric → n' ≡ₚ numeric →
  parseStreamOptions overflow b n raw preview = Ok o →
  parseStreamOptions overflow b' n' raw preview = Ok o.
Proof.
  intros Hb Hb' Hn Hn'. unfold parseStreamOptions. set (vs := <["power_on" := _]> _). clearbody vs.
  rewrite !bind_Ok. intros (br & Hbr & H). exists br. split.
  { revert Hbr. unfold parseBitrateOptions. rewrite !bind_Ok.
    intros (o1 & Ho1 & Hrest). exists o1. split; [|done].
    by apply (parse_bitrates overflow raw b' _ _ Hb'), (parse_bitrates overflow raw b _ _ Hb). }
  revert H. rewrite !bind_Ok. intros (source & Hs & H). exists source. split; [done|].
  revert H. rewrite !bind_Ok. intros (vs1 & Hvs & H). exists vs1. split; [|done].
  revert Hvs. apply each_permutation; [by rewrite Hn|].
  intros x y s s'. rewrite Hn'. intros Hx Hy. by apply parse_numeric_commute.
Qed.

(** What a successful parse establishes. *)
Lemma parseStreamOptions_Ok overflow bitrates numbers raw preview o : numbers ≡ₚ numeric →
  parseStreamOptions overflow bitrates numbers raw preview = Ok o →
  parseBitrateOptions overflow bitrates raw = Ok (soBitrate o) ∧
  values_ok (Some (FormatUint (brInitial (soBitrate o)))) (soValues o) ∧
  (is_Some (soValues o !! "audio_dup") → soValues o !! "audio_source" = Some "playback") ∧
  (soSource o = "display" ∨ soSource o = "camera") ∧ soAudio o = eq_true (raw !! "audio").
Proof.
  intros Hn. unfold parseStreamOptions. set (vs := <["power_on" := _]> _).
  assert (values_ok None vs) as H0.
  { subst vs. repeat (apply values_ok_insert; [apply (bool_decide_unpack _); by vm_compute|apply plain_FormatBool|done|]).
    by split. }
  clearbody vs.
  rewrite bind_Ok. intros (br & Hbr & H). revert H.
  rewrite bind_Ok. intros (source & Hs & H). revert H.
  rewrite bind_Ok. intros (vs1 & E1 & H). revert H.
  rewrite bind_Ok. intros (vs2 & E2 & H). revert H.
  rewrite bind_Ok. intros (vs3 & E3 & H). revert H.
  rewrite bind_Ok. intros (u & _ & H). revert H.
  rewrite bind_Ok. intros (vs4 & E4 & H). revert H.
  rewrite bind_Ok. intros (vs5 & E5 & [= <-]). cbn [soBitrate soValues soSource soAudio].
  assert (values_ok None vs1) as H1.
  { eapply (each_inv (values_ok None)); [|exact H0|exact E1].
    intros a s s' Ha. apply parse_numeric_ok. by rewrite <-Hn. }
  apply (parse_fps_ok _ _ _ _ _ H1) in E2 as H2.
  set (rate := FormatUint (brInitial br)) in *.
  apply (values_ok_rate _ _ rate) in H2; [|apply plain_FormatUint].
  assert (values_ok (Some rate) vs3) as H3.
  { eapply (each_inv (values_ok (Some rate))); [|exact (foldl_inv _ _ bool_keys _
      (λ a s Ha, parse_bool_ok raw a (Some rate) s Ha) H2)|exact E3].
    intros a s s' Ha. by apply parse_text_ok. }
  apply (parse_zoom_ok _ _ _ _ H3) in E4. apply (parse_orientation_ok _ _ _ _ E4) in E5.
  destruct (default_audio_source_ok _ _ E5) as [H5 Hdup]. split_and!; try done.
  revert Hs. unfold parse_source. case_bool_decide; [intros [= <-]; by left|].
  destruct (bool_decide (_ = "display")) eqn:Ed; [intros [= <-]; left; by apply bool_decide_eq_true in Ed|].
  destruct (bool_decide (_ = "camera")) eqn:Ec; [intros [= <-]; right; by apply bool_decide_eq_true in Ec|done].
Qed.

(** The keys of the arguments, sorted. *)
Definition argument_keys (o : streamOptions) : list string :=
  sort_by String.ltb (map_to_list (soValues o ∪ {[ "video_codec_options" := "i-frame-interval=1" ]})).*1.

Lemma elem_of_argument_keys o key :
  key ∈ argument_keys o ↔ is_Some (soValues o !! key) ∨ key = "video_codec_options".
Proof.
  unfold argument_keys. rewrite elem_of_sort_by, list_elem_of_fmap. split.
  - intros ([k v] & -> & [Hv|[_ Hv]]%elem_of_map_to_list%lookup_union_Some_raw); cbn; [by left; exists v|].
    right. by apply lookup_singleton_Some in Hv as [-> _].
  - intros Hk. assert (is_Some ((soValues o ∪ {[ "video_codec_options" := "i-frame-interval=1" ]}) !! key)) as [v Hv].
    { rewrite lookup_union_is_Some. destruct Hk as [Hk| ->]; [by left|right]. by rewrite lookup_singleton_eq. }
    exists (key, v). split; [done|by apply elem_of_map_to_list].
Qed.

Lemma lookup_argument o key : key ∈ argument_keys o →
  get (soValues o ∪ {[ "video_codec_options" := "i-frame-interval=1" ]}) key =
  default "i-frame-interval=1" (soValues o !! key).
Proof.
  intros Hk%elem_of_argument_keys. unfold get. destruct (soValues o !! key) as [v|] eqn:E.
  - by rewrite (lookup_union_Some_l _ _ _ v).
  - destruct Hk as [[v Hv]| ->]; [done|]. by rewrite lookup_union_r, lookup_singleton_eq.
Qed.

(** ** Properties *)

(** Accepted bitrates are bounded: whatever a viewer sends and in whatever order
    the loop reads it, the minimum, maximum and initial rates lie between 0.1 and 100
    Mbit/s, with bandwidth estimation the initial rate lies between the other two, and
    the encoder is started with that initial rate. *)
Theorem bitrates_bounded overflow bitrates numbers raw preview o :
  bitrates ≡ₚ bitrate_keys → numbers ≡ₚ numeric →
  parseStreamOptions overflow bitrates numbers raw preview = Ok o →
  let br := soBitrate o in
  100000 ≤ brMinimum br ≤ 100000000 ∧ 100000 ≤ brMaximum br ≤ 100000000 ∧ 100000 ≤ brInitial br ≤ 100000000 ∧
  (brEnabled br = true → brMinimum br ≤ brInitial br ≤ brMaximum br) ∧
  soValues o !! "video_bit_rate" = Some (FormatUint (brInitial br)) ∧
  (∀ bitrates' numbers', bitrates' ≡ₚ bitrate_keys → numbers' ≡ₚ numeric →
     parseStreamOptions overflow bitrates' numbers' raw preview = Ok o).
Proof.
  intros Hb Hn H. destruct (parseStreamOptions_Ok _ _ _ _ _ _ Hn H) as (Hbr & [_ Hr] & _).
  destruct (parseBitrateOptions_Ok _ _ _ _ Hb Hbr) as (H1 & H2 & H3 & H4 & _).
  split_and!; try lia; [done|done|].
  intros b' n' Hb' Hn'. by apply (parse_order_independent _ bitrates b' numbers n').
Qed.

(** The arguments, with the keys that are known, and no text that ends a line. *)
Lemma arguments_shape overflow bitrates numbers raw preview o :
  numbers ≡ₚ numeric → parseStreamOptions overflow bitrates numbers raw preview = Ok o →
  (∀ key, key ∈ argument_keys o → key ∈ capture_keys) ∧
  arguments o = ["video=true"; "audio=" +:+ FormatBool (eq_true (raw !! "audio")); "video_source=" +:+ soSource o] ++
    map (λ key, key +:+ "=" +:+ default "i-frame-interval=1" (soValues o !! key)) (argument_keys o) ∧
  ∀ arg, arg ∈ arguments o → plain arg.
Proof.
  intros Hn H. destruct (parseStreamOptions_Ok _ _ _ _ _ _ Hn H) as (_ & [Hall _] & _ & Hs & Ha).
  assert (∀ key, key ∈ argument_keys o → key ∈ capture_keys) as Hkeys.
  { intros key [[v Hv]| ->]%elem_of_argument_keys; [by apply (Hall key v)|].
    apply (bool_decide_unpack _); by vm_compute. }
  assert (arguments o = ["video=true"; "audio=" +:+ FormatBool (eq_true (raw !! "audio")); "video_source=" +:+ soSource o] ++
      map (λ key, key +:+ "=" +:+ default "i-frame-interval=1" (soValues o !! key)) (argument_keys o)) as Hargs.
  { unfold arguments. rewrite bool_decide_false by (by destruct Hs as [-> | ->]). rewrite Ha. f_equal.
    apply map_ext_in. intros key Hk%list_elem_of_In. by rewrite (lookup_argument o key Hk). }
  split_and!; [done|done|]. rewrite Hargs. intros arg [Hfix|Hk]%elem_of_app.
  - repeat (apply elem_of_cons in Hfix as [->|Hfix]); [..|by apply elem_of_nil in Hfix]; [by vm_compute| |].
    + apply plain_app; [by vm_compute|apply plain_FormatBool].
    + by destruct Hs as [-> | ->]; vm_compute.
  - apply list_elem_of_In, in_map_iff in Hk as (key & <- & Hk%list_elem_of_In).
    apply plain_app; [by apply capture_keys_plain, Hkeys|]. apply plain_app; [by vm_compute|].
    destruct (soValues o !! key) as [v|] eqn:Ev; [by apply (Hall key v)|by vm_compute].
Qed.

(** The arguments handed to the scrcpy server are well-formed whatever a viewer
    sends: they start with the three fixed ones, the others are one [key=value] per
    key in sorted order, the keys are among sixteen known ones, no argument
    holds a NUL byte or a line break, and audio duplication is only requested for
    the playback source. *)
Theorem stream_arguments_safe overflow bitrates numbers raw preview o :
  numbers ≡ₚ numeric → parseStreamOptions overflow bitrates numbers raw preview = Ok o →
  ∃ keys,
    arguments o = ["video=true"; "audio=" +:+ FormatBool (eq_true (raw !! "audio")); "video_source=" +:+ soSource o] ++
      map (λ key, key +:+ "=" +:+ default "i-frame-interval=1" (soValues o !! key)) keys ∧
    (soSource o = "display" ∨ soSource o = "camera") ∧
    NoDup keys ∧ Sorted (λ a b, String.ltb b a = false) keys ∧
    (∀ key, key ∈ keys ↔ is_Some (soValues o !! key) ∨ key = "video_codec_options") ∧
    (∀ key, key ∈ keys → key ∈ capture_keys) ∧ (∀ arg, arg ∈ arguments o → plain arg) ∧
    ("audio_dup" ∈ keys → soValues o !! "audio_source" = Some "playback").
Proof.
  intros Hn H. destruct (parseStreamOptions_Ok _ _ _ _ _ _ Hn H) as (_ & _ & Hdup & Hs & _).
  destruct (arguments_shape _ _ _ _ _ _ Hn H) as (Hkeys & Hargs & Hplain).
  exists (argument_keys o). split_and!; [done|done| | |by apply elem_of_argument_keys|done|done|].
  - unfold argument_keys. rewrite sort_by_perm. apply NoDup_fst_map_to_list.
  - apply sort_by_sorted, string_ltb_asym.
  - intros [Hk|Hk]%elem_of_argument_keys; [by apply Hdup|done].
Qed.

(** ** Witnesses *)

Module MediaOptionsWitness.
Definition raw : gmap string value :=
  {[ "bwe" := VBool true; "max_bitrate" := VInt 2000000; "max_fps" := VInt 60; "audio" := VBool true;
     "audio_dup" := VBool true; "camera_zoom" := VNum (fdiv (float_of_Z 5) (float_of_Z 2)) ]}.
Definition empty_options : streamOptions :=
  {| soReconfigure := false; soPreview := false; soPowerOff := false; soDebug := false;
     soBitrate := {| brEnabled := false; brInitial := 0; brMinimum := 0; brMaximum := 0 |};
     soAudio := false; soSource := ""; soValues := ∅ |}.
Definition options : streamOptions :=
  from_ok empty_options (parseStreamOptions 0 bitrate_keys numeric raw false).

Example options_arguments : arguments options =
  ["video=true"; "audio=true"; "video_source=display"; "audio_dup=true"; "audio_source=playback";
   "camera_zoom=2.5"; "keep_active=true"; "max_fps=60"; "power_on=true"; "video_bit_rate=2000000";
   "video_codec_options=i-frame-interval=1"].
Proof. by vm_compute. Qed.

Lemma bitrates_bounded_witness :
  brInitial (soBitrate options) = 2000000 ∧
  parseStreamOptions 0 (rev bitrate_keys) (rev numeric) raw false = Ok options.
Proof.
  split; [by vm_compute|].
  refine (proj2 (proj2 (proj2 (proj2 (proj2 (bitrates_bounded 0 bitrate_keys numeric raw false options
    (Permutation_refl _) (Permutation_refl _) _))))) _ _ _ _);
    [vm_compute; reflexivity|symmetry; apply Permutation_rev|symmetry; apply Permutation_rev].
Defined.

Lemma stream_arguments_safe_witness : Forall plain (arguments options).
Proof.
  destruct (stream_arguments_safe 0 bitrate_keys numeric raw false options (Permutation_refl _))
    as (keys & _ & _ & _ & _ & _ & _ & H & _); [vm_compute; reflexivity|].
  apply Forall_forall. exact H.
Defined.
End MediaOptionsWitness.
