(* ===== verification/AdbShell.v ===== *)
(** * The ADB client (internal/adb/client.go, shell.go, legacy.go)

    Quoting of command lines, the shell protocol (version 2) of a session, and the
    exit-status trailer of legacy commands.  The transport of the gadb module is not
    in the repository: a connection is the bytes still to be read from it and the
    bytes written to it, and the answers of the ADB server are arguments. *)

From S2P Require Import Prelude GoBase GoStrings GoFloat Scrcpy.

(** ** Addresses and devices (client.go) *)

Definition DefaultServer : string := "127.0.0.1:5037".

Record Client := { clHost : string; clPort : Z }.

Definition New (address : string) : result Client :=
  let address := if bool_decide (address = "") then DefaultServer else address in
  match SplitHostPort address with
  | None => Err (ErrMsg "ADB server address")
  | Some (host, rawPort) =>
      match ParseInt rawPort with
      | None => Err (ErrMsg "invalid ADB server address")
      | Some port =>
          if (port <? 1) || (65535 <? port) || bool_decide (host = "")
          then Err (ErrMsg "invalid ADB server address") else Ok {| clHost := host; clPort := port |}
      end
  end.

Definition Address (c : Client) : string := clHost c +:+ ":" +:+ FormatUint (clPort c).

Record Device := { dvSerial : string; dvUSB : bool }.

(** What the server lists: a serial, its state if it answers, and [IsUsb]. *)
Definition Devices (listing : list (string * result string * bool)) : list Device :=
  flat_map (λ '(serial, state, usb),
    match state with
    | Ok state => if bool_decide (state = "online") then [{| dvSerial := serial; dvUSB := usb |}] else []
    | Err _ => []
    end) listing.

(** [RequireShellV2] on the answer to the [features] query. *)
Definition RequireShellV2 (features : result string) : result () :=
  match features with
  | Err e => Err e
  | Ok features =>
      if bool_decide ("shell_v2" ∈ Split (TrimSpace features) ",") then Ok ()
      else Err (ErrMsg "device does not support ADB Shell v2; use device deployment mode")
  end.

(** The guard of [device] on a serial. *)
Definition serial_ok (serial : string) : bool :=
  negb (bool_decide (TrimSpace serial = "")) && negb (ContainsByte serial "000").

(** ** Quoting *)

Definition quote_mark : byte := ch "'".
Definition quote_escape : bytes := str_bytes "'\''".
Definition quote_bytes (l : bytes) : bytes :=
  [quote_mark] ++ flat_map (λ a, if decide (a = quote_mark) then quote_escape else [a]) l ++ [quote_mark].
Definition Quote (value : string) : string := bytes_str (quote_bytes (str_bytes value)).

Fixpoint quote_words (words : list string) : result (list string) :=
  match words with
  | [] => Ok []
  | word :: words =>
      if ContainsByte word "000" then Err (ErrMsg "command contains a NUL byte")
      else quoted ← quote_words words; Ok (Quote word :: quoted)
  end.

(** [strings.Join] with a space. *)
Fixpoint join_words (words : list string) : string :=
  match words with
  | [] => ""
  | [w] => w
  | w :: words => w +:+ " " +:+ join_words words
  end.

Definition Command (name : string) (args : list string) : result string :=
  words ← quote_words (name :: args); Ok (join_words words).

(** ** Shell protocol (shell.go) *)

Definition maxShellPacket : Z := Z.shiftl 1 20.

Inductive exit_error := ExitStatus (code : Z) | Failed (e : error).

Section read.
(** The destinations of a session: how many bytes a [Write] takes. *)
Context (stdout stderr : bytes → result Z).

(** The writes done ([true] for stderr), and the error; [None] out of fuel. *)
Fixpoint read (fuel : nat) (conn : bytes) : option (list (bool * bytes) * option exit_error) :=
  match fuel with
  | O => None
  | S fuel =>
      match ReadFull 5 conn with
      | (Err _, _) => Some ([], Some (Failed (ErrMsg "ADB shell ended without exit status")))
      | (Ok header, conn) =>
          let size := le_get (drop 1 header) in
          if maxShellPacket <? size then Some ([], Some (Failed (ErrMsg "ADB shell packet exceeds limit")))
          else match ReadFull (Z.to_nat size) conn with
          | (Err e, _) => Some ([], Some (Failed e))
          | (Ok data, conn) =>
              match byte_val (nth 0 header "000"%char) with
              | 1 | 2 =>
                  let is_err := byte_val (nth 0 header "000"%char) =? 2 in
                  match (if is_err then stderr else stdout) data with
                  | Err e => Some ([], Some (Failed e))
                  | Ok n =>
                      if negb (n =? blen data) then Some ([(is_err, data)], Some (Failed (ErrMsg "short write")))
                      else match read fuel conn with
                           | Some (writes, e) => Some ((is_err, data) :: writes, e)
                           | None => None
                           end
                  end
              | 3 =>
                  if negb (blen data =? 1) && negb (blen data =? 4)
                  then Some ([], Some (Failed (ErrMsg "invalid ADB shell exit status")))
                  else
                    let code := if blen data =? 4 then le_get data else byte_val (nth 0 data "000"%char) in
                    Some ([], if code =? 0 then None else Some (ExitStatus code))
              | _ => Some ([], Some (Failed (ErrMsg "unexpected ADB shell packet")))
              end
          end
      end
  end.
End read.

(** The writing side of a session: the error of its context, the error its
    connection returns on the next write, and the bytes written. *)
Record Session := { seCtx : option error; seConn : option error; seOut : bytes }.

Definition send (kind : Z) (data : bytes) (s : Session) : option error * Session :=
  match seCtx s with
  | Some e => (Some e, s)
  | None =>
      match seConn s with
      | Some e => (Some e, s)
      | None => (None, {| seCtx := None; seConn := None;
                          seOut := seOut s ++ [byte_of kind] ++ le_put 4 (uint32 (blen data)) ++ data |})
      end
  end.

Definition write_chunk : nat := N.to_nat 65536.

(** [Write], one chunk per round; [fuel] is the length of the data. *)
Fixpoint write_loop (fuel : nat) (data : bytes) (written : Z) (s : Session) : Z * option error * Session :=
  match fuel, data with
  | S fuel, _ :: _ =>
      let n := Nat.min (length data) write_chunk in
      match send 0 (take n data) s with
      | (Some e, s) => (written, Some e, s)
      | (None, s) => write_loop fuel (drop n data) (written + Z.of_nat n) s
      end
  | _, _ => (written, None, s)
  end.
Definition Write (data : bytes) (s : Session) : Z * option error * Session :=
  write_loop (length data) data 0 s.

Definition Resize (rows cols : Z) (s : Session) : option error * Session :=
  if (rows =? 0) || (cols =? 0) then (Some (ErrMsg "terminal dimensions must be positive"), s)
  else send 5 (str_bytes (FormatUint rows +:+ "x" +:+ FormatUint cols +:+ ",0x0" +:+ String "000" "")) s.

Definition CloseStdin (s : Session) : option error * Session := send 4 [] s.

(** ** Legacy commands (legacy.go) *)

Definition newline : string := String "010" "".
Definition marker (nonce : bytes) : string :=
  newline +:+ "SCRCPYCAT_EXIT_" +:+ bytes_str (flat_map hex2 nonce) +:+ ":".

Definition wrapped (command : string) (nonce : bytes) : string :=
  "( " +:+ command +:+ newline +:+ "); result=$?; printf " +:+ Quote (marker nonce +:+ "%d" +:+ newline) +:+
  " " +:+ String "034" "$result" +:+ String "034" "".

(** [strings.LastIndex], and the offset of the first occurrence from the left. *)
Fixpoint prefix_bytes (p l : bytes) : bool :=
  match p, l with
  | [], _ => true
  | a :: p, b :: l => if decide (a = b) then prefix_bytes p l else false
  | _ :: _, [] => false
  end.
Fixpoint last_index (l m : bytes) : option nat :=
  match l with
  | [] => if prefix_bytes m [] then Some O else None
  | _ :: l' =>
      match last_index l' m with
      | Some i => Some (S i)
      | None => if prefix_bytes m l then Some O else None
      end
  end.

Definition legacy_limit : Z := Z.shiftl 8 20.

(** [RunLegacy] on what the connection delivers before end of file ([ReadAll] of the
    first [legacy_limit + 1] bytes, or its error), the error of the context, and a
    destination that takes every write: the output written, and the error. *)
Definition RunLegacy (nonce : bytes) (ctx : option error) (delivered : result bytes) : option bytes * option exit_error :=
  match ctx, delivered with
  | Some e, _ => (None, Some (Failed e))
  | None, Err e => (None, Some (Failed e))
  | None, Ok delivered =>
      let raw := take (Z.to_nat (legacy_limit + 1)) delivered in
      if legacy_limit <? blen raw then (None, Some (Failed (ErrMsg "ADB deployment command output exceeds limit")))
      else
        let m := str_bytes (marker nonce) in
        match last_index raw m with
        | None => (None, Some (Failed (ErrMsg "ADB deployment shell ended without exit status")))
        | Some index =>
            match ParseInt (TrimSpace (bytes_str (drop (index + length m) raw))) with
            | None => (None, Some (Failed (ErrMsg "invalid ADB deployment exit status")))
            | Some status =>
                if (status <? 0) || (255 <? status)
                then (None, Some (Failed (ErrMsg "invalid ADB deployment exit status")))
                else (Some (take index raw), if status =? 0 then None else Some (ExitStatus status))
            end
        end
  end.

(** ** Reference definitions *)

(** Word splitting of a POSIX shell: quotes, backslashes and blanks; [None] when an
    unquoted character has a meaning of its own.  [cur] is the word being read. *)
Definition ordinary (a : byte) : bool :=
  in_range a 48 57 || in_range a 65 90 || in_range a 97 122 ||
  bool_decide (a ∈ str_bytes "/._-+:@%,") || (128 <=? byte_val a).
Definition add_char (cur : option bytes) (a : byte) : option bytes := Some (default [] cur ++ [a]).
Fixpoint sh_words (quoted : bool) (cur : option bytes) (l : bytes) : option (list string) :=
  match l with
  | [] => if quoted then None else Some (match cur with Some w => [bytes_str w] | None => [] end)
  | a :: l =>
      if quoted then
        if decide (a = quote_mark) then sh_words false cur l else sh_words true (add_char cur a) l
      else if decide (a = quote_mark) then sh_words true (Some (default [] cur)) l
      else if decide (a = ch "\") then
        match l with
        | [] => None
        | b :: l => if decide (b = ch newline) then sh_words false cur l else sh_words false (add_char cur b) l
        end
      else if decide (a = " "%char) then
        match cur with
        | Some w => cons (bytes_str w) <$> sh_words false None l
        | None => sh_words false None l
        end
      else if ordinary a then sh_words false (add_char cur a) l
      else None
  end.

(** The other end of a session: the packets in what has been written. *)
Fixpoint shell_packets (fuel : nat) (l : bytes) : option (list (Z * bytes)) :=
  match fuel, l with
  | _, [] => Some []
  | O, _ => None
  | S fuel, kind :: l =>
      match ReadFull 4 l with
      | (Err _, _) => None
      | (Ok size, l) =>
          match ReadFull (Z.to_nat (le_get size)) l with
          | (Err _, _) => None
          | (Ok data, l) => cons (byte_val kind, data) <$> shell_packets fuel l
          end
      end
  end.

Definition shell_packet (kind : Z) (data : bytes) : bytes :=
  [byte_of kind] ++ le_put 4 (uint32 (blen data)) ++ data.

(** ** Lemmas *)

Lemma sh_words_quoted l rest : ∀ w,
  sh_words true (Some w) (flat_map (λ a, if decide (a = quote_mark) then quote_escape else [a]) l ++ quote_mark :: rest) =
  sh_words false (Some (w ++ l)) rest.
Proof.
  induction l as [|a l IH]; intros w.
  - cbn [flat_map app sh_words]. rewrite decide_True by done. by rewrite app_nil_r.
  - cbn [flat_map]. destruct (decide (a = quote_mark)) as [->|Hne].
    + transitivity (sh_words true (Some (w ++ [quote_mark]))
        (flat_map (λ a, if decide (a = quote_mark) then quote_escape else [a]) l ++ quote_mark :: rest)); [done|].
      by rewrite IH, <-app_assoc.
    + cbn [app sh_words]. rewrite decide_False by done. unfold add_char. cbn [default from_option].
      by rewrite IH, <-app_assoc.
Qed.

Lemma sh_words_quote value rest :
  sh_words false None (str_bytes (Quote value) ++ rest) = sh_words false (Some (str_bytes value)) rest.
Proof.
  unfold Quote, quote_bytes. rewrite str_bytes_str, <-!app_assoc. cbn [app].
  transitivity (sh_words true (Some []) (flat_map (λ a, if decide (a = quote_mark) then quote_escape else [a])
    (str_bytes value) ++ quote_mark :: rest)); [done|]. apply sh_words_quoted.
Qed.

Lemma sh_words_join words quoted : quote_words words = Ok quoted →
  sh_words false None (str_bytes (join_words quoted)) = Some words.
Proof.
  revert quoted. induction words as [|w words IH]; intros quoted; cbn [quote_words]; [by intros [= <-]|].
  destruct (ContainsByte w "000"); [done|]. intros (q & Hq & [= <-])%bind_Ok. specialize (IH q Hq).
  cbn [join_words]. destruct q as [|q0 q].
  - destruct words as [|w' words]; [|revert Hq; cbn; case_match; [done|by intros (? & ? & ?)%bind_Ok]].
    rewrite <-(app_nil_r (str_bytes (Quote w))), sh_words_quote. cbn. by rewrite bytes_str_bytes.
  - rewrite str_bytes_app, sh_words_quote, str_bytes_app.
    transitivity (cons (bytes_str (str_bytes w)) <$> sh_words false None (str_bytes (join_words (q0 :: q)))); [done|].
    by rewrite IH, bytes_str_bytes.
Qed.

Lemma quote_words_Ok words : is_ok (quote_words words) = negb (existsb (λ w, ContainsByte w "000") words).
Proof.
  induction words as [|w words IH]; [done|]. cbn. destruct (ContainsByte w "000"); [done|].
  cbn. rewrite <-IH. by destruct (quote_words words).
Qed.

Lemma le_get_put4 z : 0 ≤ z < 2 ^ 32 → le_get (le_put 4 z) = z.
Proof. intros H. rewrite le_get_put. by apply Z.mod_small. Qed.

Lemma shell_packets_concat ps : ∀ fuel, (length ps ≤ fuel)%nat →
  Forall (λ p, 0 ≤ p.1 < 256 ∧ blen p.2 < 2 ^ 32) ps →
  shell_packets fuel (concat (map (λ p, shell_packet p.1 p.2) ps)) = Some ps.
Proof.
  induction ps as [|[k d] ps IH]; intros fuel Hf Hall; [by destruct fuel|].
  destruct fuel as [|fuel]; [simpl in Hf; lia|]. apply Forall_cons in Hall as [[Hk Hd] Hall].
  cbn [fst snd] in Hk, Hd. cbn [map concat fst snd]. unfold shell_packet at 1. rewrite <-!app_assoc.
  cbn [app shell_packets]. unfold uint32. rewrite wrap_u_small by (unfold blen in *; lia).
  rewrite ReadFull_app' by (by rewrite length_le_put). rewrite le_get_put4 by (unfold blen in *; lia).
  rewrite ReadFull_app' by (unfold blen; lia). rewrite IH; [|simpl in Hf; lia|done].
  cbn [fmap option_fmap option_map]. by rewrite byte_val_of, Z.mod_small.
Qed.

Lemma write_loop_step fuel data written s : data ≠ [] →
  write_loop (S fuel) data written s =
  match send 0 (take (Nat.min (length data) write_chunk) data) s with
  | (Some e, s) => (written, Some e, s)
  | (None, s) => write_loop fuel (drop (Nat.min (length data) write_chunk) data)
                   (written + Z.of_nat (Nat.min (length data) write_chunk)) s
  end.
Proof. by destruct data. Qed.

(** The chunks of a [Write]. *)
Lemma write_loop_live fuel : ∀ data written s, (length data ≤ fuel)%nat → seCtx s = None → seConn s = None →
  ∃ chunks, write_loop fuel data written s =
    (written + blen data, None,
     {| seCtx := None; seConn := None; seOut := seOut s ++ concat (map (shell_packet 0) chunks) |}) ∧
    concat chunks = data ∧ Forall (λ c, 1 ≤ blen c ≤ 65536) chunks.
Proof.
  assert (Z.of_nat write_chunk = 65536) as Hc by (unfold write_chunk; by rewrite N_nat_Z).
  induction fuel as [|fuel IH]; intros data written s Hf H1 H2.
  - destruct data; [|simpl in Hf; lia]. exists []. cbn [write_loop concat map]. rewrite app_nil_r.
    unfold blen. cbn [length]. rewrite Z.add_0_r. destruct s; cbn in *; subst. by split_and!.
  - destruct (decide (data = [])) as [->|Hne].
    { exists []. cbn [write_loop concat map]. rewrite app_nil_r.
      unfold blen. cbn [length]. rewrite Z.add_0_r. destruct s; cbn in *; subst. by split_and!. }
    assert (1 ≤ length data)%nat by (destruct data; [by destruct Hne|cbn [length]; lia]).
    rewrite write_loop_step by done. set (n := Nat.min (length data) write_chunk).
    assert (1 ≤ n ≤ length data)%nat as Hn by (subst n; lia).
    assert (Z.of_nat n ≤ 65536) as Hn' by (subst n; lia). clearbody n.
    unfold send. rewrite H1, H2.
    destruct (IH (drop n data) (written + Z.of_nat n)
      {| seCtx := None; seConn := None;
         seOut := seOut s ++ [byte_of 0] ++ le_put 4 (uint32 (blen (take n data))) ++ take n data |})
      as (chunks & -> & Hcat & Hall); [rewrite length_drop; lia|done|done|].
    exists (take n data :: chunks). cbn [seOut concat map]. unfold shell_packet at 2.
    rewrite <-!app_assoc, Hcat, take_drop. split_and!; [|done|].
    + do 2 f_equal. unfold blen. rewrite length_drop. lia.
    + constructor; [|done]. unfold blen. rewrite length_take. lia.
Qed.

Lemma concat_repeat_packets chunks :
  concat (map (shell_packet 0) chunks) = concat (map (λ p, shell_packet p.1 p.2) (map (pair 0) chunks)).
Proof. by rewrite map_map. Qed.

(** *** Reading *)

(** A destination that takes every byte. *)
Definition accepts (w : bytes → result Z) : Prop := ∀ d, w d = Ok (blen d).

Lemma le_size_packet k d rest : blen d < 2 ^ 32 →
  ReadFull 5 (shell_packet k d ++ rest) = (Ok (byte_of k :: le_put 4 (blen d)), d ++ rest).
Proof.
  intros Hd. unfold shell_packet, uint32. rewrite wrap_u_small by (unfold blen in *; lia).
  rewrite <-!app_assoc. cbn [app]. rewrite app_comm_cons. apply ReadFull_app'.
  cbn [length]. by rewrite length_le_put.
Qed.

Lemma read_data so se fuel is_err d rest : accepts so → accepts se → blen d ≤ maxShellPacket →
  read so se (S fuel) (shell_packet (if is_err : bool then 2 else 1) d ++ rest) =
  match read so se fuel rest with Some (ws, e) => Some ((is_err, d) :: ws, e) | None => None end.
Proof.
  intros Hso Hse Hd. change maxShellPacket with 1048576 in *. cbn [read].
  rewrite le_size_packet by lia. cbn [skipn nth]. rewrite drop_0.
  rewrite le_get_put4 by (unfold blen in *; lia). change maxShellPacket with 1048576.
  rewrite (proj2 (Z.ltb_ge _ _)) by lia. rewrite ReadFull_app' by (unfold blen; lia).
  destruct is_err; cbn [byte_val];
    [change (byte_val (byte_of 2)) with 2|change (byte_val (byte_of 1)) with 1]; cbn [Z.eqb Pos.eqb];
    rewrite ?Hso, ?Hse, Z.eqb_refl; done.
Qed.

Lemma read_exit so se fuel code rest : 0 ≤ code < 2 ^ 32 →
  read so se (S fuel) (shell_packet 3 (le_put 4 code) ++ rest) =
  Some ([], if code =? 0 then None else Some (ExitStatus code)).
Proof.
  intros Hc. cbn [read]. assert (blen (le_put 4 code) = 4) as Hl by (unfold blen; by rewrite length_le_put).
  rewrite le_size_packet by lia. cbn [skipn nth]. rewrite drop_0.
  rewrite le_get_put4 by lia. rewrite Hl. cbn [Z.ltb].
  change (maxShellPacket <? 4) with false. cbn match.
  rewrite ReadFull_app' by (by rewrite length_le_put). change (byte_val (byte_of 3)) with 3. cbn match.
  rewrite Hl. cbn [Z.eqb Pos.eqb negb andb]. by rewrite le_get_put4.
Qed.

(** Each round takes five bytes or more from the connection. *)
Lemma read_total so se fuel : ∀ conn, (length conn < fuel)%nat → is_Some (read so se fuel conn).
Proof.
  induction fuel as [|fuel IH]; intros conn Hf; [lia|]. cbn [read].
  destruct (ReadFull 5 conn) as [[header|e] conn1] eqn:E1; [|by eexists].
  apply ReadFull_Ok in E1 as [-> Hh]. rewrite length_app, Hh in Hf.
  destruct (maxShellPacket <? _); [by eexists|].
  destruct (ReadFull _ conn1) as [[data|e] conn2] eqn:E2; [|by eexists].
  apply ReadFull_Ok in E2 as [-> _]. rewrite length_app in Hf.
  assert (is_Some (read so se fuel conn2)) as [[ws e] Hr] by (apply IH; lia).
  rewrite Hr. repeat case_match; by eexists.
Qed.

(** *** The trailer of legacy commands *)

Lemma prefix_bytes_iff p l : prefix_bytes p l = true ↔ ∃ r, l = p ++ r.
Proof.
  revert l. induction p as [|a p IH]; intros l; cbn [prefix_bytes]; [split; [by exists l|done]|].
  destruct l as [|b l]; [split; [done|by intros [r [=]]]|].
  case_decide as E; [subst b; rewrite IH; split; intros [r Hr]; exists r; [by rewrite Hr|by injection Hr]|].
  split; [done|]. intros [r Hr]. by injection Hr.
Qed.

Lemma last_index_none m l : (∀ i, (i ≤ length l)%nat → prefix_bytes m (drop i l) = false) → last_index l m = None.
Proof.
  induction l as [|a l IH]; intros H; assert (H0 := H 0%nat ltac:(lia)); rewrite drop_0 in H0;
    cbn [last_index]; [by rewrite H0|].
  rewrite IH; [by rewrite H0|]. intros i Hi. apply (H (S i)). cbn [length]. lia.
Qed.

Lemma last_index_app m t out : m ≠ [] →
  (∀ i, (1 ≤ i ≤ length (m ++ t))%nat → prefix_bytes m (drop i (m ++ t)) = false) →
  last_index (out ++ m ++ t) m = Some (length out).
Proof.
  intros Hm H. induction out as [|a out IH]; cbn [app]; [|cbn [last_index length]; by rewrite IH].
  assert (prefix_bytes m (m ++ t) = true) as Hp by (apply prefix_bytes_iff; by exists t).
  destruct m as [|a m]; [done|]. cbn [app] in *. cbn [last_index length].
  rewrite last_index_none; [by rewrite Hp|]. intros i Hi. apply (H (S i)). simpl. lia.
Qed.

(** The marker starts with its only line break. *)
Lemma marker_bytes nonce : ∃ m, str_bytes (marker nonce) = ch newline :: m ∧ (16 ≤ length m)%nat ∧ ch newline ∉ m.
Proof.
  eexists. split; [unfold marker; rewrite !str_bytes_app, str_bytes_str; reflexivity|]. split.
  - rewrite !length_app. cbn. lia.
  - rewrite !not_elem_of_app. split_and!; try (apply (bool_decide_unpack _); by vm_compute).
    rewrite list_elem_of_In, in_flat_map. intros (b & _ & Hb%list_elem_of_In). revert Hb.
    apply (bool_decide_unpack (_ ∉ _)). destruct b as [[] [] [] [] [] [] [] []]; by vm_compute.
Qed.

(** The decimal exit status and the line break after it. *)
Lemma status_line s : 0 ≤ s ≤ 255 →
  let t := str_bytes (FormatUint s) ++ [ch newline] in
  (length t ≤ 4)%nat ∧ ParseInt (TrimSpace (bytes_str t)) = Some s.
Proof.
  intros Hs. assert (Forall (λ s, (length (str_bytes (FormatUint s) ++ [ch newline]) <=? 4)%nat = true ∧
    ParseInt (TrimSpace (bytes_str (str_bytes (FormatUint s) ++ [ch newline]))) = Some s) (seqZ 0 256)) as Hall.
  { apply (bool_decide_unpack _). by vm_compute. }
  rewrite Forall_forall in Hall. destruct (Hall s) as [Hl Hp]; [apply elem_of_seqZ; lia|].
  split; [by apply Nat.leb_le|done].
Qed.

Lemma RunLegacy_trailer nonce output s : 0 ≤ s ≤ 255 →
  let m := str_bytes (marker nonce) in
  let raw := output ++ m ++ str_bytes (FormatUint s) ++ [ch newline] in
  blen raw ≤ legacy_limit →
  RunLegacy nonce None (Ok raw) = (Some output, if s =? 0 then None else Some (ExitStatus s)).
Proof.
  intros Hs m raw Hlim. destruct (status_line s Hs) as [Hl Hp]. cbv zeta in Hl, Hp.
  set (t := str_bytes (FormatUint s) ++ [ch newline]) in *.
  destruct (marker_bytes nonce) as (m' & Em & Hm' & Hnl). fold m in Em.
  unfold RunLegacy. rewrite take_ge by (unfold blen in Hlim; change legacy_limit with 8388608 in *; lia).
  rewrite (proj2 (Z.ltb_ge _ _)) by done. unfold raw. fold m.
  rewrite last_index_app; [|by rewrite Em|].
  - rewrite app_assoc, drop_app_length' by (by rewrite length_app). rewrite Hp.
    rewrite (proj2 (Z.ltb_ge s 0)), (proj2 (Z.ltb_ge 255 s)) by lia. cbn [orb].
    by rewrite <-app_assoc, take_app_length.
  - intros i Hi. apply not_true_iff_false. intros [r Hr]%prefix_bytes_iff.
    destruct (decide (i < length m)%nat) as [Hlt|Hge].
    + assert (lookup i (m ++ t) = Some (ch newline)) as Hi'.
      { rewrite <-(Nat.add_0_r i), <-lookup_drop, Hr, Em. done. }
      rewrite lookup_app_l in Hi' by done. rewrite Em in Hi'. destruct i as [|i]; [lia|].
      apply Hnl. cbn in Hi'. by eapply list_elem_of_lookup_2.
    + apply (f_equal length) in Hr. rewrite length_drop, !length_app in Hr. rewrite Em in *. cbn [length] in *. lia.
Qed.

(** ** Properties *)

(** A session of output packets, closed by an exit status. *)
Definition session_bytes (output : list (bool * bytes)) (code : Z) : bytes :=
  concat (map (λ p, shell_packet (if p.1 : bool then 2 else 1) p.2) output) ++ shell_packet 3 (le_put 4 code).

(** Quoting is safe: a command line built by [Command] is split by a POSIX shell
    into exactly the program name and arguments it was built from, whatever characters
    they contain; it is refused only when one of them has a NUL byte. *)
Theorem Command_words name args :
  match Command name args with
  | Ok line => sh_words false None (str_bytes line) = Some (name :: args)
  | Err _ => ∃ w, w ∈ name :: args ∧ ContainsByte w "000" = true
  end.
Proof.
  unfold Command. pose proof (quote_words_Ok (name :: args)) as Hok.
  destruct (quote_words (name :: args)) as [quoted|e] eqn:E; cbn [mbind result_bind].
  - by apply sh_words_join.
  - symmetry in Hok. apply negb_false_iff, existsb_exists in Hok as (w & Hw & Hc).
    exists w. by rewrite list_elem_of_In.
Qed.

(** Input written to a live session arrives: [Write] reports all bytes written,
    the device side reads only standard-input packets of at most 64 KiB, and their
    concatenation is the data; on a cancelled or broken session it reports the error
    and nothing is written. *)
Theorem Write_correct data s :
  (seCtx s = None → seConn s = None →
   ∃ s' packets, Write data s = (blen data, None, s') ∧ seOut s' = seOut s ++ packets ∧
     ∃ chunks, shell_packets (length data) packets = Some (map (pair 0) chunks) ∧
       concat chunks = data ∧ Forall (λ c, 1 ≤ blen c ≤ 65536) chunks) ∧
  (∀ e, data ≠ [] → seCtx s = Some e ∨ (seCtx s = None ∧ seConn s = Some e) → Write data s = (0, Some e, s)).
Proof.
  split.
  - intros H1 H2. destruct (write_loop_live (length data) data 0 s) as (chunks & Hw & Hcat & Hall); [lia|done|done|].
    do 2 eexists. split; [exact Hw|]. split; [reflexivity|]. exists chunks. split_and!; [|done|done].
    rewrite concat_repeat_packets. apply shell_packets_concat.
    + rewrite length_map, <-Hcat. clear -Hall. induction Hall as [|c l Hc _ IH]; [simpl; lia|].
      cbn [concat length]. rewrite length_app. unfold blen in Hc. lia.
    + rewrite Forall_map. eapply Forall_impl; [exact Hall|]. intros c Hc. cbn [fst snd]. change (2 ^ 32) with 4294967296. unfold blen in *. lia.
  - intros e Hne He. unfold Write. destruct data as [|a d] eqn:Ed; [done|]. rewrite <-Ed in *.
    assert (length data = S (length d)) as -> by (by rewrite Ed). rewrite write_loop_step by done.
    unfold send. destruct He as [-> | [-> ->]]; done.
Qed.


(** The exit status of a legacy command cannot be forged by its output: whatever
    bytes the command prints, even the marker itself, what is appended after them
    decides; the output is delivered without the trailer, a status of 0 succeeds, any
    other up to 255 is reported, and output that does not end in a trailer is an
    error. *)
Theorem legacy_exit_status nonce output s :
  0 ≤ s ≤ 255 →
  let trailer := str_bytes (marker nonce) ++ str_bytes (FormatUint s) ++ [ch newline] in
  (blen (output ++ trailer) ≤ legacy_limit →
   RunLegacy nonce None (Ok (output ++ trailer)) = (Some output, if s =? 0 then None else Some (ExitStatus s))) ∧
  (∀ raw, last_index raw (str_bytes (marker nonce)) = None → blen raw ≤ legacy_limit →
     ∃ e, RunLegacy nonce None (Ok raw) = (None, Some (Failed e))) ∧
  (∀ raw, legacy_limit < blen raw → ∃ e, RunLegacy nonce None (Ok raw) = (None, Some (Failed e))).
Proof.
  intros Hs. split_and!.
  - by apply RunLegacy_trailer.
  - intros raw Hnone Hlim. unfold RunLegacy.
    rewrite take_ge by (unfold blen in Hlim; change legacy_limit with 8388608 in *; lia).
    rewrite (proj2 (Z.ltb_ge _ _)), Hnone by done. by eexists.
  - intros raw Hlim. unfold RunLegacy. rewrite (proj2 (Z.ltb_lt _ _)); [by eexists|].
    unfold blen in *. rewrite length_take. change legacy_limit with 8388608 in *. lia.
Qed.

(** ** Witnesses *)

Module AdbShellWitness.
Definition live : Session := {| seCtx := None; seConn := None; seOut := [] |}.

Lemma Write_correct_witness :
  ∃ s' packets, Write (str_bytes "ls") live = (2, None, s') ∧ seOut s' = packets ∧
    ∃ chunks, shell_packets 2 packets = Some (map (pair 0) chunks) ∧ concat chunks = str_bytes "ls".
Proof.
  destruct (proj1 (Write_correct (str_bytes "ls") live) eq_refl eq_refl)
    as (s' & packets & H1 & H2 & chunks & H3 & H4 & _).
  exists s', packets. refine (conj H1 (conj H2 _)). exists chunks. exact (conj H3 H4).
Defined.

Definition accept (d : bytes) : result Z := Ok (blen d).
Definition output : list (bool * bytes) := [(false, str_bytes "out"); (true, str_bytes "err")].


Lemma legacy_exit_status_witness :
  RunLegacy (str_bytes "nonce") None
    (Ok (str_bytes (marker (str_bytes "nonce") +:+ "0 forged") ++
         str_bytes (marker (str_bytes "nonce")) ++ str_bytes (FormatUint 9) ++ [ch newline])) =
  (Some (str_bytes (marker (str_bytes "nonce") +:+ "0 forged")), Some (ExitStatus 9)).
Proof.
  refine (proj1 (legacy_exit_status (str_bytes "nonce") (str_bytes (marker (str_bytes "nonce") +:+ "0 forged")) 9 _) _).
  - split; by vm_compute.
  - by vm_compute.
Defined.
End AdbShellWitness.
