(* ===== verification/Deployer.v ===== *)
(** * The deployer (adb-deployer/internal/deployer)

    Validation of the configuration, installing and launching the agent of a device,
    the host-mode worker of a device, and the bookkeeping that keeps one deployment or
    one worker per device.  What the file system, the control plane and a device answer
    is a record of functions ([world]); what the deployer does to them is a trace. *)

From S2P Require Import Prelude GoBase GoStrings GoFloat AdbShell.

(** ** Configuration *)

Record Config := MkConfig {
  dcMode : string;
  dcADBServer : string;
  dcHostAgent : string;
  dcStateDir : string;
  dcADBPath : string;
  dcArtifactDir : string;
  dcScrcpyJar : string;
  dcSignalingURL : string;
  dcControlPlaneURL : string;
  dcDeploymentToken : string;
  dcAdminToken : string;
  dcEnrollmentToken : string;
  dcInterval : Duration;
  dcInsecureTLS : bool;
  dcForce : bool;
}.

Definition ModeHost : string := "host".
Definition ModeDevice : string := "device".

Definition or_else (value fallback : string) : string := if bool_decide (value = "") then fallback else value.

Definition ResolveDefaults (c : Config) : Config :=
  MkConfig (or_else (dcMode c) ModeHost) (or_else (dcADBServer c) DefaultServer)
    (or_else (dcHostAgent c) "/usr/local/bin/scrcpycat-agent")
    (or_else (dcStateDir c) "/var/lib/scrcpycat/adb-deployer")
    (dcADBPath c) (dcArtifactDir c) (dcScrcpyJar c) (dcSignalingURL c) (dcControlPlaneURL c)
    (dcDeploymentToken c) (dcAdminToken c) (dcEnrollmentToken c)
    (if dcInterval c =? 0 then 10 * Second else dcInterval c) (dcInsecureTLS c) (dcForce c).

Definition empty (s : string) : bool := bool_decide (s = "").

(** The receiver is a copy: the defaults hold for the checks only. *)
Definition Validate (c : Config) : result () :=
  let c := ResolveDefaults c in
  _ ← refuse (negb (bool_decide (dcMode c = ModeHost)) && negb (bool_decide (dcMode c = ModeDevice)))
        (ErrMsg "--mode must be host or device");
  _ ← refuse (bool_decide (dcMode c = ModeHost) && dcForce c)
        (ErrMsg "--force is only supported in device mode");
  _ ← refuse (dcInterval c <? 100 * 1000000) (ErrMsg "--interval must be at least 100ms");
  _ ← New (dcADBServer c);
  _ ← refuse (empty (dcADBPath c) || (bool_decide (dcMode c = ModeDevice) && empty (dcArtifactDir c)) ||
              empty (dcScrcpyJar c) || empty (dcSignalingURL c))
        (ErrMsg "adb, artifact-dir, scrcpy-jar and signaling are required");
  _ ← refuse (empty (dcControlPlaneURL c) && empty (dcEnrollmentToken c))
        (ErrMsg "control-plane/admin-token or enrollment-token is required");
  _ ← refuse (negb (empty (dcControlPlaneURL c)) && empty (dcAdminToken c) && empty (dcDeploymentToken c))
        (ErrMsg "--deployment-token or --admin-token is required with --control-plane");
  refuse (negb (empty (dcAdminToken c)) && negb (empty (dcDeploymentToken c)))
    (ErrMsg "configure only one of deployment-token and admin-token").

(** ** Effects *)

Inductive effect :=
| EToken (url credential deviceID : string)
| EStop (serial : string)
| EPush (serial source destination : string) (mode : Z)
| EReverse (serial port : string)
| ELaunch (serial command : string)
| ERun (args environment : list string).

(** A trace of effects with a result; the trace is kept on errors. *)
Definition act (A : Type) : Type := (list effect * result A)%type.
Definition aret {A} (a : A) : act A := ([], Ok a).
Definition afail {A} (e : error) : act A := ([], Err e).
Definition abind {A B} (m : act A) (k : A → act B) : act B :=
  match m with
  | (t, Ok a) => let '(t', r) := k a in (t ++ t', r)
  | (t, Err e) => (t, Err e)
  end.
Definition lift {A} (r : result A) : act A := ([], r).
Definition perform {A} (e : effect) (r : result A) : act A := ([e], r).
Notation "x <- m ;; k" := (abind m (λ x, k)) (at level 100, m at next level, right associativity).

(** The answer to a token request: the status code and the decoded [token], [None]
    when the body does not decode. *)
Record world := MkWorld {
  w_healthy : string → bool;
  w_getprop : string → result bytes;
  w_stat : string → result bool;
  w_post : string → string → string → result (Z * option string);
  w_stop : string → result ();
  w_push : string → string → string → result ();
  w_reverse : string → string → result ();
  w_launch : string → result ();
  w_deadline : string → bool;
  w_healthy_after : string → bool;
  w_shell_v2 : string → result ();
  w_identity : string → result bytes;
  w_mkdir : string → result ();
  w_log : string → result ();
  w_run : list string → list string → result ();
}.

(** [url.Parse]: scheme, host name and port. *)
Definition url_parser : Type := string → option (string * string * string).

Section deploy.
Context (parse_url : url_parser) (Join : list string → string) (state_hash : string → string).
(** [json.Unmarshal] of an identity file: its [agent_token], empty when absent. *)
Context (agent_token : bytes → option string).
Context (w : world) (config : Config).

(** [TrimRight(ControlPlaneURL, "/")] and the endpoint. *)
Definition enrollmentToken (deviceID : string) : act string :=
  if empty (dcControlPlaneURL config) then aret (dcEnrollmentToken config)
  else
    let '(path, credential) :=
      if empty (dcDeploymentToken config) then ("/api/agents/enrollment-tokens", dcAdminToken config)
      else ("/api/deploy/enrollment-tokens", dcDeploymentToken config) in
    let url := TrimRight (dcControlPlaneURL config) "/" +:+ path in
    answer <- perform (EToken url credential deviceID) (w_post w url credential deviceID) ;;
    if negb (fst answer =? 201) then afail (ErrMsg "issue enrollment token")
    else match snd answer with
         | Some token => if empty token then afail (ErrMsg "control plane returned an invalid enrollment token")
                         else aret token
         | None => afail (ErrMsg "control plane returned an invalid enrollment token")
         end.

Definition deviceABI (serial : string) : act string :=
  output <- lift (w_getprop w serial) ;;
  let abi := TrimSpace (bytes_str output) in
  if bool_decide (abi ∈ ["arm64-v8a"; "armeabi-v7a"; "x86"; "x86_64"]) then aret abi
  else afail (ErrMsg "unsupported device ABI").

Definition loopbackSignalingPort (signalingURL : string) : result (option string) :=
  match parse_url signalingURL with
  | None => Err (ErrMsg "parse signaling URL")
  | Some (scheme, host, port) =>
      if bool_decide (host = "127.0.0.1") || bool_decide (host = "localhost") || bool_decide (host = "::1")
      then Ok (Some (if empty port then (if bool_decide (scheme = "wss") then "443" else "80") else port))
      else Ok None
  end.

Definition configureLoopbackReverse (serial : string) : act () :=
  port <- lift (loopbackSignalingPort (dcSignalingURL config)) ;;
  match port with
  | None => aret ()
  | Some port => perform (EReverse serial port) (w_reverse w serial port)
  end.

Definition shellQuote (value : string) : string := Quote value.

Definition agent_path : string := "/data/local/tmp/scrcpycat-agent".
Definition jar_path : string := "/data/local/tmp/scrcpy-server.jar".

Definition launch_args (serial token : string) : string :=
  agent_path +:+ " --device-id " +:+ shellQuote serial +:+ " --signaling " +:+
  shellQuote (dcSignalingURL config) +:+ " --enrollment-token " +:+ shellQuote token +:+
  " --scrcpy-jar " +:+ jar_path.

Definition launch_command (serial token : string) : string :=
  "chmod 700 " +:+ agent_path +:+ " || exit $?; (trap '' HUP; if command -v setsid >/dev/null 2>&1; then exec setsid " +:+
  launch_args serial token +:+ "; else exec " +:+ launch_args serial token +:+
  "; fi) </dev/null >>/data/local/tmp/scrcpycat-agent.log 2>&1 & " +:+
  "for attempt in 1 2 3 4 5 6 7 8 9 10; do " +:+ agent_path +:+
  " --health >/dev/null 2>&1 && exit 0; sleep 0.5; done; exit 1".

Definition stopAgent (serial : string) : act () := perform (EStop serial) (w_stop w serial).
Definition push (serial source destination : string) (mode : Z) : act () :=
  perform (EPush serial source destination mode) (w_push w serial source destination).

Definition stat (path : string) (what : string) : act () :=
  lift (match w_stat w path with Ok _ => Ok () | Err _ => Err (ErrMsg what) end).

Definition ensureAgent (serial : string) : act () :=
  if negb (dcForce config) && w_healthy w serial then aret ()
  else
    abi <- deviceABI serial ;;
    let agentBinary := Join [dcArtifactDir config; abi; "scrcpycat-agent"] in
    _ <- stat agentBinary "agent artifact" ;;
    _ <- stat (dcScrcpyJar config) "scrcpy jar" ;;
    token <- enrollmentToken serial ;;
    _ <- stopAgent serial ;;
    _ <- push serial agentBinary agent_path 448 ;; (* 0700 *)
    _ <- push serial (dcScrcpyJar config) jar_path 420 ;; (* 0644 *)
    _ <- configureLoopbackReverse serial ;;
    match perform (ELaunch serial (launch_command serial token)) (w_launch w serial) with
    | (t, r) => (t, if w_deadline w serial && w_healthy_after w serial then Ok () else r)
    end.

(** ** Host mode *)

Definition hostStateDirectory (root serial : string) : string := Join [root; state_hash serial].

(** The name of an environment entry: what precedes the first [=]. *)
Definition entry_name (entry : string) : string :=
  match index_byte (ch "=") (str_bytes entry) with
  | Some n => take_string n entry
  | None => entry
  end.
Definition secret_names : list string :=
  ["SCRCPYCAT_ENROLLMENT_TOKEN"; "SCRCPYCAT_DEPLOYMENT_TOKEN"; "SCRCPYCAT_ADMIN_TOKEN"].
Definition agentEnvironment (environment : list string) (token : string) : list string :=
  List.filter (λ entry, negb (bool_decide (entry_name entry ∈ secret_names))) environment ++
  ["SCRCPYCAT_ENROLLMENT_TOKEN=" +:+ token].

Definition hasHostIdentity (path : string) : bool :=
  match w_identity w path with
  | Err _ => false
  | Ok contents => match agent_token contents with Some token => negb (empty token) | None => false end
  end.

(** [os.Stat] of an artifact that must be a regular file. *)
Definition regular (path : string) : act () :=
  lift (match w_stat w path with
        | Ok true => Ok () | Ok false => Err (ErrMsg "not a regular artifact") | Err e => Err e end).

Definition host_args (serial state : string) : list string :=
  ["--adb-serial"; serial; "--adb-server"; dcADBServer config; "--device-id"; serial;
   "--identity-file"; Join [state; "identity.json"]; "--pid-file"; Join [state; "agent.pid"];
   "--scrcpy-jar"; dcScrcpyJar config; "--signaling"; dcSignalingURL config].

Definition runHostAgent (environ : list string) (serial : string) (renewIdentity : bool) : act () :=
  _ <- regular (dcHostAgent config) ;;
  _ <- regular (dcScrcpyJar config) ;;
  _ <- lift (w_shell_v2 w serial) ;;
  let state := hostStateDirectory (dcStateDir config) serial in
  token <- (if renewIdentity || negb (hasHostIdentity (Join [state; "identity.json"]))
            then enrollmentToken serial else aret "") ;;
  _ <- lift (w_mkdir w state) ;;
  _ <- stopAgent serial ;;
  _ <- lift (w_log w (Join [state; "agent.log"])) ;;
  let args := host_args serial state in
  let env := agentEnvironment environ token in
  perform (ERun args env) (w_run w args env).

(** *** The loop of a worker

    A round: what the worker's context said after the run ([true]: cancelled), the exit
    code when the run ended with an [exec.ExitError], how long it took, and whether the
    context was cancelled during the delay.  A round of the trace is the [renewIdentity]
    it ran with and the delay it then waited for. *)
Record round := MkRound {
  rd_cancelled : bool;
  rd_exit : option Z;
  rd_elapsed : Duration;
  rd_cancelled_waiting : bool;
}.

Fixpoint hostLoop (renewIdentity : bool) (attempt : Z) (rounds : list round) : list (bool * option Duration) :=
  match rounds with
  | [] => []
  | rd :: rounds =>
      if rd_cancelled rd then [(renewIdentity, None)]
      else
        let renew := bool_decide (rd_exit rd = Some 3) in
        let attempt := if Minute <? rd_elapsed rd then 0 else attempt in
        let delay := Z.min (attempt + 1) 15 * Second in
        (renewIdentity, Some delay) ::
          (if rd_cancelled_waiting rd then [] else hostLoop renew (attempt + 1) rounds)
  end.

(** ** The ADB server (adb.go) *)

(** [ping]: the answers before and after; [start] runs [adb] with these arguments. *)
Definition ensureADBServer (loopback_ip : string → bool) (ping ping_again : result ())
    (start : list string → result ()) : list (list string) * result () :=
  match ping with
  | Ok _ => ([], Ok ())
  | Err _ =>
      match SplitHostPort (dcADBServer config) with
      | None => ([], Err (ErrMsg "address"))
      | Some (host, port) =>
          if negb (bool_decide (host = "localhost")) && negb (loopback_ip host)
          then ([], Err (ErrMsg "external ADB server is unavailable"))
          else
            let args := ["-L"; "tcp:" +:+ port; "start-server"] in
            ([args], match start args with Err _ => Err (ErrMsg "start ADB server") | Ok _ => ping_again end)
      end
  end.

Definition connectedSerials (devices : result (list Device)) : result (list string) :=
  devices ← devices;
  Ok (map dvSerial (List.filter (λ d, negb (bool_decide (dcMode config = ModeHost) && negb (dvUSB d))) devices)).
End deploy.

(** ** The runner *)

(** A worker goroutine of host mode: its device, whether its context is cancelled, and
    whether [done] is closed. *)
Record worker := MkWorker { wkSerial : string; wkCancelled : bool; wkDone : bool }.

(** [rHosts] points into the workers started so far; [rDeploying] lists the running
    deployments of device mode. *)
Record runner := MkRunner {
  rBusy : gset string;
  rDeploying : list string;
  rHosts : gmap string nat;
  rWorkers : list worker;
}.
Definition new_runner : runner := MkRunner ∅ [] ∅ [].

Definition acquire (serial : string) (r : runner) : bool * runner :=
  if decide (serial ∈ rBusy r) then (false, r)
  else (true, MkRunner ({[serial]} ∪ rBusy r) (rDeploying r) (rHosts r) (rWorkers r)).
Definition release (serial : string) (r : runner) : runner :=
  MkRunner (rBusy r ∖ {[serial]}) (rDeploying r) (rHosts r) (rWorkers r).

(** The goroutine that [scan] starts for a device it could acquire. *)
Definition start_deployment (r : runner) (serial : string) : runner :=
  match acquire serial r with
  | (false, r) => r
  | (true, r) => MkRunner (rBusy r) (serial :: rDeploying r) (rHosts r) (rWorkers r)
  end.
(** Its end: the deferred [release]. *)
Definition end_deployment (n : nat) (r : runner) : runner :=
  match rDeploying r !! n with
  | Some serial => release serial (MkRunner (rBusy r) (delete n (rDeploying r)) (rHosts r) (rWorkers r))
  | None => r
  end.

Definition cancel_worker (k : worker) : worker := MkWorker (wkSerial k) true (wkDone k).
Definition is_done (ws : list worker) (id : nat) : bool := match ws !! id with Some k => wkDone k | None => false end.

(** The first loop of [reconcileHosts] cancels every worker that is done or whose device
    is gone, and forgets those that are done; no entry reads what another wrote, so the
    order of the map does not matter. *)
Definition cancel_absent (serials : list string) (r : runner) : runner :=
  MkRunner (rBusy r) (rDeploying r)
    (filter (λ kv, is_done (rWorkers r) kv.2 = false) (rHosts r))
    (imap (λ id k, if bool_decide (rHosts r !! wkSerial k = Some id) &&
                      (wkDone k || negb (bool_decide (wkSerial k ∈ serials)))
                   then cancel_worker k else k) (rWorkers r)).

Definition start_worker (r : runner) (serial : string) : runner :=
  match rHosts r !! serial with
  | Some _ => r
  | None => MkRunner (rBusy r) (rDeploying r) (<[serial := length (rWorkers r)]> (rHosts r))
              (rWorkers r ++ [MkWorker serial false false])
  end.

Definition reconcileHosts (serials : list string) (r : runner) : runner :=
  fold_left start_worker serials (cancel_absent serials r).

(** [scan], when the devices could be listed. *)
Definition scan (mode : string) (serials : list string) (r : runner) : runner :=
  if bool_decide (mode = ModeHost) then reconcileHosts serials r
  else fold_left start_deployment serials r.

(** The end of a worker's goroutine: [hostLoop] returns only when its context is
    cancelled, by [reconcileHosts] or because the deployer stops. *)
Definition end_worker (id : nat) (r : runner) : runner :=
  MkRunner (rBusy r) (rDeploying r) (rHosts r)
    (alter (λ k, MkWorker (wkSerial k) (wkCancelled k) true) id (rWorkers r)).
Definition cancel_all (r : runner) : runner :=
  MkRunner (rBusy r) (rDeploying r) (rHosts r) (map cancel_worker (rWorkers r)).

Inductive runner_step (mode : string) : runner → runner → Prop :=
| step_scan serials r : runner_step mode r (scan mode serials r)
| step_deployed n r : runner_step mode r (end_deployment n r)
| step_worker id k r : rWorkers r !! id = Some k → wkCancelled k = true → runner_step mode r (end_worker id r)
| step_stop r : runner_step mode r (cancel_all r).

Definition runner_reachable (mode : string) : runner → Prop := rtc (runner_step mode) new_runner.

(** ** Lemmas: traces *)

Lemma abind_eq {A B} (m : act A) (k : A → act B) :
  abind m k = match m with
              | (t, Ok a) => (t ++ (k a).1, (k a).2)
              | (t, Err e) => (t, Err e)
              end.
Proof. destruct m as [t [a|e]]; [|done]. cbn. by destruct (k a). Qed.

Lemma abind_ret {A B} (a : A) (k : A → act B) : abind (aret a) k = k a.
Proof. cbn. by destruct (k a). Qed.

Lemma abind_fail {A B} e (k : A → act B) : abind (afail e) k = afail e.
Proof. done. Qed.

(** An effect of a sequence is one of its first part or, when that succeeds, of the rest. *)
Lemma elem_of_abind {A B} (m : act A) (k : A → act B) e :
  e ∈ (abind m k).1 ↔ e ∈ m.1 ∨ ∃ a, m.2 = Ok a ∧ e ∈ (k a).1.
Proof.
  rewrite abind_eq. destruct m as [t [a|x]]; cbn.
  - rewrite elem_of_app. split; [intros [?|?]; eauto|intros [?|(? & [= <-] & ?)]; auto].
  - split; [by left|by intros [?|(? & ? & ?)]].
Qed.

Lemma abind_snd_Ok {A B} (m : act A) (k : A → act B) b :
  (abind m k).2 = Ok b ↔ ∃ a, m.2 = Ok a ∧ (k a).2 = Ok b.
Proof.
  rewrite abind_eq. destruct m as [t [a|x]]; cbn; split; [by exists a|by intros (? & [= <-] & ?)|done|by intros (? & ? & ?)].
Qed.

(** The trace of a step that had to succeed for [e] to happen after it. *)
Lemma abind_later {A B} (m : act A) (k : A → act B) e :
  e ∈ (abind m k).1 → e ∉ m.1 → ∃ a, m.2 = Ok a ∧ e ∈ (k a).1 ∧ (abind m k).1 = m.1 ++ (k a).1.
Proof.
  intros H Hn. rewrite elem_of_abind in H. destruct H as [?|(a & Ha & He)]; [done|].
  exists a. split; [done|]. split; [done|]. rewrite abind_eq. destruct m as [t ?]. cbn in Ha. by subst.
Qed.

(** ** Lemmas: the runner *)

Definition running (r : runner) (id : nat) (serial : string) : Prop :=
  ∃ k, rWorkers r !! id = Some k ∧ wkSerial k = serial ∧ wkDone k = false.

Record runner_inv (r : runner) : Prop := {
  ri_hosts : ∀ serial id, rHosts r !! serial = Some id → ∃ k, rWorkers r !! id = Some k ∧ wkSerial k = serial;
  ri_live : ∀ id k, rWorkers r !! id = Some k → wkDone k = false → rHosts r !! wkSerial k = Some id;
  ri_nodup : NoDup (rDeploying r);
  ri_busy : ∀ serial, serial ∈ rBusy r ↔ serial ∈ rDeploying r;
}.

Lemma new_runner_inv : runner_inv new_runner.
Proof. split; cbn; try done; [constructor|set_solver]. Qed.

Lemma start_deployment_inv r serial : runner_inv r → runner_inv (start_deployment r serial).
Proof.
  intros [H1 H2 H3 H4]. unfold start_deployment, acquire. case_decide as Hd; [by split|].
  split; cbn; [done|done| |].
  - constructor; [|done]. by rewrite <-H4.
  - intros s. rewrite elem_of_cons, elem_of_union, elem_of_singleton, H4. tauto.
Qed.

Lemma end_deployment_inv n r : runner_inv r → runner_inv (end_deployment n r).
Proof.
  intros [H1 H2 H3 H4]. unfold end_deployment. destruct (rDeploying r !! n) as [s|] eqn:En; [|by split].
  pose proof (delete_Permutation _ _ _ En) as Hp. rewrite Hp in H3. apply NoDup_cons in H3 as [Hs H3].
  split; cbn; [done|done|done|].
  - intros s'. rewrite elem_of_difference, not_elem_of_singleton, H4.
    assert (s' ∈ rDeploying r ↔ s' = s ∨ s' ∈ delete n (rDeploying r)) as -> by (by rewrite <-elem_of_cons, <-Hp). split; [tauto|]. intros Hin. split; [by right|]. by intros ->.
Qed.

Lemma lookup_cancel_absent serials r id :
  rWorkers (cancel_absent serials r) !! id =
  (λ k, if bool_decide (rHosts r !! wkSerial k = Some id) && (wkDone k || negb (bool_decide (wkSerial k ∈ serials)))
        then cancel_worker k else k) <$> rWorkers r !! id.
Proof. cbn. by rewrite list_lookup_imap. Qed.

Lemma cancel_absent_Some serials r id k :
  rWorkers (cancel_absent serials r) !! id = Some k →
  ∃ k', rWorkers r !! id = Some k' ∧ wkSerial k' = wkSerial k ∧ wkDone k' = wkDone k.
Proof.
  rewrite lookup_cancel_absent. intros (k' & -> & Hk)%fmap_Some. exists k'. by case_match; subst.
Qed.

Lemma lookup_hosts_cancel serials r serial id :
  rHosts (cancel_absent serials r) !! serial = Some id ↔ rHosts r !! serial = Some id ∧ is_done (rWorkers r) id = false.
Proof. cbn. by rewrite map_lookup_filter_Some. Qed.

Lemma cancel_absent_inv serials r : runner_inv r → runner_inv (cancel_absent serials r).
Proof.
  intros [H1 H2 H3 H4]. split; [| |done|done].
  - intros serial id [(k & Hk & <-)%H1 _]%lookup_hosts_cancel.
    eexists. rewrite lookup_cancel_absent, Hk. split; [reflexivity|]. by case_match.
  - intros id k (k' & Hk & <- & Hd)%cancel_absent_Some Hdone. rewrite lookup_hosts_cancel.
    rewrite <-Hd in Hdone. split; [by apply H2|]. unfold is_done. by rewrite Hk.
Qed.

Lemma start_worker_inv r serial : runner_inv r → runner_inv (start_worker r serial).
Proof.
  intros [H1 H2 H3 H4]. unfold start_worker. destruct (rHosts r !! serial) as [id0|] eqn:E; [by split|].
  split; cbn; [| |done|done].
  - intros s id. destruct (decide (s = serial)) as [->|Hne].
    + rewrite lookup_insert_eq. intros [= <-]. eexists. by rewrite list_lookup_middle.
    + rewrite lookup_insert_ne by done. intros (k & Hk & Hs)%H1. exists k. split; [|done].
      by apply lookup_app_l_Some.
  - intros id k Hk Hd. apply lookup_app_Some in Hk as [Hk|[Hge Hk]].
    + rewrite lookup_insert_ne; [by apply H2|]. intros ->. pose proof (H2 _ _ Hk Hd). congruence.
    + apply list_lookup_singleton_Some in Hk as [Hz <-]. cbn. rewrite lookup_insert_eq. f_equal. lia.
Qed.

Lemma fold_left_inv {A B} (P : A → Prop) (f : A → B → A) l a :
  (∀ a b, P a → P (f a b)) → P a → P (fold_left f l a).
Proof. intros Hf. revert a. induction l as [|b l IH]; intros a Ha; cbn; [done|]. by apply IH, Hf. Qed.

Lemma scan_inv mode serials r : runner_inv r → runner_inv (scan mode serials r).
Proof.
  intros H. unfold scan, reconcileHosts. case_match; apply fold_left_inv.
  - intros a b. apply start_worker_inv.
  - by apply cancel_absent_inv.
  - intros a b. apply start_deployment_inv.
  - done.
Qed.

Lemma runner_step_inv mode r r' : runner_step mode r r' → runner_inv r → runner_inv r'.
Proof.
  intros Hs Hi. destruct Hs as [serials r|n r|id k r Hk Hc|r].
  - by apply scan_inv.
  - by apply end_deployment_inv.
  - destruct Hi as [H1 H2 H3 H4]. split; cbn; [| |done|done].
    + intros s i (k' & Hk' & Hs)%H1. destruct (decide (i = id)) as [->|Hne].
      * rewrite list_lookup_alter_eq, Hk'. by eexists.
      * rewrite list_lookup_alter_ne by done. eauto.
    + intros i k'. destruct (decide (i = id)) as [->|Hne].
      * rewrite list_lookup_alter_eq. by intros (? & _ & ->)%fmap_Some.
      * rewrite list_lookup_alter_ne by done. apply H2.
  - destruct Hi as [H1 H2 H3 H4]. split; cbn; [| |done|done].
    + intros s i (k' & Hk' & Hs)%H1. rewrite list_lookup_fmap, Hk'. by eexists.
    + intros i k'. rewrite list_lookup_fmap. intros (k & Hk & ->)%fmap_Some Hd. by apply (H2 i k).
Qed.

Lemma runner_reachable_inv mode r : runner_reachable mode r → runner_inv r.
Proof.
  intros Hr. unfold runner_reachable in Hr. remember new_runner as r0 eqn:E.
  assert (runner_inv r0) as H0 by (subst; apply new_runner_inv). clear E.
  induction Hr as [|a b c Hs _ IH]; [done|]. apply IH. by eapply runner_step_inv.
Qed.

(** Starting workers leaves the existing ones alone. *)
Lemma start_workers_prefix serials r : ∃ more, rWorkers (fold_left start_worker serials r) = rWorkers r ++ more.
Proof.
  revert r. induction serials as [|s l IH]; intros r; cbn; [exists []; by rewrite app_nil_r|].
  destruct (IH (start_worker r s)) as [more ->]. unfold start_worker. destruct (rHosts r !! s); cbn; [by eexists|].
  rewrite <-app_assoc. by eexists.
Qed.

Lemma start_workers_hosts serials r serial :
  is_Some (rHosts (fold_left start_worker serials r) !! serial) ↔ is_Some (rHosts r !! serial) ∨ serial ∈ serials.
Proof.
  revert r. induction serials as [|s l IH]; intros r; cbn; [set_solver|].
  rewrite IH, elem_of_cons. unfold start_worker. destruct (rHosts r !! s) eqn:E; cbn.
  - split; [tauto|]. intros [?|[->|?]]; [by left| |by right]. left. by rewrite E.
  - rewrite lookup_insert_is_Some. destruct (decide (s = serial)); naive_solver.
Qed.

(** No host entry of the result points to a finished worker. *)
Lemma reconcileHosts_live serials r serial id :
  runner_inv r → rHosts (reconcileHosts serials r) !! serial = Some id → running (reconcileHosts serials r) id serial.
Proof.
  intros Hi. unfold reconcileHosts.
  set (P := λ r, runner_inv r ∧ ∀ serial id, rHosts r !! serial = Some id → running r id serial).
  assert (P (fold_left start_worker serials (cancel_absent serials r))) as [_ H].
  { apply fold_left_inv.
    - intros a s [Ha Hl]. split; [by apply start_worker_inv|]. unfold start_worker.
      destruct (rHosts a !! s) eqn:E; [done|]. intros s' id'. unfold running. cbn. destruct (decide (s' = s)) as [->|Hne].
      + rewrite lookup_insert_eq. intros [= <-]. eexists. by rewrite list_lookup_middle.
      + rewrite lookup_insert_ne by done. intros (k & Hk & ?)%Hl. exists k. split; [|done]. by apply lookup_app_l_Some.
    - split; [by apply cancel_absent_inv|]. intros s id' [H Hd]%lookup_hosts_cancel.
      destruct (ri_hosts _ Hi _ _ H) as (k & Hk & Hs). unfold is_done in Hd. rewrite Hk in Hd.
      unfold running. rewrite lookup_cancel_absent, Hk. eexists. split; [reflexivity|]. by case_match. }
  apply H.
Qed.

Lemma empty_spec s : reflect (s = "") (empty s).
Proof. apply bool_decide_reflect. Qed.

Lemma Validate_tokens config : Validate config = Ok () →
  (dcControlPlaneURL config = "" → dcEnrollmentToken config ≠ "") ∧
  (dcControlPlaneURL config ≠ "" →
     (dcDeploymentToken config ≠ "" ∧ dcAdminToken config = "") ∨ (dcDeploymentToken config = "" ∧ dcAdminToken config ≠ "")).
Proof.
  unfold Validate. intros Hv.
  apply bind_Ok in Hv as (_ & _ & Hv). apply bind_Ok in Hv as (_ & _ & Hv). apply bind_Ok in Hv as (_ & _ & Hv).
  apply bind_Ok in Hv as (_ & _ & Hv). apply bind_Ok in Hv as (_ & _ & Hv).
  apply bind_Ok in Hv as (u1 & H1%refuse_Ok & Hv). apply bind_Ok in Hv as (u2 & H2%refuse_Ok & H3%refuse_Ok).
  cbn [ResolveDefaults dcControlPlaneURL dcEnrollmentToken dcAdminToken dcDeploymentToken] in *.
  destruct (empty_spec (dcControlPlaneURL config)), (empty_spec (dcEnrollmentToken config)),
    (empty_spec (dcAdminToken config)), (empty_spec (dcDeploymentToken config)); naive_solver.
Qed.

(** ** Lemmas: deployments *)

Section deployments.
Context (parse_url : url_parser) (Join : list string → string) (state_hash : string → string).
Context (agent_token : bytes → option string) (w : world) (config : Config).
#[local] Abbreviation enrollmentToken := (enrollmentToken w config).
#[local] Abbreviation ensureAgent := (ensureAgent parse_url Join w config).
#[local] Abbreviation runHostAgent := (runHostAgent Join state_hash agent_token w config).

Lemma enrollmentToken_trace id e : e ∈ (enrollmentToken id).1 →
  dcControlPlaneURL config ≠ "" ∧
  e = if empty (dcDeploymentToken config)
      then EToken (TrimRight (dcControlPlaneURL config) "/" +:+ "/api/agents/enrollment-tokens") (dcAdminToken config) id
      else EToken (TrimRight (dcControlPlaneURL config) "/" +:+ "/api/deploy/enrollment-tokens") (dcDeploymentToken config) id.
Proof.
  unfold enrollmentToken. destruct (empty (dcControlPlaneURL config)) eqn:E; [by intros ?%elem_of_nil|].
  apply bool_decide_eq_false in E.
  destruct (empty (dcDeploymentToken config)); rewrite elem_of_abind;
    (intros [->%list_elem_of_singleton|(a & _ & Ha)]; [done|]);
    revert Ha; repeat case_match; by intros ?%elem_of_nil.
Qed.

Lemma enrollmentToken_Ok id token : (enrollmentToken id).2 = Ok token →
  (dcControlPlaneURL config = "" ∧ token = dcEnrollmentToken config) ∨ (dcControlPlaneURL config ≠ "" ∧ token ≠ "").
Proof.
  unfold enrollmentToken. destruct (empty (dcControlPlaneURL config)) eqn:E.
  - apply bool_decide_eq_true in E. intros [= <-]. by left.
  - apply bool_decide_eq_false in E. intros H. right. split; [done|].
    destruct (empty (dcDeploymentToken config)); apply abind_snd_Ok in H as (a & _ & H);
      (case_match; [done|]); destruct a.2 as [tk|]; try done; destruct (empty tk) eqn:Et; try done;
      injection H as <-; by apply bool_decide_eq_false in Et.
Qed.

Lemma quiet_cases {A} (m : act A) : m.1 = [] → (∃ a, m = aret a) ∨ (∃ e, m = afail e).
Proof. destruct m as [t [a|e]]; cbn; intros ->; [left|right]; by eexists. Qed.

Lemma stat_cases path what :
  (stat w path what = aret () ∧ is_ok (w_stat w path)) ∨ (∃ e, stat w path what = afail e).
Proof. unfold stat. destruct (w_stat w path); [by left|right; by eexists]. Qed.

Lemma deviceABI_quiet serial : (deviceABI w serial).1 = [].
Proof. unfold deviceABI. rewrite abind_eq. destruct (w_getprop w serial); cbn; [|done]. by case_match. Qed.

Lemma deviceABI_supported serial abi : (deviceABI w serial).2 = Ok abi →
  abi ∈ ["arm64-v8a"; "armeabi-v7a"; "x86"; "x86_64"].
Proof.
  unfold deviceABI. intros (output & _ & H)%abind_snd_Ok. revert H. case_match eqn:E; [|done].
  intros [= <-]. by apply bool_decide_eq_true in E.
Qed.

Lemma reverse_trace serial e : e ∈ (configureLoopbackReverse parse_url w config serial).1 →
  ∃ port, e = EReverse serial port ∧ loopbackSignalingPort parse_url (dcSignalingURL config) = Ok (Some port).
Proof.
  unfold configureLoopbackReverse. intros [?%elem_of_nil|(p & Hp & He)]%elem_of_abind; [done|].
  destruct p as [p|]; [|by apply elem_of_nil in He]. apply list_elem_of_singleton in He as ->. by exists p.
Qed.

(** What has succeeded before a deployment first touches its device. *)
Record deployable (serial abi token : string) : Prop := {
  da_abi : (deviceABI w serial).2 = Ok abi;
  da_binary : is_ok (w_stat w (Join [dcArtifactDir config; abi; "scrcpycat-agent"]));
  da_jar : is_ok (w_stat w (dcScrcpyJar config));
  da_token : (enrollmentToken serial).2 = Ok token;
}.

Definition install_trace (serial abi : string) : list effect :=
  [EStop serial; EPush serial (Join [dcArtifactDir config; abi; "scrcpycat-agent"]) agent_path 448;
   EPush serial (dcScrcpyJar config) jar_path 420].

(** The rest of a deployment, once its token is known. *)
Definition install (serial abi token : string) : act () :=
  _ <- stopAgent w serial ;;
  _ <- push w serial (Join [dcArtifactDir config; abi; "scrcpycat-agent"]) agent_path 448 ;;
  _ <- push w serial (dcScrcpyJar config) jar_path 420 ;;
  _ <- configureLoopbackReverse parse_url w config serial ;;
  match perform (ELaunch serial (launch_command config serial token)) (w_launch w serial) with
  | (t, r) => (t, if w_deadline w serial && w_healthy_after w serial then Ok () else r)
  end.

(** A deployment does nothing, asks for a token, or installs with one. *)
Lemma ensureAgent_cases serial :
  (ensureAgent serial).1 = [] ∨ (ensureAgent serial).1 = (enrollmentToken serial).1 ∨
  ∃ abi token, deployable serial abi token ∧
    ensureAgent serial = ((enrollmentToken serial).1 ++ (install serial abi token).1, (install serial abi token).2).
Proof.
  unfold ensureAgent. destruct (negb _ && _); [by left|].
  destruct (quiet_cases _ (deviceABI_quiet serial)) as [[abi E]|[e E]]; rewrite E, ?abind_ret, ?abind_fail; [|by left].
  destruct (stat_cases (Join [dcArtifactDir config; abi; "scrcpycat-agent"]) "agent artifact") as [[E1 H1]|[e E1]];
    rewrite E1, ?abind_ret, ?abind_fail; [|by left].
  destruct (stat_cases (dcScrcpyJar config) "scrcpy jar") as [[E2 H2]|[e E2]];
    rewrite E2, ?abind_ret, ?abind_fail; [|by left].
  rewrite abind_eq. destruct (enrollmentToken serial) as [t [token|e]] eqn:E3; cbn [fst snd]; [|right; by left].
  right; right. exists abi, token. split; [|done].
  split; [by rewrite E|done|done|by rewrite E3].
Qed.

Lemma install_trace_launch serial abi token command :
  ELaunch serial command ∈ (install serial abi token).1 →
  command = launch_command config serial token ∧
  (install serial abi token).1 = install_trace serial abi ++ (configureLoopbackReverse parse_url w config serial).1 ++
    [ELaunch serial (launch_command config serial token)].
Proof.
  intros H. unfold install in *. apply abind_later in H as (u1 & H1 & H & ->); [|by intros ?%list_elem_of_singleton].
  apply abind_later in H as (u2 & H2 & H & ->); [|by intros ?%list_elem_of_singleton].
  apply abind_later in H as (u3 & H3 & H & ->); [|by intros ?%list_elem_of_singleton].
  apply abind_later in H as (u4 & H4 & H & ->); [|by intros (? & [=] & _)%reverse_trace].
  apply list_elem_of_singleton in H as [= ->]. done.
Qed.

Lemma install_no_token serial abi token url c id : EToken url c id ∉ (install serial abi token).1.
Proof.
  unfold install. intros [?%list_elem_of_singleton|(u & _ & H)]%elem_of_abind; [done|].
  apply elem_of_abind in H as [?%list_elem_of_singleton|(u1 & _ & H)]; [done|].
  apply elem_of_abind in H as [?%list_elem_of_singleton|(u2 & _ & H)]; [done|].
  apply elem_of_abind in H as [(? & [=] & _)%reverse_trace|(u3 & _ & ?%list_elem_of_singleton)]. done.
Qed.

(** The token of a host worker, and what follows once it is known. *)
Definition host_token (serial : string) (renew : bool) : act string :=
  if renew || negb (hasHostIdentity agent_token w
       (Join [hostStateDirectory Join state_hash (dcStateDir config) serial; "identity.json"]))
  then enrollmentToken serial else aret "".
Definition host_start (environ : list string) (serial token : string) : act () :=
  let state := hostStateDirectory Join state_hash (dcStateDir config) serial in
  _ <- lift (w_mkdir w state) ;;
  _ <- stopAgent w serial ;;
  _ <- lift (w_log w (Join [state; "agent.log"])) ;;
  perform (ERun (host_args Join config serial state) (agentEnvironment environ token))
    (w_run w (host_args Join config serial state) (agentEnvironment environ token)).

Lemma regular_Ok path u : (regular w path).2 = Ok u → w_stat w path = Ok true.
Proof. unfold regular, lift. by destruct (w_stat w path) as [[]|]. Qed.

(** An effect of a run is one of its token request or of its start, and the run has got
    that far. *)
Lemma runHostAgent_effect environ serial renew e :
  e ∈ (runHostAgent environ serial renew).1 →
  w_stat w (dcHostAgent config) = Ok true ∧ w_stat w (dcScrcpyJar config) = Ok true ∧ is_ok (w_shell_v2 w serial) ∧
  (e ∈ (host_token serial renew).1 ∨
   ∃ token, (host_token serial renew).2 = Ok token ∧ e ∈ (host_start environ serial token).1 ∧
     ∀ e', e' ∈ (host_start environ serial token).1 → e' ∈ (runHostAgent environ serial renew).1).
Proof.
  intros He. pose proof He as H. unfold runHostAgent in H.
  apply elem_of_abind in H as [?%elem_of_nil|(u1 & R1 & H)]; [done|].
  apply elem_of_abind in H as [?%elem_of_nil|(u2 & R2 & H)]; [done|].
  apply elem_of_abind in H as [?%elem_of_nil|(u3 & R3 & H)]; [done|].
  assert (is_ok (w_shell_v2 w serial)) as Hv by (cbn in R3; by rewrite R3).
  pose proof (regular_Ok _ _ R1). pose proof (regular_Ok _ _ R2). split_and!; [done..|].
  apply elem_of_abind in H as [H|(token & R4 & H)]; [by left|right].
  exists token. split_and!; [done..|]. intros e' He'. unfold runHostAgent.
  apply elem_of_abind. right. exists u1. split; [done|]. apply elem_of_abind. right. exists u2. split; [done|].
  apply elem_of_abind. right. exists u3. split; [done|]. apply elem_of_abind. right. by exists token.
Qed.

Lemma host_token_Ok serial renew token : (host_token serial renew).2 = Ok token →
  (renew = false ∧ hasHostIdentity agent_token w
     (Join [hostStateDirectory Join state_hash (dcStateDir config) serial; "identity.json"]) = true ∧ token = "") ∨
  (enrollmentToken serial).2 = Ok token.
Proof.
  unfold host_token. destruct renew; [by right|]. destruct (hasHostIdentity _ _ _); [|by right].
  intros [= <-]. by left.
Qed.

Lemma host_token_trace serial renew e : e ∈ (host_token serial renew).1 → ∃ url c id, e = EToken url c id.
Proof.
  unfold host_token. case_match; [|by intros ?%elem_of_nil].
  intros [_ ->]%enrollmentToken_trace. case_match; by do 3 eexists.
Qed.

Lemma host_start_run environ serial token args env : ERun args env ∈ (host_start environ serial token).1 →
  args = host_args Join config serial (hostStateDirectory Join state_hash (dcStateDir config) serial) ∧
  env = agentEnvironment environ token ∧ EStop serial ∈ (host_start environ serial token).1.
Proof.
  unfold host_start. intros [?%elem_of_nil|(u1 & R1 & H)]%elem_of_abind; [done|].
  apply elem_of_abind in H as H'. destruct H' as [?%list_elem_of_singleton|(u2 & R2 & H')]; [done|].
  apply elem_of_abind in H' as [?%elem_of_nil|(u3 & R3 & [= -> ->]%list_elem_of_singleton)]; [done|].
  split_and!; [done..|]. apply elem_of_abind. right. exists u1. split; [done|]. apply elem_of_abind. left. by left.
Qed.

Lemma quote_arg value rest :
  sh_words false None (str_bytes (shellQuote value +:+ " " +:+ rest)) =
  cons value <$> sh_words false None (str_bytes rest).
Proof.
  unfold shellQuote. rewrite str_bytes_app, sh_words_quote, str_bytes_app.
  transitivity (cons (bytes_str (str_bytes value)) <$> sh_words false None (str_bytes rest)); [done|].
  by rewrite bytes_str_bytes.
Qed.
End deployments.

(** ** Lemmas: the loop of a worker *)

Lemma hostLoop_delay rounds : ∀ renew attempt i r delay, 0 ≤ attempt →
  hostLoop renew attempt rounds !! i = Some (r, Some delay) → Second ≤ delay ≤ 15 * Second.
Proof.
  assert (∀ n, 0 ≤ n → Second ≤ Z.min (n + 1) 15 * Second ≤ 15 * Second) as Hb by (unfold Second; lia).
  induction rounds as [|rd rounds IH]; intros renew attempt i r delay Ha; cbn; [done|].
  destruct (rd_cancelled rd); [by destruct i as [|i]|].
  assert (0 ≤ if Minute <? rd_elapsed rd then 0 else attempt) as Ha' by (by case_match).
  destruct i as [|i]; cbn; [intros [= _ <-]; by apply Hb|].
  destruct (rd_cancelled_waiting rd); [done|]. apply IH. lia.
Qed.

Lemma hostLoop_backoff rounds : ∀ renew attempt i r delay, Forall (λ rd, rd_elapsed rd ≤ Minute) rounds →
  hostLoop renew attempt rounds !! i = Some (r, Some delay) → delay = Z.min (attempt + Z.of_nat i + 1) 15 * Second.
Proof.
  induction rounds as [|rd rounds IH]; intros renew attempt i r delay Hall; cbn; [done|].
  apply Forall_cons in Hall as [Hrd Hall]. rewrite (proj2 (Z.ltb_ge _ _)) by done.
  destruct (rd_cancelled rd); [by destruct i as [|i]|].
  destruct i as [|i]; cbn; [intros [= _ <-]; by rewrite Z.add_0_r|].
  destruct (rd_cancelled_waiting rd); [done|]. intros H%IH; [|done]. rewrite H. f_equal. lia.
Qed.

Lemma hostLoop_renew rounds : ∀ renew attempt i r o,
  hostLoop renew attempt rounds !! S i = Some (r, o) → ∃ rd, rounds !! i = Some rd ∧
    rd_cancelled rd = false ∧ rd_cancelled_waiting rd = false ∧ r = bool_decide (rd_exit rd = Some 3).
Proof.
  induction rounds as [|rd rounds IH]; intros renew attempt i r o; cbn; [done|].
  destruct (rd_cancelled rd) eqn:Ec; [done|]. cbn. destruct (rd_cancelled_waiting rd) eqn:Ew; [done|].
  destruct i as [|i]; [|apply IH].
  destruct rounds as [|rd' rounds]; cbn; [done|]. intros H. exists rd. split_and!; [done..|].
  by destruct (rd_cancelled rd'); injection H as <-.
Qed.

(** ** Properties *)

(** C34: In every state the deployer can reach, whatever the order of scans, of workers
    and deployments ending and of a shutdown, no device has two running host workers and
    none has two running deployments; and a scan in host mode leaves every connected
    device with a running worker, cancels the workers of devices that are gone, and
    does not disturb the running worker of a device that is still connected. *)
Theorem one_worker_per_device mode r serials :
  runner_reachable mode r →
  (∀ id1 id2 serial, running r id1 serial → running r id2 serial → id1 = id2) ∧ NoDup (rDeploying r) ∧
  let r' := reconcileHosts serials r in
  (∀ serial, serial ∈ serials → ∃ id, running r' id serial) ∧
  (∀ id k, rWorkers r !! id = Some k → wkDone k = false →
     ∃ k', rWorkers r' !! id = Some k' ∧ wkSerial k' = wkSerial k ∧ wkDone k' = false ∧
       wkCancelled k' = (wkCancelled k || negb (bool_decide (wkSerial k ∈ serials)))%bool).
Proof.
  intros Hi%runner_reachable_inv. split_and!.
  - intros id1 id2 s (k1 & H1 & <- & D1) (k2 & H2 & E & D2).
    pose proof (ri_live _ Hi _ _ H1 D1) as L1. pose proof (ri_live _ Hi _ _ H2 D2) as L2. congruence.
  - apply Hi.
  - intros r'. split.
    + intros s Hs. assert (is_Some (rHosts r' !! s)) as [id Hid] by (apply start_workers_hosts; by right).
      exists id. by apply reconcileHosts_live.
    + intros id k Hk Hd. destruct (start_workers_prefix serials (cancel_absent serials r)) as [more Hm].
      assert (rWorkers r' !! id = rWorkers (cancel_absent serials r) !! id) as ->.
      { unfold r', reconcileHosts. rewrite Hm. apply lookup_app_l.
        apply lookup_lt_Some in Hk. cbn. by rewrite length_imap. }
      rewrite lookup_cancel_absent, Hk. eexists. split; [reflexivity|].
      rewrite (bool_decide_true (_ = Some id)), Hd by (by apply Hi). cbn.
      destruct (bool_decide (wkSerial k ∈ serials)); cbn; by rewrite ?orb_false_r, ?orb_true_r.
Qed.

(** A healthy agent is left alone unless the deployment is forced; otherwise the
    device is not touched before its ABI, both artifacts and an enrollment token have
    been obtained, and an agent is launched only after the old one was stopped and both
    files were pushed, in this order, with the loopback port forwarded in between. *)
Theorem deployment_order parse_url Join w config serial :
  let run := ensureAgent parse_url Join w config serial in
  (dcForce config = false → w_healthy w serial = true → run = ([], Ok ())) ∧
  (∀ e, e ∈ run.1 → (∀ url c id, e ≠ EToken url c id) → ∃ abi token, deployable Join w config serial abi token) ∧
  (∀ command, ELaunch serial command ∈ run.1 → ∃ abi token,
     deployable Join w config serial abi token ∧ command = launch_command config serial token ∧
     run.1 = (enrollmentToken w config serial).1 ++ install_trace Join config serial abi ++
             (configureLoopbackReverse parse_url w config serial).1 ++ [ELaunch serial command]).
Proof.
  intros run. split_and!.
  - intros Hf Hh. unfold run, ensureAgent. by rewrite Hf, Hh.
  - intros e He Hne. destruct (ensureAgent_cases parse_url Join w config serial) as [E|[E|(abi & tk & Hd & _)]];
      [fold run in E; rewrite E in He; by apply elem_of_nil in He| |by exists abi, tk].
    fold run in E. rewrite E in He. apply enrollmentToken_trace in He as [_ ->]. case_match; by destruct (Hne _ _ _ eq_refl).
  - intros command Hc. destruct (ensureAgent_cases parse_url Join w config serial) as [E|[E|(abi & tk & Hd & E)]];
      fold run in E; rewrite E in Hc.
    + by apply elem_of_nil in Hc.
    + apply enrollmentToken_trace in Hc as [_ Hc]. by destruct (empty _).
    + cbn [fst] in Hc. apply elem_of_app in Hc as [Hc|Hc].
      { apply enrollmentToken_trace in Hc as [_ Hc]. by destruct (empty _). }
      apply install_trace_launch in Hc as [-> Ht]. exists abi, tk. rewrite E. cbn [fst]. by rewrite Ht.
Qed.

(** The command line that launches an agent reaches it as exactly these arguments,
    whatever the serial, the signaling URL and the token contain: none of them can add
    an argument or a command. *)
Theorem launch_arguments config serial token :
  sh_words false None (str_bytes (launch_args config serial token)) =
  Some [agent_path; "--device-id"; serial; "--signaling"; dcSignalingURL config;
        "--enrollment-token"; token; "--scrcpy-jar"; jar_path].
Proof.
  unfold launch_args.
  transitivity (cons agent_path <$> (cons "--device-id" <$> sh_words false None (str_bytes (
    shellQuote serial +:+ " " +:+ ("--signaling " +:+ shellQuote (dcSignalingURL config) +:+
    " --enrollment-token " +:+ shellQuote token +:+ " --scrcpy-jar " +:+ jar_path))))); [done|].
  rewrite quote_arg.
  transitivity (cons agent_path <$> (cons "--device-id" <$> (cons serial <$> (cons "--signaling" <$>
    sh_words false None (str_bytes (shellQuote (dcSignalingURL config) +:+ " " +:+ ("--enrollment-token " +:+
    shellQuote token +:+ " " +:+ ("--scrcpy-jar " +:+ jar_path)))))))); [done|].
  rewrite quote_arg.
  transitivity (cons agent_path <$> (cons "--device-id" <$> (cons serial <$> (cons "--signaling" <$>
    (cons (dcSignalingURL config) <$> (cons "--enrollment-token" <$>
    sh_words false None (str_bytes (shellQuote token +:+ " " +:+ ("--scrcpy-jar " +:+ jar_path))))))))); [done|].
  by rewrite quote_arg.
Qed.

(** With a validated configuration a device is enrolled with exactly one credential,
    the deployment token when there is one and the administrator token otherwise, sent
    to the endpoint that accepts it, and a deployment never goes on with an empty
    token. *)
Theorem enrollment_credential w config deviceID :
  Validate config = Ok () →
  (∀ e, e ∈ (enrollmentToken w config deviceID).1 →
     ∃ path credential, e = EToken (TrimRight (dcControlPlaneURL config) "/" +:+ path) credential deviceID ∧
       credential ≠ "" ∧
       ((path = "/api/deploy/enrollment-tokens" ∧ credential = dcDeploymentToken config ∧ dcAdminToken config = "") ∨
        (path = "/api/agents/enrollment-tokens" ∧ credential = dcAdminToken config ∧ dcDeploymentToken config = ""))) ∧
  (∀ token, (enrollmentToken w config deviceID).2 = Ok token → token ≠ "").
Proof.
  intros [Hnone Hsome]%Validate_tokens. split.
  - intros e [Hu ->]%enrollmentToken_trace. unfold empty.
    destruct (Hsome Hu) as [[Hd Ha]|[Hd Ha]].
    + rewrite bool_decide_false by done. do 2 eexists. split; [reflexivity|]. split; [done|]. by left.
    + rewrite bool_decide_true by done. do 2 eexists. split; [reflexivity|]. split; [done|]. by right.
  - intros token [[Hu ->]|[_ ?]]%enrollmentToken_Ok; [|done]. by apply Hnone.
Qed.

(** The agent of a host worker is started only with both artifacts present, a device
    that has the shell protocol, and either an identity that is not to be renewed or a
    fresh enrollment token; the old agent is stopped only then, and the process sees no
    deployment or administrator token and no enrollment token but its own, with the
    rest of the environment kept in order. *)
Theorem host_agent_start Join state_hash agent_token w config environ serial renew :
  let run := runHostAgent Join state_hash agent_token w config environ serial renew in
  let state := hostStateDirectory Join state_hash (dcStateDir config) serial in
  (∀ e, e ∈ run.1 → (∀ url c id, e ≠ EToken url c id) →
     w_stat w (dcHostAgent config) = Ok true ∧ w_stat w (dcScrcpyJar config) = Ok true ∧
     is_ok (w_shell_v2 w serial) ∧
     ((renew = false ∧ hasHostIdentity agent_token w (Join [state; "identity.json"]) = true) ∨
      is_ok (enrollmentToken w config serial).2)) ∧
  (∀ args env, ERun args env ∈ run.1 →
     args = host_args Join config serial state ∧ EStop serial ∈ run.1 ∧
     (∀ entry, entry ∈ env → entry_name entry ∈ secret_names →
        ∃ token, entry = "SCRCPYCAT_ENROLLMENT_TOKEN=" +:+ token ∧
          (token = "" ∨ (enrollmentToken w config serial).2 = Ok token)) ∧
     List.filter (λ entry, negb (bool_decide (entry_name entry ∈ secret_names))) environ `prefix_of` env).
Proof.
  intros run state. split.
  - intros e (H1 & H2 & H3 & He)%runHostAgent_effect Hne. split_and!; [done..|].
    destruct He as [(url & c & id & ->)%host_token_trace|(token & Ht & _)]; [by destruct (Hne url c id)|].
    apply host_token_Ok in Ht as [(? & ? & _)|Ht]; [by left|right]. by rewrite Ht.
  - intros args env (_ & _ & _ & He)%runHostAgent_effect.
    destruct He as [(url & c & id & ?)%host_token_trace|(token & Ht & He & Hsub)]; [done|].
    apply host_start_run in He as (-> & -> & Hs). split_and!; [done|by apply Hsub| |by eexists].
    intros entry Hin Hsecret. unfold agentEnvironment in Hin. apply elem_of_app in Hin as [Hin| ->%list_elem_of_singleton].
    + apply list_elem_of_In, filter_In in Hin as [_ Hin]. by rewrite bool_decide_true in Hin.
    + exists token. split; [done|]. apply host_token_Ok in Ht as [(_ & _ & ->)|Ht]; [by left|by right].
Qed.

(** A host worker waits between 1 and 15 seconds before it starts its agent again,
    one second more after every short run; it renews the identity of the device exactly
    when the run before ended with the exit code 3 of a rejected identity, never on the
    first run; and it starts nothing after its context was cancelled. *)
Theorem hostLoop_correct rounds :
  let trace := hostLoop false 0 rounds in
  (∀ i renew delay, trace !! i = Some (renew, Some delay) → Second ≤ delay ≤ 15 * Second) ∧
  (Forall (λ rd, rd_elapsed rd ≤ Minute) rounds → ∀ i renew delay, trace !! i = Some (renew, Some delay) →
     delay = Z.min (Z.of_nat i + 1) 15 * Second) ∧
  (∀ renew o, trace !! O = Some (renew, o) → renew = false) ∧
  (∀ i renew o, trace !! S i = Some (renew, o) → ∃ rd, rounds !! i = Some rd ∧
     rd_cancelled rd = false ∧ rd_cancelled_waiting rd = false ∧ renew = bool_decide (rd_exit rd = Some 3)).
Proof.
  intros trace. split_and!.
  - intros i renew delay H. by apply hostLoop_delay in H.
  - intros Hall i renew delay H. apply hostLoop_backoff in H; [|done]. by rewrite Z.add_0_l in H.
  - intros renew o. unfold trace. destruct rounds as [|rd rounds]; cbn; [done|]. by destruct (rd_cancelled rd); intros [= <-].
  - intros i renew o H. by apply hostLoop_renew in H.
Qed.

(** ** Witnesses *)

Module DeployerWitness.
Definition r1 : runner := reconcileHosts ["usb1"] new_runner.
Definition r2 : runner := reconcileHosts ["usb2"] r1.

Lemma r2_reachable : runner_reachable ModeHost r2.
Proof. eapply rtc_l; [exact (step_scan ModeHost ["usb1"] new_runner)|]. apply rtc_once. exact (step_scan ModeHost ["usb2"] r1). Defined.

(** The device [usb1] is back while its cancelled worker still runs: no second one. *)
Lemma one_worker_per_device_witness :
  (∃ id, running (reconcileHosts ["usb1"; "usb2"] r2) id "usb1") ∧
  length (rWorkers (reconcileHosts ["usb1"; "usb2"] r2)) = 2%nat.
Proof.
  split.
  - refine (proj1 (proj2 (proj2 (one_worker_per_device ModeHost r2 ["usb1"; "usb2"] r2_reachable))) "usb1" _). by left.
  - reflexivity.
Defined.

Definition config : Config :=
  MkConfig ModeDevice DefaultServer "" "" "/usr/bin/adb" "/artifacts" "/scrcpy.jar" "wss://host/agent"
    "https://host/" "deploy" "" "" (10 * Second) false false.
Definition w : world :=
  MkWorld (λ _, false) (λ _, Ok (str_bytes "x86_64")) (λ _, Ok true) (λ _ _ _, Ok (201, Some "token"))
    (λ _, Ok ()) (λ _ _ _, Ok ()) (λ _ _, Ok ()) (λ _, Ok ()) (λ _, false) (λ _, true) (λ _, Ok ())
    (λ _, Err (ErrMsg "no file")) (λ _, Ok ()) (λ _, Ok ()) (λ _ _, Ok ()).

Lemma enrollment_credential_witness :
  Validate config = Ok () ∧ (enrollmentToken w config "dev").2 = Ok "token" ∧ "token" ≠ "" ∧
  (enrollmentToken w config "dev").1 = [EToken "https://host/api/deploy/enrollment-tokens" "deploy" "dev"].
Proof.
  assert (Validate config = Ok ()) as Hv by (by vm_compute).
  split; [exact Hv|]. split; [by vm_compute|]. split; [|by vm_compute].
  refine (proj2 (enrollment_credential w config "dev" Hv) "token" _). by vm_compute.
Defined.

Definition parse (url : string) : option (string * string * string) := Some ("wss", "host", "").
Definition join (parts : list string) : string := foldr (λ a b, "/" +:+ a +:+ b) "" parts.
Definition hash (s : string) : string := "00".
Definition launched : string := launch_command config "dev" "token".

(** A device whose agent is not healthy is deployed to, in this order. *)
Lemma deployment_order_witness :
  ∃ abi token, deployable join w config "dev" abi token ∧ launched = launch_command config "dev" token ∧
    (ensureAgent parse join w config "dev").1 =
      (enrollmentToken w config "dev").1 ++ install_trace join config "dev" abi ++ [] ++ [ELaunch "dev" launched].
Proof.
  refine (proj2 (proj2 (deployment_order parse join w config "dev")) launched _).
  apply list_elem_of_lookup_2 with (i := 4%nat). reflexivity.
Defined.

(** A worker without an identity: the old agent is stopped and the new one sees a fresh
    token only. *)
Definition environ : list string := ["PATH=/bin"; "SCRCPYCAT_ADMIN_TOKEN=root"].
Definition env : list string := ["PATH=/bin"; "SCRCPYCAT_ENROLLMENT_TOKEN=token"].
Definition args : list string := host_args join config "dev" (hostStateDirectory join hash (dcStateDir config) "dev").
Lemma host_agent_start_witness :
  EStop "dev" ∈ (runHostAgent join hash (λ _, None) w config environ "dev" false).1.
Proof.
  refine (proj1 (proj2 (proj2 (host_agent_start join hash (λ _, None) w config environ "dev" false) args env _))).
  apply list_elem_of_lookup_2 with (i := 2%nat). reflexivity.
Defined.

Definition rounds : list round := [MkRound false (Some 3) Second false; MkRound false None Second false; MkRound true None Second false].
Lemma hostLoop_correct_witness :
  ∃ rd, rounds !! O = Some rd ∧ rd_cancelled rd = false ∧ rd_cancelled_waiting rd = false ∧
    true = bool_decide (rd_exit rd = Some 3).
Proof. refine (proj2 (proj2 (proj2 (hostLoop_correct rounds))) O true (Some (2 * Second)) _). by vm_compute. Defined.
End DeployerWitness.
