(* ===== verification/WebRTC.v ===== *)
(** * The WebRTC sessions of an agent (agent/internal/agent/webrtc.go, bandwidth.go)

    A manager holds the sessions of the viewers of one source.  Peer connections belong
    to the pion module: a peer is the index of the closure [viewer] its callbacks were
    created with, and what the module answers is an argument of the operations.  Every
    operation returns the new state and the calls it makes, in order. *)

From S2P Require Import Prelude GoBase GoStrings GoFloat Model Control Scrcpy MediaOptions.

(** What the callbacks of a peer capture when [createOffer] makes it. *)
Record viewer := MkViewer {
  vwClient : string;
  vwVideo : bool;
  vwControl : bool;
  vwShell : bool;
  vwInitial : Z;
}.

(** [peer] is a pointer: [None] is nil.  [clipboard] tells whether the session keeps the
    clipboard channel of its peer. *)
Record webRTCSession := MkSession {
  ssClientID : string;
  ssPeer : option nat;
  ssClipboard : bool;
  ssVideo : bool;
  ssAudio : bool;
  ssBitrate : bitrateOptions;
  ssCapture : streamOptions;
  ssOrder : Z;
  ssTarget : Z;
  ssPending : list string;
}.

Definition no_bitrate : bitrateOptions := {| brEnabled := false; brInitial := 0; brMinimum := 0; brMaximum := 0 |}.
Definition no_options : streamOptions :=
  {| soReconfigure := false; soPreview := false; soPowerOff := false; soDebug := false;
     soBitrate := no_bitrate; soAudio := false; soSource := ""; soValues := ∅ |}.
(** The zero value [webRTCSession{}]. *)
Definition no_session : webRTCSession :=
  MkSession "" None false false false no_bitrate no_options 0 0 [].

Definition with_target (t : Z) (s : webRTCSession) : webRTCSession :=
  MkSession (ssClientID s) (ssPeer s) (ssClipboard s) (ssVideo s) (ssAudio s) (ssBitrate s) (ssCapture s) (ssOrder s) t (ssPending s).
Definition with_pending (l : list string) (s : webRTCSession) : webRTCSession :=
  MkSession (ssClientID s) (ssPeer s) (ssClipboard s) (ssVideo s) (ssAudio s) (ssBitrate s) (ssCapture s) (ssOrder s) (ssTarget s) l.

(** [mgViewers] lists the peers made so far, [mgRemote] those whose remote description
    is set.  [nextOrder] is a [uint64] that counts offers; it does not wrap. *)
Record webRTCManager := MkManager {
  mgSessions : gmap string webRTCSession;
  mgProfile : string;
  mgOrder : Z;
  mgLastPTS : Z;
  mgLastKeyframe : Time;
  mgLastBitrate : Time;
  mgCurrent : Z;
  mgICE : list string;
  mgViewers : list viewer;
  mgRemote : gset nat;
}.

Definition newWebRTCManager : webRTCManager := MkManager ∅ "42e01f" 0 0 time_zero time_zero 0 [] [] ∅.

Definition with_sessions (ss : gmap string webRTCSession) (m : webRTCManager) : webRTCManager :=
  MkManager ss (mgProfile m) (mgOrder m) (mgLastPTS m) (mgLastKeyframe m) (mgLastBitrate m) (mgCurrent m) (mgICE m) (mgViewers m) (mgRemote m).
Definition with_profile (p : string) (m : webRTCManager) : webRTCManager :=
  MkManager (mgSessions m) p (mgOrder m) (mgLastPTS m) (mgLastKeyframe m) (mgLastBitrate m) (mgCurrent m) (mgICE m) (mgViewers m) (mgRemote m).
Definition with_lastPTS (t : Z) (m : webRTCManager) : webRTCManager :=
  MkManager (mgSessions m) (mgProfile m) (mgOrder m) t (mgLastKeyframe m) (mgLastBitrate m) (mgCurrent m) (mgICE m) (mgViewers m) (mgRemote m).
Definition with_keyframe (t : Time) (m : webRTCManager) : webRTCManager :=
  MkManager (mgSessions m) (mgProfile m) (mgOrder m) (mgLastPTS m) t (mgLastBitrate m) (mgCurrent m) (mgICE m) (mgViewers m) (mgRemote m).
Definition with_current (b : Z) (t : Time) (m : webRTCManager) : webRTCManager :=
  MkManager (mgSessions m) (mgProfile m) (mgOrder m) (mgLastPTS m) (mgLastKeyframe m) t b (mgICE m) (mgViewers m) (mgRemote m).
Definition with_ice (l : list string) (m : webRTCManager) : webRTCManager :=
  MkManager (mgSessions m) (mgProfile m) (mgOrder m) (mgLastPTS m) (mgLastKeyframe m) (mgLastBitrate m) (mgCurrent m) l (mgViewers m) (mgRemote m).
Definition with_remote (p : nat) (m : webRTCManager) : webRTCManager :=
  MkManager (mgSessions m) (mgProfile m) (mgOrder m) (mgLastPTS m) (mgLastKeyframe m) (mgLastBitrate m) (mgCurrent m) (mgICE m) (mgViewers m) ({[p]} ∪ mgRemote m).

(** The calls of the manager; [OPanic] is a method call on a nil peer. *)
Inductive output :=
| OInput (event : gmap string value)
| OOffer (clientID sdp : string)
| OError (clientID text : string)
| OCandidate (peer : nat) (candidate : string)
| OClosePeer (peer : nat)
| OCloseTerminals (clientID : string)
| OSessionClosed
| OOpenTerminal (clientID sessionID : string)
| OCloseChannel
| OClipboard (peer : nat) (text : string)
| OVideo (data : bytes) (duration : Z)
| OAudio (data : bytes) (samples : Z)
| OPanic.

Definition on_peer (peer : option nat) (f : nat → output) : output :=
  match peer with Some p => f p | None => OPanic end.

Section webrtc.
Context (overflow : Z) (bitrates : list string) (numbers : list (string * Z)).

(** ** Offers, answers and candidates *)

(** [pion]: the local description of the new peer, or the error of making it; a peer
    that fails is closed and not kept.  [written]: the result of the socket write. *)
Definition createOffer (clientID : string) (rawPermissions : option value) (payload : gmap string value)
    (pion : result string) (written : result ()) (m : webRTCManager) : webRTCManager * list output * result () :=
  let options := default ∅ (mapField payload "scrcpy_options") in
  let withVideo := negb (eq_false (options !! "video")) in
  let withAudio := eq_true (options !! "audio") in
  let permissions := match rawPermissions with Some (VMap p) => p | _ => ∅ end in
  let canControl := eq_true (permissions !! "control") in
  let canShell := eq_true (permissions !! "shell") in
  match mgSessions m !! clientID with
  | Some _ => (m, [], Ok ())
  | None =>
      match parseBitrateOptions overflow bitrates options with
      | Err e => (m, [], Err e)
      | Ok bitrate =>
          let bitrate := {| brEnabled := brEnabled bitrate && withVideo; brInitial := brInitial bitrate;
                            brMinimum := brMinimum bitrate; brMaximum := brMaximum bitrate |} in
          match parseStreamOptions overflow bitrates numbers options false with
          | Err e => (m, [], Err e)
          | Ok capture =>
              match pion with
              | Err e => (m, [], Err e)
              | Ok sdp =>
                  let peer := length (mgViewers m) in
                  let session := MkSession clientID (Some peer) canControl withVideo withAudio bitrate capture
                                   (mgOrder m + 1) (brInitial bitrate) [] in
                  (MkManager (<[clientID := session]> (mgSessions m)) (mgProfile m) (mgOrder m + 1) (mgLastPTS m)
                     (mgLastKeyframe m) (mgLastBitrate m) (mgCurrent m) (mgICE m)
                     (mgViewers m ++ [MkViewer clientID withVideo canControl canShell (brInitial bitrate)]) (mgRemote m),
                   [OOffer clientID sdp], written)
              end
          end
      end
  end.

(** [setAnswer] up to the call of [SetRemoteDescription], made without the lock. *)
Definition setAnswer_lookup (clientID sdp : string) (m : webRTCManager) : option (option nat) :=
  if bool_decide (sdp = "") then None else ssPeer <$> mgSessions m !! clientID.

(** Adding candidates stops at the first error. *)
Fixpoint add_all (add : nat → string → result ()) (peer : option nat) (candidates : list string) : list output * result () :=
  match candidates with
  | [] => ([], Ok ())
  | c :: candidates =>
      match peer with
      | None => ([OPanic], Err (ErrMsg "panic"))
      | Some p =>
          match add p c with
          | Err e => ([OCandidate p c], Err e)
          | Ok _ => let '(os, r) := add_all add peer candidates in (OCandidate p c :: os, r)
          end
      end
  end.

(** The rest of [setAnswer]: [remote] is the answer of [SetRemoteDescription] on the
    peer found first; the session is read again, and may be gone. *)
Definition setAnswer_finish (clientID : string) (peer : nat) (remote : result ()) (add : nat → string → result ())
    (m : webRTCManager) : webRTCManager * list output * result () :=
  match remote with
  | Err e => (m, [], Err e)
  | Ok _ =>
      let m := with_remote peer m in
      let session := default no_session (mgSessions m !! clientID) in
      let '(os, r) := add_all add (ssPeer session) (ssPending session) in
      (with_sessions (<[clientID := with_pending [] session]> (mgSessions m)) m, os, r)
  end.

(** Both parts with nothing in between. *)
Definition setAnswer (clientID sdp : string) (remote : result ()) (add : nat → string → result ())
    (m : webRTCManager) : webRTCManager * list output * result () :=
  match setAnswer_lookup clientID sdp m with
  | None => (m, [], Ok ())
  | Some None => (m, [OPanic], Err (ErrMsg "panic"))
  | Some (Some peer) => setAnswer_finish clientID peer remote add m
  end.

(** [candidate]: the decoded candidate, or the error of decoding it. *)
Definition addCandidate (clientID : string) (candidate : result string) (add : nat → string → result ())
    (m : webRTCManager) : webRTCManager * list output * result () :=
  match candidate with
  | Err e => (m, [], Err e)
  | Ok candidate =>
      match mgSessions m !! clientID with
      | None => (m, [], Ok ())
      | Some session =>
          match ssPeer session with
          | None => (m, [OPanic], Err (ErrMsg "panic"))
          | Some p =>
              if decide (p ∈ mgRemote m) then (m, [OCandidate p candidate], add p candidate)
              else (with_sessions (<[clientID := with_pending (ssPending session ++ [candidate]) session]> (mgSessions m)) m,
                    [], Ok ())
          end
      end
  end.

(** What the pion module answers to a forwarded message. *)
Record pion_answers := MkPion {
  pa_offer : result string;
  pa_written : result ();
  pa_remote : result ();
  pa_candidate : option value → result string;
  pa_add : nat → string → result ();
}.

Definition HandleForward (message : gmap string value) (pa : pion_answers) (m : webRTCManager)
    : webRTCManager * list output * result () :=
  let clientID := stringField message "client_id" in
  match mapField message "payload" with
  | None => (m, [], Ok ())
  | Some payload =>
      if bool_decide (clientID = "") then (m, [], Ok ())
      else
        let type := stringField payload "type" in
        if bool_decide (type = "request-offer")
        then createOffer clientID (message !! "permissions") payload (pa_offer pa) (pa_written pa) m
        else if bool_decide (type = "answer")
        then setAnswer clientID (stringField payload "sdp") (pa_remote pa) (pa_add pa) m
        else if bool_decide (type = "ice-candidate")
        then addCandidate clientID (pa_candidate pa (payload !! "candidate")) (pa_add pa) m
        else (m, [], Ok ())
  end.
End webrtc.

(** ** The end of a session *)

Definition removeSession (clientID : string) (peer : nat) (m : webRTCManager) : webRTCManager * list output :=
  match mgSessions m !! clientID with
  | Some session =>
      if decide (ssPeer session = Some peer)
      then (with_sessions (delete clientID (mgSessions m)) m, [OCloseTerminals clientID; OClosePeer peer; OSessionClosed])
      else (m, [])
  | None => (m, [])
  end.

Definition CloseSession (clientID : string) (m : webRTCManager) : webRTCManager * list output :=
  match mgSessions m !! clientID with
  | Some session => (with_sessions (delete clientID (mgSessions m)) m, [on_peer (ssPeer session) OClosePeer])
  | None => (m, [])
  end.

Definition Close (m : webRTCManager) : webRTCManager * list output :=
  (with_sessions ∅ m, map (λ s, on_peer (ssPeer s) OClosePeer) (map_values (mgSessions m))).

(** ** The shared encoder *)

(** The loop returns at the first session with video, and every such session gives the
    same answer.  [track] is the result of making a new track. *)
Definition SetVideoCodec (profile : string) (track : result ()) (m : webRTCManager) : webRTCManager * result () :=
  if bool_decide (profile = mgProfile m) then (m, Ok ())
  else if existsb ssVideo (map_values (mgSessions m)) then
    (m, if (len profile =? 6) && (len (mgProfile m) =? 6) &&
           bool_decide (take_string 4 profile = take_string 4 (mgProfile m))
        then Ok () else Err (ErrMsg "encoder profile changed; reconnect the existing viewers first"))
  else match track with
       | Ok _ => (with_profile profile m, Ok ())
       | Err e => (m, Err e)
       end.

Definition SetICEServers (servers : option (list string)) (m : webRTCManager) : webRTCManager :=
  match servers with Some l => with_ice l m | None => m end.

Definition set_bitrate_event (target : Z) : gmap string value :=
  {[ "type" := VStr "set_video_bitrate"; "bitrate" := VInt target ]}.
Definition keyframe_event : gmap string value := {[ "type" := VStr "request_keyframe" ]}.

Definition slowest (bitrate : Z) (sessions : list webRTCSession) : Z :=
  foldl (λ target other, if ssVideo other && (0 <? ssTarget other) then Z.min target (ssTarget other) else target)
    bitrate sessions.

Definition updateBitrate (now : Time) (clientID : string) (peer : nat) (bitrate : Z) (m : webRTCManager)
    : webRTCManager * list output :=
  match mgSessions m !! clientID with
  | Some session =>
      if negb (bool_decide (ssPeer session = Some peer)) || negb (ssVideo session) then (m, [])
      else
        let bitrate := if brEnabled (ssBitrate session)
                       then Z.max (brMinimum (ssBitrate session)) (Z.min bitrate (brMaximum (ssBitrate session)))
                       else brInitial (ssBitrate session) in
        let m := with_sessions (<[clientID := with_target bitrate session]> (mgSessions m)) m in
        let target := slowest bitrate (map_values (mgSessions m)) in
        let delta := Z.abs (target - mgCurrent m) in
        if (0 <? mgCurrent m) && ((delta <? Z.quot (mgCurrent m) 10) || (Sub now (mgLastBitrate m) <? Second))
        then (m, [])
        else (with_current target now m, [OInput (set_bitrate_event target)])
  | None => (m, [])
  end.

Definition requestKeyframe (now : Time) (m : webRTCManager) : webRTCManager * list output :=
  if Sub now (mgLastKeyframe m) <? 2 * Second then (m, [])
  else (with_keyframe now m, [OInput keyframe_event]).

(** The callback of a peer: its connection state changed. *)
Inductive connection_state := StateConnected | StateGone | StateOther.

Definition on_state (now : Time) (peer : nat) (state : connection_state) (m : webRTCManager) : webRTCManager * list output :=
  match mgViewers m !! peer with
  | None => (m, [])
  | Some v =>
      match state with
      | StateConnected =>
          if vwVideo v then
            let '(m, o1) := requestKeyframe now m in
            let '(m, o2) := updateBitrate now (vwClient v) peer (vwInitial v) m in (m, o1 ++ o2)
          else (m, [])
      | StateGone => removeSession (vwClient v) peer m
      | StateOther => (m, [])
      end
  end.

(** ** Messages of the data channels *)

Definition sessionActive (m : webRTCManager) (clientID : string) (peer : nat) : bool :=
  match mgSessions m !! clientID with
  | Some current => bool_decide (ssPeer current = Some peer)
  | None => false
  end.

(** [event]: the decoded message, [None] when it is not an object; [text]: whether the
    message is a string. *)
Definition on_input (peer : nat) (text : bool) (event : option (gmap string value)) (m : webRTCManager) : list output :=
  match mgViewers m !! peer, event with
  | Some v, Some event =>
      if negb (vwControl v) || negb (sessionActive m (vwClient v) peer) || negb text then []
      else if browserControlAllowed event then [OInput event] else []
  | _, _ => []
  end.

Definition on_clipboard (peer : nat) (text : bool) (event : option (gmap string value)) (m : webRTCManager) : list output :=
  match mgViewers m !! peer, event with
  | Some v, Some event =>
      if negb (vwControl v) || negb (sessionActive m (vwClient v) peer) || negb text then []
      else if bool_decide (stringField event "type" = "set_clipboard") || bool_decide (stringField event "type" = "get_clipboard")
      then [OInput event] else []
  | _, _ => []
  end.

(** A channel the browser opens, and the first message on it. *)
Definition terminal_label : string := "adb-channel-".
Definition on_channel (peer : nat) (label : string) (m : webRTCManager) : list output :=
  match mgViewers m !! peer with
  | Some v =>
      if negb (vwShell v) || negb (sessionActive m (vwClient v) peer) || negb (HasPrefix label terminal_label)
      then [OCloseChannel] else []
  | None => []
  end.
Definition on_terminal (peer : nat) (label : string) (m : webRTCManager) : list output :=
  match mgViewers m !! peer with
  | Some v =>
      if sessionActive m (vwClient v) peer then [OOpenTerminal (vwClient v) (TrimPrefix label terminal_label)] else []
  | None => []
  end.

(** ** Media *)

Definition frame_duration (lastPTS pts : Z) : Z :=
  if (0 <? lastPTS) && (lastPTS <? pts) then
    let delta := uint64 ((pts - lastPTS) * 90) / 1000 in
    if (0 <? delta) && (delta <? 90000) then delta else 3000
  else 3000.

Definition PushH264 (packet : mediaPacket) (m : webRTCManager) : webRTCManager * list output :=
  if bool_decide (mgSessions m = ∅) then (m, [])
  else (with_lastPTS (pktPTS packet) m, [OVideo (pktData packet) (frame_duration (mgLastPTS m) (pktPTS packet))]).

Definition PushOpus (packet : mediaPacket) : list output :=
  let samples := opusPacketSamples (pktData packet) in
  if samples =? 0 then [] else [OAudio (pktData packet) samples].

(** [open]: the channels that are ready. *)
Definition PublishDeviceMessage (open : nat → bool) (encoded : string) (m : webRTCManager) : list output :=
  flat_map (λ s, if ssClipboard s then
                   match ssPeer s with Some p => if open p then [OClipboard p encoded] else [] | None => [] end
                 else []) (map_values (mgSessions m)).

Definition PublishError (text : string) (m : webRTCManager) : list output :=
  map (λ kv, OError kv.1 text) (map_to_list (mgSessions m)).

(** ** Options of the shared capture *)

Definition latest (l : list webRTCSession) : webRTCSession :=
  foldl (λ latest s, if ssVideo s && (ssOrder latest <? ssOrder s) then s else latest) no_session l.
Definition LatestVideoOptions (m : webRTCManager) : streamOptions * bool :=
  let s := latest (map_values (mgSessions m)) in (ssCapture s, ssVideo s).

Definition with_audio (audio : bool) (o : streamOptions) : streamOptions :=
  {| soReconfigure := soReconfigure o; soPreview := soPreview o; soPowerOff := soPowerOff o; soDebug := soDebug o;
     soBitrate := soBitrate o; soAudio := audio; soSource := soSource o; soValues := soValues o |}.
Definition with_values (vs : gmap string string) (o : streamOptions) : streamOptions :=
  {| soReconfigure := soReconfigure o; soPreview := soPreview o; soPowerOff := soPowerOff o; soDebug := soDebug o;
     soBitrate := soBitrate o; soAudio := soAudio o; soSource := soSource o; soValues := vs |}.

(** The audio keys of [from] replace those of [vs]. *)
Definition audio_keys : list string := ["audio_source"; "audio_dup"].
Definition take_audio (from vs : gmap string string) : gmap string string :=
  foldl (λ vs key, let vs := delete key vs in
                   if bool_decide (get from key = "") then vs else <[key := get from key]> vs) vs audio_keys.

Definition audio_session (l : list webRTCSession) : webRTCSession :=
  foldl (λ audio s, if ssVideo s && ssAudio s && (ssOrder audio <? ssOrder s) then s else audio) no_session l.
Definition keeps_active (s : webRTCSession) : bool :=
  ssVideo s && bool_decide (get (soValues (ssCapture s)) "keep_active" = "true").

Definition merge_needs (l : list webRTCSession) (options : streamOptions) : streamOptions :=
  let options := if existsb keeps_active l
                 then with_values (<["keep_active" := "true"]> (soValues options)) options else options in
  let audio := audio_session l in
  if negb (soAudio options) && ssAudio audio
  then with_values (take_audio (soValues (ssCapture audio)) (soValues options)) (with_audio true options)
  else options.
Definition mergeCaptureNeeds (m : webRTCManager) (options : streamOptions) : streamOptions :=
  merge_needs (map_values (mgSessions m)) options.

Definition HasSessions (m : webRTCManager) : bool := negb (bool_decide (mgSessions m = ∅)).
Definition HasClient (clientID : string) (m : webRTCManager) : bool := negb (bool_decide (mgSessions m !! clientID = None)).
Definition HasAudioSessions (m : webRTCManager) : bool := existsb ssAudio (map_values (mgSessions m)).

(** ** Runs

    The messages, callbacks and calls a manager receives, in any order.  [EvAnswered] is
    the end of an answer whose session was found earlier: callbacks may come between. *)
Inductive event :=
| EvForward (message : gmap string value) (pa : pion_answers)
| EvAnswered (peer : nat) (remote : result ()) (add : nat → string → result ())
| EvState (now : Time) (peer : nat) (state : connection_state)
| EvEstimate (now : Time) (peer : nat) (target : Z)
| EvKeyframe (now : Time)
| EvClose (clientID : string)
| EvCloseAll
| EvCodec (profile : string) (track : result ())
| EvVideo (packet : mediaPacket)
| EvServers (servers : option (list string)).

Section runs.
Context (overflow : Z) (bitrates : list string) (numbers : list (string * Z)).

Definition apply (e : event) (m : webRTCManager) : webRTCManager * list output :=
  match e with
  | EvForward message pa => (HandleForward overflow bitrates numbers message pa m).1
  | EvAnswered peer remote add =>
      match mgViewers m !! peer with
      | Some v => (setAnswer_finish (vwClient v) peer remote add m).1
      | None => (m, [])
      end
  | EvState now peer state => on_state now peer state m
  | EvEstimate now peer target =>
      match mgViewers m !! peer with
      | Some v => updateBitrate now (vwClient v) peer target m
      | None => (m, [])
      end
  | EvKeyframe now => requestKeyframe now m
  | EvClose clientID => CloseSession clientID m
  | EvCloseAll => Close m
  | EvCodec profile track => ((SetVideoCodec profile track m).1, [])
  | EvVideo packet => PushH264 packet m
  | EvServers servers => (SetICEServers servers m, [])
  end.

Definition run_from (m : webRTCManager) (events : list event) : webRTCManager := foldl (λ m e, (apply e m).1) m events.
Definition run (events : list event) : webRTCManager := run_from newWebRTCManager events.
End runs.

(** ** The invariant *)

Definition bitrate_ok (b : bitrateOptions) : Prop :=
  100000 ≤ brMinimum b ≤ 100000000 ∧ 100000 ≤ brMaximum b ≤ 100000000 ∧ 100000 ≤ brInitial b ≤ 100000000 ∧
  (brEnabled b = true → brMinimum b ≤ brInitial b ≤ brMaximum b).
Definition target_ok (b : bitrateOptions) (t : Z) : Prop :=
  if brEnabled b then brMinimum b ≤ t ≤ brMaximum b else t = brInitial b.

(** A session belongs to the peer that was made for its client. *)
Record live (m : webRTCManager) (clientID : string) (s : webRTCSession) (p : nat) (v : viewer) : Prop := {
  lv_peer : ssPeer s = Some p;
  lv_viewer : mgViewers m !! p = Some v;
  lv_client : vwClient v = clientID;
  lv_id : ssClientID s = clientID;
  lv_video : vwVideo v = ssVideo s;
  lv_clipboard : ssClipboard s = vwControl v;
  lv_order : 1 ≤ ssOrder s ≤ mgOrder m;
  lv_bitrate : bitrate_ok (ssBitrate s);
  lv_target : target_ok (ssBitrate s) (ssTarget s);
  lv_capture : soReconfigure (ssCapture s) = true;
}.

Record mg_inv (m : webRTCManager) : Prop := {
  mi_session : ∀ c s, mgSessions m !! c = Some s → s = no_session ∨ ∃ p v, live m c s p v;
  mi_order : ∀ c1 c2 s1 s2, mgSessions m !! c1 = Some s1 → mgSessions m !! c2 = Some s2 →
    ssOrder s1 = ssOrder s2 → 0 < ssOrder s1 → c1 = c2;
  mi_nonneg : 0 ≤ mgOrder m;
}.

(** ** Lemmas: the invariant *)

(** The operations after an offer change only the target and the candidates of a
    session. *)
Record updated (s s' : webRTCSession) : Prop := {
  up_peer : ssPeer s' = ssPeer s;
  up_client : ssClientID s' = ssClientID s;
  up_clipboard : ssClipboard s' = ssClipboard s;
  up_video : ssVideo s' = ssVideo s;
  up_audio : ssAudio s' = ssAudio s;
  up_bitrate : ssBitrate s' = ssBitrate s;
  up_capture : ssCapture s' = ssCapture s;
  up_order : ssOrder s' = ssOrder s;
  up_target : target_ok (ssBitrate s) (ssTarget s) → target_ok (ssBitrate s) (ssTarget s');
  up_zero : s = no_session → s' = no_session;
}.

Lemma updated_refl s : updated s s.
Proof. by split. Qed.
#[export] Hint Resolve updated_refl : go.

Lemma updated_pending l s : is_Some (ssPeer s) → updated s (with_pending l s).
Proof. intros [p Hp]. split; try done. by intros ->. Qed.

Lemma updated_no_pending s : updated s (with_pending [] s).
Proof. split; try done. by intros ->. Qed.

Lemma new_manager_inv : mg_inv newWebRTCManager.
Proof. split; cbn; [by intros ? ? ?%lookup_empty_Some|by intros ? ? ? ? ?%lookup_empty_Some|done]. Qed.

Lemma live_change m m' c s s' p v :
  live m c s p v → updated s s' → mgOrder m ≤ mgOrder m' →
  (∀ p v, mgViewers m !! p = Some v → mgViewers m' !! p = Some v) → live m' c s' p v.
Proof.
  intros [H1 H2 H3 H4 H5 H6 H7 H8 H9 H10] [U1 U2 U3 U4 U5 U6 U7 U8 U9 U10] Ho Hv.
  split; rewrite ?U1, ?U2, ?U3, ?U4, ?U6, ?U7, ?U8; auto with lia.
Qed.

Lemma mg_inv_change m m' :
  mg_inv m → mgOrder m ≤ mgOrder m' →
  (∀ p v, mgViewers m !! p = Some v → mgViewers m' !! p = Some v) →
  (∀ c s', mgSessions m' !! c = Some s' → s' = no_session ∨ ∃ s, mgSessions m !! c = Some s ∧ updated s s') →
  mg_inv m'.
Proof.
  intros [H1 H2 H3] Ho Hv Hs. split; [| |lia].
  - intros c s' [->|(s & Hc & Hu)]%Hs; [by left|].
    destruct (H1 c s Hc) as [->|(p & v & Hl)]; [left; by apply (up_zero _ _ Hu)|right].
    exists p, v. by eapply live_change.
  - intros c1 c2 s1 s2 [->|(t1 & T1 & U1)]%Hs Hc2 E Hpos; [cbn in Hpos; lia|].
    apply Hs in Hc2 as [->|(t2 & T2 & U2)]; [cbn in E; lia|].
    rewrite (up_order _ _ U1), (up_order _ _ U2) in *. by eapply H2.
Qed.

Lemma updated_trans s1 s2 s3 : updated s1 s2 → updated s2 s3 → updated s1 s3.
Proof. intros [] []. split; try congruence; [|by auto]. intros ?. rewrite up_bitrate0 in *. by auto. Qed.

(** What an operation may do: a session that is there afterwards is the zero session,
    one that was there, or that of a new peer; and no peer is forgotten. *)
Record step_ok (m m' : webRTCManager) : Prop := {
  so_inv : mg_inv m';
  so_viewers : mgViewers m `prefix_of` mgViewers m';
  so_sessions : ∀ c s', mgSessions m' !! c = Some s' →
    s' = no_session ∨ (∃ s, mgSessions m !! c = Some s ∧ updated s s') ∨ ssPeer s' = Some (length (mgViewers m));
}.

Lemma step_refl m : mg_inv m → step_ok m m.
Proof. intros Hi. split; [done|done|]. intros c s Hs. right; left. exists s. auto with go. Qed.

(** The common shape: the sessions change, the rest of the state does not matter. *)
Lemma step_sessions m m' :
  mg_inv m → mgOrder m' = mgOrder m → mgViewers m' = mgViewers m →
  (∀ c s', mgSessions m' !! c = Some s' → s' = no_session ∨ ∃ s, mgSessions m !! c = Some s ∧ updated s s') →
  step_ok m m'.
Proof.
  intros Hi Ho Hv Hs. split; [|by rewrite Hv|intros c s' [?|?]%Hs; auto].
  apply (mg_inv_change m); [done|lia|by rewrite Hv|done].
Qed.

Lemma sessions_insert (ss : gmap string webRTCSession) c s s' c' t :
  ss !! c = Some s → updated s s' → <[c := s']> ss !! c' = Some t → ∃ u, ss !! c' = Some u ∧ updated u t.
Proof.
  intros Hc Hu. destruct (decide (c' = c)) as [->|Hne].
  - rewrite lookup_insert_eq. intros [= <-]. by exists s.
  - rewrite lookup_insert_ne by done. intros Ht. exists t. split; [done|auto with go].
Qed.

Lemma sessions_same (ss : gmap string webRTCSession) c t :
  ss !! c = Some t → ∃ u, ss !! c = Some u ∧ updated u t.
Proof. intros Ht. exists t. split; [done|auto with go]. Qed.

Lemma sessions_delete (ss : gmap string webRTCSession) c c' t :
  delete c ss !! c' = Some t → ∃ u, ss !! c' = Some u ∧ updated u t.
Proof. intros [_ Ht]%lookup_delete_Some. by apply sessions_same. Qed.
#[export] Hint Resolve sessions_insert sessions_same sessions_delete : go.

Section invariant.
Context (overflow : Z) (bitrates : list string) (numbers : list (string * Z)).
Context (Hb : bitrates ≡ₚ bitrate_keys).

Lemma parse_reconfigure raw preview o : parseStreamOptions overflow bitrates numbers raw preview = Ok o → soReconfigure o = true.
Proof. unfold parseStreamOptions. intros H. repeat (apply bind_Ok in H as (? & _ & H)). by injection H as <-. Qed.

Lemma createOffer_step clientID perms payload pion written m :
  mg_inv m → step_ok m (createOffer overflow bitrates numbers clientID perms payload pion written m).1.1.
Proof.
  intros Hi. unfold createOffer. destruct (mgSessions m !! clientID) as [s0|] eqn:E; [by apply step_refl|].
  destruct (parseBitrateOptions _ _ _) as [b|e] eqn:Eb; [|by apply step_refl].
  destruct (parseStreamOptions _ _ _ _ _) as [o|e] eqn:Eo; [|by apply step_refl].
  destruct pion as [sdp|e]; [|by apply step_refl]. cbn [fst].
  apply parseBitrateOptions_Ok in Eb as (B1 & B2 & B3 & B4 & _); [|done].
  destruct Hi as [H1 H2 H3]. split; [split; cbn; [| |lia]|by eexists|].
  - intros c s. destruct (decide (c = clientID)) as [->|Hne].
    + rewrite lookup_insert_eq. intros [= <-]. right. do 2 eexists.
      split; cbn; [done|by apply list_lookup_middle|done..|lia| | |].
      * split_and!; cbn; try lia. intros [Hen _]%andb_true_iff. by apply B4.
      * unfold target_ok. cbn. destruct (brEnabled b) eqn:Een; cbn; [|done]. case_match; [by apply B4|done].
      * by eapply parse_reconfigure.
    + rewrite lookup_insert_ne by done. intros [->|(p & v & Hl)]%H1; [by left|right].
      exists p, v. eapply live_change; [done|auto with go|cbn; lia|]. intros. cbn. by apply lookup_app_l_Some.
  - assert (∀ c s, mgSessions m !! c = Some s → ssOrder s ≤ mgOrder m) as Hle.
    { intros c s [->|(p & v & Hl)]%H1; [cbn; lia|by apply Hl]. }
    intros c1 c2 s1 s2. destruct (decide (c1 = clientID)) as [->|N1], (decide (c2 = clientID)) as [->|N2];
      rewrite ?lookup_insert_eq, ?lookup_insert_ne by done; [done| | |apply H2].
    + intros [= <-] Hc Ho _. apply Hle in Hc. cbn in Ho. lia.
    + intros Hc [= <-] Ho _. apply Hle in Hc. cbn in Ho. lia.
  - intros c s'. cbn. destruct (decide (c = clientID)) as [->|Hne].
    + rewrite lookup_insert_eq. intros [= <-]. by right; right.
    + rewrite lookup_insert_ne by done. intros Hs. right; left. by apply sessions_same.
Qed.

Lemma setAnswer_finish_step clientID peer remote add m :
  mg_inv m → step_ok m (setAnswer_finish clientID peer remote add m).1.1.
Proof.
  intros Hi. unfold setAnswer_finish. destruct remote; [|by apply step_refl]. destruct (add_all _ _ _) as [os r]. cbn [fst].
  apply (step_sessions m); [done..|]. intros c s'. cbn. destruct (mgSessions m !! clientID) as [s|] eqn:E; cbn.
  - intros Hs. right. eapply sessions_insert; [done|apply updated_no_pending|done].
  - destruct (decide (c = clientID)) as [->|Hne]; [rewrite lookup_insert_eq; intros [= <-]; by left|].
    rewrite lookup_insert_ne by done. intros ?. right. by apply sessions_same.
Qed.

Lemma HandleForward_step message pa m :
  mg_inv m → step_ok m (HandleForward overflow bitrates numbers message pa m).1.1.
Proof.
  intros Hi. unfold HandleForward. destruct (mapField _ _) as [payload|]; [|by apply step_refl].
  repeat case_match; try by apply step_refl.
  - by apply createOffer_step.
  - unfold setAnswer. destruct (setAnswer_lookup _ _ _) as [[p|]|]; [by apply setAnswer_finish_step|by apply step_refl..].
  - unfold addCandidate. destruct (pa_candidate _ _) as [cand|]; [|by apply step_refl].
    destruct (mgSessions m !! _) as [s|] eqn:E; [|by apply step_refl].
    destruct (ssPeer s) as [p|] eqn:Ep; [|by apply step_refl].
    destruct (decide (p ∈ mgRemote m)); [by apply step_refl|]. cbn [fst]. apply (step_sessions m); [done..|]. intros c s'. cbn. intros Hs. right.
    eapply sessions_insert; [done| |done]. by apply updated_pending.
Qed.

Lemma target_ok_clamp b t : bitrate_ok b →
  target_ok b (if brEnabled b then Z.max (brMinimum b) (Z.min t (brMaximum b)) else brInitial b).
Proof. unfold target_ok. intros (_ & _ & _ & H). destruct (brEnabled b); [|done]. specialize (H eq_refl). lia. Qed.

Lemma updateBitrate_step now clientID peer bitrate m :
  mg_inv m → step_ok m (updateBitrate now clientID peer bitrate m).1.
Proof.
  intros Hi. unfold updateBitrate. destruct (mgSessions m !! clientID) as [s|] eqn:E; [|by apply step_refl].
  destruct (_ || _) eqn:Eg; [by apply step_refl|]. apply orb_false_iff in Eg as [Ep%negb_false_iff Ev%negb_false_iff].
  apply bool_decide_eq_true in Ep.
  set (t := if brEnabled (ssBitrate s) then _ else _).
  assert (∀ m', mgOrder m' = mgOrder m → mgViewers m' = mgViewers m →
    mgSessions m' = <[clientID := with_target t s]> (mgSessions m) → step_ok m m') as Hm.
  { intros m' Ho Hv Hs. apply (step_sessions m); [done..|]. intros c s'. rewrite Hs. intros Hc. right.
    eapply sessions_insert; [done| |done].
    assert (ssPeer s ≠ None) as Hne by (by rewrite Ep).
    split; try done; [|by intros ->]. intros _.
    destruct (mi_session _ Hi _ _ E) as [->|(p & v & Hl)]; [done|]. apply target_ok_clamp, Hl. }
  case_match; apply Hm; done.
Qed.

Lemma requestKeyframe_step now m : mg_inv m → step_ok m (requestKeyframe now m).1.
Proof.
  intros Hi. unfold requestKeyframe. case_match; [by apply step_refl|].
  apply (step_sessions m); [done..|]. intros c s Hs. right. eauto with go.
Qed.

Lemma step_sub m m' : mg_inv m → mgOrder m' = mgOrder m → mgViewers m' = mgViewers m →
  (∀ c s, mgSessions m' !! c = Some s → mgSessions m !! c = Some s) → step_ok m m'.
Proof. intros Hi Ho Hv Hs. apply step_sessions; [done..|]. intros c s Hc%Hs. right. by apply sessions_same. Qed.

Lemma step_trans m m1 m2 : mgViewers m1 = mgViewers m → step_ok m m1 → step_ok m1 m2 → step_ok m m2.
Proof.
  intros Hv [_ _ S1] [I2 V2 S2]. rewrite Hv in V2, S2. split; [done|done|].
  intros c s' [->|[(s & Hc & U)|?]]%S2; [by left| |by right; right].
  destruct (S1 c s Hc) as [->|[(s0 & H0 & U0)|Hp]].
  - left. by apply (up_zero _ _ U).
  - right; left. exists s0. split; [done|]. by eapply updated_trans.
  - right; right. by rewrite (up_peer _ _ U).
Qed.

Lemma on_state_step now peer st m : mg_inv m → step_ok m (on_state now peer st m).1.
Proof.
  intros Hi. unfold on_state. destruct (mgViewers m !! peer) as [v|]; [|by apply step_refl].
  destruct st; [|unfold removeSession|by apply step_refl].
  - destruct (vwVideo v); [|by apply step_refl]. pose proof (requestKeyframe_step now m Hi) as S1.
    assert (mgViewers (requestKeyframe now m).1 = mgViewers m) as Hv by (unfold requestKeyframe; by case_match).
    destruct (requestKeyframe now m) as [m1 o1]. cbn in S1, Hv.
    pose proof (updateBitrate_step now (vwClient v) peer (vwInitial v) m1 (so_inv _ _ S1)) as S2.
    destruct (updateBitrate _ _ _ _ m1) as [m2 o2]. cbn in S2 |- *. by eapply step_trans.
  - destruct (mgSessions m !! _) as [s|]; [|by apply step_refl]. case_decide; [|by apply step_refl].
    apply step_sub; [done..|]. intros c s'; cbn; by intros [_ ?]%lookup_delete_Some.
Qed.

Lemma apply_step e m : mg_inv m → step_ok m (apply overflow bitrates numbers e m).1.
Proof.
  intros Hi. destruct e as [msg pa|peer remote add|now peer st|now peer t|now|c| |p tr|pk|sv]; cbn.
  - by apply HandleForward_step.
  - destruct (mgViewers m !! peer); [by apply setAnswer_finish_step|by apply step_refl].
  - by apply on_state_step.
  - destruct (mgViewers m !! peer); [by apply updateBitrate_step|by apply step_refl].
  - by apply requestKeyframe_step.
  - unfold CloseSession. destruct (mgSessions m !! c) as [s|]; [|by apply step_refl].
    apply step_sub; [done..|]. intros c' s'; cbn; by intros [_ ?]%lookup_delete_Some.
  - apply step_sub; [done..|]. intros c' s'; cbn; by intros ?%lookup_empty_Some.
  - unfold SetVideoCodec. case_match; [by apply step_refl|]. case_match; [by apply step_refl|].
    case_match; [by apply step_sub|by apply step_refl].
  - unfold PushH264. case_match; [by apply step_refl|by apply step_sub].
  - unfold SetICEServers. case_match; [by apply step_sub|by apply step_refl].
Qed.

Lemma run_from_inv events : ∀ m, mg_inv m → mg_inv (run_from overflow bitrates numbers m events).
Proof. induction events as [|e l IH]; intros m Hi; [done|]. apply IH. by eapply so_inv, apply_step. Qed.

Lemma run_inv events : mg_inv (run overflow bitrates numbers events).
Proof. apply run_from_inv, new_manager_inv. Qed.
End invariant.

(** ** Lemmas: what a run keeps *)

Section kept.
Context (overflow : Z) (bitrates : list string) (numbers : list (string * Z)).
Context (Hb : bitrates ≡ₚ bitrate_keys).

(** No session has the peer. *)
Definition unused (m : webRTCManager) (peer : nat) : Prop := ∀ c s, mgSessions m !! c = Some s → ssPeer s ≠ Some peer.

Lemma run_from_viewers events : ∀ m peer v, mg_inv m → mgViewers m !! peer = Some v →
  mgViewers (run_from overflow bitrates numbers m events) !! peer = Some v.
Proof.
  induction events as [|e l IH]; intros m peer v Hi Hv; [done|]. cbn.
  pose proof (apply_step overflow bitrates numbers Hb e m Hi) as S. apply IH; [apply S|].
  eapply prefix_lookup_Some; [done|apply S].
Qed.

(** A peer that has lost its session never gets one again. *)
Lemma run_from_unused events : ∀ m peer, mg_inv m → is_Some (mgViewers m !! peer) → unused m peer →
  unused (run_from overflow bitrates numbers m events) peer.
Proof.
  induction events as [|e l IH]; intros m peer Hi Hv Hu; [done|]. cbn.
  pose proof (apply_step overflow bitrates numbers Hb e m Hi) as S. apply IH; [apply S| |].
  - destruct Hv as [v Hv]. exists v. eapply prefix_lookup_Some; [done|apply S].
  - intros c s' [->|[(s & Hs & U)|Hp]]%(so_sessions _ _ S); [done| |].
    + rewrite (up_peer _ _ U). by eapply Hu.
    + rewrite Hp. intros [= <-]. apply lookup_lt_is_Some in Hv. lia.
Qed.

Lemma unused_inactive m clientID peer : unused m peer → sessionActive m clientID peer = false.
Proof.
  intros Hu. unfold sessionActive. destruct (mgSessions m !! clientID) as [s|] eqn:E; [|done].
  apply bool_decide_eq_false. by eapply Hu.
Qed.

(** The session of a peer is that of its client. *)
Lemma live_client m c s peer v : mg_inv m → mgViewers m !! peer = Some v →
  mgSessions m !! c = Some s → ssPeer s = Some peer → c = vwClient v.
Proof.
  intros Hi Hv Hs Hp. destruct (mi_session _ Hi _ _ Hs) as [->|(p & v' & [])]; [done|]. simplify_eq. congruence.
Qed.

(** The events that end the session of a peer. *)
Definition ends (peer : nat) (v : viewer) (e : event) : Prop :=
  e = EvClose (vwClient v) ∨ e = EvCloseAll ∨ ∃ now, e = EvState now peer StateGone.

Lemma ends_unused m peer v e : mg_inv m → mgViewers m !! peer = Some v → ends peer v e →
  unused (apply overflow bitrates numbers e m).1 peer.
Proof.
  intros Hi Hv He c s. pose proof (live_client m c s peer v Hi Hv) as Hc.
  destruct He as [->|[->|[now ->]]]; cbn.
  - unfold CloseSession. destruct (mgSessions m !! vwClient v) as [s0|] eqn:E; cbn.
    + intros [Hne Hs]%lookup_delete_Some Hp. by rewrite (Hc Hs Hp) in Hne.
    + intros Hs Hp. rewrite (Hc Hs Hp) in Hs. congruence.
  - by intros ?%lookup_empty_Some.
  - unfold on_state. rewrite Hv. unfold removeSession. destruct (mgSessions m !! vwClient v) as [s0|] eqn:E; cbn.
    + case_decide as Hd; cbn; [intros [Hne Hs]%lookup_delete_Some Hp; by rewrite (Hc Hs Hp) in Hne|].
      intros Hs Hp. rewrite (Hc Hs Hp) in Hs. simplify_eq.
    + intros Hs Hp. rewrite (Hc Hs Hp) in Hs. congruence.
Qed.
End kept.

(** *** Bitrates *)

Lemma slowest_spec l : ∀ b, (∀ s, s ∈ l → ssVideo s = true → 0 < ssTarget s) →
  slowest b l ≤ b ∧ (∀ s, s ∈ l → ssVideo s = true → slowest b l ≤ ssTarget s) ∧
  (slowest b l = b ∨ ∃ s, s ∈ l ∧ ssVideo s = true ∧ slowest b l = ssTarget s).
Proof.
  induction l as [|s l IH]; intros b Hpos; cbn.
  - split_and!; [lia|by intros s ?%elem_of_nil|by left].
  - set (b' := if _ && _ then _ else _). destruct (IH b') as (H1 & H2 & H3); [intros; apply Hpos; [by right|done]|].
    assert (b' ≤ b ∧ (ssVideo s = true → b' ≤ ssTarget s) ∧ (b' = b ∨ (ssVideo s = true ∧ b' = ssTarget s))) as (B1 & B2 & B3).
    { subst b'. destruct (ssVideo s) eqn:Ev; cbn; [|split_and!; [lia|done|by left]].
      rewrite (proj2 (Z.ltb_lt _ _)) by (apply Hpos; [by left|done]). split_and!; [lia|lia|].
      destruct (Z.min_spec b (ssTarget s)) as [[_ ->]|[_ ->]]; [by left|by right]. }
    split_and!.
    + unfold slowest in *. lia.
    + intros t [->|Ht]%elem_of_cons Hv; [specialize (B2 Hv); unfold slowest in *; lia|by apply H2].
    + destruct H3 as [E|(t & Ht & Hv & E)].
      * destruct B3 as [B3|[Hv B3]]; [left; unfold slowest in *; lia|].
        right. exists s. split_and!; [by left|done|unfold slowest in *; lia].
      * right. exists t. split_and!; [by right|done|done].
Qed.

Lemma target_positive b t : bitrate_ok b → target_ok b t → 100000 ≤ t ≤ 100000000.
Proof. unfold bitrate_ok, target_ok. destruct (brEnabled b); lia. Qed.

Lemma inv_target m c s : mg_inv m → mgSessions m !! c = Some s → ssVideo s = true →
  100000 ≤ ssTarget s ≤ 100000000 ∧ target_ok (ssBitrate s) (ssTarget s).
Proof.
  intros Hi Hs Hv. destruct (mi_session _ Hi _ _ Hs) as [->|(p & v & [])]; [done|].
  split; [by eapply target_positive|done].
Qed.

(** *** Options of the capture *)

(** The sessions that may decide have distinct positive orders. *)
Definition distinct_orders (l : list webRTCSession) : Prop :=
  NoDup l ∧ ∀ s1 s2, s1 ∈ l → s2 ∈ l → ssVideo s1 = true → ssVideo s2 = true →
    0 < ssOrder s1 ∧ (ssOrder s1 = ssOrder s2 → s1 = s2).

(** [latest] and [audio_session] choose the eligible session with the greatest order. *)
Definition choose (p : webRTCSession → bool) (l : list webRTCSession) : webRTCSession :=
  foldl (λ best s, if p s && (ssOrder best <? ssOrder s) then s else best) no_session l.

Lemma choose_from p l : ∀ best,
  let r := foldl (λ best s, if p s && (ssOrder best <? ssOrder s) then s else best) best l in
  (r = best ∨ (r ∈ l ∧ p r = true)) ∧ ssOrder best ≤ ssOrder r ∧ ∀ s, s ∈ l → p s = true → ssOrder s ≤ ssOrder r.
Proof.
  induction l as [|s l IH]; intros best r; cbn in r.
  - split_and!; [by left|done|by intros s ?%elem_of_nil].
  - set (b' := if _ && _ then _ else _) in r. destruct (IH b') as (H1 & H2 & H3). fold r in H1, H2, H3.
    assert (ssOrder best ≤ ssOrder b' ∧ (p s = true → ssOrder s ≤ ssOrder b') ∧ (b' = best ∨ (b' = s ∧ p s = true))) as (B1 & B2 & B3).
    { clear H1 H2 H3 r IH. subst b'. destruct (p s); cbn; [|split_and!; [lia|done|by left]].
      destruct (Z.ltb_spec (ssOrder best) (ssOrder s)); split_and!; intros; auto; lia. }
    split_and!; [|lia|].
    + destruct H1 as [->|[Hin Hp]]; [|right; split; [by right|done]].
      destruct B3 as [->|[-> Hp]]; [by left|right; split; [by left|done]].
    + intros t [->|Ht]%elem_of_cons Hp; [specialize (B2 Hp); lia|by apply H3].
Qed.

Lemma choose_spec p l : (∀ s, s ∈ l → p s = true → 0 < ssOrder s) →
  (choose p l = no_session ∧ ∀ s, s ∈ l → p s = false) ∨
  (choose p l ∈ l ∧ p (choose p l) = true ∧ ∀ s, s ∈ l → p s = true → ssOrder s ≤ ssOrder (choose p l)).
Proof.
  intros Hpos. destruct (choose_from p l no_session) as (H1 & H2 & H3). fold (choose p l) in H1, H2, H3.
  destruct H1 as [E|[Hin Hp]]; [left|by right]. split; [done|].
  intros s Hs. destruct (p s) eqn:Ep; [|done]. pose proof (H3 s Hs Ep). pose proof (Hpos s Hs Ep).
  rewrite E in *. cbn in *. lia.
Qed.

(** The choice does not depend on the order in which the map lists its sessions. *)
Lemma choose_perm p l l' : l ≡ₚ l' →
  (∀ s1 s2, s1 ∈ l → s2 ∈ l → p s1 = true → p s2 = true → 0 < ssOrder s1 ∧ (ssOrder s1 = ssOrder s2 → s1 = s2)) →
  choose p l = choose p l'.
Proof.
  intros Hp Hd. assert (∀ x, x ∈ l ↔ x ∈ l') as Hm by (intros x; by rewrite Hp).
  destruct (choose_spec p l) as [[-> E]|(I1 & P1 & M1)]; [intros s Hs Hps; by apply (Hd s s)| |];
    (destruct (choose_spec p l') as [[-> E']|(I2 & P2 & M2)]; [intros s Hs%Hm Hps; by apply (Hd s s)| |]).
  - done.
  - apply Hm, E in I2. congruence.
  - apply Hm, E' in I1. congruence.
  - apply (Hd _ _); [done|by apply Hm|done..|].
    pose proof (M1 _ (proj2 (Hm _) I2) P2). pose proof (M2 _ (proj1 (Hm _) I1) P1). lia.
Qed.

Lemma inv_orders m s1 s2 : mg_inv m → s1 ∈ map_values (mgSessions m) → s2 ∈ map_values (mgSessions m) →
  ssVideo s1 = true → ssVideo s2 = true → 0 < ssOrder s1 ∧ (ssOrder s1 = ssOrder s2 → s1 = s2).
Proof.
  intros Hi [c1 H1]%elem_of_map_values [c2 H2]%elem_of_map_values V1 V2.
  destruct (mi_session _ Hi _ _ H1) as [->|(p & v & [])]; [done|].
  split; [lia|]. intros E. rewrite (mi_order _ Hi _ _ _ _ H1 H2 E) in H1 by lia. congruence.
Qed.

Lemma lookup_take_audio from vs key : key ∉ audio_keys → take_audio from vs !! key = vs !! key.
Proof.
  unfold audio_keys. rewrite !not_elem_of_cons. intros (H1 & H2 & _). unfold take_audio, audio_keys. cbn [foldl].
  by repeat case_match; rewrite ?lookup_insert_ne, ?lookup_delete_ne, ?lookup_insert_ne, ?lookup_delete_ne by done.
Qed.

Lemma get_take_audio from vs key : key ∈ audio_keys → get (take_audio from vs) key = get from key.
Proof.
  intros Hk. assert (key = "audio_source" ∨ key = "audio_dup") as [-> | ->].
  { apply elem_of_cons in Hk as [?|[?|?%elem_of_nil]%elem_of_cons]; auto. done. }
  all: unfold take_audio, audio_keys; cbn [foldl]; repeat case_bool_decide;
    unfold get at 1; by rewrite ?lookup_insert_eq, ?lookup_delete_eq, ?lookup_insert_ne, ?lookup_delete_ne, ?lookup_insert_eq, ?lookup_delete_eq by done.
Qed.

Lemma merge_needs_spec l options :
  let merged := merge_needs l options in
  soAudio merged = soAudio options || ssAudio (audio_session l) ∧
  (existsb keeps_active l = true → get (soValues merged) "keep_active" = "true") ∧
  (∀ key, key ≠ "keep_active" → key ∉ audio_keys → soValues merged !! key = soValues options !! key) ∧
  (soAudio options = true → ∀ key, key ≠ "keep_active" → soValues merged !! key = soValues options !! key) ∧
  (soAudio options = false → soAudio merged = true →
     ∀ key, key ∈ audio_keys → get (soValues merged) key = get (soValues (ssCapture (audio_session l))) key).
Proof.
  intros merged. unfold merge_needs in merged. set (o := if existsb keeps_active l then _ else _) in merged.
  assert (soAudio o = soAudio options) as Ha by (subst o; by case_match).
  assert (∀ key, key ≠ "keep_active" → soValues o !! key = soValues options !! key) as Hv.
  { intros key Hne. subst o. case_match; [|done]. cbn. by rewrite lookup_insert_ne. }
  assert (existsb keeps_active l = true → get (soValues o) "keep_active" = "true") as Hk.
  { intros E. subst o. rewrite E. unfold get. cbn. by rewrite lookup_insert_eq. }
  assert ("keep_active" ∉ audio_keys) as Hna by (by apply (bool_decide_unpack _)).
  subst merged. rewrite Ha. destruct (soAudio options) eqn:Eo; cbn [negb andb orb].
  - rewrite Ha. split_and!; auto; done.
  - destruct (ssAudio (audio_session l)); [|rewrite Ha; split_and!; auto; done].
    cbn [with_values with_audio soAudio soValues]. split_and!; try done.
    + intros E. unfold get. rewrite lookup_take_audio by done. by apply Hk.
    + intros key Hne Hn. rewrite lookup_take_audio by done. by apply Hv.
    + intros _ _ key Hin. by apply get_take_audio.
Qed.

(** Candidates that come before the answer are kept in order. *)
Lemma candidates_kept clientID add cs : ∀ m s p,
  mgSessions m !! clientID = Some s → ssPeer s = Some p → p ∉ mgRemote m →
  let m1 := foldl (λ m c, (addCandidate clientID (Ok c) add m).1.1) m cs in
  mgSessions m1 !! clientID = Some (with_pending (ssPending s ++ cs) s) ∧ mgRemote m1 = mgRemote m.
Proof.
  induction cs as [|c cs IH]; intros m s p Hs Hp Hr; cbn [foldl].
  - rewrite app_nil_r. split; [by destruct s|done].
  - assert ((addCandidate clientID (Ok c) add m).1.1 =
            with_sessions (<[clientID := with_pending (ssPending s ++ [c]) s]> (mgSessions m)) m) as ->.
    { unfold addCandidate. rewrite Hs, Hp. by destruct (decide (p ∈ mgRemote m)). }
    destruct (IH (with_sessions (<[clientID := with_pending (ssPending s ++ [c]) s]> (mgSessions m)) m)
                (with_pending (ssPending s ++ [c]) s) p) as [H1 H2]; [by cbn; rewrite lookup_insert_eq|done|done|].
    split; [|by rewrite H2]. rewrite H1. cbn. by rewrite <-app_assoc.
Qed.

Lemma add_all_Ok add p cs : (∀ c, add p c = Ok ()) → add_all add (Some p) cs = (map (OCandidate p) cs, Ok ()).
Proof. intros H. induction cs as [|c cs IH]; [done|]. cbn. by rewrite H, IH. Qed.

(** ** Properties *)


(** The encoder shared by the viewers is set to the bitrate of the slowest of them,
    which no viewer with video has a lower limit than, within 100 kb/s and 100 Mb/s; and
    once it is set it changes at most once a second and only by a tenth or more. *)
Theorem encoder_bitrate overflow bitrates numbers events now clientID peer bitrate :
  bitrates ≡ₚ bitrate_keys →
  let m := run overflow bitrates numbers events in
  let '(m', os) := updateBitrate now clientID peer bitrate m in
  os = [] ∨ ∃ b, os = [OInput (set_bitrate_event b)] ∧ mgCurrent m' = b ∧ 100000 ≤ b ≤ 100000000 ∧
    (∀ c s, mgSessions m' !! c = Some s → ssVideo s = true →
       b ≤ ssTarget s ∧ target_ok (ssBitrate s) (ssTarget s)) ∧
    (∃ c s, mgSessions m' !! c = Some s ∧ ssVideo s = true ∧ b = ssTarget s) ∧
    (0 < mgCurrent m → Second ≤ Sub now (mgLastBitrate m) ∧ Z.quot (mgCurrent m) 10 ≤ Z.abs (b - mgCurrent m)).
Proof.
  intros Hb m. pose proof (run_inv overflow bitrates numbers Hb events) as Hi. fold m in Hi.
  pose proof (updateBitrate_step now clientID peer bitrate m Hi) as S. revert S.
  destruct (updateBitrate now clientID peer bitrate m) as [m' os] eqn:E. cbn [fst]. intros [Hi' _ _].
  revert E. unfold updateBitrate. destruct (mgSessions m !! clientID) as [s|] eqn:Hs; [|intros [= _ <-]; by left].
  destruct (_ || _) eqn:Eg; [intros [= _ <-]; by left|]. apply orb_false_iff in Eg as [_ Ev%negb_false_iff].
  set (t := if brEnabled (ssBitrate s) then _ else _). cbn [mgSessions with_sessions mgCurrent mgLastBitrate].
  destruct (_ && _) eqn:Eq; intros [= Em <-]; [by left|right].
  assert (mgSessions m' = <[clientID := with_target t s]> (mgSessions m)) as Es by (by rewrite <-Em).
  rewrite <-Es in *. clear Hs. set (l := map_values (mgSessions m')) in *.
  destruct (slowest_spec l t) as (H1 & H2 & H3).
  { intros x [c Hc]%elem_of_map_values Hx. pose proof (inv_target _ _ _ Hi' Hc Hx). lia. }
  eexists. split; [reflexivity|]. split; [by rewrite <-Em|].
  assert (∃ c s, mgSessions m' !! c = Some s ∧ ssVideo s = true ∧ slowest t l = ssTarget s) as Hmin.
  { destruct H3 as [->|(x & [c Hc]%elem_of_map_values & Hx & ->)]; [|by exists c, x].
    exists clientID, (with_target t s). by rewrite Es, lookup_insert_eq. }
  split_and!.
  - destruct Hmin as (c & x & Hc & Hx & ->). by apply (inv_target _ _ _ Hi' Hc Hx).
  - destruct Hmin as (c & x & Hc & Hx & ->). by apply (inv_target _ _ _ Hi' Hc Hx).
  - intros c x Hc Hx. split; [|by eapply inv_target]. apply H2; [|done]. apply elem_of_map_values. by exists c.
  - done.
  - intros Hcur. rewrite (proj2 (Z.ltb_lt _ _) Hcur) in Eq. cbn [andb] in Eq. bool_to_prop. by split.
Qed.

(** The limit of a viewer is lost when it arrives within a second of the last change:
    the update is dropped, whatever the bitrate and the viewer, and is not tried again,
    so that a viewer with a fixed bitrate keeps receiving a stream above its limit. *)
Theorem bitrate_limit_missed now clientID peer bitrate m :
  0 < mgCurrent m → Sub now (mgLastBitrate m) < Second →
  (updateBitrate now clientID peer bitrate m).2 = [] ∧
  mgCurrent (updateBitrate now clientID peer bitrate m).1 = mgCurrent m.
Proof.
  intros Hc Hn. unfold updateBitrate. destruct (mgSessions m !! clientID) as [s|]; [|done].
  destruct (_ || _); [done|]. cbn [with_sessions mgCurrent mgLastBitrate].
  rewrite (proj2 (Z.ltb_lt _ _) Hc), (proj2 (Z.ltb_lt _ _) Hn), orb_true_r. done.
Qed.

(** The options of the shared capture do not depend on the order in which the
    sessions are visited: they are those of the viewer that connected last, and merging
    another viewer's options keeps the audio and the activity refresh that any viewer
    asked for, with the audio source of the one that connected last. *)
Theorem capture_needs overflow bitrates numbers events options l :
  bitrates ≡ₚ bitrate_keys →
  let m := run overflow bitrates numbers events in
  l ≡ₚ map_values (mgSessions m) →
  LatestVideoOptions m = (ssCapture (latest l), ssVideo (latest l)) ∧
  mergeCaptureNeeds m options = merge_needs l options ∧
  (∀ s, s ∈ l → ssVideo s = true → (LatestVideoOptions m).2 = true ∧ ssOrder s ≤ ssOrder (latest l)) ∧
  let merged := mergeCaptureNeeds m options in
  (soAudio merged = true ↔ soAudio options = true ∨ ∃ s, s ∈ l ∧ ssVideo s = true ∧ ssAudio s = true) ∧
  (∀ s, s ∈ l → keeps_active s = true → get (soValues merged) "keep_active" = "true") ∧
  (∀ key, key ∉ ["keep_active"; "audio_source"; "audio_dup"] → soValues merged !! key = soValues options !! key) ∧
  (soAudio options = true → ∀ key, key ≠ "keep_active" → soValues merged !! key = soValues options !! key) ∧
  (soAudio options = false → soAudio merged = true →
     ∀ key, key ∈ audio_keys → get (soValues merged) key = get (soValues (ssCapture (audio_session l))) key).
Proof.
  intros Hb m Hl. pose proof (run_inv overflow bitrates numbers Hb events) as Hi. fold m in Hi.
  assert (∀ p, (∀ s, p s = true → ssVideo s = true) → ∀ s1 s2, s1 ∈ map_values (mgSessions m) → s2 ∈ map_values (mgSessions m) →
    p s1 = true → p s2 = true → 0 < ssOrder s1 ∧ (ssOrder s1 = ssOrder s2 → s1 = s2)) as Hd.
  { intros p Hp s1 s2 H1 H2 V1%Hp V2%Hp. by apply (inv_orders m). }
  assert (latest (map_values (mgSessions m)) = latest l) as Elat.
  { apply (choose_perm ssVideo); [by symmetry|]. by apply Hd. }
  assert (audio_session (map_values (mgSessions m)) = audio_session l) as Eaud.
  { apply (choose_perm (λ s, ssVideo s && ssAudio s)); [by symmetry|]. apply Hd. by intros s [? _]%andb_true_iff. }
  assert (mergeCaptureNeeds m options = merge_needs l options) as Em.
  { unfold mergeCaptureNeeds, merge_needs. by rewrite Eaud, (existsb_perm _ _ _ Hl). }
  assert (∀ s, s ∈ l ↔ s ∈ map_values (mgSessions m)) as Hin by (intros s; by rewrite Hl).
  unfold LatestVideoOptions. rewrite Elat, Em. destruct (merge_needs_spec l options) as (M1 & M2 & M3 & M4 & M5).
  split; [done|]. split; [done|]. split_and!.
  - intros s Hs Hv. destruct (choose_spec ssVideo l) as [[_ E]|(I1 & P1 & M)].
    + intros s' Hs'%Hin Hp. by apply (Hd ssVideo (λ _ E, E) s' s').
    + rewrite E in Hv; done.
    + split; [done|]. by apply M.
  - rewrite M1, orb_true_iff. destruct (choose_spec (λ s, ssVideo s && ssAudio s) l) as [[E N]|(I1 & P1 & M)].
    + intros s' Hs'%Hin Hp. apply (Hd (λ s, ssVideo s && ssAudio s)) with s'; [|done..]. by intros s [? _]%andb_true_iff.
    + change (audio_session l = no_session) in E. rewrite E. split; [intros [?|?]; [by left|done]|].
      intros [?|(s & Hs & V & A)]; [by left|]. specialize (N s Hs). cbn in N. rewrite V, A in N. done.
    + change (choose _ l) with (audio_session l) in *. apply andb_true_iff in P1 as [P1 P2]. rewrite P2.
      split; [intros _; right; by exists (audio_session l)|by right].
  - intros s Hs Hk. apply M2, existsb_exists. exists s. split; [by apply list_elem_of_In|done].
  - intros key [Hne Hn]%not_elem_of_cons. by apply M3.
  - done.
  - done.
Qed.

(** No candidate is lost around the answer: those that come before it are kept, and
    all of them are given to the peer, in their order, when its description is set;
    later ones are given at once. *)
Theorem candidates_in_order clientID sdp add cs m s p :
  mgSessions m !! clientID = Some s → ssPeer s = Some p → ssPending s = [] → p ∉ mgRemote m → sdp ≠ "" →
  (∀ c, add p c = Ok ()) →
  let m1 := foldl (λ m c, (addCandidate clientID (Ok c) add m).1.1) m cs in
  ∃ m2, setAnswer clientID sdp (Ok ()) add m1 = (m2, map (OCandidate p) cs, Ok ()) ∧
    mgSessions m2 !! clientID = Some s ∧
    ∀ c, addCandidate clientID (Ok c) add m2 = (m2, [OCandidate p c], Ok ()).
Proof.
  intros Hs Hp He Hr Hsdp Hadd m1. destruct (candidates_kept clientID add cs m s p Hs Hp Hr) as [H1 H2]. fold m1 in H1, H2.
  rewrite He in H1. cbn [app] in H1. unfold setAnswer, setAnswer_lookup. rewrite bool_decide_false, H1 by done. cbn [fmap option_fmap option_map].
  cbn [ssPeer with_pending]. rewrite Hp. unfold setAnswer_finish. cbn [mgSessions with_remote]. rewrite H1. cbn [default from_option id].
  cbn [ssPeer ssPending with_pending]. rewrite Hp, add_all_Ok by done. eexists. split; [reflexivity|].
  assert (with_pending [] (with_pending cs s) = s) as -> by (destruct s; cbn in *; by rewrite He).
  cbn [mgSessions with_sessions]. rewrite lookup_insert_eq. split; [done|]. intros c.
  unfold addCandidate. cbn [mgSessions with_sessions mgRemote with_remote]. rewrite lookup_insert_eq, Hp.
  rewrite decide_True by set_solver. by rewrite Hadd.
Qed.

(** An answer whose connection goes down while its description is being set brings
    the removed session back as a zero session: the client can make no further offer,
    and its next candidate, or its departure, calls a method of a nil peer. *)
Theorem answer_race overflow bitrates numbers clientID sdp peer add m s :
  mgSessions m !! clientID = Some s → ssPeer s = Some peer → sdp ≠ "" →
  setAnswer_lookup clientID sdp m = Some (Some peer) ∧
  let m1 := (removeSession clientID peer m).1 in
  let m2 := (setAnswer_finish clientID peer (Ok ()) add m1).1.1 in
  mgSessions m1 !! clientID = None ∧ mgSessions m2 !! clientID = Some no_session ∧
  (∀ permissions payload pion written,
     createOffer overflow bitrates numbers clientID permissions payload pion written m2 = (m2, [], Ok ())) ∧
  (∀ c, (addCandidate clientID (Ok c) add m2).1.2 = [OPanic]) ∧ (CloseSession clientID m2).2 = [OPanic].
Proof.
  intros Hs Hp Hsdp. split.
  - unfold setAnswer_lookup. rewrite bool_decide_false, Hs by done. cbn. by rewrite Hp.
  - intros m1 m2. assert (mgSessions m1 !! clientID = None) as H1.
    { unfold m1, removeSession. rewrite Hs, decide_True by done. cbn. apply lookup_delete_eq. }
    assert (mgSessions m2 !! clientID = Some no_session) as H2.
    { unfold m2, setAnswer_finish. cbn [mgSessions with_remote]. rewrite H1. cbn. by rewrite lookup_insert_eq. }
    split_and!; [done|done|..].
    + intros. unfold createOffer. by rewrite H2.
    + intros c. unfold addCandidate. by rewrite H2.
    + unfold CloseSession. by rewrite H2.
Qed.

(** ** Witnesses *)

Module WebRTCWitness.
Definition offer (client : string) (bitrate : Z) : gmap string value :=
  {[ "client_id" := VStr client; "permissions" := VMap {[ "control" := VBool true ]};
     "payload" := VMap {[ "type" := VStr "request-offer";
                          "scrcpy_options" := VMap {[ "bitrate" := VInt bitrate; "audio" := VBool true ]} ]} ]}.
Definition pion : pion_answers := MkPion (Ok "v=0") (Ok ()) (Ok ()) (λ _, Ok "candidate") (λ _ _, Ok ()).
Definition events : list event :=
  [EvForward (offer "fast" 20000000) pion; EvState (10 * Second) 0 StateConnected;
   EvForward (offer "slow" 1000000) pion].
Definition m : webRTCManager := run 0 bitrate_keys numeric events.
Definition v0 : viewer := MkViewer "fast" true true false 20000000.


Definition up : webRTCManager * list output := updateBitrate (12 * Second) "slow" 1 1000000 m.
Lemma encoder_bitrate_witness :
  up.2 = [] ∨ ∃ b, up.2 = [OInput (set_bitrate_event b)] ∧ mgCurrent up.1 = b.
Proof.
  generalize (encoder_bitrate 0 bitrate_keys numeric events (12 * Second) "slow" 1 1000000 (Permutation_refl _)).
  cbv zeta. fold m. unfold up. destruct (updateBitrate (12 * Second) "slow" 1 1000000 m) as [m' os].
  intros [H|(b & H1 & H2 & _)]; [by left|right]. by exists b.
Defined.

(** A viewer limited to 1 Mb/s connects half a second after one at 20 Mb/s. *)
Lemma bitrate_limit_missed_witness :
  ssTarget (default no_session (mgSessions m !! "slow")) = 1000000 ∧
  mgCurrent (updateBitrate (10 * Second + 500000000) "slow" 1 1000000 m).1 = 20000000.
Proof.
  split; [by vm_compute|].
  refine (eq_trans (proj2 (bitrate_limit_missed (10 * Second + 500000000) "slow" 1 1000000 m _ _)) _); by vm_compute.
Defined.

Lemma capture_needs_witness :
  soAudio (mergeCaptureNeeds m no_options) = true.
Proof.
  refine (proj2 (proj1 (proj2 (proj2 (proj2 (capture_needs 0 bitrate_keys numeric events no_options
    (map_values (mgSessions m)) (Permutation_refl _) (Permutation_refl _)))))) _).
  right. exists (default no_session (mgSessions m !! "slow")). split; [|split; by vm_compute].
  apply elem_of_map_values. exists "slow". by vm_compute.
Defined.

Definition slow : webRTCSession := default no_session (mgSessions m !! "slow").
Lemma slow_lookup : mgSessions m !! "slow" = Some slow.
Proof. by vm_compute. Qed.
Lemma slow_peer : ssPeer slow = Some 1%nat.
Proof. by vm_compute. Qed.

Lemma candidates_in_order_witness :
  ∃ m2, setAnswer "slow" "v=0" (Ok ()) (λ _ _, Ok ())
    (foldl (λ m c, (addCandidate "slow" (Ok c) (λ _ _, Ok ()) m).1.1) m ["a"; "b"]) =
    (m2, [OCandidate 1 "a"; OCandidate 1 "b"], Ok ()).
Proof.
  destruct (candidates_in_order "slow" "v=0" (λ _ _, Ok ()) ["a"; "b"] m slow 1 slow_lookup slow_peer)
    as (m2 & H & _); [by vm_compute|by apply (bool_decide_unpack _); vm_compute|done|done|].
  exists m2. exact H.
Defined.

Lemma answer_race_witness :
  mgSessions (setAnswer_finish "slow" 1 (Ok ()) (λ _ _, Ok ()) (removeSession "slow" 1 m).1).1.1 !! "slow" = Some no_session.
Proof.
  refine (proj1 (proj2 (proj2 (answer_race 0 bitrate_keys numeric "slow" "v=0" 1 (λ _ _, Ok ()) m slow slow_lookup slow_peer _)))).
  done.
Defined.
End WebRTCWitness.
