(* ===== verification/Media.v ===== *)
(** * Capture processes and sources of an agent (agent/internal/agent/scrcpy.go, media.go)

    A bridge owns at most one scrcpy process; a media manager shares the display and the
    camera between WebRTC viewers, the preview and the audio listeners.  Starting and
    stopping a process, the codec it reports, and the WebRTC module are arguments. *)

From S2P Require Import Prelude GoBase GoStrings GoFloat Model Control Scrcpy MediaOptions WebRTC.

(** ** The bridge (scrcpy.go) *)

(** [bgProcess]: the process, as the options it was launched with; [bgControl]: whether the
    control connection is attached; [bgQueue] is the channel of control events,
    [bgCodec] the profile read from the stream, [bgError] the failure of the last
    capture. *)
Record bridge := MkBridge {
  bgProcess : option streamOptions;
  bgOptions : streamOptions;
  bgControl : bool;
  bgQueue : list (gmap string value);
  bgWidth : Z;
  bgHeight : Z;
  bgCodec : string;
  bgError : option error;
}.

Definition bgRunning (b : bridge) : bool := match bgProcess b with Some _ => true | None => false end.

Definition newScrcpyBridge : bridge := MkBridge None no_options false [] 0 0 "" None.

Inductive call :=
| CStop
| CScreenOn
| CLaunch (options : streamOptions)
| CPublishError (text : string)
| CRTC (o : output)
| CWrite (kind clientID : string).

(** What starting and stopping a process answer; [ad_adb]: whether the device is reached
    through ADB. *)
Record device_answers := MkAnswers {
  ad_adb : bool;
  ad_stop : result ();
  ad_launch : streamOptions → result ();
  ad_codec : result string;
  ad_track : result ();
  ad_sdk : Z;
}.

Section bridge.
Context (ad : device_answers).

Definition startLocked (options : streamOptions) (b : bridge) : bridge * list call * result () :=
  match ad_launch ad options with
  | Err e => (b, [CLaunch options], Err e)
  | Ok _ => (MkBridge (Some options) options (bgControl b) (bgQueue b) (bgWidth b) (bgHeight b) "" None, [CLaunch options], Ok ())
  end.

Definition stopLocked (b : bridge) : bridge * list call * result () :=
  let screen := if bgControl b && negb (ad_adb ad) && soPowerOff (bgOptions b) &&
                   negb (bool_decide (soSource (bgOptions b) = "camera")) then [CScreenOn] else [] in
  (MkBridge None (bgOptions b) false (bgQueue b) (bgWidth b) (bgHeight b) (bgCodec b) (bgError b),
   screen ++ (if bgRunning b then [CStop] else []), if bgRunning b then ad_stop ad else Ok ()).

(** [strings.Join(options.arguments(), " ")]. *)
Definition joined (options : streamOptions) : string := String.concat " " (arguments options).

Definition Start (options : streamOptions) (b : bridge) : bridge * list call * result () :=
  if bgRunning b then
    if soPreview options && negb (soReconfigure options) then (b, [], Ok ())
    else if bool_decide (soPowerOff options = soPowerOff (bgOptions b)) &&
            bool_decide (soDebug options = soDebug (bgOptions b)) &&
            bool_decide (joined options = joined (bgOptions b))
    then (MkBridge (bgProcess b) options (bgControl b) (bgQueue b) (bgWidth b) (bgHeight b) (bgCodec b) (bgError b), [], Ok ())
    else match stopLocked b with
         | (b, c, Err e) => (b, c, Err e)
         | (b, c, Ok _) => let '(b, c', r) := startLocked options b in (b, c ++ c', r)
         end
  else startLocked options b.

Definition Stop (b : bridge) : bridge * list call * result () := stopLocked b.

Definition currentOptions (b : bridge) : streamOptions := if bgRunning b then bgOptions b else no_options.

(** [same]: whether the process that failed is still the one of the bridge. *)
Definition captureFailed (same stopped : bool) (e : error) (b : bridge) : bridge * list call :=
  if negb same then (b, [])
  else
    let b := MkBridge (bgProcess b) (bgOptions b) (bgControl b) (bgQueue b) (bgWidth b) (bgHeight b) (bgCodec b) (Some e) in
    let '(b, c, _) := stopLocked b in
    (b, c ++ [CPublishError ("scrcpy " +:+ soSource (bgOptions b) +:+ " capture " +:+
                             (if stopped then "stopped" else "failed"))]).

(** A packet of the video stream: the codec configuration kept so far, what becomes of
    the bridge, and the packet to publish. *)
Definition on_packet (same : bool) (packet : mediaPacket) (config : bytes) (b : bridge) : bytes * bridge * option mediaPacket :=
  if pktConfig packet then
    (pktData packet,
     if same then MkBridge (bgProcess b) (bgOptions b) (bgControl b) (bgQueue b) (bgWidth b) (bgHeight b)
                    (h264ProfileLevel (pktData packet)) (bgError b) else b, None)
  else if pktSession packet then
    (config, MkBridge (bgProcess b) (bgOptions b) (bgControl b) (bgQueue b) (pktWidth packet) (pktHeight packet) (bgCodec b) (bgError b), None)
  else
    let data := if pktKeyFrame packet && negb (bool_decide (config = [])) &&
                   negb (bool_decide (take (length config) (pktData packet) = config))
                then config ++ pktData packet else pktData packet in
    (config, b, Some {| pktPTS := pktPTS packet; pktKeyFrame := pktKeyFrame packet; pktConfig := false; pktSession := false;
                        pktWidth := pktWidth packet; pktHeight := pktHeight packet;
                        pktClientResized := pktClientResized packet; pktData := data |}).
End bridge.

(** *** Control events *)

Definition queue_capacity : nat := 256.

Section control.
(** [uint32] of a float outside its range, which the language leaves open. *)
Context (overflow : Z) (overflow32 : float64 → Z).

Definition float_to_uint32 (f : float64) : Z :=
  if negb (IsNaN f) && negb (IsInf f) && (0 <=? int_part f) && (int_part f <? 2 ^ 32) then int_part f else overflow32 f.

Definition rescale (v width w : Z) : float64 :=
  float_of_Z (float_to_uint32 (fdiv (fmul (float_of_Z v) (float_of_Z width)) (float_of_Z w))).

Definition remapControlPosition (event : gmap string value) (width height : Z) : gmap string value :=
  if bool_decide (stringField event "type" ∈ ["touch"; "scroll"; "inject_scroll"]) then
    match positionFromEvent overflow event with
    | Err _ => event
    | Ok (x, y, w, h) =>
        if (w =? 0) || (h =? 0) then event
        else <["h" := VNum (float_of_Z height)]> (<["w" := VNum (float_of_Z width)]>
               (<["y" := VNum (rescale y height h)]> (<["x" := VNum (rescale x width w)]> event)))
    end
  else event.

Definition EnqueueControl (message : gmap string value) (b : bridge) : bridge * result () :=
  let message := if (0 <? bgWidth b) && (0 <? bgHeight b)
                 then remapControlPosition message (bgWidth b) (bgHeight b) else message in
  if (length (bgQueue b) <? queue_capacity)%nat
  then (MkBridge (bgProcess b) (bgOptions b) (bgControl b) (bgQueue b ++ [message]) (bgWidth b) (bgHeight b) (bgCodec b) (bgError b), Ok ())
  else (b, Err (ErrMsg "control queue is full")).
End control.

(** Messages of the device: the clipboard is published, others are skipped. *)
Definition device_message_limit : Z := Z.shiftl 1 18 - 5.
Definition readDeviceMessage (stream : bytes) : result (option bytes) * bytes :=
  match ReadFull 1 stream with
  | (Err e, rest) => (Err e, rest)
  | (Ok kind, rest) =>
      match byte_val (nth 0 kind "000"%char) with
      | 0 =>
          match ReadFull 4 rest with
          | (Err e, rest) => (Err e, rest)
          | (Ok size, rest) =>
              if device_message_limit <? be_get size then (Err (ErrMsg "clipboard message is too large"), rest)
              else match ReadFull (Z.to_nat (be_get size)) rest with
                   | (Err e, rest) => (Err e, rest)
                   | (Ok contents, rest) => (Ok (Some contents), rest)
                   end
          end
      | 1 => match ReadFull 8 rest with (Err e, rest) => (Err e, rest) | (Ok _, rest) => (Ok None, rest) end
      | 2 =>
          match ReadFull 4 rest with
          | (Err e, rest) => (Err e, rest)
          | (Ok header, rest) =>
              match ReadFull (Z.to_nat (be_get (drop 2 header))) rest with
              | (Err e, rest) => (Err e, rest)
              | (Ok _, rest) => (Ok None, rest)
              end
          end
      | _ => (Err (ErrMsg "unknown scrcpy device message"), rest)
      end
  end.

(** ** The media manager (media.go) *)

(** [previewOptions] and [wsAudioOptions] are nil when absent. *)
Record mediaManager := MkMedia {
  mdClosed : bool;
  mdPreview : option streamOptions;
  mdDisplay : webRTCManager;
  mdCamera : webRTCManager;
  mdDisplayBridge : bridge;
  mdCameraBridge : bridge;
  mdAudio : bool;
  mdAudioOptions : gmap string string;
}.

Definition newMediaManager : mediaManager :=
  MkMedia false None newWebRTCManager newWebRTCManager newScrcpyBridge newScrcpyBridge false ∅.

Definition set_preview (o : option streamOptions) (m : mediaManager) : mediaManager :=
  MkMedia (mdClosed m) o (mdDisplay m) (mdCamera m) (mdDisplayBridge m) (mdCameraBridge m) (mdAudio m) (mdAudioOptions m).
Definition set_display (r : webRTCManager) (m : mediaManager) : mediaManager :=
  MkMedia (mdClosed m) (mdPreview m) r (mdCamera m) (mdDisplayBridge m) (mdCameraBridge m) (mdAudio m) (mdAudioOptions m).
Definition set_camera (r : webRTCManager) (m : mediaManager) : mediaManager :=
  MkMedia (mdClosed m) (mdPreview m) (mdDisplay m) r (mdDisplayBridge m) (mdCameraBridge m) (mdAudio m) (mdAudioOptions m).
Definition set_display_bridge (b : bridge) (m : mediaManager) : mediaManager :=
  MkMedia (mdClosed m) (mdPreview m) (mdDisplay m) (mdCamera m) b (mdCameraBridge m) (mdAudio m) (mdAudioOptions m).
Definition set_camera_bridge (b : bridge) (m : mediaManager) : mediaManager :=
  MkMedia (mdClosed m) (mdPreview m) (mdDisplay m) (mdCamera m) (mdDisplayBridge m) b (mdAudio m) (mdAudioOptions m).
Definition set_audio (active : bool) (vs : gmap string string) (m : mediaManager) : mediaManager :=
  MkMedia (mdClosed m) (mdPreview m) (mdDisplay m) (mdCamera m) (mdDisplayBridge m) (mdCameraBridge m) active vs.

Definition SetICEServers (servers : option (list string)) (m : mediaManager) : mediaManager :=
  set_camera (WebRTC.SetICEServers servers (mdCamera m)) (set_display (WebRTC.SetICEServers servers (mdDisplay m)) m).

Definition HasSessions (m : mediaManager) : bool := WebRTC.HasSessions (mdDisplay m) || WebRTC.HasSessions (mdCamera m).

Definition displayOptions (m : mediaManager) (options : streamOptions) : streamOptions :=
  let options := mergeCaptureNeeds (mdDisplay m) options in
  let options := match mdPreview m with
                 | Some p => if bool_decide (get (soValues p) "keep_active" = "true")
                             then with_values (<["keep_active" := "true"]> (soValues options)) options else options
                 | None => options
                 end in
  if mdAudio m && negb (soAudio options)
  then with_values (take_audio (mdAudioOptions m) (soValues options)) (with_audio true options)
  else options.

Section media.
Context (overflow : Z) (bitrates : list string) (numbers : list (string * Z)).
Context (ad : device_answers).

Definition start_display (options : streamOptions) (m : mediaManager) : mediaManager * list call * result () :=
  let '(b, c, r) := Start ad options (mdDisplayBridge m) in (set_display_bridge b m, c, r).
Definition start_camera (options : streamOptions) (m : mediaManager) : mediaManager * list call * result () :=
  let '(b, c, r) := Start ad options (mdCameraBridge m) in (set_camera_bridge b m, c, r).
Definition stop_display (m : mediaManager) : mediaManager * list call * result () :=
  let '(b, c, r) := Stop ad (mdDisplayBridge m) in (set_display_bridge b m, c, r).
Definition stop_camera (m : mediaManager) : mediaManager * list call * result () :=
  let '(b, c, r) := Stop ad (mdCameraBridge m) in (set_camera_bridge b m, c, r).

(** [parseStreamOptions(map[string]any{"audio": true, "stay_awake": false}, true)]; its
    error is dropped. *)
Definition audio_only : streamOptions :=
  from_ok no_options (parseStreamOptions overflow bitrates numbers
    {[ "audio" := VBool true; "stay_awake" := VBool false ]} true).

Definition reconcileDisplay (m : mediaManager) : mediaManager * list call * result () :=
  let '(options, connected) := LatestVideoOptions (mdDisplay m) in
  if connected then start_display (displayOptions m options) m
  else match mdPreview m with
       | Some options => start_display (displayOptions m options) m
       | None => if mdAudio m then start_display (displayOptions m audio_only) m else stop_display m
       end.

(** [cancelled]: the error of the manager's context. *)
Definition StopIdle (cancelled : bool) (m : mediaManager) : mediaManager * list call :=
  if mdClosed m || cancelled then (m, [])
  else
    let '(m, c1, _) := reconcileDisplay m in
    let '(options, connected) := LatestVideoOptions (mdCamera m) in
    let '(m, c2, _) := if connected then start_camera (mergeCaptureNeeds (mdCamera m) options) m else stop_camera m in
    (m, c1 ++ c2).

Definition StartPreview (options : streamOptions) (m : mediaManager) : mediaManager * list call * result () :=
  reconcileDisplay (set_preview (Some options) m).
Definition StopPreview (m : mediaManager) : mediaManager * list call * result () :=
  reconcileDisplay (set_preview None m).

Definition audio_too_old : bool := (0 <? ad_sdk ad) && (ad_sdk ad <? 30).

Definition StartAudio (raw : gmap string value) (m : mediaManager) : mediaManager * list call * result () :=
  match parseStreamOptions overflow bitrates numbers raw true with
  | Err e => (m, [], Err e)
  | Ok requested =>
      if audio_too_old then (m, [], Err (ErrMsg "audio capture requires Android 11 or newer"))
      else
        let options := currentOptions (mdDisplayBridge m) in
        let options := if bool_decide (soSource options = "") then requested else options in
        let options := {| soReconfigure := true; soPreview := soPreview options; soPowerOff := soPowerOff options;
                          soDebug := soDebug options; soBitrate := soBitrate options; soAudio := true;
                          soSource := soSource options; soValues := take_audio (soValues requested) (soValues options) |} in
        match start_display options m with
        | (m, c, Err e) => (m, c, Err e)
        | (m, c, Ok _) => (set_audio true (soValues requested) m, c, Ok ())
        end
  end.

Definition StopAudio (m : mediaManager) : mediaManager * list call * result () :=
  reconcileDisplay (set_audio false ∅ m).

Definition CloseSession (clientID : string) (m : mediaManager) : mediaManager * list call :=
  let '(d, c1) := WebRTC.CloseSession clientID (mdDisplay m) in
  let '(k, c2) := WebRTC.CloseSession clientID (mdCamera m) in
  (set_camera k (set_display d m), map CRTC (c1 ++ c2)).

Definition Close (m : mediaManager) : mediaManager * list call :=
  let '(d, c1) := WebRTC.Close (mdDisplay m) in
  let '(k, c2) := WebRTC.Close (mdCamera m) in
  (MkMedia true (mdPreview m) d k (mdDisplayBridge m) (mdCameraBridge m) (mdAudio m) (mdAudioOptions m), map CRTC (c1 ++ c2)).

(** [rtc.HandleForward] of one of the two managers. *)
Definition forward (camera : bool) (message : gmap string value) (pa : pion_answers) (m : mediaManager)
    : mediaManager * list call * result () :=
  let '(r, o, e) := WebRTC.HandleForward overflow bitrates numbers message pa (if camera then mdCamera m else mdDisplay m) in
  ((if camera then set_camera r m else set_display r m), map CRTC o, e).

(** Making the capture fit a new viewer with video, before its offer. *)
Definition prepare (camera : bool) (options : streamOptions) (m : mediaManager) : mediaManager * list call * result () :=
  let b := if camera then mdCameraBridge m else mdDisplayBridge m in
  let rtc := if camera then mdCamera m else mdDisplay m in
  let start := if camera then start_camera else start_display in
  let previous := currentOptions b in
  let active := (LatestVideoOptions rtc).2 in
  if active && negb (bool_decide (get (soValues previous) "video_codec_options" = get (soValues options) "video_codec_options"))
  then (m, [], Err (ErrMsg "encoder options changed; reconnect the existing viewers first"))
  else match start options m with
       | (m, c, Err e) => (m, c, Err e)
       | (m, c, Ok _) =>
           match ad_codec ad with
           | Err e => (m, c, Err e)
           | Ok profile =>
               match SetVideoCodec profile (ad_track ad) rtc with
               | (_, Err e) =>
                   if active then let '(m, c', _) := start previous m in (m, c ++ c', Err e) else (m, c, Err e)
               | (rtc, Ok _) => ((if camera then set_camera rtc m else set_display rtc m), c, Ok ())
               end
           end
       end.

Definition HandleForward (message : gmap string value) (pa : pion_answers) (m : mediaManager)
    : mediaManager * list call * result () :=
  let clientID := stringField message "client_id" in
  let payload := default ∅ (mapField message "payload") in
  if negb (bool_decide (stringField payload "type" = "request-offer"))
  then forward (HasClient clientID (mdCamera m)) message pa m
  else
    let raw := default ∅ (mapField payload "scrcpy_options") in
    match parseStreamOptions overflow bitrates numbers raw false with
    | Err e => (m, [], Err e)
    | Ok options =>
        let camera := bool_decide (soSource options = "camera") in
        if camera && (0 <? ad_sdk ad) && (ad_sdk ad <? 31)
        then (m, [], Err (ErrMsg "camera capture requires Android 12 or newer"))
        else if soAudio options && audio_too_old
        then (m, [], Err (ErrMsg "audio capture requires Android 11 or newer"))
        else
          let rtc := if camera then mdCamera m else mdDisplay m in
          if HasClient clientID rtc then forward camera message pa m
          else
            let options := if camera then mergeCaptureNeeds (mdCamera m) options else displayOptions m options in
            if eq_false (raw !! "video") then forward camera message pa m
            else match prepare camera options m with
                 | (m, c, Err e) => (m, c, Err e)
                 | (m, c, Ok _) => let '(m, c', r) := forward camera message pa m in (m, c ++ c', r)
                 end
    end.
End media.

(** ** Lemmas: the bridge *)

(** The process runs with what the bridge says it does. *)
Definition same_capture (o o' : streamOptions) : Prop :=
  soPowerOff o = soPowerOff o' ∧ soDebug o = soDebug o' ∧ joined o = joined o'.
Definition bridge_wf (b : bridge) : Prop := ∀ o, bgProcess b = Some o → same_capture o (bgOptions b).

Lemma same_capture_refl o : same_capture o o.
Proof. by split_and!. Qed.
#[export] Hint Resolve same_capture_refl : go.

Lemma same_capture_trans o1 o2 o3 : same_capture o1 o2 → same_capture o2 o3 → same_capture o1 o3.
Proof. intros (? & ? & ?) (? & ? & ?). split_and!; congruence. Qed.

Lemma stopLocked_wf ad b : bridge_wf (stopLocked ad b).1.1.
Proof. by intros o. Qed.

Lemma startLocked_wf ad options b : bridge_wf b → bridge_wf (startLocked ad options b).1.1.
Proof. intros Hw. unfold startLocked. case_match; [|exact Hw]. intros o [= <-]. apply same_capture_refl. Qed.

Lemma Start_wf ad options b : bridge_wf b → bridge_wf (Start ad options b).1.1.
Proof.
  intros Hw. unfold Start. destruct (bgRunning b); [|by apply startLocked_wf].
  destruct (soPreview options && _); [exact Hw|]. destruct (bool_decide _ && _ && _) eqn:E.
  - intros o Ho. cbn in Ho |- *. bool_to_prop. eapply same_capture_trans; [by apply Hw|]. cbn. split_and!; congruence.
  - destruct (stopLocked ad b) as [[b1 c] r] eqn:Es. assert (bridge_wf b1) as H1.
    { replace b1 with (stopLocked ad b).1.1 by (by rewrite Es). apply stopLocked_wf. }
    destruct r as [u|e]; [|exact H1].
    destruct (startLocked ad options b1) as [[b2 c'] r'] eqn:E2. cbn.
    replace b2 with (startLocked ad options b1).1.1 by (by rewrite E2). by apply startLocked_wf.
Qed.

(** A device on which processes start and stop. *)
Definition works (ad : device_answers) : Prop := ad_stop ad = Ok () ∧ ∀ o, ad_launch ad o = Ok ().

Lemma Start_works ad options b : works ad → bridge_wf b → soReconfigure options = true →
  (Start ad options b).2 = Ok () ∧ bgOptions (Start ad options b).1.1 = options ∧
  ∃ o, bgProcess (Start ad options b).1.1 = Some o ∧ same_capture o options.
Proof.
  intros [Hs Hl] Hw Hr. unfold Start. destruct (bgRunning b) eqn:Er.
  - rewrite Hr, andb_false_r. destruct (_ && _ && _) eqn:E.
    + cbn. unfold bgRunning in Er. destruct (bgProcess b) as [o|] eqn:Ep; [|done].
      split_and!; [done|done|]. exists o. split; [done|]. bool_to_prop.
      eapply same_capture_trans; [by apply Hw|]. cbn. split_and!; congruence.
    + unfold stopLocked. rewrite Er, Hs. unfold startLocked. rewrite Hl. cbn. split_and!; [done|done|]. exists options. auto with go.
  - unfold startLocked. rewrite Hl. cbn. split_and!; [done|done|]. exists options. auto with go.
Qed.

Lemma Stop_works ad b : works ad → (Stop ad b).2 = Ok () ∧ bgProcess (Stop ad b).1.1 = None.
Proof. intros [Hs _]. unfold Stop, stopLocked. cbn. by destruct (bgRunning b). Qed.

Lemma merge_needs_reconfigure l o : soReconfigure (merge_needs l o) = soReconfigure o.
Proof. unfold merge_needs. by repeat case_match. Qed.

Lemma displayOptions_reconfigure m o : soReconfigure (displayOptions m o) = soReconfigure o.
Proof. unfold displayOptions, mergeCaptureNeeds. repeat case_match; cbn; by rewrite merge_needs_reconfigure. Qed.

(** The options of the last viewer are those of a parsed request. *)
Lemma latest_reconfigure m : mg_inv m → (LatestVideoOptions m).2 = true → soReconfigure (LatestVideoOptions m).1 = true.
Proof.
  intros Hi. unfold LatestVideoOptions. cbn. destruct (choose_spec ssVideo (map_values (mgSessions m))) as [[E _]|(Hin & Hv & _)].
  - intros s Hs Hv. by apply (inv_orders m s s).
  - change (latest (map_values (mgSessions m)) = no_session) in E. by rewrite E.
  - intros _. apply elem_of_map_values in Hin as [c Hc].
    destruct (mi_session _ Hi _ _ Hc) as [E|(p & v & [])]; [rewrite E in Hv; done|done].
Qed.

(** ** Runs of the media manager

    What its locked operations and the callbacks of the two WebRTC managers do, in any
    order; the answers of the device may differ from one event to the next. *)
Inductive media_event :=
| MdForward (message : gmap string value) (pa : pion_answers)
| MdPreview (raw : gmap string value)
| MdStopPreview
| MdAudio (raw : gmap string value)
| MdStopAudio
| MdIdle (cancelled : bool)
| MdClose (clientID : string)
| MdCloseAll
| MdCallback (camera : bool) (e : event)
| MdFailed (camera same stopped : bool) (e : error).

Section runs.
Context (overflow : Z) (bitrates : list string) (numbers : list (string * Z)).

Definition media_apply (ad : device_answers) (e : media_event) (m : mediaManager) : mediaManager * list call :=
  match e with
  | MdForward message pa => (HandleForward overflow bitrates numbers ad message pa m).1
  | MdPreview raw =>
      match parseStreamOptions overflow bitrates numbers raw true with
      | Ok options => (StartPreview overflow bitrates numbers ad options m).1
      | Err _ => (m, [])
      end
  | MdStopPreview => (StopPreview overflow bitrates numbers ad m).1
  | MdAudio raw => (StartAudio overflow bitrates numbers ad raw m).1
  | MdStopAudio => (StopAudio overflow bitrates numbers ad m).1
  | MdIdle cancelled => StopIdle overflow bitrates numbers ad cancelled m
  | MdClose clientID => CloseSession clientID m
  | MdCloseAll => Close m
  | MdCallback camera e =>
      let '(r, o) := apply overflow bitrates numbers e (if camera then mdCamera m else mdDisplay m) in
      (if camera then set_camera r m else set_display r m, map CRTC o)
  | MdFailed camera same stopped e =>
      let '(b, c) := captureFailed ad same stopped e (if camera then mdCameraBridge m else mdDisplayBridge m) in
      (if camera then set_camera_bridge b m else set_display_bridge b m, c)
  end.

Definition media_run (events : list (device_answers * media_event)) : mediaManager :=
  foldl (λ m e, (media_apply e.1 e.2 m).1) newMediaManager events.
End runs.

Record media_inv (m : mediaManager) : Prop := {
  md_display : mg_inv (mdDisplay m);
  md_camera : mg_inv (mdCamera m);
  md_display_bridge : bridge_wf (mdDisplayBridge m);
  md_camera_bridge : bridge_wf (mdCameraBridge m);
  md_preview : ∀ o, mdPreview m = Some o → soReconfigure o = true;
}.

Section inv.
Context (overflow : Z) (bitrates : list string) (numbers : list (string * Z)).
Context (Hb : bitrates ≡ₚ bitrate_keys) (ad : device_answers).

Lemma start_display_inv options m : media_inv m → media_inv (start_display ad options m).1.1.
Proof.
  intros [H1 H2 H3 H4 H5]. unfold start_display. pose proof (Start_wf ad options (mdDisplayBridge m) H3).
  destruct (Start ad options (mdDisplayBridge m)) as [[b c] r]. by split.
Qed.
Lemma start_camera_inv options m : media_inv m → media_inv (start_camera ad options m).1.1.
Proof.
  intros [H1 H2 H3 H4 H5]. unfold start_camera. pose proof (Start_wf ad options (mdCameraBridge m) H4).
  destruct (Start ad options (mdCameraBridge m)) as [[b c] r]. by split.
Qed.
Lemma stop_display_inv m : media_inv m → media_inv (stop_display ad m).1.1.
Proof. intros [H1 H2 H3 H4 H5]. by split. Qed.
Lemma stop_camera_inv m : media_inv m → media_inv (stop_camera ad m).1.1.
Proof. intros [H1 H2 H3 H4 H5]. by split. Qed.

Lemma reconcileDisplay_inv m : media_inv m → media_inv (reconcileDisplay overflow bitrates numbers ad m).1.1.
Proof.
  intros Hi. unfold reconcileDisplay. destruct (LatestVideoOptions _) as [o [|]]; [by apply start_display_inv|].
  destruct (mdPreview m); [by apply start_display_inv|]. case_match; [by apply start_display_inv|by apply stop_display_inv].
Qed.

Lemma set_rtc_inv (camera : bool) r m : media_inv m → mg_inv r → media_inv (if camera then set_camera r m else set_display r m).
Proof. intros [] Hr. by destruct camera; split. Qed.

Lemma rtc_inv (camera : bool) m : media_inv m → mg_inv (if camera then mdCamera m else mdDisplay m).
Proof. intros []. by destruct camera. Qed.

Lemma forward_inv camera message pa m : media_inv m → media_inv (forward overflow bitrates numbers camera message pa m).1.1.
Proof.
  intros Hi. unfold forward.
  pose proof (HandleForward_step overflow bitrates numbers Hb message pa _ (rtc_inv camera m Hi)) as [Hr _ _].
  destruct (WebRTC.HandleForward _ _ _ _ _ _) as [[r o] e]. by apply set_rtc_inv.
Qed.

Lemma start_inv (camera : bool) options m : media_inv m →
  media_inv ((if camera then start_camera ad else start_display ad) options m).1.1.
Proof. destruct camera; [apply start_camera_inv|apply start_display_inv]. Qed.

Lemma SetVideoCodec_inv profile track r : mg_inv r → mg_inv (SetVideoCodec profile track r).1.
Proof.
  intros Hi. apply (apply_step overflow bitrates numbers Hb (EvCodec profile track) r Hi).
Qed.

Lemma prepare_inv camera options m : media_inv m → media_inv (prepare ad camera options m).1.1.
Proof.
  intros Hi. unfold prepare. destruct (_ && _); [done|].
  set (start := if camera then start_camera ad else start_display ad).
  pose proof (start_inv camera options m Hi) as H1. fold start in H1.
  pose proof (λ o m, start_inv camera o m) as Hs. fold start in Hs.
  destruct (start options m) as [[m1 c] [u|e]]; [|done]. cbn [fst] in H1.
  destruct (ad_codec ad) as [profile|e]; [|done].
  pose proof (SetVideoCodec_inv profile (ad_track ad) _ (rtc_inv camera m Hi)) as Hr.
  destruct (SetVideoCodec _ _ _) as [r [u'|e]]; [by apply set_rtc_inv|].
  destruct (LatestVideoOptions _).2; [|done].
  pose proof (Hs (currentOptions (if camera then mdCameraBridge m else mdDisplayBridge m)) m1 H1).
  by destruct (start _ m1) as [[m2 c'] r'].
Qed.

Lemma HandleForward_inv message pa m : media_inv m →
  media_inv (HandleForward overflow bitrates numbers ad message pa m).1.1.
Proof.
  intros Hi. unfold HandleForward. destruct (negb _); [by apply forward_inv|].
  destruct (parseStreamOptions _ _ _ _ _) as [o|]; [|done]. destruct (_ && _ && _); [done|]. destruct (_ && _); [done|].
  destruct (HasClient _ _); [by apply forward_inv|]. destruct (eq_false _); [by apply forward_inv|].
  match goal with |- context [prepare ad ?c ?o m] => pose proof (prepare_inv c o m Hi) as H1; destruct (prepare ad c o m) as [[m1 c1] [u|e]] end; [|done].
  match goal with |- context [forward _ _ _ ?c message pa m1] =>
    pose proof (forward_inv c message pa m1 H1) as H2; destruct (forward overflow bitrates numbers c message pa m1) as [[m2 c2] r2] end. done.
Qed.

Lemma parsed_reconfigure raw preview o : parseStreamOptions overflow bitrates numbers raw preview = Ok o → soReconfigure o = true.
Proof. apply parse_reconfigure. Qed.

Lemma StopIdle_inv cancelled m : media_inv m → media_inv (StopIdle overflow bitrates numbers ad cancelled m).1.
Proof.
  intros Hi. unfold StopIdle. case_match; [done|]. pose proof (reconcileDisplay_inv m Hi) as H1.
  destruct (reconcileDisplay _ _ _ _ m) as [[m1 c1] r1]. cbn in H1. destruct (LatestVideoOptions _) as [o [|]].
  - pose proof (start_camera_inv (mergeCaptureNeeds (mdCamera m1) o) m1 H1). by destruct (start_camera _ _ m1) as [[m2 c2] r2].
  - pose proof (stop_camera_inv m1 H1). by destruct (stop_camera _ m1) as [[m2 c2] r2].
Qed.

Lemma media_apply_inv e m : media_inv m → media_inv (media_apply overflow bitrates numbers ad e m).1.
Proof.
  intros Hi. destruct e as [msg pa|raw| |raw| |c|c| |camera ev|camera same st er]; cbn [media_apply].
  - by apply HandleForward_inv.
  - destruct (parseStreamOptions _ _ _ _ _) as [o|] eqn:Eo; [|done]. apply reconcileDisplay_inv.
    destruct Hi. split; try done. intros o' [= <-]. by eapply parsed_reconfigure.
  - apply reconcileDisplay_inv. by destruct Hi.
  - unfold StartAudio. destruct (parseStreamOptions _ _ _ _ _) as [o|]; [|done]. case_match; [done|].
    match goal with |- context [start_display ad ?o m] => pose proof (start_display_inv o m Hi) as H1; destruct (start_display ad o m) as [[m1 c1] [u|e]] end; [|done].
    by destruct H1.
  - apply reconcileDisplay_inv. by destruct Hi.
  - by apply StopIdle_inv.
  - unfold CloseSession.
    pose proof (apply_step overflow bitrates numbers Hb (EvClose c) _ (md_display _ Hi)) as [Hd _ _].
    pose proof (apply_step overflow bitrates numbers Hb (EvClose c) _ (md_camera _ Hi)) as [Hc _ _]. cbn [apply] in Hd, Hc.
    destruct (WebRTC.CloseSession c (mdDisplay m)) as [d c1], (WebRTC.CloseSession c (mdCamera m)) as [k c2]. destruct Hi. by split.
  - pose proof (apply_step overflow bitrates numbers Hb EvCloseAll _ (md_display _ Hi)) as [Hd _ _].
    pose proof (apply_step overflow bitrates numbers Hb EvCloseAll _ (md_camera _ Hi)) as [Hc _ _]. destruct Hi. by split.
  - pose proof (apply_step overflow bitrates numbers Hb ev _ (rtc_inv camera m Hi)) as [Hr _ _].
    destruct (apply _ _ _ _ _) as [r o]. by apply set_rtc_inv.
  - unfold captureFailed. destruct (negb same); [by destruct camera, m, Hi; split|].
    destruct Hi. by destruct camera; split.
Qed.

End inv.

Lemma media_run_inv overflow bitrates numbers events : bitrates ≡ₚ bitrate_keys →
  media_inv (media_run overflow bitrates numbers events).
Proof.
  intros Hb. unfold media_run.
  assert (media_inv newMediaManager) as H0 by (split; try apply new_manager_inv; done).
  revert H0. generalize newMediaManager. induction events as [|[ad e] l IH]; intros m Hm; cbn; [done|].
  apply IH. by apply media_apply_inv.
Qed.

(** ** Lemmas: idle captures *)

Section idle.
Context (overflow : Z) (bitrates : list string) (numbers : list (string * Z)).
Context (ad : device_answers) (Hw : works ad).

(** What the display is captured for. *)
Definition display_options (m : mediaManager) : option streamOptions :=
  if (LatestVideoOptions (mdDisplay m)).2 then Some (displayOptions m (LatestVideoOptions (mdDisplay m)).1)
  else match mdPreview m with
       | Some o => Some (displayOptions m o)
       | None => if mdAudio m then Some (displayOptions m (audio_only overflow bitrates numbers)) else None
       end.
Definition camera_options (m : mediaManager) : option streamOptions :=
  if (LatestVideoOptions (mdCamera m)).2 then Some (mergeCaptureNeeds (mdCamera m) (LatestVideoOptions (mdCamera m)).1) else None.

(** The process of the bridge is what is wanted. *)
Definition captures (b : bridge) (o : option streamOptions) : Prop :=
  match o with
  | Some o => ∃ p, bgProcess b = Some p ∧ same_capture p o
  | None => bgProcess b = None
  end.

Context (Hb : bitrates ≡ₚ bitrate_keys).

Lemma start_display_captures options m : bridge_wf (mdDisplayBridge m) → soReconfigure options = true →
  captures (mdDisplayBridge (start_display ad options m).1.1) (Some options) ∧
  mdCamera (start_display ad options m).1.1 = mdCamera m ∧ mdCameraBridge (start_display ad options m).1.1 = mdCameraBridge m.
Proof.
  intros Hwf Hr. unfold start_display. destruct (Start_works ad options (mdDisplayBridge m) Hw Hwf Hr) as (_ & _ & H).
  destruct (Start ad options (mdDisplayBridge m)) as [[b c] r]. by split_and!.
Qed.

Lemma reconcileDisplay_captures m : media_inv m → soReconfigure (audio_only overflow bitrates numbers) = true →
  captures (mdDisplayBridge (reconcileDisplay overflow bitrates numbers ad m).1.1) (display_options m) ∧
  mdCamera (reconcileDisplay overflow bitrates numbers ad m).1.1 = mdCamera m ∧
  mdCameraBridge (reconcileDisplay overflow bitrates numbers ad m).1.1 = mdCameraBridge m.
Proof.
  intros Hi Ha. unfold reconcileDisplay, display_options.
  pose proof (latest_reconfigure (mdDisplay m) (md_display m Hi)) as Hl.
  destruct (LatestVideoOptions (mdDisplay m)) as [o connected]. cbn [fst snd] in *. destruct connected.
  - apply start_display_captures; [apply Hi|]. rewrite displayOptions_reconfigure. by apply Hl.
  - destruct (mdPreview m) as [p|] eqn:Ep.
    + apply start_display_captures; [apply Hi|]. rewrite displayOptions_reconfigure. by apply (md_preview m Hi).
    + destruct (mdAudio m).
      * apply start_display_captures; [apply Hi|]. by rewrite displayOptions_reconfigure.
      * unfold stop_display. destruct (Stop_works ad (mdDisplayBridge m) Hw) as [_ E].
        destruct (Stop ad (mdDisplayBridge m)) as [[b c] r]. by split_and!.
Qed.
End idle.

Lemma audio_only_reconfigure overflow bitrates numbers : bitrates ≡ₚ bitrate_keys → numbers ≡ₚ numeric →
  soReconfigure (audio_only overflow bitrates numbers) = true.
Proof.
  intros Hb Hn. unfold audio_only.
  destruct (parseStreamOptions overflow bitrate_keys numeric {[ "audio" := VBool true; "stay_awake" := VBool false ]} true) as [o|e] eqn:E.
  - pose proof ((parse_order_independent overflow bitrate_keys bitrates numeric numbers _ true o
      (Permutation_refl _) Hb (Permutation_refl _) Hn) E) as E'. rewrite E'. cbn. by eapply parse_reconfigure.
  - exfalso. revert E. vm_compute. done.
Qed.

(** A viewer with video is connected when the last one is. *)
Lemma latest_connected m : mg_inv m →
  (LatestVideoOptions m).2 = true ↔ ∃ c s, mgSessions m !! c = Some s ∧ ssVideo s = true.
Proof.
  intros Hi. unfold LatestVideoOptions. cbn. destruct (choose_spec ssVideo (map_values (mgSessions m))) as [[E N]|(Hin & Hv & _)].
  - intros s Hs Hv. by apply (inv_orders m s s).
  - change (latest (map_values (mgSessions m)) = no_session) in E. rewrite E. split; [done|].
    intros (c & s & Hs & Hv). rewrite N in Hv; [done|]. apply elem_of_map_values. by exists c.
  - change (choose ssVideo (map_values (mgSessions m))) with (latest (map_values (mgSessions m))) in *.
    split; [intros _|done]. apply elem_of_map_values in Hin as [c Hc]. by exists c, (latest (map_values (mgSessions m))).
Qed.

Lemma captures_running b o : captures b o → bgRunning b = true ↔ is_Some o.
Proof.
  destruct o as [o|]; cbn; unfold bgRunning; [intros (p & -> & _)|intros ->]; split; try done; by intros [].
Qed.

(** Changing the sessions of a client leaves the others. *)
Lemma HandleForward_others overflow bitrates numbers message pa m other :
  other ≠ stringField message "client_id" →
  mgSessions (WebRTC.HandleForward overflow bitrates numbers message pa m).1.1 !! other = mgSessions m !! other.
Proof.
  intros Hne. unfold WebRTC.HandleForward. destruct (mapField _ _) as [payload|]; [|done].
  set (clientID := stringField message "client_id") in *.
  destruct (bool_decide (clientID = "")); [done|]. destruct (bool_decide _).
  - unfold createOffer. destruct (mgSessions m !! clientID); [done|].
    destruct (parseBitrateOptions _ _ _); [|done]. destruct (parseStreamOptions _ _ _ _ _); [|done].
    destruct (pa_offer pa); [|done]. cbn. by rewrite lookup_insert_ne.
  - destruct (bool_decide _).
    + unfold setAnswer. destruct (setAnswer_lookup _ _ _) as [[p|]|]; [|done..].
      unfold setAnswer_finish. destruct (pa_remote pa); [|done]. destruct (add_all _ _ _). cbn. by rewrite lookup_insert_ne.
    + destruct (bool_decide _); [|done]. unfold addCandidate. destruct (pa_candidate _ _); [|done].
      destruct (mgSessions m !! clientID) as [s|]; [|done]. destruct (ssPeer s); [|done].
      case_decide; [done|]. cbn. by rewrite lookup_insert_ne.
Qed.

Lemma SetVideoCodec_sessions profile track r : mgSessions (SetVideoCodec profile track r).1 = mgSessions r.
Proof. unfold SetVideoCodec. by repeat case_match. Qed.

(** The state of the sources after an operation on one of them. *)
Record only_source (camera : bool) (clientID : string) (m m' : mediaManager) : Prop := {
  os_sessions : ∀ other, other ≠ clientID →
    mgSessions (if camera then mdCamera m' else mdDisplay m') !! other =
    mgSessions (if camera then mdCamera m else mdDisplay m) !! other;
  os_manager : (if camera then mdDisplay m' else mdCamera m') = (if camera then mdDisplay m else mdCamera m);
  os_bridge : (if camera then mdDisplayBridge m' else mdCameraBridge m') = (if camera then mdDisplayBridge m else mdCameraBridge m);
  os_rest : mdPreview m' = mdPreview m ∧ mdAudio m' = mdAudio m ∧ mdClosed m' = mdClosed m;
}.

Lemma only_source_refl camera clientID m : only_source camera clientID m m.
Proof. by split. Qed.

Lemma only_source_trans camera clientID m1 m2 m3 :
  only_source camera clientID m1 m2 → only_source camera clientID m2 m3 → only_source camera clientID m1 m3.
Proof.
  intros [A1 A2 A3 (A4 & A5 & A6)] [B1 B2 B3 (B4 & B5 & B6)].
  split; [intros o Ho; by rewrite B1, A1|congruence..|split_and!; congruence].
Qed.

Lemma start_only ad (camera : bool) clientID options m :
  only_source camera clientID m ((if camera then start_camera ad else start_display ad) options m).1.1.
Proof.
  destruct camera; [unfold start_camera|unfold start_display]; destruct (Start _ _ _) as [[b c] r]; by split.
Qed.

Lemma forward_only overflow bitrates numbers (camera : bool) message pa m :
  only_source camera (stringField message "client_id") m (forward overflow bitrates numbers camera message pa m).1.1.
Proof.
  unfold forward. pose proof (HandleForward_others overflow bitrates numbers message pa (if camera then mdCamera m else mdDisplay m)) as H.
  destruct (WebRTC.HandleForward _ _ _ _ _ _) as [[r o] e]. by destruct camera; split.
Qed.

Lemma prepare_only ad (camera : bool) clientID options m : only_source camera clientID m (prepare ad camera options m).1.1.
Proof.
  unfold prepare. destruct (_ && _); [apply only_source_refl|].
  set (start := if camera then start_camera ad else start_display ad).
  pose proof (λ o m, start_only ad camera clientID o m) as Hs. fold start in Hs.
  pose proof (Hs options m) as H1. destruct (start options m) as [[m1 c] [u|e]]; [|done]. cbn [fst] in H1.
  destruct (ad_codec ad) as [profile|e]; [|done].
  pose proof (SetVideoCodec_sessions profile (ad_track ad) (if camera then mdCamera m else mdDisplay m)) as Hr.
  destruct (SetVideoCodec _ _ _) as [r [u'|e]]; cbn in Hr.
  - destruct H1 as [A1 A2 A3 A4]. destruct camera; split; cbn in *; try done; intros other Ho; by rewrite Hr.
  - destruct (LatestVideoOptions _).2; [|done].
    pose proof (Hs (currentOptions (if camera then mdCameraBridge m else mdDisplayBridge m)) m1) as H2.
    destruct (start _ m1) as [[m2 c'] r']. by eapply only_source_trans.
Qed.

(** Accounting for the viewers that are there: the captures become what they need. *)
Lemma StopIdle_captures overflow bitrates numbers ad m :
  bitrates ≡ₚ bitrate_keys → numbers ≡ₚ numeric → works ad → media_inv m → mdClosed m = false →
  let m' := (StopIdle overflow bitrates numbers ad false m).1 in
  captures (mdDisplayBridge m') (display_options overflow bitrates numbers m) ∧
  captures (mdCameraBridge m') (camera_options m).
Proof.
  intros Hb Hn Hw Hi Hc m'. unfold m', StopIdle. rewrite Hc. cbn [orb].
  pose proof (audio_only_reconfigure overflow bitrates numbers Hb Hn) as Ha.
  destruct (reconcileDisplay_captures overflow bitrates numbers ad Hw m Hi Ha) as (H1 & H2 & H3).
  destruct (reconcileDisplay _ _ _ _ m) as [[m1 c1] r1]. cbn [fst] in H1, H2, H3. unfold camera_options. rewrite H2.
  pose proof (latest_reconfigure (mdCamera m) (md_camera m Hi)) as Hl.
  destruct (LatestVideoOptions (mdCamera m)) as [o [|]]; cbn [fst snd] in *.
  - unfold start_camera. rewrite H3. unfold mergeCaptureNeeds at 1.
    destruct (Start_works ad (merge_needs (map_values (mgSessions (mdCamera m))) o) (mdCameraBridge m) Hw (md_camera_bridge _ Hi))
      as (_ & _ & H); [rewrite merge_needs_reconfigure; by apply Hl|].
    destruct (Start _ _ _) as [[b c] r]. by split.
  - unfold stop_camera. destruct (Stop_works ad (mdCameraBridge m1) Hw) as [_ E]. destruct (Stop _ _) as [[b c] r]. by split.
Qed.

(** Who keeps a source captured. *)
Definition display_needed (m : mediaManager) : Prop :=
  (∃ c s, mgSessions (mdDisplay m) !! c = Some s ∧ ssVideo s = true) ∨ is_Some (mdPreview m) ∨ mdAudio m = true.
Definition camera_needed (m : mediaManager) : Prop := ∃ c s, mgSessions (mdCamera m) !! c = Some s ∧ ssVideo s = true.

Lemma captured_when_needed overflow bitrates numbers m b k : media_inv m →
  captures b (display_options overflow bitrates numbers m) → captures k (camera_options m) →
  (bgRunning b = true ↔ display_needed m) ∧ (bgRunning k = true ↔ camera_needed m).
Proof.
  intros Hi Hd Hk. rewrite (captures_running _ _ Hd), (captures_running _ _ Hk). unfold display_needed, camera_needed.
  rewrite <-(latest_connected _ (md_display _ Hi)), <-(latest_connected _ (md_camera _ Hi)).
  unfold display_options, camera_options. split.
  - destruct (LatestVideoOptions _).2; [split; [by left|done]|]. destruct (mdPreview m); [split; [right; by left|done]|].
    destruct (mdAudio m); [split; [right; by right|done]|]. split; [by intros []|]. intros [?|[[]|?]]; done.
  - destruct (LatestVideoOptions _).2; split; try done; by intros [].
Qed.

(** ** Properties *)

(** C36: Whatever happened before, once the viewers that left have been accounted for on
    a device that starts and stops captures, the display is captured exactly when a
    viewer with video, a preview or an audio listener needs it, with the options that
    their needs merge to, and the camera exactly when a viewer with video uses it. *)
Theorem idle_capture overflow bitrates numbers ad events :
  bitrates ≡ₚ bitrate_keys → numbers ≡ₚ numeric → works ad →
  let m := media_run overflow bitrates numbers events in
  mdClosed m = false →
  let m' := (StopIdle overflow bitrates numbers ad false m).1 in
  captures (mdDisplayBridge m') (display_options overflow bitrates numbers m) ∧
  captures (mdCameraBridge m') (camera_options m) ∧
  (bgRunning (mdDisplayBridge m') = true ↔ display_needed m) ∧
  (bgRunning (mdCameraBridge m') = true ↔ camera_needed m).
Proof.
  intros Hb Hn Hw m Hc m'. pose proof (media_run_inv overflow bitrates numbers events Hb) as Hi. fold m in Hi.
  destruct (StopIdle_captures overflow bitrates numbers ad m Hb Hn Hw Hi Hc) as [Hd Hk].
  split; [done|]. split; [done|]. by eapply captured_when_needed.
Qed.

(** The display and the camera do not disturb each other, nor one client another: a
    message of a client leaves the sessions of all other clients as they are, and a
    request for one source leaves the manager and the capture of the other alone. *)
Theorem sources_independent overflow bitrates numbers ad message pa m :
  let clientID := stringField message "client_id" in
  let '(m', c, r) := HandleForward overflow bitrates numbers ad message pa m in
  (∀ other, other ≠ clientID →
     mgSessions (mdDisplay m') !! other = mgSessions (mdDisplay m) !! other ∧
     mgSessions (mdCamera m') !! other = mgSessions (mdCamera m) !! other) ∧
  ((mdDisplay m' = mdDisplay m ∧ mdDisplayBridge m' = mdDisplayBridge m) ∨
   (mdCamera m' = mdCamera m ∧ mdCameraBridge m' = mdCameraBridge m)) ∧
  (mdPreview m' = mdPreview m ∧ mdAudio m' = mdAudio m ∧ mdClosed m' = mdClosed m).
Proof.
  intros clientID.
  assert (∃ camera, only_source camera clientID m (HandleForward overflow bitrates numbers ad message pa m).1.1) as [camera H].
  { unfold HandleForward. destruct (negb _); [eexists; apply forward_only|].
    destruct (parseStreamOptions _ _ _ _ _) as [o|]; [|exists true; apply only_source_refl].
    set (camera := bool_decide (soSource o = "camera")).
    destruct (_ && _ && _); [exists true; apply only_source_refl|]. destruct (_ && _); [exists true; apply only_source_refl|].
    destruct (HasClient _ _); [eexists; apply forward_only|]. destruct (eq_false _); [eexists; apply forward_only|].
    exists camera. match goal with |- context [prepare ad ?c ?o m] =>
      pose proof (prepare_only ad c clientID o m) as H1; destruct (prepare ad c o m) as [[m1 c1] [u|e]] end; [|done].
    pose proof (forward_only overflow bitrates numbers camera message pa m1) as H2.
    destruct (forward overflow bitrates numbers camera message pa m1) as [[m2 c2] r2]. by eapply only_source_trans. }
  destruct (HandleForward _ _ _ _ _ _ m) as [[m' c] r]. cbn in H. destruct H as [H1 H2 H3 H4].
  split; [|split; [|done]].
  - intros other Ho. specialize (H1 other Ho). destruct camera; by rewrite H1, H2.
  - destruct camera; [left|right]; by split.
Qed.

(** ** Witnesses *)

Module MediaWitness.
Definition ad : device_answers := MkAnswers true (Ok ()) (λ _, Ok ()) (Ok "640028") (Ok ()) 34.
Definition pion : pion_answers := MkPion (Ok "v=0") (Ok ()) (Ok ()) (λ _, Ok "candidate") (λ _ _, Ok ()).
Definition request : gmap string value :=
  {[ "client_id" := VStr "c"; "payload" := VMap {[ "type" := VStr "request-offer" ]} ]}.
Definition events : list (device_answers * media_event) := [(ad, MdForward request pion); (ad, MdPreview ∅)].
Definition m : mediaManager := media_run 0 bitrate_keys numeric events.

Lemma idle_capture_witness : bgRunning (mdDisplayBridge (StopIdle 0 bitrate_keys numeric ad false m).1) = true.
Proof.
  refine (proj2 (proj1 (proj2 (proj2 (idle_capture 0 bitrate_keys numeric ad events
    (Permutation_refl _) (Permutation_refl _) (conj eq_refl (λ _, eq_refl)) _)))) _).
  - by vm_compute.
  - right. left. apply (bool_decide_unpack (is_Some _)); by vm_compute.
Defined.
End MediaWitness.
