(* ===== verification/DeviceFiles.v ===== *)
(** * The file manager of an agent (agent/internal/agent/files.go)

    Browsers list, create, delete, upload, download and install files through a session.
    The device's file system is a record of answers; what the manager does to it and
    what it sends is a trace.  Cleaning of paths is that of [path/filepath] on Unix. *)

From S2P Require Import Prelude GoBase GoStrings GoFloat Model Control Scrcpy.

(** ** Paths *)

Definition IsAbs (path : string) : bool := HasPrefix path "/".

(** The elements of a cleaned absolute path: empty and [.] elements are dropped and [..]
    drops the element before it, if there is one. *)
Definition clean_step (acc : list string) (element : string) : list string :=
  if bool_decide (element = "") || bool_decide (element = ".") then acc
  else if bool_decide (element = "..") then removelast acc
  else acc ++ [element].
Definition clean_elements (path : string) : list string := foldl clean_step [] (Split path "/").

Definition join_slash (elements : list string) : string :=
  match elements with [] => "/" | _ => String.concat "" (map (λ e, "/" +:+ e) elements) end.

(** [filepath.Clean] of an absolute path. *)
Definition Clean (path : string) : string := join_slash (clean_elements path).

Definition deviceFilePath (raw : string) : result string :=
  if negb (IsAbs raw) || ContainsByte raw "000" then Err (ErrMsg "file path must be absolute")
  else Ok (Clean raw).

(** [filepath.Ext]: from the last dot of the last element. *)
Fixpoint ext_rev (l : bytes) (acc : bytes) : bytes :=
  match l with
  | [] => []
  | a :: l => if decide (a = ch "/") then [] else if decide (a = ch ".") then a :: acc else ext_rev l (a :: acc)
  end.
Definition Ext (path : string) : string := bytes_str (ext_rev (rev (str_bytes path)) []).

(** ** State *)

Definition maxDeviceFileSize : Z := Z.shiftl 2 30.

(** [upData] holds the bytes written so far: [uploaded] is their number and the running
    hash is theirs.  [upStage] names the staging file. *)
Record fileUpload := MkUpload {
  upStage : string;
  upPath : string;
  upSize : Z;
  upData : bytes;
  upChecksum : string;
  upInstall : bool;
}.

(** A session's context is cancelled exactly when it leaves the manager.  [finishing] is
    only set between the last chunk and the end of the same call, so no chunk finds it. *)
Record deviceFileSession := MkFileSession { fsUpload : option fileUpload; fsDownloading : bool }.

Record deviceFileManager := MkFiles { fmClosed : bool; fmSessions : gmap string deviceFileSession }.
Definition newDeviceFileManager : deviceFileManager := MkFiles false ∅.

Definition put_session (clientID : string) (s : deviceFileSession) (m : deviceFileManager) : deviceFileManager :=
  MkFiles (fmClosed m) (<[clientID := s]> (fmSessions m)).

Record fileEntry := MkEntry { feName : string; feSize : Z; feDir : bool; feTime : Z; feMode : string }.

Inductive file_effect :=
| FSend (clientID : string) (reply : gmap string value)
| FChunk (clientID : string) (requestID : value) (data : bytes)
| FMkdir (path : string)
| FDelete (path : string)
| FStage (stage path : string)
| FCommit (stage path : string) (data : bytes)
| FDiscard (stage : string)
| FStartDownload (clientID path : string)
| FStartInstall (clientID path : string)
| FInstall (path : string).

(** What the device answers; [fa_write]: how many bytes a write takes, and its error. *)
Record file_answers := MkFileAnswers {
  fa_list : string → result (list fileEntry);
  fa_mkdir : string → result ();
  fa_remove : string → result ();
  fa_stage : string → result string;
  fa_write : string → bytes → nat * option error;
  fa_chmod : string → result ();
  fa_sync : string → result ();
  fa_close : string → result ();
  fa_commit : string → string → result ();
  fa_install : string → result string;
}.

Section files.
Context `{Crypto} (overflow : Z) (error_text : error → string) (fa : file_answers).

Definition discardUpload (u : option fileUpload) : list file_effect :=
  match u with Some u => [FDiscard (upStage u)] | None => [] end.

(** ** Sessions *)

Definition Open (clientID : string) (m : deviceFileManager) : deviceFileManager * list file_effect :=
  if fmClosed m then (m, [])
  else
    (match fmSessions m !! clientID with Some _ => m | None => put_session clientID (MkFileSession None false) m end,
     [FSend clientID {[ "type" := VStr "ready" ]}]).

Definition CloseClient (clientID : string) (m : deviceFileManager) : deviceFileManager * list file_effect :=
  match fmSessions m !! clientID with
  | Some s => (MkFiles (fmClosed m) (delete clientID (fmSessions m)), discardUpload (fsUpload s))
  | None => (m, [])
  end.

Definition Close (m : deviceFileManager) : deviceFileManager * list file_effect :=
  (MkFiles true ∅, flat_map (λ s, discardUpload (fsUpload s)) (map_values (fmSessions m))).

(** ** Uploads *)

Definition hex (l : bytes) : string := bytes_str (flat_map hex2 l).
Definition hex_value (a : byte) : bool := in_range a 48 57 || in_range a 97 102 || in_range a 65 70.
(** [hex.DecodeString] succeeds with this many bytes. *)
Definition hex_decoded (s : string) : option Z :=
  if forallb hex_value (str_bytes s) && (len s mod 2 =? 0) then Some (len s / 2) else None.

Definition ack (u : fileUpload) (finished : bool) (err : option error) : gmap string value :=
  let reply := {[ "type" := VStr "upload_ack"; "path" := VStr (upPath u); "uploaded" := VInt (blen (upData u));
                  "finished" := VBool finished; "success" := VBool (bool_decide (err = None)) ]} in
  match err with Some e => <["error" := VStr (error_text e)]> reply | None => reply end.

Definition first_error (e : option error) (r : result ()) : option error :=
  match e with Some e => Some e | None => match r with Err e => Some e | Ok _ => None end end.

(** Writing a chunk: the upload with the bytes taken, and the error. *)
Definition write_chunk (u : fileUpload) (data : bytes) : fileUpload * option error :=
  if (Z.shiftl 64 10 <? blen data) || (upSize u <? blen (upData u) + blen data)
  then (u, Some (ErrMsg "upload exceeds declared size"))
  else
    let '(count, err) := fa_write fa (upStage u) data in
    (MkUpload (upStage u) (upPath u) (upSize u) (upData u ++ take count data) (upChecksum u) (upInstall u),
     match err with
     | Some e => Some e
     | None => if (count =? length data)%nat then None else Some (ErrMsg "short write")
     end).

(** The checks of a finished upload: the later steps run only without an error so far,
    the file is closed in any case. *)
Definition finish_checks (u : fileUpload) (err : option error) : option error :=
  let err := match err with
             | Some e => Some e
             | None => if bool_decide (hex (sha256 (upData u)) = upChecksum u) then None
                       else Some (ErrMsg "file checksum mismatch")
             end in
  let err := match err with Some e => Some e | None => first_error None (fa_chmod fa (upStage u)) end in
  let err := match err with Some e => Some e | None => first_error None (fa_sync fa (upStage u)) end in
  first_error err (fa_close fa (upStage u)).

Definition Chunk (clientID : string) (data : bytes) (m : deviceFileManager) : deviceFileManager * list file_effect :=
  match fmSessions m !! clientID with
  | None => (m, [])
  | Some session =>
      match fsUpload session with
      | None => (m, [])
      | Some u =>
          let '(u, err) := write_chunk u data in
          let finished := negb (bool_decide (err = None)) || (blen (upData u) =? upSize u) in
          if finished then
            let err := finish_checks u err in
            let '(commit, err) := match err with
                                  | Some e => ([], Some e)
                                  | None => ([FCommit (upStage u) (upPath u) (upData u)],
                                             first_error None (fa_commit fa (upStage u) (upPath u)))
                                  end in
            (put_session clientID (MkFileSession None (fsDownloading session)) m,
             commit ++ [FDiscard (upStage u); FSend clientID (ack u true err)] ++
             (if bool_decide (err = None) && upInstall u then [FStartInstall clientID (upPath u)] else []))
          else
            (put_session clientID (MkFileSession (Some u) (fsDownloading session)) m,
             [FSend clientID (ack u false err)])
      end
  end.

Definition startUpload (clientID path : string) (command : gmap string value) (m : deviceFileManager)
    : deviceFileManager * list file_effect * result () :=
  let checksum := ToLowerASCII (stringField command "sha256") in
  match uint64FieldDefault overflow command "size" (2 ^ 64 - 1) with
  | Err _ => (m, [], Err (ErrMsg "invalid file size"))
  | Ok size =>
      if maxDeviceFileSize <? size then (m, [], Err (ErrMsg "invalid file size"))
      else if negb (bool_decide (hex_decoded checksum = Some 32)) then (m, [], Err (ErrMsg "SHA-256 is required"))
      else match fa_stage fa path with
           | Err e => (m, [], Err e)
           | Ok stage =>
               let u := MkUpload stage path size [] checksum (eq_true (command !! "install_on_finish")) in
               match fmSessions m !! clientID with
               | None => (m, [FStage stage path; FDiscard stage], Err (ErrMsg "file session is busy or closed"))
               | Some session =>
                   match fsUpload session with
                   | Some _ => (m, [FStage stage path; FDiscard stage], Err (ErrMsg "file session is busy or closed"))
                   | None =>
                       let m := put_session clientID (MkFileSession (Some u) (fsDownloading session)) m in
                       let sent := [FStage stage path;
                                    FSend clientID {[ "type" := VStr "upload_reply"; "path" := VStr path; "success" := VBool true ]}] in
                       if size =? 0 then let '(m, c) := Chunk clientID [] m in (m, sent ++ c, Ok ()) else (m, sent, Ok ())
                   end
               end
           end
  end.

(** ** Commands *)

Definition storage_roots : list string :=
  ["/"; "/sdcard"; "/storage"; "/storage/emulated"; "/storage/emulated/0"; "/data"; "/data/local"; "/data/local/tmp"].

Definition list_entry (path : string) (e : fileEntry) : value :=
  VMap {[ "name" := VStr (feName e); "path" := VStr (Clean (path +:+ "/" +:+ feName e)); "size" := VInt (feSize e);
          "is_dir" := VBool (feDir e); "mod_time" := VInt (feTime e); "mode" := VStr (feMode e) ]}.

Definition reply_kind (kind : string) : string :=
  if bool_decide (kind = "upload_start") then "upload_reply"
  else if bool_decide (kind = "download_start") then "download_reply"
  else if bool_decide (kind = "install_apk") then "install_status"
  else kind +:+ "_reply".

Definition with_error (err : option error) (reply : gmap string value) : gmap string value :=
  let reply := <["success" := VBool (bool_decide (err = None))]> reply in
  match err with
  | Some e => <["status" := VStr "error"]> (<["message" := VStr (error_text e)]> (<["error" := VStr (error_text e)]> reply))
  | None => reply
  end.

Definition Command (clientID : string) (command : gmap string value) (m : deviceFileManager)
    : deviceFileManager * list file_effect :=
  match fmSessions m !! clientID with
  | None => (m, [])
  | Some session =>
      let kind := stringField command "type" in
      let path := deviceFilePath (stringField command "path") in
      let reply := {[ "type" := VStr (reply_kind kind); "path" := VStr (from_ok "" path);
                      "request_id" := default VNull (command !! "request_id") ]} in
      let answer err effects m := (m, effects ++ [FSend clientID (with_error err reply)]) in
      match path with
      | Err e => answer (Some e) [] m
      | Ok path =>
          if bool_decide (kind = "list") then
            let entries := fa_list fa path in
            let err := match entries with
                       | Err e => Some e
                       | Ok l => if 20000 <? Z.of_nat (length l) then Some (ErrMsg "directory contains too many entries") else None
                       end in
            let files := match err with None => map (list_entry path) (from_ok [] entries) | Some _ => [] end in
            (m, [FSend clientID (with_error err (<["files" := VList files]> reply))])
          else if bool_decide (kind = "mkdir") then answer (first_error None (fa_mkdir fa path)) [FMkdir path] m
          else if bool_decide (kind = "delete") then
            if bool_decide (path ∈ storage_roots) then answer (Some (ErrMsg "cannot delete a storage root")) [] m
            else answer (first_error None (fa_remove fa path)) [FDelete path] m
          else if bool_decide (kind = "upload_start") then
            match startUpload clientID path command m with
            | (m, c, Ok _) => (m, c)
            | (m, c, Err e) => answer (Some e) c m
            end
          else if bool_decide (kind = "download_start") then
            if fsDownloading session then answer (Some (ErrMsg "a download is already active")) [] m
            else (put_session clientID (MkFileSession (fsUpload session) true) m, [FStartDownload clientID path])
          else if bool_decide (kind = "install_apk") then (m, [FStartInstall clientID path])
          else answer (Some (ErrMsg "unsupported file operation")) [] m
      end
  end.

(** ** Downloads and installations *)

(** [content]: what the file delivers when it is read; [active]: whether the session's
    context is still alive when so much remains; every send succeeds. *)
Definition download_chunk : Z := Z.shiftl 16 10.
Fixpoint download_loop (fuel : nat) (active : Z → bool) (clientID path : string) (requestID : value)
    (remaining : Z) (content : bytes) : list file_effect :=
  match fuel with
  | O => []
  | S fuel =>
      if (0 <? remaining) && active remaining then
        let size := Z.min remaining download_chunk in
        let data := take (Z.to_nat size) content in
        let sent := if (0 <? length data)%nat then [FChunk clientID requestID data] else [] in
        if blen data <? size then
          sent ++ [FSend clientID {[ "type" := VStr "download_reply"; "request_id" := requestID; "path" := VStr path;
                                     "success" := VBool false; "error" := VStr (if bool_decide (data = []) then "EOF" else "unexpected EOF") ]}]
        else sent ++ download_loop fuel active clientID path requestID (remaining - size) (drop (Z.to_nat size) content)
      else []
  end.

(** [opened]: whether the file is regular, its size, and its content. *)
Definition download (active : Z → bool) (clientID path : string) (requestID : value)
    (opened : result (bool * Z * bytes)) : list file_effect :=
  let reply := {[ "type" := VStr "download_reply"; "path" := VStr path; "request_id" := requestID; "success" := VBool false ]} in
  match opened with
  | Err e => [FSend clientID (<["error" := VStr (error_text e)]> reply)]
  | Ok (regular, size, content) =>
      if negb regular || (maxDeviceFileSize <? size)
      then [FSend clientID (<["error" := VStr "only regular files up to 2 GiB can be downloaded"]> reply)]
      else FSend clientID (<["success" := VBool true]> (<["size" := VInt size]> reply)) ::
           download_loop (S (Z.to_nat size)) active clientID path requestID size content
  end.
(** The deferred assignment when a download ends; [same]: whether the session it was
    started for is still the one of the client. *)
Definition download_done (same : bool) (clientID : string) (m : deviceFileManager) : deviceFileManager :=
  if negb same then m else
  match fmSessions m !! clientID with
  | Some s => put_session clientID (MkFileSession (fsUpload s) false) m
  | None => m
  end.

Definition install_status (path : string) (requestID : value) (state message : string) : gmap string value :=
  {[ "type" := VStr "install_status"; "path" := VStr path; "request_id" := requestID;
     "status" := VStr state; "message" := VStr message ]}.
Definition install (clientID path : string) (requestID : value) : list file_effect :=
  if negb (bool_decide (ToLowerASCII (Ext path) = ".apk"))
  then [FSend clientID (install_status path requestID "error" "only APK files can be installed")]
  else FSend clientID (install_status path requestID "installing" "Installing APK") :: FInstall path ::
       [FSend clientID match fa_install fa path with
                       | Ok output => install_status path requestID "success" output
                       | Err e => install_status path requestID "error" (error_text e)
                       end].
End files.

(** ** Runs

    The messages of the control plane and the ends of downloads, in any order; what the
    device answers may differ each time. *)
Inductive file_event :=
| EvOpen (clientID : string)
| EvCommand (clientID : string) (command : gmap string value)
| EvChunk (clientID : string) (data : bytes)
| EvDownloaded (same : bool) (clientID : string)
| EvCloseClient (clientID : string)
| EvClose.

Section runs.
Context `{Crypto} (overflow : Z) (error_text : error → string).

Definition file_apply (fa : file_answers) (e : file_event) (m : deviceFileManager) : deviceFileManager * list file_effect :=
  match e with
  | EvOpen c => Open c m
  | EvCommand c command => Command overflow error_text fa c command m
  | EvChunk c data => Chunk error_text fa c data m
  | EvDownloaded same c => (download_done same c m, [])
  | EvCloseClient c => CloseClient c m
  | EvClose => Close m
  end.

Fixpoint file_run (events : list (file_answers * file_event)) (m : deviceFileManager) : deviceFileManager * list file_effect :=
  match events with
  | [] => (m, [])
  | (fa, e) :: events =>
      let '(m, c) := file_apply fa e m in
      let '(m, c') := file_run events m in (m, c ++ c')
  end.
End runs.

(** ** Lemmas: paths *)

(** Elements of a cleaned path. *)
Definition plain_element (e : string) : Prop :=
  e ≠ "" ∧ e ≠ "." ∧ e ≠ ".." ∧ ch "/" ∉ str_bytes e.

Lemma elem_of_rev_bytes (a : byte) l : a ∈ rev l ↔ a ∈ l.
Proof. by rewrite !list_elem_of_In, <-in_rev. Qed.

Lemma split_bytes_elements sep l : ∀ cur e, sep ∉ cur → e ∈ split_bytes sep cur l → sep ∉ str_bytes e.
Proof.
  induction l as [|a l IH]; intros cur e Hc; cbn.
  - intros ->%list_elem_of_singleton. by rewrite str_bytes_str, elem_of_rev_bytes.
  - destruct (decide (a = sep)) as [->|Hne].
    + intros [->|He]%elem_of_cons; [by rewrite str_bytes_str, elem_of_rev_bytes|]. apply (IH [] e); [by apply not_elem_of_nil|done].
    + apply IH. by apply not_elem_of_cons.
Qed.

Lemma Forall_removelast {A} (P : A → Prop) l : Forall P l → Forall P (removelast l).
Proof. induction 1 as [|a l Ha Hl IH]; [constructor|]. cbn. destruct l; by constructor. Qed.

Lemma clean_elements_plain path : Forall plain_element (clean_elements path).
Proof.
  unfold clean_elements, Split.
  assert (Forall (λ e, ch "/" ∉ str_bytes e) (split_bytes (ch "/") [] (str_bytes path))) as Hs.
  { apply Forall_forall. intros e. apply split_bytes_elements. by apply not_elem_of_nil. }
  revert Hs. generalize (split_bytes (ch "/") [] (str_bytes path)) as l. intros l Hs.
  assert (∀ acc, Forall plain_element acc → Forall plain_element (foldl clean_step acc l)) as H; [|by apply H].
  induction Hs as [|e l He _ IH]; intros acc Hacc; cbn; [done|]. apply IH.
  unfold clean_step. repeat case_bool_decide; cbn; try done; [by apply Forall_removelast|].
  apply Forall_app. split; [done|]. by repeat constructor.
Qed.

Lemma str_bytes_concat es : str_bytes (String.concat "" es) = concat (map str_bytes es).
Proof.
  induction es as [|e [|e' es] IH]; [done|cbn; by rewrite app_nil_r|].
  change (String.concat "" (e :: e' :: es)) with (e +:+ "" +:+ String.concat "" (e' :: es)).
  rewrite !str_bytes_app, IH. done.
Qed.

Lemma split_slashes es : ∀ cur, Forall plain_element es →
  split_bytes (ch "/") cur (concat (map (λ e, ch "/" :: str_bytes e) es)) = bytes_str (rev cur) :: es.
Proof.
  induction es as [|e es IH]; intros cur Hall; [done|]. apply Forall_cons in Hall as [(_ & _ & _ & He) Hall].
  cbn [map concat app split_bytes]. rewrite decide_True by done. f_equal.
  destruct es as [|e' es].
  - cbn [map concat]. rewrite app_nil_r, split_bytes_no_sep by done. cbn. by rewrite bytes_str_bytes.
  - cbn [map concat app]. rewrite split_bytes_app by done. cbn [rev app]. rewrite bytes_str_bytes. f_equal.
    specialize (IH [] Hall). cbn [map concat app split_bytes] in IH. rewrite decide_True in IH by done.
    by injection IH as IH.
Qed.

Lemma elements_join es : Forall plain_element es → clean_elements (join_slash es) = es.
Proof.
  intros Hall. unfold clean_elements, Split.
  assert (∀ acc, foldl clean_step acc es = acc ++ es) as Hf.
  { clear -Hall. induction Hall as [|e es (H1 & H2 & H3 & _) _ IH]; intros acc; cbn; [by rewrite app_nil_r|].
    rewrite IH. unfold clean_step. rewrite !bool_decide_false by done. cbn. by rewrite <-app_assoc. }
  destruct es as [|e es]; [done|]. unfold join_slash.
  rewrite str_bytes_concat, map_map. change (λ x : string, str_bytes ("/" +:+ x)) with (λ x, ch "/" :: str_bytes x).
  rewrite split_slashes by done. transitivity (foldl clean_step [] (e :: es)); [done|apply Hf].
Qed.

Lemma Clean_idemp path : Clean (Clean path) = Clean path.
Proof. unfold Clean. by rewrite elements_join by apply clean_elements_plain. Qed.

(** ** Lemmas: uploads *)

Lemma int_part_nonneg f : flt f (float_of_Z 0) = false → 0 ≤ int_part f.
Proof.
  destruct f as [| | |s m e]; cbn; try done. destruct s; [done|]. intros _.
  case_match; [apply Z.mul_nonneg_nonneg; [lia|by apply Z.pow_nonneg]|]. apply Z.div_pos; [lia|]. apply Z.pow_pos_nonneg; lia.
Qed.

Lemma uint64FieldDefault_nonneg overflow event key fallback n :
  0 ≤ fallback → uint64FieldDefault overflow event key fallback = Ok n → 0 ≤ n.
Proof.
  intros Hf. unfold uint64FieldDefault. destruct (event !! key) as [[]|]; try done; [| |by intros [= <-]].
  - destruct (_ || _) eqn:E; [done|]. apply orb_false_iff in E as [E _]. apply orb_false_iff in E as [E _].
    intros [= <-]. unfold float_to_uint64. case_match; [by apply int_part_nonneg|]. apply wrap_u_range. lia.
  - destruct (Z.ltb_spec n0 0); [done|]. by intros [= <-].
Qed.

(** A command that declares an upload: its path, size and checksum. *)
Definition declares (overflow : Z) (command : gmap string value) (path : string) (size : Z) (checksum : string) : Prop :=
  stringField command "type" = "upload_start" ∧ deviceFilePath (stringField command "path") = Ok path ∧
  uint64FieldDefault overflow command "size" (2 ^ 64 - 1) = Ok size ∧ ToLowerASCII (stringField command "sha256") = checksum.

Section uploads.
Context `{Crypto} (overflow : Z) (error_text : error → string).
Context (declared : string → Z → string → Prop).

(** An upload in progress has been declared and has taken no more than it declared. *)
Definition upload_ok (u : fileUpload) : Prop :=
  blen (upData u) ≤ upSize u ≤ maxDeviceFileSize ∧ hex_decoded (upChecksum u) = Some 32 ∧
  declared (upPath u) (upSize u) (upChecksum u).
Definition files_inv (m : deviceFileManager) : Prop :=
  ∀ c s u, fmSessions m !! c = Some s → fsUpload s = Some u → upload_ok u.

(** The staging files that are in use. *)
Definition staged (m : deviceFileManager) (stage : string) : Prop :=
  ∃ c s u, fmSessions m !! c = Some s ∧ fsUpload s = Some u ∧ upStage u = stage.

(** What a call may do: a committed file is whole and has its checksum, nothing but a
    path that is no storage root is deleted, and a staging file that is created or in
    use is discarded or stays in use. *)
Record effects_ok (m m' : deviceFileManager) (c : list file_effect) : Prop := {
  ef_inv : files_inv m';
  ef_commit : ∀ stage path data, FCommit stage path data ∈ c →
    blen data ≤ maxDeviceFileSize ∧ declared path (blen data) (hex (sha256 data));
  ef_delete : ∀ path, FDelete path ∈ c → (path ∉ storage_roots) ∧ Clean path = path;
  ef_stage : ∀ stage, staged m stage ∨ (∃ path, FStage stage path ∈ c) → (FDiscard stage ∈ c) ∨ staged m' stage;
}.

Lemma staged_put m c s stage :
  staged (put_session c s m) stage ↔
  (∃ u, fsUpload s = Some u ∧ upStage u = stage) ∨ ∃ c' s' u, c' ≠ c ∧ fmSessions m !! c' = Some s' ∧ fsUpload s' = Some u ∧ upStage u = stage.
Proof.
  unfold staged. cbn. split.
  - intros (c' & s' & u & Hc & Hu & Hs). destruct (decide (c' = c)) as [->|Hne].
    + rewrite lookup_insert_eq in Hc. injection Hc as <-. left. by exists u.
    + rewrite lookup_insert_ne in Hc by done. right. by exists c', s', u.
  - intros [(u & Hu & Hs)|(c' & s' & u & Hne & Hc & Hu & Hs)].
    + exists c, s, u. by rewrite lookup_insert_eq.
    + exists c', s', u. by rewrite lookup_insert_ne.
Qed.

Lemma staged_put_same m c s s0 stage : fmSessions m !! c = Some s0 → fsUpload s = fsUpload s0 →
  staged (put_session c s m) stage ↔ staged m stage.
Proof.
  intros H0 Hs. rewrite staged_put. split.
  - intros [(u & Hu & E)|(c' & s' & u & _ & Hc & Hu & E)]; [exists c, s0, u; by rewrite <-Hs|by exists c', s', u].
  - intros (c' & s' & u & Hc & Hu & E). destruct (decide (c' = c)) as [->|Hne]; [left|right].
    + simplify_eq. exists u. by rewrite Hs.
    + by exists c', s', u.
Qed.

Lemma files_inv_put m c s : files_inv m → (∀ u, fsUpload s = Some u → upload_ok u) → files_inv (put_session c s m).
Proof.
  intros Hi Hs c' s' u. cbn. destruct (decide (c' = c)) as [->|Hne].
  - rewrite lookup_insert_eq. intros [= <-]. apply Hs.
  - rewrite lookup_insert_ne by done. apply Hi.
Qed.

(** A call without file effects. *)
Lemma effects_quiet m m' c :
  files_inv m' → (∀ stage, staged m stage → staged m' stage) →
  Forall (λ e, match e with FCommit _ _ _ | FDelete _ | FStage _ _ => False | _ => True end) c →
  effects_ok m m' c.
Proof.
  intros Hi Hs Hq. rewrite Forall_forall in Hq. split; [done|..].
  - by intros stage path data ?%Hq.
  - by intros path ?%Hq.
  - intros stage [?|(path & ?%Hq)]; [right; auto|done].
Qed.

Lemma write_chunk_spec fa u data : upload_ok u →
  upStage (write_chunk fa u data).1 = upStage u ∧ upPath (write_chunk fa u data).1 = upPath u ∧
  upSize (write_chunk fa u data).1 = upSize u ∧ upChecksum (write_chunk fa u data).1 = upChecksum u ∧
  upInstall (write_chunk fa u data).1 = upInstall u ∧ upload_ok (write_chunk fa u data).1.
Proof.
  intros [Hs Hc]. unfold write_chunk. destruct (_ || _) eqn:E; [by split_and!|].
  apply orb_false_iff in E as [_ E%Z.ltb_ge]. destruct (fa_write fa (upStage u) data) as [n err]. cbn.
  split_and!; try done. split; [|done]. cbn. unfold blen in *. rewrite length_app, length_take. lia.
Qed.

Lemma finish_checks_None fa u err : finish_checks fa u err = None → err = None ∧ hex (sha256 (upData u)) = upChecksum u.
Proof.
  unfold finish_checks, first_error. destruct err as [e|]; [done|].
  case_bool_decide; [done|]. by intros.
Qed.

(** The session that had [u] has no upload any more, and [u] has been discarded. *)
Lemma discarded_staged m c s u (l : list file_effect) stage : fmSessions m !! c = Some s → fsUpload s = Some u → FDiscard (upStage u) ∈ l →
  staged m stage → FDiscard stage ∈ l ∨ staged (put_session c (MkFileSession None (fsDownloading s)) m) stage.
Proof.
  intros Hs Hu Hl (c' & s' & u' & Hc & Hu' & <-). destruct (decide (c' = c)) as [->|Hne].
  - simplify_eq. by left.
  - right. apply staged_put. right. by exists c', s', u'.
Qed.

Lemma Chunk_effects fa c data m : files_inv m → effects_ok m (Chunk error_text fa c data m).1 (Chunk error_text fa c data m).2.
Proof.
  intros Hi. unfold Chunk. destruct (fmSessions m !! c) as [s|] eqn:Es; [|by apply effects_quiet; [done..|constructor]].
  destruct (fsUpload s) as [u|] eqn:Eu; [|by apply effects_quiet; [done..|constructor]].
  pose proof (write_chunk_spec fa u data (Hi _ _ _ Es Eu)) as (W1 & W2 & W3 & W4 & _ & W6).
  destruct (write_chunk fa u data) as [u' err]. cbn [fst] in *. destruct (_ || _) eqn:Efin.
  - set (r := match finish_checks fa u' err with Some e => _ | None => _ end).
    assert (∀ e, e ∈ r.1 → e = FCommit (upStage u') (upPath u') (upData u') ∧ hex (sha256 (upData u')) = upChecksum u' ∧ blen (upData u') = upSize u') as Hr.
    { subst r. intros e. destruct (finish_checks fa u' err) eqn:Ef; cbn; [by intros ?%elem_of_nil|].
      intros ->%list_elem_of_singleton. split; [done|]. apply finish_checks_None in Ef as [-> ?]. split; [done|].
      apply orb_true_iff in Efin as [Efin|Efin]; [done|]. by apply Z.eqb_eq. }
    destruct r as [commit err'] eqn:Er. clear Er r. cbn [fst snd] in *.
    assert (∀ e, e ∈ commit ++ [FDiscard (upStage u'); FSend c (ack error_text u' true err')] ++
      (if bool_decide (err' = None) && upInstall u' then [FStartInstall c (upPath u')] else []) →
      e ∈ commit ∨ match e with FCommit _ _ _ | FDelete _ | FStage _ _ => False | _ => True end) as Hin.
    { intros e [?|He]%elem_of_app; [by left|right]. apply elem_of_app in He as [He|He].
      - apply elem_of_cons in He as [->| ->%list_elem_of_singleton]; done.
      - case_match; [by apply list_elem_of_singleton in He as ->|by apply elem_of_nil in He]. }
    split.
    + by apply files_inv_put.
    + intros stage path d [([= -> -> ->] & Hh & Hsz)%Hr|[]]%Hin. destruct W6 as (W6 & _ & W7).
      split; [lia|]. by rewrite Hsz, Hh.
    + by intros path [[? _]%Hr|[]]%Hin.
    + intros stage [Hst|(path & [[? _]%Hr|[]]%Hin)]; [|done]. eapply discarded_staged; [done..| |done].
      rewrite W1. apply elem_of_app. right. by left.
  - apply effects_quiet; cbn [fst snd]; [apply files_inv_put; [done|by intros ? [= <-]]| |by repeat constructor].
    intros stage (c' & s' & u0 & Hc & Hu & <-). apply staged_put. destruct (decide (c' = c)) as [->|Hne].
    + left. simplify_eq. by exists u'.
    + right. by exists c', s', u0.
Qed.

Lemma effects_trans m m1 m2 c1 c2 : effects_ok m m1 c1 → effects_ok m1 m2 c2 → effects_ok m m2 (c1 ++ c2).
Proof.
  intros [_ A1 A2 A3] [B0 B1 B2 B3]. split; [done|..].
  - intros stage path d [?|?]%elem_of_app; eauto.
  - intros path [?|?]%elem_of_app; eauto.
  - intros stage Hst. setoid_rewrite elem_of_app. assert (staged m stage ∨ (∃ p, FStage stage p ∈ c1) ∨ (∃ p, FStage stage p ∈ c2)) as H1.
    { destruct Hst as [?|(p & [?|?]%elem_of_app)]; eauto. }
    destruct H1 as [H1|[H1|H1]].
    + destruct (A3 stage (or_introl H1)) as [?|H2]; [auto|]. destruct (B3 stage (or_introl H2)); auto.
    + destruct (A3 stage (or_intror H1)) as [?|H2]; [auto|]. destruct (B3 stage (or_introl H2)); auto.
    + destruct (B3 stage (or_intror H1)); auto.
Qed.

Lemma startUpload_effects fa c path command m : files_inv m →
  (∀ size, uint64FieldDefault overflow command "size" (2 ^ 64 - 1) = Ok size →
     declared path size (ToLowerASCII (stringField command "sha256"))) →
  effects_ok m (startUpload overflow error_text fa c path command m).1.1 (startUpload overflow error_text fa c path command m).1.2.
Proof.
  intros Hi Hdecl. unfold startUpload.
  assert (effects_ok m m []) as H0 by (by apply effects_quiet; [done..|constructor]).
  destruct (uint64FieldDefault _ _ _ _) as [size|] eqn:Esize; [|done].
  specialize (Hdecl size eq_refl). apply uint64FieldDefault_nonneg in Esize; [|done]. destruct (maxDeviceFileSize <? size) eqn:Em; [done|].
  case_bool_decide as Hx; [|done]. cbn [negb]. destruct (fa_stage fa path) as [stage|]; [|done].
  set (u := MkUpload stage path size [] _ _).
  assert (effects_ok m m [FStage stage path; FDiscard stage]) as Hd.
  { split; [done|by intros ? ? ? [?|[?|?%elem_of_nil]%elem_of_cons]%elem_of_cons|by intros ? [?|[?|?%elem_of_nil]%elem_of_cons]%elem_of_cons|].
    intros st [?|(p & [[= -> _]|[?|?%elem_of_nil]%elem_of_cons]%elem_of_cons)]; [by right| |done|done]. left. right. by left. }
  destruct (fmSessions m !! c) as [s|] eqn:Es; [|done]. destruct (fsUpload s) as [u0|] eqn:Eu; [done|].
  bool_to_prop.
  assert (upload_ok u) as Hu.
  { split; [cbn; unfold blen; cbn; lia|]. by split. }
  set (sent := [FStage stage path; _]). set (m1 := put_session c _ m).
  assert (effects_ok m m1 sent) as H1.
  { split.
    - apply files_inv_put; [done|]. by intros ? [= <-].
    - by intros ? ? ? [?|[?|?%elem_of_nil]%elem_of_cons]%elem_of_cons.
    - by intros ? [?|[?|?%elem_of_nil]%elem_of_cons]%elem_of_cons.
    - intros st Hst. right. apply staged_put. cbn.
      destruct Hst as [(c' & s' & u' & Hc & Hu' & E)|(p & [[= -> _]|[?|?%elem_of_nil]%elem_of_cons]%elem_of_cons)]; [|by left; exists u|done..].
      right. exists c', s', u'. split; [|done]. intros ->. simplify_eq. }
  destruct (size =? 0).
  - pose proof (Chunk_effects fa c [] m1 (ef_inv _ _ _ H1)) as H2.
    destruct (Chunk error_text fa c [] m1) as [m2 c2]. cbn [fst snd] in *. by eapply effects_trans.
  - done.
Qed.

Lemma Command_effects fa c command m : files_inv m →
  (∀ path size checksum, declares overflow command path size checksum → declared path size checksum) →
  effects_ok m (Command overflow error_text fa c command m).1 (Command overflow error_text fa c command m).2.
Proof.
  intros Hi Hdecl. unfold Command. destruct (fmSessions m !! c) as [s|] eqn:Es; [|by apply effects_quiet; [done..|constructor]].
  destruct (deviceFilePath _) as [path|e] eqn:Ep; [|by apply effects_quiet; [done..|repeat constructor]].
  destruct (bool_decide _); [by apply effects_quiet; [done..|repeat constructor]|].
  destruct (bool_decide _); [by apply effects_quiet; [done..|repeat constructor]|].
  destruct (bool_decide _).
  { case_bool_decide as Hroot; [by apply effects_quiet; [done..|repeat constructor]|]. cbn [fst snd app]. split.
    - done.
    - by intros ? ? ? [?|[?|?%elem_of_nil]%elem_of_cons]%elem_of_cons.
    - intros p [[= ->]|[?|?%elem_of_nil]%elem_of_cons]%elem_of_cons; [|done..]. split; [done|].
      revert Ep. unfold deviceFilePath. case_match; [done|]. intros [= <-]. apply Clean_idemp.
    - intros st [?|(p & [?|[?|?%elem_of_nil]%elem_of_cons]%elem_of_cons)]; [by right|done..]. }
  destruct (bool_decide (stringField command "type" = "upload_start")) eqn:Ekind.
  { apply bool_decide_eq_true in Ekind.
    pose proof (startUpload_effects fa c path command m Hi (λ size Hsz, Hdecl path size _ (conj Ekind (conj Ep (conj Hsz eq_refl))))) as H1.
    destruct (startUpload _ _ _ _ _ _ m) as [[m1 c1] [u|e]]; cbn [fst snd] in *; [done|].
    eapply effects_trans; [exact H1|]. apply effects_quiet; [apply H1|done|by repeat constructor]. }
  destruct (bool_decide (stringField command "type" = "download_start")).
  { destruct (fsDownloading s); [by apply effects_quiet; [done..|repeat constructor]|].
    apply effects_quiet; [|intros st; cbn [fst]; by rewrite (staged_put_same m c _ s)|by repeat constructor].
    apply files_inv_put; [done|]. intros u Hu. by apply (Hi c s u). }
  destruct (bool_decide (stringField command "type" = "install_apk")); by apply effects_quiet; [done..|repeat constructor].
Qed.

Lemma file_apply_effects fa e m : files_inv m →
  (∀ c command path size checksum, e = EvCommand c command → declares overflow command path size checksum → declared path size checksum) →
  effects_ok m (file_apply overflow error_text fa e m).1 (file_apply overflow error_text fa e m).2.
Proof.
  intros Hi Hdecl. destruct e as [c|c command|c data|same c|c|]; cbn [file_apply].
  - unfold Open. destruct (fmClosed m); [by apply effects_quiet; [done..|constructor]|].
    destruct (fmSessions m !! c) as [s|] eqn:Es; [by apply effects_quiet; [done..|repeat constructor]|].
    apply effects_quiet; [by apply files_inv_put| |by repeat constructor].
    intros st (c' & s' & u & Hc & Hu & E). apply staged_put. right. exists c', s', u. split; [|done]. intros ->. simplify_eq.
  - apply Command_effects; [done|]. intros path size checksum. by apply (Hdecl c command).
  - by apply Chunk_effects.
  - unfold download_done. destruct same; [|by apply effects_quiet; [done..|constructor]]. cbn [negb].
    destruct (fmSessions m !! c) as [s|] eqn:Es; [|by apply effects_quiet; [done..|constructor]].
    apply effects_quiet; [|intros st; cbn [fst]; by rewrite (staged_put_same m c _ s)|by constructor].
    apply files_inv_put; [done|]. intros u Hu. by apply (Hi c s u).
  - unfold CloseClient. destruct (fmSessions m !! c) as [s|] eqn:Es; [|by apply effects_quiet; [done..|constructor]].
    assert (∀ e, e ∈ discardUpload (fsUpload s) → ∃ u, fsUpload s = Some u ∧ e = FDiscard (upStage u)) as Hd.
    { intros e. unfold discardUpload. destruct (fsUpload s) as [u|]; [intros ->%list_elem_of_singleton; by exists u|by intros ?%elem_of_nil]. }
    split; cbn [fst snd].
    + intros c' s' u. cbn. intros [_ Hc]%lookup_delete_Some. exact (Hi c' s' u Hc).
    + by intros ? ? ? (? & _ & ?)%Hd.
    + by intros ? (? & _ & ?)%Hd.
    + intros st [(c' & s' & u & Hc & Hu & <-)|(p & (? & _ & ?)%Hd)]; [|done]. destruct (decide (c' = c)) as [->|Hne].
      * left. simplify_eq. unfold discardUpload. rewrite Hu. by left.
      * right. exists c', s', u. cbn. by rewrite lookup_delete_ne.
  - unfold Close. cbn [fst snd].
    assert (∀ e, e ∈ flat_map (λ s, discardUpload (fsUpload s)) (map_values (fmSessions m)) ↔
      ∃ c s u, fmSessions m !! c = Some s ∧ fsUpload s = Some u ∧ e = FDiscard (upStage u)) as Hd.
    { intros e. rewrite list_elem_of_In, in_flat_map. setoid_rewrite <-list_elem_of_In. split.
      - intros (s & [c Hc]%elem_of_map_values & He). unfold discardUpload in He. destruct (fsUpload s) as [u|] eqn:Eu.
        + apply list_elem_of_singleton in He as ->. by exists c, s, u.
        + by apply elem_of_nil in He.
      - intros (c & s & u & Hc & Hu & ->). exists s. split; [apply elem_of_map_values; by exists c|].
        unfold discardUpload. rewrite Hu. by left. }
    split.
    + intros c s u; cbn; by intros ?%lookup_empty_Some.
    + by intros ? ? ? (? & ? & ? & _ & _ & ?)%Hd.
    + by intros ? (? & ? & ? & _ & _ & ?)%Hd.
    + intros st [(c' & s' & u & Hc & Hu & <-)|(p & (? & ? & ? & _ & _ & ?)%Hd)]; [|done]. left. apply Hd. by exists c', s', u.
Qed.

Lemma file_run_effects events : ∀ m, files_inv m →
  (∀ fa c command path size checksum, (fa, EvCommand c command) ∈ events →
     declares overflow command path size checksum → declared path size checksum) →
  effects_ok m (file_run overflow error_text events m).1 (file_run overflow error_text events m).2.
Proof.
  induction events as [|[fa e] l IH]; intros m Hi Hdecl; cbn [file_run]; [by apply effects_quiet; [done..|constructor]|].
  assert (effects_ok m (file_apply overflow error_text fa e m).1 (file_apply overflow error_text fa e m).2) as H1.
  { apply file_apply_effects; [done|]. intros c command path size checksum ->. apply (Hdecl fa c command). by left. }
  destruct (file_apply _ _ fa e m) as [m1 c1]. cbn [fst snd] in *.
  assert (effects_ok m1 (file_run overflow error_text l m1).1 (file_run overflow error_text l m1).2) as H2.
  { apply IH; [apply H1|]. intros fa' c command path size checksum Hin. apply (Hdecl fa' c command). by right. }
  destruct (file_run _ _ l m1) as [m2 c2]. cbn [fst snd] in *. by eapply effects_trans.
Qed.
End uploads.

Lemma Chunk_no_delete `{Crypto} error_text fa c data m path : FDelete path ∉ (Chunk error_text fa c data m).2.
Proof.
  unfold Chunk. destruct (fmSessions m !! c) as [s|]; [|by intros ?%elem_of_nil].
  destruct (fsUpload s) as [u|]; [|by intros ?%elem_of_nil]. destruct (write_chunk fa u data) as [u' err].
  destruct (_ || _); [|by intros ?%list_elem_of_singleton].
  destruct (finish_checks _ _ _) as [e|]; cbn [snd app]; intros Hin;
    repeat (apply elem_of_cons in Hin as [?|Hin]; [done|]);
    (case_match; [by apply list_elem_of_singleton in Hin|by apply elem_of_nil in Hin]).
Qed.

Lemma startUpload_no_delete `{Crypto} overflow error_text fa c p command m path :
  FDelete path ∉ (startUpload overflow error_text fa c p command m).1.2.
Proof.
  unfold startUpload. destruct (uint64FieldDefault _ _ _ _) as [size|]; [|by intros ?%elem_of_nil].
  destruct (maxDeviceFileSize <? size); [by intros ?%elem_of_nil|]. destruct (negb _); [by intros ?%elem_of_nil|].
  destruct (fa_stage fa p) as [stage|]; [|by intros ?%elem_of_nil].
  destruct (fmSessions m !! c) as [s|]; [|by intros [?|?%list_elem_of_singleton]%elem_of_cons].
  destruct (fsUpload s); [by intros [?|?%list_elem_of_singleton]%elem_of_cons|].
  destruct (size =? 0); [|by intros [?|?%list_elem_of_singleton]%elem_of_cons].
  match goal with |- context [Chunk error_text fa c [] ?x] => pose proof (Chunk_no_delete error_text fa c [] x path) as Hn;
    destruct (Chunk error_text fa c [] x) as [m2 c2] end.
  cbn [fst snd app] in *. intros [?|[?|?]%elem_of_cons]%elem_of_cons; done.
Qed.

Lemma split_bytes_sub sep l : ∀ cur e a, e ∈ split_bytes sep cur l → a ∈ str_bytes e → a ∈ cur ∨ a ∈ l.
Proof.
  induction l as [|b l IH]; intros cur e a; cbn.
  - intros ->%list_elem_of_singleton. rewrite str_bytes_str, elem_of_rev_bytes. by left.
  - rewrite elem_of_cons. destruct (decide (b = sep)) as [->|Hne].
    + intros [->|He]%elem_of_cons; [rewrite str_bytes_str, elem_of_rev_bytes; by left|].
      intros Ha. destruct (IH [] e a He Ha) as [?%elem_of_nil|?]; [done|]. right. by right.
    + intros He Ha. destruct (IH _ _ _ He Ha) as [[->|?]%elem_of_cons|?]; [right; by left|by left|right; by right].
Qed.

Lemma elem_of_removelast {A} (x : A) l : x ∈ removelast l → x ∈ l.
Proof.
  induction l as [|a l IH]; cbn; [done|]. destruct l; [by intros ?%elem_of_nil|].
  intros [->|?]%elem_of_cons; [by left|right; by apply IH].
Qed.

Lemma clean_elements_sub raw e : e ∈ clean_elements raw → e ∈ Split raw "/".
Proof.
  unfold clean_elements. generalize (Split raw "/") as l. intros l.
  assert (∀ acc, e ∈ foldl clean_step acc l → e ∈ acc ∨ e ∈ l) as H.
  { induction l as [|x l IH]; intros acc; cbn; [by left|]. intros [Hin|?]%IH; [|right; by right].
    unfold clean_step in Hin. repeat case_match; [by left|left; by apply elem_of_removelast|].
    apply elem_of_app in Hin as [?| ->%list_elem_of_singleton]; [by left|right; by left]. }
  intros [?%elem_of_nil|?]%H; done.
Qed.

Lemma Clean_abs raw : IsAbs (Clean raw) = true.
Proof.
  assert (∀ s, IsAbs ("/" +:+ s) = true) as Hs by (by intros []).
  unfold Clean, join_slash. destruct (clean_elements raw) as [|e [|e' l]]; [done|apply Hs|].
  change (String.concat "" (map (λ e, "/" +:+ e) (e :: e' :: l))) with
    ("/" +:+ (e +:+ "" +:+ String.concat "" (map (λ e, "/" +:+ e) (e' :: l)))). apply Hs.
Qed.

Lemma Clean_no_zero raw : ContainsByte raw "000" = false → ContainsByte (Clean raw) "000" = false.
Proof.
  unfold ContainsByte. intros Hr%bool_decide_eq_false. apply bool_decide_eq_false. intros Hin.
  unfold Clean, join_slash in Hin. destruct (clean_elements raw) as [|e es] eqn:E; [by apply list_elem_of_singleton in Hin|].
  rewrite <-E in Hin. rewrite str_bytes_concat, map_map, list_elem_of_In, in_concat in Hin.
  destruct Hin as (x & (e' & <- & He)%in_map_iff & Hx). apply list_elem_of_In in He; apply list_elem_of_In in Hx.
  apply elem_of_cons in Hx as [?|Hx]; [done|]. apply clean_elements_sub in He.
  destruct (split_bytes_sub _ _ _ _ _ He Hx) as [?%elem_of_nil|?]; done.
Qed.

(** ** Lemmas: whole uploads and downloads *)

(** A device on which every step of an upload succeeds. *)
Definition device_ok (fa : file_answers) : Prop :=
  (∀ stage data, fa_write fa stage data = (length data, None)) ∧ (∀ stage, fa_chmod fa stage = Ok ()) ∧
  (∀ stage, fa_sync fa stage = Ok ()) ∧ (∀ stage, fa_close fa stage = Ok ()) ∧ (∀ stage path, fa_commit fa stage path = Ok ()).

(** Sending chunks one after the other. *)
Definition chunk_all `{Crypto} (error_text : error → string) (fa : file_answers) (clientID : string)
    (chunks : list bytes) (m : deviceFileManager) : deviceFileManager * list file_effect :=
  foldl (λ acc data, let '(m, c) := Chunk error_text fa clientID data acc.1 in (m, acc.2 ++ c)) (m, []) chunks.

Section whole.
Context `{Crypto} (error_text : error → string) (fa : file_answers) (Hfa : device_ok fa).

Definition with_data (d : bytes) (u : fileUpload) : fileUpload :=
  MkUpload (upStage u) (upPath u) (upSize u) d (upChecksum u) (upInstall u).

Lemma write_chunk_ok u data : blen data ≤ 65536 → blen (upData u) + blen data ≤ upSize u →
  write_chunk fa u data = (with_data (upData u ++ data) u, None).
Proof.
  intros H1 H2. destruct Hfa as [Hw _]. unfold write_chunk.
  rewrite (proj2 (Z.ltb_ge _ _)) by done. rewrite (proj2 (Z.ltb_ge _ _)) by done. cbn [orb].
  rewrite Hw, take_ge by done. by rewrite Nat.eqb_refl.
Qed.

Lemma Chunk_middle c s u data m : fmSessions m !! c = Some s → fsUpload s = Some u →
  blen data ≤ 65536 → blen (upData u) + blen data < upSize u →
  Chunk error_text fa c data m =
  (put_session c (MkFileSession (Some (with_data (upData u ++ data) u)) (fsDownloading s)) m,
   [FSend c (ack error_text (with_data (upData u ++ data) u) false None)]).
Proof.
  intros Hs Hu H1 H2. unfold Chunk. rewrite Hs, Hu, write_chunk_ok by lia. rewrite bool_decide_true by done. cbn [negb orb].
  rewrite (proj2 (Z.eqb_neq _ _)); [done|]. cbn. unfold blen in *. rewrite length_app. lia.
Qed.

Lemma Chunk_last c s u data m : fmSessions m !! c = Some s → fsUpload s = Some u →
  blen data ≤ 65536 → blen (upData u) + blen data = upSize u → hex (sha256 (upData u ++ data)) = upChecksum u →
  Chunk error_text fa c data m =
  (put_session c (MkFileSession None (fsDownloading s)) m,
   [FCommit (upStage u) (upPath u) (upData u ++ data); FDiscard (upStage u);
    FSend c (ack error_text (with_data (upData u ++ data) u) true None)] ++
   (if upInstall u then [FStartInstall c (upPath u)] else [])).
Proof.
  intros Hs Hu H1 H2 Hsha. unfold Chunk. rewrite Hs, Hu, write_chunk_ok by lia. rewrite (bool_decide_true (None = None)) by done. cbn [negb orb].
  assert (blen (upData (with_data (upData u ++ data) u)) = upSize u) as E by (cbn; unfold blen in *; rewrite length_app; lia).
  cbn [upSize with_data] in *. rewrite E, Z.eqb_refl. destruct Hfa as (_ & F1 & F2 & F3 & F4).
  unfold finish_checks. cbn [upStage upData upChecksum with_data upPath upInstall]. rewrite bool_decide_true by done. rewrite F1, F2, F3, F4.
  cbn. done.
Qed.

Lemma chunk_all_app c chunks : ∀ m l, foldl (λ acc data, let '(m, c) := Chunk error_text fa c data acc.1 in (m, acc.2 ++ c)) (m, l) chunks =
  ((chunk_all error_text fa c chunks m).1, l ++ (chunk_all error_text fa c chunks m).2).
Proof.
  unfold chunk_all. induction chunks as [|d chunks IH]; intros m l; cbn [foldl]; [by rewrite app_nil_r|].
  cbn [fst snd]. destruct (Chunk _ _ _ d m) as [m1 c1]. rewrite (IH m1 (l ++ c1)), (IH m1 ([] ++ c1)). cbn. by rewrite app_assoc.
Qed.

Lemma chunk_all_cons c d chunks m : chunk_all error_text fa c (d :: chunks) m =
  ((chunk_all error_text fa c chunks (Chunk error_text fa c d m).1).1,
   (Chunk error_text fa c d m).2 ++ (chunk_all error_text fa c chunks (Chunk error_text fa c d m).1).2).
Proof.
  unfold chunk_all at 1. cbn [foldl fst snd]. destruct (Chunk _ _ _ d m) as [m1 c1]. cbn [app fst snd]. apply chunk_all_app.
Qed.

(** The chunks of a file: the last one commits it. *)
Lemma chunk_all_commits c : ∀ chunks m s u,
  fmSessions m !! c = Some s → fsUpload s = Some u → chunks ≠ [] → Forall (λ d, 1 ≤ blen d ≤ 65536) chunks →
  blen (upData u) + blen (concat chunks) = upSize u → hex (sha256 (upData u ++ concat chunks)) = upChecksum u →
  ∃ acks rest, (chunk_all error_text fa c chunks m).2 = acks ++ FCommit (upStage u) (upPath u) (upData u ++ concat chunks) ::
      FDiscard (upStage u) :: FSend c (ack error_text (with_data (upData u ++ concat chunks) u) true None) :: rest ∧
    Forall (λ e, ∃ d, e = FSend c (ack error_text (with_data d u) false None)) acks ∧
    rest = (if upInstall u then [FStartInstall c (upPath u)] else []) ∧
    fmSessions (chunk_all error_text fa c chunks m).1 !! c = Some (MkFileSession None (fsDownloading s)).
Proof.
  induction chunks as [|d chunks IH]; intros m s u Hs Hu Hne Hall Hlen Hsha; [done|].
  apply Forall_cons in Hall as [Hd Hall]. rewrite chunk_all_cons. cbn [fst snd concat] in *.
  assert (blen (d ++ concat chunks) = blen d + blen (concat chunks)) as Hcat by (unfold blen; rewrite length_app; lia).
  destruct chunks as [|d' chunks].
  - cbn [concat] in *. rewrite app_nil_r in *. rewrite (Chunk_last c s u d m) by (done || lia).
    exists [], (if upInstall u then [FStartInstall c (upPath u)] else []). cbn [fst snd chunk_all foldl app].
    rewrite app_nil_r. split_and!; [done|constructor|done|]. cbn. by rewrite lookup_insert_eq.
  - assert (1 ≤ blen (concat (d' :: chunks))) as Hpos.
    { apply Forall_cons in Hall as [Hd' _]. cbn [concat]. unfold blen in *. rewrite length_app. lia. }
    rewrite (Chunk_middle c s u d m) by (done || lia). cbn [fst snd].
    destruct (IH (put_session c (MkFileSession (Some (with_data (upData u ++ d) u)) (fsDownloading s)) m)
                (MkFileSession (Some (with_data (upData u ++ d) u)) (fsDownloading s)) (with_data (upData u ++ d) u))
      as (acks & rest & E & Ha & Hr & Hend); [cbn; by rewrite lookup_insert_eq|done|done|done| | |].
    + cbn [upData upSize with_data]. rewrite Hcat in Hlen. unfold blen in *. rewrite length_app. lia.
    + cbn [upData upChecksum with_data]. by rewrite <-app_assoc.
    + cbn [upData upStage upPath upInstall with_data fsDownloading] in *. rewrite <-app_assoc in E.
      exists (FSend c (ack error_text (with_data (upData u ++ d) u) false None) :: acks), rest. rewrite E.
      split_and!; [done| |done|done]. constructor; [by eexists|exact Ha].
Qed.
End whole.

(** The bytes a download delivers. *)
Definition delivered (c : list file_effect) : bytes := flat_map (λ e, match e with FChunk _ _ d => d | _ => [] end) c.

Lemma download_loop_spec clientID path req fuel : ∀ remaining content,
  0 ≤ remaining → remaining ≤ blen content → (Z.to_nat remaining < fuel)%nat →
  let c := download_loop fuel (λ _, true) clientID path req remaining content in
  delivered c = take (Z.to_nat remaining) content ∧
  Forall (λ e, ∃ d, e = FChunk clientID req d ∧ 1 ≤ blen d ≤ 16384) c.
Proof.
  induction fuel as [|fuel IH]; intros remaining content H0 Hlen Hfuel; [lia|]. cbn [download_loop].
  destruct (Z.ltb_spec 0 remaining) as [Hpos|Hz]; [|replace remaining with 0 by lia; by split].
  cbn [andb]. set (size := Z.min remaining download_chunk).
  assert (1 ≤ size ≤ 16384 ∧ size ≤ remaining) as Hsize by (subst size; change download_chunk with 16384; lia).
  assert (blen (take (Z.to_nat size) content) = size) as Hd by (unfold blen in *; rewrite length_take; lia).
  rewrite Hd, Z.ltb_irrefl. assert ((0 <? length (take (Z.to_nat size) content))%nat = true) as ->.
  { apply Nat.ltb_lt. unfold blen in Hd. lia. }
  destruct (IH (remaining - size) (drop (Z.to_nat size) content)) as [E Hall]; [lia| |lia|].
  { unfold blen in *. rewrite length_drop. lia. }
  split.
  - unfold delivered in *. cbn [app flat_map]. rewrite E.
    rewrite <-(take_drop (Z.to_nat size) (take (Z.to_nat remaining) content)). rewrite take_take, skipn_firstn_comm.
    f_equal; [f_equal; lia|]. f_equal. lia.
  - constructor; [|exact Hall]. eexists. split; [done|]. lia.
Qed.

(** ** Properties *)

(** C37: In every run of the file manager, whatever the device answers, a file reaches
    the device only if a command declared its path and size, and its bytes have that
    size, at most 2 GiB, and the SHA-256 that the command declared; and every staging
    file is discarded in the end: it is still in use by an open session or has been
    discarded, so that nothing is left once the manager has closed. *)
Theorem uploads_checked `{Crypto} overflow error_text events :
  let '(m, c) := file_run overflow error_text events newDeviceFileManager in
  (∀ stage path data, FCommit stage path data ∈ c →
     blen data ≤ maxDeviceFileSize ∧
     ∃ fa clientID command, (fa, EvCommand clientID command) ∈ events ∧
       declares overflow command path (blen data) (hex (sha256 data))) ∧
  (∀ stage path, FStage stage path ∈ c → FDiscard stage ∈ c ∨ staged m stage) ∧
  (fmSessions m = ∅ → ∀ stage path, FStage stage path ∈ c → FDiscard stage ∈ c).
Proof.
  set (declared := λ path size checksum, ∃ fa clientID command, (fa, EvCommand clientID command) ∈ events ∧
         declares overflow command path size checksum).
  assert (effects_ok declared newDeviceFileManager (file_run overflow error_text events newDeviceFileManager).1
            (file_run overflow error_text events newDeviceFileManager).2) as Hok.
  { apply file_run_effects; [intros c s u; cbn; by intros ?%lookup_empty_Some|].
    intros fa c command path size checksum Hin Hd. by exists fa, c, command. }
  destruct (file_run _ _ events _) as [m c]. cbn [fst snd] in Hok. destruct Hok as [_ H2 _ H4]. split_and!; [done|eauto|].
  intros Hm stage path Hin. destruct (H4 stage) as [?|(c' & s & u & Hc & _)]; [eauto|done|].
  rewrite Hm in Hc. by apply lookup_empty_Some in Hc.
Qed.

(** However a browser spells a path, a file command works on a clean absolute path:
    its elements are not empty, [.] or [..] and it is its own cleaning; and a deletion
    never names one of the storage roots. *)
Theorem file_paths_clean `{Crypto} overflow error_text fa clientID command m raw path :
  (deviceFilePath raw = Ok path →
     IsAbs raw = true ∧ path = join_slash (clean_elements raw) ∧ Forall plain_element (clean_elements raw) ∧
     Clean path = path ∧ deviceFilePath path = Ok path) ∧
  (FDelete path ∈ (Command overflow error_text fa clientID command m).2 →
     (path ∉ storage_roots) ∧ deviceFilePath (stringField command "path") = Ok path).
Proof.
  split.
  - unfold deviceFilePath. destruct (IsAbs raw) eqn:Ea; [|done]. cbn [negb orb].
    destruct (ContainsByte raw "000") eqn:En; [done|]. intros [= <-].
    split_and!; [done|done|apply clean_elements_plain|apply Clean_idemp|]. rewrite Clean_idemp.
    rewrite Clean_abs.
    assert (ContainsByte (Clean raw) "000" = false) as ->; [|done]. by apply Clean_no_zero.
  - unfold Command. destruct (fmSessions m !! clientID) as [s|]; [|by intros ?%elem_of_nil].
    destruct (deviceFilePath _) as [p|] eqn:Ep; [|by intros ?%list_elem_of_singleton].
    destruct (bool_decide (stringField command "type" = "list")); [by intros ?%list_elem_of_singleton|].
    destruct (bool_decide (stringField command "type" = "mkdir")); [by intros [?|?%list_elem_of_singleton]%elem_of_cons|].
    destruct (bool_decide (stringField command "type" = "delete")).
    { case_bool_decide as Hr; [by intros ?%list_elem_of_singleton|].
      intros [[= ->]|?%list_elem_of_singleton]%elem_of_cons; [|done]. by split. }
    destruct (bool_decide (stringField command "type" = "upload_start")).
    { pose proof (startUpload_no_delete overflow error_text fa clientID p command m path) as Hn.
      destruct (startUpload _ _ _ _ _ _ m) as [[m1 c1] [u|e]]; cbn [fst snd] in *; [done|].
      by intros [?|?%list_elem_of_singleton]%elem_of_app. }
    destruct (bool_decide (stringField command "type" = "download_start")).
    { destruct (fsDownloading s); by intros ?%list_elem_of_singleton. }
    destruct (bool_decide (stringField command "type" = "install_apk")); by intros ?%list_elem_of_singleton.
Qed.

(** A file sent in chunks of at most 64 KiB arrives whole: on a device that takes
    it, the upload is committed once, with exactly the bytes sent, after every chunk has
    been acknowledged as unfinished, and its staging file is discarded and the session
    ready for another upload. *)
Theorem upload_roundtrip `{Crypto} error_text fa clientID chunks m s u :
  device_ok fa → fmSessions m !! clientID = Some s → fsUpload s = Some u → upData u = [] →
  chunks ≠ [] → Forall (λ d, 1 ≤ blen d ≤ 65536) chunks →
  upSize u = blen (concat chunks) → upChecksum u = hex (sha256 (concat chunks)) →
  let '(m', c) := chunk_all error_text fa clientID chunks m in
  (∃ acks rest, c = acks ++ FCommit (upStage u) (upPath u) (concat chunks) :: FDiscard (upStage u) ::
       FSend clientID (ack error_text (with_data (concat chunks) u) true None) :: rest ∧
     Forall (λ e, ∃ d, e = FSend clientID (ack error_text (with_data d u) false None)) acks ∧
     rest = (if upInstall u then [FStartInstall clientID (upPath u)] else [])) ∧
  fmSessions m' !! clientID = Some (MkFileSession None (fsDownloading s)).
Proof.
  intros Hfa Hs Hu Hd Hne Hall Hsize Hsha.
  destruct (chunk_all_commits error_text fa Hfa clientID chunks m s u) as (acks & rest & E & Ha & Hr & Hend);
    [done..|by rewrite Hd, Hsize|by rewrite Hd, Hsha|].
  rewrite Hd in E. cbn [app] in E. destruct (chunk_all _ _ _ _ m) as [m' c]. cbn [fst snd] in *.
  split; [by exists acks, rest|done].
Qed.

(** A download delivers a regular file of up to 2 GiB whole and in order, in chunks
    of at most 16 KiB after its size; anything else is refused without a chunk. *)
Theorem download_whole error_text clientID path requestID regular size content :
  0 ≤ size → size ≤ blen content →
  let c := download error_text (λ _, true) clientID path requestID (Ok (regular, size, content)) in
  if regular && (size <=? maxDeviceFileSize) then
    ∃ reply chunks, c = FSend clientID reply :: chunks ∧ reply !! "size" = Some (VInt size) ∧
      reply !! "success" = Some (VBool true) ∧ delivered chunks = take (Z.to_nat size) content ∧
      Forall (λ e, ∃ d, e = FChunk clientID requestID d ∧ 1 ≤ blen d ≤ 16384) chunks
  else ∃ reply, c = [FSend clientID reply] ∧ reply !! "success" = Some (VBool false).
Proof.
  intros H0 Hlen c. unfold c, download. rewrite Z.ltb_antisym. destruct regular; cbn [negb orb andb].
  - destruct (size <=? maxDeviceFileSize) eqn:E; cbn [negb].
    + destruct (download_loop_spec clientID path requestID (S (Z.to_nat size)) size content) as [H1 H2]; [done|done|lia|].
      do 2 eexists. split; [reflexivity|]. split_and!; [|by rewrite lookup_insert_eq|done|done].
      by rewrite lookup_insert_ne, lookup_insert_eq.
    + eexists. split; [reflexivity|]. by rewrite lookup_insert_ne.
  - eexists. split; [reflexivity|]. by rewrite lookup_insert_ne.
Qed.

(** ** Witnesses *)

Module DeviceFilesWitness.
#[local] Existing Instance ToyCrypto.toy.
Definition fa : file_answers :=
  MkFileAnswers (λ _, Ok []) (λ _, Ok ()) (λ _, Ok ()) (λ _, Ok "stage") (λ _ d, (length d, None)) (λ _, Ok ())
    (λ _, Ok ()) (λ _, Ok ()) (λ _ _, Ok ()) (λ _, Ok "Success").
Lemma fa_ok : device_ok fa.
Proof. by split_and!. Qed.
Definition content : list bytes := [str_bytes "first "; str_bytes "second"].
Definition u : fileUpload := MkUpload "stage" "/sdcard/a.txt" 12 [] (hex (sha256 (concat content))) false.
Definition s : deviceFileSession := MkFileSession (Some u) false.
Definition m : deviceFileManager := put_session "c" s newDeviceFileManager.

Lemma upload_roundtrip_witness :
  fmSessions (chunk_all (λ _, "") fa "c" content m).1 !! "c" = Some (MkFileSession None false).
Proof.
  generalize (upload_roundtrip (λ _, "") fa "c" content m s u fa_ok).
  destruct (chunk_all (λ _, "") fa "c" content m) as [m' c]. intros Hr.
  refine (proj2 (Hr eq_refl eq_refl eq_refl _ _ eq_refl eq_refl)); [done|].
  apply (bool_decide_unpack (Forall (λ d, 1 ≤ blen d ≤ 65536) content)). by vm_compute.
Defined.

Lemma download_whole_witness : ∃ reply, download (λ _, "") (λ _, true) "c" "/dev/x" VNull (Ok (false, 3, str_bytes "abc")) = [FSend "c" reply].
Proof.
  destruct (download_whole (λ _, "") "c" "/dev/x" VNull false 3 (str_bytes "abc")) as (reply & E & _); [done..|].
  exists reply. exact E.
Defined.
End DeviceFilesWitness.
