(* ===== verification/Json.v ===== *)
(** * JSON request bodies (server.go: decodeJSON)

    The handlers decode a body into a struct declared in the handler, with unknown
    fields refused.  A struct is described by its schema; decoding checks a document
    against it as [encoding/json] does and yields the typed fields.  The text of the
    document is already parsed: object keys at the top are in their order. *)

From S2P Require Import Prelude GoBase GoStrings GoFloat Model.
From S2P Require Persist.

(** What a body of at most 1 MiB holds: [DInvalid] is an empty, malformed or truncated
    text; an integer literal is a [VInt], any other number a [VNum]. *)
Inductive document :=
| DInvalid
| DObject (fields : list (string * value))
| DValue (v : value).

(** The types of the fields: [any], string, bool, int or int64, slices, maps with string
    keys, and structs. *)
Inductive kind :=
| KAny
| KStr
| KBool
| KInt
| KList (k : kind)
| KMap (k : kind)
| KObj (schema : list (string * kind)).

Abbreviation schema := (list (string * kind)) (only parsing).

Definition zero_of (k : kind) : value :=
  match k with
  | KAny => VNull
  | KStr => VStr ""
  | KBool => VBool false
  | KInt => VInt 0
  | KList _ => VList []
  | KMap _ => VMap ∅
  | KObj _ => VMap ∅
  end.

Definition is_int64 (n : Z) : bool := (- 2 ^ 63 <=? n) && (n <? 2 ^ 63).

(** The value a field takes, [None] for a value of another type; a null leaves the zero
    value.  Keys are compared without regard to case. *)
Fixpoint decode_value (k : kind) (v : value) : option value :=
  match v with
  | VNull => Some (zero_of k)
  | _ =>
  match k, v with
  | KAny, _ => Some (Persist.json_value v)
  | KStr, VStr _ => Some v
  | KBool, VBool _ => Some v
  | KInt, VInt n => if is_int64 n then Some v else None
  | KList k, VList l => VList <$> mapM (decode_value k) l
  | KMap k, VMap m =>
      let decoded := decode_value k <$> m in
      if decide (map_Forall (λ _ d, is_Some d) decoded) then Some (VMap (omap id decoded)) else None
  | KObj fields, VMap m =>
      VMap <$> foldr (λ kv acc,
        r ← acc;
        (fix field (fields : list (string * kind)) : option (gmap string value) :=
           match fields with
           | [] => None
           | (name, k) :: fields =>
               if EqualFoldASCII name kv.1 then d ← decode_value k kv.2; Some (<[name := d]> r)
               else field fields
           end) fields) (Some ∅) (map_to_list m)
  | _, _ => None
  end
  end.

(** One key of the document. *)
Fixpoint decode_field (fields : schema) (key : string) (v : value) (r : vmap) : option vmap :=
  match fields with
  | [] => None
  | (name, k) :: fields =>
      if EqualFoldASCII name key then
        match v with
        | VNull => Some (match k with KList _ | KMap _ => delete name r | _ => r end)
        | _ => d ← decode_value k v; Some (<[name := d]> r)
        end
      else decode_field fields key v r
  end.

Fixpoint decode_fields (fields : schema) (l : list (string * value)) (r : vmap) : option vmap :=
  match l with
  | [] => Some r
  | (key, v) :: l => r ← decode_field fields key v r; decode_fields fields l r
  end.

(** [decodeJSON(r, &body)] for a struct. *)
Definition decodeJSON (fields : schema) (d : document) : option vmap :=
  match d with
  | DObject l => decode_fields fields l ∅
  | DValue VNull => Some ∅
  | _ => None
  end.

(** The same for a map and for a slice. *)
Definition decode_settings (d : document) : option vmap :=
  match d with
  | DObject l => Some (foldl (λ m kv, <[kv.1 := Persist.json_value kv.2]> m) ∅ l)
  | DValue VNull => Some ∅
  | _ => None
  end.
Definition decode_list (k : kind) (d : document) : option (list value) :=
  match d with
  | DValue v => match decode_value (KList k) v with Some (VList l) => Some l | _ => None end
  | _ => None
  end.

(** ** The fields of a decoded body *)

Definition boolField (body : vmap) (key : string) : bool := eq_true (body !! key).
Definition intField (body : vmap) (key : string) : Z :=
  match body !! key with Some (VInt n) => n | _ => 0 end.
Definition value_strings (v : value) : list string :=
  match v with VList l => omap (λ v, match v with VStr x => Some x | _ => None end) l | _ => [] end.
Definition stringsField (body : vmap) (key : string) : list string :=
  match body !! key with Some v => value_strings v | None => [] end.
Definition mapField_ (body : vmap) (key : string) : vmap := default ∅ (mapField body key).

(** ** Lemmas *)

(** A decoded body holds only fields of its schema, each with a value of its kind. *)
Definition has_kind (k : kind) (v : value) : Prop :=
  match k, v with
  | KAny, VInt _ => False
  | KAny, _ => True
  | KStr, VStr _ => True
  | KBool, VBool _ => True
  | KInt, VInt n => - 2 ^ 63 ≤ n < 2 ^ 63
  | KList _, VList _ => True
  | KMap _, VMap _ => True
  | KObj _, VMap _ => True
  | _, _ => False
  end.

Definition conforms (fields : schema) (body : vmap) : Prop :=
  map_Forall (λ name v, ∃ k, (name, k) ∈ fields ∧ has_kind k v) body.

Lemma decode_value_kind k v d : decode_value k v = Some d → has_kind k d.
Proof.
  destruct k, v; cbn; try done; try (by intros [= <-]).
  - unfold is_int64. destruct (_ && _) eqn:E; [|done]. intros [= <-]. bool_to_prop. lia.
  - destruct (mapM _ _); [|done]. by intros [= <-].
  - case_decide; [|done]. by intros [= <-].
  - destruct (foldr _ _ _); [|done]. by intros [= <-].
Qed.

Lemma decode_field_conforms fields key v r r' :
  conforms fields r → decode_field fields key v r = Some r' → conforms fields r'.
Proof.
  enough (∀ all, (∀ f, f ∈ fields → f ∈ all) → conforms all r →
    decode_field fields key v r = Some r' → conforms all r') as H by (by eapply H).
  intros all. induction fields as [|[name k] fields IH]; intros Hin Hr; [done|]. cbn [decode_field].
  assert (∀ d, has_kind k d → conforms all (<[name := d]> r)) as Hput.
  { intros d Hd. apply map_Forall_insert_2; [|done]. exists k. split; [apply Hin; by left|done]. }
  destruct (EqualFoldASCII name key); [|apply IH; [|done]; intros f Hf; apply Hin; by right].
  assert (∀ d, decode_value k v = Some d → conforms all (<[name := d]> r)) as Hdec.
  { intros d Hd. by apply Hput, (decode_value_kind k v). }
  destruct v; [| | | | | |]; try (destruct (decode_value k _) as [d|] eqn:E; cbn; [|done]; intros [= <-]; by apply Hdec).
  destruct k; intros [= <-]; try done; by apply map_Forall_delete.
Qed.

Lemma decode_fields_conforms fields l r r' :
  conforms fields r → decode_fields fields l r = Some r' → conforms fields r'.
Proof.
  revert r. induction l as [|[key v] l IH]; intros r Hr; [by intros [= <-]|]. cbn.
  destruct (decode_field fields key v r) as [r1|] eqn:E; [|done]. apply IH. by eapply decode_field_conforms.
Qed.

Lemma decodeJSON_conforms fields d body : decodeJSON fields d = Some body → conforms fields body.
Proof.
  destruct d as [|l|v]; cbn; [done| |].
  - apply decode_fields_conforms. apply map_Forall_empty.
  - destruct v; try done. intros [= <-]. apply map_Forall_empty.
Qed.

(** A body of the documented form decodes to itself. *)
Lemma EqualFoldASCII_refl x : EqualFoldASCII x x = true.
Proof. unfold EqualFoldASCII. by apply bool_decide_eq_true. Qed.

Lemma intField_range fields d body key :
  decodeJSON fields d = Some body → - 2 ^ 63 ≤ intField body key < 2 ^ 63.
Proof.
  intros Hc%decodeJSON_conforms. unfold intField. destruct (body !! key) as [v|] eqn:E; [|lia].
  destruct (Hc key v E) as (k & _ & Hk). by destruct v, k; cbn in Hk.
Qed.

(** ** Property *)


Module JsonWitness.
End JsonWitness.
