(* ===== verification/JsonText.v ===== *)
(** * The text of JSON documents (encoding/json)

    [Unmarshal] scans a whole text before it stores anything: [parse] reads a text of
    bytes into a [document], an integer literal as a [VInt] and any other number as a
    [VNum].  [quote] is the encoder of strings, with the escapes of [Marshal].  Strings
    that are valid UTF-8 survive both. *)

From S2P Require Import Prelude GoBase GoStrings GoFloat Model Json.

(** ** Characters *)

Definition json_space (a : byte) : bool := is_byte a 32 || is_byte a 9 || is_byte a 10 || is_byte a 13.
Fixpoint skip_space (l : bytes) : bytes :=
  match l with a :: l' => if json_space a then skip_space l' else l | [] => [] end.

Definition hex_value_of (a : byte) : option Z :=
  let v := byte_val a in
  if in_range a 48 57 then Some (v - 48)
  else if in_range a 97 102 then Some (v - 87)
  else if in_range a 65 70 then Some (v - 55) else None.

(** Four hexadecimal digits. *)
Definition getu4 (l : bytes) : option (Z * bytes) :=
  match l with
  | a :: b :: c :: d :: l =>
      x ← hex_value_of a; y ← hex_value_of b; z ← hex_value_of c; w ← hex_value_of d;
      Some (x * 4096 + y * 256 + z * 16 + w, l)
  | _ => None
  end.

(** [utf8.EncodeRune] of a code point that is not a surrogate. *)
Definition encode_rune (r : Z) : bytes :=
  if r <? 0x80 then [byte_of r]
  else if r <? 0x800 then [byte_of (0xC0 + r / 64); byte_of (0x80 + r mod 64)]
  else if r <? 0x10000 then [byte_of (0xE0 + r / 4096); byte_of (0x80 + r / 64 mod 64); byte_of (0x80 + r mod 64)]
  else [byte_of (0xF0 + r / 262144); byte_of (0x80 + r / 4096 mod 64); byte_of (0x80 + r / 64 mod 64); byte_of (0x80 + r mod 64)].

Definition replacement : bytes := encode_rune 0xFFFD.
Definition high_surrogate (r : Z) : bool := (0xD800 <=? r) && (r <? 0xDC00).
Definition low_surrogate (r : Z) : bool := (0xDC00 <=? r) && (r <? 0xE000).

(** ** Strings *)

Definition simple_escape (a : byte) : option byte :=
  if decide (a = ch "b") then Some (byte_of 8)
  else if decide (a = ch "f") then Some (byte_of 12)
  else if decide (a = ch "n") then Some (byte_of 10)
  else if decide (a = ch "r") then Some (byte_of 13)
  else if decide (a = ch "t") then Some (byte_of 9)
  else if is_byte a 34 || is_byte a 92 || is_byte a 47 then Some a else None.

(** The second half of a pair of surrogates. *)
Definition second_half (r : Z) (l : bytes) : option (Z * bytes) :=
  if negb (high_surrogate r) then None
  else match l with
       | a :: b :: l =>
           if is_byte a 92 && is_byte b 117 then
             match getu4 l with
             | Some (r', l) => if low_surrogate r' then Some (0x10000 + (r - 0xD800) * 1024 + (r' - 0xDC00), l) else None
             | None => None
             end
           else None
       | _ => None
       end.

(** After a [\u]. *)
Definition unicode_escape (l : bytes) : option (bytes * bytes) :=
  '(r, rest) ← getu4 l;
  if high_surrogate r || low_surrogate r then
    match second_half r rest with
    | Some (r, rest) => Some (encode_rune r, rest)
    | None => Some (replacement, rest)
    end
  else Some (encode_rune r, rest).

(** One character of a string, after which the text goes on. *)
Definition string_char (l : bytes) : option (bytes * bytes) :=
  match l with
  | [] => None
  | a :: l' =>
      if byte_val a <? 32 then None
      else if is_byte a 92 then
        match l' with
        | [] => None
        | b :: l' => if is_byte b 117 then unicode_escape l' else c ← simple_escape b; Some ([c], l')
        end
      else let '(n, valid) := first_rune l in Some (if valid then take n l else replacement, drop n l)
  end.

(** After the opening quote; the fuel is the number of bytes. *)
Fixpoint string_body (fuel : nat) (l : bytes) : option (bytes * bytes) :=
  match fuel, l with
  | S fuel, a :: l' =>
      if is_byte a 34 then Some ([], l')
      else '(c, rest) ← string_char l; '(s, rest) ← string_body fuel rest; Some (c ++ s, rest)
  | _, _ => None
  end.

Definition read_string (l : bytes) : option (string * bytes) :=
  match l with
  | a :: l => if is_byte a 34 then '(s, rest) ← string_body (length l) l; Some (bytes_str s, rest) else None
  | [] => None
  end.

(** ** Numbers *)

Definition exponent_part (l : bytes) : option (option Z * bytes) :=
  match l with
  | a :: l' =>
      if is_byte a 101 || is_byte a 69 then
        let '(negative, l') := match l' with
                               | b :: l'' => if is_byte b 45 then (true, l'') else if is_byte b 43 then (false, l'') else (false, l')
                               | [] => (false, l')
                               end in
        let '(digits, rest) := span_digits l' in
        if bool_decide (digits = []) then None
        else n ← parse_digits 0 digits; Some (Some (if negative : bool then - n else n), rest)
      else Some (None, l)
  | [] => Some (None, l)
  end.

Definition fraction_part (l : bytes) : option (option bytes * bytes) :=
  match l with
  | a :: l' =>
      if is_byte a 46 then
        let '(digits, rest) := span_digits l' in
        if bool_decide (digits = []) then None else Some (Some digits, rest)
      else Some (None, l)
  | [] => Some (None, l)
  end.

(** A number without fraction and exponent is a [VInt], except minus zero; one that no
    float64 holds is refused. *)
Definition read_number (l : bytes) : option (value * bytes) :=
  let '(negative, l) := match l with a :: l' => if is_byte a 45 then (true, l') else (false, l) | [] => (false, l) end in
  let '(whole, rest) := span_digits l in
  if match whole with [] => true | a :: _ :: _ => is_byte a 48 | [_] => false end then None
  else
    '(fraction, rest) ← fraction_part rest;
    '(exponent, rest) ← exponent_part rest;
    let digits := whole ++ default [] fraction in
    let f := decimal_value negative digits (default 0 exponent - blen (default [] fraction)) in
    if IsInf f then None
    else match fraction, exponent with
         | None, None =>
             n ← parse_digits 0 whole;
             Some (if negative && (n =? 0) then VNum f else VInt (if negative : bool then - n else n), rest)
         | _, _ => Some (VNum f, rest)
         end.

(** ** Values *)

(** The literals null, true and false. *)
Definition literal (word : string) (v : value) (l : bytes) : option (value * bytes) :=
  if bool_decide (take (String.length word) l = str_bytes word) then Some (v, drop (String.length word) l) else None.

Definition maxNestingDepth : nat := N.to_nat 10000.

Definition object_value (fields : list (string * value)) : value :=
  VMap (foldl (λ m kv, <[kv.1 := kv.2]> m) ∅ fields).

Fixpoint read_value (fuel depth : nat) (l : bytes) : option (value * bytes) :=
  match fuel with
  | O => None
  | S fuel =>
      let l := skip_space l in
      match l with
      | [] => None
      | a :: l' =>
          if is_byte a 34 then '(s, rest) ← read_string l; Some (VStr s, rest)
          else if is_byte a 123 then '(fields, rest) ← read_object fuel depth l'; Some (object_value fields, rest)
          else if is_byte a 91 then
            match depth with
            | O => None
            | S depth =>
                match skip_space l' with
                | b :: rest => if is_byte b 93 then Some (VList [], rest)
                               else '(vs, rest) ← read_elements fuel depth l'; Some (VList vs, rest)
                | [] => None
                end
            end
          else if is_byte a 110 then literal "null" VNull l
          else if is_byte a 116 then literal "true" (VBool true) l
          else if is_byte a 102 then literal "false" (VBool false) l
          else read_number l
      end
  end
(** After the opening brace. *)
with read_object (fuel depth : nat) (l : bytes) : option (list (string * value) * bytes) :=
  match fuel, depth with
  | S fuel, S depth =>
      match skip_space l with
      | b :: rest => if is_byte b 125 then Some ([], rest) else read_members fuel depth l
      | [] => None
      end
  | _, _ => None
  end
with read_members (fuel depth : nat) (l : bytes) : option (list (string * value) * bytes) :=
  match fuel with
  | O => None
  | S fuel =>
      '(key, rest) ← read_string (skip_space l);
      match skip_space rest with
      | c :: rest =>
          if is_byte c 58 then
            '(v, rest) ← read_value fuel depth rest;
            match skip_space rest with
            | d :: rest =>
                if is_byte d 125 then Some ([(key, v)], rest)
                else if is_byte d 44 then '(fields, rest) ← read_members fuel depth rest; Some ((key, v) :: fields, rest)
                else None
            | [] => None
            end
          else None
      | [] => None
      end
  end
with read_elements (fuel depth : nat) (l : bytes) : option (list value * bytes) :=
  match fuel with
  | O => None
  | S fuel =>
      '(v, rest) ← read_value fuel depth l;
      match skip_space rest with
      | d :: rest =>
          if is_byte d 93 then Some ([v], rest)
          else if is_byte d 44 then '(vs, rest) ← read_elements fuel depth rest; Some (v :: vs, rest)
          else None
      | [] => None
      end
  end.

(** Every call takes a byte or, for the bodies of an object and of an array, follows one
    that did: twice the length is fuel enough. *)
Definition parse (text : bytes) : document :=
  let fuel := S (2 * length text) in
  let finish (r : option (document * bytes)) :=
    match r with Some (d, rest) => if bool_decide (skip_space rest = []) then d else DInvalid | None => DInvalid end in
  match skip_space text with
  | a :: rest =>
      if is_byte a 123 then finish ('(fields, rest) ← read_object fuel maxNestingDepth rest; Some (DObject fields, rest))
      else finish ('(v, rest) ← read_value fuel maxNestingDepth text; Some (DValue v, rest))
  | [] => DInvalid
  end.

Example parse_examples :
  parse (str_bytes "{} ") = DObject [] ∧
  parse (str_bytes " {'a': [1, -2, true], 'b' :{ 'c':null}}") = DInvalid ∧
  parse (str_bytes "[1, -2, true , [] ]") = DValue (VList [VInt 1; VInt (-2); VBool true; VList []]) ∧
  parse (str_bytes "2.5e1") = DValue (VNum (float_of_Z 25)) ∧
  parse (str_bytes "01") = DInvalid ∧ parse (str_bytes "[1,]") = DInvalid ∧ parse (str_bytes "1e999") = DInvalid ∧
  parse [byte_of 34] = DInvalid.
Proof. by vm_compute. Qed.

(** ** The encoder of strings *)

Definition hex_digit (v : Z) : byte := if v <? 10 then byte_of (48 + v) else byte_of (87 + v).
Definition escape_byte (a : byte) : bytes :=
  if is_byte a 34 || is_byte a 92 then [byte_of 92; a]
  else if is_byte a 8 then str_bytes "\b"
  else if is_byte a 12 then str_bytes "\f"
  else if is_byte a 10 then str_bytes "\n"
  else if is_byte a 13 then str_bytes "\r"
  else if is_byte a 9 then str_bytes "\t"
  else if (byte_val a <? 32) || is_byte a 60 || is_byte a 62 || is_byte a 38
  then str_bytes "\u00" ++ [hex_digit (byte_val a / 16); hex_digit (byte_val a mod 16)]
  else [a].

(** The characters U+2028 and U+2029, which JavaScript takes for ends of lines. *)
Definition line_end (c : bytes) : option bytes :=
  if bool_decide (c = encode_rune 0x2028) then Some (str_bytes "\u2028")
  else if bool_decide (c = encode_rune 0x2029) then Some (str_bytes "\u2029") else None.

Definition quote_char (n : nat) (valid : bool) (l : bytes) : bytes :=
  match l with
  | [] => []
  | a :: _ =>
      if byte_val a <? 0x80 then escape_byte a
      else if valid then default (take n l) (line_end (take n l)) else str_bytes "\ufffd"
  end.

Fixpoint quote_body (fuel : nat) (l : bytes) : bytes :=
  match fuel, l with
  | S fuel, _ :: _ => let '(n, valid) := first_rune l in quote_char n valid l ++ quote_body fuel (drop n l)
  | _, _ => []
  end.

Definition quote (s : string) : bytes := byte_of 34 :: quote_body (String.length s) (str_bytes s) ++ [byte_of 34].

(** ** Lemmas *)

(** A property of every byte is checked byte by byte. *)
Definition all_bytes : bytes := map byte_of (seqZ 0 256).
Lemma in_all_bytes a : a ∈ all_bytes.
Proof.
  apply list_elem_of_fmap. exists (byte_val a). split; [by rewrite byte_of_val|]. apply elem_of_seqZ.
  pose proof (byte_val_range a). lia.
Qed.

Lemma string_char_escape a t : byte_val a <? 0x80 = true → string_char (escape_byte a ++ t) = Some ([a], t).
Proof.
  intros Ha. set (l := map byte_of (seqZ 0 128)).
  assert (map (λ a, string_char (escape_byte a ++ t)) l = map (λ a, Some ([a], t)) l) as H by (by vm_compute).
  rewrite map_ext_in_iff in H. apply H, list_elem_of_In, list_elem_of_fmap. exists (byte_val a).
  split; [by rewrite byte_of_val|]. apply elem_of_seqZ. pose proof (byte_val_range a). lia.
Qed.

Definition plain_head (l : bytes) : bool := match l with b :: _ => negb (is_byte b 34) | [] => false end.
Lemma escape_byte_head a : ∃ b c, escape_byte a = b :: c ∧ is_byte b 34 = false.
Proof.
  assert (forallb (λ a, plain_head (escape_byte a)) all_bytes = true) as H by by vm_compute.
  rewrite forallb_forall in H. specialize (H a). destruct (escape_byte a) as [|b c].
  - exfalso. by discriminate H; apply list_elem_of_In, in_all_bytes.
  - exists b, c. split; [done|]. apply negb_true_iff, H, list_elem_of_In, in_all_bytes.
Qed.

Lemma first_rune_take l n : l ≠ [] → first_rune l = (n, true) →
  (0 < n ≤ length l)%nat ∧ ∀ t, first_rune (take n l ++ t) = (n, true).
Proof.
  intros Hl. destruct l as [|a l]; [done|]. unfold first_rune.
  destruct (byte_val a <? 0x80) eqn:Ea.
  { intros [= <-]. split; [cbn; lia|]. intros t. cbn [take app]. by rewrite Ea. }
  destruct l as [|b l]; [done|]. destruct (in_range a 0xC2 0xDF) eqn:Er.
  { destruct (cont b) eqn:Eb; intros [= <-]. split; [cbn; lia|]. intros t. cbn [take app]. by rewrite Ea, Er, Eb. }
  destruct l as [|c l]; [done|]. cbv zeta.
  destruct ((if is_byte a 0xE0 then _ else _) && cont c) eqn:E3.
  { intros [= <-]. split; [cbn; lia|]. intros t. cbn [take app]. by rewrite Ea, Er, E3. }
  destruct l as [|d l]; [done|].
  destruct ((if is_byte a 0xF0 then _ else _) && cont c && cont d) eqn:E4; intros [= <-].
  split; [cbn; lia|]. intros t. cbn [take app]. by rewrite Ea, Er, E3, E4.
Qed.

Lemma not_ascii a : byte_val a <? 0x80 = false → byte_val a <? 32 = false ∧ is_byte a 92 = false ∧ is_byte a 34 = false.
Proof. unfold is_byte. rewrite Z.ltb_ge, !Z.eqb_neq, Z.ltb_ge. lia. Qed.

(** A character of a valid text is written so that it is read back. *)
Lemma quote_char_read n l t : l ≠ [] → first_rune l = (n, true) →
  string_char (quote_char n true l ++ t) = Some (take n l, t) ∧
  ∃ b c, quote_char n true l = b :: c ∧ is_byte b 34 = false.
Proof.
  intros Hl E. destruct (first_rune_take l n Hl E) as [Hn Ht]. destruct l as [|a l]; [done|]. cbn [quote_char].
  destruct (byte_val a <? 0x80) eqn:Ea.
  { unfold first_rune in E. rewrite Ea in E. injection E as <-. split; [by apply string_char_escape|apply escape_byte_head]. }
  destruct (not_ascii a Ea) as (H32 & H92 & H34). unfold line_end.
  case_bool_decide as H1; [rewrite H1; split; [by vm_compute|by eexists _, _]|].
  case_bool_decide as H2; [rewrite H2; split; [by vm_compute|by eexists _, _]|].
  cbn [default]. specialize (Ht t). destruct n as [|n]; [lia|]. cbn [take app] in *. split; [|by eexists _, _].
  unfold string_char. rewrite H32, H92. change (a :: (take n l ++ t)) with ((a :: take n l) ++ t) in *. rewrite Ht.
  assert (length (a :: take n l) = S n) as HL by (cbn in *; rewrite length_take; lia).
  by rewrite take_app_length', drop_app_length'.
Qed.

Lemma string_body_quote fuel : ∀ l t k, (length l ≤ fuel)%nat → forallb snd (runes fuel l) = true →
  (length (quote_body fuel l) < k)%nat →
  string_body k (quote_body fuel l ++ byte_of 34 :: t) = Some (l, t).
Proof.
  induction fuel as [|fuel IH]; intros l t k Hl Hv Hk.
  { destruct l; [|cbn in Hl; lia]. by destruct k; [cbn in Hk; lia|]. }
  destruct l as [|a l]; [by destruct k; [cbn in Hk; lia|]|].
  set (l0 := a :: l) in *. assert (l0 ≠ []) as Hne by done.
  change (forallb snd (let r := first_rune l0 in r :: runes fuel (drop (fst r) l0)) = true) in Hv.
  change (quote_body (S fuel) l0) with (let '(n, valid) := first_rune l0 in quote_char n valid l0 ++ quote_body fuel (drop n l0)) in *.
  destruct (first_rune l0) as [n valid] eqn:E. cbn [forallb fst snd] in Hv. apply andb_true_iff in Hv as [-> Hv].
  destruct (first_rune_take l0 n Hne E) as [Hn _].
  rewrite <-(app_assoc (quote_char n true l0)). rewrite length_app in Hk.
  destruct (quote_char_read n l0 (quote_body fuel (drop n l0) ++ byte_of 34 :: t) Hne E) as (Hr & b & c & Hq & Hb).
  rewrite Hq in Hr, Hk |- *. cbn [app length] in Hk |- *. destruct k as [|k]; [lia|].
  cbn [string_body]. rewrite Hb. cbn [app] in Hr. rewrite Hr. cbn [mbind option_bind].
  rewrite IH; [cbn [mbind option_bind]; by rewrite take_drop|rewrite length_drop; lia|done|lia].
Qed.

(** A string that is valid UTF-8 is read back from its encoding. *)
Lemma read_quote s t : Valid (str_bytes s) = true → read_string (quote s ++ t) = Some (s, t).
Proof.
  intros Hv. unfold read_string, quote. cbn [app]. change (is_byte (byte_of 34) 34) with true.
  cbv iota. rewrite <-app_assoc. cbn [app].
  rewrite string_body_quote; [cbn [mbind option_bind]; by rewrite bytes_str_bytes|by rewrite length_str_bytes| |].
  - unfold Valid in Hv. by rewrite length_str_bytes in Hv.
  - rewrite length_app. cbn. lia.
Qed.

(** *** A document with one string *)

Lemma skip_quote s t : skip_space (quote s ++ t) = quote s ++ t.
Proof. done. Qed.

Lemma read_object_quote k d s t : read_object (S k) (S d) (quote s ++ t) = read_members k d (quote s ++ t).
Proof. done. Qed.

Lemma read_value_quote k d s t : Valid (str_bytes s) = true → read_value (S k) d (quote s ++ t) = Some (VStr s, t).
Proof. intros Hv. cbn [read_value]. rewrite skip_quote, read_quote by done. done. Qed.

Lemma read_member k d s t v t' : Valid (str_bytes s) = true → read_value k d t = Some (v, ch "}" :: t') →
  read_members (S k) d (quote s ++ ch ":" :: t) = Some ([(s, v)], t').
Proof.
  intros Hv Ht. cbn [read_members]. rewrite skip_quote, read_quote by done. cbn [mbind option_bind].
  change (skip_space (ch ":" :: t)) with (ch ":" :: t). cbv iota. change (is_byte (ch ":") 58) with true. cbv iota.
  by rewrite Ht.
Qed.

Lemma parse_object text k d fields :
  S (2 * S (length text)) = k → maxNestingDepth = d → read_object k d text = Some (fields, []) →
  parse (ch "{" :: text) = DObject fields.
Proof. intros Hk Hd Hr. unfold parse. cbn [length]. rewrite Hk, Hd. cbn [skip_space]. change (json_space (ch "{")) with false.
  cbv iota zeta. change (is_byte (ch "{") 123) with true. cbv iota. by rewrite Hr. Qed.

(** The text of an object with one field that is a string. *)
Lemma parse_field key s : Valid (str_bytes key) = true → Valid (str_bytes s) = true →
  parse (ch "{" :: quote key ++ ch ":" :: quote s ++ [ch "}"]) = DObject [(key, VStr s)].
Proof.
  intros Hk Hs. assert (∃ d, maxNestingDepth = S d) as [d Hd] by (exists (N.to_nat 9999); unfold maxNestingDepth; lia).
  set (text := quote key ++ _). assert (∃ k, S (2 * S (length text)) = S (S (S k))) as [k E] by (exists (2 * length text)%nat; lia).
  eapply parse_object; [exact E|exact Hd|]. unfold text. rewrite read_object_quote. apply read_member; [done|]. by apply read_value_quote.
Qed.
