(* ===== verification/Terminal.v ===== *)
(** * Terminals of an agent (agent/internal/agent/terminal.go)

    A manager keeps the open terminals by client and session.  A terminal is opened by
    the device, whose answer is an argument; the manager works under a mutex that it
    releases between looking up, opening and registering, so that calls interleave: the
    atomic sections are the events of a run. *)

From S2P Require Import Prelude GoBase GoStrings GoFloat Model Grants Base64 Json.

(** ** State *)

(** Where the output of a terminal goes: to the socket of the server, for a client and
    session, or to a WebRTC data channel. *)
Inductive sink :=
| Socket (clientID sessionID : string)
| Channel (channel : nat).

(** [tsHandle] numbers the terminals in the order they were opened: it identifies the
    terminal and its session, as the pointers do. *)
Record terminalSession := MkTerminal { tsHandle : nat; tsSink : sink }.

Record terminalManager := MkTerminals {
  tmClosed : bool;
  tmSessions : gmap string terminalSession;
  tmOpened : nat;
}.

Definition newTerminalManager : terminalManager := MkTerminals false ∅ 0.

Definition with_terminals (ss : gmap string terminalSession) (m : terminalManager) : terminalManager :=
  MkTerminals (tmClosed m) ss (tmOpened m).

Inductive term_effect :=
| TStart (handle : nat) (rows cols : Z)
| TStop (handle : nat)
| TWrite (handle : nat) (data : bytes)
| TResize (handle : nat) (rows cols : Z)
| TSend (message : gmap string value)
| TChannelData (channel : nat) (data : bytes)
| TChannelClose (channel : nat).

Definition terminal_key (clientID sessionID : string) : string := clientID +:+ ":" +:+ sessionID.

(** ** Output of a terminal *)

Definition event (clientID sessionID kind message : string) : term_effect :=
  TSend {[ "message_type" := VStr kind; "client_id" := VStr clientID;
           "session_id" := VStr sessionID; "error" := VStr message ]}.

Definition terminalData (data : bytes) : string := bytes_str (b64raw_encode data).

(** The callbacks [send] and [onClose] of a session. *)
Definition sink_data (s : sink) (data : bytes) : term_effect :=
  match s with
  | Socket clientID sessionID =>
      TSend {[ "message_type" := VStr "pty_data"; "client_id" := VStr clientID;
               "session_id" := VStr sessionID; "data" := VStr (terminalData data) ]}
  | Channel channel => TChannelData channel data
  end.
Definition sink_closed (s : sink) : term_effect :=
  match s with
  | Socket clientID sessionID => event clientID sessionID "pty_closed" ""
  | Channel channel => TChannelClose channel
  end.

(** ** Closing *)

Definition closeSession (key : string) (expected : option nat) (m : terminalManager) : terminalManager * list term_effect :=
  match tmSessions m !! key with
  | None => (m, [])
  | Some session =>
      if match expected with Some h => negb (tsHandle session =? h)%nat | None => false end then (m, [])
      else (with_terminals (delete key (tmSessions m)) m, [TStop (tsHandle session); sink_closed (tsSink session)])
  end.

Definition Close (clientID sessionID : string) (m : terminalManager) : terminalManager * list term_effect :=
  closeSession (terminal_key clientID sessionID) None m.

Fixpoint close_keys (keys : list string) (m : terminalManager) : terminalManager * list term_effect :=
  match keys with
  | [] => (m, [])
  | key :: keys =>
      let '(m, c) := closeSession key None m in
      let '(m, c') := close_keys keys m in (m, c ++ c')
  end.

Definition session_keys (m : terminalManager) : list string := (map_to_list (tmSessions m)).*1.

(** The keys are those of a first look at the map; the loop over it has no fixed order. *)
Definition CloseClient (clientID : string) (m : terminalManager) : terminalManager * list term_effect :=
  close_keys (List.filter (λ key, HasPrefix key (clientID +:+ ":")) (session_keys m)) m.

Definition CloseAll (m : terminalManager) : terminalManager * list term_effect :=
  let m := MkTerminals true (tmSessions m) (tmOpened m) in close_keys (session_keys m) m.

(** ** Opening *)

Definition open_terminal (rows cols : Z) (answer : result ()) (m : terminalManager)
    : terminalManager * list term_effect * result nat :=
  match answer with
  | Err e => (m, [], Err e)
  | Ok _ => (MkTerminals (tmClosed m) (tmSessions m) (S (tmOpened m)), [TStart (tmOpened m) rows cols], Ok (tmOpened m))
  end.

Definition register_terminal (key : string) (session : terminalSession) (m : terminalManager)
    : terminalManager * list term_effect * result () :=
  if tmClosed m then (m, [TStop (tsHandle session)], Err (ErrMsg "terminal manager is closed"))
  else (with_terminals (<[key := session]> (tmSessions m)) m, [], Ok ()).

Definition open (clientID sessionID : string) (rows cols : Z) (s : sink) (answer : result ()) (m : terminalManager)
    : terminalManager * list term_effect * result () :=
  if bool_decide (sessionID = "") then (m, [], Ok ())
  else
    let '(m, closed) := Close clientID sessionID m in
    let rows := if rows =? 0 then 24 else rows in
    let cols := if cols =? 0 then 80 else cols in
    match open_terminal rows cols answer m with
    | (m, started, Err e) => (m, closed ++ started, Err e)
    | (m, started, Ok handle) =>
        let '(m, stopped, r) := register_terminal (terminal_key clientID sessionID) (MkTerminal handle s) m in
        (m, closed ++ started ++ stopped, r)
    end.

Section text.
Context (error_text : error → string).

Definition Open (clientID sessionID : string) (rows cols : Z) (answer : result ()) (m : terminalManager)
    : terminalManager * list term_effect * result () :=
  match open clientID sessionID rows cols (Socket clientID sessionID) answer m with
  | (m, c, Err e) => (m, c ++ [event clientID sessionID "pty_error" (error_text e)], Err e)
  | (m, c, Ok _) => (m, c ++ [event clientID sessionID "pty_opened" ""], Ok ())
  end.
End text.

Definition OpenWebRTC (clientID sessionID : string) (rows cols : Z) (channel : nat) (answer : result ()) (m : terminalManager)
    : terminalManager * list term_effect * result () :=
  open clientID sessionID rows cols (Channel channel) answer m.

(** One round of the reader of a session: the bytes read and whether the read failed. *)
Definition read (key : string) (session : terminalSession) (data : bytes) (failed : bool) (m : terminalManager)
    : terminalManager * list term_effect :=
  let sent := if (0 <? length data)%nat then [sink_data (tsSink session) data] else [] in
  if failed then let '(m, c) := closeSession key (Some (tsHandle session)) m in (m, sent ++ c) else (m, sent).

(** ** Input *)

Definition InputBytes (clientID sessionID : string) (data : bytes) (m : terminalManager) : list term_effect :=
  match tmSessions m !! terminal_key clientID sessionID with
  | Some session => [TWrite (tsHandle session) data]
  | None => []
  end.

Definition Input (clientID sessionID raw : string) (m : terminalManager) : list term_effect :=
  match (match b64std_decode raw with Some data => Some data | None => b64raw_decode raw end) with
  | Some data => InputBytes clientID sessionID data m
  | None => []
  end.

Definition Resize (clientID sessionID : string) (rows cols : Z) (m : terminalManager) : list term_effect :=
  if (rows =? 0) || (cols =? 0) then []
  else match tmSessions m !! terminal_key clientID sessionID with
       | Some session => [TResize (tsHandle session) rows cols]
       | None => []
       end.

(** The struct of an init or resize message, decoded with unknown fields ignored; a
    value of another type or a number outside 16 bits is an error. *)
Definition uint16_value (v : value) : option Z :=
  match v with VInt n => if (0 <=? n) && (n <? 2 ^ 16) then Some n else None | _ => None end.

Fixpoint size_fields (l : list (string * value)) (kind : string) (rows cols : Z) : option (string * Z * Z) :=
  match l with
  | [] => Some (kind, rows, cols)
  | (_, VNull) :: l => size_fields l kind rows cols
  | (key, v) :: l =>
      if EqualFoldASCII "type" key then
        match v with VStr s => size_fields l s rows cols | _ => None end
      else if EqualFoldASCII "rows" key then
        match uint16_value v with Some n => size_fields l kind n cols | None => None end
      else if EqualFoldASCII "cols" key then
        match uint16_value v with Some n => size_fields l kind rows n | None => None end
      else size_fields l kind rows cols
  end.

Definition size_message (d : document) : option (string * Z * Z) :=
  match d with
  | DObject l => size_fields l "" 0 0
  | DValue VNull => Some ("", 0, 0)
  | _ => None
  end.

Definition terminalInit (d : document) : Z * Z :=
  match size_message d with
  | Some (kind, rows, cols) => if bool_decide (kind = "init") then (rows, cols) else (24, 80)
  | None => (24, 80)
  end.

(** ** Runs

    The atomic sections of concurrent calls.  [trPending] are the terminals opened and
    not yet registered, [trLost] those replaced while they were registered. *)
Inductive terminal_event :=
| EvClose (key : string) (expected : option nat)
| EvStart (rows cols : Z)
| EvRegister (key : string) (session : terminalSession)
| EvShut.

Record terminal_run := MkTerminalRun {
  trManager : terminalManager;
  trPending : gset nat;
  trLost : gset nat;
  trTrace : list term_effect;
}.

Definition replaced (key : string) (m : terminalManager) : gset nat :=
  if tmClosed m then ∅ else match tmSessions m !! key with Some s => {[tsHandle s]} | None => ∅ end.

Definition terminal_apply (e : terminal_event) (r : terminal_run) : terminal_run :=
  let m := trManager r in
  match e with
  | EvClose key expected =>
      let '(m, c) := closeSession key expected m in MkTerminalRun m (trPending r) (trLost r) (trTrace r ++ c)
  | EvStart rows cols =>
      let '(m', c, _) := open_terminal rows cols (Ok ()) m in
      MkTerminalRun m' ({[tmOpened m]} ∪ trPending r) (trLost r) (trTrace r ++ c)
  | EvRegister key session =>
      if bool_decide (tsHandle session ∈ trPending r) then
        let '(m', c, _) := register_terminal key session m in
        MkTerminalRun m' (trPending r ∖ {[tsHandle session]}) (replaced key m ∪ trLost r) (trTrace r ++ c)
      else r
  | EvShut => MkTerminalRun (MkTerminals true (tmSessions m) (tmOpened m)) (trPending r) (trLost r) (trTrace r)
  end.

Definition terminal_run_from (es : list terminal_event) (r : terminal_run) : terminal_run :=
  foldl (λ r e, terminal_apply e r) r es.
Definition run_terminals (es : list terminal_event) : terminal_run :=
  terminal_run_from es (MkTerminalRun newTerminalManager ∅ ∅ []).

(** How often a terminal was stopped. *)
Fixpoint stops (h : nat) (l : list term_effect) : nat :=
  match l with
  | TStop h' :: l => if (h' =? h)%nat then S (stops h l) else stops h l
  | _ :: l => stops h l
  | [] => 0
  end.

Definition registered (h : nat) (m : terminalManager) : Prop :=
  ∃ key s, tmSessions m !! key = Some s ∧ tsHandle s = h.

(** ** Lemmas *)

Lemma stops_app h l1 l2 : stops h (l1 ++ l2) = (stops h l1 + stops h l2)%nat.
Proof. induction l1 as [|[] l1 IH]; cbn [stops app]; try done. case_match; lia. Qed.

Lemma stops_closed h h' s : stops h [TStop h'; sink_closed s] = if (h' =? h)%nat then 1%nat else 0%nat.
Proof. cbn [stops]. by destruct s. Qed.

(** Every terminal opened is in exactly one of four states. *)
Record run_inv (r : terminal_run) : Prop := {
  ri_sessions : ∀ k s, tmSessions (trManager r) !! k = Some s →
    (tsHandle s < tmOpened (trManager r))%nat ∧ tsHandle s ∉ trPending r ∧ tsHandle s ∉ trLost r ∧
    stops (tsHandle s) (trTrace r) = 0%nat;
  ri_unique : ∀ k1 k2 s1 s2, tmSessions (trManager r) !! k1 = Some s1 → tmSessions (trManager r) !! k2 = Some s2 →
    tsHandle s1 = tsHandle s2 → k1 = k2;
  ri_pending : ∀ h, h ∈ trPending r → (h < tmOpened (trManager r))%nat ∧ h ∉ trLost r ∧ stops h (trTrace r) = 0%nat;
  ri_lost : ∀ h, h ∈ trLost r → (h < tmOpened (trManager r))%nat ∧ stops h (trTrace r) = 0%nat;
  ri_stopped : ∀ h, (h < tmOpened (trManager r))%nat → h ∉ trPending r → h ∉ trLost r →
    registered h (trManager r) ∨ stops h (trTrace r) = 1%nat;
  ri_fresh : ∀ h, (tmOpened (trManager r) ≤ h)%nat → stops h (trTrace r) = 0%nat;
}.

Lemma closeSession_inv k x r : run_inv r →
  run_inv (MkTerminalRun (closeSession k x (trManager r)).1 (trPending r) (trLost r) (trTrace r ++ (closeSession k x (trManager r)).2)).
Proof.
  intros [H1 H2 H3 H4 H5 H6]. unfold closeSession. destruct (tmSessions (trManager r) !! k) as [s|] eqn:Hk;
    [|cbn; rewrite app_nil_r; by split].
  destruct (match x with Some h => _ | None => _ end); [cbn; rewrite app_nil_r; by split|].
  assert (∀ h, h ≠ tsHandle s → stops h (trTrace r ++ [TStop (tsHandle s); sink_closed (tsSink s)]) = stops h (trTrace r)) as Hs.
  { intros h Hne. rewrite stops_app, stops_closed. case_match eqn:E; [apply Nat.eqb_eq in E; congruence|lia]. }
  destruct (H1 _ _ Hk) as (Hlt & Hnp & Hnl & Hz).
  split; cbn [fst snd trManager trPending trLost trTrace with_terminals tmSessions tmOpened].
  - intros k' s' [Hne Hk']%lookup_delete_Some. destruct (H1 _ _ Hk') as (? & ? & ? & ?). rewrite Hs; [done|].
    intros Heq. by pose proof (H2 _ _ _ _ Hk Hk' (eq_sym Heq)).
  - intros k1 k2 s1 s2 [_ ?]%lookup_delete_Some [_ ?]%lookup_delete_Some. by apply (H2 k1 k2 s1 s2).
  - intros h Hh. rewrite Hs by (by intros ->). auto.
  - intros h Hh. rewrite Hs by (by intros ->). auto.
  - intros h Hh Hp Hl. destruct (decide (h = tsHandle s)) as [->|Hne].
    + right. rewrite stops_app, stops_closed, Nat.eqb_refl. lia.
    + destruct (H5 h Hh Hp Hl) as [(k' & s' & Hk' & <-)|?]; [left|right; by rewrite Hs].
      exists k', s'. split; [|done]. cbn. apply lookup_delete_Some. split; [|done]. intros <-. congruence.
  - intros h Hh. rewrite Hs; [auto|lia].
Qed.

Lemma terminal_start_inv rows cols r : run_inv r → run_inv (terminal_apply (EvStart rows cols) r).
Proof.
  intros [H1 H2 H3 H4 H5 H6]. set (n := tmOpened (trManager r)) in *.
  assert (∀ h, stops h (trTrace r ++ [TStart n rows cols]) = stops h (trTrace r)) as Hs by (intros h; rewrite stops_app; cbn; lia).
  split; cbn [terminal_apply open_terminal trManager trPending trLost trTrace tmSessions tmOpened]; fold n.
  - intros k s Hk. destruct (H1 _ _ Hk) as (? & ? & ? & ?). rewrite Hs. split_and!; [lia| |done|done].
    intros [Heq%elem_of_singleton|?]%elem_of_union; [lia|done].
  - done.
  - intros h [->%elem_of_singleton|Hh]%elem_of_union; rewrite Hs.
    + split_and!; [lia| |auto]. intros [? _]%H4. lia.
    + destruct (H3 h Hh) as (? & ? & ?). split_and!; [lia|done|done].
  - intros h Hh. destruct (H4 h Hh) as [? ?]. rewrite Hs. split; [lia|done].
  - intros h Hlt Hp Hl. rewrite Hs. rewrite not_elem_of_union, not_elem_of_singleton in Hp. destruct Hp as [Hne Hp].
    apply H5; [lia|done|done].
  - intros h Hh. rewrite Hs. apply H6. lia.
Qed.

Lemma register_inv k s r : run_inv r → run_inv (terminal_apply (EvRegister k s) r).
Proof.
  intros [H1 H2 H3 H4 H5 H6]. cbn [terminal_apply]. case_bool_decide as Hp; [|done].
  destruct (H3 _ Hp) as (Hlt & Hnl & Hz). unfold register_terminal, replaced. destruct (tmClosed (trManager r)) eqn:Hc.
  - assert (∀ h, h ≠ tsHandle s → stops h (trTrace r ++ [TStop (tsHandle s)]) = stops h (trTrace r)) as Hs.
    { intros h Hne. rewrite stops_app. cbn. case_match eqn:E; [apply Nat.eqb_eq in E; congruence|lia]. }
    split; cbn [trManager trPending trLost trTrace]; rewrite ?union_empty_l_L.
    + intros k' s' Hk'. destruct (H1 _ _ Hk') as (? & ? & ? & ?). rewrite Hs by (intros Heq; by rewrite Heq in *).
      set_solver.
    + done.
    + intros h [Hh Hne]%elem_of_difference. rewrite Hs by set_solver. auto.
    + intros h Hh. rewrite Hs by (by intros ->). auto.
    + intros h Hh Hp' Hl. destruct (decide (h = tsHandle s)) as [->|Hne].
      * right. rewrite stops_app. cbn. rewrite Nat.eqb_refl. lia.
      * rewrite Hs by done. apply H5; set_solver.
    + intros h Hh. rewrite Hs; [auto|lia].
  - rewrite app_nil_r.
    assert (∀ k' s', tmSessions (trManager r) !! k' = Some s' → tsHandle s' ≠ tsHandle s) as Hfresh.
    { intros k' s' Hk' Heq. destruct (H1 _ _ Hk') as (_ & Hno & _). by rewrite Heq in Hno. }
    set (gone := match tmSessions (trManager r) !! k with Some s' => {[tsHandle s']} | None => ∅ end).
    assert (∀ h, h ∈ gone ↔ ∃ s', tmSessions (trManager r) !! k = Some s' ∧ h = tsHandle s') as Hgone.
    { intros h. unfold gone. destruct (tmSessions (trManager r) !! k) as [s'|]; [|set_solver].
      rewrite elem_of_singleton. split; [intros ->; by exists s'|by intros (? & [= ->] & ->)]. }
    clearbody gone.
    split; cbn [trManager trPending trLost trTrace with_terminals tmSessions tmOpened].
    + intros k' s'. rewrite lookup_insert_Some. intros [[-> ->]|[Hne Hk']].
      * split_and!; [done|set_solver| |done]. rewrite elem_of_union, Hgone. intros [(s'' & Hk'' & Heq)|?]; [|done].
        by apply (Hfresh _ _ Hk'').
      * destruct (H1 _ _ Hk') as (? & ? & ? & ?). split_and!; [done|set_solver| |done].
        rewrite elem_of_union, Hgone. intros [(s'' & Hk'' & Heq)|?]; [|done]. by apply Hne, (H2 _ _ _ _ Hk'' Hk').
    + intros k1 k2 s1 s2. rewrite !lookup_insert_Some. intros [[-> <-]|[? Hk1]] [[-> <-]|[? Hk2]] Heq; [done| | |by apply (H2 k1 k2 s1 s2)].
      * by destruct (Hfresh _ _ Hk2).
      * by destruct (Hfresh _ _ Hk1).
    + intros h [Hh Hne]%elem_of_difference. destruct (H3 h Hh) as (? & ? & ?). split_and!; [done| |done].
      rewrite elem_of_union, Hgone. intros [(s'' & Hk'' & ->)|?]; [|done]. by destruct (H1 _ _ Hk'') as (_ & ? & _).
    + intros h [(s'' & Hk'' & ->)%Hgone|Hh]%elem_of_union; [|auto]. by destruct (H1 _ _ Hk'') as (? & _ & _ & ?).
    + intros h Hh Hp' Hl. rewrite not_elem_of_union, Hgone in Hl. destruct Hl as [Hg Hl].
      destruct (decide (h = tsHandle s)) as [->|Hne]; [left; exists k, s; split; [apply lookup_insert_eq|done]|].
      destruct (H5 h Hh ltac:(set_solver) Hl) as [(k' & s' & Hk' & <-)|?]; [|by right].
      left. exists k', s'. split; [|done]. cbn. rewrite lookup_insert_ne; [done|]. intros <-. apply Hg. by exists s'.
    + done.
Qed.

Lemma terminal_apply_inv e r : run_inv r → run_inv (terminal_apply e r).
Proof.
  intros Hr. destruct e as [k x|rows cols|k s|].
  - pose proof (closeSession_inv k x r Hr). cbn [terminal_apply]. by destruct (closeSession k x (trManager r)).
  - by apply terminal_start_inv.
  - by apply register_inv.
  - by destruct Hr; split.
Qed.

Lemma terminal_run_from_inv es : ∀ r, run_inv r → run_inv (terminal_run_from es r).
Proof. induction es as [|e es IH]; intros r Hr; [done|]. cbn. by apply IH, terminal_apply_inv. Qed.

Lemma run_terminals_inv es : run_inv (run_terminals es).
Proof.
  apply terminal_run_from_inv. split; cbn; try done. intros h Hh. lia.
Qed.

(** A manager that was shut stays shut, and holds no new session. *)
Lemma terminal_apply_shut e r : tmClosed (trManager r) = true →
  tmClosed (trManager (terminal_apply e r)) = true ∧
  tmSessions (trManager (terminal_apply e r)) ⊆ tmSessions (trManager r).
Proof.
  intros Hc. destruct e as [k x|rows cols|k s|]; cbn [terminal_apply].
  - unfold closeSession. repeat case_match; simplify_eq; cbn; try done;
      (split; [done|apply delete_subseteq]).
  - done.
  - unfold register_terminal. rewrite Hc. by case_bool_decide.
  - done.
Qed.

Lemma terminal_run_shut es : ∀ r, tmClosed (trManager r) = true →
  tmClosed (trManager (terminal_run_from es r)) = true ∧
  tmSessions (trManager (terminal_run_from es r)) ⊆ tmSessions (trManager r).
Proof.
  induction es as [|e es IH]; intros r Hc; [done|]. cbn. destruct (terminal_apply_shut e r Hc) as [Hc' Hs].
  destruct (IH _ Hc') as [? ?]. split; [done|]. by etrans.
Qed.

Definition close_events (keys : list string) : list terminal_event := map (λ k, EvClose k None) keys.

(** The methods are sequences of the events of a run. *)
Lemma close_keys_run keys : ∀ r,
  terminal_run_from (close_events keys) r =
  MkTerminalRun (close_keys keys (trManager r)).1 (trPending r) (trLost r) (trTrace r ++ (close_keys keys (trManager r)).2).
Proof.
  induction keys as [|k keys IH]; intros [m p l t]; cbn [close_events map terminal_run_from foldl close_keys fst snd trManager].
  - by rewrite app_nil_r.
  - cbn [terminal_apply trManager trPending trLost trTrace]. destruct (closeSession k None m) as [m1 c1].
    fold (close_events keys). fold (terminal_run_from (close_events keys) (MkTerminalRun m1 p l (t ++ c1))).
    rewrite IH. cbn. destruct (close_keys keys m1) as [m2 c2]. cbn. by rewrite app_assoc.
Qed.

Lemma close_keys_sessions keys : ∀ m k,
  tmSessions (close_keys keys m).1 !! k = if decide (k ∈ keys) then None else tmSessions m !! k.
Proof.
  induction keys as [|k' keys IH]; intros m k; cbn [close_keys]; [by rewrite decide_False by set_solver|].
  assert (tmSessions (closeSession k' None m).1 !! k = if decide (k = k') then None else tmSessions m !! k) as Hk.
  { unfold closeSession. destruct (tmSessions m !! k') as [s|] eqn:E; case_decide as Hd; subst; cbn; try done.
    - by rewrite lookup_delete_eq.
    - by rewrite lookup_delete_ne by done. }
  destruct (closeSession k' None m) as [m1 c1]. specialize (IH m1 k). destruct (close_keys keys m1) as [m2 c2]. cbn in *.
  rewrite IH, Hk. repeat case_decide; set_solver.
Qed.

Lemma elem_of_session_keys k m : k ∈ session_keys m ↔ is_Some (tmSessions m !! k).
Proof.
  unfold session_keys. rewrite list_elem_of_fmap. split.
  - intros ([k' s] & -> & Hin%elem_of_map_to_list). by exists s.
  - intros [s Hs]. exists (k, s). split; [done|]. by apply elem_of_map_to_list.
Qed.

Lemma CloseAll_empty m : tmSessions (CloseAll m).1 = ∅ ∧ tmClosed (CloseAll m).1 = true.
Proof.
  unfold CloseAll. set (m' := MkTerminals _ _ _). split.
  - apply map_empty. intros k. rewrite close_keys_sessions. case_decide as Hk; [done|].
    rewrite elem_of_session_keys in Hk. by apply eq_None_not_Some.
  - pose proof (close_keys_run (session_keys m') (MkTerminalRun m' ∅ ∅ [])) as Hrun.
    apply (f_equal trManager) in Hrun. cbn [trManager] in Hrun. rewrite <- Hrun. by apply terminal_run_shut.
Qed.

Definition shut_events (m : terminalManager) : list terminal_event := EvShut :: close_events (session_keys m).

Lemma CloseAll_run r :
  terminal_run_from (shut_events (trManager r)) r =
  MkTerminalRun (CloseAll (trManager r)).1 (trPending r) (trLost r) (trTrace r ++ (CloseAll (trManager r)).2).
Proof.
  apply (close_keys_run (session_keys (trManager r))
    (MkTerminalRun (MkTerminals true (tmSessions (trManager r)) (tmOpened (trManager r))) (trPending r) (trLost r) (trTrace r))).
Qed.

Lemma terminal_apply_lost e r : trLost r ⊆ trLost (terminal_apply e r).
Proof.
  destruct e; cbn [terminal_apply]; repeat case_match; cbn; try done. apply union_subseteq_r.
Qed.

Lemma terminal_run_lost es : ∀ r, trLost r ⊆ trLost (terminal_run_from es r).
Proof.
  induction es as [|e es IH]; intros r; [done|]. cbn. etrans; [apply (terminal_apply_lost e)|apply IH].
Qed.

Lemma run_terminals_app es es' : run_terminals (es ++ es') = terminal_run_from es' (run_terminals es).
Proof. apply foldl_app. Qed.

(** A call of [open] that nothing interrupts, as events. *)
Definition open_events (key : string) (rows cols : Z) (s : sink) (m : terminalManager) : list terminal_event :=
  [EvClose key None; EvStart rows cols; EvRegister key (MkTerminal (tmOpened m) s)].

Lemma closeSession_frame k x m :
  tmOpened (closeSession k x m).1 = tmOpened m ∧ tmClosed (closeSession k x m).1 = tmClosed m ∧
  (x = None → tmSessions (closeSession k x m).1 !! k = None).
Proof.
  unfold closeSession. destruct (tmSessions m !! k) eqn:E; [|done].
  case_match eqn:E'; cbn; split_and!; try done; [by intros ->|]. intros _. apply lookup_delete_eq.
Qed.

Lemma open_run clientID sessionID rows cols s r : run_inv r → sessionID ≠ "" → rows ≠ 0 → cols ≠ 0 →
  let k := terminal_key clientID sessionID in
  let '(m, c, _) := open clientID sessionID rows cols s (Ok ()) (trManager r) in
  let r' := terminal_run_from (open_events k rows cols s (trManager r)) r in
  r' = MkTerminalRun m (trPending r) (trLost r) (trTrace r ++ c).
Proof.
  intros Hr Hid Hrows Hcols k. unfold open. rewrite bool_decide_false by done.
  assert (rows =? 0 = false) as -> by lia. assert (cols =? 0 = false) as -> by lia.
  unfold Close. fold k. cbn [open_events terminal_run_from foldl terminal_apply].
  destruct (closeSession_frame k None (trManager r)) as (Ho & Hc & Hk).
  destruct (closeSession k None (trManager r)) as [m1 c1]. cbn [fst snd trManager trPending trLost trTrace open_terminal] in *.
  rewrite Ho. cbn [tmOpened tsHandle]. rewrite bool_decide_true by set_solver.
  unfold register_terminal, replaced. cbn [tmClosed tmSessions]. rewrite (Hk eq_refl).
  assert (({[tmOpened (trManager r)]} ∪ trPending r) ∖ {[tmOpened (trManager r)]} = trPending r) as ->.
  { apply set_eq. intros h. pose proof (ri_pending r Hr h). split; [set_solver|]. intros Hh. destruct (H Hh) as [? _].
    rewrite elem_of_difference, elem_of_singleton. split; [set_solver|lia]. }
  destruct (tmClosed m1); rewrite ?union_empty_l_L, ?app_nil_r, <- ?app_assoc; done.
Qed.

Lemma lost_run h es r : run_inv r → h ∈ trLost r →
  let r' := terminal_run_from es r in h ∈ trLost r' ∧ stops h (trTrace r') = 0%nat ∧ ¬ registered h (trManager r').
Proof.
  intros Hr Hh r'. pose proof (terminal_run_from_inv es r Hr) as Hr'. fold r' in Hr'.
  assert (h ∈ trLost r') as Hl by (by apply terminal_run_lost). split_and!; [done|by apply (ri_lost r' Hr')|].
  intros (k & s & Hk & <-). by destruct (ri_sessions r' Hr' _ _ Hk) as (_ & _ & ? & _).
Qed.

(** *** One client and another *)

Definition no_colon (clientID : string) : Prop := ch ":" ∉ str_bytes clientID.

(** What the manager holds between calls: handles are those of opened terminals, each in
    one session, and the output to the socket names the session's key. *)
Record terminals_wf (m : terminalManager) : Prop := {
  tw_handle : ∀ k s, tmSessions m !! k = Some s → (tsHandle s < tmOpened m)%nat;
  tw_unique : ∀ k1 k2 s1 s2, tmSessions m !! k1 = Some s1 → tmSessions m !! k2 = Some s2 →
    tsHandle s1 = tsHandle s2 → k1 = k2;
  tw_sink : ∀ k h c i, tmSessions m !! k = Some (MkTerminal h (Socket c i)) → k = terminal_key c i;
}.

Definition touches (h : nat) (e : term_effect) : bool :=
  match e with
  | TStart h' _ _ | TStop h' | TWrite h' _ | TResize h' _ _ => (h' =? h)%nat
  | _ => false
  end.

(** An operation leaves a client alone: its sessions stay, no terminal of its is used and
    nothing is sent to it. *)
Record leaves_alone (c : string) (m m' : terminalManager) (l : list term_effect) : Prop := {
  la_wf : terminals_wf m';
  la_opened : (tmOpened m ≤ tmOpened m')%nat;
  la_sessions : ∀ i, tmSessions m' !! terminal_key c i = tmSessions m !! terminal_key c i;
  la_silent : ∀ message, TSend message ∈ l → stringField message "client_id" ≠ c;
  la_unused : ∀ i s e, tmSessions m !! terminal_key c i = Some s → e ∈ l → touches (tsHandle s) e = false;
}.

Lemma key_prefix (a : string) : ∀ b r, no_colon a → no_colon b → HasPrefix (b +:+ r) (a +:+ ":") = true → HasPrefix r ":" = true → a = b.
Proof.
  induction a as [|x a IH]; intros [|y b] r Ha Hb; unfold no_colon in *; [done| | |].
  - change ("" +:+ ":") with ":". change (String y b +:+ r) with (String y (b +:+ r)). cbn in *.
    case_decide as Hd; [subst; set_solver|done].
  - change ("" +:+ r) with r. change (String x a +:+ ":") with (String x (a +:+ ":")).
    destruct r as [|z r]; [done|]. cbn in *. repeat case_decide; subst; set_solver.
  - change (String x a +:+ ":") with (String x (a +:+ ":")). change (String y b +:+ r) with (String y (b +:+ r)). cbn in *.
    case_decide as Hd; [|done]. subst. intros Hp Hr. f_equal. apply (IH b r); set_solver.
Qed.

Lemma key_client c1 c2 i k : no_colon c1 → no_colon c2 → k = terminal_key c2 i →
  HasPrefix k (c1 +:+ ":") = true → c1 = c2.
Proof.
  intros H1 H2 -> Hp. apply (key_prefix c1 c2 (":" +:+ i)); [done|done|done|]. apply HasPrefix_refl_app.
Qed.

Lemma key_inj c1 c2 i1 i2 : no_colon c1 → no_colon c2 → terminal_key c1 i1 = terminal_key c2 i2 → c1 = c2.
Proof.
  intros H1 H2 Heq. apply (key_client c1 c2 i2 _ H1 H2 Heq). unfold terminal_key. rewrite <- append_assoc.
  apply HasPrefix_refl_app.
Qed.

Section isolation.
Context (c : string) (Hc : no_colon c).

Lemma alone_refl m : terminals_wf m → leaves_alone c m m [].
Proof. intros Hw. split; try done; intros; set_solver. Qed.

Lemma alone_trans m1 m2 m3 l1 l2 :
  leaves_alone c m1 m2 l1 → leaves_alone c m2 m3 l2 → leaves_alone c m1 m3 (l1 ++ l2).
Proof.
  intros [W1 O1 S1 M1 U1] [W2 O2 S2 M2 U2]. split; [done|lia|by intros i; rewrite S2| |].
  - intros message [?|?]%elem_of_app; auto.
  - intros i s e Hs [?|?]%elem_of_app; [by apply (U1 i)|]. apply (U2 i); [by rewrite S1|done].
Qed.

Lemma alone_close k x m : terminals_wf m → (∀ i, k ≠ terminal_key c i) →
  leaves_alone c m (closeSession k x m).1 (closeSession k x m).2.
Proof.
  intros Hw Hk. unfold closeSession. destruct (tmSessions m !! k) as [s|] eqn:Hs; [|by apply alone_refl].
  destruct (match x with Some h => _ | None => _ end); [by apply alone_refl|]. destruct Hw as [W1 W2 W3].
  split; cbn [fst snd with_terminals tmSessions tmOpened].
  - split; cbn [with_terminals tmSessions tmOpened].
    + intros k' s' [_ ?]%lookup_delete_Some. eauto.
    + intros k1 k2 s1 s2 [_ ?]%lookup_delete_Some [_ ?]%lookup_delete_Some. eauto.
    + intros k' h c' i [_ ?]%lookup_delete_Some. eauto.
  - done.
  - intros i. apply lookup_delete_ne, Hk.
  - intros message [Heq|[Heq|?]%elem_of_cons]%elem_of_cons; [done| |set_solver].
    destruct s as [h [c' i|]]; cbn in Heq; [|done]. injection Heq as ->.
    match goal with |- ?x ≠ _ => assert (x = c') as -> by reflexivity end. intros ->. by apply (Hk i), (W3 k h).
  - intros i s' e Hs' [->|[->|?]%elem_of_cons]%elem_of_cons; [| |set_solver].
    + cbn. apply Nat.eqb_neq. intros Heq. by apply (Hk i), (W2 _ _ _ _ Hs Hs').
    + by destruct (tsSink s).
Qed.

Lemma alone_close_keys keys : ∀ m, terminals_wf m → (∀ k i, k ∈ keys → k ≠ terminal_key c i) →
  leaves_alone c m (close_keys keys m).1 (close_keys keys m).2.
Proof.
  induction keys as [|k keys IH]; intros m Hw Hk; cbn [close_keys]; [by apply alone_refl|].
  pose proof (alone_close k None m Hw ltac:(set_solver)) as H1. destruct (closeSession k None m) as [m1 c1].
  pose proof (IH m1 (la_wf _ _ _ _ H1) ltac:(set_solver)) as H2. destruct (close_keys keys m1) as [m2 c2].
  cbn in *. by apply (alone_trans _ m1).
Qed.

Lemma alone_open c' i rows cols s answer m : terminals_wf m → no_colon c' → c' ≠ c →
  (∀ c2 i2, s = Socket c2 i2 → c2 = c' ∧ i2 = i) →
  leaves_alone c m (open c' i rows cols s answer m).1.1 (open c' i rows cols s answer m).1.2.
Proof.
  intros Hw Hc' Hne Hsink. unfold open. case_bool_decide; [by apply alone_refl|].
  assert (∀ j, terminal_key c' i ≠ terminal_key c j) as Hk by (intros j Heq; by apply Hne, (key_inj _ _ i j)).
  pose proof (alone_close (terminal_key c' i) None m Hw Hk) as H1. unfold Close.
  destruct (closeSession (terminal_key c' i) None m) as [m1 c1]. cbn in H1.
  set (rows' := if rows =? 0 then _ else _). set (cols' := if cols =? 0 then _ else _).
  destruct answer as [[]|e]; cbn [open_terminal]; [|cbn; by rewrite app_nil_r].
  destruct (la_wf _ _ _ _ H1) as [W1 W2 W3].
  assert (∀ j s', tmSessions m1 !! j = Some s' → tsHandle s' ≠ tmOpened m1) as Hfresh.
  { intros j s' Hs'. pose proof (W1 _ _ Hs'). lia. }
  assert (leaves_alone c m1 (MkTerminals (tmClosed m1) (tmSessions m1) (S (tmOpened m1))) [TStart (tmOpened m1) rows' cols']) as H2.
  { split; [| | done | |]; cbn.
    - split; cbn; [intros k s' Hs'; pose proof (W1 _ _ Hs'); lia|done|done].
    - lia.
    - set_solver.
    - intros j s' e Hs' ->%list_elem_of_singleton. cbn. apply Nat.eqb_neq. intros Heq. by apply (Hfresh _ _ Hs'). }
  pose proof (alone_trans _ _ _ _ _ H1 H2) as H12. unfold register_terminal. cbn [tmClosed].
  destruct (tmClosed m1); cbn [fst snd]; rewrite (app_assoc c1); apply (alone_trans _ _ _ _ _ H12).
  - split; [by apply H2|done|done|set_solver|].
    intros j s' e Hs' ->%list_elem_of_singleton. cbn. apply Nat.eqb_neq. intros Heq. by apply (Hfresh _ _ Hs').
  - split; [|done| |set_solver|set_solver]; cbn.
    + split; cbn.
      * intros k s'. rewrite lookup_insert_Some. intros [[_ <-]|[_ Hs']]; [cbn; lia|]. pose proof (W1 _ _ Hs'). lia.
      * intros k1 k2 s1 s2. rewrite !lookup_insert_Some.
        intros [[<- <-]|[_ Hs1]] [[<- <-]|[_ Hs2]] Heq; cbn in *; [done| | |by apply (W2 k1 k2 s1 s2)].
        -- by destruct (Hfresh _ _ Hs2).
        -- by destruct (Hfresh _ _ Hs1).
      * intros k h c2 i2. rewrite lookup_insert_Some. intros [[<- [= <- Heq]]|[_ Hs']]; [|by apply (W3 k h)].
        by destruct (Hsink c2 i2 Heq) as [-> ->].
    + intros j. by rewrite lookup_insert_ne.
Qed.
End isolation.

(** The calls the agent makes for a client. *)
Inductive terminal_op :=
| OpOpen (clientID sessionID : string) (rows cols : Z) (answer : result ())
| OpOpenWebRTC (clientID sessionID : string) (rows cols : Z) (channel : nat) (answer : result ())
| OpInput (clientID sessionID raw : string)
| OpInputBytes (clientID sessionID : string) (data : bytes)
| OpResize (clientID sessionID : string) (rows cols : Z)
| OpClose (clientID sessionID : string)
| OpCloseClient (clientID : string).

Definition op_client (op : terminal_op) : string :=
  match op with
  | OpOpen c _ _ _ _ | OpOpenWebRTC c _ _ _ _ _ | OpInput c _ _ | OpInputBytes c _ _ | OpResize c _ _ _
  | OpClose c _ | OpCloseClient c => c
  end.

Section ops.
Context (error_text : error → string).

Definition op_apply (op : terminal_op) (m : terminalManager) : terminalManager * list term_effect :=
  match op with
  | OpOpen c i rows cols answer => (Open error_text c i rows cols answer m).1
  | OpOpenWebRTC c i rows cols channel answer => (OpenWebRTC c i rows cols channel answer m).1
  | OpInput c i raw => (m, Input c i raw m)
  | OpInputBytes c i data => (m, InputBytes c i data m)
  | OpResize c i rows cols => (m, Resize c i rows cols m)
  | OpClose c i => Close c i m
  | OpCloseClient c => CloseClient c m
  end.

Fixpoint op_run (ops : list terminal_op) (m : terminalManager) : terminalManager * list term_effect :=
  match ops with
  | [] => (m, [])
  | op :: ops => let '(m, l) := op_apply op m in let '(m, l') := op_run ops m in (m, l ++ l')
  end.

Lemma alone_send c m message : terminals_wf m → stringField message "client_id" ≠ c → leaves_alone c m m [TSend message].
Proof.
  intros Hw Hne. split; try done.
  - by intros ? [= ->]%list_elem_of_singleton.
  - by intros i s e _ ->%list_elem_of_singleton.
Qed.

Lemma alone_use c c' i m (f : nat → term_effect) : terminals_wf m → no_colon c → no_colon c' → c' ≠ c →
  (∀ h, f h = TWrite h (match f 0%nat with TWrite _ d => d | _ => [] end) ∨
        ∃ rows cols, f h = TResize h rows cols) →
  leaves_alone c m m (match tmSessions m !! terminal_key c' i with Some s => [f (tsHandle s)] | None => [] end).
Proof.
  intros Hw Hc Hc' Hne Hf. destruct (tmSessions m !! terminal_key c' i) as [s|] eqn:Hs; [|by apply alone_refl].
  split; try done.
  - intros message Heq%list_elem_of_singleton. destruct (Hf (tsHandle s)) as [E|(? & ? & E)]; by rewrite E in Heq.
  - intros j s' e Hs' ->%list_elem_of_singleton.
    assert (tsHandle s ≠ tsHandle s') as Hd.
    { intros Heq. apply Hne, (key_inj _ _ i j Hc' Hc). by apply (tw_unique m Hw _ _ _ _ Hs Hs'). }
    destruct (Hf (tsHandle s)) as [-> | (? & ? & ->)]; cbn; by apply Nat.eqb_neq.
Qed.

Lemma alone_op c op m : terminals_wf m → no_colon c → no_colon (op_client op) → op_client op ≠ c →
  leaves_alone c m (op_apply op m).1 (op_apply op m).2.
Proof.
  intros Hw Hc Hop Hne. destruct op as [c' i rows cols a|c' i rows cols n a|c' i raw|c' i data|c' i rows cols|c' i|c']; cbn in Hop, Hne |- *.
  - pose proof (alone_open c Hc c' i rows cols (Socket c' i) a m Hw Hop Hne ltac:(by intros ? ? [= -> ->])) as H1.
    unfold Open. destruct (open c' i rows cols (Socket c' i) a m) as [[m' l] [r|e]]; cbn in *;
      apply (alone_trans c _ _ _ _ _ H1), alone_send; try done; by apply H1.
  - by apply alone_open.
  - unfold Input. repeat case_match; try by apply alone_refl. all: by apply (alone_use c c' i m (λ h, TWrite h _)); auto.
  - apply (alone_use c c' i m (λ h, TWrite h data)); auto.
  - unfold Resize. case_match; [by apply alone_refl|]. apply (alone_use c c' i m (λ h, TResize h rows cols)); eauto.
  - apply alone_close; [done|done|]. intros j Heq. by apply Hne, (key_inj _ _ i j).
  - apply alone_close_keys; [done|done|]. intros k j Hk ->. apply list_elem_of_In, filter_In in Hk as [_ Hp].
    by apply Hne, (key_client c' c j (terminal_key c j)).
Qed.
End ops.

(** A client that leaves keeps no session, and takes no other's. *)
Lemma CloseClient_own c m i : tmSessions (CloseClient c m).1 !! terminal_key c i = None.
Proof.
  unfold CloseClient. rewrite close_keys_sessions. case_decide as Hk; [done|].
  apply eq_None_not_Some. intros Hs. apply Hk, list_elem_of_In, filter_In. split.
  - by apply list_elem_of_In, elem_of_session_keys.
  - unfold terminal_key. rewrite <- append_assoc. apply HasPrefix_refl_app.
Qed.

Lemma CloseClient_others c c' m i : no_colon c → no_colon c' → c' ≠ c →
  tmSessions (CloseClient c m).1 !! terminal_key c' i = tmSessions m !! terminal_key c' i.
Proof.
  intros Hc Hc' Hne. unfold CloseClient. rewrite close_keys_sessions. case_decide as Hk; [|done].
  apply list_elem_of_In, filter_In in Hk as [_ Hp]. by destruct (Hne (eq_sym (key_client c c' i _ Hc Hc' eq_refl Hp))).
Qed.

(** ** Properties *)

(** C17: the life of a terminal.  However the calls of the manager interleave, a terminal
    is stopped at most once; one that is registered runs and has one key; and each one
    opened is about to be registered, registered, stopped exactly once, or was replaced
    while registered.  After [CloseAll] no session is registered, whatever calls were
    under way or follow: they stop the terminals they open. *)
Theorem terminal_lifecycle (es es' : list terminal_event) :
  let r := run_terminals es in
  let r' := run_terminals (es ++ shut_events (trManager r) ++ es') in
  (∀ h, (stops h (trTrace r) ≤ 1)%nat) ∧
  (∀ k s, tmSessions (trManager r) !! k = Some s →
     stops (tsHandle s) (trTrace r) = 0%nat ∧
     ∀ k' s', tmSessions (trManager r) !! k' = Some s' → tsHandle s' = tsHandle s → k' = k) ∧
  (∀ h, (h < tmOpened (trManager r))%nat →
     h ∈ trPending r ∨ registered h (trManager r) ∨ h ∈ trLost r ∨ stops h (trTrace r) = 1%nat) ∧
  tmSessions (trManager r') = ∅ ∧
  (∀ h, (h < tmOpened (trManager r'))%nat → h ∈ trPending r' ∨ h ∈ trLost r' ∨ stops h (trTrace r') = 1%nat).
Proof.
  intros r r'. pose proof (run_terminals_inv es) as Hr. pose proof (run_terminals_inv (es ++ shut_events (trManager r) ++ es')) as Hr'.
  fold r in Hr. fold r' in Hr'.
  assert (∀ q, run_inv q → ∀ h, (h < tmOpened (trManager q))%nat →
    h ∈ trPending q ∨ registered h (trManager q) ∨ h ∈ trLost q ∨ stops h (trTrace q) = 1%nat) as Hcases.
  { intros q Hq h Hh. destruct (decide (h ∈ trPending q)); [tauto|]. destruct (decide (h ∈ trLost q)); [tauto|].
    destruct (ri_stopped q Hq h Hh); tauto. }
  assert (tmSessions (trManager r') = ∅) as He.
  { unfold r'. rewrite run_terminals_app. fold r. unfold terminal_run_from. rewrite foldl_app.
    fold (terminal_run_from (shut_events (trManager r)) r). rewrite CloseAll_run.
    destruct (CloseAll_empty (trManager r)) as [Hempty Hclosed].
    destruct (terminal_run_shut es' (MkTerminalRun (CloseAll (trManager r)).1 (trPending r) (trLost r)
      (trTrace r ++ (CloseAll (trManager r)).2)) Hclosed) as [_ Hsub].
    cbn [trManager] in Hsub. rewrite Hempty in Hsub. apply map_empty. intros k.
    destruct (tmSessions _ !! k) as [s|] eqn:E; [|done]. by apply (lookup_weaken _ _ _ _ E) in Hsub. }
  split_and!; [| | by apply Hcases|done|].
  - intros h. destruct (decide (h < tmOpened (trManager r))%nat) as [Hh|Hh]; [|rewrite (ri_fresh r Hr); lia].
    destruct (Hcases r Hr h Hh) as [Hp|[(k & s & Hk & <-)|[Hl|Hs]]]; [| | |lia].
    + destruct (ri_pending r Hr h Hp) as (_ & _ & ->). lia.
    + destruct (ri_sessions r Hr _ _ Hk) as (_ & _ & _ & ->). lia.
    + destruct (ri_lost r Hr h Hl) as (_ & ->). lia.
  - intros k s Hk. split; [by apply (ri_sessions r Hr k)|]. intros k' s' Hk' Heq. by apply (ri_unique r Hr k' k s' s).
  - intros h Hh. destruct (Hcases r' Hr' h Hh) as [?|[(k & s & Hk & _)|?]]; [tauto| |tauto]. by rewrite He in Hk.
Qed.

(** a call of [open] that nothing interrupts replaces no running terminal, but two of
    them for one key that interleave do: the terminal registered first is replaced by the
    second, and nothing, neither its reader nor [CloseAll], ever stops it. *)
Theorem terminal_race (es es' : list terminal_event) (key clientID sessionID : string) (s1 s2 : sink) (rows cols : Z) :
  let r := run_terminals es in
  let n := tmOpened (trManager r) in
  let interleaved := [EvClose key None; EvClose key None; EvStart rows cols; EvStart rows cols;
                      EvRegister key (MkTerminal n s1); EvRegister key (MkTerminal (S n) s2)] in
  let r' := run_terminals (es ++ interleaved ++ es') in
  sessionID ≠ "" → rows ≠ 0 → cols ≠ 0 → tmClosed (trManager r) = false →
  trLost (terminal_run_from (open_events (terminal_key clientID sessionID) rows cols s1 (trManager r)) r) = trLost r ∧
  n ∈ trLost r' ∧ stops n (trTrace r') = 0%nat ∧ ¬ registered n (trManager r').
Proof.
  intros r n interleaved r' Hid Hrows Hcols Hopen. pose proof (run_terminals_inv es) as Hr. fold r in Hr. split.
  - pose proof (open_run clientID sessionID rows cols s1 r Hr Hid Hrows Hcols) as Hrun. cbv zeta in Hrun.
    destruct (open clientID sessionID rows cols s1 (Ok ()) (trManager r)) as [[m c] res]. by rewrite Hrun.
  - unfold r'. rewrite !run_terminals_app. fold r. unfold terminal_run_from at 1. rewrite foldl_app.
    fold (terminal_run_from interleaved r).
    assert (n ∈ trLost (terminal_run_from interleaved r)) as Hl.
    { unfold interleaved. cbn [terminal_run_from foldl terminal_apply].
      destruct (closeSession_frame key None (trManager r)) as (Ho & Hc & Hk).
      destruct (closeSession key None (trManager r)) as [m1 c1]. cbn [fst snd trManager trPending trLost trTrace open_terminal tmOpened] in *.
      destruct (closeSession_frame key None m1) as (Ho' & Hc' & Hk').
      destruct (closeSession key None m1) as [m2 c2]. cbn [fst snd trManager trPending trLost trTrace open_terminal tmOpened] in *.
      rewrite Ho', Ho. fold n. cbn [tsHandle]. rewrite (bool_decide_true (n ∈ {[S n]} ∪ ({[n]} ∪ trPending r))) by set_solver.
      unfold register_terminal. cbn [tmClosed]. rewrite Hc', Hc, Hopen.
      cbn [trManager trPending trLost trTrace tsHandle].
      rewrite bool_decide_true by (rewrite elem_of_difference, (elem_of_singleton (S n)); split; [set_solver|lia]).
      unfold replaced, with_terminals. cbn [tmClosed tmSessions trLost]. cbn [trLost tmSessions].
      rewrite lookup_insert_eq. cbn [tsHandle]. set_solver. }
    apply (lost_run n es' (terminal_run_from interleaved r)); [by apply terminal_run_from_inv|done].
Qed.

(** clients do not disturb each other.  Client ids have no colon; whatever other
    clients open, type, resize, close or leave behind, the sessions of a client stay as
    they are, no terminal of its is written, resized or stopped, and no event is sent to
    it.  Its own [CloseClient] leaves it no session. *)
Theorem terminals_isolated (error_text : error → string) (c : string) (ops : list terminal_op) (m : terminalManager) :
  terminals_wf m → no_colon c → Forall (λ op, no_colon (op_client op) ∧ op_client op ≠ c) ops →
  leaves_alone c m (op_run error_text ops m).1 (op_run error_text ops m).2 ∧
  ∀ i, tmSessions (CloseClient c m).1 !! terminal_key c i = None.
Proof.
  intros Hw Hc Hops. split.
  - revert m Hw. induction Hops as [|op ops [Hop Hne] _ IH]; intros m Hw; cbn [op_run]; [by apply alone_refl|].
    pose proof (alone_op error_text c op m Hw Hc Hop Hne) as H1. destruct (op_apply error_text op m) as [m1 l1].
    specialize (IH m1 (la_wf _ _ _ _ H1)). destruct (op_run error_text ops m1) as [m2 l2]. by apply (alone_trans c m m1).
  - apply CloseClient_own.
Qed.

(** terminal data survives its encodings.  What a terminal prints is sent as text
    that decodes to the same bytes, and both the padded text of a browser and the
    unpadded text the agent itself writes are typed into the terminal as they were. *)
Theorem terminal_data (clientID sessionID : string) (data : bytes) (m : terminalManager) :
  b64raw_decode (terminalData data) = Some data ∧
  Input clientID sessionID (bytes_str (b64std_encode data)) m = InputBytes clientID sessionID data m ∧
  Input clientID sessionID (terminalData data) m = InputBytes clientID sessionID data m.
Proof.
  unfold Input, terminalData. rewrite b64std_roundtrip, b64raw_roundtrip. split_and!; [done|done|].
  destruct (decide ((length data mod 3)%nat = 0%nat)) as [H0|H0]; [|by rewrite b64std_unpadded].
  pose proof (b64std_roundtrip data) as Hrt. unfold b64std_encode, std_padding in Hrt. rewrite H0, app_nil_r in Hrt.
  by rewrite Hrt.
Qed.

(** ** Witnesses *)

Module TerminalWitness.

Definition opened : terminalManager := (op_run (λ _, "") [OpOpen "alice" "1" 24 80 (Ok ())] newTerminalManager).1.

Lemma opened_sessions k s : tmSessions opened !! k = Some s → k = "alice:1" ∧ s = MkTerminal 0 (Socket "alice" "1").
Proof.
  assert (tmSessions opened = {["alice:1" := MkTerminal 0 (Socket "alice" "1")]}) as -> by (vm_compute; reflexivity).
  by intros [<- <-]%lookup_singleton_Some.
Qed.

Lemma opened_wf : terminals_wf opened.
Proof.
  split.
  - intros k s [_ ->]%opened_sessions. vm_compute. lia.
  - by intros k1 k2 s1 s2 [-> _]%opened_sessions [-> _]%opened_sessions.
  - by intros k h c i [-> [= -> -> ->]]%opened_sessions.
Qed.

Lemma terminal_race_witness :
  let r := run_terminals [] in
  let r' := run_terminals ([] ++ [EvClose "a:1" None; EvClose "a:1" None; EvStart 24 80; EvStart 24 80;
                      EvRegister "a:1" (MkTerminal 0 (Channel 0)); EvRegister "a:1" (MkTerminal 1 (Channel 1))] ++
                      [EvClose "a:1" (Some 0%nat); EvShut; EvClose "a:1" None]) in
  trLost (terminal_run_from (open_events (terminal_key "a" "1") 24 80 (Channel 0) (trManager r)) r) = trLost r ∧
  0%nat ∈ trLost r' ∧ stops 0 (trTrace r') = 0%nat ∧ ¬ registered 0 (trManager r').
Proof.
  apply (terminal_race [] [EvClose "a:1" (Some 0%nat); EvShut; EvClose "a:1" None] "a:1" "a" "1" (Channel 0) (Channel 1) 24 80); done.
Defined.

Lemma terminals_isolated_witness :
  let ops := [OpOpen "bob" "1" 24 80 (Ok ()); OpInput "bob" "1" "bHM="; OpCloseClient "bob"] in
  leaves_alone "alice" opened (op_run (λ _, "") ops opened).1 (op_run (λ _, "") ops opened).2 ∧
  ∀ i, tmSessions (CloseClient "alice" opened).1 !! terminal_key "alice" i = None.
Proof.
  apply (terminals_isolated (λ _, "") "alice" [OpOpen "bob" "1" 24 80 (Ok ()); OpInput "bob" "1" "bHM="; OpCloseClient "bob"] opened opened_wf).
  - unfold no_colon. vm_compute. set_solver.
  - repeat constructor; try done; unfold no_colon; vm_compute; set_solver.
Defined.

Lemma bob_effects :
  (op_run (λ _, "") [OpOpen "bob" "1" 24 80 (Ok ()); OpInput "bob" "1" "bHM="; OpCloseClient "bob"] opened).2 =
  [TStart 1 24 80; event "bob" "1" "pty_opened" ""; TWrite 1 (str_bytes "ls"); TStop 1; event "bob" "1" "pty_closed" ""].
Proof. vm_compute. done. Qed.

End TerminalWitness.
