(* ===== verification/DeviceIO.v ===== *)
(** * The device of an agent (agent/internal/agent/device.go, device_files.go)

    An agent runs on the Android device or on a host that reaches the device through ADB.
    Both are a [deviceFiles]: the class states what a committed upload promises, the two
    implementations discharge it.  The world is the file system of the agent and that of
    the device; each call to the system consumes a fault, so that every theorem holds for
    failures at any point. *)

From S2P Require Import Prelude GoBase GoStrings GoFloat Model Control Scrcpy AdbShell DeviceFiles.

(** ** Paths *)

(** Up to the last slash. *)
Fixpoint drop_name (l : bytes) : bytes :=
  match l with [] => [] | a :: l => if decide (a = ch "/") then a :: l else drop_name l end.

(** [filepath.Dir]; that of a relative path is relative, and here only compared with that
    of an absolute one. *)
Definition Dir (path : string) : string :=
  if IsAbs path then Clean (bytes_str (rev (drop_name (rev (str_bytes path))))) else ".".
Definition Base (path : string) : string := default "/" (last (clean_elements path)).
Definition JoinPath (dir name : string) : string := Clean (dir +:+ "/" +:+ name).

(** ** The world *)

Record file := MkFile { fData : bytes; fMode : Z }.
Abbreviation fs := (gmap string file).

(** What the next call to the system does: it works, it finds its paths on two file
    systems, or it fails after transferring some bytes; a command on the device may have
    run although its result is lost. *)
Inductive fault :=
| Fine
| CrossDevice
| Fault (partial : nat) (ran : bool) (e : error).

Record world := MkWorld { wHost : fs; wDevice : fs; wFaults : list fault }.

Definition with_host (h : fs) (w : world) : world := MkWorld h (wDevice w) (wFaults w).
Definition with_device (d : fs) (w : world) : world := MkWorld (wHost w) d (wFaults w).

Definition io (A : Type) : Type := world → result A * world.

Definition io_ret {A} (a : A) : io A := λ w, (Ok a, w).
Definition io_fail {A} (e : error) : io A := λ w, (Err e, w).
#[export] Instance io_bind : MBind io := λ A B f a w,
  match a w with (Ok x, w) => f x w | (Err e, w) => (Err e, w) end.
(** A call whose error is dropped. *)
Definition ignore (a : io ()) : io () := λ w, (Ok (), (a w).2).
(** A deferred call, whose error is dropped. *)
Definition finally {A} (a : io A) (cleanup : io ()) : io A := λ w,
  let '(r, w) := a w in let '(_, w) := cleanup w in (r, w).

Definition next_fault : io fault := λ w,
  match wFaults w with
  | [] => (Ok Fine, w)
  | f :: l => (Ok f, MkWorld (wHost w) (wDevice w) l)
  end.

Definition io_host {A} (f : fs → result A * fs) : io A := λ w,
  let '(r, h) := f (wHost w) in (r, with_host h w).
Definition io_device {A} (f : fs → result A * fs) : io A := λ w,
  let '(r, d) := f (wDevice w) in (r, with_device d w).

Definition no_file : error := ErrMsg "no such file or directory".

Section device.
(** [os.CreateTemp]: the name of a new file for a pattern in a directory; [tool]: what the
    commands of the device print, their exit status, and what they do to its files. *)
Context (temp : string → string → fs → string).
Context (tool : list string → fs → bytes * Z * fs).

(** ** Calls of the operating system *)

(** A call that fails before it does anything. *)
Definition syscall {A} (f : fs → result A * fs) : io A :=
  x ← next_fault;
  match x with Fault _ _ e => io_fail e | _ => io_host f end.

Definition CreateTemp (dir pattern : string) : io string :=
  syscall (λ h, let name := temp dir pattern h in (Ok name, <[name := MkFile [] 384]> h)).

Definition os_Remove (path : string) : io () := syscall (λ h, (Ok (), delete path h)).

Definition Chmod (path : string) (mode : Z) : io () :=
  syscall (λ h, match h !! path with
                | Some f => (Ok (), <[path := MkFile (fData f) mode]> h)
                | None => (Err no_file, h)
                end).

Definition os_Open (path : string) : io file :=
  syscall (λ h, match h !! path with Some f => (Ok f, h) | None => (Err no_file, h) end).

(** [os.OpenFile] with [O_CREATE|O_TRUNC|O_WRONLY] and mode 0644. *)
Definition os_Create (path : string) : io () :=
  syscall (λ h, (Ok (), <[path := MkFile [] (match h !! path with Some f => fMode f | None => 420 end)]> h)).

(** [io.Copy] into an open file: a failure leaves the bytes copied so far. *)
Definition write_file (path : string) (data : bytes) : io () :=
  x ← next_fault;
  let write bytes := io_host (λ h, (Ok (), match h !! path with
                                           | Some f => <[path := MkFile (fData f ++ bytes) (fMode f)]> h
                                           | None => h end)) in
  match x with
  | Fault partial _ e => _ ← write (take partial data); io_fail e
  | _ => write data
  end.

Definition close_file : io () := syscall (λ h, (Ok (), h)).

Inductive renamed := Renamed | EXDEV | RenameError (e : error).
Definition Rename (source destination : string) : world → renamed * world := λ w,
  match next_fault w with
  | (Ok CrossDevice, w) => (EXDEV, w)
  | (Ok (Fault _ _ e), w) => (RenameError e, w)
  | (_, w) =>
      match wHost w !! source with
      | Some f => (Renamed, with_host (<[destination := f]> (delete source (wHost w))) w)
      | None => (RenameError no_file, w)
      end
  end.
Definition rename_error (source destination : string) : io () := λ w,
  match Rename source destination w with
  | (Renamed, w) => (Ok (), w)
  | (EXDEV, w) => (Err (ErrMsg "invalid cross-device link"), w)
  | (RenameError e, w) => (Err e, w)
  end.

(** [fmt.Errorf("prefix: %w", err)]; the errors of the agent are texts. *)
Definition wrap_error (prefix : string) (e : error) : error :=
  match e with ErrMsg text => ErrMsg (prefix +:+ text) | _ => e end.
Definition wrapped {A} (prefix : string) (a : io A) : io A := λ w,
  match a w with (Ok x, w) => (Ok x, w) | (Err e, w) => (Err (wrap_error prefix e), w) end.

(** The output is closed whether or not the copy failed; the error of the copy counts
    first. *)
Definition close_after (a : io ()) : io () := λ w,
  let '(r, w) := a w in let '(c, w) := close_file w in
  (match r with Err e => Err e | Ok _ => c end, w).

Definition copyFile (source destination : string) : io () :=
  input ← os_Open source;
  _ ← os_Create destination;
  close_after (write_file destination (fData input)).

(** ** Commands on the device *)

Definition commandOutputLimit : Z := Z.shiftl 1 20.

(** A shell session of the device, [Client.Run] behind [executeOutput]: the device's shell
    splits the line into words and runs the tool they name. *)
Definition run_line (line : string) : io bytes :=
  x ← next_fault;
  match x, sh_words false None (str_bytes line) with
  | Fault _ false e, _ => io_fail e
  | _, None => io_fail (ErrMsg "syntax error")
  | Fault _ true e, Some words => io_device (λ d, (Err e, (tool words d).2))
  | _, Some words =>
      io_device (λ d, let '(out, code, d) := tool words d in
                      (if code =? 0 then Ok (take (Z.to_nat commandOutputLimit) out)
                       else Err (ErrMsg ("remote command exited with status " +:+ FormatUint code)), d))
  end.

(** [adbDevice.Execute] and [executeOutput]: the command is quoted for that shell. *)
Definition run_tool (name : string) (args : list string) : io bytes :=
  match AdbShell.Command name args with
  | Err e => io_fail e
  | Ok line => run_line line
  end.

Definition forget (a : io bytes) : io () := _ ← a; io_ret ().

(** [client.Push]: a failure leaves a part of the file, or nothing. *)
Definition Push (data : bytes) (path : string) (mode : Z) : io () :=
  x ← next_fault;
  match x with
  | Fault partial ran e =>
      if ran then io_device (λ d, (Err e, <[path := MkFile (take partial data) mode]> d)) else io_fail e
  | _ => io_device (λ d, (Ok (), <[path := MkFile data mode]> d))
  end.

Definition property (name : string) : io string := λ w,
  match run_tool "getprop" [name] w with
  | (Ok out, w) => (Ok (TrimSpace (bytes_str out)), w)
  | (Err _, w) => (Ok "", w)
  end.

(** ** Files of a local device *)

Definition local_StageUpload (path : string) : io string := CreateTemp (Dir path) ".scrcpycat-upload-*".

Definition local_CommitUpload (stage destination : string) : io () := λ w,
  match Rename stage destination w with
  | (Renamed, w) => (Ok (), w)
  | (RenameError e, w) => (Err e, w)
  | (EXDEV, w) =>
      (name ← CreateTemp (Dir destination) ".scrcpycat-upload-*";
       _ ← ignore close_file;
       finally (_ ← copyFile stage name; _ ← Chmod name 420; rename_error name destination)
               (os_Remove name)) w
  end.

(** [os.RemoveAll]: the file and everything below the path. *)
Definition below (path p : string) : bool := bool_decide (p = path) || HasPrefix p (path +:+ "/").
Definition local_Remove (path : string) : io () :=
  syscall (λ h, (Ok (), filter (λ kv, below path kv.1 = false) h)).

(** ** Files of a device behind ADB *)

Definition adb_StageUpload (path : string) : io string := CreateTemp "/tmp" "scrcpycat-upload-*".

Definition upload_template (destination : string) : string := JoinPath (Dir destination) ".scrcpycat-upload-XXXXXXXX".

Definition adb_CommitUpload (stage destination : string) : io () :=
  input ← os_Open stage;
  out ← run_tool "mktemp" [upload_template destination];
  let remote := TrimSpace (bytes_str out) in
  if bool_decide (remote = "") || negb (bool_decide (Dir remote = Dir destination))
  then io_fail (ErrMsg "invalid Android upload staging path")
  else finally (_ ← Push (fData input) remote 420; wrapped "commit Android upload: " (forget (run_tool "mv" ["-fT"; "--"; remote; destination])))
               (forget (run_tool "rm" ["-f"; "--"; remote])).

Definition adb_Mkdir (path : string) (all : bool) : io () :=
  forget (run_tool "mkdir" (["-m"; "0755"] ++ (if all then ["-p"] else []) ++ ["--"; path])).
Definition adb_Remove (path : string) : io () := forget (run_tool "rm" ["-rf"; "--"; path]).

(** ** Metadata *)

(** [os.FileMode] bits, and the type bits of a Unix mode. *)
Definition ModeDir : Z := 2 ^ 31.
Definition ModeSymlink : Z := 2 ^ 27.
Definition ModeDevice : Z := 2 ^ 26.
Definition ModeNamedPipe : Z := 2 ^ 25.
Definition ModeSocket : Z := 2 ^ 24.
Definition ModeSetuid : Z := 2 ^ 23.
Definition ModeSetgid : Z := 2 ^ 22.
Definition ModeCharDevice : Z := 2 ^ 21.
Definition ModeSticky : Z := 2 ^ 20.

Definition type_bits (raw : Z) : Z :=
  let t := Z.land raw 61440 in
  if t =? 16384 then ModeDir
  else if t =? 40960 then ModeSymlink
  else if t =? 4096 then ModeNamedPipe
  else if t =? 49152 then ModeSocket
  else if t =? 8192 then Z.lor ModeDevice ModeCharDevice
  else if t =? 24576 then ModeDevice
  else 0.

Definition androidFileMode (raw : Z) : Z :=
  let mode := Z.lor (Z.land raw 511) (type_bits raw) in
  let mode := if Z.land raw 2048 =? 0 then mode else Z.lor mode ModeSetuid in
  let mode := if Z.land raw 1024 =? 0 then mode else Z.lor mode ModeSetgid in
  if Z.land raw 512 =? 0 then mode else Z.lor mode ModeSticky.

(** [mode.IsRegular] and [mode.IsDir]. *)
Definition ModeType : Z := 2401763328.
Definition IsRegular (mode : Z) : bool := Z.land mode ModeType =? 0.
Definition IsDir (mode : Z) : bool := negb (Z.land mode ModeDir =? 0).

(** [strconv.ParseUint] in base 10 and 16 for 64 bits: a syntax error gives zero, a
    number out of range the largest one, both with an error. *)
Fixpoint parse_hex (acc : Z) (l : bytes) : option Z :=
  match l with
  | [] => Some acc
  | a :: l =>
      if in_range a 48 57 then parse_hex (acc * 16 + (byte_val a - 48)) l
      else if in_range a 97 102 then parse_hex (acc * 16 + (byte_val a - 87)) l
      else if in_range a 65 70 then parse_hex (acc * 16 + (byte_val a - 55)) l
      else None
  end.
Definition ParseUint (hex : bool) (s : string) : Z * bool :=
  match str_bytes s with
  | [] => (0, false)
  | l => match (if hex then parse_hex 0 l else parse_digits 0 l) with
         | None => (0, false)
         | Some n => if n <? 2 ^ 64 then (n, true) else (2 ^ 64 - 1, false)
         end
  end.

Record fileInfo := MkInfo { fiName : string; fiSize : Z; fiMode : Z; fiModified : Z }.

(** [adbDevice.stat]: the output of the tool stat for a path. *)
Definition parse_stat (path : string) (output : bytes) : result fileInfo :=
  match Fields (bytes_str output) with
  | [mode; size; modified] =>
      match ParseUint true mode, ParseInt size, ParseInt modified with
      | (mode, true), Some size, Some modified => Ok (MkInfo (Base path) size (androidFileMode mode) modified)
      | _, _, _ => Err (ErrMsg "invalid syntax")
      end
  | _ => Err (ErrMsg "invalid Android file metadata")
  end.

Definition stat (path : string) : io fileInfo := λ w,
  match run_tool "stat" ["-L"; "-c"; "%f %s %Y"; "--"; path] w with
  | (Ok out, w) => (parse_stat path out, w)
  | (Err e, w) => (Err e, w)
  end.

(** [ListFiles] of a local device: for each entry the answers of [os.Stat] and of
    [entry.Info]; of ADB: entries that are links are replaced by their target. *)
Definition too_many : error := ErrMsg "directory contains too many entries".
Definition local_ListFiles (entries : result (list (result fileInfo * result fileInfo))) : result (list fileInfo) :=
  entries ← entries;
  if 20000 <? Z.of_nat (length entries) then Err too_many
  else Ok (omap (λ e, match e with (Ok i, _) | (Err _, Ok i) => Some i | _ => None end) entries).

Definition adb_ListFiles (target : string → result fileInfo) (path : string) (entries : result (list (string * Z * Z * Z)))
    : result (list fileInfo) :=
  entries ← entries;
  if 20000 <? Z.of_nat (length entries) then Err too_many
  else Ok (omap (λ e, let '(name, size, mode, modified) := e in
    if bool_decide (name = ".") || bool_decide (name = "..") then None
    else
      let info := MkInfo name size (androidFileMode mode) modified in
      Some (if Z.land (fiMode info) ModeSymlink =? 0 then info else from_ok info (target (JoinPath path name)))) entries).

(** Only a regular file is opened for download. *)
Definition adb_OpenFile (info : result fileInfo) : result fileInfo :=
  info ← info; if IsRegular (fiMode info) then Ok info else Err (ErrMsg "only regular files can be downloaded").

Record diskUsage := MkDisk { duBlocks : Z; duAvailable : Z; duBlockSize : Z }.
Definition parse_disk (output : bytes) : result diskUsage :=
  match Fields (bytes_str output) with
  | [blocks; available; size] =>
      match ParseUint false blocks, ParseUint false available, ParseUint false size with
      | (b, true), (a, true), (s, true) => Ok (MkDisk b a s)
      | _, _, _ => Err (ErrMsg "invalid syntax")
      end
  | _ => Err (ErrMsg "invalid Android filesystem statistics")
  end.
Definition adb_DiskUsage : io diskUsage := λ w,
  match run_tool "stat" ["-f"; "-c"; "%b %a %S"; "/data"] w with
  | (Ok out, w) => (parse_disk out, w)
  | (Err e, w) => (Err e, w)
  end.
Definition adb_ReadMetric (path : string) : io bytes :=
  run_tool "cat" ["--"; path].

End device.

(** ** The interface *)

Class deviceFiles := {
  dv_fs : world → fs;
  StageUpload : string → io string;
  CommitUpload : string → string → io ();
  Mkdir : string → bool → io ();
  Remove : string → io ();
}.

Definition holds (h : fs) (path : string) (data : bytes) : Prop := ∃ mode, h !! path = Some (MkFile data mode).

(** The names of files that are being uploaded. *)
Definition upload_temp (path : string) : bool := HasPrefix (Base path) ".scrcpycat-upload-".

(** A commit either leaves the destination as it was or replaces it by the whole staged
    file, and it touches no other file that was there. *)
Record committed (stage destination : string) (data : bytes) (before after : fs) (r : result ()) : Prop := {
  cm_done : r = Ok () → holds after destination data;
  cm_atomic : after !! destination = before !! destination ∨ holds after destination data;
  cm_others : ∀ p g, p ≠ destination → p ≠ stage → before !! p = Some g → after !! p = Some g;
}.

(** Of the agent's own files only one changed. *)
Definition only (path : string) (w w' : world) : Prop :=
  wDevice w' = wDevice w ∧ ∀ p, p ≠ path → wHost w' !! p = wHost w !! p.

Class deviceFilesLaws (D : deviceFiles) := {
  only_law path w w' p : only path w w' → p ≠ path → dv_fs w' !! p = dv_fs w !! p;
  commit_law stage destination f w : wHost w !! stage = Some f → stage ≠ destination → upload_temp destination = false →
    committed stage destination (fData f) (dv_fs w) (dv_fs (CommitUpload stage destination w).2)
      (CommitUpload stage destination w).1;
  mkdir_law path all w : dv_fs (Mkdir path all w).2 = dv_fs w ∧ wHost (Mkdir path all w).2 = wHost w;
  remove_law path w p : below path p = false → dv_fs (Remove path w).2 !! p = dv_fs w !! p;
}.

(** ** Lemmas *)

Lemma io_bind_eq {A B} (a : io A) (f : A → io B) w :
  (a ≫= f) w = match a w with (Ok x, w) => f x w | (Err e, w) => (Err e, w) end.
Proof. done. Qed.

Lemma next_fault_files w : ∃ f l, next_fault w = (Ok f, MkWorld (wHost w) (wDevice w) l).
Proof. unfold next_fault. destruct w as [h d [|f l]]; eauto. Qed.

(** A call fails without an effect, or has its effect. *)
Lemma syscall_cases {A} (f : fs → result A * fs) w :
  ∃ l, (∃ e, syscall f w = (Err e, MkWorld (wHost w) (wDevice w) l)) ∨
       syscall f w = ((f (wHost w)).1, MkWorld (f (wHost w)).2 (wDevice w) l).
Proof.
  unfold syscall. rewrite io_bind_eq. destruct (next_fault_files w) as (x & l & ->). exists l.
  destruct x as [| |n ran e]; [right|right|left; by exists e]; unfold io_host; cbn; by destruct (f (wHost w)).
Qed.

Lemma Command_shell name args line : AdbShell.Command name args = Ok line →
  sh_words false None (str_bytes line) = Some (name :: args).
Proof. unfold AdbShell.Command. intros (q & Hq & [= <-])%bind_Ok. by apply sh_words_join. Qed.

(** *** Names *)

Lemma split_bytes_cat sep l1 : ∀ cur l2,
  split_bytes sep cur (l1 ++ sep :: l2) = split_bytes sep cur l1 ++ split_bytes sep [] l2.
Proof.
  induction l1 as [|a l1 IH]; intros cur l2; cbn [split_bytes app]; [by rewrite decide_True|].
  case_decide; [|apply IH]. cbn [app]. f_equal. apply IH.
Qed.

Lemma Base_join dir name : ch "/" ∉ str_bytes name → name ≠ "" → name ≠ "." → name ≠ ".." →
  Base (dir +:+ "/" +:+ name) = name.
Proof.
  intros Hs H1 H2 H3. unfold Base, clean_elements, Split. rewrite !str_bytes_app.
  change (str_bytes "/") with [ch "/"]. cbn [app]. rewrite split_bytes_cat, (split_bytes_no_sep (ch "/") [] (str_bytes name)) by done.
  rewrite foldl_app. cbn [foldl rev app]. rewrite bytes_str_bytes. unfold clean_step at 1.
  rewrite !bool_decide_false by done. cbn [orb]. by rewrite last_snoc.
Qed.
Section lemmas.
Context (temp : string → string → fs → string).
Context (tool : list string → fs → bytes * Z * fs).

(** What becomes of a line: it does not run and fails, or its tool runs; if it succeeds,
    the tool did. *)
Lemma run_line_cases line words w : sh_words false None (str_bytes line) = Some words →
  ∃ l, (∃ e, run_line tool line w = (Err e, MkWorld (wHost w) (wDevice w) l)) ∨
       (run_line tool line w).2 = MkWorld (wHost w) (tool words (wDevice w)).2 l ∧
       ∀ out, (run_line tool line w).1 = Ok out →
         (tool words (wDevice w)).1.2 = 0 ∧ out = take (Z.to_nat commandOutputLimit) (tool words (wDevice w)).1.1.
Proof.
  intros Hl. unfold run_line. rewrite Hl, io_bind_eq. destruct (next_fault_files w) as (x & l & ->). exists l.
  destruct (tool words (wDevice w)) as [[out code] d] eqn:Ht.
  destruct x as [| |n [] e]; [right|right|right|left; by exists e]; unfold io_device; cbn [wDevice wHost wFaults with_device fst snd];
    rewrite Ht; cbn; (split; [done|]); destruct (code =? 0) eqn:E; intros o Ho; try done; simplify_eq;
    (split; [by apply Z.eqb_eq|done]).
Qed.

(** The same for a command that is quoted first. *)
Lemma run_tool_cases name args w :
  ∃ l, (∃ e, run_tool tool name args w = (Err e, MkWorld (wHost w) (wDevice w) l)) ∨
       (run_tool tool name args w).2 = MkWorld (wHost w) (tool (name :: args) (wDevice w)).2 l ∧
       ∀ out, (run_tool tool name args w).1 = Ok out →
         (tool (name :: args) (wDevice w)).1.2 = 0 ∧ out = take (Z.to_nat commandOutputLimit) (tool (name :: args) (wDevice w)).1.1.
Proof.
  unfold run_tool. destruct (AdbShell.Command name args) as [line|e] eqn:Hl; [|exists (wFaults w); left; exists e; by destruct w].
  apply run_line_cases. by apply Command_shell.
Qed.

(** *** One file at a time *)

Lemma only_refl path w : only path w w.
Proof. done. Qed.
Lemma only_trans path w1 w2 w3 : only path w1 w2 → only path w2 w3 → only path w1 w3.
Proof. intros [D1 H1] [D2 H2]. split; [by rewrite D2|]. intros p Hp. by rewrite H2, H1. Qed.

Lemma syscall_only {A} (f : fs → result A * fs) path w :
  (∀ h p, p ≠ path → (f h).2 !! p = h !! p) → only path w (syscall f w).2.
Proof. intros Hf. destruct (syscall_cases f w) as (l & [(e & ->)| ->]); cbn; split; try done. intros p Hp. by apply Hf. Qed.

Lemma os_Remove_only path w : only path w (os_Remove path w).2.
Proof. apply syscall_only. intros h p Hp. cbn. by rewrite lookup_delete_ne. Qed.
Lemma Chmod_only path mode w : only path w (Chmod path mode w).2.
Proof. apply syscall_only. intros h p Hp. destruct (h !! path); cbn; [by rewrite lookup_insert_ne|done]. Qed.
Lemma os_Create_only path w : only path w (os_Create path w).2.
Proof. apply syscall_only. intros h p Hp. cbn. by rewrite lookup_insert_ne. Qed.
Lemma close_file_same w : ∃ l, (close_file w).2 = MkWorld (wHost w) (wDevice w) l.
Proof. unfold close_file. destruct (syscall_cases (λ h, (Ok (), h)) w) as (l & [(e & ->)| ->]); by exists l. Qed.

Lemma write_file_spec path data w :
  only path w (write_file path data w).2 ∧
  ((write_file path data w).1 = Ok () → ∀ f, wHost w !! path = Some f →
   wHost (write_file path data w).2 !! path = Some (MkFile (fData f ++ data) (fMode f))).
Proof.
  unfold write_file. rewrite io_bind_eq. destruct (next_fault_files w) as (x & l & ->).
  assert (∀ bytes p, p ≠ path → (match wHost w !! path with Some f => <[path := MkFile (fData f ++ bytes) (fMode f)]> (wHost w)
    | None => wHost w end) !! p = wHost w !! p) as Hne.
  { intros bytes p Hp. destruct (wHost w !! path); [by rewrite lookup_insert_ne|done]. }
  destruct x as [| |n ran e]; unfold io_host, io_fail, mbind, io_bind; cbn; (split; [split; [done|by intros p Hp; apply Hne]|]);
    intros Hok f Hf; try done; rewrite Hf; by rewrite lookup_insert_eq.
Qed.

Lemma Rename_cases source destination w :
  ∃ l, ((Rename source destination w).1 = Renamed ∧ ∃ f, wHost w !! source = Some f ∧
          (Rename source destination w).2 = MkWorld (<[destination := f]> (delete source (wHost w))) (wDevice w) l) ∨
       ((Rename source destination w).1 ≠ Renamed ∧ (Rename source destination w).2 = MkWorld (wHost w) (wDevice w) l).
Proof.
  unfold Rename. destruct (next_fault_files w) as (x & l & ->). exists l. destruct x as [| |n ran e]; cbn; [|by right|by right].
  destruct (wHost w !! source) as [f|] eqn:Hf; [left|right]; [|done]. split; [done|]. by exists f.
Qed.

Lemma copyFile_spec source destination f w : wHost w !! source = Some f → source ≠ destination →
  only destination w (copyFile source destination w).2 ∧
  ((copyFile source destination w).1 = Ok () → holds (wHost (copyFile source destination w).2) destination (fData f)).
Proof.
  intros Hf Hne. unfold copyFile. rewrite io_bind_eq. unfold os_Open.
  destruct (syscall_cases (λ h, match h !! source with Some f => (Ok f, h) | None => (Err no_file, h) end) w)
    as (l & [(e & ->)| ->]); [done|]. rewrite Hf. cbn [fst snd]. rewrite io_bind_eq.
  set (w1 := MkWorld _ _ _). pose proof (os_Create_only destination w1) as H1. unfold os_Create in *.
  destruct (syscall_cases (λ h, (Ok (), <[destination := MkFile [] (match h !! destination with Some f => fMode f | None => 420 end)]> h)) w1)
    as (l' & [(e & E)|E]); rewrite E in H1 |- *; [done|]. cbn [fst snd] in *.
  set (w2 := MkWorld _ _ l') in *.
  assert (∃ m, wHost w2 !! destination = Some (MkFile [] m)) as [m Hm] by (eexists; apply lookup_insert_eq).
  destruct (write_file_spec destination (fData f) w2) as [H2 Hw]. unfold close_after.
  destruct (write_file destination (fData f) w2) as [r w3]. cbn [fst snd] in *.
  destruct (close_file_same w3) as (l3 & Hc). destruct (close_file w3) as [c w4]. cbn [fst snd] in *. subst w4. split.
  - apply (only_trans _ _ w1); [done|]. apply (only_trans _ _ w2); [done|]. by destruct H2; split.
  - destruct r as [[]|e]; [|done]. intros _. exists m. cbn. exact (Hw eq_refl _ Hm).
Qed.
End lemmas.

(** ** The local device *)

Section local.
Context (temp : string → string → fs → string).
(** [os.CreateTemp] picks a name that is not in use and keeps the pattern's prefix. *)
Context (temp_fresh : ∀ dir pattern h, h !! temp dir pattern h = None).
Context (temp_name : ∀ dir h, upload_temp (temp dir ".scrcpycat-upload-*" h) = true).

Definition local_files : deviceFiles := {|
  dv_fs := wHost;
  StageUpload := local_StageUpload temp;
  CommitUpload := local_CommitUpload temp;
  Mkdir path all := syscall (λ h, (Ok (), h));
  Remove := local_Remove;
|}.

(** The copy to a new file beside the destination, and its renaming. *)
Lemma replace_copy stage name destination f w :
  wHost w !! stage = Some f → stage ≠ name → stage ≠ destination → name ≠ destination →
  let '(r, w') := finally (_ ← copyFile stage name; _ ← Chmod name 420; rename_error name destination) (os_Remove name) w in
  (r = Ok () → holds (wHost w') destination (fData f)) ∧
  (wHost w' !! destination = wHost w !! destination ∨ holds (wHost w') destination (fData f)) ∧
  ∀ p, p ≠ name → p ≠ destination → wHost w' !! p = wHost w !! p.
Proof.
  intros Hf Hsn Hsd Hnd. unfold finally.
  enough (∀ r w2, (_ ← copyFile stage name; _ ← Chmod name 420; rename_error name destination) w = (r, w2) →
    (r = Ok () ∧ holds (wHost w2) destination (fData f) ∨ r ≠ Ok () ∧ wHost w2 !! destination = wHost w !! destination) ∧
    ∀ p, p ≠ name → p ≠ destination → wHost w2 !! p = wHost w !! p) as Hbody.
  { destruct ((_ ← copyFile stage name; _ ← Chmod name 420; rename_error name destination) w) as [r w2].
    destruct (Hbody r w2 eq_refl) as [Hd Ho]. destruct (os_Remove_only name w2) as [_ Hr].
    destruct (os_Remove name w2) as [c w3]. cbn in Hr. unfold holds in *. rewrite Hr by congruence.
    split_and!; [destruct Hd as [[? ?]|[? ?]]; [done|by intros ->]|destruct Hd as [[? ?]|[? ?]]; tauto|].
    intros p Hpn Hpd. rewrite Hr by done. auto. }
  intros r w2. rewrite io_bind_eq. destruct (copyFile_spec stage name f w Hf Hsn) as [[_ H1] Hc].
  destruct (copyFile stage name w) as [[[]|e] w1]; cbn [fst snd] in *; [|intros [= <- <-]; split; auto].
  specialize (Hc eq_refl) as [m Hm]. rewrite io_bind_eq. unfold Chmod.
  destruct (syscall_cases (λ h, match h !! name with Some f => (Ok (), <[name := MkFile (fData f) 420]> h) | None => (Err no_file, h) end) w1)
    as (l & [(e & ->)| ->]); [intros [= <- <-]; split; auto|]. rewrite Hm. cbn [fst snd].
  set (w1' := MkWorld _ _ l). unfold rename_error.
  assert (∀ p, p ≠ name → wHost w1' !! p = wHost w !! p) as H1' by (intros p Hp; cbn; rewrite lookup_insert_ne; auto).
  destruct (Rename_cases name destination w1') as (l' & [(E1 & g & Hg & E2)|[E1 E2]]).
  - destruct (Rename name destination w1') as [[]]; cbn [fst snd] in *; simplify_eq. intros [= <- <-]. cbn [wHost].
    cbn in Hg. rewrite lookup_insert_eq in Hg. injection Hg as <-. split.
    + left. split; [done|]. exists 420. by rewrite lookup_insert_eq.
    + intros p Hpn Hpd. rewrite lookup_insert_ne, lookup_delete_ne by done. by apply H1'.
  - destruct (Rename name destination w1') as [rn w2']; cbn [fst snd] in *. subst w2'.
    intros Heq. assert (r ≠ Ok () ∧ w2 = MkWorld (wHost w1') (wDevice w1') l') as [Hr ->]
      by (destruct rn; [done| |]; injection Heq as <- <-; done).
    cbn [wHost]. split; [right; split; [done|by apply H1'; congruence]|]. intros p Hpn _. by apply H1'.
Qed.

#[export] Instance local_files_laws : deviceFilesLaws local_files.
Proof.
  split; cbn.
  - intros path w w' p [_ Ho]. apply Ho.
  - intros stage destination f w Hf Hne Hname. unfold local_CommitUpload.
    destruct (Rename_cases stage destination w) as (l & [(E1 & g & Hg & E2)|[E1 E2]]);
      destruct (Rename stage destination w) as [rn w1]; cbn [fst snd] in *; subst.
    + rewrite Hf in Hg. injection Hg as <-. assert (holds (<[destination := f]> (delete stage (wHost w))) destination (fData f)) as Hh.
      { exists (fMode f). rewrite lookup_insert_eq. by destruct f. }
      split; cbn; auto. intros p g Hpd Hps Hp. by rewrite lookup_insert_ne, lookup_delete_ne.
    + destruct rn as [| |e]; [done| |split; auto; done]. cbn [fst snd] in *.
      unfold CreateTemp. rewrite !io_bind_eq. set (w1 := MkWorld (wHost w) (wDevice w) l).
      destruct (syscall_cases (λ h, (Ok (temp (Dir destination) ".scrcpycat-upload-*" h),
        <[temp (Dir destination) ".scrcpycat-upload-*" h := MkFile [] 384]> h)) w1) as (l1 & [(e & ->)| ->]); [by split; auto|].
      cbn [fst snd wHost w1]. set (name := temp _ _ (wHost w)). rewrite io_bind_eq. unfold ignore.
      destruct (close_file_same (MkWorld (<[name := MkFile [] 384]> (wHost w)) (wDevice w1) l1)) as (l2 & ->).
      set (w2 := MkWorld _ _ l2). pose proof (temp_fresh (Dir destination) ".scrcpycat-upload-*" (wHost w)) as Hfresh. fold name in Hfresh.
      assert (name ≠ destination) as Hnd.
      { intros Heq. pose proof (temp_name (Dir destination) (wHost w)) as Hn. fold name in Hn. by rewrite Heq, Hname in Hn. }
      assert (stage ≠ name) as Hsn by (intros ->; congruence).
      assert (wHost w2 !! stage = Some f) as Hf2 by (cbn; by rewrite lookup_insert_ne).
      pose proof (replace_copy stage name destination f w2 Hf2 Hsn Hne Hnd) as Hr.
      destruct (finally _ _ w2) as [r w3]. destruct Hr as (H1 & H2 & H3). cbn [fst snd].
      assert (wHost w2 !! destination = wHost w !! destination) as Hd by (cbn; by rewrite lookup_insert_ne).
      split; [done|by rewrite <- Hd|]. intros p g Hpd Hps Hp. assert (p ≠ name) as Hpn by congruence.
      rewrite H3 by done. cbn. by rewrite lookup_insert_ne.
  - intros path all w. destruct (syscall_cases (λ h, (Ok (), h)) w) as (l & [(e & ->)| ->]); done.
  - intros path w p Hp. unfold local_Remove.
    destruct (syscall_cases (λ h, (Ok (), filter (λ kv, below path kv.1 = false) h)) w) as (l & [(e & ->)| ->]); [done|]. cbn.
    destruct (wHost w !! p) as [g|] eqn:Hg; [by apply map_lookup_filter_Some|]. apply map_lookup_filter_None. by left.
Qed.
End local.

(** ** The device behind ADB *)

(** What the code relies on of the tools of the device.  [mktemp] makes a new file of
    that prefix, or nothing, and prints its name; [mv] within a directory renames or does
    nothing; [rm -f] removes at most the file, [rm -rf] only what is below; [mkdir] makes
    directories, which are not among the files. *)
Record toolbox (tool : list string → fs → bytes * Z * fs) : Prop := {
  tb_mktemp destination d : let '(out, code, d') := tool ["mktemp"; upload_template destination] d in
    (d' = d ∧ code ≠ 0) ∨
    ∃ name, d !! name = None ∧ upload_temp name = true ∧ d' = <[name := MkFile [] 384]> d ∧
            (code = 0 → TrimSpace (bytes_str (take (Z.to_nat commandOutputLimit) out)) = name);
  tb_mv source destination d : Dir source = Dir destination →
    let '(_, code, d') := tool ["mv"; "-fT"; "--"; source; destination] d in
    (code = 0 ∧ ∃ f, d !! source = Some f ∧ d' = <[destination := f]> (delete source d)) ∨ (code ≠ 0 ∧ d' = d);
  tb_rm path d : (tool ["rm"; "-f"; "--"; path] d).2 = delete path d ∨ (tool ["rm"; "-f"; "--"; path] d).2 = d;
  tb_rm_rf path d p : below path p = false → (tool ["rm"; "-rf"; "--"; path] d).2 !! p = d !! p;
  tb_mkdir path (all : bool) d : (tool ("mkdir" :: ["-m"; "0755"] ++ (if all then ["-p"] else []) ++ ["--"; path]) d).2 = d;
}.

Section adb.
Context (temp : string → string → fs → string).
Context (tool : list string → fs → bytes * Z * fs) (tools : toolbox tool).

Definition adb_files : deviceFiles := {|
  dv_fs := wDevice;
  StageUpload := adb_StageUpload temp;
  CommitUpload := adb_CommitUpload tool;
  Mkdir := adb_Mkdir tool;
  Remove := adb_Remove tool;
|}.

Lemma forget_snd (a : io bytes) w : (forget a w).2 = (a w).2.
Proof. unfold forget. rewrite io_bind_eq. by destruct (a w) as [[|]]. Qed.
Lemma forget_Ok (a : io bytes) w : (forget a w).1 = Ok () → ∃ out, (a w).1 = Ok out.
Proof. unfold forget. rewrite io_bind_eq. destruct (a w) as [[out|e] w']; [by exists out|done]. Qed.

(** Removing the remote temporary touches no other file. *)
Lemma rm_only path w p : p ≠ path → wDevice (forget (run_tool tool "rm" ["-f"; "--"; path]) w).2 !! p = wDevice w !! p.
Proof.
  intros Hp. rewrite forget_snd. destruct (run_tool_cases tool "rm" ["-f"; "--"; path] w) as (l & [(e & ->)|[-> _]]); [done|].
  cbn [wDevice]. destruct (tb_rm tool tools path (wDevice w)) as [-> | ->]; [by rewrite lookup_delete_ne|done].
Qed.

Lemma wrapped_snd {A} prefix (a : io A) w : (wrapped prefix a w).2 = (a w).2.
Proof. unfold wrapped. by destruct (a w) as [[|]]. Qed.
Lemma wrapped_Ok {A} prefix (a : io A) w x : (wrapped prefix a w).1 = Ok x → (a w).1 = Ok x.
Proof. unfold wrapped. by destruct (a w) as [[|]]. Qed.

(** Pushing to the temporary and renaming it. *)
Lemma push_rename note data remote destination w : remote ≠ destination → Dir remote = Dir destination →
  let '(r, w') := (_ ← Push data remote 420; wrapped note (forget (run_tool tool "mv" ["-fT"; "--"; remote; destination]))) w in
  (r = Ok () → holds (wDevice w') destination data) ∧
  (wDevice w' !! destination = wDevice w !! destination ∨ holds (wDevice w') destination data) ∧
  ∀ p, p ≠ remote → p ≠ destination → wDevice w' !! p = wDevice w !! p.
Proof.
  intros Hne Hdir. rewrite io_bind_eq. unfold Push. rewrite io_bind_eq. destruct (next_fault_files w) as (x & l & ->).
  assert (∀ w1, wDevice w1 = <[remote := MkFile data 420]> (wDevice w) →
    let '(r, w') := wrapped note (forget (run_tool tool "mv" ["-fT"; "--"; remote; destination])) w1 in
    (r = Ok () → holds (wDevice w') destination data) ∧
    (wDevice w' !! destination = wDevice w !! destination ∨ holds (wDevice w') destination data) ∧
    ∀ p, p ≠ remote → p ≠ destination → wDevice w' !! p = wDevice w !! p) as Hmv.
  { intros w1 Hw1. pose proof (wrapped_snd note (forget (run_tool tool "mv" ["-fT"; "--"; remote; destination])) w1) as Hs. rewrite forget_snd in Hs.
    pose proof (λ H, forget_Ok (run_tool tool "mv" ["-fT"; "--"; remote; destination]) w1 (wrapped_Ok note _ w1 () H)) as Ho.
    destruct (wrapped note (forget (run_tool tool "mv" ["-fT"; "--"; remote; destination])) w1) as [r w']. cbn [fst snd] in *. subst w'.
    assert (∀ p, p ≠ remote → wDevice w1 !! p = wDevice w !! p) as Hp by (intros p Hp; by rewrite Hw1, lookup_insert_ne).
    pose proof (tb_mv tool tools remote destination (wDevice w1) Hdir) as Hl.
    destruct (run_tool_cases tool "mv" ["-fT"; "--"; remote; destination] w1) as (l' & [(e & E)|[E Hok]]).
    - rewrite E in Ho |- *. cbn in *. split_and!; [intros Hr; by destruct (Ho Hr)|left; by apply Hp|by intros p ? _; apply Hp].
    - rewrite E. destruct (tool ["mv"; "-fT"; "--"; remote; destination] (wDevice w1)) as [[out code] d]. cbn [fst snd wDevice] in *.
      destruct Hl as [(-> & f & Hf & ->)|[Hc ->]].
      + rewrite Hw1, lookup_insert_eq in Hf. injection Hf as <-.
        assert (holds (<[destination := MkFile data 420]> (delete remote (wDevice w1))) destination data) as Hh
          by (exists 420; by rewrite lookup_insert_eq).
        split_and!; [done|by right|]. intros p Hpr Hpd. rewrite lookup_insert_ne, lookup_delete_ne by done. by apply Hp.
      + split_and!; [|left; by apply Hp|by intros p ? _; apply Hp]. intros Hr. destruct (Ho Hr) as [o Hro]. by destruct (Hok o Hro). }
  destruct x as [| |n [] e]; unfold io_device, io_fail; cbn [wDevice wHost wFaults with_device]; try (by apply Hmv).
  - split_and!; [done|left; cbn; by rewrite lookup_insert_ne|]. intros p Hp _. cbn. by rewrite lookup_insert_ne.
  - split_and!; [done|by left|done].
Qed.

#[export] Instance adb_files_laws : deviceFilesLaws adb_files.
Proof.
  split; cbn.
  - by intros path w w' p [-> _] _.
  - intros stage destination f w Hf Hne Hname. unfold adb_CommitUpload. rewrite io_bind_eq. unfold os_Open.
    destruct (syscall_cases (λ h, match h !! stage with Some f => (Ok f, h) | None => (Err no_file, h) end) w)
      as (l & [(e & ->)| ->]); [split; auto; done|]. rewrite Hf. cbn [fst snd]. rewrite io_bind_eq.
    set (w1 := MkWorld _ _ l). pose proof (tb_mktemp tool tools destination (wDevice w)) as Hl.
    destruct (run_tool_cases tool "mktemp" [upload_template destination] w1) as (l' & [(e & ->)|[E Hok]]); [split; auto; done|].
    change (wDevice w1) with (wDevice w) in *.
    destruct (tool ["mktemp"; upload_template destination] (wDevice w)) as [[out code] d]. cbn [fst snd] in *.
    assert (∀ p g, wDevice w !! p = Some g → d !! p = Some g) as Hold.
    { intros p g Hp. destruct Hl as [[-> _]|(name & Hn & _ & -> & _)]; [done|]. rewrite lookup_insert_ne; [done|congruence]. }
    assert (d !! destination = wDevice w !! destination) as Hd.
    { destruct Hl as [[-> _]|(name & Hn & Hu & -> & _)]; [done|]. rewrite lookup_insert_ne; [done|]. intros <-. congruence. }
    destruct (run_tool tool "mktemp" [upload_template destination] w1) as [[o|e] w2]; cbn [fst snd] in *; subst w2;
      [|split; cbn; [done|by left|auto]].
    destruct (Hok o eq_refl) as [-> ->].
    destruct Hl as [[_ Hc]|(name & Hn & Hu & -> & Hname')]; [done|]. rewrite (Hname' eq_refl).
    destruct (bool_decide (name = "") || negb (bool_decide (Dir name = Dir destination))) eqn:Hg;
      [split; cbn; [done|by left|auto]|].
    apply orb_false_iff in Hg as [_ Hg]. apply negb_false_iff, bool_decide_eq_true in Hg.
    assert (name ≠ destination) as Hnd by (intros ->; congruence).
    set (w2 := MkWorld _ _ l'). pose proof (push_rename "commit Android upload: " (fData f) name destination w2 Hnd Hg) as Hp.
    unfold finally. destruct ((_ ← Push (fData f) name 420; wrapped "commit Android upload: " (forget (run_tool tool "mv" ["-fT"; "--"; name; destination]))) w2) as [r w3]. destruct Hp as (H1 & H2 & H3).
    pose proof (rm_only name w3) as Hr. destruct (forget (run_tool tool "rm" ["-f"; "--"; name]) w3) as [c w4]. cbn [fst snd] in *.
    split; unfold holds in *; rewrite ?Hr by congruence; [done|cbn in H2; by rewrite Hd in H2|].
    intros p g Hpd _ Hp. assert (p ≠ name) as Hpn by congruence. rewrite Hr, H3 by done. cbn. by apply Hold.
  - intros path all w. unfold adb_Mkdir. rewrite forget_snd.
    destruct (run_tool_cases tool "mkdir" (["-m"; "0755"] ++ (if all then ["-p"] else []) ++ ["--"; path]) w) as (l & [(e & ->)|[-> _]]);
      [done|]. split; [apply (tb_mkdir tool tools)|done].
  - intros path w p Hp. unfold adb_Remove. rewrite forget_snd.
    destruct (run_tool_cases tool "rm" ["-rf"; "--"; path] w) as (l & [(e & ->)|[-> _]]); [done|]. by apply (tb_rm_rf tool tools).
Qed.
End adb.

(** ** Properties *)

(** C18: committing an upload is atomic on both kinds of device, whatever call fails and
    wherever it does.  After a commit of a staged file the destination is what it was, or
    the whole staged file; it is the staged file if the commit reports success; and no
    other file of the device changes.  A local device renames, and copies beside the
    destination when the two are on different file systems; behind ADB the file is pushed
    beside the destination and renamed there by commands that survive their quoting. *)
Theorem commit_atomic (temp : string → string → fs → string) (tool : list string → fs → bytes * Z * fs)
    (stage destination : string) (f : file) (w : world) :
  (∀ dir pattern h, h !! temp dir pattern h = None) →
  (∀ dir h, upload_temp (temp dir ".scrcpycat-upload-*" h) = true) →
  toolbox tool →
  wHost w !! stage = Some f → stage ≠ destination → upload_temp destination = false →
  let '(r, w') := local_CommitUpload temp stage destination w in
  let '(r2, w2) := adb_CommitUpload tool stage destination w in
  committed stage destination (fData f) (wHost w) (wHost w') r ∧
  committed stage destination (fData f) (wDevice w) (wDevice w2) r2.
Proof.
  intros Hfresh Hname Htools Hf Hne Hu.
  pose proof (@commit_law _ (local_files_laws temp Hfresh Hname) stage destination f w Hf Hne Hu) as H1.
  pose proof (@commit_law _ (adb_files_laws temp tool Htools) stage destination f w Hf Hne Hu) as H2. cbn in H1, H2.
  destruct (local_CommitUpload temp stage destination w). by destruct (adb_CommitUpload tool stage destination w).
Qed.

(** the mode of Android files.  The mode Go works with keeps the permission bits,
    and a file is regular for Go exactly if its Unix type is none of directory, link,
    pipe, socket and device; it is a directory exactly if the Unix type says so. *)
Theorem androidFileMode_correct (raw : Z) :
  Z.land (androidFileMode raw) 511 = Z.land raw 511 ∧
  IsDir (androidFileMode raw) = (Z.land raw 61440 =? 16384) ∧
  IsRegular (androidFileMode raw) =
    negb (bool_decide (Z.land raw 61440 ∈ [16384; 40960; 4096; 49152; 8192; 24576])).
Proof.
  assert (∀ c, Z.land (Z.land raw 511) c = Z.land raw (Z.land 511 c)) as Hp by (intros c; by rewrite Z.land_assoc).
  pose proof (Hp 511) as H1. pose proof (Hp ModeDir) as H2. pose proof (Hp ModeType) as H3.
  rewrite Z.land_0_r in H2, H3. change (Z.land 511 511) with 511 in H1. clear Hp.
  unfold androidFileMode, type_bits, IsRegular, IsDir.
  set (p := Z.land raw 511) in *. set (t := Z.land raw 61440). clearbody p t.
  assert (∀ T, Z.land T 511 = 0 → negb (Z.land T ModeDir =? 0) = (t =? 16384) →
    (Z.land T ModeType =? 0) = negb (bool_decide (t ∈ [16384; 40960; 4096; 49152; 8192; 24576])) →
    ∀ a b c, Z.land a 511 = 0 → Z.land b 511 = 0 → Z.land c 511 = 0 → Z.land a ModeDir = 0 → Z.land b ModeDir = 0 → Z.land c ModeDir = 0 →
    Z.land a ModeType = 0 → Z.land b ModeType = 0 → Z.land c ModeType = 0 →
    let m := Z.lor (Z.lor (Z.lor (Z.lor p T) a) b) c in
    Z.land m 511 = p ∧ negb (Z.land m ModeDir =? 0) = (t =? 16384) ∧
    (Z.land m ModeType =? 0) = negb (bool_decide (t ∈ [16384; 40960; 4096; 49152; 8192; 24576]))) as Hall.
  { intros T T1 T2 T3 a b c a1 b1 c1 a2 b2 c2 a3 b3 c3 m. unfold m.
    rewrite !Z.land_lor_distr_l, H1, H2, H3, T1, a1, b1, c1, a2, b2, c2, a3, b3, c3, ?Z.lor_0_r, ?Z.lor_0_l. done. }
  set (T := if t =? 16384 then _ else _).
  assert (Z.land T 511 = 0 ∧ negb (Z.land T ModeDir =? 0) = (t =? 16384) ∧
    (Z.land T ModeType =? 0) = negb (bool_decide (t ∈ [16384; 40960; 4096; 49152; 8192; 24576]))) as (T1 & T2 & T3).
  { unfold T. clear T Hall. repeat match goal with |- context [t =? ?n] => destruct (Z.eqb_spec t n) as [->|?]; [by vm_compute|] end.
    split_and!; [done|done|]. rewrite bool_decide_false; [done|]. rewrite !elem_of_cons, elem_of_nil. tauto. }
  clearbody T. pose proof (Hall T T1 T2 T3) as Hbits. clear Hall.
  specialize (Hbits (if Z.land raw 2048 =? 0 then 0 else ModeSetuid) (if Z.land raw 1024 =? 0 then 0 else ModeSetgid)
    (if Z.land raw 512 =? 0 then 0 else ModeSticky)).
  destruct (Z.land raw 2048 =? 0), (Z.land raw 1024 =? 0), (Z.land raw 512 =? 0);
    rewrite ?Z.lor_0_r in Hbits; apply Hbits; done.
Qed.

(** ** Witnesses *)

Module DeviceIOWitness.

(** A name longer than every path in use. *)
Definition long_name (prefix : string) (h : fs) : string :=
  "" +:+ "/" +:+ (prefix +:+ bytes_str (replicate (S (max_list (String.length <$> (map_to_list h).*1))) (ch "x"))).
Definition toy_temp (dir pattern : string) (h : fs) : string := long_name (take_string (String.length pattern - 1) pattern) h.

Lemma long_name_fresh prefix h : h !! long_name prefix h = None.
Proof.
  destruct (h !! long_name prefix h) as [f|] eqn:Hf; [|done]. exfalso.
  assert (String.length (long_name prefix h) ∈ String.length <$> (map_to_list h).*1) as Hin.
  { apply list_elem_of_fmap. exists (long_name prefix h). split; [done|]. apply list_elem_of_fmap. exists (long_name prefix h, f).
    split; [done|]. by apply elem_of_map_to_list. }
  apply max_list_elem_of_le in Hin. unfold long_name in Hin at 1.
  rewrite <- length_str_bytes, !str_bytes_app, !length_app, str_bytes_str, length_replicate in Hin. lia.
Qed.

Lemma long_name_base prefix h : ch "/" ∉ str_bytes prefix → (3 ≤ String.length prefix)%nat →
  ∃ r, Base (long_name prefix h) = prefix +:+ r.
Proof.
  intros Hs Hl. exists (bytes_str (replicate (S (max_list (String.length <$> (map_to_list h).*1))) (ch "x"))).
  assert (∀ r s, (String.length s < 3)%nat → prefix +:+ r ≠ s) as Hne.
  { intros r s Hlt <-. rewrite <- length_str_bytes, str_bytes_app, length_app, length_str_bytes in Hlt. lia. }
  apply Base_join; [|apply Hne; cbn; lia..].
  rewrite str_bytes_app, str_bytes_str, not_elem_of_app. split; [done|]. intros [Heq _]%elem_of_replicate. done.
Qed.

Lemma toy_temp_upload dir h : upload_temp (toy_temp dir ".scrcpycat-upload-*" h) = true.
Proof.
  unfold upload_temp. destruct (long_name_base ".scrcpycat-upload-" h) as [r Hr]; [by vm_compute; set_solver|cbn; lia|].
  unfold toy_temp. change (take_string _ _) with ".scrcpycat-upload-". rewrite Hr. apply HasPrefix_refl_app.
Qed.

(** A toolbox with one name for its temporaries. *)
Definition toy_tool (words : list string) (d : fs) : bytes * Z * fs :=
  match words with
  | ["mktemp"; _] =>
      let name := "/sdcard/.scrcpycat-upload-aaaaaaaa" in
      match d !! name with
      | None => (str_bytes (name +:+ newline), 0, <[name := MkFile [] 384]> d)
      | Some _ => ([], 1, d)
      end
  | ["mv"; "-fT"; "--"; source; destination] =>
      match d !! source with
      | Some f => ([], 0, <[destination := f]> (delete source d))
      | None => ([], 1, d)
      end
  | ["rm"; "-f"; "--"; path] => ([], 0, delete path d)
  | ["rm"; "-rf"; "--"; path] => ([], 0, filter (λ kv, below path kv.1 = false) d)
  | _ => ([], 0, d)
  end.

Lemma toy_toolbox : toolbox toy_tool.
Proof.
  split.
  - intros destination d. cbn [toy_tool]. destruct (d !! _) eqn:E; [by left|]. right.
    exists "/sdcard/.scrcpycat-upload-aaaaaaaa". split_and!; [done|by vm_compute|done|by vm_compute].
  - intros source destination d _. cbn [toy_tool]. destruct (d !! source) as [f|] eqn:E; [left|by right].
    split; [done|]. by exists f.
  - intros path d. by left.
  - intros path d p Hp. cbn [toy_tool snd].
    destruct (d !! p) as [g|] eqn:Hg; [by apply map_lookup_filter_Some|]. apply map_lookup_filter_None. by left.
  - intros path [] d; done.
Qed.

Definition staged : file := MkFile (str_bytes "new") 384.
Definition device0 : world :=
  MkWorld {["/tmp/stage" := staged]} {["/sdcard/it's here.txt" := MkFile (str_bytes "old") 420]} [].

(** The first rename of the local device finds two file systems. *)
Lemma commit_atomic_witness :
  let '(r, w') := local_CommitUpload toy_temp "/tmp/stage" "/sdcard/it's here.txt" (MkWorld (wHost device0) (wDevice device0) [CrossDevice]) in
  let '(r2, w2) := adb_CommitUpload toy_tool "/tmp/stage" "/sdcard/it's here.txt" (MkWorld (wHost device0) (wDevice device0) [CrossDevice]) in
  committed "/tmp/stage" "/sdcard/it's here.txt" (str_bytes "new") (wHost device0) (wHost w') r ∧
  committed "/tmp/stage" "/sdcard/it's here.txt" (str_bytes "new") (wDevice device0) (wDevice w2) r2.
Proof.
  apply (commit_atomic toy_temp toy_tool "/tmp/stage" "/sdcard/it's here.txt" staged
           (MkWorld (wHost device0) (wDevice device0) [CrossDevice]));
    [intros; apply long_name_fresh|intros; apply toy_temp_upload|apply toy_toolbox|by vm_compute|done|by vm_compute].
Defined.

(** Both succeed there. *)
Lemma commits :
  (local_CommitUpload toy_temp "/tmp/stage" "/sdcard/it's here.txt" (MkWorld (wHost device0) ∅ [CrossDevice])).1 = Ok () ∧
  wDevice (adb_CommitUpload toy_tool "/tmp/stage" "/sdcard/it's here.txt" device0).2 =
    {["/sdcard/it's here.txt" := MkFile (str_bytes "new") 420]}.
Proof. split; vm_compute; done. Qed.

End DeviceIOWitness.
