(* ===== verification/AgentTasks.v ===== *)
(** * Commands and tasks of an agent (agent/internal/agent/operations.go)

    An agent runs shell commands for browsers and tasks for the server: it downloads the
    asset of a task, checks it, and installs it or stores it on the device.  The answers
    of the network and of the commands are arguments. *)

From S2P Require Import Prelude GoBase GoStrings GoFloat Model Control Scrcpy Base64 DeviceFiles DeviceIO.

(** ** Bounded output *)

Record boundedOutput := MkOutput { boBuffer : bytes; boLimit : Z }.

(** The writer takes every byte and keeps those below its limit. *)
Definition bo_Write (data : bytes) (o : boundedOutput) : boundedOutput * Z :=
  let length := blen data in
  let limit := if boLimit o =? 0 then commandOutputLimit else boLimit o in
  let remaining := limit - blen (boBuffer o) in
  (if 0 <? remaining then MkOutput (boBuffer o ++ take (Z.to_nat (Z.min length remaining)) data) (boLimit o) else o, length).

Definition bo_writes (ws : list bytes) (o : boundedOutput) : boundedOutput := foldl (λ o d, (bo_Write d o).1) o ws.

(** ** Commands *)

(** The error of a command: the exit status found by [errors.As] as an [exec.ExitError]
    or as the one of the ADB client, and its text. *)
Record exec_error := MkExecError { xeExit : option Z; xeADB : option Z; xeText : string }.

(** What a command writes, in order and [true] for its standard error, and how it ends. *)
Record execution := MkExecution { exWrites : list (bool * bytes); exError : option exec_error }.

Definition stdout_of (ws : list (bool * bytes)) : list bytes := map snd (List.filter (λ w, negb w.1) ws).
Definition stderr_of (ws : list (bool * bytes)) : list bytes := map snd (List.filter fst ws).
Definition no_output : boundedOutput := MkOutput [] 0.

Section text.
(** [err.Error()], and the text of a context that ended. *)
Context (error_text : error → string).

Definition exit_code (e : exec_error) (ended : option string) : Z :=
  let code := match xeExit e with Some n => n | None => 1 end in
  let code := match xeADB e with Some n => n | None => code end in
  match ended with Some _ => 124 | None => code end.

Definition shellResultWithExecutor (x : execution) (ended : option string) : gmap string value :=
  let stdout := bo_writes (stdout_of (exWrites x)) no_output in
  let stderr := bo_writes (stderr_of (exWrites x)) no_output in
  let stderr := match exError x, ended with
                | Some _, Some text => (bo_Write (str_bytes text) stderr).1
                | _, _ => stderr
                end in
  let out := bytes_str (boBuffer stdout) in
  let err := bytes_str (boBuffer stderr) in
  {[ "stdout" := VStr out; "stderr" := VStr err;
     "exit_code" := VInt (match exError x with Some e => exit_code e ended | None => 0 end);
     "success" := VBool (match exError x with Some _ => false | None => true end);
     "output" := VStr (out +:+ err) ]}.

Definition executeCommand (message : gmap string value) (x : execution) (ended : option string) : gmap string value :=
  <["request_id" := VStr (stringField message "request_id")]>
  (<["client_id" := VStr (stringField message "client_id")]>
  (<["message_type" := VStr "command_result"]> (shellResultWithExecutor x ended))).

(** [executeOutput]: both streams go to one buffer. *)
Definition executeOutput (x : execution) : string * option error :=
  (bytes_str (boBuffer (bo_writes (map snd (exWrites x)) no_output)),
   match exError x with Some e => Some (ErrMsg (xeText e)) | None => None end).

(** [screencap]'s standard error is not read. *)
Definition screenshot (message : gmap string value) (x : execution) : gmap string value :=
  let response := {[ "message_type" := VStr "screenshot_response"; "client_id" := VStr (stringField message "client_id") ]} in
  match exError x with
  | Some e => <["error" := VStr (xeText e)]> response
  | None =>
      let output := bo_writes (stdout_of (exWrites x)) (MkOutput [] (Z.shiftl 32 20)) in
      <["data" := VStr (bytes_str (b64std_encode (boBuffer output)))]> response
  end.
End text.

(** ** Addresses that assets are downloaded from *)

(** [net.ParseIP]: four decimal fields without leading zeros. *)
Definition ipv4_field (s : string) : option Z :=
  match str_bytes s with
  | [] => None
  | a :: l =>
      if (3 <=? Z.of_nat (length l)) || (is_byte a 48 && (0 <? Z.of_nat (length l))) then None
      else match parse_digits 0 (a :: l) with
           | Some n => if n <=? 255 then Some n else None
           | None => None
           end
  end.
Definition parse_ipv4 (s : string) : option (list Z) :=
  match Split s "." with
  | [a; b; c; d] =>
      match ipv4_field a, ipv4_field b, ipv4_field c, ipv4_field d with
      | Some a, Some b, Some c, Some d => Some [a; b; c; d]
      | _, _, _, _ => None
      end
  | _ => None
  end.

Definition hex_digit_value (a : byte) : option Z :=
  if in_range a 48 57 then Some (byte_val a - 48)
  else if in_range a 97 102 then Some (byte_val a - 87)
  else if in_range a 65 70 then Some (byte_val a - 55)
  else None.

(** The digits at the head of the text: their number, value and the rest. *)
Fixpoint hex_field (l : bytes) (off : nat) (acc : Z) : nat * Z * bytes :=
  match l with
  | [] => (off, acc, [])
  | a :: l' =>
      match hex_digit_value a with
      | Some v => hex_field l' (S off) (acc * 16 + v)
      | None => (off, acc, l)
      end
  end.

(** The loop over the fields: [ip] holds the bytes so far, [ellipsis] where the double
    colon was.  Eight rounds fill sixteen bytes. *)
Fixpoint ipv6_fields (fuel : nat) (l : bytes) (ip : list Z) (ellipsis : option nat) : option (list Z * option nat * bytes) :=
  match fuel with
  | O => Some (ip, ellipsis, l)
  | S fuel =>
      let '(off, acc, rest) := hex_field l 0 0 in
      if (off =? 0)%nat || (4 <? off)%nat then None
      else match rest with
      | "."%char :: _ =>
          if (bool_decide (ellipsis = None) && negb (length ip =? 12)%nat) || (12 <? length ip)%nat then None
          else match parse_ipv4 (bytes_str l) with
               | Some v4 => Some (ip ++ v4, ellipsis, [])
               | None => None
               end
      | _ =>
          let ip := ip ++ [acc / 256; acc mod 256] in
          match rest with
          | [] => Some (ip, ellipsis, [])
          | [_] => None
          | a :: b :: rest' =>
              if negb (is_byte a 58) then None
              else if is_byte b 58 then
                if bool_decide (ellipsis ≠ None) then None
                else match rest' with
                     | [] => Some (ip, Some (length ip), [])
                     | _ => ipv6_fields fuel rest' ip (Some (length ip))
                     end
              else ipv6_fields fuel (b :: rest') ip ellipsis
          end
      end
  end.

Definition parse_ipv6 (s : string) : option (list Z) :=
  let '(l, ellipsis) := match str_bytes s with
                        | ":"%char :: ":"%char :: l => (l, Some 0%nat)
                        | l => (l, None)
                        end in
  if bool_decide (l = []) && bool_decide (ellipsis = Some 0%nat) then Some (replicate 16 0)
  else match ipv6_fields 8 l [] ellipsis with
       | Some (ip, ellipsis, []) =>
           match ellipsis with
           | Some e => if (length ip <? 16)%nat then Some (take e ip ++ replicate (16 - length ip) 0 ++ drop e ip) else None
           | None => if (length ip =? 16)%nat then Some ip else None
           end
       | _ => None
       end.

(** The first dot or colon tells the kind; a zone is refused. *)
Fixpoint ip_kind (l : bytes) : option bool :=
  match l with
  | [] => None
  | a :: l => if is_byte a 46 then Some false else if is_byte a 58 then Some true else if is_byte a 37 then None else ip_kind l
  end.
Definition ParseIP (s : string) : option (list Z) :=
  if ContainsByte s (ch "%") then None
  else match ip_kind (str_bytes s) with
       | Some false => parse_ipv4 s
       | Some true => parse_ipv6 s
       | None => None
       end.

(** [ip.To4]: a mapped address counts as its IPv4 address. *)
Definition To4 (ip : list Z) : option (list Z) :=
  match ip with
  | [_; _; _; _] => Some ip
  | _ => if bool_decide (take 12 ip = replicate 10 0 ++ [255; 255]) then Some (drop 12 ip) else None
  end.
Definition IsLoopback (ip : list Z) : bool :=
  match To4 ip with Some v4 => nth 0 v4 0 =? 127 | None => bool_decide (ip = replicate 15 0 ++ [1]) end.
Definition IsPrivate (ip : list Z) : bool :=
  match To4 ip with
  | Some v4 => (nth 0 v4 0 =? 10) || ((nth 0 v4 0 =? 172) && (Z.land (nth 1 v4 0) 240 =? 16)) ||
               ((nth 0 v4 0 =? 192) && (nth 1 v4 0 =? 168))
  | None => Z.land (nth 0 ip 0) 254 =? 252
  end.
Definition IsLinkLocalUnicast (ip : list Z) : bool :=
  match To4 ip with
  | Some v4 => (nth 0 v4 0 =? 169) && (nth 1 v4 0 =? 254)
  | None => (nth 0 ip 0 =? 254) && (Z.land (nth 1 ip 0) 192 =? 128)
  end.

(** A parsed URL: its scheme, in lower case, and [Hostname()]. *)
Record URL := MkURL { urlScheme : string; urlHostname : string }.

Definition allowedTaskAssetURL (endpoint : URL) : bool :=
  if bool_decide (urlHostname endpoint = "") then false
  else if bool_decide (urlScheme endpoint = "https") then true
  else if negb (bool_decide (urlScheme endpoint = "http")) then false
  else
    let host := TrimSuffix (ToLowerASCII (urlHostname endpoint)) "." in
    if bool_decide (host = "localhost") then true
    else match ParseIP host with
         | Some ip => IsLoopback ip || IsPrivate ip || IsLinkLocalUnicast ip
         | None => false
         end.

(** ** Tasks *)

(** What the server answers to the request for an asset; the body may end in an error. *)
Record download := MkDownload { dlStatus : Z; dlBody : bytes; dlError : option error }.

Section tasks.
Context `{Crypto} {D : deviceFiles}.
Context (temp : string → string → fs → string).
(** [url.Parse]; [fetch] is the answer of the request, [execute] that of a command in a
    world; [adb] is the agent's directory on a device behind ADB. *)
Context (parse_url : string → option URL) (fetch : string → result download).
Context (execute : list string → world → execution * world).
Context (adb : option string).
Context (error_text : error → string).

Definition asset_limit : Z := Z.shiftl 2 30.
Definition asset_body (response : download) : bytes :=
  if blen (dlBody response) <=? asset_limit then dlBody response else take (Z.to_nat asset_limit) (dlBody response).

(** The body goes to the file and to the hash at once; the file is closed in any case,
    and removed unless its checksum is the expected one. *)
Definition save_asset (path expectedHash : string) (response : download) : io string := λ w,
  let data := asset_body response in
  let '(written, w) := write_file path data w in
  let copied := match written with Err e => Some e | Ok _ => dlError response end in
  let '(closed, w) := close_file w in
  match copied, closed with
  | Some e, _ | None, Err e => (Err e, (os_Remove path w).2)
  | None, Ok _ =>
      if bool_decide (expectedHash = "") || negb (EqualFoldASCII (hex (sha256 data)) expectedHash)
      then (Err (ErrMsg "asset checksum mismatch"), (os_Remove path w).2)
      else (Ok path, w)
  end.

Definition downloadTaskAsset (rawURL expectedHash : string) : io string :=
  match parse_url rawURL with
  | None => io_fail (ErrMsg "invalid task download URL")
  | Some endpoint =>
      if negb (allowedTaskAssetURL endpoint) then io_fail (ErrMsg "invalid task download URL")
      else match fetch rawURL with
      | Err e => io_fail e
      | Ok response =>
          if negb (dlStatus response =? 200) then io_fail (ErrMsg "download returned another status")
          else path ← CreateTemp temp "/tmp" "scrcpycat-asset-*"; save_asset path expectedHash response
      end
  end.

(** The commands that ran, each with the files of the device when it started. *)
Abbreviation ran := (list (list string * fs)).

Definition runCommand (words : list string) (w : world) : string * option error * world * ran :=
  let '(x, w') := execute words w in (executeOutput x, w', [(words, dv_fs w)]).

Definition monkey : string := "monkey -p " +:+ String "034" ("$1" +:+ String "034" " 1").

Definition install_path (directory : string) (nano : Z) : string :=
  directory +:+ "/asset-" +:+ FormatUint nano +:+ ".apk".

Definition installTask (nano : Z) (file : string) (w : world) : string * option error * world * ran :=
  match adb with
  | None => runCommand ["pm"; "install"; "-r"; file] w
  | Some directory =>
      let installPath := install_path directory nano in
      match CommitUpload file installPath w with
      | (Err e, w) => ("", Some e, w, [])
      | (Ok _, w) =>
          let '(r, w, l) := runCommand ["pm"; "install"; "-r"; installPath] w in
          (r, (Remove installPath w).2, l)
      end
  end.

Definition pushTask (dest file : string) (w : world) : string * option error * world * ran :=
  if negb (IsAbs dest) then ("", Some (ErrMsg "destination path must be absolute"), w, [])
  else match Mkdir (Dir dest) true w with
  | (Err e, w) => ("", Some e, w, [])
  | (Ok _, w) =>
      match CommitUpload file dest w with
      | (Err e, w) => ("", Some e, w, [])
      | (Ok _, w) => ("stored " +:+ dest, None, w, [])
      end
  end.

Definition runTask (nano : Z) (task : gmap string value) (w : world) : string * option error * world * ran :=
  let type := stringField task "type" in
  let payload := stringField task "payload" in
  if bool_decide (type = "shell") then runCommand ["sh"; "-c"; payload] w
  else if bool_decide (type = "open_app") then runCommand ["sh"; "-c"; monkey; "scrcpycat-open"; payload] w
  else if bool_decide (type = "uninstall") then runCommand ["pm"; "uninstall"; payload] w
  else if bool_decide (type ∈ ["install"; "push_file"]) then
    match downloadTaskAsset (stringField task "download_url") (stringField task "asset_sha256") w with
    | (Err e, w) => ("", Some e, w, [])
    | (Ok file, w) =>
        let '(r, w, l) := if bool_decide (type = "install") then installTask nano file w
                          else pushTask (stringField task "dest_path") file w in
        (r, (os_Remove file w).2, l)
    end
  else ("", Some (ErrMsg "unsupported task type"), w, []).

(** The messages of a task and what it did. *)
Definition executeTask (deviceID : string) (nano : Z) (task : gmap string value) (w : world)
    : list (gmap string value) * world * ran :=
  let taskID := stringField task "task_id" in
  if bool_decide (taskID = "") then ([], w, [])
  else
    let '(result, err, w, l) := runTask nano task w in
    let status := match err with Some _ => "failed" | None => "success" end in
    let result := match err with Some e => if bool_decide (result = "") then error_text e else result | None => result end in
    ([{[ "message_type" := VStr "task_started"; "task_id" := VStr taskID; "device_id" := VStr deviceID ]};
      {[ "message_type" := VStr "task_result"; "task_id" := VStr taskID; "device_id" := VStr deviceID;
         "status" := VStr status; "result" := VStr result ]}], w, l).
End tasks.

(** ** Lemmas *)

Lemma bo_Write_spec d o : let limit := if boLimit o =? 0 then commandOutputLimit else boLimit o in
  0 ≤ boLimit o → (length (boBuffer o) ≤ Z.to_nat limit)%nat →
  bo_Write d o = (MkOutput (take (Z.to_nat limit) (boBuffer o ++ d)) (boLimit o), blen d).
Proof.
  intros limit H0 Hlen. unfold bo_Write. fold limit. f_equal. unfold blen. destruct (Z.ltb_spec 0 (limit - Z.of_nat (length (boBuffer o)))).
  - f_equal. rewrite take_app_ge by lia. f_equal.
    destruct (Z.le_gt_cases (Z.of_nat (length d)) (limit - Z.of_nat (length (boBuffer o)))).
    + rewrite Z.min_l by done. rewrite !take_ge by lia. done.
    + rewrite Z.min_r by lia. f_equal. lia.
  - assert (length (boBuffer o) = Z.to_nat limit) as Heq by lia. rewrite take_app_le by lia. rewrite take_ge by lia. by destruct o.
Qed.

(** What is kept of a sequence of writes: its first bytes. *)
Lemma bo_writes_spec ws : ∀ b l, let limit := if l =? 0 then commandOutputLimit else l in
  0 ≤ l → (length b ≤ Z.to_nat limit)%nat →
  boBuffer (bo_writes ws (MkOutput b l)) = take (Z.to_nat limit) (b ++ concat ws).
Proof.
  induction ws as [|d ws IH]; intros b l limit Hl Hb; cbn [bo_writes foldl concat].
  - by rewrite app_nil_r, take_ge.
  - rewrite bo_Write_spec by done. cbn [fst boBuffer boLimit]. fold limit.
    fold (bo_writes ws (MkOutput (take (Z.to_nat limit) (b ++ d)) l)). rewrite IH by (rewrite ?length_take; lia). fold limit.
    rewrite app_assoc. destruct (Nat.le_gt_cases (length (b ++ d)) (Z.to_nat limit)).
    + by rewrite (take_ge (b ++ d)).
    + rewrite (take_app_le (take _ (b ++ d))), (take_app_le (b ++ d)) by (rewrite ?length_take; lia). by rewrite take_take, Nat.min_id.
Qed.

(** *** Assets *)

(** The names of downloaded assets. *)
Definition asset_temp (path : string) : bool := HasPrefix (Base path) "scrcpycat-asset-".

#[local] Opaque asset_body.

Section assets.
Context `{Crypto} {D : deviceFiles} {L : deviceFilesLaws D}.
Context (temp : string → string → fs → string).
Context (temp_fresh : ∀ dir pattern h, h !! temp dir pattern h = None).
Context (temp_asset : ∀ dir h, asset_temp (temp dir "scrcpycat-asset-*" h) = true).
Context (parse_url : string → option URL) (fetch : string → result download).
Context (execute : list string → world → execution * world).
Context (adb : option string).
Context (local_fs : adb = None → ∀ w, dv_fs w = wHost w).

(** The body of the answer to the task's URL, with the task's checksum. *)
Definition verified (task : gmap string value) (data : bytes) : Prop :=
  EqualFoldASCII (hex (sha256 data)) (stringField task "asset_sha256") = true ∧
  (∃ endpoint, parse_url (stringField task "download_url") = Some endpoint ∧ allowedTaskAssetURL endpoint = true) ∧
  ∃ response, fetch (stringField task "download_url") = Ok response ∧ dlStatus response = 200 ∧ dlError response = None ∧
    data = asset_body response.

Lemma save_asset_spec path hash response w m : wHost w !! path = Some (MkFile [] m) →
  only path w (save_asset path hash response w).2 ∧
  ∀ file, (save_asset path hash response w).1 = Ok file →
    file = path ∧ dlError response = None ∧
    holds (wHost (save_asset path hash response w).2) path (asset_body response) ∧
    EqualFoldASCII (hex (sha256 (asset_body response))) hash = true.
Proof.
  intros Hp. unfold save_asset. set (data := asset_body response).
  destruct (write_file_spec path data w) as [H1 Hw]. destruct (write_file path data w) as [r w1]. cbn [fst snd] in *.
  destruct (close_file_same w1) as (l & Hc). destruct (close_file w1) as [c w2]. cbn [snd] in Hc. subst w2.
  set (w2 := MkWorld _ _ l). assert (only path w w2) as H2 by (by destruct H1; split).
  pose proof (only_trans _ _ _ _ H2 (os_Remove_only path w2)) as H3.
  destruct r as [[]|e]; [|done]. destruct (dlError response) as [e|]; [done|]. destruct c as [[]|e]; [|done].
  destruct (bool_decide (hash = "") || negb (EqualFoldASCII (hex (sha256 data)) hash)) eqn:Hg; [done|].
  apply orb_false_iff in Hg as [_ Hg%negb_false_iff]. split; [done|]. intros file [= <-]. split_and!; try done.
  exists m. exact (Hw eq_refl _ Hp).
Qed.

Lemma downloadTaskAsset_spec task w :
  let '(r, w') := downloadTaskAsset temp parse_url fetch (stringField task "download_url") (stringField task "asset_sha256") w in
  ∃ path, wHost w !! path = None ∧ asset_temp path = true ∧ only path w w' ∧
    ∀ file, r = Ok file → file = path ∧ ∃ data, verified task data ∧ holds (wHost w') path data.
Proof.
  set (path := temp "/tmp" "scrcpycat-asset-*" (wHost w)). unfold downloadTaskAsset.
  assert (∀ e, let '(r, w') := (@io_fail string e) w in
    ∃ path, wHost w !! path = None ∧ asset_temp path = true ∧ only path w w' ∧
    ∀ file, r = Ok file → file = path ∧ ∃ data, verified task data ∧ holds (wHost w') path data) as Hfail.
  { intros e. cbn. exists path. split_and!; [apply temp_fresh|apply temp_asset|done|done]. }
  destruct (parse_url _) as [endpoint|] eqn:Hu; [|apply Hfail].
  destruct (allowedTaskAssetURL endpoint) eqn:Ha; [cbn [negb]|apply Hfail].
  destruct (fetch _) as [response|e] eqn:Hf; [|apply Hfail].
  destruct (dlStatus response =? 200) eqn:Hs; [cbn [negb]|apply Hfail]. apply Z.eqb_eq in Hs.
  unfold CreateTemp. rewrite io_bind_eq.
  destruct (syscall_cases (λ h, (Ok (temp "/tmp" "scrcpycat-asset-*" h), <[temp "/tmp" "scrcpycat-asset-*" h := MkFile [] 384]> h)) w)
    as (l & [(e & ->)| ->]); [exists path; split_and!; [apply temp_fresh|apply temp_asset|done|done]|].
  cbn [fst snd]. fold path. set (w1 := MkWorld _ _ l).
  assert (wHost w1 !! path = Some (MkFile [] 384)) as Hp by apply lookup_insert_eq.
  assert (only path w w1) as H1 by (split; [done|]; intros p Hne; cbn; by rewrite lookup_insert_ne).
  destruct (save_asset_spec path (stringField task "asset_sha256") response w1 384 Hp) as [H2 Hok].
  destruct (save_asset path (stringField task "asset_sha256") response w1) as [r w2]. cbn [fst snd] in *.
  exists path. split_and!; [apply temp_fresh|apply temp_asset|by apply (only_trans _ _ w1)|].
  intros file ->. destruct (Hok file eq_refl) as (-> & He & Hh & Hx). split; [done|]. eexists. split; [|done]. split; [done|].
  split; [by exists endpoint|]. by exists response.
Qed.

End assets.

Lemma FormatUint_no_slash n : ch "/" ∉ str_bytes (FormatUint n).
Proof. intros Hin. pose proof (FormatUint_digits n) as Hd. rewrite Forall_forall in Hd. by apply Hd in Hin. Qed.

(** The name of an installed package is that of no temporary file. *)
Lemma install_path_name dir nano : asset_temp (install_path dir nano) = false ∧ upload_temp (install_path dir nano) = false.
Proof.
  unfold asset_temp, upload_temp, install_path.
  change (dir +:+ "/asset-" +:+ FormatUint nano +:+ ".apk") with (dir +:+ ("/" +:+ ("asset-" +:+ FormatUint nano +:+ ".apk"))).
  rewrite Base_join; [done| |done..].
  rewrite !str_bytes_app, !not_elem_of_app. split_and!; [by vm_compute; set_solver|apply FormatUint_no_slash|by vm_compute; set_solver].
Qed.

Section running.
Context `{Crypto} {D : deviceFiles} {L : deviceFilesLaws D}.
Context (temp : string → string → fs → string).
Context (temp_fresh : ∀ dir pattern h, h !! temp dir pattern h = None).
Context (temp_asset : ∀ dir h, asset_temp (temp dir "scrcpycat-asset-*" h) = true).
Context (parse_url : string → option URL) (fetch : string → result download).
Context (execute : list string → world → execution * world).
Context (adb : option string).
Context (local_fs : adb = None → ∀ w, dv_fs w = wHost w).
Context (task : gmap string value).

Abbreviation checked := (verified parse_url fetch task).

(** Every package that was installed held a verified asset. *)
Definition installs_checked (l : list (list string * fs)) : Prop :=
  ∀ path files, (["pm"; "install"; "-r"; path], files) ∈ l → ∃ data, checked data ∧ holds files path data.

Lemma installTask_checked nano file data w : asset_temp file = true → holds (wHost w) file data → checked data →
  installs_checked (installTask execute adb nano file w).2.
Proof.
  intros Hname [m Hfile] Hv. unfold installTask. destruct adb as [dir|] eqn:Hadb.
  - destruct (install_path_name dir nano) as [Ha Hu].
    assert (file ≠ install_path dir nano) as Hne by congruence.
    pose proof (commit_law file (install_path dir nano) _ w Hfile Hne Hu) as Hc.
    destruct (CommitUpload file (install_path dir nano) w) as [[[]|e] w1]; [|by intros path files ?%elem_of_nil].
    unfold runCommand. destruct (execute _ w1) as [x w2]. cbn [fst snd] in *.
    intros path files [= -> ->]%list_elem_of_singleton. exists data. split; [done|]. by apply Hc.
  - unfold runCommand. destruct (execute _ w) as [x w2]. intros path files [= -> ->]%list_elem_of_singleton.
    exists data. split; [done|]. rewrite local_fs by done. by exists m.
Qed.

(** What a push does to its destination. *)
Definition stored (dest : string) (before after : fs) : Prop :=
  after !! dest = before !! dest ∨ ∃ data, checked data ∧ holds after dest data.

Lemma pushTask_stored dest file data w : asset_temp dest = false → upload_temp dest = false →
  asset_temp file = true → holds (wHost w) file data → checked data →
  let '(_, err, w', l) := pushTask dest file w in
  stored dest (dv_fs w) (dv_fs w') ∧ (err = None → ∃ data, checked data ∧ holds (dv_fs w') dest data) ∧ l = [].
Proof.
  intros Hd Hu Hname [m Hfile] Hv. unfold pushTask. destruct (negb (IsAbs dest)); [split_and!; [by left|done|done]|].
  destruct (mkdir_law (Dir dest) true w) as [Hfs Hhost].
  destruct (Mkdir (Dir dest) true w) as [[[]|e] w1]; cbn [snd] in *; [|split_and!; [by left; rewrite Hfs|done|done]].
  rewrite <- Hhost in Hfile. assert (file ≠ dest) as Hne by congruence.
  pose proof (commit_law file dest _ w1 Hfile Hne Hu) as [Hok Hat _]. rewrite Hfs in Hat.
  destruct (CommitUpload file dest w1) as [[[]|e] w2]; cbn [fst snd fData] in *.
  - split_and!; [right|intros _|done]; (exists data; split; [done|by apply Hok]).
  - split_and!; [|done|done]. destruct Hat as [?|Hh]; [by left|right; by exists data].
Qed.

Definition task_type : string := stringField task "type".
Definition task_dest : string := stringField task "dest_path".

(** A task as a whole: what it installs and stores is verified, and no other task touches
    the destination. *)
Lemma runTask_verified nano w : asset_temp task_dest = false → upload_temp task_dest = false →
  let '(_, err, w', l) := runTask temp parse_url fetch execute adb nano task w in
  installs_checked l ∧
  (task_type = "push_file" →
   stored task_dest (dv_fs w) (dv_fs w') ∧ (err = None → ∃ data, checked data ∧ holds (dv_fs w') task_dest data)).
Proof.
  intros Hd Hu. unfold runTask. fold task_type task_dest.
  assert (∀ words, (∀ path, words ≠ ["pm"; "install"; "-r"; path]) →
    let '(_, _, w', l) := runCommand execute words w in installs_checked l) as Hrun.
  { intros words Hw. unfold runCommand. destruct (execute words w) as [x w1].
    intros path files Hin%list_elem_of_singleton. injection Hin as Hin _. by destruct (Hw path). }
  repeat match goal with |- context [if bool_decide (task_type = ?k) then _ else _] =>
    lazymatch k with "install" => fail | _ => idtac end; case_bool_decide as Hk; [rewrite Hk|clear Hk] end.
  - pose proof (Hrun ["sh"; "-c"; stringField task "payload"] ltac:(by intros ? [=])) as Hl. by destruct (runCommand _ _ w) as [[[? ?] ?] ?].
  - pose proof (Hrun ["sh"; "-c"; monkey; "scrcpycat-open"; stringField task "payload"] ltac:(by intros ? [=])) as Hl.
    by destruct (runCommand _ _ w) as [[[? ?] ?] ?].
  - pose proof (Hrun ["pm"; "uninstall"; stringField task "payload"] ltac:(by intros ? [=])) as Hl. by destruct (runCommand _ _ w) as [[[? ?] ?] ?].
  - case_bool_decide as Hk; [|split; [by intros path files ?%elem_of_nil|]; intros Heq; rewrite Heq in Hk; set_solver].
    pose proof (downloadTaskAsset_spec temp temp_fresh temp_asset parse_url fetch task w) as Hdl.
    destruct (downloadTaskAsset _ _ _ _ _ w) as [r w1]. destruct Hdl as (path & Hnew & Hpath & H1 & Hr).
    assert (task_dest ≠ path) as Hne by congruence. pose proof (only_law path w w1 task_dest H1 Hne) as Hfs1.
    destruct r as [file|e]; [|split; [by intros p files ?%elem_of_nil|]; intros _; split; [by left|done]].
    destruct (Hr file eq_refl) as (-> & data & Hv & Hh).
    assert (∀ w2, dv_fs (os_Remove path w2).2 !! task_dest = dv_fs w2 !! task_dest) as Hrm
      by (intros w2; apply (only_law path); [apply os_Remove_only|done]).
    case_bool_decide as Hi.
    + pose proof (installTask_checked nano path data w1 Hpath Hh Hv) as Hl.
      destruct (installTask execute adb nano path w1) as [[[? ?] w2] l]. split; [done|]. rewrite Hi. done.
    + pose proof (pushTask_stored task_dest path data w1 Hd Hu Hpath Hh Hv) as Hp.
      destruct (pushTask task_dest path w1) as [[[? err] w2] l]. destruct Hp as (Hs & Hok & ->).
      split; [by intros p files ?%elem_of_nil|]. intros _. unfold stored, holds in *. rewrite Hrm, <- Hfs1. done.
Qed.
End running.

(** ** Properties *)


#[local] Opaque commandOutputLimit.

Lemma commandOutputLimit_pos : 0 ≤ commandOutputLimit.
Proof. by vm_compute. Qed.

Lemma kept_output ws : boBuffer (bo_writes ws no_output) = take (Z.to_nat commandOutputLimit) (concat ws).
Proof. apply (bo_writes_spec ws [] 0); [done|]. cbn [length Z.eqb]. lia. Qed.

Lemma shellResult_fields (limit : nat) (x : execution) (ended : option string) :
  (∀ ws, boBuffer (bo_writes ws no_output) = take limit (concat ws)) → Z.of_nat limit = commandOutputLimit →
  let r := shellResultWithExecutor x ended in
  let late := match exError x, ended with Some _, Some text => str_bytes text | _, _ => [] end in
  stringField r "stdout" = bytes_str (take limit (concat (stdout_of (exWrites x)))) ∧
  stringField r "stderr" = bytes_str (take limit (concat (stderr_of (exWrites x)) ++ late)) ∧
  stringField r "output" = stringField r "stdout" +:+ stringField r "stderr" ∧
  len (stringField r "output") ≤ 2 * commandOutputLimit ∧
  r !! "success" = Some (VBool (bool_decide (exError x = None))) ∧
  r !! "exit_code" = Some (VInt (match exError x with
    | None => 0
    | Some e => match ended, xeADB e, xeExit e with
                | Some _, _, _ => 124 | None, Some n, _ => n | None, None, Some n => n | None, None, None => 1 end
    end)).
Proof.
  intros Hw Hlimit r late.
  set (out := bytes_str (take limit (concat (stdout_of (exWrites x))))).
  set (err := bytes_str (take limit (concat (stderr_of (exWrites x)) ++ late))).
  assert (r = {[ "stdout" := VStr out; "stderr" := VStr err;
    "exit_code" := VInt (match exError x with Some e => exit_code e ended | None => 0 end);
    "success" := VBool (match exError x with Some _ => false | None => true end); "output" := VStr (out +:+ err) ]}) as ->.
  { unfold r, shellResultWithExecutor. rewrite Hw. fold out.
    assert (boBuffer (match exError x, ended with
      | Some _, Some text => (bo_Write (str_bytes text) (bo_writes (stderr_of (exWrites x)) no_output)).1
      | _, _ => bo_writes (stderr_of (exWrites x)) no_output end) = str_bytes err) as ->; [|by rewrite bytes_str_bytes].
    unfold err. rewrite str_bytes_str. unfold late.
    assert (∀ text, (bo_Write (str_bytes text) (bo_writes (stderr_of (exWrites x)) no_output)).1 =
      bo_writes (stderr_of (exWrites x) ++ [str_bytes text]) no_output) as Hlast by (intros text; unfold bo_writes; by rewrite foldl_app).
    destruct (exError x), ended; rewrite ?Hlast, Hw, ?concat_app, ?app_nil_r; cbn [concat]; by rewrite ?app_nil_r. }
  split_and!; [done|done|done| | |].
  - change (stringField _ "output") with (out +:+ err). unfold len. rewrite <- length_str_bytes, str_bytes_app, length_app.
    unfold out, err. rewrite !str_bytes_str, !length_take. lia.
  - by destruct (exError x).
  - destruct (exError x) as [e|]; [|done]. unfold exit_code. by destruct ended, (xeADB e), (xeExit e).
Qed.

(** the output of a command is bounded and exact.  A shell result carries the first
    mebibyte of what the command wrote to each stream, in order, the text of a timeout
    coming after its standard error; it is a success exactly if the command had no error,
    and its exit code is zero then, 124 after a timeout, else the one the error carries. *)
Theorem output_bounded (x : execution) (ended : option string) :
  let r := shellResultWithExecutor x ended in
  let limit := Z.to_nat commandOutputLimit in
  let late := match exError x, ended with Some _, Some text => str_bytes text | _, _ => [] end in
  stringField r "stdout" = bytes_str (take limit (concat (stdout_of (exWrites x)))) ∧
  stringField r "stderr" = bytes_str (take limit (concat (stderr_of (exWrites x)) ++ late)) ∧
  stringField r "output" = stringField r "stdout" +:+ stringField r "stderr" ∧
  len (stringField r "output") ≤ 2 * commandOutputLimit ∧
  r !! "success" = Some (VBool (bool_decide (exError x = None))) ∧
  r !! "exit_code" = Some (VInt (match exError x with
    | None => 0
    | Some e => match ended, xeADB e, xeExit e with
                | Some _, _, _ => 124 | None, Some n, _ => n | None, None, Some n => n | None, None, None => 1 end
    end)).
Proof.
  intros r limit late. apply shellResult_fields; [apply kept_output|apply Z2Nat.id, commandOutputLimit_pos].
Qed.

(** ** Witnesses *)

Module AgentTasksWitness.
Export DeviceIOWitness.

Import ToyCrypto.

#[local] Instance device : deviceFiles := local_files toy_temp.
#[local] Instance device_laws : deviceFilesLaws device := local_files_laws toy_temp (λ _ _, long_name_fresh _) toy_temp_upload.

Lemma toy_temp_asset dir h : asset_temp (toy_temp dir "scrcpycat-asset-*" h) = true.
Proof.
  unfold asset_temp. destruct (long_name_base "scrcpycat-asset-" h) as [r Hr]; [by vm_compute; set_solver|cbn; lia|].
  unfold toy_temp. change (take_string _ _) with "scrcpycat-asset-". rewrite Hr. apply HasPrefix_refl_app.
Qed.

Definition parse (raw : string) : option URL := Some (MkURL "http" "10.0.0.1").
Definition answer (raw : string) : result download := Ok (MkDownload 200 (str_bytes "hi") None).
Definition run (words : list string) (w : world) : execution * world := (MkExecution [(false, str_bytes "Success")] None, w).

Definition push : gmap string value :=
  {[ "task_id" := VStr "t"; "type" := VStr "push_file"; "dest_path" := VStr "/data/hi.txt";
     "download_url" := VStr "http://10.0.0.1/downloads/hi"; "asset_sha256" := VStr "6869" ]}.
Definition empty_world : world := MkWorld ∅ ∅ [].

Definition pushed := executeTask toy_temp parse answer run None (λ _, "error") "phone" 0 push empty_world.


(** The addresses of the repository's own test. *)
Example asset_addresses :
  map (λ u, allowedTaskAssetURL (MkURL u.1 u.2))
    [("https", "assets.example.com"); ("http", "127.0.0.1"); ("http", "::1"); ("http", "localhost");
     ("http", "assets.example.com"); ("http", "10.0.0.1"); ("http", "8.8.8.8"); ("file", "");
     ("http", "fe80::1"); ("http", "::ffff:192.168.1.2"); ("http", "010.0.0.1"); ("http", "2001:db8::1")] =
  [true; true; true; true; false; true; false; false; true; true; false; false].
Proof. vm_compute. reflexivity. Qed.
End AgentTasksWitness.
