(* ===== verification/Telemetry.v ===== *)
(** * Telemetry of an agent (agent/internal/agent/telemetry.go)

    Every second an agent may send metrics read from the files of the system and a
    thumbnail of the screen.  The texts of the files, the image library and the clock
    are arguments. *)

From S2P Require Import Prelude GoBase GoStrings GoFloat FloatBounds Model Control Base64 AdbShell DeviceIO AgentTasks.

(** ** Counters *)

Record metricSample := MkSample { msAt : Time; msTotal : Z; msIdle : Z; msReceived : Z; msSent : Z }.
Definition no_sample : metricSample := MkSample time_zero 0 0 0 0.

Definition lines (raw : bytes) : list string := Split (bytes_str raw) newline.

(** [strings.SplitN(line, ":", 2)] with two parts. *)
Definition cut_colon (line : string) : option (string * string) :=
  match index_byte (ch ":") (str_bytes line) with
  | Some i => Some (take_string i line, drop_string (S i) line)
  | None => None
  end.

Definition count_of (value : string) : Z := fst (ParseUint false value).

(** The loop over at most eight fields; those at 3 and 4 are idle time. *)
Fixpoint cpu_fields (i : nat) (fields : list string) (total idle : Z) : Z * Z :=
  match fields with
  | [] => (total, idle)
  | value :: fields =>
      let count := count_of value in
      cpu_fields (S i) fields (uint64 (total + count))
        (if (i =? 3)%nat || (i =? 4)%nat then uint64 (idle + count) else idle)
  end.

Fixpoint cpu_lines (ls : list string) : Z * Z :=
  match ls with
  | [] => (0, 0)
  | line :: ls =>
      match Fields line with
      | name :: fields =>
          if (length fields <? 4)%nat || negb (bool_decide (name = "cpu")) then cpu_lines ls
          else cpu_fields 0 (take 8 fields) 0 0
      | [] => cpu_lines ls
      end
  end.
Definition cpuCounters (raw : bytes) : Z * Z := cpu_lines (lines raw).

Definition net_line (acc : Z * Z) (line : string) : Z * Z :=
  match cut_colon line with
  | Some (name, rest) =>
      if bool_decide (TrimSpace name = "lo") then acc
      else
        let fields := Fields rest in
        if (length fields <? 9)%nat then acc
        else (uint64 (fst acc + count_of (nth 0 fields "")), uint64 (snd acc + count_of (nth 8 fields "")))
  | None => acc
  end.
Definition networkCounters (raw : bytes) : Z * Z := foldl net_line (0, 0) (lines raw).

Section metrics.
Context (special : string → option float64) (rfc3339 : Time → string).

Definition numeric_line (values : gmap string float64) (line : string) : gmap string float64 :=
  match cut_colon line with
  | Some (name, rest) =>
      match Fields rest with
      | [] => values
      | field :: _ =>
          match ParseFloat special field with
          | Some value => <[TrimSpace name := value]> values
          | None => values
          end
      end
  | None => values
  end.
Definition numericLines (raw : bytes) : gmap string float64 := foldl numeric_line ∅ (lines raw).

(** ** Metrics *)

Definition F64 (z : Z) : float64 := float_of_Z z.

(** A missing key of the map reads as zero. *)
Definition value_of (values : gmap string float64) (key : string) : float64 := default (S754_zero false) (values !! key).

Definition cpu_metric (previous : metricSample) (total idle : Z) (metrics : gmap string value) : gmap string value :=
  if (0 <? msTotal previous) && (msTotal previous <? total) && (msIdle previous <=? idle) then
    let total := uint64 (total - msTotal previous) in
    let idle := uint64 (idle - msIdle previous) in
    <["cpu" := VNum (fmul (F64 100) (fsub (F64 1) (fmin (fdiv (F64 idle) (F64 total)) (F64 1))))]> metrics
  else metrics.

Definition memory_metric (raw : bytes) (metrics : gmap string value) : gmap string value :=
  let values := numericLines raw in
  let total := value_of values "MemTotal" in
  let available := value_of values "MemAvailable" in
  let available := if feq available (F64 0)
                   then fadd (fadd (value_of values "MemFree") (value_of values "Buffers")) (value_of values "Cached")
                   else available in
  if flt (F64 0) total then
    <["memory_used" := VNum (fmul (fsub total available) (F64 1024))]>
    (<["memory_total" := VNum (fmul total (F64 1024))]>
    (<["memory_percent" := VNum (fmul (F64 100) (fsub (F64 1) (fdiv available total)))]> metrics))
  else metrics.

Definition disk_metric (disk : diskUsage) (metrics : gmap string value) : gmap string value :=
  if 0 <? duBlocks disk then
    <["disk_used" := VNum (fmul (F64 (uint64 (duBlocks disk - duAvailable disk))) (F64 (duBlockSize disk)))]>
    (<["disk_total" := VNum (fmul (F64 (duBlocks disk)) (F64 (duBlockSize disk)))]>
    (<["disk_percent" := VNum (fmul (F64 100) (fsub (F64 1) (fdiv (F64 (duAvailable disk)) (F64 (duBlocks disk)))))]> metrics))
  else metrics.

(** [Duration.Seconds]. *)
Definition Seconds (d : Duration) : float64 :=
  fadd (F64 (Z.quot d Second)) (fdiv (F64 (Z.rem d Second)) (F64 1000000000)).

Definition network_metric (previous : metricSample) (at_ : Time) (received sent : Z) (metrics : gmap string value) : gmap string value :=
  let elapsed := Seconds (Sub at_ (msAt previous)) in
  if negb (IsZero (msAt previous)) && flt (F64 0) elapsed && (msReceived previous <=? received) && (msSent previous <=? sent) then
    <["upload_speed" := VNum (fdiv (fdiv (F64 (uint64 (sent - msSent previous))) elapsed) (F64 1024))]>
    (<["download_speed" := VNum (fdiv (fdiv (F64 (uint64 (received - msReceived previous))) elapsed) (F64 1024))]> metrics)
  else metrics.

Definition battery_metric (raw : bytes) (metrics : gmap string value) : gmap string value :=
  let values := numericLines raw in
  let metrics := match values !! "temperature" with
                 | Some v => <["temperature" := VNum (fdiv v (F64 10))]> metrics | None => metrics end in
  match values !! "level" with Some v => <["battery" := VNum v]> metrics | None => metrics end.

(** What the device answers to the reads of one collection. *)
Record metric_reads := MkReads {
  rdStat : result bytes;
  rdMeminfo : result bytes;
  rdDisk : result diskUsage;
  rdNet : result bytes;
  rdBattery : result bytes;
}.

Definition when_ok {A B} (r : result A) (g : A → B → B) (b : B) : B := match r with Ok a => g a b | Err _ => b end.

Definition collectMetrics (now : Time) (previous : metricSample) (reads : metric_reads) : gmap string value * metricSample :=
  let metrics := {[ "timestamp" := VStr (rfc3339 now); "network_speed_unit" := VStr "KiB/s" ]} in
  let '(total, idle) := match rdStat reads with Ok raw => cpuCounters raw | Err _ => (0, 0) end in
  let metrics := when_ok (rdStat reads) (λ _, cpu_metric previous total idle) metrics in
  let metrics := when_ok (rdMeminfo reads) memory_metric metrics in
  let metrics := when_ok (rdDisk reads) disk_metric metrics in
  let '(received, sent) := match rdNet reads with Ok raw => networkCounters raw | Err _ => (0, 0) end in
  let metrics := when_ok (rdNet reads) (λ _, network_metric previous now received sent) metrics in
  let metrics := when_ok (rdBattery reads) battery_metric metrics in
  (metrics, MkSample now total idle received sent).
End metrics.

(** ** Thumbnails *)

Definition thumbnail_size (width height maxSize : Z) : Z * Z :=
  if (maxSize <? width) || (maxSize <? height) then
    let ratio := fdiv (float_of_Z maxSize) (float_of_Z (Z.max width height)) in
    (Z.max 1 (int_part (fmul (float_of_Z width) ratio)), Z.max 1 (int_part (fmul (float_of_Z height) ratio)))
  else (width, height).

(** The pixel of the screenshot that a pixel of the thumbnail shows. *)
Definition source_pixel (size source x : Z) : Z := Z.quot (x * source) size.

Definition good_dimensions (width height : Z) : bool :=
  negb ((width <=? 0) || (height <=? 0) || (16384 <? width) || (16384 <? height) || (32000000 <? width * height)).

(** The image library: the size and the pixels of a PNG, and the PNG of a size and
    pixels. *)
Class PNG := {
  pixel : Type;
  DecodeConfig : bytes → option (Z * Z);
  DecodePNG : bytes → result (Z → Z → pixel);
  EncodePNG : Z → Z → (Z → Z → pixel) → result bytes;
}.

Definition thumbnailPNG `{PNG} (contents : bytes) (maxSize : Z) : result bytes :=
  match DecodeConfig contents with
  | Some (width, height) =>
      if good_dimensions width height then
        source ← DecodePNG contents;
        let '(w, h) := thumbnail_size width height maxSize in
        EncodePNG w h (λ x y, source (source_pixel w width x) (source_pixel h height y))
      else Err (ErrMsg "invalid screenshot dimensions")
  | None => Err (ErrMsg "invalid screenshot dimensions")
  end.

(** ** The reporting loop *)

(** [snapshotInterval] of the client; the other fields are the variables of the loop. *)
Record telemetry := MkTelemetry {
  tlInterval : Z;
  tlPrevious : metricSample;
  tlLastSnapshot : Time;
  tlNextMetrics : Time;
}.

Definition setSnapshotInterval (settings : gmap string value) (interval : Z) : Z :=
  let v := match settings !! "snapshotInterval" with Some v => Some v | None => settings !! "snapshot_interval" end in
  match v with
  | Some (VNum x) =>
      if negb (flt x (float_of_Z (-1))) && negb (flt (float_of_Z 3600) x) && negb (IsNaN x) && is_integral x
      then int_part x else interval
  | _ => interval
  end.

(** What one tick of the timer finds: three readings of the clock, the answers of the
    device, whether viewers or the preview are active, and the screenshot. *)
Record tick_answers := MkTick {
  tkNow : Time;
  tkAfter : Time;
  tkSnapshot : Time;
  tkReads : metric_reads;
  tkSessions : bool;
  tkPreview : bool;
  tkScreen : execution;
}.

Inductive tick_effect :=
| TkMetrics (metrics : gmap string value)
| TkCapture
| TkThumbnail (png : bytes).

(** The messages of the effects that write one. *)
Definition tick_message (e : tick_effect) : option (gmap string value) :=
  match e with
  | TkMetrics metrics => Some {[ "message_type" := VStr "device_metrics"; "metrics" := VMap metrics ]}
  | TkCapture => None
  | TkThumbnail png =>
      Some {[ "message_type" := VStr "snapshot_update"; "data" := VStr (bytes_str (b64std_encode png)) ]}
  end.

Section loop.
Context (special : string → option float64) (rfc3339 : Time → string) `{PNG}.

Definition snapshot_message (t : tick_answers) : list tick_effect :=
  TkCapture ::
  match exError (tkScreen t) with
  | Some _ => []
  | None =>
      match thumbnailPNG (boBuffer (bo_writes (stdout_of (exWrites (tkScreen t))) (MkOutput [] (Z.shiftl 32 20)))) 360 with
      | Err _ => []
      | Ok thumbnail => [TkThumbnail thumbnail]
      end
  end.

Definition tick (t : tick_answers) (s : telemetry) : telemetry * list tick_effect :=
  let '(s, sent) :=
    if Before (tkNow t) (tlNextMetrics s) then (s, [])
    else
      let '(metrics, sample) := collectMetrics special rfc3339 (tkNow t) (tlPrevious s) (tkReads t) in
      (MkTelemetry (tlInterval s) sample (tlLastSnapshot s) (Add (tkAfter t) (5 * Second)),
       [TkMetrics metrics]) in
  if (tlInterval s <? 0) || (Sub (tkAfter t) (tlLastSnapshot s) <? Z.max (tlInterval s) 1 * Second) || tkSessions t || tkPreview t
  then (s, sent)
  else (MkTelemetry (tlInterval s) (tlPrevious s) (tkSnapshot t) (tlNextMetrics s), sent ++ snapshot_message t).
End loop.

(** A run: ticks, and settings that arrive between them.  The result lists the interval
    in force at each tick and what the tick did. *)
Inductive telemetry_event := TkTick (t : tick_answers) | TkSettings (settings : gmap string value).

Section run.
Context (special : string → option float64) (rfc3339 : Time → string) `{PNG}.

Fixpoint run_ticks (es : list telemetry_event) (s : telemetry) : list (Z * tick_answers * list tick_effect) :=
  match es with
  | [] => []
  | TkTick t :: es => let '(s', l) := tick special rfc3339 t s in (tlInterval s, t, l) :: run_ticks es s'
  | TkSettings settings :: es =>
      run_ticks es (MkTelemetry (setSnapshotInterval settings (tlInterval s)) (tlPrevious s) (tlLastSnapshot s) (tlNextMetrics s))
  end.
End run.

(** ** Lemmas *)

Lemma thumbnail_side size longest maxSize : 1 ≤ maxSize → maxSize < longest ≤ 16384 → 0 < size ≤ longest →
  0 ≤ int_part (fmul (float_of_Z size) (fdiv (float_of_Z maxSize) (float_of_Z longest))) ≤ maxSize.
Proof.
  intros Hmax Hlong Hsize.
  destruct (float_of_Z_normal maxSize ltac:(lia)) as (mx & ex & Hx & Hex & Hxe).
  destruct (float_of_Z_normal longest ltac:(lia)) as (my & ey & Hy & Hey & Hye).
  destruct (float_of_Z_normal size ltac:(lia)) as (ms & es & Hs & Hes & Hse).
  destruct (Hxe ltac:(lia)) as [Hx0 Hxm]. destruct (Hye ltac:(lia)) as [Hy0 Hym]. destruct (Hse ltac:(lia)) as [Hs0 Hsm].
  assert (∀ z m e x, normal x m e → 1 ≤ z ≤ 16384 → e ≤ 0 → -52 ≤ e → Zpos m = z * 2 ^ (- e) → e ≤ -38) as Hsmall.
  { intros z m e x [_ Hm] Hz H0 H52 Heq. destruct (Z.le_gt_cases e (-38)); [done|].
    assert (2 ^ (- e) ≤ 2 ^ 37) by (apply Z.pow_le_mono_r; lia). change (2 ^ 52) with (32768 * 2 ^ 37) in Hm. nia. }
  pose proof (Hsmall maxSize mx ex _ Hx ltac:(lia) Hx0 ltac:(lia) Hxm) as Hxs. pose proof (Hsmall longest my ey _ Hy ltac:(lia) Hy0 ltac:(lia) Hym) as Hys.
  set (b := (maxSize * 2 ^ 30 + longest - 1) / longest).
  assert (maxSize * 2 ^ 30 ≤ b * longest ≤ maxSize * 2 ^ 30 + longest) as Hb.
  { unfold b. pose proof (Z.div_mod (maxSize * 2 ^ 30 + longest - 1) longest ltac:(lia)).
    pose proof (Z.mod_pos_bound (maxSize * 2 ^ 30 + longest - 1) longest ltac:(lia)). lia. }
  assert (0 ≤ b ≤ 2 ^ 30) as Hb30 by nia.
  assert (at_most (fdiv (float_of_Z maxSize) (float_of_Z longest)) b (-30)) as Hr.
  { apply (fdiv_le _ _ _ _ _ _ b (-30) Hx Hy); [lia|lia|lia|]. rewrite Hxm, Hym.
    replace (b * (longest * 2 ^ (- ey)) * 2 ^ (-30 - (ex - ey - 53))) with (b * longest * (2 ^ (- ey) * 2 ^ (-30 - (ex - ey - 53)))) by lia.
    rewrite <- Z.pow_add_r by lia. replace (- ey + (-30 - (ex - ey - 53))) with (23 + - ex) by lia. rewrite Z.pow_add_r by lia.
    assert (0 < 2 ^ (- ex)) by (apply Z.pow_pos_nonneg; lia). change (2 ^ 53) with (2 ^ 30 * 2 ^ 23). nia. }
  pose proof (fmul_le _ _ _ _ b size (-30) Hs Hr ltac:(lia) Hs0 ltac:(lia) ltac:(nia) Hsm) as Hp.
  apply at_most_int_part in Hp; [|done|nia]. split; [lia|]. destruct Hp as [_ Hp]. change (2 ^ (- (-30))) with (2 ^ 30) in Hp. nia.
Qed.

Lemma source_pixel_range size source x : 0 < size → 0 ≤ x < size → 0 < source → 0 ≤ source_pixel size source x < source.
Proof. intros Hs Hx Hso. unfold source_pixel. rewrite Z.quot_div_nonneg by nia. split; [apply Z.div_pos; nia|apply Z.div_lt_upper_bound; nia]. Qed.

Lemma cpu_fields_range fields : ∀ i total idle, 0 ≤ total < 2 ^ 64 → 0 ≤ idle < 2 ^ 64 →
  let r := cpu_fields i fields total idle in 0 ≤ r.1 < 2 ^ 64 ∧ 0 ≤ r.2 < 2 ^ 64.
Proof.
  induction fields as [|v fields IH]; intros i total idle Ht Hi; [done|]. cbn [cpu_fields]. apply IH.
  - apply (wrap_u_range 64); done.
  - case_match; [apply (wrap_u_range 64); done|done].
Qed.

Lemma cpuCounters_range raw : 0 ≤ (cpuCounters raw).1 < 2 ^ 64 ∧ 0 ≤ (cpuCounters raw).2 < 2 ^ 64.
Proof.
  unfold cpuCounters. induction (lines raw) as [|l ls IH]; cbn [cpu_lines]; [done|].
  destruct (Fields l) as [|name fields]; [done|]. case_match; [done|]. by apply cpu_fields_range.
Qed.

(** The share of time the processors were busy, as a percentage. *)
Lemma cpu_bounded idle total : 0 ≤ idle < 2 ^ 64 → 0 < total < 2 ^ 64 →
  at_most (fmul (F64 100) (fsub (F64 1) (fmin (fdiv (F64 idle) (F64 total)) (F64 1)))) 100 0.
Proof.
  intros Hi Ht. destruct (float_of_Z_normal total Ht) as (mt & et & Hn & Het & _).
  destruct (float_of_Z_normal 100 ltac:(lia)) as (mh & eh & Hh & Heh & Hhe). destruct (Hhe ltac:(lia)) as [Hh0 Hhm].
  apply (fmul_le _ _ _ _ 1 100 0 Hh); [|lia|lia|lia|lia|done].
  destruct (Z.eq_dec idle 0) as [->|Hne].
  - unfold F64. destruct Hn as [-> _]. vm_compute. split; done.
  - destruct (float_of_Z_normal idle ltac:(lia)) as (mi & ei & Hni & Hei & _).
    destruct (fdiv_is_normal _ _ _ _ _ _ Hni Hn ltac:(lia)) as (m & e & Hm & He). unfold fmin, F64.
    assert (IsNaN (fdiv (float_of_Z idle) (float_of_Z total)) || IsNaN (float_of_Z 1) = false) as ->
      by (destruct Hm as [-> _]; by vm_compute).
    destruct (flt (float_of_Z 1) (fdiv (float_of_Z idle) (float_of_Z total))) eqn:Hlt; [vm_compute; split; done|].
    destruct (not_above_one _ m e Hm Hlt) as [He0 Hme]. apply (complement _ m e); [by destruct Hm|lia|done].
Qed.

(** *** The snapshot interval *)

Lemma flt_negated m e : flt (S754_finite true m e) (float_of_Z (-1)) = false → flt (float_of_Z 1) (S754_finite false m e) = false.
Proof.
  assert (float_of_Z 1 = S754_finite false (Z.to_pos (2 ^ 52)) (-52)) as -> by (vm_compute; reflexivity).
  assert (float_of_Z (-1) = S754_finite true (Z.to_pos (2 ^ 52)) (-52)) as -> by (vm_compute; reflexivity).
  set (p := Z.to_pos (2 ^ 52)). clearbody p. unfold flt, SFltb. cbn [SFcompare]. rewrite (Z.compare_antisym (-52) e).
  destruct (-52 ?= e); cbn [CompOpp]; [|done|done].
  change (Pos.compare_cont Eq m p) with (Pos.compare m p). change (Pos.compare_cont Eq p m) with (Pos.compare p m).
  rewrite (Pos.compare_antisym p m). by destruct (Pos.compare p m).
Qed.

Lemma interval_range x : valid_binary 53 1024 x = true → flt x (float_of_Z (-1)) = false → flt (float_of_Z 3600) x = false →
  -1 ≤ int_part x ≤ 3600.
Proof.
  intros Hv Hl Hu. destruct x as [s|s| |s m e]; [done|by destruct s|done|].
  destruct (float_of_Z_normal 3600 ltac:(lia)) as (m1 & e1 & H1 & He1 & Hx1). destruct (Hx1 ltac:(lia)) as [Hx0 _].
  destruct (float_of_Z_normal 1 ltac:(lia)) as (m2 & e2 & H2 & He2 & Hx2). destruct (Hx2 ltac:(lia)) as [Hy0 _].
  pose proof (not_above _ s m e _ _ _ eq_refl Hv H1 ltac:(lia) Hu) as Hup.
  assert (int_part (float_of_Z 3600) = 3600) as Hc by (vm_compute; reflexivity). split; [|lia].
  destruct s; [|cbn [int_part]; assert (0 ≤ (if 0 <=? e then Zpos m * 2 ^ e else Zpos m / 2 ^ (- e))); [|lia]].
  - apply flt_negated in Hl. pose proof (not_above _ false m e _ _ _ eq_refl Hv H2 ltac:(lia) Hl) as Hlow.
    assert (int_part (float_of_Z 1) = 1) as Hc1 by (vm_compute; reflexivity). cbn [int_part] in Hlow |- *. lia.
  - destruct (Z.leb_spec 0 e); [assert (0 < 2 ^ e) by (apply Z.pow_pos_nonneg; lia); nia|].
    apply Z.div_pos; [lia|apply Z.pow_pos_nonneg; lia].
Qed.

(** *** Keys of the metrics *)

Lemma memory_cpu special raw m : memory_metric special raw m !! "cpu" = m !! "cpu".
Proof. unfold memory_metric. case_match; [|done]. by rewrite !lookup_insert_ne by done. Qed.
Lemma disk_cpu d m : disk_metric d m !! "cpu" = m !! "cpu".
Proof. unfold disk_metric. case_match; [|done]. by rewrite !lookup_insert_ne by done. Qed.
Lemma network_cpu p t r s m : network_metric p t r s m !! "cpu" = m !! "cpu".
Proof. unfold network_metric. case_match; [|done]. by rewrite !lookup_insert_ne by done. Qed.
Lemma battery_cpu special raw m : battery_metric special raw m !! "cpu" = m !! "cpu".
Proof. unfold battery_metric. repeat case_match; by rewrite ?lookup_insert_ne by done. Qed.

Lemma when_ok_eq {A B C} (r : result A) (g : A → B → B) (b : B) (h : B → C) :
  (∀ a b, h (g a b) = h b) → h (when_ok r g b) = h b.
Proof. intros Hg. by destruct r; cbn. Qed.

Lemma collect_cpu special rfc now p reads m s : collectMetrics special rfc now p reads = (m, s) →
  msTotal s = match rdStat reads with Ok raw => (cpuCounters raw).1 | Err _ => 0 end ∧
  msIdle s = match rdStat reads with Ok raw => (cpuCounters raw).2 | Err _ => 0 end ∧
  m !! "cpu" = (if is_ok (rdStat reads) then cpu_metric p (msTotal s) (msIdle s) ∅ else ∅) !! "cpu" ∧
  m !! "network_speed_unit" = Some (VStr "KiB/s").
Proof.
  unfold collectMetrics. set (m0 := {[ "timestamp" := _; _ := _ ]}). intros Heq.
  assert (m0 !! "cpu" = None ∧ m0 !! "network_speed_unit" = Some (VStr "KiB/s")) as [Hm0 Hu0] by done. clearbody m0.
  destruct (match rdStat reads with Ok raw => cpuCounters raw | Err _ => (0, 0) end) as [total idle] eqn:Hc.
  destruct (match rdNet reads with Ok raw => networkCounters raw | Err _ => (0, 0) end) as [rx tx].
  injection Heq as <- <-. cbn [msTotal msIdle]. split_and!.
  - destruct (rdStat reads); [by rewrite Hc|by injection Hc as <- <-].
  - destruct (rdStat reads); [by rewrite Hc|by injection Hc as <- <-].
  - rewrite (when_ok_eq (rdBattery reads) _ _ (λ m, m !! "cpu")) by (intros; apply battery_cpu).
    rewrite (when_ok_eq (rdNet reads) _ _ (λ m, m !! "cpu")) by (intros; apply network_cpu).
    rewrite (when_ok_eq (rdDisk reads) _ _ (λ m, m !! "cpu")) by (intros; apply disk_cpu).
    rewrite (when_ok_eq (rdMeminfo reads) _ _ (λ m, m !! "cpu")) by (intros; apply memory_cpu).
    destruct (rdStat reads); cbn [when_ok is_ok]; [|by rewrite lookup_empty]. unfold cpu_metric. case_match; [by rewrite !lookup_insert_eq|].
    by rewrite lookup_empty.
  - rewrite !(when_ok_eq _ _ _ (λ m, m !! "network_speed_unit")); intros; try done.
    all: unfold cpu_metric, memory_metric, disk_metric, network_metric, battery_metric; repeat case_match;
      by rewrite ?lookup_insert_ne by done.
Qed.

(** *** Ticks *)

Definition captures (l : list tick_effect) : Prop := TkCapture ∈ l.
Definition reports (l : list tick_effect) : Prop := ∃ metrics, TkMetrics metrics ∈ l.

(** What a run guarantees of one tick, given the last capture and the next report. *)
Definition tick_ok (last next : Time) (r : Z * tick_answers * list tick_effect) : Prop :=
  let '(interval, t, l) := r in
  (captures l → 0 ≤ interval ∧ tkSessions t = false ∧ tkPreview t = false ∧ last + Z.max interval 1 * Second ≤ tkAfter t) ∧
  (reports l → next ≤ tkNow t).

(** What it guarantees of two ticks. *)
Definition apart (r1 r2 : Z * tick_answers * list tick_effect) : Prop :=
  let '(_, t1, l1) := r1 in
  let '(interval, t2, l2) := r2 in
  (captures l1 → captures l2 → tkSnapshot t1 + Z.max interval 1 * Second ≤ tkAfter t2) ∧
  (reports l1 → reports l2 → tkAfter t1 + 5 * Second ≤ tkNow t2).

Definition clock_ok (e : telemetry_event) : Prop :=
  match e with TkTick t => tkNow t ≤ tkAfter t ≤ tkSnapshot t | _ => True end.

Lemma Sub_ge t u d : d ≤ max_int64 → - 2 ^ 63 < d → d ≤ Sub t u → u + d ≤ t.
Proof. unfold Sub. intros. lia. Qed.

Lemma snapshot_message_spec `{PNG} t : captures (snapshot_message t) ∧ ¬ reports (snapshot_message t).
Proof.
  split; [left|]. intros [metrics [Heq|Hin]%elem_of_cons]; [done|].
  destruct (exError (tkScreen t)); [by apply elem_of_nil in Hin|]. case_match; [|by apply elem_of_nil in Hin].
  by apply list_elem_of_singleton in Hin.
Qed.

Lemma tick_spec special rfc `{PNG} t s : -1 ≤ tlInterval s ≤ 3600 → tkNow t ≤ tkAfter t →
  let '(s', l) := tick special rfc t s in
  tlInterval s' = tlInterval s ∧ tick_ok (tlLastSnapshot s) (tlNextMetrics s) (tlInterval s, t, l) ∧
  (captures l ∧ tlLastSnapshot s' = tkSnapshot t ∨ ¬ captures l ∧ tlLastSnapshot s' = tlLastSnapshot s) ∧
  (reports l ∧ tlNextMetrics s' = tkAfter t + 5 * Second ∨ ¬ reports l ∧ tlNextMetrics s' = tlNextMetrics s).
Proof.
  intros Hint Hclock. unfold tick.
  set (report := if Before (tkNow t) (tlNextMetrics s) then _ else _).
  assert (∃ s1 sent, report = (s1, sent) ∧ tlInterval s1 = tlInterval s ∧ tlLastSnapshot s1 = tlLastSnapshot s ∧ ¬ captures sent ∧
    (reports sent ∧ tlNextMetrics s1 = tkAfter t + 5 * Second ∧ tlNextMetrics s ≤ tkNow t ∨
     ¬ reports sent ∧ tlNextMetrics s1 = tlNextMetrics s)) as (s1 & sent & -> & Hi & Hl & Hnc & Hrep).
  { unfold report, Before. destruct (Z.ltb_spec (tkNow t) (tlNextMetrics s)).
    - exists s, []. split_and!; [done|done|done|by intros ?%elem_of_nil|right; split; [by intros [? ?%elem_of_nil]|done]].
    - destruct (collectMetrics special rfc (tkNow t) (tlPrevious s) (tkReads t)) as [metrics sample]. eexists _, _.
      split_and!; [reflexivity|done|done|by intros ?%list_elem_of_singleton|left]. split_and!; [by exists metrics; left|done|done]. }
  rewrite Hi, Hl.
  destruct ((tlInterval s <? 0) || (Sub (tkAfter t) (tlLastSnapshot s) <? Z.max (tlInterval s) 1 * Second) || tkSessions t || tkPreview t) eqn:Hg.
  - split_and!; [done|split; [done|by destruct Hrep as [(? & _ & ?)|[? _]]]|right; done|destruct Hrep as [(? & ? & _)|?]; tauto].
  - rewrite !orb_false_iff, !Z.ltb_ge in Hg. destruct Hg as [[[Hg1 Hg2] Hg3] Hg4].
    destruct (snapshot_message_spec t) as [Hc Hr]. cbn [tlInterval tlLastSnapshot tlNextMetrics]. unfold captures, reports in *.
    assert ((∃ metrics, TkMetrics metrics ∈ sent ++ snapshot_message t) ↔ (∃ metrics, TkMetrics metrics ∈ sent)) as Hiff.
    { setoid_rewrite elem_of_app. naive_solver. }
    assert (TkCapture ∈ sent ++ snapshot_message t) as Hcap by (apply elem_of_app; by right).
    split_and!; [done|split|by left|rewrite Hiff; destruct Hrep as [(? & ? & _)|?]; tauto].
    + intros _. split_and!; [done|done|done|]. apply (Sub_ge (tkAfter t)); [unfold max_int64, Second; lia|unfold Second; lia|done].
    + rewrite Hiff. by destruct Hrep as [(? & _ & ?)|[? _]].
Qed.

(** All ticks of a run respect the state it starts from, and each other. *)
Lemma run_ticks_spec special rfc `{PNG} es : ∀ s, -1 ≤ tlInterval s ≤ 3600 →
  (∀ settings i, TkSettings settings ∈ es → -1 ≤ i ≤ 3600 → -1 ≤ setSnapshotInterval settings i ≤ 3600) →
  Forall clock_ok es →
  Forall (tick_ok (tlLastSnapshot s) (tlNextMetrics s)) (run_ticks special rfc es s) ∧
  ForallOrdPairs apart (run_ticks special rfc es s).
Proof.
  induction es as [|[t|settings] es IH]; intros s Hs Hset Hclock; cbn [run_ticks]; [split; constructor| |].
  - apply Forall_cons in Hclock as [[Hn Ha] Hclock]. pose proof (tick_spec special rfc t s Hs Hn) as Ht.
    destruct (tick special rfc t s) as [s' l]. destruct Ht as (Hi & Hok & Hcap & Hrep).
    destruct (IH s' ltac:(lia) ltac:(intros; apply Hset; [by right|done]) Hclock) as [Hall Hpairs]. split.
    + constructor; [done|]. eapply Forall_impl; [exact Hall|]. intros [[i t2] l2] [H1 H2]. split.
      * intros Hc2. destruct (H1 Hc2) as (? & ? & ? & Hle). split_and!; [done..|].
        destruct Hcap as [[Hc Heq]|[_ Heq]]; rewrite Heq in Hle; [|done]. destruct Hok as [Hok _]. destruct (Hok Hc) as (_ & _ & _ & ?).
        unfold Second in *. lia.
      * intros Hr2. specialize (H2 Hr2). destruct Hrep as [[Hr Heq]|[_ Heq]]; rewrite Heq in H2; [|done].
        destruct Hok as [_ Hok]. specialize (Hok Hr). unfold Second in *. lia.
    + constructor; [|done]. eapply Forall_impl; [exact Hall|]. intros [[i t2] l2] [H1 H2]. split.
      * intros Hc Hc2. destruct (H1 Hc2) as (_ & _ & _ & Hle). destruct Hcap as [[_ Heq]|[? _]]; [by rewrite Heq in Hle|done].
      * intros Hr Hr2. specialize (H2 Hr2). destruct Hrep as [[_ Heq]|[? _]]; [by rewrite Heq in H2|done].
  - apply Forall_cons in Hclock as [_ Hclock].
    apply (IH (MkTelemetry (setSnapshotInterval settings (tlInterval s)) (tlPrevious s) (tlLastSnapshot s) (tlNextMetrics s))); [|intros; apply Hset; [by right|done]|done].
    cbn. apply Hset; [by left|done].
Qed.

Lemma setSnapshotInterval_range settings i : -1 ≤ i ≤ 3600 →
  (∀ k x, settings !! k = Some (VNum x) → valid_binary 53 1024 x = true) →
  -1 ≤ setSnapshotInterval settings i ≤ 3600.
Proof.
  intros Hi Hv. unfold setSnapshotInterval.
  assert (∀ k, let v := settings !! k in -1 ≤ match v with
    | Some (VNum x) => if negb (flt x (float_of_Z (-1))) && negb (flt (float_of_Z 3600) x) && negb (IsNaN x) && is_integral x then int_part x else i
    | _ => i end ≤ 3600) as Hall.
  { intros k. cbn zeta. destruct (settings !! k) as [[| |x| | | |]|] eqn:Hk; try done.
    destruct (negb (flt x (float_of_Z (-1))) && negb (flt (float_of_Z 3600) x) && negb (IsNaN x) && is_integral x) eqn:Hg; [|done].
    rewrite !andb_true_iff, !negb_true_iff in Hg. destruct Hg as [[[? ?] _] _]. by apply interval_range; [apply (Hv k)|..]. }
  specialize (Hall "snapshotInterval") as H1. specialize (Hall "snapshot_interval") as H2. cbn zeta in *.
  by destruct (settings !! "snapshotInterval").
Qed.

(** ** Properties *)

(** Metrics cannot be nonsense.  Whatever the files of the system say, the share of
    processor time is reported only between two readings in which the counters went
    forward, and it is a number from 0 to 100; and the sample kept for the next reading
    is within 64 bits again. *)
Theorem metrics_bounded (special : string → option float64) (rfc3339 : Time → string) (now : Time) (p : metricSample) (reads : metric_reads) :
  0 ≤ msTotal p < 2 ^ 64 → 0 ≤ msIdle p < 2 ^ 64 →
  let '(m, s) := collectMetrics special rfc3339 now p reads in
  0 ≤ msTotal s < 2 ^ 64 ∧ 0 ≤ msIdle s < 2 ^ 64 ∧
  (m !! "cpu" = None ∨
   ∃ x, m !! "cpu" = Some (VNum x) ∧ at_most x 100 0 ∧ 0 < msTotal p < msTotal s ∧ msIdle p ≤ msIdle s).
Proof.
  intros Ht Hi. destruct (collectMetrics special rfc3339 now p reads) as [m s] eqn:E.
  destruct (collect_cpu _ _ _ _ _ _ _ E) as (Hts & His & Hcpu & _).
  assert (0 ≤ msTotal s < 2 ^ 64 ∧ 0 ≤ msIdle s < 2 ^ 64) as [Ht' Hi'].
  { rewrite Hts, His. destruct (rdStat reads) as [raw|]; [apply cpuCounters_range|done]. }
  split_and!; [lia|lia|lia|lia|]. rewrite Hcpu. destruct (is_ok (rdStat reads)); [|left; apply lookup_empty].
  unfold cpu_metric. destruct ((0 <? msTotal p) && (msTotal p <? msTotal s) && (msIdle p <=? msIdle s)) eqn:Hg; [right|left; apply lookup_empty].
  apply andb_true_iff in Hg as [[Hg1%Z.ltb_lt Hg2%Z.ltb_lt]%andb_true_iff Hg3%Z.leb_le]. rewrite lookup_insert_eq.
  eexists. split; [reflexivity|]. unfold uint64. rewrite !wrap_u_small by lia. split_and!; [apply cpu_bounded; lia|lia|lia|lia].
Qed.

(** thumbnails fit.  A screenshot becomes a picture of at least one and at most
    [maxSize] pixels a side, each pixel of which is one of the screenshot; one that is
    small enough keeps its size and its pixels, and one with too large or no dimensions
    is refused. *)
Theorem thumbnail_fits `{PNG} (contents : bytes) (maxSize width height : Z) (source : Z → Z → pixel) :
  1 ≤ maxSize ≤ 16384 → DecodeConfig contents = Some (width, height) → DecodePNG contents = Ok source →
  if good_dimensions width height then
    ∃ w h pixels, thumbnailPNG contents maxSize = EncodePNG w h pixels ∧ 1 ≤ w ≤ maxSize ∧ 1 ≤ h ≤ maxSize ∧
      (∀ x y, 0 ≤ x < w → 0 ≤ y < h → ∃ i j, 0 ≤ i < width ∧ 0 ≤ j < height ∧ pixels x y = source i j) ∧
      (width ≤ maxSize → height ≤ maxSize → w = width ∧ h = height ∧
       ∀ x y, 0 ≤ x < w → 0 ≤ y < h → pixels x y = source x y)
  else thumbnailPNG contents maxSize = Err (ErrMsg "invalid screenshot dimensions").
Proof.
  intros Hmax Hc Hd. unfold thumbnailPNG. rewrite Hc. destruct (good_dimensions width height) eqn:Hg; [|done].
  rewrite Hd. cbn [mbind result_bind]. unfold good_dimensions in Hg. apply negb_true_iff in Hg. rewrite !orb_false_iff, !Z.leb_gt, !Z.ltb_ge in Hg.
  destruct (thumbnail_size width height maxSize) as [w h] eqn:Hs. exists w, h. eexists. split; [reflexivity|].
  assert (1 ≤ w ≤ maxSize ∧ 1 ≤ h ≤ maxSize ∧ (width ≤ maxSize → height ≤ maxSize → w = width ∧ h = height)) as (Hw & Hh & Hsame).
  { unfold thumbnail_size in Hs. destruct ((maxSize <? width) || (maxSize <? height)) eqn:Hb.
    - assert (maxSize < Z.max width height) as Hlong by (rewrite orb_true_iff, !Z.ltb_lt in Hb; lia).
      pose proof (thumbnail_side width (Z.max width height) maxSize ltac:(lia) ltac:(lia) ltac:(lia)).
      pose proof (thumbnail_side height (Z.max width height) maxSize ltac:(lia) ltac:(lia) ltac:(lia)).
      injection Hs as <- <-. split_and!; lia.
    - rewrite orb_false_iff, !Z.ltb_ge in Hb. injection Hs as <- <-. lia. }
  split_and!; [lia..| |].
  - intros x y Hx Hy. eexists _, _. split_and!; [..|reflexivity]; apply source_pixel_range; lia.
  - intros H1 H2. destruct (Hsame H1 H2) as [-> ->]. split_and!; [done|done|]. intros x y Hx Hy. unfold source_pixel.
    by rewrite !Z.quot_mul by lia.
Qed.


(** C39: the pace of telemetry.  Whatever settings arrive between its ticks, the screen is
    captured only while no viewer is connected, no preview runs and snapshots are not
    turned off, at least the interval in force, and a second, after the capture before;
    metrics are sent at least five seconds after those before. *)
Theorem telemetry_paced (special : string → option float64) (rfc3339 : Time → string) `{PNG} (es : list telemetry_event) (s : telemetry) :
  -1 ≤ tlInterval s ≤ 3600 → Forall clock_ok es →
  (∀ settings k x, TkSettings settings ∈ es → settings !! k = Some (VNum x) → valid_binary 53 1024 x = true) →
  let r := run_ticks special rfc3339 es s in
  (∀ interval t l, (interval, t, l) ∈ r → captures l → 0 ≤ interval ∧ tkSessions t = false ∧ tkPreview t = false) ∧
  ForallOrdPairs apart r.
Proof.
  intros Hs Hclock Hv r.
  destruct (run_ticks_spec special rfc3339 es s Hs ltac:(intros settings i Hin Hi; apply setSnapshotInterval_range; eauto) Hclock) as [Hall Hpairs].
  split; [|done]. intros interval t l Hin Hc. rewrite Forall_forall in Hall. destruct (Hall _ Hin) as [Hok _].
  by destruct (Hok Hc) as (? & ? & ? & _).
Qed.

(** ** Witnesses *)

Module TelemetryWitness.

(** A library that knows one picture. *)
#[export] Instance toy_png : PNG := {|
  pixel := Z;
  DecodeConfig contents := Some (1080, 2400);
  DecodePNG contents := Ok (λ x y, x * 10000 + y);
  EncodePNG w h pixels := Ok [byte_of w; byte_of h];
|}.

Definition no_special (s : string) : option float64 := None.
Definition stamp (t : Time) : string := "".

Definition reads : metric_reads :=
  MkReads (Ok (str_bytes ("cpu  250 0 100 1650 0 0 0 0 9 9" +:+ newline +:+ "cpu0 1 2 3 4"))) (Err no_file) (Err no_file) (Err no_file) (Err no_file).
Definition before : metricSample := MkSample Second 1000 900 0 0.
Definition collected := collectMetrics no_special stamp (6 * Second) before reads.

Lemma metrics_bounded_witness :
  collected.1 !! "cpu" = Some (VNum (float_of_Z 25)) ∧ 0 ≤ msTotal collected.2 < 2 ^ 64 ∧ at_most (float_of_Z 25) 100 0.
Proof.
  pose proof (metrics_bounded no_special stamp (6 * Second) before reads ltac:(done) ltac:(done)) as Hm.
  change (collectMetrics no_special stamp (6 * Second) before reads) with collected in Hm.
  assert (collected.1 !! "cpu" = Some (VNum (float_of_Z 25))) as Hc by (vm_compute; reflexivity).
  destruct collected as [m s]. cbn [fst snd] in *. destruct Hm as (Ht & _ & [Hn|(x & Hx & Hb & _)]); [by rewrite Hn in Hc|].
  rewrite Hc in Hx. injection Hx as <-. done.
Defined.

Lemma thumbnail_fits_witness :
  ∃ w h pixels, thumbnailPNG [] 360 = EncodePNG w h pixels ∧ 1 ≤ w ≤ 360 ∧ 1 ≤ h ≤ 360.
Proof.
  pose proof (thumbnail_fits [] 360 1080 2400 (λ x y, x * 10000 + y) ltac:(done) ltac:(done) ltac:(done)) as Ht.
  assert (good_dimensions 1080 2400 = true) as Hg by (vm_compute; reflexivity). rewrite Hg in Ht.
  destruct Ht as (w & h & pixels & He & Hw & Hh & _). by exists w, h, pixels.
Defined.

(** Two seconds apart, with the interval lowered to one second in between. *)
Definition tick_at (t : Time) : telemetry_event := TkTick (MkTick t t t reads false false (MkExecution [] None)).
Definition events : list telemetry_event :=
  [tick_at (20 * Second); TkSettings {["snapshotInterval" := VNum (float_of_Z 1)]}; tick_at (22 * Second)].
Definition start : telemetry := MkTelemetry 10 no_sample time_zero (20 * Second).

Lemma telemetry_paced_witness :
  map (λ r, (r.1.1, length r.2)) (run_ticks no_special stamp events start) = [(10, 3%nat); (1, 2%nat)] ∧
  ForallOrdPairs apart (run_ticks no_special stamp events start).
Proof.
  split; [vm_compute; reflexivity|]. apply (telemetry_paced no_special stamp events start).
  - vm_compute. split; discriminate.
  - repeat constructor; vm_compute; discriminate.
  - intros settings k x Hin Hk. unfold events in Hin. rewrite !elem_of_cons, elem_of_nil in Hin.
    destruct Hin as [?|[Heq|[?|[]]]]; [done| |done]. injection Heq as ->.
    apply lookup_singleton_Some in Hk as [_ Heq]. injection Heq as <-. vm_compute. reflexivity.
Defined.
End TelemetryWitness.
