(* ===== verification/Identity.v ===== *)
(** * The agent as a process: configuration, identity and instance
      (agent/internal/agent/agent.go, process.go)

    The paths of an agent, the file that keeps its token, and the lock and PID file that
    keep a second agent of the same device from running.  Files are those of the host of
    [DeviceIO]; what the kernel says about processes is an argument. *)

From stdpp Require Import pretty.
From S2P Require Import Prelude GoBase GoStrings GoFloat Model Control DeviceFiles Json JsonText DeviceIO.

(** ** Configuration *)

Record agentConfig := MkAgentConfig {
  acADBSerial : string;
  acADBServer : string;
  acDeviceID : string;
  acSignalingURL : string;
  acEnrollmentToken : string;
  acIdentityPath : string;
  acPIDPath : string;
  acScrcpyJar : string;
  acScrcpyVersion : string;
  acHealthCheck : bool;
}.

Definition or_else (s fallback : string) : string := if bool_decide (s = "") then fallback else s.

(** The directory of a device reached through ADB. *)
Definition state_directory `{Crypto} (serial : string) : string :=
  "/var/lib/scrcpycat/agent/" +:+ hex (take 16 (sha256 (str_bytes serial))).

Definition ResolveDefaults `{Crypto} (c : agentConfig) : agentConfig :=
  let server := or_else (acADBServer c) "127.0.0.1:5037" in
  let version := or_else (acScrcpyVersion c) "4.1" in
  if bool_decide (acADBSerial c = "") then
    MkAgentConfig (acADBSerial c) server (acDeviceID c) (acSignalingURL c) (acEnrollmentToken c)
      (or_else (acIdentityPath c) "/data/local/tmp/scrcpycat-agent.identity")
      (or_else (acPIDPath c) "/data/local/tmp/scrcpycat-agent.pid")
      (or_else (acScrcpyJar c) "/data/local/tmp/scrcpy-server.jar") version (acHealthCheck c)
  else
    let state := state_directory (acADBSerial c) in
    MkAgentConfig (acADBSerial c) server (or_else (acDeviceID c) (acADBSerial c)) (acSignalingURL c) (acEnrollmentToken c)
      (or_else (acIdentityPath c) (JoinPath state "identity.json"))
      (or_else (acPIDPath c) (JoinPath state "agent.pid"))
      (or_else (acScrcpyJar c) "/opt/scrcpycat/scrcpy/scrcpy-server") version (acHealthCheck c).

Definition Validate (c : agentConfig) : result () :=
  if bool_decide (TrimSpace (acDeviceID c) = "") then Err (ErrMsg "--device-id is required")
  else if negb (HasPrefix (acSignalingURL c) "ws://") && negb (HasPrefix (acSignalingURL c) "wss://")
  then Err (ErrMsg "--signaling must use ws:// or wss://")
  else if bool_decide (acIdentityPath c = "") then Err (ErrMsg "--identity-file is required")
  else if bool_decide (acPIDPath c = "") then Err (ErrMsg "--pid-file is required")
  else Ok ().

(** ** Calls of the operating system *)

Definition ReadFile (path : string) : io bytes := f ← os_Open path; io_ret (fData f).

(** [os.WriteFile]: the mode counts only for a new file. *)
Definition WriteFile (path : string) (data : bytes) (mode : Z) : io () :=
  _ ← syscall (λ h, (Ok (), <[path := MkFile [] (match h !! path with Some f => fMode f | None => mode end)]> h));
  close_after (write_file path data).

(** Directories are not among the files. *)
Definition MkdirAll (path : string) : io () := syscall (λ h, (Ok (), h)).

(** ** Identity *)

(** [json.Marshal(identity{AgentToken: token})]. *)
Definition identity_json (token : string) : bytes :=
  str_bytes "{" ++ quote "agent_token" ++ str_bytes ":" ++ quote token ++ str_bytes "}".

(** [json.Unmarshal] into an identity: unknown fields are ignored. *)
Fixpoint identity_fields (l : list (string * value)) (token : string) : option string :=
  match l with
  | [] => Some token
  | (key, v) :: l =>
      if EqualFoldASCII "agent_token" key then
        match v with
        | VStr s => identity_fields l s
        | VNull => identity_fields l token
        | _ => None
        end
      else identity_fields l token
  end.
Definition parse_identity (text : bytes) : option string :=
  match parse text with
  | DObject l => identity_fields l ""
  | DValue VNull => Some ""
  | _ => None
  end.

Definition loadIdentity (path : string) : io string :=
  contents ← ReadFile path;
  match parse_identity contents with
  | Some token => if bool_decide (token = "") then io_fail (ErrMsg "invalid identity file") else io_ret token
  | None => io_fail (ErrMsg "invalid identity file")
  end.

Definition saveIdentity (path token : string) : io () :=
  _ ← MkdirAll (Dir path);
  let temporary := path +:+ ".tmp" in
  _ ← WriteFile temporary (identity_json token) 384;
  rename_error temporary path.

(** ** Processes *)

(** [os.Executable] of this process, and the link [/proc/<pid>/exe] of any. *)
Record processes := MkProcesses { prSelf : result string; prExe : Z → result string }.

Definition deleted : string := " (deleted)".
Definition isAgentProcess (ps : processes) (rawPID : string) : bool :=
  match ParseInt rawPID with
  | Some pid =>
      if pid <? 2 then false
      else match prSelf ps, prExe ps pid with
           | Ok self, Ok other => bool_decide (TrimSuffix other deleted = TrimSuffix self deleted)
           | _, _ => false
           end
  | None => false
  end.

Definition Stat (path : string) : io () :=
  syscall (λ h, (match h !! path with Some _ => Ok () | None => Err no_file end, h)).

Definition Healthy (ps : processes) (identityPath pidPath scrcpyJar : string) : io bool := λ w,
  match Stat scrcpyJar w with
  | (Err _, w) => (Ok false, w)
  | (Ok _, w) =>
      match loadIdentity identityPath w with
      | (Err _, w) => (Ok false, w)
      | (Ok _, w) =>
          match ReadFile pidPath w with
          | (Err _, w) => (Ok false, w)
          | (Ok contents, w) => (Ok (isAgentProcess ps (TrimSpace (bytes_str contents))), w)
          end
      end
  end.

(** ** One agent per PID file

    The locks of the kernel, by the path of the file they are on, each with the process
    that holds it; they end with it. *)
Record host := MkHost { hsWorld : world; hsLocks : gmap string Z }.

Definition pid_text (pid : Z) : string := FormatUint pid.

(** [unix.Flock] with [LOCK_EX|LOCK_NB]; opening the lock file does not truncate it. *)
Definition open_lock (path : string) : io () :=
  syscall (λ h, (Ok (), match h !! path with Some _ => h | None => <[path := MkFile [] 384]> h end)).
Definition Flock (pid : Z) (path : string) (s : host) : result () * host :=
  match next_fault (hsWorld s) with
  | (Ok (Fault _ _ e), w) => (Err e, MkHost w (hsLocks s))
  | (_, w) =>
      match hsLocks s !! path with
      | Some _ => (Err (ErrMsg "resource temporarily unavailable"), MkHost w (hsLocks s))
      | None => (Ok (), MkHost w (<[path := pid]> (hsLocks s)))
      end
  end.
Definition unlock (path : string) (s : host) : host := MkHost (hsWorld s) (delete path (hsLocks s)).

Definition on_world {A} (a : io A) (s : host) : result A * host :=
  let '(r, w) := a (hsWorld s) in (r, MkHost w (hsLocks s)).

Definition lock_path (path : string) : string := path +:+ ".lock".

(** [Ok ()] stands for the function that gives the instance back. *)
Definition acquireInstance (pid : Z) (path : string) (s : host) : result () * host :=
  match on_world (_ ← MkdirAll (Dir path); open_lock (lock_path path)) s with
  | (Err e, s) => (Err e, s)
  | (Ok _, s) =>
      match Flock pid (lock_path path) s with
      | (Err e, s) => (Err (wrap_error "agent instance is already locked: " e), s)
      | (Ok _, s) =>
          match on_world (WriteFile path (str_bytes (pid_text pid) ++ [byte_of 10]) 384) s with
          | (Err e, s) => (Err e, unlock (lock_path path) s)
          | (Ok _, s) => (Ok (), s)
          end
      end
  end.

Definition releaseInstance (pid : Z) (path : string) : io () := λ w,
  match ReadFile path w with
  | (Ok contents, w) =>
      if bool_decide (TrimSpace (bytes_str contents) = pid_text pid) then ignore (os_Remove path) w else (Ok (), w)
  | (Err _, w) => (Ok (), w)
  end.

Definition release (pid : Z) (path : string) (s : host) : host :=
  unlock (lock_path path) (on_world (releaseInstance pid path) s).2.

(** ** Runs

    Processes that start, stop and die, with the faults of the system calls of each
    event; [running]: those whose [acquireInstance] succeeded. *)
Inductive process_event :=
| PrStart (pid : Z) (faults : list fault)
| PrStop (pid : Z) (faults : list fault)
| PrDie (pid : Z).

Record system := MkSystem { syHost : host; syRunning : list Z }.

Definition with_faults (faults : list fault) (s : host) : host :=
  MkHost (MkWorld (wHost (hsWorld s)) (wDevice (hsWorld s)) faults) (hsLocks s).

Section runs.
Context (path : string).

(** A process that is gone holds no lock. *)
Definition dropped (pid : Z) (s : host) : host := MkHost (hsWorld s) (filter (λ kv, kv.2 ≠ pid) (hsLocks s)).

Definition process_step (e : process_event) (y : system) : system :=
  match e with
  | PrStart pid faults =>
      if bool_decide (pid ∈ syRunning y) then y
      else match acquireInstance pid path (with_faults faults (syHost y)) with
           | (Ok _, s) => MkSystem s (pid :: syRunning y)
           | (Err _, s) => MkSystem s (syRunning y)
           end
  | PrStop pid faults =>
      if bool_decide (pid ∈ syRunning y)
      then MkSystem (release pid path (with_faults faults (syHost y))) (List.filter (λ p, negb (p =? pid)) (syRunning y))
      else y
  | PrDie pid => MkSystem (dropped pid (syHost y)) (List.filter (λ p, negb (p =? pid)) (syRunning y))
  end.

Definition process_run (events : list process_event) (y : system) : system := foldl (λ y e, process_step e y) y events.
End runs.

(** ** Lemmas: text *)

Lemma graphic_is_byte a n : graphic a = true → (n < 33 ∨ 126 < n) → is_byte a n = false.
Proof. unfold graphic, is_byte. rewrite in_range_iff, Z.eqb_neq. lia. Qed.

Lemma trim_left_graphic a l : graphic a = true → trim_left (a :: l) = a :: l.
Proof.
  intros Ha. destruct (graphic_no_space a Ha) as (H1 & H2 & H3). cbn. rewrite H1. destruct l as [|b l]; [done|]. rewrite H2.
  destruct l as [|c l]; [done|]. by rewrite H3.
Qed.

Lemma trim_left_rev_graphic a l : graphic a = true → trim_left_rev (a :: l) = a :: l.
Proof.
  intros Ha. destruct (graphic_no_space a Ha) as (H1 & _).
  assert (∀ b, space2 b a = false) as H2.
  { intros b. unfold space2. by rewrite !(graphic_is_byte a) by (done || lia); rewrite andb_false_r. }
  assert (∀ b c, space3 c b a = false) as H3.
  { intros b c. unfold space3. rewrite !(graphic_is_byte a) by (done || lia).
    assert (∀ lo hi, 126 < lo → in_range a lo hi = false) as Hr.
    { intros lo hi Hlo. apply not_true_iff_false. unfold graphic in Ha. rewrite in_range_iff in *. lia. }
    rewrite ?Hr by lia. by rewrite ?andb_false_r. }
  cbn. rewrite H1. destruct l as [|b l]; [done|]. rewrite H2. destruct l as [|c l]; [done|]. by rewrite H3.
Qed.

(** A line of visible characters, without its end. *)
Lemma TrimSpace_line s : s ≠ "" → Forall (λ a, graphic a = true) (str_bytes s) →
  TrimSpace (bytes_str (str_bytes s ++ [byte_of 10])) = s.
Proof.
  intros Hne Hs. unfold TrimSpace. rewrite str_bytes_str. destruct s as [|a s]; [done|].
  change (str_bytes (String a s)) with (a :: str_bytes s) in *. pose proof Hs as Hl. apply Forall_cons in Hs as [Ha _].
  cbn [app]. rewrite trim_left_graphic by done. change (a :: str_bytes s ++ [byte_of 10]) with ((a :: str_bytes s) ++ [byte_of 10]).
  rewrite rev_app_distr. cbn [rev app]. change (trim_left_rev (byte_of 10 :: rev (str_bytes s) ++ [a]))
    with (trim_left_rev (rev (str_bytes s) ++ [a])). change (rev (str_bytes s) ++ [a]) with (rev (a :: str_bytes s)).
  destruct (rev (a :: str_bytes s)) as [|b l] eqn:E.
  { apply (f_equal (@length _)) in E. rewrite length_rev in E. by cbn in E. }
  rewrite trim_left_rev_graphic, <-E, rev_involutive; [by apply (bytes_str_bytes (String a s))|].
  rewrite Forall_forall in Hl. apply Hl. apply list_elem_of_In, in_rev. rewrite E. by left.
Qed.

Lemma TrimSpace_pid pid : TrimSpace (bytes_str (str_bytes (pid_text pid) ++ [byte_of 10])) = pid_text pid.
Proof.
  apply TrimSpace_line; [apply FormatUint_ne|]. eapply Forall_impl; [apply FormatUint_digits|apply digit_graphic].
Qed.

(** ** Lemmas: the identity *)

(** What the agent writes is what it, and the deployer, read. *)
Lemma parse_identity_json token : Valid (str_bytes token) = true → parse_identity (identity_json token) = Some token.
Proof.
  intros Hv. unfold parse_identity, identity_json.
  change (str_bytes "{" ++ quote "agent_token" ++ str_bytes ":" ++ quote token ++ str_bytes "}")
    with (ch "{" :: quote "agent_token" ++ ch ":" :: quote token ++ [ch "}"]).
  by rewrite parse_field.
Qed.

Lemma WriteFile_spec path data mode w :
  only path w (WriteFile path data mode w).2 ∧
  ((WriteFile path data mode w).1 = Ok () → holds (wHost (WriteFile path data mode w).2) path data).
Proof.
  unfold WriteFile. rewrite io_bind_eq. set (f := λ h : fs, _).
  assert (only path w (syscall f w).2) as Hc by (apply syscall_only; intros h p Hp; cbn; by rewrite lookup_insert_ne).
  destruct (syscall_cases f w) as (l & [(e & E)|E]); rewrite E in *; [done|]. cbn [fst snd] in *.
  set (w1 := MkWorld _ _ l) in *. assert (∃ m, wHost w1 !! path = Some (MkFile [] m)) as [m Hm] by (eexists; apply lookup_insert_eq).
  destruct (write_file_spec path data w1) as [H2 Hw]. unfold close_after.
  destruct (write_file path data w1) as [r w2]. destruct (close_file_same w2) as (l2 & Hl). destruct (close_file w2) as [c w3].
  cbn [fst snd] in *. subst w3. split; [eapply only_trans; [exact Hc|]; by destruct H2; split|].
  destruct r as [[]|e]; [|done]. intros _. exists m. cbn. exact (Hw eq_refl _ Hm).
Qed.

Lemma MkdirAll_same path w : ∃ l, (MkdirAll path w).2 = MkWorld (wHost w) (wDevice w) l.
Proof. unfold MkdirAll. destruct (syscall_cases (λ h, (Ok (), h)) w) as (l & [(e & ->)| ->]); by exists l. Qed.

Lemma suffix_ne s t : t ≠ "" → s +:+ t ≠ s.
Proof. intros Ht. induction s as [|a s IH]; [done|]. change (String a (s +:+ t) ≠ String a s). congruence. Qed.

Lemma tmp_ne path : path +:+ ".tmp" ≠ path.
Proof. by apply suffix_ne. Qed.

(** Saving replaces the file in one step, or leaves it. *)
Lemma saveIdentity_spec path token w :
  let '(r, w') := saveIdentity path token w in
  (r = Ok () ∧ holds (wHost w') path (identity_json token) ∨ r ≠ Ok () ∧ wHost w' !! path = wHost w !! path) ∧
  wDevice w' = wDevice w ∧ ∀ p, p ≠ path → p ≠ path +:+ ".tmp" → wHost w' !! p = wHost w !! p.
Proof.
  unfold saveIdentity. rewrite io_bind_eq. destruct (MkdirAll_same (Dir path) w) as [l E].
  destruct (MkdirAll (Dir path) w) as [[[]|e] w0]; cbn [snd] in E; subst w0; [|by split; [right|]].
  set (tmp := path +:+ ".tmp"). cbv zeta. rewrite io_bind_eq.
  pose proof (tmp_ne path) as Hne. fold tmp in Hne.
  destruct (WriteFile_spec tmp (identity_json token) 384 (MkWorld (wHost w) (wDevice w) l)) as [[Hd Ho] Hh].
  destruct (WriteFile tmp _ _ _) as [[[]|e] w1]; cbn [fst snd wHost wDevice] in *.
  2: { split; [right; split; [done|]; by apply Ho|]. split; [done|]. intros p _ Hp. by apply Ho. }
  destruct (Hh eq_refl) as [m Hm]. unfold rename_error.
  destruct (Rename_cases tmp path w1) as (l' & [(E1 & f & Hf & E2)|[E1 E2]]).
  - destruct (Rename tmp path w1) as [[]]; cbn [fst snd] in *; simplify_eq. cbn. split; [left; split; [done|]; exists m; by rewrite lookup_insert_eq|].
    split; [done|]. intros p H1 H2. rewrite lookup_insert_ne, lookup_delete_ne by done. by apply Ho.
  - destruct (Rename tmp path w1) as [rn w2]; cbn [fst snd] in *. subst w2.
    assert (wHost w1 !! path = wHost w !! path) as Hp by (by apply Ho).
    destruct rn; [done| |]; (split; [by right|]); (split; [done|]); intros p _ H2; by apply Ho.
Qed.

(** With no fault the call works. *)
Definition at_rest (w : world) : world := MkWorld (wHost w) (wDevice w) [].

Lemma ReadFile_at_rest path w :
  ReadFile path (at_rest w) = (match wHost w !! path with Some f => Ok (fData f) | None => Err no_file end, at_rest w).
Proof.
  unfold ReadFile, os_Open, syscall, io_host, mbind, io_bind, with_host. cbn. by destruct (wHost w !! path).
Qed.

Lemma Stat_at_rest path w :
  Stat path (at_rest w) = (match wHost w !! path with Some _ => Ok () | None => Err no_file end, at_rest w).
Proof. unfold Stat, syscall, io_host, mbind, io_bind, with_host. cbn. by destruct (wHost w !! path). Qed.

Lemma loadIdentity_at_rest path w token : (loadIdentity path (at_rest w)).1 = Ok token →
  loadIdentity path (at_rest w) = (Ok token, at_rest w).
Proof.
  unfold loadIdentity. rewrite io_bind_eq, ReadFile_at_rest. destruct (wHost w !! path); [|done].
  destruct (parse_identity _) as [t|]; [|done]. case_bool_decide; [done|]. by intros [= ->].
Qed.

Lemma WriteFile_at_rest path data mode w : (WriteFile path data mode (at_rest w)).1 = Ok () ∧
  wFaults (WriteFile path data mode (at_rest w)).2 = [].
Proof.
  unfold WriteFile, close_after, write_file, close_file, syscall, io_host, mbind, io_bind. cbn. done.
Qed.

Lemma loadIdentity_holds path token w : holds (wHost w) path (identity_json token) →
  Valid (str_bytes token) = true → token ≠ "" → (loadIdentity path (at_rest w)).1 = Ok token.
Proof.
  intros [m Hm] Hv Hne. unfold loadIdentity. rewrite io_bind_eq, ReadFile_at_rest, Hm. cbn [fData].
  rewrite parse_identity_json by done. by rewrite bool_decide_false.
Qed.

Lemma loadIdentity_file path w w' : wHost w' !! path = wHost w !! path →
  (loadIdentity path (at_rest w')).1 = (loadIdentity path (at_rest w)).1.
Proof.
  intros E. unfold loadIdentity. rewrite !io_bind_eq, !ReadFile_at_rest, E.
  destruct (wHost w !! path); [|done]. by destruct (parse_identity _) as [t|]; [case_bool_decide|].
Qed.

Lemma saveIdentity_works path token w : (saveIdentity path token (at_rest w)).1 = Ok ().
Proof.
  unfold saveIdentity. rewrite io_bind_eq. change (MkdirAll (Dir path) (at_rest w)) with (Ok (), at_rest w). cbv zeta iota.
  rewrite io_bind_eq. destruct (WriteFile_at_rest (path +:+ ".tmp") (identity_json token) 384 w) as [H1 H2].
  destruct (WriteFile_spec (path +:+ ".tmp") (identity_json token) 384 (at_rest w)) as [_ Hw].
  destruct (WriteFile _ _ _ _) as [r w1]. cbn [fst snd] in *. subst r. destruct (Hw eq_refl) as [m Hm].
  unfold rename_error, Rename, next_fault. rewrite H2. by rewrite Hm.
Qed.

Lemma saveIdentity_ok path token w : wFaults w = [] → (saveIdentity path token w).1 = Ok ().
Proof. intros Hf. pose proof (saveIdentity_works path token w) as H. unfold at_rest in H. rewrite <-Hf in H. by destruct w. Qed.

(** ** Lemmas: instances *)

Section instances.
Context (path : string).

Lemma lock_ne : lock_path path ≠ path.
Proof. by apply suffix_ne. Qed.

Definition pid_line (pid : Z) : bytes := str_bytes (pid_text pid) ++ [byte_of 10].

Record process_inv (y : system) : Prop := {
  pi_lock : ∀ p, p ∈ syRunning y → hsLocks (syHost y) !! lock_path path = Some p;
  pi_held : ∀ p, hsLocks (syHost y) !! lock_path path = Some p → p ∈ syRunning y;
  pi_file : ∀ p, p ∈ syRunning y → holds (wHost (hsWorld (syHost y))) path (pid_line p);
}.

Lemma running_filter (pid p : Z) l : p ∈ List.filter (λ p, negb (p =? pid)) l ↔ p ∈ l ∧ p ≠ pid.
Proof. rewrite list_elem_of_In, filter_In, negb_true_iff, Z.eqb_neq, <-list_elem_of_In. tauto. Qed.

(** Before the lock is taken only the lock file may appear. *)
Lemma open_lock_only w : only (lock_path path) w ((_ ← MkdirAll (Dir path); open_lock (lock_path path)) w).2.
Proof.
  rewrite io_bind_eq. destruct (MkdirAll_same (Dir path) w) as [l E].
  destruct (MkdirAll (Dir path) w) as [[[]|e] w0]; cbn [snd] in E; subst w0; [|done].
  apply (only_trans _ _ (MkWorld (wHost w) (wDevice w) l)); [done|]. apply syscall_only. intros h p Hp. cbn.
  destruct (h !! lock_path path); [done|]. by rewrite lookup_insert_ne.
Qed.

Lemma acquire_spec pid s :
  let '(r, s') := acquireInstance pid path s in
  (r = Ok () ∧ hsLocks s !! lock_path path = None ∧ hsLocks s' = <[lock_path path := pid]> (hsLocks s) ∧
   holds (wHost (hsWorld s')) path (pid_line pid)) ∨
  (r ≠ Ok () ∧ hsLocks s' = hsLocks s ∧
   (hsLocks s !! lock_path path ≠ None → wHost (hsWorld s') !! path = wHost (hsWorld s) !! path)).
Proof.
  unfold acquireInstance, on_world. pose proof (open_lock_only (hsWorld s)) as [_ Ho].
  destruct ((_ ← MkdirAll (Dir path); open_lock (lock_path path)) (hsWorld s)) as [[[]|e] w1]; cbn [snd] in Ho.
  2: { right. split_and!; [done..|]. intros _. apply Ho. pose proof lock_ne; congruence. }
  assert (wHost w1 !! path = wHost (hsWorld s) !! path) as Hp by (apply Ho; pose proof lock_ne; congruence).
  unfold Flock. cbn [hsWorld hsLocks]. destruct (next_fault_files w1) as (x & l & ->).
  assert (∀ x : fault, let '(r, s') := match hsLocks s !! lock_path path with
      | Some _ => (Err (ErrMsg "resource temporarily unavailable"), MkHost (MkWorld (wHost w1) (wDevice w1) l) (hsLocks s))
      | None => (Ok (), MkHost (MkWorld (wHost w1) (wDevice w1) l) (<[lock_path path := pid]> (hsLocks s)))
      end in
      let '(r, s') := match r with
      | Ok _ => let '(r, w) := WriteFile path (str_bytes (pid_text pid) ++ [byte_of 10]) 384 (hsWorld s') in
                match r with Ok _ => (Ok (), MkHost w (hsLocks s')) | Err e => (Err e, unlock (lock_path path) (MkHost w (hsLocks s'))) end
      | Err e => (Err (wrap_error "agent instance is already locked: " e), s')
      end in
      (r = Ok () ∧ hsLocks s !! lock_path path = None ∧ hsLocks s' = <[lock_path path := pid]> (hsLocks s) ∧
       holds (wHost (hsWorld s')) path (pid_line pid)) ∨
      (r ≠ Ok () ∧ hsLocks s' = hsLocks s ∧
       (hsLocks s !! lock_path path ≠ None → wHost (hsWorld s') !! path = wHost (hsWorld s) !! path))) as Hgo.
  { intros _. destruct (hsLocks s !! lock_path path) as [q|] eqn:El; [by right|]. cbn [hsWorld hsLocks].
    destruct (WriteFile_spec path (pid_line pid) 384 (MkWorld (wHost w1) (wDevice w1) l)) as [_ Hw]. unfold pid_line in Hw.
    destruct (WriteFile path _ 384 _) as [[[]|e] w2]; cbn [fst snd] in Hw; [left; split_and!; auto|]. right. cbn.
    by rewrite delete_insert_id. }
  destruct x as [| |n ran e].
  - specialize (Hgo Fine). destruct (hsLocks s !! lock_path path); [done|]. cbn [hsWorld hsLocks] in *. by destruct (WriteFile _ _ _ _) as [[[]|e] w2].
  - specialize (Hgo Fine). destruct (hsLocks s !! lock_path path); [done|]. cbn [hsWorld hsLocks] in *. by destruct (WriteFile _ _ _ _) as [[[]|e] w2].
  - by right.
Qed.

Lemma process_step_inv e y : process_inv y → process_inv (process_step path e y).
Proof.
  intros [Hl Hh Hf]. destruct e as [pid faults|pid faults|pid]; cbn [process_step].
  - case_bool_decide as Hin; [done|]. pose proof (acquire_spec pid (with_faults faults (syHost y))) as Ha.
    destruct (acquireInstance _ _ _) as [[[]|e] s']; cbn [hsLocks hsWorld wHost with_faults] in Ha.
    + destruct Ha as [(_ & Hn & Hl' & Hw)|[? _]]; [|done].
      assert (syRunning y = []) as Hnil.
      { destruct (syRunning y) as [|p l]; [done|]. rewrite (Hl p) in Hn; [done|by left]. }
      split; cbn [syRunning syHost]; rewrite Hnil, ?Hl'.
      * intros p ->%list_elem_of_singleton. by rewrite lookup_insert_eq.
      * intros p. rewrite lookup_insert_eq. intros [= ->]. by left.
      * by intros p ->%list_elem_of_singleton.
    + destruct Ha as [[? _]|(_ & Hl' & Hw)]; [done|]. split; cbn [syRunning syHost]; rewrite ?Hl'; [done..|].
      intros p Hp. unfold holds in *. rewrite Hw by (rewrite (Hl p) by done; done). by apply Hf.
  - case_bool_decide as Hin; [|done]. assert (syRunning y ⊆ [pid]) as Hsub.
    { intros p Hp. apply Hl in Hp, Hin. rewrite Hp in Hin. injection Hin as ->. by left. }
    assert (∀ p, p ∉ List.filter (λ p, negb (p =? pid)) (syRunning y)) as Hnone.
    { intros p [Hp Hne]%running_filter. apply Hsub, list_elem_of_singleton in Hp. congruence. }
    split; cbn [syRunning syHost]; [by intros p ?%Hnone| |by intros p ?%Hnone].
    unfold release, on_world. destruct (releaseInstance _ _ _) as [r w]. cbn. intros p. by rewrite lookup_delete_eq.
  - split; cbn [syRunning syHost dropped hsLocks hsWorld].
    + intros p [Hp Hne]%running_filter. apply map_lookup_filter_Some. split; [by apply Hl|done].
    + intros p [Hp Hne]%map_lookup_filter_Some. apply running_filter. split; [by apply Hh|done].
    + intros p [Hp _]%running_filter. by apply Hf.
Qed.

Lemma process_run_inv events : ∀ y, process_inv y → process_inv (process_run path events y).
Proof. induction events as [|e events IH]; intros y Hy; [done|]. apply IH. by apply process_step_inv. Qed.

(** With nobody holding the lock and no fault, an agent starts. *)
Lemma acquire_works pid s : hsLocks s !! lock_path path = None → (acquireInstance pid path (with_faults [] s)).1 = Ok ().
Proof.
  intros Hn. unfold acquireInstance, on_world, Flock, MkdirAll, open_lock, WriteFile, close_after, write_file, close_file, syscall, io_host, mbind, io_bind.
  cbn. by rewrite Hn.
Qed.
End instances.

(** ** Properties *)

(** C9: The identity of an agent survives every failure while a new one is saved: whatever
    calls fail, at whatever point, the agent reads afterwards the new token when the save
    was reported to work and exactly what it read before when not, so never a partial file;
    no other file than the temporary one is touched; and without a failure the save works. *)
Theorem identity_survives (path token : string) (w : world) :
  Valid (str_bytes token) = true → token ≠ "" →
  let '(r, w') := saveIdentity path token w in
  (loadIdentity path (at_rest w')).1 =
    (match r with Ok _ => Ok token | Err _ => (loadIdentity path (at_rest w)).1 end) ∧
  (∀ p, p ≠ path → p ≠ path +:+ ".tmp" → wHost w' !! p = wHost w !! p) ∧
  (wFaults w = [] → r = Ok ()).
Proof.
  intros Hv Hne. pose proof (saveIdentity_spec path token w) as Hs.
  pose proof (saveIdentity_ok path token w) as Hw.
  destruct (saveIdentity path token w) as [r w']. destruct Hs as (Hc & _ & Ho). split; [|by split].
  destruct Hc as [[-> Hh]|[Hr Hf]]; [by apply loadIdentity_holds|].
  destruct r as [[]|e]; [done|]. by apply loadIdentity_file.
Qed.

(** C10: For one PID file at most one agent runs: after any sequence of starts, stops and
    deaths of processes, with any failures of system calls, no two hold the instance; the
    PID file then names the one that runs, so that its health check succeeds; and when none
    runs, whatever a dead one left behind, the next start succeeds. *)
Theorem one_instance (path : string) (events : list process_event) (w : world) :
  let y := process_run path events (MkSystem (MkHost w ∅) []) in
  let now := hsWorld (syHost y) in
  (∀ p q, p ∈ syRunning y → q ∈ syRunning y → p = q) ∧
  (∀ p ps exe identityPath token jar, p ∈ syRunning y → 2 ≤ p ≤ max_int64 → prSelf ps = Ok exe → prExe ps p = Ok exe →
     (loadIdentity identityPath (at_rest now)).1 = Ok token → is_Some (wHost now !! jar) →
     (Healthy ps identityPath path jar (at_rest now)).1 = Ok true) ∧
  (syRunning y = [] → ∀ p, syRunning (process_step path (PrStart p []) y) = [p]).
Proof.
  intros y now. assert (process_inv path y) as [Hl Hh Hf].
  { apply process_run_inv. split; cbn; [by intros p ?%elem_of_nil|done|by intros p ?%elem_of_nil]. }
  split; [|split].
  - intros p q Hp%Hl Hq%Hl. congruence.
  - intros p ps exe identityPath token jar Hp Hr Hself Hexe Hid [f Hjar]. unfold Healthy.
    rewrite Stat_at_rest, Hjar, (loadIdentity_at_rest _ _ _ Hid).
    rewrite ReadFile_at_rest. destruct (Hf p Hp) as [m Hm]. fold now in Hm. rewrite Hm. cbn [fst fData]. f_equal.
    unfold pid_line. rewrite TrimSpace_pid. unfold isAgentProcess, pid_text. rewrite ParseInt_FormatUint by lia.
    rewrite (proj2 (Z.ltb_ge p 2)), Hself, Hexe by lia. by apply bool_decide_true.
  - intros Hnil p. cbn [process_step]. rewrite bool_decide_false by (rewrite Hnil; set_solver).
    pose proof (acquire_works path p (syHost y)) as Ha.
    destruct (acquireInstance p path (with_faults [] (syHost y))) as [r s]. cbn [fst] in Ha.
    rewrite Ha; [by cbn; rewrite Hnil|]. destruct (hsLocks (syHost y) !! lock_path path) as [q|]; [|done].
    specialize (Hh q eq_refl). rewrite Hnil in Hh. by apply elem_of_nil in Hh.
Qed.

(** ** Witnesses *)

Module IdentityWitness.
Definition path : string := "/var/lib/agent/identity.json".
Definition w0 : world := MkWorld {[ path := MkFile (identity_json "old") 384 ]} ∅ [Fine; Fine; Fault 7 false no_file].

Lemma new_identity : "new" ≠ "".
Proof. done. Qed.

Lemma identity_survives_witness :
  (loadIdentity path (at_rest (saveIdentity path "new" w0).2)).1 = Ok "old" ∧
  (loadIdentity path (at_rest (saveIdentity path "new" (at_rest w0)).2)).1 = Ok "new".
Proof.
  split.
  - pose proof (proj1 (identity_survives path "new" w0 eq_refl new_identity)) as H.
    vm_compute in H |- *. exact H.
  - pose proof (proj1 (identity_survives path "new" (at_rest w0) eq_refl new_identity)) as H.
    vm_compute in H |- *. exact H.
Defined.

Definition kernel : processes := MkProcesses (Ok "/bin/agent") (λ _, Ok "/bin/agent").
Definition events : list process_event := [PrStart 7 []; PrDie 7; PrStart 42 []; PrStart 9 []].
Definition ran : system := process_run "/run/agent.pid" events (MkSystem (MkHost w0 ∅) []).

Lemma one_instance_witness :
  syRunning ran = [42] ∧
  (Healthy kernel path "/run/agent.pid" path (at_rest (hsWorld (syHost ran)))).1 = Ok true ∧
  syRunning (process_step "/run/agent.pid" (PrStart 5 [])
    (process_run "/run/agent.pid" (events ++ [PrStop 42 []]) (MkSystem (MkHost w0 ∅) []))) = [5].
Proof.
  assert (syRunning ran = [42]) as E by by vm_compute. split; [exact E|split].
  - refine (proj1 (proj2 (one_instance "/run/agent.pid" events w0)) 42 kernel "/bin/agent" path "old" path _ _ eq_refl eq_refl _ _).
    + change (42 ∈ syRunning ran). rewrite E. by left.
    + by split.
    + by vm_compute.
    + apply (bool_decide_unpack (is_Some _)). by vm_compute.
  - refine (proj2 (proj2 (one_instance "/run/agent.pid" (events ++ [PrStop 42 []]) w0)) _ 5). by vm_compute.
Defined.
End IdentityWitness.
