(* ===== verification/Capture.v ===== *)
(** * Launching a capture (agent/internal/agent/device_capture.go)

    The agent stages the scrcpy server on the device and starts it there, and keeps the
    end of what it prints.  The world is that of [DeviceIO]; a session of the device's
    shell is the line it is given. *)

From S2P Require Import Prelude GoBase GoStrings GoFloat Model Control Scrcpy MediaOptions AdbShell DeviceFiles DeviceIO Identity.

(** ** Diagnostics: the last bytes written *)

Definition captureDiagnosticsLimit : Z := Z.shiftl 64 10.

Record captureDiagnostics := MkDiagnostics { cdBuffer : bytes; cdLimit : Z }.

(** [captureDiagnostics.Write] *)
Definition cd_Write (data : bytes) (o : captureDiagnostics) : captureDiagnostics * Z :=
  let length := blen data in
  let limit := if cdLimit o =? 0 then captureDiagnosticsLimit else cdLimit o in
  if limit <=? length then (MkDiagnostics (drop (Z.to_nat (length - limit)) data) (cdLimit o), length)
  else
    let excess := blen (cdBuffer o) + length - limit in
    let kept := if 0 <? excess then drop (Z.to_nat excess) (cdBuffer o) else cdBuffer o in
    (MkDiagnostics (kept ++ data) (cdLimit o), length).

Definition cd_writes (ws : list bytes) (o : captureDiagnostics) : captureDiagnostics := foldl (λ o d, (cd_Write d o).1) o ws.
Definition Diagnostics (o : captureDiagnostics) : string := bytes_str (cdBuffer o).

(** ** The command line of the scrcpy server *)

(** [startLocked]: the id of a capture, from four random bytes. *)
Definition scid_of (random : bytes) : string := hex (be_put 4 (Z.land (be_get random) 0x7fffffff)).

Definition captureArguments (config : agentConfig) (scid : string) (options : streamOptions) (cleanup : bool) : list string :=
  let level := if soDebug options then "debug" else "info" in
  ["/"; "com.genymobile.scrcpy.Server"; acScrcpyVersion config;
   "scid=" +:+ scid; "log_level=" +:+ level; "tunnel_forward=true"; "cleanup=" +:+ FormatBool cleanup;
   "control=true"; "video_codec=h264"; "audio_codec=opus";
   "send_frame_meta=true"; "send_device_meta=true"; "send_stream_meta=true"] ++ arguments options.

Definition probe_arguments (config : agentConfig) (cleanup : bool) : list string :=
  ["/"; "com.genymobile.scrcpy.Server"; acScrcpyVersion config; "cleanup=" +:+ FormatBool cleanup;
   "list_displays=true"; "list_cameras=true"].

(** ** On the device itself *)

(** The program, its arguments and its class path. *)
Record process := MkProcess { pcName : string; pcArgs : list string; pcClassPath : string }.

Definition local_Launch (started : result ()) (config : agentConfig) (scid : string) (options : streamOptions) : result process :=
  match started with
  | Err e => Err e
  | Ok _ => Ok (MkProcess "app_process" (captureArguments config scid options false) (acScrcpyJar config))
  end.
Definition local_Dial (scid : string) : string := "@scrcpy_" +:+ scid.
Definition local_Probe (config : agentConfig) : process :=
  MkProcess "app_process" (probe_arguments config false) (acScrcpyJar config).

(** ** Behind ADB *)

Section adb.
Context `{Crypto}.
Context (tool : list string → fs → bytes * Z * fs).

(** [adbDevice.directory]: private to the device. *)
Definition directory (serial : string) : string :=
  "/data/local/tmp/scrcpycat-host-" +:+ hex (take 8 (sha256 (str_bytes serial))).

Definition prepare_line (serial : string) : string :=
  let directory := Quote (directory serial) in
  "mkdir -p -- " +:+ directory +:+ " && rm -f -- " +:+ directory +:+ "/*.jar " +:+ directory +:+ "/asset-*.apk " +:+
  directory +:+ "/.scrcpycat-upload-*".

Definition jar_path (serial id : string) : string := directory serial +:+ "/" +:+ id +:+ ".jar".

Definition removeJar (path : string) : io () := ignore (forget (run_line tool ("rm -f -- " +:+ Quote path))).

(** The rest of a function that removes the staged file where it fails. *)
Definition or_remove {A} (path : string) (a : io A) : io A := λ w,
  match a w with
  | (Ok x, w) => (Ok x, w)
  | (Err e, w) => (Err e, (removeJar path w).2)
  end.

Definition stageJar (config : agentConfig) (id : string) : io string :=
  input ← os_Open (acScrcpyJar config);
  let path := jar_path (acADBSerial config) id in
  or_remove path (_ ← Push (fData input) path 420; io_ret path).

(** A session that is left running: opening it may fail. *)
Definition start_session (line : string) : io string :=
  x ← next_fault; match x with Fault _ _ e => io_fail e | _ => io_ret line end.

Definition launch_line (path command : string) : string := "CLASSPATH=" +:+ Quote path +:+ " exec " +:+ command.

(** The staged file and the line the device's shell was given. *)
Definition adb_Launch (config : agentConfig) (scid : string) (options : streamOptions) : io (string * string) :=
  path ← stageJar config scid;
  or_remove path
    match AdbShell.Command "app_process" (captureArguments config scid options true) with
    | Err e => io_fail e
    | Ok command => line ← start_session (launch_line path command); io_ret (path, line)
    end.

(** [adbCapture.Wait]: the end of the process, whose staged file is removed. *)
Definition adb_Wait (path : string) (ended : result ()) : io () := λ w, (ended, (removeJar path w).2).

Definition adb_Dial (scid : string) : string := "localabstract:scrcpy_" +:+ scid.

(** [execute]: a session that runs to its end. *)
Definition adb_Probe (execute : string → io bytes) (config : agentConfig) (nano : Z) : io bytes :=
  path ← stageJar config ("probe-" +:+ FormatUint nano);
  let command := from_ok "" (AdbShell.Command "app_process" (probe_arguments config true)) in
  finally (execute (launch_line path command)) (removeJar path).
End adb.

(** ** What the shell makes of a launch line *)

(** A simple command of a POSIX shell with one assignment to [CLASSPATH] before it. *)
Definition launched (line : string) : option (string * list string) :=
  if HasPrefix line "CLASSPATH=" then
    match sh_words false None (str_bytes (TrimPrefix line "CLASSPATH=")) with
    | Some (value :: words) => Some (value, words)
    | _ => None
    end
  else None.

(** ** Lemmas *)

Definition last_bytes (n : nat) (l : bytes) : bytes := drop (length l - n) l.

Lemma last_bytes_length n l : (length (last_bytes n l) ≤ n)%nat.
Proof. unfold last_bytes. rewrite length_drop. lia. Qed.
Lemma last_bytes_app n a d : last_bytes n (last_bytes n a ++ d) = last_bytes n (a ++ d).
Proof.
  unfold last_bytes. rewrite !length_app, length_drop. destruct (Nat.le_gt_cases n (length d)).
  - rewrite !drop_app_ge by (rewrite ?length_drop; lia). rewrite length_drop. f_equal. lia.
  - rewrite !drop_app_le by (rewrite ?length_drop; lia). rewrite drop_drop. f_equal. f_equal. lia.
Qed.

Lemma cd_Write_spec d o n : 0 < n → (if cdLimit o =? 0 then captureDiagnosticsLimit else cdLimit o) = n →
  blen (cdBuffer o) ≤ n → cd_Write d o = (MkDiagnostics (last_bytes (Z.to_nat n) (cdBuffer o ++ d)) (cdLimit o), blen d).
Proof.
  intros Hn Hl Hb. unfold cd_Write, last_bytes, blen in *. rewrite Hl, length_app.
  destruct (Z.leb_spec n (Z.of_nat (length d))).
  - rewrite drop_app_ge by lia. by replace (_ - length (cdBuffer o))%nat with (Z.to_nat (Z.of_nat (length d) - n)) by lia.
  - rewrite drop_app_le by lia. do 3 f_equal.
    destruct (Z.ltb_spec 0 (Z.of_nat (length (cdBuffer o)) + Z.of_nat (length d) - n)).
    + f_equal. lia.
    + by replace (_ - _)%nat with 0%nat by lia.
Qed.

Lemma cd_writes_spec ws n : ∀ o, 0 < n → (if cdLimit o =? 0 then captureDiagnosticsLimit else cdLimit o) = n →
  blen (cdBuffer o) ≤ n →
  cd_writes ws o = MkDiagnostics (last_bytes (Z.to_nat n) (cdBuffer o ++ concat ws)) (cdLimit o).
Proof.
  induction ws as [|d ws IH]; intros o Hn Hl Hb; cbn [cd_writes foldl concat].
  - unfold last_bytes. rewrite app_nil_r. destruct o as [b l]. cbn in *. unfold blen in Hb.
    by replace (length b - Z.to_nat n)%nat with 0%nat by lia.
  - rewrite (cd_Write_spec d o n) by done. cbn [fst]. fold (cd_writes ws).
    set (o' := MkDiagnostics _ _). change (foldl _ o' ws) with (cd_writes ws o'). rewrite IH; cbn [cdLimit cdBuffer o']; try done.
    + by rewrite last_bytes_app, <-app_assoc.
    + pose proof (last_bytes_length (Z.to_nat n) (cdBuffer o ++ d)). unfold blen. lia.
Qed.

(** *** Lines *)

(** The launch line is one assignment and the words of the command. *)
Lemma launched_line path command words : sh_words false None (str_bytes command) = Some words →
  launched (launch_line path command) = Some (path, "exec" :: words).
Proof.
  intros Hc. set (rest := Quote path +:+ " exec " +:+ command).
  assert (launched (launch_line path command) = match sh_words false None (str_bytes rest) with
    | Some (value :: words) => Some (value, words) | _ => None end) as ->.
  { change (launch_line path command) with ("CLASSPATH=" +:+ rest). clearbody rest. unfold launched, TrimPrefix.
    rewrite HasPrefix_refl_app. reflexivity. }
  unfold rest. rewrite str_bytes_app, sh_words_quote, str_bytes_app.
  transitivity (match cons (bytes_str (str_bytes path)) <$> (cons "exec" <$> sh_words false None (str_bytes command)) with
    | Some (value :: words) => Some (value, words) | _ => None end); [reflexivity|].
  by rewrite Hc, bytes_str_bytes.
Qed.

Lemma removed_words path : sh_words false None (str_bytes ("rm -f -- " +:+ Quote path)) = Some ["rm"; "-f"; "--"; path].
Proof.
  rewrite str_bytes_app. set (quoted := str_bytes (Quote path)).
  transitivity (cons "rm" <$> (cons "-f" <$> (cons "--" <$> sh_words false None quoted))); [reflexivity|].
  unfold quoted. rewrite <-(app_nil_r (str_bytes (Quote path))), sh_words_quote. cbn. by rewrite bytes_str_bytes.
Qed.

(** *** The staged file *)

Section staged.
Context `{Crypto}.
Context (tool : list string → fs → bytes * Z * fs) (tools : toolbox tool).

(** No file but one, and none of the host. *)
Definition only_device (path : string) (w w' : world) : Prop :=
  wHost w' = wHost w ∧ ∀ p, p ≠ path → wDevice w' !! p = wDevice w !! p.

#[local] Instance only_device_trans path : Transitive (only_device path).
Proof. intros w1 w2 w3 [H1 D1] [H2 D2]. split; [congruence|]. intros p Hp. by rewrite D2, D1. Qed.

Lemma ignore_snd (a : io ()) w : (ignore a w).2 = (a w).2.
Proof. done. Qed.

Lemma removeJar_only path w : only_device path w (removeJar tool path w).2.
Proof.
  unfold removeJar. rewrite ignore_snd, forget_snd.
  destruct (run_line_cases tool _ _ w (removed_words path)) as (l & [(e & ->)|[-> _]]); [done|]. split; [done|].
  intros p Hp. cbn. destruct (tb_rm tool tools path (wDevice w)) as [-> | ->]; [by rewrite lookup_delete_ne|done].
Qed.

Lemma Push_only data path mode w : only_device path w (Push data path mode w).2 ∧
  ((Push data path mode w).1 = Ok () → holds (wDevice (Push data path mode w).2) path data).
Proof.
  unfold Push. rewrite io_bind_eq. destruct (next_fault_files w) as (x & l & ->).
  destruct x as [| |n [] e]; unfold io_device, io_fail; cbn [wDevice wHost wFaults with_device fst snd]; (split; [split; [done|]|done || idtac]);
    try (intros p Hp; cbn; by rewrite lookup_insert_ne); try (by intros _; exists mode; cbn; rewrite lookup_insert_eq); done.
Qed.

Lemma or_remove_only {A} path (a : io A) w : only_device path w (a w).2 → only_device path w (or_remove tool path a w).2 ∧
  (∀ x, (or_remove tool path a w).1 = Ok x → a w = or_remove tool path a w) ∧
  (∀ e, (or_remove tool path a w).1 = Err e → ∃ w1, (or_remove tool path a w).2 = (removeJar tool path w1).2).
Proof.
  unfold or_remove. destruct (a w) as [[x|e] w1]; cbn [fst snd]; intros Ha; [done|]. split_and!; [|done|by intros; exists w1].
  etrans; [exact Ha|]. apply removeJar_only.
Qed.

Lemma next_fault_none w : wFaults w = [] → next_fault w = (Ok Fine, w).
Proof. destruct w as [h d [|]]; [done|done]. Qed.

Lemma os_Open_spec path w :
  let '(r, w') := os_Open path w in
  wHost w' = wHost w ∧ wDevice w' = wDevice w ∧ (∀ f, r = Ok f → wHost w !! path = Some f) ∧
  (wFaults w = [] → wFaults w' = [] ∧ (is_Some (wHost w !! path) → is_ok r = true)).
Proof.
  unfold os_Open, syscall. rewrite io_bind_eq. destruct w as [h d [|f l]].
  - rewrite next_fault_none by done. unfold io_host. cbn.
    destruct (h !! path) eqn:Hf; cbn; split_and!; try done; try (by intros ? [= ->]); by intros _; split; [|intros []].
  - change (next_fault (MkWorld h d (f :: l))) with (@Ok fault f, MkWorld h d l).
    destruct f as [| |n ran e]; unfold io_host, io_fail; cbn; try (destruct (h !! path) eqn:Hf); cbn; split_and!; try done; try (by intros ? [= ->]).
Qed.

Lemma Push_fine data path mode w : wFaults w = [] →
  (Push data path mode w).1 = Ok () ∧ wFaults (Push data path mode w).2 = [].
Proof. intros Hw. unfold Push. rewrite io_bind_eq, next_fault_none by done. by destruct w. Qed.

Lemma start_session_spec line w :
  let '(r, w') := start_session line w in
  wHost w' = wHost w ∧ wDevice w' = wDevice w ∧ (∀ l, r = Ok l → l = line) ∧ (wFaults w = [] → r = Ok line).
Proof.
  unfold start_session. rewrite io_bind_eq. destruct (wFaults w) as [|f l] eqn:Hw.
  - rewrite next_fault_none by done. cbn. split_and!; try done. by intros ? [= ->].
  - destruct (next_fault_files w) as (x & l' & ->). destruct x; cbn; split_and!; try done; by intros ? [= ->].
Qed.

Lemma stageJar_spec config id w :
  let path := jar_path (acADBSerial config) id in
  let '(r, w') := stageJar tool config id w in
  only_device path w w' ∧
  match r with
  | Ok path' => path' = path ∧ ∃ jar, wHost w !! acScrcpyJar config = Some jar ∧ holds (wDevice w') path (fData jar)
  | Err _ => wDevice w' = wDevice w ∨ ∃ w1, w' = (removeJar tool path w1).2
  end ∧
  (wFaults w = [] → is_Some (wHost w !! acScrcpyJar config) → is_ok r = true ∧ wFaults w' = []).
Proof.
  intros path. unfold stageJar. rewrite io_bind_eq. pose proof (os_Open_spec (acScrcpyJar config) w) as Ho.
  destruct (os_Open (acScrcpyJar config) w) as [[jar|e] w1]; destruct Ho as (Hh & Hd & Hjar & Hf).
  2:{ split_and!; [split; [done|by rewrite Hd]|by left|]. intros Hw Hj. discriminate (proj2 (Hf Hw) Hj). }
  fold path. destruct (Push_only (fData jar) path 420 w1) as [Hp Hdata].
  pose proof (Push_fine (fData jar) path 420 w1) as Hfine.
  assert (only_device path w w1) as H1 by (split; [done|by rewrite Hd]).
  destruct (or_remove_only path (_ ← Push (fData jar) path 420; io_ret path) w1) as (H2 & Hok & Herr).
  { rewrite io_bind_eq. by destruct (Push (fData jar) path 420 w1) as [[]]. }
  assert ((_ ← Push (fData jar) path 420; io_ret path) w1 = ((match (Push (fData jar) path 420 w1).1 with Ok _ => Ok path | Err e => Err e end),
    (Push (fData jar) path 420 w1).2)) as Hb.
  { rewrite io_bind_eq. by destruct (Push (fData jar) path 420 w1) as [[]]. }
  rewrite Hb in Hok. clear Hb.
  assert (∀ e, (or_remove tool path (_ ← Push (fData jar) path 420; io_ret path) w1).1 = Err e → (Push (fData jar) path 420 w1).1 ≠ Ok ()) as Hfail.
  { intros e. unfold or_remove. rewrite io_bind_eq. by destruct (Push (fData jar) path 420 w1) as [[[]|] ?]. }
  destruct (or_remove tool path _ w1) as [r w2]. cbn [fst snd] in *. split; [by etrans|].
  destruct r as [path'|e].
  - specialize (Hok path' eq_refl). injection Hok as Hr <-.
    destruct (Push (fData jar) path 420 w1) as [[[]|] w3]; [|done]. injection Hr as <-. cbn [fst snd] in *.
    split; [split; [done|]; exists jar; split; [by apply Hjar|by apply Hdata]|]. intros Hw _. split; [done|]. by apply Hfine, Hf.
  - split; [right; by apply (Herr e)|]. intros Hw _. exfalso. by apply (Hfail e), Hfine, Hf.
Qed.

Lemma adb_Launch_spec config scid options w :
  let path := jar_path (acADBSerial config) scid in
  let '(r, w') := adb_Launch tool config scid options w in
  only_device path w w' ∧
  match r with
  | Ok (path', line) =>
      path' = path ∧ (∃ jar, wHost w !! acScrcpyJar config = Some jar ∧ holds (wDevice w') path (fData jar)) ∧
      launched line = Some (path, "exec" :: "app_process" :: captureArguments config scid options true)
  | Err _ => wDevice w' = wDevice w ∨ ∃ w1, w' = (removeJar tool path w1).2
  end ∧
  (wFaults w = [] → is_ok (AdbShell.Command "app_process" (captureArguments config scid options true)) = true →
   is_Some (wHost w !! acScrcpyJar config) → is_ok r = true).
Proof.
  intros path. unfold adb_Launch. rewrite io_bind_eq. pose proof (stageJar_spec config scid w) as Hs. fold path in Hs. cbv zeta in Hs.
  destruct (stageJar tool config scid w) as [[path'|e] w1]; destruct Hs as (H1 & Hr & Hf); [destruct Hr as [-> Hr]|].
  2:{ split_and!; [done|done|]. intros Hw _ Hj. discriminate (proj1 (Hf Hw Hj)). }
  destruct (AdbShell.Command "app_process" (captureArguments config scid options true)) as [command|e] eqn:Hc.
  2:{ split_and!; [etrans; [done|]; apply removeJar_only|right; by exists w1|done]. }
  unfold or_remove. rewrite io_bind_eq. pose proof (start_session_spec (launch_line path command) w1) as Hss.
  destruct (start_session (launch_line path command) w1) as [[line|e] w2]; destruct Hss as (Hh & Hd & Hl & Hn); cbn.
  - split_and!; [by split; [rewrite Hh; apply H1|intros p Hp; rewrite Hd; by apply H1]|done|by rewrite Hd| |done].
    rewrite (Hl line eq_refl). apply launched_line. by apply Command_shell.
  - assert (only_device path w w2) as H2 by (by split; [rewrite Hh; apply H1|intros p Hp; rewrite Hd; by apply H1]).
    split_and!; [etrans; [exact H2|]; apply removeJar_only|right; by exists w2|].
    intros Hw _ Hj. by specialize (Hn (proj2 (Hf Hw Hj))).
Qed.
End staged.

(** *** Arguments *)

Lemma plain_no_nul s : plain s → ContainsByte s "000" = false.
Proof.
  unfold plain, ContainsAny, ContainsByte. intros Hp. apply bool_decide_eq_false. intros Hin.
  assert (existsb (λ a, bool_decide (a ∈ str_bytes line_breaks)) (str_bytes s) = true) as Ht; [|congruence].
  apply existsb_exists. exists "000"%char. split; [by apply list_elem_of_In|by vm_compute].
Qed.

Lemma hex_no_nul l : ContainsByte (hex l) "000" = false.
Proof.
  unfold ContainsByte. apply bool_decide_eq_false. unfold hex. rewrite str_bytes_str. intros Hin.
  apply list_elem_of_In, in_flat_map in Hin as (a & _ & Ha). revert Ha. clear. 
  destruct a as [[] [] [] [] [] [] [] []]; vm_compute; intuition discriminate.
Qed.

Lemma ContainsByte_app s t b : ContainsByte (s +:+ t) b = ContainsByte s b || ContainsByte t b.
Proof.
  unfold ContainsByte. rewrite str_bytes_app. apply eq_true_iff_eq. rewrite orb_true_iff, !bool_decide_eq_true. apply elem_of_app.
Qed.

(** A command line can be built for what any viewer asks. *)
Lemma capture_command overflow bitrates numbers raw preview options config random cleanup :
  numbers ≡ₚ numeric → parseStreamOptions overflow bitrates numbers raw preview = Ok options →
  ContainsByte (acScrcpyVersion config) "000" = false →
  is_ok (AdbShell.Command "app_process" (captureArguments config (scid_of random) options cleanup)) = true.
Proof.
  intros Hn Ho Hv. destruct (arguments_shape _ _ _ _ _ _ Hn Ho) as (_ & _ & Hplain). unfold AdbShell.Command.
  assert (is_ok (quote_words ("app_process" :: captureArguments config (scid_of random) options cleanup)) = true) as Hq.
  { rewrite quote_words_Ok. apply negb_true_iff, not_true_iff_false. intros (x & Hx & Hc)%existsb_exists.
    apply list_elem_of_In in Hx. unfold captureArguments in Hx. rewrite app_comm_cons in Hx.
    apply elem_of_app in Hx as [Hx|Hx]; [|rewrite plain_no_nul in Hc; [done|by apply Hplain]].
    set (version := acScrcpyVersion config) in *. set (scid := scid_of random) in *.
    repeat (apply elem_of_cons in Hx as [->|Hx]); [..|by apply elem_of_nil in Hx]; clearbody version;
      try (by (clearbody scid; vm_compute in Hc)).
    - congruence.
    - rewrite ContainsByte_app in Hc. unfold scid, scid_of in Hc. by rewrite hex_no_nul in Hc.
    - destruct (soDebug options); by vm_compute in Hc.
    - destruct cleanup; by vm_compute in Hc. }
  by destruct (quote_words _).
Qed.

(** ** Properties *)

(** The diagnostics of a capture are what it printed last: after any writes, each of
    which is taken whole, the buffer is the last 64 KiB (or the limit given) of all that
    was written. *)
Theorem diagnostics_keep_tail (ws : list bytes) (limit : Z) :
  0 ≤ limit →
  let n := if limit =? 0 then captureDiagnosticsLimit else limit in
  let o := cd_writes ws (MkDiagnostics [] limit) in
  ∃ dropped, concat ws = dropped ++ cdBuffer o ∧ blen (cdBuffer o) = Z.min n (blen (concat ws)) ∧
  ∀ d, (cd_Write d o).2 = blen d.
Proof.
  intros Hl n o. assert (0 < n) as Hn by (subst n; destruct (Z.eqb_spec limit 0); [done|lia]).
  unfold o. rewrite (cd_writes_spec ws n) by first [done|unfold blen; cbn; lia]. cbn [cdBuffer app].
  exists (take (length (concat ws) - Z.to_nat n) (concat ws)). unfold last_bytes. split_and!.
  - by rewrite take_drop.
  - unfold blen. rewrite length_drop. clearbody n. lia.
  - intros d. unfold cd_Write. cbn. by repeat case_match.
Qed.


(** ** Witnesses *)

Module CaptureWitness.
Import ToyCrypto DeviceIOWitness.
Definition config : agentConfig :=
  ResolveDefaults (MkAgentConfig "serial" "" "" "wss://server" "" "" "" "" "" false).
Definition host : world := MkWorld {[ "/opt/scrcpycat/scrcpy/scrcpy-server" := MkFile (str_bytes "jar") 420 ]} ∅ [].
Definition options : streamOptions := MediaOptionsWitness.options.
Definition capture := adb_Launch toy_tool config (scid_of (str_bytes "rand")) options host.


Lemma diagnostics_keep_tail_witness : cdBuffer (cd_writes [str_bytes "abc"; str_bytes "defg"] (MkDiagnostics [] 5)) = str_bytes "cdefg".
Proof. reflexivity. Qed.
End CaptureWitness.
