(* ===== verification/CaptureStream.v ===== *)
(** * The sockets of a capture (agent/internal/agent/scrcpy.go: attachVideo and the loops
      beside it)

    The agent dials the sockets of a scrcpy server in the order the server accepts them,
    publishes the packets of the video and audio streams, writes control events and
    publishes the messages of the device.  A stream is the bytes still to be read before
    the connection ends; dialling and the agent's context are arguments. *)

From S2P Require Import Prelude GoBase GoStrings GoFloat Model Control Scrcpy MediaOptions Media.
From S2P Require DeviceIO.

(** ** Dialling *)

(** One attempt: its answer, the time since the first when it ended, whether the wait
    after it ended with the context of the dialling, and whether that of the capture had
    ended too. *)
Record dial_attempt := MkDial { daAnswer : result (); daElapsed : Duration; daDone : bool; daCancelled : bool }.

Definition dial_timeout : Duration := 10 * Second.
Definition dial_pause : Duration := Second / 10.

(** [None] when the fuel is used up. *)
Fixpoint dialSocket (kind : string) (attempts : nat → dial_attempt) (fuel : nat) : option (result ()) :=
  match fuel with
  | O => None
  | S fuel =>
      match daAnswer (attempts 0%nat) with
      | Ok _ => Some (Ok ())
      | Err e =>
          if daDone (attempts 0%nat)
          then Some (Err (if daCancelled (attempts 0%nat) then ErrMsg "context canceled"
                          else DeviceIO.wrap_error ("connect scrcpy " +:+ kind +:+ " socket: ") e))
          else dialSocket kind (λ n, attempts (S n)) fuel
      end
  end.

(** The timer and the pause between two attempts. *)
Record dial_clock (attempts : nat → dial_attempt) : Prop := {
  dc_start : 0 ≤ daElapsed (attempts 0%nat);
  dc_pause n : daElapsed (attempts n) + dial_pause ≤ daElapsed (attempts (S n));
  dc_timeout n : dial_timeout ≤ daElapsed (attempts n) → daDone (attempts n) = true;
}.

(** ** Attaching *)

Inductive attach_effect :=
| ADial (kind : string)
| AOpened (kind : string)
| ADummy
| AControl
| AWrite (data : bytes)
| AWriteControls
| AReadMessages
| AReadAudio
| APublish (packet : mediaPacket)
| ADetach
| AClose (kind : string).

(** Code that emits effects, changes the bridge and may fail. *)
Definition attach (A : Type) : Type := bridge → result A * bridge * list attach_effect.
Definition at_ret {A} (x : A) : attach A := λ b, (Ok x, b, []).
Definition at_fail {A} (e : error) : attach A := λ b, (Err e, b, []).
Definition at_bind {A B} (a : attach A) (k : A → attach B) : attach B := λ b,
  match a b with
  | (Ok x, b, t) => let '(r, b, t') := k x b in (r, b, t ++ t')
  | (Err e, b, t) => (Err e, b, t)
  end.
Definition emit (e : attach_effect) : attach () := λ b, (Ok (), b, [e]).
Definition at_ok {A} (r : result A) : attach A := match r with Ok x => at_ret x | Err e => at_fail e end.
(** [defer]: what runs when the rest has ended. *)
Definition deferred {A} (cleanup : bridge → bridge * attach_effect) (a : attach A) : attach A := λ b,
  let '(r, b, t) := a b in let '(b, e) := cleanup b in (r, b, t ++ [e]).
Definition closing {A} (kind : string) (a : attach A) : attach A := deferred (λ b, (b, AClose kind)) a.

Definition with_control (on : bool) (b : bridge) : bridge :=
  MkBridge (bgProcess b) (bgOptions b) on (bgQueue b) (bgWidth b) (bgHeight b) (bgCodec b) (bgError b).

(** What the environment answers: dialling, the end of the context when the control
    socket is set, and the bytes of the video socket; [anSame]: whether the process is
    still that of the bridge at a packet, [anBetween]: what others do to the bridge
    before it, [anOurs]: whether the control connection is still this one at the end. *)
Record attach_answers := MkAttach {
  anDial : string → result ();
  anCancelled : bool;
  anVideo : bytes;
  anSame : nat → bool;
  anBetween : nat → bridge → bridge;
  anOurs : bool;
}.

Section attach.
Context (an : attach_answers).

Definition dial (kind : string) : attach () :=
  at_bind (emit (ADial kind)) (λ _, at_bind (at_ok (anDial an kind)) (λ _, emit (AOpened kind))).

Definition setControlConn : attach () := λ b,
  if anCancelled an then (Err (ErrMsg "context canceled"), b, []) else (Ok (), with_control true b, [AControl]).
Definition clearControlConn (b : bridge) : bridge * attach_effect :=
  ((if anOurs an then with_control false b else b), ADetach).

(** The packets of the video stream; [None] when the fuel is used up. *)
Fixpoint video_loop (fuel i : nat) (stream config : bytes) (b : bridge) : option (bridge * list mediaPacket * error) :=
  match fuel with
  | O => None
  | S fuel =>
      match readScrcpyPacket stream with
      | (Err e, _) => Some (b, [], DeviceIO.wrap_error "read scrcpy H.264 packet: " e)
      | (Ok packet, rest) =>
          let '(config, b, out) := on_packet (anSame an i) packet config (anBetween an i b) in
          match video_loop fuel (S i) rest config b with
          | Some (b, published, e) => Some (b, (match out with Some p => [p] | None => [] end) ++ published, e)
          | None => None
          end
      end
  end.

(** Reading the stream once the sockets are attached. *)
Definition read_video (stream : bytes) : attach () := λ b,
  match readScrcpyDeviceName stream with
  | (Err e, _) => (Err (DeviceIO.wrap_error "read scrcpy device metadata: " e), b, [])
  | (Ok _, stream) =>
      match readScrcpyCodec stream false with
      | (Err e, _) => (Err (DeviceIO.wrap_error "read scrcpy video metadata: " e), b, [])
      | (Ok codec, stream) =>
          if negb (bool_decide (codec = "h264")) then (Err (ErrMsg ("unsupported scrcpy video codec " +:+ codec)), b, [])
          else match video_loop (S (length stream)) 0 stream [] b with
               | Some (b, published, e) => (Err e, b, map APublish published)
               | None => (Ok (), b, [])
               end
      end
  end.

Definition attach_control (options : streamOptions) (stream : bytes) : attach () :=
  at_bind (dial "control") (λ _, closing "control" (
    at_bind setControlConn (λ _, deferred clearControlConn (
      at_bind (if soPowerOff options && negb (bool_decide (soSource options = "camera"))
               then emit (AWrite [byte_of 10; byte_of 0]) else at_ret ()) (λ _,
      at_bind (emit AWriteControls) (λ _,
      at_bind (emit AReadMessages) (λ _,
      at_bind (if soAudio options then emit AReadAudio else at_ret ()) (λ _,
      read_video stream))))))) ).

Definition attachVideo (options : streamOptions) : attach () :=
  at_bind (dial "video") (λ _, closing "video" (
    match readScrcpyDummy (anVideo an) with
    | (Err e, _) => at_fail (DeviceIO.wrap_error "read scrcpy video dummy byte: " e)
    | (Ok _, stream) =>
        at_bind (emit ADummy) (λ _,
          if soAudio options
          then at_bind (dial "audio") (λ _, closing "audio" (attach_control options stream))
          else attach_control options stream)
    end)).
End attach.

(** ** The loops beside it *)

(** [readAudio]: the packets published; [None] when the fuel is used up. *)
Fixpoint audio_loop (fuel : nat) (stream : bytes) : option (list mediaPacket) :=
  match fuel with
  | O => None
  | S fuel =>
      match readScrcpyPacket stream with
      | (Err _, _) => Some []
      | (Ok packet, rest) =>
          if pktConfig packet || pktSession packet then audio_loop fuel rest else cons packet <$> audio_loop fuel rest
      end
  end.
Definition readAudio (stream : bytes) : option (list mediaPacket) :=
  match readScrcpyCodec stream false with
  | (Err _, _) => Some []
  | (Ok codec, stream) => if negb (bool_decide (codec = "opus")) then Some [] else audio_loop (S (length stream)) stream
  end.

(** [readDeviceMessages]: the texts of the clipboard that are published. *)
Fixpoint readDeviceMessages (fuel : nat) (stream : bytes) : option (list bytes) :=
  match fuel with
  | O => None
  | S fuel =>
      match readDeviceMessage stream with
      | (Err _, _) => Some []
      | (Ok message, rest) => app (match message with Some text => [text] | None => [] end) <$> readDeviceMessages fuel rest
      end
  end.

(** ** Control events *)

(** The queue of a bridge and the goroutine that empties it: [wrTaken] are the events it
    has taken, [wrOut] what it has written, [wrLive] whether it still runs. *)
Record writer := MkWriter { wrBridge : bridge; wrTaken : list (gmap string value); wrOut : bytes; wrLive : bool }.

Inductive control_event :=
| CeEnqueue (message : gmap string value)
| CeResize (width height : Z)
| CeWrite (failed : option nat).

Section controls.
Context (overflow : Z) (overflow32 : float64 → Z).

(** One turn of the loop of [writeControls]; [failed]: the connection fails after so many
    bytes. *)
Definition writeControls (failed : option nat) (w : writer) : writer :=
  let b := wrBridge w in
  match bgQueue b with
  | event :: queue =>
      if wrLive w then
        let b := MkBridge (bgProcess b) (bgOptions b) (bgControl b) queue (bgWidth b) (bgHeight b) (bgCodec b) (bgError b) in
        match encodeControlEvent overflow event with
        | Err _ => MkWriter b (wrTaken w ++ [event]) (wrOut w) true
        | Ok payload => match failed with
                        | None => MkWriter b (wrTaken w ++ [event]) (wrOut w ++ payload) true
                        | Some n => MkWriter b (wrTaken w ++ [event]) (wrOut w ++ take n payload) false
                        end
        end
      else w
  | [] => w
  end.

(** The state with the messages that were accepted, each with the event queued for it,
    and the length of the queue at each that was refused. *)
Record control_run := MkControlRun {
  crWriter : writer;
  crAccepted : list (gmap string value * gmap string value);
  crRefused : list nat;
}.

Definition on_bridge (b : bridge) (w : writer) : writer := MkWriter b (wrTaken w) (wrOut w) (wrLive w).

Definition control_step (r : control_run) (e : control_event) : control_run :=
  let w := crWriter r in
  let b := wrBridge w in
  match e with
  | CeEnqueue message =>
      match EnqueueControl overflow overflow32 message b with
      | (b', Ok _) => MkControlRun (on_bridge b' w)
                        (crAccepted r ++ map (pair message) (drop (length (bgQueue b)) (bgQueue b'))) (crRefused r)
      | (b', Err _) => MkControlRun (on_bridge b' w) (crAccepted r) (crRefused r ++ [length (bgQueue b)])
      end
  | CeResize width height =>
      MkControlRun (on_bridge (MkBridge (bgProcess b) (bgOptions b) (bgControl b) (bgQueue b) width height (bgCodec b) (bgError b)) w)
        (crAccepted r) (crRefused r)
  | CeWrite failed => MkControlRun (writeControls failed w) (crAccepted r) (crRefused r)
  end.
Definition control_runs (es : list control_event) : control_run :=
  foldl control_step (MkControlRun (MkWriter newScrcpyBridge [] [] true) [] []) es.

(** The messages of the events that can be encoded. *)
Definition encodings (events : list (gmap string value)) : list bytes :=
  omap (λ e, match encodeControlEvent overflow e with Ok m => Some m | Err _ => None end) events.
End controls.

(** ** Reference: the stream of a scrcpy server *)

Definition is_media (p : mediaPacket) : bool := negb (pktConfig p) && negb (pktSession p).

Inductive device_message :=
| DmClipboard (text : bytes)
| DmAck (sequence : Z)
| DmOther (id : Z) (data : bytes).
Definition encode_device_message (m : device_message) : bytes :=
  match m with
  | DmClipboard text => [byte_of 0] ++ be_put 4 (blen text) ++ text
  | DmAck sequence => [byte_of 1] ++ be_put 8 sequence
  | DmOther id data => [byte_of 2] ++ be_put 2 id ++ be_put 2 (blen data) ++ data
  end.
Definition device_message_wf (m : device_message) : Prop :=
  match m with
  | DmClipboard text => blen text ≤ device_message_limit
  | DmAck _ => True
  | DmOther _ data => blen data < 2 ^ 16
  end.
Definition clipboard_of (m : device_message) : option bytes := match m with DmClipboard text => Some text | _ => None end.

(** ** Lemmas *)

(** *** Dialling *)

Lemma dial_elapsed attempts n : dial_clock attempts → Z.of_nat n * dial_pause ≤ daElapsed (attempts n).
Proof.
  intros [H0 Hp _]. induction n as [|n IH]; [cbn; lia|]. specialize (Hp n). rewrite Nat2Z.inj_succ. lia.
Qed.

Lemma dial_done kind fuel : ∀ attempts,
  is_Some (dialSocket kind attempts fuel) ∨ ∀ k, (k < fuel)%nat → daDone (attempts k) = false.
Proof.
  induction fuel as [|fuel IH]; intros attempts; [right; lia|]. cbn [dialSocket].
  destruct (daAnswer (attempts 0%nat)); [left; eauto|]. destruct (daDone (attempts 0%nat)) eqn:Hd; [left; eauto|].
  destruct (IH (λ n, attempts (S n))) as [?|Hn]; [by left|right]. intros [|k] Hk; [done|]. apply Hn. lia.
Qed.

(** A hundred pauses of a tenth of a second fill the ten seconds. *)
Lemma dial_returns kind attempts : dial_clock attempts → is_Some (dialSocket kind attempts 101).
Proof.
  intros Hc. destruct (dial_done kind 101 attempts) as [?|Hn]; [done|]. exfalso.
  pose proof (dial_elapsed attempts 100 Hc) as He. pose proof (dc_timeout _ Hc 100%nat) as Ht.
  rewrite Hn in Ht by lia. enough (dial_timeout ≤ daElapsed (attempts 100%nat)) as H0 by (by specialize (Ht H0)).
  etrans; [|exact He]. by vm_compute.
Qed.

(** *** Streams *)

Lemma ReadFull_shorter n stream l rest : (0 < n)%nat → ReadFull n stream = (Ok l, rest) → (length rest < length stream)%nat.
Proof. intros Hn [-> Hl]%ReadFull_Ok. rewrite length_app. lia. Qed.
Lemma ReadFull_not_longer n stream r rest : ReadFull n stream = (r, rest) → (length rest ≤ length stream)%nat.
Proof.
  unfold ReadFull. destruct (Nat.leb_spec n (length stream)); intros [= <- <-]; [rewrite length_drop|cbn]; lia.
Qed.

Lemma readScrcpyPacket_shorter stream p rest : readScrcpyPacket stream = (Ok p, rest) → (length rest < length stream)%nat.
Proof.
  unfold readScrcpyPacket. destruct (ReadFull scrcpyPacketHeaderSize stream) as [[header|e] rest1] eqn:Eh; [|done].
  apply ReadFull_shorter in Eh; [|by vm_compute; lia]. case_match; [by intros [= _ <-]|]. case_match; [done|].
  destruct (ReadFull _ rest1) as [[data|e] rest2] eqn:Ed; [|done]. intros [= _ <-]. apply ReadFull_not_longer in Ed. lia.
Qed.

Lemma readDeviceMessage_shorter stream m rest : readDeviceMessage stream = (Ok m, rest) → (length rest < length stream)%nat.
Proof.
  unfold readDeviceMessage. destruct (ReadFull 1 stream) as [[kind|e] rest1] eqn:Ek; [|done]. apply ReadFull_shorter in Ek; [|lia].
  repeat (case_match; try done); intros [= _ <-]; repeat match goal with H : ReadFull _ _ = _ |- _ => apply ReadFull_not_longer in H end; lia.
Qed.

Lemma video_loop_total an fuel : ∀ i stream config b, (length stream < fuel)%nat → is_Some (video_loop an fuel i stream config b).
Proof.
  induction fuel as [|fuel IH]; intros i stream config b Hl; [lia|]. cbn [video_loop].
  destruct (readScrcpyPacket stream) as [[p|e] rest] eqn:Er; [|eauto]. apply readScrcpyPacket_shorter in Er.
  destruct (on_packet _ p config _) as [[config' b'] out].
  destruct (IH (S i) rest config' b' ltac:(lia)) as [[[b2 ps] e] ->]. eauto.
Qed.
Lemma audio_loop_total fuel : ∀ stream, (length stream < fuel)%nat → is_Some (audio_loop fuel stream).
Proof.
  induction fuel as [|fuel IH]; intros stream Hl; [lia|]. cbn [audio_loop].
  destruct (readScrcpyPacket stream) as [[p|e] rest] eqn:Er; [|eauto]. apply readScrcpyPacket_shorter in Er.
  destruct (IH rest ltac:(lia)) as [ps ->]. case_match; eauto.
Qed.
Lemma readDeviceMessages_total fuel : ∀ stream, (length stream < fuel)%nat → is_Some (readDeviceMessages fuel stream).
Proof.
  induction fuel as [|fuel IH]; intros stream Hl; [lia|]. cbn [readDeviceMessages].
  destruct (readDeviceMessage stream) as [[m|e] rest] eqn:Er; [|eauto]. apply readDeviceMessage_shorter in Er.
  destruct (IH rest ltac:(lia)) as [ps ->]. eauto.
Qed.

(** *** The video stream *)

Definition media_count (ps : list mediaPacket) : nat := length (List.filter is_media ps).
(** The codec configuration in force after some packets. *)
Definition config_from (config : bytes) (ps : list mediaPacket) : bytes :=
  foldl (λ config p, if pktConfig p then pktData p else config) config ps.

(** What is published for a packet when [config] is in force. *)
Record shown (config : bytes) (p q : mediaPacket) : Prop := {
  sh_time : pktPTS q = pktPTS p;
  sh_key : pktKeyFrame q = pktKeyFrame p;
  sh_data : pktData q = pktData p ∨ pktKeyFrame p = true ∧ pktData q = config ++ pktData p;
  sh_config : pktKeyFrame p = true → ∃ rest, pktData q = config ++ rest;
}.

Record published_all (config : bytes) (ps qs : list mediaPacket) : Prop := {
  pb_length : length qs = media_count ps;
  pb_each before p after : ps = before ++ p :: after → is_media p = true →
    ∃ q, qs !! media_count before = Some q ∧ shown (config_from config before) p q;
}.

Lemma on_packet_media same p config b : is_media p = true →
  ∃ q, on_packet same p config b = (config, b, Some q) ∧ shown config p q.
Proof.
  unfold is_media, on_packet. intros [->%negb_true_iff ->%negb_true_iff]%andb_true_iff. eexists. split; [reflexivity|].
  destruct (pktKeyFrame p && negb (bool_decide (config = [])) && negb (bool_decide (take (length config) (pktData p) = config))) eqn:Hc.
  - apply andb_true_iff in Hc as [[Hk _]%andb_true_iff _]. split; cbn; try done; [by right|]. by eexists.
  - split; cbn; try done; [by left|]. intros Hk. rewrite Hk in Hc. cbn in Hc.
    apply andb_false_iff in Hc as [Hc|Hc]; apply negb_false_iff, bool_decide_eq_true in Hc.
    + subst config. by eexists.
    + exists (drop (length config) (pktData p)). rewrite <-Hc at 1. by rewrite take_drop.
Qed.
Lemma on_packet_other same p config b : is_media p = false →
  ∃ b', on_packet same p config b = (if pktConfig p then pktData p else config, b', None).
Proof.
  unfold is_media, on_packet. destruct (pktConfig p); [by eexists|]. destruct (pktSession p); [by eexists|done].
Qed.

Lemma published_nil config : published_all config [] [].
Proof. split; [done|]. by intros [|? ?]. Qed.
Lemma published_media config p q ps qs : is_media p = true → pktConfig p = false → shown config p q →
  published_all config ps qs → published_all config (p :: ps) (q :: qs).
Proof.
  intros Hm Hc Hs [Hl He]. split.
  - unfold media_count in *. cbn [List.filter]. rewrite Hm. cbn. by f_equal.
  - intros [|p0 before] p' after [= <- ->] Hp.
    + by exists q.
    + destruct (He _ _ _ eq_refl Hp) as (q' & Hq & Hsh). exists q'. unfold media_count in *. cbn [List.filter config_from foldl].
      rewrite Hm, Hc. by split.
Qed.
Lemma published_other config p ps qs : is_media p = false →
  published_all (if pktConfig p then pktData p else config) ps qs → published_all config (p :: ps) qs.
Proof.
  intros Hm [Hl He]. split.
  - unfold media_count in *. cbn [List.filter]. by rewrite Hm.
  - intros [|p0 before] p' after [= <- ->] Hp; [congruence|].
    destruct (He _ _ _ eq_refl Hp) as (q' & Hq & Hsh). exists q'. unfold media_count in *. cbn [List.filter]. by rewrite Hm.
Qed.

Lemma video_loop_packets an ps tail e rest : Forall packet_wf ps → readScrcpyPacket tail = (Err e, rest) →
  ∀ fuel i config b, (length (concat (map encode_packet ps) ++ tail) < fuel)%nat →
  ∃ b' qs, video_loop an fuel i (concat (map encode_packet ps) ++ tail) config b =
             Some (b', qs, DeviceIO.wrap_error "read scrcpy H.264 packet: " e) ∧ published_all config ps qs.
Proof.
  intros Hps Ht. induction Hps as [|p ps Hp _ IH]; intros fuel i config b Hf; destruct fuel as [|fuel]; [lia| |lia|].
  - cbn [map concat app video_loop]. rewrite Ht. do 2 eexists. split; [done|apply published_nil].
  - cbn [map concat video_loop] in *. rewrite <-app_assoc in *. pose proof (encode_read p (concat (map encode_packet ps) ++ tail) Hp) as Hr.
    rewrite Hr. apply readScrcpyPacket_shorter in Hr. destruct (is_media p) eqn:Hm.
    + destruct (on_packet_media (anSame an i) p config (anBetween an i b) Hm) as (q & -> & Hq).
      destruct (IH fuel (S i) config (anBetween an i b) ltac:(lia)) as (b' & qs & -> & Hqs). do 2 eexists. split; [reflexivity|].
      apply published_media; try done. unfold is_media in Hm. apply andb_true_iff in Hm as [Hm _]. by apply negb_true_iff.
    + destruct (on_packet_other (anSame an i) p config (anBetween an i b) Hm) as (b1 & ->).
      destruct (IH fuel (S i) (if pktConfig p then pktData p else config) b1 ltac:(lia)) as (b' & qs & -> & Hqs).
      do 2 eexists. split; [reflexivity|]. by apply published_other.
Qed.

(** *** The audio stream and the messages of the device *)

Lemma audio_loop_packets ps tail e rest : Forall packet_wf ps → readScrcpyPacket tail = (Err e, rest) →
  ∀ fuel, (length (concat (map encode_packet ps) ++ tail) < fuel)%nat →
  audio_loop fuel (concat (map encode_packet ps) ++ tail) = Some (List.filter is_media ps).
Proof.
  intros Hps Ht. induction Hps as [|p ps Hp _ IH]; intros fuel Hf; (destruct fuel as [|fuel]; [lia|]).
  - cbn [map concat app audio_loop]. by rewrite Ht.
  - cbn [map concat audio_loop List.filter] in *. rewrite <-app_assoc in *.
    pose proof (encode_read p (concat (map encode_packet ps) ++ tail) Hp) as Hr. rewrite Hr. apply readScrcpyPacket_shorter in Hr.
    rewrite IH by lia. unfold is_media. by destruct (pktConfig p), (pktSession p).
Qed.

Lemma readDeviceMessage_encoded m rest : device_message_wf m →
  readDeviceMessage (encode_device_message m ++ rest) = (Ok (clipboard_of m), rest).
Proof.
  assert (∀ l, 0 ≤ blen l) as H0 by (unfold blen; lia).
  destruct m as [text|sequence|id data]; cbn [device_message_wf encode_device_message clipboard_of] in *; intros Hw;
    unfold readDeviceMessage; rewrite <-!app_assoc, (ReadFull_app' 1) by done; cbn [nth].
  - change (byte_val (byte_of 0)) with 0. cbn match. rewrite (ReadFull_app' 4) by (by rewrite length_be_put).
    specialize (H0 text). rewrite be_get_put4 by (change device_message_limit with 262139 in Hw; lia).
    rewrite (proj2 (Z.ltb_ge _ _)) by done. by rewrite (ReadFull_app' (Z.to_nat (blen text))) by (unfold blen; lia).
  - change (byte_val (byte_of 1)) with 1. cbn match. by rewrite (ReadFull_app' 8) by (by rewrite length_be_put).
  - change (byte_val (byte_of 2)) with 2. cbn match. rewrite (app_assoc (be_put 2 id)).
    rewrite (ReadFull_app' 4) by (by rewrite length_app, !length_be_put).
    rewrite drop_app_length' by (by rewrite length_be_put).
    specialize (H0 data). rewrite be_get_put_small by (cbn; lia). by rewrite (ReadFull_app' (Z.to_nat (blen data))) by (unfold blen; lia).
Qed.

Lemma device_messages_read ms tail e rest : Forall device_message_wf ms → readDeviceMessage tail = (Err e, rest) →
  ∀ fuel, (length (concat (map encode_device_message ms) ++ tail) < fuel)%nat →
  readDeviceMessages fuel (concat (map encode_device_message ms) ++ tail) = Some (omap clipboard_of ms).
Proof.
  intros Hms Ht. induction Hms as [|m ms Hm _ IH]; intros fuel Hf; (destruct fuel as [|fuel]; [lia|]).
  - cbn [map concat app readDeviceMessages]. by rewrite Ht.
  - cbn [map concat readDeviceMessages omap list_omap] in *. rewrite <-app_assoc in *.
    pose proof (readDeviceMessage_encoded m (concat (map encode_device_message ms) ++ tail) Hm) as Hr.
    rewrite Hr. apply readDeviceMessage_shorter in Hr. rewrite IH by lia. by destruct (clipboard_of m).
Qed.

(** *** Attaching *)

(** What attaching does when nothing fails, and what undoes it. *)
Definition steps (options : streamOptions) : list attach_effect :=
  [ADial "video"; AOpened "video"; ADummy] ++
  (if soAudio options then [ADial "audio"; AOpened "audio"] else []) ++
  [ADial "control"; AOpened "control"; AControl] ++
  (if soPowerOff options && negb (bool_decide (soSource options = "camera")) then [AWrite [byte_of 10; byte_of 0]] else []) ++
  [AWriteControls; AReadMessages] ++
  (if soAudio options then [AReadAudio] else []).
Definition undoes (e : attach_effect) : option attach_effect :=
  match e with AOpened kind => Some (AClose kind) | AControl => Some ADetach | _ => None end.
Definition undo (taken : list attach_effect) : list attach_effect := omap undoes (reverse taken).

(** A whole attempt: [n] of the steps, the packets published, the cleanup. *)
Definition attempt (options : streamOptions) (n : nat) (ps : list mediaPacket) : list attach_effect :=
  take n (steps options) ++ map APublish ps ++ undo (take n (steps options)).

Lemma read_video_ends an stream b : ∃ e b' ps, read_video an stream b = (Err e, b', map APublish ps).
Proof.
  unfold read_video. destruct (readScrcpyDeviceName stream) as [[name|e] rest]; [|by eexists _, _, []].
  destruct (readScrcpyCodec rest false) as [[codec|e] rest']; [|by eexists _, _, []].
  case_match; [by eexists _, _, []|]. destruct (video_loop_total an (S (length rest')) 0 rest' [] b ltac:(lia)) as [[[b' ps] e] ->].
  by eexists _, _, ps.
Qed.

Lemma dial_ok an kind b : anDial an kind = Ok () → dial an kind b = (Ok (), b, [ADial kind; AOpened kind]).
Proof. intros H. unfold dial, at_bind, at_ok, emit. by rewrite H. Qed.
Lemma dial_err an kind e b : anDial an kind = Err e → dial an kind b = (Err e, b, [ADial kind]).
Proof. intros H. unfold dial, at_bind, at_ok, emit. by rewrite H. Qed.

Ltac run_attach := repeat first
  [ erewrite dial_ok by eassumption | erewrite dial_err by eassumption
  | match goal with H : _ = _ |- _ => rewrite H end ].

(** With every socket accepted, attaching runs all the steps and ends as the reader does. *)
Lemma attachVideo_attached an options b stream ps e b' :
  anDial an "video" = Ok () → (soAudio options = true → anDial an "audio" = Ok ()) → anDial an "control" = Ok () →
  anCancelled an = false → readScrcpyDummy (anVideo an) = (Ok (), stream) →
  read_video an stream (with_control true b) = (Err e, b', map APublish ps) →
  attachVideo an options b =
    (Err e, if anOurs an then with_control false b' else b', attempt options (length (steps options)) ps).
Proof.
  intros Hv Ha Hk Hc Hs Hr. unfold attempt. rewrite take_ge by done.
  unfold attachVideo, attach_control, setControlConn, at_bind, closing, deferred, steps, undo, emit, at_ret, clearControlConn.
  destruct (soAudio options); [specialize (Ha eq_refl)|];
    destruct (soPowerOff options && negb (bool_decide (soSource options = "camera"))); run_attach;
    destruct (anOurs an); cbn; by rewrite <-?app_assoc.
Qed.

(** Ended after [n] steps, before anything was published. *)
Ltac attach_stops Hend n := eapply (Hend n); [unfold steps; run_attach; cbn; set_solver|];
  unfold attachVideo, attach_control, setControlConn, at_bind, closing, deferred, emit, attempt, steps; by run_attach.

(** Every way an attempt can end. *)
Lemma attachVideo_ends an options b :
  ∃ e b' n ps, attachVideo an options b = (Err e, b', attempt options n ps) ∧
    (ps ≠ [] → n = length (steps options)) ∧
    (AControl ∈ take n (steps options) → anOurs an = true → bgControl b' = false).
Proof.
  assert (∀ n e, AControl ∉ take n (steps options) → attachVideo an options b = (Err e, b, attempt options n []) →
    ∃ e b' n ps, attachVideo an options b = (Err e, b', attempt options n ps) ∧
    (ps ≠ [] → n = length (steps options)) ∧
    (AControl ∈ take n (steps options) → anOurs an = true → bgControl b' = false)) as Hend by (intros n e; by exists e, b, n, []).
  destruct (anDial an "video") as [[]|e] eqn:Hv; [|attach_stops Hend 1%nat].
  destruct (readScrcpyDummy (anVideo an)) as [[[]|e] stream] eqn:Hs; [|attach_stops Hend 2%nat].
  destruct (soAudio options) eqn:Hsa; [destruct (anDial an "audio") as [[]|e] eqn:Ha; [|attach_stops Hend 4%nat]|];
    (destruct (anDial an "control") as [[]|e] eqn:Hk; [|first [attach_stops Hend 6%nat|attach_stops Hend 4%nat]]);
    (destruct (anCancelled an) eqn:Hc; [first [attach_stops Hend 7%nat|attach_stops Hend 5%nat]|]);
    destruct (read_video_ends an stream (with_control true b)) as (e & b' & ps & Hr);
    eexists e, _, (length (steps options)), ps;
    (split_and!; [by eapply attachVideo_attached; rewrite ?Hsa|done|by intros _ ->]).
Qed.

(** *** Control events *)

Section controls.
Context (overflow : Z) (overflow32 : float64 → Z).
Local Abbreviation enc := (encodings overflow).

(** Accepted messages are queued, at most with another position. *)
Definition queued_for (p : gmap string value * gmap string value) : Prop :=
  ∀ key, key ∉ ["x"; "y"; "w"; "h"] → p.2 !! key = p.1 !! key.

Lemma remap_others event width height key : key ∉ ["x"; "y"; "w"; "h"] →
  remapControlPosition overflow overflow32 event width height !! key = event !! key.
Proof.
  intros Hk. unfold remapControlPosition. repeat case_match; try done. rewrite !lookup_insert_ne; set_solver.
Qed.

(** What the writer has sent of the events it has taken. *)
Definition sent (w : writer) : Prop :=
  wrOut w `prefix_of` concat (enc (wrTaken w)) ∧ (wrLive w = true → wrOut w = concat (enc (wrTaken w))).

Record controls_inv (r : control_run) : Prop := {
  ci_order : (crAccepted r).*2 = wrTaken (crWriter r) ++ bgQueue (wrBridge (crWriter r));
  ci_queued : Forall queued_for (crAccepted r);
  ci_capacity : (length (bgQueue (wrBridge (crWriter r))) ≤ queue_capacity)%nat;
  ci_refused : Forall (eq queue_capacity) (crRefused r);
  ci_sent : sent (crWriter r);
}.

Lemma encodings_app l l' : enc (l ++ l') = enc l ++ enc l'.
Proof. apply omap_app. Qed.

Lemma encodings_events l : ∃ events, Forall2 (λ e m, encodeControlEvent overflow e = Ok m) events (enc l).
Proof.
  induction l as [|e l [events IH]]; [by exists []|]. unfold encodings in *. cbn.
  destruct (encodeControlEvent overflow e) as [m|] eqn:He; cbn; [exists (e :: events); by constructor|by exists events].
Qed.

Lemma writeControls_sent failed w : sent w → sent (writeControls overflow failed w).
Proof.
  intros [Hp Hs]. unfold writeControls, sent. destruct (bgQueue (wrBridge w)) as [|event queue]; [done|].
  destruct (wrLive w) eqn:Hl; [|by rewrite Hl]. specialize (Hs eq_refl). clear Hp.
  destruct (encodeControlEvent overflow event) as [payload|e] eqn:He; [destruct failed as [n|]|];
    cbn [wrOut wrTaken wrLive]; rewrite encodings_app, concat_app, <-Hs; unfold encodings; cbn; rewrite He; cbn; rewrite app_nil_r.
  - split; [|done]. apply prefix_app. exists (drop n payload). by rewrite take_drop.
  - done.
  - done.
Qed.

Lemma writeControls_order failed w :
  wrTaken (writeControls overflow failed w) ++ bgQueue (wrBridge (writeControls overflow failed w)) = wrTaken w ++ bgQueue (wrBridge w) ∧
  (length (bgQueue (wrBridge (writeControls overflow failed w))) ≤ length (bgQueue (wrBridge w)))%nat.
Proof.
  unfold writeControls. destruct (bgQueue (wrBridge w)) as [|event queue] eqn:Hq; [by rewrite Hq|].
  destruct (wrLive w); [|by rewrite Hq]. repeat case_match; cbn; rewrite <-app_assoc; split; (done || lia).
Qed.

Lemma control_step_inv r e : controls_inv r → controls_inv (control_step overflow overflow32 r e).
Proof.
  intros [H1 H2 H3 H4 H5]. destruct e as [message|width height|failed]; cbn [control_step].
  - unfold EnqueueControl. set (b := wrBridge (crWriter r)) in *.
    set (event := if (0 <? bgWidth b) && (0 <? bgHeight b) then _ else _).
    assert (queued_for (message, event)) as Hev.
    { intros key Hk. unfold event. case_match; [|done]. by apply remap_others. }
    clearbody event.
    destruct (length (bgQueue b) <? queue_capacity)%nat eqn:Hq; split; cbn; rewrite ?drop_app_length; try done.
    + by rewrite fmap_app, H1, <-app_assoc.
    + apply Forall_app. split; [done|]. by apply Forall_singleton.
    + rewrite length_app. cbn. apply Nat.ltb_lt in Hq. lia.
    + apply Forall_app. split; [done|]. apply Forall_singleton. apply Nat.ltb_ge in Hq. lia.
  - by split.
  - pose proof (writeControls_order failed (crWriter r)) as [Ho Hl]. split; cbn; try done; [congruence|lia|by apply writeControls_sent].
Qed.

Lemma control_runs_inv es : controls_inv (control_runs overflow overflow32 es).
Proof.
  unfold control_runs. apply foldl_inv; [intros; by apply control_step_inv|].
  split; cbn; try done; try constructor; try done. apply Nat.le_0_l.
Qed.
End controls.

(** ** Properties *)

(** C21: The sockets of a capture are attached in the order the scrcpy server accepts them,
    whatever each of them answers: video first, audio only when it was asked for and after
    the dummy byte of the video socket, then control; the control connection is set before
    any event is written or any frame is published; an attempt always ends with an error,
    after a prefix of these steps, and then undoes exactly the steps it took, the last
    first, so no socket stays open and the bridge keeps no control connection.  Dialling a
    socket ends after at most 101 attempts. *)
Theorem attach_order an options b :
  (∃ e b' n ps, attachVideo an options b =
     (Err e, b', take n (steps options) ++ map APublish ps ++ undo (take n (steps options))) ∧
     (ps ≠ [] → n = length (steps options)) ∧
     (AControl ∈ take n (steps options) → anOurs an = true → bgControl b' = false)) ∧
  (∀ kind attempts, dial_clock attempts → is_Some (dialSocket kind attempts 101)).
Proof. split; [apply attachVideo_ends|apply dial_returns]. Qed.

(** C22: The agent publishes the stream the scrcpy server writes: when the sockets are
    accepted and the video socket carries the dummy byte, a device name of 64 bytes, the
    codec h264, any packets and then bytes that are no packet, exactly the media packets are
    published, in order, each with its time and payload, a key frame starting with the
    codec configuration in force when it was sent; configurations and resizes are not
    published; and the attempt ends with the error of the reader, all steps undone.  The
    audio socket publishes its media packets unchanged, and the control socket the text of
    every clipboard message of the device, whatever other messages come between. *)
Theorem stream_published an options b dummy name ps tail e rest :
  anDial an "video" = Ok () → (soAudio options = true → anDial an "audio" = Ok ()) → anDial an "control" = Ok () →
  anCancelled an = false → length name = 64%nat → Forall packet_wf ps → readScrcpyPacket tail = (Err e, rest) →
  anVideo an = dummy :: name ++ str_bytes "h264" ++ concat (map encode_packet ps) ++ tail →
  ∃ b' qs, attachVideo an options b =
    (Err (DeviceIO.wrap_error "read scrcpy H.264 packet: " e), b', steps options ++ map APublish qs ++ undo (steps options)) ∧
    published_all [] ps qs ∧
    readAudio (str_bytes "opus" ++ concat (map encode_packet ps) ++ tail) = Some (List.filter is_media ps) ∧
    (∀ ms tail e rest (stream := concat (map encode_device_message ms) ++ tail),
       Forall device_message_wf ms → readDeviceMessage tail = (Err e, rest) →
       readDeviceMessages (S (length stream)) stream = Some (omap clipboard_of ms)).
Proof.
  intros Hv Ha Hk Hc Hn Hps Ht Hs. set (stream := concat (map encode_packet ps) ++ tail) in *.
  assert (readScrcpyDummy (anVideo an) = (Ok (), name ++ str_bytes "h264" ++ stream)) as Hd.
  { rewrite Hs. unfold readScrcpyDummy. by rewrite (ReadFull_app [dummy] _ : ReadFull 1 (dummy :: _) = _). }
  destruct (video_loop_packets an ps tail e rest Hps Ht (S (length stream)) 0 [] (with_control true b) ltac:(unfold stream; lia))
    as (b' & qs & Hl & Hqs).
  assert (read_video an (name ++ str_bytes "h264" ++ stream) (with_control true b) =
    (Err (DeviceIO.wrap_error "read scrcpy H.264 packet: " e), b', map APublish qs)) as Hr.
  { unfold read_video, readScrcpyDeviceName, readScrcpyCodec. change scrcpyDeviceNameSize with 64%nat.
    rewrite <-Hn, ReadFull_app. change 4%nat with (length (str_bytes "h264")). rewrite ReadFull_app.
    rewrite bytes_str_bytes. cbn [negb]. rewrite bool_decide_eq_true_2 by done. fold stream in Hl. by rewrite Hl. }
  eexists _, qs. split_and!; [|done| |].
  - rewrite (attachVideo_attached _ _ _ _ _ _ _ Hv Ha Hk Hc Hd Hr). unfold attempt. by rewrite take_ge.
  - unfold readAudio, readScrcpyCodec. rewrite (ReadFull_app' 4) by done. rewrite bytes_str_bytes, bool_decide_eq_true_2 by done.
    cbn [negb]. apply (audio_loop_packets ps tail e rest Hps Ht). apply Nat.lt_succ_diag_r.
  - intros ms tail' e' rest' stream' Hms Ht'. apply (device_messages_read ms tail' e' rest' Hms Ht'). apply Nat.lt_succ_diag_r.
Qed.

(** C20: Control events reach the device in the order they were accepted.  Whatever is
    enqueued, resized and written, in any interleaving: the events of the accepted messages
    are the ones taken by the writer followed by those that wait, each equal to its message
    but for a position; at most 256 wait, and a message is refused only when 256 do; what
    was written is the start of the messages of the events taken, all of them while the
    connection lives, and a reader that knows only the length of each message type reads
    them back one by one; and a message a browser may send never becomes a bitrate change
    or a key-frame request. *)
Theorem controls_in_order overflow overflow32 es :
  let r := control_runs overflow overflow32 es in
  let w := crWriter r in
  let messages := encodings overflow (wrTaken w) in
  (crAccepted r).*2 = wrTaken w ++ bgQueue (wrBridge w) ∧
  (∀ p key, p ∈ crAccepted r → key ∉ ["x"; "y"; "w"; "h"] → p.2 !! key = p.1 !! key) ∧
  (length (bgQueue (wrBridge w)) ≤ 256)%nat ∧ (∀ n, n ∈ crRefused r → n = 256%nat) ∧
  wrOut w `prefix_of` concat messages ∧
  (wrLive w = true → ∀ rest, read_messages (length messages) (wrOut w ++ rest) = Some (messages, rest)) ∧
  (∀ p m, p ∈ crAccepted r → browserControlAllowed p.1 = true → encodeControlEvent overflow p.2 = Ok m →
     ∃ t l, m = t :: l ∧ byte_val t ≠ 23 ∧ byte_val t ≠ 24).
Proof.
  intros r w messages. destruct (control_runs_inv overflow overflow32 es) as [H1 H2 H3 H4 [H5 H6]]. fold r w in H1, H2, H3, H4, H5, H6.
  rewrite Forall_forall in H2. rewrite Forall_forall in H4. split_and!; try done.
  - intros p key Hp. by apply H2.
  - intros n Hn. symmetry. by apply H4.
  - intros Hl rest. rewrite (H6 Hl). destruct (encodings_events overflow (wrTaken w)) as [events He].
    by apply (messages_framed overflow events).
  - intros p m Hp Ha He. apply (browser_message_type overflow p.2); [|done]. unfold browserControlAllowed, stringField in *.
    by rewrite (H2 p Hp "type") by set_solver.
Qed.

(** ** Witnesses *)

Module CaptureStreamWitness.
Definition options : streamOptions := MediaOptionsWitness.options.
Definition packet (key config : bool) (data : string) : mediaPacket :=
  {| pktPTS := 1000; pktKeyFrame := key; pktConfig := config; pktSession := false; pktWidth := 0;
     pktHeight := 0; pktClientResized := false; pktData := str_bytes data |}.
Definition packets : list mediaPacket :=
  [packet false true "sps"; ScrcpyWitness.session; packet true false "key"; packet false false "delta"].
Definition name : bytes := padded 64 (str_bytes "Pixel").
Definition answers : attach_answers :=
  MkAttach (λ _, Ok ()) false
    (byte_of 0 :: name ++ str_bytes "h264" ++ concat (map encode_packet packets) ++ []) (λ _, true) (λ _ b, b) true.
Definition no_packet : error := ErrMsg "EOF".

Lemma stream_published_witness : ∃ b' qs,
  attachVideo answers options newScrcpyBridge =
    (Err (DeviceIO.wrap_error "read scrcpy H.264 packet: " no_packet), b', steps options ++ map APublish qs ++ undo (steps options)) ∧
  published_all [] packets qs.
Proof.
  destruct (stream_published answers options newScrcpyBridge (byte_of 0) name packets [] no_packet []
    eq_refl (λ _, eq_refl) eq_refl eq_refl) as (b' & qs & Ha & Hq & _).
  - reflexivity.
  - repeat constructor; vm_compute; try done; intuition discriminate.
  - reflexivity.
  - reflexivity.
  - exists b', qs. split; [exact Ha|exact Hq].
Defined.

(** The frames of that stream, and the order of its sockets. *)
Example frames_published :
  omap (λ e, match e with APublish p => Some (bytes_str (pktData p)) | _ => None end) (attachVideo answers options newScrcpyBridge).2
  = ["spskey"; "delta"].
Proof. by vm_compute. Qed.

(** A control socket that is refused: the sockets before it are closed, the last first. *)
Example control_refused :
  (attachVideo (MkAttach (λ k, if bool_decide (k = "control") then Err (ErrMsg "refused") else Ok ()) false (anVideo answers)
    (λ _, true) (λ _ b, b) true) options newScrcpyBridge).2
  = [ADial "video"; AOpened "video"; ADummy; ADial "audio"; AOpened "audio"; ADial "control"; AClose "audio"; AClose "video"].
Proof. by vm_compute. Qed.

Definition tap : gmap string value :=
  {[ "type" := VStr "touch"; "action" := VInt 0; "x" := VInt 10; "y" := VInt 20;
     "w" := VInt 100; "h" := VInt 200; "id" := VInt (-1) ]}.
Definition paste : gmap string value := {[ "type" := VStr "inject_text"; "text" := VStr "hi" ]}.
Definition run : control_run :=
  control_runs 0 (λ _, 0) [CeEnqueue paste; CeResize 1080 1920; CeEnqueue tap; CeWrite None; CeWrite None; CeEnqueue paste].

(** Two messages are read back, the tap at its place on the screen, and one waits. *)
Lemma controls_in_order_witness : ∃ messages, messages = encodings 0 (wrTaken (crWriter run)) ∧ length messages = 2%nat ∧
  read_messages 2 (wrOut (crWriter run) ++ []) = Some (messages, []) ∧
  length (bgQueue (wrBridge (crWriter run))) = 1%nat.
Proof.
  destruct (controls_in_order 0 (λ _, 0) [CeEnqueue paste; CeResize 1080 1920; CeEnqueue tap; CeWrite None; CeWrite None; CeEnqueue paste])
    as (_ & _ & _ & _ & _ & Hr & _).
  eexists. split; [reflexivity|]. split; [by vm_compute|]. split; [|by vm_compute].
  exact (Hr ltac:(by vm_compute) []).
Defined.
End CaptureStreamWitness.
