(* ===== verification/CaptureLife.v ===== *)
(** * The supervision of a capture (agent/internal/agent/scrcpy.go, h264.go)

    A bridge starts, stops and replaces its scrcpy process while the goroutines of earlier
    processes still run: each process has one that reads its stream and one that waits for
    its end, and either may report that the capture failed.  Here the operations of Media
    and the steps of those goroutines interleave; processes are numbered in the order of
    their launches. *)

From S2P Require Import Prelude GoBase GoStrings GoFloat Model Control Scrcpy MediaOptions Media.
From S2P Require WebRTC.

(** [lfCurrent]: the process of the bridge; [lfReady]: whether [videoReady] is open;
    [lfParent]: whether the context of the agent has ended; [lfPending]: failures whose
    goroutine has seen that its context is alive, and waits for the lock; [lfReported] and
    [lfConfigs]: the failures published and the codec configurations read so far. *)
Record life := MkLife {
  lfBridge : bridge;
  lfCurrent : option nat;
  lfNext : nat;
  lfReady : bool;
  lfParent : bool;
  lfPending : list (nat * bool * error);
  lfReported : list nat;
  lfConfigs : list (nat * bytes);
}.

Definition new_life : life := MkLife newScrcpyBridge None O false false [] [] [].

(** [LeEnded]: the stream or, when [stopped], the process [id] has ended; [late]: its
    context is cancelled only after it was looked at.  [LeReport]: the [n]th of the
    pending failures takes the lock.  [LePacket]: a packet the reader of [id] has read
    takes the lock. *)
Inductive life_event :=
| LeStart (ad : device_answers) (options : streamOptions)
| LeStop (ad : device_answers)
| LeParentDone
| LeEnded (id : nat) (stopped : bool) (err : option error) (late : bool)
| LeReport (ad : device_answers) (n : nat)
| LePacket (id : nat) (packet : mediaPacket).

Definition is_launch (c : call) : bool := match c with CLaunch _ => true | _ => false end.
Definition is_current (id : nat) (l : life) : bool := bool_decide (lfCurrent l = Some id).

(** What starting and stopping do to the fields that are not in [bridge]. *)
Definition life_start (ad : device_answers) (options : streamOptions) (l : life) : life :=
  let '(b, calls, r) := Start ad options (lfBridge l) in
  if existsb is_launch calls && is_ok r
  then MkLife b (Some (lfNext l)) (S (lfNext l)) true (lfParent l) (lfPending l) (lfReported l) (lfConfigs l)
  else if bgRunning b
  then MkLife b (lfCurrent l) (lfNext l) (lfReady l) (lfParent l) (lfPending l) (lfReported l) (lfConfigs l)
  else MkLife b None (lfNext l) false (lfParent l) (lfPending l) (lfReported l) (lfConfigs l).

Definition life_stop (ad : device_answers) (l : life) : life :=
  MkLife (Stop ad (lfBridge l)).1.1 None (lfNext l) false (lfParent l) (lfPending l) (lfReported l) (lfConfigs l).

(** The error of a process that ended without one. *)
Definition ended_unexpectedly : error := ErrMsg "capture ended unexpectedly; check the selected camera or resolution".

(** A goroutine of a process has its error and looks at its context. *)
Definition life_ended (id : nat) (stopped : bool) (err : option error) (late : bool) (l : life) : life :=
  if (is_current id l && negb (lfParent l)) || late then
    match (if stopped then Some (default ended_unexpectedly err) else err) with
    | Some e => MkLife (lfBridge l) (lfCurrent l) (lfNext l) (lfReady l) (lfParent l) (lfPending l ++ [(id, stopped, e)])
                  (lfReported l) (lfConfigs l)
    | None => l
    end
  else l.

(** [captureFailed] of a pending failure. *)
Definition life_report (ad : device_answers) (n : nat) (l : life) : life :=
  match lfPending l !! n with
  | Some (id, stopped, e) =>
      let pending := delete n (lfPending l) in
      let '(b, calls) := captureFailed ad (is_current id l) stopped e (lfBridge l) in
      if is_current id l
      then MkLife b None (lfNext l) false (lfParent l) pending (lfReported l ++ [id]) (lfConfigs l)
      else MkLife b (lfCurrent l) (lfNext l) (lfReady l) (lfParent l) pending (lfReported l) (lfConfigs l)
  | None => l
  end.

Definition life_packet (id : nat) (packet : mediaPacket) (l : life) : life :=
  let '(_, b, _) := on_packet (is_current id l) packet [] (lfBridge l) in
  MkLife b (lfCurrent l) (lfNext l)
    (if pktConfig packet && is_current id l && negb (bool_decide (bgCodec b = "")) then false else lfReady l)
    (lfParent l) (lfPending l) (lfReported l)
    (if pktConfig packet then lfConfigs l ++ [(id, pktData packet)] else lfConfigs l).

Definition life_step (l : life) (e : life_event) : life :=
  match e with
  | LeStart ad options => life_start ad options l
  | LeStop ad => life_stop ad l
  | LeParentDone => MkLife (lfBridge l) (lfCurrent l) (lfNext l) (lfReady l) true (lfPending l) (lfReported l) (lfConfigs l)
  | LeEnded id stopped err late => if (id <? lfNext l)%nat then life_ended id stopped err late l else l
  | LeReport ad n => life_report ad n l
  | LePacket id packet => if (id <? lfNext l)%nat then life_packet id packet l else l
  end.
Definition life_run (es : list life_event) : life := foldl life_step new_life es.

(** [VideoCodec]: [waited] is how the wait ended when [videoReady] was open before it, and
    the state is the one afterwards. *)
Definition VideoCodec (waited : option error) (l : life) : result string :=
  match waited with
  | Some e => Err e
  | None =>
      match bgError (lfBridge l) with
      | Some e => Err e
      | None =>
          if negb (bgRunning (lfBridge l)) || bool_decide (bgCodec (lfBridge l) = "")
          then Err (ErrMsg "scrcpy has no H.264 configuration") else Ok (bgCodec (lfBridge l))
      end
  end.

(** ** Lemmas *)

(** Starting launches a process whose codec is not known yet, leaves the one that runs, or
    leaves none. *)
Lemma Start_process ad options b :
  let '(b', calls, r) := Start ad options b in
  if existsb is_launch calls && is_ok r then bgRunning b' = true ∧ bgCodec b' = ""
  else bgRunning b' = true → bgRunning b = true ∧ bgCodec b' = bgCodec b.
Proof.
  unfold Start, stopLocked, startLocked. destruct (bgRunning b) eqn:Hb.
  - destruct (soPreview options && negb (soReconfigure options)); [done|].
    destruct (bool_decide (soPowerOff options = _) && _ && _); [done|]. destruct (ad_stop ad) as [[]|e]; [|by rewrite andb_false_r].
    destruct (ad_launch ad options) as [[]|e]; [|by rewrite andb_false_r]. rewrite existsb_app. cbn. by rewrite orb_true_r.
  - destruct (ad_launch ad options) as [[]|e]; [done|]. cbn. congruence.
Qed.

(** Reachable states. *)
Record life_inv (l : life) : Prop := {
  li_running : bgRunning (lfBridge l) = bool_decide (is_Some (lfCurrent l));
  li_current id : lfCurrent l = Some id → (id < lfNext l)%nat;
  li_reported id : id ∈ lfReported l → (id < lfNext l)%nat ∧ lfCurrent l ≠ Some id;
  li_once : NoDup (lfReported l);
  li_codec : bgRunning (lfBridge l) = true → bgCodec (lfBridge l) ≠ "" →
    ∃ id data, lfCurrent l = Some id ∧ (id, data) ∈ lfConfigs l ∧ bgCodec (lfBridge l) = h264ProfileLevel data;
}.

Lemma life_start_inv ad options l : life_inv l → life_inv (life_start ad options l).
Proof.
  intros [H1 H2 H3 H4 H5]. unfold life_start. pose proof (Start_process ad options (lfBridge l)) as Hs.
  destruct (Start ad options (lfBridge l)) as [[b calls] r]. destruct (existsb is_launch calls && is_ok r).
  - destruct Hs as [Hr Hc]. split; cbn; try done; [by intros id [= <-]; lia|].
    intros id Hid. destruct (H3 id Hid). split; [lia|]. intros [= <-]. lia.
  - destruct (bgRunning b) eqn:Hb; split; cbn; try done; try congruence.
    + rewrite Hb, <-H1. symmetry. by apply Hs.
    + intros _. destruct (Hs eq_refl) as [Hr ->]. by apply H5.
    + intros id Hid. by destruct (H3 id Hid).
Qed.

Lemma stopped_inv l b pending reported : bgRunning b = false → (∀ id, id ∈ reported → (id < lfNext l)%nat) → NoDup reported →
  life_inv (MkLife b None (lfNext l) false (lfParent l) pending reported (lfConfigs l)).
Proof. intros Hb Hr Hn. split; cbn; try done; [by intros id Hid; split; [apply Hr|]|congruence]. Qed.

Lemma life_step_inv l e : life_inv l → life_inv (life_step l e).
Proof.
  intros Hl. pose proof Hl as [H1 H2 H3 H4 H5]. destruct e as [ad options|ad| |id stopped err late|ad n|id packet]; cbn [life_step].
  - by apply life_start_inv.
  - apply stopped_inv; [done|by intros id [? _]%H3|done].
  - by split.
  - case_match; [|done]. unfold life_ended. case_match; [|done]. case_match; [|done]. by split.
  - unfold life_report. destruct (lfPending l !! n) as [[[id stopped] e]|]; [|done]. unfold captureFailed.
    destruct (is_current id l) eqn:Hc; cbn [negb]; [|by split]. apply bool_decide_eq_true in Hc. apply stopped_inv; [done| |].
    + intros id' [Hid| ->%list_elem_of_singleton]%elem_of_app; [by apply H3|by apply H2].
    + apply NoDup_app. split_and!; [done| |apply NoDup_singleton]. intros id' Hid ->%list_elem_of_singleton. by apply H3 in Hid as [_ ?].
  - case_match; [|done]. unfold life_packet, on_packet. destruct (pktConfig packet); [|destruct (pktSession packet); by split].
    destruct (is_current id l) eqn:Hc.
    + apply bool_decide_eq_true in Hc. split; cbn; try done. intros _ _. exists id, (pktData packet). split_and!; [done|set_solver|done].
    + split; cbn; try done. intros Hr Hco. destruct (H5 Hr Hco) as (i & d & ? & ? & ?). exists i, d. split_and!; [done|set_solver|done].
Qed.

Lemma life_run_inv es : life_inv (life_run es).
Proof. unfold life_run. apply foldl_inv; [intros; by apply life_step_inv|]. split; cbn; try done; [set_solver|constructor]. Qed.

(** A process that is not the one of the bridge never becomes it, and is not reported. *)
Definition retired (id : nat) (reported : Prop) (l : life) : Prop :=
  (id < lfNext l)%nat ∧ lfCurrent l ≠ Some id ∧ (id ∈ lfReported l → reported).

Lemma life_step_retired id reported l e : retired id reported l → retired id reported (life_step l e).
Proof.
  intros Hr. pose proof Hr as (H1 & H2 & H3). destruct e as [ad options|ad| |i stopped err late|ad n|i packet]; cbn [life_step].
  - unfold life_start. destruct (Start ad options (lfBridge l)) as [[b calls] r]. case_match; [|by case_match].
    split; [cbn; lia|]. split; [cbn; intros [= <-]; lia|done].
  - by split.
  - done.
  - case_match; [|done]. unfold life_ended. case_match; [|done]. by case_match.
  - unfold life_report. destruct (lfPending l !! n) as [[[i stopped] e]|]; [|done]. unfold captureFailed.
    destruct (is_current i l) eqn:Hc; cbn [negb]; [|done]. apply bool_decide_eq_true in Hc. split; [done|]. split; [done|]. cbn.
    intros [?| ->%list_elem_of_singleton]%elem_of_app; [by apply H3|done].
  - case_match; [|done]. unfold life_packet. by destruct (on_packet (is_current i l) packet [] (lfBridge l)) as [[? ?] ?].
Qed.

(** ** Properties *)

(** C23: The failures of a capture are reported once, and only while they matter.  Whatever is
    started, stopped and replaced while the goroutines of earlier processes end, in any
    interleaving: no process is reported twice; a process that was stopped, replaced or
    reported is never the one of the bridge again, and nothing it does later is reported;
    the end of the bridge's own process becomes pending unless the agent ends; its report
    leaves the bridge without a process and with that error, which [VideoCodec] then
    answers, and a report of any other process changes nothing; and the codec that is
    offered to viewers is that of a configuration the running process has sent. *)
Theorem capture_supervised es :
  let l := life_run es in
  NoDup (lfReported l) ∧ bgRunning (lfBridge l) = bool_decide (is_Some (lfCurrent l)) ∧
  (∀ id later, (id < lfNext l)%nat → lfCurrent l ≠ Some id →
     lfCurrent (foldl life_step l later) ≠ Some id ∧ (id ∈ lfReported (foldl life_step l later) → id ∈ lfReported l)) ∧
  (∀ id stopped err late, lfCurrent l = Some id → lfParent l = false → stopped = true ∨ is_Some err →
     ∃ e, lfPending (life_step l (LeEnded id stopped err late)) = lfPending l ++ [(id, stopped, e)]) ∧
  (∀ ad n id stopped e, lfPending l !! n = Some (id, stopped, e) →
     let l' := life_step l (LeReport ad n) in
     if decide (lfCurrent l = Some id)
     then lfReported l' = lfReported l ++ [id] ∧ bgRunning (lfBridge l') = false ∧ VideoCodec None l' = Err e
     else lfReported l' = lfReported l ∧ lfBridge l' = lfBridge l ∧ lfCurrent l' = lfCurrent l) ∧
  (∀ waited c, VideoCodec waited l = Ok c →
     ∃ id data, lfCurrent l = Some id ∧ (id, data) ∈ lfConfigs l ∧ c = h264ProfileLevel data ∧ c ≠ "").
Proof.
  intros l. pose proof (life_run_inv es) as Hl. fold l in Hl. pose proof Hl as [H1 H2 H3 H4 H5]. split_and!; [done|done| | | |].
  - intros id later Hn Hc. assert (retired id (id ∈ lfReported l) (foldl life_step l later)) as (_ & ? & ?); [|done].
    apply foldl_inv; [intros; by apply life_step_retired|done].
  - intros id stopped err late Hc Hp Hs. cbn [life_step]. rewrite (proj2 (Nat.ltb_lt _ _)) by auto. unfold life_ended, is_current.
    rewrite bool_decide_eq_true_2, Hp by done. cbn [negb andb orb]. destruct stopped; [by eexists|]. destruct Hs as [?|[e ->]]; [done|by eexists].
  - intros ad n id stopped e Hn. cbn [life_step]. unfold life_report. rewrite Hn. unfold captureFailed, is_current.
    destruct (decide (lfCurrent l = Some id)) as [Hc|Hc]; [rewrite bool_decide_eq_true_2 by done|rewrite bool_decide_eq_false_2 by done]; done.
  - intros waited c. unfold VideoCodec. destruct waited; [done|]. destruct (bgError (lfBridge l)); [done|].
    destruct (bgRunning (lfBridge l)) eqn:Hr; [|done]. cbn [negb orb]. destruct (bool_decide (bgCodec (lfBridge l) = "")) eqn:Hc; [done|].
    apply bool_decide_eq_false in Hc. intros [= <-].
    destruct (H5 eq_refl Hc) as (id & data & ? & ? & ?). by exists id, data.
Qed.

(** ** Witnesses *)

Module CaptureLifeWitness.
Definition answers : device_answers := MkAnswers false (Ok ()) (λ _, Ok ()) (Ok "") (Ok ()) 33.
Definition sps : mediaPacket :=
  {| pktPTS := 0; pktKeyFrame := false; pktConfig := true; pktSession := false; pktWidth := 0; pktHeight := 0; pktClientResized := false;
     pktData := map byte_of [0; 0; 1; 103; 77; 0; 42] |}.
Definition size (width height : Z) : mediaPacket :=
  {| pktPTS := 0; pktKeyFrame := false; pktConfig := false; pktSession := true; pktWidth := width; pktHeight := height;
     pktClientResized := false; pktData := [] |}.
Definition options : streamOptions := MediaOptionsWitness.options.
Definition camera : streamOptions := WebRTC.with_values (<["video_source" := "camera"]> (soValues options)) options.

(** The stream of a process breaks and the process ends, both noticed before the first report. *)
Definition broken : list life_event :=
  [LeStart answers options; LePacket 0 sps; LeEnded 0 false (Some (ErrMsg "EOF")) false; LeEnded 0 true None false].

Lemma capture_supervised_witness :
  VideoCodec None (life_run broken) = Ok "4d002a" ∧
  let l := life_step (life_run broken) (LeReport answers 0) in
  lfReported l = [0%nat] ∧ VideoCodec None l = Err (ErrMsg "EOF") ∧
  lfReported (foldl life_step l [LeReport answers 0; LeStart answers options; LeEnded 0 true None true; LeReport answers 0]) = [0%nat].
Proof.
  destruct (capture_supervised broken) as (_ & _ & _ & _ & Hr & _).
  pose proof (Hr answers 0%nat 0%nat false (ErrMsg "EOF") eq_refl) as H. cbv zeta in H.
  rewrite decide_True in H by reflexivity. destruct H as (H1 & _ & H2).
  split; [by vm_compute|]. split; [exact H1|]. split; [exact H2|by vm_compute].
Defined.

(** The reader of a process that was replaced still sets the size of the screen that the
    positions of control events are scaled to. *)
Example stale_size :
  let l := life_run [LeStart answers options; LeStart answers camera; LePacket 1 (size 1920 1080); LePacket 0 (size 1080 2400)] in
  lfCurrent l = Some 1%nat ∧ bgWidth (lfBridge l) = 1080 ∧ bgHeight (lfBridge l) = 2400.
Proof. by vm_compute. Qed.
End CaptureLifeWitness.
