(* ===== verification/Agent.v ===== *)
(** * The agent's connection to the control plane (agent/internal/agent/agent.go)

    What an agent does with each message of the control plane, from the hello to the end
    of the connection, and how it reconnects.  The managers it hands the messages to are
    those of [Media], [Terminal], [DeviceFiles], [Telemetry] and [AgentTasks]; work that
    runs beside the read loop is an effect that names it. *)

From S2P Require Import Prelude GoBase GoStrings GoFloat Model Control Base64 Scrcpy MediaOptions WebRTC Media DeviceFiles.
From S2P Require Import Terminal DeviceIO AgentTasks Telemetry Identity.

(** ** State *)

(** [agTerminals] are the terminals of the web socket, [agWorld] the host of the agent
    with its identity file. *)
Record agent := MkAgent {
  agMedia : mediaManager;
  agTerminals : terminalManager;
  agFiles : deviceFileManager;
  agPreview : bool;
  agInterval : Z;
  agWorld : world;
}.

Definition with_media (m : mediaManager) (a : agent) : agent :=
  MkAgent m (agTerminals a) (agFiles a) (agPreview a) (agInterval a) (agWorld a).
Definition with_terminals_of (t : terminalManager) (a : agent) : agent :=
  MkAgent (agMedia a) t (agFiles a) (agPreview a) (agInterval a) (agWorld a).
Definition with_files (f : deviceFileManager) (a : agent) : agent :=
  MkAgent (agMedia a) (agTerminals a) f (agPreview a) (agInterval a) (agWorld a).
Definition with_preview (b : bool) (a : agent) : agent :=
  MkAgent (agMedia a) (agTerminals a) (agFiles a) b (agInterval a) (agWorld a).
Definition with_interval (i : Z) (a : agent) : agent :=
  MkAgent (agMedia a) (agTerminals a) (agFiles a) (agPreview a) i (agWorld a).
Definition with_agent_world (w : world) (a : agent) : agent :=
  MkAgent (agMedia a) (agTerminals a) (agFiles a) (agPreview a) (agInterval a) w.

Inductive agent_effect :=
| ASend (message : gmap string value)
| AMedia (c : call)
| ATerminal (e : term_effect)
| AFile (e : file_effect)
| AScreenshot (message : gmap string value)
| ACommand (message : gmap string value)
| ATask (message : gmap string value).

(** The error of a handler: the two that end the connection, and the others. *)
Inductive outcome :=
| Done
| Failed (e : error)
| Quit
| Unauthenticated.

Definition outcome_of (r : result ()) : outcome := match r with Ok _ => Done | Err e => Failed e end.

(** What the parts outside answer while a message is handled: the device, the WebRTC
    module, the files, opening a terminal, whether the context is cancelled, and writing
    to the web socket. *)
Record agent_answers := MkAgentAnswers {
  anDevice : device_answers;
  anPion : pion_answers;
  anFiles : file_answers;
  anTerminal : result ();
  anCancelled : bool;
  anWritten : result ();
}.

(** ** Fields *)

Definition uint16 (z : Z) : Z := wrap_u 16 z.

Section agent.
(** [overflow], [overflow32], [overflow_int]: conversions of floats out of range, which
    the language leaves open; [bitrates], [numbers]: orders of map iterations;
    [ice]: the servers of a configuration, as the WebRTC module decodes them. *)
Context `{Crypto} (overflow : Z) (overflow32 : float64 → Z) (overflow_int : float64 → Z).
Context (bitrates : list string) (numbers : list (string * Z)).
Context (error_text : error → string) (ice : option value → option (list string)).
Context (config : agentConfig).

Definition float_to_int (f : float64) : Z :=
  if negb (IsInf f) && (int_part f <? 2 ^ 63) then int_part f else overflow_int f.

Definition numberField (message : gmap string value) (key : string) (fallback : Z) : Z :=
  match message !! key with
  | Some (VNum f) => if flt (S754_zero false) f then float_to_int f else fallback
  | _ => fallback
  end.

Definition injectionCapability (message : gmap string value) : string :=
  let channel := stringField message "channel" in
  let type := stringField (default ∅ (mapField message "payload")) "type" in
  if bool_decide (channel = "gps") then "gps_injection"
  else if bool_decide (channel = "sensor") then "sensor_injection"
  else if bool_decide (channel = "camera") then "camera_injection"
  else if bool_decide (type = "gps") then "gps_injection"
  else if bool_decide (type ∈ ["accel"; "gyro"; "light"; "temp"; "proximity"; "hinge_angle"]) then "sensor_injection"
  else "".

(** ** Handling a message *)

Definition handled : Type := agent * list agent_effect * outcome.

Definition streamError (message : gmap string value) (e : error) (a : agent) : handled :=
  (a, [ASend {[ "message_type" := VStr "device_msg"; "client_id" := VStr (stringField message "client_id");
                "payload" := VMap {[ "type" := VStr "scrcpy_error"; "message" := VStr (error_text e) ]} ]}], Failed e).

Definition send_json (an : agent_answers) (message : gmap string value) (a : agent) : handled :=
  (a, [ASend message], outcome_of (anWritten an)).

(** An operation of the media manager. *)
Definition on_media (r : mediaManager * list call * result ()) (a : agent) : agent * list agent_effect * result () :=
  let '(m, c, r) := r in (with_media m a, map AMedia c, r).

Definition with_effects (c : list agent_effect) (h : handled) : handled := let '(a, c', o) := h in (a, c ++ c', o).

(** [c.bridge.EnqueueControl]. *)
Definition enqueue (event : gmap string value) (a : agent) : handled :=
  let '(b, r) := EnqueueControl overflow overflow32 event (mdDisplayBridge (agMedia a)) in
  (with_media (set_display_bridge b (agMedia a)) a, [], outcome_of r).

(** [streamOptions{Preview: true}]. *)
Definition control_options : streamOptions :=
  {| soReconfigure := false; soPreview := true; soPowerOff := false; soDebug := false; soBitrate := no_bitrate;
     soAudio := false; soSource := ""; soValues := ∅ |}.

(** Starting the display for an event and queueing it. *)
Definition control (an : agent_answers) (event : gmap string value) (a : agent) : handled :=
  match on_media (start_display (anDevice an) control_options (agMedia a)) a with
  | (a, c, Err e) => (a, c, Failed e)
  | (a, c, Ok _) => with_effects c (enqueue event a)
  end.

Definition settings_of (message : gmap string value) (key : string) (a : agent) : agent :=
  with_interval (setSnapshotInterval (default ∅ (mapField message key)) (agInterval a)) a.

Definition agent_config (message : gmap string value) (a : agent) : handled :=
  let token := stringField message "agent_token" in
  let '(saved, w) := if bool_decide (token = "") then (Ok (), agWorld a)
                     else saveIdentity (acIdentityPath config) token (agWorld a) in
  let a := with_agent_world w a in
  match saved with
  | Err e => (a, [], Failed e)
  | Ok _ => (settings_of message "default_settings" (with_media (SetICEServers (ice (message !! "ice_servers")) (agMedia a)) a), [], Done)
  end.

Definition start_preview (an : agent_answers) (message : gmap string value) (a : agent) : handled :=
  match parseStreamOptions overflow bitrates numbers message true with
  | Err e => streamError message e a
  | Ok options =>
      let a := with_preview true (with_interval (setSnapshotInterval message (agInterval a)) a) in
      match on_media (StartPreview overflow bitrates numbers (anDevice an) options (agMedia a)) a with
      | (a, c, Err e) => with_effects c (streamError message e (with_preview false a))
      | (a, c, Ok _) => with_effects c (enqueue keyframe_event a)
      end
  end.

Definition client_disconnected (an : agent_answers) (clientID : string) (a : agent) : handled :=
  let '(t, c1) := Terminal.CloseClient clientID (agTerminals a) in
  let '(f, c2) := DeviceFiles.CloseClient clientID (agFiles a) in
  let '(m, c3) := CloseSession clientID (agMedia a) in
  let '(m, c4) := StopIdle overflow bitrates numbers (anDevice an) (anCancelled an) m in
  (with_media m (with_files f (with_terminals_of t a)), map ATerminal c1 ++ map AFile c2 ++ map AMedia (c3 ++ c4), Done).

Definition forward_message (an : agent_answers) (message : gmap string value) (a : agent) : handled :=
  let a := match mapField message "payload" with
           | Some payload => if bool_decide (stringField payload "type" = "request-offer")
                             then settings_of payload "scrcpy_options" a else a
           | None => a
           end in
  match on_media (Media.HandleForward overflow bitrates numbers (anDevice an) message (anPion an) (agMedia a)) a with
  | (a, c, Err e) => with_effects c (streamError message e a)
  | (a, c, Ok _) => (a, c, Done)
  end.

Definition inject_data (an : agent_answers) (message : gmap string value) (a : agent) : handled :=
  let capability := injectionCapability message in
  if negb (bool_decide (capability = ""))
  then send_json an {[ "message_type" := VStr "capability_error"; "client_id" := VStr (stringField message "client_id");
                       "device_id" := VStr (acDeviceID config); "capability" := VStr capability; "supported" := VBool false;
                       "error" := VStr ("Agent does not support " +:+ capability) ]} a
  else match mapField message "payload" with
       | None => (a, [], Done)
       | Some event =>
           if negb (browserControlAllowed event) then streamError message (ErrMsg "unsupported injection event") a
           else control an event a
       end.

Definition on_files (r : deviceFileManager * list file_effect) (a : agent) : handled :=
  (with_files r.1 a, map AFile r.2, Done).

Definition on_terminals (r : terminalManager * list term_effect * result ()) (a : agent) : handled :=
  let '(t, c, r) := r in (with_terminals_of t a, map ATerminal c, outcome_of r).

Definition handleMessage (an : agent_answers) (message : gmap string value) (a : agent) : handled :=
  let field := stringField message in
  let type := field "message_type" in
  let client := field "client_id" in
  if bool_decide (type = "error") then
    if bool_decide (field "error" = "agent enrollment rejected") then (a, [], Unauthenticated)
    else (a, [], Failed (ErrMsg ("control plane: " +:+ field "error")))
  else if bool_decide (type = "agent_config") then agent_config message a
  else if bool_decide (type = "agent_settings") then (settings_of message "settings" a, [], Done)
  else if bool_decide (type = "quit_agent") then (a, [], Quit)
  else if bool_decide (type = "start_audio") then
    match on_media (StartAudio overflow bitrates numbers (anDevice an) message (agMedia a)) a with
    | (a, c, Err e) =>
        with_effects c (send_json an {[ "message_type" := VStr "audio_error"; "client_id" := VStr client;
                                        "error" := VStr (error_text e) ]} a)
    | (a, c, Ok _) => (a, c, Done)
    end
  else if bool_decide (type = "stop_audio") then
    let '(a, c, r) := on_media (StopAudio overflow bitrates numbers (anDevice an) (agMedia a)) a in (a, c, outcome_of r)
  else if bool_decide (type = "start_preview") then start_preview an message a
  else if bool_decide (type = "stop_preview") then
    let a := with_preview false a in
    let '(a, c, r) := on_media (StopPreview overflow bitrates numbers (anDevice an) (agMedia a)) a in (a, c, outcome_of r)
  else if bool_decide (type = "client_disconnected") then client_disconnected an client a
  else if bool_decide (type = "forward") then forward_message an message a
  else if bool_decide (type = "screenshot_request") then (a, [AScreenshot message], Done)
  else if bool_decide (type = "command") then (a, [ACommand message], Done)
  else if bool_decide (type = "task_available") then
    send_json an {[ "message_type" := VStr "task_claim"; "task_id" := VStr (field "task_id");
                    "device_id" := VStr (acDeviceID config) ]} a
  else if bool_decide (type = "task_dispatch") then (a, [ATask message], Done)
  else if bool_decide (type = "file_open") then on_files (DeviceFiles.Open client (agFiles a)) a
  else if bool_decide (type = "file_command") then
    on_files (DeviceFiles.Command overflow error_text (anFiles an) client (default ∅ (mapField message "payload")) (agFiles a)) a
  else if bool_decide (type = "file_chunk") then
    match b64std_decode (field "data") with
    | None => (a, [], Failed (ErrMsg "illegal base64 data"))
    | Some data => on_files (DeviceFiles.Chunk error_text (anFiles an) client data (agFiles a)) a
    end
  else if bool_decide (type = "pty_open") then
    on_terminals (Terminal.Open error_text client (field "session_id") (uint16 (numberField message "rows" 24))
                    (uint16 (numberField message "cols" 80)) (anTerminal an) (agTerminals a)) a
  else if bool_decide (type = "pty_input") then
    (a, map ATerminal (Terminal.Input client (field "session_id") (field "data") (agTerminals a)), Done)
  else if bool_decide (type = "pty_resize") then
    (a, map ATerminal (Terminal.Resize client (field "session_id") (uint16 (numberField message "rows" 24))
                         (uint16 (numberField message "cols" 80)) (agTerminals a)), Done)
  else if bool_decide (type = "pty_close") then
    on_terminals (Terminal.Close client (field "session_id") (agTerminals a), Ok ()) a
  else if bool_decide (type = "group_control_event") then
    let event := default ∅ (mapField message "event") in
    if negb (browserControlAllowed event) then (a, [], Failed (ErrMsg "unsupported group control event"))
    else control an event a
  else if bool_decide (type = "inject_data") then inject_data an message a
  else (a, [], Done).

(** ** A connection *)

(** The first message; the token is empty when no identity can be read. *)
Definition hello_message (info : gmap string value) (token : string) : gmap string value :=
  {[ "message_type" := VStr "agent_hello"; "device_id" := VStr (acDeviceID config);
     "enrollment_token" := VStr (acEnrollmentToken config); "agent_token" := VStr token;
     "device_info" := VMap info ]}.

(** A new connection has its own managers, over the two bridges of the client; it starts
    without a preview. *)
Definition connected (info : gmap string value) (a : agent) : agent * list agent_effect :=
  let '(r, w) := loadIdentity (acIdentityPath config) (agWorld a) in
  let m := MkMedia false None newWebRTCManager newWebRTCManager (mdDisplayBridge (agMedia a)) (mdCameraBridge (agMedia a)) false ∅ in
  (MkAgent m newTerminalManager newDeviceFileManager false (agInterval a) w, [ASend (hello_message info (from_ok "" r))]).

Definition heartbeat : gmap string value :=
  {[ "message_type" := VStr "heartbeat"; "device_id" := VStr (acDeviceID config) ]}.

(** The deferred calls, last one first. *)
Definition disconnected (ad : device_answers) (a : agent) : agent * list agent_effect :=
  let '(m, c1) := Media.Close (agMedia a) in
  let '(f, c2) := DeviceFiles.Close (agFiles a) in
  let '(t, c3) := CloseAll (agTerminals a) in
  let '(m, c4, _) := stop_camera ad m in
  let '(m, c5, _) := stop_display ad m in
  (with_media m (with_files f (with_terminals_of t a)),
   map AMedia c1 ++ map AFile c2 ++ map ATerminal c3 ++ map AMedia (c4 ++ c5)).

(** The read loop: text messages that are objects are handled until one of them ends the
    connection.  [None]: the messages ran out, that is, reading failed. *)
Fixpoint read_loop (messages : list (agent_answers * gmap string value)) (a : agent)
    : agent * list agent_effect * option outcome :=
  match messages with
  | [] => (a, [], None)
  | (an, message) :: messages =>
      match handleMessage an message a with
      | (a, c, Quit) => (a, c, Some Quit)
      | (a, c, Unauthenticated) => (a, c, Some Unauthenticated)
      | (a, c, _) => let '(a, c', r) := read_loop messages a in (a, c ++ c', r)
      end
  end.

(** [connect]: [greeted], whether the hello was written. *)
Definition connect (ad : device_answers) (info : gmap string value) (greeted : bool)
    (messages : list (agent_answers * gmap string value)) (a : agent) : agent * list agent_effect * option outcome :=
  let '(a, c1) := connected info a in
  let '(a, c2, r) := if greeted then read_loop messages a else (a, [], None) in
  let '(a, c3) := disconnected ad a in
  (a, c1 ++ c2 ++ c3, r).
End agent.

(** ** Reconnecting *)

(** How an attempt ended, and whether the context was cancelled by then. *)
Record attempt := MkAttempt { atEnd : option outcome; atCancelled : bool }.

Inductive run_end := RunQuit | RunUnauthenticated | RunCancelled | RunGoesOn.

(** [Run] from an attempt on: the pauses it makes, and how it ends; it goes on when the
    attempts given are used up. *)
Fixpoint run_loop (n : Z) (attempts : list attempt) : list Duration * run_end :=
  match attempts with
  | [] => ([], RunGoesOn)
  | t :: attempts =>
      match atEnd t with
      | Some Unauthenticated => ([], RunUnauthenticated)
      | Some Quit => ([], RunQuit)
      | _ =>
          if atCancelled t then ([], RunCancelled)
          else let '(pauses, e) := run_loop (n + 1) attempts in (Second * Z.min (n + 1) 15 :: pauses, e)
      end
  end.

(** ** Lemmas: what the handlers leave alone *)

(** The control events waiting for the display. *)
Definition waiting (a : agent) : list (gmap string value) := bgQueue (mdDisplayBridge (agMedia a)).
Definition same_queue (m m' : mediaManager) : Prop := bgQueue (mdDisplayBridge m') = bgQueue (mdDisplayBridge m).

Section queue.
Context (overflow : Z) (bitrates : list string) (numbers : list (string * Z)) (ad : device_answers).

Lemma Start_queue options b : bgQueue (Start ad options b).1.1 = bgQueue b.
Proof. unfold Start, startLocked, stopLocked. repeat case_match; simplify_eq; by cbn. Qed.

Lemma start_display_queue options m : same_queue m (start_display ad options m).1.1.
Proof.
  unfold start_display, same_queue. pose proof (Start_queue options (mdDisplayBridge m)). by destruct (Start _ _ _) as [[b c] r].
Qed.
Lemma start_camera_queue options m : same_queue m (start_camera ad options m).1.1.
Proof. unfold start_camera, same_queue. by destruct (Start _ _ _) as [[b c] r]. Qed.

Lemma reconcile_queue m : same_queue m (reconcileDisplay overflow bitrates numbers ad m).1.1.
Proof.
  unfold reconcileDisplay. destruct (LatestVideoOptions _) as [o [|]]; [apply start_display_queue|].
  destruct (mdPreview m); [apply start_display_queue|]. by destruct (mdAudio m); [apply start_display_queue|].
Qed.

Lemma StopIdle_queue cancelled m : same_queue m (StopIdle overflow bitrates numbers ad cancelled m).1.
Proof.
  unfold StopIdle. destruct (_ || _); [done|]. pose proof (reconcile_queue m) as H1.
  destruct (reconcileDisplay _ _ _ _ m) as [[m1 c1] r1]. destruct (LatestVideoOptions _) as [o [|]]; [|done].
  pose proof (start_camera_queue (mergeCaptureNeeds (mdCamera m1) o) m1) as H2. unfold same_queue in *.
  destruct (start_camera _ _ _) as [[m2 c2] r2]. cbn in *. congruence.
Qed.

Lemma StartAudio_queue raw m : same_queue m (StartAudio overflow bitrates numbers ad raw m).1.1.
Proof.
  unfold StartAudio. destruct (parseStreamOptions _ _ _ _ _) as [o|]; [|done]. destruct (audio_too_old _); [done|].
  match goal with |- context [start_display ad ?o m] => pose proof (start_display_queue o m) as H end.
  by destruct (start_display _ _ m) as [[m1 c] [u|e]].
Qed.

Lemma CloseSession_queue clientID m : same_queue m (CloseSession clientID m).1.
Proof. unfold CloseSession. by destruct (WebRTC.CloseSession _ _), (WebRTC.CloseSession _ _). Qed.

Lemma forward_queue camera message pa m : same_queue m (forward overflow bitrates numbers camera message pa m).1.1.
Proof. unfold forward. destruct (WebRTC.HandleForward _ _ _ _ _ _) as [[r o] e]. by destruct camera. Qed.

Lemma start_queue (camera : bool) options m : same_queue m ((if camera then start_camera ad else start_display ad) options m).1.1.
Proof. destruct camera; [apply start_camera_queue|apply start_display_queue]. Qed.

Lemma prepare_queue camera options m : same_queue m (prepare ad camera options m).1.1.
Proof.
  unfold prepare. destruct (_ && _); [done|]. set (start := if camera then start_camera ad else start_display ad).
  pose proof (λ o m, start_queue camera o m) as Hs. fold start in Hs.
  pose proof (Hs options m) as H1. destruct (start options m) as [[m1 c] [u|e]]; [|done]. cbn [fst] in H1.
  destruct (ad_codec ad) as [profile|e]; [|done]. destruct (SetVideoCodec _ _ _) as [r [u'|e]]; [by destruct camera|].
  destruct (LatestVideoOptions _).2; [|done].
  pose proof (Hs (currentOptions (if camera then mdCameraBridge m else mdDisplayBridge m)) m1) as H2. unfold same_queue in *.
  destruct (start _ m1) as [[m2 c'] r']. cbn in *. congruence.
Qed.

Lemma HandleForward_queue message pa m : same_queue m (Media.HandleForward overflow bitrates numbers ad message pa m).1.1.
Proof.
  unfold Media.HandleForward. destruct (negb _); [apply forward_queue|].
  destruct (parseStreamOptions _ _ _ _ _) as [o|]; [|done]. destruct (_ && _ && _); [done|]. destruct (_ && _); [done|].
  destruct (HasClient _ _); [apply forward_queue|]. destruct (eq_false _); [apply forward_queue|].
  match goal with |- context [prepare ad ?c ?o m] => pose proof (prepare_queue c o m) as H1; destruct (prepare ad c o m) as [[m1 c1] [u|e]] end; [|done].
  match goal with |- context [forward _ _ _ ?c message pa m1] => pose proof (forward_queue c message pa m1) as H2;
    destruct (forward overflow bitrates numbers c message pa m1) as [[m2 c2] r2] end. unfold same_queue in *. cbn in *. congruence.
Qed.
End queue.

(** *** The kinds of effects

    The type of message an effect comes from. *)
Definition pty_messages : list string := ["pty_open"; "pty_input"; "pty_resize"; "pty_close"].
Definition file_messages : list string := ["file_open"; "file_command"; "file_chunk"].

Definition effect_type (type : string) (e : agent_effect) : Prop :=
  match e with
  | ASend _ | AMedia _ => True
  | ATerminal (TStart _ _ _) => type = "pty_open"
  | ATerminal (TWrite _ _) => type = "pty_input"
  | ATerminal (TResize _ _ _) => type = "pty_resize"
  | ATerminal _ => type ∈ pty_messages ∨ type = "client_disconnected"
  | AFile (FDiscard _) => type ∈ file_messages ∨ type = "client_disconnected"
  | AFile _ => type ∈ file_messages
  | AScreenshot _ => type = "screenshot_request"
  | ACommand _ => type = "command"
  | ATask _ => type = "task_dispatch"
  end.

(** What becomes of the queue of control events. *)
Definition queue_step (type : string) (q q' : list (gmap string value)) : Prop :=
  q' = q ∨
  (∃ e, q' = q ++ [e] ∧ stringField e "type" = "request_keyframe" ∧ type = "start_preview") ∨
  (∃ e, q' = q ++ [e] ∧ browserControlAllowed e = true ∧ type ∈ ["group_control_event"; "inject_data"]).

Lemma effects_send type message : Forall (effect_type type) [ASend message].
Proof. by repeat constructor. Qed.
Lemma effects_media type c : Forall (effect_type type) (map AMedia c).
Proof. induction c; by constructor. Qed.
Create HintDb agent.
#[export] Hint Resolve effects_send effects_media : agent.

Lemma effects_terminal type c :
  (∀ e, e ∈ c → effect_type type (ATerminal e)) → Forall (effect_type type) (map ATerminal c).
Proof. intros H. apply Forall_forall. intros e (x & -> & Hx)%list_elem_of_fmap. by apply H. Qed.
Lemma effects_file type c :
  (∀ e, e ∈ c → effect_type type (AFile e)) → Forall (effect_type type) (map AFile c).
Proof. intros H. apply Forall_forall. intros e (x & -> & Hx)%list_elem_of_fmap. by apply H. Qed.

(** A closed terminal stops and is reported. *)
Definition closing (e : term_effect) : Prop :=
  match e with TStart _ _ _ | TWrite _ _ | TResize _ _ _ => False | _ => True end.

Lemma closeSession_closing k x m : Forall closing (closeSession k x m).2.
Proof.
  unfold closeSession. destruct (tmSessions m !! k) as [s|]; [|constructor]. case_match; [constructor|].
  repeat constructor. by destruct (tsSink s).
Qed.
Lemma close_keys_closing keys : ∀ m, Forall closing (close_keys keys m).2.
Proof.
  induction keys as [|k keys IH]; intros m; cbn [close_keys]; [constructor|]. pose proof (closeSession_closing k None m) as H.
  destruct (closeSession k None m) as [m1 c1]. specialize (IH m1). destruct (close_keys keys m1) as [m2 c2].
  by apply Forall_app.
Qed.

Lemma effects_closing type c : type ∈ pty_messages ∨ type = "client_disconnected" → Forall closing c →
  Forall (effect_type type) (map ATerminal c).
Proof. intros Ht Hc. apply effects_terminal. intros e He. rewrite Forall_forall in Hc. specialize (Hc e He). by destruct e. Qed.

Lemma Open_effects error_text c i rows cols answer m :
  Forall (λ e, effect_type "pty_open" (ATerminal e)) (Open error_text c i rows cols answer m).1.2.
Proof.
  assert (∀ e, closing e → effect_type "pty_open" (ATerminal e)) as Hc.
  { intros []; cbn; try done; intros _; left; set_solver. }
  unfold Open, open. case_bool_decide; [repeat constructor; left; set_solver|].
  unfold Close. pose proof (closeSession_closing (terminal_key c i) None m) as H1.
  destruct (closeSession _ _ _) as [m1 c1]. cbn [snd] in H1. apply (Forall_impl _ _ _ H1) in Hc. clear H1.
  unfold open_terminal, register_terminal.
  destruct answer; [destruct (tmClosed _)|]; cbn; rewrite ?Forall_app, ?Forall_cons, ?Forall_nil; split_and?; try done; left; set_solver.
Qed.

Lemma effects_of_files type c : type ∈ file_messages → Forall (effect_type type) (map AFile c).
Proof. intros Ht. apply effects_file. intros e _. destruct e; cbn; by auto. Qed.

Lemma CloseClient_discards c m e : e ∈ (DeviceFiles.CloseClient c m).2 → ∃ stage, e = FDiscard stage.
Proof.
  unfold DeviceFiles.CloseClient. destruct (fmSessions m !! c) as [s|]; cbn; [|by intros []%elem_of_nil].
  destruct (fsUpload s); cbn; [|by intros []%elem_of_nil]. intros ->%list_elem_of_singleton. by eexists.
Qed.

Lemma remap_type overflow overflow32 event w h :
  stringField (remapControlPosition overflow overflow32 event w h) "type" = stringField event "type".
Proof.
  unfold remapControlPosition. case_bool_decide; [|done]. destruct (positionFromEvent _ _) as [[[[x y] w'] h']|]; [|done].
  destruct (_ || _); [done|]. unfold stringField. by rewrite !lookup_insert_ne.
Qed.

Lemma allowed_by_type e e' : stringField e "type" = stringField e' "type" → browserControlAllowed e = browserControlAllowed e'.
Proof. unfold browserControlAllowed. by intros ->. Qed.

Section handled.
Context `{Crypto} (overflow : Z) (overflow32 : float64 → Z) (overflow_int : float64 → Z).
Context (bitrates : list string) (numbers : list (string * Z)).
Context (error_text : error → string) (ice : option value → option (list string)).
Context (config : agentConfig).
Abbreviation handle := (handleMessage overflow overflow32 overflow_int bitrates numbers error_text ice config).

Record handles (type : string) (a : agent) (h : agent * list agent_effect * outcome) : Prop := {
  hd_effects : Forall (effect_type type) h.1.2;
  hd_queue : queue_step type (waiting a) (waiting h.1.1);
  hd_quit : h.2 = Quit → type = "quit_agent";
  hd_refused : h.2 = Unauthenticated → type = "error";
}.

Lemma handles_quiet type a a' c o : Forall (effect_type type) c → waiting a' = waiting a → o = Done ∨ (∃ e, o = Failed e) →
  handles type a (a', c, o).
Proof. intros Hc Hq Ho. split; cbn; [done|by left|by destruct Ho as [->|[e ->]]..]. Qed.

Lemma handles_same type a a1 h : waiting a1 = waiting a → handles type a1 h → handles type a h.
Proof. intros Hw [H1 H2 H3 H4]. rewrite Hw in H2. by split. Qed.

Lemma outcome_of_cases r : outcome_of r = Done ∨ ∃ e, outcome_of r = Failed e.
Proof. destruct r; [by left|right; by eexists]. Qed.
#[local] Hint Resolve outcome_of_cases : agent.


Lemma enqueue_spec event a :
  let '(a', c, o) := enqueue overflow overflow32 event a in
  c = [] ∧ (o = Done ∨ ∃ e, o = Failed e) ∧
  (waiting a' = waiting a ∨ ∃ e, waiting a' = waiting a ++ [e] ∧ stringField e "type" = stringField event "type").
Proof.
  unfold enqueue, EnqueueControl. set (b := mdDisplayBridge (agMedia a)).
  set (e := if (0 <? bgWidth b) && (0 <? bgHeight b) then _ else event).
  assert (stringField e "type" = stringField event "type") as He by (unfold e; case_match; [apply remap_type|done]).
  destruct (_ <? _)%nat; split_and!; [done|by left|right; by exists e|done|right; by eexists|by left].
Qed.

Lemma start_control an a : waiting (on_media (start_display (anDevice an) control_options (agMedia a)) a).1.1 = waiting a.
Proof.
  pose proof (start_display_queue (anDevice an) control_options (agMedia a)) as Hq.
  unfold on_media. by destruct (start_display _ _ _) as [[m c] r].
Qed.

Lemma handles_control type an event a : browserControlAllowed event = true → type ∈ ["group_control_event"; "inject_data"] →
  handles type a (control overflow overflow32 an event a).
Proof.
  intros Hal Ht. unfold control. pose proof (start_control an a) as Hw.
  destruct (start_display _ _ _) as [[m c] r]. cbn in Hw |- *. destruct r as [[]|e].
  2: { apply handles_quiet; auto with agent. right. by eexists. }
  pose proof (enqueue_spec event (with_media m a)) as Hs. destruct (enqueue _ _ _ _) as [[a' c'] o].
  destruct Hs as (-> & Ho & Hq). cbn. rewrite app_nil_r.
  split; cbn; [auto with agent| |by destruct Ho as [->|[? ->]]..].
  rewrite Hw in Hq. destruct Hq as [->|(e & -> & He)]; [by left|right; right]. exists e. split_and!; [done| |done].
  by rewrite (allowed_by_type _ _ He).
Qed.

(** An operation of the media manager that keeps the queue. *)
Lemma handles_on_media type (r : mediaManager * list call * result ()) a (k : agent → result () → agent * list agent_effect * outcome) :
  same_queue (agMedia a) r.1.1 →
  (∀ a' res, waiting a' = waiting a → handles type a' (k a' res)) →
  handles type a (let '(a', c, res) := on_media r a in with_effects c (k a' res)).
Proof.
  intros Hq Hk. destruct r as [[m c] res]. cbn in Hq |- *. specialize (Hk (with_media m a) res Hq).
  destruct (k _ _) as [[a' c'] o]. destruct Hk as [H1 H2 H3 H4]. unfold waiting, same_queue in *. cbn in *. rewrite Hq in H2. split; cbn; [|done..].
  apply Forall_app. split; [auto with agent|done].
Qed.

Lemma handles_stream_error type message e a : handles type a (streamError error_text message e a).
Proof. apply handles_quiet; [auto with agent|done|right; by eexists]. Qed.

Lemma handles_send type an message a : handles type a (send_json an message a).
Proof. apply handles_quiet; auto with agent. Qed.

Lemma handles_keyframe a : handles "start_preview" a (enqueue overflow overflow32 keyframe_event a).
Proof.
  pose proof (enqueue_spec keyframe_event a) as Hs. destruct (enqueue _ _ _ _) as [[a' c'] o].
  destruct Hs as (-> & Ho & Hq). split; cbn; [constructor| |by destruct Ho as [->|[? ->]]..].
  destruct Hq as [->|(e & -> & He)]; [by left|right; left]. by exists e.
Qed.

Lemma handles_preview an message a : handles "start_preview" a (start_preview overflow overflow32 bitrates numbers error_text an message a).
Proof.
  unfold start_preview. destruct (parseStreamOptions _ _ _ _ _) as [options|e]; [|apply handles_stream_error].
  set (a1 := with_preview true _). apply (handles_same _ a a1); [done|].
  assert (same_queue (agMedia a1) (StartPreview overflow bitrates numbers (anDevice an) options (agMedia a1)).1.1) as Hq
    by apply (reconcile_queue overflow bitrates numbers (anDevice an) (set_preview (Some options) (agMedia a1))).
  pose proof (handles_on_media "start_preview" _ a1 (λ a r, match r with
    | Err e => streamError error_text message e (with_preview false a)
    | Ok _ => enqueue overflow overflow32 keyframe_event a end) Hq) as Hh.
  destruct (on_media _ a1) as [[a2 c] [[]|e]]; apply Hh; intros a' [[]|e'] _;
    first [apply handles_keyframe|by apply (handles_same _ a' (with_preview false a')), handles_stream_error].
Qed.

Lemma handles_forward an message a : handles "forward" a (forward_message overflow bitrates numbers error_text an message a).
Proof.
  unfold forward_message. set (a1 := match mapField message "payload" with Some _ => _ | None => a end).
  assert (waiting a1 = waiting a ∧ agMedia a1 = agMedia a) as [Hw Hm].
  { unfold a1. destruct (mapField message "payload"); [|done]. by case_bool_decide. }
  pose proof (HandleForward_queue overflow bitrates numbers (anDevice an) message (anPion an) (agMedia a1)) as Hq.
  pose proof (handles_on_media "forward" _ a1 (λ a r, match r with
    | Err e => streamError error_text message e a | Ok _ => (a, [], Done) end) Hq) as Hh.
  destruct (on_media _ a1) as [[a2 c] [[]|e]]; cbn [with_effects] in Hh; rewrite ?app_nil_r in Hh;
    (destruct Hh as [H1 H2 H3 H4]; [intros a' [[]|e'] _; [apply handles_quiet; auto|apply handles_stream_error]|]);
    rewrite Hw in H2; by split.
Qed.

Lemma handles_disconnected an c a : handles "client_disconnected" a (client_disconnected overflow bitrates numbers an c a).
Proof.
  unfold client_disconnected. pose proof (CloseSession_queue c (agMedia a)) as H3.
  assert (Forall (effect_type "client_disconnected") (map ATerminal (Terminal.CloseClient c (agTerminals a)).2)) as H1.
  { apply effects_closing; [by right|]. apply close_keys_closing. }
  assert (Forall (effect_type "client_disconnected") (map AFile (DeviceFiles.CloseClient c (agFiles a)).2)) as H2.
  { apply effects_file. intros e [stage ->]%CloseClient_discards. by right. }
  destruct (Terminal.CloseClient _ _) as [t c1], (DeviceFiles.CloseClient _ _) as [f c2].
  destruct (CloseSession c (agMedia a)) as [m c3]. cbn [fst snd] in *.
  pose proof (StopIdle_queue overflow bitrates numbers (anDevice an) (anCancelled an) m) as H4.
  destruct (StopIdle _ _ _ _ _ m) as [m' c4]. unfold same_queue in *. cbn in *.
  apply handles_quiet; [|unfold waiting; cbn; congruence|by left]. rewrite !Forall_app. auto with agent.
Qed.

Lemma handles_config message a : handles "agent_config" a (agent_config ice config message a).
Proof.
  unfold agent_config. destruct (if bool_decide _ then _ else _) as [[[]|e] w]; [|apply handles_quiet; [constructor|done|right; by eexists]].
  apply handles_quiet; [constructor|done|by left].
Qed.

Lemma handles_inject an message a : handles "inject_data" a (inject_data overflow overflow32 error_text config an message a).
Proof.
  unfold inject_data. destruct (negb (bool_decide _)); [apply handles_send|].
  destruct (mapField message "payload") as [event|]; [|apply handles_quiet; [constructor|done|by left]].
  destruct (browserControlAllowed event) eqn:E; cbn [negb]; [|apply handles_stream_error].
  apply handles_control; [done|set_solver].
Qed.

Lemma handles_of_terminals type r a : (∀ e, e ∈ r.1.2 → effect_type type (ATerminal e)) → handles type a (on_terminals r a).
Proof.
  intros Hc. destruct r as [[t c] r]. apply handles_quiet; [by apply effects_terminal|done|apply outcome_of_cases].
Qed.

Lemma handles_of_files type r a : type ∈ file_messages → handles type a (on_files r a).
Proof. intros Ht. apply handles_quiet; [by apply effects_of_files|done|by left]. Qed.

Lemma handles_done type a c : Forall (effect_type type) c → handles type a (a, c, Done).
Proof. intros Hc. apply handles_quiet; [done|done|by left]. Qed.

Lemma handles_audio an message a : handles "start_audio" a
  (match on_media (StartAudio overflow bitrates numbers (anDevice an) message (agMedia a)) a with
   | (a, c, Err e) => with_effects c (send_json an {[ "message_type" := VStr "audio_error";
       "client_id" := VStr (stringField message "client_id"); "error" := VStr (error_text e) ]} a)
   | (a, c, Ok _) => (a, c, Done) end).
Proof.
  pose proof (StartAudio_queue overflow bitrates numbers (anDevice an) message (agMedia a)) as Hq.
  pose proof (handles_on_media "start_audio" _ a (λ a r, match r with
    | Err e => send_json an {[ "message_type" := VStr "audio_error"; "client_id" := VStr (stringField message "client_id");
                               "error" := VStr (error_text e) ]} a
    | Ok _ => (a, [], Done) end) Hq) as Hh.
  destruct (on_media _ a) as [[a2 c] [[]|e]]; cbn [with_effects] in Hh; rewrite ?app_nil_r in Hh; apply Hh;
    intros a' [[]|e'] _; first [by apply handles_done; constructor|apply handles_send].
Qed.

Lemma handles_stopped type r a : same_queue (agMedia a) r.1.1 →
  handles type a (let '(a, c, r) := on_media r a in (a, c, outcome_of r)).
Proof.
  intros Hq. pose proof (handles_on_media type r a (λ a r, (a, [], outcome_of r)) Hq) as Hh. destruct (on_media r a) as [[a2 c] res].
  cbn [with_effects] in Hh. rewrite app_nil_r in Hh. apply Hh. intros a' res' _. apply handles_quiet; auto with agent.
Qed.

(** Every message: its effects are those of its type. *)
Lemma handleMessage_spec an message a : handles (stringField message "message_type") a (handle an message a).
Proof.
  unfold handleMessage. set (type := stringField message "message_type").
  repeat (case_bool_decide as Hty; [rewrite Hty|clear Hty]).
  - case_bool_decide; [by split; [constructor|left|..]|apply handles_quiet; [constructor|done|right; by eexists]].
  - apply handles_config.
  - apply handles_quiet; [constructor|done|by left].
  - by split; [constructor|left|..].
  - apply handles_audio.
  - apply handles_stopped, (reconcile_queue _ _ _ _ (set_audio false ∅ (agMedia a))).
  - apply handles_preview.
  - apply (handles_same _ a (with_preview false a)); [done|]. apply handles_stopped, (reconcile_queue _ _ _ _ (set_preview None (agMedia a))).
  - apply handles_disconnected.
  - apply handles_forward.
  - apply handles_done. by repeat constructor.
  - apply handles_done. by repeat constructor.
  - apply handles_send.
  - apply handles_done. by repeat constructor.
  - apply handles_of_files. set_solver.
  - apply handles_of_files. set_solver.
  - destruct (b64std_decode _); [apply handles_of_files; set_solver|]. apply handles_quiet; [constructor|done|right; by eexists].
  - apply handles_of_terminals, Forall_forall, Open_effects.
  - apply handles_done, effects_terminal. unfold Input, InputBytes. intros e. repeat case_match; by first [intros ->%list_elem_of_singleton|intros ?%elem_of_nil].
  - apply handles_done, effects_terminal. unfold Resize. intros e. repeat case_match; by first [intros ->%list_elem_of_singleton|intros ?%elem_of_nil].
  - apply handles_of_terminals. intros e He. cbn [fst snd] in He.
    pose proof (closeSession_closing (terminal_key (stringField message "client_id") (stringField message "session_id")) None (agTerminals a)) as Hc.
    unfold Terminal.Close in He. destruct (closeSession _ _ _) as [t c]. cbn [fst snd] in *. rewrite Forall_forall in Hc.
    specialize (Hc e He). destruct e; cbn in *; try done; left; set_solver.
  - destruct (browserControlAllowed _) eqn:E; cbn [negb]; [apply handles_control; [done|set_solver]|].
    apply handles_quiet; [constructor|done|right; by eexists].
  - apply handles_inject.
  - apply handles_done. constructor.
Qed.
End handled.

Lemma reconcile_managers overflow bitrates numbers ad m :
  mdDisplay (reconcileDisplay overflow bitrates numbers ad m).1.1 = mdDisplay m ∧
  mdCamera (reconcileDisplay overflow bitrates numbers ad m).1.1 = mdCamera m ∧
  mdPreview (reconcileDisplay overflow bitrates numbers ad m).1.1 = mdPreview m ∧
  mdAudio (reconcileDisplay overflow bitrates numbers ad m).1.1 = mdAudio m.
Proof.
  unfold reconcileDisplay, start_display, stop_display. destruct (LatestVideoOptions _) as [o [|]]; [by destruct (Start _ _ _) as [[b c] r]|].
  destruct (mdPreview m) eqn:Ep; [by destruct (Start _ _ _) as [[b c] r]; split_and!|].
  destruct (mdAudio m) eqn:Ea; [by destruct (Start _ _ _) as [[b c] r]; split_and!|].
  by destruct (Stop _ _) as [[b c] r]; split_and!.
Qed.

Lemma StopIdle_managers overflow bitrates numbers ad cancelled m :
  let m' := (StopIdle overflow bitrates numbers ad cancelled m).1 in
  mdDisplay m' = mdDisplay m ∧ mdCamera m' = mdCamera m ∧ mdPreview m' = mdPreview m ∧ mdAudio m' = mdAudio m.
Proof.
  intros m'. unfold m', StopIdle. destruct (_ || _); [done|]. destruct (reconcile_managers overflow bitrates numbers ad m) as (H1 & H2 & H3 & H4).
  destruct (reconcileDisplay _ _ _ _ m) as [[m1 c1] r1]. cbn [fst] in *. unfold start_camera, stop_camera.
  destruct (LatestVideoOptions _) as [o [|]]; [destruct (Start _ _ _) as [[b c] r]|destruct (Stop _ _) as [[b c] r]]; by split_and!.
Qed.

(** *** Viewers *)

(** What the callbacks of the peers of both sources may do. *)
Definition viewers (m : mediaManager) : list viewer := mgViewers (mdDisplay m) ++ mgViewers (mdCamera m).

(** The viewer a forwarded request is for. *)
Definition viewer_of (message : gmap string value) (v : viewer) : Prop :=
  vwClient v = stringField message "client_id" ∧
  let permissions := match message !! "permissions" with Some (VMap p) => p | _ => ∅ end in
  vwControl v = eq_true (permissions !! "control") ∧ vwShell v = eq_true (permissions !! "shell").

Section viewers.
Context (overflow : Z) (bitrates : list string) (numbers : list (string * Z)).

Lemma rtc_viewers message pa r v : v ∈ mgViewers (WebRTC.HandleForward overflow bitrates numbers message pa r).1.1 →
  v ∈ mgViewers r ∨ viewer_of message v.
Proof.
  unfold WebRTC.HandleForward. destruct (mapField _ _) as [payload|]; [|by left].
  destruct (bool_decide (_ = "")); [by left|]. destruct (bool_decide _).
  - unfold createOffer. destruct (mgSessions r !! _); [by left|].
    destruct (parseBitrateOptions _ _ _); [|by left]. destruct (parseStreamOptions _ _ _ _ _); [|by left].
    destruct (pa_offer pa); [|by left]. cbn. intros [?| ->%list_elem_of_singleton]%elem_of_app; [by left|right]. by split_and!.
  - destruct (bool_decide _).
    + unfold setAnswer. destruct (setAnswer_lookup _ _ _) as [[p|]|]; [|by left..].
      unfold setAnswer_finish. destruct (pa_remote pa); [|by left]. destruct (add_all _ _ _). by left.
    + destruct (bool_decide _); [|by left]. unfold addCandidate. destruct (pa_candidate _ _); [|by left].
      destruct (mgSessions r !! _) as [s|]; [|by left]. destruct (ssPeer s); [|by left]. case_decide; by left.
Qed.

Lemma forward_viewers camera message pa m v : v ∈ viewers (forward overflow bitrates numbers camera message pa m).1.1 →
  v ∈ viewers m ∨ viewer_of message v.
Proof.
  unfold forward. pose proof (rtc_viewers message pa (if camera then mdCamera m else mdDisplay m) v) as Hv.
  destruct (WebRTC.HandleForward _ _ _ _ _ _) as [[r o] e]. unfold viewers. cbn in Hv.
  destruct camera; cbn; rewrite !elem_of_app; intros [?|?]; naive_solver.
Qed.

Lemma start_managers ad (camera : bool) options m :
  mdDisplay ((if camera then start_camera ad else start_display ad) options m).1.1 = mdDisplay m ∧
  mdCamera ((if camera then start_camera ad else start_display ad) options m).1.1 = mdCamera m.
Proof. destruct camera; unfold start_camera, start_display; by destruct (Start _ _ _) as [[b c] r]. Qed.

Lemma codec_viewers profile track r : mgViewers (SetVideoCodec profile track r).1 = mgViewers r.
Proof. unfold SetVideoCodec. by repeat case_match. Qed.

Lemma prepare_viewers ad camera options m : viewers (prepare ad camera options m).1.1 = viewers m.
Proof.
  unfold prepare. destruct (_ && _); [done|]. set (start := if camera then start_camera ad else start_display ad).
  pose proof (λ o m, start_managers ad camera o m) as Hs. fold start in Hs.
  destruct (Hs options m) as [H1 H2]. destruct (start options m) as [[m1 c] [u|e]]; cbn [fst] in H1, H2; [|by unfold viewers; cbn; rewrite H1, H2].
  destruct (ad_codec ad) as [profile|e]; [|by unfold viewers; cbn; rewrite H1, H2].
  pose proof (codec_viewers profile (ad_track ad) (if camera then mdCamera m else mdDisplay m)) as Hr.
  destruct (SetVideoCodec _ _ _) as [r [u'|e]]; cbn [fst] in Hr.
  - unfold viewers. destruct camera; cbn; by rewrite ?H1, ?H2, Hr.
  - destruct (LatestVideoOptions _).2; [|by unfold viewers; cbn; rewrite H1, H2].
    destruct (Hs (currentOptions (if camera then mdCameraBridge m else mdDisplayBridge m)) m1) as [H3 H4].
    destruct (start _ m1) as [[m2 c'] r']. unfold viewers. cbn in *. congruence.
Qed.

Lemma HandleForward_viewers ad message pa m v : v ∈ viewers (Media.HandleForward overflow bitrates numbers ad message pa m).1.1 →
  v ∈ viewers m ∨ viewer_of message v.
Proof.
  unfold Media.HandleForward. destruct (negb _); [apply forward_viewers|].
  destruct (parseStreamOptions _ _ _ _ _) as [o|]; [|by left]. destruct (_ && _ && _); [by left|]. destruct (_ && _); [by left|].
  destruct (HasClient _ _); [apply forward_viewers|]. destruct (eq_false _); [apply forward_viewers|].
  match goal with |- context [prepare ad ?c ?o m] => pose proof (prepare_viewers ad c o m) as H1;
    destruct (prepare ad c o m) as [[m1 c1] [u|e]]; cbn [fst] in H1; rewrite <-H1 end; [|by left].
  match goal with |- context [forward _ _ _ ?c message pa m1] => pose proof (forward_viewers c message pa m1 v) as H2;
    destruct (forward overflow bitrates numbers c message pa m1) as [[m2 c2] r2] end. exact H2.
Qed.

(** The operations that make no viewer. *)
Lemma reconcile_viewers ad m : viewers (reconcileDisplay overflow bitrates numbers ad m).1.1 = viewers m.
Proof. destruct (reconcile_managers overflow bitrates numbers ad m) as (H1 & H2 & _). unfold viewers. by rewrite H1, H2. Qed.

Lemma StopIdle_viewers ad cancelled m : viewers (StopIdle overflow bitrates numbers ad cancelled m).1 = viewers m.
Proof. destruct (StopIdle_managers overflow bitrates numbers ad cancelled m) as (H1 & H2 & _). unfold viewers. by rewrite H1, H2. Qed.

Lemma StartAudio_viewers ad raw m : viewers (StartAudio overflow bitrates numbers ad raw m).1.1 = viewers m.
Proof.
  unfold StartAudio. destruct (parseStreamOptions _ _ _ _ _) as [o|]; [|done]. destruct (audio_too_old _); [done|].
  match goal with |- context [start_display ad ?o m] => pose proof (start_managers ad false o m) as [H1 H2] end.
  unfold viewers. destruct (start_display _ _ m) as [[m1 c] [u|e]]; cbn in *; congruence.
Qed.

Lemma CloseSession_viewers clientID m : viewers (CloseSession clientID m).1 = viewers m.
Proof.
  unfold CloseSession, viewers.
  assert (∀ r, mgViewers (WebRTC.CloseSession clientID r).1 = mgViewers r) as Hr
    by (intros r; unfold WebRTC.CloseSession; by destruct (mgSessions r !! clientID)).
  pose proof (Hr (mdDisplay m)) as H1. pose proof (Hr (mdCamera m)) as H2.
  destruct (WebRTC.CloseSession _ (mdDisplay m)), (WebRTC.CloseSession _ (mdCamera m)). cbn in *. congruence.
Qed.

Lemma ice_viewers servers m : viewers (Media.SetICEServers servers m) = viewers m.
Proof. by destruct servers. Qed.
End viewers.

Section kept.
Context `{Crypto} (overflow : Z) (overflow32 : float64 → Z) (overflow_int : float64 → Z).
Context (bitrates : list string) (numbers : list (string * Z)).
Context (error_text : error → string) (ice : option value → option (list string)).
Context (config : agentConfig).
Abbreviation handle := (handleMessage overflow overflow32 overflow_int bitrates numbers error_text ice config).

(** The identity file and the viewers stay as they are. *)
Definition kept (a a' : agent) : Prop := agWorld a' = agWorld a ∧ viewers (agMedia a') = viewers (agMedia a).

Lemma kept_on_media r a : viewers r.1.1 = viewers (agMedia a) → kept a (on_media r a).1.1.
Proof. destruct r as [[m c] r]. by intros Hm. Qed.

Lemma kept_control an event a : kept a (control overflow overflow32 an event a).1.1.
Proof.
  unfold control. pose proof (kept_on_media (start_display (anDevice an) control_options (agMedia a)) a) as Hk.
  destruct (start_managers (anDevice an) false control_options (agMedia a)) as [H1 H2].
  destruct (on_media _ a) as [[a1 c] [[]|e]] eqn:E; cbn in Hk; specialize (Hk (ltac:(unfold viewers; congruence))); [|done].
  unfold enqueue, with_effects. by destruct (EnqueueControl _ _ _ _) as [b r].
Qed.

Lemma handleMessage_kept an message a :
  let '(a', _, _) := handle an message a in
  (stringField message "message_type" ≠ "agent_config" → agWorld a' = agWorld a) ∧
  ∀ v, v ∈ viewers (agMedia a') → v ∈ viewers (agMedia a) ∨ stringField message "message_type" = "forward" ∧ viewer_of message v.
Proof.
  set (type := stringField message "message_type").
  enough ((type ≠ "forward" → type ≠ "agent_config" → kept a (handle an message a).1.1) ∧
          (type = "forward" → agWorld (handle an message a).1.1 = agWorld a ∧
             ∀ v, v ∈ viewers (agMedia (handle an message a).1.1) → v ∈ viewers (agMedia a) ∨ viewer_of message v) ∧
          (type = "agent_config" → viewers (agMedia (handle an message a).1.1) = viewers (agMedia a))) as (H1 & H2 & H3).
  { destruct (handle an message a) as [[a' c] o]. cbn [fst] in *.
    destruct (decide (type = "forward")) as [Hf|Hf]; [destruct (H2 Hf) as [Hw Hv]; split; [done|]; intros v [?|?]%Hv; [by left|by right]|].
    destruct (decide (type = "agent_config")) as [Hc|Hc]; [split; [done|]; intros v; rewrite (H3 Hc); by left|].
    destruct (H1 Hf Hc) as [Hw Hv]. split; [done|]. intros v. rewrite Hv. by left. }
  unfold handleMessage. fold type. split; [|split].
  2: { intros ->. cbn. unfold forward_message. set (a1 := match mapField message "payload" with Some _ => _ | None => a end).
    assert (agWorld a1 = agWorld a ∧ agMedia a1 = agMedia a) as [Hw Hm].
    { unfold a1. destruct (mapField message "payload"); [|done]. by case_bool_decide. }
    pose proof (HandleForward_viewers overflow bitrates numbers (anDevice an) message (anPion an) (agMedia a1)) as Hv.
    rewrite Hm in *. unfold on_media. destruct (Media.HandleForward _ _ _ _ _ _ _) as [[m c] [[]|e]]; by split. }
  2: { intros ->. rewrite !bool_decide_false by done. rewrite bool_decide_true by done. unfold agent_config. destruct (if bool_decide _ then _ else _) as [[[]|e] w]; [apply ice_viewers|done]. }
  intros Hf Hc. rewrite (bool_decide_false (type = "forward")), (bool_decide_false (type = "agent_config")) by done. cbv zeta iota.
  repeat match goal with |- kept _ (if bool_decide (type = ?k) then _ else _).1.1 => destruct (bool_decide (type = k)) end;
    try (by split).
  - case_bool_decide; by split.
  - pose proof (kept_on_media _ a (StartAudio_viewers overflow bitrates numbers (anDevice an) message (agMedia a))) as Hk.
    by destruct (on_media _ a) as [[a1 c] [[]|e]].
  - pose proof (kept_on_media _ a (reconcile_viewers overflow bitrates numbers (anDevice an) (set_audio false ∅ (agMedia a)))) as Hk.
    unfold StopAudio. by destruct (on_media _ a) as [[a1 c] r].
  - unfold start_preview. destruct (parseStreamOptions _ _ _ _ _) as [options|e]; [|by split].
    set (a1 := with_preview true _).
    pose proof (kept_on_media _ a1 (reconcile_viewers overflow bitrates numbers (anDevice an) (set_preview (Some options) (agMedia a1)))) as Hk.
    unfold StartPreview. destruct (on_media _ a1) as [[a2 c] [[]|e]]; [|by destruct Hk; split].
    unfold enqueue, with_effects. destruct (EnqueueControl _ _ _ _) as [b r]. by destruct Hk; split.
  - pose proof (kept_on_media _ (with_preview false a) (reconcile_viewers overflow bitrates numbers (anDevice an) (set_preview None (agMedia a)))) as Hk.
    unfold StopPreview. by destruct (on_media _ (with_preview false a)) as [[a1 c] r].
  - unfold client_disconnected. destruct (Terminal.CloseClient _ _), (DeviceFiles.CloseClient _ _).
    pose proof (CloseSession_viewers (stringField message "client_id") (agMedia a)) as H1.
    destruct (CloseSession _ _) as [m c3]. pose proof (StopIdle_viewers overflow bitrates numbers (anDevice an) (anCancelled an) m) as H2.
    destruct (StopIdle _ _ _ _ _ _) as [m' c4]. split; [done|]. cbn in *. congruence.
  - by destruct (b64std_decode _).
  - unfold on_terminals. by destruct (Terminal.Open _ _ _ _ _ _ _) as [[t c] r].
  - unfold on_terminals. by destruct (Terminal.Close _ _ _) as [t c].
  - destruct (negb _); [by split|]. apply kept_control.
  - unfold inject_data. destruct (negb _); [by split|]. destruct (mapField _ _) as [event|]; [|by split].
    destruct (negb _); [by split|]. apply kept_control.
Qed.
End kept.

(** ** Lemmas: a client that leaves *)

Lemma closeSession_stops k m s : tmSessions m !! k = Some s → TStop (tsHandle s) ∈ (closeSession k None m).2.
Proof. intros Hs. unfold closeSession. rewrite Hs. by left. Qed.

Lemma closeSession_other k k' m : k' ≠ k → tmSessions (closeSession k None m).1 !! k' = tmSessions m !! k'.
Proof.
  intros Hne. unfold closeSession. destruct (tmSessions m !! k); [|done]. cbn. by rewrite lookup_delete_ne.
Qed.

Lemma close_keys_stops keys : ∀ m k s, k ∈ keys → tmSessions m !! k = Some s → TStop (tsHandle s) ∈ (close_keys keys m).2.
Proof.
  induction keys as [|k' keys IH]; intros m k s Hk Hs; [by apply elem_of_nil in Hk|]. cbn [close_keys].
  pose proof (closeSession_stops k' m) as H1. pose proof (closeSession_other k' k m) as H2. specialize (IH (closeSession k' None m).1 k s).
  destruct (closeSession k' None m) as [m1 c1]. cbn [fst snd] in *. destruct (close_keys keys m1) as [m2 c2]. cbn [snd] in *.
  apply elem_of_app. destruct (decide (k = k')) as [->|Hne]; [left; by apply H1|right].
  apply elem_of_cons in Hk as [->|Hk]; [done|]. apply IH; [done|]. by rewrite H2.
Qed.

Lemma CloseClient_stops c m i s : tmSessions m !! terminal_key c i = Some s → TStop (tsHandle s) ∈ (Terminal.CloseClient c m).2.
Proof.
  intros Hs. unfold Terminal.CloseClient. eapply close_keys_stops; [|exact Hs]. apply list_elem_of_In, filter_In. split.
  - apply list_elem_of_In, elem_of_session_keys. by exists s.
  - unfold terminal_key. rewrite <-append_assoc. apply HasPrefix_refl_app.
Qed.

Lemma rtc_CloseSession c r : mgSessions (WebRTC.CloseSession c r).1 = delete c (mgSessions r).
Proof.
  unfold WebRTC.CloseSession. destruct (mgSessions r !! c) eqn:E; [done|]. cbn. by rewrite delete_id.
Qed.

Lemma CloseSession_sessions c m :
  mgSessions (mdDisplay (CloseSession c m).1) = delete c (mgSessions (mdDisplay m)) ∧
  mgSessions (mdCamera (CloseSession c m).1) = delete c (mgSessions (mdCamera m)) ∧
  mdClosed (CloseSession c m).1 = mdClosed m.
Proof.
  unfold CloseSession. pose proof (rtc_CloseSession c (mdDisplay m)) as H1. pose proof (rtc_CloseSession c (mdCamera m)) as H2.
  destruct (WebRTC.CloseSession c (mdDisplay m)), (WebRTC.CloseSession c (mdCamera m)). by split_and!.
Qed.

Lemma files_CloseClient c m : fmSessions (DeviceFiles.CloseClient c m).1 = delete c (fmSessions m).
Proof.
  unfold DeviceFiles.CloseClient. destruct (fmSessions m !! c) eqn:E; [done|]. cbn. by rewrite delete_id.
Qed.

(** What an agent keeps for a client. *)
Record keeps_for (c : string) (a a' : agent) : Prop := {
  kp_terminals : ∀ i, tmSessions (agTerminals a') !! terminal_key c i = tmSessions (agTerminals a) !! terminal_key c i;
  kp_files : fmSessions (agFiles a') !! c = fmSessions (agFiles a) !! c;
  kp_display : mgSessions (mdDisplay (agMedia a')) !! c = mgSessions (mdDisplay (agMedia a)) !! c;
  kp_camera : mgSessions (mdCamera (agMedia a')) !! c = mgSessions (mdCamera (agMedia a)) !! c;
}.
Record holds_nothing (c : string) (a : agent) : Prop := {
  hn_terminals : ∀ i, tmSessions (agTerminals a) !! terminal_key c i = None;
  hn_files : fmSessions (agFiles a) !! c = None;
  hn_display : mgSessions (mdDisplay (agMedia a)) !! c = None;
  hn_camera : mgSessions (mdCamera (agMedia a)) !! c = None;
}.

(** ** Properties *)


(** ** Witnesses *)

Module AgentWitness.
Import ToyCrypto.
Definition config : agentConfig :=
  ResolveDefaults (MkAgentConfig "" "" "phone" "wss://server" "enroll" "" "" "" "" false).
Definition files_answers : file_answers :=
  MkFileAnswers (λ _, Ok []) (λ _, Ok ()) (λ _, Ok ()) (λ _, Ok "stage") (λ _ d, (length d, None)) (λ _, Ok ())
    (λ _, Ok ()) (λ _, Ok ()) (λ _ _, Ok ()) (λ _, Ok "").
Definition answers : agent_answers :=
  MkAgentAnswers MediaWitness.ad MediaWitness.pion files_answers (Ok ()) false (Ok ()).
Definition handle := handleMessage 0 (λ _, 0) (λ _, 0) bitrate_keys numeric (λ _, "failed") (λ _, Some []) config answers.
Definition from (client type : string) : gmap string value :=
  {[ "client_id" := VStr client; "message_type" := VStr type; "session_id" := VStr "1" ]}.
Definition start : agent :=
  MkAgent newMediaManager newTerminalManager newDeviceFileManager false 10 (MkWorld ∅ ∅ []).
Definition step (a : agent) (m : gmap string value) : agent := (handle m a).1.1.
Definition busy : agent :=
  foldl step (connected config ∅ start).1
    [from "alice" "pty_open"; from "alice" "file_open"; from "bob" "file_open";
     <["payload" := VMap {[ "type" := VStr "request-offer" ]}]> (from "alice" "forward")].

End AgentWitness.
