(* ===== verification/Http.v ===== *)
(** * HTTP handlers: requests, responses and the state they run on (server.go, auth.go)

    A handler is a program of a small monad over the state of the server: it reads and
    changes the state and may answer at any point, after which nothing more runs.  The
    store behind the interface [Store] is the persistent one; whether each of its writes
    succeeds, the instant and the random bytes come with the request. *)

From S2P Require Import Prelude GoBase GoStrings GoFloat Model Store Config LoginLimiter Hub Auth Grants Server Persist Json.
From S2P Require Users Devices Shares Enrollments Assets Tasks.

Declare Scope http_scope.
Delimit Scope http_scope with http.

(** ** Requests and responses *)

(** [rqBody] is the JSON document of the body, [rqContent] its bytes (an error when it
    cannot be read) and [rqLength] its declared length, -1 when unknown; the path is the
    one left after the redirections of the router. *)
Record Request := MkRequest {
  rqMethod : string;
  rqPath : string;
  rqQuery : gmap string string;
  rqAuthorization : string;
  rqOrigin : string;
  rqRemoteAddr : string;
  rqForwardedFor : string;
  rqLength : Z;
  rqBody : document;
  rqContent : result bytes
}.

Definition Query (r : Request) (key : string) : string := default "" (rqQuery r !! key).

(** A member of a deployment archive; the configuration is JSON of this map. *)
Inductive entry := EBytes (data : bytes) | EConfig (config : gmap string string).

(** What a response carries: the records of model.go are encoded with their JSON tags. *)
Inductive content :=
| CEmpty
| CJSON (v : value)
| CUser (user : User)
| CUsers (users : list userPresence)
| CDevices (devices : list Device)
| CTags (tags : list Tag) (deviceTags : gmap string (list string))
| CShortcuts (shortcuts : list Shortcut)
| CAsset (asset : Asset)
| CAssets (assets : list Asset)
| CTask (task : Task)
| CTasks (tasks : list Task)
| CCredential (credential : DeploymentCredential)
| CCredentials (credentials : list DeploymentCredential)
| CNewCredential (credential : DeploymentCredential) (token : string)
| CFile (data : bytes)
| CArchive (entries : list (string * entry * bool))
| CText (text : string).

Record Response := MkResponse {
  rsStatus : Z;
  rsHeaders : gmap string string;
  rsContent : content
}.

(** [err.Error()] *)
Definition Error (x : error) : string :=
  match x with
  | ErrNotFound => "not found"
  | ErrAlreadyExists => "already exists"
  | ErrInvalidAuth => "invalid credentials"
  | ErrForbidden => "forbidden"
  | ErrInvalidToken => "invalid enrollment token"
  | errInvalidDeploymentRequest => "invalid deployment credential request"
  | ErrMsg text => text
  end.

Definition StatusOK : Z := 200.
Definition StatusCreated : Z := 201.
Definition StatusNoContent : Z := 204.
Definition StatusBadRequest : Z := 400.
Definition StatusUnauthorized : Z := 401.
Definition StatusForbidden : Z := 403.
Definition StatusNotFound : Z := 404.
Definition StatusMethodNotAllowed : Z := 405.
Definition StatusConflict : Z := 409.
Definition StatusRequestEntityTooLarge : Z := 413.
Definition StatusTooManyRequests : Z := 429.
Definition StatusInternalServerError : Z := 500.
Definition StatusServiceUnavailable : Z := 503.

Definition writeJSON (status : Z) (c : content) : Response :=
  MkResponse status {[ "Content-Type" := "application/json; charset=utf-8" ]} c.
Definition writeError (status : Z) (message : string) : Response :=
  writeJSON status (CJSON (VMap {[ "error" := VStr message ]})).
Definition set_header (key v : string) (r : Response) : Response :=
  MkResponse (rsStatus r) (<[key := v]> (rsHeaders r)) (rsContent r).

(** ** State *)

(** The server with the row of its database, the health of its store and the files of
    its asset directory, by path. *)
Record Api := MkApi {
  apServer : Server;
  apRow : option persistedState;
  apHealth : option error;
  apFiles : gmap string bytes
}.

Definition store_of (s : Api) : MemoryStore := svStore (apServer s).
Definition hub_of (s : Api) : realtimeHub := svHub (apServer s).
Definition postgres (s : Api) : PostgresStore := MkPostgresStore (store_of s) (apRow s) (apHealth s).
Definition put_postgres (p : PostgresStore) (s : Api) : Api :=
  MkApi (with_store (λ _, pg_inner p) (apServer s)) (pg_row p) (pg_healthErr p) (apFiles s).
Definition on_server (g : Server → Server) (s : Api) : Api :=
  MkApi (g (apServer s)) (apRow s) (apHealth s) (apFiles s).
Definition on_files (g : gmap string bytes → gmap string bytes) (s : Api) : Api :=
  MkApi (apServer s) (apRow s) (apHealth s) (g (apFiles s)).

(** What surrounds one request: the instant, the random bytes drawn, whether each write
    of the store and each file operation succeeds, and the health of Redis. *)
Record env := MkEnv {
  evNow : Time;
  evRand : nat → bytes;
  evDB : nat → bool;
  evDisk : nat → bool;
  evRedis : bool
}.

(** ** The monad of handlers *)

Definition M (A : Type) : Type := Api → (Response + A) * Api.

Definition ret {A} (a : A) : M A := λ s, (inr a, s).
Definition bind {A B} (m : M A) (f : A → M B) : M B := λ s,
  match m s with
  | (inl r, s) => (inl r, s)
  | (inr a, s) => f a s
  end.
Notation "'let!' x ':=' m 'in' k" := (bind m (λ x, k)) (at level 10, x name, m at level 100, k at level 200) : http_scope.
Notation "m ;; k" := (bind m (λ _, k)) (at level 100, right associativity) : http_scope.
Open Scope http_scope.

Definition answer {A} (r : Response) : M A := λ s, (inl r, s).
Definition run (m : M Response) (s : Api) : Response * Api :=
  match m s with (inl r, s) => (r, s) | (inr r, s) => (r, s) end.

(** [if !ok { writeError(...); return }] *)
Definition require (ok : bool) (status : Z) (message : string) : M () :=
  if ok then ret () else answer (writeError status message).
Definition method (r : Request) (name : string) : M () :=
  if bool_decide (rqMethod r = name) then ret () else answer (writeError StatusMethodNotAllowed "method not allowed").
Definition methodNotAllowed {A} : M A := answer (writeError StatusMethodNotAllowed "method not allowed").
Definition ok_or {A} (x : result A) (status : Z) (message : string) : M A :=
  match x with Ok a => ret a | Err _ => answer (writeError status message) end.
Definition some_or {A} (x : option A) (status : Z) (message : string) : M A :=
  match x with Some a => ret a | None => answer (writeError status message) end.

Definition get_state : M Api := λ s, (inr s, s).
Definition reads {A} (f : MemoryStore → A) : M A := λ s, (inr (f (store_of s)), s).
Definition updates (f : Server → Server) : M () := λ s, (inr (), on_server f s).
Definition stores {A} (f : PostgresStore → A * PostgresStore) : M A := λ s,
  let '(a, p) := f (postgres s) in (inr a, put_postgres p s).
(** A read that drops expired entries of the inner store. *)
Definition reads_inner {A} (f : MemoryStore → A * MemoryStore) : M A :=
  stores (λ p, let '(a, i) := f (pg_inner p) in (a, with_inner i p)).
Definition stores_ (f : PostgresStore → PostgresStore) : M () := stores (λ p, ((), f p)).

(** ** Audit and authentication *)

Section auth.
Context `{Crypto} {J : JWT}.
Context (e : env).

(** The i-th write and the i-th random bytes of the request. *)
Definition audit_event (i : nat) (user : User) (action target : string) (metadata : vmap) : M () :=
  stores_ (Persist.Audit (evDB e i) (evRand e i) (evNow e)
             (MkAuditEvent "" (uUsername user) action target metadata time_zero)).

Definition current_user (r : Request) : Api → result User := λ s,
  userFromRequest (evNow e) (cfJWTSecret (svConfig (apServer s))) (rqAuthorization r) (store_of s).

Definition requireUser (next : Request → User → M Response) (r : Request) : M Response :=
  let! s := get_state in
  let! user := ok_or (current_user r s) StatusUnauthorized "unauthorized" in
  next r user.

Definition requireAdmin (next : Request → User → M Response) : Request → M Response :=
  requireUser (λ r user,
    require (is_admin user) StatusForbidden "admin permission required" ;;
    next r user).

Definition requireCapability (user : User) (capability : string) : M () :=
  require (Can user capability) StatusForbidden (capability +:+ " permission required").
End auth.

(** [if r.Method != http.MethodPost || decodeJSON(r, &body) != nil]: one answer for both. *)
Definition post_body (fields : schema) (r : Request) (message : string) : M vmap :=
  require (bool_decide (rqMethod r = "POST")) StatusBadRequest message ;;
  some_or (decodeJSON fields (rqBody r)) StatusBadRequest message.

(** [time.Now().UTC().Add(time.Duration(n) * time.Second)] *)
Definition after_seconds (e : env) (n : Z) : Time := Add (evNow e) (seconds n).

(** Times in maps a handler builds. *)
Definition time_value (t : option Time) : value := match t with Some t => VInt t | None => VNull end.
Definition jmap (m : vmap) : content := CJSON (VMap m).
Definition status_ok : content := jmap {[ "status" := VStr "ok" ]}.

(** ** What a handler may do to the state

    [keeps R s m]: run in [s], [m] ends in a state related to [s].  The rules follow the
    handler step by step, collecting what its guards have established. *)
Definition keeps {A} (R : Api → Api → Prop) (s : Api) (m : M A) : Prop := R s (snd (m s)).

Section keeps.
Context (R : Api → Api → Prop) `{!PreOrder R}.
Implicit Types s : Api.

Lemma keeps_ret {A} s (a : A) : keeps R s (ret a).
Proof. unfold keeps. cbn. reflexivity. Qed.
Lemma keeps_answer {A} s r : keeps R s (answer (A:=A) r).
Proof. unfold keeps. cbn. reflexivity. Qed.
Lemma keeps_require {B} s b status message (k : M B) :
  (b = true → keeps R s k) → keeps R s (require b status message ;; k).
Proof. unfold require. intros Hk. destruct b; [by apply Hk|apply keeps_answer]. Qed.
Lemma keeps_method {B} s r name (k : M B) :
  (rqMethod r = name → keeps R s k) → keeps R s (method r name ;; k).
Proof. unfold method. intros Hk. destruct (bool_decide _) eqn:E; [bool_to_prop; by apply Hk|apply keeps_answer]. Qed.
Lemma keeps_ok_or {A B} s (x : result A) status message (k : A → M B) :
  (∀ a, x = Ok a → keeps R s (k a)) → keeps R s (bind (ok_or x status message) k).
Proof. intros Hk. destruct x; [by apply Hk|apply keeps_answer]. Qed.
Lemma keeps_some_or {A B} s (x : option A) status message (k : A → M B) :
  (∀ a, x = Some a → keeps R s (k a)) → keeps R s (bind (some_or x status message) k).
Proof. intros Hk. destruct x; [by apply Hk|apply keeps_answer]. Qed.
Lemma keeps_get_state {B} s (k : Api → M B) : keeps R s (k s) → keeps R s (bind get_state k).
Proof. done. Qed.
Lemma keeps_reads {A B} s (f : MemoryStore → A) (k : A → M B) :
  keeps R s (k (f (store_of s))) → keeps R s (bind (reads f) k).
Proof. done. Qed.
Lemma keeps_updates {B} s f (k : M B) :
  R s (on_server f s) → keeps R (on_server f s) k → keeps R s (updates f ;; k).
Proof. unfold keeps. intros H1 H2. etrans; [exact H1|exact H2]. Qed.
Lemma keeps_modify {B} s (f : Api → Api) (k : M B) :
  R s (f s) → keeps R (f s) k → keeps R s ((λ s, (inr (), f s)) ;; k).
Proof. unfold keeps. intros H1 H2. etrans; [exact H1|exact H2]. Qed.
Lemma keeps_stores {A B} s (f : PostgresStore → A * PostgresStore) (k : A → M B) :
  R s (put_postgres (snd (f (postgres s))) s) →
  keeps R (put_postgres (snd (f (postgres s))) s) (k (fst (f (postgres s)))) →
  keeps R s (bind (stores f) k).
Proof.
  unfold keeps, bind, stores. destruct (f (postgres s)) as [a p]. cbn [fst snd]. intros H1 H2.
  etrans; [exact H1|exact H2].
Qed.
Lemma keeps_stores_ {B} s (f : PostgresStore → PostgresStore) (k : M B) :
  R s (put_postgres (f (postgres s)) s) → keeps R (put_postgres (f (postgres s)) s) k →
  keeps R s (stores_ f ;; k).
Proof. intros H1 H2. by apply keeps_stores. Qed.
Lemma keeps_bind_assoc {A B D} s (m : M A) (f : A → M B) (g : B → M D) :
  keeps R s (let! a := m in let! b := f a in g b) → keeps R s (bind (bind m f) g).
Proof. unfold keeps, bind. by destruct (m s) as [[r|a] s']. Qed.
Lemma keeps_bind_answer {A B} s r (k : A → M B) : keeps R s (bind (answer r) k).
Proof. unfold keeps. cbn. reflexivity. Qed.
Lemma keeps_bind_ret {A B} s (a : A) (k : A → M B) : keeps R s (k a) → keeps R s (bind (ret a) k).
Proof. done. Qed.
End keeps.

(** Symbolic execution of a handler up to its changes of the state. *)
Ltac keeps_step :=
  lazymatch goal with
  | |- keeps _ _ (ret _) => apply (keeps_ret _)
  | |- keeps _ _ (answer _) => apply (keeps_answer _)
  | |- keeps _ _ methodNotAllowed => apply (keeps_answer _)
  | |- keeps _ _ (bind (bind _ _) _) => apply (keeps_bind_assoc _)
  | |- keeps _ _ (bind (ret _) _) => apply (keeps_bind_ret _)
  | |- keeps _ _ (bind (answer _) _) => apply (keeps_bind_answer _)
  | |- keeps _ _ (bind methodNotAllowed _) => apply (keeps_bind_answer _)
  | |- keeps _ _ (bind (require _ _ _) _) => apply (keeps_require _); intros ?
  | |- keeps _ _ (bind (method _ _) _) => apply (keeps_method _); intros ?
  | |- keeps _ _ (bind (ok_or _ _ _) _) => apply (keeps_ok_or _); intros ? ?
  | |- keeps _ _ (bind (some_or _ _ _) _) => apply (keeps_some_or _); intros ? ?
  | |- keeps _ _ (bind get_state _) => apply (keeps_get_state _)
  | |- keeps _ _ (bind (reads _) _) => apply (keeps_reads _)
  | |- keeps _ _ (bind (if ?b then _ else _) _) => let E := fresh "E" in destruct b eqn:E
  | |- keeps _ _ (bind (match ?x with _ => _ end) _) => let E := fresh "E" in destruct x eqn:E
  | |- keeps _ _ (if ?b then _ else _) => let E := fresh "E" in destruct b eqn:E
  | |- keeps _ _ (match ?x with _ => _ end) => let E := fresh "E" in destruct x eqn:E
  end.
Ltac keeps_run := repeat keeps_step.

(** ** Running a handler whose guards are known

    Each rule takes one step of [m s]; [passed] rewrites with them as long as the guards
    are among the hypotheses. *)
Section exec.
Context {B : Type}.
Implicit Types s : Api.

Lemma exec_ret {A} (a : A) (k : A → M B) s : bind (ret a) k s = k a s.
Proof. done. Qed.
Lemma exec_answer {A} r (k : A → M B) s : bind (answer r) k s = (inl r, s).
Proof. done. Qed.
Lemma exec_assoc {A D} (m : M A) (f : A → M D) (g : D → M B) s :
  bind (bind m f) g s = bind m (λ a, bind (f a) g) s.
Proof. unfold bind. by destruct (m s) as [[r|a] s']. Qed.
Lemma exec_require b status message (k : () → M B) s :
  b = true → bind (require b status message) k s = k () s.
Proof. by intros ->. Qed.
Lemma exec_refused b status message (k : () → M B) s :
  b = false → bind (require b status message) k s = (inl (writeError status message), s).
Proof. by intros ->. Qed.
Lemma exec_method r name (k : () → M B) s : rqMethod r = name → bind (method r name) k s = k () s.
Proof. intros Hm. unfold method. by rewrite bool_decide_eq_true_2. Qed.
Lemma exec_ok {A} (x : result A) a status message (k : A → M B) s :
  x = Ok a → bind (ok_or x status message) k s = k a s.
Proof. by intros ->. Qed.
Lemma exec_err {A} (x : result A) er status message (k : A → M B) s :
  x = Err er → bind (ok_or x status message) k s = (inl (writeError status message), s).
Proof. by intros ->. Qed.
Lemma exec_some {A} (x : option A) a status message (k : A → M B) s :
  x = Some a → bind (some_or x status message) k s = k a s.
Proof. by intros ->. Qed.
Lemma exec_none {A} (x : option A) status message (k : A → M B) s :
  x = None → bind (some_or x status message) k s = (inl (writeError status message), s).
Proof. by intros ->. Qed.
Lemma exec_get_state (k : Api → M B) s : bind get_state k s = k s s.
Proof. done. Qed.
Lemma exec_reads {A} (f : MemoryStore → A) (k : A → M B) s : bind (reads f) k s = k (f (store_of s)) s.
Proof. done. Qed.
Lemma exec_updates f (k : () → M B) s : bind (updates f) k s = k () (on_server f s).
Proof. done. Qed.
Lemma exec_modify f (k : () → M B) s : bind (λ s, (inr (), f s)) k s = k () (f s).
Proof. done. Qed.
Lemma exec_stores {A} (f : PostgresStore → A * PostgresStore) (k : A → M B) s :
  bind (stores f) k s = k (fst (f (postgres s))) (put_postgres (snd (f (postgres s))) s).
Proof. unfold bind, stores. by destruct (f (postgres s)). Qed.
Lemma exec_stores_ f (k : () → M B) s : bind (stores_ f) k s = k () (put_postgres (f (postgres s)) s).
Proof. done. Qed.
End exec.

Lemma run_ret r s : run (ret r) s = (r, s).
Proof. done. Qed.
Lemma run_eq (m : M Response) s r s' : m s = (inr r, s') ∨ m s = (inl r, s') → run m s = (r, s').
Proof. unfold run. by intros [-> | ->]. Qed.

Ltac passed := repeat first
  [rewrite exec_assoc|rewrite exec_ret|rewrite exec_get_state|rewrite exec_reads|rewrite exec_updates
  |rewrite exec_modify|rewrite exec_stores_|rewrite exec_stores
  |erewrite exec_method by eassumption|rewrite exec_require by first [eassumption|reflexivity]
  |erewrite exec_some by first [eassumption|reflexivity]|erewrite exec_ok by first [eassumption|reflexivity]];
  cbn beta.

(** ** From a response back to the guards that were passed

    Each rule takes one step of a known outcome; [accepted] follows the run of a handler
    as long as the response is none of its refusals. *)
Section outcome.
Context {A : Type}.
Implicit Types (s : Api) (o : Response * Api).

Lemma outcome_require b status message (k : () → M Response) s o :
  run (bind (require b status message) k) s = o → (b = true ∧ run (k ()) s = o) ∨ o = (writeError status message, s).
Proof. destruct b; [by left|by right]. Qed.
Lemma outcome_method r name (k : () → M Response) s o :
  run (bind (method r name) k) s = o →
  (rqMethod r = name ∧ run (k ()) s = o) ∨ o = (writeError StatusMethodNotAllowed "method not allowed", s).
Proof. unfold method. case_bool_decide; [by left|by right]. Qed.
Lemma outcome_ok (x : result A) status message (k : A → M Response) s o :
  run (bind (ok_or x status message) k) s = o →
  (∃ a, x = Ok a ∧ run (k a) s = o) ∨ o = (writeError status message, s).
Proof. destruct x as [a|]; [left; by exists a|by right]. Qed.
Lemma outcome_some (x : option A) status message (k : A → M Response) s o :
  run (bind (some_or x status message) k) s = o →
  (∃ a, x = Some a ∧ run (k a) s = o) ∨ o = (writeError status message, s).
Proof. destruct x as [a|]; [left; by exists a|by right]. Qed.
Lemma outcome_stores (f : PostgresStore → A * PostgresStore) (k : A → M Response) s o :
  run (bind (stores f) k) s = o → run (k (fst (f (postgres s)))) (put_postgres (snd (f (postgres s))) s) = o.
Proof. unfold run. by rewrite exec_stores. Qed.
Lemma outcome_assoc {B} (m : M A) (f : A → M B) (g : B → M Response) s o :
  run (bind (bind m f) g) s = o → run (bind m (λ a, bind (f a) g)) s = o.
Proof. unfold run. by rewrite exec_assoc. Qed.
Lemma outcome_answer r (k : A → M Response) s o : run (bind (answer r) k) s = o → o = (r, s).
Proof. by intros <-. Qed.
End outcome.

Ltac outcome_step H :=
  lazymatch type of H with
  | run (bind (bind _ _) _) _ = _ => apply outcome_assoc in H
  | run (bind (ret ?a) ?k) ?st = ?o => change (run (k a) st = o) in H; cbn beta in H
  | run (bind get_state ?k) ?st = ?o => change (run (k st) st = o) in H; cbn beta in H
  | run (bind (reads ?f) ?k) ?st = ?o => change (run (k (f (store_of st))) st = o) in H; cbn beta in H
  | run (bind (updates ?f) ?k) ?st = ?o => change (run (k ()) (on_server f st) = o) in H; cbn beta in H
  | run (bind (stores_ ?f) ?k) ?st = ?o => change (run (k ()) (put_postgres (f (postgres st)) st) = o) in H; cbn beta in H
  | run (bind (λ x, (inr (), @?f x)) ?k) ?st = ?o => change (run (k ()) (f st) = o) in H; cbn beta in H
  | run (bind (stores _) _) _ = _ => apply outcome_stores in H; cbn beta in H
  | run (bind (answer _) _) _ = _ => apply outcome_answer in H; try discriminate H
  | run (bind (require _ _ _) _) _ = _ => apply outcome_require in H as [[? H]|H]; [|try discriminate H]
  | run (bind (method _ _) _) _ = _ => apply outcome_method in H as [[? H]|H]; [|try discriminate H]
  | run (bind (ok_or _ _ _) _) _ = _ => apply outcome_ok in H as [(? & ? & H)|H]; [|try discriminate H]
  | run (bind (some_or _ _ _) _) _ = _ => apply outcome_some in H as [(? & ? & H)|H]; [|try discriminate H]
  | run (ret ?r) ?st = ?o => change ((r, st) = o) in H
  | run (answer ?r) ?st = ?o => change ((r, st) = o) in H; try discriminate H
  end; cbn beta in *.
Ltac accepted H := repeat outcome_step H.

(** The store of the state reached, whatever becomes of the writes. *)
Lemma store_put_postgres p s : store_of (put_postgres p s) = pg_inner p.
Proof. done. Qed.
Lemma postgres_inner s : pg_inner (postgres s) = store_of s.
Proof. done. Qed.

Lemma mutating_inner {A} ok (f : MemoryStore → result A * MemoryStore) p :
  pg_inner (snd (mutating ok f p)) = snd (f (pg_inner p)).
Proof. unfold mutating, mutate, persist. by destruct (f (pg_inner p)) as [[a|er] i], ok. Qed.
Lemma mutating_result {A} ok (f : MemoryStore → result A * MemoryStore) p :
  fst (mutating ok f p) = fst (f (pg_inner p)).
Proof. unfold mutating. by destruct (f (pg_inner p)) as [[a|er] i]. Qed.
Lemma always_inner ok (f : MemoryStore → MemoryStore) p : pg_inner (always ok f p) = f (pg_inner p).
Proof. unfold always, mutate, persist. by destruct ok. Qed.
Lemma checked_inner {A} ok (f : MemoryStore → result A * MemoryStore) p :
  pg_inner (snd (checked ok f p)) = snd (f (pg_inner p)).
Proof. unfold checked, persist. by destruct (f (pg_inner p)) as [[a|er] i], ok. Qed.
Lemma checked_result {A} ok (f : MemoryStore → result A * MemoryStore) p :
  fst (checked ok f p) = match fst (f (pg_inner p)) with Ok a => if ok then Ok a else Err exec_error | Err er => Err er end.
Proof. unfold checked, persist. by destruct (f (pg_inner p)) as [[a|er] i], ok. Qed.
Lemma durable_inner {A} ok (f : MemoryStore → result A * MemoryStore) p :
  pg_inner (snd (durable ok f p)) = pg_inner p ∨ pg_inner (snd (durable ok f p)) = snd (f (pg_inner p)).
Proof. unfold durable. destruct (Persist.Healthy p); [by left|right; apply checked_inner]. Qed.
