(* ===== verification/RestAccounts.v ===== *)
(** * Handlers: sessions and accounts (server.go, admin.go, browser_ticket.go) *)

From S2P Require Import Prelude GoBase GoStrings GoFloat Model Store Config LoginLimiter Hub Auth Grants Server Persist Json Http.
From S2P Require Users.

(** [net/netip] and [net.SplitHostPort], as in [requestClientIP]. *)
Class NetIP := {
  Addr : Type;
  parse_addr : string → option Addr;
  addr_string : Addr → string;
  prefix_contains : string → Addr → bool;
  split_host : string → option string
}.

Section accounts.
Context `{Crypto} {J : JWT} {N : NetIP}.
Context (e : env).

Definition client_ip (r : Request) (s : Server) : string :=
  requestClientIP parse_addr addr_string prefix_contains split_host
    (rqRemoteAddr r) (rqForwardedFor r) (cfTrustedProxyCIDRs (svConfig s)).

(** ** Sessions *)

Definition login_fields : schema := [("username", KStr); ("password", KStr)].

(** [Retry-After]: whole seconds, one more than what is left. *)
Definition retry_after (wait : Duration) : string := FormatUint (wait / Second + 1).

Definition login (r : Request) : M Response :=
  method r "POST" ;;
  let! body := some_or (decodeJSON login_fields (rqBody r)) StatusBadRequest "invalid login request" in
  let username := stringField body "username" in
  let password := stringField body "password" in
  let! s := get_state in
  let clientIP := client_ip r (apServer s) in
  let '((wait, limited), l) := allow (evNow e) username clientIP (svLimiter (apServer s)) in
  updates (with_limiter (λ _, l)) ;;
  (if limited : bool
   then answer (set_header "Retry-After" (retry_after wait) (writeError StatusTooManyRequests "too many login attempts"))
   else ret ()) ;;
  match Users.Authenticate (evNow e) username password (store_of s) with
  | Err _ =>
      updates (with_limiter (recordFailure (evNow e) username clientIP)) ;;
      answer (writeError StatusUnauthorized "invalid username or password")
  | Ok user =>
      updates (with_limiter (clearAccount username)) ;;
      let! token := some_or (issueUserToken (evRand e 0) (evNow e) (cfJWTSecret (svConfig (apServer s))) user)
                      StatusInternalServerError "issue access token" in
      ret (writeJSON StatusOK (jmap
        {[ "token" := VStr token; "username" := VStr (uUsername user); "role" := VStr (uRole user);
           "assigned_devices" := VList (VStr <$> uAssignedDevices user) ]}))
  end.

Definition register (r : Request) : M Response :=
  method r "POST" ;;
  let! s := get_state in
  require (cfAllowRegistration (svConfig (apServer s))) StatusForbidden "registration is disabled" ;;
  let! body := some_or (decodeJSON login_fields (rqBody r)) StatusBadRequest "invalid registration request" in
  let! created := stores (Persist.CreateUser (evDB e 0) (evRand e 0) (evRand e 1) (evNow e)
                     (stringField body "username") (stringField body "password") RoleUser []) in
  match created with
  | Err ErrAlreadyExists => answer (writeError StatusConflict "username already exists")
  | Err _ => answer (writeError StatusBadRequest "invalid registration request")
  | Ok _ => ret (writeJSON StatusCreated status_ok)
  end.

Definition logout (r : Request) (user : User) : M Response :=
  method r "POST" ;;
  let token := bearerToken (rqAuthorization r) in
  let! s := get_state in
  let! parsed := ok_or (parseUserToken (evNow e) (cfJWTSecret (svConfig (apServer s))) token)
                   StatusUnauthorized "unauthorized" in
  let! revoked := stores (Persist.RevokeUserToken (evDB e 0) (tokenDigest token) (plExpiresAt parsed)) in
  ok_or revoked StatusServiceUnavailable "save logout" ;;
  updates (with_hub (disconnectToken (tokenDigest token))) ;;
  ret (writeJSON StatusOK status_ok).

Definition permissions_value (p : OperationPermissions) : value :=
  VMap {[ "shell" := VBool (Shell p); "file_library" := VBool (FileLibrary p); "batch_tasks" := VBool (BatchTasks p) ]}.

Definition me (r : Request) (user : User) : M Response :=
  ret (writeJSON StatusOK (jmap
    {[ "username" := VStr (uUsername user); "role" := VStr (uRole user);
       "assigned_devices" := VList (VStr <$> uAssignedDevices user);
       "permissions" := permissions_value (uPermissions user);
       "forbid_bitrate" := VBool (uForbidBitrate user); "forbid_fps" := VBool (uForbidFPS user);
       "forbid_resolution" := VBool (uForbidResolution user); "forbid_audio" := VBool (uForbidAudio user);
       "settings" := VMap (uSettings user); "expires_at" := time_value (uExpiresAt user) ]})).

Definition authStatus (r : Request) : M Response :=
  ret (writeJSON StatusOK (jmap {[ "noAuth" := VBool false ]})).

(** browser_ticket.go *)
Definition ticket_fields : schema := [("share_token", KStr); ("share_password", KStr)].

Definition ticket_content (ticket : string * Time) : content :=
  jmap {[ "ticket" := VStr (fst ticket); "expires_at" := VInt (snd ticket) ]}.

Definition websocketTicket (r : Request) : M Response :=
  method r "POST" ;;
  let! body := (if rqLength r =? 0 then ret ∅
                else some_or (decodeJSON ticket_fields (rqBody r)) StatusBadRequest "invalid websocket ticket request") in
  let! s := get_state in
  let secret := cfJWTSecret (svConfig (apServer s)) in
  if negb (bool_decide (TrimSpace (stringField body "share_token") = "")) then
    let! share := stores (Persist.AuthorizeShare (evNow e) (stringField body "share_token") (stringField body "share_password")) in
    let! share := ok_or share StatusUnauthorized "unauthorized" in
    let! ticket := some_or (issueBrowserTicket (evNow e) secret browserAccessShare (shareTicketSubject secret (shToken share)) 0 [])
                     StatusInternalServerError "issue websocket ticket" in
    ret (writeJSON StatusOK (ticket_content ticket))
  else
    let! user := ok_or (current_user e r s) StatusUnauthorized "unauthorized" in
    let! ticket := some_or (issueBrowserTicket (evNow e) secret browserAccessUser (uID user) (uTokenVersion user)
                              [tokenDigest (bearerToken (rqAuthorization r))])
                     StatusInternalServerError "issue websocket ticket" in
    ret (writeJSON StatusOK (ticket_content ticket)).

(** ** Accounts, for administrators *)

Definition or_user (role : string) : Role := if bool_decide (role = "") then RoleUser else role.

Definition user_fields : schema :=
  [("username", KStr); ("password", KStr); ("role", KStr); ("assigned_devices", KList KStr)].

Definition adminUsers (r : Request) (admin : User) : M Response :=
  if bool_decide (rqMethod r = "GET") then
    let! s := get_state in
    ret (writeJSON StatusOK (CUsers (usersWithPresence (Users.Users (store_of s)) (hub_of s))))
  else if bool_decide (rqMethod r = "POST") then
    let! body := some_or (decodeJSON user_fields (rqBody r)) StatusBadRequest "invalid user request" in
    let! created := stores (Persist.CreateUser (evDB e 0) (evRand e 0) (evRand e 1) (evNow e)
                       (stringField body "username") (stringField body "password")
                       (or_user (stringField body "role")) (stringsField body "assigned_devices")) in
    match created with
    | Err x => answer (writeError StatusBadRequest (Error x))
    | Ok user => ret (writeJSON StatusCreated (CUser user))
    end
  else methodNotAllowed.

Definition assign_fields : schema := [("username", KStr); ("devices", KList KStr)].
Definition assign_update (body : vmap) (user : User) : result User :=
  Ok (set_uAssignedDevices (λ _, stringsField body "devices") user).

Definition adminAssign (r : Request) (admin : User) : M Response :=
  method r "POST" ;;
  let! body := some_or (decodeJSON assign_fields (rqBody r)) StatusBadRequest "invalid assignment" in
  let! user := stores (Persist.UpdateUser (evDB e 0) (stringField body "username") (assign_update body)) in
  let! user := ok_or user StatusNotFound "user not found" in
  ret (writeJSON StatusOK (CUser user)).

Definition create_fields : schema :=
  [("username", KStr); ("password", KStr); ("role", KStr); ("note", KStr); ("expire_seconds", KInt)].
Definition create_update (body : vmap) (user : User) : result User :=
  let user := set_uNote (λ _, stringField body "note") user in
  Ok (if 0 <? intField body "expire_seconds"
      then set_uExpiresAt (λ _, Some (after_seconds e (intField body "expire_seconds"))) user else user).

Definition adminCreateUser (r : Request) (admin : User) : M Response :=
  method r "POST" ;;
  let! body := some_or (decodeJSON create_fields (rqBody r)) StatusBadRequest "invalid user request" in
  let! created := stores (Persist.CreateUser (evDB e 0) (evRand e 0) (evRand e 1) (evNow e)
                     (stringField body "username") (stringField body "password")
                     (or_user (stringField body "role")) []) in
  match created with
  | Err x => answer (writeError StatusBadRequest (Error x))
  | Ok user =>
      let! user := stores (Persist.UpdateUser (evDB e 1) (uUsername user) (create_update body)) in
      let! user := ok_or user StatusInternalServerError "save user" in
      ret (writeJSON StatusCreated (CUser user))
  end.

Definition adminDeleteUser (r : Request) (admin : User) : M Response :=
  let! body := post_body [("username", KStr)] r "invalid user request" in
  let! deleted := stores (Persist.DeleteUser (evDB e 0) (stringField body "username")) in
  ok_or deleted StatusBadRequest "cannot delete user" ;;
  ret (MkResponse StatusNoContent ∅ CEmpty).

Definition adminResetPassword (r : Request) (admin : User) : M Response :=
  let! body := post_body login_fields r "invalid password reset" in
  let! reset := stores (Persist.ResetPassword (evDB e 0) (evRand e 0) (stringField body "username") (stringField body "password")) in
  ok_or reset StatusBadRequest "password reset failed" ;;
  ret (writeJSON StatusOK status_ok).

Definition note_update (body : vmap) (user : User) : result User := Ok (set_uNote (λ _, stringField body "note") user).
Definition adminUpdateNote (r : Request) (admin : User) : M Response :=
  let! body := post_body [("username", KStr); ("note", KStr)] r "invalid note request" in
  let! user := stores (Persist.UpdateUser (evDB e 0) (stringField body "username") (note_update body)) in
  let! user := ok_or user StatusNotFound "user not found" in
  ret (writeJSON StatusOK (CUser user)).

Definition adminRenameUser (r : Request) (admin : User) : M Response :=
  let! body := post_body [("old_username", KStr); ("new_username", KStr)] r "invalid rename request" in
  let! user := stores (Persist.RenameUser (evDB e 0) (stringField body "old_username") (stringField body "new_username")) in
  let! user := ok_or user StatusBadRequest "rename failed" in
  ret (writeJSON StatusOK (CUser user)).

Definition permission_fields : schema := [("shell", KBool); ("file_library", KBool); ("batch_tasks", KBool)].
Definition update_fields : schema :=
  [("username", KStr); ("forbid_bitrate", KBool); ("forbid_fps", KBool); ("forbid_resolution", KBool);
   ("forbid_audio", KBool); ("permissions", KObj permission_fields); ("settings", KMap KAny); ("expire_seconds", KInt)].

Definition body_permissions (body : vmap) : OperationPermissions :=
  let p := mapField_ body "permissions" in
  MkPermissions (boolField p "shell") (boolField p "file_library") (boolField p "batch_tasks").

Definition user_update (body : vmap) (user : User) : result User :=
  let user := set_uForbidBitrate (λ _, boolField body "forbid_bitrate") user in
  let user := set_uForbidFPS (λ _, boolField body "forbid_fps") user in
  let user := set_uForbidResolution (λ _, boolField body "forbid_resolution") user in
  let user := set_uForbidAudio (λ _, boolField body "forbid_audio") user in
  let user := set_uPermissions (λ _, body_permissions body) user in
  let user := set_uSettings (λ _, cloneMap (mapField_ body "settings")) user in
  let n := intField body "expire_seconds" in
  Ok (if n =? 0 then set_uExpiresAt (λ _, None) user
      else if 0 <? n then set_uExpiresAt (λ _, Some (after_seconds e n)) user else user).

Definition adminUpdateUser (r : Request) (admin : User) : M Response :=
  let! body := post_body update_fields r "invalid user update" in
  let! user := stores (Persist.UpdateUser (evDB e 0) (stringField body "username") (user_update body)) in
  let! user := ok_or user StatusNotFound "user not found" in
  ret (writeJSON StatusOK (CUser user)).

Definition adminKickUser (r : Request) (admin : User) : M Response :=
  let! body := post_body [("username", KStr); ("device_id", KStr)] r "invalid kick request" in
  updates (with_hub (disconnectBrowsers (stringField body "username") (stringField body "device_id"))) ;;
  ret (writeJSON StatusOK status_ok).
End accounts.
