(* ===== verification/RestDevices.v ===== *)
(** * Handlers: devices, settings, tags and the server's own data (server.go,
    device_settings.go, telemetry.go, admin.go, deployment_credentials.go) *)

From S2P Require Import Prelude GoBase GoStrings GoFloat Model Store Config Hub Auth Grants Server Persist Json Http.
From S2P Require Devices.

Section devices.
Context `{Crypto} {J : JWT} {C : Codec}.
Context (e : env).

(** ** The server *)

Definition health (r : Request) : M Response :=
  let! s := get_state in
  require (bool_decide (apHealth s = None)) StatusServiceUnavailable "persistent store unavailable" ;;
  require (bool_decide (svRedis (apServer s) = None) || evRedis e) StatusServiceUnavailable "redis unavailable" ;;
  ret (writeJSON StatusOK (jmap {[ "status" := VStr "ok"; "service" := VStr "scrcpycat-controlplane" ]})).

Definition serverAddresses (r : Request) (user : User) : M Response :=
  let! s := get_state in
  let public := cfPublicURL (svConfig (apServer s)) in
  let address := TrimPrefix (TrimPrefix public "https://") "http://" in
  ret (writeJSON StatusOK (jmap
    {[ "code" := VInt 0;
       "data" := VMap {[ "addresses" := VList [VStr address]; "current" := VStr address ]};
       "public_url" := VStr public; "signaling_url" := VStr public ]})).

Definition iceServerList (r : Request) (user : User) : M Response :=
  let! s := get_state in
  ret (writeJSON StatusOK (CJSON (VList (VMap <$> iceServers (apServer s))))).

(** ** Devices *)

Definition devices (r : Request) (user : User) : M Response :=
  method r "GET" ;;
  let! s := get_state in
  ret (writeJSON StatusOK (CDevices (devicesFor (evNow e) user (apServer s)))).

(** [http.ServeFile] of the snapshot. *)
Definition deviceSnapshot (r : Request) (user : User) (deviceID : string) : M Response :=
  method r "GET" ;;
  require (CanAccessDevice user deviceID) StatusForbidden "device access denied" ;;
  let! s := get_state in
  let headers := {[ "Cache-Control" := "private, no-cache"; "Content-Type" := "image/png" ]} in
  match svSnapshots (apServer s) !! snapshotPath deviceID with
  | Some data => ret (MkResponse StatusOK headers (CFile data))
  | None => ret (MkResponse StatusNotFound headers CEmpty)
  end.

Definition send_settings (deviceID : string) (s : Server) : Server :=
  send_agent_ deviceID {[ "message_type" := VStr "agent_settings";
                          "settings" := VMap (Devices.agentSettings deviceID (svStore s)) ]} s.

Definition admin_user : User := set_uRole (λ _, RoleAdmin) User_zero.

Definition defaultSettings (r : Request) (user : User) : M Response :=
  if bool_decide (rqMethod r = "GET") then
    let! settings := reads Devices.DefaultSettings in
    ret (writeJSON StatusOK (jmap settings))
  else if bool_decide (rqMethod r ∈ ["PUT"; "POST"]) then
    require (is_admin user) StatusForbidden "admin permission required" ;;
    let! settings := some_or (decode_settings (rqBody r)) StatusBadRequest "invalid settings" in
    match Devices.validateDeviceSettings settings with
    | Some x => answer (writeError StatusBadRequest (Error x))
    | None =>
        stores_ (Persist.SetDefaultSettings (evDB e 0) settings) ;;
        let! s := get_state in
        require (bool_decide (apHealth s = None)) StatusServiceUnavailable "save settings" ;;
        updates (λ s, foldl (λ s device, send_settings (dID device) s) s (Devices.DevicesFor admin_user (svStore s))) ;;
        updates (broadcastMessage (MMsg {[ "message_type" := VStr "global_settings_updated"; "settings" := VMap settings ]})) ;;
        ret (writeJSON StatusOK (jmap settings))
    end
  else methodNotAllowed.

(** device_settings.go *)
Definition settings_by_device (user : User) (s : MemoryStore) : list (string * vmap) :=
  omap (λ device, let settings := Devices.DeviceSettings (dID device) s in
                  if decide (settings = ∅) then None else Some (dID device, settings))
    (Devices.DevicesFor user s).

Definition allDeviceSettings (r : Request) (user : User) : M Response :=
  method r "GET" ;;
  let! settings := reads (settings_by_device user) in
  ret (writeJSON StatusOK (jmap (VMap <$> list_to_map settings))).

Definition deviceSettings (r : Request) (user : User) (deviceID : string) : M Response :=
  require (CanAccessDevice user deviceID) StatusForbidden "device access denied" ;;
  let! known := reads (Devices.DeviceByID deviceID) in
  ok_or known StatusNotFound "device not found" ;;
  if bool_decide (rqMethod r = "GET") then
    let! settings := reads (Devices.DeviceSettings deviceID) in
    ret (writeJSON StatusOK (jmap settings))
  else
    require (is_admin user) StatusForbidden "admin permission required" ;;
    let! settings :=
      (if bool_decide (rqMethod r ∈ ["POST"; "PUT"]) then
         let! settings := some_or (decode_settings (rqBody r)) StatusBadRequest "invalid settings" in
         match Devices.validateDeviceSettings settings with
         | Some x => answer (writeError StatusBadRequest (Error x))
         | None => ret settings
         end
       else if bool_decide (rqMethod r = "DELETE") then ret ∅ else methodNotAllowed) in
    let! saved := stores (Persist.SetDeviceSettings (evDB e 0) deviceID settings) in
    ok_or saved StatusServiceUnavailable "save device settings" ;;
    updates (send_settings deviceID) ;;
    updates (broadcastMessage (MMsg {[ "message_type" := VStr "device_settings_updated";
                                       "device_id" := VStr deviceID; "settings" := VMap settings ]})) ;;
    ret (writeJSON StatusOK (jmap settings)).

(** admin.go: the paths under /api/devices/. *)
Definition deviceByID (r : Request) (user : User) : M Response :=
  let path := rqPath r in
  if HasSuffix path "/settings" then deviceSettings r user (TrimSuffix (TrimPrefix path "/api/devices/") "/settings")
  else if HasSuffix path "/snapshot" then deviceSnapshot r user (TrimSuffix (TrimPrefix path "/api/devices/") "/snapshot")
  else
    method r "DELETE" ;;
    require (is_admin user) StatusForbidden "admin permission required" ;;
    let deviceID := TrimPrefix path "/api/devices/" in
    require (negb (bool_decide (deviceID = ""))) StatusBadRequest "device must exist and be offline" ;;
    let! deleted := stores (Persist.DeleteOfflineDevice (evDB e 0) deviceID) in
    ok_or deleted StatusBadRequest "device must exist and be offline" ;;
    ret (MkResponse StatusNoContent ∅ CEmpty).

(** ** Tags *)

Definition tagsFor (user : User) (s : MemoryStore) : content :=
  let '(tags, assignments) := Devices.Tags s in
  CTags tags (delete_if (λ id _, negb (CanAccessDevice user id)) assignments).

Definition tag_fields : schema := [("id", KStr); ("name", KStr); ("color", KStr); ("icon", KStr)].
Definition tags_fields : schema :=
  [("tags", KList (KObj tag_fields)); ("device_tags", KMap (KList KStr)); ("deviceTags", KMap (KList KStr))].

Definition body_tag (v : value) : Tag :=
  match v with
  | VMap m => MkTag (stringField m "id") (stringField m "name") (stringField m "color") (stringField m "icon")
  | _ => MkTag "" "" "" ""
  end.
Definition body_tags (body : vmap) : list Tag :=
  match body !! "tags" with Some (VList l) => body_tag <$> l | _ => [] end.
Definition body_assignments (body : vmap) (key : string) : option (gmap string (list string)) :=
  (λ m : vmap, value_strings <$> m) <$> mapField body key.

Definition tags (r : Request) (user : User) : M Response :=
  if bool_decide (rqMethod r = "GET") then
    let! tags := reads (tagsFor user) in
    ret (writeJSON StatusOK tags)
  else if bool_decide (rqMethod r ∈ ["PUT"; "POST"]) then
    require (is_admin user) StatusForbidden "admin permission required" ;;
    let! body := some_or (decodeJSON tags_fields (rqBody r)) StatusBadRequest "invalid tags request" in
    let! deviceTags :=
      match body_assignments body "device_tags", body_assignments body "deviceTags" with
      | Some _, Some _ => answer (writeError StatusBadRequest "specify only one device tags field")
      | _, Some t => ret t
      | t, None => ret (default ∅ t)
      end in
    stores_ (Persist.ReplaceTags (evDB e 0) (evRand e) (body_tags body) deviceTags) ;;
    let! s := get_state in
    require (bool_decide (apHealth s = None)) StatusServiceUnavailable "save tags" ;;
    updates (λ s, let '(tags, assignments) := Devices.Tags (svStore s) in broadcastMessage (MTags tags assignments) s) ;;
    let! tags := reads (tagsFor user) in
    ret (writeJSON StatusOK tags)
  else methodNotAllowed.
End devices.
