(* ===== verification/RestDeploy.v ===== *)
(** * Handlers: enrollment and deployment credentials (server.go, deployment_credentials.go) *)

From S2P Require Import Prelude GoBase GoStrings GoFloat Model Store Config Hub Auth Grants Server Persist Json Http.
From S2P Require Enrollments.

Section deploy.
Context `{Crypto} {J : JWT}.
Context (e : env).

Definition enrollment_fields : schema := [("device_id", KStr); ("ttl_seconds", KInt)].

Definition enrollment_content (enrollment : Enrollment) : content :=
  jmap {[ "token" := VStr (enToken enrollment); "expires_at" := VInt (enExpiresAt enrollment) ]}.

Definition enrollment_ttl (n : Z) : Duration :=
  let ttl := seconds n in
  if (ttl <=? 0) || (24 * Hour <? ttl) then 15 * Minute else ttl.

Definition enrollmentTokens (r : Request) (admin : User) : M Response :=
  method r "POST" ;;
  let! body := some_or (decodeJSON enrollment_fields (rqBody r)) StatusBadRequest "invalid enrollment request" in
  let! enrollment := stores (Persist.CreateEnrollment (evDB e 0) (evRand e 0) (evNow e)
                        (stringField body "device_id") (enrollment_ttl (intField body "ttl_seconds"))) in
  ret (writeJSON StatusCreated (enrollment_content enrollment)).

(** ** deployment_credentials.go

    Every answer carries [Cache-Control: no-store]. *)
Definition no_store (m : M Response) : M Response := λ s,
  match m s with
  | (inl r, s) => (inl (set_header "Cache-Control" "no-store" r), s)
  | (inr r, s) => (inr (set_header "Cache-Control" "no-store" r), s)
  end.

Definition credential_fields : schema := [("name", KStr); ("ttl_seconds", KInt)].
Definition unavailable {A} : M A := answer (writeError StatusServiceUnavailable "deployment credential store unavailable").

Definition deploymentCredentials (r : Request) (admin : User) : M Response :=
  no_store (
  let! s := get_state in
  require (bool_decide (apHealth s = None)) StatusServiceUnavailable "deployment credential store unavailable" ;;
  if bool_decide (rqMethod r = "GET") then
    let! credentials := reads Enrollments.DeploymentCredentials in
    ret (writeJSON StatusOK (CCredentials credentials))
  else if bool_decide (rqMethod r = "POST") then
    let! body := some_or (decodeJSON credential_fields (rqBody r)) StatusBadRequest "name and a nonnegative ttl_seconds are required" in
    let ttl := intField body "ttl_seconds" in
    require (negb ((ttl <? 0) || (max_int64 / Second <? ttl))) StatusBadRequest "name and a nonnegative ttl_seconds are required" ;;
    let! created := stores (Persist.CreateDeploymentCredential (evDB e 0) (evRand e 0) (evRand e 1) (evRand e 2) (evNow e)
                              (stringField body "name") (uUsername admin) (int64 (ttl * Second))) in
    match created with
    | Err errInvalidDeploymentRequest => answer (writeError StatusBadRequest "name must contain 1 to 80 characters")
    | Err _ => unavailable
    | Ok (credential, token) => ret (writeJSON StatusCreated (CNewCredential credential token))
    end
  else methodNotAllowed).

Definition revokeDeploymentCredential (r : Request) (admin : User) : M Response :=
  no_store (
  method r "POST" ;;
  let! body := some_or (decodeJSON [("id", KStr)] (rqBody r)) StatusBadRequest "credential id is required" in
  require (negb (bool_decide (stringField body "id" = ""))) StatusBadRequest "credential id is required" ;;
  let! revoked := stores (Persist.RevokeDeploymentCredential (evDB e 0) (evRand e 0) (evNow e) (stringField body "id") (uUsername admin)) in
  match revoked with
  | Err ErrNotFound => answer (writeError StatusNotFound "deployment credential not found")
  | Err _ => unavailable
  | Ok credential => ret (writeJSON StatusOK (CCredential credential))
  end).

Definition default_ttl (n : Z) : Z := if n =? 0 then Enrollments.maxDeploymentEnrollmentTTL / Second else n.

Definition deploymentEnrollmentTokens (r : Request) : M Response :=
  no_store (
  method r "POST" ;;
  let token := bearerToken (rqAuthorization r) in
  require (negb (bool_decide (token = ""))) StatusUnauthorized "deployment credential required" ;;
  let message := "device_id and ttl_seconds from 1 to 900 are required" in
  let! body := some_or (decodeJSON enrollment_fields (rqBody r)) StatusBadRequest message in
  let ttl := intField body "ttl_seconds" in
  require (negb ((ttl <? 0) || (Enrollments.maxDeploymentEnrollmentTTL / Second <? ttl))) StatusBadRequest message ;;
  let! enrollment := stores (Persist.IssueDeploymentEnrollment (evDB e 0) (evRand e 0) (evRand e 1) (evNow e) token
                               (stringField body "device_id") (int64 (default_ttl ttl * Second))) in
  match enrollment with
  | Err ErrInvalidAuth => answer (writeError StatusUnauthorized "deployment credential is invalid, expired or revoked")
  | Err errInvalidDeploymentRequest => answer (writeError StatusBadRequest "a valid device_id is required")
  | Err _ => unavailable
  | Ok enrollment => ret (writeJSON StatusCreated (enrollment_content enrollment))
  end).
End deploy.
