(* ===== verification/RestShares.v ===== *)
(** * Handlers: share links (admin.go) *)

From S2P Require Import Prelude GoBase GoStrings GoFloat Model Store Config Hub Auth Grants Server Persist Json Http.
From S2P Require Shares.

Section shares.
Context `{Crypto}.
Context (e : env).

(** The card code is shown with and without the password. *)
Definition shareJSON (share : Share) (password : string) : vmap :=
  list_to_map
    [("token", VStr (shToken share)); ("token_id", VStr (shToken share));
     ("card_code", VStr (shCardCode share)); ("device_id", VStr (shDeviceID share));
     ("view_only", VBool (shViewOnly share));
     ("access_mode", VStr (if shViewOnly share then "view_only" else "full"));
     ("description", VStr (shDescription share)); ("expires_at", time_value (shExpiresAt share));
     ("created_at", VInt (shCreatedAt share)); ("created_by", VStr (shCreatedBy share));
     ("has_password", VBool (Shares.has_password share));
     ("forbid_bitrate", VBool (shForbidBitrate share)); ("forbid_fps", VBool (shForbidFPS share));
     ("forbid_resolution", VBool (shForbidResolution share));
     ("forbid_audio", VBool (shForbidAudio share));
     ("guest_settings", VMap (shGuestSettings share))].

Definition share_data (share : Share) (password : string) : content :=
  jmap {[ "code" := VInt 0; "data" := VMap (shareJSON share password) ]}.

(** The answers of the imported UI contract carry their code in the body. *)
Definition code_message (code : Z) (message : string) : content :=
  jmap {[ "code" := VInt code; "msg" := VStr message ]}.

Definition share_create_fields : schema :=
  [("device_id", KStr); ("expire_seconds", KInt); ("access_mode", KStr); ("password", KStr);
   ("description", KStr); ("forbid_bitrate", KBool); ("forbid_fps", KBool);
   ("forbid_resolution", KBool); ("forbid_audio", KBool)].

Definition forbid_update (body : vmap) (share : Share) : Share :=
  set_shForbidAudio (λ _, boolField body "forbid_audio")
    (set_shForbidResolution (λ _, boolField body "forbid_resolution")
       (set_shForbidFPS (λ _, boolField body "forbid_fps")
          (set_shForbidBitrate (λ _, boolField body "forbid_bitrate") share))).

Definition access_modes : list string := [""; "full"; "view"; "view_only"].
Definition is_view (mode : string) : bool := bool_decide (mode = "view") || bool_decide (mode = "view_only").

Definition shareCreate (r : Request) (user : User) : M Response :=
  method r "POST" ;;
  let! body := some_or (decodeJSON share_create_fields (rqBody r)) StatusBadRequest "invalid share request" in
  let deviceID := stringField body "device_id" in
  require (CanAccessDevice user deviceID) StatusBadRequest "invalid share request" ;;
  let mode := stringField body "access_mode" in
  require (bool_decide (mode ∈ access_modes)) StatusBadRequest "invalid access mode" ;;
  let n := intField body "expire_seconds" in
  let expiresAt := if 0 <? n then Some (after_seconds e n) else None in
  let password := stringField body "password" in
  let! share := stores (Persist.CreateShare (evDB e 0) (evRand e 0) (evRand e 1) (evRand e 2) (evNow e)
                  deviceID (uUsername user) password (stringField body "description") (is_view mode) expiresAt) in
  let! share := ok_or share StatusInternalServerError "create share" in
  let! share := stores (Persist.UpdateShare (evDB e 1) (shToken share) (λ share, Ok (forbid_update body share))) in
  let! share := ok_or share StatusInternalServerError "save share settings" in
  audit_event e 2 user "share.create" (shToken share) {[ "device_id" := VStr (shDeviceID share) ]} ;;
  ret (writeJSON StatusCreated (share_data share password)).

Definition shareList (r : Request) (user : User) : M Response :=
  method r "GET" ;;
  let! shares := reads_inner (Shares.SharesFor (evNow e) (Query r "device_id")) in
  let visible := List.filter (λ share, CanAccessDevice user (shDeviceID share)) shares in
  ret (writeJSON StatusOK (jmap {[ "code" := VInt 0;
                                   "data" := VList ((λ share, VMap (shareJSON share "")) <$> visible) ]})).

Definition shareRevoke (r : Request) (user : User) : M Response :=
  let! body := post_body [("token", KStr)] r "invalid share revoke" in
  let token := stringField body "token" in
  require (negb (bool_decide (token = ""))) StatusBadRequest "invalid share revoke" ;;
  let! share := reads (Shares.ShareByToken token) in
  require (match share with Ok share => CanAccessDevice user (shDeviceID share) | Err _ => true end)
    StatusForbidden "share access denied" ;;
  let! revoked := stores (Persist.RevokeShare (evDB e 0) token) in
  require (match revoked with Ok _ | Err ErrNotFound => true | _ => false end) StatusBadRequest "revoke share" ;;
  ret (writeJSON StatusOK (jmap {[ "code" := VInt 0 ]})).

(** The share of a request of a user who may access its device. *)
Definition own_share (user : User) (token : string) : M () :=
  let! share := reads (Shares.ShareByToken token) in
  require (match share with Ok share => CanAccessDevice user (shDeviceID share) | Err _ => false end)
    StatusForbidden "share access denied".

Definition share_update_fields : schema :=
  [("token", KStr); ("forbid_bitrate", KBool); ("forbid_fps", KBool); ("forbid_resolution", KBool);
   ("forbid_audio", KBool); ("guest_settings", KMap KAny)].

Definition share_update (body : vmap) (share : Share) : result Share :=
  Ok (set_shGuestSettings (λ _, cloneMap (mapField_ body "guest_settings")) (forbid_update body share)).

Definition shareUpdate (r : Request) (user : User) : M Response :=
  let! body := post_body share_update_fields r "invalid share update" in
  let token := stringField body "token" in
  require (negb (bool_decide (token = ""))) StatusBadRequest "invalid share update" ;;
  own_share user token ;;
  let! updated := stores (Persist.UpdateShare (evDB e 0) token (share_update body)) in
  let! updated := ok_or updated StatusInternalServerError "update share" in
  audit_event e 1 user "share.update" (shToken updated) ∅ ;;
  ret (writeJSON StatusOK (share_data updated "")).

Definition share_extend (n : Z) (share : Share) : result Share :=
  let base := match shExpiresAt share with
              | Some t => if After t (evNow e) then t else evNow e
              | None => evNow e
              end in
  Ok (set_shExpiresAt (λ _, Some (Add base (seconds n))) share).

Definition shareExtend (r : Request) (user : User) : M Response :=
  let! body := post_body [("token", KStr); ("extend_seconds", KInt)] r "invalid share extension" in
  let token := stringField body "token" in
  let n := intField body "extend_seconds" in
  require (negb (bool_decide (token = "") || (n <=? 0))) StatusBadRequest "invalid share extension" ;;
  own_share user token ;;
  let! updated := stores (Persist.UpdateShare (evDB e 0) token (share_extend n)) in
  let! updated := ok_or updated StatusInternalServerError "extend share" in
  audit_event e 1 user "share.extend" (shToken updated) {[ "seconds" := VInt n ]} ;;
  ret (writeJSON StatusOK (share_data updated "")).

(** ** For guests: no token is needed *)

Definition bad_card {A} : M A := answer (writeJSON StatusBadRequest (code_message 400 "invalid card")).

Definition shareRedeemCard (r : Request) : M Response :=
  match rqMethod r, decodeJSON [("card_code", KStr); ("password", KStr)] (rqBody r) with
  | "POST", Some body =>
      if bool_decide (stringField body "card_code" = "") then bad_card
      else
        let! share := reads_inner (Shares.ShareByCard (evNow e) (stringField body "card_code")) in
        match share with
        | Err _ => ret (writeJSON StatusOK (code_message 404 "card not found"))
        | Ok share =>
            let! allowed := stores (Persist.AuthorizeShare (evNow e) (shToken share) (stringField body "password")) in
            match allowed with
            | Err ErrInvalidAuth => ret (writeJSON StatusOK (code_message 401 "password required or incorrect"))
            | Err _ => ret (writeJSON StatusOK (code_message 404 "card not found"))
            | Ok _ => ret (writeJSON StatusOK (jmap {[ "code" := VInt 0;
                                                       "data" := VMap {[ "token" := VStr (shToken share) ]} ]}))
            end
        end
  | _, _ => bad_card
  end%string.

(** [int64(time.Until(t).Seconds())], at least zero; -1 without an expiry. *)
Definition remaining_seconds (share : Share) : Z :=
  match shExpiresAt share with
  | None => -1
  | Some t => Z.max 0 (Sub t (evNow e) ÷ Second)
  end.

Definition shareInfo (r : Request) : M Response :=
  method r "POST" ;;
  match decodeJSON [("token", KStr); ("password", KStr)] (rqBody r) with
  | None => ret (writeJSON StatusBadRequest (code_message 400 "invalid share request"))
  | Some body =>
      let! share := stores (Persist.AuthorizeShare (evNow e) (stringField body "token") (stringField body "password")) in
      match share with
      | Err ErrInvalidAuth => ret (writeJSON StatusOK (code_message 401 "password required or incorrect"))
      | Err _ => ret (writeJSON StatusNotFound (code_message 404 "share not found"))
      | Ok share =>
          ret (writeJSON StatusOK (jmap {[ "code" := VInt 0;
            "data" := VMap (<["remaining_seconds" := VInt (remaining_seconds share)]> (shareJSON share "")) ]}))
      end
  end.
End shares.
