(* ===== verification/RestTasks.v ===== *)
(** * Handlers: shortcuts, the file library and batch tasks (operations.go) *)

From S2P Require Import Prelude GoBase GoStrings GoFloat Model Store Config Hub Auth Grants Server Persist Json Http.
From S2P Require Assets Tasks.

(** [net/url.Parse]: scheme, host and path. *)
Class URLs := { url_parse : string → option (string * string * string) }.

(** [filepath.Base] *)
Fixpoint last_element (l : bytes) (acc : bytes) : bytes :=
  match l with
  | [] => acc
  | a :: l => if is_byte a 47 then acc else last_element l (a :: acc)
  end.
Definition Base (path : string) : string :=
  if bool_decide (path = "") then "."
  else
    let l := drop_while_byte (ch "/") (rev (str_bytes path)) in
    if bool_decide (l = []) then "/" else bytes_str (last_element l []).

Section tasks.
Context `{Crypto} {J : JWT} {G : GrantJSON} {U : URLs}.
Context (e : env).

(** ** Shortcuts *)

Definition shortcut_kind : kind := KObj [("name", KStr); ("cmd", KStr)].
Definition body_shortcut (v : value) : Shortcut :=
  match v with VMap m => MkShortcut (stringField m "name") (stringField m "cmd") | _ => MkShortcut "" "" end.
Definition body_shortcuts (d : document) : option (list Shortcut) :=
  map body_shortcut <$> decode_list shortcut_kind d.

Definition shortcuts (r : Request) (user : User) : M Response :=
  requireCapability user "shell" ;;
  if bool_decide (rqMethod r = "GET") then
    let! l := reads (Assets.Shortcuts (uID user)) in
    ret (writeJSON StatusOK (CShortcuts l))
  else if bool_decide (rqMethod r = "POST") then
    let! l := some_or (body_shortcuts (rqBody r)) StatusBadRequest "invalid shortcuts" in
    stores_ (Persist.ReplaceShortcuts (evDB e 0) (uID user) l) ;;
    audit_event e 1 user "shortcuts.replace" "" {[ "count" := VInt (Z.of_nat (length l)) ]} ;;
    let! l := reads (Assets.Shortcuts (uID user)) in
    ret (writeJSON StatusOK (CShortcuts l))
  else methodNotAllowed.

(** ** The file library *)

Definition files (r : Request) (user : User) : M Response :=
  method r "GET" ;;
  requireCapability user "file_library" ;;
  let! l := reads Assets.Assets in
  ret (writeJSON StatusOK (CAssets l)).

(** The path of an asset under the asset directory. *)
Definition asset_path (s : Server) (id : string) : string := cfAssetDir (svConfig s) +:+ "/" +:+ id +:+ ".blob".

Definition disk (i : nat) (status : Z) (message : string) : M () := require (evDisk e i) status message.

(** The upload is copied to a temporary file, at most one byte beyond the limit, and moved
    to its path; the temporary file is gone afterwards. *)
Definition upload (r : Request) (user : User) : M Response :=
  method r "POST" ;;
  requireCapability user "file_library" ;;
  let name := Base (TrimSpace (Query r "name")) in
  require (negb (bool_decide (name ∈ ["."; ""; "/"]))) StatusBadRequest "invalid file name" ;;
  require (bool_decide (Query r "type" = "file")) StatusBadRequest "unsupported upload type" ;;
  let! s := get_state in
  let limit := cfMaxAssetBytes (svConfig (apServer s)) in
  require (rqLength r <=? limit) StatusRequestEntityTooLarge "file exceeds configured size limit" ;;
  disk 0 StatusInternalServerError "create asset directory" ;;
  disk 1 StatusInternalServerError "create temporary upload" ;;
  let! data := ok_or (rqContent r) StatusBadRequest "read upload" in
  let data := take (Z.to_nat (limit + 1)) data in
  disk 2 StatusBadRequest "read upload" ;;
  require (blen data <=? limit) StatusRequestEntityTooLarge "file exceeds configured size limit" ;;
  let id := randomID (evRand e 0) in
  let asset := MkAsset id name (asset_path (apServer s) id) (hex (sha256 data)) (blen data) (uUsername user) (evNow e) in
  disk 3 StatusInternalServerError "finalize upload" ;;
  (λ s, (inr (), on_files (insert (asPath asset) data) s)) ;;
  let! stored := stores (Persist.CreateAsset (evDB e 0) (evRand e 1) (evNow e) asset) in
  match stored with
  | Err x =>
      (λ s, (inr (), on_files (delete (asPath asset)) s)) ;;
      answer match x with
             | ErrAlreadyExists => writeError StatusConflict "file name already exists"
             | _ => writeError StatusInternalServerError "store asset"
             end
  | Ok stored =>
      audit_event e 1 user "asset.upload" (asID stored)
        {[ "name" := VStr (asName stored); "size" := VInt (asSize stored); "sha256" := VStr (asSHA256 stored) ]} ;;
      ret (writeJSON StatusOK (CAsset stored))
  end.

Definition quote_name (name : string) : string :=
  "attachment; filename=" +:+ String "034" (ReplaceAll name (String "034" "") "") +:+ String "034" "".

Definition in_transfer (device : TaskDevice) : bool :=
  bool_decide (tdStatus device = TaskLeased) || bool_decide (tdStatus device = TaskRunning).

(** No user is needed: the grant is the permission. *)
Definition download (r : Request) : M Response :=
  method r "GET" ;;
  let! s := get_state in
  let store := store_of s in
  let! grant := ok_or (parseDownloadGrant (evNow e) (cfJWTSecret (svConfig (apServer s))) (Query r "grant"))
                  StatusUnauthorized "invalid download grant" in
  let! asset := ok_or (Assets.AssetByID (dgAssetID grant) store) StatusNotFound "asset not found" in
  let! task := ok_or (Tasks.TaskByID (dgTaskID grant) store) StatusUnauthorized "invalid download grant" in
  require (bool_decide (tAssetID task = asID asset)) StatusUnauthorized "invalid download grant" ;;
  require (match tDevices task !! dgDeviceID grant with Some device => in_transfer device | None => false end)
    StatusUnauthorized "invalid download grant" ;;
  require (bool_decide (Base (rqPath r) = asName asset)) StatusNotFound "asset not found" ;;
  let! data := some_or (apFiles s !! asPath asset) StatusNotFound "asset content unavailable" in
  ret (MkResponse StatusOK
    {[ "Content-Length" := FormatUint (asSize asset); "Content-Type" := "application/octet-stream";
       "Content-Disposition" := quote_name (asName asset) ]} (CFile data)).

(** ** Tasks *)

Definition task_fields : schema := [("type", KStr); ("targets", KList KStr); ("payload", KStr); ("dest_path", KStr)].
Definition allowed_types : list string := ["shell"; "install"; "push_file"; "open_app"; "uninstall"].
Definition needs_asset (type : string) : bool := bool_decide (type = "install") || bool_decide (type = "push_file").

(** The loop over the targets: [None] when one of them is refused.  The entries have no
    status yet; [CreateTask] queues them all. *)
Fixpoint task_devices (user : User) (targets : list string) : option (gmap string TaskDevice) :=
  match targets with
  | [] => Some ∅
  | deviceID :: targets =>
      if bool_decide (deviceID = "") || negb (CanAccessDevice user deviceID) then None
      else <[deviceID := MkTaskDevice deviceID TaskQueued "" time_zero]> <$> task_devices user targets
  end.

(** The task with the asset its payload names. *)
Definition attach_asset (user : User) (task : Task) : M Task :=
  if needs_asset (tType task) then
    require (Can user "file_library") StatusForbidden "file_library permission required" ;;
    let! parsed := some_or (url_parse (tPayload task)) StatusBadRequest "invalid asset URL" in
    let! asset := reads (Assets.AssetByName (Base (snd parsed))) in
    let! asset := ok_or asset StatusBadRequest "asset not found" in
    ret (set_tPayload (λ _, "") (set_tAssetID (λ _, asID asset) task))
  else ret task.

Definition createTask (r : Request) (user : User) : M Response :=
  requireCapability user "batch_tasks" ;;
  let! body := some_or (decodeJSON task_fields (rqBody r)) StatusBadRequest "invalid task request" in
  let type := stringField body "type" in
  let targets := stringsField body "targets" in
  require (bool_decide (type ∈ allowed_types) && negb (bool_decide (targets = []))) StatusBadRequest "unsupported task" ;;
  require (negb (bool_decide (type = "shell")) || Can user "shell") StatusForbidden "shell permission required" ;;
  let! devices := some_or (task_devices user targets) StatusForbidden "target device access denied" in
  let! s := get_state in
  let task := MkTask "" type (stringField body "payload") "" (stringField body "dest_path") (uUsername user)
                (evNow e) (Add (evNow e) (cfTaskTTL (svConfig (apServer s)))) devices in
  let! task := attach_asset user task in
  let! stored := stores (Persist.CreateTask (evDB e 0) (evRand e 0) (evNow e) task) in
  let! stored := ok_or stored StatusInternalServerError "create task" in
  audit_event e 1 user "task.create" (tID stored)
    {[ "type" := VStr (tType stored); "target_count" := VInt (Z.of_nat (size (tDevices stored))) ]} ;;
  updates (λ s, foldl (λ s deviceID, notifyTask deviceID (tID stored) s) s (map_to_list (tDevices stored)).*1) ;;
  ret (writeJSON StatusCreated (jmap {[ "status" := VStr "success"; "task_id" := VStr (tID stored) ]})).

Definition tasks (r : Request) (user : User) : M Response :=
  if bool_decide (rqMethod r = "GET") then
    let! l := reads (Tasks.TasksFor user) in
    ret (writeJSON StatusOK (CTasks l))
  else if bool_decide (rqMethod r = "POST") then createTask r user
  else methodNotAllowed.

Definition taskDetails (r : Request) (user : User) : M Response :=
  method r "GET" ;;
  let! task := reads (Tasks.TaskByID (Query r "task_id")) in
  let! task := ok_or task StatusNotFound "task not found" in
  require (canSeeTask user task) StatusForbidden "task access denied" ;;
  ret (writeJSON StatusOK (CTask task)).
End tasks.
