(* ===== verification/Artifacts.v ===== *)
(** * Handlers: agent artifacts, deployment packages and the web interface
    (controlplane/deployment.go, webui/webui.go)

    The files on the server's disk, those compiled into the program and the URL library
    are parameters.  Go writes the members of an archive in the arbitrary order of its
    map; the model uses the order of the literal, and nothing stated depends on it. *)

From S2P Require Import Prelude GoBase GoStrings GoFloat Model Store Config Hub Auth Grants AdbShell DeviceFiles Server Persist Json Http.
From S2P Require Enrollments.

(** [url.Parse] as [signalingEndpoint] uses it: the scheme, the host name, whether there
    is user information, and the text of the URL with another scheme and path and
    neither query nor fragment. *)
Class Endpoints := {
  url_endpoint : string → option (string * string * bool);
  url_with : string → string → string → string
}.

Section artifacts.
Context `{Crypto} {J : JWT} {E : Endpoints}.
Context (stat : string → bool) (opened embedded dist : string → option bytes).
Context (e : env).

(** ** deployment.go *)

Definition deviceABIs : list string := ["arm64-v8a"; "armeabi-v7a"; "x86_64"; "x86"].

Definition agent_file (s : Server) (abi : string) : string :=
  cfAgentDir (svConfig s) +:+ "/" +:+ abi +:+ "/scrcpycat-agent".

(** The loop over the ABIs; the empty path stands for no artifact. *)
Definition artifact_path (s : Server) (name : string) : string :=
  foldl (λ path abi, if bool_decide (name = abi +:+ "/scrcpycat-agent") then agent_file s abi else path)
    (if bool_decide (name = "scrcpy-server.jar") then cfScrcpyJar (svConfig s) else "") deviceABIs.

(** [http.ServeFile] *)
Definition serve_file (headers : gmap string string) (path : string) : Response :=
  match opened path with
  | Some data => MkResponse StatusOK headers (CFile data)
  | None => MkResponse StatusNotFound headers (CText "404 page not found")
  end.

Definition agentArtifact (r : Request) (admin : User) : M Response :=
  method r "GET" ;;
  let! s := get_state in
  let path := artifact_path (apServer s) (TrimPrefix (rqPath r) "/agent/") in
  require (negb (bool_decide (path = ""))) StatusNotFound "artifact not found" ;;
  ret (serve_file {[ "Cache-Control" := "private, no-store"; "Content-Type" := "application/octet-stream" ]} path).

Definition signalingEndpoint (raw : string) : result string :=
  match url_endpoint raw with
  | None => Err (ErrMsg "invalid signaling address")
  | Some (scheme, host, user) =>
      if bool_decide (host = "") || user then Err (ErrMsg "invalid signaling address")
      else if bool_decide (scheme = "http") then Ok (url_with raw "ws" "/register_agent")
      else if bool_decide (scheme = "https") then Ok (url_with raw "wss" "/register_agent")
      else if bool_decide (scheme = "ws") || bool_decide (scheme = "wss") then Ok (url_with raw scheme "/register_agent")
      else Err (ErrMsg "signaling address requires ws:// or wss://")
  end.

Definition shellQuote (value : string) : string := Quote value.

(** [^[A-Za-z0-9_.-]{1,32}$] *)
Definition id_char (a : byte) : bool :=
  in_range a 48 57 || in_range a 65 90 || in_range a 97 122 || bool_decide (a ∈ str_bytes "_.-").
Definition id_ok (id : string) : bool := forallb id_char (str_bytes id) && (1 <=? len id) && (len id <=? 32).

(** The artifacts of a package, by the name they get in it. *)
Definition payloads (s : Server) : list (string * string) :=
  ("scrcpy-server.jar", cfScrcpyJar (svConfig s)) ::
  map (λ abi, ("bin/" +:+ abi +:+ "/scrcpycat-agent", agent_file s abi)) deviceABIs.

Definition package_files (mode : string) : list (string * string) :=
  if bool_decide (mode = "magisk")
  then [("service.sh", "service.sh"); ("customize.sh", "customize.sh"); ("module.prop", "module.prop");
        ("action.sh", "action.sh"); ("system/bin/scrcpycatctl", "scrcpycatctl")]
  else [("run.sh", "run.sh"); ("run.ps1", "run.ps1"); ("run.bat", "run.bat")].

Definition newline : string := String (ascii_of_N 10) "".
Definition configEnv (id signaling token : string) : string :=
  "SCRCPYCAT_DEVICE_ID=" +:+ shellQuote id +:+ newline +:+
  "SCRCPYCAT_SIGNALING=" +:+ shellQuote signaling +:+ newline +:+
  "SCRCPYCAT_ENROLLMENT_TOKEN=" +:+ shellQuote token +:+ newline.

(** Adding members until one cannot be read: the members, and whether all are there. *)
Fixpoint add_files (read : string → option bytes) (executable : string * string → bool)
    (l : list (string * string)) : list (string * entry * bool) * bool :=
  match l with
  | [] => ([], true)
  | (target, source) :: l =>
      match read source with
      | None => ([], false)
      | Some data =>
          let '(rest, done) := add_files read executable l in
          ((target, EBytes data, executable (target, source)) :: rest, done)
      end
  end.

Definition archive (mode id signaling token : string) (s : Server) : list (string * entry * bool) * bool :=
  let config := [("config.env", EBytes (str_bytes (configEnv id signaling token)), false);
                 ("config.json", EConfig {[ "device_id" := id; "signaling" := signaling; "enrollment_token" := token ]}, false)] in
  let '(scripts, ok) := add_files (λ source, embedded ("deploy-assets/" +:+ source))
                          (λ f, HasSuffix (snd f) ".sh" || bool_decide (snd f = "scrcpycatctl")) (package_files mode) in
  if negb ok then (config ++ scripts, false)
  else
    let '(artifacts, ok) := add_files opened (λ f, HasSuffix (fst f) "scrcpycat-agent") (payloads s) in
    (config ++ scripts ++ artifacts, ok).

Definition deploymentPackage (r : Request) (admin : User) : M Response :=
  method r "POST" ;;
  let! request := some_or (decode_settings (rqBody r)) StatusBadRequest "invalid deployment request" in
  let mode := stringField request "mode" in
  require (bool_decide (mode = "adb") || bool_decide (mode = "magisk")) StatusBadRequest "mode must be adb or magisk" ;;
  let id := stringField request "device_id" in
  let id := if bool_decide (id = "") then "android-" +:+ take_string 12 (randomID (evRand e 0)) else id in
  require (id_ok id) StatusBadRequest "invalid device ID" ;;
  let! s := get_state in
  let raw := stringField request "signaling" in
  let raw := if bool_decide (raw = "") then cfPublicURL (svConfig (apServer s)) else raw in
  match signalingEndpoint raw with
  | Err x => answer (writeError StatusBadRequest (Error x))
  | Ok signaling =>
      require (forallb (λ f, stat (snd f)) (payloads (apServer s))) StatusServiceUnavailable
        "Agent artifacts have not been built or mounted" ;;
      let! enrollment := stores (Persist.CreateEnrollment (evDB e 0) (evRand e 1) (evNow e) id (24 * Hour)) in
      let '(entries, complete) := archive mode id signaling (enToken enrollment) (apServer s) in
      (if complete : bool then audit_event e 1 admin "deployment.package" id {[ "mode" := VStr mode ]} else ret ()) ;;
      ret (MkResponse StatusOK
        {[ "Content-Type" := "application/zip"; "Cache-Control" := "private, no-store";
           "Content-Disposition" := "attachment; filename=" +:+ String "034" ("scrcpycat-" +:+ mode +:+ ".zip") +:+ String "034" "" ]}
        (CArchive entries))
  end.

(** ** webui.go *)

Definition reserved_roots : list string :=
  ["api"; "agent"; "devices"; "connect_client"; "register_agent"; "upload"; "downloads"; "snapshots"; "healthz"].

Definition not_found : Response :=
  MkResponse StatusNotFound {[ "Content-Type" := "text/plain; charset=utf-8" ]} (CText "404 page not found").
Definition http_error (status : Z) (text : string) : Response :=
  MkResponse status {[ "Content-Type" := "text/plain; charset=utf-8" ]} (CText text).

(** The file to serve and its content. *)
Definition page_of (root name : string) : string * option bytes :=
  match dist name with
  | Some data => (name, Some data)
  | None => if negb (bool_decide (root = "assets")) && bool_decide (Ext name = "") then ("index.html", dist "index.html")
            else (name, None)
  end.

Definition page_headers (name : string) (data : bytes) : gmap string string :=
  let headers := {[ "Cache-Control" := (if HasPrefix name "assets/" then "public, max-age=31536000, immutable" else "no-cache");
                    "ETag" := String "034" (Server.hex (sha256 data)) +:+ String "034" "";
                    "X-Content-Type-Options" := "nosniff" ]} in
  if bool_decide (Ext name = ".wasm") then <["Content-Type" := "application/wasm"]> headers else headers.

Definition handler (r : Request) : M Response :=
  let name := TrimPrefix (DeviceFiles.Clean ("/" +:+ rqPath r)) "/" in
  let root := hd "" (Split name "/") in
  ret (
  if bool_decide (root ∈ reserved_roots) then not_found
  else if existsb (λ part, HasPrefix part ".") (Split name "/") then not_found
  else if negb (bool_decide (rqMethod r ∈ ["GET"; "HEAD"])) then
    set_header "Allow" "GET, HEAD" (http_error StatusMethodNotAllowed "method not allowed")
  else
    let name := if bool_decide (name = "") then "index.html" else name in
    match page_of root name with
    | (name, Some data) => MkResponse StatusOK (page_headers name data) (CFile data)
    | (name, None) =>
        if bool_decide (name = "index.html")
        then http_error StatusServiceUnavailable "frontend assets are not built; run make build-frontend"
        else not_found
    end).
End artifacts.
