(* ===== verification/Api.v ===== *)
(** * The HTTP interface (server.go: Handler, withCORS; auth.go)

    The routing table, what surrounds every handler, and what a request can do to the
    state of the server according to who sends it.  The two WebSocket paths are in
    Server.v. *)

From S2P Require Import Prelude GoBase GoStrings GoFloat Model Store Config LoginLimiter Hub Auth Grants Server Persist Json Http.
From S2P Require Import RestAccounts RestDevices RestDeploy RestShares RestTasks Artifacts.
From S2P Require Users Devices Shares Enrollments Assets Tasks.

Section api.
Context `{Crypto} {J : JWT} {N : NetIP} {C : Codec} {G : GrantJSON} {U : URLs} {E : Endpoints}.
Context (stat : string → bool) (opened embedded dist : string → option bytes).
(** [buildinfo.Version] and [buildinfo.Revision]. *)
Context (build_version build_revision : string).
Context (e : env).

Definition version (r : Request) (user : User) : M Response :=
  ret (writeJSON StatusOK (jmap {[ "version" := VStr build_version; "git_commit" := VStr build_revision;
                                   "edition" := VStr "self-hosted" ]})).

(** ** Routes *)

Inductive route :=
| Public (h : Request → M Response)
| ForUsers (h : Request → User → M Response)
| ForAdmins (h : Request → User → M Response).

Definition routes : list (string * route) := [
  ("/healthz", Public (health e));
  ("/devices", ForUsers (devices e));
  ("/api/auth-status", Public authStatus);
  ("/api/login", Public (login e));
  ("/api/ws-ticket", Public (websocketTicket e));
  ("/api/register", Public (register e));
  ("/api/logout", ForUsers (logout e));
  ("/api/me", ForUsers me);
  ("/api/version", ForUsers version);
  ("/api/server/addresses", ForUsers serverAddresses);
  ("/api/deploy/package", ForAdmins (deploymentPackage stat opened embedded e));
  ("/agent/", ForAdmins (agentArtifact opened));
  ("/api/ice_servers", ForUsers iceServerList);
  ("/api/default_settings", ForUsers (defaultSettings e));
  ("/api/device_settings", ForUsers allDeviceSettings);
  ("/api/tags", ForUsers (tags e));
  ("/api/admin/users", ForAdmins (adminUsers e));
  ("/api/admin/assign", ForAdmins (adminAssign e));
  ("/api/admin/users/create", ForAdmins (adminCreateUser e));
  ("/api/admin/users/delete", ForAdmins (adminDeleteUser e));
  ("/api/admin/users/reset_password", ForAdmins (adminResetPassword e));
  ("/api/admin/users/update_note", ForAdmins (adminUpdateNote e));
  ("/api/admin/users/rename", ForAdmins (adminRenameUser e));
  ("/api/admin/users/update", ForAdmins (adminUpdateUser e));
  ("/api/admin/users/kick", ForAdmins adminKickUser);
  ("/api/agents/enrollment-tokens", ForAdmins (enrollmentTokens e));
  ("/api/admin/deployment-credentials", ForAdmins (deploymentCredentials e));
  ("/api/admin/deployment-credentials/revoke", ForAdmins (revokeDeploymentCredential e));
  ("/api/deploy/enrollment-tokens", Public (deploymentEnrollmentTokens e));
  ("/api/tasks", ForUsers (tasks e));
  ("/api/tasks/details", ForUsers taskDetails);
  ("/api/shortcuts", ForUsers (shortcuts e));
  ("/api/files", ForUsers files);
  ("/upload", ForUsers (upload e));
  ("/downloads/", Public (download e));
  ("/api/devices/", ForUsers (deviceByID e));
  ("/api/share/create", ForUsers (shareCreate e));
  ("/api/share/list", ForUsers (shareList e));
  ("/api/share/revoke", ForUsers (shareRevoke e));
  ("/api/share/update", ForUsers (shareUpdate e));
  ("/api/share/extend", ForUsers (shareExtend e));
  ("/api/share/redeem_card", Public (shareRedeemCard e));
  ("/api/share/info", Public (shareInfo e));
  ("/", Public (handler dist))
].

(** [http.ServeMux]: a pattern that ends in a slash is a prefix, the longest one wins and
    an exact pattern is longer than any prefix of its path. *)
Definition pattern_matches (path pattern : string) : bool :=
  bool_decide (path = pattern) || (HasSuffix pattern "/" && HasPrefix path pattern).
Definition longer (path : string) (best : option (string * route)) (candidate : string * route) : option (string * route) :=
  if pattern_matches path (fst candidate) then
    match best with
    | Some b => if (String.length (fst b) <? String.length (fst candidate))%nat then Some candidate else best
    | None => Some candidate
    end
  else best.
Definition find_route (path : string) : option route :=
  snd <$> foldl (longer path) None routes.

Definition dispatch (r : Request) : M Response :=
  match find_route (rqPath r) with
  | Some (Public h) => h r
  | Some (ForUsers h) => requireUser e h r
  | Some (ForAdmins h) => requireAdmin e h r
  | None => ret not_found
  end.

(** ** Cross-origin requests *)

Definition originAllowed (origin : string) (config : Config) : bool :=
  existsb (λ allowed, bool_decide (allowed = origin)) (cfCORSOrigins config) ||
  match url_parse (cfPublicURL config) with
  | Some (scheme, host, _) =>
      negb (bool_decide (scheme = "")) && negb (bool_decide (host = "")) &&
      bool_decide (origin = scheme +:+ "://" +:+ host)
  | None => false
  end ||
  (bool_decide (cfCORSOrigins config = []) &&
   (HasPrefix origin "http://localhost:" || HasPrefix origin "http://127.0.0.1:")).

Definition cors_headers (origin : string) : gmap string string :=
  {[ "Access-Control-Allow-Origin" := origin; "Vary" := "Origin";
     "Access-Control-Allow-Headers" := "Authorization, Content-Type";
     "Access-Control-Allow-Methods" := "GET, POST, PUT, PATCH, DELETE, OPTIONS" ]}.

Definition withCORS (next : Request → M Response) (r : Request) (s : Api) : Response * Api :=
  let config := svConfig (apServer s) in
  let headers := if negb (bool_decide (rqOrigin r = "")) && originAllowed (rqOrigin r) config
                 then cors_headers (rqOrigin r) else ∅ in
  let '(response, s) :=
    if bool_decide (rqMethod r = "OPTIONS") then (MkResponse StatusNoContent ∅ CEmpty, s) else run (next r) s in
  (MkResponse (rsStatus response) (rsHeaders response ∪ headers) (rsContent response), s).

(** One request. *)
Definition serve (r : Request) (s : Api) : Response * Api := withCORS dispatch r s.
End api.

(** ** Witnesses *)

(** A server without devices, with one administrator and one user, and requests to it. *)
Module ApiWitness.
Export ToyCrypto ToyJWT GrantsWitness.

#[export] Instance toy_codec : Codec := {|
  decode_devices _ := None; decode_task _ := None; decode_device_tags _ := None;
  decode_device_info _ := Some DeviceInfo_zero;
  png_dimensions _ := None
|}.
#[export] Instance toy_netip : NetIP := {|
  parse_addr s := Some s; addr_string s := s; prefix_contains _ _ := false; split_host s := Some s
|}.
#[export] Instance toy_urls : URLs := {| url_parse s := Some ("http", "scrcpycat", s) |}.
#[export] Instance toy_endpoints : Endpoints := {|
  url_endpoint s := Some ("http", s, false); url_with s scheme path := scheme +:+ "://" +:+ s +:+ path
|}.

Definition config : Config :=
  MkConfig "" (str_bytes "key") "" "" true "http://scrcpycat" [] "" "" [] "" "" "assets" "agent" "jar"
    Hour 0 100 0 0 0 Minute 3 5 [].
Definition rand (a : ascii) : nat → bytes := λ _, repeat a 24.
Definition at_ (now : Time) (a : ascii) : env := MkEnv now (rand a) (λ _, true) (λ _, true) true.

Definition store0 : MemoryStore := from_ok empty_store
  (Users.NewMemoryStore (repeat "u"%char 24) [] 0 "root" "secret").
Definition api0 : Api := MkApi (newServer config store0 None) None None ∅.

Definition request (method path token : string) (body : document) : Request :=
  MkRequest method path ∅ ("Bearer " +:+ token) "" "10.0.0.1" "" 0 body (Ok []).
Definition body (l : list (string * value)) : document := DObject l.

Definition serve0 (e : env) (r : Request) (s : Api) : Response * Api :=
  serve (λ _, true) (λ _, None) (λ _, None) (λ _, None) "1.0" "abc" e r s.

(** The token of a login. *)
Definition token_of (response : Response) : string :=
  match rsContent response with CJSON (VMap m) => stringField m "token" | _ => "" end.

Definition login_request (name password : string) : Request :=
  request "POST" "/api/login" "" (body [("username", VStr name); ("password", VStr password)]).

Definition create_alice : Request :=
  request "POST" "/api/register" "" (body [("username", VStr "alice"); ("password", VStr "pass")]).
Definition api1 : Api := snd (serve0 (at_ Second "a") create_alice api0).
Definition alice_token : string := token_of (fst (serve0 (at_ (2 * Second) "b") (login_request "alice" "pass") api1)).
Definition root_token : string := token_of (fst (serve0 (at_ (2 * Second) "c") (login_request "root" "secret") api1)).
End ApiWitness.
