(* ===== verification/ApiAccess.v ===== *)
(** * What a request can do, according to who sends it

    The relation [bounded] says which entries of the store a request of a guest, of an
    anonymous caller or of an ordinary user may have changed; every handler that such a
    caller reaches keeps it. *)

From S2P Require Import Prelude GoBase GoStrings GoFloat Model Store Config LoginLimiter Hub Auth Grants Server Persist Json Http.
From S2P Require Import RestAccounts RestDevices RestDeploy RestShares RestTasks Artifacts Api.
From S2P Require Users Devices Shares Enrollments Assets Tasks.

Section bounded.
Context `{Crypto}.
(** The caller, the digest of the token it sent, the instant and the share token that
    the request would draw. *)
Context (who : option User) (digest : string) (now : Time) (drawn : string).

Definition allowed_device (deviceID : string) : Prop := ∃ u, who = Some u ∧ CanAccessDevice u deviceID = true.

(** A task that a user was allowed to create. *)
Definition allowed_task (u : User) (task : Task) : Prop :=
  tCreatedBy task = uUsername u ∧ Can u "batch_tasks" = true ∧
  (tType task = "shell" → Can u "shell" = true) ∧
  (needs_asset (tType task) = true → Can u "file_library" = true) ∧
  map_Forall (λ deviceID _, CanAccessDevice u deviceID = true) (tDevices task).

Record bounded (m m' : MemoryStore) : Prop := {
  bd_accounts : ms_users m' = ms_users m ∧ ms_usersByName m' = ms_usersByName m;
  bd_registry : ms_devices m' = ms_devices m ∧ ms_tags m' = ms_tags m ∧ ms_deviceTags m' = ms_deviceTags m ∧
    ms_defaultSettings m' = ms_defaultSettings m ∧ ms_deviceSettings m' = ms_deviceSettings m;
  bd_credentials : ms_deploymentCredentials m' = ms_deploymentCredentials m ∧
    ms_enrollments m' = ms_enrollments m ∧ ms_agentCredentials m' = ms_agentCredentials m;
  bd_shares t : ms_shares m' !! t = ms_shares m !! t ∨
    (∀ share, ms_shares m !! t = Some share →
       expired now (shExpiresAt share) = true ∨ allowed_device (shDeviceID share) ∨ t = drawn) ∧
    (∀ share, ms_shares m' !! t = Some share → allowed_device (shDeviceID share));
  bd_shortcuts id : (∀ u, who = Some u → uID u ≠ id) → ms_shortcuts m' !! id = ms_shortcuts m !! id;
  bd_assets id a : ms_assets m' !! id = Some a → ms_assets m !! id = Some a ∨
    ∃ u, who = Some u ∧ Can u "file_library" = true ∧ asCreatedBy a = uUsername u;
  bd_names name id : ms_assetsByName m !! name = Some id → ms_assetsByName m' !! name = Some id;
  bd_tasks t task : ms_tasks m' !! t = Some task → ms_tasks m !! t = Some task ∨
    ∃ u, who = Some u ∧ allowed_task u task;
  bd_tokens d : ms_revokedUserTokens m' !! d = ms_revokedUserTokens m !! d ∨ (d = digest ∧ is_Some who);
  bd_audits ev : ev ∈ ms_audits m' → ev ∈ ms_audits m ∨ ∃ u, who = Some u ∧ auActor ev = uUsername u
}.

#[export] Instance bounded_preorder : PreOrder bounded.
Proof.
  split.
  - intros m. split; try done; eauto.
  - intros m1 m2 m3 H1 H2. split.
    + destruct (bd_accounts _ _ H1) as [<- <-]. apply H2.
    + destruct (bd_registry _ _ H1) as (<- & <- & <- & <- & <-). apply H2.
    + destruct (bd_credentials _ _ H1) as (<- & <- & <-). apply H2.
    + intros t. destruct (bd_shares _ _ H1 t) as [E1|[O1 N1]], (bd_shares _ _ H2 t) as [E2|[O2 N2]].
      * left. by rewrite E2.
      * right. rewrite <-E1. by split.
      * right. rewrite E2. by split.
      * right. by split.
    + intros id Hid. by rewrite (bd_shortcuts _ _ H2 id Hid), (bd_shortcuts _ _ H1 id Hid).
    + intros id a [?|?]%(bd_assets _ _ H2); [by apply (bd_assets _ _ H1)|by right].
    + intros name id ?. by apply (bd_names _ _ H2), (bd_names _ _ H1).
    + intros t task [?|?]%(bd_tasks _ _ H2); [by apply (bd_tasks _ _ H1)|by right].
    + intros d. destruct (bd_tokens _ _ H1 d) as [E1|?]; [|by right].
      destruct (bd_tokens _ _ H2 d) as [E2|?]; [left; by rewrite E2|by right].
    + intros ev [?|?]%(bd_audits _ _ H2); [by apply (bd_audits _ _ H1)|by right].
Qed.

(** *** The operations *)

(** Changing one field only: the other clauses hold at once. *)
Ltac bounded_one := split; cbn; try done; try (by left); try (intros; by left); eauto.

Lemma bounded_audit u buf now' ev m :
  who = Some u → auActor ev = uUsername u → bounded m (Store.Audit buf now' ev m).
Proof.
  intros Hu Ha. unfold Store.Audit, auditLocked. bounded_one. intros x.
  rewrite elem_of_app, list_elem_of_singleton. intros [?| ->]; [by left|]. right. exists u. split; [done|].
  by repeat case_match; cbn.
Qed.

Lemma bounded_shares_update m (f : gmap string Share) :
  (∀ t, f !! t = ms_shares m !! t ∨
     (∀ share, ms_shares m !! t = Some share →
        expired now (shExpiresAt share) = true ∨ allowed_device (shDeviceID share) ∨ t = drawn) ∧
     (∀ share, f !! t = Some share → allowed_device (shDeviceID share))) →
  bounded m (set_ms_shares (λ _, f) m).
Proof. intros Hf. bounded_one. Qed.

(** One share is stored, replaced or deleted. *)
Lemma bounded_share_put m t share :
  (∀ old, ms_shares m !! t = Some old →
     expired now (shExpiresAt old) = true ∨ allowed_device (shDeviceID old) ∨ t = drawn) →
  allowed_device (shDeviceID share) → bounded m (set_ms_shares (insert t share) m).
Proof.
  intros Hold Hnew. apply (bounded_shares_update m). intros t'. destruct (decide (t' = t)) as [->|Hne].
  - right. split; [done|]. intros sh. rewrite lookup_insert_eq. by intros [= <-].
  - left. by rewrite lookup_insert_ne.
Qed.
Lemma bounded_share_delete m t :
  (∀ old, ms_shares m !! t = Some old →
     expired now (shExpiresAt old) = true ∨ allowed_device (shDeviceID old) ∨ t = drawn) →
  bounded m (set_ms_shares (delete t) m).
Proof.
  intros Hold. apply (bounded_shares_update m). intros t'. destruct (decide (t' = t)) as [->|Hne].
  - right. split; [done|]. intros sh. by rewrite lookup_delete_eq.
  - left. by rewrite lookup_delete_ne.
Qed.

Lemma bounded_SharesFor d m : bounded m (snd (Shares.SharesFor now d m)).
Proof.
  unfold Shares.SharesFor. cbn [snd]. apply bounded_shares_update. intros t. rewrite lookup_delete_if.
  destruct (ms_shares m !! t) as [share|] eqn:E; cbn; [|by left].
  destruct (expired now (shExpiresAt share)) eqn:Ex; cbn; [right|by left].
  split; [|done]. intros ? [= <-]. by left.
Qed.
Lemma bounded_ShareByCard card m : bounded m (snd (Shares.ShareByCard now card m)).
Proof.
  unfold Shares.ShareByCard. pose proof (bounded_SharesFor "" m) as Hb. destruct (Shares.SharesFor now "" m) as [l m'].
  by destruct (List.find _ l).
Qed.
Lemma bounded_AuthorizeShare t password m : bounded m (snd (Shares.AuthorizeShare now t password m)).
Proof.
  unfold Shares.AuthorizeShare. destruct (ms_shares m !! t) as [share|] eqn:E; [|done].
  destruct (expired now (shExpiresAt share)) eqn:Ex.
  - apply bounded_share_delete. intros old Hold. simplify_eq. by left.
  - by destruct (_ && _).
Qed.
End bounded.

(** ** The handlers *)

Section handlers.
Context `{Crypto} {J : JWT} {N : NetIP} {C : Codec} {G : GrantJSON} {U : URLs} {E : Endpoints}.
Context (e : env) (r : Request) (who : option User).

Definition stays (s s' : Api) : Prop :=
  bounded who (tokenDigest (bearerToken (rqAuthorization r))) (evNow e) (randomToken (evRand e 0))
    (store_of s) (store_of s').

#[local] Instance stays_preorder : PreOrder stays.
Proof. split; unfold stays; [intros s; reflexivity|intros s1 s2 s3 H1 H2; by etrans]. Qed.

(** Steps that do not touch the store. *)
Lemma stays_same s s' : store_of s' = store_of s → stays s s'.
Proof. intros Hs. unfold stays. rewrite Hs. reflexivity. Qed.

Lemma svStore_send_agent d m s : svStore (send_agent_ d m s) = svStore s.
Proof. unfold send_agent_, send_agent. by destruct (sendAgent _ _ _). Qed.
Lemma svStore_notifyTask d t s : svStore (notifyTask d t s) = svStore s.
Proof. unfold notifyTask, PublishAgent, publish, with_redis. cbn. by rewrite svStore_send_agent. Qed.
Lemma svStore_fold {A} (f : Server → A → Server) l s :
  (∀ s a, svStore (f s a) = svStore s) → svStore (foldl f s l) = svStore s.
Proof. intros Hf. revert s. induction l as [|a l IH]; intros s; [done|]. cbn. by rewrite IH. Qed.

Lemma stays_server g s : svStore (g (apServer s)) = svStore (apServer s) → stays s (on_server g s).
Proof. intros Hg. by apply stays_same. Qed.

(** A write of the store stays within bounds when its inner operation does. *)
Lemma stays_put s p : 
  bounded who (tokenDigest (bearerToken (rqAuthorization r))) (evNow e) (randomToken (evRand e 0))
    (store_of s) (pg_inner p) → stays s (put_postgres p s).
Proof. done. Qed.

Ltac stays_run := repeat (keeps_run;
  first [apply (keeps_updates _); [apply stays_server; try done|]
        |apply (keeps_stores _); [apply stays_put|]
        |apply (keeps_stores_ _); [apply stays_put|]
        |apply (keeps_modify _); [by apply stays_same|]]; keeps_run).

Lemma stays_audit i u action target metadata s (k : M Response) :
  who = Some u → (∀ s, keeps stays s k) → keeps stays s (audit_event e i u action target metadata ;; k).
Proof.
  intros Hu Hk. unfold audit_event. apply (keeps_stores_ _); [|done]. apply stays_put.
  unfold Persist.Audit. rewrite always_inner. by eapply bounded_audit.
Qed.

(** *** Sessions *)

Lemma login_stays s : keeps stays s (login e r).
Proof. unfold login. keeps_run. by stays_run. Qed.

Lemma logout_stays u s : who = Some u → keeps stays s (logout e r u).
Proof.
  intros Hu. unfold logout. stays_run. unfold Persist.RevokeUserToken. rewrite checked_inner. cbn [snd].
  unfold Users.RevokeUserToken. split; cbn; try done; try (by left); try (intros; by left).
  intros d. destruct (decide (d = tokenDigest (bearerToken (rqAuthorization r)))) as [->|Hne].
  - right. split; [done|]. rewrite Hu. by eexists.
  - left. by rewrite lookup_insert_ne.
Qed.

Lemma stays_authorize t password s :
  stays s (put_postgres (snd (Persist.AuthorizeShare (evNow e) t password (postgres s))) s).
Proof.
  apply stays_put. unfold Persist.AuthorizeShare. pose proof (bounded_AuthorizeShare who
    (tokenDigest (bearerToken (rqAuthorization r))) (evNow e) (randomToken (evRand e 0)) t password (store_of s)) as Hb.
  rewrite postgres_inner. by destruct (Shares.AuthorizeShare _ _ _ _).
Qed.

Lemma websocketTicket_stays s : keeps stays s (websocketTicket e r).
Proof. unfold websocketTicket. keeps_run; by apply (keeps_stores _); [apply stays_authorize|keeps_run]. Qed.

(** *** Shortcuts, files and tasks *)

Lemma shortcuts_stays u s : who = Some u → keeps stays s (shortcuts e r u).
Proof.
  intros Hu. unfold shortcuts, requireCapability. keeps_run. apply (keeps_stores_ _).
  - apply stays_put. unfold Persist.ReplaceShortcuts. rewrite always_inner. unfold Assets.ReplaceShortcuts.
    split; cbn; try done; try (by left); try (intros; by left). intros id Hid.
    rewrite lookup_insert_ne; [done|]. by apply Hid.
  - apply (stays_audit _ u); [done|]. intros s'. by keeps_run.
Qed.

Lemma bounded_CreateAsset u buf a m :
  who = Some u → Can u "file_library" = true → asCreatedBy a = uUsername u →
  bounded who (tokenDigest (bearerToken (rqAuthorization r))) (evNow e) (randomToken (evRand e 0))
    m (snd (Assets.CreateAsset buf (evNow e) a m)).
Proof.
  intros Hu Hc Ha. unfold Assets.CreateAsset. set (a' := if decide (asID a = "") then _ else a).
  assert (asCreatedBy a' = uUsername u) as Ha' by (unfold a'; by case_decide).
  case_decide; [cbn; reflexivity|]. destruct (ms_assetsByName m !! asName a') eqn:En; [cbn; reflexivity|].
  set (a2 := if IsZero _ then _ else a'). assert (asCreatedBy a2 = uUsername u) as Ha2 by (unfold a2; by case_match).
  cbn [snd]. split; cbn; try done; try (by left); try (intros; by left).
  - intros id x. destruct (decide (id = asID a2)) as [->|Hne].
    + rewrite lookup_insert_eq. intros [= <-]. right. by exists u.
    + rewrite lookup_insert_ne by done. by left.
  - intros name id Hn. rewrite lookup_insert_ne; [done|]. intros <-.
    assert (asName a2 = asName a') as Ea by (unfold a2; by case_match). rewrite Ea in Hn. congruence.
Qed.

Lemma upload_stays u s : who = Some u → keeps stays s (upload e r u).
Proof.
  intros Hu. unfold upload, requireCapability, disk. keeps_run.
  apply (keeps_modify _); [by apply stays_same|]. apply (keeps_stores _).
  - apply stays_put. unfold Persist.CreateAsset. rewrite mutating_inner. by apply (bounded_CreateAsset u).
  - keeps_run; [|apply (keeps_modify _); [by apply stays_same|]; by keeps_run].
    apply (stays_audit _ u); [done|]. intros s'. by keeps_run.
Qed.

Lemma task_devices_allowed u targets devices :
  task_devices u targets = Some devices →
  map_Forall (λ deviceID device, CanAccessDevice u deviceID = true ∧ device = MkTaskDevice deviceID TaskQueued "" time_zero) devices ∧
  (∀ d, d ∈ targets → is_Some (devices !! d)) ∧ (∀ d, is_Some (devices !! d) → d ∈ targets).
Proof.
  revert devices. induction targets as [|d targets IH]; intros devices; cbn.
  - intros [= <-]. split_and!; [apply map_Forall_empty|by intros d ?%elem_of_nil|].
    intros d. rewrite lookup_empty. by intros [].
  - destruct (bool_decide (d = "") || negb (CanAccessDevice u d)) eqn:Ed; [done|].
    destruct (task_devices u targets) as [m|]; cbn; [|done]. intros [= <-]. bool_to_prop.
    destruct (IH m eq_refl) as (Hm & Ht1 & Ht2). split_and!.
    + by apply map_Forall_insert_2.
    + intros x [->|Hx]%elem_of_cons; [rewrite lookup_insert_eq; by eexists|].
      destruct (decide (x = d)) as [->|Hne]; [rewrite lookup_insert_eq; by eexists|].
      rewrite lookup_insert_ne by done. by apply Ht1.
    + intros x. destruct (decide (x = d)) as [->|Hne]; [by left|]. rewrite lookup_insert_ne by done.
      intros ?%Ht2. by right.
Qed.

Lemma bounded_CreateTask u buf task m :
  who = Some u → allowed_task u task →
  bounded who (tokenDigest (bearerToken (rqAuthorization r))) (evNow e) (randomToken (evRand e 0))
    m (snd (Tasks.CreateTask buf (evNow e) task m)).
Proof.
  intros Hu (Hc & Hb & Hs & Ha & Hd). unfold Tasks.CreateTask.
  set (t1 := if decide (tID task = "") then _ else task).
  assert (allowed_task u t1) as Ht1 by (unfold t1; case_decide; by split_and!).
  clearbody t1. case_decide; [cbn; reflexivity|]. cbn [snd].
  set (t2 := if IsZero (tCreatedAt t1) then _ else t1).
  assert (allowed_task u t2) as Ht2 by (unfold t2; case_match; by destruct Ht1 as (? & ? & ? & ? & ?)).
  clearbody t2. split; cbn; try done; try (by left); try (intros; by left).
  intros id x. destruct (decide (id = tID t2)) as [->|Hne].
  - rewrite lookup_insert_eq. intros [= <-]. right. exists u. split; [done|].
    destruct Ht2 as (? & ? & ? & ? & Hd2). split_and!; try done. cbn. intros d dev. rewrite map_lookup_imap.
    destruct (tDevices t2 !! d) as [dev0|] eqn:E2; [|done]. intros _. by apply (Hd2 d dev0).
  - rewrite lookup_insert_ne by done. by left.
Qed.

Lemma createTask_stays u s : who = Some u → keeps stays s (createTask e r u).
Proof.
  intros Hu. unfold createTask, requireCapability, attach_asset. keeps_run; bool_to_prop.
  all: apply (keeps_stores _);
    [apply stays_put; unfold Persist.CreateTask; rewrite mutating_inner; apply (bounded_CreateTask u); [done|]
    |keeps_run; apply (stays_audit _ u); [done|]; intros s'; keeps_run; apply (keeps_updates _);
      [apply stays_server, svStore_fold; intros; apply svStore_notifyTask|by keeps_run]].
  all: match goal with Hd : task_devices _ _ = Some _ |- _ => apply task_devices_allowed in Hd as (Hd & _ & _) end.
  all: split_and!; cbn; try done.
  all: try (intros Ht; match goal with
       | Hor : _ ∨ Can _ "shell" = true |- _ => by destruct Hor as [Hor|?]; [bool_to_prop|]
       | Hn : needs_asset _ = false |- _ => cbn in Hn; congruence end).
  all: intros d dev Hdev; match goal with Hd : map_Forall _ _ |- _ => apply (Hd d dev Hdev) end.
Qed.

Lemma tasks_stays u s : who = Some u → keeps stays s (tasks e r u).
Proof. intros Hu. unfold tasks. keeps_run. by apply createTask_stays. Qed.

(** *** Shares *)

Lemma stays_update_share u s t (update : Share → result Share) ok :
  who = Some u → (∀ share share', update share = Ok share' → shDeviceID share' = shDeviceID share) →
  (∀ share, ms_shares (store_of s) !! t = Some share → CanAccessDevice u (shDeviceID share) = true) →
  stays s (put_postgres (snd (Persist.UpdateShare ok t update (postgres s))) s).
Proof.
  intros Hu Hup Hacc. apply stays_put. unfold Persist.UpdateShare. rewrite mutating_inner, postgres_inner.
  unfold Shares.UpdateShare. destruct (ms_shares (store_of s) !! t) as [share|] eqn:Es; [|cbn; reflexivity].
  destruct (update share) as [share'|] eqn:Eu; [|cbn; reflexivity]. cbn [snd].
  apply bounded_share_put.
  - intros old Hold. simplify_eq. right. left. exists u. split; [done|]. by apply Hacc.
  - exists u. split; [done|]. rewrite (Hup _ _ Eu). by apply Hacc.
Qed.

Lemma shareCreate_stays u s : who = Some u → keeps stays s (shareCreate e r u).
Proof.
  intros Hu. unfold shareCreate. keeps_run. apply (keeps_stores _).
  - apply stays_put. unfold Persist.CreateShare. rewrite mutating_inner, postgres_inner. unfold Shares.CreateShare.
    match goal with |- context [decide (?x = "")] => destruct (decide (x = "")) end;
      [|destruct (bcrypt_generate _ _); [|cbn; reflexivity]]; cbn [snd];
      (apply bounded_share_put; [intros; by right; right|by exists u]).
  - unfold Persist.CreateShare at 2. rewrite mutating_result, postgres_inner. keeps_run. rename a into share.
    match goal with Ht : fst (Shares.CreateShare _ _ _ _ _ _ _ _ _ _ _) = Ok _ |- _ => rename Ht into Hs end.
    apply (keeps_stores _).
    + apply (stays_update_share u); [done|by intros ? ? [= <-]|]. rewrite store_put_postgres.
      unfold Persist.CreateShare. rewrite mutating_inner, postgres_inner. revert Hs. unfold Shares.CreateShare.
      match goal with |- context [decide (?x = "")] => destruct (decide (x = "")) end;
        [|destruct (bcrypt_generate _ _); [|done]]; cbn [fst snd]; intros [= <-]; cbn;
        rewrite lookup_insert_eq; by intros ? [= <-].
    + keeps_run. apply (stays_audit _ u); [done|]. intros s'. by keeps_run.
Qed.

Lemma shareList_stays u s : keeps stays s (shareList e r u).
Proof.
  unfold shareList, reads_inner. keeps_run. apply (keeps_stores _); [|by keeps_run]. apply stays_put. rewrite postgres_inner.
  pose proof (bounded_SharesFor who (tokenDigest (bearerToken (rqAuthorization r))) (evNow e)
    (randomToken (evRand e 0)) (Query r "device_id") (store_of s)) as Hb. by destruct (Shares.SharesFor _ _ _).
Qed.

Lemma shareRevoke_stays u s : who = Some u → keeps stays s (shareRevoke e r u).
Proof.
  intros Hu. unfold shareRevoke, post_body. keeps_run. apply (keeps_stores _); [|by keeps_run].
  apply stays_put. unfold Persist.RevokeShare. rewrite mutating_inner, postgres_inner. unfold Shares.RevokeShare.
  destruct (ms_shares (store_of s) !! _) as [share|] eqn:Es; [|cbn; reflexivity]. cbn [snd].
  apply bounded_share_delete. intros old Hold. simplify_eq. right. left. exists u. split; [done|].
  match goal with Hr : _ = true |- _ => unfold Shares.ShareByToken in Hr; rewrite Es in Hr; exact Hr end.
Qed.

Lemma own_share_access u t s {B} (k : M B) :
  ((∀ share, ms_shares (store_of s) !! t = Some share → CanAccessDevice u (shDeviceID share) = true) → keeps stays s k) →
  keeps stays s (own_share u t ;; k).
Proof.
  intros Hk. unfold own_share. keeps_run. apply Hk. intros share Hs.
  match goal with Hr : _ = true |- _ => unfold Shares.ShareByToken in Hr; by rewrite Hs in Hr end.
Qed.

Lemma shareUpdate_stays u s : who = Some u → keeps stays s (shareUpdate e r u).
Proof.
  intros Hu. unfold shareUpdate, post_body. keeps_run. apply own_share_access. intros Hacc. apply (keeps_stores _).
  - apply (stays_update_share u); [done|by intros ? ? [= <-]|done].
  - keeps_run. apply (stays_audit _ u); [done|]. intros s'. by keeps_run.
Qed.

Lemma shareExtend_stays u s : who = Some u → keeps stays s (shareExtend e r u).
Proof.
  intros Hu. unfold shareExtend, post_body. keeps_run. apply own_share_access. intros Hacc. apply (keeps_stores _).
  - apply (stays_update_share u); [done|by intros ? ? [= <-]|done].
  - keeps_run. apply (stays_audit _ u); [done|]. intros s'. by keeps_run.
Qed.

Lemma shareRedeemCard_stays s : keeps stays s (shareRedeemCard e r).
Proof.
  unfold shareRedeemCard, bad_card, reads_inner. keeps_run. apply (keeps_stores _).
  - apply stays_put. rewrite postgres_inner. match goal with |- context [Shares.ShareByCard _ ?card _] =>
      pose proof (bounded_ShareByCard who (tokenDigest (bearerToken (rqAuthorization r))) (evNow e)
        (randomToken (evRand e 0)) card (store_of s)) as Hb end. by destruct (Shares.ShareByCard _ _ _).
  - keeps_run. apply (keeps_stores _); [apply stays_authorize|by keeps_run].
Qed.

Lemma shareInfo_stays s : keeps stays s (shareInfo e r).
Proof. unfold shareInfo. keeps_run. apply (keeps_stores _); [apply stays_authorize|by keeps_run]. Qed.

(** *** Devices and settings: what changes them is for administrators *)

Lemma defaultSettings_stays u s : is_admin u = false → keeps stays s (defaultSettings e r u).
Proof. intros Hu. unfold defaultSettings. keeps_run; congruence. Qed.
Lemma tags_stays u s : is_admin u = false → keeps stays s (tags e r u).
Proof. intros Hu. unfold tags. keeps_run; congruence. Qed.
Lemma deviceByID_stays u s : is_admin u = false → keeps stays s (deviceByID e r u).
Proof. intros Hu. unfold deviceByID, deviceSettings, deviceSnapshot. keeps_run; congruence. Qed.
End handlers.

(** ** Routing *)

Section served.
Context `{Crypto} {J : JWT} {N : NetIP} {C : Codec} {G : GrantJSON} {U : URLs} {E : Endpoints}.
Context (stat : string → bool) (opened embedded dist : string → option bytes).
Context (build_version build_revision : string) (e : env).

Abbreviation routes_ := (routes stat opened embedded dist build_version build_revision e).
Abbreviation find_route_ := (find_route stat opened embedded dist build_version build_revision e).
Abbreviation serve_ := (serve stat opened embedded dist build_version build_revision e).

Lemma longer_fold path l best b :
  foldl (longer path) best l = Some b → best = Some b ∨ (b ∈ l ∧ pattern_matches path (fst b) = true).
Proof.
  revert best. induction l as [|c l IH]; intros best; [by left|]. cbn. intros [Hb|[Hin Hm]]%IH.
  - unfold longer in Hb. destruct (pattern_matches path (fst c)) eqn:Ec; [|by left].
    destruct best as [b0|]; [case_match|]; simplify_eq; [right|by left|right]; (split; [by left|done]).
  - right. split; [by right|done].
Qed.

Lemma find_route_in path rt :
  find_route_ path = Some rt → ∃ pattern, (pattern, rt) ∈ routes_ ∧ pattern_matches path pattern = true.
Proof.
  unfold find_route. destruct (foldl _ _ _) as [[pattern rt']|] eqn:Ef; [|done]. intros [= <-].
  apply longer_fold in Ef as [?|[Hin Hm]]; [done|]. by exists pattern.
Qed.

Lemma serve_state r s :
  snd (serve_ r s) = if bool_decide (rqMethod r = "OPTIONS") then s
                     else snd (dispatch stat opened embedded dist build_version build_revision e r s).
Proof.
  unfold serve, withCORS. case_bool_decide; [done|]. unfold run. by destruct (dispatch _ _ _ _ _ _ _ _ _) as [[]].
Qed.

(** The caller, as the handlers see it. *)
Definition caller (r : Request) (s : Api) : option User :=
  match current_user e r s with Ok u => Some u | Err _ => None end.

(** The two paths that have credentials of their own: registration and deployment. *)
Definition own_rules : list string := ["/api/register"; "/api/deploy/enrollment-tokens"].

Definition route_bounded (r : Request) (who : option User) (entry : string * route) : Prop :=
  match snd entry with
  | Public h => fst entry ∈ own_rules ∨ ∀ s, keeps (stays e r who) s (h r)
  | ForUsers h => ∀ u s, who = Some u → is_admin u = false → keeps (stays e r who) s (h r u)
  | ForAdmins _ => True
  end.

#[local] Instance stays_pre r who : PreOrder (stays e r who).
Proof. apply stays_preorder. Qed.

Lemma routes_bounded r who : Forall (route_bounded r who) routes_.
Proof.
  unfold routes. repeat (apply Forall_cons_2; [|]); try apply Forall_nil_2; unfold route_bounded; cbn [fst snd]; try exact I;
    try (first [by (left; left)|by (left; right; left)|right; intros s]); try (intros u s Hu Ha);
    eauto using login_stays, logout_stays, websocketTicket_stays, shortcuts_stays, upload_stays, tasks_stays,
      shareCreate_stays, shareList_stays, shareRevoke_stays, shareUpdate_stays, shareExtend_stays,
      shareRedeemCard_stays, shareInfo_stays, defaultSettings_stays, tags_stays, deviceByID_stays;
    try (unfold health, devices, authStatus, me, version, serverAddresses, iceServerList, allDeviceSettings,
      taskDetails, files, download, handler, requireCapability; by keeps_run).
Qed.

Lemma own_rule_path path pattern : pattern ∈ own_rules → pattern_matches path pattern = true → path = pattern.
Proof.
  unfold own_rules, pattern_matches. rewrite !elem_of_cons, elem_of_nil. intros Hp Hm. bool_to_prop.
  destruct Hm as [Hm|Hm]; bool_to_prop; [done|]. by destruct Hp as [->|[->|[]]].
Qed.

Lemma requireUser_keeps (R : Api → Api → Prop) `{!PreOrder R} h r s :
  (∀ u, current_user e r s = Ok u → keeps R s (h r u)) → keeps R s (requireUser e h r).
Proof. intros Hh. unfold requireUser. keeps_run. by apply Hh. Qed.
Lemma requireAdmin_keeps (R : Api → Api → Prop) `{!PreOrder R} h r s :
  (∀ u, current_user e r s = Ok u → is_admin u = true → keeps R s (h r u)) → keeps R s (requireAdmin e h r).
Proof. intros Hh. apply requireUser_keeps; [done|]. intros u Hu. keeps_run. by apply Hh. Qed.

(** The refusals, with the state they leave. *)
Definition refused (status : Z) (message : string) (s : Api) (result : (Response + Response) * Api) : Prop :=
  result = (inl (writeError status message), s).

Lemma requireUser_refuses h r s x :
  current_user e r s = Err x → refused StatusUnauthorized "unauthorized" s (requireUser e h r s).
Proof. intros Hx. unfold refused, requireUser, get_state, bind. cbn beta. by rewrite Hx. Qed.
Lemma requireAdmin_refuses h r s :
  (∀ u, current_user e r s = Ok u → is_admin u = false) →
  refused StatusUnauthorized "unauthorized" s (requireAdmin e h r s) ∨
  refused StatusForbidden "admin permission required" s (requireAdmin e h r s).
Proof.
  intros Hu. unfold refused, requireAdmin, requireUser, get_state, bind. cbn beta.
  destruct (current_user e r s) as [u|x] eqn:Ec; cbn; [right|by left]. by rewrite (Hu u eq_refl).
Qed.

(** What is sent back for a refusal, and the state it leaves. *)
Definition answered (status : Z) (message : string) (r : Request) (s : Api) : Prop :=
  rsStatus (fst (serve_ r s)) = status ∧
  rsContent (fst (serve_ r s)) = CJSON (VMap {[ "error" := VStr message ]}) ∧ snd (serve_ r s) = s.

Lemma refused_answered status message r s :
  rqMethod r ≠ "OPTIONS" →
  refused status message s (dispatch stat opened embedded dist build_version build_revision e r s) →
  answered status message r s.
Proof.
  intros Hm Hr. unfold answered, serve, withCORS. rewrite bool_decide_eq_false_2 by done.
  unfold run. by rewrite Hr.
Qed.

(** The paths for administrators and those for users, besides what is below
    /agent/ and /api/devices/. *)
Definition admin_paths : list string := [
  "/api/deploy/package"; "/api/admin/users"; "/api/admin/assign"; "/api/admin/users/create";
  "/api/admin/users/delete"; "/api/admin/users/reset_password"; "/api/admin/users/update_note";
  "/api/admin/users/rename"; "/api/admin/users/update"; "/api/admin/users/kick";
  "/api/agents/enrollment-tokens"; "/api/admin/deployment-credentials";
  "/api/admin/deployment-credentials/revoke"].
Definition user_paths : list string := [
  "/devices"; "/api/logout"; "/api/me"; "/api/version"; "/api/server/addresses"; "/api/ice_servers";
  "/api/default_settings"; "/api/device_settings"; "/api/tags"; "/api/tasks"; "/api/tasks/details";
  "/api/shortcuts"; "/api/files"; "/upload"; "/api/share/create"; "/api/share/list";
  "/api/share/revoke"; "/api/share/update"; "/api/share/extend"].

Definition admin_route (path : string) : Prop := ∃ h, find_route_ path = Some (ForAdmins h).
Definition user_route (path : string) : Prop := ∃ h, find_route_ path = Some (ForUsers h).

Lemma admin_paths_routed : Forall admin_route admin_paths.
Proof. unfold admin_paths. repeat (apply Forall_cons_2; [by eexists|]). apply Forall_nil_2. Qed.
Lemma user_paths_routed : Forall user_route user_paths.
Proof. unfold user_paths. repeat (apply Forall_cons_2; [by eexists|]). apply Forall_nil_2. Qed.

(** A prefix pattern with a path that continues it. *)
Lemma longer_no path best c : pattern_matches path (fst c) = false → longer path best c = best.
Proof. unfold longer. by intros ->. Qed.
Lemma longer_first path c : pattern_matches path (fst c) = true → longer path None c = Some c.
Proof. unfold longer. by intros ->. Qed.
Lemma longer_second path b c :
  pattern_matches path (fst c) = true → (String.length (fst b) <? String.length (fst c))%nat = false →
  longer path (Some b) c = Some b.
Proof. unfold longer. by intros -> ->. Qed.
Lemma pattern_exact_no path pattern : HasSuffix pattern "/" = false → path ≠ pattern → pattern_matches path pattern = false.
Proof. unfold pattern_matches. intros -> Hne. by rewrite bool_decide_eq_false_2. Qed.
Lemma pattern_prefix path pattern : HasSuffix pattern "/" = true → HasPrefix path pattern = true → pattern_matches path pattern = true.
Proof. unfold pattern_matches. intros -> ->. by rewrite orb_true_r. Qed.
Lemma pattern_prefix_no path pattern : path ≠ pattern → HasPrefix path pattern = false → pattern_matches path pattern = false.
Proof. unfold pattern_matches. intros Hne ->. by rewrite bool_decide_eq_false_2, andb_false_r. Qed.

Ltac route_no := cbn [fst]; first
  [apply pattern_exact_no; [reflexivity|vm_compute; by intros [=]]
  |apply pattern_prefix_no; [vm_compute; by intros [=]|reflexivity]].
Ltac route_prefix :=
  unfold find_route, routes; cbn [foldl];
  repeat first
    [rewrite (longer_no _ None) by route_no
    |rewrite (longer_no _ (Some _)) by route_no
    |rewrite longer_first by (cbn [fst]; apply pattern_prefix; [reflexivity|apply HasPrefix_refl_app])
    |rewrite longer_second by (cbn [fst]; first [by apply pattern_prefix|reflexivity])].

Lemma agent_routed name : admin_route ("/agent/" +:+ name).
Proof. unfold admin_route. eexists. route_prefix. reflexivity. Qed.
Lemma devices_routed name : user_route ("/api/devices/" +:+ name).
Proof. unfold user_route. eexists. route_prefix. reflexivity. Qed.

Lemma downloads_routed name : find_route_ ("/downloads/" +:+ name) = Some (Public (download e)).
Proof. route_prefix. reflexivity. Qed.

Lemma caller_None r s : caller r s = None → ∃ x, current_user e r s = Err x.
Proof. unfold caller. destruct (current_user e r s); [done|by eexists]. Qed.
Lemma caller_Some r s u : caller r s = Some u → current_user e r s = Ok u.
Proof. unfold caller. destruct (current_user e r s); [by intros [= ->]|done]. Qed.

Lemma user_route_refused r s x :
  rqMethod r ≠ "OPTIONS" → current_user e r s = Err x →
  user_route (rqPath r) ∨ admin_route (rqPath r) → answered StatusUnauthorized "unauthorized" r s.
Proof.
  intros Hm Hx Hr. apply refused_answered; [done|]. unfold dispatch.
  destruct Hr as [[h ->]|[h ->]]; by apply (requireUser_refuses _ _ _ x).
Qed.

(** ** Properties *)

Definition below (prefix path : string) : Prop := ∃ name, path = prefix +:+ name.

(** C26: No request without a valid session gets an answer from an endpoint of the users
    or of the administrators, and none of an ordinary user from one of the administrators:
    the answer is 401 or 403 and nothing in the state of the server changes.  The
    endpoints are those of the two lists, with everything below /agent/ and
    /api/devices/. *)
Theorem endpoints_protected r s :
  rqMethod r ≠ "OPTIONS" →
  (caller r s = None →
   (rqPath r ∈ user_paths ∨ below "/api/devices/" (rqPath r)) ∨
   (rqPath r ∈ admin_paths ∨ below "/agent/" (rqPath r)) →
   answered StatusUnauthorized "unauthorized" r s) ∧
  (∀ u, caller r s = Some u → is_admin u = false →
   rqPath r ∈ admin_paths ∨ below "/agent/" (rqPath r) →
   answered StatusForbidden "admin permission required" r s).
Proof.
  intros Hm.
  assert (∀ path, path ∈ user_paths ∨ below "/api/devices/" path → user_route path) as Huser.
  { intros path [Hin|[name ->]]; [|apply devices_routed].
    exact (proj1 (Forall_forall _ _) user_paths_routed path Hin). }
  assert (∀ path, path ∈ admin_paths ∨ below "/agent/" path → admin_route path) as Hadmin.
  { intros path [Hin|[name ->]]; [|apply agent_routed].
    exact (proj1 (Forall_forall _ _) admin_paths_routed path Hin). }
  split.
  - intros [x Hx]%caller_None Hp. apply (user_route_refused r s x); [done..|].
    destruct Hp as [Hp|Hp]; [left; by apply Huser|right; by apply Hadmin].
  - intros u Hu%caller_Some Ha Hp. apply refused_answered; [done|]. unfold dispatch.
    destruct (Hadmin _ Hp) as [h ->].
    destruct (requireAdmin_refuses h r s) as [Hr|Hr]; [intros u'; rewrite Hu; by intros [= <-]| |done].
    exfalso. revert Hr. unfold refused, requireAdmin, requireUser, get_state, bind. cbn beta. rewrite Hu. cbn.
    by rewrite Ha.
Qed.

End served.

(** ** Witnesses *)

Module ApiAccessWitness.
Import ApiWitness.

Definition now : env := at_ (3 * Second) "d".
Definition delete_root (token : string) : Request :=
  request "POST" "/api/admin/users/delete" token (body [("username", VStr "root")]).

Lemma endpoints_protected_witness :
  rsStatus (fst (serve0 now (delete_root "") api1)) = StatusUnauthorized ∧
  rsStatus (fst (serve0 now (delete_root alice_token) api1)) = StatusForbidden.
Proof.
  split.
  - refine (proj1 (proj1 (endpoints_protected (λ _, true) (λ _, None) (λ _, None) (λ _, None) "1.0" "abc" now
      (delete_root "") api1 _) _ _)); [by vm_compute|by vm_compute|].
    right; left. vm_compute. do 4 right. left.
  - refine (proj1 (proj2 (endpoints_protected (λ _, true) (λ _, None) (λ _, None) (λ _, None) "1.0" "abc" now
      (delete_root alice_token) api1 _) (from_ok User_zero (current_user now (delete_root alice_token) api1)) _ _ _));
      [by vm_compute|by vm_compute|by vm_compute|].
    left. vm_compute. do 4 right. left.
Defined.

(** The user's task is for no device of hers. *)
Definition shell_task : Request :=
  request "POST" "/api/tasks" alice_token
    (body [("type", VStr "shell"); ("targets", VList [VStr "phone"]); ("payload", VStr "reboot")]).

End ApiAccessWitness.
