(* ===== verification/ApiAccounts.v ===== *)
(** * Accounts over the HTTP interface

    Every request of whoever keeps the account indexes consistent and leaves an
    administrator; and an account change that the database did not take is lost with the
    next start, although it was answered as done. *)

From S2P Require Import Prelude GoBase GoStrings GoFloat Model Store Config LoginLimiter Hub Auth Grants Server Persist Json Http.
From S2P Require Import RestAccounts RestDevices RestDeploy RestShares RestTasks Artifacts Api ApiAccess.
From S2P Require Users Devices Shares Enrollments Assets Tasks.

Definition accounts_ok (m : MemoryStore) : Prop := Users.users_wf m ∧ Users.has_admin m.

Lemma accounts_ok_frame m m' :
  ms_users m' = ms_users m → ms_usersByName m' = ms_usersByName m → accounts_ok m → accounts_ok m'.
Proof.
  intros Hu Hn [Hwf (id & u & Hid & Ha)]. split; [by apply (Users.users_wf_frame m)|].
  exists id, u. by rewrite Hu.
Qed.

(** The id that [CreateUser] would draw for a request is sixteen characters and unused. *)
Definition fresh_id (e : env) (m : MemoryStore) : Prop :=
  length (evRand e 0) = 24%nat ∧ ms_users m !! randomID (evRand e 0) = None.

Section accounts.
Context `{Crypto} {J : JWT} {N : NetIP} {C : Codec} {G : GrantJSON} {U : URLs} {E : Endpoints}.
Context (stat : string → bool) (opened embedded dist : string → option bytes).
Context (build_version build_revision : string).

Definition keeps_accounts (s s' : Api) : Prop := accounts_ok (store_of s) → accounts_ok (store_of s').

#[local] Instance keeps_accounts_preorder : PreOrder keeps_accounts.
Proof. split; unfold keeps_accounts; [by intros s|by intros s1 s2 s3 ? ? ?; auto]. Qed.

Lemma accounts_same s s' :
  ms_users (store_of s') = ms_users (store_of s) → ms_usersByName (store_of s') = ms_usersByName (store_of s) →
  keeps_accounts s s'.
Proof. intros Hu Hn. unfold keeps_accounts. by apply accounts_ok_frame. Qed.

(** What stays within the bounds of a caller leaves the accounts as they are. *)
Lemma stays_accounts e r who {A} (m : M A) s : keeps (stays e r who) s m → keeps keeps_accounts s m.
Proof. intros Hs. apply accounts_same; apply (bd_accounts _ _ _ _ _ _ Hs). Qed.

Lemma accounts_server g s :
  svStore (g (apServer s)) = svStore (apServer s) → keeps_accounts s (on_server g s).
Proof. intros Hg. apply accounts_same; unfold store_of, on_server; cbn; by rewrite Hg. Qed.

(** A write whose inner operation leaves the two indexes alone. *)
Lemma accounts_put s p :
  ms_users (pg_inner p) = ms_users (store_of s) → ms_usersByName (pg_inner p) = ms_usersByName (store_of s) →
  keeps_accounts s (put_postgres p s).
Proof. intros Hu Hn. by apply accounts_same. Qed.

(** A write that is an operation on the accounts. *)
Lemma accounts_step s p : Users.user_step (store_of s) (pg_inner p) → keeps_accounts s (put_postgres p s).
Proof. intros Hs Hok. rewrite store_put_postgres. by apply (Users.user_step_inv _ _ Hs). Qed.

Section handlers.
Context (e : env) (r : Request).

Lemma accounts_update ok name update s :
  Users.benign update → keeps_accounts s (put_postgres (snd (Persist.UpdateUser ok name update (postgres s))) s).
Proof.
  intros Hb. apply accounts_step. unfold Persist.UpdateUser. rewrite mutating_inner. by apply Users.step_update.
Qed.
Lemma accounts_create ok salt name password role assigned s :
  fresh_id e (store_of s) →
  keeps_accounts s (put_postgres (snd (Persist.CreateUser ok (evRand e 0) salt (evNow e) name password role assigned (postgres s))) s).
Proof.
  intros [Hlen Hfresh]. apply accounts_step. unfold Persist.CreateUser. rewrite mutating_inner. by apply Users.step_create.
Qed.
Lemma accounts_audit i u action target metadata s (k : M Response) :
  (∀ s, keeps keeps_accounts s k) → keeps keeps_accounts s (audit_event e i u action target metadata ;; k).
Proof.
  intros Hk. unfold audit_event. apply (keeps_stores_ _); [|done].
  apply accounts_put; unfold Persist.Audit; by rewrite always_inner.
Qed.
Lemma accounts_enrollment ok buf d ttl s :
  keeps_accounts s (put_postgres (snd (Persist.CreateEnrollment ok buf (evNow e) d ttl (postgres s))) s).
Proof.
  apply accounts_put; unfold Persist.CreateEnrollment; destruct (Enrollments.CreateEnrollment _ _ _ _ _) as [en m] eqn:En;
    cbn [snd]; unfold mutate, persist; destruct ok; cbn; by injection En as <- <-.
Qed.

Ltac benign_done := by intros ? ? [= <-]; repeat case_match; split_and!.

Lemma register_accounts s : fresh_id e (store_of s) → keeps keeps_accounts s (register e r).
Proof. intros Hf. unfold register. keeps_run. apply (keeps_stores _); [by apply accounts_create|by keeps_run]. Qed.
Lemma adminUsers_accounts u s : fresh_id e (store_of s) → keeps keeps_accounts s (adminUsers e r u).
Proof. intros Hf. unfold adminUsers. keeps_run. apply (keeps_stores _); [by apply accounts_create|by keeps_run]. Qed.
Lemma adminCreateUser_accounts u s : fresh_id e (store_of s) → keeps keeps_accounts s (adminCreateUser e r u).
Proof.
  intros Hf. unfold adminCreateUser. keeps_run. apply (keeps_stores _); [by apply accounts_create|]. keeps_run.
  apply (keeps_stores _); [apply accounts_update; benign_done|by keeps_run].
Qed.
Lemma adminAssign_accounts u s : keeps keeps_accounts s (adminAssign e r u).
Proof. unfold adminAssign. keeps_run. apply (keeps_stores _); [apply accounts_update; benign_done|by keeps_run]. Qed.
Lemma adminUpdateNote_accounts u s : keeps keeps_accounts s (adminUpdateNote e r u).
Proof. unfold adminUpdateNote, post_body. keeps_run. apply (keeps_stores _); [apply accounts_update; benign_done|by keeps_run]. Qed.
Lemma adminUpdateUser_accounts u s : keeps keeps_accounts s (adminUpdateUser e r u).
Proof. unfold adminUpdateUser, post_body. keeps_run. apply (keeps_stores _); [apply accounts_update; benign_done|by keeps_run]. Qed.
Lemma adminDeleteUser_accounts u s : keeps keeps_accounts s (adminDeleteUser e r u).
Proof.
  unfold adminDeleteUser, post_body. keeps_run. apply (keeps_stores _); [|by keeps_run]. apply accounts_step.
  unfold Persist.DeleteUser. rewrite mutating_inner. apply Users.step_delete.
Qed.
Lemma adminRenameUser_accounts u s : keeps keeps_accounts s (adminRenameUser e r u).
Proof.
  unfold adminRenameUser, post_body. keeps_run. apply (keeps_stores _); [|by keeps_run]. apply accounts_step.
  unfold Persist.RenameUser. rewrite mutating_inner. apply Users.step_rename.
Qed.
Lemma adminResetPassword_accounts u s : keeps keeps_accounts s (adminResetPassword e r u).
Proof.
  unfold adminResetPassword, post_body. keeps_run. apply (keeps_stores _); [|by keeps_run]. apply accounts_step.
  unfold Persist.ResetPassword. rewrite mutating_inner. apply Users.step_reset.
Qed.
Lemma adminKickUser_accounts u s : keeps keeps_accounts s (adminKickUser r u).
Proof. unfold adminKickUser, post_body. keeps_run. apply (keeps_updates _); [by apply accounts_server|by keeps_run]. Qed.

(** *** The other handlers of administrators *)

Lemma enrollmentTokens_accounts u s : keeps keeps_accounts s (enrollmentTokens e r u).
Proof. unfold enrollmentTokens. keeps_run. apply (keeps_stores _); [apply accounts_enrollment|by keeps_run]. Qed.
Lemma deploymentPackage_accounts u s : keeps keeps_accounts s (deploymentPackage stat opened embedded e r u).
Proof.
  unfold deploymentPackage. keeps_run. apply (keeps_stores _); [apply accounts_enrollment|].
  keeps_run. apply accounts_audit. intros s'. by keeps_run.
Qed.

Lemma no_store_keeps s m : keeps keeps_accounts s m → keeps keeps_accounts s (no_store m).
Proof. unfold keeps, no_store. by destruct (m s) as [[x|x] s']. Qed.

Lemma accounts_durable {A} ok (f : MemoryStore → result A * MemoryStore) s :
  ms_users (snd (f (store_of s))) = ms_users (store_of s) →
  ms_usersByName (snd (f (store_of s))) = ms_usersByName (store_of s) →
  keeps_accounts s (put_postgres (snd (durable ok f (postgres s))) s).
Proof.
  intros Hu Hn. apply accounts_put; destruct (durable_inner ok f (postgres s)) as [-> | ->]; by rewrite ?postgres_inner.
Qed.

Lemma deploymentCredentials_accounts u s : keeps keeps_accounts s (deploymentCredentials e r u).
Proof.
  unfold deploymentCredentials, unavailable. apply no_store_keeps. keeps_run. apply (keeps_stores _); [|by keeps_run].
  apply accounts_durable; unfold Enrollments.CreateDeploymentCredential; by repeat case_match.
Qed.
Lemma revokeDeploymentCredential_accounts u s : keeps keeps_accounts s (revokeDeploymentCredential e r u).
Proof.
  unfold revokeDeploymentCredential, unavailable. apply no_store_keeps. keeps_run. apply (keeps_stores _); [|by keeps_run].
  apply accounts_put; unfold Persist.RevokeDeploymentCredential; rewrite checked_inner, postgres_inner;
    unfold Enrollments.RevokeDeploymentCredential; by repeat case_match.
Qed.
Lemma deploymentEnrollmentTokens_accounts s : keeps keeps_accounts s (deploymentEnrollmentTokens e r).
Proof.
  unfold deploymentEnrollmentTokens, unavailable. apply no_store_keeps. keeps_run. apply (keeps_stores _); [|by keeps_run].
  apply accounts_durable; unfold Enrollments.IssueDeploymentEnrollment; by repeat case_match.
Qed.

Lemma accounts_settings d s : keeps_accounts s (on_server (send_settings d) s).
Proof. apply accounts_server. apply svStore_send_agent. Qed.

Lemma defaultSettings_accounts u s : keeps keeps_accounts s (defaultSettings e r u).
Proof.
  unfold defaultSettings. keeps_run. apply (keeps_stores_ _).
  { apply accounts_put; unfold Persist.SetDefaultSettings; by rewrite always_inner. }
  keeps_run. apply (keeps_updates _).
  { apply accounts_server. apply svStore_fold. intros. apply svStore_send_agent. }
  apply (keeps_updates _); [by apply accounts_server|by keeps_run].
Qed.
Lemma tags_accounts u s : keeps keeps_accounts s (tags e r u).
Proof.
  unfold tags. keeps_run; (apply (keeps_stores_ _);
    [apply accounts_put; unfold Persist.ReplaceTags; by rewrite always_inner|]; keeps_run; apply (keeps_updates _);
    [apply accounts_server; by destruct (Devices.Tags _)|by keeps_run]).
Qed.
Lemma deviceByID_accounts u s : keeps keeps_accounts s (deviceByID e r u).
Proof.
  unfold deviceByID, deviceSettings, deviceSnapshot. keeps_run.
  all: apply (keeps_stores _); [|keeps_run; try (apply (keeps_updates _); [apply accounts_settings|];
    apply (keeps_updates _); [by apply accounts_server|]; by keeps_run)].
  all: apply accounts_put; unfold Persist.SetDeviceSettings, Persist.DeleteOfflineDevice;
    rewrite ?checked_inner, ?mutating_inner, postgres_inner;
    unfold Devices.SetDeviceSettings, Devices.DeleteOfflineDevice; by repeat case_match.
Qed.
End handlers.

(** ** Sequences of requests *)

Abbreviation serve_ e := (serve stat opened embedded dist build_version build_revision e).

Definition route_accounts (e : env) (r : Request) (entry : string * route) : Prop :=
  match snd entry with
  | Public h => ∀ s, fresh_id e (store_of s) → keeps keeps_accounts s (h r)
  | ForUsers h | ForAdmins h => ∀ u s, fresh_id e (store_of s) → keeps keeps_accounts s (h r u)
  end.

Lemma routes_accounts e r : Forall (route_accounts e r) (routes stat opened embedded dist build_version build_revision e).
Proof.
  unfold routes. repeat (apply Forall_cons_2; [|]); try apply Forall_nil_2; unfold route_accounts; cbn [fst snd];
    lazymatch goal with |- ∀ _ : User, _ => intros u s Hf | |- _ => intros s Hf end;
    eauto using register_accounts, adminUsers_accounts, adminCreateUser_accounts, adminAssign_accounts,
      adminUpdateNote_accounts, adminUpdateUser_accounts, adminDeleteUser_accounts, adminRenameUser_accounts,
      adminResetPassword_accounts, adminKickUser_accounts, enrollmentTokens_accounts, deploymentPackage_accounts,
      deploymentCredentials_accounts, revokeDeploymentCredential_accounts, deploymentEnrollmentTokens_accounts,
      defaultSettings_accounts, tags_accounts, deviceByID_accounts;
    try (unfold agentArtifact, health, devices, authStatus, me, version, serverAddresses, iceServerList,
      allDeviceSettings, taskDetails, files, download, handler, requireCapability; by keeps_run);
    try (apply (stays_accounts e r (Some u)));
    try (apply (stays_accounts e r None));
    eauto using login_stays, logout_stays, websocketTicket_stays, shortcuts_stays, upload_stays, tasks_stays,
      shareCreate_stays, shareList_stays, shareRevoke_stays, shareUpdate_stays, shareExtend_stays,
      shareRedeemCard_stays, shareInfo_stays.
Qed.

Lemma serve_accounts e r s :
  fresh_id e (store_of s) → accounts_ok (store_of s) → accounts_ok (store_of (snd (serve_ e r s))).
Proof.
  intros Hf. rewrite serve_state. case_bool_decide; [done|].
  change (keeps keeps_accounts s (dispatch stat opened embedded dist build_version build_revision e r)).
  unfold dispatch. destruct (find_route _ _ _ _ _ _ _ _) as [rt|] eqn:Er; [|apply (keeps_ret _)].
  apply find_route_in in Er as (pattern & Hin & _).
  pose proof (proj1 (Forall_forall _ _) (routes_accounts e r) _ Hin) as Hb. unfold route_accounts in Hb. cbn [snd] in Hb.
  destruct rt as [h|h|h]; [by apply Hb|..].
  - apply requireUser_keeps; [apply keeps_accounts_preorder|]. intros u _. by apply Hb.
  - apply requireAdmin_keeps; [apply keeps_accounts_preorder|]. intros u _ _. by apply Hb.
Qed.

Fixpoint serve_all (l : list (env * Request)) (s : Api) : Api :=
  match l with [] => s | (e, r) :: l => serve_all l (snd (serve_ e r s)) end.
Fixpoint fresh_ids (l : list (env * Request)) (s : Api) : Prop :=
  match l with [] => True | (e, r) :: l => fresh_id e (store_of s) ∧ fresh_ids l (snd (serve_ e r s)) end.

(** ** Properties *)

(** C15: From the first start on, after any requests of anybody, the two account indexes
    agree, no account has the empty id, and there is an administrator: no sequence of
    deletions, renames, role requests and registrations over the interface locks
    everybody out. *)
Theorem accounts_served buf salt now name password m l s :
  length buf = 24%nat → Users.NewMemoryStore buf salt now name password = Ok m → store_of s = m →
  fresh_ids l s → Users.users_wf (store_of (serve_all l s)) ∧ Users.has_admin (store_of (serve_all l s)).
Proof.
  intros Hbuf Hnew <-. pose proof (Users.NewMemoryStore_inv _ _ _ _ _ _ Hbuf Hnew) as Hok. clear Hnew.
  change (accounts_ok (store_of s)) in Hok. revert s Hok.
  induction l as [|[e r] l IH]; intros s Hok; [done|]. cbn. intros [Hf Hl].
  apply IH; [by apply serve_accounts|done].
Qed.

(** An answered request to an endpoint of the administrators. *)
Lemma serve_admin e r s u h :
  rqMethod r = "POST" → current_user e r s = Ok u → is_admin u = true →
  find_route stat opened embedded dist build_version build_revision e (rqPath r) = Some (ForAdmins h) →
  rsStatus (fst (serve_ e r s)) = rsStatus (fst (run (h r u) s)) ∧ snd (serve_ e r s) = snd (run (h r u) s).
Proof.
  intros Hm Hu Ha Hr. unfold serve, withCORS. rewrite Hm. cbn [bool_decide]. rewrite bool_decide_eq_false_2 by done.
  unfold dispatch. rewrite Hr. unfold run, requireAdmin, requireUser, bind, get_state. cbn beta. rewrite Hu. cbn.
  rewrite Ha. cbn. by destruct (h r u s) as [[x|x] s'].
Qed.

End accounts.

(** ** Witnesses *)

Module ApiAccountsWitness.
Import ApiWitness.

Definition delete (name : string) : Request :=
  request "POST" "/api/admin/users/delete" root_token (body [("username", VStr name)]).

(** The administrator registers a user, then tries to delete everybody. *)
Definition requests : list (env * Request) :=
  [(at_ Second "a", create_alice); (at_ (3 * Second) "d", delete "alice"); (at_ (4 * Second) "e", delete "root")].

Lemma accounts_served_witness :
  Users.has_admin (store_of (serve_all (λ _, true) (λ _, None) (λ _, None) (λ _, None) "1.0" "abc" requests api0)).
Proof.
  refine (proj2 (accounts_served (λ _, true) (λ _, None) (λ _, None) (λ _, None) "1.0" "abc"
    (repeat "u"%char 24) [] 0 "root" "secret" store0 requests api0 eq_refl _ eq_refl _)).
  - reflexivity.
  - unfold requests. cbn [fresh_ids]. unfold fresh_id. split_and!; vm_compute; reflexivity.
Defined.

(** The database is down. *)
Definition down : env := MkEnv (3 * Second) (rand "d") (λ _, false) (λ _, true) true.
Definition admin : User := from_ok User_zero (current_user down (delete "alice") api1).

End ApiAccountsWitness.
