(* ===== verification/ApiSession.v ===== *)
(** * Sessions over the HTTP interface

    Login, the use of the token and logout, over any sequence of requests: all handlers
    but those of login and logout leave the login limiter and the revoked tokens alone. *)

From S2P Require Import Prelude GoBase GoStrings GoFloat Model Store Config LoginLimiter Hub Auth Grants Server Persist Json Http.
From S2P Require Import RestAccounts RestDevices RestDeploy RestShares RestTasks Artifacts Api ApiAccess ApiAccounts.
From S2P Require Users Devices Shares Enrollments Assets Tasks.

(** Configuration, limiter and revoked tokens are as before; and so are the file library
    and the tasks. *)
Definition calm (s s' : Api) : Prop :=
  svConfig (apServer s') = svConfig (apServer s) ∧ svLimiter (apServer s') = svLimiter (apServer s) ∧
  ms_revokedUserTokens (store_of s') = ms_revokedUserTokens (store_of s).
Definition quiet (s s' : Api) : Prop :=
  calm s s' ∧ apFiles s' = apFiles s ∧ ms_assets (store_of s') = ms_assets (store_of s) ∧
  ms_tasks (store_of s') = ms_tasks (store_of s).

#[export] Instance calm_preorder : PreOrder calm.
Proof.
  split; [done|]. intros s1 s2 s3 (H1 & H2 & H3) (H1' & H2' & H3').
  split_and!; [by rewrite H1'|by rewrite H2'|by rewrite H3'].
Qed.
#[export] Instance quiet_preorder : PreOrder quiet.
Proof.
  split; [done|]. intros s1 s2 s3 (H1 & H2 & H3 & H4) (H1' & H2' & H3' & H4').
  split_and!; [by etrans|by rewrite H2'|by rewrite H3'|by rewrite H4'].
Qed.

Definition same_access (g : Server → Server) : Prop := ∀ s,
  svConfig (g s) = svConfig s ∧ svLimiter (g s) = svLimiter s ∧ svStore (g s) = svStore s.

Lemma quiet_server g s : same_access g → quiet s (on_server g s).
Proof. intros Hg. destruct (Hg (apServer s)) as (H1 & H2 & H3). unfold quiet, calm, store_of. cbn. by rewrite H1, H2, H3. Qed.

Definition kept_in (m m' : MemoryStore) : Prop :=
  ms_revokedUserTokens m' = ms_revokedUserTokens m ∧ ms_assets m' = ms_assets m ∧ ms_tasks m' = ms_tasks m.
Lemma quiet_put s p : kept_in (store_of s) (pg_inner p) → quiet s (put_postgres p s).
Proof. by intros (? & ? & ?). Qed.

Lemma same_access_fold {A} (g : Server → A → Server) (l : Server → list A) :
  (∀ a, same_access (λ s, g s a)) → same_access (λ s, foldl g s (l s)).
Proof.
  intros Hg s. generalize (l s). intros l'. revert s. induction l' as [|a l' IH]; intros s; [done|]. cbn.
  destruct (IH (g s a)) as (-> & -> & ->). apply Hg.
Qed.
Lemma same_access_hub g : same_access (with_hub g).
Proof. by intros s. Qed.
Lemma same_access_send_agent d m : same_access (send_agent_ d m).
Proof. intros s. unfold send_agent_, send_agent. by destruct (sendAgent _ _ _). Qed.
Lemma same_access_settings d : same_access (send_settings d).
Proof. intros s. apply same_access_send_agent. Qed.
Lemma same_access_broadcast `{Codec} m : same_access (broadcastMessage m).
Proof. by intros s. Qed.
Lemma same_access_tags `{Codec} : same_access (λ s, let '(tags, assignments) := Devices.Tags (svStore s) in broadcastMessage (MTags tags assignments) s).
Proof. intros s. by destruct (Devices.Tags (svStore s)). Qed.
Lemma same_access_notify d t : same_access (notifyTask d t).
Proof. intros s. unfold notifyTask, PublishAgent, publish, with_redis. cbn. apply same_access_send_agent. Qed.

(** ** The operations of the store that handlers use *)

Definition kept (f : MemoryStore → MemoryStore) : Prop := ∀ m, kept_in m (f m).

Section store.
Context `{Crypto}.

Ltac op := intros m; cbn [snd]; repeat (case_match; simplify_eq); by split_and!.

Lemma UpdateUser_kept name update : kept (λ m, snd (Users.UpdateUser name update m)).
Proof. unfold Users.UpdateUser. op. Qed.
Lemma CreateUser_kept buf salt now name password role assigned :
  kept (λ m, snd (Users.CreateUser buf salt now name password role assigned m)).
Proof. unfold Users.CreateUser. op. Qed.
Lemma DeleteUser_kept name : kept (λ m, snd (Users.DeleteUser name m)).
Proof. unfold Users.DeleteUser. op. Qed.
Lemma RenameUser_kept old new : kept (λ m, snd (Users.RenameUser old new m)).
Proof. unfold Users.RenameUser. op. Qed.
Lemma ResetPassword_kept salt name password : kept (λ m, snd (Users.ResetPassword salt name password m)).
Proof.
  intros m. unfold Users.ResetPassword. case_decide; [done|]. destruct (bcrypt_generate _ _); [|done].
  match goal with |- context [Users.UpdateUser name ?u m] =>
    pose proof (UpdateUser_kept name u m) as Hu; cbn beta in Hu; destruct (Users.UpdateUser name u m) as [[]] end; exact Hu.
Qed.
Lemma CreateEnrollment_kept buf now d ttl : kept (λ m, snd (Enrollments.CreateEnrollment buf now d ttl m)).
Proof. by intros m. Qed.
Lemma CreateDeploymentCredential_kept buf buf' abuf now name actor ttl :
  kept (λ m, snd (Enrollments.CreateDeploymentCredential buf buf' abuf now name actor ttl m)).
Proof. unfold Enrollments.CreateDeploymentCredential. op. Qed.
Lemma RevokeDeploymentCredential_kept abuf now id actor :
  kept (λ m, snd (Enrollments.RevokeDeploymentCredential abuf now id actor m)).
Proof. unfold Enrollments.RevokeDeploymentCredential. op. Qed.
Lemma IssueDeploymentEnrollment_kept buf abuf now token d ttl :
  kept (λ m, snd (Enrollments.IssueDeploymentEnrollment buf abuf now token d ttl m)).
Proof. unfold Enrollments.IssueDeploymentEnrollment. op. Qed.
Lemma DeleteOfflineDevice_kept d : kept (λ m, snd (Devices.DeleteOfflineDevice d m)).
Proof. unfold Devices.DeleteOfflineDevice. op. Qed.
Lemma SetDeviceSettings_kept d settings : kept (λ m, snd (Devices.SetDeviceSettings d settings m)).
Proof. unfold Devices.SetDeviceSettings. op. Qed.
Lemma CreateShare_kept buf buf' salt now d u p desc view ex :
  kept (λ m, snd (Shares.CreateShare buf buf' salt now d u p desc view ex m)).
Proof. unfold Shares.CreateShare. op. Qed.
Lemma UpdateShare_kept t update : kept (λ m, snd (Shares.UpdateShare t update m)).
Proof. unfold Shares.UpdateShare. op. Qed.
Lemma RevokeShare_kept t : kept (λ m, snd (Shares.RevokeShare t m)).
Proof. unfold Shares.RevokeShare. op. Qed.
Lemma AuthorizeShare_kept now t p : kept (λ m, snd (Shares.AuthorizeShare now t p m)).
Proof. unfold Shares.AuthorizeShare. op. Qed.
Lemma SharesFor_kept now d : kept (λ m, snd (Shares.SharesFor now d m)).
Proof. by intros m. Qed.
Lemma ShareByCard_kept now c : kept (λ m, snd (Shares.ShareByCard now c m)).
Proof.
  intros m. unfold Shares.ShareByCard. pose proof (SharesFor_kept now "" m) as Hs. cbn beta in Hs.
  destruct (Shares.SharesFor now "" m) as [l m']. by destruct (List.find _ l).
Qed.
Lemma CreateAsset_tokens buf now a m :
  ms_revokedUserTokens (snd (Assets.CreateAsset buf now a m)) = ms_revokedUserTokens m.
Proof. unfold Assets.CreateAsset. by repeat case_match. Qed.
Lemma CreateTask_tokens buf now t m :
  ms_revokedUserTokens (snd (Tasks.CreateTask buf now t m)) = ms_revokedUserTokens m.
Proof. unfold Tasks.CreateTask. by repeat case_match. Qed.
Lemma SetDefaultSettings_kept settings : kept (Devices.SetDefaultSettings settings).
Proof. by intros m. Qed.
Lemma ReplaceTags_kept fresh tags assignments : kept (Devices.ReplaceTags fresh tags assignments).
Proof. by intros m. Qed.
Lemma ReplaceShortcuts_kept id l : kept (Assets.ReplaceShortcuts id l).
Proof. by intros m. Qed.
Lemma Audit_kept buf now ev : kept (Store.Audit buf now ev).
Proof. by intros m. Qed.
End store.

Create HintDb tokens discriminated.
#[export] Hint Resolve UpdateUser_kept CreateUser_kept DeleteUser_kept RenameUser_kept ResetPassword_kept
  CreateEnrollment_kept CreateDeploymentCredential_kept RevokeDeploymentCredential_kept
  IssueDeploymentEnrollment_kept DeleteOfflineDevice_kept SetDeviceSettings_kept CreateShare_kept
  UpdateShare_kept RevokeShare_kept AuthorizeShare_kept SharesFor_kept ShareByCard_kept
  SetDefaultSettings_kept ReplaceTags_kept ReplaceShortcuts_kept
  Audit_kept : tokens.
#[export] Hint Resolve same_access_hub same_access_send_agent same_access_settings same_access_broadcast
  same_access_tags same_access_notify : tokens.

(** ** The handlers *)

Section handlers.
Context `{Crypto} {J : JWT} {N : NetIP} {C : Codec} {G : GrantJSON} {U : URLs} {E : Endpoints}.
Context (stat : string → bool) (opened embedded dist : string → option bytes).
Context (build_version build_revision : string).
Implicit Types s : Api.

Lemma quiet_mutating {A} ok (f : MemoryStore → result A * MemoryStore) s :
  kept (λ m, snd (f m)) → quiet s (put_postgres (snd (mutating ok f (postgres s))) s).
Proof. intros Hf. apply quiet_put. rewrite mutating_inner, postgres_inner. apply Hf. Qed.
Lemma quiet_always ok (f : MemoryStore → MemoryStore) s :
  kept f → quiet s (put_postgres (always ok f (postgres s)) s).
Proof. intros Hf. apply quiet_put. rewrite always_inner, postgres_inner. apply Hf. Qed.
Lemma quiet_checked {A} ok (f : MemoryStore → result A * MemoryStore) s :
  kept (λ m, snd (f m)) → quiet s (put_postgres (snd (checked ok f (postgres s))) s).
Proof. intros Hf. apply quiet_put. rewrite checked_inner, postgres_inner. apply Hf. Qed.
Lemma quiet_durable {A} ok (f : MemoryStore → result A * MemoryStore) s :
  kept (λ m, snd (f m)) → quiet s (put_postgres (snd (durable ok f (postgres s))) s).
Proof.
  intros Hf. apply quiet_put. destruct (durable_inner ok f (postgres s)) as [-> | ->]; rewrite postgres_inner; [done|apply Hf].
Qed.
Lemma quiet_enrollment ok buf now d ttl s :
  quiet s (put_postgres (snd (Persist.CreateEnrollment ok buf now d ttl (postgres s))) s).
Proof. apply quiet_put. by destruct ok. Qed.
Lemma quiet_authorize now t p s :
  quiet s (put_postgres (snd (Persist.AuthorizeShare now t p (postgres s))) s).
Proof.
  apply quiet_put. unfold Persist.AuthorizeShare. pose proof (AuthorizeShare_kept now t p (pg_inner (postgres s))) as Ha.
  cbn beta in Ha. by destruct (Shares.AuthorizeShare now t p _).
Qed.
Lemma quiet_inner {A} (f : MemoryStore → A * MemoryStore) s :
  kept (λ m, snd (f m)) →
  quiet s (put_postgres (snd ((λ p, let '(a, i) := f (pg_inner p) in (a, with_inner i p)) (postgres s))) s).
Proof.
  intros Hf. apply quiet_put. specialize (Hf (pg_inner (postgres s))). cbn beta in *. by destruct (f _).
Qed.

(** One step of a handler that only writes what is not the access of a session. *)
Ltac quiet_write :=
  first [apply quiet_enrollment|apply quiet_authorize|apply quiet_inner|apply quiet_mutating|apply quiet_always
        |apply quiet_checked|apply quiet_durable]; auto with tokens.
Ltac quiet_step :=
  first
    [apply (keeps_stores_ _); [quiet_write|]
    |apply (keeps_stores _); [quiet_write|]
    |apply (keeps_updates _); [apply quiet_server; first [solve [auto with tokens]|apply same_access_fold; auto with tokens]|]
    |progress unfold audit_event, reads_inner, requireCapability, post_body, own_share, attach_asset, unavailable, disk
    |keeps_step].
Ltac quiet_run := repeat quiet_step.

Lemma no_store_quiet s m : keeps quiet s m → keeps quiet s (no_store m).
Proof. unfold keeps, no_store. by destruct (m s) as [[x|x] s']. Qed.

Definition route_quiet (e : env) (r : Request) (entry : string * route) : Prop :=
  match snd entry with
  | Public h => ∀ s, keeps quiet s (h r)
  | ForUsers h | ForAdmins h => ∀ u s, keeps quiet s (h r u)
  end.

(** The handlers that change what the others leave alone. *)
Definition session_routes : list string := ["/api/login"; "/api/logout"; "/upload"; "/api/tasks"].

Lemma routes_quiet e r :
  Forall (λ entry, fst entry ∈ session_routes ∨ route_quiet e r entry)
    (routes stat opened embedded dist build_version build_revision e).
Proof.
  unfold routes. repeat (apply Forall_cons_2; [|]); try apply Forall_nil_2; unfold route_quiet; cbn [fst snd];
    try (left; unfold session_routes; set_solver); right; intros.
  all: unfold health, devices, authStatus, websocketTicket, register, me, version, serverAddresses, deploymentPackage,
    agentArtifact, iceServerList, defaultSettings, allDeviceSettings, tags, adminUsers, adminAssign, adminCreateUser,
    adminDeleteUser, adminResetPassword, adminUpdateNote, adminRenameUser, adminUpdateUser, adminKickUser,
    enrollmentTokens, deploymentCredentials, revokeDeploymentCredential, deploymentEnrollmentTokens, tasks, createTask,
    taskDetails, shortcuts, files, upload, download, deviceByID, deviceSettings, deviceSnapshot, shareCreate, shareList,
    shareRevoke, shareUpdate, shareExtend, shareRedeemCard, bad_card, shareInfo, handler; try apply no_store_quiet.
  all: quiet_run.
Qed.

(** ** Whole requests *)

Abbreviation serve_ e := (serve stat opened embedded dist build_version build_revision e).
Abbreviation serve_all_ := (serve_all stat opened embedded dist build_version build_revision).
Abbreviation find_route_ e := (find_route stat opened embedded dist build_version build_revision e).

Lemma session_route_path path pattern : pattern ∈ session_routes → pattern_matches path pattern = true → path = pattern.
Proof.
  unfold session_routes, pattern_matches. rewrite !elem_of_cons, elem_of_nil. intros Hp Hm. bool_to_prop.
  destruct Hm as [Hm|Hm]; bool_to_prop; [done|]. by destruct Hp as [->|[->|[->|[->|[]]]]].
Qed.

Lemma login_routed e : find_route_ e "/api/login" = Some (Public (login e)).
Proof. reflexivity. Qed.
Lemma logout_routed e : find_route_ e "/api/logout" = Some (ForUsers (logout e)).
Proof. reflexivity. Qed.
Lemma upload_routed e : find_route_ e "/upload" = Some (ForUsers (upload e)).
Proof. reflexivity. Qed.
Lemma tasks_routed e : find_route_ e "/api/tasks" = Some (ForUsers (tasks e)).
Proof. reflexivity. Qed.

(** A relation that contains [quiet] and what the four handlers do holds of every request. *)
Lemma serve_relation (R : Api → Api → Prop) `{!PreOrder R} e r s :
  (∀ s s', quiet s s' → R s s') →
  (∀ s, keeps R s (login e r)) → (∀ u s, keeps R s (logout e r u)) →
  (∀ u s, keeps R s (upload e r u)) → (∀ u s, keeps R s (tasks e r u)) →
  R s (snd (serve_ e r s)).
Proof.
  intros Hq Hin Hout Hup Htask. rewrite serve_state. case_bool_decide; [reflexivity|].
  change (keeps R s (dispatch stat opened embedded dist build_version build_revision e r)).
  unfold dispatch. destruct (find_route_ e (rqPath r)) as [rt|] eqn:Er; [|apply (keeps_ret _)].
  destruct (decide (rqPath r ∈ session_routes)) as [Hp|Hp].
  - unfold session_routes in Hp. rewrite !elem_of_cons, elem_of_nil in Hp.
    destruct Hp as [Hp|[Hp|[Hp|[Hp|[]]]]];
      rewrite Hp, ?login_routed, ?logout_routed, ?upload_routed, ?tasks_routed in Er; injection Er as <-; [apply Hin|..].
    all: apply requireUser_keeps; [done|]; intros u _; auto.
  - apply find_route_in in Er as (pattern & Hentry & Hm).
    pose proof (proj1 (Forall_forall _ _) (routes_quiet e r) _ Hentry) as Hb. unfold route_quiet in Hb. cbn [fst snd] in Hb.
    destruct Hb as [Hs|Hb]; [by rewrite (session_route_path _ _ Hs Hm) in Hp|].
    destruct rt as [h|h|h]; [by apply Hq, Hb|..].
    + apply requireUser_keeps; [done|]. intros u _. by apply Hq, Hb.
    + apply requireAdmin_keeps; [done|]. intros u _ _. by apply Hq, Hb.
Qed.

Lemma serve_all_related (P : env → Prop) (R : Api → Api → Prop) `{!PreOrder R} l s :
  (∀ e r s, P e → R s (snd (serve_ e r s))) → Forall (λ er, P (fst er)) l → R s (serve_all_ l s).
Proof.
  intros Hstep Hl. revert s. induction Hl as [|[e r] l Hp Hl IH]; intros s; [done|]. cbn. etrans; [by apply Hstep|apply IH].
Qed.
Lemma serve_all_relation (R : Api → Api → Prop) `{!PreOrder R} l s :
  (∀ e r s, R s (snd (serve_ e r s))) → R s (serve_all_ l s).
Proof. intros Hstep. apply (serve_all_related (λ _, True) R); [by intros|]. by apply Forall_true. Qed.

(** The upload of a file and the tasks leave sessions alone. *)
Lemma audit_quiet ok buf now ev s : quiet s (put_postgres (Persist.Audit ok buf now ev (postgres s)) s).
Proof. apply quiet_put. unfold Persist.Audit. rewrite always_inner. by split_and!. Qed.
Lemma notify_quiet t l s : quiet s (on_server (λ g, foldl (λ g d, notifyTask d t g) g l) s).
Proof. apply quiet_server, (same_access_fold _ (λ _, l)). intros d. apply same_access_notify. Qed.
Ltac calm_run :=
  repeat first
    [lazymatch goal with |- keeps _ _ (bind (λ _, (inr (), _)) _) => apply (keeps_modify _); [done|] end
    |progress unfold audit_event, requireCapability, attach_asset, disk
    |apply (keeps_stores_ _); [apply audit_quiet|]
    |apply (keeps_updates _); [apply notify_quiet|]
    |keeps_step].

Lemma upload_calm e r u s : keeps calm s (upload e r u).
Proof.
  unfold upload. calm_run. apply (keeps_stores _); [|calm_run].
  split_and!; [done|done|]. unfold store_of, Persist.CreateAsset. cbn. rewrite mutating_inner. apply CreateAsset_tokens.
Qed.
Lemma tasks_calm e r u s : keeps calm s (tasks e r u).
Proof.
  unfold tasks, createTask. calm_run.
  all: apply (keeps_stores _);
    [split_and!; [done|done|]; unfold store_of, Persist.CreateTask; cbn; rewrite mutating_inner; apply CreateTask_tokens|].
  all: calm_run.
Qed.

(** A relation that contains [calm] and what login and logout do. *)
Lemma serve_calm (R : Api → Api → Prop) `{!PreOrder R} e r s :
  (∀ s s', calm s s' → R s s') → (∀ s, keeps R s (login e r)) → (∀ u s, keeps R s (logout e r u)) →
  R s (snd (serve_ e r s)).
Proof.
  intros Hc Hin Hout. apply serve_relation; [done|by intros s1 s2 [? _]; apply Hc|done|done|..]; intros u s'; apply Hc.
  - apply upload_calm.
  - apply tasks_calm.
Qed.

(** *** Logging in *)

(** What the handler of the login reads from the request. *)
Definition attempt (e : env) (r : Request) (body : vmap) (s : Api) : bool * loginLimiter :=
  guarded_login (evNow e) (stringField body "username") (client_ip r (apServer s))
    (is_ok (Users.Authenticate (evNow e) (stringField body "username") (stringField body "password") (store_of s)))
    (svLimiter (apServer s)).

Lemma login_run e r body s :
  rqMethod r = "POST" → decodeJSON login_fields (rqBody r) = Some body →
  snd (run (login e r) s) = on_server (with_limiter (λ _, snd (attempt e r body s))) s ∧
  rsStatus (fst (run (login e r) s)) =
    (if fst (attempt e r body s) then
       match Users.Authenticate (evNow e) (stringField body "username") (stringField body "password") (store_of s) with
       | Ok user => if issueUserToken (evRand e 0) (evNow e) (cfJWTSecret (svConfig (apServer s))) user is Some _
                    then StatusOK else StatusInternalServerError
       | Err _ => StatusUnauthorized
       end
     else StatusTooManyRequests).
Proof.
  intros Hm Hb. unfold run, login, attempt, guarded_login. passed.
  destruct (allow _ _ _ _) as [[wait limited] l]. passed. destruct limited; [by split|]. passed.
  change (store_of (on_server _ s)) with (store_of s).
  destruct (Users.Authenticate _ _ _ _) as [user|x]; [|by split]. cbn [is_ok]. passed.
  change (svConfig (apServer (on_server _ _))) with (svConfig (apServer s)).
  destruct (issueUserToken _ _ _ _); cbn; by split.
Qed.

(** The limiters of a server reached by requests are those of guarded logins. *)
Definition guards (s s' : Api) : Prop := ∀ l0, guarded l0 (svLimiter (apServer s)) → guarded l0 (svLimiter (apServer s')).

#[local] Instance guards_preorder : PreOrder guards.
Proof. split; unfold guards; [by intros s|by intros s1 s2 s3 ? ? l0; auto]. Qed.

Lemma login_guards e r s : keeps guards s (login e r).
Proof.
  destruct (decide (rqMethod r = "POST")) as [Hm|Hm].
  2:{ unfold login. apply (keeps_method _). by intros. }
  destruct (decodeJSON login_fields (rqBody r)) as [body|] eqn:Hb.
  - destruct (login_run e r body s Hm Hb) as [Hs _]. unfold keeps.
    assert (snd (login e r s) = snd (run (login e r) s)) as -> by (unfold run; by destruct (login e r s) as [[]]).
    rewrite Hs. intros l0 Hl. cbn. by apply guarded_step.
  - unfold login. apply (keeps_method _). intros _. rewrite Hb. apply (keeps_some_or _). by intros.
Qed.
Lemma logout_guards e r u s : keeps guards s (logout e r u).
Proof.
  unfold logout. keeps_run. apply (keeps_stores _); [by intros l0|]. keeps_run. apply (keeps_updates _); [by intros l0|].
  by keeps_run.
Qed.
Lemma serve_guards e r s : guards s (snd (serve_ e r s)).
Proof.
  apply (serve_calm guards); [|intros; apply login_guards|intros; apply logout_guards].
  intros s1 s2 (_ & Hl & _) l0. by rewrite Hl.
Qed.

(** *** Logging out *)

Section logged_out.
Context (secret : bytes) (raw : string) (exp : Time).

Definition revoked_until (s : Api) : Prop :=
  cfJWTSecret (svConfig (apServer s)) = secret ∧ ms_revokedUserTokens (store_of s) !! tokenDigest raw = Some exp.
Definition keeps_revoked (s s' : Api) : Prop := revoked_until s → revoked_until s'.

#[local] Instance keeps_revoked_preorder : PreOrder keeps_revoked.
Proof. split; unfold keeps_revoked; [by intros s|by intros s1 s2 s3 ? ?; auto]. Qed.

Hypothesis digest_inj : ∀ token, tokenDigest token = tokenDigest raw → token = raw.
Hypothesis raw_parsed : ∀ now p, parseUserToken now secret raw = Ok p → plExpiresAt p = exp.

Lemma serve_keeps_revoked e r s : keeps_revoked s (snd (serve_ e r s)).
Proof.
  apply (serve_calm keeps_revoked).
  - intros s1 s2 (Hc & _ & Ht). unfold keeps_revoked, revoked_until. by rewrite Hc, Ht.
  - intros s1. unfold login. keeps_run. all: repeat first [apply (keeps_updates _); [by intros ?|]|keeps_step].
  - intros u s1. unfold logout. keeps_run. apply (keeps_stores _).
    + intros [Hc Ht]. split; [done|]. rewrite store_put_postgres. unfold Persist.RevokeUserToken. rewrite checked_inner. cbn.
      destruct (decide (tokenDigest (bearerToken (rqAuthorization r)) = tokenDigest raw)) as [Hd|Hd].
      * rewrite Hd, lookup_insert_eq. f_equal. apply digest_inj in Hd. rewrite Hd, Hc in *. by eapply raw_parsed.
      * by rewrite lookup_insert_ne.
    + keeps_run. apply (keeps_updates _); [by intros ?|]. by keeps_run.
Qed.
End logged_out.

(** A ticket drawn with a revoked token opens nothing. *)
Lemma revoked_ticket `{!JWTLaws J} issued secret id version digest ticket x now m :
  issueBrowserTicket issued secret browserAccessUser id version [digest] = Some (ticket, x) →
  Users.UserTokenRevoked now digest m = true →
  is_ok (fst (browserAccessFromRequest now secret ticket "" m)) = false.
Proof.
  intros Ht Hr. unfold issueBrowserTicket in Ht. destruct (jwt_sign secret _) as [t|] eqn:Es; [|done]. injection Ht as <- _.
  destruct (jwt_token_text _ _ _ Es) as [Hne _].
  unfold browserAccessFromRequest. rewrite decide_True by done.
  unfold browserAccessFromTicket, parseBrowserTicket. rewrite (jwt_roundtrip _ _ _ _ Es). destruct (now <? _); [|done].
  destruct (_ || _ || _); [done|]. cbn [plSubject plKind plAccessToken plTokenVersion hd].
  unfold validateBrowserAccess. cbn [baKind baAccessToken]. rewrite decide_True by done. cbn. by rewrite Hr.
Qed.

(** A logout that is answered 200. *)
Lemma logout_run e r u s :
  rsStatus (fst (run (logout e r u) s)) = StatusOK →
  ∃ parsed, rqMethod r = "POST" ∧ evDB e 0%nat = true ∧
    parseUserToken (evNow e) (cfJWTSecret (svConfig (apServer s))) (bearerToken (rqAuthorization r)) = Ok parsed ∧
    let digest := tokenDigest (bearerToken (rqAuthorization r)) in
    let m := Users.RevokeUserToken digest (plExpiresAt parsed) (store_of s) in
    snd (run (logout e r u) s) =
      on_server (with_hub (disconnectToken digest)) (put_postgres (MkPostgresStore m (Some (snapshotJSON m)) None) s).
Proof.
  destruct (decide (rqMethod r = "POST")) as [Hm|Hm].
  2:{ unfold run, logout, method. rewrite bool_decide_eq_false_2 by done. cbn. done. }
  destruct (parseUserToken (evNow e) (cfJWTSecret (svConfig (apServer s))) (bearerToken (rqAuthorization r))) as [parsed|x] eqn:Ep.
  2:{ unfold run, logout. passed. rewrite (exec_err _ _ _ _ _ _ Ep). cbn. done. }
  unfold run, logout. passed. unfold Persist.RevokeUserToken, checked, persist. destruct (evDB e 0%nat); cbn; [|done].
  intros _. by exists parsed.
Qed.

(** A path of the users answers 401 without a valid session, and otherwise as its handler
    does. *)
Lemma serve_user e r s h :
  rqMethod r = "POST" → find_route_ e (rqPath r) = Some (ForUsers h) →
  (rsStatus (fst (serve_ e r s)) = StatusUnauthorized ∧ ∃ v, rsContent (fst (serve_ e r s)) = CJSON v) ∨
  ∃ u, current_user e r s = Ok u ∧ rsStatus (fst (serve_ e r s)) = rsStatus (fst (run (h r u) s)) ∧
    rsContent (fst (serve_ e r s)) = rsContent (fst (run (h r u) s)) ∧ snd (serve_ e r s) = snd (run (h r u) s).
Proof.
  intros Hm Hr. unfold serve, withCORS. rewrite Hm. rewrite bool_decide_eq_false_2 by done.
  unfold dispatch. rewrite Hr. unfold run, requireUser, bind, get_state. cbn beta.
  destruct (current_user e r s) as [u|x]; cbn; [|left; by eauto].
  right. exists u. destruct (h r u s) as [[y|y] s']; by split_and!.
Qed.

(** The same for a path of the administrators. *)
Lemma serve_administrator e r s h :
  rqMethod r = "POST" → find_route_ e (rqPath r) = Some (ForAdmins h) →
  (∃ v, rsContent (fst (serve_ e r s)) = CJSON v) ∨
  ∃ u, current_user e r s = Ok u ∧ is_admin u = true ∧ rsStatus (fst (serve_ e r s)) = rsStatus (fst (run (h r u) s)) ∧
    rsContent (fst (serve_ e r s)) = rsContent (fst (run (h r u) s)) ∧ snd (serve_ e r s) = snd (run (h r u) s).
Proof.
  intros Hm Hr. unfold serve, withCORS. rewrite Hm. rewrite bool_decide_eq_false_2 by done.
  unfold dispatch. rewrite Hr. unfold run, requireAdmin, requireUser, bind, get_state. cbn beta.
  destruct (current_user e r s) as [u|x]; cbn; [|left; by eauto].
  destruct (is_admin u) eqn:Ea; cbn; [|left; by eauto].
  right. exists u. destruct (h r u s) as [[y|y] s']; by split_and!.
Qed.

(** ** Properties *)

(** Guessing passwords over the interface: in every state that requests of any kind
    lead to, the limiter's windows count at most the configured number of failures per
    account and per address, and each decodable login request is decided by the limiter
    first (429), then by the password (401, otherwise 200 with a token); it changes
    nothing but the limiter. *)
Theorem login_attempts_bounded window accountLimit ipLimit s0 l e r body :
  1 ≤ accountLimit < 2 ^ 63 → 1 ≤ ipLimit < 2 ^ 63 →
  svLimiter (apServer s0) = newLoginLimiter window accountLimit ipLimit →
  rqMethod r = "POST" → decodeJSON login_fields (rqBody r) = Some body →
  let s := serve_all_ l s0 in
  let '(response, s') := run (login e r) s in
  map_Forall (λ _ a, 1 ≤ laCount a ≤ accountLimit) (llAccounts (svLimiter (apServer s'))) ∧
  map_Forall (λ _ a, 1 ≤ laCount a ≤ ipLimit) (llIPs (svLimiter (apServer s'))) ∧
  s' = on_server (with_limiter (λ _, snd (attempt e r body s))) s ∧
  rsStatus response =
    (if fst (attempt e r body s) then
       match Users.Authenticate (evNow e) (stringField body "username") (stringField body "password") (store_of s) with
       | Ok user => if issueUserToken (evRand e 0) (evNow e) (cfJWTSecret (svConfig (apServer s))) user is Some _
                    then StatusOK else StatusInternalServerError
       | Err _ => StatusUnauthorized
       end
     else StatusTooManyRequests).
Proof.
  intros Ha Hi H0 Hm Hb s. destruct (login_run e r body s Hm Hb) as [Hs Hst].
  destruct (run (login e r) s) as [response s']. cbn [fst snd] in Hs, Hst. rewrite Hs. cbn [svLimiter on_server apServer with_limiter].
  assert (guarded (newLoginLimiter window accountLimit ipLimit) (snd (attempt e r body s))) as Hg.
  { apply guarded_step. pose proof (serve_all_relation guards l s0 serve_guards (newLoginLimiter window accountLimit ipLimit)) as Hl.
    apply Hl. rewrite H0. constructor. }
  destruct (guarded_windows _ _ _ _ Ha Hi Hg) as [Hwa Hwi]. by split_and!.
Qed.

(** C13: A logout is final: after the answer 200, the token opens no request any more,
    whatever requests of anybody come in between, no ticket drawn from it opens a
    connection while the token would still have lived, the connections opened with it
    are shut, and the revocation is in the database.  (A token with the same digest is
    the same token.) *)
Theorem logout_final `{!JWTLaws J} e r s buf now secret user raw :
  issueUserToken buf now secret user = Some raw → uID user ≠ "" →
  (∀ token, tokenDigest token = tokenDigest raw → token = raw) →
  cfJWTSecret (svConfig (apServer s)) = secret →
  rqMethod r = "POST" → rqPath r = "/api/logout" → rqAuthorization r = "Bearer " +:+ raw →
  rsStatus (fst (serve_ e r s)) = StatusOK →
  let s1 := snd (serve_ e r s) in
  let until := NewNumericDate (now + userTokenTTL) in
  (∀ l e' r', rqAuthorization r' = "Bearer " +:+ raw → ∃ x, current_user e' r' (serve_all_ l s1) = Err x) ∧
  (∀ l issued now' id version ticket x, now' < until →
     issueBrowserTicket issued secret browserAccessUser id version [tokenDigest raw] = Some (ticket, x) →
     is_ok (fst (browserAccessFromRequest now' secret ticket "" (store_of (serve_all_ l s1)))) = false) ∧
  (∀ b p peer, hBrowsers (hub_of s) !! b = Some p → hPeers (hub_of s) !! p = Some peer →
     bpAccessToken peer = tokenDigest raw → bpSocket peer ∈ hDown (hub_of s1)) ∧
  (∃ row, apRow s1 = Some row ∧ psRevokedUserTokens row !! tokenDigest raw = Some until).
Proof.
  intros Hi Hid Hinj Hsec Hm Hp Hauth Hok s1 until.
  assert (bearerToken ("Bearer " +:+ raw) = raw) as Hbt by (apply bearerToken_bearer; by eapply jwt_token_text).
  assert (∀ now' p, parseUserToken now' secret raw = Ok p → plExpiresAt p = until) as Hexp.
  { intros now' p. rewrite (parseUserToken_issued _ _ _ _ _ _ Hi Hid). destruct (_ <? _); [|done]. by intros [= <-]. }
  destruct (serve_user e r s (logout e)) as [[Hst _]|(u & _ & Hst & _ & Hs1)]; [done|by rewrite Hp|by rewrite Hok in Hst|].
  rewrite Hok in Hst. symmetry in Hst.
  apply logout_run in Hst as (parsed & _ & _ & Hpar & Hrun). rewrite Hauth, Hbt, Hsec in *. apply Hexp in Hpar. rewrite Hpar in Hrun.
  assert (revoked_until secret raw until s1) as Hrev.
  { unfold s1. rewrite Hs1, Hrun. split; [done|]. cbn. by rewrite lookup_insert_eq. }
  assert (∀ l, revoked_until secret raw until (serve_all_ l s1)) as Hall.
  { intros l. pose proof (keeps_revoked_preorder secret raw until). refine (serve_all_relation (keeps_revoked secret raw until) l s1 _ Hrev).
    intros e' r' s'. by apply serve_keeps_revoked. }
  assert (∀ l now', now' < until → Users.UserTokenRevoked now' (tokenDigest raw) (store_of (serve_all_ l s1)) = true) as Hr.
  { intros l now' Hlt. unfold Users.UserTokenRevoked. destruct (Hall l) as [_ ->]. by apply Z.ltb_lt. }
  split_and!.
  - intros l e' r' Hauth'. destruct (current_user _ _ _) as [who|x] eqn:Ec; [exfalso|by eexists].
    unfold current_user in Ec. rewrite Hauth' in Ec. destruct (Hall l) as [Hc _]. rewrite Hc in Ec.
    apply (session_iff _ _ _ _ _ _ _ _ Hi Hid) in Ec as (Hlt & Hn & _). by rewrite Hr in Hn.
  - intros l issued now' id version ticket x Hlt Ht. by apply (revoked_ticket _ _ _ _ _ _ _ _ _ Ht), Hr.
  - intros b p peer Hb Hpe Hat. unfold s1. rewrite Hs1, Hrun. apply (proj2 (disconnect_correct _ "" "" _ _)). right. by exists b, p, peer.
  - unfold s1. rewrite Hs1, Hrun. eexists. split; [done|]. cbn. by rewrite lookup_insert_eq.
Qed.
End handlers.

(** ** Witnesses *)

Module ApiSessionWitness.
Import ApiWitness.

Lemma login_attempts_bounded_witness :
  rsStatus (fst (run (login (at_ (3 * Second) "d") (login_request "root" "guess")) api0)) = StatusUnauthorized.
Proof.
  pose proof (login_attempts_bounded (λ _, true) (λ _, None) (λ _, None) (λ _, None) "1.0" "abc" Minute 3 5 api0 []
    (at_ (3 * Second) "d") (login_request "root" "guess")
    {[ "username" := VStr "root"; "password" := VStr "guess" ]}) as Hl.
  cbn [serve_all] in Hl.
  destruct (run (login (at_ (3 * Second) "d") (login_request "root" "guess")) api0) as [response s'].
  destruct Hl as (_ & _ & _ & Hs); [lia|lia|reflexivity|reflexivity|vm_compute; reflexivity|].
  cbn [fst]. rewrite Hs. vm_compute. reflexivity.
Defined.

Lemma toy_digest token token' : tokenDigest token = tokenDigest token' → token = token'.
Proof.
  unfold tokenDigest. intros Heq%(f_equal b64url_decode). rewrite !b64url_roundtrip in Heq. injection Heq as Heq.
  apply (f_equal bytes_str) in Heq. by rewrite !bytes_str_bytes in Heq.
Qed.

Definition root : User := from_ok User_zero (Users.Authenticate (2 * Second) "root" "secret" (store_of api1)).
Definition bye : Request := request "POST" "/api/logout" root_token DInvalid.

(** After the logout the administrator's token opens nothing, whatever comes in between. *)
Lemma logout_final_witness :
  ∃ x, current_user (at_ (5 * Second) "e") (request "GET" "/api/me" root_token DInvalid)
    (serve_all (λ _, true) (λ _, None) (λ _, None) (λ _, None) "1.0" "abc" [(at_ (4 * Second) "e", create_alice)]
      (snd (serve (λ _, true) (λ _, None) (λ _, None) (λ _, None) "1.0" "abc" (at_ (3 * Second) "d") bye api1))) = Err x.
Proof.
  apply (logout_final (λ _, true) (λ _, None) (λ _, None) (λ _, None) "1.0" "abc" (at_ (3 * Second) "d") bye api1
    (repeat "c"%char 24) (2 * Second) (str_bytes "key") root root_token).
  - vm_compute. reflexivity.
  - vm_compute. discriminate.
  - intros token. apply toy_digest.
  - reflexivity.
  - reflexivity.
  - reflexivity.
  - reflexivity.
  - vm_compute. reflexivity.
  - reflexivity.
Defined.
End ApiSessionWitness.
