(* ===== verification/ApiFiles.v ===== *)
(** * Files over the HTTP interface

    From the upload of a file over a task that installs it to its download by a device:
    whatever requests are served in between, the device gets the bytes that were
    uploaded. *)

From S2P Require Import Prelude GoBase GoStrings GoFloat Model Store Config LoginLimiter Hub Auth Grants Server Persist Json Http.
From S2P Require Import RestAccounts RestDevices RestDeploy RestShares RestTasks Artifacts Api ApiAccess ApiAccounts ApiSession.
From S2P Require Users Devices Shares Enrollments Assets Tasks.

(** ** Names and paths *)

Lemma asset_path_inj s id id' : asset_path s id = asset_path s id' → id = id'.
Proof.
  unfold asset_path. intros Heq%(f_equal str_bytes). rewrite !str_bytes_app in Heq.
  apply app_inv_head, app_inv_head, app_inv_tail in Heq. by apply (f_equal bytes_str) in Heq; rewrite !bytes_str_bytes in Heq.
Qed.

(** The path a handler computes depends on the configuration only. *)
Lemma asset_path_config s s' id : svConfig s = svConfig s' → asset_path s id = asset_path s' id.
Proof. unfold asset_path. by intros ->. Qed.

Definition slash : byte := ch "/".
Lemma last_element_spec l acc :
  slash ∉ acc →
  (slash ∉ last_element l acc) ∧ (slash ∉ l → last_element l acc = rev l ++ acc) ∧
  (∀ l1 l2, l = l1 ++ slash :: l2 → slash ∉ l1 → last_element l acc = rev l1 ++ acc).
Proof.
  revert acc. induction l as [|a l IH]; intros acc Hacc.
  - split_and!; [done|done|]. intros l1 l2 Heq. by apply app_cons_not_nil in Heq.
  - cbn. destruct (is_byte a 47) eqn:Ea.
    + assert (a = slash) as ->. { unfold is_byte in Ea. apply Z.eqb_eq in Ea. by rewrite <-(byte_of_val a), Ea. }
      split_and!; [done|set_solver|]. intros [|b l1] l2 Heq Hl1; [done|]. injection Heq as <- _. set_solver.
    + assert (a ≠ slash) as Hne by (by intros ->).
      destruct (IH (a :: acc)) as (H1 & H2 & H3); [set_solver|]. split_and!; [done|..].
      * intros Hl. rewrite H2 by set_solver. by rewrite <-app_assoc.
      * intros [|b l1] l2 Heq Hl1; [by injection Heq|]. injection Heq as <- Heq.
        rewrite (H3 l1 l2) by set_solver. cbn. by rewrite <-app_assoc.
Qed.

Lemma drop_while_other c a l : a ≠ c → drop_while_byte c (a :: l) = a :: l.
Proof. intros Hne. cbn. by rewrite decide_False. Qed.

(** The name of an uploaded file is the last element of the path it is downloaded from. *)
Lemma Base_download x : Base x ∉ ["."; ""; "/"] → Base ("/downloads/" +:+ Base x) = Base x.
Proof.
  intros Hx. assert (∃ n, Base x = bytes_str n ∧ n ≠ [] ∧ slash ∉ n) as (n & -> & Hne & Hs).
  { unfold Base in *. case_bool_decide; [set_solver|]. case_bool_decide; [set_solver|].
    eexists. split; [done|]. split; [|apply last_element_spec; set_solver].
    intros Hn. rewrite Hn in Hx. set_solver. }
  clear Hx. unfold Base. rewrite bool_decide_eq_false_2 by done.
  rewrite str_bytes_app, str_bytes_str, rev_app_distr.
  destruct (rev n) as [|a l] eqn:Hr; [by apply (f_equal (@rev _)) in Hr; rewrite rev_involutive in Hr|].
  assert (slash ∉ a :: l) as Hal by (rewrite <-Hr; intros Hin; apply list_elem_of_In, in_rev, list_elem_of_In in Hin; done).
  change ((a :: l) ++ ?x) with (a :: l ++ x). change (ch "/") with slash. rewrite drop_while_other by set_solver.
  rewrite bool_decide_eq_false_2 by done. f_equal.
  change (a :: l ++ rev (str_bytes "/downloads/")) with ((a :: l) ++ slash :: rev (str_bytes "/downloads")).
  destruct (last_element_spec ((a :: l) ++ slash :: rev (str_bytes "/downloads")) []) as (_ & _ & Hle); [set_solver|].
  rewrite (Hle _ _ eq_refl) by done.
  by rewrite <-Hr, rev_involutive, app_nil_r.
Qed.

(** ** What stays of a file and of a task *)

Section files.
Context `{Crypto} {J : JWT} {N : NetIP} {C : Codec} {G : GrantJSON} {U : URLs} {E : Endpoints}.
Context (stat : string → bool) (opened embedded dist : string → option bytes).
Context (build_version build_revision : string).
Implicit Types s : Api.

Abbreviation serve_ e := (serve stat opened embedded dist build_version build_revision e).
Abbreviation serve_all_ := (serve_all stat opened embedded dist build_version build_revision).

Section kept.
Context (config : Config) (asset : Asset) (data : bytes) (t : string) (task : Task).

(** The file is in the library and on the disk. *)
Definition stored (s : Api) : Prop :=
  svConfig (apServer s) = config ∧ ms_assets (store_of s) !! asID asset = Some asset ∧
  apFiles s !! asset_path (apServer s) (asID asset) = Some data.
Definition has_task (s : Api) : Prop := ms_tasks (store_of s) !! t = Some task.

Definition keeps_file (s s' : Api) : Prop := stored s → stored s'.
Definition keeps_task (s s' : Api) : Prop := has_task s → has_task s'.

#[local] Instance keeps_file_preorder : PreOrder keeps_file.
Proof. split; unfold keeps_file; [by intros s|by intros s1 s2 s3 ? ? ?; auto]. Qed.
#[local] Instance keeps_task_preorder : PreOrder keeps_task.
Proof. split; unfold keeps_task; [by intros s|by intros s1 s2 s3 ? ? ?; auto]. Qed.

Lemma quiet_keeps s s' : quiet s s' → keeps_file s s' ∧ keeps_task s s'.
Proof.
  intros ((Hc & _ & _) & Hf & Ha & Ht). unfold keeps_file, keeps_task, stored, has_task.
  rewrite Hc, Hf, Ha, Ht. rewrite (asset_path_config _ _ _ Hc). done.
Qed.

(** The random ids that a request draws for a new file and for a new task are others. *)
Definition other_file (e : env) : Prop := randomID (evRand e 0) ≠ "" ∧ randomID (evRand e 0) ≠ asID asset.
Definition other_task (e : env) : Prop := randomID (evRand e 0) ≠ t.

Section requests.
Context (e : env).

Lemma file_at_other_path s id (g : gmap string bytes → gmap string bytes) :
  id ≠ asID asset → (∀ m k, k ≠ asset_path (apServer s) id → g m !! k = m !! k) →
  keeps_file s (on_files g s).
Proof.
  intros Hne Hg (Hc & Ha & Hf). split_and!; [done|done|]. cbn. rewrite Hg; [done|].
  intros Heq%asset_path_inj. congruence.
Qed.

Lemma upload_keeps_file r u s : other_file e → keeps keeps_file s (upload e r u).
Proof.
  intros [Hne Hother]. unfold upload, requireCapability, disk. keeps_run. apply (keeps_modify _).
  { apply (file_at_other_path _ _ _ Hother). intros m k Hk. cbn. by rewrite lookup_insert_ne. }
  apply (keeps_stores _).
  { intros (Hc & Ha & Hf). split_and!; [done| |done]. rewrite store_put_postgres. unfold Persist.CreateAsset.
    rewrite mutating_inner. unfold Assets.CreateAsset. cbn [asID]. rewrite !(decide_False _ _ Hne).
    repeat case_match; cbn; by rewrite ?lookup_insert_ne. }
  keeps_run.
  - unfold audit_event. apply (keeps_stores_ _); [|by keeps_run]. by apply quiet_keeps, audit_quiet.
  - apply (keeps_modify _); [|by keeps_run]. apply (file_at_other_path _ _ _ Hother).
    intros m k Hk. cbn. by rewrite lookup_delete_ne.
Qed.

(** A write of the store that leaves files and tasks as they are. *)
Lemma put_keeps s p :
  ms_assets (pg_inner p) = ms_assets (store_of s) → ms_tasks (pg_inner p) = ms_tasks (store_of s) →
  keeps_file s (put_postgres p s) ∧ keeps_task s (put_postgres p s).
Proof.
  intros Ha Ht. split; unfold keeps_file, keeps_task, stored, has_task; rewrite store_put_postgres, ?Ha, ?Ht; done.
Qed.

Lemma upload_keeps_task r u s : keeps keeps_task s (upload e r u).
Proof.
  unfold upload, requireCapability, disk. keeps_run. apply (keeps_modify _); [intros Ht; exact Ht|]. apply (keeps_stores _).
  { intros Ht. unfold has_task in *. rewrite store_put_postgres. unfold Persist.CreateAsset. rewrite mutating_inner.
    unfold Assets.CreateAsset. repeat case_match; exact Ht. }
  keeps_run.
  - unfold audit_event. apply (keeps_stores_ _); [|by keeps_run]. by apply quiet_keeps, audit_quiet.
  - apply (keeps_modify _); [intros Ht; exact Ht|by keeps_run].
Qed.

(** The creation of a task, for a relation that its writes and notifications keep. *)
Lemma tasks_relation (R : Api → Api → Prop) `{!PreOrder R} r u s :
  (∀ s s', quiet s s' → R s s') →
  (∀ ok task s, tID task = "" → R s (put_postgres (snd (Persist.CreateTask ok (evRand e 0) (evNow e) task (postgres s))) s)) →
  keeps R s (tasks e r u).
Proof.
  intros Hq Hc. unfold tasks, createTask, requireCapability, attach_asset. keeps_run; (apply (keeps_stores _);
    [by apply Hc|keeps_run; unfold audit_event; apply (keeps_stores_ _); [by apply Hq, audit_quiet|];
      keeps_run; apply (keeps_updates _); [by apply Hq, notify_quiet|by keeps_run]]).
Qed.

Lemma tasks_keep_file r u s : keeps keeps_file s (tasks e r u).
Proof.
  apply tasks_relation; [apply _|by intros; apply quiet_keeps|]. intros ok task' s' _ (Hc & Ha & Hf).
  split_and!; try done. rewrite store_put_postgres. unfold Persist.CreateTask. rewrite mutating_inner.
  unfold Tasks.CreateTask. repeat case_match; exact Ha.
Qed.
Lemma tasks_keep_task r u s : other_task e → keeps keeps_task s (tasks e r u).
Proof.
  intros Hother. apply tasks_relation; [apply _|by intros; apply quiet_keeps|]. intros ok task' s' Hid Ht.
  unfold has_task in *. rewrite store_put_postgres. unfold Persist.CreateTask. rewrite mutating_inner.
  unfold Tasks.CreateTask. rewrite !(decide_True _ _ Hid). case_decide; [exact Ht|].
  destruct (IsZero _); cbn; by rewrite lookup_insert_ne.
Qed.

Lemma session_keeps r u s :
  (keeps keeps_file s (login e r) ∧ keeps keeps_task s (login e r)) ∧
  (keeps keeps_file s (logout e r u) ∧ keeps keeps_task s (logout e r u)).
Proof.
  assert (∀ g s, (∀ v, svConfig (g v) = svConfig v ∧ svStore (g v) = svStore v) →
    keeps_file s (on_server g s) ∧ keeps_task s (on_server g s)) as Hg.
  { intros g s' Hg. destruct (Hg (apServer s')) as [Hc Hs].
    unfold keeps_file, keeps_task, stored, has_task, store_of. cbn. by rewrite Hc, Hs, (asset_path_config _ _ _ Hc). }
  split; split; unfold login, logout; keeps_run.
  all: repeat first [apply (keeps_updates _); [by apply Hg|]|apply (keeps_stores _); [|]|keeps_step].
  all: apply put_keeps; unfold Persist.RevokeUserToken; by rewrite checked_inner.
Qed.

Lemma serve_keeps_file r s : other_file e → keeps_file s (snd (serve_ e r s)).
Proof.
  intros Hids. apply (serve_relation _ _ _ _ _ _ keeps_file); [by intros; apply quiet_keeps|..];
    [intros s'; apply (session_keeps r User_zero)|intros u s'; apply (session_keeps r u)|..]; intros u s'.
  - by apply upload_keeps_file.
  - apply tasks_keep_file.
Qed.
Lemma serve_keeps_task r s : other_task e → keeps_task s (snd (serve_ e r s)).
Proof.
  intros Hids. apply (serve_relation _ _ _ _ _ _ keeps_task); [by intros; apply quiet_keeps|..];
    [intros s'; apply (session_keeps r User_zero)|intros u s'; apply (session_keeps r u)|..]; intros u s'.
  - apply upload_keeps_task.
  - by apply tasks_keep_task.
Qed.
End requests.

(** Over any requests that draw other ids. *)
Lemma requests_keep_file l s : Forall (λ er, other_file (fst er)) l → keeps_file s (serve_all_ l s).
Proof. intros Hl. apply (serve_all_related _ _ _ _ _ _ other_file keeps_file); [by intros; apply serve_keeps_file|done]. Qed.
Lemma requests_keep_task l s : Forall (λ er, other_task (fst er)) l → keeps_task s (serve_all_ l s).
Proof. intros Hl. apply (serve_all_related _ _ _ _ _ _ other_task keeps_task); [by intros; apply serve_keeps_task|done]. Qed.
End kept.

(** ** The three steps *)

Lemma CreateAsset_stored buf now a m a' :
  asID a ≠ "" → asCreatedAt a = now → fst (Assets.CreateAsset buf now a m) = Ok a' →
  a' = a ∧ ms_assets (snd (Assets.CreateAsset buf now a m)) = <[asID a := a]> (ms_assets m).
Proof.
  intros Hid Hc. unfold Assets.CreateAsset. rewrite (decide_False _ _ Hid). case_decide; [done|].
  destruct (ms_assetsByName m !! asName a); [done|].
  assert ((if IsZero (asCreatedAt a) then set_asCreatedAt (λ _, now) a else a) = a) as ->
    by (destruct (IsZero _); [destruct a; cbn in *; by subst|done]).
  by intros [= <-].
Qed.

Lemma take_all {A} (l : list A) (n : Z) : Z.of_nat (length (take (Z.to_nat (n + 1)) l)) ≤ n → take (Z.to_nat (n + 1)) l = l.
Proof. rewrite length_take. intros Hn. apply take_ge. lia. Qed.

Lemma upload_accepted e r u s status headers asset s' :
  length (evRand e 0%nat) = 24%nat → run (upload e r u) s = (MkResponse status headers (CAsset asset), s') →
  ∃ data, rqContent r = Ok data ∧ asID asset ≠ "" ∧ stored (svConfig (apServer s)) asset data s' ∧
    asPath asset = asset_path (apServer s) (asID asset) ∧ asName asset = Base (TrimSpace (Query r "name")) ∧
    (asName asset ∉ ["."; ""; "/"]) ∧ asSHA256 asset = hex (sha256 data) ∧ asSize asset = blen data ∧
    asCreatedBy asset = uUsername u ∧ Can u "file_library" = true ∧ blen data ≤ cfMaxAssetBytes (svConfig (apServer s)).
Proof.
  intros Hlen Hrun. pose proof (randomID_nonempty _ Hlen) as Hid. unfold upload, requireCapability, disk in Hrun.
  accepted Hrun. rename x into data.
  match goal with H : (blen (take _ data) <=? _) = true |- _ => apply Z.leb_le in H; pose proof (take_all _ _ H) as Htake end.
  rewrite Htake in *. unfold Persist.CreateAsset in Hrun.
  set (a := MkAsset _ _ _ _ _ _ _) in Hrun. set (s1 := on_files _ s) in Hrun.
  rewrite mutating_result in Hrun. destruct (fst (Assets.CreateAsset _ _ a _)) as [a'|x] eqn:Ha; [|accepted Hrun; by destruct x].
  apply CreateAsset_stored in Ha as [-> Ha]; [|done|done]. unfold audit_event in Hrun. accepted Hrun.
  injection Hrun as _ _ <- <-. exists data. bool_to_prop. split_and!; try done.
  split_and!; [done| |].
  - unfold Persist.Audit. rewrite store_put_postgres, always_inner. unfold Store.Audit, auditLocked.
    rewrite postgres_inner, store_put_postgres, mutating_inner. cbn [ms_assets set_ms_audits]. rewrite Ha. apply lookup_insert_eq.
  - cbn. apply lookup_insert_eq.
Qed.

Lemma same_access_broadcastTask task : same_access (broadcastTask task).
Proof. intros s. unfold broadcastTask, PublishBroadcast, publish, with_redis. by cbn. Qed.

(** A device claims a task that has a file: what it is sent, and the state it leaves. *)
Lemma claim_dispatch now d t asset task m msg (s : Server) :
  stringField msg "task_id" = t → Tasks.ClaimTask now t d (svStore s) = (Ok task, m) →
  tAssetID task = asID asset → asID asset ≠ "" → ms_assets (svStore s) !! asID asset = Some asset →
  handle_claim now d msg s =
    broadcastTask task (send_agent_ d (dispatch_message now d task (Some asset) s) (with_store (λ _, m) s)) ∧
  svConfig (handle_claim now d msg s) = svConfig s ∧ svStore (handle_claim now d msg s) = m ∧
  ms_assets m = ms_assets (svStore s) ∧ ms_tasks m !! t = Some task ∧ (in_transfer <$> tDevices task !! d) = Some true.
Proof.
  intros Ht Hc Hasset Hne Ha.
  pose proof (Tasks.ClaimTask_Ok _ _ _ _ _ _ Hc) as (t0 & dev & _ & _ & _ & _ & Htask & Hm).
  assert (ms_assets m = ms_assets (svStore s)) as Hma by (by rewrite Hm).
  assert (handle_claim now d msg s =
    broadcastTask task (send_agent_ d (dispatch_message now d task (Some asset) s) (with_store (λ _, m) s))) as Heq.
  { unfold handle_claim. rewrite Ht, Hc. rewrite Hasset, decide_True by done. unfold Assets.AssetByID. by rewrite Hma, Ha. }
  destruct (same_access_broadcastTask task (send_agent_ d (dispatch_message now d task (Some asset) s) (with_store (λ _, m) s)))
    as (Hb1 & _ & Hb3).
  destruct (same_access_send_agent d (dispatch_message now d task (Some asset) s) (with_store (λ _, m) s)) as (Hs1 & _ & Hs3).
  rewrite Heq. split_and!; try done.
  - rewrite Hm. cbn. apply lookup_insert_eq.
  - rewrite Htask. cbn. by rewrite lookup_insert_eq.
Qed.

Lemma download_served e r s config asset data t task d x :
  rqMethod r = "GET" → stored config asset data s → has_task t task s → tAssetID task = asID asset →
  asPath asset = asset_path (apServer s) (asID asset) → Base (rqPath r) = asName asset →
  (in_transfer <$> tDevices task !! d) = Some true →
  parseDownloadGrant (evNow e) (cfJWTSecret (svConfig (apServer s))) (Query r "grant") = Ok (MkGrant (asID asset) t d x) →
  run (download e r) s =
    (MkResponse StatusOK {[ "Content-Length" := FormatUint (asSize asset); "Content-Type" := "application/octet-stream";
                            "Content-Disposition" := quote_name (asName asset) ]} (CFile data), s).
Proof.
  intros Hm (_ & Ha & Hf) Ht Hid Hp Hb Hd Hg. unfold has_task in Ht. unfold run, download. passed.
  cbn [dgAssetID dgTaskID dgDeviceID]. unfold Assets.AssetByID, Tasks.TaskByID. rewrite Ha, Ht.
  passed. rewrite !exec_require; [|by apply bool_decide_eq_true| |by apply bool_decide_eq_true].
  - by rewrite Hp, Hf.
  - by destruct (tDevices task !! d) as [dev|]; [injection Hd|].
Qed.

(** The upload as a request, and the download as a request. *)
Lemma serve_upload e r s asset :
  rqMethod r = "POST" → rqPath r = "/upload" → length (evRand e 0%nat) = 24%nat →
  rsContent (fst (serve_ e r s)) = CAsset asset →
  ∃ data, rqContent r = Ok data ∧ asID asset ≠ "" ∧ stored (svConfig (apServer s)) asset data (snd (serve_ e r s)) ∧
    asPath asset = asset_path (apServer s) (asID asset) ∧ Base ("/downloads/" +:+ asName asset) = asName asset ∧
    asSHA256 asset = hex (sha256 data) ∧ asSize asset = blen data ∧ blen data ≤ cfMaxAssetBytes (svConfig (apServer s)).
Proof.
  intros Hm Hp Hlen Hc.
  destruct (serve_user stat opened embedded dist build_version build_revision e r s (upload e))
    as [[_ [v Hv]]|(u & _ & _ & Hu & ->)]; [done|by rewrite Hp, upload_routed|congruence|].
  rewrite Hu in Hc. destruct (run (upload e r u) s) as [[st hd c] s'] eqn:Hrun. cbn [fst snd rsContent] in *. subst c.
  apply upload_accepted in Hrun as (data & ? & ? & ? & ? & Hn & Hno & ? & ? & _ & _ & ?); [|done].
  exists data. split_and!; try done. rewrite Hn in *. by apply Base_download.
Qed.

Lemma serve_download e r s name response :
  rqMethod r = "GET" → rqPath r = "/downloads/" +:+ name → run (download e r) s = (response, s) →
  rsStatus (fst (serve_ e r s)) = rsStatus response ∧ rsContent (fst (serve_ e r s)) = rsContent response ∧
  (∀ k v, rsHeaders response !! k = Some v → rsHeaders (fst (serve_ e r s)) !! k = Some v) ∧ snd (serve_ e r s) = s.
Proof.
  intros Hm Hp Hrun. unfold serve, withCORS. rewrite Hm. rewrite bool_decide_eq_false_2 by done.
  unfold dispatch. rewrite Hp, downloads_routed, Hrun. cbn. split_and!; try done.
  intros k v Hk. by apply lookup_union_Some_l.
Qed.

(** A claim, the requests after it, and the request for the file it links to. *)
Lemma claimed_download `{!GrantJSONLaws G} config asset data s2 now d msg task m l2 e r :
  let t := stringField msg "task_id" in
  let s3 := on_server (handle_claim now d msg) s2 in
  let s4 := serve_all_ l2 s3 in
  let grant := issueDownloadGrant now (cfJWTSecret config) (asID asset) t d in
  stored config asset data s2 → asID asset ≠ "" → asPath asset = asset_path (apServer s2) (asID asset) →
  Base ("/downloads/" +:+ asName asset) = asName asset →
  Forall (λ er, other_file asset (fst er)) l2 → Forall (λ er, other_task t (fst er)) l2 →
  Tasks.ClaimTask now t d (store_of s2) = (Ok task, m) → tAssetID task = asID asset → tID task = t →
  rqMethod r = "GET" → rqPath r = "/downloads/" +:+ asName asset → Query r "grant" = grant →
  Unix (evNow e) ≤ Unix (now + 15 * Minute) →
  apServer s3 = broadcastTask task (send_agent_ d (dispatch_message now d task (Some asset) (apServer s2))
                  (with_store (λ _, m) (apServer s2))) ∧
  has_task t task s4 ∧ (in_transfer <$> tDevices task !! d) = Some true ∧
  rsStatus (fst (serve_ e r s4)) = StatusOK ∧ rsContent (fst (serve_ e r s4)) = CFile data ∧
  rsHeaders (fst (serve_ e r s4)) !! "Content-Length" = Some (FormatUint (asSize asset)) ∧
  snd (serve_ e r s4) = s4.
Proof.
  intros t s3 s4 grant Hst2 Hid Hpath Hbase Hl2 Hlt Hclaim Hta Htid Hm Hp Hgrant Hnow.
  pose proof Hst2 as (Hc2 & Ha2 & Hf2).
  destruct (claim_dispatch now d t asset task m msg (apServer s2)) as (Hcl & Hc3 & Hm3 & Hma & Hmt & Hin); [done..|].
  assert (stored config asset data s3 ∧ has_task t task s3) as [Hst3 Ht3].
  { unfold stored, has_task, store_of. cbn. rewrite (asset_path_config _ (apServer s2)), Hc3, Hm3, Hma by done. done. }
  assert (stored config asset data s4) as Hst4 by (by apply (requests_keep_file config asset data)).
  assert (has_task t task s4) as Ht4 by (by apply (requests_keep_task config asset data t task)).
  assert (asPath asset = asset_path (apServer s4) (asID asset)) as Hpath4.
  { rewrite Hpath. apply asset_path_config. rewrite Hc2. symmetry. apply Hst4. }
  assert (parseDownloadGrant (evNow e) (cfJWTSecret (svConfig (apServer s4))) (Query r "grant") =
    Ok (MkGrant (asID asset) t d (Unix (now + 15 * Minute)))) as Hparse.
  { destruct Hst4 as [Hc4 _]. rewrite Hgrant, Hc4. unfold grant. rewrite parse_issued by done.
    by rewrite (proj2 (Z.leb_le _ _) Hnow). }
  assert (Base (rqPath r) = asName asset) as Hb by (by rewrite Hp).
  destruct (serve_download e r s4 (asName asset) _ Hm Hp
    (download_served e r s4 config asset data t task d _ Hm Hst4 Ht4 Hta Hpath4 Hb Hin Hparse)) as (Hs & Hco & Hh & Hsn).
  split_and!; try done. by apply Hh.
Qed.

(** ** Properties *)

(** A file travels unchanged from the upload to the device.  After an upload that was
    answered with the asset, and whatever requests follow, the first claim of a task for
    that asset sends the device the file's SHA-256 and a download link; and within the
    fifteen minutes of the link, after any more requests, a request for it without any
    session is answered with exactly the bytes that were uploaded and their length.  (The
    requests in between draw other random ids for their files and tasks.) *)
Theorem asset_delivery `{!GrantJSONLaws G} e1 r1 s0 asset l1 now d msg task m l2 e r :
  let s1 := snd (serve_ e1 r1 s0) in
  let s2 := serve_all_ l1 s1 in
  let t := stringField msg "task_id" in
  let s3 := on_server (handle_claim now d msg) s2 in
  let s4 := serve_all_ l2 s3 in
  let config := svConfig (apServer s0) in
  let grant := issueDownloadGrant now (cfJWTSecret config) (asID asset) t d in
  let message := dispatch_message now d task (Some asset) (apServer s2) in
  rqMethod r1 = "POST" → rqPath r1 = "/upload" → length (evRand e1 0%nat) = 24%nat →
  rsContent (fst (serve_ e1 r1 s0)) = CAsset asset →
  Forall (λ er, other_file asset (fst er)) (l1 ++ l2) → Forall (λ er, other_task t (fst er)) l2 →
  Tasks.ClaimTask now t d (store_of s2) = (Ok task, m) → tAssetID task = asID asset → tID task = t →
  rqMethod r = "GET" → rqPath r = "/downloads/" +:+ asName asset → Query r "grant" = grant →
  Unix (evNow e) ≤ Unix (now + 15 * Minute) →
  ∃ data, rqContent r1 = Ok data ∧ blen data ≤ cfMaxAssetBytes config ∧
    apServer s3 = broadcastTask task (send_agent_ d message (with_store (λ _, m) (apServer s2))) ∧
    message !! "asset_sha256" = Some (VStr (hex (sha256 data))) ∧
    message !! "download_url" = Some (VStr (TrimRight (cfPublicURL config) "/" +:+ "/downloads/" +:+
      PathEscape (asName asset) +:+ "?grant=" +:+ QueryEscape grant)) ∧
    rsStatus (fst (serve_ e r s4)) = StatusOK ∧ rsContent (fst (serve_ e r s4)) = CFile data ∧
    rsHeaders (fst (serve_ e r s4)) !! "Content-Length" = Some (FormatUint (blen data)) ∧
    snd (serve_ e r s4) = s4.
Proof.
  intros s1 s2 t s3 s4 config grant message Hm1 Hp1 Hlen Hup [Hl1 Hl2]%Forall_app Hlt Hclaim Hta Htid Hm Hp Hgrant Hnow.
  destruct (serve_upload e1 r1 s0 asset Hm1 Hp1 Hlen Hup) as (data & Hdata & Hid & Hst1 & Hpath & Hbase & Hsha & Hsize & Hmax).
  assert (stored config asset data s2) as Hst2 by (by apply (requests_keep_file config asset data)).
  assert (asPath asset = asset_path (apServer s2) (asID asset)) as Hpath2.
  { rewrite Hpath. apply asset_path_config. symmetry. apply Hst2. }
  destruct (claimed_download config asset data s2 now d msg task m l2 e r) as (H3 & _ & _ & Hs & Hco & Hh & Hsn); [done..|].
  exists data. split_and!; try done.
  - unfold message, dispatch_message. by rewrite lookup_insert_ne, lookup_insert_eq, Hsha.
  - unfold message, dispatch_message. rewrite lookup_insert_eq, (proj1 Hst2), Htid. done.
  - by rewrite <-Hsize.
Qed.
End files.

(** ** Witness *)

Module ApiFilesWitness.
Import ApiWitness.

Definition content : bytes := str_bytes "apk".
Definition put : Request :=
  MkRequest "POST" "/upload" {[ "name" := "a.apk"; "type" := "file" ]} ("Bearer " +:+ root_token) "" "10.0.0.1" "" 3
    DInvalid (Ok content).
Definition e1 : env := at_ (3 * Second) "f".
Definition asset : Asset := match rsContent (fst (serve0 e1 put api1)) with CAsset a => a | _ => MkAsset "" "" "" "" 0 "" 0 end.

(** A task for one device, by the administrator. *)
Definition install : Request :=
  request "POST" "/api/tasks" root_token
    (body [("type", VStr "install"); ("targets", VList [VStr "phone"]); ("payload", VStr "/downloads/a.apk")]).
Definition l1 : list (env * Request) := [(at_ (4 * Second) "g", install)].
Definition s2 : Api := serve_all (λ _, true) (λ _, None) (λ _, None) (λ _, None) "1.0" "abc" l1 (snd (serve0 e1 put api1)).
Definition claim : vmap := {[ "task_id" := VStr (randomID (repeat "g"%char 24)) ]}.
Definition claimed := Tasks.ClaimTask (5 * Second) (stringField claim "task_id") "phone" (store_of s2).
Definition task : Task := from_ok (MkTask "" "" "" "" "" "" 0 0 ∅) (fst claimed).

Definition get : Request :=
  MkRequest "GET" "/downloads/a.apk"
    {[ "grant" := issueDownloadGrant (5 * Second) (str_bytes "key") (asID asset) (stringField claim "task_id") "phone" ]}
    "" "" "10.0.0.2" "" 0 DInvalid (Ok []).

Lemma asset_delivery_witness :
  rsContent (fst (serve0 (at_ (6 * Second) "h") get
    (on_server (handle_claim (5 * Second) "phone" claim) s2))) = CFile content.
Proof.
  destruct (asset_delivery (λ _, true) (λ _, None) (λ _, None) (λ _, None) "1.0" "abc" e1 put api1 asset l1
    (5 * Second) "phone" claim task (snd claimed) [] (at_ (6 * Second) "h") get)
    as (data & Hdata & _ & _ & _ & _ & _ & Hc & _).
  - reflexivity.
  - reflexivity.
  - reflexivity.
  - vm_compute. reflexivity.
  - apply Forall_cons_2; [|apply Forall_nil_2]. split; vm_compute; discriminate.
  - apply Forall_nil_2.
  - vm_compute. reflexivity.
  - vm_compute. reflexivity.
  - vm_compute. reflexivity.
  - reflexivity.
  - vm_compute. reflexivity.
  - vm_compute. reflexivity.
  - vm_compute. discriminate.
  - injection Hdata as <-. exact Hc.
Defined.
End ApiFilesWitness.
