(* ===== verification/ApiPackage.v ===== *)
(** * Deployment packages over the HTTP interface (deployment.go)

    The package of a device configures it: the shell that sources the [config.env] of the
    archive gets the device id, the signaling address and the enrollment token it was
    made for, and the token enrolls that device and no other. *)

From S2P Require Import Prelude GoBase GoStrings GoFloat Model Store Config LoginLimiter Hub Auth Grants AdbShell DeviceFiles Server Persist Json Http.
From S2P Require Import RestAccounts RestDevices RestDeploy RestShares RestTasks Artifacts Api ApiAccess ApiAccounts ApiSession.
From S2P Require Users Devices Shares Enrollments Assets Tasks.

(** ** Sourcing a file of assignments

    What run.sh and service.sh do with [. ./config.env]: each line is an assignment, its
    value a word of the POSIX shell.  Anything that is more than that is refused. *)
Inductive sh_state :=
| InName (name : bytes)
| InValue (name value : bytes)
| InQuotes (name value : bytes).

Definition name_char (a : byte) : bool :=
  in_range a 48 57 || in_range a 65 90 || in_range a 97 122 || is_byte a 95.
Definition newline_byte : byte := byte_of 10.

Fixpoint sh_source (st : sh_state) (l : bytes) : option (list (string * string)) :=
  match l, st with
  | [], InName [] => Some []
  | [], InValue n v => Some [(bytes_str n, bytes_str v)]
  | [], _ => None
  | a :: l, InName n =>
      if decide (a = newline_byte) then (if decide (n = []) then sh_source (InName []) l else None)
      else if decide (a = ch "=") then (if decide (n = []) then None else sh_source (InValue n []) l)
      else if name_char a then sh_source (InName (n ++ [a])) l else None
  | a :: l, InValue n v =>
      if decide (a = newline_byte) then cons (bytes_str n, bytes_str v) <$> sh_source (InName []) l
      else if decide (a = quote_mark) then sh_source (InQuotes n v) l
      else if decide (a = ch "\") then
        match l with
        | [] => None
        | b :: l => if decide (b = newline_byte) then sh_source (InValue n v) l else sh_source (InValue n (v ++ [b])) l
        end
      else if ordinary a then sh_source (InValue n (v ++ [a])) l else None
  | a :: l, InQuotes n v =>
      if decide (a = quote_mark) then sh_source (InValue n v) l else sh_source (InQuotes n (v ++ [a])) l
  end.

Definition sourced (text : bytes) : option (list (string * string)) := sh_source (InName []) text.

Example sourced_escapes : sourced (str_bytes ("A='it'\''s'" +:+ newline +:+ "B=x\ y" +:+ newline)) =
  Some [("A", "it's"); ("B", "x y")].
Proof. reflexivity. Qed.
Example sourced_command : sourced (str_bytes "A=$(reboot)") = None.
Proof. reflexivity. Qed.

Lemma source_quoted n value rest : ∀ v,
  sh_source (InQuotes n v) (flat_map (λ a, if decide (a = quote_mark) then quote_escape else [a]) value ++ quote_mark :: rest) =
  sh_source (InValue n (v ++ value)) rest.
Proof.
  induction value as [|a value IH]; intros v.
  - cbn [flat_map app sh_source]. rewrite decide_True by done. by rewrite app_nil_r.
  - cbn [flat_map]. destruct (decide (a = quote_mark)) as [->|Hne].
    + transitivity (sh_source (InQuotes n (v ++ [quote_mark]))
        (flat_map (λ a, if decide (a = quote_mark) then quote_escape else [a]) value ++ quote_mark :: rest)); [done|].
      by rewrite IH, <-app_assoc.
    + cbn [app sh_source]. rewrite decide_False by done. by rewrite IH, <-app_assoc.
Qed.

Lemma source_quote n value rest :
  sh_source (InValue n []) (str_bytes (Quote value) ++ rest) = sh_source (InValue n (str_bytes value)) rest.
Proof.
  unfold Quote, quote_bytes. rewrite str_bytes_str, <-!app_assoc. cbn [app].
  transitivity (sh_source (InQuotes n []) (flat_map (λ a, if decide (a = quote_mark) then quote_escape else [a])
    (str_bytes value) ++ quote_mark :: rest)); [done|]. apply source_quoted.
Qed.

Lemma source_name name n rest :
  forallb name_char name = true → n ++ name ≠ [] →
  sh_source (InName n) (name ++ ch "=" :: rest) = sh_source (InValue (n ++ name) []) rest.
Proof.
  revert n. induction name as [|a name IH]; intros n Hall Hne.
  - rewrite app_nil_r in *. cbn [app sh_source].
    rewrite (decide_False (P:=ch "=" = newline_byte)) by (by vm_compute). by rewrite decide_True, decide_False.
  - cbn in Hall. apply andb_true_iff in Hall as [Ha Hall]. cbn [app sh_source].
    assert (a ≠ newline_byte) as Hnl by (intros ->; by vm_compute in Ha).
    assert (a ≠ ch "=") as Heq by (intros ->; by vm_compute in Ha).
    rewrite !decide_False, Ha by done. rewrite IH, <-app_assoc; [done|done|]. by rewrite <-app_assoc.
Qed.

(** One line of the file. *)
Lemma source_line name value rest :
  forallb name_char (str_bytes name) = true → name ≠ "" →
  sourced (str_bytes (name +:+ "=" +:+ Quote value +:+ newline) ++ rest) = cons (name, value) <$> sourced rest.
Proof.
  intros Hall Hne. unfold sourced. rewrite !str_bytes_app, <-!app_assoc.
  change (str_bytes "=" ++ ?x) with (ch "=" :: x). rewrite source_name; [|done|by destruct name].
  rewrite source_quote. cbn. by rewrite !bytes_str_bytes.
Qed.

Lemma str_bytes_inj s t : str_bytes s = str_bytes t → s = t.
Proof. intros Heq%(f_equal bytes_str). by rewrite !bytes_str_bytes in Heq. Qed.

Lemma source_configEnv id signaling token :
  sourced (str_bytes (configEnv id signaling token)) =
    Some [("SCRCPYCAT_DEVICE_ID", id); ("SCRCPYCAT_SIGNALING", signaling); ("SCRCPYCAT_ENROLLMENT_TOKEN", token)].
Proof.
  assert (configEnv id signaling token = ("SCRCPYCAT_DEVICE_ID" +:+ "=" +:+ Quote id +:+ newline) +:+
    (("SCRCPYCAT_SIGNALING" +:+ "=" +:+ Quote signaling +:+ newline) +:+
     ("SCRCPYCAT_ENROLLMENT_TOKEN" +:+ "=" +:+ Quote token +:+ newline))) as ->.
  { unfold configEnv, shellQuote. apply str_bytes_inj. by rewrite !str_bytes_app, <-!app_assoc. }
  set (l3 := "SCRCPYCAT_ENROLLMENT_TOKEN" +:+ _). set (l2 := _ +:+ l3).
  rewrite str_bytes_app, source_line by done. unfold l2. rewrite str_bytes_app, source_line by done.
  unfold l3. by rewrite <-(app_nil_r (str_bytes _)), source_line.
Qed.

(** ** The package *)

Section package.
Context `{Crypto} {J : JWT} {N : NetIP} {C : Codec} {G : GrantJSON} {U : URLs} {E : Endpoints}.
Context (stat : string → bool) (opened embedded dist : string → option bytes).
Context (build_version build_revision : string).
Implicit Types s : Api.

Abbreviation serve_ e := (serve stat opened embedded dist build_version build_revision e).
Abbreviation package_ := (deploymentPackage stat opened embedded).

Definition config_members (id signaling token : string) : list (string * entry * bool) :=
  [("config.env", EBytes (str_bytes (configEnv id signaling token)), false);
   ("config.json", EConfig {[ "device_id" := id; "signaling" := signaling; "enrollment_token" := token ]}, false)].

Lemma archive_config mode id signaling token (sv : Server) :
  ∃ rest, fst (archive opened embedded mode id signaling token sv) = config_members id signaling token ++ rest.
Proof.
  unfold archive.
  match goal with |- context [add_files ?a ?b (package_files mode)] => destruct (add_files a b (package_files mode)) as [scripts []] end.
  - cbn [negb]. match goal with |- context [add_files ?a ?b (payloads sv)] => destruct (add_files a b (payloads sv)) as [artifacts ok] end.
    by eexists.
  - by eexists.
Qed.

Lemma package_accepted e r u s status headers entries s' :
  run (package_ e r u) s = (MkResponse status headers (CArchive entries), s') →
  ∃ request id signaling rest, decode_settings (rqBody r) = Some request ∧ id_ok id = true ∧
    (stringField request "device_id" ≠ "" → id = stringField request "device_id") ∧
    signalingEndpoint (if bool_decide (stringField request "signaling" = "") then cfPublicURL (svConfig (apServer s))
                       else stringField request "signaling") = Ok signaling ∧
    entries = config_members id signaling (randomToken (evRand e 1%nat)) ++ rest ∧
    ms_enrollments (store_of s') =
      <[tokenDigest (randomToken (evRand e 1%nat)) := MkEnrollment "" (Add (evNow e) (24 * Hour)) id ""]> (ms_enrollments (store_of s)).
Proof.
  unfold deploymentPackage. intros Hrun. accepted Hrun. rename x into request.
  set (id := if bool_decide (stringField request "device_id" = "") then _ else _) in *.
  set (raw := if bool_decide (stringField request "signaling" = "") then _ else _) in *.
  destruct (signalingEndpoint raw) as [signaling|x] eqn:Es; [|by accepted Hrun]. accepted Hrun.
  destruct (archive_config (stringField request "mode") id signaling (randomToken (evRand e 1%nat)) (apServer s)) as [rest Hrest].
  unfold Persist.CreateEnrollment, Enrollments.CreateEnrollment in Hrun. cbn [fst snd enToken] in Hrun.
  destruct (archive _ _ _ _ _ _ _) as [l complete]. cbn [fst] in Hrest. subst l.
  exists request, id, signaling, rest. split_and!; try done.
  - intros Hne. unfold id. by rewrite bool_decide_eq_false_2.
  - destruct complete; unfold audit_event in Hrun; accepted Hrun; injection Hrun as _ _ <- _; done.
  - destruct complete; unfold audit_event in Hrun; accepted Hrun; injection Hrun as _ _ _ <-.
    + rewrite store_put_postgres. unfold Persist.Audit. rewrite always_inner. by destruct (evDB e 0%nat).
    + by destruct (evDB e 0%nat).
Qed.

Lemma package_routed e : find_route stat opened embedded dist build_version build_revision e "/api/deploy/package" = Some (ForAdmins (package_ e)).
Proof. reflexivity. Qed.

(** Exchanging the token of a package. *)
Lemma exchange_pending buf now token d id until m :
  ms_enrollments m !! tokenDigest token = Some (MkEnrollment "" until id "") → id ≠ "" →
  is_ok (fst (Enrollments.ExchangeEnrollment buf now token d m)) = (now <? until) && bool_decide (d = id).
Proof.
  intros He Hid. unfold Enrollments.ExchangeEnrollment. rewrite He. unfold Before.
  cbn [enExpiresAt enDeviceID]. rewrite (bool_decide_eq_true_2 (id ≠ "")) by done. cbn [andb].
  destruct (now <? until); [|done]. cbn [negb orb andb].
  destruct (decide (d = id)) as [->|Hne].
  - by rewrite bool_decide_eq_false_2, bool_decide_eq_true_2 by tauto.
  - by rewrite (bool_decide_eq_true_2 (id ≠ d)), bool_decide_eq_false_2 by congruence.
Qed.

Lemma id_ok_nonempty id : id_ok id = true → id ≠ "".
Proof. by intros Hok ->. Qed.

(** ** Properties *)

(** C27: The package an administrator downloads configures its device and nothing else.
    The shell that sources its config.env gets exactly the three values of config.json:
    the device id of the request (a drawn one when it names none), the agent's address on
    the requested or the public server, and a token; whatever quotes or other characters
    the values contain, nothing of them is executed.  For a day the token enrolls this
    device and no other, and the credential it is exchanged for is this device's alone. *)
Theorem package_enrolls e r s entries :
  rqMethod r = "POST" → rqPath r = "/api/deploy/package" → rsContent (fst (serve_ e r s)) = CArchive entries →
  ∃ u request id signaling token text rest, current_user e r s = Ok u ∧ is_admin u = true ∧
    decode_settings (rqBody r) = Some request ∧
    (stringField request "device_id" ≠ "" → id = stringField request "device_id") ∧
    signalingEndpoint (if bool_decide (stringField request "signaling" = "") then cfPublicURL (svConfig (apServer s))
                       else stringField request "signaling") = Ok signaling ∧
    entries = ("config.env", EBytes text, false) ::
              ("config.json", EConfig {[ "device_id" := id; "signaling" := signaling; "enrollment_token" := token ]}, false) :: rest ∧
    sourced text = Some [("SCRCPYCAT_DEVICE_ID", id); ("SCRCPYCAT_SIGNALING", signaling); ("SCRCPYCAT_ENROLLMENT_TOKEN", token)] ∧
    let exchange buf now d := Enrollments.ExchangeEnrollment buf now token d (store_of (snd (serve_ e r s))) in
    (∀ buf now d, is_ok (fst (exchange buf now d)) = (now <? evNow e + 24 * Hour) && bool_decide (d = id)) ∧
    (∀ buf now d credential m d', exchange buf now d = (Ok credential, m) →
       Enrollments.ValidateAgentToken (acToken credential) d' m = bool_decide (d' = id)).
Proof.
  intros Hm Hp Hc.
  destruct (serve_administrator stat opened embedded dist build_version build_revision e r s (package_ e))
    as [[v Hv]|(u & Hu & Ha & _ & Hcu & ->)]; [done|by rewrite Hp, package_routed|congruence|].
  rewrite Hcu in Hc. destruct (run (package_ e r u) s) as [[st hd c] s'] eqn:Hrun. cbn [fst snd rsContent] in *. subst c.
  apply package_accepted in Hrun as (request & id & signaling & rest & Hreq & Hid & Hdev & Hsig & -> & He).
  exists u, request, id, signaling. do 3 eexists. split_and!; try done; [apply source_configEnv|..].
  - intros buf now d. apply exchange_pending; [|by apply id_ok_nonempty]. rewrite He. apply lookup_insert_eq.
  - intros buf now d credential m d' Hex.
    pose proof (exchange_pending buf now (randomToken (evRand e 1%nat)) d id (Add (evNow e) (24 * Hour)) (store_of s')) as Hok.
    rewrite He, lookup_insert_eq, Hex in Hok. specialize (Hok eq_refl (id_ok_nonempty _ Hid)). cbn in Hok.
    symmetry in Hok. apply andb_true_iff in Hok as [_ ->%bool_decide_eq_true].
    by apply (proj1 (Enrollments.ExchangeEnrollment_correct buf now _ id _) _ _ Hex).
Qed.
End package.

(** ** Witness *)

Module ApiPackageWitness.
Import ApiWitness.

Definition make : Request :=
  request "POST" "/api/deploy/package" root_token (body [("mode", VStr "adb"); ("device_id", VStr "phone-1")]).
Definition e1 : env := at_ (3 * Second) "k".
Definition entries : list (string * entry * bool) :=
  match rsContent (fst (serve0 e1 make api1)) with CArchive l => l | _ => [] end.

Lemma package_enrolls_witness :
  ∃ token, is_ok (fst (Enrollments.ExchangeEnrollment [] (4 * Second) token "phone-1"
    (store_of (snd (serve (λ _, true) (λ _, None) (λ _, None) (λ _, None) "1.0" "abc" e1 make api1))))) = true.
Proof.
  destruct (package_enrolls (λ _, true) (λ _, None) (λ _, None) (λ _, None) "1.0" "abc" e1 make api1 entries)
    as (u & request & id & signaling & token & text & rest & _ & _ & Hreq & Hid & _ & _ & _ & Hex & _).
  - reflexivity.
  - reflexivity.
  - vm_compute. reflexivity.
  - exists token. rewrite Hex. injection Hreq as <-. rewrite Hid by (vm_compute; discriminate). vm_compute. reflexivity.
Defined.
End ApiPackageWitness.
