(* ===== verification/ApiShares.v ===== *)
(** * Shares over the HTTP interface

    From the token and password of a share to the guest's connection, and what an
    extension does to the end of a share. *)

From S2P Require Import Prelude GoBase GoStrings GoFloat Model Store Config LoginLimiter Hub Auth Grants Server Persist Json Http.
From S2P Require Import RestAccounts RestDevices RestDeploy RestShares RestTasks Artifacts Api ApiAccess ApiAccounts ApiSession.
From S2P Require Users Devices Shares Enrollments Assets Tasks.

Section shares.
Context `{Crypto} {J : JWT} {N : NetIP} {C : Codec} {G : GrantJSON} {U : URLs} {E : Endpoints}.
Context (stat : string → bool) (opened embedded dist : string → option bytes).
Context (build_version build_revision : string).
Implicit Types s : Api.

Abbreviation serve_ e := (serve stat opened embedded dist build_version build_revision e).
Abbreviation find_route_ e := (find_route stat opened embedded dist build_version build_revision e).

(** A public path answers a POST as its handler does. *)
Lemma serve_public e r s h :
  rqMethod r = "POST" → find_route_ e (rqPath r) = Some (Public h) →
  rsStatus (fst (serve_ e r s)) = rsStatus (fst (run (h r) s)) ∧
  rsContent (fst (serve_ e r s)) = rsContent (fst (run (h r) s)) ∧ snd (serve_ e r s) = snd (run (h r) s).
Proof.
  intros Hm Hr. unfold serve, withCORS. rewrite Hm. rewrite bool_decide_eq_false_2 by done.
  unfold dispatch. rewrite Hr. unfold run. destruct (h r s) as [[y|y] s']; by split_and!.
Qed.

Lemma ticket_routed e : find_route_ e "/api/ws-ticket" = Some (Public (websocketTicket e)).
Proof. reflexivity. Qed.
Lemma extend_routed e : find_route_ e "/api/share/extend" = Some (ForUsers (shareExtend e)).
Proof. reflexivity. Qed.

(** Whoever knows the token of a live share, and its password if it has one. *)
Definition may_enter (now : Time) (token password : string) (m : MemoryStore) : option Share :=
  share ← ms_shares m !! token;
  if expired now (shExpiresAt share) then None
  else if Shares.has_password share && negb (bcrypt_compare (shPasswordHash share) password) then None
  else Some share.

Lemma AuthorizeShare_may_enter now token password p :
  fst (Persist.AuthorizeShare now token password p) = match may_enter now token password (pg_inner p) with
    | Some share => Ok share
    | None => Err (match ms_shares (pg_inner p) !! token with
                   | Some share => if expired now (shExpiresAt share) then ErrNotFound else ErrInvalidAuth
                   | None => ErrNotFound
                   end)
    end.
Proof.
  unfold Persist.AuthorizeShare, Shares.AuthorizeShare, may_enter.
  destruct (ms_shares (pg_inner p) !! token) as [share|]; [|done]. cbn.
  destruct (expired now (shExpiresAt share)); [done|]. by destruct (_ && _).
Qed.

Definition member (key : string) (c : content) : option value :=
  match c with CJSON (VMap m) => m !! key | _ => None end.
Lemma member_ticket t x : member "ticket" (ticket_content (t, x)) = Some (VStr t).
Proof. reflexivity. Qed.
Lemma member_expires t x : member "expires_at" (ticket_content (t, x)) = Some (VInt x).
Proof. reflexivity. Qed.

Lemma ticket_content_inj a b : ticket_content a = ticket_content b → a = b.
Proof.
  destruct a as [t x], b as [t' x']. intros Heq.
  pose proof (f_equal (member "ticket") Heq) as Ht. pose proof (f_equal (member "expires_at") Heq) as Hx.
  rewrite !member_ticket in Ht. rewrite !member_expires in Hx. by simplify_eq.
Qed.
Lemma ticket_content_error status message ticket : rsContent (writeError status message) ≠ ticket_content ticket.
Proof.
  destruct ticket as [t x]. intros Heq%(f_equal (member "ticket")). by rewrite member_ticket in Heq.
Qed.
Lemma ticket_expiry now secret kind subject v access ticket x :
  issueBrowserTicket now secret kind subject v access = Some (ticket, x) → x = now + Minute.
Proof. unfold issueBrowserTicket. destruct (jwt_sign _ _); [|done]. by intros [= _ <-]. Qed.

Lemma guest_scope share d op :
  Can (userForShare share) op = false ∧
  (shDeviceID share ≠ "*" → CanAccessDevice (userForShare share) d = bool_decide (d = shDeviceID share)).
Proof.
  split; [unfold Can; cbn; by repeat case_decide|]. intros Hs. unfold CanAccessDevice, canAccessLocked. cbn.
  rewrite (bool_decide_eq_false_2 (_ = "*")) by done. cbn. rewrite orb_false_r. apply bool_decide_ext. split; congruence.
Qed.

Definition share_request (r : Request) (body : vmap) : Prop :=
  rqMethod r = "POST" ∧ rqPath r = "/api/ws-ticket" ∧ rqLength r ≠ 0 ∧
  decodeJSON ticket_fields (rqBody r) = Some body ∧ TrimSpace (stringField body "share_token") ≠ "".

Lemma ticket_outcome e r body s :
  share_request r body →
  let secret := cfJWTSecret (svConfig (apServer s)) in
  fst (run (websocketTicket e r) s) =
    match may_enter (evNow e) (stringField body "share_token") (stringField body "share_password") (store_of s) with
    | Some share =>
        match issueBrowserTicket (evNow e) secret browserAccessShare (shareTicketSubject secret (shToken share)) 0 [] with
        | Some ticket => writeJSON StatusOK (ticket_content ticket)
        | None => writeError StatusInternalServerError "issue websocket ticket"
        end
    | None => writeError StatusUnauthorized "unauthorized"
    end.
Proof.
  intros (Hm & _ & Hl & Hb & Ht). unfold run, websocketTicket. passed. rewrite (proj2 (Z.eqb_neq _ _)) by done. passed.
  rewrite (bool_decide_eq_false_2 (TrimSpace _ = "")) by done. cbn [negb]. passed.
  rewrite AuthorizeShare_may_enter, postgres_inner.
  destruct (may_enter _ _ _ _) as [share|]; passed; [|done].
  by destruct (issueBrowserTicket _ _ _ _ _ _).
Qed.

(** ** Properties *)


Lemma extend_accepted e r u s response s' :
  run (shareExtend e r u) s = (response, s') → rsStatus response = StatusOK →
  ∃ body share, decodeJSON [("token", KStr); ("extend_seconds", KInt)] (rqBody r) = Some body ∧
    0 < intField body "extend_seconds" ∧ ms_shares (store_of s) !! stringField body "token" = Some share ∧
    CanAccessDevice u (shDeviceID share) = true ∧
    (λ share', Ok share') <$> ms_shares (store_of s') !! stringField body "token" =
      Some (share_extend e (intField body "extend_seconds") share).
Proof.
  unfold shareExtend, post_body, own_share. destruct response as [status headers c]. cbn [rsStatus]. intros Hrun ->.
  accepted Hrun. rename x into body. unfold audit_event in Hrun. accepted Hrun. injection Hrun as _ _ <-.
  unfold Shares.ShareByToken in *. destruct (ms_shares (store_of s) !! stringField body "token") as [share|] eqn:Es; [|done].
  exists body, share. bool_to_prop. split_and!; try done.
  rewrite store_put_postgres. unfold Persist.Audit. rewrite always_inner, postgres_inner, store_put_postgres.
  unfold Persist.UpdateShare. rewrite mutating_inner, postgres_inner. unfold Shares.UpdateShare. rewrite Es.
  unfold share_extend. cbn. by rewrite lookup_insert_eq.
Qed.

(** C29: What an extension does to the end of a share.  It needs a session of a user who
    may access the share's device; a share that ends is moved by the requested time from
    its end, or from now if that has passed, as long as the time fits in 63 bits of
    nanoseconds, so it ends later than before and later than now; a share without an end
    gets one, the requested time from now; and a request for 9223372037 seconds or so
    overflows and ends a share that is about to expire at once. *)
Theorem share_extension e r s :
  rqMethod r = "POST" → rqPath r = "/api/share/extend" → rsStatus (fst (serve_ e r s)) = StatusOK →
  ∃ u body share share', current_user e r s = Ok u ∧ CanAccessDevice u (shDeviceID share) = true ∧
    decodeJSON [("token", KStr); ("extend_seconds", KInt)] (rqBody r) = Some body ∧
    let token := stringField body "token" in
    let n := intField body "extend_seconds" in
    0 < n ∧ ms_shares (store_of s) !! token = Some share ∧ ms_shares (store_of (snd (serve_ e r s))) !! token = Some share' ∧
    share' = set_shExpiresAt (λ _, shExpiresAt share') share ∧
    (n ≤ max_int64 / Second →
     match shExpiresAt share with
     | Some t => shExpiresAt share' = Some (Z.max t (evNow e) + n * Second) ∧ t < Z.max t (evNow e) + n * Second
     | None => shExpiresAt share' = Some (evNow e + n * Second)
     end) ∧
    (∀ t, n = 9223372037 → shExpiresAt share = Some t → t ≤ evNow e + Hour → expired (evNow e) (shExpiresAt share') = true).
Proof.
  intros Hm Hp Hok.
  destruct (serve_user stat opened embedded dist build_version build_revision e r s (shareExtend e))
    as [[Hst _]|(u & Hu & Hst & _ & ->)]; [done|by rewrite Hp, extend_routed|by rewrite Hok in Hst|].
  destruct (run (shareExtend e r u) s) as [response s'] eqn:Hrun. cbn [fst snd] in *. rewrite Hok in Hst.
  apply extend_accepted in Hrun as (body & share & Hb & Hn & Hs & Ha & He); [|done].
  destruct (ms_shares (store_of s') !! stringField body "token") as [share'|] eqn:Es'; [|done].
  exists u, body, share, share'. injection He as He. split_and!; try done; rewrite He; cbn [shExpiresAt set_shExpiresAt].
  - by destruct share.
  - intros Hsmall. rewrite seconds_exact by lia. unfold Add, After.
    destruct (shExpiresAt share) as [t|]; [|done]. destruct (Z.ltb_spec (evNow e) t); unfold Second in *; split; try f_equal; lia.
  - intros t -> -> Ht. change (seconds 9223372037) with (-9223372036709551616). unfold expired, Add, After, Hour, Minute, Second in *.
    apply Z.ltb_lt. destruct (Z.ltb_spec (evNow e) t); lia.
Qed.
End shares.

(** ** Witnesses *)

Module ApiSharesWitness.
Import ApiWitness.

Definition create : Request :=
  request "POST" "/api/share/create" root_token
    (body [("device_id", VStr "phone"); ("expire_seconds", VInt 60); ("password", VStr "pw"); ("access_mode", VStr "view")]).
Definition api2 : Api := snd (serve0 (at_ (3 * Second) "s") create api1).
Definition token : string := randomToken (repeat "s"%char 24).

(** A guest without a session: the length of the body is not declared. *)
Definition enter (password : string) : Request :=
  MkRequest "POST" "/api/ws-ticket" ∅ "" "" "10.0.0.3" "" (-1)
    (body [("share_token", VStr token); ("share_password", VStr password)]) (Ok []).
Definition fields (password : string) : vmap := {[ "share_token" := VStr token; "share_password" := VStr password ]}.

Lemma enter_request password : decodeJSON ticket_fields (rqBody (enter password)) = Some (fields password) →
  share_request (enter password) (fields password).
Proof. intros Hd. by split_and!. Defined.
Lemma api2_wf : Shares.shares_wf (store_of api2).
Proof.
  intros t share. assert (map_to_list (ms_shares (store_of api2)) =
    [(token, from_ok (MkShare "" "" "" false "" "" None "" 0 false false false false ∅) (Shares.ShareByToken token (store_of api2)))]) as Hl.
  { vm_compute. reflexivity. }
  rewrite <-elem_of_map_to_list, Hl, list_elem_of_singleton. intros [-> ->]%pair_equal_spec. vm_compute. reflexivity.
Defined.


Definition extend : Request :=
  request "POST" "/api/share/extend" root_token (body [("token", VStr token); ("extend_seconds", VInt 10)]).

Lemma share_extension_witness :
  ∃ share, ms_shares (store_of (snd (serve (λ _, true) (λ _, None) (λ _, None) (λ _, None) "1.0" "abc"
    (at_ (4 * Second) "t") extend api2))) !! token = Some share ∧ shExpiresAt share = Some (73 * Second).
Proof.
  destruct (share_extension (λ _, true) (λ _, None) (λ _, None) (λ _, None) "1.0" "abc" (at_ (4 * Second) "t") extend api2)
    as (u & fs & share & share' & _ & _ & Hb & _ & Hs & Hs' & _ & Hx & _).
  - reflexivity.
  - reflexivity.
  - vm_compute. reflexivity.
  - assert (decodeJSON [("token", KStr); ("extend_seconds", KInt)] (rqBody extend) =
      Some {[ "token" := VStr token; "extend_seconds" := VInt 10 ]}) as Hfs by (vm_compute; reflexivity).
    rewrite Hfs in Hb. injection Hb as <-.
    assert (stringField {[ "token" := VStr token; "extend_seconds" := VInt 10 ]} "token" = token) as Ht by (vm_compute; reflexivity).
    assert (intField {[ "token" := VStr token; "extend_seconds" := VInt 10 ]} "extend_seconds" = 10) as Hn by (vm_compute; reflexivity).
    rewrite Ht in Hs, Hs'. rewrite Hn in Hx.
    exists share'. split; [exact Hs'|].
    assert (shExpiresAt <$> ms_shares (store_of api2) !! token = Some (Some (63 * Second))) as He by (vm_compute; reflexivity).
    rewrite Hs in He. injection He as He. rewrite He in Hx. apply Hx. vm_compute. discriminate.
Defined.
End ApiSharesWitness.
