(* ===== verification/AgentServer.v ===== *)
(** * The agent and the control plane together

    Theorems that cross the connection: what a browser can make a device do, and how an
    agent enrolls.  A message that one side writes is the message the other side handles. *)

From S2P Require Import Prelude GoBase GoStrings GoFloat Model Store Config LoginLimiter Hub Auth Grants Server Routing.
From S2P Require Enrollments Control Terminal DeviceIO DeviceFiles Identity MediaOptions WebRTC Media Agent.

Import Agent.

(** ** What a browser can make a device do *)

(** Effects that need the shell permission, and those that need the file permission. *)
Definition needs_shell (e : agent_effect) : Prop :=
  match e with
  | ACommand _ | ATerminal (Terminal.TStart _ _ _) | ATerminal (Terminal.TWrite _ _) | ATerminal (Terminal.TResize _ _ _) => True
  | _ => False
  end.
Definition needs_files (e : agent_effect) : Prop :=
  match e with AFile (DeviceFiles.FDiscard _) => False | AFile _ => True | _ => False end.

Lemma needs_shell_type type e : effect_type type e → needs_shell e → type ∈ shell_messages.
Proof. unfold shell_messages. destruct e as [| |[]|[]| | |]; cbn; try done; intros -> _; set_solver. Qed.
Lemma needs_files_type type e : effect_type type e → needs_files e → type ∈ Routing.file_messages.
Proof. destruct e as [| |[]|[]| | |]; cbn; try done; by intros ? _. Qed.

Section crossing.
Context `{Crypto} {J : JWT} {G : GrantJSON} {C : Codec}.
Context (overflow : Z) (overflow32 : float64 → Z) (overflow_int : float64 → Z).
Context (bitrates : list string) (numbers : list (string * Z)).
Context (error_text : error → string) (ice : option value → option (list string)).
Context (config : Identity.agentConfig).
Abbreviation handle := (handleMessage overflow overflow32 overflow_int bitrates numbers error_text ice config).

(** The rights a browser used when an agent handled its message. *)
Record within_rights (peer : browserPeer) (a : agent) (h : agent * list agent_effect * outcome) : Prop := {
  wr_shell : ∀ e, e ∈ h.1.2 → needs_shell e → Can (bpUser peer) "shell" = true;
  wr_files : ∀ e, e ∈ h.1.2 → needs_files e → Can (bpUser peer) "file_library" = true;
  wr_tasks : ∀ task, ATask task ∉ h.1.2;
  wr_input : ∀ e, e ∈ waiting h.1.1 → e ∈ waiting a ∨ stringField e "type" = "request_keyframe" ∨
    bpViewOnly peer = false ∧ Control.browserControlAllowed e = true;
  wr_viewers : ∀ v, v ∈ viewers (agMedia h.1.1) → v ∈ viewers (agMedia a) ∨
    WebRTC.vwClient v = bpID peer ∧ (WebRTC.vwControl v = true → bpViewOnly peer = false) ∧
    (WebRTC.vwShell v = true → Can (bpUser peer) "shell" = true);
  wr_identity : agWorld h.1.1 = agWorld a;
  wr_quit : h.2 = Quit → is_admin (bpUser peer) = true;
  wr_refused : h.2 ≠ Unauthenticated;
}.

Lemma allowed_within peer d an m a : allowed peer d m → within_rights peer a (handle an m a).
Proof.
  intros (_ & Hsh & Hf & Hq & Hin & Hs & Hcl & Hfw).
  pose proof (handleMessage_spec overflow overflow32 overflow_int bitrates numbers error_text ice config an m a) as [He Hw Hqu Hre].
  pose proof (handleMessage_kept overflow overflow32 overflow_int bitrates numbers error_text ice config an m a) as Hk.
  destruct (handle an m a) as [[a' c] o]. destruct Hk as [Hworld Hview]. cbn [fst snd] in *.
  set (type := stringField m "message_type") in *. rewrite Forall_forall in He. split; cbn [fst snd].
  - intros e Hin' Hn. eapply Hsh, needs_shell_type; eauto.
  - intros e Hin' Hn. eapply Hf, needs_files_type; eauto.
  - intros task Ht. apply Hs. rewrite (He _ Ht : type = "task_dispatch"). unfold server_messages. set_solver.
  - intros e Hin'. destruct Hw as [E|[(k & E & Hk & _)|(k & E & Hk & Ht)]]; rewrite E in Hin'; [by left|..];
      apply elem_of_app in Hin' as [?| ->%list_elem_of_singleton]; auto. right. right. split; [|done]. apply Hin. set_solver.
  - intros v [?|(Ht & Hc & Hctl & Hshell)]%Hview; [by left|right]. rewrite (Hfw Ht) in Hctl, Hshell.
    rewrite lookup_insert_eq in Hctl. rewrite lookup_insert_ne, lookup_singleton_eq in Hshell by done.
    rewrite Hctl, Hshell, Hc. split_and!.
    + apply Hcl. rewrite Ht. set_solver.
    + cbn. by destruct (bpViewOnly peer).
    + cbn. by destruct (Can _ _).
  - apply Hworld. intros Ht. apply Hs. rewrite Ht. unfold server_messages. set_solver.
  - intros Ho. by apply Hq, Hqu.
  - intros Ho. apply Hs. rewrite (Hre Ho). unfold server_messages. set_solver.
Qed.
End crossing.

(** ** Enrolling

    The hello a server reads from the first message of an agent; [info] stands for what it
    decodes of the device information. *)
Definition hello_of (info : DeviceInfo) (message : gmap string value) : agentHello :=
  MkHello (stringField message "message_type") (stringField message "device_id") (stringField message "enrollment_token")
    (stringField message "agent_token") info.

(** The configuration [register_agent] writes. *)
Definition config_message (token deviceID : string) (s : Server) : gmap string value :=
  {[ "message_type" := VStr "agent_config"; "agent_token" := VStr token;
     "ice_servers" := VList (VMap <$> iceServers s);
     "default_settings" := VMap (Devices.agentSettings deviceID (svStore s)) ]}.

Section outputs.
Context `{Crypto} {J : JWT} {G : GrantJSON} {C : Codec}.

(** What was written stays written. *)
Definition kept_out (h h' : realtimeHub) : Prop := ∀ x, x ∈ hOut h → x ∈ hOut h'.

Lemma write_kept c f h : kept_out h (snd (write c f h)).
Proof. unfold write. case_decide; [by intros x|]. intros x Hx. cbn. apply elem_of_app. by left. Qed.

Lemma broadcast_kept now s : kept_out (svHub s) (svHub (broadcastDeviceList now s)).
Proof.
  intros x Hx. unfold broadcastDeviceList, broadcastMessage, broadcast. cbn. rewrite write_all_out. cbn.
  apply elem_of_app. by left.
Qed.

Lemma register_agent_config now hello tok c s : c ∉ hDown (svHub s) →
  ∃ s', svStore s' = snd (Devices.UpsertAgentDevice now (ahDeviceID hello) (ahDeviceInfo hello) (svStore s)) ∧
    (c, FText (MMsg (config_message tok (ahDeviceID hello) s'))) ∈ hOut (svHub (register_agent now hello tok c s)).
Proof.
  intros Hc. unfold register_agent. set (st := snd (Devices.UpsertAgentDevice _ _ _ (svStore s))).
  cbn [with_store svHub setAgent]. set (s1 := with_hub _ (with_store _ s)).
  set (s2 := match hAgents (svHub s) !! ahDeviceID hello with Some _ => _ | None => s1 end).
  assert (svStore s2 = st ∧ c ∉ hDown (svHub s2)) as [Hst Hd].
  { unfold s2. destruct (hAgents (svHub s) !! ahDeviceID hello) as [o|]; [|done]. case_decide; [done|]. split; [done|]. cbn. set_solver. }
  exists s2. split; [done|]. clearbody s2. apply broadcast_kept.
  set (l := Tasks.PendingTasks _ _ _). clearbody l.
  set (s3 := with_hub _ s2). assert ((c, FText (MMsg (config_message tok (ahDeviceID hello) s2))) ∈ hOut (svHub s3)) as H3.
  { unfold s3, writeJSON, write. cbn. rewrite decide_False by done. cbn. apply elem_of_app. right. by left. }
  clearbody s3. revert s3 H3. induction l as [|t l IH]; intros s3 H3; [done|]. cbn [foldl]. apply IH. cbn. by apply write_kept.
Qed.

(** A hello with a valid token is accepted as it is. *)
Lemma authenticate_valid buf now hello s : ahMessageType hello = "agent_hello" → TrimSpace (ahDeviceID hello) ≠ "" →
  Enrollments.ValidateAgentToken (ahAgentToken hello) (ahDeviceID hello) (svStore s) = true →
  authenticate_hello buf now hello s = (Ok (ahAgentToken hello), s).
Proof.
  intros Ht Hd Hv. unfold authenticate_hello. rewrite Ht, bool_decide_false by auto. rewrite bool_decide_false by done. cbn [orb].
  by rewrite Hv.
Qed.

(** The token of an enrollment is one an agent can keep. *)
Lemma authenticate_enrolls buf now hello s tok s1 : length buf = 24%nat →
  Enrollments.ValidateAgentToken (ahAgentToken hello) (ahDeviceID hello) (svStore s) = false →
  authenticate_hello buf now hello s = (Ok tok, s1) →
  tok ≠ "" ∧ Valid (str_bytes tok) = true ∧ TrimSpace (ahDeviceID hello) ≠ "" ∧
  ms_agentCredentials (svStore s1) !! tokenDigest tok = Some (MkAgentCredential "" (ahDeviceID hello)) ∧
  ms_enrollments (svStore s1) = delete (tokenDigest (ahEnrollmentToken hello)) (ms_enrollments (svStore s)).
Proof.
  intros Hb Hv. unfold authenticate_hello. destruct (bool_decide (ahMessageType hello ≠ _) || _) eqn:E; [done|].
  apply orb_false_iff in E as [_ E]. apply bool_decide_eq_false in E. rewrite Hv.
  destruct (Enrollments.ExchangeEnrollment _ _ _ _ _) as [[c|e] st] eqn:Ex; [|done].
  intros [= <- <-]. apply Enrollments.ExchangeEnrollment_Ok in Ex as (en & _ & _ & _ & _ & -> & ->). cbn.
  split_and!; [| |done| |done].
  - intros E0. pose proof (randomToken_length buf Hb) as HL. by rewrite E0 in HL.
  - unfold randomToken. rewrite str_bytes_str. apply b64url_encode_valid.
  - by rewrite lookup_insert_eq.
Qed.
End outputs.

Lemma Upsert_credentials now id info st :
  ms_agentCredentials (snd (Devices.UpsertAgentDevice now id info st)) = ms_agentCredentials st ∧
  ms_enrollments (snd (Devices.UpsertAgentDevice now id info st)) = ms_enrollments st.
Proof. unfold Devices.UpsertAgentDevice. by repeat case_match. Qed.

Lemma connected_again config info a a' :
  (Identity.loadIdentity (Identity.acIdentityPath config) (agWorld a')).1 =
  (Identity.loadIdentity (Identity.acIdentityPath config) (agWorld a)).1 →
  (connected config info a').2 = (connected config info a).2.
Proof.
  intros E. unfold connected. destruct (Identity.loadIdentity _ (agWorld a')) as [r w], (Identity.loadIdentity _ (agWorld a)) as [r' w'].
  cbn in *. by rewrite E.
Qed.

Lemma connected_token config info a tok : (Identity.loadIdentity (Identity.acIdentityPath config) (agWorld a)).1 = Ok tok →
  (connected config info a).2 = [ASend (hello_message config info tok)].
Proof. intros E. unfold connected. destruct (Identity.loadIdentity _ _) as [r w]. cbn in *. by rewrite E. Qed.

(** ** Leaving

    Nothing that is written to a connection reports a client gone. *)
Section leaving.
Context `{Crypto} {J : JWT} {G : GrantJSON} {C : Codec}.
Context (c : sock).

Record silent (h h' : realtimeHub) : Prop := {
  sl_agents : hAgents h' = hAgents h;
  sl_typed : typed_requests h → typed_requests h';
  sl_out : ∃ new, hOut h' = hOut h ++ new ∧
    ∀ m, (c, FText (MMsg m)) ∈ new → stringField m "message_type" ≠ "client_disconnected";
}.

#[local] Instance silent_refl : Reflexive silent.
Proof. intros h. split; [done|done|]. exists []. split; [by rewrite app_nil_r|]. intros m. by intros ?%elem_of_nil. Qed.
#[local] Instance silent_trans : Transitive silent.
Proof.
  intros h1 h2 h3 [A1 T1 (n1 & O1 & P1)] [A2 T2 (n2 & O2 & P2)]. split; [congruence|auto|].
  exists (n1 ++ n2). rewrite O2, O1, app_assoc. split; [done|]. intros m [?|?]%elem_of_app; auto.
Qed.

Lemma silent_write c' f h : (c' = c → ∀ m, f = FText (MMsg m) → stringField m "message_type" ≠ "client_disconnected") →
  silent h (snd (write c' f h)).
Proof.
  intros Hf. unfold write. case_decide; [reflexivity|]. split; [done|done|]. exists [(c', f)]. split; [done|].
  intros m [= <- <-]%list_elem_of_singleton. by apply Hf.
Qed.

Lemma silent_send d m s : (hAgents (svHub s) !! d = Some c → stringField m "message_type" ≠ "client_disconnected") →
  silent (svHub s) (svHub (send_agent_ d m s)).
Proof.
  intros Hm. unfold send_agent_, send_agent, sendAgent, writeJSON. destruct (hAgents (svHub s) !! d) as [c'|]; [|reflexivity].
  pose proof (silent_write c' (FText (MMsg m)) (svHub s)) as Hw. destruct (write c' _ _) as [ok h]. apply Hw.
  intros -> m' [= <-]. by apply Hm.
Qed.

Lemma sync_message d s : typed_requests (svHub s) →
  ∃ m, syncPreview d s = send_agent_ d m s ∧ stringField m "message_type" ∈ ["start_preview"; "stop_preview"].
Proof.
  intros Ht. unfold syncPreview, selectedPreviewRequest, select_requests. rewrite select_requests_fold.
  destruct (foldl better None _) as [r|] eqn:E; cbn [selected_message]; eexists; (split; [reflexivity|]); [|right; by left].
  unfold cloneMap. rewrite !type_insert by done. apply foldl_better_in in E as [|Hin]; [done|].
  apply elem_of_map_values in Hin as (b & Hb). rewrite (Ht _ _ _ Hb). by left.
Qed.

Lemma silent_sync d s : typed_requests (svHub s) → silent (svHub s) (svHub (syncPreview d s)).
Proof.
  intros Ht. destruct (sync_message d s Ht) as (m & -> & Hm). apply silent_send. intros _ E. rewrite E in Hm. set_solver.
Qed.

Lemma silent_syncs l : ∀ s, typed_requests (svHub s) → silent (svHub s) (svHub (foldl (λ s d, syncPreview d s) s l)).
Proof.
  induction l as [|d l IH]; intros s Ht; [reflexivity|]. cbn [foldl]. pose proof (silent_sync d s Ht) as H1.
  etrans; [exact H1|]. apply IH. by apply H1.
Qed.

Lemma silent_stops l : ∀ s, silent (svHub s) (svHub (foldl (λ s d, send_agent_ d
  {[ "message_type" := VStr "stop_audio"; "device_id" := VStr d ]} s) s l)).
Proof.
  induction l as [|d l IH]; intros s; [reflexivity|]. cbn [foldl]. etrans; [|apply IH]. by apply silent_send.
Qed.

Lemma silent_broadcast now s : silent (svHub s) (svHub (broadcastDeviceList now s)).
Proof.
  unfold broadcastDeviceList, broadcastMessage, broadcast. cbn. rewrite write_all_out. split; [done|done|]. eexists. split; [done|].
  intros m (p & _ & Hd)%list_elem_of_omap. unfold delivery in Hd. destruct (hPeers (svHub s) !! p) as [peer|]; [|done]. cbn in Hd.
  by repeat case_match; simplify_eq.
Qed.

Lemma removeBrowser_typed id h : typed_requests h → typed_requests (snd (removeBrowser id h)).
Proof.
  intros Ht d b r. unfold removeBrowser, subscribers_of. cbn. rewrite map_lookup_imap.
  specialize (Ht d b r). unfold subscribers_of in Ht. destruct (hPreviewRequests h !! d) as [reqs|]; cbn in *; [|done].
  repeat case_match; cbn; try done. intros [_ Hr]%lookup_delete_Some. auto.
Qed.

Lemma departure_silent now p peer s : typed_requests (svHub s) → hPeers (svHub s) !! p = Some peer →
  hAgents (svHub s) !! bpDeviceID peer ≠ Some c →
  silent (svHub s) (svHub (disconnectClient now p s)).
Proof.
  intros Ht Hp Hne. unfold disconnectClient. rewrite Hp. set (s1 := send_agent_ _ _ s).
  assert (silent (svHub s) (svHub s1)) as H1 by (apply silent_send; by intros ?).
  etrans; [exact H1|]. pose proof (sl_typed _ _ H1 Ht) as Ht1. clearbody s1. clear H1.
  unfold removeAudioBrowser. set (l := (filter _ _).*1). set (s2 := with_hub _ s1).
  assert (silent (svHub s1) (svHub s2)) as H2 by by (split; [..|exists []; split; [by rewrite app_nil_r|by intros m ?%elem_of_nil]]).
  etrans; [exact H2|]. pose proof (sl_typed _ _ H2 Ht1) as Ht2. clearbody s2 l. clear H2.
  set (s3 := foldl _ s2 l). assert (silent (svHub s2) (svHub s3)) as H3 by apply silent_stops.
  etrans; [exact H3|]. pose proof (sl_typed _ _ H3 Ht2) as Ht3. clearbody s3. clear H3.
  pose proof (removeBrowser_typed (bpID peer) (svHub s3) Ht3) as Ht4.
  assert (silent (svHub s3) (snd (removeBrowser (bpID peer) (svHub s3)))) as H4.
  { split; [done|done|]. exists []. split; [by rewrite app_nil_r|by intros m ?%elem_of_nil]. }
  destruct (removeBrowser (bpID peer) (svHub s3)) as [previews h4]. cbn [snd] in *. etrans; [exact H4|].
  set (s4 := with_hub _ s3). change h4 with (svHub s4). assert (typed_requests (svHub s4)) as Ht5 by exact Ht4.
  clearbody s4. pose proof (silent_syncs previews s4 Ht5) as H5. set (s5 := foldl _ s4 previews) in *. etrans; [exact H5|].
  clearbody s5. etrans; [|apply silent_broadcast]. split; [done|done|]. exists []. split; [by rewrite app_nil_r|by intros m ?%elem_of_nil].
Qed.
End leaving.

(** ** Properties *)

(** C2: From the browser to the device, nobody exceeds their rights.  Whatever message a
    browser sends, and in whatever state the agent that receives what the server writes is:
    the device is one its user can access; a command runs and a terminal is opened, typed
    into or resized only with the shell permission; files are touched only with the file
    permission; input reaches the device only from a connection that is not view-only, and
    only of the kinds a browser may send; a viewer is admitted under the id of the browser
    with no more control and shell than its session has; only an administrator stops the
    agent; and no browser runs a task, changes the identity of the agent or has it give up. *)
Theorem browser_reaches_device `{Crypto} {J : JWT} {G : GrantJSON} {C : Codec}
    overflow overflow32 overflow_int bitrates numbers error_text ice config buf now p peer m s new c m' an a :
  typed_requests (svHub s) → hPeers (svHub s) !! p = Some peer →
  hOut (svHub (handleBrowserMessage buf now p m s)) = hOut (svHub s) ++ new →
  (c, FText (MMsg m')) ∈ new → ¬ browser_sock (svHub s) c →
  (∃ d, hAgents (svHub s) !! d = Some c ∧ CanAccessDevice (bpUser peer) d = true) ∧
  within_rights peer a (handleMessage overflow overflow32 overflow_int bitrates numbers error_text ice config an m' a).
Proof.
  intros Ht Hp Hout Hin Hc. destruct (browser_message_grows buf now p peer m s Ht Hp) as (_ & _ & _ & new' & Hout' & Hnew).
  rewrite Hout in Hout'. apply app_inv_head in Hout' as <-. rewrite Forall_forall in Hnew.
  destruct (Hnew _ Hin) as [?|(d & m'' & Hd & Hm & Hal)]; [done|]. cbn in Hd, Hm. injection Hm as <-.
  split; [exists d; split; [done|]; by destruct Hal|]. by eapply allowed_within.
Qed.

(** C11: An agent enrolls once.  When a server enrolls it, the enrollment token is used up
    and the configuration that is written to the agent carries its own token; if the agent
    saves it, its next hello carries that token, and any server that still knows it accepts
    the agent under it without another enrollment; if saving fails, whatever failed, the
    next hello carries the token of before; and without a failure it is saved. *)
Theorem agent_enrolls_once `{Crypto} {J : JWT} {G : GrantJSON} {C : Codec}
    overflow overflow32 overflow_int bitrates numbers error_text ice config info dinfo token an a buf now c s :
  let hello := hello_of dinfo (hello_message config info token) in
  length buf = 24%nat → c ∉ hDown (svHub s) →
  Enrollments.ValidateAgentToken token (Identity.acDeviceID config) (svStore s) = false →
  ∀ s1, agent_hello buf now hello c s = (true, s1) →
  ∃ tok m,
    (c, FText (MMsg m)) ∈ hOut (svHub s1) ∧
    ms_enrollments (svStore s1) = delete (tokenDigest (Identity.acEnrollmentToken config)) (ms_enrollments (svStore s)) ∧
    let '(a1, _, o) := handleMessage overflow overflow32 overflow_int bitrates numbers error_text ice config an m a in
    let again := (connected config info (with_agent_world (Identity.at_rest (agWorld a1)) a1)).2 in
    (DeviceIO.wFaults (agWorld a) = [] → o = Done) ∧
    (o = Done → again = [ASend (hello_message config info tok)] ∧
       ∀ buf' now' s2, ms_agentCredentials (svStore s2) !! tokenDigest tok = ms_agentCredentials (svStore s1) !! tokenDigest tok →
         authenticate_hello buf' now' (hello_of dinfo (hello_message config info tok)) s2 = (Ok tok, s2)) ∧
    (o ≠ Done → again = (connected config info (with_agent_world (Identity.at_rest (agWorld a)) a)).2).
Proof.
  intros hello Hb Hd Hv s1. unfold agent_hello.
  destruct (authenticate_hello buf now hello s) as [[tok|e] s0] eqn:Ea; [|done]. intros [= <-].
  destruct (authenticate_enrolls buf now hello s tok s0 Hb Hv Ea) as (Hne & Hval & Hid & Hcred & Hen).
  assert (svHub s0 = svHub s) as Hh.
  { revert Ea. unfold authenticate_hello. repeat case_match; intros [= _ <-]; done. }
  destruct (register_agent_config now hello tok c (release_handshake s0)) as (s' & Hst & Hout); [cbn; by rewrite Hh|].
  exists tok, (config_message tok (ahDeviceID hello) s'). split; [done|].
  destruct (register_agent_effect now hello tok c (release_handshake s0)) as (Hs1 & _ & _). rewrite Hs1.
  destruct (Upsert_credentials now (ahDeviceID hello) (ahDeviceInfo hello) (svStore (release_handshake s0))) as [-> ->].
  split; [exact Hen|]. unfold handleMessage.
  change (stringField (config_message tok (ahDeviceID hello) s') "message_type") with "agent_config".
  rewrite !bool_decide_false by done. rewrite bool_decide_true by done. unfold Agent.agent_config.
  change (stringField (config_message tok (ahDeviceID hello) s') "agent_token") with tok.
  rewrite (bool_decide_false (tok = "")) by done. set (path := Identity.acIdentityPath config).
  pose proof (Identity.saveIdentity_spec path tok (agWorld a)) as Hsave.
  pose proof (Identity.saveIdentity_ok path tok (agWorld a)) as Hok.
  destruct (Identity.saveIdentity path tok (agWorld a)) as [r w]. destruct Hsave as (Hc & _ & _). cbn [fst] in Hok.
  destruct r as [[]|e]; cbv zeta iota; (split; [by intros ?%Hok|]).
  - split; [intros _|done]. destruct Hc as [[_ Hholds]|[? _]]; [|done]. split.
    + apply connected_token. by apply Identity.loadIdentity_holds.
    + intros buf' now' s2 E. apply authenticate_valid; [done|exact Hid|]. unfold Enrollments.ValidateAgentToken.
      cbn [hello_of ahAgentToken ahDeviceID].
      change (stringField (hello_message config info tok) "agent_token") with tok. rewrite E. cbn in Hcred |- *.
      rewrite Hcred. by apply bool_decide_true.
  - split; [done|intros _]. destruct Hc as [[? _]|[_ Hfile]]; [done|]. apply connected_again.
    by apply Identity.loadIdentity_file.
Qed.

(** A terminal on a second device is not released.  A browser that is connected to one
    device and may use the shell opens a terminal on another one, as the server lets it:
    the message reaches that device and its agent starts the terminal.  When the browser
    leaves, only the agent of the device it is connected to is told; what the server writes
    to the other agent reports no client gone, so the terminal stays there. *)
Theorem departure_unannounced `{Crypto} {J : JWT} {G : GrantJSON} {C : Codec}
    overflow overflow32 overflow_int bitrates numbers error_text ice config buf now now' p peer d c sid s an a :
  typed_requests (svHub s) → hPeers (svHub s) !! p = Some peer → hAgents (svHub s) !! d = Some c → c ∉ hDown (svHub s) →
  hAgents (svHub s) !! bpDeviceID peer ≠ Some c → d ≠ "" → CanAccessDevice (bpUser peer) d = true →
  Can (bpUser peer) "shell" = true → sid ≠ "" → anTerminal an = Ok () → Terminal.tmClosed (agTerminals a) = false →
  let m := {[ "message_type" := VStr "pty_open"; "device_id" := VStr d; "session_id" := VStr sid ]} in
  let m' := withClient m (bpID peer) in
  let s1 := handleBrowserMessage buf now p m s in
  let s2 := disconnectClient now' p s1 in
  let a1 := (handleMessage overflow overflow32 overflow_int bitrates numbers error_text ice config an m' a).1.1 in
  hOut (svHub s1) = hOut (svHub s) ++ [(c, FText (MMsg m'))] ∧
  is_Some (Terminal.tmSessions (agTerminals a1) !! Terminal.terminal_key (bpID peer) sid) ∧
  ∃ new, hOut (svHub s2) = hOut (svHub s1) ++ new ∧
    ∀ m2, (c, FText (MMsg m2)) ∈ new → stringField m2 "message_type" ≠ "client_disconnected".
Proof.
  intros Ht Hp Hd Hc Hne Hd0 Ha Hsh Hsid Han Hcl m m' s1 s2 a1.
  assert (s1 = snd (send_agent d m' s)) as Hs1.
  { unfold s1, handleBrowserMessage. rewrite Hp. change (stringField m "message_type") with "pty_open".
    change (stringField m "device_id") with d. rewrite (decide_False (P := d = "")) by done.
    rewrite (bool_decide_false (d = "")) by done. rewrite Ha, Hsh. reflexivity. }
  assert (svHub s1 = set_hOut (λ l, l ++ [(c, FText (MMsg m'))]) (svHub s)) as Hhub.
  { rewrite Hs1. unfold send_agent, sendAgent, writeJSON, write. rewrite Hd, decide_False by done. done. }
  split; [by rewrite Hhub|split].
  - unfold a1, handleMessage. change (stringField m' "message_type") with "pty_open".
    rewrite !bool_decide_false by done. rewrite bool_decide_true by done.
    change (stringField m' "client_id") with (bpID peer). change (stringField m' "session_id") with sid.
    unfold Terminal.Open, Terminal.open. rewrite bool_decide_false by done.
    destruct (Terminal.closeSession_frame (Terminal.terminal_key (bpID peer) sid) None (agTerminals a)) as (_ & Hcl' & _).
    unfold Terminal.Close. destruct (Terminal.closeSession _ _ _) as [t cl]. cbn [fst] in Hcl'. rewrite Han. cbn.
    unfold Terminal.register_terminal. cbn. rewrite Hcl', Hcl. cbn. rewrite lookup_insert_eq. by eexists.
  - assert (silent c (svHub s1) (svHub s2)) as [_ _ Hout]; [|done]. eapply departure_silent; rewrite Hhub; [exact Ht|exact Hp|exact Hne].
Qed.

(** ** Witnesses *)

Module AgentServerWitness.
Import ToyCrypto ToyJWT GrantsWitness.
#[local] Existing Instance RoutingWitness.toy_codec.
Definition root : User := set_uRole (λ _, RoleAdmin) User_zero.
Definition online : Server := register_agent 5 RoutingWitness.hello "tok" 7%nat RoutingWitness.s0.
Definition tablet : agentHello := MkHello "agent_hello" "tablet" "" "tok" DeviceInfo_zero.
Definition s : Server :=
  with_hub (bindBrowser "b1" "phone") (connectClient "b1" 1%nat 11%nat root false (MkAccess "user" "" 0 "")
    (register_agent 6 tablet "tok" 9%nat online)).
Definition peer : browserPeer := default RoutingWitness.peer1 (hPeers (svHub s) !! 1%nat).
Definition pty (d : string) : vmap :=
  {[ "message_type" := VStr "pty_open"; "device_id" := VStr d; "session_id" := VStr "1" ]}.
Definition handle := handleMessage 0 (λ _, 0) (λ _, 0) MediaOptions.bitrate_keys MediaOptions.numeric (λ _, "failed") (λ _, Some [])
  AgentWitness.config AgentWitness.answers.

Lemma server_no_requests : typed_requests (svHub s).
Proof.
  intros d b r. assert (hPreviewRequests (svHub s) = ∅) as -> by (vm_compute; reflexivity).
  unfold subscribers_of. rewrite lookup_empty. cbn. by rewrite lookup_empty.
Defined.

Lemma peer_here : hPeers (svHub s) !! 1%nat = Some peer.
Proof. by vm_compute. Defined.

Lemma only_browser c : browser_sock (svHub s) c → c = 11%nat.
Proof.
  intros (p & q & Hp & <-). assert (hPeers (svHub s) = {[ 1%nat := peer ]}) as E by by vm_compute.
  rewrite E in Hp. by apply lookup_singleton_Some in Hp as [<- <-].
Defined.

Lemma browser_reaches_device_witness :
  (∃ d, hAgents (svHub s) !! d = Some 7%nat ∧ CanAccessDevice (bpUser peer) d = true) ∧
  within_rights peer AgentWitness.start (handle (withClient (pty "phone") "b1") AgentWitness.start).
Proof.
  refine (browser_reaches_device 0 (λ _, 0) (λ _, 0) MediaOptions.bitrate_keys MediaOptions.numeric (λ _, "failed") (λ _, Some [])
    AgentWitness.config [] 9 1%nat peer (pty "phone") s [(7%nat, FText (MMsg (withClient (pty "phone") "b1")))] 7%nat
    (withClient (pty "phone") "b1") AgentWitness.answers AgentWitness.start server_no_requests peer_here _ _ _).
  - by vm_compute.
  - by left.
  - intros E%only_browser. discriminate E.
Defined.

Lemma departure_unannounced_witness :
  is_Some (Terminal.tmSessions (agTerminals (handle (withClient (pty "tablet") (bpID peer)) AgentWitness.start).1.1) !!
    Terminal.terminal_key (bpID peer) "1").
Proof.
  refine (proj1 (proj2 (departure_unannounced 0 (λ _, 0) (λ _, 0) MediaOptions.bitrate_keys MediaOptions.numeric (λ _, "failed")
    (λ _, Some []) AgentWitness.config [] 9 10 1%nat peer "tablet" 9%nat "1" s AgentWitness.answers AgentWitness.start
    server_no_requests peer_here _ _ _ _ _ _ _ _ _))).
  - by vm_compute.
  - apply (bool_decide_unpack (9%nat ∉ hDown (svHub s))). by vm_compute.
  - by vm_compute.
  - discriminate.
  - by vm_compute.
  - by vm_compute.
  - discriminate.
  - reflexivity.
  - reflexivity.
Defined.

(** The agent enrolls with the token of an enrollment. *)
Definition random : bytes := str_bytes "abcdefghijklmnopqrstuvwx".
Definition enrollment := Enrollments.CreateEnrollment (rev random) 0 "" Hour empty_store.
Definition ready : Server := with_store (λ _, snd enrollment) RoutingWitness.s0.
Definition agent_config : Identity.agentConfig :=
  Identity.ResolveDefaults (Identity.MkAgentConfig "" "" "phone" "wss://server" (enToken (fst enrollment)) "" "" "" "" false).
Definition enrolled := agent_hello random Second (hello_of DeviceInfo_zero (hello_message agent_config ∅ "")) 7%nat ready.

Lemma agent_enrolls_once_witness :
  ∃ tok m, (7%nat, FText (MMsg m)) ∈ hOut (svHub (snd enrolled)) ∧
  let a1 := (handleMessage 0 (λ _, 0) (λ _, 0) MediaOptions.bitrate_keys MediaOptions.numeric (λ _, "failed")
    (λ _, Some []) agent_config AgentWitness.answers m AgentWitness.start).1.1 in
  (connected agent_config ∅ (with_agent_world (Identity.at_rest (agWorld a1)) a1)).2 = [ASend (hello_message agent_config ∅ tok)].
Proof.
  destruct (agent_enrolls_once 0 (λ _, 0) (λ _, 0) MediaOptions.bitrate_keys MediaOptions.numeric (λ _, "failed") (λ _, Some [])
    agent_config ∅ DeviceInfo_zero "" AgentWitness.answers AgentWitness.start random Second 7%nat ready) with (s1 := snd enrolled)
    as (tok & m & Hin & _ & Hh).
  - by vm_compute.
  - apply (bool_decide_unpack (7%nat ∉ hDown (svHub ready))). by vm_compute.
  - by vm_compute.
  - by vm_compute.
  - exists tok, m. split; [exact Hin|]. destruct (handleMessage _ _ _ _ _ _ _ _ _ _ _) as [[a1 e] o].
    destruct Hh as (H1 & H2 & _). exact (proj1 (H2 (H1 eq_refl))).
Defined.
End AgentServerWitness.
