(* ===== verification/DeviceInfo.v ===== *)
(** * The description of a device (agent/internal/agent/device_info.go, agent.go)

    An agent asks the scrcpy server for the displays and cameras of its device and reads
    them from the listing it prints, with regular expressions; with the properties of the
    device they are the description it sends when it connects. *)

From S2P Require Import Prelude GoBase GoStrings GoFloat Model AgentTasks.
From S2P Require DeviceIO.

(** ** Regular expressions

    The expressions of the program are sequences of a text, one of several texts, and the
    longest run of a class of bytes, some of them captured.  Each part is tried with the
    lengths it prefers first, as the leftmost-first matching of package regexp does.  A
    class that excludes ASCII characters holds of every byte of other characters. *)
Inductive item :=
| Text (s : string)
| OneOf (ss : list string)
| Run (least : nat) (p : byte → bool).

Record part := MkPart { ptCapture : bool; ptItem : item }.
Definition is_text (s : string) (l : bytes) : bool := bool_decide (take (String.length s) l = str_bytes s).

Fixpoint span (p : byte → bool) (l : bytes) : nat :=
  match l with a :: l => if p a then S (span p l) else O | [] => O end.

(** The lengths a part can take, the preferred one first. *)
Definition choices (it : item) (l : bytes) : list nat :=
  match it with
  | Text s => if is_text s l then [String.length s] else []
  | OneOf ss => map String.length (List.filter (λ s, is_text s l) ss)
  | Run least p => rev (seq least (S (span p l) - least))
  end.

Fixpoint first_some {A} (l : list (option A)) : option A :=
  match l with Some x :: _ => Some x | None :: l => first_some l | [] => None end.

(** The captured texts and what is left. *)
Fixpoint match_parts (ps : list part) (l : bytes) : option (list bytes * bytes) :=
  match ps with
  | [] => Some ([], l)
  | p :: ps =>
      first_some (map (λ n, match match_parts ps (drop n l) with
                            | Some (caps, rest) => Some (if ptCapture p then take n l :: caps else caps, rest)
                            | None => None
                            end) (choices (ptItem p) l))
  end.

(** All matches, from the left and apart from each other; [skip]: the bytes of a match
    that are left. *)
Fixpoint find_all (ps : list part) (skip : nat) (l : bytes) : list (list bytes) :=
  match l with
  | [] => []
  | _ :: l' =>
      match skip with
      | S skip => find_all ps skip l'
      | O => match match_parts ps l with
             | Some (caps, rest) => caps :: find_all ps (length l' - length rest) l'
             | None => find_all ps O l'
             end
      end
  end.
Definition FindAllStringSubmatch (ps : list part) (l : bytes) : list (list bytes) := find_all ps O l.
Definition FindStringSubmatch (ps : list part) (l : bytes) : option (list bytes) := head (find_all ps O l).

Definition digit_class (a : byte) : bool := in_range a 48 57.
Definition space_class (a : byte) : bool := bool_decide (byte_val a ∈ [9; 10; 12; 13; 32]).
Definition number_class (a : byte) : bool := digit_class a || is_byte a 46.
Definition line_class (a : byte) : bool := negb (is_byte a 10).

Definition text (s : string) : part := MkPart false (Text s).
Definition digits : part := MkPart true (Run 1 digit_class).

Definition displayDescription : list part :=
  [text "--display-id="; digits; MkPart false (Run 1 space_class); text "("; digits; text "x"; digits; text ")"].
Definition cameraDescription : list part :=
  [text "--camera-id="; MkPart true (Run 1 (λ a, negb (space_class a))); MkPart false (Run 1 space_class); text "(";
   MkPart true (OneOf ["front"; "back"; "external"]); text ","; MkPart false (Run 0 space_class);
   digits; text "x"; digits; MkPart true (Run 0 line_class)].
Definition zoomDescription : list part :=
  [text "zoom-range=["; MkPart true (Run 1 number_class); text ","; MkPart false (Run 0 space_class);
   MkPart true (Run 1 number_class); text "]"].

(** ** The listing *)

(** The value of [strconv.Atoi] when its error is ignored: the nearest integer for a number
    out of range, 0 for another text. *)
Definition Atoi (s : string) : Z :=
  match ParseInt s with
  | Some n => n
  | None =>
      let '(negative, l) := match str_bytes s with
                            | "-"%char :: l => (true, l)
                            | "+"%char :: l => (false, l)
                            | l => (false, l)
                            end in
      if bool_decide (l = []) then 0
      else match parse_digits 0 l with Some _ => if negative then - 2 ^ 63 else max_int64 | None => 0 end
  end.

(** That of [strconv.ParseFloat] for a text of digits and points. *)
Definition zoom_value (s : string) : float64 :=
  match ParseFloat (λ _, Some (S754_zero false)) s with Some f => f | None => S754_infinity false end.

Definition display_value (id width height : Z) : gmap string value :=
  {[ "id" := VInt id; "x_res" := VInt width; "y_res" := VInt height ]}.
Definition camera_value (id facing : string) (width height : Z) (zoom : option (float64 * float64)) : gmap string value :=
  let camera := {[ "id" := VStr id; "facing" := VStr facing; "x_res" := VInt width; "y_res" := VInt height ]} in
  match zoom with
  | Some (low, high) => <["zoom_max" := VNum high]> (<["zoom_min" := VNum low]> camera)
  | None => camera
  end.

Definition submatch (n : nat) (caps : list bytes) : string := bytes_str (nth n caps []).

Definition display_of (caps : list bytes) : gmap string value :=
  display_value (Atoi (submatch 0 caps)) (Atoi (submatch 1 caps)) (Atoi (submatch 2 caps)).
Definition camera_of (caps : list bytes) : gmap string value :=
  camera_value (submatch 0 caps) (submatch 1 caps) (Atoi (submatch 2 caps)) (Atoi (submatch 3 caps))
    (match FindStringSubmatch zoomDescription (nth 4 caps []) with
     | Some zoom => Some (zoom_value (submatch 0 zoom), zoom_value (submatch 1 zoom))
     | None => None
     end).

Definition parseMediaInfo (raw : bytes) : list (gmap string value) * list (gmap string value) :=
  (map display_of (FindAllStringSubmatch displayDescription raw), map camera_of (FindAllStringSubmatch cameraDescription raw)).

Definition probe_limit : Z := Z.shiftl 1 20.

(** [written]: what the probe wrote; its error is only reported. *)
Definition mediaInfo (written : list bytes) : list (gmap string value) * list (gmap string value) :=
  parseMediaInfo (boBuffer (bo_writes written (MkOutput [] probe_limit))).

Definition capabilities (sdk : Z) : list (string * bool) :=
  [("webrtc", true); ("ws_preview", true); ("ws_audio", true); ("file_manager", true); ("shell", true); ("pty", true);
   ("tasks", true); ("metrics", true); ("snapshots", true); ("camera_capture", 31 <=? sdk); ("audio_capture", 30 <=? sdk);
   ("camera_injection", false); ("gps_injection", false); ("sensor_injection", false)].

(** [properties]: what [property] answers. *)
Definition deviceInfo (written : list bytes) (properties : string → string) : gmap string value :=
  let '(displays, cameras) := mediaInfo written in
  let sdkText := properties "ro.build.version.sdk" in
  let sdk := Atoi sdkText in
  {[ "model" := VStr (properties "ro.product.model");
     "displays" := VList (map VMap displays);
     "cameras" := VList (map VMap cameras);
     "abi" := VStr (properties "ro.product.cpu.abi");
     "sdk" := VStr sdkText;
     "android_version" := VStr (properties "ro.build.version.release");
     "agent_version" := VStr "0.1.0-dev";
     "capabilities" := VMap (list_to_map (map (λ kv : string * bool, (kv.1, VBool kv.2)) (capabilities sdk))) ]}.

Example listing_of_the_test :
  parseMediaInfo (str_bytes "    --display-id=0    (1440x3200)" ++ [byte_of 10] ++
                  str_bytes "    --camera-id=2    (back, 3280x2464, fps={15, 30}, zoom-range=[0.6, 10])" ++ [byte_of 10]) =
  ([display_value 0 1440 3200], [camera_value "2" "back" 3280 2464 (Some (zoom_value "0.6", float_of_Z 10))]).
Proof. by vm_compute. Qed.

(** ** Reference: the listing of the scrcpy server *)

(** Text without two dashes in a row, and not ending with a dash: no option starts in it. *)
Fixpoint quiet (l : bytes) : bool :=
  match l with
  | [] => true
  | a :: l => (if is_byte a 45 then match l with b :: _ => negb (is_byte b 45) | [] => false end else true) && quiet l
  end.

Inductive row :=
| Plain (line : bytes)
| DisplayRow (before : bytes) (id : Z) (gap : bytes) (width height : Z) (after : bytes)
| CameraRow (before id gap : bytes) (facing : string) (gap2 : bytes) (width height : Z) (details : bytes)
    (zoom : option (bytes * bytes * bytes * bytes)).

Definition size_text (width height : Z) : bytes := str_bytes (FormatUint width) ++ str_bytes "x" ++ str_bytes (FormatUint height).
Definition zoom_text (zoom : option (bytes * bytes * bytes * bytes)) : bytes :=
  match zoom with
  | Some (low, gap, high, tail) => str_bytes "zoom-range=[" ++ low ++ str_bytes "," ++ gap ++ high ++ str_bytes "]" ++ tail
  | None => []
  end.
Definition row_text (r : row) : bytes :=
  match r with
  | Plain line => line
  | DisplayRow before id gap width height after =>
      before ++ str_bytes "--display-id=" ++ str_bytes (FormatUint id) ++ gap ++ str_bytes "(" ++ size_text width height ++ str_bytes ")" ++ after
  | CameraRow before id gap facing gap2 width height details zoom =>
      before ++ str_bytes "--camera-id=" ++ id ++ gap ++ str_bytes "(" ++ str_bytes facing ++ str_bytes "," ++ gap2 ++
      size_text width height ++ details ++ zoom_text zoom
  end ++ [byte_of 10].

Definition blank (l : bytes) : Prop := Forall (λ a, space_class a = true) l.
Definition numeral (l : bytes) : Prop := l ≠ [] ∧ Forall (λ a, number_class a = true) l.
Definition fits (n : Z) : Prop := 0 ≤ n ≤ max_int64.

(** What may stand in the rows. *)
Definition row_wf (r : row) : Prop :=
  match r with
  | Plain line => quiet line = true
  | DisplayRow before id gap width height after =>
      quiet before = true ∧ quiet after = true ∧ fits id ∧ fits width ∧ fits height ∧ gap ≠ [] ∧ blank gap
  | CameraRow before id gap facing gap2 width height details zoom =>
      quiet before = true ∧ quiet id = true ∧ id ≠ [] ∧ Forall (λ a, space_class a = false) id ∧
      gap ≠ [] ∧ blank gap ∧ facing ∈ ["front"; "back"; "external"] ∧ blank gap2 ∧ fits width ∧ fits height ∧
      quiet details = true ∧ Forall (λ a, line_class a = true) details ∧ byte_of 122 ∉ details ∧
      match details with a :: _ => digit_class a = false | [] => True end ∧
      match zoom with
      | Some (low, gap, high, tail) =>
          numeral low ∧ blank gap ∧ byte_of 10 ∉ gap ∧ numeral high ∧ quiet tail = true ∧ Forall (λ a, line_class a = true) tail
      | None => True
      end
  end.

Definition row_display (r : row) : option (gmap string value) :=
  match r with DisplayRow _ id _ width height _ => Some (display_value id width height) | _ => None end.
Definition row_camera (r : row) : option (gmap string value) :=
  match r with
  | CameraRow _ id _ facing _ width height _ zoom =>
      Some (camera_value (bytes_str id) facing width height
        (match zoom with Some (low, _, high, _) => Some (zoom_value (bytes_str low), zoom_value (bytes_str high)) | None => None end))
  | _ => None
  end.

(** What any description has, whatever was listed. *)
Definition display_ok (d : gmap string value) : Prop :=
  ∃ id width height, d = display_value id width height ∧ fits id ∧ fits width ∧ fits height.
Definition camera_ok (c : gmap string value) : Prop :=
  ∃ id facing width height zoom, c = camera_value id facing width height zoom ∧
    id ≠ "" ∧ Forall (λ a, space_class a = false) (str_bytes id) ∧ facing ∈ ["front"; "back"; "external"] ∧ fits width ∧ fits height.

(** ** Lemmas *)

(** *** Matching *)

Lemma is_text_app s l : is_text s (str_bytes s ++ l) = true.
Proof. apply bool_decide_eq_true_2. by rewrite take_app_length' by (by rewrite length_str_bytes). Qed.

Lemma span_app p s l : Forall (λ a, p a = true) s → match l with a :: _ => p a = false | [] => True end →
  span p (s ++ l) = length s.
Proof.
  intros Hs Hl. induction Hs as [|a s Ha _ IH]; cbn.
  - destruct l as [|a l]; [done|]. cbn. by rewrite Hl.
  - by rewrite Ha, IH.
Qed.
Lemma span_le p l : (span p l ≤ length l)%nat.
Proof. induction l as [|a l IH]; cbn; [done|]. destruct (p a); lia. Qed.

Lemma match_text s ps l caps rest : match_parts ps l = Some (caps, rest) →
  match_parts (text s :: ps) (str_bytes s ++ l) = Some (caps, rest).
Proof.
  intros H. cbn [match_parts ptItem ptCapture text choices]. rewrite is_text_app. cbn [map first_some].
  rewrite drop_app_length' by (by rewrite length_str_bytes). by rewrite H.
Qed.

(** The longest run, when the next part matches after it. *)
Lemma match_run capture least p s ps l caps rest : (least ≤ length s)%nat → Forall (λ a, p a = true) s →
  match l with a :: _ => p a = false | [] => True end → match_parts ps l = Some (caps, rest) →
  match_parts (MkPart capture (Run least p) :: ps) (s ++ l) = Some (if capture then s :: caps else caps, rest).
Proof.
  intros Hn Hs Hl H. cbn [match_parts ptItem ptCapture choices]. rewrite span_app by done.
  replace (S (length s) - least)%nat with (S (length s - least)) by lia. rewrite seq_S, rev_app_distr. cbn [rev app map first_some].
  replace (least + (length s - least))%nat with (length s) by lia. by rewrite drop_app_length, take_app_length, H.
Qed.

Lemma match_facing facing ps l caps rest : facing ∈ ["front"; "back"; "external"] → match_parts ps l = Some (caps, rest) →
  match_parts (MkPart true (OneOf ["front"; "back"; "external"]) :: ps) (str_bytes facing ++ l) = Some (str_bytes facing :: caps, rest).
Proof.
  intros Hf H. assert (choices (OneOf ["front"; "back"; "external"]) (str_bytes facing ++ l) = [String.length facing]) as Hc.
  { apply elem_of_cons in Hf as [->|Hf]; [done|]. apply elem_of_cons in Hf as [->|Hf]; [done|]. by apply list_elem_of_singleton in Hf as ->. }
  cbn [match_parts ptItem ptCapture]. rewrite Hc. cbn [map first_some].
  by rewrite <-length_str_bytes, drop_app_length, take_app_length, H.
Qed.

Lemma first_some_spec {A B} (f : A → option B) l x : first_some (map f l) = Some x → ∃ a, a ∈ l ∧ f a = Some x.
Proof.
  induction l as [|a l IH]; cbn; [done|]. destruct (f a) eqn:Ha; [intros [= <-]; exists a; split; [by left|done]|].
  intros (b & Hb & Hx)%IH. exists b. split; [by right|done].
Qed.

(** What a part captures. *)
Definition captured (it : item) (s : bytes) : Prop :=
  match it with
  | Text t => s = str_bytes t
  | OneOf ts => bytes_str s ∈ ts
  | Run least p => (least ≤ length s)%nat ∧ Forall (λ a, p a = true) s
  end.

Lemma take_span p n l : (n ≤ span p l)%nat → length (take n l) = n ∧ Forall (λ a, p a = true) (take n l).
Proof.
  revert n. induction l as [|a l IH]; intros [|n]; cbn; try (intros; split; [done|constructor]); [lia|].
  destruct (p a) eqn:Ha; [|lia]. intros Hn. destruct (IH n) as [H1 H2]; [lia|]. split; [by f_equal|by constructor].
Qed.

Lemma choice_captured it l n : n ∈ choices it l → captured it (take n l).
Proof.
  destruct it as [s|ss|least p]; cbn [choices captured].
  - destruct (is_text s l) eqn:Hs; [|set_solver]. intros ->%list_elem_of_singleton. by apply bool_decide_eq_true in Hs.
  - intros Hn. apply list_elem_of_In, in_map_iff in Hn as (s & <- & Hs%filter_In). destruct Hs as [Hin Hs%bool_decide_eq_true].
    rewrite Hs, bytes_str_bytes. by apply list_elem_of_In.
  - intros Hn%list_elem_of_In%in_rev%in_seq. destruct (take_span p n l) as [-> ?]; [lia|]. split; [lia|done].
Qed.

Lemma match_captures ps : ∀ l caps rest, match_parts ps l = Some (caps, rest) →
  Forall2 (λ p s, captured (ptItem p) s) (List.filter ptCapture ps) caps.
Proof.
  induction ps as [|p ps IH]; intros l caps rest; cbn [match_parts List.filter]; [intros [= <- _]; constructor|].
  intros (n & Hn & H)%first_some_spec. destruct (match_parts ps (drop n l)) as [[caps' rest']|] eqn:Hm; [|done].
  injection H as <- _. apply IH in Hm. destruct (ptCapture p); [|done]. constructor; [by apply choice_captured|done].
Qed.

Lemma find_all_captures ps l : ∀ skip, Forall (λ caps, Forall2 (λ p s, captured (ptItem p) s) (List.filter ptCapture ps) caps) (find_all ps skip l).
Proof.
  induction l as [|a l IH]; intros skip; cbn [find_all]; [constructor|]. destruct skip as [|skip]; [|done].
  destruct (match_parts ps (a :: l)) as [[caps rest]|] eqn:Hm; [|done]. constructor; [by eapply match_captures|done].
Qed.

(** *** Scanning *)

Lemma is_text_lookup s l k : is_text s l = true → (k < String.length s)%nat → l !! k = str_bytes s !! k.
Proof. intros Hs%bool_decide_eq_true Hk. by rewrite <-Hs, lookup_take_lt. Qed.
Lemma match_text_none s ps l : is_text s l = false → match_parts (text s :: ps) l = None.
Proof. intros H. cbn [match_parts ptItem text choices]. by rewrite H. Qed.

Lemma find_skip ps s l : find_all ps (length s) (s ++ l) = find_all ps 0 l.
Proof. induction s as [|a s IH]; cbn; [done|]. exact IH. Qed.
Lemma match_suffix ps : ∀ l caps rest, match_parts ps l = Some (caps, rest) → ∃ s, l = s ++ rest.
Proof.
  induction ps as [|p ps IH]; intros l caps rest; cbn [match_parts]; [intros [= _ <-]; by exists []|].
  intros (n & _ & H)%first_some_spec. destruct (match_parts ps (drop n l)) as [[caps' rest']|] eqn:Hm; [|done].
  injection H as _ <-. apply IH in Hm as [s Hs]. exists (take n l ++ s). by rewrite <-app_assoc, <-Hs, take_drop.
Qed.
Lemma find_found a name ps l caps rest (option := text (String a name) :: ps) :
  match_parts option l = Some (caps, rest) → find_all option 0 l = caps :: find_all option 0 rest.
Proof.
  intros H. pose proof H as H'. unfold option in H'. cbn [match_parts ptItem ptCapture text choices] in H'.
  destruct (is_text (String a name) l) eqn:Ht; [|done]. cbn [map first_some] in H'.
  pose proof (is_text_lookup _ _ 0 Ht ltac:(cbn; lia)) as H0. destruct l as [|b l]; [done|]. cbn [String.length] in H'.
  change (drop (S (String.length name)) (b :: l)) with (drop (String.length name) l) in H'.
  destruct (match_parts ps (drop (String.length name) l)) as [[caps' rest']|] eqn:Hm; [|done].
  injection H' as _ ->. apply match_suffix in Hm as [s Hs].
  assert (l = (take (String.length name) l ++ s) ++ rest) as Hl by (by rewrite <-app_assoc, <-Hs, take_drop).
  cbn [find_all]. rewrite H. f_equal. set (skipped := take (String.length name) l ++ s) in *. rewrite Hl.
  replace (length (skipped ++ rest) - length rest)%nat with (length skipped) by (rewrite length_app; lia). apply find_skip.
Qed.
Lemma find_none ps a l : match_parts ps (a :: l) = None → find_all ps 0 (a :: l) = find_all ps 0 l.
Proof. intros H. cbn [find_all]. by rewrite H. Qed.

Lemma quiet_app l l' : quiet l = true → quiet l' = true → quiet (l ++ l') = true.
Proof.
  intros H H'. induction l as [|a l IH]; [done|]. cbn [quiet app] in *. apply andb_true_iff in H as [Ha Hl].
  rewrite IH by done. rewrite andb_true_r. destruct (is_byte a 45); [|done]. by destruct l.
Qed.
Lemma quiet_plain l : Forall (λ a, is_byte a 45 = false) l → quiet l = true.
Proof. induction 1 as [|a l Ha _ IH]; cbn [quiet]; [done|]. by rewrite Ha, IH. Qed.
Lemma quiet_class (p : byte → bool) l : (∀ a, p a = true → is_byte a 45 = false) → Forall (λ a, p a = true) l → quiet l = true.
Proof. intros Hp Hl. apply quiet_plain. eapply Forall_impl; [exact Hl|]. exact Hp. Qed.
Lemma quiet_digits n : quiet (str_bytes (FormatUint n)) = true.
Proof.
  apply (quiet_class digit_class); [|apply FormatUint_digits]. unfold digit_class, is_byte. intros a. rewrite in_range_iff. lia.
Qed.
Lemma quiet_blank l : blank l → quiet l = true.
Proof. apply (quiet_class space_class). intros a. by destruct a as [[] [] [] [] [] [] [] []]. Qed.
Lemma quiet_numeral l : numeral l → quiet l = true.
Proof. intros [_ Hl]. revert Hl. apply (quiet_class number_class). intros a. by destruct a as [[] [] [] [] [] [] [] []]. Qed.
Lemma quiet_size width height : quiet (size_text width height) = true.
Proof. unfold size_text. repeat apply quiet_app; (done || apply quiet_digits). Qed.

(** An expression that starts with an option does not match in quiet text. *)
Lemma find_quiet name ps q l (option := text (String "-" (String "-" name)) :: ps) :
  quiet q = true → find_all option 0 (q ++ l) = find_all option 0 l.
Proof.
  intros Hq. induction q as [|a q IH]; [done|]. cbn [quiet] in Hq. apply andb_true_iff in Hq as [Ha Hq].
  cbn [app]. rewrite find_none; [by apply IH|]. apply match_text_none, not_true_is_false. intros Ht.
  pose proof (is_text_lookup _ _ 0 Ht ltac:(cbn; lia)) as H0. cbn in H0. injection H0 as ->. change (is_byte "-" 45) with true in Ha. cbn match in Ha.
  destruct q as [|b q]; [done|]. pose proof (is_text_lookup _ _ 1 Ht ltac:(cbn; lia)) as H1. cbn in H1. by injection H1 as ->.
Qed.

(** Nor at another option. *)
Lemma find_other c name ps a q l (option := text (String "-" (String "-" (String c name))) :: ps) :
  a ≠ c → a ≠ "-"%char → quiet (a :: q) = true → find_all option 0 ("-"%char :: "-"%char :: a :: q ++ l) = find_all option 0 l.
Proof.
  intros Hc Ha Hq. rewrite find_none; [rewrite find_none; [by apply (find_quiet (String c name) ps (a :: q))|]|];
    apply match_text_none, not_true_is_false; intros Ht.
  - pose proof (is_text_lookup _ _ 1 Ht ltac:(cbn; lia)) as H1. cbn in H1. congruence.
  - pose proof (is_text_lookup _ _ 2 Ht ltac:(cbn; lia)) as H1. cbn in H1. congruence.
Qed.

(** *** Rows *)

Lemma Atoi_FormatUint n : fits n → Atoi (FormatUint n) = n.
Proof. intros H. unfold Atoi. by rewrite ParseInt_FormatUint. Qed.

Lemma digits_some n : (1 ≤ length (str_bytes (FormatUint n)))%nat.
Proof. pose proof (FormatUint_ne n). destruct (FormatUint n); [done|cbn; lia]. Qed.

Lemma match_display id gap width height l : gap ≠ [] → blank gap →
  match_parts displayDescription
    (str_bytes "--display-id=" ++ str_bytes (FormatUint id) ++ gap ++ str_bytes "(" ++ str_bytes (FormatUint width) ++
     str_bytes "x" ++ str_bytes (FormatUint height) ++ str_bytes ")" ++ l) =
  Some ([str_bytes (FormatUint id); str_bytes (FormatUint width); str_bytes (FormatUint height)], l).
Proof.
  intros Hg Hb. unfold displayDescription, digits. apply match_text.
  assert (1 ≤ length gap)%nat as Hl by (destruct gap; [done|cbn; lia]).
  apply (match_run true 1 digit_class); [apply digits_some|apply FormatUint_digits| |].
  { destruct gap as [|a gap]; [done|]. apply Forall_cons in Hb as [Ha _]. cbn. by destruct a as [[] [] [] [] [] [] [] []]. }
  apply (match_run false 1 space_class); [done|done|done|]. apply match_text.
  apply (match_run true 1 digit_class); [apply digits_some|apply FormatUint_digits|done|]. apply match_text.
  apply (match_run true 1 digit_class); [apply digits_some|apply FormatUint_digits|done|]. by apply match_text.
Qed.

Lemma nonempty_length (l : bytes) : l ≠ [] → (1 ≤ length l)%nat.
Proof. destruct l; [done|cbn; lia]. Qed.

(** A run stops at what follows, when that is of another class. *)
Lemma run_stops (p q : byte → bool) s l : s ≠ [] → Forall (λ a, q a = true) s → (∀ a, q a = true → p a = false) →
  match s ++ l with a :: _ => p a = false | [] => True end.
Proof. destruct s as [|a s]; [done|]. intros _ [Ha _]%Forall_cons Hp. by apply Hp. Qed.

Lemma FormatUint_bytes_ne n : str_bytes (FormatUint n) ≠ [].
Proof. pose proof (FormatUint_ne n). by destruct (FormatUint n). Qed.
Lemma digit_no_space a : digit_class a = true → space_class a = false.
Proof. by destruct a as [[] [] [] [] [] [] [] []]. Qed.

Lemma match_camera id gap facing gap2 width height tail l : id ≠ [] → Forall (λ a, space_class a = false) id → gap ≠ [] → blank gap →
  facing ∈ ["front"; "back"; "external"] → blank gap2 → match tail with a :: _ => digit_class a = false | [] => True end →
  Forall (λ a, line_class a = true) tail →
  match_parts cameraDescription
    (str_bytes "--camera-id=" ++ id ++ gap ++ str_bytes "(" ++ str_bytes facing ++ str_bytes "," ++ gap2 ++ str_bytes (FormatUint width) ++
     str_bytes "x" ++ str_bytes (FormatUint height) ++ tail ++ byte_of 10 :: l) =
  Some ([id; str_bytes facing; str_bytes (FormatUint width); str_bytes (FormatUint height); tail], byte_of 10 :: l).
Proof.
  intros Hid Hs Hg Hb Hf Hb2 Ht Hl. unfold cameraDescription, digits. apply match_text.
  apply (match_run true 1 (λ a, negb (space_class a))); [by apply nonempty_length| | |].
  { eapply Forall_impl; [exact Hs|]. intros a Ha. cbn in Ha. by rewrite Ha. }
  { apply (run_stops _ space_class); [done|done|]. intros a ->. done. }
  apply (match_run false 1 space_class); [by apply nonempty_length|done|done|]. apply match_text.
  apply match_facing; [done|]. apply match_text.
  apply (match_run false 0 space_class); [lia|done|apply (run_stops _ digit_class); [apply FormatUint_bytes_ne|apply FormatUint_digits|apply digit_no_space]|].
  apply (match_run true 1 digit_class); [apply digits_some|apply FormatUint_digits|done|]. apply match_text.
  apply (match_run true 1 digit_class); [apply digits_some|apply FormatUint_digits|by destruct tail|].
  by apply (match_run true 0 line_class); [lia|done|done|].
Qed.

Lemma match_zoom low gap high l : numeral low → blank gap → numeral high →
  match_parts zoomDescription (str_bytes "zoom-range=[" ++ low ++ str_bytes "," ++ gap ++ high ++ str_bytes "]" ++ l) =
  Some ([low; high], l).
Proof.
  intros [H1 H2] Hb [H3 H4]. unfold zoomDescription. apply match_text.
  apply (match_run true 1 number_class); [by apply nonempty_length|done|done|]. apply match_text.
  apply (match_run false 0 space_class); [lia|done|apply (run_stops _ number_class); [done|done|]|].
  { intros a. by destruct a as [[] [] [] [] [] [] [] []]. }
  apply (match_run true 1 number_class); [by apply nonempty_length|done|done|]. by apply match_text.
Qed.

(** The zoom of a camera is found behind details without the letter z. *)
Lemma find_details details l : byte_of 122 ∉ details → find_all zoomDescription 0 (details ++ l) = find_all zoomDescription 0 l.
Proof.
  induction details as [|a details IH]; [done|]. intros Hz. cbn [app]. rewrite find_none; [apply IH; set_solver|].
  apply match_text_none, not_true_is_false. intros Ht. pose proof (is_text_lookup _ _ 0 Ht ltac:(cbn; lia)) as H0.
  cbn in H0. injection H0 as ->. apply Hz. by left.
Qed.

Lemma zoom_found details zoom : byte_of 122 ∉ details →
  match zoom with Some (low, gap, high, tail) => numeral low ∧ blank gap ∧ numeral high | None => True end →
  FindStringSubmatch zoomDescription (details ++ zoom_text zoom) =
  match zoom with Some (low, _, high, _) => Some [low; high] | None => None end.
Proof.
  intros Hd Hz. unfold FindStringSubmatch. rewrite find_details by done. destruct zoom as [[[[low gap] high] tail]|]; [|done].
  destruct Hz as (Hl & Hg & Hh). cbn [zoom_text]. unfold zoomDescription, zoom_text.
  by rewrite (find_found _ _ _ _ _ _ (match_zoom low gap high tail Hl Hg Hh)).
Qed.

Create HintDb device_info discriminated.
#[local] Hint Resolve quiet_app quiet_digits quiet_blank quiet_numeral quiet_size : device_info.
Ltac quiet_text := repeat apply quiet_app; solve [done | reflexivity | eauto with device_info].

Lemma quiet_zoom zoom :
  match zoom with Some (low, gap, high, tail) => numeral low ∧ blank gap ∧ numeral high ∧ quiet tail = true | None => True end →
  quiet (zoom_text zoom) = true.
Proof. destruct zoom as [[[[low gap] high] tail]|]; [|done]. intros (? & ? & ? & ?). unfold zoom_text. quiet_text. Qed.

Lemma zoom_line low gap high tail : numeral low → blank gap → byte_of 10 ∉ gap → numeral high → Forall (λ a, line_class a = true) tail →
  Forall (λ a, line_class a = true) (zoom_text (Some (low, gap, high, tail))).
Proof.
  intros [_ Hl] Hg Hn [_ Hh] Ht. assert (∀ a, number_class a = true → line_class a = true) as Hc.
  { intros a. by destruct a as [[] [] [] [] [] [] [] []]. }
  unfold zoom_text. repeat (apply Forall_app; split); try done; try (by repeat constructor);
    try (eapply Forall_impl; [eassumption|exact Hc]).
  apply Forall_forall. intros a Ha. unfold line_class. apply negb_true_iff, not_true_is_false. intros E.
  apply Hn. replace (byte_of 10) with a; [done|]. revert E. by destruct a as [[] [] [] [] [] [] [] []].
Qed.

Lemma quiet_facing facing : facing ∈ ["front"; "back"; "external"] → quiet (str_bytes facing) = true.
Proof.
  intros Hf. apply elem_of_cons in Hf as [->|Hf]; [done|]. apply elem_of_cons in Hf as [->|Hf]; [done|]. by apply list_elem_of_singleton in Hf as ->.
Qed.

Lemma display_scan r l : row_wf r → find_all displayDescription 0 (row_text r ++ l) =
  match r with
  | DisplayRow _ id _ width height _ => [[str_bytes (FormatUint id); str_bytes (FormatUint width); str_bytes (FormatUint height)]]
  | _ => []
  end ++ find_all displayDescription 0 l.
Proof.
  destruct r as [line|before id gap width height after|before id gap facing gap2 width height details zoom]; cbn [row_wf]; unfold row_text.
  - intros Hq. cbn [app]. apply (find_quiet "display-id="). by apply quiet_app.
  - intros (Hq & Ha & _ & _ & _ & Hg & Hb). rewrite <-!app_assoc. unfold size_text. rewrite <-!app_assoc.
    unfold displayDescription at 1. rewrite (find_quiet "display-id=") by done. fold displayDescription.
    unfold displayDescription at 1. rewrite (find_found _ _ _ _ _ _ (match_display id gap width height _ Hg Hb)).
    cbn [app]. f_equal. change (byte_of 10 :: l) with ([byte_of 10] ++ l). rewrite app_assoc. apply (find_quiet "display-id="). by apply quiet_app.
  - intros (Hq & Hi & _ & _ & _ & Hb & Hf & Hb2 & _ & _ & Hd & _ & _ & _ & Hz). rewrite <-2!(app_assoc before).
    unfold displayDescription at 1. rewrite (find_quiet "display-id=") by done. apply find_other; [done|done|].
    assert (quiet (zoom_text zoom) = true) by (apply quiet_zoom; destruct zoom as [[[[? ?] ?] ?]|]; naive_solver).
    change ("c"%char :: (?x ++ ?y) ++ ?z) with ((str_bytes "c" ++ x ++ y) ++ z).
    pose proof (quiet_facing _ Hf). quiet_text.
Qed.

Lemma camera_scan r l : row_wf r → find_all cameraDescription 0 (row_text r ++ l) =
  match r with
  | CameraRow _ id _ facing _ width height details zoom =>
      [[id; str_bytes facing; str_bytes (FormatUint width); str_bytes (FormatUint height); details ++ zoom_text zoom]]
  | _ => []
  end ++ find_all cameraDescription 0 l.
Proof.
  destruct r as [line|before id gap width height after|before id gap facing gap2 width height details zoom]; cbn [row_wf]; unfold row_text.
  - intros Hq. cbn [app]. apply (find_quiet "camera-id="). by apply quiet_app.
  - intros (Hq & Ha & _ & _ & _ & Hg & Hb). rewrite <-2!(app_assoc before).
    unfold cameraDescription at 1. rewrite (find_quiet "camera-id=") by done. apply find_other; [done|done|].
    change ("d"%char :: (?x ++ ?y) ++ ?z) with ((str_bytes "d" ++ x ++ y) ++ z). quiet_text.
  - intros (Hq & _ & Hne & Hi' & Hg & Hb & Hf & Hb2 & _ & _ & _ & Hl & _ & Hh & Hzoom). rewrite <-!app_assoc. unfold size_text. rewrite <-!app_assoc.
    unfold cameraDescription at 1. rewrite (find_quiet "camera-id=") by done. fold cameraDescription.
    assert (match details ++ zoom_text zoom with a :: _ => digit_class a = false | [] => True end) as Ht.
    { destruct details; [|done]. by destruct zoom as [[[[? ?] ?] ?]|]. }
    assert (Forall (λ a, line_class a = true) (details ++ zoom_text zoom)) as Hline.
    { apply Forall_app. split; [done|]. destruct zoom as [[[[low gap0] high] tail]|]; [|constructor].
      destruct Hzoom as (Hlow & Hgap0 & Hn & Hhigh & _ & Htail). by apply zoom_line. }
    rewrite (app_assoc details). cbn [app]. unfold cameraDescription at 1. rewrite (find_found _ _ _ _ _ _
      (match_camera id gap facing gap2 width height (details ++ zoom_text zoom) l Hne Hi' Hg Hb Hf Hb2 Ht Hline)).
    cbn [app]. f_equal.
Qed.

Lemma display_rows rows : Forall row_wf rows →
  map display_of (find_all displayDescription 0 (concat (map row_text rows))) = omap row_display rows.
Proof.
  induction 1 as [|r rows Hr Hrows IH]; [done|]. cbn [map concat omap list_omap]. rewrite display_scan, map_app, IH by done.
  destruct r as [line|before id gap width height after|]; [done| |done]. cbn [row_wf row_display map app] in *.
  destruct Hr as (_ & _ & H1 & H2 & H3 & _). unfold display_of, submatch. cbn [nth]. by rewrite !bytes_str_bytes, !Atoi_FormatUint.
Qed.
Lemma camera_rows rows : Forall row_wf rows →
  map camera_of (find_all cameraDescription 0 (concat (map row_text rows))) = omap row_camera rows.
Proof.
  induction 1 as [|r rows Hr Hrows IH]; [done|]. cbn [map concat omap list_omap]. rewrite camera_scan, map_app, IH by done.
  destruct r as [line|before id gap width height after|before id gap facing gap2 width height details zoom]; [done|done|].
  cbn [row_wf row_camera map app] in *. destruct Hr as (_ & _ & _ & _ & _ & _ & _ & _ & H1 & H2 & _ & _ & Hz & _ & Hzoom).
  unfold camera_of, submatch. cbn [nth]. rewrite zoom_found, !bytes_str_bytes, !Atoi_FormatUint; [|done..|].
  - by destruct zoom as [[[[low gap0] high] tail]|].
  - destruct zoom as [[[[low gap0] high] tail]|]; [|done]. naive_solver.
Qed.

(** A number that was read is in range. *)
Lemma parsed_digits_ge l : ∀ acc n, 0 ≤ acc → parse_digits acc l = Some n → 0 ≤ n.
Proof.
  induction l as [|a l IH]; intros acc n Ha; cbn; [by intros [= <-]|]. destruct (in_range a 48 57) eqn:Hr; [|done].
  apply in_range_iff in Hr. apply IH. lia.
Qed.
Lemma Atoi_digit a l : digit_class a = true →
  Atoi (bytes_str (a :: l)) = match parse_digits 0 (a :: l) with Some n => Z.min n max_int64 | None => 0 end.
Proof.
  intros Ha. unfold Atoi. change (bytes_str (a :: l)) with (String a (bytes_str l)). rewrite (ParseInt_digit a _ Ha).
  rewrite str_bytes_str. change (str_bytes (String a (bytes_str l))) with (a :: str_bytes (bytes_str l)). rewrite str_bytes_str.
  destruct (parse_digits 0 (a :: l)) as [n|] eqn:Hp.
  - apply parsed_digits_ge in Hp as Hn; [|lia]. destruct ((- 2 ^ 63 <=? n) && (n <=? max_int64)) eqn:Hb.
    + apply andb_true_iff in Hb as [_ Hb]. apply Z.leb_le in Hb. by rewrite Z.min_l.
    + assert (max_int64 < n) by (apply andb_false_iff in Hb as [Hb|Hb]; apply Z.leb_gt in Hb; lia).
      rewrite Z.min_r by lia. revert Ha Hp. by destruct a as [[] [] [] [] [] [] [] []]; intros Ha Hp; first [by vm_compute in Ha|rewrite bool_decide_eq_false_2 by done; rewrite Hp].
  - revert Ha Hp. by destruct a as [[] [] [] [] [] [] [] []]; intros Ha Hp; first [by vm_compute in Ha|rewrite bool_decide_eq_false_2 by done; rewrite Hp].
Qed.
Lemma Atoi_fits l : Forall (λ a, digit_class a = true) l → fits (Atoi (bytes_str l)).
Proof.
  unfold fits. destruct l as [|a l]; [intros _; by vm_compute|]. intros Hd. pose proof (Forall_inv Hd) as Ha. rewrite Atoi_digit by done.
  destruct (parse_digits 0 (a :: l)) as [n|] eqn:Hp; [apply parsed_digits_ge in Hp; [|done]|]; unfold max_int64; lia.
Qed.

Lemma display_typed l : Forall display_ok (map display_of (find_all displayDescription 0 l)).
Proof.
  apply Forall_map. pose proof (find_all_captures displayDescription l 0) as H. eapply Forall_impl; [exact H|]. clear H.
  intros caps Hc. cbn in Hc.
  inversion Hc as [|? ? ? ? H1 Hc1]; subst. inversion Hc1 as [|? ? ? ? H2 Hc2]; subst. inversion Hc2 as [|? ? ? ? H3 Hc3]; subst.
  destruct H1 as [_ H1], H2 as [_ H2], H3 as [_ H3]. do 3 eexists. split; [done|]. unfold submatch. cbn [nth]. by split_and!; apply Atoi_fits.
Qed.
Lemma camera_typed l : Forall camera_ok (map camera_of (find_all cameraDescription 0 l)).
Proof.
  apply Forall_map. pose proof (find_all_captures cameraDescription l 0) as H. eapply Forall_impl; [exact H|]. clear H.
  intros caps Hc. cbn in Hc.
  inversion Hc as [|? id ? ? H1 Hc1]; subst. inversion Hc1 as [|? ? ? ? H2 Hc2]; subst. inversion Hc2 as [|? ? ? ? H3 Hc3]; subst.
  inversion Hc3 as [|? ? ? ? H4 Hc4]; subst. destruct H1 as [H1 H1'], H3 as [_ H3], H4 as [_ H4]. do 5 eexists. split; [done|]. unfold submatch. cbn [nth]. split; [by destruct id; [cbn in H1; lia|]|].
  split; [|by split_and!; [|apply Atoi_fits..]]. rewrite str_bytes_str. eapply Forall_impl; [exact H1'|]. intros a. by apply negb_true_iff.
Qed.

(** ** Properties *)

(** C38: The description of a device is what its scrcpy server lists.  A listing of up to a
    MiB, in whatever pieces it is written, in which every display and camera has a row
    between other text is read back row by row: each number, each camera with its facing
    and its zoom range when it has one.  Whatever else is printed, every display and camera
    sent has numbers from 0 to the largest int, an id without spaces and one of the three
    facings; and camera and audio capture are offered from SDK 31 and 30 on. *)
Theorem device_described rows written properties :
  Forall row_wf rows → concat written = concat (map row_text rows) → blen (concat written) ≤ 2 ^ 20 →
  deviceInfo written properties !! "displays" = Some (VList (map VMap (omap row_display rows))) ∧
  deviceInfo written properties !! "cameras" = Some (VList (map VMap (omap row_camera rows))) ∧
  ∀ written properties, ∃ displays cameras offered (sdk := Atoi (properties "ro.build.version.sdk")),
    deviceInfo written properties !! "displays" = Some (VList (map VMap displays)) ∧ Forall display_ok displays ∧
    deviceInfo written properties !! "cameras" = Some (VList (map VMap cameras)) ∧ Forall camera_ok cameras ∧
    deviceInfo written properties !! "capabilities" = Some (VMap offered) ∧
    offered !! "camera_capture" = Some (VBool (31 <=? sdk)) ∧ offered !! "audio_capture" = Some (VBool (30 <=? sdk)).
Proof.
  intros Hrows Hw Hl.
  assert (boBuffer (bo_writes written (MkOutput [] probe_limit)) = concat (map row_text rows)) as Hb.
  { rewrite bo_writes_spec; [|by vm_compute|apply Nat.le_0_l]. cbn [app]. rewrite <-Hw. apply take_ge.
    change (if probe_limit =? 0 then DeviceIO.commandOutputLimit else probe_limit) with (2 ^ 20). unfold blen in Hl. lia. }
  split_and!.
  - rewrite <-(display_rows rows Hrows), <-Hb. reflexivity.
  - rewrite <-(camera_rows rows Hrows), <-Hb. reflexivity.
  - intros written' properties'. do 3 eexists. split_and!; [reflexivity|apply display_typed|reflexivity|apply camera_typed|reflexivity..].
Qed.

(** ** Witnesses *)

Module DeviceInfoWitness.
Definition rows : list row :=
  [Plain (str_bytes "[server] INFO: List of displays:");
   DisplayRow (str_bytes "    ") 0 (str_bytes "    ") 1440 3200 [];
   Plain (str_bytes "[server] INFO: List of cameras:");
   CameraRow (str_bytes "    ") (str_bytes "2") (str_bytes "    ") "back" (str_bytes " ") 3280 2464
     (str_bytes ", fps={15, 30}, ") (Some (str_bytes "0.6", str_bytes " ", str_bytes "10", str_bytes ")"));
   CameraRow [] (str_bytes "3") (str_bytes " ") "external" [] 640 480 (str_bytes ")") None].
Definition properties (name : string) : string := if bool_decide (name = "ro.build.version.sdk") then "30" else name.
Definition written : list bytes := map row_text rows.

(** The listing is written row by row. *)
Lemma device_described_witness :
  deviceInfo written properties !! "displays" = Some (VList (map VMap [display_value 0 1440 3200])) ∧
  deviceInfo written properties !! "cameras" = Some (VList (map VMap
    [camera_value "2" "back" 3280 2464 (Some (zoom_value "0.6", zoom_value "10")); camera_value "3" "external" 640 480 None])).
Proof.
  destruct (device_described rows written properties) as (Hd & Hc & _).
  - repeat constructor; unfold row_wf, numeral, blank, fits; split_and?; try done;
      try (by repeat constructor); try (by vm_compute); apply (bool_decide_unpack _); by vm_compute.
  - reflexivity.
  - by vm_compute.
  - split; [exact Hd|exact Hc].
Defined.
End DeviceInfoWitness.
