(* ===== verification/TaskDelivery.v ===== *)
(** * Tasks from the browser to the device

    The life of a task across the connection of the two sides: the file it carries is
    uploaded to the server, the agent claims the task, downloads the file, installs it or
    stores it, and reports; the server records the report. *)

From S2P Require Import Prelude GoBase GoStrings GoFloat Model Store Config LoginLimiter Hub Auth Grants Server Routing Persist Json Http.
From S2P Require Import RestAccounts RestDevices RestDeploy RestShares RestTasks Artifacts Api ApiAccess ApiAccounts ApiSession ApiFiles.
From S2P Require Assets Tasks DeviceIO AgentTasks Identity Agent AgentServer.

(** ** Reports *)

Section reports.
Context `{Crypto} {J : JWT} {G : GrantJSON} {C : Codec}.

(** The record of one device in a task. *)
Definition recorded (m : MemoryStore) (t d : string) (status : TaskStatus) (res : string) : Prop :=
  ∃ task dev, ms_tasks m !! t = Some task ∧ tDevices task !! d = Some dev ∧ tdStatus dev = status ∧ tdResult dev = res.

Lemma recorded_status m t d status res : recorded m t d status res → Tasks.device_status m t d = Some status.
Proof. intros (task & dev & Ht & Hd & Hs & _). unfold Tasks.device_status. by rewrite Ht, Hd, <-Hs. Qed.

(** A report on a task the server knows is recorded. *)
Lemma report_recorded now d m status res task (s : Server) :
  ms_tasks (svStore s) !! stringField m "task_id" = Some task → is_Some (tDevices task !! d) →
  recorded (svStore (report_status now d m status res s)) (stringField m "task_id") d status res.
Proof.
  intros Ht [dev Hd]. unfold report_status, Tasks.SetTaskStatus. rewrite Ht, Hd.
  set (dev' := set_tdUpdatedAt _ _). set (task' := Tasks.put_device d dev' task).
  destruct (same_access_broadcastTask task' (with_store (λ _, set_ms_tasks (insert (stringField m "task_id") task') (svStore s)) s))
    as (_ & _ & ->).
  exists task', dev'. split_and!; [apply lookup_insert_eq|apply lookup_insert_eq|done|done].
Qed.

(** The messages of an agent that concern tasks. *)
Lemma handle_started saved now d m s : stringField m "message_type" = "task_started" →
  handleAgentMessage saved now d m s = report_status now d m TaskRunning "" s.
Proof. intros Ht. unfold handleAgentMessage. by rewrite Ht. Qed.
Lemma handle_result saved now d m s : stringField m "message_type" = "task_result" →
  handleAgentMessage saved now d m s =
    report_status now d m (if decide (stringField m "status" = "success") then TaskSuccess else TaskFailed) (stringField m "result") s.
Proof. intros Ht. unfold handleAgentMessage. by rewrite Ht. Qed.

(** A report is written while other requests are served. *)
Lemma broadcastTask_out task s x : x ∈ hOut (svHub s) → x ∈ hOut (svHub (broadcastTask task s)).
Proof.
  intros Hx. unfold broadcastTask, PublishBroadcast, publish, broadcastMessage, broadcast. cbn. rewrite write_all_out.
  apply elem_of_app. by left.
Qed.
Lemma send_agent_out d m c s : hAgents (svHub s) !! d = Some c → c ∉ hDown (svHub s) →
  (c, FText (MMsg m)) ∈ hOut (svHub (send_agent_ d m s)).
Proof.
  intros Hc Hd. unfold send_agent_, send_agent, sendAgent, Hub.writeJSON, Hub.write. rewrite Hc, decide_False by done. cbn.
  apply elem_of_app. right. by left.
Qed.
End reports.

(** ** Delivery *)

Section delivery.
Context `{Crypto} {J : JWT} {N : NetIP} {C : Codec} {G : GrantJSON} {U : URLs} {E : Endpoints}.
Context (stat : string → bool) (opened embedded dist : string → option bytes) (build_version build_revision : string).
Context {D : DeviceIO.deviceFiles} {L : DeviceIO.deviceFilesLaws D}.
Context (temp : string → string → DeviceIO.fs → string) (parse_url : string → option AgentTasks.URL).
Context (fetch : string → result AgentTasks.download).
Context (execute : list string → DeviceIO.world → AgentTasks.execution * DeviceIO.world) (adb : option string).
Context (error_text : error → string).
Context (overflow : Z) (overflow32 overflow_int : float64 → Z) (bitrates : list string) (numbers : list (string * Z)).
Context (ice : option value → option (list string)) (config : Identity.agentConfig).

Abbreviation handle := (Agent.handleMessage overflow overflow32 overflow_int bitrates numbers error_text ice config).
Abbreviation serve_ e := (serve stat opened embedded dist build_version build_revision e).
Abbreviation serve_all_ := (serve_all stat opened embedded dist build_version build_revision).

(** What the HTTP client of an agent sees of a response. *)
Definition downloaded (response : Response) : result AgentTasks.download :=
  Ok (AgentTasks.MkDownload (rsStatus response) (match rsContent response with CFile data => data | _ => [] end) None).

(** The claim an agent sends for a task, and a task in the state it is claimed in. *)
Definition claim_message (t device : string) : vmap :=
  {[ "message_type" := VStr "task_claim"; "task_id" := VStr t; "device_id" := VStr device ]}.
Definition claimable (now : Time) (t d : string) (task : Task) (m : MemoryStore) : Prop :=
  ms_tasks m !! t = Some task ∧ tID task = t ∧ (tExpiresAt task = 0 ∨ now ≤ tExpiresAt task) ∧
  ∃ dev, tDevices task !! d = Some dev ∧ tdStatus dev = TaskQueued.

Lemma claim_ok now t d task m : claimable now t d task m → ∃ task' m',
  Tasks.ClaimTask now t d m = (Ok task', m') ∧ tID task' = t ∧ tType task' = tType task ∧ tAssetID task' = tAssetID task ∧
  tDestPath task' = tDestPath task.
Proof.
  intros (Ht & Hid & He & dev & Hd & Hq). unfold Tasks.ClaimTask. rewrite Ht, Hd.
  rewrite (proj2 (Tasks.queued_iff dev) Hq). cbn [negb].
  assert (negb (IsZero (tExpiresAt task)) && After now (tExpiresAt task) = false) as ->.
  { unfold IsZero, After. destruct He as [->|He]; [done|]. apply andb_false_iff. right. by apply Z.ltb_ge. }
  eexists _, _. by split_and!.
Qed.

(** The body of the answer is the file, if the server keeps no file an agent would cut. *)
Lemma verified_data task data response :
  fetch (stringField task "download_url") = downloaded response →
  rsContent response = CFile data → blen data ≤ AgentTasks.asset_limit →
  ∀ x, AgentTasks.verified parse_url fetch task x → x = data.
Proof.
  intros Hf Hc Hlen x (_ & _ & y & Hy & _ & _ & ->). rewrite Hf in Hy. unfold downloaded in Hy. rewrite Hc in Hy.
  injection Hy as <-. unfold AgentTasks.asset_body. cbn [AgentTasks.dlBody]. by rewrite (proj2 (Z.leb_le _ _) Hlen).
Qed.

(** The task and its reports, from the state in which the server dispatched it. *)
Lemma executed_recorded (data : bytes) (s4 : Api) task message nano w l3 saved now' now'' d :
  let t := tID task in
  let dest := stringField message "dest_path" in
  (∀ dir pattern h, h !! temp dir pattern h = None) →
  (∀ dir h, AgentTasks.asset_temp (temp dir "scrcpycat-asset-*" h) = true) →
  (adb = None → ∀ w, DeviceIO.dv_fs w = DeviceIO.wHost w) →
  AgentTasks.asset_temp dest = false → DeviceIO.upload_temp dest = false →
  t ≠ "" → stringField message "task_id" = t → has_task t task s4 → is_Some (tDevices task !! d) →
  Forall (λ er, other_task t (fst er)) l3 →
  (∀ x, AgentTasks.verified parse_url fetch message x → x = data) →
  let '(messages, w', ran) := AgentTasks.executeTask temp parse_url fetch execute adb error_text
                                (Identity.acDeviceID config) nano message w in
  ∃ started result, messages = [started; result] ∧
    let s5 := serve_all_ l3 (on_server (handleAgentMessage saved now' d started) s4) in
    let s6 := on_server (handleAgentMessage saved now'' d result) s5 in
    recorded (store_of s5) t d TaskRunning "" ∧
    (∀ path files, (["pm"; "install"; "-r"; path], files) ∈ ran → DeviceIO.holds files path data) ∧
    (recorded (store_of s6) t d TaskSuccess (stringField result "result") ∧
       (stringField message "type" = "push_file" → DeviceIO.holds (DeviceIO.dv_fs w') dest data) ∨
     recorded (store_of s6) t d TaskFailed (stringField result "result") ∧
       (stringField message "type" = "push_file" →
        DeviceIO.dv_fs w' !! dest = DeviceIO.dv_fs w !! dest ∨ DeviceIO.holds (DeviceIO.dv_fs w') dest data)).
Proof.
  intros t dest Hfresh Hasset Hlocal Hd1 Hd2 Hne Hid Htask Hdev Hl3 Hdata. unfold AgentTasks.executeTask.
  rewrite Hid, bool_decide_false by done.
  pose proof (AgentTasks.runTask_verified temp Hfresh Hasset parse_url fetch execute adb Hlocal message nano w Hd1 Hd2) as Hr.
  destruct (AgentTasks.runTask _ _ _ _ _ _ _ _) as [[[res err] w'] ran]. destruct Hr as [Hi Hp].
  eexists _, _. split; [reflexivity|]. set (started := {[ "message_type" := _; "task_id" := _; "device_id" := _ ]}).
  set (result := {[ "message_type" := _; "task_id" := _; "device_id" := _; "status" := _; "result" := _ ]}).
  set (s5 := serve_all_ l3 _). set (s6 := on_server (handleAgentMessage saved now'' d result) s5).
  assert (recorded (svStore (handleAgentMessage saved now' d started (apServer s4))) t d TaskRunning "") as (task5 & dev5 & Ht5 & Hd5 & Hs5 & Hr5).
  { rewrite handle_started by done. by apply (report_recorded now' d started TaskRunning "" task). }
  assert (has_task t task5 s5) as H5 by (by apply (requests_keep_task stat opened embedded dist build_version build_revision
    (svConfig (apServer s4)) (MkAsset "" "" "" "" 0 "" 0) data t task5)).
  split; [by exists task5, dev5|]. split.
  { intros path files Hin. destruct (Hi path files Hin) as (x & Hx & Hh). by rewrite <-(Hdata x Hx). }
  assert (∀ status, status = (if decide (stringField result "status" = "success") then TaskSuccess else TaskFailed) →
    recorded (store_of s6) t d status (stringField result "result")) as H6.
  { intros status ->. unfold s6, store_of. cbn [apServer on_server]. rewrite handle_result by done.
    apply (report_recorded now'' d result _ _ task5); [done|by exists dev5]. }
  destruct err as [x|].
  - right. split; [by apply H6|]. intros Hpush. destruct (Hp Hpush) as [[?|(y & Hy & Hh)] _]; [by left|right].
    by rewrite <-(Hdata y Hy).
  - left. split; [by apply H6|]. intros Hpush. destruct (Hp Hpush) as [_ Hok]. destruct (Hok eq_refl) as (y & Hy & Hh).
    by rewrite <-(Hdata y Hy).
Qed.

(** ** Properties *)

(** C14: A file travels from a browser to the device, and the server's record of it is true.
    A file is uploaded; a task that pushes or installs it is queued for a device.  Told that
    the task is there, the agent of the device claims it, and the dispatch it is sent starts
    it; with any requests served in between, what it downloads from the link within fifteen
    minutes is the file.  Whatever fails on the agent, every package it installs is the file
    that was uploaded; the server records that the task runs and then that it succeeded or
    failed, with the text of the agent; and a push that is recorded as a success left exactly
    the uploaded bytes at the destination, one that failed left these or what was there. *)
Theorem task_delivered `{!GrantJSONLaws G} e1 r1 s0 asset l1 saved now d c task an a an' a' l2 e r nano w now' l3 now'' :
  let s1 := snd (serve_ e1 r1 s0) in
  let s2 := serve_all_ l1 s1 in
  let t := tID task in
  let dest := tDestPath task in
  let claim := claim_message t (Identity.acDeviceID config) in
  let s3 := on_server (handleAgentMessage saved now d claim) s2 in
  let s4 := serve_all_ l2 s3 in
  let grant := issueDownloadGrant now (cfJWTSecret (svConfig (apServer s0))) (asID asset) t d in
  (∀ dir pattern h, h !! temp dir pattern h = None) →
  (∀ dir h, AgentTasks.asset_temp (temp dir "scrcpycat-asset-*" h) = true) →
  (adb = None → ∀ w, DeviceIO.dv_fs w = DeviceIO.wHost w) →
  AgentTasks.asset_temp dest = false → DeviceIO.upload_temp dest = false →
  cfMaxAssetBytes (svConfig (apServer s0)) ≤ AgentTasks.asset_limit →
  rqMethod r1 = "POST" → rqPath r1 = "/upload" → length (evRand e1 0%nat) = 24%nat →
  rsContent (fst (serve_ e1 r1 s0)) = CAsset asset →
  Forall (λ er, other_file asset (fst er)) (l1 ++ l2) → Forall (λ er, other_task t (fst er)) (l2 ++ l3) →
  claimable now t d task (store_of s2) → t ≠ "" → tAssetID task = asID asset →
  hAgents (hub_of s2) !! d = Some c → c ∉ hDown (hub_of s2) →
  rqMethod r = "GET" → rqPath r = "/downloads/" +:+ asName asset → Query r "grant" = grant →
  Unix (evNow e) ≤ Unix (now + 15 * Minute) →
  ∃ data message, rqContent r1 = Ok data ∧
    (handle an {[ "message_type" := VStr "task_available"; "task_id" := VStr t; "device_id" := VStr d ]} a).1.2 = [Agent.ASend claim] ∧
    (c, FText (MMsg message)) ∈ hOut (hub_of s3) ∧ (handle an' message a').1.2 = [Agent.ATask message] ∧
    stringField message "download_url" = TrimRight (cfPublicURL (svConfig (apServer s0))) "/" +:+ "/downloads/" +:+
      PathEscape (asName asset) +:+ "?grant=" +:+ QueryEscape grant ∧
    (fetch (stringField message "download_url") = downloaded (fst (serve_ e r s4)) →
     let '(messages, w', ran) := AgentTasks.executeTask temp parse_url fetch execute adb error_text
                                   (Identity.acDeviceID config) nano message w in
     ∃ started result, messages = [started; result] ∧
       let s5 := serve_all_ l3 (on_server (handleAgentMessage saved now' d started) s4) in
       let s6 := on_server (handleAgentMessage saved now'' d result) s5 in
       recorded (store_of s5) t d TaskRunning "" ∧
       (∀ path files, (["pm"; "install"; "-r"; path], files) ∈ ran → DeviceIO.holds files path data) ∧
       (recorded (store_of s6) t d TaskSuccess (stringField result "result") ∧
          (tType task = "push_file" → DeviceIO.holds (DeviceIO.dv_fs w') dest data) ∨
        recorded (store_of s6) t d TaskFailed (stringField result "result") ∧
          (tType task = "push_file" →
           DeviceIO.dv_fs w' !! dest = DeviceIO.dv_fs w !! dest ∨ DeviceIO.holds (DeviceIO.dv_fs w') dest data))).
Proof.
  intros s1 s2 t dest claim s3 s4 grant Hfresh Hasset Hlocal Hd1 Hd2 Hmax Hm1 Hp1 Hlen Hup [Hl1 Hl2]%Forall_app [Hlt2 Hlt3]%Forall_app
    Hclaim Hne Hta Hc Hdown Hm Hp Hgrant Hnow.
  destruct (serve_upload stat opened embedded dist build_version build_revision e1 r1 s0 asset Hm1 Hp1 Hlen Hup)
    as (data & Hdata & Hid & Hst1 & Hpath & Hbase & Hsha & Hsize & Hlim).
  set (cfg := svConfig (apServer s0)) in *.
  assert (stored cfg asset data s2) as Hst2 by (by apply (requests_keep_file _ _ _ _ _ _ cfg asset data)).
  assert (asPath asset = asset_path (apServer s2) (asID asset)) as Hpath2.
  { rewrite Hpath. apply asset_path_config. symmetry. apply Hst2. }
  destruct (claim_ok now t d task _ Hclaim) as (task' & m & Hok & Hid' & Hty & Has & Hde).
  destruct (claimed_download stat opened embedded dist build_version build_revision cfg asset data s2 now d claim task' m l2 e r)
    as (H3 & Ht4 & Hin & Hs & Hco & _ & _); try done; [by rewrite Has|].
  set (message := dispatch_message now d task' (Some asset) (apServer s2)) in H3.
  assert (handleAgentMessage saved now d claim (apServer s2) = handle_claim now d claim (apServer s2)) as Hh by done.
  assert (s3 = on_server (handle_claim now d claim) s2) as E3 by (unfold s3, on_server; by rewrite Hh).
  exists data, message. split_and!; [done|done| |done| |].
  - rewrite E3. unfold hub_of. rewrite H3. by apply broadcastTask_out, send_agent_out.
  - change (stringField message "download_url" = _) with (stringField message "download_url" = TrimRight (cfPublicURL cfg) "/" +:+ "/downloads/" +:+
      PathEscape (asName asset) +:+ "?grant=" +:+ QueryEscape grant).
    unfold message, dispatch_message, stringField. rewrite lookup_insert_eq, (proj1 Hst2), Hid'. done.
  - intros Hfetch. assert (stringField message "type" = tType task ∧ stringField message "dest_path" = dest) as [<- Hdest] by done.
    rewrite <-Hdest. rewrite <-Hdest in Hd1, Hd2. rewrite <-Hid' in Hne |- *. rewrite <-E3 in Ht4, Hco.
    apply (executed_recorded data s4 task' message); try done.
    + unfold s4. by rewrite Hid', E3.
    + by destruct (tDevices task' !! d).
    + by rewrite Hid'.
    + apply (verified_data message data (fst (serve_ e r s4))); [done| |lia]. unfold s4. by rewrite E3.
Qed.
End delivery.

(** ** Witness *)

Module TaskDeliveryWitness.
Import ApiWitness ApiFilesWitness.
Import AgentTasks.AgentTasksWitness.
#[local] Existing Instances device device_laws.

(** A server with one agent, and a task that pushes the file of [ApiFilesWitness] to it. *)
Definition linked : Api := on_server (with_hub (λ h, snd (setAgent "phone" 7%nat h))) api1.
Definition push_file : Request :=
  request "POST" "/api/tasks" root_token
    (body [("type", VStr "push_file"); ("targets", VList [VStr "phone"]); ("payload", VStr "/downloads/a.apk");
           ("dest_path", VStr "/data/a.apk")]).
Definition created : list (env * Request) := [(at_ (4 * Second) "g", push_file)].
Abbreviation serve1 := (serve (λ _, true) (λ _, None) (λ _, None) (λ _, None) "1.0" "abc").
Abbreviation serve_all1 := (serve_all (λ _, true) (λ _, None) (λ _, None) (λ _, None) "1.0" "abc").
Abbreviation before := (serve_all1 created (snd (serve1 e1 put linked))).
Definition id : string := randomID (repeat "g"%char 24).
Definition queued : Task := default (MkTask "" "" "" "" "" "" 0 0 ∅) (ms_tasks (store_of before) !! id).
Abbreviation claimed :=
  (on_server (handleAgentMessage true (5 * Second) "phone" (claim_message (tID queued) (Identity.acDeviceID Agent.AgentWitness.config))) before).

(** The HTTP client of the agent asks this server. *)
Definition web (url : string) : result AgentTasks.download := downloaded (fst (serve1 (at_ (6 * Second) "h") get (serve_all1 [] claimed))).

Lemma queued_claimable : claimable (5 * Second) (tID queued) "phone" queued (store_of before).
Proof.
  split_and!; [by vm_compute|by vm_compute|right; by vm_compute|].
  eexists. split; vm_compute; reflexivity.
Qed.

Definition dispatched : vmap :=
  match hOut (hub_of claimed) with [_; (_, FText (MMsg m))] => m | _ => ∅ end.
Definition announced : vmap :=
  {[ "message_type" := VStr "task_available"; "task_id" := VStr id; "device_id" := VStr "phone" ]}.
Lemma written : hOut (hub_of claimed) = [(7%nat, FText (MMsg announced)); (7%nat, FText (MMsg dispatched))].
Proof. by vm_compute. Qed.
Lemma one_of_two (c : sock) (m x y : vmap) :
  (c, FText (MMsg m)) ∈ [(c, FText (MMsg x)); (c, FText (MMsg y))] → m = x ∨ m = y.
Proof. intros [[= ->]|[= ->]%list_elem_of_singleton]%elem_of_cons; auto. Qed.
Definition executed := AgentTasks.executeTask DeviceIO.DeviceIOWitness.toy_temp parse web run None (λ _, "error")
  "phone" 0 dispatched empty_world.

Lemma task_delivered_witness :
  DeviceIO.holds (DeviceIO.dv_fs executed.1.2) "/data/a.apk" content.
Proof.
  destruct (task_delivered (λ _, true) (λ _, None) (λ _, None) (λ _, None) "1.0" "abc" (D := device) (L := device_laws)
    DeviceIO.DeviceIOWitness.toy_temp parse web run None (λ _, "error") 0 (λ _, 0) (λ _, 0) MediaOptions.bitrate_keys
    MediaOptions.numeric (λ _, Some []) Agent.AgentWitness.config e1 put linked asset created true (5 * Second) "phone" 7%nat queued
    Agent.AgentWitness.answers Agent.AgentWitness.start Agent.AgentWitness.answers Agent.AgentWitness.start
    [] (at_ (6 * Second) "h") get 0 empty_world (7 * Second) [] (8 * Second)) as (data & message & Hdata & _ & Hout & Htask & _ & Hrun).
  - intros. apply DeviceIO.DeviceIOWitness.long_name_fresh.
  - intros. apply toy_temp_asset.
  - done.
  - by vm_compute.
  - by vm_compute.
  - by vm_compute.
  - done.
  - done.
  - done.
  - by vm_compute.
  - apply Forall_cons_2; [|apply Forall_nil_2]. split; vm_compute; discriminate.
  - apply Forall_nil_2.
  - exact queued_claimable.
  - by vm_compute.
  - by vm_compute.
  - by vm_compute.
  - apply (bool_decide_unpack (7%nat ∉ hDown (hub_of before))). by vm_compute.
  - done.
  - by vm_compute.
  - by vm_compute.
  - by vm_compute.
  - injection Hdata as <-. rewrite written in Hout.
    apply one_of_two in Hout as [->| ->]; [vm_compute in Htask; discriminate Htask|].
    specialize (Hrun eq_refl). change (AgentTasks.executeTask _ _ _ _ _ _ _ _ _ _) with executed in Hrun.
    rewrite (surjective_pairing executed), (surjective_pairing executed.1) in Hrun.
    destruct Hrun as (started & result & Hm & _ & _ & [[_ Hok]|[Hbad _]]); [apply Hok; by vm_compute|].
    assert (started = nth 0 executed.1.1 ∅) as -> by (by rewrite Hm).
    assert (result = nth 1 executed.1.1 ∅) as -> by (by rewrite Hm).
    apply recorded_status in Hbad. vm_compute in Hbad. discriminate Hbad.
Defined.
End TaskDeliveryWitness.
